(* ===== verification/_CoqProject ===== *)
-Q . S2P
Prelude.v
CMem.v
Crc32.v
Descriptor.v
SectionBuf.v
Section.v
EntryTable.v
CountedTable.v
MpegSections.v
DvbSections.v
AtscText.v
Layout.v
MpegDescriptors.v
DvbDescriptors.v
AtscDescriptors.v
DescriptorSafety.v
DescriptorWalk.v
DescriptorLists.v
AtscSections.v
TableSafety.v
AtscHuffman.v
TransportPacket.v
Asn1.v
Io.v
En50221Transport.v
En50221Safety.v
En50221Exchange.v
En50221Session.v
En50221SessionSafety.v
En50221SessionExchange.v
En50221App.v
En50221Resources.v
En50221Fragments.v
En50221Lowspeed.v
En50221LowspeedExchange.v
En50221Mmi.v
En50221MmiExchange.v
En50221CaPmt.v
En50221CaPmtExtract.v
En50221CaPmtFormat.v
En50221CaPmtCorrect.v
SendQueue.v
CText.v
CFloat.v
DvbTypes.v
DvbTypesCorrect.v
DvbCa.v
En50221Stdcam.v
En50221StdcamCorrect.v
En50221StdcamServe.v
Frontend.v
FrontendCorrect.v
DvbSec.v
DvbSecCommand.v
DvbSecCorrect.v
DvbSecText.v
DvbSecCfg.v
DvbSecCfgCorrect.v
DvbCfg.v
DvbCfgZapchannel.v
DvbCfgScanfile.v
Hamming.v
TeletextLang.v
TeletextCache.v
TeletextCacheCorrect.v
Teletext.v
TeletextCorrect.v
Esg.v
EsgCorrect.v
EsgContainer.v
Scan.v
ScanParse.v
ScanRead.v
ScanTune.v
ScanDump.v
ScanFilterCorrect.v
ScanReadCorrect.v
ScanTuneCorrect.v
ScanServices.v
ScanServicesFound.v
