(* ===== verification/Prelude.v ===== *)
(** * Verification of the dvb-apps libraries

    The repository holds the libraries and programs of the LinuxTV project for digital television: the
    parsing of the tables and descriptors of MPEG, DVB and ATSC (libucsi), the access to tuners and other
    devices (libdvbapi), the control of the equipment of a dish (libdvbsec), the files of channels and
    transponders (libdvbcfg), the protocols of the common interface for conditional access modules
    (libdvben50221), the electronic service guide (libesg), the teletext decoder of the viewer alevt, the
    scanner for channels (util/scan), and other command line programs.  This library models that code function by function and proves what makes it
    correct.

    ** How the parts interact

    - Transport packets carry the fragments of sections; [section_buf] puts the sections together, the
      codec of [struct section] checks the length and the CRC, the codec of the table checks the structure
      and swaps the bytes in place, and iterators walk over entries and descriptors, whose own codecs swap
      their fields.  (TransportPacket, SectionBuf, Section, the files of sections and of
      descriptors)
    - The tuner is asked by the kernel's [ioctl]s.  For a satellite the switches, the voltage and the tone
      of the dish are set before, as the configuration of the dish says.  (Frontend, DvbSec and the files that extend it)
    - A conditional access module speaks to the host over a device of bytes.  Each layer is the callback of
      the one below: the transport layer hands the data of a connection to the session layer, which hands
      the APDUs of a session to a resource, which calls the application.  A layer above may call the layers
      below from its callback.  The standard CAM is the layer above that most programs use.  The CA PMT,
      formatted from a received program map, tells the module what to descramble.  (The files En50221)
    - Teletext packets, protected by Hamming codes, are assembled to pages, which go through the character
      sets and the enhancements into a cache.  (Hamming and the files Teletext)
    - The scanner tunes to one transponder after the other, lets the demultiplexer filter the sections of the
      tables, collects the services and further transponders that these name, and prints the
      services.  It has parsers of its own.  (The files Scan)

    ** Conventions of the model

    - Integers are [Z].  What C reduces to a width is reduced where C does ([u8], [u16], [u32], [u64]
      below), and signed arithmetic that could overflow has the bounds in its theorems.  The host is
      little-endian, [char] is signed, [int] has 32 bits.
    - A buffer that is changed in place is a list of bytes in the state of the monad [M] of CMem; a buffer that is
      only read is an argument of a function with a result of type [res].  Each access outside the buffer is
      the explicit outcome [Fault OutOfBounds], so safety theorems say that no input has it.  A pointer into
      a buffer is an offset, [None] is NULL.
    - The code of the common interface runs in the monad [IO S] of Io: the program state [S], the number of
      system calls made, the log of what was sent and called.  What the operating system, the driver and
      the module answer is a parameter ([env], [ca_driver], [fe_env], [ci_stack], [scan_env]): a function of the
      number of the call, with no assumption, unless a theorem names one.
    - Callbacks and the layers they come from are parameters.  Where a callback may call the component
      again, the component's state is part of the program state, reached through a class
      ([HasLowspeed], [HasMmi], [HasLlci]) with its laws ([LowspeedLaws], [MmiLaws], [LlciLaws]).
    - A loop whose recursion is not structural has fuel.  The fuel is computed from the input (the length of
      the buffer, the number of messages), and running out of it is a result different from any the
      code has, ([Fault], [None]); the theorems give a result on all inputs they cover, so they show
      that it is enough.  Loops that end for no fuel on some input are findings with such an input.
    - The outcome [Exited] is a check that the program makes of its own state and that fails.
    - Floating point is SpecFloat with the 24 and 53 bits of [float] and [double].

    ** The files

    Foundations:
    - this file: integers at their width, lists indexed by integers, bits, and their lemmas and tactics;
    - CMem: the monad of buffers, [bswap16] to [bswap64] of endianops.h, rules for safety;
    - Layout: packed structures with bit-fields; Descriptor: descriptor.h;
    - CText: characters, strings and numbers of the C library; CFloat: floating point;
    - Io: the monad of effects with its rules, dvbmisc.h and the reads and writes of dvbca.c.

    libucsi:
    - Crc32 (crc32.c), SectionBuf (section_buf.c), Section (section.h), TransportPacket
      (transport_packet.c);
    - EntryTable and CountedTable: what is common to tables with entries and descriptor loops, against the
      class [EntryFormat] that MpegSections, DvbSections and AtscSections instantiate for the codecs
      and iterators of every table; TableSafety: all of them together;
    - MpegDescriptors, DvbDescriptors, AtscDescriptors: every descriptor; DescriptorSafety,
      DescriptorWalk, DescriptorLists: safety, iteration and functional correctness of them;
    - AtscText (types.c of atsc), AtscHuffman (atsc_text.c), DvbTypes and DvbTypesCorrect (types.c of dvb).

    libdvben50221:
    - Asn1 (asn_1.c), En50221Transport (en50221_transport.c) with SendQueue for the linked list of its messages,
      En50221Session (en50221_session.c);
    - En50221Safety and En50221SessionSafety: invariants and state machines of the two layers,
      En50221Exchange and En50221SessionExchange: what arrives is what was sent;
    - En50221App (en50221_app_ai, rm, ca, auth, dvb, datetime, epg, teletext and smartcard .c),
      En50221Resources (their properties), En50221Fragments (shared), En50221Lowspeed, En50221LowspeedExchange
      (en50221_app_lowspeed.c), En50221Mmi, En50221MmiExchange (en50221_app_mmi.c);
    - En50221CaPmt, En50221CaPmtExtract, En50221CaPmtFormat, En50221CaPmtCorrect
      ([en50221_ca_format_pmt] of en50221_app_ca.c);
    - En50221Stdcam (en50221_stdcam.c, _llci.c, _hlci.c and what en50221_app_datetime.c sends), En50221StdcamCorrect, En50221StdcamServe.

    Devices and their configuration:
    - Frontend and FrontendCorrect (libdvbapi/dvbfe.c), DvbCa (libdvbapi/dvbca.c);
    - DvbSec, DvbSecCommand, DvbSecCorrect, DvbSecText (libdvbsec/dvbsec_api.c), DvbSecCfg and
      DvbSecCfgCorrect (libdvbsec/dvbsec_cfg.c);
    - DvbCfg, DvbCfgZapchannel, DvbCfgScanfile (libdvbcfg).

    util/scan: Scan (the data, the search for transponders and services, descriptors, filters), ScanParse (character
    sets, the tables), ScanRead (reading sections), ScanTune (tuning, with lnb.c
    and diseqc.c), ScanDump (the lists of services, with dump-zap.c and dump-vdr.c, and how libdvbcfg reads them);
    ScanFilterCorrect, ScanReadCorrect, ScanTuneCorrect; ScanServices and ScanServicesFound (what the tables do to the
    list of services, and what the list is in the end).

    libesg: Esg (every decoder), EsgCorrect, EsgContainer (what was encoded is decoded).

    alevt: Hamming (hamm.c), TeletextLang (lang.c), TeletextCache and TeletextCacheCorrect (cache.c),
    Teletext and TeletextCorrect (vbi.c).

    ** What the theorems show

    - Safety and type invariants: no descriptor codec leaves its buffer, except four with an input that makes
      them ([descriptor_codecs_safe]), and no table codec leaves a section of at least 9 bytes, except
      those of INT and DCCSCT ([table_codecs_safe]); the reassembly buffer stays well formed
      ([section_buf_payload_safe]).  Any sequence of calls on the layers of the common interface and on
      the standard CAM runs without a fault, whatever the module sends but an empty T_DATA_MORE, with
      callbacks that keep the invariants ([transport_calls_safe], [session_calls_safe],
      [stdcam_calls_safe]); the resources but MMI read nothing outside a message, but for one kind of
      reply of conditional access ([resource_messages_safe]).
    - State machines: every single write of the transport or the session layer moves each connection or
      session by at most one transition of the standard ([transport_state_machine],
      [session_state_machine]): the theorems run the layers on a state that records all its versions, and
      compare each with the next.  The continuity counter ([continuity_check_refines]); the
      sections of a table ([psi_table_collects], [psi_table_completes]).
    - The scanner: its lists of filters stay consistent on any input, so that the checks it makes never fail
      ([scan_lists_consistent]), and the scan of a transponder ends if filters can be started and the
      clock goes on ([scan_tp_ends]).  Whatever the order of PAT and SDT, and with one PMT for each program behind
      its entry there, one service is found for each program, with what the tables say of it
      ([services_found]).  The list that is printed for szap is read back by libdvbcfg as channels
      ([zap_list_read], which names what such a line does not keep).
    - What is sent arrives, layer by layer: sections with their CRC, sections in packets, values of the adaptation
      field, TPDUs, APDUs, the messages of the resources whatever their reserved bits, fragments of MMI and low
      speed communication, the CA PMT from the received table to the module, a module served by the
      standard CAM.
    - What is written is read back: channels, transponders with comments between them, configurations of
      dishes, those commands in texts that work as documented, tuning parameters, dates where the local time
      is UTC, containers of the service guide.  A frontend that is to lock is waited for until the
      timeout, up to the microseconds that the code loses ([set_waits_for_lock]).
    - Refinement: the linked queue is a list, the hashed cache is one list of pages, the reassembly of
      fragments is a list of complete messages.
    - Codes and algorithms against their definitions: the CRC against division bit by bit, and the bursts it
      detects; the Hamming codes and the errors they correct; the angles sent to a rotator; the band and the
      switch positions a dish is set to.
    - Inputs on which the code does what it should not are lemmas next to the code, named in the
      findings.

    ** Not modelled

    - Mutexes: an operation is a sequence of steps of one thread.  Freeing memory is modelled where it
      can go wrong (SendQueue, Esg); elsewhere it has no state to change.  Allocation succeeds unless
      the code checks it.
    - dvbdemux.c, dvbnet.c, dvbaudio.c and dvbvideo.c fill a structure and call one [ioctl] each; so do
      opening, closing and polling of devices in dvbfe.c.  There is no behaviour besides the kernel's.
    - The user interface of alevt (X11 windows, fonts, export) and its lists of clients and devices.
    - Of the scanner the parsing of options and the messages to the standard error output.
    - The other command line programs (dvbscan, atsc_epg, szap and its variants, gnutv, femon, zap, dvbnet, dvbtraffic,
      dvbdate and others): parsing of options, polling of file descriptors and printing around the
      libraries modelled here; the utilities for particular hardware and the test programs. *)

From Stdlib Require Export ZArith Lia Bool.
From stdpp Require Export base list numbers decidable option.
From stdpp Require Import options.
Export stdpp.list_basics.list.

#[global] Open Scope Z_scope.

(** ** Machine integers *)

Definition u8 (z : Z) : Z := z mod 256.
Definition u16 (z : Z) : Z := z mod 65536.
Definition u32 (z : Z) : Z := z mod 4294967296.
Definition u64 (z : Z) : Z := z mod 18446744073709551616.

(** A value of type [uint8_t]. *)
Definition byte (b : Z) : Prop := 0 <= b < 256.

Definition byteb (b : Z) : bool := (0 <=? b) && (b <? 256).

#[export] Instance byte_dec b : Decision (byte b).
Proof. unfold byte. apply _. Defined.

(** Length of a list as an integer. *)
Abbreviation zlen l := (Z.of_nat (length l)).

Declare Scope dvb_scope.
Delimit Scope dvb_scope with dvb.

(** Lookup and update of a list at an integer index: [None] outside the list. *)
Definition lookup_z {A} (l : list A) (p : Z) : option A :=
  if 0 <=? p then l !! Z.to_nat p else None.

Definition insert_z {A} (p : Z) (v : A) (l : list A) : option (list A) :=
  if (0 <=? p) && (p <? zlen l) then Some (<[Z.to_nat p := v]> l) else None.

Notation "l !z p" := (lookup_z l p) (at level 20, p at level 9) : dvb_scope.
#[global] Open Scope dvb_scope.

(** ** Tactics shared by the development *)

(** Break every boolean comparison and [decide] in the hypotheses into linear facts. *)
Ltac bool_facts :=
  repeat match goal with
  | H : _ && _ = true |- _ => apply andb_prop in H; destruct H
  | H : _ || _ = false |- _ => apply orb_false_elim in H; destruct H
  | H : negb _ = true |- _ => apply negb_true_iff in H
  | H : negb _ = false |- _ => apply negb_false_iff in H
  | H : (_ <? _) = true |- _ => apply Z.ltb_lt in H
  | H : (_ <? _) = false |- _ => apply Z.ltb_ge in H
  | H : (_ <=? _) = true |- _ => apply Z.leb_le in H
  | H : (_ <=? _) = false |- _ => apply Z.leb_gt in H
  | H : (_ =? _) = true |- _ => apply Z.eqb_eq in H
  | H : (_ =? _) = false |- _ => apply Z.eqb_neq in H
  end.

(** Case analysis on the first boolean condition of the goal. *)
Ltac case_if :=
  match goal with
  | |- context [if ?b then _ else _] =>
      let E := fresh "E" in destruct b eqn:E; bool_facts
  end.

(** The same in a hypothesis. *)
Ltac case_if_in H :=
  match type of H with
  | context [if ?b then _ else _] =>
      let E := fresh "E" in destruct b eqn:E; bool_facts
  end.

(** Case analysis on the first option scrutinised in the goal. *)
Ltac case_opt :=
  match goal with
  | |- context [match ?o with Some _ => _ | None => _ end] =>
      let E := fresh "E" in destruct o eqn:E
  end.

Ltac unwrap := unfold u8, u16, u32, u64, byte in *.

(** ** Machine integers: facts *)

Lemma u8_byte z : byte (u8 z).
Proof. unwrap. by apply Z.mod_pos_bound. Qed.

Lemma u8_id z : byte z -> u8 z = z.
Proof. unwrap. apply Z.mod_small. Qed.

Lemma u16_id z : 0 <= z < 65536 -> u16 z = z.
Proof. unwrap. apply Z.mod_small. Qed.

Lemma u32_id z : 0 <= z < 4294967296 -> u32 z = z.
Proof. unwrap. apply Z.mod_small. Qed.

Lemma u64_id z : 0 <= z < 18446744073709551616 -> u64 z = z.
Proof. unwrap. apply Z.mod_small. Qed.

Create HintDb dvb.
Create Rewrite HintDb dvb.
#[export] Hint Resolve u8_byte : dvb.
#[export] Hint Rewrite u8_id u16_id u32_id u64_id using (unwrap; lia) : dvb.

(** Masking with [2^k - 1] keeps the low [k] bits. *)
Lemma land_mask z k : 0 <= k -> Z.land z (Z.ones k) = z mod 2 ^ k.
Proof. intros. by apply Z.land_ones. Qed.

Lemma land_nonneg_le a b : 0 <= b -> 0 <= Z.land a b <= b.
Proof.
  intros Hb. split; [apply Z.land_nonneg; by right|].
  apply Z.ldiff_le; [done|].
  apply Z.bits_inj'. intros i Hi.
  rewrite Z.ldiff_spec, Z.land_spec, Z.bits_0.
  by destruct (Z.testbit a i), (Z.testbit b i).
Qed.

Lemma testbit_high z k i : 0 <= z < 2 ^ k -> 0 <= k <= i -> Z.testbit z i = false.
Proof.
  intros Hz Hk. rewrite <- (Z.mod_small z (2 ^ k)) by done.
  apply Z.mod_pow2_bits_high. lia.
Qed.

(** A nonnegative integer is below [2^k] when its bits from [k] on are zero. *)
Lemma bits_bound z k :
  0 <= k -> (0 <= z < 2 ^ k <-> 0 <= z /\ forall i, k <= i -> Z.testbit z i = false).
Proof.
  intros Hk. split.
  - intros H. split; [lia|]. intros i Hi. by apply (testbit_high z k).
  - intros [H0 H]. split; [done|]. destruct (Z.eq_dec z 0) as [->|].
    { by apply Z.pow_pos_nonneg. }
    apply Z.log2_lt_pow2; [lia|].
    destruct (Z.lt_ge_cases (Z.log2 z) k); [done|].
    specialize (H (Z.log2 z) ltac:(done)). by rewrite Z.bit_log2 in H by lia.
Qed.

Lemma byte_bits b : byte b <-> 0 <= b /\ forall i, 8 <= i -> Z.testbit b i = false.
Proof. by apply (bits_bound b 8). Qed.

Lemma byte_lxor a b : byte a -> byte b -> byte (Z.lxor a b).
Proof.
  rewrite !byte_bits. intros [Ha Ha'] [Hb Hb']. split; [by apply Z.lxor_nonneg|].
  intros i Hi. by rewrite Z.lxor_spec, Ha', Hb'.
Qed.

Lemma land_ff z : Z.land z 0xff = z mod 256.
Proof. change 0xff with (Z.ones 8). by rewrite Z.land_ones. Qed.

(** Or-ing disjoint bit fields is adding them. *)
Lemma lor_add a b k :
  0 <= k -> 0 <= a < 2 ^ k -> Z.lor a (Z.shiftl b k) = a + b * 2 ^ k.
Proof.
  intros Hk Ha.
  assert (Hd : Z.land a (Z.shiftl b k) = 0).
  { apply Z.bits_inj'. intros i Hi. rewrite Z.land_spec, Z.bits_0.
    destruct (Z.lt_ge_cases i k).
    - rewrite Z.shiftl_spec_low by done. apply andb_false_r.
    - by rewrite (testbit_high a k) by lia. }
  rewrite <- Z.lxor_lor, <- Z.add_nocarry_lxor by done.
  by rewrite Z.shiftl_mul_pow2 by done.
Qed.

(** ** Integer-indexed lists *)

Section Lists.
Context {A : Type}.
Implicit Types l : list A.

Lemma lookup_z_Some l p v :
  l !z p = Some v -> 0 <= p < zlen l /\ l !! Z.to_nat p = Some v.
Proof.
  unfold lookup_z. case_if; [|done]. intros H. split; [|done].
  apply lookup_lt_Some in H. lia.
Qed.

Lemma lookup_z_is_Some l p : 0 <= p < zlen l -> exists v, l !z p = Some v.
Proof.
  intros Hp. unfold lookup_z. rewrite (proj2 (Z.leb_le 0 p)) by lia.
  apply lookup_lt_is_Some. lia.
Qed.

Lemma lookup_z_None l p : ~ 0 <= p < zlen l -> l !z p = None.
Proof.
  intros Hp. unfold lookup_z. case_if; [|done]. apply lookup_ge_None. lia.
Qed.

Lemma lookup_z_Forall (P : A -> Prop) l p v : Forall P l -> l !z p = Some v -> P v.
Proof.
  intros HF Hv. apply lookup_z_Some in Hv as [_ Hv]. by eapply Forall_lookup_1.
Qed.

Lemma insert_z_Some p v l :
  0 <= p < zlen l -> insert_z p v l = Some (<[Z.to_nat p := v]> l).
Proof. intros Hp. unfold insert_z. case_if; [done|]. lia. Qed.

Lemma insert_z_inv p v l l' :
  insert_z p v l = Some l' -> 0 <= p < zlen l /\ l' = <[Z.to_nat p := v]> l.
Proof. unfold insert_z. case_if; [|done]. intros [= <-]. by split; [lia|]. Qed.

Lemma lookup_z_insert l p q v :
  0 <= p < zlen l ->
  (<[Z.to_nat p := v]> l) !z q = if q =? p then Some v else l !z q.
Proof.
  intros Hp. unfold lookup_z. case_if.
  - case_if; [subst; apply list_lookup_insert_eq; lia|].
    apply list_lookup_insert_ne. lia.
  - case_if; [lia|done].
Qed.

Lemma lookup_z_app_l l l' p : p < zlen l -> (l ++ l') !z p = l !z p.
Proof.
  intros Hp. unfold lookup_z. case_if; [|done]. apply lookup_app_l. lia.
Qed.

Lemma lookup_z_app_r l l' p : zlen l <= p -> (l ++ l') !z p = l' !z (p - zlen l).
Proof.
  intros Hp. unfold lookup_z. rewrite !(proj2 (Z.leb_le 0 _)) by lia.
  rewrite lookup_app_r by lia. f_equal. lia.
Qed.

Lemma lookup_z_0 x l : (x :: l) !z 0 = Some x.
Proof. done. Qed.

Lemma lookup_z_cons x l p : 0 < p -> (x :: l) !z p = l !z (p - 1).
Proof.
  intros Hp. rewrite (lookup_z_app_r [x] l) by (simpl; lia). done.
Qed.

Lemma lookup_z_drop l p q :
  0 <= p -> 0 <= q -> (drop (Z.to_nat p) l) !z q = l !z (p + q).
Proof.
  intros Hp Hq. unfold lookup_z. rewrite !(proj2 (Z.leb_le 0 _)) by lia.
  rewrite lookup_drop. f_equal. lia.
Qed.
End Lists.
