(* ===== verification/CMem.v ===== *)
(** * Byte buffers of the C code

    The section codecs of [libucsi] work in place on a caller-supplied buffer.  Here a buffer is
    the list of its bytes, a C function working on it is an action of the monad [M], and an access
    outside the buffer is the explicit outcome [Fault OutOfBounds].  The file also holds the
    [bswap*] functions of [endianops.h] (little-endian host, the [#else] branch) and the rules by
    which the other files prove that an action never faults. *)

From S2P Require Export Prelude.

(** ** The monad *)

Abbreviation mem := (list Z).

(** [Uninitialised]: memory that nothing has written was read; [Undefined]: an operation without a defined
    result, as a conversion that does not fit; [Exited]: the program called [exit]. *)
Inductive fault := OutOfBounds | OutOfFuel | BadPointer | Uninitialised | Undefined | Exited.

(** [Ret a m]: the function returned [a]; [Null m]: it took a [return NULL] exit (the buffer may
    have been modified before); [Fault f]: it accessed memory outside the buffer, or a loop of the
    model ran out of fuel. *)
Inductive outcome (A : Type) :=
  | Ret (a : A) (m : mem)
  | Null (m : mem)
  | Fault (f : fault).
Arguments Ret {A} _ _.
Arguments Null {A} _.
Arguments Fault {A} _.

Definition M (A : Type) : Type := mem -> outcome A.

#[export] Instance M_ret : MRet M := fun A a m => Ret a m.
#[export] Instance M_bind : MBind M := fun A B k c m =>
  match c m with
  | Ret a m' => k a m'
  | Null m' => Null m'
  | Fault f => Fault f
  end.

Definition null {A} : M A := fun m => Null m.
Definition faulty {A} (f : fault) : M A := fun _ => Fault f.

(** [if (b) return NULL;] *)
Definition reject_if (b : bool) : M unit := if b then null else mret tt.

(** [while] and [for] loops with early exits: the body answers [inl] to go round again and [inr]
    to leave.  Every loop of the modelled code reads or writes a fresh byte of the buffer on each
    round, so the number of bytes is enough fuel; the [safe] rule below proves it for each use. *)
Fixpoint iter_ {S A} (fuel : nat) (body : S -> M (S + A)) (s : S) : M A :=
  match fuel with
  | O => faulty OutOfFuel
  | Datatypes.S fuel' =>
      r ← body s;
      match r with
      | inl s' => iter_ fuel' body s'
      | inr a => mret a
      end
  end.

Definition iter {S A} (body : S -> M (S + A)) (s : S) : M A :=
  fun m => iter_ (Datatypes.S (length m)) body s m.

Definition while_body {S} (cond : S -> M bool) (body : S -> M S) (s : S) : M (S + S) :=
  b ← cond s;
  if (b : bool) then s' ← body s; mret (inl s') else mret (inr s).

Definition while {S} (cond : S -> M bool) (body : S -> M S) : S -> M S :=
  iter (while_body cond body).

(** ** Loads and stores *)

Definition ld8 (p : Z) : M Z := fun m =>
  match m !z p with Some v => Ret v m | None => Fault OutOfBounds end.

Definition st8 (p v : Z) : M unit := fun m =>
  match insert_z p (u8 v) m with Some m' => Ret tt m' | None => Fault OutOfBounds end.

Fixpoint ld_bytes (p : Z) (k : nat) : M (list Z) :=
  match k with
  | O => mret []
  | S k' => b ← ld8 p; bs ← ld_bytes (p + 1) k'; mret (b :: bs)
  end.

Fixpoint st_bytes (p : Z) (bs : list Z) : M unit :=
  match bs with
  | [] => mret tt
  | b :: bs' => st8 p b;; st_bytes (p + 1) bs'
  end.

(** A native integer and its bytes on a little-endian host. *)
Fixpoint le_combine (bs : list Z) : Z :=
  match bs with
  | [] => 0
  | b :: bs' => b + 256 * le_combine bs'
  end.

Fixpoint le_split (k : nat) (v : Z) : list Z :=
  match k with
  | O => []
  | S k' => v mod 256 :: le_split k' (v / 256)
  end.

Definition be_combine (bs : list Z) : Z := le_combine (rev bs).

Definition ld16 (p : Z) : M Z := bs ← ld_bytes p 2; mret (le_combine bs).
Definition ld32 (p : Z) : M Z := bs ← ld_bytes p 4; mret (le_combine bs).

(** ** endianops.h *)

(** [bswap_16], [bswap_32] and [bswap_64] of byteswap.h. *)
Definition bswap_n (k : nat) (v : Z) : Z := le_combine (rev (le_split k v)).

(** [*((uintN_t * )buf) = bswap_N( *(uintN_t * )buf)] *)
Definition bswap_at (k : nat) (p : Z) : M unit :=
  bs ← ld_bytes p k;
  st_bytes p (le_split k (bswap_n k (le_combine bs))).

Definition bswap16 (p : Z) : M unit := bswap_at 2 p.
Definition bswap32 (p : Z) : M unit := bswap_at 4 p.
Definition bswap64 (p : Z) : M unit := bswap_at 8 p.

Definition bswap24 (p : Z) : M unit :=
  tmp0 ← ld8 p;
  b ← ld8 (p + 2); st8 p b;;
  st8 (p + 2) tmp0.

Definition bswap40 (p : Z) : M unit :=
  tmp0 ← ld8 p;
  tmp1 ← ld8 (p + 1);
  b ← ld8 (p + 4); st8 p b;;
  b ← ld8 (p + 3); st8 (p + 1) b;;
  st8 (p + 3) tmp1;;
  st8 (p + 4) tmp0.

Definition bswap48 (p : Z) : M unit :=
  tmp0 ← ld8 p;
  tmp1 ← ld8 (p + 1);
  tmp2 ← ld8 (p + 2);
  b ← ld8 (p + 5); st8 p b;;
  b ← ld8 (p + 4); st8 (p + 1) b;;
  b ← ld8 (p + 3); st8 (p + 2) b;;
  st8 (p + 3) tmp2;;
  st8 (p + 4) tmp1;;
  st8 (p + 5) tmp0.

(** ** Byte strings and integers *)

Lemma length_le_split k v : length (le_split k v) = k.
Proof. revert v. induction k; intros v; simpl; auto. Qed.

Lemma le_split_bytes k v : Forall byte (le_split k v).
Proof.
  revert v. induction k; intros v; simpl; constructor; auto. apply u8_byte.
Qed.

Lemma le_combine_split bs : Forall byte bs -> le_split (length bs) (le_combine bs) = bs.
Proof.
  induction 1 as [|b bs Hb _ IH]; [done|]. cbn [length le_split le_combine]. unfold byte in Hb.
  f_equal.
  - rewrite (Z.mul_comm 256), Z.mod_add by done. by apply Z.mod_small.
  - rewrite (Z.mul_comm 256), Z.div_add, (Z.div_small b) by lia. apply IH.
Qed.

Lemma le_split_combine k v : 0 <= v < 256 ^ Z.of_nat k -> le_combine (le_split k v) = v.
Proof.
  revert v. induction k as [|k IH]; intros v Hv; [simpl in *; lia|].
  cbn [le_split le_combine]. rewrite Nat2Z.inj_succ, Z.pow_succ_r in Hv by lia.
  rewrite IH.
  - pose proof (Z.div_mod v 256). lia.
  - split; [apply Z.div_pos; lia|]. apply Z.div_lt_upper_bound; lia.
Qed.

Lemma le_combine_bound bs : Forall byte bs -> 0 <= le_combine bs < 256 ^ zlen bs.
Proof.
  induction 1 as [|b bs Hb _ IH]; [by cbn|]. unfold byte in Hb.
  cbn [length le_combine]. rewrite Nat2Z.inj_succ, Z.pow_succ_r by lia. lia.
Qed.

(** Swapping the bytes of a native integer reverses them in memory. *)
Lemma bswap_n_rev bs :
  Forall byte bs -> le_split (length bs) (bswap_n (length bs) (le_combine bs)) = rev bs.
Proof.
  intros H. unfold bswap_n. rewrite le_combine_split by done.
  rewrite <- (length_rev bs). apply le_combine_split. by apply Forall_rev.
Qed.

(** ** Ranges of a buffer *)

(** The bytes of the buffer from [p] to [p + n - 1]. *)
Definition range (m : mem) (p n : Z) : list Z := take (Z.to_nat n) (drop (Z.to_nat p) m).

Lemma range_length m p n :
  0 <= p -> 0 <= n -> p + n <= zlen m -> zlen (range m p n) = n.
Proof. intros. unfold range. rewrite length_take, length_drop. lia. Qed.

Lemma range_bytes m p n : Forall byte m -> Forall byte (range m p n).
Proof. intros. by apply Forall_take, Forall_drop. Qed.

Lemma range_snoc m p n b :
  0 <= p -> 0 <= n -> m !z (p + n) = Some b -> range m p (n + 1) = range m p n ++ [b].
Proof.
  intros Hp Hn Hb. unfold range. rewrite Z2Nat.inj_add by lia.
  change (Z.to_nat 1) with 1%nat. rewrite Nat.add_1_r.
  apply take_S_r. rewrite lookup_drop. apply lookup_z_Some in Hb as [_ Hb].
  rewrite <- Hb. f_equal. lia.
Qed.

Lemma range_nil m p n : n <= 0 -> range m p n = [].
Proof. intros Hn. unfold range. by replace (Z.to_nat n) with 0%nat by lia. Qed.

Lemma range_cons m p n b :
  0 <= p -> 0 < n -> m !z p = Some b -> range m p n = b :: range m (p + 1) (n - 1).
Proof.
  intros Hp Hn Hb. unfold range. apply lookup_z_Some in Hb as [_ Hb].
  rewrite (drop_S _ _ _ Hb).
  replace (Z.to_nat n) with (S (Z.to_nat (n - 1))) by lia.
  replace (Z.to_nat (p + 1)) with (S (Z.to_nat p)) by lia. done.
Qed.

Lemma range_drop m p n l :
  0 <= p -> 0 <= l -> drop (Z.to_nat l) (range m p n) = range m (p + l) (n - l).
Proof.
  intros Hp Hl. unfold range. rewrite skipn_firstn_comm, drop_drop. f_equal; [lia|].
  f_equal. lia.
Qed.

Lemma range_take m p n l :
  0 <= l <= n -> take (Z.to_nat l) (range m p n) = range m p l.
Proof. intros Hl. unfold range. rewrite take_take. f_equal. lia. Qed.

Lemma range_all m : range m 0 (zlen m) = m.
Proof. unfold range. rewrite Nat2Z.id. by apply take_ge. Qed.

Lemma range_prefix (l l' : mem) n : n = zlen l -> range (l ++ l') 0 n = l.
Proof. intros ->. unfold range. rewrite Nat2Z.id. apply take_app_length. Qed.

(** A buffer around a range. *)
Lemma split_range m p n :
  0 <= p -> 0 <= n -> p + n <= zlen m ->
  m = take (Z.to_nat p) m ++ range m p n ++ drop (Z.to_nat (p + n)) m /\
  zlen (take (Z.to_nat p) m) = p /\ zlen (range m p n) = n.
Proof.
  intros Hp Hn Hl. split_and!.
  - unfold range. replace (Z.to_nat (p + n)) with (Z.to_nat p + Z.to_nat n)%nat by lia.
    rewrite <- drop_drop. by rewrite !take_drop.
  - rewrite length_take. lia.
  - unfold range. rewrite length_take, length_drop. lia.
Qed.

Lemma range_lookup m p n i :
  0 <= p -> 0 <= i < n -> range m p n !z i = m !z (p + i).
Proof.
  intros Hp Hi. unfold range, lookup_z. rewrite !(proj2 (Z.leb_le 0 _)) by lia.
  rewrite lookup_take_lt, lookup_drop by lia. f_equal. lia.
Qed.

(** Two buffers that agree on a range have the same bytes there. *)
Lemma range_ext m m' p n :
  0 <= p -> length m = length m' -> (forall i, p <= i < p + n -> m !z i = m' !z i) ->
  range m p n = range m' p n.
Proof.
  intros Hp Hl H. apply list_eq. intros i. unfold range.
  destruct (decide (i < Z.to_nat n)%nat).
  - rewrite !lookup_take_lt, !lookup_drop by done.
    specialize (H (p + Z.of_nat i) ltac:(lia)). unfold lookup_z in H.
    rewrite (proj2 (Z.leb_le 0 _)) in H by lia.
    by replace (Z.to_nat (p + Z.of_nat i)) with (Z.to_nat p + i)%nat in H by lia.
  - rewrite !lookup_take_ge by lia. done.
Qed.

(** Byte lists, by their parts. *)
Ltac solve_bytes :=
  repeat progress (rewrite ?Forall_app, ?Forall_cons_iff in *); destruct_and?; split_and?;
  try apply Forall_nil; try done; try (apply Forall_rev; done).

(** ** Weakest preconditions *)

Definition wp {A} (c : M A) (Q : A -> mem -> Prop) (N : mem -> Prop) (m : mem) : Prop :=
  match c m with
  | Ret a m' => Q a m'
  | Null m' => N m'
  | Fault _ => False
  end.

Lemma wp_bind {A B} (c : M A) (k : A -> M B) Q N m :
  wp c (fun a m' => wp (k a) Q N m') N m -> wp (c ≫= k) Q N m.
Proof. unfold wp, mbind, M_bind. by destruct (c m). Qed.

Lemma wp_ret {A} (a : A) (Q : A -> mem -> Prop) N m : Q a m -> wp (mret a) Q N m.
Proof. done. Qed.

Lemma wp_mono {A} (c : M A) (Q Q' : A -> mem -> Prop) (N N' : mem -> Prop) m :
  wp c Q N m -> (forall a m', Q a m' -> Q' a m') -> (forall m', N m' -> N' m') ->
  wp c Q' N' m.
Proof. unfold wp. destruct (c m); auto. Qed.

Lemma wp_reject_if b (Q : unit -> mem -> Prop) N m :
  (b = true -> N m) -> (b = false -> Q tt m) -> wp (reject_if b) Q N m.
Proof. destruct b; cbn; auto. Qed.

Lemma wp_ld8 p v (Q : Z -> mem -> Prop) N m : m !z p = Some v -> Q v m -> wp (ld8 p) Q N m.
Proof. unfold wp, ld8. by intros ->. Qed.

Lemma wp_st8 p v (Q : unit -> mem -> Prop) N m :
  0 <= p < zlen m -> Q tt (<[Z.to_nat p := u8 v]> m) -> wp (st8 p v) Q N m.
Proof. unfold wp, st8. intros Hp. by rewrite insert_z_Some. Qed.

(** ** Safety

    [safe m0 k c Q]: started on any buffer with the length of [m0], made of bytes and equal to
    [m0] below offset [k], the action [c] neither faults nor changes any of this, and its result
    satisfies [Q].  The prefix below [k] is the section header, which no codec writes. *)

Record frame (m0 : mem) (k : Z) (m : mem) : Prop := Frame {
  frame_length : length m = length m0;
  frame_bytes : Forall byte m;
  frame_prefix : forall i, i < k -> m !z i = m0 !z i;
}.

Definition safe {A} (m0 : mem) (k : Z) (c : M A) (Q : A -> Prop) : Prop :=
  forall m, frame m0 k m -> wp c (fun a m' => frame m0 k m' /\ Q a) (frame m0 k) m.

Lemma frame_refl m k : Forall byte m -> frame m k m.
Proof. by constructor. Qed.

Section Safe.
Context {m0 : mem} {k : Z}.

Lemma safe_bind {A B} (c : M A) (f : A -> M B) (Q : A -> Prop) (R : B -> Prop) :
  safe m0 k c Q -> (forall a, Q a -> safe m0 k (f a) R) -> safe m0 k (c ≫= f) R.
Proof.
  intros Hc Hf m Hm. apply wp_bind. eapply wp_mono; [by apply Hc| |done].
  intros a m' [Hm' Ha]. by apply Hf.
Qed.

Lemma safe_ret {A} (a : A) (Q : A -> Prop) : Q a -> safe m0 k (mret a) Q.
Proof. intros Ha m Hm. by apply wp_ret. Qed.

Lemma safe_mono {A} (c : M A) (Q R : A -> Prop) :
  safe m0 k c Q -> (forall a, Q a -> R a) -> safe m0 k c R.
Proof.
  intros Hc HQ m Hm. eapply wp_mono; [by apply Hc| |done].
  intros a m' [? ?]. auto.
Qed.

Lemma safe_reject_if b : safe m0 k (reject_if b) (fun _ => b = false).
Proof. intros m Hm. by apply wp_reject_if. Qed.

Lemma safe_null {A} (Q : A -> Prop) : safe m0 k null Q.
Proof. intros m Hm. done. Qed.

Lemma safe_ld8 p : 0 <= p < zlen m0 -> safe m0 k (ld8 p) byte.
Proof.
  intros Hp m Hm. destruct (lookup_z_is_Some m p) as [v Hv].
  { by rewrite (frame_length _ _ _ Hm). }
  eapply wp_ld8; [done|]. split; [done|].
  by eapply lookup_z_Forall, Hv; apply (frame_bytes _ _ _ Hm).
Qed.

(** A byte of the protected prefix is the one of the initial buffer. *)
Lemma safe_ld8_prefix p v :
  m0 !z p = Some v -> p < k -> safe m0 k (ld8 p) (fun w => w = v).
Proof.
  intros Hv Hk m Hm. eapply wp_ld8; [|by split].
  by rewrite (frame_prefix _ _ _ Hm).
Qed.

Lemma safe_st8 p v : 0 <= p < zlen m0 -> k <= p -> safe m0 k (st8 p v) (fun _ => True).
Proof.
  intros Hp Hk m Hm. destruct Hm as [Hl Hb Hpre].
  apply wp_st8; [lia|]. split; [|done]. constructor.
  - by rewrite length_insert.
  - apply Forall_insert; [done|]. apply u8_byte.
  - intros i Hi. rewrite lookup_z_insert by lia. case_if; [lia|]. by apply Hpre.
Qed.

Lemma safe_ld_bytes p n :
  0 <= p -> p + Z.of_nat n <= zlen m0 ->
  safe m0 k (ld_bytes p n) (fun bs => length bs = n /\ Forall byte bs).
Proof.
  revert p. induction n as [|n IH]; intros p Hp Hn; cbn [ld_bytes]; [by apply safe_ret|].
  eapply safe_bind; [apply safe_ld8; lia|]. intros b Hb.
  eapply safe_bind; [apply IH; lia|]. intros bs [Hl Hbs].
  apply safe_ret. split; [by simpl; f_equal|by constructor].
Qed.

Lemma safe_st_bytes p bs :
  0 <= p -> k <= p -> p + zlen bs <= zlen m0 ->
  safe m0 k (st_bytes p bs) (fun _ => True).
Proof.
  revert p. induction bs as [|b bs IH]; intros p Hp Hk Hn; cbn [st_bytes];
    [by apply safe_ret|]. cbn [length] in Hn.
  eapply safe_bind; [apply safe_st8; lia|]. intros _ _. apply IH; lia.
Qed.

Lemma safe_bswap_at n p :
  0 <= p -> k <= p -> p + Z.of_nat n <= zlen m0 ->
  safe m0 k (bswap_at n p) (fun _ => True).
Proof.
  intros Hp Hk Hn. eapply safe_bind; [by apply safe_ld_bytes|]. intros bs [Hl Hb].
  apply safe_st_bytes; [done..|]. by rewrite length_le_split.
Qed.

Lemma safe_bswap24 p :
  0 <= p -> k <= p -> p + 3 <= zlen m0 -> safe m0 k (bswap24 p) (fun _ => True).
Proof.
  intros Hp Hk Hn. unfold bswap24.
  repeat (eapply safe_bind; [first [apply safe_ld8|apply safe_st8]; lia|]; intros ? ?).
  apply safe_st8; lia.
Qed.

Lemma safe_ld16 p :
  0 <= p -> p + 2 <= zlen m0 -> safe m0 k (ld16 p) (fun v => 0 <= v < 65536).
Proof.
  intros Hp Hn. eapply safe_bind; [by apply (safe_ld_bytes p 2)|]. intros bs [Hl Hb].
  apply safe_ret. pose proof (le_combine_bound bs Hb) as H. by rewrite Hl in H.
Qed.

(** Loops: an invariant [J] and a measure that grows on every round and never exceeds the size
    of the buffer. *)
Lemma safe_iter {S A} (J : S -> Prop) (mu : S -> Z) (body : S -> M (S + A)) (R : A -> Prop) s :
  (forall s, J s -> 0 <= mu s <= zlen m0) ->
  (forall s, J s -> safe m0 k (body s)
     (fun r => match r with inl s' => J s' /\ mu s < mu s' | inr a => R a end)) ->
  J s -> safe m0 k (iter body s) R.
Proof.
  intros Hmu Hbody HJ m Hm. unfold wp, iter.
  rewrite (frame_length _ _ _ Hm).
  enough (H : forall fuel s, J s -> zlen m0 - mu s < Z.of_nat fuel ->
              safe m0 k (iter_ fuel body s) R).
  { apply (H _ s HJ); [|done]. pose proof (Hmu s HJ). lia. }
  clear s m HJ Hm. intros fuel. induction fuel as [|fuel IH]; intros s HJ Hf.
  { pose proof (Hmu s HJ). lia. }
  eapply safe_bind; [by apply Hbody|]. intros [s'|a].
  - intros [HJ' Hlt]. apply IH; [done|]. lia.
  - by apply safe_ret.
Qed.

Lemma safe_while {S} (J : S -> Prop) (mu : S -> Z) cond (body : S -> M S) (R : S -> Prop) s :
  (forall s, J s -> 0 <= mu s <= zlen m0) ->
  (forall s, J s -> safe m0 k (cond s) (fun b =>
     if (b : bool) then safe m0 k (body s) (fun s' => J s' /\ mu s < mu s') else R s)) ->
  J s -> safe m0 k (while cond body s) R.
Proof.
  intros Hmu Hbody HJ. apply (safe_iter J mu); [done| |done]. clear s HJ. intros s HJ.
  eapply safe_bind; [by apply Hbody|]. intros [] Hb.
  - eapply safe_bind; [exact Hb|]. intros s' Hs'. by apply safe_ret.
  - by apply safe_ret.
Qed.
End Safe.

Lemma safe_faultless {A} m0 k (c : M A) Q f :
  Forall byte m0 -> safe m0 k c Q -> c m0 <> Fault f.
Proof.
  intros Hb Hs Hf. specialize (Hs m0 (frame_refl m0 k Hb)). unfold wp in Hs. by rewrite Hf in Hs.
Qed.

Create HintDb safe.

(** ** Automation

    [safe_step] applies the rule of the first action of the goal; its side conditions are linear
    facts. *)
#[export] Hint Resolve safe_reject_if safe_null : safe.
#[export] Hint Extern 1 (safe _ _ (ld8 _) _) => apply safe_ld8; lia : safe.
#[export] Hint Extern 1 (safe _ _ (ld16 _) _) => apply safe_ld16; lia : safe.
#[export] Hint Extern 1 (safe _ _ (bswap16 _) _) => apply safe_bswap_at; lia : safe.
#[export] Hint Extern 1 (safe _ _ (bswap32 _) _) => apply safe_bswap_at; lia : safe.
#[export] Hint Extern 1 (safe _ _ (bswap64 _) _) => apply safe_bswap_at; lia : safe.
#[export] Hint Extern 1 (safe _ _ (bswap24 _) _) => apply safe_bswap24; lia : safe.

Ltac safe_intro :=
  let a := fresh "v" in let H := fresh "H" in
  intros a H; unfold byte in H; bool_facts;
  lazymatch type of H with
  | _ /\ _ => destruct H as [? ?]
  | True => clear H
  | _ => idtac
  end.

Ltac safe_step :=
  match goal with
  | |- safe _ _ (_ ≫= _) _ =>
      eapply safe_bind; [solve [eauto 2 with safe]|]; safe_intro
  | |- safe _ _ (mret _) _ => apply safe_ret
  end.

Ltac safe_steps := repeat safe_step.

(** ** Running loads and stores on a buffer split around the accessed bytes *)

Lemma ld_bytes_app pre bs post :
  ld_bytes (zlen pre) (length bs) (pre ++ bs ++ post) = Ret bs (pre ++ bs ++ post).
Proof.
  revert pre. induction bs as [|b bs IH]; intros pre; [done|].
  change ((b :: bs) ++ post) with (b :: bs ++ post).
  cbn [ld_bytes length]. unfold mbind, M_bind, ld8.
  rewrite lookup_z_app_r, Z.sub_diag, lookup_z_0 by lia.
  specialize (IH (pre ++ [b])). rewrite length_app, <- app_assoc in IH.
  change (length [b]) with 1%nat in IH. rewrite Nat2Z.inj_add in IH.
  change ([b] ++ bs ++ post) with (b :: bs ++ post) in IH.
  change (Z.of_nat 1) with 1 in IH. by rewrite IH.
Qed.

Lemma st8_app pre b v post :
  st8 (zlen pre) v (pre ++ b :: post) = Ret tt (pre ++ u8 v :: post).
Proof.
  unfold st8. rewrite insert_z_Some by (rewrite length_app; simpl; lia).
  rewrite Nat2Z.id, insert_app_r_alt, Nat.sub_diag by done. done.
Qed.

Lemma st_bytes_app pre bs bs' post :
  length bs = length bs' -> Forall byte bs' ->
  st_bytes (zlen pre) bs' (pre ++ bs ++ post) = Ret tt (pre ++ bs' ++ post).
Proof.
  revert pre bs. induction bs' as [|b' bs' IH]; intros pre [|b bs] Hl Hb; simplify_eq/=; [done|].
  apply Forall_cons_iff in Hb as [Hb' Hb]. unfold mbind, M_bind.
  rewrite st8_app, u8_id by done. specialize (IH (pre ++ [b']) bs Hl Hb).
  rewrite length_app, Nat2Z.inj_add, <- !app_assoc in IH. apply IH.
Qed.

Lemma bswap_at_app k p pre bs post :
  p = zlen pre -> k = length bs -> Forall byte bs ->
  bswap_at k p (pre ++ bs ++ post) = Ret tt (pre ++ rev bs ++ post).
Proof.
  intros -> -> Hb. unfold bswap_at, mbind, M_bind. rewrite ld_bytes_app, bswap_n_rev by done.
  apply st_bytes_app; [by rewrite length_rev|by apply Forall_rev].
Qed.

(** A loop whose invariant is all that is used afterwards. *)
Lemma safe_loop {m0 k S A} (J : S -> Prop) (mu : S -> Z) cond (body : S -> M S)
    (f : S -> M A) (R : A -> Prop) s :
  (forall s, J s -> 0 <= mu s <= zlen m0) -> J s ->
  (forall s, J s -> safe m0 k (cond s) (fun b =>
     if (b : bool) then safe m0 k (body s) (fun s' => J s' /\ mu s < mu s') else True)) ->
  (forall s, J s -> safe m0 k (f s) R) ->
  safe m0 k (while cond body s ≫= f) R.
Proof.
  intros Hmu HJ Hbody Hf. eapply safe_bind; [|exact Hf].
  apply (safe_while J mu); [done| |done].
  intros s' Hs'. eapply safe_mono; [by apply Hbody|]. by intros [] ?.
Qed.

(** A test on a pure condition. *)
Lemma safe_cond {m0 k} (b : bool) (P : Prop) :
  (b = true -> P) -> safe m0 k (mret b) (fun c => if (c : bool) then P else True).
Proof. intros H. apply safe_ret. by destruct b; auto. Qed.

(** [while (pos < len)] loops over a buffer position. *)
Ltac safe_pos_loop J :=
  apply (safe_loop J (fun pos => pos));
  [let p := fresh "p" in let H := fresh "Hp" in intros p H; lia
  |lia
  |let p := fresh "pos" in let H := fresh "Hp" in intros p H; apply safe_cond;
   let E := fresh "Hc" in intros E; bool_facts
  |let p := fresh "pos" in let H := fresh "Hp" in intros p H].

(** ** Running actions

    The code run on a given buffer, action by action: each lemma rewrites the head of a bind. *)

Lemma bind_run {A B} (c : M A) (k : A -> M B) a m m' :
  c m = Ret a m' -> (c ≫= k) m = k a m'.
Proof. unfold mbind, M_bind. by intros ->. Qed.

Lemma bind_cong {A B} (c c' : M A) (k : A -> M B) m : c m = c' m -> (c ≫= k) m = (c' ≫= k) m.
Proof. unfold mbind, M_bind. by intros ->. Qed.

Lemma bind_null {A B} (c : M A) (k : A -> M B) m m' : c m = Null m' -> (c ≫= k) m = Null m'.
Proof. unfold mbind, M_bind. by intros ->. Qed.

Lemma reject_run {B} b (k : unit -> M B) m : b = false -> (reject_if b ≫= k) m = k tt m.
Proof. by intros ->. Qed.

Lemma reject_null {B} b (k : unit -> M B) m : b = true -> (reject_if b ≫= k) m = Null m.
Proof. by intros ->. Qed.

Lemma ld8_at p pre b post m :
  m = pre ++ [b] ++ post -> p = zlen pre -> ld8 p m = Ret b m.
Proof. intros -> ->. unfold ld8. by rewrite lookup_z_app_r, Z.sub_diag by lia. Qed.

Lemma ld16_at p pre a b post m :
  m = pre ++ [a; b] ++ post -> p = zlen pre -> ld16 p m = Ret (le_combine [a; b]) m.
Proof.
  intros -> ->. unfold ld16. erewrite bind_run; [|apply (ld_bytes_app pre [a; b])]. done.
Qed.

Lemma bswap16_at p pre a b post m m' :
  m = pre ++ [a; b] ++ post -> p = zlen pre -> byte a -> byte b ->
  m' = pre ++ [b; a] ++ post -> bswap16 p m = Ret tt m'.
Proof.
  intros -> -> Ha Hb ->. apply (bswap_at_app 2 _ pre [a; b] post); [done..|]. solve_bytes.
Qed.

Lemma range_at p n pre bs post m :
  m = pre ++ bs ++ post -> p = zlen pre -> n = zlen bs -> range m p n = bs.
Proof.
  intros -> -> ->. unfold range. rewrite !Nat2Z.id, drop_app_length. apply take_app_length.
Qed.

Lemma be_combine_two a b : be_combine [a; b] = le_combine [b; a].
Proof. done. Qed.

(** Run the first action of the goal, by [t]. *)
Tactic Notation "run" "by" tactic3(t) := erewrite bind_run by t; cbv beta iota zeta.

Lemma iter_next {S A} (body : S -> M (S + A)) f s m s' m' :
  body s m = Ret (inl s') m' -> iter_ (Datatypes.S f) body s m = iter_ f body s' m'.
Proof. intros H. cbn [iter_]. by erewrite bind_run by exact H. Qed.

Lemma iter_done {S A} (body : S -> M (S + A)) f s m a m' :
  body s m = Ret (inr a) m' -> iter_ (Datatypes.S f) body s m = Ret a m'.
Proof. intros H. cbn [iter_]. by erewrite bind_run by exact H. Qed.

Section Loops.
Context {S : Type} (cond : S -> M bool) (body : S -> M S).

Lemma while_step f s m s' m' :
  cond s m = Ret true m -> body s m = Ret s' m' ->
  iter_ (Datatypes.S f) (while_body cond body) s m = iter_ f (while_body cond body) s' m'.
Proof.
  intros Hc Hb. cbn [iter_]. erewrite (bind_run _ _ (inl s') m m'); [done|].
  unfold while_body. erewrite bind_run by exact Hc. cbv beta iota.
  by erewrite bind_run by exact Hb.
Qed.

Lemma while_exit f s m :
  cond s m = Ret false m ->
  iter_ (Datatypes.S f) (while_body cond body) s m = Ret s m.
Proof.
  intros Hc. cbn [iter_]. erewrite (bind_run _ _ (inr s) m m); [done|].
  unfold while_body. by erewrite bind_run by exact Hc.
Qed.

Lemma while_null f s m m' :
  cond s m = Ret true m -> body s m = Null m' ->
  iter_ (Datatypes.S f) (while_body cond body) s m = Null m'.
Proof.
  intros Hc Hb. cbn [iter_]. apply bind_null. unfold while_body.
  erewrite bind_run by exact Hc. cbv beta iota. by apply bind_null.
Qed.
End Loops.

Lemma while_run {S} cond (body : S -> M S) s m :
  while cond body s m = iter_ (Datatypes.S (length m)) (while_body cond body) s m.
Proof. done. Qed.

(** Loops with pointwise equal bodies are equal. *)
Lemma while_ext {S} cond (body body' : S -> M S) s m :
  (forall s m, body s m = body' s m) -> while cond body s m = while cond body' s m.
Proof.
  intros H. unfold while, iter. generalize (Datatypes.S (length m)). intros f. revert s m.
  induction f as [|f IH]; intros s m; [done|]. cbn [iter_].
  unfold while_body, mbind, M_bind in *. destruct (cond s m) as [[] m'|m'|]; try done.
  rewrite H. destruct (body' s m') as [s' m''| |]; [apply IH|done|done].
Qed.

(** Equality of two actions up to the bracketing of their binds. *)
Ltac bind_eq :=
  unfold mbind, M_bind, mret, M_ret;
  repeat match goal with
  | |- context [match ?c with Ret _ _ => _ | Null _ => _ | Fault _ => _ end] =>
      lazymatch c with
      | context [match _ with _ => _ end] => fail
      | _ => destruct c; cbv beta iota
      end
  end; reflexivity.

(** ** Results of code that does not work in place

    A value, or an access outside an array. *)

Inductive res (A : Type) :=
  | Ok (a : A)
  | Err (f : fault).
Arguments Ok {A} _.
Arguments Err {A} _.

#[export] Instance res_ret : MRet res := fun A a => Ok a.
#[export] Instance res_bind : MBind res := fun A B k c =>
  match c with Ok a => k a | Err f => Err f end.

(** An array access. *)
Definition at_ {A} (l : list A) (i : Z) : res A :=
  match l !z i with Some a => Ok a | None => Err OutOfBounds end.

(** [okay c Q]: the computation makes no fault, and its result satisfies [Q]. *)
Definition okay {A} (c : res A) (Q : A -> Prop) : Prop :=
  match c with Ok a => Q a | Err _ => False end.

Lemma okay_bind {A B} (c : res A) (k : A -> res B) Q R :
  okay c Q -> (forall a, Q a -> okay (k a) R) -> okay (c ≫= k) R.
Proof. destruct c; cbn; [auto|done]. Qed.

Lemma okay_ret {A} (a : A) (Q : A -> Prop) : Q a -> okay (mret a) Q.
Proof. done. Qed.

Lemma okay_mono {A} (c : res A) (Q R : A -> Prop) :
  okay c Q -> (forall a, Q a -> R a) -> okay c R.
Proof. destruct c; cbn; auto. Qed.

Lemma okay_at {A} (P : A -> Prop) (l : list A) i :
  Forall P l -> 0 <= i < zlen l -> okay (at_ l i) P.
Proof.
  intros HP Hi. unfold at_. destruct (lookup_z_is_Some l i Hi) as [v Hv]. rewrite Hv.
  cbn. by apply (lookup_z_Forall P l i).
Qed.

Lemma okay_inv {A} (c : res A) Q : okay c Q -> exists a, c = Ok a /\ Q a.
Proof. destruct c; cbn; [by eexists|done]. Qed.

(** An access in the middle of a list given by its parts. *)
Lemma at_mid {A} (pre l post : list A) p i v :
  p = zlen pre + Z.of_nat i -> l !! i = Some v -> at_ (pre ++ l ++ post) p = Ok v.
Proof.
  intros -> Hv. unfold at_. rewrite lookup_z_app_r by lia. apply lookup_lt_Some in Hv as Hi.
  rewrite lookup_z_app_l by lia. unfold lookup_z. rewrite (proj2 (Z.leb_le 0 _)) by lia.
  replace (Z.to_nat _) with i by lia. by rewrite Hv.
Qed.
