(* ===== verification/Crc32.v ===== *)
(** * crc32.c, crc32.h: the CRC-32 of MPEG-2 sections *)

From S2P Require Export CMem.

(** ** The code *)

(** [crc32tbl] *)
Definition crc32tbl : list Z := [
   0x00000000; 0x04c11db7; 0x09823b6e; 0x0d4326d9;
   0x130476dc; 0x17c56b6b; 0x1a864db2; 0x1e475005;
   0x2608edb8; 0x22c9f00f; 0x2f8ad6d6; 0x2b4bcb61;
   0x350c9b64; 0x31cd86d3; 0x3c8ea00a; 0x384fbdbd;
   0x4c11db70; 0x48d0c6c7; 0x4593e01e; 0x4152fda9;
   0x5f15adac; 0x5bd4b01b; 0x569796c2; 0x52568b75;
   0x6a1936c8; 0x6ed82b7f; 0x639b0da6; 0x675a1011;
   0x791d4014; 0x7ddc5da3; 0x709f7b7a; 0x745e66cd;
   0x9823b6e0; 0x9ce2ab57; 0x91a18d8e; 0x95609039;
   0x8b27c03c; 0x8fe6dd8b; 0x82a5fb52; 0x8664e6e5;
   0xbe2b5b58; 0xbaea46ef; 0xb7a96036; 0xb3687d81;
   0xad2f2d84; 0xa9ee3033; 0xa4ad16ea; 0xa06c0b5d;
   0xd4326d90; 0xd0f37027; 0xddb056fe; 0xd9714b49;
   0xc7361b4c; 0xc3f706fb; 0xceb42022; 0xca753d95;
   0xf23a8028; 0xf6fb9d9f; 0xfbb8bb46; 0xff79a6f1;
   0xe13ef6f4; 0xe5ffeb43; 0xe8bccd9a; 0xec7dd02d;
   0x34867077; 0x30476dc0; 0x3d044b19; 0x39c556ae;
   0x278206ab; 0x23431b1c; 0x2e003dc5; 0x2ac12072;
   0x128e9dcf; 0x164f8078; 0x1b0ca6a1; 0x1fcdbb16;
   0x018aeb13; 0x054bf6a4; 0x0808d07d; 0x0cc9cdca;
   0x7897ab07; 0x7c56b6b0; 0x71159069; 0x75d48dde;
   0x6b93dddb; 0x6f52c06c; 0x6211e6b5; 0x66d0fb02;
   0x5e9f46bf; 0x5a5e5b08; 0x571d7dd1; 0x53dc6066;
   0x4d9b3063; 0x495a2dd4; 0x44190b0d; 0x40d816ba;
   0xaca5c697; 0xa864db20; 0xa527fdf9; 0xa1e6e04e;
   0xbfa1b04b; 0xbb60adfc; 0xb6238b25; 0xb2e29692;
   0x8aad2b2f; 0x8e6c3698; 0x832f1041; 0x87ee0df6;
   0x99a95df3; 0x9d684044; 0x902b669d; 0x94ea7b2a;
   0xe0b41de7; 0xe4750050; 0xe9362689; 0xedf73b3e;
   0xf3b06b3b; 0xf771768c; 0xfa325055; 0xfef34de2;
   0xc6bcf05f; 0xc27dede8; 0xcf3ecb31; 0xcbffd686;
   0xd5b88683; 0xd1799b34; 0xdc3abded; 0xd8fba05a;
   0x690ce0ee; 0x6dcdfd59; 0x608edb80; 0x644fc637;
   0x7a089632; 0x7ec98b85; 0x738aad5c; 0x774bb0eb;
   0x4f040d56; 0x4bc510e1; 0x46863638; 0x42472b8f;
   0x5c007b8a; 0x58c1663d; 0x558240e4; 0x51435d53;
   0x251d3b9e; 0x21dc2629; 0x2c9f00f0; 0x285e1d47;
   0x36194d42; 0x32d850f5; 0x3f9b762c; 0x3b5a6b9b;
   0x0315d626; 0x07d4cb91; 0x0a97ed48; 0x0e56f0ff;
   0x1011a0fa; 0x14d0bd4d; 0x19939b94; 0x1d528623;
   0xf12f560e; 0xf5ee4bb9; 0xf8ad6d60; 0xfc6c70d7;
   0xe22b20d2; 0xe6ea3d65; 0xeba91bbc; 0xef68060b;
   0xd727bbb6; 0xd3e6a601; 0xdea580d8; 0xda649d6f;
   0xc423cd6a; 0xc0e2d0dd; 0xcda1f604; 0xc960ebb3;
   0xbd3e8d7e; 0xb9ff90c9; 0xb4bcb610; 0xb07daba7;
   0xae3afba2; 0xaafbe615; 0xa7b8c0cc; 0xa379dd7b;
   0x9b3660c6; 0x9ff77d71; 0x92b45ba8; 0x9675461f;
   0x8832161a; 0x8cf30bad; 0x81b02d74; 0x857130c3;
   0x5d8a9099; 0x594b8d2e; 0x5408abf7; 0x50c9b640;
   0x4e8ee645; 0x4a4ffbf2; 0x470cdd2b; 0x43cdc09c;
   0x7b827d21; 0x7f436096; 0x7200464f; 0x76c15bf8;
   0x68860bfd; 0x6c47164a; 0x61043093; 0x65c52d24;
   0x119b4be9; 0x155a565e; 0x18197087; 0x1cd86d30;
   0x029f3d35; 0x065e2082; 0x0b1d065b; 0x0fdc1bec;
   0x3793a651; 0x3352bbe6; 0x3e119d3f; 0x3ad08088;
   0x2497d08d; 0x2056cd3a; 0x2d15ebe3; 0x29d4f654;
   0xc5a92679; 0xc1683bce; 0xcc2b1d17; 0xc8ea00a0;
   0xd6ad50a5; 0xd26c4d12; 0xdf2f6bcb; 0xdbee767c;
   0xe3a1cbc1; 0xe760d676; 0xea23f0af; 0xeee2ed18;
   0xf0a5bd1d; 0xf464a0aa; 0xf9278673; 0xfde69bc4;
   0x89b8fd09; 0x8d79e0be; 0x803ac667; 0x84fbdbd0;
   0x9abc8bd5; 0x9e7d9662; 0x933eb0bb; 0x97ffad0c;
   0xafb010b1; 0xab710d06; 0xa6322bdf; 0xa2f33668;
   0xbcb4666d; 0xb8757bda; 0xb5365d03; 0xb1f740b4].

Definition CRC32_INIT : Z := u32 (Z.lnot 0).

(** The index of the table used for the next byte. *)
Definition crc32_index (crc b : Z) : Z := Z.land (Z.lxor (Z.shiftr crc 24) b) 0xff.

(** [crc32(crc, buf, len)], [buf] at offset [p]. *)
Definition crc32 (crc p len : Z) : M Z :=
  iter (fun '(i, crc) =>
    if (i <? len) then
      b ← ld8 (p + i);
      match crc32tbl !z (crc32_index crc b) with
      | Some t => mret (inl (i + 1, Z.lxor (u32 (Z.shiftl crc 8)) t))
      | None => faulty OutOfBounds
      end
    else mret (inr crc)) (0, crc).

(** ** Specification

    The CRC register shifted one bit at a time, most significant bit first, with the generator
    polynomial x^32 + x^26 + ... + 1 = 0x04C11DB7. *)

Definition crc_poly : Z := 0x04C11DB7.

Definition crc_bit (c : Z) : Z :=
  Z.lxor (u32 (Z.shiftl c 1)) (if Z.testbit c 31 then crc_poly else 0).

Definition crc_byte (c b : Z) : Z := Nat.iter 8 crc_bit (Z.lxor c (Z.shiftl b 24)).

Definition crc_spec (c : Z) (bs : list Z) : Z := foldl crc_byte c bs.

Definition word32 (c : Z) : Prop := 0 <= c < 4294967296.

(** ** The bit-serial register is linear and injective *)

Lemma bits_word c : word32 c <-> 0 <= c /\ forall i, 32 <= i -> Z.testbit c i = false.
Proof. by apply (bits_bound c 32). Qed.

Lemma u32_bits z i : 0 <= i -> Z.testbit (u32 z) i = (i <? 32) && Z.testbit z i.
Proof.
  intros Hi. unfold u32. change 4294967296 with (2 ^ 32).
  destruct (Z.ltb_spec i 32); [by rewrite Z.mod_pow2_bits_low|].
  rewrite Z.mod_pow2_bits_high; [done|lia].
Qed.

Lemma word32_lxor a b : word32 a -> word32 b -> word32 (Z.lxor a b).
Proof.
  rewrite !bits_word. intros [Ha Ha'] [Hb Hb']. split; [by apply Z.lxor_nonneg|].
  intros i Hi. by rewrite Z.lxor_spec, Ha', Hb'.
Qed.

Lemma word32_u32 z : word32 (u32 z).
Proof. unfold word32, u32. by apply Z.mod_pos_bound. Qed.

Lemma crc_bit_word c : word32 (crc_bit c).
Proof. apply word32_lxor; [apply word32_u32|]. by case_if. Qed.

(** Bitwise equality of integers, by cases on where the bit lies. *)
Ltac bitwise :=
  apply Z.bits_inj'; intros ?i ?Hi;
  rewrite ?u32_bits, ?Z.lxor_spec, ?u32_bits, ?Z.shiftl_spec, ?Z.lxor_spec by lia.

Lemma u32_lxor a b : u32 (Z.lxor a b) = Z.lxor (u32 a) (u32 b).
Proof. bitwise. by destruct (i <? 32). Qed.

Lemma lxor_swap a b c d : Z.lxor (Z.lxor a b) (Z.lxor c d) = Z.lxor (Z.lxor a c) (Z.lxor b d).
Proof.
  rewrite !Z.lxor_assoc. f_equal. rewrite <- !Z.lxor_assoc. f_equal. apply Z.lxor_comm.
Qed.

Lemma crc_bit_linear a b : crc_bit (Z.lxor a b) = Z.lxor (crc_bit a) (crc_bit b).
Proof.
  unfold crc_bit. rewrite Z.shiftl_lxor, u32_lxor, Z.lxor_spec, lxor_swap. f_equal.
  by destruct (Z.testbit a 31), (Z.testbit b 31).
Qed.

Lemma crc_bits_linear n a b :
  Nat.iter n crc_bit (Z.lxor a b) = Z.lxor (Nat.iter n crc_bit a) (Nat.iter n crc_bit b).
Proof. induction n as [|n IH]; [done|]. simpl. by rewrite IH, crc_bit_linear. Qed.

Lemma crc_bit_shift c : 0 <= c < 2147483648 -> crc_bit c = Z.shiftl c 1.
Proof.
  intros Hc. unfold crc_bit. rewrite (testbit_high c 31) by lia.
  rewrite Z.lxor_0_r. apply u32_id. rewrite Z.shiftl_mul_pow2 by lia. lia.
Qed.

Lemma crc_bits_shift n c :
  0 <= c -> c * 2 ^ Z.of_nat n < 4294967296 ->
  Nat.iter n crc_bit c = Z.shiftl c (Z.of_nat n).
Proof.
  revert c. induction n as [|n IH]; intros c Hc Hn; [by rewrite Z.shiftl_0_r|].
  rewrite Nat2Z.inj_succ, Z.pow_succ_r in Hn by lia.
  assert (0 < 2 ^ Z.of_nat n) by (apply Z.pow_pos_nonneg; lia).
  simpl. rewrite IH by lia. rewrite crc_bit_shift.
  - rewrite Z.shiftl_shiftl by lia. f_equal. lia.
  - rewrite Z.shiftl_mul_pow2 by lia. lia.
Qed.

Lemma crc_bit_kernel c : word32 c -> crc_bit c = 0 -> c = 0.
Proof.
  unfold crc_bit. intros Hc H0. destruct (Z.testbit c 31) eqn:E.
  - apply (f_equal (fun z => Z.testbit z 0)) in H0.
    rewrite Z.lxor_spec, u32_bits, Z.shiftl_spec_low in H0 by lia. done.
  - rewrite Z.lxor_0_r in H0. apply Z.bits_inj'. intros i Hi. rewrite Z.bits_0.
    apply bits_word in Hc as [_ Hc].
    destruct (Z.lt_ge_cases i 32); [|by apply Hc].
    destruct (Z.eq_dec i 31) as [->|]; [done|].
    apply (f_equal (fun z => Z.testbit z (i + 1))) in H0.
    rewrite u32_bits, Z.shiftl_spec, Z.bits_0 in H0 by lia.
    replace (i + 1 - 1) with i in H0 by lia.
    by rewrite (proj2 (Z.ltb_lt (i + 1) 32)) in H0 by lia.
Qed.

Lemma crc_bit_inj a b : word32 a -> word32 b -> crc_bit a = crc_bit b -> a = b.
Proof.
  intros Ha Hb H. apply Z.lxor_eq. apply crc_bit_kernel; [by apply word32_lxor|].
  by rewrite crc_bit_linear, H, Z.lxor_nilpotent.
Qed.

Lemma crc_bits_inj n a b :
  word32 a -> word32 b -> Nat.iter n crc_bit a = Nat.iter n crc_bit b -> a = b.
Proof.
  intros Ha Hb. induction n as [|n IH]; [done|]. simpl. intros H. apply IH.
  apply crc_bit_inj in H; [done|..]; destruct n; simpl; done || apply crc_bit_word.
Qed.

Lemma crc_bits_zero n a : word32 a -> Nat.iter n crc_bit a = 0 -> a = 0.
Proof.
  intros Ha. induction n as [|n IH]; [done|]. simpl. intros H. apply IH.
  apply crc_bit_kernel; [|done]. destruct n; simpl; [done|apply crc_bit_word].
Qed.

Lemma word32_shift_byte b k : byte b -> 0 <= k <= 24 -> word32 (Z.shiftl b k).
Proof.
  unfold byte, word32. intros Hb Hk. rewrite Z.shiftl_mul_pow2 by lia.
  assert (0 < 2 ^ k) by (apply Z.pow_pos_nonneg; lia).
  assert (2 ^ k <= 2 ^ 24) by (apply Z.pow_le_mono_r; lia).
  change (2 ^ 24) with 16777216 in *. nia.
Qed.

Lemma crc_byte_eq c b : crc_byte c b = Nat.iter 8 crc_bit (Z.lxor c (Z.shiftl b 24)).
Proof. reflexivity. Qed.

Lemma crc_byte_word c b : word32 (crc_byte c b).
Proof. apply crc_bit_word. Qed.

Lemma crc_byte_inj c d b :
  word32 c -> word32 d -> byte b -> crc_byte c b = crc_byte d b -> c = d.
Proof.
  intros Hc Hd Hb H. pose proof (word32_shift_byte b 24 Hb ltac:(lia)) as Hw.
  rewrite !crc_byte_eq in H. apply (crc_bits_inj 8) in H; [|by apply word32_lxor..].
  rewrite <- (Z.lxor_0_r c), <- (Z.lxor_0_r d), <- (Z.lxor_nilpotent (Z.shiftl b 24)).
  by rewrite <- !Z.lxor_assoc, H.
Qed.

Lemma crc_spec_word c bs : word32 c -> word32 (crc_spec c bs).
Proof.
  revert c. induction bs as [|b bs IH]; intros c Hc; [done|]. apply IH, crc_byte_word.
Qed.

Lemma crc_spec_inj c d bs :
  word32 c -> word32 d -> Forall byte bs -> crc_spec c bs = crc_spec d bs -> c = d.
Proof.
  revert c d. induction bs as [|b bs IH]; intros c d Hc Hd HF H; [done|].
  apply Forall_cons_iff in HF as [Hb HF].
  apply (crc_byte_inj c d b); [done..|].
  apply IH; [apply crc_byte_word..|done|exact H].
Qed.

Lemma crc_spec_app c bs bs' : crc_spec c (bs ++ bs') = crc_spec (crc_spec c bs) bs'.
Proof. apply foldl_app. Qed.

(** ** The table is the bit-serial register on one byte *)

Lemma crc32tbl_spec i :
  0 <= i < 256 -> crc32tbl !z i = Some (Nat.iter 8 crc_bit (Z.shiftl i 24)).
Proof.
  intros Hi.
  assert (H : forallb (fun n => match crc32tbl !z (Z.of_nat n) with
      | Some t => t =? Nat.iter 8 crc_bit (Z.shiftl (Z.of_nat n) 24)
      | None => false end) (seq 0 256) = true) by (vm_compute; reflexivity).
  rewrite forallb_forall in H. specialize (H (Z.to_nat i)).
  specialize (H ltac:(apply in_seq; lia)). rewrite Z2Nat.id in H by lia.
  destruct (crc32tbl !z i); [|done]. apply Z.eqb_eq in H. by subst.
Qed.

Lemma word32_top c : word32 c -> byte (Z.shiftr c 24).
Proof.
  rewrite bits_word, byte_bits. intros [H0 H]. split; [by apply Z.shiftr_nonneg|].
  intros i Hi. rewrite Z.shiftr_spec by lia. apply H. lia.
Qed.

Lemma crc32_index_id c b :
  word32 c -> byte b -> crc32_index c b = Z.lxor (Z.shiftr c 24) b.
Proof.
  intros Hc Hb. unfold crc32_index. rewrite land_ff. apply Z.mod_small.
  apply byte_lxor; [by apply word32_top|done].
Qed.

(** One step of the code's loop is one byte of the specification. *)
Lemma crc_table_step c b :
  word32 c -> byte b ->
  exists t, crc32tbl !z (crc32_index c b) = Some t /\
    Z.lxor (u32 (Z.shiftl c 8)) t = crc_byte c b.
Proof.
  intros Hc Hb. rewrite crc32_index_id by done.
  pose proof (byte_lxor _ _ (word32_top c Hc) Hb) as Hi.
  rewrite (crc32tbl_spec _ Hi). eexists. split; [done|]. unfold crc_byte.
  assert (Hdec : Z.lxor c (Z.shiftl b 24) =
    Z.lxor (c mod 2 ^ 24) (Z.shiftl (Z.lxor (Z.shiftr c 24) b) 24)).
  { apply bits_word in Hc as [_ Hc]. apply Z.bits_inj'. intros i Hi'.
    rewrite !Z.lxor_spec, !Z.shiftl_spec by done. destruct (Z.lt_ge_cases i 24).
    - rewrite Z.mod_pow2_bits_low by done.
      by rewrite !(Z.testbit_neg_r _ (i - 24)) by lia.
    - rewrite Z.mod_pow2_bits_high, Z.lxor_spec, Z.shiftr_spec by lia.
      by replace (i - 24 + 24) with i by lia. }
  rewrite Hdec, crc_bits_linear. f_equal.
  pose proof (Z.mod_pos_bound c (2 ^ 24) ltac:(done)).
  rewrite crc_bits_shift by lia. apply Z.bits_inj'. intros i Hi'.
  rewrite u32_bits, !Z.shiftl_spec by done. change (Z.of_nat 8) with 8.
  destruct (Z.ltb_spec i 32) as [Hlt|Hge]; simpl.
  - destruct (Z.lt_ge_cases i 8); [by rewrite !(Z.testbit_neg_r _ (i - 8)) by lia|].
    by rewrite Z.mod_pow2_bits_low by lia.
  - by rewrite Z.mod_pow2_bits_high by lia.
Qed.

(** ** The loop *)

Section Loop.
Context (m : mem) (p len : Z) (Hb : Forall byte m).
Context (Hp : 0 <= p) (Hlen : 0 <= len) (Hin : p + len <= zlen m).

Lemma crc32_loop c fuel i :
  word32 c -> 0 <= i <= len -> len - i < Z.of_nat fuel ->
  iter_ fuel (fun '(i, crc) =>
    if i <? len then
      b ← ld8 (p + i);
      match crc32tbl !z (crc32_index crc b) with
      | Some t => mret (inl (i + 1, Z.lxor (u32 (Z.shiftl crc 8)) t))
      | None => faulty OutOfBounds
      end
    else mret (inr crc)) (i, crc_spec c (range m p i)) m
  = Ret (crc_spec c (range m p len)) m.
Proof.
  intros Hc. revert i. induction fuel as [|fuel IH]; intros i Hi Hf; [lia|].
  unfold iter_; fold @iter_. unfold mbind, M_bind. case_if.
  - destruct (lookup_z_is_Some m (p + i) ltac:(lia)) as [b Hlk].
    assert (byte b) as Hbyte by (by eapply lookup_z_Forall).
    unfold ld8. rewrite Hlk.
    destruct (crc_table_step (crc_spec c (range m p i)) b) as (t & -> & Ht);
      [by apply crc_spec_word|done|].
    unfold mret, M_ret. rewrite Ht.
    replace (crc_byte _ b) with (crc_spec c (range m p (i + 1))).
    { apply IH; lia. }
    rewrite (range_snoc m p i b), crc_spec_app by (done || lia). done.
  - unfold mret, M_ret. by replace len with i by lia.
Qed.

(** [crc32] reads the range once and leaves the buffer as it was. *)
Lemma crc32_run c : word32 c -> crc32 c p len m = Ret (crc_spec c (range m p len)) m.
Proof.
  intros Hc. unfold crc32, iter.
  replace c with (crc_spec c (range m p 0)) at 1 by (unfold range; by rewrite take_0).
  apply crc32_loop; [done|lia|lia].
Qed.
End Loop.

(** ** Error detection *)

(** Four bytes as the 32-bit word they shift into the register. *)
Definition word4 (b0 b1 b2 b3 : Z) : Z :=
  Z.lxor (Z.lxor (Z.lxor (Z.shiftl b0 24) (Z.shiftl b1 16)) (Z.shiftl b2 8)) b3.

Lemma crc_byte_merge n x b :
  byte b -> (n <= 24)%nat ->
  crc_byte (Nat.iter n crc_bit x) b =
  Nat.iter (8 + n) crc_bit (Z.lxor x (Z.shiftl b (24 - Z.of_nat n))).
Proof.
  intros Hb Hn. unfold crc_byte. rewrite Nat.iter_add. f_equal.
  rewrite crc_bits_linear. f_equal. unfold byte in Hb.
  assert (0 < 2 ^ (24 - Z.of_nat n)) by (apply Z.pow_pos_nonneg; lia).
  rewrite crc_bits_shift, Z.shiftl_shiftl; [f_equal; lia|lia|apply Z.shiftl_nonneg; lia|].
  rewrite Z.shiftl_mul_pow2, <- Z.mul_assoc, <- Z.pow_add_r by lia.
  replace (24 - Z.of_nat n + Z.of_nat n) with 24 by lia. lia.
Qed.

Lemma crc_spec_four c b0 b1 b2 b3 :
  byte b0 -> byte b1 -> byte b2 -> byte b3 ->
  crc_spec c [b0; b1; b2; b3] = Nat.iter 32 crc_bit (Z.lxor c (word4 b0 b1 b2 b3)).
Proof.
  intros H0 H1 H2 H3. unfold crc_spec. cbn [foldl].
  unfold crc_byte at 4. rewrite (crc_byte_merge 8), (crc_byte_merge 16), (crc_byte_merge 24)
    by (done || lia).
  unfold word4. change (24 - Z.of_nat 24) with 0. rewrite Z.shiftl_0_r, !Z.lxor_assoc. done.
Qed.

Lemma word4_word b0 b1 b2 b3 :
  byte b0 -> byte b1 -> byte b2 -> byte b3 -> word32 (word4 b0 b1 b2 b3).
Proof.
  intros. repeat apply word32_lxor; try (apply word32_shift_byte; [done|lia]).
  unfold byte, word32 in *. lia.
Qed.

Lemma word4_bits b0 b1 b2 b3 i :
  byte b0 -> byte b1 -> byte b2 -> byte b3 -> 0 <= i < 32 ->
  Z.testbit (word4 b0 b1 b2 b3) i =
  if i <? 8 then Z.testbit b3 i
  else if i <? 16 then Z.testbit b2 (i - 8)
  else if i <? 24 then Z.testbit b1 (i - 16) else Z.testbit b0 (i - 24).
Proof.
  rewrite !byte_bits. intros [_ H0] [_ H1] [_ H2] [_ H3] Hi. unfold word4.
  rewrite !Z.lxor_spec, !Z.shiftl_spec by lia.
  assert (Hz : forall b k, (forall j, 8 <= j -> Z.testbit b j = false) ->
    k < 0 \/ 8 <= k -> Z.testbit b k = false).
  { intros b k Hb [?|?]; [by apply Z.testbit_neg_r|by apply Hb]. }
  repeat case_if.
  - by rewrite (Hz b0), (Hz b1), (Hz b2) by (done || lia).
  - rewrite (Hz b0), (Hz b1), (Hz b3) by (done || lia). apply xorb_false_r.
  - rewrite (Hz b0), (Hz b2), (Hz b3) by (done || lia). by rewrite !xorb_false_r.
  - rewrite (Hz b1), (Hz b2), (Hz b3) by (done || lia). by rewrite !xorb_false_r.
Qed.

(** A byte of the word, for the injectivity of [word4]. *)
Lemma byte_eq_bits a b : byte a -> byte b ->
  (forall i, 0 <= i < 8 -> Z.testbit a i = Z.testbit b i) -> a = b.
Proof.
  rewrite !byte_bits. intros [_ Ha] [_ Hb] H. apply Z.bits_inj'. intros i Hi.
  destruct (Z.lt_ge_cases i 8); [by apply H|]. by rewrite Ha, Hb.
Qed.

Lemma word4_inj a0 a1 a2 a3 b0 b1 b2 b3 :
  Forall byte [a0; a1; a2; a3] -> Forall byte [b0; b1; b2; b3] ->
  word4 a0 a1 a2 a3 = word4 b0 b1 b2 b3 -> [a0; a1; a2; a3] = [b0; b1; b2; b3].
Proof.
  rewrite !Forall_cons_iff. intros (A0 & A1 & A2 & A3 & _) (B0 & B1 & B2 & B3 & _) H.
  assert (Hb : forall k, 0 <= k < 32 ->
    Z.testbit (word4 a0 a1 a2 a3) k = Z.testbit (word4 b0 b1 b2 b3) k) by (by rewrite H).
  assert (Hw : forall k, 0 <= k < 32 ->
    (if k <? 8 then Z.testbit a3 k else if k <? 16 then Z.testbit a2 (k - 8)
     else if k <? 24 then Z.testbit a1 (k - 16) else Z.testbit a0 (k - 24)) =
    (if k <? 8 then Z.testbit b3 k else if k <? 16 then Z.testbit b2 (k - 8)
     else if k <? 24 then Z.testbit b1 (k - 16) else Z.testbit b0 (k - 24))).
  { intros k Hk. rewrite <- !word4_bits by done. by apply Hb. }
  assert (Hbyte : forall (a b k : Z), byte a -> byte b ->
    (forall i, 0 <= i < 8 -> Z.testbit a (i + k - k) = Z.testbit b (i + k - k)) -> a = b).
  { intros a b k Ha Hb' Hi. apply byte_eq_bits; [done..|]. intros i Hi'.
    specialize (Hi i Hi'). by replace (i + k - k) with i in Hi by lia. }
  f_equal; [|f_equal; [|f_equal; [|f_equal]]].
  - apply (Hbyte _ _ 24); [done..|]. intros i Hi. specialize (Hw (i + 24) ltac:(lia)).
    repeat case_if_in Hw; lia || done.
  - apply (Hbyte _ _ 16); [done..|]. intros i Hi. specialize (Hw (i + 16) ltac:(lia)).
    repeat case_if_in Hw; lia || done.
  - apply (Hbyte _ _ 8); [done..|]. intros i Hi. specialize (Hw (i + 8) ltac:(lia)).
    repeat case_if_in Hw; lia || done.
  - apply (Hbyte _ _ 0); [done..|]. intros i Hi. specialize (Hw (i + 0) ltac:(lia)).
    replace (i + 0 - 0) with (i + 0) by lia. repeat case_if_in Hw; lia || done.
Qed.

(** The CRC separates two messages that differ only in four consecutive bytes. *)
Lemma crc_spec_burst c pre u v post :
  word32 c -> Forall byte pre -> Forall byte post ->
  Forall byte u -> Forall byte v -> length u = 4%nat -> length v = 4%nat ->
  crc_spec c (pre ++ u ++ post) = crc_spec c (pre ++ v ++ post) -> u = v.
Proof.
  intros Hc Hpre Hpost Hu Hv Lu Lv H. rewrite !crc_spec_app in H.
  pose proof (crc_spec_word c pre Hc) as Hw. set (d := crc_spec c pre) in *.
  apply crc_spec_inj in H; [|by apply crc_spec_word..|done].
  destruct u as [|u0 [|u1 [|u2 [|u3 [|]]]]]; try done.
  destruct v as [|v0 [|v1 [|v2 [|v3 [|]]]]]; try done.
  assert (Hu' := Hu). assert (Hv' := Hv).
  rewrite !Forall_cons_iff in Hu', Hv'. destruct_and!.
  rewrite !crc_spec_four in H by done.
  apply crc_bits_inj in H; [|by apply word32_lxor; [|apply word4_word]..].
  apply word4_inj; [done..|].
  apply (f_equal (Z.lxor d)) in H.
  by rewrite <- !Z.lxor_assoc, !Z.lxor_nilpotent, !Z.lxor_0_l in H.
Qed.

(** ** The CRC field *)

(** The CRC as the four bytes appended to a section, most significant first. *)
Definition crc_bytes (c : Z) : list Z := rev (le_split 4 c).

Lemma crc_bytes_bytes c : Forall byte (crc_bytes c).
Proof. apply Forall_rev, le_split_bytes. Qed.

Lemma word4_crc_bytes c b0 b1 b2 b3 :
  word32 c -> crc_bytes c = [b0; b1; b2; b3] -> word4 b0 b1 b2 b3 = c.
Proof.
  intros Hc. cbn. intros [= <- <- <- <-]. apply Z.bits_inj'. intros i Hi.
  destruct (Z.lt_ge_cases i 32).
  - rewrite word4_bits by (by apply u8_byte || done).
    rewrite !Z.div_div by lia. change (256 * 256 * 256) with (2 ^ 24).
    change (256 * 256) with (2 ^ 16). change 256 with (2 ^ 8).
    repeat case_if; rewrite Z.mod_pow2_bits_low, <- ?Z.shiftr_div_pow2, ?Z.shiftr_spec by lia;
      f_equal; lia.
  - apply bits_word in Hc as [_ Hc]. rewrite Hc by done.
    eapply bits_word; [|done]. apply word4_word; apply u8_byte.
Qed.

(** Appending the CRC of a message makes the CRC of the whole zero; no other four bytes do. *)
Lemma crc_spec_append c bs u :
  word32 c -> Forall byte bs -> Forall byte u -> length u = 4%nat ->
  crc_spec c (bs ++ u) = 0 <-> u = crc_bytes (crc_spec c bs).
Proof.
  intros Hc Hbs Hu Lu. rewrite crc_spec_app.
  pose proof (crc_spec_word c bs Hc) as Hw. set (d := crc_spec c bs) in *.
  destruct (crc_bytes d) as [|e0 [|e1 [|e2 [|e3 [|]]]]] eqn:Ed; try done.
  pose proof (crc_bytes_bytes d) as He. rewrite Ed in He.
  destruct u as [|u0 [|u1 [|u2 [|u3 [|]]]]]; try done.
  assert (Hu' := Hu). rewrite !Forall_cons_iff in Hu'. destruct_and!.
  rewrite crc_spec_four by done. split.
  - intros Hz. apply crc_bits_zero in Hz; [|by apply word32_lxor; [|apply word4_word]].
    apply Z.lxor_eq in Hz. apply word4_inj; [done..|]. rewrite <- Hz.
    symmetry. by apply word4_crc_bytes.
  - intros [= -> -> -> ->]. rewrite (word4_crc_bytes d) by done.
    by rewrite Z.lxor_nilpotent.
Qed.

(** C40: [crc32] of a range of a buffer is the bit-serial CRC, with the generator polynomial of MPEG,
    of the bytes of the range; the buffer is read inside the range only and not written. *)
Theorem crc32_correct c p len m :
  word32 c -> 0 <= p -> 0 <= len -> p + len <= zlen m -> Forall byte m ->
  crc32 c p len m = Ret (crc_spec c (range m p len)) m.
Proof. intros. by apply crc32_run. Qed.

Lemma crc32_correct_witness :
  crc32 CRC32_INIT 1 3 [7; 49; 50; 51; 7] =
  Ret (crc_spec CRC32_INIT (range [7; 49; 50; 51; 7] 1 3)) [7; 49; 50; 51; 7].
Proof.
  apply (crc32_correct CRC32_INIT 1 3 [7; 49; 50; 51; 7]);
    [by split|lia|lia|cbn; lia|solve_bytes].
Defined.
