(* ===== verification/Descriptor.v ===== *)
(** * descriptor.h: descriptor loops

    A descriptor loop is a sequence of (tag, length, data) records.  [verify_descriptors] is the
    check every section codec applies to its loops, [next_descriptor] the step of the iterators. *)

From S2P Require Export CMem.

(** ** The code *)

(** [verify_descriptors(buf, len)], [buf] at offset [base]: 0, or -1 for a malformed loop. *)
Definition verify_descriptors (base len : Z) : M Z :=
  iter (fun pos =>
    if pos <? len then
      if len <? pos + 2 then mret (inr (-1))
      else l ← ld8 (base + pos + 1); mret (inl (pos + (2 + l)))
    else if negb (pos =? len) then mret (inr (-1))
    else mret (inr 0)) 0.

(** [next_descriptor(buf, len, pos)]: [None] is NULL. *)
Definition next_descriptor (base len : Z) (pos : option Z) : M (option Z) :=
  match pos with
  | None => mret None
  | Some p =>
      l ← ld8 (p + 1);
      let next := p + 2 + l in
      if base + len <=? next then mret None else mret (Some next)
  end.

(** The first descriptor of a loop, as every [*_descriptors_first] accessor computes it. *)
Definition first_descriptor (base len : Z) : option Z :=
  if len =? 0 then None else Some base.

(** [for (pos = first; pos; pos = next)], collecting what the body reads at each position. *)
Definition for_each_body {A} (next : Z -> M (option Z)) (read : Z -> M A)
    (s : option Z * list A) : M ((option Z * list A) + list A) :=
  let '(pos, acc) := s in
  match pos with
  | None => mret (inr acc)
  | Some p => a ← read p; pos' ← next p; mret (inl (pos', acc ++ [a]))
  end.

Definition for_each {A} (first : M (option Z)) (next : Z -> M (option Z))
    (read : Z -> M A) : M (list A) :=
  start ← first;
  iter (for_each_body next read) (start, []).

Lemma for_each_step {A} next (read : Z -> M A) f p acc a pos' m :
  read p m = Ret a m -> next p m = Ret pos' m ->
  iter_ (S f) (for_each_body next read) (Some p, acc) m =
  iter_ f (for_each_body next read) (pos', acc ++ [a]) m.
Proof.
  intros Hr Hn. cbn [iter_].
  erewrite (bind_run _ _ (inl (pos', acc ++ [a])) m m); [done|]. cbn [for_each_body].
  run by exact Hr. by run by exact Hn.
Qed.

Lemma for_each_exit {A} next (read : Z -> M A) f acc m :
  iter_ (S f) (for_each_body next read) (None, acc) m = Ret acc m.
Proof. done. Qed.

Lemma for_each_ext {A} first next next' (read read' : Z -> M A) m r :
  (forall p m, next p m = next' p m) -> (forall p m, read p m = read' p m) ->
  for_each first next' read' m = r -> for_each first next read m = r.
Proof.
  intros Hn Hr <-. unfold for_each, iter, mbind, M_bind.
  destruct (first m) as [s m'| |]; [|done..].
  generalize (S (length m')). intros f. generalize (@nil A). revert s m'.
  induction f as [|f IH]; intros s m' acc; [done|]. cbn [iter_ for_each_body].
  destruct s as [p|]; [|done]. unfold mbind, M_bind in *. rewrite Hr.
  destruct (read' p m') as [a m2| |]; [|done..]. rewrite Hn.
  destruct (next' p m2) as [q m3| |]; [|done..]. apply IH.
Qed.

(** The tag, and the [len] bytes after the header, of the descriptor at [p]
    ([unknown_descriptor_data]). *)
Definition read_descriptor (p : Z) : M (Z * list Z) :=
  tag ← ld8 p;
  l ← ld8 (p + 1);
  data ← ld_bytes (p + 2) (Z.to_nat l);
  mret (tag, data).

Definition descriptors_for_each (base len : Z) : M (list (Z * list Z)) :=
  for_each (mret (first_descriptor base len)) (fun p => next_descriptor base len (Some p))
    read_descriptor.

(** ** Specification: the grammar of a descriptor loop *)

Definition encode_descriptor (d : Z * list Z) : list Z := d.1 :: zlen d.2 :: d.2.

Definition encode_descriptors (ds : list (Z * list Z)) : list Z := ds ≫= encode_descriptor.

Fixpoint parse_fuel (fuel : nat) (bs : list Z) : option (list (Z * list Z)) :=
  match fuel, bs with
  | O, _ => None
  | S _, [] => Some []
  | S _, [_] => None
  | S fuel', tag :: l :: rest =>
      if l <=? zlen rest
      then cons (tag, take (Z.to_nat l) rest) <$> parse_fuel fuel' (drop (Z.to_nat l) rest)
      else None
  end.

Definition parse_descriptors (bs : list Z) : option (list (Z * list Z)) :=
  parse_fuel (S (length bs)) bs.

(** A descriptor whose data fit the one-byte length. *)
Definition descriptor_ok (d : Z * list Z) : Prop := zlen d.2 < 256.

Lemma parse_fuel_irrel f f' bs :
  (length bs < f)%nat -> (length bs < f')%nat -> parse_fuel f bs = parse_fuel f' bs.
Proof.
  revert f' bs. induction f as [|f IH]; intros f' bs Hf Hf'; [lia|].
  destruct f' as [|f']; [lia|]. destruct bs as [|t [|l rest]]; [done..|]. cbn [parse_fuel].
  case_if; [|done]. f_equal. simpl in *. apply IH; rewrite length_drop; lia.
Qed.

Lemma parse_cons tag l rest :
  parse_descriptors (tag :: l :: rest) =
  if l <=? zlen rest
  then cons (tag, take (Z.to_nat l) rest) <$> parse_descriptors (drop (Z.to_nat l) rest)
  else None.
Proof.
  unfold parse_descriptors at 1. cbn [parse_fuel]. case_if; [|done]. f_equal.
  apply parse_fuel_irrel; rewrite ?length_drop; simpl; lia.
Qed.

Lemma parse_encode ds : parse_descriptors (encode_descriptors ds) = Some ds.
Proof.
  induction ds as [|[t d] ds IH]; [done|].
  cbn [encode_descriptors mbind list_bind encode_descriptor fst snd app].
  rewrite parse_cons. case_if.
  - rewrite Nat2Z.id, take_app_length, drop_app_length.
    unfold encode_descriptors in IH. cbn in IH |- *. by rewrite IH.
  - rewrite length_app in E. lia.
Qed.

Lemma parse_fuel_sound f bs ds :
  Forall byte bs -> parse_fuel f bs = Some ds ->
  encode_descriptors ds = bs /\ Forall descriptor_ok ds.
Proof.
  revert bs ds. induction f as [|f IH]; intros bs ds Hb H; [done|].
  destruct bs as [|t [|l rest]]; cbn [parse_fuel] in H; [by simplify_eq|done|].
  case_if_in H; [|done]. apply fmap_Some in H as (ds' & H & ->).
  rewrite !Forall_cons_iff in Hb. destruct Hb as (_ & Hl & Hr). unfold byte in Hl.
  apply IH in H as [He Hok]; [|by apply Forall_drop].
  assert (Hlen : zlen (take (Z.to_nat l) rest) = l) by (rewrite length_take; lia).
  split.
  - cbn [encode_descriptors mbind list_bind encode_descriptor fst snd app].
    rewrite Hlen. do 2 f_equal. unfold encode_descriptors in He. cbn in He. rewrite He.
    apply take_drop.
  - constructor; [|done]. unfold descriptor_ok. cbn [snd]. rewrite Hlen. lia.
Qed.

Lemma parse_sound bs ds :
  Forall byte bs -> parse_descriptors bs = Some ds ->
  encode_descriptors ds = bs /\ Forall descriptor_ok ds.
Proof. apply parse_fuel_sound. Qed.

(** ** verify_descriptors decides the grammar *)

Section Loop.
Context (m : mem) (base len : Z) (Hb : Forall byte m).
Context (Hbase : 0 <= base) (Hlen : 0 <= len) (Hin : base + len <= zlen m).

Lemma ld8_run p : 0 <= p < zlen m -> exists b, m !z p = Some b /\ byte b /\ ld8 p m = Ret b m.
Proof.
  intros Hp. destruct (lookup_z_is_Some m p Hp) as [b Hlk]. exists b.
  split; [done|]. split; [by eapply lookup_z_Forall|]. unfold ld8. by rewrite Hlk.
Qed.

(** The bytes of the loop from [pos] on. *)
Let tail (pos : Z) : list Z := range m (base + pos) (len - pos).

Lemma tail_two pos t l :
  0 <= pos -> pos + 2 <= len ->
  m !z (base + pos) = Some t -> m !z (base + pos + 1) = Some l -> byte l ->
  tail pos = t :: l :: range m (base + pos + 2) (len - pos - 2) /\
  drop (Z.to_nat l) (range m (base + pos + 2) (len - pos - 2)) = tail (pos + (2 + l)).
Proof.
  intros Hp Hl2 Ht Hl Hlb. unfold byte in Hlb. unfold tail. split.
  - rewrite (range_cons _ _ _ t), (range_cons _ _ _ l) by (done || lia).
    do 3 f_equal; lia.
  - rewrite range_drop by lia. f_equal; lia.
Qed.

Lemma verify_loop fuel pos :
  0 <= pos -> Z.max 0 (len - pos) < Z.of_nat fuel ->
  iter_ fuel (fun pos =>
    if pos <? len then
      if len <? pos + 2 then mret (inr (-1))
      else l ← ld8 (base + pos + 1); mret (inl (pos + (2 + l)))
    else if negb (pos =? len) then mret (inr (-1)) else mret (inr 0)) pos m
  = Ret (if pos <=? len then
           match parse_descriptors (tail pos) with Some _ => 0 | None => -1 end
         else -1) m.
Proof.
  revert pos. induction fuel as [|fuel IH]; intros pos Hp Hf; [lia|].
  unfold iter_; fold @iter_. unfold mbind, M_bind.
  destruct (Z.ltb_spec pos len) as [Hlt|Hge].
  - rewrite (proj2 (Z.leb_le pos len)) by lia.
    destruct (Z.ltb_spec len (pos + 2)) as [Hs|Hs].
    + destruct (ld8_run (base + pos) ltac:(lia)) as (t & Ht & _ & _).
      unfold tail. rewrite (range_cons _ _ _ t), range_nil by (done || lia). done.
    + destruct (ld8_run (base + pos) ltac:(lia)) as (t & Ht & _ & _).
      destruct (ld8_run (base + pos + 1) ltac:(lia)) as (l & Hl & Hlb & ->).
      destruct (tail_two pos t l) as [-> Hd]; [done..|]. unfold byte in Hlb.
      rewrite parse_cons, Hd, range_length by lia. cbn [mret M_ret].
      unfold mret, M_ret. rewrite IH by lia.
      destruct (Z.leb_spec (pos + (2 + l)) len), (Z.leb_spec l (len - pos - 2));
        try lia; [|done].
      by destruct (parse_descriptors _).
  - destruct (Z.eqb_spec pos len) as [->|Hne]; cbn.
    + rewrite (proj2 (Z.leb_le len len)) by lia. unfold tail. by rewrite range_nil by lia.
    + by rewrite (proj2 (Z.leb_gt pos len)) by lia.
Qed.

Lemma verify_descriptors_run :
  verify_descriptors base len m =
  Ret (match parse_descriptors (range m base len) with Some _ => 0 | None => -1 end) m.
Proof.
  unfold verify_descriptors, iter. rewrite verify_loop by lia.
  rewrite (proj2 (Z.leb_le 0 len)) by lia. unfold tail. by rewrite Z.add_0_r, Z.sub_0_r.
Qed.
(** The state of the iterator at position [pos] of the loop. *)
Let cursor (pos : Z) : option Z := if pos <? len then Some (base + pos) else None.

Lemma ld_bytes_run p n :
  0 <= p -> p + Z.of_nat n <= zlen m -> ld_bytes p n m = Ret (range m p (Z.of_nat n)) m.
Proof.
  clear Hin. revert p. induction n as [|n IH]; intros p Hp Hn; [done|].
  cbn [ld_bytes]. unfold mbind at 1, M_bind at 1.
  destruct (ld8_run p ltac:(lia)) as (b & Hlk & _ & ->).
  unfold mbind, M_bind. rewrite IH by lia.
  rewrite (range_cons m p (Z.of_nat (S n)) b) by (done || lia).
  unfold mret, M_ret. do 3 f_equal. lia.
Qed.

Lemma descriptors_loop fuel pos acc ds :
  0 <= pos <= len -> parse_descriptors (tail pos) = Some ds ->
  (length ds < fuel)%nat ->
  iter_ fuel (for_each_body (fun p => next_descriptor base len (Some p)) read_descriptor)
    (cursor pos, acc) m = Ret (acc ++ ds) m.
Proof.
  revert pos acc ds. induction fuel as [|fuel IH]; intros pos acc ds Hp Hds Hf; [lia|].
  unfold cursor. destruct (Z.ltb_spec pos len) as [Hlt|Hge].
  - destruct (ld8_run (base + pos) ltac:(lia)) as (t & Ht & _ & Ht').
    assert (Hs : pos + 2 <= len).
    { destruct (Z.lt_ge_cases len (pos + 2)); [|done]. unfold tail in Hds.
      rewrite (range_cons _ _ _ t), range_nil in Hds by (done || lia). done. }
    destruct (ld8_run (base + pos + 1) ltac:(lia)) as (l & Hl & Hlb & Hl').
    destruct (tail_two pos t l) as [Htail Hdrop]; [done || lia..|]. unfold byte in Hlb.
    rewrite Htail, parse_cons, range_length, Hdrop in Hds by lia.
    destruct (Z.leb_spec l (len - pos - 2)); [|done].
    apply fmap_Some in Hds as (ds' & Hds' & ->). rewrite range_take by lia.
    erewrite (for_each_step _ _ fuel (base + pos) acc _ (cursor (pos + (2 + l)))).
    + rewrite (IH _ _ ds'); [by rewrite <- app_assoc|lia|done|simpl in Hf; lia].
    + unfold read_descriptor. run by exact Ht'.
      run by exact Hl'.
      run by (apply ld_bytes_run; lia). by rewrite Z2Nat.id by lia.
    + unfold next_descriptor. run by exact Hl'. unfold cursor.
      destruct (Z.leb_spec (base + len) (base + pos + 2 + l)),
        (Z.ltb_spec (pos + (2 + l)) len); try lia; [done|].
      by replace (base + pos + 2 + l) with (base + (pos + (2 + l))) by lia.
  - unfold tail in Hds. rewrite range_nil in Hds by lia.
    cbn in Hds. simplify_eq. rewrite app_nil_r. apply for_each_exit.
Qed.

Lemma parse_length bs ds : parse_descriptors bs = Some ds -> (length ds <= length bs)%nat.
Proof.
  unfold parse_descriptors. generalize (S (length bs)). intros f. revert bs ds.
  induction f as [|f IH]; intros [|t [|l rest]] ds H; cbn [parse_fuel] in H; simplify_eq/=;
    [lia|]. case_if_in H; [|done]. apply fmap_Some in H as (ds' & H & ->).
  apply IH in H. rewrite length_drop in H. simpl. lia.
Qed.

(** Iterating over an accepted loop visits the descriptors of the grammar, in order. *)
Lemma descriptors_for_each_run ds :
  parse_descriptors (range m base len) = Some ds ->
  descriptors_for_each base len m = Ret ds m.
Proof.
  intros Hds. unfold descriptors_for_each, for_each, mbind at 1, M_bind at 1.
  unfold mret at 1, M_ret at 1. unfold iter.
  replace (first_descriptor base len) with (cursor 0).
  { apply (descriptors_loop _ 0 []); [lia| |].
    - unfold tail. by rewrite Z.add_0_r, Z.sub_0_r.
    - apply parse_length in Hds. pose proof (range_length m base len). lia. }
  unfold cursor, first_descriptor. rewrite Z.add_0_r.
  destruct (Z.ltb_spec 0 len), (Z.eqb_spec len 0); done || lia.
Qed.
End Loop.

(** ** Rules for the section codecs *)

Lemma safe_verify_descriptors {m0 k} base len :
  0 <= base -> 0 <= len -> base + len <= zlen m0 ->
  safe m0 k (verify_descriptors base len) (fun r => r = 0 \/ r = -1).
Proof.
  intros Hb Hl Hin m Hm. assert (Hm' := Hm). destruct Hm' as [Hlen Hbytes _].
  unfold wp. rewrite verify_descriptors_run by (done || lia).
  split; [done|]. destruct (parse_descriptors _); auto.
Qed.

#[export] Hint Extern 1 (safe _ _ (verify_descriptors _ _) _) =>
  apply safe_verify_descriptors; lia : safe.


(** [verify_descriptors] returns 0 exactly on the bytes that are a sequence of whole
    descriptors, reading only inside the range; and on those the iterator of the loop visits
    exactly these descriptors, in order. *)
Theorem verify_descriptors_correct m base len :
  Forall byte m -> 0 <= base -> 0 <= len -> base + len <= zlen m ->
  exists r, verify_descriptors base len m = Ret r m /\
    match parse_descriptors (range m base len) with
    | Some ds => r = 0 /\ descriptors_for_each base len m = Ret ds m
    | None => r = -1
    end.
Proof.
  intros Hb H1 H2 H3. eexists. split; [by apply verify_descriptors_run|].
  destruct (parse_descriptors _) eqn:E; [|done]. split; [done|]. by apply descriptors_for_each_run.
Qed.

Lemma verify_descriptors_correct_witness :
  let m := [9; 1; 2; 7; 8; 3; 0; 9] in
  exists r, verify_descriptors 1 6 m = Ret r m /\
    match parse_descriptors (range m 1 6) with
    | Some ds => r = 0 /\ descriptors_for_each 1 6 m = Ret ds m
    | None => r = -1
    end.
Proof.
  intros m. apply (verify_descriptors_correct m 1 6); [unfold m; solve_bytes|lia|lia|cbn; lia].
Defined.
