(* ===== verification/SectionBuf.v ===== *)
(** * section_buf.c: reassembly of sections

    A [section_buf] accumulates the fragments of one section, from the payloads of the transport
    packets of a PID.  The data area behind the structure has [max] bytes. *)

From S2P Require Export CMem.

(** ** The code *)

Definition SECTION_HDR_SIZE : Z := 3.
Definition SECTION_PAD : Z := 0xff.
Definition EINVAL : Z := 22.
Definition ERANGE : Z := 34.

(** [struct section_buf]; [sb_data] holds the bytes written to the data area, [sb_count] of
    them. *)
Record section_buf := SectionBuf {
  sb_max : Z;
  sb_count : Z;
  sb_len : Z;
  sb_header : bool;
  sb_wait_pdu : bool;
  sb_data : list Z;
}.

Definition section_buf_init (max : Z) : option section_buf :=
  if max <? SECTION_HDR_SIZE then None
  else Some (SectionBuf max 0 SECTION_HDR_SIZE false true []).

Definition section_buf_reset (s : section_buf) : section_buf :=
  match section_buf_init (sb_max s) with
  | Some s' => SectionBuf (sb_max s') (sb_count s') (sb_len s') (sb_header s') (sb_wait_pdu s)
                 (sb_data s')
  | None => s
  end.

Definition section_buf_remaining (s : section_buf) : Z := sb_len s - sb_count s.

(** [memcpy(pos, frag, copy); section->count += copy;], [pos] at [count] in the data area. *)
Definition sb_append (s : section_buf) (frag : list Z) (copy : Z) : res section_buf :=
  if (0 <=? copy) && (copy <=? zlen frag) && (sb_count s + copy <=? sb_max s) then
    Ok (SectionBuf (sb_max s) (sb_count s + copy) (sb_len s) (sb_header s) (sb_wait_pdu s)
          (sb_data s ++ take (Z.to_nat copy) frag))
  else Err OutOfBounds.

Definition set_header (s : section_buf) (len : Z) (header : bool) : section_buf :=
  SectionBuf (sb_max s) (sb_count s) len header (sb_wait_pdu s) (sb_data s).

Definition set_wait_pdu (s : section_buf) (w : bool) : section_buf :=
  SectionBuf (sb_max s) (sb_count s) (sb_len s) (sb_header s) w (sb_data s).

(** [while (len && ( *frag == SECTION_PAD))]: the bytes skipped, and the rest. *)
Fixpoint skip_pad (frag : list Z) : Z * list Z :=
  match frag with
  | b :: frag' =>
      if b =? SECTION_PAD then let '(used, rest) := skip_pad frag' in (used + 1, rest)
      else (0, frag)
  | [] => (0, [])
  end.

Definition sb_complete (s : section_buf) : bool := sb_header s && (sb_len s =? sb_count s).

(** "accumulate frag", to the end of [section_buf_add]. *)
Definition sb_accumulate (s : section_buf) (frag : list Z) (used : Z) :
    res (Z * Z * section_buf) :=
  let copy := sb_len s - sb_count s in
  let copy := if zlen frag <? copy then zlen frag else copy in
  s ← sb_append s frag copy;
  mret (used + copy, (if sb_complete s then 1 else 0), s).

(** "grab the header to get the section length", when it has not arrived yet. *)
Definition sb_grab_header (s : section_buf) (frag : list Z) (used : Z) :
    res (Z * Z * section_buf) :=
  let copy := SECTION_HDR_SIZE - sb_count s in
  let copy := if zlen frag <? copy then zlen frag else copy in
  s ← sb_append s frag copy;
  let frag := drop (Z.to_nat copy) frag in
  let used := used + copy in
  if negb (sb_count s =? SECTION_HDR_SIZE) then mret (used, 0, s)
  else
    d1 ← at_ (sb_data s) 1;
    d2 ← at_ (sb_data s) 2;
    let len := SECTION_HDR_SIZE + Z.lor (Z.shiftl (Z.land d1 0x0f) 8) d2 in
    if sb_max s <? len then mret (zlen frag + used, - ERANGE, set_header s len false)
    else sb_accumulate (set_header s len true) frag used.

(** The bytes used, [section_status], and the new state. *)
Definition section_buf_add (s : section_buf) (frag : list Z) : res (Z * Z * section_buf) :=
  if sb_complete s then mret (0, 1, s)
  else
    let '(used, frag) := if sb_count s =? 0 then skip_pad frag else (0, frag) in
    if (sb_count s =? 0) && (zlen frag =? 0) then mret (used, 0, s)
    else if negb (sb_header s) then sb_grab_header s frag used
    else sb_accumulate s frag used.

Definition section_buf_add_transport_payload (s : section_buf) (payload : list Z)
    (pdu_start : bool) : res (Z * Z * section_buf) :=
  let len := zlen payload in
  if sb_complete s then mret (0, 1, s)
  else if sb_wait_pdu s && negb pdu_start then mret (len, 0, s)
  else
    let add s used :=
      '(tmp, status, s) ← section_buf_add s (drop (Z.to_nat used) payload);
      mret (used + tmp, status, if status <? 0 then set_wait_pdu s true else s) in
    if pdu_start then
      let s := set_wait_pdu s false in
      offset ← at_ payload 0;
      if len <? offset + 1 then mret (len, - EINVAL, set_wait_pdu s true)
      else if negb (sb_count s =? 0) then
        '(tmp, status, s) ← section_buf_add s (take (Z.to_nat offset) (drop 1 payload));
        if negb (tmp =? offset) || negb (section_buf_remaining s =? 0) || negb (status =? 1)
        then mret (1 + tmp, - ERANGE, set_wait_pdu s true)
        else mret (1 + tmp, status, s)
      else add s (1 + offset)
    else add s 0.

(** ** Specification: the state is a function of the bytes received *)

(** The length a section announces in its first three bytes; 3 before they have arrived. *)
Definition total (bs : list Z) : Z :=
  match bs with
  | _ :: b1 :: b2 :: _ => SECTION_HDR_SIZE + Z.lor (Z.shiftl (Z.land b1 0x0f) 8) b2
  | _ => SECTION_HDR_SIZE
  end.

(** The header has arrived and announces more than [max] bytes; the section has arrived. *)
Definition overlong (max : Z) (bs : list Z) : bool := (3 <=? zlen bs) && (max <? total bs).
Definition complete (max : Z) (bs : list Z) : bool :=
  (3 <=? zlen bs) && (total bs <=? max) && (total bs =? zlen bs).

(** The bytes of a stream that are kept: up to the end of the section, or only its header when it
    is too long. *)
Definition section_bytes (max : Z) (bs : list Z) : list Z :=
  if zlen bs <? 3 then bs
  else if max <? total bs then take 3 bs
  else take (Z.to_nat (total bs)) bs.

(** The state after the bytes [bs] of a section. *)
Definition sb_of (max : Z) (w : bool) (bs : list Z) : section_buf :=
  SectionBuf max (zlen bs) (total bs) ((3 <=? zlen bs) && (total bs <=? max)) w bs.

(** The bytes of a fragment that belong to the section: padding is skipped before it starts. *)
Definition unpad (bs frag : list Z) : list Z :=
  match bs with [] => (skip_pad frag).2 | _ => frag end.

Definition pads (bs frag : list Z) : Z :=
  match bs with [] => (skip_pad frag).1 | _ => 0 end.

Definition add_status (max : Z) (bs : list Z) : Z :=
  if overlong max bs then - ERANGE else if complete max bs then 1 else 0.

Lemma total_three bs : zlen bs < 3 -> total bs = 3.
Proof. destruct bs as [|? [|? [|? ?]]]; simpl; done || lia. Qed.

Lemma total_min bs : Forall byte bs -> 3 <= total bs.
Proof.
  intros Hb. destruct bs as [|? [|b1 [|b2 ?]]]; cbn [total]; try done.
  assert (byte b1 /\ byte b2) as [H1 H2] by solve_bytes. unfold byte in H2.
  assert (0 <= Z.lor (Z.shiftl (Z.land b1 15) 8) b2); [|unfold SECTION_HDR_SIZE; lia].
  apply Z.lor_nonneg. split; [|lia]. apply Z.shiftl_nonneg, Z.land_nonneg. by right.
Qed.

Lemma total_app bs l : 3 <= zlen bs -> total (bs ++ l) = total bs.
Proof. by destruct bs as [|? [|? [|? ?]]]; simpl; try lia. Qed.

Lemma total_take n bs : (3 <= n)%nat -> total (take n bs) = total bs.
Proof. destruct n as [|[|[|n]]]; try lia. by destruct bs as [|? [|? [|? ?]]]. Qed.

Lemma skip_pad_length frag : (skip_pad frag).1 + zlen (skip_pad frag).2 = zlen frag /\
  0 <= (skip_pad frag).1.
Proof.
  induction frag as [|b frag IH]; [done|]. cbn [skip_pad]. case_if; [|by cbn].
  destruct (skip_pad frag) as [u r]. cbn in *. lia.
Qed.

Lemma skip_pad_bytes frag : Forall byte frag -> Forall byte (skip_pad frag).2.
Proof.
  induction 1 as [|b frag Hb Hf IH]; [done|]. cbn [skip_pad]. case_if; [|by constructor].
  by destruct (skip_pad frag).
Qed.

Lemma unpad_bytes bs frag : Forall byte frag -> Forall byte (unpad bs frag).
Proof. intros H. destruct bs; [by apply skip_pad_bytes|done]. Qed.

(** What has been kept is kept for good. *)
Lemma section_bytes_app max bs l :
  Forall byte bs -> section_bytes max (section_bytes max bs ++ l) = section_bytes max (bs ++ l).
Proof.
  intros Hb. pose proof (total_min bs Hb).
  unfold section_bytes at 2. destruct (Z.ltb_spec (zlen bs) 3) as [|Hl]; [done|].
  assert (Ht : forall n, (3 <= n)%nat -> total (take n bs ++ l) = total (bs ++ l)).
  { intros n Hn. rewrite (total_app bs) by done. rewrite total_app by (rewrite length_take; lia).
    by apply total_take. }
  destruct (Z.ltb_spec max (total bs)) as [Hm|Hm]; unfold section_bytes; rewrite Ht by lia;
    rewrite (total_app bs) by done; rewrite !length_app, length_take.
  - rewrite !(proj2 (Z.ltb_ge _ 3)), (proj2 (Z.ltb_lt _ _)) by lia.
    rewrite !take_app_le by (rewrite ?length_take; lia). by rewrite take_take.
  - rewrite !(proj2 (Z.ltb_ge _ _)) by lia.
    destruct (Z.le_gt_cases (total bs) (zlen bs)).
    + rewrite !take_app_le by (rewrite ?length_take; lia). by rewrite take_take, Nat.min_id.
    + by rewrite (take_ge bs) by lia.
Qed.

(** The bytes kept so far are a state of the buffer. *)
Record sb_wf (max : Z) (bs : list Z) : Prop := {
  wf_max : 3 <= max;
  wf_bytes : Forall byte bs;
  wf_kept : section_bytes max bs = bs;
}.

Lemma wf_length max bs :
  sb_wf max bs -> zlen bs <= max /\ (3 <= zlen bs -> total bs <= max -> zlen bs <= total bs) /\
    (max < total bs -> zlen bs <= 3).
Proof.
  intros [Hmax Hb Hk]. pose proof (total_min bs Hb). unfold section_bytes in Hk.
  destruct (Z.ltb_spec (zlen bs) 3); [lia|].
  destruct (Z.ltb_spec max (total bs)).
  - apply (f_equal length) in Hk. rewrite length_take in Hk. lia.
  - apply (f_equal length) in Hk. rewrite length_take in Hk. lia.
Qed.

Lemma section_bytes_wf max bs : 3 <= max -> Forall byte bs -> sb_wf max (section_bytes max bs).
Proof.
  intros Hmax Hb. split; [done| |].
  - unfold section_bytes. repeat case_if; by try apply Forall_take.
  - pose proof (section_bytes_app max bs [] Hb) as H. by rewrite !app_nil_r in H.
Qed.

(** ** section_buf_add *)

Lemma sb_append_run s frag copy :
  0 <= copy <= zlen frag -> sb_count s + copy <= sb_max s ->
  sb_append s frag copy =
  Ok (SectionBuf (sb_max s) (sb_count s + copy) (sb_len s) (sb_header s) (sb_wait_pdu s)
        (sb_data s ++ take (Z.to_nat copy) frag)).
Proof.
  intros Hc Hm. unfold sb_append.
  by rewrite !(proj2 (Z.leb_le _ _)) by lia.
Qed.

(** Accumulating after a complete header. *)
Lemma accumulate_run max w d frag used :
  3 <= max -> Forall byte d -> 3 <= zlen d -> zlen d <= total d <= max ->
  let d' := section_bytes max (d ++ frag) in
  sb_accumulate (sb_of max w d) frag used =
  Ok (used + (zlen d' - zlen d), add_status max d', sb_of max w d').
Proof.
  intros Hmax Hb H3 Ht d'. unfold sb_accumulate. cbn [sb_of sb_len sb_count].
  set (copy := if zlen frag <? total d - zlen d then zlen frag else total d - zlen d).
  assert (Hcopy : 0 <= copy <= zlen frag /\ zlen d + copy <= total d)
    by (unfold copy; case_if; lia).
  rewrite sb_append_run by (cbn; lia). cbn [mbind res_bind sb_of sb_max sb_count sb_len sb_header
    sb_wait_pdu sb_data].
  assert (Hd' : d' = d ++ take (Z.to_nat copy) frag).
  { unfold d', section_bytes. rewrite total_app by done. rewrite length_app.
    rewrite !(proj2 (Z.ltb_ge _ _)) by lia. rewrite take_app_ge by lia. f_equal.
    unfold copy. case_if; [by rewrite !take_ge by lia|]. f_equal. lia. }
  assert (Hl' : zlen d' = zlen d + copy) by (rewrite Hd', length_app, length_take; lia).
  assert (Htd : total d' = total d) by (rewrite Hd'; by apply total_app).
  rewrite <- Hd'. unfold mret, res_ret. do 3 f_equal.
  - f_equal. lia.
  - unfold add_status, overlong, complete, sb_complete.
    cbn [sb_header sb_len sb_count]. rewrite Htd, Hl'.
    rewrite !(proj2 (Z.leb_le _ _)) by lia. rewrite (proj2 (Z.ltb_ge max _)) by lia. done.
  - unfold sb_of. rewrite Htd, Hl'. by rewrite !(proj2 (Z.leb_le 3 _)) by lia.
Qed.

Lemma sb_of_append max w bs frag copy :
  zlen bs < 3 -> 0 <= copy <= zlen frag -> zlen bs + copy <= max ->
  sb_append (sb_of max w bs) frag copy =
  Ok (SectionBuf max (zlen (bs ++ take (Z.to_nat copy) frag)) 3 false w
        (bs ++ take (Z.to_nat copy) frag)).
Proof.
  intros H3 Hc Hm. rewrite sb_append_run by (cbn; lia). unfold sb_of.
  cbn [sb_max sb_count sb_len sb_header sb_wait_pdu sb_data].
  rewrite total_three by done. rewrite (proj2 (Z.leb_gt _ _)) by lia. cbn [andb].
  do 2 f_equal. rewrite length_app, length_take. lia.
Qed.

(** The header of a new section, once three bytes have arrived. *)
Lemma fragment_header_run max w bs frag :
  3 <= max -> zlen bs < 3 -> 3 <= zlen (bs ++ frag) ->
  exists d1 d2, let d := take 3 (bs ++ frag) in
    at_ d 1 = Ok d1 /\ at_ d 2 = Ok d2 /\
    3 + Z.lor (Z.shiftl (Z.land d1 0x0f) 8) d2 = total (bs ++ frag) /\
    sb_append (sb_of max w bs) frag (3 - zlen bs) = Ok (SectionBuf max 3 3 false w d) /\
    bs ++ frag = d ++ drop (Z.to_nat (3 - zlen bs)) frag.
Proof.
  intros Hmax H3 Hl. rewrite length_app in Hl.
  assert (Hd : bs ++ take (Z.to_nat (3 - zlen bs)) frag = take 3 (bs ++ frag)).
  { rewrite take_app_ge by lia. do 2 f_equal. lia. }
  assert (Hl3 : length (take 3 (bs ++ frag)) = 3%nat) by (rewrite length_take, length_app; lia).
  destruct (bs ++ frag) as [|b0 [|d1 [|d2 rest]]] eqn:E; try done.
  exists d1, d2. cbv zeta. split_and!; [done..| |].
  - rewrite sb_of_append by lia. rewrite Hd. done.
  - by rewrite <- Hd, <- app_assoc, take_drop.
Qed.

(** What one call returns, for the bytes [d] kept after it. *)
Definition add_result (max : Z) (w : bool) (used : Z) (d : list Z) : Z * Z * section_buf :=
  (used, add_status max d, sb_of max w d).

(** The header does not arrive. *)
Lemma grab_short max w bs f u :
  3 <= max -> zlen bs + zlen f < 3 ->
  sb_grab_header (sb_of max w bs) f u = Ok (add_result max w (u + zlen f) (bs ++ f)).
Proof.
  intros Hmax Hs. unfold sb_grab_header. change SECTION_HDR_SIZE with 3. cbn [sb_of sb_count].
  fold (sb_of max w bs). rewrite (proj2 (Z.ltb_lt _ _)) by lia.
  rewrite sb_of_append by lia. cbn [mbind res_bind sb_count].
  rewrite Nat2Z.id, (take_ge f) by lia.
  rewrite (proj2 (Z.eqb_neq _ _)) by (rewrite length_app; lia). cbn [negb].
  unfold add_result, add_status, overlong, complete.
  assert (Hl3 : zlen (bs ++ f) < 3) by (rewrite length_app; lia).
  rewrite (proj2 (Z.leb_gt _ _)) by lia. cbn [andb]. unfold mret, res_ret, sb_of.
  by rewrite total_three, (proj2 (Z.leb_gt _ _)) by lia.
Qed.

(** It arrives and announces too much: the whole fragment is dropped. *)
Lemma grab_overlong max w bs f u :
  3 <= max -> zlen bs < 3 -> 3 <= zlen (bs ++ f) -> max < total (bs ++ f) ->
  sb_grab_header (sb_of max w bs) f u =
  Ok (add_result max w (u + zlen f) (take 3 (bs ++ f))).
Proof.
  intros Hmax H3 Hl Hm. unfold sb_grab_header. change SECTION_HDR_SIZE with 3.
  cbn [sb_of sb_count]. fold (sb_of max w bs). pose proof (length_app bs f).
  rewrite (proj2 (Z.ltb_ge (zlen f) _)) by lia.
  destruct (fragment_header_run max w bs f Hmax H3 Hl) as (d1 & d2 & H1 & H2 & Htot & Happ & Hcat).
  cbv zeta in *. rewrite Happ. cbn [mbind res_bind sb_count sb_data].
  change (negb (3 =? 3)) with false. cbv iota. rewrite H1, H2.
  cbn [mbind res_bind sb_max]. rewrite Htot, (proj2 (Z.ltb_lt _ _) Hm).
  set (d := take 3 (bs ++ f)) in *.
  assert (Hld : zlen d = 3) by (unfold d; rewrite length_take; lia).
  assert (Htd : total d = total (bs ++ f)) by by apply total_take.
  unfold add_result, add_status, overlong. rewrite Hld, Htd, (proj2 (Z.ltb_lt _ _) Hm).
  cbn [andb Z.leb]. unfold mret, res_ret, sb_of, set_header. cbn. rewrite Hld, Htd.
  rewrite (proj2 (Z.leb_gt _ max)) by lia. rewrite length_drop. do 3 f_equal. lia.
Qed.

(** It arrives: the rest of the fragment is accumulated. *)
Lemma grab_header max w bs f u :
  3 <= max -> Forall byte (bs ++ f) -> zlen bs < 3 -> 3 <= zlen (bs ++ f) ->
  total (bs ++ f) <= max ->
  let d := section_bytes max (bs ++ f) in
  sb_grab_header (sb_of max w bs) f u = Ok (add_result max w (u + (zlen d - zlen bs)) d).
Proof.
  intros Hmax Hb H3 Hl Hm d'. unfold sb_grab_header. change SECTION_HDR_SIZE with 3.
  cbn [sb_of sb_count]. fold (sb_of max w bs). pose proof (length_app bs f).
  rewrite (proj2 (Z.ltb_ge (zlen f) _)) by lia.
  destruct (fragment_header_run max w bs f Hmax H3 Hl) as (d1 & d2 & H1 & H2 & Htot & Happ & Hcat).
  cbv zeta in *. rewrite Happ. cbn [mbind res_bind sb_count sb_data].
  change (negb (3 =? 3)) with false. cbv iota. rewrite H1, H2.
  cbn [mbind res_bind sb_max]. rewrite Htot, (proj2 (Z.ltb_ge _ _) Hm).
  set (d := take 3 (bs ++ f)) in *. set (rest := drop (Z.to_nat (3 - zlen bs)) f) in *.
  assert (Hld : zlen d = 3) by (unfold d; rewrite length_take; lia).
  assert (Htd : total d = total (bs ++ f)) by by apply total_take.
  unfold set_header. cbn [sb_max sb_count sb_wait_pdu sb_data].
  replace (SectionBuf max 3 (total (bs ++ f)) true w d) with (sb_of max w d).
  2: { unfold sb_of. rewrite Hld, Htd. by rewrite (proj2 (Z.leb_le _ max)) by lia. }
  assert (Hbd : Forall byte d) by by apply Forall_take.
  rewrite accumulate_run; [|lia|done|lia|pose proof (total_min d Hbd); lia].
  rewrite <- Hcat. fold d'. unfold add_result. do 3 f_equal. lia.
Qed.

(** An overlong section stays overlong: its header is not taken again. *)
Lemma grab_again max w bs f u :
  3 <= max -> zlen bs = 3 -> max < total bs ->
  sb_grab_header (sb_of max w bs) f u = Ok (add_result max w (u + zlen f) bs).
Proof.
  intros Hmax E3 Hm. unfold sb_grab_header. change SECTION_HDR_SIZE with 3. cbn [sb_of sb_count].
  rewrite E3. change (3 - 3) with 0. rewrite (proj2 (Z.ltb_ge (zlen f) 0)) by lia.
  rewrite sb_append_run by (cbn; lia). cbn [sb_of sb_max sb_count sb_len sb_header sb_wait_pdu
    sb_data mbind res_bind]. change (negb (3 + 0 =? 3)) with false. cbv iota.
  change (take (Z.to_nat 0) f) with (@nil Z). rewrite app_nil_r.
  change (drop (Z.to_nat 0) f) with f.
  destruct bs as [|b0 [|d1 [|d2 [|]]]]; try (simpl in E3; lia).
  change (at_ [b0; d1; d2] 1) with (Ok d1).
  change (at_ [b0; d1; d2] 2) with (Ok d2). cbn [mbind res_bind].
  change (3 + Z.lor (Z.shiftl (Z.land d1 15) 8) d2) with (total [b0; d1; d2]).
  rewrite (proj2 (Z.ltb_lt _ _) Hm). unfold add_result, add_status, overlong.
  rewrite (proj2 (Z.ltb_lt _ _) Hm). change (3 <=? zlen [b0; d1; d2]) with true. cbn [andb].
  unfold mret, res_ret, set_header, sb_of. cbn [sb_max sb_count sb_wait_pdu sb_data].
  rewrite (proj2 (Z.leb_gt _ max)) by lia. rewrite andb_false_r. do 3 f_equal. lia.
Qed.

(** The status of what is kept tells whether it was too long. *)
Lemma overlong_bytes max bs :
  3 <= max -> Forall byte bs -> overlong max (section_bytes max bs) = overlong max bs.
Proof.
  intros Hmax Hb. pose proof (total_min bs Hb). unfold overlong, section_bytes.
  destruct (Z.ltb_spec (zlen bs) 3) as [|Hl]; [done|].
  destruct (Z.ltb_spec max (total bs)) as [Hm|Hm]; rewrite total_take, length_take by lia.
  - rewrite !(proj2 (Z.leb_le _ _)) by lia. by rewrite (proj2 (Z.ltb_lt _ _) Hm).
  - rewrite (proj2 (Z.ltb_ge max _)) by lia. by rewrite !andb_false_r.
Qed.

Lemma complete_kept max bs f :
  complete max bs = true -> section_bytes max (bs ++ f) = bs.
Proof.
  unfold complete. intros Ec. bool_facts. unfold section_bytes. rewrite total_app by lia.
  rewrite !(proj2 (Z.ltb_ge _ _)) by (rewrite ?length_app; lia). apply take_app_length'. lia.
Qed.

(** One call of [section_buf_add], on every branch. *)
Lemma section_buf_add_run max w bs frag :
  sb_wf max bs -> Forall byte frag ->
  let d := section_bytes max (bs ++ unpad bs frag) in
  section_buf_add (sb_of max w bs) frag =
  Ok (add_result max w (if overlong max d then zlen frag
                        else pads bs frag + (zlen d - zlen bs)) d).
Proof.
  intros Hwf Hbf d. pose proof Hwf as [Hmax Hb Hk]. pose proof (total_min bs Hb) as Ht.
  pose proof (wf_length max bs Hwf) as (Hlm & Hlt & Hlo).
  assert (Hbd : Forall byte (bs ++ unpad bs frag)).
  { apply Forall_app. split; [done|]. by apply unpad_bytes. }
  unfold d. rewrite (overlong_bytes max) by done.
  assert (Huf : pads bs frag + zlen (unpad bs frag) = zlen frag)
    by (destruct bs; cbn [unpad pads]; [apply skip_pad_length|lia]).
  unfold section_buf_add. change (sb_complete (sb_of max w bs)) with (complete max bs).
  destruct (complete max bs) eqn:Ec.
  { rewrite (complete_kept _ _ _ Ec). unfold add_result, add_status, overlong. rewrite Ec.
    unfold complete in Ec. bool_facts. rewrite total_app, !(proj2 (Z.ltb_ge max _)) by lia.
    rewrite !andb_false_r. unfold mret, res_ret. do 3 f_equal.
    destruct bs; cbn [pads]; [simpl in *|]; lia. }
  assert (Hskip : (if sb_count (sb_of max w bs) =? 0 then skip_pad frag else (0, frag)) =
    (pads bs frag, unpad bs frag)).
  { cbn [sb_of sb_count]. destruct bs; cbn [length unpad pads]; [by destruct (skip_pad frag)|].
    by rewrite (proj2 (Z.eqb_neq _ _)) by lia. }
  rewrite Hskip. clear Hskip. set (f := unpad bs frag) in *. set (u := pads bs frag) in *.
  cbn [sb_of sb_count sb_header]. fold (sb_of max w bs).
  destruct ((zlen bs =? 0) && (zlen f =? 0)) eqn:Eempty.
  { bool_facts. destruct bs; [|simpl in *; lia]. destruct f; [|simpl in *; lia].
    change (section_bytes max ([] ++ [])) with (@nil Z).
    change (overlong max ([] ++ [])) with false. unfold add_result, add_status.
    change (overlong max []) with false. change (complete max []) with false. cbv iota.
    unfold mret, res_ret. do 3 f_equal. change (zlen []) with 0. lia. }
  pose proof (length_app bs f) as Hlf. unfold overlong.
  destruct (Z.lt_ge_cases (zlen bs) 3) as [H3|H3].
  - rewrite (proj2 (Z.leb_gt 3 (zlen bs))) by lia. cbn [andb negb].
    destruct (Z.lt_ge_cases (zlen (bs ++ f)) 3) as [Hs|Hs].
    + rewrite grab_short by lia. rewrite (proj2 (Z.leb_gt _ _)) by lia. cbn [andb].
      unfold section_bytes. rewrite (proj2 (Z.ltb_lt _ 3)) by lia. do 2 f_equal. lia.
    + rewrite (proj2 (Z.leb_le _ _)) by lia. cbn [andb].
      destruct (Z.ltb_spec max (total (bs ++ f))).
      * rewrite grab_overlong by done. unfold section_bytes.
        rewrite (proj2 (Z.ltb_ge _ _)), (proj2 (Z.ltb_lt _ _)) by lia. do 2 f_equal. lia.
      * by rewrite grab_header by done.
  - assert (Hu : u = 0 /\ f = frag) by (unfold u, f; destruct bs; simpl in *; done || lia).
    destruct Hu as [Hu Hf]. rewrite total_app by done.
    rewrite !(proj2 (Z.leb_le 3 _)) by lia. cbn [andb].
    destruct (Z.leb_spec (total bs) max) as [Hm|Hm]; cbn [negb].
    + rewrite (proj2 (Z.ltb_ge _ _)) by lia. by rewrite accumulate_run by (done || lia).
    + rewrite (proj2 (Z.ltb_lt _ _)) by lia. specialize (Hlo Hm).
      rewrite grab_again by lia. unfold section_bytes.
      rewrite total_app, (proj2 (Z.ltb_ge _ _)), (proj2 (Z.ltb_lt _ _)) by lia.
      rewrite take_app_le, take_ge by lia. do 2 f_equal. lia.
Qed.


(** ** Sequences of fragments *)

(** [section_buf_add] for each fragment in turn; the last status and the final state. *)
Fixpoint add_all (s : section_buf) (status : Z) (frags : list (list Z)) : res (Z * section_buf) :=
  match frags with
  | [] => mret (status, s)
  | f :: frags =>
      '(_, status, s) ← section_buf_add s f;
      add_all s status frags
  end.

Lemma section_bytes_nil max bs : section_bytes max bs = [] -> Forall byte bs -> 3 <= max -> bs = [].
Proof.
  intros E Hb Hmax. pose proof (total_min bs Hb). apply (f_equal length) in E.
  unfold section_bytes in E. destruct bs as [|b bs]; [done|]. exfalso.
  destruct (zlen (b :: bs) <? 3), (max <? total (b :: bs)); rewrite ?length_take in E;
    cbn [length] in *; lia.
Qed.

Lemma skip_pad_app f g :
  (skip_pad (f ++ g)).2 = match (skip_pad f).2 with [] => (skip_pad g).2 | r => r ++ g end.
Proof.
  induction f as [|b f IH]; [done|]. cbn [app skip_pad]. case_if; [|done].
  destruct (skip_pad (f ++ g)), (skip_pad f). exact IH.
Qed.

(** Two fragments leave what their concatenation leaves. *)
Lemma kept_twice max bs f g :
  sb_wf max bs -> Forall byte f ->
  let d := section_bytes max (bs ++ unpad bs f) in
  section_bytes max (d ++ unpad d g) = section_bytes max (bs ++ unpad bs (f ++ g)).
Proof.
  intros [Hmax Hb Hk] Hf d. pose proof (unpad_bytes bs f Hf) as Hu.
  assert (Hall : Forall byte (bs ++ unpad bs f)) by by apply Forall_app.
  destruct bs as [|b bs].
  - cbn [unpad app] in *. rewrite skip_pad_app. destruct (skip_pad f).2 as [|c r] eqn:Er.
    + unfold d. by change (section_bytes max []) with (@nil Z).
    + destruct d as [|e d'] eqn:Ed.
      * by apply section_bytes_nil in Ed.
      * cbn [unpad]. rewrite <- Ed. unfold d. by apply section_bytes_app.
  - cbn [unpad] in *. destruct d as [|e d'] eqn:Ed.
    + by apply section_bytes_nil in Ed.
    + cbn [unpad]. rewrite <- Ed. unfold d. rewrite section_bytes_app by done.
      by rewrite <- app_assoc.
Qed.

Lemma add_all_run max w frags : forall bs status,
  sb_wf max bs -> Forall (Forall byte) frags ->
  let d := section_bytes max (bs ++ unpad bs (concat frags)) in
  add_all (sb_of max w bs) status frags =
  Ok (if frags is [] then status else add_status max d, sb_of max w d).
Proof.
  induction frags as [|f frags IH]; intros bs status Hwf Hall d.
  - unfold d. cbn [concat add_all].
    assert (bs ++ unpad bs [] = bs) as -> by (by destruct bs; rewrite ?app_nil_r).
    by rewrite (wf_kept _ _ Hwf).
  - apply Forall_cons_iff in Hall as [Hf Hall]. cbn [add_all]. rewrite section_buf_add_run by done.
    cbn [mbind res_bind add_result]. pose proof (kept_twice max bs f (concat frags) Hwf Hf) as Hk.
    cbv zeta in Hk. change (concat (f :: frags)) with (f ++ concat frags) in d.
    set (d1 := section_bytes max (bs ++ unpad bs f)) in *.
    assert (Hwf1 : sb_wf max d1).
    { destruct Hwf as [? ? ?]. apply section_bytes_wf; [done|]. apply Forall_app.
      split; [done|by apply unpad_bytes]. }
    rewrite IH by done. fold d in Hk. cbv zeta. rewrite Hk. f_equal. f_equal.
    destruct frags; [|done]. f_equal. rewrite <- Hk. cbn [concat].
    assert (d1 ++ unpad d1 [] = d1) as -> by (by destruct d1; rewrite ?app_nil_r).
    by rewrite (wf_kept _ _ Hwf1).
Qed.

(** A whole section: it does not start with the padding byte, announces its own length, and
    fits. *)
Record whole_section (max : Z) (sec : list Z) : Prop := {
  ws_bytes : Forall byte sec;
  ws_start : forall b r, sec = b :: r -> b <> SECTION_PAD;
  ws_size : 3 <= zlen sec <= max;
  ws_total : total sec = zlen sec;
}.

Lemma whole_kept max sec rest : whole_section max sec -> section_bytes max (sec ++ rest) = sec.
Proof.
  intros [Hb Hs Hl Ht]. apply complete_kept. unfold complete.
  by rewrite Ht, !(proj2 (Z.leb_le _ _)), Z.eqb_refl by lia.
Qed.

Lemma whole_wf max sec : whole_section max sec -> sb_wf max sec.
Proof.
  intros H. pose proof (whole_kept max sec [] H) as Hk. rewrite app_nil_r in Hk.
  destruct H. split; [lia|done..].
Qed.

Lemma whole_status max sec : whole_section max sec -> add_status max sec = 1.
Proof.
  intros [Hb Hs Hl Ht]. unfold add_status, overlong, complete.
  rewrite Ht, !(proj2 (Z.leb_le _ _)), Z.eqb_refl by lia. by rewrite (proj2 (Z.ltb_ge _ _)) by lia.
Qed.

Lemma whole_skip max sec rest n :
  whole_section max sec -> skip_pad (replicate n SECTION_PAD ++ sec ++ rest) =
  (Z.of_nat n, sec ++ rest).
Proof.
  intros [Hb Hs Hl Ht]. induction n as [|n IH].
  - cbn [replicate app]. destruct sec as [|b r]; [simpl in *; lia|]. cbn [app skip_pad].
    by rewrite (proj2 (Z.eqb_neq _ _)) by (by eapply Hs).
  - cbn [replicate app skip_pad]. rewrite Z.eqb_refl, IH. f_equal. lia.
Qed.

(** However a section, preceded by padding, is cut into fragments, [section_buf_add] puts
    exactly its bytes in the buffer, ignores what follows it, and reports completion with the
    last fragment. *)
Theorem section_buf_add_reassembles max s n sec rest frags :
  section_buf_init max = Some s -> whole_section max sec -> Forall (Forall byte) frags ->
  concat frags = replicate n SECTION_PAD ++ sec ++ rest ->
  exists s', add_all s 0 frags = Ok (1, s') /\ sb_data s' = sec /\ sb_complete s' = true.
Proof.
  unfold section_buf_init. intros Hi Hws Hf Hc.
  destruct (Z.ltb_spec max SECTION_HDR_SIZE) as [|Hmax]; [done|]. injection Hi as <-.
  exists (sb_of max true sec).
  change (SectionBuf max 0 SECTION_HDR_SIZE false true []) with (sb_of max true []).
  assert (Hwf : sb_wf max []) by (by split; [exact Hmax| |]).
  rewrite (add_all_run max true frags [] 0 Hwf Hf). cbn [unpad app]. rewrite Hc.
  rewrite (whole_skip max) by done. cbn [snd]. rewrite whole_kept, whole_status by done.
  split_and!; [|done|].
  - destruct frags; [|done]. destruct n, Hws; simpl in *; try done. destruct sec; simpl in *; lia || done.
  - destruct Hws as [? ? ? Ht]. unfold sb_complete, sb_of. cbn [sb_header sb_len sb_count].
    by rewrite Ht, !(proj2 (Z.leb_le _ _)), Z.eqb_refl by lia.
Qed.

(** ** Transport payloads *)

(** The states of a buffer of [max] bytes. *)
Definition sb_inv (max : Z) (s : section_buf) : Prop :=
  exists w bs, s = sb_of max w bs /\ sb_wf max bs.

Lemma kept_length max bs f :
  sb_wf max bs -> Forall byte f ->
  zlen bs <= zlen (section_bytes max (bs ++ f)) <= zlen bs + zlen f.
Proof.
  intros Hwf Hf. pose proof (wf_length max bs Hwf) as (H1 & H2 & H3). destruct Hwf as [Hmax Hb _].
  assert (Hbf : Forall byte (bs ++ f)) by by apply Forall_app.
  pose proof (total_min _ Hbf) as Ht. unfold section_bytes. pose proof (length_app bs f) as Hl.
  destruct (Z.ltb_spec (zlen (bs ++ f)) 3); [lia|].
  assert (Hb3 : zlen bs <= 3 \/ 3 <= zlen bs /\ total (bs ++ f) = total bs).
  { destruct (Z.le_gt_cases (zlen bs) 3); [by left|right]. rewrite total_app by lia. lia. }
  destruct (Z.ltb_spec max (total (bs ++ f))) as [Hm|Hm]; rewrite length_take.
  - destruct Hb3 as [|[? E]]; [lia|]. rewrite E in Hm. specialize (H3 Hm). lia.
  - destruct Hb3 as [|[? E]]; [lia|]. rewrite E in *. specialize (H2 ltac:(lia) Hm). lia.
Qed.

Lemma add_status_cases max bs :
  add_status max bs = 0 \/ add_status max bs = 1 \/ add_status max bs = - ERANGE.
Proof. unfold add_status. repeat case_if; auto. Qed.

Lemma add_status_one max bs : add_status max bs = 1 <-> complete max bs = true.
Proof.
  unfold add_status, overlong, complete. split.
  - intros H. repeat case_match; done.
  - intros H. rewrite H. bool_facts. rewrite (proj2 (Z.ltb_ge _ _)) by lia. by rewrite andb_false_r.
Qed.

(** The bytes used stay within the fragment. *)
Lemma add_used_bounds max bs frag :
  sb_wf max bs -> Forall byte frag ->
  let d := section_bytes max (bs ++ unpad bs frag) in
  let used := if overlong max d then zlen frag else pads bs frag + (zlen d - zlen bs) in
  0 <= used <= zlen frag /\ sb_wf max d.
Proof.
  intros Hwf Hf d used.
  pose proof (kept_length max bs _ Hwf (unpad_bytes bs frag Hf)) as Hk. fold d in Hk.
  assert (pads bs frag + zlen (unpad bs frag) = zlen frag /\ 0 <= pads bs frag) as [Hu Hp]
    by (destruct bs; cbn [unpad pads]; [apply skip_pad_length|lia]).
  split; [unfold used; case_if; lia|]. destruct Hwf. apply section_bytes_wf; [done|].
  apply Forall_app. split; [done|by apply unpad_bytes].
Qed.

(** What the last part of [section_buf_add_transport_payload] does after skipping [used] bytes. *)
Lemma payload_add max w bs payload used :
  sb_wf max bs -> Forall byte payload ->
  let frag := drop (Z.to_nat used) payload in
  let d := section_bytes max (bs ++ unpad bs frag) in
  (' (tmp, status, s) ← section_buf_add (sb_of max w bs) frag;
   mret (used + tmp, status, if status <? 0 then set_wait_pdu s true else s)) =
  Ok (used + (if overlong max d then zlen frag else pads bs frag + (zlen d - zlen bs)),
      add_status max d, sb_of max (w || overlong max d) d).
Proof.
  intros Hwf Hb frag d. rewrite section_buf_add_run by (done || by apply Forall_drop).
  cbn [mbind res_bind add_result]. fold d. unfold mret, res_ret. do 2 f_equal.
  unfold add_status. destruct (overlong max d); [by rewrite orb_true_r|].
  rewrite orb_false_r. by destruct (complete max d).
Qed.

(** [section_buf_add_transport_payload] keeps the buffer well formed, whatever the packets
    hold: it writes inside the buffer, consumes at most the payload, and returns one of the
    documented statuses; after an error it waits for the next unit start.  A payload with a unit
    start must have a byte. *)
Theorem section_buf_payload_safe max s payload pdu_start :
  sb_inv max s -> Forall byte payload -> (pdu_start = true -> payload <> []) ->
  exists used status s',
    section_buf_add_transport_payload s payload pdu_start = Ok (used, status, s') /\
    sb_inv max s' /\ 0 <= used <= zlen payload /\
    (status = 0 \/ status = 1 /\ sb_complete s' = true \/
     (status = - EINVAL \/ status = - ERANGE) /\ sb_wait_pdu s' = true).
Proof.
  intros (w & bs & -> & Hwf) Hb Hne. unfold section_buf_add_transport_payload.
  change (sb_complete (sb_of max w bs)) with (complete max bs).
  destruct (complete max bs) eqn:Ec.
  { eexists _, _, _. split_and!; [done|by exists w, bs|lia|lia|]. right. left. by split. }
  cbn [sb_of sb_wait_pdu]. fold (sb_of max w bs).
  destruct (w && negb pdu_start) eqn:Ew.
  { eexists _, _, _. split_and!; [done|by exists w, bs|lia|lia|by left]. }
  assert (Hadd : forall w u, 0 <= u <= zlen payload -> exists used status s',
    (' (tmp, status, s) ← section_buf_add (sb_of max w bs) (drop (Z.to_nat u) payload);
     mret (u + tmp, status, if status <? 0 then set_wait_pdu s true else s)) =
      Ok (used, status, s') /\ sb_inv max s' /\ 0 <= used <= zlen payload /\
    (status = 0 \/ status = 1 /\ sb_complete s' = true \/
     (status = - EINVAL \/ status = - ERANGE) /\ sb_wait_pdu s' = true)).
  { intros w' u Hu. rewrite payload_add by done. set (frag := drop (Z.to_nat u) payload).
    set (d := section_bytes max (bs ++ unpad bs frag)).
    destruct (add_used_bounds max bs frag Hwf) as [Hused Hwf']; [by apply Forall_drop|].
    cbv zeta in Hused, Hwf'. fold d in Hused, Hwf'.
    eexists _, _, _. split; [done|]. unfold frag in *. rewrite length_drop in *.
    split_and!; [by eexists _, _|lia|lia|].
    unfold add_status. cbn [sb_wait_pdu sb_of].
    destruct (overlong max d) eqn:Eo; [right; right; rewrite orb_true_r; auto|].
    change (sb_complete _) with (complete max d). destruct (complete max d); auto. }
  destruct pdu_start; cbv zeta beta.
  2: { apply Hadd. lia. }
  destruct payload as [|offset rest]; [by exfalso; apply Hne|].
  change (at_ (offset :: rest) 0) with (Ok offset). cbn [mbind res_bind].
  apply Forall_cons_iff in Hb as [Ho Hb]. unfold byte in Ho.
  destruct (Z.ltb_spec (zlen (offset :: rest)) (offset + 1)) as [|Hfit].
  { eexists _, _, _. split_and!; [done|by exists true, bs|lia|lia|]. right. right.
    split; [by left|done]. }
  change (set_wait_pdu (sb_of max w bs) false) with (sb_of max false bs).
  change (sb_count (sb_of max false bs)) with (zlen bs).
  destruct (Z.eqb_spec (zlen bs) 0) as [E0|E0]; cbn [negb].
  { apply (Hadd false). lia. }
  change (drop 1 (offset :: rest)) with rest.
  assert (Hbt : Forall byte (take (Z.to_nat offset) rest)) by by apply Forall_take.
  rewrite section_buf_add_run by done. cbn [mbind res_bind add_result].
  pose proof (add_used_bounds max bs _ Hwf Hbt) as [Hused Hwf']. cbv zeta in Hused, Hwf'.
  set (d := section_bytes max _) in *. 
  assert (Htl : zlen (take (Z.to_nat offset) rest) <= zlen rest) by (rewrite length_take; lia).
  match goal with |- context [if ?c then _ else _] =>
    lazymatch c with negb _ || _ || _ => destruct c eqn:Ebad end end.
  - eexists _, _, _. split_and!; [done|by exists true, d|lia|cbn [length]; lia|]. right. right.
    split; [by right|done].
  - eexists _, _, _. split_and!; [done|by exists false, d|lia|cbn [length]; lia|]. right. left.
    bool_facts. split; [done|]. by apply add_status_one.
Qed.

(** ** Reassembly from packets *)

(** The payloads of a PID in order, each with its [payload_unit_start_indicator]. *)
Fixpoint add_payloads (s : section_buf) (status : Z) (packets : list (list Z * bool)) :
    res (Z * section_buf) :=
  match packets with
  | [] => mret (status, s)
  | (payload, pdu_start) :: packets =>
      '(_, status, s) ← section_buf_add_transport_payload s payload pdu_start;
      add_payloads s status packets
  end.

Definition continuations (fs : list (list Z)) : list (list Z * bool) := (λ f, (f, false)) <$> fs.

(** A payload with a unit start: the pointer field, the end of the previous section, and the start
    of the next. *)
Definition unit_start (tail next : list Z) : list Z * bool := (zlen tail :: tail ++ next, true).

Lemma add_payloads_app p q s status :
  add_payloads s status (p ++ q) =
  ('(st, s) ← add_payloads s status p; add_payloads s st q).
Proof.
  revert s status. induction p as [|[f b] p IH]; intros s status; [done|].
  cbn [app add_payloads mbind res_bind].
  destruct (section_buf_add_transport_payload s f b) as [[[u st] s']|]; [|done].
  cbn [mbind res_bind]. apply IH.
Qed.

(** Packets without a unit start are ignored while the buffer waits for one. *)
Lemma waiting_ignores max bs fs :
  complete max bs = false ->
  add_payloads (sb_of max true bs) 0 (continuations fs) = Ok (0, sb_of max true bs).
Proof.
  intros Ec. induction fs as [|f fs IH]; [done|]. cbn [continuations fmap list_fmap add_payloads].
  unfold section_buf_add_transport_payload at 1.
  change (sb_complete (sb_of max true bs)) with (complete max bs). rewrite Ec.
  cbn [sb_of sb_wait_pdu andb negb mbind res_bind mret res_ret]. exact IH.
Qed.

(** The streams that start with a whole section. *)
Definition starts_with (max : Z) (sec p : list Z) : Prop :=
  whole_section max sec /\ exists q rest, p ++ q = sec ++ rest.

Lemma starts_not_overlong max sec p :
  starts_with max sec p -> overlong max p = false.
Proof.
  intros [[Hb Hs Hl Ht] (q & rest & E)]. unfold overlong.
  destruct (Z.leb_spec 3 (zlen p)); [|done]. cbn [andb]. apply Z.ltb_ge.
  rewrite <- (total_app p q), E, total_app by lia. lia.
Qed.

Lemma starts_bytes max sec p :
  starts_with max sec p -> section_bytes max p = take (length sec) p.
Proof.
  intros Hst. pose proof (starts_not_overlong _ _ _ Hst) as Ho.
  destruct Hst as [[Hb Hs Hl Ht] (q & rest & E)]. unfold section_bytes, overlong in *.
  destruct (Z.ltb_spec (zlen p) 3); [by rewrite take_ge by lia|].
  rewrite (proj2 (Z.leb_le 3 _)) in Ho by lia. cbn [andb] in Ho. rewrite Ho.
  rewrite <- (total_app p q), E, total_app, Ht by lia. by rewrite Nat2Z.id.
Qed.

Lemma starts_kept max sec p g :
  starts_with max sec (p ++ g) -> starts_with max sec (section_bytes max p ++ g).
Proof.
  intros [Hws (q & rest & E)]. rewrite <- app_assoc in E.
  rewrite (starts_bytes max sec p) by (split; [done|]; eauto). split; [done|].
  destruct (Nat.le_ge_cases (length p) (length sec)).
  - rewrite take_ge by lia. exists q, rest. by rewrite <- app_assoc.
  - exists [], g. rewrite app_nil_r. f_equal.
    apply (f_equal (take (length sec))) in E. by rewrite take_app_le, take_app_length in E.
Qed.

Lemma payload_continues max sec bs f :
  sb_wf max bs -> bs <> [] -> Forall byte f -> starts_with max sec (bs ++ f) ->
  let d := section_bytes max (bs ++ f) in
  exists used, section_buf_add_transport_payload (sb_of max false bs) f false =
    Ok (used, add_status max d, sb_of max false d).
Proof.
  intros Hwf Hne Hf Hst d. pose proof (starts_not_overlong _ _ _ Hst) as Ho.
  unfold section_buf_add_transport_payload.
  change (sb_complete (sb_of max false bs)) with (complete max bs).
  destruct (complete max bs) eqn:Ec.
  { eexists. unfold d. rewrite (complete_kept _ _ _ Ec). apply add_status_one in Ec. by rewrite Ec. }
  cbn [sb_of sb_wait_pdu andb]. fold (sb_of max false bs). cbv zeta.
  rewrite payload_add by done. change (drop (Z.to_nat 0) f) with f.
  assert (unpad bs f = f) as -> by by destruct bs. fold d.
  assert (overlong max d = false) as ->.
  { unfold d. destruct Hwf. rewrite overlong_bytes; [done|done|by apply Forall_app]. }
  by eexists.
Qed.

Lemma continuations_run max sec fs : forall bs status,
  sb_wf max bs -> bs <> [] -> Forall (Forall byte) fs -> starts_with max sec (bs ++ concat fs) ->
  let d := section_bytes max (bs ++ concat fs) in
  add_payloads (sb_of max false bs) status (continuations fs) =
  Ok (if fs is [] then status else add_status max d, sb_of max false d).
Proof.
  induction fs as [|f fs IH]; intros bs status Hwf Hne Hall Hst d.
  - cbn [concat] in d. unfold d. rewrite app_nil_r, (wf_kept _ _ Hwf). done.
  - apply Forall_cons_iff in Hall as [Hf Hall]. cbn [continuations fmap list_fmap add_payloads].
    change (concat (f :: fs)) with (f ++ concat fs) in *.
    assert (Hst1 : starts_with max sec (bs ++ f)).
    { destruct Hst as [? (q & rest & E)]. split; [done|]. exists (concat fs ++ q), rest.
      rewrite <- E, <- !app_assoc. done. }
    destruct (payload_continues max sec bs f Hwf Hne Hf Hst1) as [used ->].
    cbn [mbind res_bind]. set (d1 := section_bytes max (bs ++ f)) in *.
    assert (Hb1 : Forall byte (bs ++ f)) by (destruct Hwf; by apply Forall_app).
    assert (Hd : section_bytes max (d1 ++ concat fs) = d).
    { unfold d1, d. rewrite section_bytes_app by done. by rewrite <- app_assoc. }
    assert (Hwf1 : sb_wf max d1) by (destruct Hwf; by apply section_bytes_wf).
    assert (Hne1 : d1 <> []).
    { intros E. apply section_bytes_nil in E; [|done|by destruct Hwf]. by destruct bs. }
    pose proof (IH d1 (add_status max d1) Hwf1 Hne1 Hall) as Hrun. cbv zeta in Hrun.
    change ((λ f, (f, false)) <$> fs) with (continuations fs). rewrite Hrun, Hd.
    + do 2 f_equal. destruct fs; [|done]. rewrite <- Hd. cbn [concat]. rewrite app_nil_r.
      by rewrite (wf_kept _ _ Hwf1).
    + unfold d1. apply starts_kept. by rewrite <- app_assoc.
Qed.

(** A section whose end comes with the next unit start. *)
Lemma prefix_kept max sec p z :
  whole_section max sec -> sec = p ++ z -> z <> [] ->
  section_bytes max p = p /\ complete max p = false.
Proof.
  intros Hws E Hz. assert (Hst : starts_with max sec p) by (split; [done|]; exists z, [];
    by rewrite app_nil_r).
  assert (Hl : zlen p < zlen sec).
  { rewrite E, length_app. destruct z; [done|]. cbn [length]. lia. }
  rewrite (starts_bytes _ _ _ Hst), take_ge by lia. split; [done|].
  destruct Hws as [Hb Hs Hls Ht]. unfold complete.
  destruct (Z.leb_spec 3 (zlen p)); [|done]. rewrite <- (total_app p z), <- E, Ht by lia.
  rewrite (proj2 (Z.eqb_neq _ _)) by lia. by rewrite !andb_false_r.
Qed.

(** The first unit start: what precedes the section in it is skipped. *)
Lemma unit_first max sec w tail next :
  3 <= max -> Forall byte next -> Forall byte tail -> zlen tail <= 255 ->
  starts_with max sec next -> next <> [] ->
  exists used, section_buf_add_transport_payload (sb_of max w []) (zlen tail :: tail ++ next) true =
    Ok (used, add_status max (section_bytes max next), sb_of max false (section_bytes max next)).
Proof.
  intros Hmax Hn Htl Hl Hst Hne. assert (Hwf : sb_wf max []) by by split.
  unfold section_buf_add_transport_payload.
  change (sb_complete (sb_of max w [])) with false. cbv iota. rewrite andb_false_r.
  change (at_ (zlen tail :: tail ++ next) 0) with (Ok (zlen tail)). cbn [mbind res_bind].
  rewrite (proj2 (Z.ltb_ge _ _)) by (cbn [length]; rewrite length_app; lia).
  change (set_wait_pdu (sb_of max w []) false) with (sb_of max false []).
  change (negb (sb_count (sb_of max false []) =? 0)) with false. cbv iota zeta beta.
  assert (Hpb : Forall byte (zlen tail :: tail ++ next)).
  { constructor; [unfold byte; lia|]. by apply Forall_app. }
  rewrite payload_add by done.
  assert (Hd : drop (Z.to_nat (1 + zlen tail)) (zlen tail :: tail ++ next) = next).
  { replace (Z.to_nat (1 + zlen tail)) with (S (length tail)) by lia. cbn [drop].
    by rewrite drop_app_length. }
  rewrite Hd. cbn [unpad app].
  assert ((skip_pad next).2 = next) as ->.
  { destruct Hst as [[Hb Hs Hls Ht] (q & rest & E)]. destruct next as [|b next]; [done|].
    destruct sec as [|b' sec]; [simpl in *; lia|]. injection E as <- _. cbn [skip_pad].
    by rewrite (proj2 (Z.eqb_neq _ _)) by (by eapply Hs). }
  rewrite (overlong_bytes max) by done. rewrite (starts_not_overlong _ _ _ Hst).
  by eexists.
Qed.

(** The packets up to a continuation, from a fresh buffer. *)
Lemma packets_run max sec ignored tail a fs :
  3 <= max -> Forall byte tail -> zlen tail <= 255 -> a <> [] ->
  Forall byte a -> Forall (Forall byte) fs -> starts_with max sec (a ++ concat fs) ->
  let d := section_bytes max (a ++ concat fs) in
  add_payloads (sb_of max true []) 0 (continuations ignored ++ unit_start tail a :: continuations fs)
  = Ok (add_status max d, sb_of max false d).
Proof.
  intros Hmax Htl Hl Hne Ha Hfs Hst d. rewrite add_payloads_app, waiting_ignores by done.
  cbn [mbind res_bind add_payloads unit_start].
  assert (Hsta : starts_with max sec a).
  { destruct Hst as [? (q & rest & E)]. split; [done|]. exists (concat fs ++ q), rest.
    by rewrite app_assoc. }
  destruct (unit_first max sec true tail a Hmax Ha Htl Hl Hsta Hne) as [used ->].
  cbn [mbind res_bind]. set (d1 := section_bytes max a).
  assert (Hd : section_bytes max (d1 ++ concat fs) = d) by by apply section_bytes_app.
  assert (Hwf1 : sb_wf max d1) by by apply section_bytes_wf.
  assert (Hne1 : d1 <> []) by (intros E; by apply section_bytes_nil in E).
  assert (Hst1 : starts_with max sec (d1 ++ concat fs)) by by apply starts_kept.
  pose proof (continuations_run max sec fs d1 (add_status max d1) Hwf1 Hne1 Hfs Hst1) as Hrun.
  cbv zeta in Hrun. rewrite Hrun, Hd. do 2 f_equal. destruct fs; [|done].
  rewrite <- Hd. cbn [concat]. rewrite app_nil_r. by rewrite (wf_kept _ _ Hwf1).
Qed.

(** The last unit start: the bytes before the pointer complete the section. *)
Lemma unit_last max sec p z next :
  whole_section max sec -> sec = p ++ z -> z <> [] -> p <> [] -> zlen z <= 255 ->
  exists used, section_buf_add_transport_payload (sb_of max false p) (zlen z :: z ++ next) true =
    Ok (used, 1, sb_of max false sec).
Proof.
  intros Hws E Hz Hp Hl. destruct (prefix_kept max sec p z Hws E Hz) as [Hk Hc].
  assert (Forall byte p /\ Forall byte z) as [Hbp Hbz].
  { destruct Hws as [Hb _ _ _]. rewrite E in Hb. by apply Forall_app in Hb. }
  assert (Hwf : sb_wf max p) by (split; [destruct Hws; lia|done..]).
  assert (Hp0 : zlen p <> 0) by (destruct p; [done|cbn [length]; lia]).
  unfold section_buf_add_transport_payload.
  change (sb_complete (sb_of max false p)) with (complete max p). rewrite Hc.
  cbn [negb]. rewrite andb_false_r. change (at_ (zlen z :: z ++ next) 0) with (Ok (zlen z)).
  cbn [mbind res_bind]. rewrite (proj2 (Z.ltb_ge _ _)) by (cbn [length]; rewrite length_app; lia).
  change (set_wait_pdu (sb_of max false p) false) with (sb_of max false p).
  change (sb_count (sb_of max false p)) with (zlen p).
  rewrite (proj2 (Z.eqb_neq _ _) Hp0). cbn [negb].
  change (drop 1 (zlen z :: z ++ next)) with (z ++ next). rewrite Nat2Z.id, take_app_length.
  rewrite section_buf_add_run by done. cbn [mbind res_bind add_result].
  assert (unpad p z = z /\ pads p z = 0) as [-> ->] by by destruct p.
  pose proof (whole_kept max sec [] Hws) as Hks. rewrite app_nil_r in Hks.
  rewrite <- E, Hks, whole_status by done.
  rewrite (starts_not_overlong max sec) by (split; [done|]; by exists [], []).
  assert (Hls : zlen sec = zlen p + zlen z) by (rewrite E, length_app; lia).
  replace (0 + (zlen sec - zlen p)) with (zlen z) by lia. rewrite Z.eqb_refl.
  unfold section_buf_remaining. cbn [sb_of sb_len sb_count]. destruct Hws as [? ? ? Ht].
  rewrite Ht, Z.sub_diag. by eexists.
Qed.

(** C33: A section spread over transport packets is reassembled: packets before the first unit start
    are ignored; the pointer field of the unit start is honoured; the following payloads are
    appended; and the section is complete either inside a continuation (what follows it is
    left) or with the bytes before the next pointer. *)
Theorem section_reassembled_from_packets max s sec ignored tail a fs z rest next :
  section_buf_init max = Some s -> whole_section max sec -> a <> [] ->
  Forall byte a -> Forall byte tail -> zlen tail <= 255 -> Forall (Forall byte) fs ->
  sec ++ rest = a ++ concat fs ++ z -> zlen z <= 255 -> (z <> [] -> rest = []) ->
  exists s',
    add_payloads s 0 (continuations ignored ++ unit_start tail a :: continuations fs ++
      if z is [] then [] else [unit_start z next]) = Ok (1, s') /\
    sb_data s' = sec /\ sb_complete s' = true.
Proof.
  unfold section_buf_init. intros Hi Hws Hne Ha Htl Hl Hfs E Hz Hrest.
  destruct (Z.ltb_spec max SECTION_HDR_SIZE) as [|Hmax]; [done|]. injection Hi as <-.
  change (SectionBuf max 0 SECTION_HDR_SIZE false true []) with (sb_of max true []).
  unfold SECTION_HDR_SIZE in Hmax. exists (sb_of max false sec).
  assert (Hst : starts_with max sec (a ++ concat fs)).
  { split; [done|]. exists z, rest. by rewrite <- app_assoc. }
  split; [|split; [done|]].
  2: { apply (whole_status max) in Hws as Hs. by apply add_status_one in Hs. }
  replace (continuations ignored ++ unit_start tail a :: continuations fs ++ _) with
    ((continuations ignored ++ unit_start tail a :: continuations fs) ++
     if z is [] then [] else [unit_start z next]) by by rewrite <- app_assoc.
  rewrite add_payloads_app, (packets_run max sec) by done. cbn [mbind res_bind].
  destruct z as [|z0 z'] eqn:Ez.
  - rewrite app_nil_r in E. rewrite <- E, whole_kept, whole_status by done. done.
  - rewrite (Hrest ltac:(done)), app_nil_r in E. rewrite <- Ez in *. rewrite app_assoc in E.
    assert (Hz0 : z <> []) by by rewrite Ez.
    destruct (prefix_kept max sec (a ++ concat fs) z Hws E Hz0) as [-> _].
    assert (Hp : a ++ concat fs <> []) by by destruct a.
    destruct (unit_last max sec _ z next Hws E Hz0 Hp Hz) as [used Hlast].
    cbn [add_payloads unit_start]. by rewrite Hlast.
Qed.

(** Witnesses: a section of 4 bytes. *)
Lemma four_bytes : whole_section 16 [0; 0; 1; 9].
Proof.
  split; [solve_bytes|intros b r; by intros [= <- <-]|cbn; lia|done].
Qed.

Lemma section_buf_add_reassembles_witness :
  exists s', add_all (SectionBuf 16 0 3 false true []) 0 [[255; 255]; [255; 0; 0]; [1; 9; 7]] =
    Ok (1, s') /\ sb_data s' = [0; 0; 1; 9] /\ sb_complete s' = true.
Proof.
  apply (section_buf_add_reassembles 16 _ 3 [0; 0; 1; 9] [7]);
    [done|apply four_bytes|repeat constructor; done|done].
Defined.

Lemma section_buf_payload_safe_witness :
  exists used status s',
    section_buf_add_transport_payload (SectionBuf 16 0 3 false true []) [2; 5; 5; 0; 0] true =
      Ok (used, status, s') /\
    sb_inv 16 s' /\ 0 <= used <= 5 /\
    (status = 0 \/ status = 1 /\ sb_complete s' = true \/
     (status = - EINVAL \/ status = - ERANGE) /\ sb_wait_pdu s' = true).
Proof.
  apply (section_buf_payload_safe 16 (SectionBuf 16 0 3 false true []) [2; 5; 5; 0; 0] true).
  - exists true, []. by split; [|split].
  - solve_bytes.
  - done.
Defined.

Lemma section_reassembled_from_packets_witness :
  exists s',
    add_payloads (SectionBuf 16 0 3 false true []) 0
      (continuations [[1; 2]] ++ unit_start [7; 7] [0; 0] :: continuations [[1]] ++
       [unit_start [9] [255]]) = Ok (1, s') /\
    sb_data s' = [0; 0; 1; 9] /\ sb_complete s' = true.
Proof.
  apply (section_reassembled_from_packets 16 _ [0; 0; 1; 9] [[1; 2]] [7; 7] [0; 0] [[1]] [9] []
    [255]); [done|apply four_bytes|done|solve_bytes|solve_bytes|cbn; lia|repeat constructor; done|
    done|cbn; lia|done].
Defined.
