(* ===== verification/Section.v ===== *)
(** * section.h: section headers, the CRC check, and the table state

    A section is processed in place: [section_codec] checks the length of a raw buffer and turns
    its length field into a native integer, [section_ext_decode] checks the CRC and turns the
    table id extension; the table codecs then run on the result.  The section starts at offset 0
    of the buffer. *)

From S2P Require Export CMem Crc32.

(** ** The code *)

Definition CRC_SIZE : Z := 4.
Definition sizeof_section : Z := 3.
Definition sizeof_section_ext : Z := 8.

(** The bit-fields of the native 16-bit word of [struct section], at offset 1: the length is its
    low 12 bits, [syntax_indicator] its top bit. *)
Definition word_length (w : Z) : Z := Z.land w 0xfff.
Definition word_syntax_indicator (w : Z) : Z := Z.land (Z.shiftr w 15) 1.

Definition length_field : M Z := w ← ld16 1; mret (word_length w).
Definition syntax_indicator : M Z := w ← ld16 1; mret (word_syntax_indicator w).

Definition section_length : M Z := l ← length_field; mret (u64 (l + sizeof_section)).

(** [size_t] arithmetic: wraps around for a length below [CRC_SIZE - sizeof_section]. *)
Definition section_ext_length : M Z :=
  l ← length_field; mret (u64 (l + sizeof_section - CRC_SIZE)).

Definition section_codec (len : Z) : M unit :=
  reject_if (len <? 3);;
  bswap16 1;;
  l ← length_field;
  reject_if (negb (len =? l + 3)).

Definition section_check_crc : M Z :=
  len ← section_length;
  bswap16 1;;
  crc ← crc32 CRC32_INIT 0 len;
  bswap16 1;;
  mret (if crc =? 0 then 0 else -1).

Definition section_ext_decode (check_crc : bool) : M unit :=
  s ← syntax_indicator;
  reject_if (s =? 0);;
  (if check_crc then r ← section_check_crc; reject_if (negb (r =? 0)) else mret tt);;
  bswap16 (0 + sizeof_section).

Definition section_ext_encode (update_crc : bool) : M unit :=
  s ← syntax_indicator;
  reject_if (s =? 0);;
  bswap16 (0 + sizeof_section);;
  if update_crc then
    l ← length_field;
    let len := sizeof_section + l in
    bswap16 1;;
    crc ← crc32 CRC32_INIT 0 (u64 (len - 4));
    bswap16 1;;
    st_bytes (len - 4) (le_split 4 crc);;
    bswap32 (len - 4)
  else mret tt.

(** *** Table state *)

(** [struct section_ext], the fields the table state looks at; [version_number] is five bits of
    byte 5. *)
Record section_ext := SectionExt {
  version_number : Z;
  section_number : Z;
  last_section_number : Z;
}.

Definition ld_section_ext : M section_ext :=
  b5 ← ld8 5; b6 ← ld8 6; b7 ← ld8 7;
  mret (SectionExt (Z.land (Z.shiftr b5 1) 0x1f) b6 b7).

Record psi_table_state := PsiTableState {
  ts_version_number : Z;
  ts_next_section_number : Z;
  ts_complete : bool;
  ts_new_table : bool;
}.

Definition psi_table_state_reset (t : psi_table_state) : psi_table_state :=
  PsiTableState 0xff (ts_next_section_number t) (ts_complete t) (ts_new_table t).

(** The tail of [section_ext_useful]: count the section, and mark the table complete after the
    last one. *)
Definition section_accept (s : section_ext) (t : psi_table_state) : Z * psi_table_state :=
  let next := u16 (ts_next_section_number t + 1) in
  (1, PsiTableState (ts_version_number t) next
        (if last_section_number s <? next then true else ts_complete t) (ts_new_table t)).

Definition section_ext_useful (s : section_ext) (t : psi_table_state) : Z * psi_table_state :=
  if (version_number s =? ts_version_number t) && ts_complete t then (0, t)
  else if negb (version_number s =? ts_version_number t) then
    if negb (section_number s =? 0) then (0, t)
    else section_accept s (PsiTableState (version_number s) 0 false true)
  else if section_number s =? ts_next_section_number t then
    section_accept s (PsiTableState (ts_version_number t) (ts_next_section_number t)
                        (ts_complete t) false)
  else (0, t).

(** ** Header and CRC *)

(** The section as transmitted: the length word most significant byte first. *)
Definition wire (m : mem) : mem :=
  match m with
  | t :: a :: b :: rest => t :: b :: a :: rest
  | _ => m
  end.

(** The length field of a buffer whose length word is native. *)
Definition sec_len (m : mem) : Z :=
  match m with
  | _ :: a :: b :: _ => word_length (le_combine [a; b])
  | _ => 0
  end.

Lemma wire_length m : length (wire m) = length m.
Proof. by destruct m as [|? [|? [|? ?]]]. Qed.

Lemma wire_involutive m : wire (wire m) = m.
Proof. by destruct m as [|? [|? [|? ?]]]. Qed.

Lemma wire_bytes m : Forall byte m -> Forall byte (wire m).
Proof.
  destruct m as [|? [|? [|? ?]]]; try done. cbn. rewrite !Forall_cons_iff. tauto.
Qed.

Lemma sec_len_bound m : 0 <= sec_len m <= 4095.
Proof.
  destruct m as [|? [|? [|? ?]]]; cbn [sec_len]; try lia. apply (land_nonneg_le _ 0xfff). lia.
Qed.

Lemma sec_len_app (l l' : mem) : 3 <= zlen l -> sec_len (l ++ l') = sec_len l.
Proof. by destruct l as [|? [|? [|? ?]]]; simpl; try lia. Qed.

Lemma section_header (m : mem) : 3 <= zlen m -> exists t a b rest, m = t :: a :: b :: rest.
Proof. destruct m as [|t [|a [|b rest]]]; simpl; try lia. eauto. Qed.

Lemma bswap16_header m : 3 <= zlen m -> Forall byte m -> bswap16 1 m = Ret tt (wire m).
Proof.
  intros Hl Hb. destruct (section_header m Hl) as (t & a & b & rest & ->).
  apply (bswap_at_app 2 1 [t] [a; b]); [done..|]. solve_bytes.
Qed.

Lemma length_field_run m : 3 <= zlen m -> length_field m = Ret (sec_len m) m.
Proof.
  intros Hl. destruct (section_header m Hl) as (t & a & b & rest & ->).
  unfold length_field, ld16, mbind, M_bind.
  change (t :: a :: b :: rest) with ([t] ++ [a; b] ++ rest).
  by rewrite (ld_bytes_app [t] [a; b]).
Qed.

Lemma section_length_run m : 3 <= zlen m -> section_length m = Ret (sec_len m + 3) m.
Proof.
  intros Hl. unfold section_length, mbind, M_bind. rewrite length_field_run by done.
  pose proof (sec_len_bound m). unfold mret, M_ret. by rewrite u64_id by (unfold sizeof_section; lia).
Qed.

(** [section_codec] accepts exactly the buffers whose length is the announced one. *)
Lemma section_codec_run m :
  Forall byte m ->
  section_codec (zlen m) m =
  if zlen m <? 3 then Null m
  else if zlen m =? sec_len (wire m) + 3 then Ret tt (wire m) else Null (wire m).
Proof.
  intros Hb. unfold section_codec, mbind, M_bind. destruct (Z.ltb_spec (zlen m) 3); [done|].
  cbn [reject_if]. unfold mret, M_ret. rewrite bswap16_header by done.
  rewrite length_field_run by (rewrite wire_length; lia).
  by destruct (zlen m =? _).
Qed.

Lemma section_check_crc_run m :
  3 <= zlen m -> Forall byte m -> sec_len m + 3 <= zlen m ->
  section_check_crc m =
  Ret (if crc_spec CRC32_INIT (range (wire m) 0 (sec_len m + 3)) =? 0 then 0 else -1) m.
Proof.
  intros Hl Hb Hin. unfold section_check_crc, mbind, M_bind.
  rewrite section_length_run, bswap16_header by done. pose proof (sec_len_bound m).
  rewrite crc32_run; rewrite ?wire_length; try lia; [|by apply wire_bytes|by compute].
  rewrite bswap16_header, wire_involutive; [done|by rewrite wire_length|by apply wire_bytes].
Qed.

(** ** Round trip of an extended section *)

(** An extended section in native form: header word [a b], table id extension [e0 e1], the rest
    up to the CRC, the CRC field, and what follows the section in the buffer. *)
Definition ext_section (t a b e0 e1 : Z) (body crc post : list Z) : mem :=
  [t; a; b] ++ [e0; e1] ++ body ++ crc ++ post.

Definition syntax_of (m : mem) : Z :=
  match m with
  | _ :: a :: b :: _ => word_syntax_indicator (le_combine [a; b])
  | _ => 0
  end.

Lemma syntax_indicator_run m : 3 <= zlen m -> syntax_indicator m = Ret (syntax_of m) m.
Proof.
  intros Hl. destruct (section_header m Hl) as (t & a & b & rest & ->).
  unfold syntax_indicator, ld16, mbind, M_bind.
  change (t :: a :: b :: rest) with ([t] ++ [a; b] ++ rest).
  by rewrite (ld_bytes_app [t] [a; b]).
Qed.

Section RoundTrip.
Context (t a b e0 e1 : Z) (body crc post : list Z).
Context (Hbytes : Forall byte (ext_section t a b e0 e1 body crc post)).
Context (Hcrc : length crc = 4%nat).
Context (Hlen : sec_len [t; a; b] = 2 + zlen body + 4).
Context (Hsyn : syntax_of [t; a; b] <> 0).

Let sum : Z := crc_spec CRC32_INIT ([t; b; a] ++ [e1; e0] ++ body).
Let encoded : mem := ext_section t a b e1 e0 body (crc_bytes sum) post.

Lemma ext_parts :
  Forall byte [t; a; b] /\ Forall byte [e0; e1] /\ Forall byte body /\ Forall byte crc /\
  Forall byte post.
Proof. unfold ext_section in Hbytes. by rewrite !Forall_app in Hbytes. Qed.

Lemma ext_bytes e e' c : Forall byte [e; e'] -> Forall byte c ->
  Forall byte (ext_section t a b e e' body c post).
Proof.
  intros He Hc. unfold ext_section. rewrite !Forall_app. pose proof ext_parts. tauto.
Qed.

Lemma ext_wire e e' c :
  wire (ext_section t a b e e' body c post) = [t; b; a] ++ [e; e'] ++ body ++ c ++ post.
Proof. done. Qed.

Lemma ext_length e e' c :
  length c = 4%nat -> zlen (ext_section t a b e e' body c post) = 9 + zlen body + zlen post.
Proof. intros Hc. unfold ext_section. rewrite !length_app, Hc. simpl length. lia. Qed.

Lemma bswap_ext e e' c : Forall byte [e; e'] ->
  bswap16 (0 + sizeof_section) (ext_section t a b e e' body c post) =
  Ret tt (ext_section t a b e' e body c post).
Proof. intros He. by apply (bswap_at_app 2 3 [t; a; b] [e; e']). Qed.

Lemma range_before_crc e e' c :
  range ([t; b; a] ++ [e; e'] ++ body ++ c ++ post) 0 (5 + zlen body) =
  [t; b; a] ++ [e; e'] ++ body.
Proof.
  apply (range_prefix ([t; b; a] ++ [e; e'] ++ body) (c ++ post)).
  rewrite !length_app. simpl length. lia.
Qed.

Lemma range_with_crc e e' c :
  length c = 4%nat ->
  range ([t; b; a] ++ [e; e'] ++ body ++ c ++ post) 0 (9 + zlen body) =
  ([t; b; a] ++ [e; e'] ++ body) ++ c.
Proof.
  intros Hc. rewrite <- (range_prefix (([t; b; a] ++ [e; e'] ++ body) ++ c) post (9 + zlen body)).
  - by rewrite <- !app_assoc.
  - rewrite !length_app, Hc. simpl length. lia.
Qed.

Lemma header_run e e' c :
  length c = 4%nat -> Forall byte [e; e'] ->
  syntax_indicator (ext_section t a b e e' body c post) =
    Ret (syntax_of [t; a; b]) (ext_section t a b e e' body c post) /\
  length_field (ext_section t a b e e' body c post) =
    Ret (2 + zlen body + 4) (ext_section t a b e e' body c post).
Proof.
  intros Hc He. rewrite syntax_indicator_run, length_field_run by (rewrite ext_length; lia).
  by rewrite <- Hlen.
Qed.

Lemma store_crc e e' c :
  Forall byte [e; e'] -> length c = 4%nat -> word32 sum ->
  (st_bytes (5 + zlen body) (le_split 4 sum);; bswap32 (5 + zlen body))
    (ext_section t a b e e' body c post)
  = Ret tt (ext_section t a b e e' body (crc_bytes sum) post).
Proof.
  intros He Hc Hs. unfold ext_section. rewrite !app_assoc, <- (app_assoc _ c post).
  set (pre := (([t; a; b] ++ [e; e']) ++ body)).
  assert (Hpre : 5 + zlen body = zlen pre).
  { unfold pre. rewrite !length_app. simpl length. lia. }
  rewrite Hpre. unfold mbind, M_bind.
  rewrite st_bytes_app by (by rewrite ?length_le_split || apply le_split_bytes).
  unfold bswap32. rewrite bswap_at_app by (done || by rewrite length_le_split || apply le_split_bytes).
  by rewrite <- !app_assoc.
Qed.

(** Encoding swaps the table id extension and stores the CRC of the transmitted bytes. *)
Lemma section_ext_encode_run :
  section_ext_encode true (ext_section t a b e0 e1 body crc post) = Ret tt encoded.
Proof.
  pose proof ext_parts as (H3 & He & Hbody & Hcrcb & Hpost).
  assert (He' : Forall byte [e1; e0]) by solve_bytes.
  assert (Hw : Forall byte (ext_section t a b e1 e0 body crc post)) by by apply ext_bytes.
  assert (Hzl : zlen (ext_section t a b e1 e0 body crc post) = 9 + zlen body + zlen post)
    by by apply ext_length.
  unfold section_ext_encode, mbind, M_bind.
  rewrite (proj1 (header_run e0 e1 crc Hcrc He)).
  rewrite (proj2 (Z.eqb_neq _ _) Hsyn). cbn [reject_if]. unfold mret, M_ret.
  rewrite bswap_ext, (proj2 (header_run e1 e0 crc Hcrc He')) by done.
  pose proof (sec_len_bound [t; a; b]).
  rewrite bswap16_header by (done || lia).
  replace (u64 (sizeof_section + (2 + zlen body + 4) - 4)) with (5 + zlen body)
    by (unfold sizeof_section; rewrite u64_id by lia; lia).
  rewrite crc32_run; [|by apply wire_bytes|lia|lia|rewrite wire_length; lia|by compute].
  rewrite bswap16_header, wire_involutive by (rewrite ?wire_length; lia || by apply wire_bytes).
  rewrite ext_wire, range_before_crc.
  replace (sizeof_section + (2 + zlen body + 4) - 4) with (5 + zlen body)
    by (unfold sizeof_section; lia).
  apply (store_crc e1 e0 crc He' Hcrc). by apply crc_spec_word.
Qed.

(** Decoding an encoded section checks its CRC and gives the section back, with its CRC field
    filled in. *)
Lemma section_ext_decode_encoded :
  section_ext_decode true encoded =
  Ret tt (ext_section t a b e0 e1 body (crc_bytes sum) post).
Proof.
  pose proof ext_parts as (H3 & He & Hbody & Hcrcb & Hpost).
  assert (He' : Forall byte [e1; e0]) by solve_bytes.
  pose proof (crc_bytes_bytes sum) as Hsb.
  assert (Hw : Forall byte encoded) by by apply ext_bytes.
  assert (Hzl : zlen encoded = 9 + zlen body + zlen post) by by apply ext_length.
  pose proof (sec_len_bound [t; a; b]).
  unfold section_ext_decode, mbind, M_bind.
  assert (Hsi : syntax_indicator encoded = Ret (syntax_of [t; a; b]) encoded)
    by by apply header_run.
  rewrite Hsi, (proj2 (Z.eqb_neq _ _) Hsyn). cbn [reject_if]. unfold mret, M_ret.
  change (sec_len [t; a; b]) with (sec_len encoded) in *.
  rewrite section_check_crc_run; [|lia|done|lia].
  rewrite Hlen. replace (2 + zlen body + 4 + 3) with (9 + zlen body) by lia.
  unfold encoded at 1. rewrite ext_wire, range_with_crc by done.
  rewrite (proj2 (crc_spec_append CRC32_INIT ([t; b; a] ++ [e1; e0] ++ body) (crc_bytes sum)
    ltac:(done) ltac:(solve_bytes) Hsb eq_refl) eq_refl).
  rewrite Z.eqb_refl. cbn [reject_if negb Z.eqb]. by apply bswap_ext.
Qed.
End RoundTrip.

(** ** Table state: sections of one version are collected in order, without gaps *)

(** What a caller of [section_ext_useful] keeps: the state, and the sections it accepted since
    the last new table. *)
Definition psi_step (c : psi_table_state * list section_ext) (s : section_ext) :
    psi_table_state * list section_ext :=
  let '(r, t) := section_ext_useful s c.1 in
  if r =? 0 then (t, c.2)
  else (t, if ts_new_table t then [s] else c.2 ++ [s]).

Definition psi_run (t : psi_table_state) (ss : list section_ext) :
    psi_table_state * list section_ext :=
  foldl psi_step (psi_table_state_reset t, []) ss.

(** The ranges of the bit-fields of a section header. *)
Definition section_ext_ok (s : section_ext) : Prop :=
  0 <= version_number s < 32 /\ byte (section_number s) /\ byte (last_section_number s).

(** Either nothing was accepted since the reset, or the accepted sections are numbered 0, 1, ...
    of the current version, and the table is complete just when the last one announced so. *)
Definition psi_inv (c : psi_table_state * list section_ext) : Prop :=
  let '(t, acc) := c in
  match last acc with
  | None => ts_version_number t = 0xff
  | Some s =>
      0 <= ts_version_number t < 32 /\
      Forall (fun x => version_number x = ts_version_number t) acc /\
      map section_number acc = seqZ 0 (zlen acc) /\
      zlen acc <= 256 /\
      ts_next_section_number t = zlen acc /\
      ts_complete t = (last_section_number s <? zlen acc)
  end.

Lemma psi_inv_snoc t acc s :
  psi_inv (t, acc ++ [s]) <->
  0 <= ts_version_number t < 32 /\
  Forall (fun x => version_number x = ts_version_number t) (acc ++ [s]) /\
  map section_number (acc ++ [s]) = seqZ 0 (zlen (acc ++ [s])) /\
  zlen (acc ++ [s]) <= 256 /\ ts_next_section_number t = zlen (acc ++ [s]) /\
  ts_complete t = (last_section_number s <? zlen (acc ++ [s])).
Proof. unfold psi_inv. by rewrite last_snoc. Qed.

Lemma psi_step_inv c s : section_ext_ok s -> psi_inv c -> psi_inv (psi_step c s).
Proof.
  destruct c as [t acc]. intros (Hv & Hn & Hl) Hinv.
  unfold psi_step, section_ext_useful, section_accept. cbn [fst snd].
  destruct (Z.eqb_spec (version_number s) (ts_version_number t)) as [Ev|Ev];
    cbn [andb negb].
  - destruct (ts_complete t) eqn:Ec; [by cbn|].
    destruct (Z.eqb_spec (section_number s) (ts_next_section_number t)) as [En|En]; [|by cbn].
    cbn [Z.eqb ts_new_table].
    destruct (last acc) as [s0|] eqn:El.
    2: { unfold psi_inv in Hinv. rewrite El in Hinv. lia. }
    apply last_Some in El as [acc' ->]. apply psi_inv_snoc in Hinv as (H1 & H2 & H3 & H4 & H5 & H6).
    set (l := acc' ++ [s0]) in *. apply psi_inv_snoc. cbn.
    rewrite length_app, Nat2Z.inj_add. change (zlen [s]) with 1. unfold byte in *.
    rewrite (u16_id (ts_next_section_number t + 1)) by lia.
    split_and!; try lia.
    + apply Forall_app. split; [done|]. by constructor.
    + rewrite map_app, H3, seqZ_app by lia. f_equal. cbn [map]. rewrite En, H5.
      by rewrite (seqZ_cons _ 1), seqZ_nil by lia.
    + rewrite H5. by case_match.
  - destruct (Z.eqb_spec (section_number s) 0) as [E0|E0]; cbn [negb]; [|by cbn].
    cbn [Z.eqb ts_new_table]. apply (psi_inv_snoc _ []). cbn.
    change (u16 (0 + 1)) with 1. split_and!; try (done || lia).
    + by constructor.
    + by rewrite E0.
    + by case_match.
Qed.

Lemma psi_run_inv t ss : Forall section_ext_ok ss -> psi_inv (psi_run t ss).
Proof.
  intros H. unfold psi_run. assert (Hi : psi_inv (psi_table_state_reset t, [])) by done.
  revert Hi. generalize (psi_table_state_reset t, @nil section_ext).
  induction H as [|s ss Hs _ IH]; intros c Hc; [done|]. apply IH. by apply psi_step_inv.
Qed.

(** The sections of a table with last number [last], in order. *)
Definition table_sections (v last : Z) : list section_ext :=
  map (fun i => SectionExt v i last) (seqZ 0 (last + 1)).

Lemma seqZ_one m : seqZ m 1 = [m].
Proof. rewrite seqZ_cons by lia. by rewrite seqZ_nil by lia. Qed.

Lemma psi_table_prefix t v last n :
  0 <= v < 32 -> byte last -> Z.of_nat n <= last ->
  exists t', psi_run t (map (fun i => SectionExt v i last) (seqZ 0 (Z.of_nat (S n)))) =
    (t', map (fun i => SectionExt v i last) (seqZ 0 (Z.of_nat (S n)))) /\
    ts_version_number t' = v /\ ts_next_section_number t' = Z.of_nat (S n) /\
    ts_complete t' = (last =? Z.of_nat n).
Proof.
  unfold byte. intros Hv Hl. induction n as [|n IH]; intros Hn.
  - change (Z.of_nat 1) with 1. rewrite seqZ_one. cbn [map]. unfold psi_run. cbn [foldl].
    unfold psi_step, section_ext_useful, section_accept. cbn.
    rewrite (proj2 (Z.eqb_neq v 255)) by lia. cbn. eexists. split_and!; [done..|].
    cbn. replace (u16 _) with 1 by done. change (Z.of_nat 0) with 0.
    destruct (Z.ltb_spec last 1), (Z.eqb_spec last 0); done || lia.
  - destruct IH as (t' & Hrun & H1 & H2 & H3); [lia|].
    replace (Z.of_nat (S (S n))) with (Z.of_nat (S n) + 1) by lia.
    rewrite seqZ_app, map_app, seqZ_one by lia. cbn [map].
    unfold psi_run in *. rewrite foldl_app, Hrun. cbn [foldl].
    unfold psi_step, section_ext_useful, section_accept. cbn [fst snd version_number].
    rewrite H1, H2, Z.eqb_refl, H3. cbn [section_number].
    rewrite (proj2 (Z.eqb_neq last (Z.of_nat n))) by lia. cbn [andb negb].
    rewrite Z.add_0_l, Z.eqb_refl. cbn.
    eexists. split_and!; [done|done| |]; cbn; rewrite (u16_id (_ + 1)) by lia; [lia|].
    destruct (Z.ltb_spec last (Z.of_nat (S n) + 1)), (Z.eqb_spec last (Z.of_nat (S n))); lia || done.
Qed.

(** ** Rules for the table codecs *)

Lemma sec_len_frame m0 k m : 3 <= k -> frame m0 k m -> sec_len m = sec_len m0.
Proof.
  intros Hk [Hl _ Hp]. pose proof (Hp 1 ltac:(lia)) as H1. pose proof (Hp 2 ltac:(lia)) as H2.
  destruct m as [|t [|a [|b r]]], m0 as [|t0 [|a0 [|b0 r0]]]; simplify_eq/=; try lia; done.
Qed.

(** The length of the section, without its CRC, is a constant while the header is not written. *)
Lemma safe_section_ext_length {m0 k} :
  3 <= k -> 3 <= zlen m0 ->
  safe m0 k section_ext_length (fun v => v = u64 (sec_len m0 + 3 - 4)).
Proof.
  intros Hk Hl m Hm. unfold wp, section_ext_length, mbind, M_bind.
  rewrite length_field_run by (rewrite (frame_length _ _ _ Hm); lia).
  rewrite (sec_len_frame m0 k m) by done. done.
Qed.

Lemma safe_section_length {m0 k} :
  3 <= k -> 3 <= zlen m0 -> safe m0 k section_length (fun v => v = sec_len m0 + 3).
Proof.
  intros Hk Hl m Hm. unfold wp.
  rewrite section_length_run by (rewrite (frame_length _ _ _ Hm); lia).
  by rewrite (sec_len_frame m0 k m).
Qed.

Lemma safe_length_field {m0 k} :
  3 <= k -> 3 <= zlen m0 -> safe m0 k length_field (fun v => v = sec_len m0).
Proof.
  intros Hk Hl m Hm. unfold wp.
  rewrite length_field_run by (rewrite (frame_length _ _ _ Hm); lia).
  by rewrite (sec_len_frame m0 k m).
Qed.

#[export] Hint Extern 1 (safe _ _ section_ext_length _) =>
  apply safe_section_ext_length; lia : safe.
#[export] Hint Extern 1 (safe _ _ section_length _) => apply safe_section_length; lia : safe.
#[export] Hint Extern 1 (safe _ _ length_field _) => apply safe_length_field; lia : safe.

(** ** Shared by the table codecs *)

(** A native 16-bit word whose low 12 (13) bits are a bit-field. *)
Definition ld_field12 (p : Z) : M Z := w ← ld16 p; mret (Z.land w 0xfff).
Definition ld_field13 (p : Z) : M Z := w ← ld16 p; mret (Z.land w 0x1fff).

Lemma safe_ld_field12 {m0 k} p :
  0 <= p -> p + 2 <= zlen m0 -> safe m0 k (ld_field12 p) (fun v => 0 <= v <= 4095).
Proof.
  intros Hp Hl. eapply safe_bind; [by apply safe_ld16|]. intros w _. apply safe_ret.
  apply (land_nonneg_le w 0xfff). lia.
Qed.

Lemma safe_ld_field13 {m0 k} p :
  0 <= p -> p + 2 <= zlen m0 -> safe m0 k (ld_field13 p) (fun v => 0 <= v <= 8191).
Proof.
  intros Hp Hl. eapply safe_bind; [by apply safe_ld16|]. intros w _. apply safe_ret.
  apply (land_nonneg_le w 0x1fff). lia.
Qed.

#[export] Hint Extern 1 (safe _ _ (ld_field12 _) _) => apply safe_ld_field12; lia : safe.
#[export] Hint Extern 1 (safe _ _ (ld_field13 _) _) => apply safe_ld_field13; lia : safe.

(** A buffer that [section_codec] accepted, whose section holds an extended header and a CRC.
    The length of the section without the CRC is then [sec_len m - 1], without wrap-around. *)
Record section_buffer (m : mem) : Prop := {
  sb_bytes : Forall byte m;
  sb_fits : sec_len m + 3 <= zlen m;
}.

Record ext_section_buffer (m : mem) : Prop := {
  esb_buffer : section_buffer m;
  esb_min : 9 <= sec_len m;
}.

(** An in-place codec is safe on a buffer: it terminates without touching memory outside it, and
    leaves the section header alone. *)
Definition codec_safe (k : Z) {A} (c : M A) (m : mem) : Prop := safe m k c (fun _ => True).

Lemma ext_len_id m : section_buffer m -> 1 <= sec_len m -> u64 (sec_len m + 3 - 4) = sec_len m - 1.
Proof. intros _ H. pose proof (sec_len_bound m). rewrite u64_id by lia. lia. Qed.

Lemma section_ext_length_run m :
  3 <= zlen m -> 1 <= sec_len m -> section_ext_length m = Ret (sec_len m - 1) m.
Proof.
  intros Hl Hm. unfold section_ext_length. run by by apply length_field_run.
  unfold mret, M_ret, sizeof_section, CRC_SIZE. pose proof (sec_len_bound m).
  rewrite u64_id by lia. f_equal. lia.
Qed.

(** ** The properties of the section layer *)

(** [section_codec] accepts a buffer exactly when it holds a header and its size is the length
    the header announces; it then leaves the length word in host order and the rest alone. *)
Theorem section_codec_correct m :
  Forall byte m ->
  (3 <= zlen m -> zlen m = sec_len (wire m) + 3 -> section_codec (zlen m) m = Ret tt (wire m)) /\
  (zlen m < 3 \/ zlen m <> sec_len (wire m) + 3 -> exists m', section_codec (zlen m) m = Null m').
Proof.
  intros Hb. rewrite section_codec_run by done. split.
  - intros H1 H2. rewrite (proj2 (Z.ltb_ge _ _)) by lia. by rewrite (proj2 (Z.eqb_eq _ _)).
  - intros H. destruct (Z.ltb_spec (zlen m) 3); [by eexists|].
    rewrite (proj2 (Z.eqb_neq _ _)) by lia. by eexists.
Qed.

Lemma section_codec_correct_witness :
  let m := [0; 0; 2; 7; 8] in
  (3 <= zlen m -> zlen m = sec_len (wire m) + 3 -> section_codec (zlen m) m = Ret tt (wire m)) /\
  (zlen m < 3 \/ zlen m <> sec_len (wire m) + 3 -> exists m', section_codec (zlen m) m = Null m').
Proof. intros m. apply (section_codec_correct m). unfold m. solve_bytes. Defined.

(** C1: A section encoded by [section_ext_encode], which fills in the CRC, is accepted by
    [section_ext_decode] with the CRC check, and comes back with its body unchanged. *)
Theorem section_ext_roundtrip t a b e0 e1 body crc post :
  Forall byte (ext_section t a b e0 e1 body crc post) -> length crc = 4%nat ->
  sec_len [t; a; b] = 2 + zlen body + 4 -> syntax_of [t; a; b] <> 0 ->
  exists enc crc', section_ext_encode true (ext_section t a b e0 e1 body crc post) = Ret tt enc /\
    length enc = length (ext_section t a b e0 e1 body crc post) /\
    section_ext_decode true enc = Ret tt (ext_section t a b e0 e1 body crc' post).
Proof.
  intros Hb Hc Hl Hs. eexists _, _. split; [by apply (section_ext_encode_run t a b e0 e1 body crc post)|].
  split; [|by apply (section_ext_decode_encoded t a b e0 e1 body crc post)].
  unfold ext_section. rewrite !length_app. cbn. by rewrite Hc.
Qed.

Lemma section_ext_roundtrip_witness :
  exists enc crc', section_ext_encode true (ext_section 0 9 0x80 1 2 [3; 4; 5] [0; 0; 0; 0] [6]) =
      Ret tt enc /\
    length enc = 13%nat /\
    section_ext_decode true enc = Ret tt (ext_section 0 9 0x80 1 2 [3; 4; 5] crc' [6]).
Proof.
  apply (section_ext_roundtrip 0 9 0x80 1 2 [3; 4; 5] [0; 0; 0; 0] [6]);
    [unfold ext_section; solve_bytes|reflexivity|reflexivity|done].
Defined.

(** C39: [section_check_crc] detects every error burst inside four consecutive bytes after the
    header: of two sections that differ only there, at most one passes. *)
Theorem section_crc_detects_burst pre u v post :
  Forall byte pre -> Forall byte u -> Forall byte v -> Forall byte post ->
  length u = 4%nat -> length v = 4%nat -> 3 <= zlen pre ->
  sec_len pre + 3 = zlen (pre ++ u ++ post) -> u <> v ->
  exists r s, section_check_crc (pre ++ u ++ post) = Ret r (pre ++ u ++ post) /\
    section_check_crc (pre ++ v ++ post) = Ret s (pre ++ v ++ post) /\ ~ (r = 0 /\ s = 0).
Proof.
  intros Hp Hu Hv Hpo Lu Lv H3 Hlen Hne.
  destruct (section_header pre H3) as (t & a & b & rest & ->).
  assert (Hl : forall x, sec_len ((t :: a :: b :: rest) ++ x) = sec_len (t :: a :: b :: rest)) by done.
  assert (Hlv : zlen ((t :: a :: b :: rest) ++ v ++ post) = zlen ((t :: a :: b :: rest) ++ u ++ post))
    by (rewrite !length_app; lia).
  rewrite !section_check_crc_run; rewrite ?Hl; try lia;
    try (rewrite length_app; cbn [length] in *; lia); try (rewrite !Forall_app; done).
  eexists _, _. split; [done|]. split; [done|]. intros [Hr Hs].
  rewrite Hlen in Hr at 1. rewrite Hlen, <- Hlv in Hs.
  assert (Hw : forall x, wire ((t :: a :: b :: rest) ++ x) = (t :: b :: a :: rest) ++ x) by done.
  rewrite Hw in Hr, Hs.
  assert (Hz : forall x, zlen ((t :: a :: b :: rest) ++ x) = zlen ((t :: b :: a :: rest) ++ x)) by done.
  rewrite Hz, range_all in Hr. rewrite Hz, range_all in Hs.
  destruct (Z.eqb_spec (crc_spec CRC32_INIT ((t :: b :: a :: rest) ++ u ++ post)) 0) as [Eu|]; [|done].
  destruct (Z.eqb_spec (crc_spec CRC32_INIT ((t :: b :: a :: rest) ++ v ++ post)) 0) as [Ev|]; [|done].
  apply Hne, (crc_spec_burst CRC32_INIT (t :: b :: a :: rest) u v post); try done.
  - solve_bytes.
  - congruence.
Qed.

Lemma section_crc_detects_burst_witness :
  exists r s, section_check_crc ([0; 5; 0; 1] ++ [1; 2; 3; 4] ++ []) =
      Ret r ([0; 5; 0; 1] ++ [1; 2; 3; 4] ++ []) /\
    section_check_crc ([0; 5; 0; 1] ++ [1; 2; 3; 5] ++ []) =
      Ret s ([0; 5; 0; 1] ++ [1; 2; 3; 5] ++ []) /\ ~ (r = 0 /\ s = 0).
Proof.
  apply (section_crc_detects_burst [0; 5; 0; 1] [1; 2; 3; 4] [1; 2; 3; 5] []);
    [solve_bytes..|done|done|cbn; lia|done|done].
Defined.

(** C34: Whatever sections arrive, the ones [section_ext_useful] accepted since the last new table are
    the sections 0, 1, ... of one version, in order and without gaps, and the table is marked
    complete just when the last of them announced so. *)
Theorem psi_table_collects t ss : Forall section_ext_ok ss -> psi_inv (psi_run t ss).
Proof. apply psi_run_inv. Qed.

Lemma psi_table_collects_witness :
  psi_inv (psi_run (PsiTableState 3 1 true false)
    [SectionExt 5 1 1; SectionExt 5 0 1; SectionExt 5 1 1; SectionExt 6 0 0]).
Proof.
  apply psi_table_collects. repeat constructor; cbn; lia.
Defined.

(** A table whose sections arrive in order is accepted whole, and marked complete exactly with
    its last section. *)
Theorem psi_table_completes t v last n :
  0 <= v < 32 -> byte last -> Z.of_nat n <= last ->
  exists t', psi_run t (take (S n) (table_sections v last)) =
      (t', take (S n) (table_sections v last)) /\
    ts_version_number t' = v /\ ts_complete t' = (last =? Z.of_nat n).
Proof.
  intros Hv Hl Hn. destruct (psi_table_prefix t v last n Hv Hl Hn) as (t' & Hrun & H1 & _ & H3).
  exists t'. unfold table_sections.
  assert (take (S n) (map (λ i, SectionExt v i last) (seqZ 0 (last + 1))) =
    map (λ i, SectionExt v i last) (seqZ 0 (Z.of_nat (S n)))) as ->; [|done].
  rewrite firstn_map. f_equal.
  replace (last + 1) with (Z.of_nat (S n) + (last - Z.of_nat n)) by lia. rewrite seqZ_app by lia.
  rewrite take_app_le by (rewrite length_seqZ; lia). rewrite take_ge by (rewrite length_seqZ; lia).
  done.
Qed.

Lemma psi_table_completes_witness :
  exists t', psi_run (PsiTableState 3 1 true false) (take 3 (table_sections 7 2)) =
      (t', take 3 (table_sections 7 2)) /\
    ts_version_number t' = 7 /\ ts_complete t' = (2 =? Z.of_nat 2).
Proof. apply (psi_table_completes _ 7 2 2); [lia|done|lia]. Defined.
