(* ===== verification/EntryTable.v ===== *)
(** * Tables of entries with descriptor loops

    Most tables of libucsi hold a sequence of entries, each a fixed header that announces a
    descriptor loop: the streams of a PMT, the services of an SDT, the transports of a NIT, the
    events of an EIT, the tables of an MGT.  The class [EntryFormat] is what the code knows of one
    kind of entry, its laws [EntryLaws] relate the code to the transmitted bytes, and the theorems
    of the file hold for the codec loop and the iterator of any of them.  The table files give the
    instances, and show that the loops written out in the code are the ones studied here. *)

From S2P Require Export Section Descriptor.

(** [if (verify_descriptors(buf + pos, len)) return NULL;] *)
Definition verify_or_null (base len : Z) : M unit :=
  r ← verify_descriptors base len; reject_if (negb (r =? 0)).

(** ** Formats *)

(** The header size, its byte swaps, its length field and its other fields; then, for the
    specification, the swapped header, the announced length and the fields as functions of the
    transmitted header. *)
Class EntryFormat (A : Type) := {
  ef_size : Z;
  ef_swap : Z -> M unit;
  ef_length : Z -> M Z;
  ef_read : Z -> M A;
  ef_native : list Z -> list Z;
  ef_len : list Z -> Z;
  ef_value : list Z -> A;
}.

Class EntryLaws {A} (E : EntryFormat A) : Prop := {
  ef_size_pos : 0 < ef_size;
  ef_native_length hdr : zlen hdr = ef_size -> length (ef_native hdr) = length hdr;
  ef_native_bytes hdr : zlen hdr = ef_size -> Forall byte hdr -> Forall byte (ef_native hdr);
  ef_len_nonneg hdr : 0 <= ef_len hdr;
  ef_swap_run pre hdr post : zlen hdr = ef_size -> Forall byte hdr ->
    ef_swap (zlen pre) (pre ++ hdr ++ post) = Ret tt (pre ++ ef_native hdr ++ post);
  ef_length_run pre hdr post : zlen hdr = ef_size ->
    ef_length (zlen pre) (pre ++ ef_native hdr ++ post) =
    Ret (ef_len hdr) (pre ++ ef_native hdr ++ post);
  ef_read_run pre hdr post : zlen hdr = ef_size ->
    ef_read (zlen pre) (pre ++ ef_native hdr ++ post) =
    Ret (ef_value hdr) (pre ++ ef_native hdr ++ post);
}.

(** The loop of a codec, and the last check after it. *)
Definition entry_body `{EntryFormat A} (len pos : Z) : M Z :=
  reject_if (len <? pos + ef_size);;
  ef_swap pos;;
  n ← ef_length pos;
  reject_if (len <? pos + ef_size + n);;
  verify_or_null (pos + ef_size) n;;
  mret (pos + ef_size + n).

Definition entry_loop `{EntryFormat A} (len pos : Z) : M unit :=
  pos ← while (fun pos => mret (pos <? len)) (entry_body len) pos;
  reject_if (negb (pos =? len)).

(** An entry as a client reads it: its fields and its descriptors. *)
Definition read_entry `{EntryFormat A} (p : Z) : M (A * list (Z * list Z)) :=
  v ← ef_read p;
  n ← ef_length p;
  ds ← descriptors_for_each (p + ef_size) n;
  mret (v, ds).

(** ** Specification: the grammar of a table *)

Fixpoint entries_fuel `{EntryFormat A} (fuel : nat) (bs : list Z) :
    option (list (A * list (Z * list Z))) :=
  match fuel, bs with
  | O, _ => None
  | S _, [] => Some []
  | S fuel', _ =>
      let hdr := take (Z.to_nat ef_size) bs in
      let rest := drop (Z.to_nat ef_size) bs in
      let n := ef_len hdr in
      if (ef_size <=? zlen bs) && (n <=? zlen rest) then
        ds ← parse_descriptors (take (Z.to_nat n) rest);
        es ← entries_fuel fuel' (drop (Z.to_nat n) rest);
        Some ((ef_value hdr, ds) :: es)
      else None
  end.

Definition parse_entries `{EntryFormat A} (bs : list Z) : option (list (A * list (Z * list Z))) :=
  entries_fuel (S (length bs)) bs.

(** How the codec rewrites a well-formed sequence of entries. *)
Inductive entries_image `{EntryFormat A} :
    list Z -> list Z -> list (A * list (Z * list Z)) -> Prop :=
  | entries_image_nil : entries_image [] [] []
  | entries_image_cons hdr d ds rest sw es :
      zlen hdr = ef_size -> zlen d = ef_len hdr -> parse_descriptors d = Some ds ->
      entries_image rest sw es ->
      entries_image (hdr ++ d ++ rest) (ef_native hdr ++ d ++ sw) ((ef_value hdr, ds) :: es).

(** ** Parts of a buffer *)

Definition be12 (a b : Z) : Z := Z.land (be_combine [a; b]) 0xfff.
Definition be13 (a b : Z) : Z := Z.land (be_combine [a; b]) 0x1fff.

Lemma be12_bound a b : 0 <= be12 a b <= 4095.
Proof. apply (land_nonneg_le _ 0xfff). lia. Qed.

(** A descriptor loop inside a buffer. *)
Lemma verify_at p n pre d post m :
  m = pre ++ d ++ post -> p = zlen pre -> n = zlen d -> Forall byte m ->
  verify_or_null p n m =
  match parse_descriptors d with Some _ => Ret tt m | None => Null m end.
Proof.
  intros -> -> -> Hb. unfold verify_or_null.
  run by (apply verify_descriptors_run; [done|lia|lia|rewrite !length_app; lia]).
  rewrite (range_at _ _ pre d post) by done. by destruct (parse_descriptors d).
Qed.

Lemma for_descriptors_at p n pre d post m ds :
  m = pre ++ d ++ post -> p = zlen pre -> n = zlen d -> Forall byte m ->
  parse_descriptors d = Some ds -> descriptors_for_each p n m = Ret ds m.
Proof.
  intros -> -> -> Hb Hd. apply descriptors_for_each_run; [done|lia|lia| |].
  - rewrite !length_app. lia.
  - by rewrite (range_at _ _ pre d post).
Qed.

Lemma field12_at p pre a b post m :
  m = pre ++ [a; b] ++ post -> p = zlen pre -> ld_field12 p m = Ret (be12 b a) m.
Proof. intros Hm Hp. unfold ld_field12. by run by (by apply (ld16_at _ pre a b post)). Qed.

Lemma field13_at p pre a b post m :
  m = pre ++ [a; b] ++ post -> p = zlen pre -> ld_field13 p m = Ret (be13 b a) m.
Proof. intros Hm Hp. unfold ld_field13. by run by (by apply (ld16_at _ pre a b post)). Qed.

(** Close the equations between parts of a buffer, and between offsets. *)
Ltac at_side :=
  first [ done
        | by rewrite <- ?app_assoc
        | rewrite ?length_app; simpl length; lia ].

(** ** Rules shared by the table codecs *)

Lemma safe_verify_or_null {m0 k} base len :
  0 <= base -> 0 <= len -> base + len <= zlen m0 ->
  safe m0 k (verify_or_null base len) (fun _ => True).
Proof.
  intros ? ? ?. unfold verify_or_null. safe_step.
  eapply safe_mono; [apply safe_reject_if|done].
Qed.

#[export] Hint Extern 1 (safe _ _ (verify_or_null _ _) _) =>
  apply safe_verify_or_null; lia : safe.

(** The last check of a codec. *)
Lemma safe_finish {m0 k} b : safe m0 k (reject_if b) (fun _ => True).
Proof. eapply safe_mono; [apply safe_reject_if|done]. Qed.

Ltac safe_codec_start :=
  let Hs := fresh "Hs" in let Hm := fresh "Hmin" in
  intros Hs Hm; pose proof (sb_fits _ Hs); unfold codec_safe;
  eapply safe_bind; [apply safe_section_ext_length; lia|];
  let len := fresh "len" in intros len ->; rewrite (ext_len_id _ Hs Hm).


(** The section of a buffer, cut into header, body and the rest, and what its length is whatever
    follows the header. *)
Lemma section_parts m h :
  section_buffer m -> 8 <= h -> h + 1 <= sec_len m ->
  exists pre body post,
    m = pre ++ body ++ post /\ zlen pre = h /\ zlen body = sec_len m - 1 - h /\
    pre = take (Z.to_nat h) m /\ body = range m h (sec_len m - 1 - h) /\
    (forall pre' l, zlen pre' = h -> take 3 pre' = take 3 pre ->
      section_ext_length (pre' ++ l) = Ret (sec_len m - 1) (pre' ++ l)).
Proof.
  intros [Hb Hfit] Hh Hmin.
  destruct (split_range m h (sec_len m - 1 - h)) as (Hm & Hpre & Hbody); [lia..|].
  eexists _, _, _. split; [exact Hm|]. split_and!; [done..|].
  intros pre' l Hl Ht. assert (sec_len (pre' ++ l) = sec_len m) as E.
  { transitivity (sec_len (take (Z.to_nat h) m)).
    - rewrite sec_len_app by lia. destruct pre' as [|? [|? [|? ?]]]; simpl in Hl; try lia.
      destruct (take (Z.to_nat h) m) as [|? [|? [|? ?]]]; simpl in Hpre; try lia.
      cbn in Ht. by simplify_eq.
    - symmetry. rewrite Hm at 1. by rewrite sec_len_app by lia. }
  rewrite <- E. apply section_ext_length_run; [rewrite length_app|]; lia.
Qed.

Lemma safe_rejected {A} m k (c : M A) :
  Forall byte m -> safe m k c (fun _ => False) -> exists m', c m = Null m'.
Proof.
  intros Hb Hs. specialize (Hs m (frame_refl m k Hb)). unfold wp in Hs.
  destruct (c m) as [a m'|m'|f]; [by destruct Hs|by exists m'|done].
Qed.

(** A descriptor loop of [n] bytes and what follows it. *)
Lemma descriptors_first (rest : list Z) n :
  0 <= n <= zlen rest ->
  exists d tl, rest = d ++ tl /\ zlen d = n /\ take (Z.to_nat n) rest = d /\
    drop (Z.to_nat n) rest = tl.
Proof.
  intros H. exists (take (Z.to_nat n) rest), (drop (Z.to_nat n) rest).
  rewrite take_drop, length_take. split_and!; done || lia.
Qed.

(** Checking that a descriptor loop fits, and that it is well formed. *)
Lemma checked_descriptors {A} (k : unit -> M A) len p n pre rest post :
  p = zlen pre -> len = zlen pre + zlen rest -> 0 <= n -> Forall byte (pre ++ rest ++ post) ->
  (reject_if (len <? p + n);; verify_or_null p n ≫= k) (pre ++ rest ++ post) =
  if n <=? zlen rest then
    match parse_descriptors (take (Z.to_nat n) rest) with
    | Some _ => k tt (pre ++ rest ++ post)
    | None => Null (pre ++ rest ++ post)
    end
  else Null (pre ++ rest ++ post).
Proof.
  intros -> -> Hn Hb. destruct (Z.leb_spec n (zlen rest)).
  - rewrite reject_run by (apply Z.ltb_ge; lia).
    assert (Hv : verify_or_null (zlen pre) n (pre ++ rest ++ post) =
      match parse_descriptors (take (Z.to_nat n) rest) with
      | Some _ => Ret tt (pre ++ rest ++ post) | None => Null (pre ++ rest ++ post) end).
    { apply (verify_at _ _ pre _ (drop (Z.to_nat n) rest ++ post)); try done.
      - by rewrite (app_assoc (take _ _)), take_drop.
      - rewrite length_take. lia. }
    destruct (parse_descriptors _); [by run by exact Hv|by apply bind_null].
  - apply reject_null, Z.ltb_lt. lia.
Qed.

(** ** Accesses inside a header

    A header is given by its cells, as an explicit list; accesses at constant offsets compute. *)

Definition swap_cells (n k : nat) (hdr : list Z) : list Z :=
  take k hdr ++ rev (take n (drop k hdr)) ++ drop (k + n) hdr.

Lemma split_cells (n k : nat) (hdr : list Z) :
  (k + n <= length hdr)%nat ->
  hdr = take k hdr ++ take n (drop k hdr) ++ drop (k + n) hdr /\
  length (take k hdr) = k /\ length (take n (drop k hdr)) = n.
Proof.
  intros H. rewrite !length_take, length_drop. split_and!; [|lia..].
  by rewrite <- drop_drop, !take_drop.
Qed.

Lemma bswap_cells n k p pre hdr post :
  p = zlen pre + Z.of_nat k -> (k + n <= length hdr)%nat -> Forall byte hdr ->
  bswap_at n p (pre ++ hdr ++ post) = Ret tt (pre ++ swap_cells n k hdr ++ post).
Proof.
  intros -> Hk Hb. destruct (split_cells n k hdr Hk) as (E & E1 & E2).
  assert (Hbb : Forall byte (take n (drop k hdr))) by by apply Forall_take, Forall_drop.
  unfold swap_cells. set (c := drop (k + n) hdr) in *. set (b := take n _) in *.
  set (a := take k hdr) in *. clearbody a b c. rewrite E, <- !app_assoc, (app_assoc pre a), (app_assoc pre a).
  apply bswap_at_app; [rewrite length_app; lia|done..].
Qed.

Lemma ld_cells n k p pre hdr post :
  p = zlen pre + Z.of_nat k -> (k + n <= length hdr)%nat ->
  ld_bytes p n (pre ++ hdr ++ post) = Ret (take n (drop k hdr)) (pre ++ hdr ++ post).
Proof.
  intros -> Hk. destruct (split_cells n k hdr Hk) as (E & E1 & E2).
  set (c := drop (k + n) hdr) in *. set (b := take n _) in *. set (a := take k hdr) in *.
  clearbody a b c.
  assert (E3 : pre ++ hdr ++ post = (pre ++ a) ++ b ++ c ++ post)
    by (rewrite E, <- !app_assoc; done).
  rewrite E3, <- E2. rewrite <- (ld_bytes_app (pre ++ a) b (c ++ post)).
  f_equal. rewrite length_app. lia.
Qed.

Lemma ld16_cells k p pre hdr post :
  p = zlen pre + Z.of_nat k -> (k + 2 <= length hdr)%nat ->
  ld16 p (pre ++ hdr ++ post) = Ret (le_combine (take 2 (drop k hdr))) (pre ++ hdr ++ post).
Proof. intros. unfold ld16. by erewrite bind_run by (by apply (ld_cells 2 k)). Qed.

Lemma ld8_cells k p pre hdr post v :
  p = zlen pre + Z.of_nat k -> hdr !! k = Some v ->
  ld8 p (pre ++ hdr ++ post) = Ret v (pre ++ hdr ++ post).
Proof.
  intros -> Hv. unfold ld8. rewrite lookup_z_app_r by lia.
  replace (zlen pre + Z.of_nat k - zlen pre) with (Z.of_nat k) by lia.
  unfold lookup_z. rewrite (proj2 (Z.leb_le 0 _)), Nat2Z.id by lia.
  rewrite lookup_app_l; [by rewrite Hv|]. by apply lookup_lt_Some in Hv.
Qed.

(** The field accessors to unfold when running on cells. *)
Create HintDb cells.
#[export] Hint Unfold ld_field12 ld_field13 ld32 : cells.

(** Name the cells of a list of known length. *)
Ltac name_cells hdr H :=
  apply (f_equal Z.to_nat) in H; rewrite Nat2Z.id in H; vm_compute (Z.to_nat _) in H;
  repeat (destruct hdr as [|? hdr]; [discriminate H|]; apply (f_equal pred) in H;
          cbn [length pred] in H);
  destruct hdr; [clear H|discriminate H].

(** Run the accesses of [ef_swap], [ef_length] and [ef_read]. *)
Ltac cell_offset p :=
  lazymatch p with
  | _ + ?z => let k := eval compute in (Z.to_nat z) in k
  | _ => constr:(0%nat)
  end.

Ltac eval_swap :=
  match goal with
  | |- context [swap_cells ?n ?k ?h] =>
      let h' := eval cbv [swap_cells firstn skipn rev app Nat.add] in (swap_cells n k h) in
      change (swap_cells n k h) with h'
  end.

Ltac run_cell :=
  lazymatch goal with
  | |- context [bswap16 ?p (_ ++ _ ++ _)] =>
      let k := cell_offset p in unfold bswap16 at 1;
      rewrite (bswap_cells 2 k p) by first [done|simpl; lia|solve_bytes]; eval_swap
  | |- context [bswap32 ?p (_ ++ _ ++ _)] =>
      let k := cell_offset p in unfold bswap32 at 1;
      rewrite (bswap_cells 4 k p) by first [done|simpl; lia|solve_bytes]; eval_swap
  | |- context [ld16 ?p (_ ++ _ ++ _)] =>
      let k := cell_offset p in
      rewrite (ld16_cells k p) by first [done|simpl; lia]; cbn [take drop]
  | |- context [ld8 ?p (_ ++ _ ++ _)] =>
      let k := cell_offset p in
      erewrite (ld8_cells k p) by (reflexivity || lia)
  | |- context [ld_bytes ?p ?n (_ ++ _ ++ _)] =>
      let k := cell_offset p in
      rewrite (ld_cells n k p) by first [done|simpl; lia]; cbn [take drop]
  end.

Ltac run_cells :=
  autounfold with cells; unfold mbind, M_bind, mret, M_ret;
  repeat (run_cell; cbv beta iota); reflexivity.

(** Prove the laws of a format whose functions are given by cells. *)
Ltac entry_laws :=
  lazymatch goal with |- EntryLaws ?E => let E' := eval red in E in change E with E' end;
  split;
  cbn [ef_size ef_swap ef_length ef_read ef_native ef_len ef_value];
  [ reflexivity
  | let hdr := fresh "hdr" in let H := fresh in intros hdr H; name_cells hdr H; reflexivity
  | let hdr := fresh "hdr" in let H := fresh in intros hdr H ?; name_cells hdr H; solve_bytes
  | let hdr := fresh "hdr" in intros hdr; repeat case_match;
    first [lia|by apply Z.land_nonneg; right]
  | let hdr := fresh "hdr" in let H := fresh in intros ? hdr ? H ?; name_cells hdr H; run_cells
  | let hdr := fresh "hdr" in let H := fresh in intros ? hdr ? H; name_cells hdr H; run_cells
  | let hdr := fresh "hdr" in let H := fresh in intros ? hdr ? H; name_cells hdr H; run_cells ].

(** ** The codec loop decides the grammar *)

Section Entries.
Context {A : Type} {E : EntryFormat A} {EL : EntryLaws E}.

Lemma entries_fuel_eq f bs : bs <> [] ->
  entries_fuel (S f) bs =
  if (ef_size <=? zlen bs)
     && (ef_len (take (Z.to_nat ef_size) bs) <=? zlen (drop (Z.to_nat ef_size) bs)) then
    ds ← parse_descriptors (take (Z.to_nat (ef_len (take (Z.to_nat ef_size) bs)))
           (drop (Z.to_nat ef_size) bs));
    es ← entries_fuel f (drop (Z.to_nat (ef_len (take (Z.to_nat ef_size) bs)))
           (drop (Z.to_nat ef_size) bs));
    Some ((ef_value (take (Z.to_nat ef_size) bs), ds) :: es)
  else None.
Proof. by destruct bs. Qed.

Lemma entries_irrel f f' bs :
  (length bs < f)%nat -> (length bs < f')%nat -> entries_fuel f bs = entries_fuel f' bs.
Proof.
  revert f' bs. induction f as [|f IH]; intros f' bs Hf Hf'; [lia|].
  destruct f' as [|f']; [lia|]. destruct (decide (bs = [])) as [->|Hne]; [done|].
  rewrite !entries_fuel_eq by done. case_if; [|done].
  destruct (parse_descriptors _); [|done]. cbn [mbind option_bind].
  pose proof ef_size_pos. rewrite (IH f'); [done|..]; rewrite !length_drop; lia.
Qed.

Lemma entries_image_length bs sw es : entries_image bs sw es -> length sw = length bs.
Proof.
  induction 1; [done|]. rewrite !length_app, ef_native_length by done. lia.
Qed.

Lemma entries_image_bytes bs sw es : entries_image bs sw es -> Forall byte bs -> Forall byte sw.
Proof.
  induction 1; intros Hb; [done|]. rewrite !Forall_app in *. destruct_and!. split_and!; auto.
  by apply ef_native_bytes.
Qed.

Context (len : Z).

(** One round on a complete header. *)
Lemma entry_round pre hdr rest post :
  Forall byte (pre ++ hdr ++ rest ++ post) -> zlen hdr = ef_size ->
  len = zlen pre + ef_size + zlen rest ->
  let n := ef_len hdr in
  let m' := (pre ++ ef_native hdr) ++ rest ++ post in
  entry_body len (zlen pre) (pre ++ hdr ++ rest ++ post) =
  if n <=? zlen rest then
    match parse_descriptors (take (Z.to_nat n) rest) with
    | Some _ => Ret (zlen pre + ef_size + n) m'
    | None => Null m'
    end
  else Null m'.
Proof.
  intros Hb Hh Hlen n m'. pose proof (ef_len_nonneg hdr). fold n in H.
  pose proof (ef_native_length hdr Hh) as Hnl.
  rewrite !Forall_app in Hb. destruct Hb as (Hbp & Hbh & Hbr & Hbs).
  assert (Hb' : Forall byte m').
  { unfold m'. rewrite !Forall_app. split_and!; try done. by apply ef_native_bytes. }
  unfold entry_body. rewrite reject_run by (apply Z.ltb_ge; lia).
  run by (by apply ef_swap_run). run by (by apply ef_length_run). fold n.
  replace (pre ++ ef_native hdr ++ rest ++ post) with m' by (unfold m'; at_side).
  apply (checked_descriptors (fun _ => mret (zlen pre + ef_size + n)));
    rewrite ?length_app; done || lia.
Qed.

Lemma entry_while f pre bs post :
  Forall byte (pre ++ bs ++ post) -> len = zlen pre + zlen bs -> (length bs < f)%nat ->
  let w := iter_ f (while_body (fun pos => mret (pos <? len)) (entry_body len)) (zlen pre)
             (pre ++ bs ++ post) in
  match entries_fuel f bs with
  | Some es => exists sw, entries_image bs sw es /\ w = Ret len (pre ++ sw ++ post)
  | None => exists m', w = Null m'
  end.
Proof.
  cbv zeta. revert pre bs. induction f as [|f IH]; intros pre bs Hb Hlen Hf; [lia|].
  pose proof ef_size_pos as Hpos.
  destruct (decide (bs = [])) as [->|Hne].
  { cbn [entries_fuel]. exists []. split; [constructor|]. simpl length in Hlen.
    replace len with (zlen pre) by lia. apply while_exit.
    by rewrite (proj2 (Z.ltb_ge _ _)) by lia. }
  assert (Hcond : forall m, (mret (zlen pre <? len) : M bool) m = Ret true m).
  { intros m. rewrite (proj2 (Z.ltb_lt _ _)); [done|]. destruct bs; [done|]. simpl in Hlen. lia. }
  rewrite entries_fuel_eq by done.
  destruct (Z.leb_spec ef_size (zlen bs)) as [Hs|Hs]; cbn [andb].
  2: { eexists. eapply while_null; [apply Hcond|]. unfold entry_body.
       apply reject_null, Z.ltb_lt. lia. }
  set (hdr := take (Z.to_nat ef_size) bs). set (rest := drop (Z.to_nat ef_size) bs).
  assert (Hbs : bs = hdr ++ rest) by (symmetry; apply take_drop).
  assert (Hh : zlen hdr = ef_size) by (unfold hdr; rewrite length_take; lia).
  assert (Hlb : zlen bs = ef_size + zlen rest) by (rewrite Hbs, length_app; lia).
  replace (pre ++ bs ++ post) with (pre ++ hdr ++ rest ++ post) in *
    by (rewrite Hbs, <- !app_assoc; done).
  pose proof (entry_round pre hdr rest post Hb Hh ltac:(lia)) as Hround. cbv zeta in Hround.
  set (n := ef_len hdr) in *. pose proof (ef_len_nonneg hdr) as Hn0. fold n in Hn0.
  destruct (Z.leb_spec n (zlen rest)) as [Hn|Hn]; [|by eexists; eapply while_null].
  destruct (parse_descriptors _) as [ds|] eqn:Hds; [|by eexists; eapply while_null].
  cbn [mbind option_bind]. rewrite (while_step (fun pos => mret (pos <? len)) (entry_body len) f (zlen pre) _ _ _ (Hcond _) Hround).
  set (d := take (Z.to_nat n) rest) in *. set (tl := drop (Z.to_nat n) rest) in *.
  assert (Hrest : rest = d ++ tl) by (symmetry; apply take_drop).
  assert (Hd : zlen d = n) by (unfold d; rewrite length_take; lia).
  assert (Hlr : zlen rest = n + zlen tl) by (rewrite Hrest, length_app; lia).
  specialize (IH ((pre ++ ef_native hdr) ++ d) tl).
  assert (Hp : zlen ((pre ++ ef_native hdr) ++ d) = zlen pre + ef_size + n).
  { rewrite !length_app, (ef_native_length hdr Hh). lia. }
  rewrite Hp in IH.
  replace ((pre ++ ef_native hdr) ++ rest ++ post)
    with (((pre ++ ef_native hdr) ++ d) ++ tl ++ post) by (rewrite Hrest; at_side).
  destruct_and?. assert (Hb2 : Forall byte (((pre ++ ef_native hdr) ++ d) ++ tl ++ post)).
  { rewrite Hrest, !Forall_app in Hb. rewrite !Forall_app. destruct_and!. split_and!; try done.
    by apply ef_native_bytes. }
  specialize (IH Hb2 ltac:(lia) ltac:(lia)).
  destruct (entries_fuel f tl) as [es|]; [|done].
  destruct IH as (sw & Him & Hrun). exists (ef_native hdr ++ d ++ sw).
  split; [rewrite Hbs, Hrest; by apply entries_image_cons|].
  rewrite Hrun. by rewrite <- !app_assoc.
Qed.

Lemma entry_loop_run pre bs post :
  Forall byte (pre ++ bs ++ post) -> len = zlen pre + zlen bs ->
  let r := entry_loop len (zlen pre) (pre ++ bs ++ post) in
  match parse_entries bs with
  | Some es => exists sw, entries_image bs sw es /\ r = Ret tt (pre ++ sw ++ post)
  | None => exists m', r = Null m'
  end.
Proof.
  intros Hb Hlen r. subst r.
  pose proof (entry_while (S (length (pre ++ bs ++ post))) pre bs post Hb Hlen) as H.
  specialize (H ltac:(rewrite !length_app; lia)). cbv zeta in H.
  rewrite (entries_irrel _ (S (length bs))) in H by (rewrite ?length_app; lia).
  unfold parse_entries, entry_loop. destruct (entries_fuel _ _) as [es|].
  - destruct H as (sw & Him & Hrun). exists sw. split; [done|]. run by exact Hrun.
    by rewrite Z.eqb_refl.
  - destruct H as [m' H]. exists m'. by apply bind_null.
Qed.

(** ** Iterating over an accepted table *)

Lemma read_entry_run pre hdr d ds post :
  Forall byte (pre ++ ef_native hdr ++ d ++ post) -> zlen hdr = ef_size ->
  zlen d = ef_len hdr -> parse_descriptors d = Some ds ->
  read_entry (zlen pre) (pre ++ ef_native hdr ++ d ++ post) =
  Ret (ef_value hdr, ds) (pre ++ ef_native hdr ++ d ++ post).
Proof.
  intros Hb Hh Hd Hds. unfold read_entry. run by (by apply ef_read_run).
  run by (by apply ef_length_run).
  run by (apply (for_descriptors_at _ _ (pre ++ ef_native hdr) d post _ ds);
    [at_side|rewrite length_app, (ef_native_length hdr Hh); lia|done..]).
  done.
Qed.

(** The end of the table as the iterator computes it. *)
Definition next_entry (end_ : M Z) (pos : Z) : M (option Z) :=
  e ← end_;
  n ← ef_length pos;
  let next := pos + ef_size + n in
  mret (if e <=? next then None else Some next).

Lemma entries_each (end_ : M Z) f bs sw es pre acc post :
  entries_image bs sw es -> len = zlen pre + zlen bs -> (length bs < f)%nat ->
  Forall byte (pre ++ sw ++ post) ->
  end_ (pre ++ sw ++ post) = Ret len (pre ++ sw ++ post) ->
  iter_ f (for_each_body (next_entry end_) read_entry)
    ((if len <=? zlen pre then None else Some (zlen pre)), acc) (pre ++ sw ++ post)
  = Ret (acc ++ es) (pre ++ sw ++ post).
Proof.
  intros Him. revert f pre acc. pose proof ef_size_pos as Hpos.
  induction Him as [|hdr d ds rest sw es Hh Hd Hds Him IH];
    intros [|f] pre acc Hlen Hf Hb Hend; try lia.
  { cbn [app length] in *. rewrite (proj2 (Z.leb_le _ _)), app_nil_r by lia.
    apply for_each_exit. }
  rewrite !length_app in Hlen, Hf. pose proof (ef_native_length hdr Hh) as Hnl.
  pose proof (ef_len_nonneg hdr).
  rewrite (proj2 (Z.leb_gt _ _)) by lia.
  set (m := pre ++ (ef_native hdr ++ d ++ sw) ++ post) in *.
  assert (Hm : m = pre ++ ef_native hdr ++ d ++ sw ++ post) by (unfold m; at_side).
  set (p' := zlen pre + ef_size + ef_len hdr).
  rewrite (for_each_step _ _ f (zlen pre) acc (ef_value hdr, ds)
    (if len <=? p' then None else Some p') m).
  - assert (Hm2 : m = ((pre ++ ef_native hdr) ++ d) ++ sw ++ post) by (rewrite Hm; at_side).
    assert (Hp2 : zlen ((pre ++ ef_native hdr) ++ d) = p').
    { rewrite !length_app. unfold p'. lia. }
    rewrite Hm2 in *. rewrite <- Hp2, IH; [by rewrite <- app_assoc|lia|lia|done|done].
  - rewrite Hm in *. by apply read_entry_run.
  - unfold next_entry. run by exact Hend. rewrite Hm.
    run by (by apply ef_length_run). done.
Qed.

Lemma entries_for_each end_ first bs sw es pre post :
  entries_image bs sw es -> len = zlen pre + zlen bs ->
  Forall byte (pre ++ sw ++ post) ->
  first (pre ++ sw ++ post) =
    Ret (if len <=? zlen pre then None else Some (zlen pre)) (pre ++ sw ++ post) ->
  end_ (pre ++ sw ++ post) = Ret len (pre ++ sw ++ post) ->
  for_each first (next_entry end_) read_entry (pre ++ sw ++ post) = Ret es (pre ++ sw ++ post).
Proof.
  intros Him Hlen Hb Hfirst Hend. unfold for_each. run by exact Hfirst.
  apply (entries_each end_ _ bs sw es pre [] post); try done.
  rewrite !length_app, (entries_image_length _ _ _ Him). lia.
Qed.

(** A codec whose last part is the loop over the entries: what it accepts, and what iterating
    over the result yields. *)
Lemma table_correct {codec : M unit} {m} first end_ hdr rest post :
  codec m = entry_loop len (zlen hdr) (hdr ++ rest ++ post) ->
  len = zlen hdr + zlen rest -> Forall byte (hdr ++ rest ++ post) ->
  (forall sw, first (hdr ++ sw ++ post) =
     Ret (if len <=? zlen hdr then None else Some (zlen hdr)) (hdr ++ sw ++ post)) ->
  (forall sw, end_ (hdr ++ sw ++ post) = Ret len (hdr ++ sw ++ post)) ->
  match parse_entries rest with
  | Some es => exists sw, codec m = Ret tt (hdr ++ sw ++ post) /\
      Forall byte (hdr ++ sw ++ post) /\
      for_each first (next_entry end_) read_entry (hdr ++ sw ++ post) =
        Ret es (hdr ++ sw ++ post)
  | None => exists m', codec m = Null m'
  end.
Proof.
  intros Hc Hlen Hb Hfirst Hend. pose proof (entry_loop_run hdr rest post Hb Hlen) as Hloop.
  cbv zeta in Hloop. rewrite <- Hc in Hloop. destruct (parse_entries rest) as [es|]; [|done].
  destruct Hloop as (sw & Him & Hloop). exists sw. split; [done|].
  assert (Hb2 : Forall byte (hdr ++ sw ++ post)).
  { apply entries_image_bytes in Him; rewrite !Forall_app in *; tauto. }
  split; [done|]. by apply (entries_for_each end_ first rest sw es).
Qed.
End Entries.

(** The same for a section of which the codec swaps [w] more header bytes to [w'] before the
    entries, iterated from there to the end of the section. *)
Lemma header_table {A} {E : EntryFormat A} {EL : EntryLaws E} {codec : M unit} {m}
    pre w w' rest post :
  m = pre ++ (w ++ rest) ++ post -> Forall byte m -> length w' = length w -> Forall byte w' ->
  (forall l, section_ext_length (pre ++ w' ++ l) =
     Ret (zlen (pre ++ w') + zlen rest) (pre ++ w' ++ l)) ->
  codec m = entry_loop (zlen (pre ++ w') + zlen rest) (zlen (pre ++ w'))
              ((pre ++ w') ++ rest ++ post) ->
  match parse_entries rest with
  | Some es => exists sw, let m' := pre ++ w' ++ sw ++ post in
      codec m = Ret tt m' /\
      for_each (len ← section_ext_length;
                mret (if len <=? zlen (pre ++ w') then None else Some (zlen (pre ++ w'))))
        (next_entry section_ext_length) read_entry m' = Ret es m'
  | None => exists m', codec m = Null m'
  end.
Proof.
  intros Hm Hb Hw Hbw Hsl Hc.
  assert (Hsl' : forall l, section_ext_length ((pre ++ w') ++ l) =
    Ret (zlen (pre ++ w') + zlen rest) ((pre ++ w') ++ l))
    by (intros l; rewrite <- app_assoc; apply Hsl).
  assert (Hb1 : Forall byte ((pre ++ w') ++ rest ++ post)).
  { rewrite Hm in Hb. clear - Hb Hbw. rewrite !Forall_app in *. tauto. }
  pose proof (table_correct _ (len ← section_ext_length;
    mret (if len <=? zlen (pre ++ w') then None else Some (zlen (pre ++ w'))))
    section_ext_length (pre ++ w') rest post Hc eq_refl Hb1) as Htab.
  specialize (Htab ltac:(intros sw; by run by apply Hsl') ltac:(intros sw; apply Hsl')).
  destruct (parse_entries rest); [|done]. destruct Htab as (sw & Hrun & _ & Heach).
  exists sw. cbv zeta. by rewrite (app_assoc pre).
Qed.

(** The codec of a table whose header continues after the section header, on a section too short
    for that header. *)
Lemma short_section m (k : Z -> unit -> M unit) min :
  section_buffer m -> 1 <= sec_len m -> sec_len m - 1 < min ->
  (section_ext_length ≫= (fun len => reject_if (len <? min) ≫= k len)) m = Null m.
Proof.
  intros [_ Hfit] H1 Hs. run by (apply section_ext_length_run; lia).
  by apply reject_null, Z.ltb_lt.
Qed.
