(* ===== verification/CountedTable.v ===== *)
(** * Tables with a counted sequence of entries

    The ATSC tables announce how many entries they hold, and end with a second descriptor loop.
    The entries are those of [EntryTable]; the loop runs a given number of times instead of up to
    the end of the section. *)

From S2P Require Export EntryTable.

(** ** The code *)

(** [for (idx = 0; idx < n; idx++)] over a position, [n] read from the buffer on every round. *)
Definition for_count (n : M Z) (body : Z -> M Z) (pos : Z) : M Z :=
  '(_, pos) ← while (fun '(idx, _) => c ← n; mret (idx <? c))
                    (fun '(idx, pos) => pos ← body pos; mret (idx + 1, pos)) (0, pos);
  mret pos.

(** [for (pos = first, idx = 0; pos; pos = next(pos, ++idx))] *)
Definition for_each_idx_body {A} (next : Z -> Z -> M (option Z)) (read : Z -> M A)
    (s : option Z * Z * list A) : M ((option Z * Z * list A) + list A) :=
  let '(pos, idx, acc) := s in
  match pos with
  | None => mret (inr acc)
  | Some p => a ← read p; pos' ← next p (idx + 1); mret (inl (pos', idx + 1, acc ++ [a]))
  end.

Definition for_each_idx {A} (first : M (option Z)) (next : Z -> Z -> M (option Z))
    (read : Z -> M A) : M (list A) :=
  start ← first;
  iter (for_each_idx_body next read) (start, 0, []).

(** The end of a codec: the length word at [pos], its descriptor loop, the end of the section. *)
Definition part2_codec (field : Z -> M Z) (len pos : Z) : M unit :=
  reject_if (len <? pos + 2);;
  bswap16 pos;;
  n ← field pos;
  reject_if (len <? pos + 2 + n);;
  verify_or_null (pos + 2) n;;
  reject_if (negb (pos + 2 + n =? len)).

(** The iterators: the first entry at [start], the next one after the descriptors of [pos]. *)
Definition counted_first (count : M Z) (start : Z) : M (option Z) :=
  c ← count; mret (if c =? 0 then None else Some start).

Definition counted_next `{EntryFormat A} (count : M Z) (pos idx : Z) : M (option Z) :=
  c ← count;
  if c <=? idx then mret None
  else n ← ef_length pos; mret (Some (pos + ef_size + n)).

(** The position after the entries, as the [*_part2] accessors compute it. *)
Definition counted_end `{EntryFormat A} (count : M Z) (start : Z) : M Z :=
  ls ← for_each_idx (counted_first count start) (counted_next count)
         (fun p => n ← ef_length p; mret (ef_size + n));
  mret (foldl Z.add start ls).

Lemma for_count_ext n body body' pos m :
  (forall p m, body p m = body' p m) -> for_count n body pos m = for_count n body' pos m.
Proof.
  intros H. unfold for_count. unfold mbind at 1 5, M_bind at 1 5.
  rewrite (while_ext _ _ (fun '(idx, pos) => pos ← body' pos; mret (idx + 1, pos))); [done|].
  intros [i p] m'. unfold mbind, M_bind. by rewrite H.
Qed.

(** ** Specification *)

Fixpoint parse_counted `{EntryFormat A} (n : nat) (bs : list Z) :
    option (list (A * list (Z * list Z)) * list Z) :=
  match n with
  | O => Some ([], bs)
  | S n' =>
      let hdr := take (Z.to_nat ef_size) bs in
      let rest := drop (Z.to_nat ef_size) bs in
      let l := ef_len hdr in
      if (ef_size <=? zlen bs) && (l <=? zlen rest) then
        ds ← parse_descriptors (take (Z.to_nat l) rest);
        '(es, tl) ← parse_counted n' (drop (Z.to_nat l) rest);
        Some ((ef_value hdr, ds) :: es, tl)
      else None
  end.

(** A final descriptor loop that fills the section; [flen] reads its transmitted length. *)
Definition parse_part2 (flen : Z -> Z -> Z) (bs : list Z) : option (list (Z * list Z)) :=
  match bs with
  | l0 :: l1 :: d => if flen l0 l1 =? zlen d then parse_descriptors d else None
  | _ => None
  end.

Definition parse_counted_table `{EntryFormat A} (flen : Z -> Z -> Z) (n : nat) (bs : list Z) :
    option (list (A * list (Z * list Z)) * list (Z * list Z)) :=
  '(es, tl) ← parse_counted n bs;
  ds ← parse_part2 flen tl;
  Some (es, ds).

(** ** The counted loop decides the grammar *)

Section Counted.
Context {A : Type} {E : EntryFormat A} {EL : EntryLaws E}.
Context (len c : Z) (count : M Z) (hdr : list Z).
Context (Hc : 0 <= c) (Hcount : forall l, count (hdr ++ l) = Ret c (hdr ++ l)).

Let cond : Z * Z -> M bool := fun '(idx, _) => c ← count; mret (idx <? c).
Let step : Z * Z -> M (Z * Z) := fun '(idx, pos) => pos ← entry_body len pos; mret (idx + 1, pos).

Lemma cond_run idx pos l : cond (idx, pos) (hdr ++ l) = Ret (idx <? c) (hdr ++ l).
Proof. unfold cond. by run by exact (Hcount l). Qed.

Lemma step_null idx pos m m' : entry_body len pos m = Null m' -> step (idx, pos) m = Null m'.
Proof. intros H. by apply bind_null. Qed.

Lemma step_run idx pos m p m' :
  entry_body len pos m = Ret p m' -> step (idx, pos) m = Ret (idx + 1, p) m'.
Proof. intros H. unfold step. by run by exact H. Qed.

Lemma counted_while f idx dn bs post :
  Forall byte (hdr ++ dn ++ bs ++ post) -> len = zlen (hdr ++ dn) + zlen bs ->
  0 <= idx <= c -> (length bs < f)%nat ->
  let w := iter_ f (while_body cond step) (idx, zlen (hdr ++ dn)) (hdr ++ dn ++ bs ++ post) in
  match parse_counted (Z.to_nat (c - idx)) bs with
  | Some (es, tl) => exists used sw, bs = used ++ tl /\ entries_image used sw es /\
      w = Ret (c, zlen (hdr ++ dn ++ sw)) (hdr ++ dn ++ sw ++ tl ++ post)
  | None => exists m', w = Null m'
  end.
Proof.
  cbv zeta. revert idx dn bs. induction f as [|f IH]; intros idx dn bs Hb Hlen Hi Hf; [lia|].
  pose proof ef_size_pos as Hpos.
  destruct (Z.eq_dec idx c) as [->|Hne].
  { rewrite Z.sub_diag. cbn [Z.to_nat parse_counted]. exists [], []. split; [done|].
    split; [constructor|]. rewrite app_nil_r. apply while_exit.
    by rewrite cond_run, Z.ltb_irrefl. }
  assert (Hcond : cond (idx, zlen (hdr ++ dn)) (hdr ++ dn ++ bs ++ post) =
    Ret true (hdr ++ dn ++ bs ++ post)).
  { rewrite cond_run. by rewrite (proj2 (Z.ltb_lt _ _)) by lia. }
  replace (Z.to_nat (c - idx)) with (S (Z.to_nat (c - (idx + 1)))) by lia.
  cbn [parse_counted]. cbv zeta.
  destruct (Z.leb_spec ef_size (zlen bs)) as [Hs|Hs]; cbn [andb].
  2: { eexists. eapply while_null; [exact Hcond|]. apply step_null. unfold entry_body.
       apply reject_null, Z.ltb_lt. lia. }
  set (h := take (Z.to_nat ef_size) bs). set (rest := drop (Z.to_nat ef_size) bs).
  assert (Hbs : bs = h ++ rest) by (symmetry; apply take_drop).
  assert (Hh : zlen h = ef_size) by (unfold h; rewrite length_take; lia).
  clearbody h rest. subst bs. pose proof (length_app h rest) as Hla.
  pose proof (entry_round len (hdr ++ dn) h rest post) as Hround. cbv zeta in Hround.
  rewrite <- !app_assoc in Hround.
  rewrite <- !app_assoc in Hb, Hcond |- *. specialize (Hround Hb Hh ltac:(lia)).
  pose proof (ef_len_nonneg h) as Hn0. set (n := ef_len h) in *.
  destruct (Z.leb_spec n (zlen rest)) as [Hn|Hn];
    [|by eexists; eapply while_null; [exact Hcond|apply step_null, Hround]].
  destruct (descriptors_first rest n ltac:(lia)) as (d & tl & Hrest & Hd & Htk & Htl).
  rewrite Htk in *. rewrite Htl. destruct (parse_descriptors d) as [ds|] eqn:Hds;
    [|by eexists; eapply while_null; [exact Hcond|apply step_null, Hround]].
  cbn [mbind option_bind].
  rewrite (while_step _ _ f _ _ _ _ Hcond (step_run _ _ _ _ _ Hround)).
  specialize (IH (idx + 1) (dn ++ ef_native h ++ d) tl).
  assert (Hp : zlen (hdr ++ dn ++ ef_native h ++ d) = zlen (hdr ++ dn) + ef_size + n).
  { rewrite !length_app, (ef_native_length h Hh). lia. }
  rewrite Hp in IH. subst rest. pose proof (length_app d tl) as Hlb.
  assert (Hb2 : Forall byte (hdr ++ (dn ++ ef_native h ++ d) ++ tl ++ post)).
  { rewrite !Forall_app in Hb. rewrite !Forall_app. destruct_and!. split_and!; try done.
    by apply ef_native_bytes. }
  specialize (IH Hb2 ltac:(lia) ltac:(lia) ltac:(lia)).
  replace (hdr ++ (dn ++ ef_native h ++ d) ++ tl ++ post)
    with (hdr ++ dn ++ ef_native h ++ (d ++ tl) ++ post) in IH by (by rewrite <- !app_assoc).
  destruct (parse_counted _ tl) as [[es tl']|]; cbn [mbind option_bind]; [|exact IH].
  destruct IH as (used & sw & -> & Him & IH).
  exists (h ++ d ++ used), (ef_native h ++ d ++ sw). split; [by rewrite <- !app_assoc|].
  split; [by apply entries_image_cons|]. rewrite IH. by rewrite <- !app_assoc.
Qed.

Lemma for_count_run bs post :
  Forall byte (hdr ++ bs ++ post) -> len = zlen hdr + zlen bs ->
  let w := for_count count (entry_body len) (zlen hdr) (hdr ++ bs ++ post) in
  match parse_counted (Z.to_nat c) bs with
  | Some (es, tl) => exists used sw, bs = used ++ tl /\ entries_image used sw es /\
      w = Ret (zlen (hdr ++ sw)) (hdr ++ sw ++ tl ++ post)
  | None => exists m', w = Null m'
  end.
Proof.
  intros Hb Hlen w.
  pose proof (counted_while (S (length (hdr ++ bs ++ post))) 0 [] bs post Hb) as H.
  rewrite app_nil_r, Z.sub_0_r in H.
  specialize (H Hlen ltac:(lia) ltac:(rewrite !length_app; lia)). cbv zeta in H.
  destruct (parse_counted _ _) as [[es tl]|].
  - destruct H as (used & sw & Hbs & Him & H). exists used, sw. split; [done|]. split; [done|].
    unfold w, for_count. by run by exact H.
  - destruct H as [m' H]. exists m'. by apply bind_null.
Qed.

(** *** Iterating *)

(** An entry as it is in the buffer after the codec: its transmitted header, its descriptor
    loop, and the descriptors. *)
Definition entry_wf (x : list Z * list Z * list (Z * list Z)) : Prop :=
  let '(h, d, ds) := x in
  zlen h = ef_size /\ zlen d = ef_len h /\ parse_descriptors d = Some ds.

Definition entry_bytes (x : list Z * list Z * list (Z * list Z)) : list Z :=
  ef_native x.1.1 ++ x.1.2.

Definition entry_value (x : list Z * list Z * list (Z * list Z)) : A * list (Z * list Z) :=
  (ef_value x.1.1, x.2).

Lemma entries_image_list used sw es :
  entries_image used sw es ->
  exists xs, Forall entry_wf xs /\ sw = xs ≫= entry_bytes /\ es = map entry_value xs.
Proof.
  induction 1 as [|h d ds rest sw es Hh Hd Hds _ (xs & Hxs & -> & ->)]; [by exists []|].
  exists ((h, d, ds) :: xs). split; [by constructor|]. split; [|done].
  change (((h, d, ds) :: xs) ≫= entry_bytes) with (entry_bytes (h, d, ds) ++ (xs ≫= entry_bytes)).
  unfold entry_bytes at 2. cbn [fst snd]. by rewrite <- app_assoc.
Qed.

Lemma entry_length_run pre x post :
  entry_wf x ->
  ef_length (zlen pre) (pre ++ entry_bytes x ++ post) =
  Ret (ef_len x.1.1) (pre ++ entry_bytes x ++ post).
Proof.
  destruct x as [[h d] ds]. intros (Hh & _). unfold entry_bytes. cbn [fst snd].
  rewrite <- (app_assoc (ef_native h)). by apply ef_length_run.
Qed.

Section Each.
Context {B : Type} (read : Z -> M B) (g : list Z * list Z * list (Z * list Z) -> B).
Context (Hread : forall pre x post, entry_wf x -> Forall byte (pre ++ entry_bytes x ++ post) ->
  read (zlen pre) (pre ++ entry_bytes x ++ post) = Ret (g x) (pre ++ entry_bytes x ++ post)).

Lemma entry_bytes_length x :
  entry_wf x -> zlen (entry_bytes x) = ef_size + ef_len x.1.1.
Proof.
  destruct x as [[h d] ds]. intros (Hh & Hd & _). unfold entry_bytes. cbn [fst snd].
  rewrite length_app, (ef_native_length h Hh). lia.
Qed.

Lemma counted_each f idx dn xs post acc :
  Forall entry_wf xs -> idx + zlen xs = c -> 0 <= idx -> (length xs < f)%nat ->
  Forall byte (hdr ++ dn ++ (xs ≫= entry_bytes) ++ post) ->
  iter_ f (for_each_idx_body (counted_next count) read)
    ((if c <=? idx then None else Some (zlen (hdr ++ dn))), idx, acc)
    (hdr ++ dn ++ (xs ≫= entry_bytes) ++ post) =
  Ret (acc ++ map g xs) (hdr ++ dn ++ (xs ≫= entry_bytes) ++ post).
Proof.
  intros Hxs. revert f idx dn acc. induction Hxs as [|x xs Hx Hxs IH];
    intros [|f] idx dn acc Hidx H0 Hf Hb; try lia.
  { cbn [length] in Hidx. rewrite (proj2 (Z.leb_le _ _)) by lia. cbn [map].
    rewrite app_nil_r. by apply iter_done. }
  cbn [length] in Hidx, Hf. rewrite (proj2 (Z.leb_gt _ _)) by lia.
  change ((x :: xs) ≫= entry_bytes) with (entry_bytes x ++ (xs ≫= entry_bytes)) in *.
  pose proof (entry_bytes_length x Hx) as Hlx.
  specialize (IH f (idx + 1) (dn ++ entry_bytes x) (acc ++ [g x]) ltac:(lia) ltac:(lia)
    ltac:(lia)).
  replace (hdr ++ (dn ++ entry_bytes x) ++ (xs ≫= entry_bytes) ++ post)
    with (hdr ++ dn ++ (entry_bytes x ++ (xs ≫= entry_bytes)) ++ post) in IH
    by (by rewrite <- !app_assoc).
  set (m := hdr ++ dn ++ (entry_bytes x ++ (xs ≫= entry_bytes)) ++ post) in *.
  assert (Hm : m = (hdr ++ dn) ++ entry_bytes x ++ (xs ≫= entry_bytes) ++ post)
    by (unfold m; by rewrite <- !app_assoc).
  rewrite (iter_next _ f _ m
    ((if c <=? idx + 1 then None else Some (zlen (hdr ++ dn ++ entry_bytes x))), idx + 1,
     acc ++ [g x]) m).
  - rewrite (IH Hb), <- app_assoc. done.
  - cbn [for_each_idx_body]. rewrite Hm. run by (by apply Hread; rewrite <- ?Hm).
    unfold counted_next. rewrite Hm in Hb.
    assert (Hcm : count m = Ret c m) by apply Hcount. rewrite Hm in Hcm.
    pose proof (entry_length_run (hdr ++ dn) x ((xs ≫= entry_bytes) ++ post) Hx) as Hl.
    destruct (Z.leb_spec c (idx + 1)).
    + run by (run by (exact Hcm); rewrite (proj2 (Z.leb_le _ _)) by lia; done). done.
    + run by (run by (exact Hcm); rewrite (proj2 (Z.leb_gt _ _)) by lia;
        run by (exact Hl); done).
      unfold mret, M_ret. do 5 f_equal. rewrite !length_app. lia.
Qed.
End Each.

Lemma for_each_counted {B} (read : Z -> M B) g xs post :
  (forall pre x post, entry_wf x -> Forall byte (pre ++ entry_bytes x ++ post) ->
    read (zlen pre) (pre ++ entry_bytes x ++ post) = Ret (g x) (pre ++ entry_bytes x ++ post)) ->
  Forall entry_wf xs -> zlen xs = c -> Forall byte (hdr ++ (xs ≫= entry_bytes) ++ post) ->
  for_each_idx (counted_first count (zlen hdr)) (counted_next count) read
    (hdr ++ (xs ≫= entry_bytes) ++ post) =
  Ret (map g xs) (hdr ++ (xs ≫= entry_bytes) ++ post).
Proof.
  intros Hread Hxs Hn Hb. unfold for_each_idx, counted_first.
  run by (run by exact (Hcount _); done).
  pose proof (counted_each read g Hread) as H.
  assert (Hl : (length xs <= length (hdr ++ (xs ≫= entry_bytes) ++ post))%nat).
  { rewrite !length_app. clear -Hxs EL. induction Hxs as [|x xs Hx _ IH]; [simpl; lia|].
    change ((x :: xs) ≫= entry_bytes) with (entry_bytes x ++ (xs ≫= entry_bytes)).
    pose proof (entry_bytes_length x Hx). pose proof ef_size_pos.
    pose proof (ef_len_nonneg x.1.1). rewrite length_app. cbn [length]. lia. }
  specialize (H (S (length (hdr ++ (xs ≫= entry_bytes) ++ post))) 0 [] xs post [] Hxs
    ltac:(lia) ltac:(lia) ltac:(lia) Hb).
  rewrite app_nil_r in H. unfold iter.
  replace (if c =? 0 then None else Some (zlen hdr))
    with (if c <=? 0 then None else Some (zlen hdr)); [exact H|].
  destruct (Z.eqb_spec c 0), (Z.leb_spec c 0); done || lia.
Qed.

Lemma read_entry_at pre x post :
  entry_wf x -> Forall byte (pre ++ entry_bytes x ++ post) ->
  read_entry (zlen pre) (pre ++ entry_bytes x ++ post) =
  Ret (entry_value x) (pre ++ entry_bytes x ++ post).
Proof.
  destruct x as [[h d] ds]. intros (Hh & Hd & Hds). unfold entry_bytes, entry_value.
  cbn [fst snd]. rewrite <- (app_assoc (ef_native h)). intros Hb. by apply read_entry_run.
Qed.

Lemma counted_end_run xs post :
  Forall entry_wf xs -> zlen xs = c -> Forall byte (hdr ++ (xs ≫= entry_bytes) ++ post) ->
  counted_end count (zlen hdr) (hdr ++ (xs ≫= entry_bytes) ++ post) =
  Ret (zlen (hdr ++ (xs ≫= entry_bytes))) (hdr ++ (xs ≫= entry_bytes) ++ post).
Proof.
  intros Hxs Hn Hb. unfold counted_end.
  run by (apply (for_each_counted _ (fun x => ef_size + ef_len x.1.1)); [|done..];
    intros pre x post' Hx _; run by (by apply entry_length_run); done).
  unfold mret, M_ret. f_equal. rewrite length_app, Nat2Z.inj_add. clear Hb Hn.
  generalize (zlen hdr). induction Hxs as [|x xs Hx _ IH]; intros z; [simpl; lia|].
  change ((x :: xs) ≫= entry_bytes) with (entry_bytes x ++ (xs ≫= entry_bytes)).
  cbn [map foldl]. rewrite IH, length_app. pose proof (entry_bytes_length x Hx). lia.
Qed.

(** *** The whole table *)

Context (field : Z -> M Z) (flen : Z -> Z -> Z) (Hflen : forall a b, 0 <= flen a b).
Context (Hfield : forall pre a b post,
  field (zlen pre) (pre ++ [a; b] ++ post) = Ret (flen b a) (pre ++ [a; b] ++ post)).

Lemma part2_run pre tl post :
  Forall byte (pre ++ tl ++ post) -> len = zlen pre + zlen tl ->
  let r := part2_codec field len (zlen pre) (pre ++ tl ++ post) in
  match parse_part2 flen tl with
  | Some ds => exists l0 l1 d, tl = l0 :: l1 :: d /\ flen l0 l1 = zlen d /\
      parse_descriptors d = Some ds /\ r = Ret tt (pre ++ [l1; l0] ++ d ++ post)
  | None => exists m', r = Null m'
  end.
Proof.
  intros Hb Hlen r. subst r. unfold part2_codec.
  destruct tl as [|l0 [|l1 d]]; cbn [length parse_part2] in *;
    [eexists; apply reject_null, Z.ltb_lt; lia..|].
  rewrite reject_run by (apply Z.ltb_ge; lia).
  assert (Hbd : byte l0 /\ byte l1 /\ Forall byte (pre ++ [l1; l0] ++ d ++ post)) by solve_bytes.
  destruct Hbd as (H0 & H1 & Hb').
  run by (by apply (bswap16_at _ pre l0 l1 (d ++ post))).
  run by (exact (Hfield pre l1 l0 (d ++ post))).
  pose proof (checked_descriptors
    (fun _ => reject_if (negb (zlen pre + 2 + flen l0 l1 =? len))) len (zlen pre + 2)
    (flen l0 l1) (pre ++ [l1; l0]) d post) as H.
  rewrite <- !app_assoc, length_app in H. cbn [length] in H.
  specialize (H ltac:(lia) ltac:(lia) (Hflen l0 l1) Hb'). rewrite H. clear H.
  destruct (Z.eqb_spec (flen l0 l1) (zlen d)) as [Ed|Ed].
  - rewrite Ed, Z.leb_refl, Nat2Z.id, take_ge by lia.
    rewrite (proj2 (Z.eqb_eq _ _)) by lia.
    destruct (parse_descriptors d) as [ds|] eqn:Ep; [|by eexists]. by exists l0, l1, d.
  - rewrite (proj2 (Z.eqb_neq (_ + _) len)) by lia.
    case_if; [|by eexists]. case_opt; by eexists.
Qed.

Lemma parse_counted_length n bs es tl :
  parse_counted n bs = Some (es, tl) -> length es = n.
Proof.
  revert bs es. induction n as [|n IH]; intros bs es H; cbn [parse_counted] in H;
    [by simplify_eq|]. case_if_in H; [|done].
  destruct (parse_descriptors _) as [ds|]; [|done]. cbn [mbind option_bind] in H.
  destruct (parse_counted n _) as [[es' tl']|] eqn:E'; [|done].
  cbn in H. simplify_eq. cbn. f_equal. by eapply IH.
Qed.

(** A codec that runs the counted loop and then checks the second part: what it accepts, and
    what the iterators over the result yield. *)
Lemma counted_table {codec : M unit} {m} rest post :
  codec m = (pos ← for_count count (entry_body len) (zlen hdr);
             part2_codec field len pos) (hdr ++ rest ++ post) ->
  Forall byte (hdr ++ rest ++ post) -> len = zlen hdr + zlen rest ->
  match parse_counted_table flen (Z.to_nat c) rest with
  | Some (es, ds) => exists l p2, let m' := hdr ++ l in
      codec m = Ret tt m' /\
      for_each_idx (counted_first count (zlen hdr)) (counted_next count) read_entry m' =
        Ret es m' /\
      counted_end count (zlen hdr) m' = Ret p2 m' /\
      (n ← field p2; descriptors_for_each (p2 + 2) n) m' = Ret ds m'
  | None => exists m', codec m = Null m'
  end.
Proof.
  intros Hcodec Hb Hlen. pose proof (for_count_run rest post Hb Hlen) as Hfor. cbv zeta in Hfor.
  unfold parse_counted_table. rewrite Hcodec.
  destruct (parse_counted _ _) as [[es tl]|] eqn:Hpc; cbn [mbind option_bind];
    [|destruct Hfor as [m' Hfor]; exists m'; by apply bind_null].
  destruct Hfor as (used & sw & -> & Him & Hfor).
  pose proof (entries_image_length _ _ _ Him) as Hsl.
  assert (Hb1 : Forall byte ((hdr ++ sw) ++ tl ++ post)).
  { apply entries_image_bytes in Him; rewrite !Forall_app in *; tauto. }
  pose proof (part2_run (hdr ++ sw) tl post Hb1) as Hp2. rewrite !length_app in Hlen, Hp2.
  specialize (Hp2 ltac:(lia)). cbv zeta in Hp2.
  rewrite (bind_run _ _ _ _ _ Hfor).
  rewrite !length_app. rewrite <- (app_assoc hdr) in Hp2.
  destruct (parse_part2 flen tl) as [ds|]; cbn [mbind option_bind]; [|exact Hp2].
  destruct Hp2 as (l0 & l1 & d & -> & Hfl & Hds & Hp2).
  destruct (entries_image_list _ _ _ Him) as (xs & Hxs & -> & ->).
  rewrite <- (app_assoc hdr) in Hp2.
  set (l := [l1; l0] ++ d ++ post) in *.
  assert (Hbl : Forall byte (hdr ++ (xs ≫= entry_bytes) ++ l)).
  { unfold l. rewrite <- app_assoc in Hb1. clear -Hb1. solve_bytes. }
  assert (Hn : zlen xs = c).
  { apply parse_counted_length in Hpc. rewrite length_map in Hpc. lia. }
  exists ((xs ≫= entry_bytes) ++ l), (zlen (hdr ++ (xs ≫= entry_bytes))). cbv zeta.
  split_and!.
  - exact Hp2.
  - apply for_each_counted; try done. apply read_entry_at.
  - by apply counted_end_run.
  - unfold l in *. rewrite (app_assoc hdr). 
    run by (apply (Hfield (hdr ++ (xs ≫= entry_bytes)))). rewrite Hfl.
    apply (for_descriptors_at _ _ ((hdr ++ (xs ≫= entry_bytes)) ++ [l1; l0]) d post);
      [by rewrite <- !app_assoc|rewrite !length_app; simpl length; lia|done| |done].
    by rewrite <- app_assoc.
Qed.
End Counted.
