(* ===== verification/MpegSections.v ===== *)
(** * libucsi/mpeg: the section codecs of ISO 13818-1

    One definition per [mpeg_*_section_codec], the accessors of the PAT and the PMT, and their
    iterators. *)

From S2P Require Export EntryTable.

(** ** The code *)

Definition sizeof_mpeg_cat_section : Z := 8.
Definition sizeof_mpeg_tsdt_section : Z := 8.
Definition sizeof_mpeg_pat_section : Z := 8.
Definition sizeof_mpeg_pat_program : Z := 4.
Definition sizeof_mpeg_pmt_section : Z := 12.
Definition sizeof_mpeg_pmt_stream : Z := 5.
Definition sizeof_mpeg_odsmt_section : Z := 9.
Definition sizeof_mpeg_odsmt_stream_single : Z := 3.
Definition sizeof_mpeg_odsmt_stream_multi : Z := 4.

Definition mpeg_cat_section_codec : M unit :=
  len ← section_ext_length;
  verify_or_null sizeof_section_ext (u64 (len - sizeof_mpeg_cat_section)).

Definition mpeg_tsdt_section_codec : M unit :=
  len ← section_ext_length;
  verify_or_null sizeof_section_ext (u64 (len - sizeof_mpeg_tsdt_section)).

Definition mpeg_metadata_section_codec : M unit := mret tt.

Definition mpeg_pat_section_codec : M unit :=
  len ← section_ext_length;
  reject_if (len <? sizeof_mpeg_pat_section);;
  pos ← while (fun pos => mret (pos <? len)) (fun pos =>
    reject_if (len <? pos + 4);;
    bswap16 pos;;
    bswap16 (pos + 2);;
    mret (pos + 4)) sizeof_section_ext;
  reject_if (negb (pos =? len)).

(** [struct mpeg_pmt_section] and [struct mpeg_pmt_stream]: the 12-bit lengths. *)
Definition pmt_program_info_length : M Z := ld_field12 10.
Definition pmt_stream_es_info_length (stream : Z) : M Z := ld_field12 (stream + 3).

Definition mpeg_pmt_section_codec : M unit :=
  len ← section_ext_length;
  reject_if (len <? sizeof_mpeg_pmt_section);;
  let pos := sizeof_section_ext in
  bswap16 pos;;
  let pos := pos + 2 in
  bswap16 pos;;
  let pos := pos + 2 in
  n ← pmt_program_info_length;
  reject_if (len <? pos + n);;
  verify_or_null pos n;;
  let pos := pos + n in
  pos ← while (fun pos => mret (pos <? len)) (fun pos =>
    let stream := pos in
    reject_if (len <? pos + sizeof_mpeg_pmt_stream);;
    bswap16 (pos + 1);;
    bswap16 (pos + 3);;
    let pos := pos + sizeof_mpeg_pmt_stream in
    n ← pmt_stream_es_info_length stream;
    reject_if (len <? pos + n);;
    verify_or_null pos n;;
    mret (pos + n)) pos;
  reject_if (negb (pos =? len)).

Definition odsmt_stream_count : M Z := ld8 8.

Definition mpeg_odsmt_section_codec : M unit :=
  len ← section_ext_length;
  reject_if (len <? sizeof_mpeg_odsmt_section);;
  let pos := sizeof_section_ext + 1 in
  count ← odsmt_stream_count;
  pos ← (
    if count =? 0 then
      let stream := pos in
      reject_if (len <? pos + sizeof_mpeg_odsmt_stream_single);;
      bswap16 pos;;
      let pos := pos + 3 in
      n ← ld8 (stream + 2);
      reject_if (len <=? pos + n);;
      verify_or_null pos n;;
      mret (pos + n)
    else
      '(i, pos) ← while (fun '(i, _) => count ← odsmt_stream_count; mret (i <? count))
        (fun '(i, pos) =>
          let stream := pos in
          reject_if (len <? pos + sizeof_mpeg_odsmt_stream_multi);;
          bswap16 pos;;
          let pos := pos + sizeof_mpeg_odsmt_stream_multi in
          n ← ld8 (stream + 3);
          reject_if (len <? pos + n);;
          verify_or_null pos n;;
          mret (i + 1, pos + n)) (0, pos);
      mret pos);
  reject_if (negb (pos =? len)).

(** *** Accessors of the PAT and the PMT *)

(** [mpeg_pat_section_programs_first] and [_next]; [None] is NULL. *)
Definition mpeg_pat_section_programs_first : M (option Z) :=
  let pos := sizeof_mpeg_pat_section in
  len ← section_ext_length;
  mret (if len <=? pos then None else Some pos).

Definition mpeg_pat_section_programs_next (pos : Z) : M (option Z) :=
  len ← section_ext_length;
  let next := pos + sizeof_mpeg_pat_program in
  mret (if len <=? next then None else Some next).

(** The fields [program_number] and [pid] of [struct mpeg_pat_program]. *)
Definition read_pat_program (p : Z) : M (Z * Z) :=
  num ← ld16 p; pid ← ld_field13 (p + 2); mret (num, pid).

Definition mpeg_pat_section_programs_for_each : M (list (Z * Z)) :=
  for_each mpeg_pat_section_programs_first mpeg_pat_section_programs_next read_pat_program.

Definition mpeg_pmt_section_streams_first : M (option Z) :=
  n ← pmt_program_info_length;
  let pos := sizeof_mpeg_pmt_section + n in
  len ← section_ext_length;
  mret (if len <=? pos then None else Some pos).

Definition mpeg_pmt_section_streams_next (pos : Z) : M (option Z) :=
  len ← section_ext_length;
  n ← pmt_stream_es_info_length pos;
  let next := pos + sizeof_mpeg_pmt_stream + n in
  mret (if len <=? next then None else Some next).

Definition mpeg_pmt_section_descriptors_for_each : M (list (Z * list Z)) :=
  n ← pmt_program_info_length; descriptors_for_each sizeof_mpeg_pmt_section n.

Definition mpeg_pmt_stream_descriptors_for_each (stream : Z) : M (list (Z * list Z)) :=
  n ← pmt_stream_es_info_length stream;
  descriptors_for_each (stream + sizeof_mpeg_pmt_stream) n.

(** The fields of [struct mpeg_pmt_stream]. *)
Record pmt_stream := PmtStream { stream_type : Z; stream_pid : Z }.

Definition read_pmt_stream (p : Z) : M pmt_stream :=
  ty ← ld8 p; pid ← ld_field13 (p + 1); mret (PmtStream ty pid).

#[export] Hint Unfold pmt_stream_es_info_length read_pmt_stream : cells.

#[export] Instance pmt_stream_format : EntryFormat pmt_stream := {
  ef_size := sizeof_mpeg_pmt_stream;
  ef_swap p := bswap16 (p + 1);; bswap16 (p + 3);
  ef_length := pmt_stream_es_info_length;
  ef_read := read_pmt_stream;
  ef_native hdr := match hdr with [ty; p0; p1; l0; l1] => [ty; p1; p0; l1; l0] | _ => hdr end;
  ef_len hdr := match hdr with [_; _; _; l0; l1] => be12 l0 l1 | _ => 0 end;
  ef_value hdr :=
    match hdr with [ty; p0; p1; _; _] => PmtStream ty (be13 p0 p1) | _ => PmtStream 0 0 end;
}.

Definition mpeg_pmt_section_streams_for_each : M (list (pmt_stream * list (Z * list Z))) :=
  for_each mpeg_pmt_section_streams_first mpeg_pmt_section_streams_next
    (fun p => s ← read_pmt_stream p; ds ← mpeg_pmt_stream_descriptors_for_each p; mret (s, ds)).

(** ** The codecs are safe *)

Lemma cat_safe m : section_buffer m -> 9 <= sec_len m -> codec_safe 8 mpeg_cat_section_codec m.
Proof.
  intros Hs Hm. assert (1 <= sec_len m) as Hm' by lia. revert Hs Hm'. unfold mpeg_cat_section_codec.
  safe_codec_start. unfold sizeof_section_ext, sizeof_mpeg_cat_section.
  pose proof (sec_len_bound m). apply safe_verify_or_null; rewrite ?u64_id by lia; lia.
Qed.

Lemma tsdt_safe m : section_buffer m -> 9 <= sec_len m -> codec_safe 8 mpeg_tsdt_section_codec m.
Proof. exact (cat_safe m). Qed.

Lemma pat_safe m : section_buffer m -> 1 <= sec_len m -> codec_safe 8 mpeg_pat_section_codec m.
Proof.
  unfold mpeg_pat_section_codec, sizeof_mpeg_pat_section, sizeof_section_ext. safe_codec_start.
  safe_step. safe_pos_loop (fun pos => 8 <= pos <= sec_len m - 1).
  - safe_steps. lia.
  - apply safe_finish.
Qed.

Lemma pmt_safe m : section_buffer m -> 1 <= sec_len m -> codec_safe 8 mpeg_pmt_section_codec m.
Proof.
  unfold mpeg_pmt_section_codec, sizeof_mpeg_pmt_section, sizeof_section_ext,
    sizeof_mpeg_pmt_stream, pmt_program_info_length, pmt_stream_es_info_length.
  safe_codec_start. safe_steps.
  safe_pos_loop (fun pos => 8 <= pos <= sec_len m - 1).
  - safe_steps. lia.
  - apply safe_finish.
Qed.

Lemma odsmt_safe m : section_buffer m -> 1 <= sec_len m -> codec_safe 8 mpeg_odsmt_section_codec m.
Proof.
  unfold mpeg_odsmt_section_codec, sizeof_mpeg_odsmt_section, sizeof_section_ext,
    sizeof_mpeg_odsmt_stream_single, sizeof_mpeg_odsmt_stream_multi, odsmt_stream_count.
  safe_codec_start. safe_steps.
  eapply (safe_bind _ _ (fun _ => True)); [|intros; apply safe_finish].
  case_if; [by safe_steps|].
  apply (safe_loop (fun '(_, pos) => 8 <= pos <= sec_len m - 1) snd).
  - intros [i pos]; cbn; lia.
  - lia.
  - intros [i pos] Hp. safe_steps. case_if; [|done]. safe_steps. cbn; lia.
  - intros [i pos] Hp. by apply safe_ret.
Qed.

(** ** The PAT, end to end *)

(** The programs of a transmitted PAT: four bytes each, most significant first. *)
Fixpoint pat_programs (bs : list Z) : option (list (Z * Z)) :=
  match bs with
  | [] => Some []
  | n0 :: n1 :: p0 :: p1 :: rest =>
      cons (be_combine [n0; n1], Z.land (be_combine [p0; p1]) 0x1fff) <$> pat_programs rest
  | _ => None
  end.

(** What the codec leaves in the buffer. *)
Fixpoint pat_swap (bs : list Z) : list Z :=
  match bs with
  | n0 :: n1 :: p0 :: p1 :: rest => n1 :: n0 :: p1 :: p0 :: pat_swap rest
  | _ => bs
  end.

Lemma pat_swap_length bs ps : pat_programs bs = Some ps -> length (pat_swap bs) = length bs.
Proof.
  revert ps. enough (H : forall n bs ps, (length bs <= n)%nat -> pat_programs bs = Some ps ->
    length (pat_swap bs) = length bs) by eauto.
  induction n as [|n IH]; intros [|n0 [|n1 [|p0 [|p1 rest]]]] ps Hn H; simplify_eq/=; try done.
  { lia. }
  apply fmap_Some in H as (ps' & H & _). erewrite IH by (done || lia). done.
Qed.

(** The two ways a codec can end. *)
Definition accepts {A} (o : option A) (r : outcome unit) (m : mem) : Prop :=
  match o with
  | Some _ => r = Ret tt m
  | None => exists m', r = Null m'
  end.

Section Pat.
Context (len : Z).

Let cond : Z -> M bool := fun pos => mret (pos <? len).
Let body : Z -> M Z := fun pos =>
  reject_if (len <? pos + 4);; bswap16 pos;; bswap16 (pos + 2);; mret (pos + 4).

Lemma pat_loop f pre bs post :
  Forall byte bs -> len = zlen pre + zlen bs -> (length bs < f)%nat ->
  match pat_programs bs with
  | Some _ => iter_ f (while_body cond body) (zlen pre) (pre ++ bs ++ post) =
              Ret len (pre ++ pat_swap bs ++ post)
  | None => exists m', iter_ f (while_body cond body) (zlen pre) (pre ++ bs ++ post) = Null m'
  end.
Proof.
  revert pre bs. induction f as [|f IH]; intros pre bs Hb Hlen Hf; [lia|].
  assert (Hcond : bs <> [] -> forall m, cond (zlen pre) m = Ret true m).
  { intros Hne m. unfold cond. rewrite (proj2 (Z.ltb_lt _ _)); [done|].
    destruct bs; [done|]. simpl in Hlen. lia. }
  assert (Hshort : bs <> [] -> (length bs < 4)%nat ->
    exists m', iter_ (S f) (while_body cond body) (zlen pre) (pre ++ bs ++ post) = Null m').
  { intros Hne Hs. eexists. eapply while_null; [by apply Hcond|]. unfold body.
    apply reject_null. apply Z.ltb_lt. lia. }
  destruct bs as [|n0 [|n1 [|p0 [|p1 rest]]]]; try (by apply Hshort; simpl; [|lia]).
  { cbn [pat_programs pat_swap]. simpl length in Hlen.
    replace len with (zlen pre) by lia. apply while_exit. unfold cond.
    by rewrite (proj2 (Z.ltb_ge _ _)) by lia. }
  cbn [pat_programs pat_swap]. rewrite !Forall_cons_iff in Hb. destruct_and!.
  specialize (IH (pre ++ [n1; n0; p1; p0]) rest). rewrite length_app in IH.
  simpl length in *. rewrite Nat2Z.inj_add in IH. change (Z.of_nat 4) with 4 in IH.
  specialize (IH ltac:(done) ltac:(lia) ltac:(lia)).
  assert (Hstep : iter_ (S f) (while_body cond body) (zlen pre)
      (pre ++ (n0 :: n1 :: p0 :: p1 :: rest) ++ post) =
    iter_ f (while_body cond body) (zlen pre + 4) ((pre ++ [n1; n0; p1; p0]) ++ rest ++ post)).
  { apply while_step; [by apply Hcond|]. unfold body. rewrite reject_run by (apply Z.ltb_ge; lia).
    run by (apply (bswap16_at _ pre n0 n1 (p0 :: p1 :: rest ++ post)); done).
    run by (apply (bswap16_at _ (pre ++ [n1; n0]) p0 p1 (rest ++ post)); try done;
      [by rewrite <- app_assoc|rewrite length_app; simpl; lia]).
    by rewrite <- !app_assoc. }
  rewrite Hstep. destruct (pat_programs rest); cbn [fmap option_fmap option_map].
  - rewrite IH. by rewrite <- app_assoc.
  - done.
Qed.

Lemma pat_each f pre bs ps acc post :
  pat_programs bs = Some ps -> len = zlen pre + zlen bs -> (length bs < f)%nat ->
  section_ext_length (pre ++ pat_swap bs ++ post) = Ret len (pre ++ pat_swap bs ++ post) ->
  iter_ f (for_each_body mpeg_pat_section_programs_next read_pat_program)
    ((if len <=? zlen pre then None else Some (zlen pre)), acc) (pre ++ pat_swap bs ++ post)
  = Ret (acc ++ ps) (pre ++ pat_swap bs ++ post).
Proof.
  revert pre bs ps acc. induction f as [|f IH]; intros pre bs ps acc Hps Hlen Hf Hsl; [lia|].
  destruct bs as [|n0 [|n1 [|p0 [|p1 rest]]]]; cbn [pat_programs pat_swap app length] in *;
    try done.
  { simplify_eq. rewrite (proj2 (Z.leb_le _ _)) by lia. by rewrite app_nil_r. }
  apply fmap_Some in Hps as (ps' & Hps & ->).
  rewrite (proj2 (Z.leb_gt _ _)) by lia.
  set (mm := pre ++ n1 :: n0 :: p1 :: p0 :: pat_swap rest ++ post) in *.
  assert (Hmm : mm = (pre ++ [n1; n0; p1; p0]) ++ pat_swap rest ++ post)
    by (by rewrite <- app_assoc).
  assert (Hpre : zlen (pre ++ [n1; n0; p1; p0]) = zlen pre + 4)
    by (rewrite length_app; simpl; lia).
  rewrite (for_each_step _ _ f (zlen pre) acc
    (be_combine [n0; n1], Z.land (be_combine [p0; p1]) 0x1fff)
    (if len <=? zlen pre + 4 then None else Some (zlen pre + 4)) mm).
  - rewrite Hmm in *. rewrite <- Hpre, IH with (ps := ps');
      [by rewrite <- app_assoc|done|lia|lia|done].
  - unfold read_pat_program.
    run by (by apply (ld16_at _ pre n1 n0 (p1 :: p0 :: pat_swap rest ++ post))).
    unfold ld_field13. run by (run by (apply (ld16_at _ (pre ++ [n1; n0]) p1 p0 (pat_swap rest ++ post));
      [by rewrite <- app_assoc|rewrite length_app; simpl; lia]); done).
    done.
  - unfold mpeg_pat_section_programs_next. by run by exact Hsl.
Qed.
End Pat.

(** [mpeg_pat_section_codec] accepts exactly the sections whose body is a whole number of
    programs, and iterating over the result gives the transmitted programs. *)
Theorem pat_codec_correct m :
  section_buffer m -> 9 <= sec_len m ->
  match pat_programs (range m 8 (sec_len m - 9)) with
  | Some ps => exists m', mpeg_pat_section_codec m = Ret tt m' /\
                 mpeg_pat_section_programs_for_each m' = Ret ps m'
  | None => exists m', mpeg_pat_section_codec m = Null m'
  end.
Proof.
  intros [Hb Hfit] Hmin. pose proof (sec_len_bound m).
  destruct (split_range m 8 (sec_len m - 9)) as (Hm & Hpre & Hbody); [lia..|].
  set (pre := take _ m) in *. set (body := range _ _ _) in *. set (post := drop _ m) in *.
  assert (Hbb : Forall byte body) by by apply range_bytes.
  assert (Hsl : forall l, section_ext_length (pre ++ l) = Ret (sec_len m - 1) (pre ++ l)).
  { intros l. assert (sec_len (pre ++ l) = sec_len m) as E.
    { transitivity (sec_len (pre ++ body ++ post)); [by rewrite !sec_len_app by lia|].
      by rewrite <- Hm. }
    rewrite <- E. apply section_ext_length_run; [rewrite length_app|]; lia. }
  pose proof (pat_loop (sec_len m - 1) (S (length m)) pre body post Hbb) as Hloop.
  assert (length m = length (pre ++ body ++ post)) as Hlm by by rewrite <- Hm.
  rewrite !length_app in Hlm. specialize (Hloop ltac:(lia) ltac:(lia)).
  assert (Hstart : mpeg_pat_section_codec m = 
    (pos ← while (fun pos => mret (pos <? sec_len m - 1)) (fun pos =>
       reject_if (sec_len m - 1 <? pos + 4);; bswap16 pos;; bswap16 (pos + 2);; mret (pos + 4)) 8;
     reject_if (negb (pos =? sec_len m - 1))) m).
  { unfold mpeg_pat_section_codec. rewrite Hm at 1. run by apply Hsl. rewrite <- Hm.
    by rewrite reject_run by (unfold sizeof_mpeg_pat_section; apply Z.ltb_ge; lia). }
  rewrite <- Hm, Hpre in Hloop. rewrite Hstart.
  destruct (pat_programs body) as [ps|] eqn:Eps.
  - eexists. split.
    + run by exact Hloop. by rewrite Z.eqb_refl.
    + unfold mpeg_pat_section_programs_for_each, for_each.
      run by (unfold mpeg_pat_section_programs_first; by run by apply Hsl).
      unfold sizeof_mpeg_pat_section. replace 8 with (zlen pre).
      apply (pat_each (sec_len m - 1) _ pre body ps [] post);
        [done|lia|rewrite !length_app, (pat_swap_length _ _ Eps); lia|apply Hsl].
  - destruct Hloop as [m' Hloop]. exists m'. by apply bind_null.
Qed.

(** ** The PMT, end to end *)

#[export] Instance pmt_stream_laws : EntryLaws pmt_stream_format.
Proof. entry_laws. Qed.

(** The body of a transmitted PMT: PCR PID, the program's descriptor loop, the streams. *)
Definition pmt_parse (bs : list Z) :
    option (Z * list (Z * list Z) * list (pmt_stream * list (Z * list Z))) :=
  match bs with
  | c0 :: c1 :: i0 :: i1 :: rest =>
      let n := be12 i0 i1 in
      if n <=? zlen rest then
        ds ← parse_descriptors (take (Z.to_nat n) rest);
        ss ← parse_entries (drop (Z.to_nat n) rest);
        Some (be13 c0 c1, ds, ss)
      else None
  | _ => None
  end.

(** The PMT codec after its header: the program's descriptor loop, then the streams. *)
Lemma pmt_codec_head m pre c0 c1 i0 i1 rest post :
  m = pre ++ (c0 :: c1 :: i0 :: i1 :: rest) ++ post -> zlen pre = 8 -> Forall byte m ->
  section_ext_length m = Ret (12 + zlen rest) m ->
  let n := be12 i0 i1 in
  let m1 := (pre ++ [c1; c0; i1; i0]) ++ rest ++ post in
  mpeg_pmt_section_codec m =
  if n <=? zlen rest then
    match parse_descriptors (take (Z.to_nat n) rest) with
    | Some _ => entry_loop (A := pmt_stream) (12 + zlen rest) (12 + n) m1
    | None => Null m1
    end
  else Null m1.
Proof.
  intros Hm Hpre Hb Hsl n m1. pose proof (be12_bound i0 i1) as Hn. fold n in Hn.
  assert (Hparts : byte c0 /\ byte c1 /\ byte i0 /\ byte i1) by (subst m; solve_bytes).
  destruct Hparts as (? & ? & ? & ?).
  assert (Hb1 : Forall byte m1) by (unfold m1; subst m; solve_bytes).
  unfold mpeg_pmt_section_codec. run by exact Hsl.
  rewrite reject_run by (unfold sizeof_mpeg_pmt_section; apply Z.ltb_ge; lia).
  unfold sizeof_section_ext, pmt_program_info_length.
  run by (apply (bswap16_at _ pre c0 c1 (i0 :: i1 :: rest ++ post)); try done; lia).
  run by (apply (bswap16_at _ (pre ++ [c1; c0]) i0 i1 (rest ++ post)); at_side).
  replace ((pre ++ [c1; c0]) ++ [i1; i0] ++ rest ++ post) with m1 by (unfold m1; at_side).
  run by (apply (field12_at _ (pre ++ [c1; c0]) i1 i0 (rest ++ post)); unfold m1; at_side).
  fold n. etransitivity; [apply checked_descriptors; [at_side|at_side|lia|done]|].
  fold m1. case_if; [|done]. case_opt; [|done]. unfold entry_loop, mbind, M_bind at 1.
  change (8 + 2 + 2) with 12.
  erewrite while_ext; [reflexivity|]. intros pos m'. unfold entry_body. cbn [ef_size ef_swap
    ef_length pmt_stream_format]. bind_eq.
Qed.

(** The loop over the streams, behind the program's descriptors [d]. *)
Lemma pmt_streams_run pre c0 c1 i0 i1 d tl post ds len :
  let pre1 := pre ++ [c1; c0; i1; i0] in
  zlen pre = 8 -> be12 i0 i1 = zlen d -> parse_descriptors d = Some ds ->
  len = 12 + zlen d + zlen tl -> Forall byte (pre1 ++ d ++ tl ++ post) ->
  (forall l, section_ext_length (pre1 ++ l) = Ret len (pre1 ++ l)) ->
  match parse_entries (A := pmt_stream) tl with
  | Some ss => exists m', entry_loop (A := pmt_stream) len (12 + zlen d) (pre1 ++ d ++ tl ++ post) = Ret tt m' /\
      ld_field13 8 m' = Ret (be13 c0 c1) m' /\
      mpeg_pmt_section_descriptors_for_each m' = Ret ds m' /\
      mpeg_pmt_section_streams_for_each m' = Ret ss m'
  | None => exists m', entry_loop (A := pmt_stream) len (12 + zlen d) (pre1 ++ d ++ tl ++ post) = Null m'
  end.
Proof.
  intros pre1 Hpre Hn Hds Hlen Hb Hsl.
  assert (Hp1 : zlen (pre1 ++ d) = 12 + zlen d)
    by (unfold pre1; rewrite !length_app; simpl length; lia).
  assert (Hpil : forall sw, pmt_program_info_length ((pre1 ++ d) ++ sw ++ post) =
    Ret (zlen d) ((pre1 ++ d) ++ sw ++ post)).
  { intros sw. rewrite <- Hn.
    apply (field12_at _ (pre ++ [c1; c0]) i1 i0 (d ++ sw ++ post)); unfold pre1; at_side. }
  assert (Hsl' : forall sw, section_ext_length ((pre1 ++ d) ++ sw ++ post) =
    Ret len ((pre1 ++ d) ++ sw ++ post)) by (intros sw; rewrite <- (app_assoc pre1 d); apply Hsl).
  assert (Hfirst : forall sw, mpeg_pmt_section_streams_first ((pre1 ++ d) ++ sw ++ post) =
    Ret (if len <=? zlen (pre1 ++ d) then None else Some (zlen (pre1 ++ d)))
      ((pre1 ++ d) ++ sw ++ post)).
  { intros sw. unfold mpeg_pmt_section_streams_first. run by exact (Hpil sw).
    run by exact (Hsl' sw). unfold sizeof_mpeg_pmt_section. by rewrite <- Hp1. }
  rewrite (app_assoc pre1 d) in *.
  pose proof (table_correct (codec := entry_loop len (12 + zlen d)) len
    mpeg_pmt_section_streams_first section_ext_length (pre1 ++ d) tl post
    ltac:(by rewrite Hp1) ltac:(lia) Hb Hfirst Hsl') as Htab.
  destruct (parse_entries tl) as [ss|]; [|exact Htab].
  destruct Htab as (sw & Hloop & Hb2 & Heach).
  eexists. split; [exact Hloop|].
  assert (Hm2 : (pre1 ++ d) ++ sw ++ post = pre ++ [c1; c0; i1; i0] ++ d ++ sw ++ post)
    by (unfold pre1; at_side).
  split_and!.
  - apply (field13_at _ pre c1 c0 ([i1; i0] ++ d ++ sw ++ post)); [by rewrite Hm2|lia].
  - unfold mpeg_pmt_section_descriptors_for_each. run by exact (Hpil sw).
    apply (for_descriptors_at _ _ pre1 d (sw ++ post)); unfold sizeof_mpeg_pmt_section;
      [by rewrite <- app_assoc|unfold pre1; at_side|done|done|done].
  - eapply (for_each_ext _ _ (next_entry section_ext_length) _ read_entry); [done| |].
    { intros p m'. unfold mpeg_pmt_stream_descriptors_for_each, read_entry. cbn. bind_eq. }
    exact Heach.
Qed.

Lemma pmt_codec_run m :
  section_buffer m -> 9 <= sec_len m ->
  match pmt_parse (range m 8 (sec_len m - 9)) with
  | Some (pcr, ds, ss) => exists m', mpeg_pmt_section_codec m = Ret tt m' /\
      ld_field13 8 m' = Ret pcr m' /\
      mpeg_pmt_section_descriptors_for_each m' = Ret ds m' /\
      mpeg_pmt_section_streams_for_each m' = Ret ss m'
  | None => exists m', mpeg_pmt_section_codec m = Null m'
  end.
Proof.
  intros Hs Hmin. pose proof Hs as [Hb Hfit].
  destruct (section_parts m 8 Hs ltac:(lia) ltac:(lia))
    as (pre & body & post & Hm & Hpre & Hbody & _ & Hbeq & Hsl).
  replace (sec_len m - 9) with (sec_len m - 1 - 8) by lia. rewrite <- Hbeq.
  destruct (decide (zlen body < 4)) as [Hshort|Hlong].
  { assert (pmt_parse body = None) as ->
      by (destruct body as [|? [|? [|? [|? ?]]]]; simpl in Hshort; done || lia).
    exists m. unfold mpeg_pmt_section_codec. rewrite Hm at 1. run by by apply Hsl.
    rewrite <- Hm. apply reject_null. unfold sizeof_mpeg_pmt_section. apply Z.ltb_lt. lia. }
  destruct body as [|c0 [|c1 [|i0 [|i1 rest]]]]; simpl in Hlong; try lia.
  cbn [length] in Hbody.
  pose proof (pmt_codec_head m pre c0 c1 i0 i1 rest post Hm Hpre Hb) as Hhead. cbv zeta in Hhead.
  replace (sec_len m - 1) with (12 + zlen rest) in Hsl by lia.
  rewrite Hhead by (rewrite Hm at 1 2; by apply Hsl). clear Hhead.
  pose proof (be12_bound i0 i1) as Hn. cbn [pmt_parse]. cbv zeta.
  destruct (Z.leb_spec (be12 i0 i1) (zlen rest)) as [Hle|]; [|by eexists].
  destruct (parse_descriptors (take _ rest)) as [ds|] eqn:Hds; [|by eexists].
  destruct (descriptors_first rest (be12 i0 i1) ltac:(lia)) as (d & tl & -> & Hd & Htk & Htl).
  rewrite Htl, <- Hd, <- (app_assoc d tl post). rewrite Htk in Hds. cbn [mbind option_bind].
  pose proof (pmt_streams_run pre c0 c1 i0 i1 d tl post ds (12 + zlen (d ++ tl)) Hpre (eq_sym Hd) Hds) as Hrun.
  destruct (parse_entries tl) as [ss|]; apply Hrun.
  all: try (rewrite length_app; lia).
  all: try solve [rewrite Hm in Hb; clear - Hb; solve_bytes].
  all: intros l; rewrite <- app_assoc; by apply Hsl.
Qed.

(** C3: [mpeg_pmt_section_codec] accepts exactly the well-formed program maps; the iterators over
    the result give the program's descriptors, and every stream with its PID and descriptors. *)
Theorem pmt_codec_correct m :
  section_buffer m -> 9 <= sec_len m ->
  match pmt_parse (range m 8 (sec_len m - 9)) with
  | Some (pcr, ds, ss) => exists m', mpeg_pmt_section_codec m = Ret tt m' /\
      ld_field13 8 m' = Ret pcr m' /\
      mpeg_pmt_section_descriptors_for_each m' = Ret ds m' /\
      mpeg_pmt_section_streams_for_each m' = Ret ss m'
  | None => exists m', mpeg_pmt_section_codec m = Null m'
  end.
Proof. apply pmt_codec_run. Qed.

(** ** The ODSMT and the short sections *)

(** an ODSMT with [stream_count == 0] is never accepted: the single-stream branch demands
    bytes after the descriptors, the last check forbids them. *)
Theorem odsmt_single_rejected m :
  section_buffer m -> 9 <= sec_len m -> m !z 8 = Some 0 ->
  exists m', mpeg_odsmt_section_codec m = Null m'.
Proof.
  intros Hs Hmin H0. apply (safe_rejected m 9); [apply Hs|].
  pose proof (sb_fits m Hs). unfold mpeg_odsmt_section_codec, odsmt_stream_count,
    sizeof_mpeg_odsmt_section, sizeof_section_ext, sizeof_mpeg_odsmt_stream_single.
  eapply safe_bind; [apply safe_section_ext_length; lia|]. intros len ->.
  rewrite (ext_len_id m Hs) by lia. safe_step.
  eapply safe_bind; [by apply (safe_ld8_prefix 8 0)|]. intros c ->. cbn [Z.eqb].
  eapply (safe_bind _ _ (fun pos => pos < sec_len m - 1)).
  - safe_steps. lia.
  - intros pos Hpos. rewrite (proj2 (Z.eqb_neq _ _)) by lia. apply safe_null.
Qed.

Lemma odsmt_single_rejected_witness :
  exists m', mpeg_odsmt_section_codec
    [0x05; 13; 0x80; 0; 1; 0xc1; 0; 0; 0; 0; 7; 0; 0; 0; 0; 0] = Null m'.
Proof.
  apply odsmt_single_rejected; [split; [|vm_compute; congruence]|vm_compute; congruence|done].
  repeat constructor; lia.
Defined.

(** a CAT (or TSDT) section shorter than its header underflows [size_t]: the descriptor check
    then runs past the end of the buffer.  Here: a section of 8 bytes, which [section_codec] and
    [section_ext_decode] accept. *)
Theorem cat_short_section_overread :
  (section_codec 8;; section_ext_decode false;; mpeg_cat_section_codec)
    [0x01; 0x80; 0x05; 0; 1; 0xc1; 0; 0] = Fault OutOfBounds /\
  (section_codec 8;; section_ext_decode false;; mpeg_tsdt_section_codec)
    [0x03; 0x80; 0x05; 0; 1; 0xc1; 0; 0] = Fault OutOfBounds /\
  (section_codec 3;; section_ext_decode false) [0x00; 0x80; 0x00] = Fault OutOfBounds.
Proof. by vm_compute. Qed.

(** the MPEG table codecs touch no memory outside a section that holds its header and CRC,
    always terminate, and leave the header as it was, accepted or not. *)
Theorem mpeg_codecs_safe m :
  section_buffer m -> 9 <= sec_len m ->
  Forall (fun c => codec_safe 8 c m)
    [mpeg_pat_section_codec; mpeg_cat_section_codec; mpeg_pmt_section_codec;
     mpeg_tsdt_section_codec; mpeg_metadata_section_codec; mpeg_odsmt_section_codec].
Proof.
  intros Hs Hm. rewrite !Forall_cons_iff. split_and!; [..|done].
  - apply pat_safe; [done|lia].
  - by apply cat_safe.
  - apply pmt_safe; [done|lia].
  - by apply tsdt_safe.
  - by apply safe_ret.
  - apply odsmt_safe; [done|lia].
Qed.

Lemma pat_codec_correct_witness :
  let m := [0; 13; 0x80; 0; 1; 0xc1; 0; 0; 0; 1; 0xe1; 0x02; 0; 0; 0; 0] in
  match pat_programs (range m 8 (sec_len m - 9)) with
  | Some ps => exists m', mpeg_pat_section_codec m = Ret tt m' /\
                 mpeg_pat_section_programs_for_each m' = Ret ps m'
  | None => exists m', mpeg_pat_section_codec m = Null m'
  end.
Proof.
  intros m. apply (pat_codec_correct m); [split; [repeat constructor; lia|vm_compute; congruence]|vm_compute; congruence].
Defined.

Lemma pmt_codec_correct_witness :
  let m := [2; 20; 0x80; 0; 1; 0xc1; 0; 0; 0xe1; 0x00; 0xf0; 0x02; 9; 0; 2; 0xe1; 0x00; 0xf0; 0x00;
   0; 0; 0; 0] in
  match pmt_parse (range m 8 (sec_len m - 9)) with
  | Some (pcr, ds, ss) => exists m', mpeg_pmt_section_codec m = Ret tt m' /\
      ld_field13 8 m' = Ret pcr m' /\
      mpeg_pmt_section_descriptors_for_each m' = Ret ds m' /\
      mpeg_pmt_section_streams_for_each m' = Ret ss m'
  | None => exists m', mpeg_pmt_section_codec m = Null m'
  end.
Proof.
  intros m. apply (pmt_codec_correct m); [split; [repeat constructor; lia|vm_compute; congruence]|vm_compute; congruence].
Defined.

Lemma mpeg_codecs_safe_witness :
  let m := [0; 9; 0x80; 0; 1; 0xc1; 0; 0; 0; 0; 0; 0] in
  Forall (fun c => codec_safe 8 c m)
    [mpeg_pat_section_codec; mpeg_cat_section_codec; mpeg_pmt_section_codec;
     mpeg_tsdt_section_codec; mpeg_metadata_section_codec; mpeg_odsmt_section_codec].
Proof.
  apply mpeg_codecs_safe; [split; [|vm_compute; congruence]|vm_compute; congruence].
  repeat constructor; lia.
Defined.
