(* ===== verification/DvbSections.v ===== *)
(** * libucsi/dvb: the section codecs of EN 300 468, EN 301 192 and TS 102 323

    One definition per [dvb_*_section_codec], and the iterators of the NIT, BAT, SDT, EIT and
    SIT.  The codecs of the RST, TDT, TOT, DIT and ST take a [struct section] (3 bytes), the
    others a [struct section_ext] (8 bytes). *)

From S2P Require Export EntryTable.

(** ** The code *)

Definition sizeof_dvb_bat_section : Z := 10.
Definition sizeof_dvb_bat_section_part2 : Z := 2.
Definition sizeof_dvb_bat_transport : Z := 6.
Definition sizeof_dvb_nit_section : Z := 10.
Definition sizeof_dvb_nit_section_part2 : Z := 2.
Definition sizeof_dvb_nit_transport : Z := 6.
Definition sizeof_dvb_eit_section : Z := 14.
Definition sizeof_dvb_eit_event : Z := 12.
Definition sizeof_dvb_sdt_section : Z := 11.
Definition sizeof_dvb_sdt_service : Z := 5.
Definition sizeof_dvb_sit_section : Z := 10.
Definition sizeof_dvb_sit_service : Z := 4.
Definition sizeof_dvb_int_section : Z := 14.
Definition sizeof_dvb_int_target : Z := 2.
Definition sizeof_dvb_int_operational_loop : Z := 2.
(** Nine bytes on the wire; the structure is not packed and is padded to its alignment. *)
Definition sizeof_dvb_rst_status : Z := 10.
Definition sizeof_dvb_tdt_section : Z := 8.
Definition sizeof_dvb_tot_section : Z := 10.
Definition sizeof_dvb_tva_container_section : Z := 8.

(** *** NIT and BAT *)

Definition network_descriptors_length : M Z := ld_field12 8.
Definition nit_transport_descriptors_length (t : Z) : M Z := ld_field12 (t + 4).

Definition dvb_nit_section_codec : M unit :=
  let pos := sizeof_section_ext in
  len ← section_ext_length;
  reject_if (len <? sizeof_dvb_nit_section);;
  bswap16 pos;;
  let pos := pos + 2 in
  n ← network_descriptors_length;
  reject_if (len <? pos + n);;
  verify_or_null pos n;;
  let pos := pos + n in
  reject_if (len <? pos + sizeof_dvb_nit_section_part2);;
  bswap16 pos;;
  let pos := pos + 2 in
  pos ← while (fun pos => mret (pos <? len)) (fun pos =>
    let transport := pos in
    reject_if (len <? pos + sizeof_dvb_nit_transport);;
    bswap16 pos;;
    bswap16 (pos + 2);;
    bswap16 (pos + 4);;
    let pos := pos + sizeof_dvb_nit_transport in
    n ← nit_transport_descriptors_length transport;
    reject_if (len <? pos + n);;
    verify_or_null pos n;;
    mret (pos + n)) pos;
  reject_if (negb (pos =? len)).

Definition bouquet_descriptors_length : M Z := ld_field12 8.
Definition bat_transport_descriptors_length (t : Z) : M Z := ld_field12 (t + 4).

Definition dvb_bat_section_codec : M unit :=
  let pos := sizeof_section_ext in
  len ← section_ext_length;
  reject_if (len <? sizeof_dvb_bat_section);;
  bswap16 pos;;
  let pos := pos + 2 in
  n ← bouquet_descriptors_length;
  reject_if (len <? pos + n);;
  verify_or_null pos n;;
  let pos := pos + n in
  reject_if (len <? pos + sizeof_dvb_bat_section_part2);;
  bswap16 pos;;
  let pos := pos + sizeof_dvb_bat_section_part2 in
  pos ← while (fun pos => mret (pos <? len)) (fun pos =>
    let transport := pos in
    reject_if (len <? pos + sizeof_dvb_bat_transport);;
    bswap16 pos;;
    bswap16 (pos + 2);;
    bswap16 (pos + 4);;
    let pos := pos + sizeof_dvb_bat_transport in
    n ← bat_transport_descriptors_length transport;
    reject_if (len <? pos + n);;
    verify_or_null pos n;;
    mret (pos + n)) pos;
  reject_if (negb (pos =? len)).

(** *** SDT and EIT *)

Definition sdt_descriptors_loop_length (service : Z) : M Z := ld_field12 (service + 3).

Definition dvb_sdt_section_codec : M unit :=
  let pos := sizeof_section_ext in
  len ← section_ext_length;
  reject_if (len <? sizeof_dvb_sdt_section);;
  bswap16 pos;;
  let pos := pos + 3 in
  pos ← while (fun pos => mret (pos <? len)) (fun pos =>
    let service := pos in
    reject_if (len <? pos + sizeof_dvb_sdt_service);;
    bswap16 pos;;
    bswap16 (pos + 3);;
    let pos := pos + sizeof_dvb_sdt_service in
    n ← sdt_descriptors_loop_length service;
    reject_if (len <? pos + n);;
    verify_or_null pos n;;
    mret (pos + n)) pos;
  reject_if (negb (pos =? len)).

Definition eit_descriptors_loop_length (event : Z) : M Z := ld_field12 (event + 10).

Definition dvb_eit_section_codec : M unit :=
  let pos := sizeof_section_ext in
  len ← section_ext_length;
  reject_if (len <? sizeof_dvb_eit_section);;
  bswap16 pos;;
  let pos := pos + 2 in
  bswap16 pos;;
  let pos := pos + 4 in
  pos ← while (fun pos => mret (pos <? len)) (fun pos =>
    let event := pos in
    reject_if (len <? pos + sizeof_dvb_eit_event);;
    bswap16 pos;;
    bswap16 (pos + 10);;
    let pos := pos + sizeof_dvb_eit_event in
    n ← eit_descriptors_loop_length event;
    reject_if (len <? pos + n);;
    verify_or_null pos n;;
    mret (pos + n)) pos;
  reject_if (negb (pos =? len)).

(** *** SIT: the third swap of each service is past the end of the service *)

Definition transmission_info_loop_length : M Z := ld_field12 8.
Definition service_loop_length (service : Z) : M Z := ld_field12 (service + 2).

Definition dvb_sit_section_codec : M unit :=
  let pos := sizeof_section_ext in
  len ← section_ext_length;
  reject_if (len <? sizeof_dvb_sit_section);;
  bswap16 pos;;
  let pos := pos + 2 in
  n ← transmission_info_loop_length;
  reject_if (len <? pos + n);;
  verify_or_null pos n;;
  let pos := pos + n in
  pos ← while (fun pos => mret (pos <? len)) (fun pos =>
    let service := pos in
    reject_if (len <? pos + sizeof_dvb_sit_service);;
    bswap16 pos;;
    bswap16 (pos + 2);;
    bswap16 (pos + 4);;
    let pos := pos + sizeof_dvb_sit_service in
    n ← service_loop_length service;
    reject_if (len <? pos + n);;
    verify_or_null pos n;;
    mret (pos + n)) pos;
  reject_if (negb (pos =? len)).

(** *** INT: [len - pos] is a [size_t] *)

Definition platform_descriptors_length : M Z := ld_field12 12.
Definition target_descriptors_length (target : Z) : M Z := ld_field12 target.
Definition operational_descriptors_length (loop : Z) : M Z := ld_field12 loop.

Definition dvb_int_section_codec : M unit :=
  let pos := sizeof_section_ext in
  len ← section_ext_length;
  reject_if (len <? sizeof_dvb_int_section);;
  bswap32 8;;
  bswap16 12;;
  let pos := pos + 6 in
  n ← platform_descriptors_length;
  reject_if (u64 (len - pos) <? n);;
  verify_or_null pos n;;
  let pos := pos + n in
  pos ← while (fun pos => mret (pos <? len)) (fun pos =>
    let s2 := pos in
    bswap16 pos;;
    n ← target_descriptors_length s2;
    reject_if (u64 (len - pos) <? n);;
    let pos := pos + sizeof_dvb_int_target in
    verify_or_null pos n;;
    let pos := pos + n in
    let s3 := pos in
    bswap16 pos;;
    n ← operational_descriptors_length s3;
    reject_if (u64 (len - pos) <? n);;
    let pos := pos + sizeof_dvb_int_operational_loop in
    verify_or_null pos n;;
    mret (pos + n)) pos;
  mret tt.

(** *** Sections without a table id extension *)

Definition dvb_rst_section_codec : M unit :=
  let pos := sizeof_section in
  len ← section_length;
  pos ← while (fun pos => mret (pos <? len)) (fun pos =>
    reject_if (len <? pos + sizeof_dvb_rst_status);;
    bswap16 pos;;
    bswap16 (pos + 2);;
    bswap16 (pos + 4);;
    bswap16 (pos + 6);;
    mret (pos + sizeof_dvb_rst_status)) pos;
  reject_if (negb (pos =? len)).

Definition dvb_tdt_section_codec : M unit :=
  len ← section_length;
  reject_if (negb (len =? sizeof_dvb_tdt_section)).

Definition tot_descriptors_loop_length : M Z := ld_field12 8.

Definition dvb_tot_section_codec : M unit :=
  let pos := sizeof_section in
  l ← section_length;
  let len := u64 (l - CRC_SIZE) in
  reject_if (len <? sizeof_dvb_tot_section);;
  let pos := pos + 5 in
  bswap16 pos;;
  let pos := pos + 2 in
  n ← tot_descriptors_loop_length;
  reject_if (len <? pos + n);;
  verify_or_null pos n;;
  let pos := pos + n in
  reject_if (negb (pos =? len)).

Definition dvb_dit_section_codec : M unit :=
  l ← length_field; reject_if (l <? 1).

Definition dvb_st_section_codec : M unit := mret tt.

Definition dvb_tva_container_section_codec : M unit :=
  len ← section_ext_length;
  reject_if (len <? sizeof_dvb_tva_container_section).

(** ** The codecs are safe *)

Lemma nit_safe m : section_buffer m -> 1 <= sec_len m -> codec_safe 8 dvb_nit_section_codec m.
Proof.
  unfold dvb_nit_section_codec, sizeof_dvb_nit_section, sizeof_dvb_nit_section_part2,
    sizeof_dvb_nit_transport, sizeof_section_ext, network_descriptors_length,
    nit_transport_descriptors_length.
  safe_codec_start. safe_steps. safe_pos_loop (fun pos => 8 <= pos <= sec_len m - 1).
  - safe_steps. lia.
  - apply safe_finish.
Qed.

Lemma bat_safe m : section_buffer m -> 1 <= sec_len m -> codec_safe 8 dvb_bat_section_codec m.
Proof. exact (nit_safe m). Qed.

Lemma sdt_safe m : section_buffer m -> 1 <= sec_len m -> codec_safe 8 dvb_sdt_section_codec m.
Proof.
  unfold dvb_sdt_section_codec, sizeof_dvb_sdt_section, sizeof_dvb_sdt_service,
    sizeof_section_ext, sdt_descriptors_loop_length.
  safe_codec_start. safe_steps. safe_pos_loop (fun pos => 8 <= pos <= sec_len m - 1).
  - safe_steps. lia.
  - apply safe_finish.
Qed.

Lemma eit_safe m : section_buffer m -> 1 <= sec_len m -> codec_safe 8 dvb_eit_section_codec m.
Proof.
  unfold dvb_eit_section_codec, sizeof_dvb_eit_section, sizeof_dvb_eit_event,
    sizeof_section_ext, eit_descriptors_loop_length.
  safe_codec_start. safe_steps. safe_pos_loop (fun pos => 8 <= pos <= sec_len m - 1).
  - safe_steps. lia.
  - apply safe_finish.
Qed.

(** The stray swap of the SIT stays inside the buffer because the CRC follows the services. *)
Lemma sit_safe m : section_buffer m -> 1 <= sec_len m -> codec_safe 8 dvb_sit_section_codec m.
Proof.
  unfold dvb_sit_section_codec, sizeof_dvb_sit_section, sizeof_dvb_sit_service,
    sizeof_section_ext, service_loop_length, transmission_info_loop_length.
  safe_codec_start. safe_steps. safe_pos_loop (fun pos => 8 <= pos <= sec_len m - 1).
  - safe_steps. lia.
  - apply safe_finish.
Qed.

Lemma tva_safe m :
  section_buffer m -> 1 <= sec_len m -> codec_safe 8 dvb_tva_container_section_codec m.
Proof. unfold dvb_tva_container_section_codec. safe_codec_start. apply safe_finish. Qed.

Lemma rst_safe m : section_buffer m -> 3 <= zlen m -> codec_safe 3 dvb_rst_section_codec m.
Proof.
  intros [_ Hfit] Hl. unfold codec_safe, dvb_rst_section_codec, sizeof_section, sizeof_dvb_rst_status.
  pose proof (sec_len_bound m). safe_step. subst.
  safe_pos_loop (fun pos => 3 <= pos <= sec_len m + 3).
  - safe_steps. lia.
  - apply safe_finish.
Qed.

Lemma tdt_safe m : section_buffer m -> 3 <= zlen m -> codec_safe 3 dvb_tdt_section_codec m.
Proof.
  intros _ Hl. unfold codec_safe, dvb_tdt_section_codec. safe_step. apply safe_finish.
Qed.

Lemma dit_safe m : section_buffer m -> 3 <= zlen m -> codec_safe 3 dvb_dit_section_codec m.
Proof.
  intros _ Hl. unfold codec_safe, dvb_dit_section_codec. safe_step. apply safe_finish.
Qed.

Lemma tot_safe m : section_buffer m -> 1 <= sec_len m -> codec_safe 3 dvb_tot_section_codec m.
Proof.
  intros [_ Hfit] Hl. unfold codec_safe, dvb_tot_section_codec, sizeof_section,
    sizeof_dvb_tot_section, tot_descriptors_loop_length, CRC_SIZE.
  pose proof (sec_len_bound m). safe_step. subst. rewrite u64_id by lia.
  safe_steps. apply safe_finish.
Qed.

(** ** Entries *)

(** [struct dvb_nit_transport] and [struct dvb_bat_transport]. *)
Record nit_transport := NitTransport { nt_transport_stream_id : Z; nt_original_network_id : Z }.

Definition read_nit_transport (t : Z) : M nit_transport :=
  ts ← ld16 t; on ← ld16 (t + 2); mret (NitTransport ts on).

(** [struct dvb_sdt_service]; the flags are bits 1 and 0 of byte 2. *)
Record sdt_service := SdtService {
  ss_service_id : Z;
  ss_eit_schedule_flag : Z;
  ss_eit_present_following_flag : Z;
  ss_running_status : Z;
  ss_free_ca_mode : Z;
}.

Definition read_sdt_service (s : Z) : M sdt_service :=
  id ← ld16 s;
  b ← ld8 (s + 2);
  w ← ld16 (s + 3);
  mret (SdtService id (Z.land (Z.shiftr b 1) 1) (Z.land b 1)
          (Z.land (Z.shiftr w 13) 7) (Z.land (Z.shiftr w 12) 1)).

(** [struct dvb_eit_event]; the start time and the duration are byte arrays. *)
Record eit_event := EitEvent {
  ev_event_id : Z;
  ev_start_time : list Z;
  ev_duration : list Z;
  ev_running_status : Z;
  ev_free_ca_mode : Z;
}.

Definition read_eit_event (e : Z) : M eit_event :=
  id ← ld16 e;
  st ← ld_bytes (e + 2) 5;
  du ← ld_bytes (e + 7) 3;
  w ← ld16 (e + 10);
  mret (EitEvent id st du (Z.land (Z.shiftr w 13) 7) (Z.land (Z.shiftr w 12) 1)).

#[export] Hint Unfold nit_transport_descriptors_length bat_transport_descriptors_length
  sdt_descriptors_loop_length eit_descriptors_loop_length
  read_nit_transport read_sdt_service read_eit_event : cells.

#[export] Instance nit_transport_format : EntryFormat nit_transport := {
  ef_size := sizeof_dvb_nit_transport;
  ef_swap p := bswap16 p;; bswap16 (p + 2);; bswap16 (p + 4);
  ef_length := nit_transport_descriptors_length;
  ef_read := read_nit_transport;
  ef_native hdr := match hdr with [a; b; c; d; e; f] => [b; a; d; c; f; e] | _ => hdr end;
  ef_len hdr := match hdr with [_; _; _; _; l0; l1] => be12 l0 l1 | _ => 0 end;
  ef_value hdr :=
    match hdr with
    | [t0; t1; n0; n1; _; _] => NitTransport (be_combine [t0; t1]) (be_combine [n0; n1])
    | _ => NitTransport 0 0
    end;
}.

#[export] Instance sdt_service_format : EntryFormat sdt_service := {
  ef_size := sizeof_dvb_sdt_service;
  ef_swap p := bswap16 p;; bswap16 (p + 3);
  ef_length := sdt_descriptors_loop_length;
  ef_read := read_sdt_service;
  ef_native hdr := match hdr with [a; b; c; d; e] => [b; a; c; e; d] | _ => hdr end;
  ef_len hdr := match hdr with [_; _; _; l0; l1] => be12 l0 l1 | _ => 0 end;
  ef_value hdr :=
    match hdr with
    | [s0; s1; b; l0; l1] =>
        let w := be_combine [l0; l1] in
        SdtService (be_combine [s0; s1]) (Z.land (Z.shiftr b 1) 1) (Z.land b 1)
          (Z.land (Z.shiftr w 13) 7) (Z.land (Z.shiftr w 12) 1)
    | _ => SdtService 0 0 0 0 0
    end;
}.

#[export] Instance eit_event_format : EntryFormat eit_event := {
  ef_size := sizeof_dvb_eit_event;
  ef_swap p := bswap16 p;; bswap16 (p + 10);
  ef_length := eit_descriptors_loop_length;
  ef_read := read_eit_event;
  ef_native hdr :=
    match hdr with
    | [a; b; c; d; e; f; g; h; i; j; k; l] => [b; a; c; d; e; f; g; h; i; j; l; k]
    | _ => hdr
    end;
  ef_len hdr :=
    match hdr with [_; _; _; _; _; _; _; _; _; _; l0; l1] => be12 l0 l1 | _ => 0 end;
  ef_value hdr :=
    match hdr with
    | [e0; e1; t0; t1; t2; t3; t4; d0; d1; d2; l0; l1] =>
        let w := be_combine [l0; l1] in
        EitEvent (be_combine [e0; e1]) [t0; t1; t2; t3; t4] [d0; d1; d2]
          (Z.land (Z.shiftr w 13) 7) (Z.land (Z.shiftr w 12) 1)
    | _ => EitEvent 0 [] [] 0 0
    end;
}.

#[export] Instance nit_transport_laws : EntryLaws nit_transport_format.
Proof. entry_laws. Qed.

#[export] Instance sdt_service_laws : EntryLaws sdt_service_format.
Proof. entry_laws. Qed.

#[export] Instance eit_event_laws : EntryLaws eit_event_format.
Proof. entry_laws. Qed.

(** ** Iterators *)

Definition dvb_sdt_section_services_first : M (option Z) :=
  let pos := sizeof_dvb_sdt_section in
  len ← section_ext_length;
  mret (if len <=? pos then None else Some pos).

Definition dvb_sdt_section_services_next (pos : Z) : M (option Z) :=
  end_ ← section_ext_length;
  n ← sdt_descriptors_loop_length pos;
  let next := pos + sizeof_dvb_sdt_service + n in
  mret (if end_ <=? next then None else Some next).

Definition dvb_sdt_service_descriptors_for_each (svc : Z) : M (list (Z * list Z)) :=
  n ← sdt_descriptors_loop_length svc;
  descriptors_for_each (svc + sizeof_dvb_sdt_service) n.

Definition dvb_sdt_section_services_for_each : M (list (sdt_service * list (Z * list Z))) :=
  for_each dvb_sdt_section_services_first dvb_sdt_section_services_next
    (fun p => s ← read_sdt_service p; ds ← dvb_sdt_service_descriptors_for_each p; mret (s, ds)).

Definition dvb_eit_section_events_first : M (option Z) :=
  let pos := sizeof_dvb_eit_section in
  len ← section_ext_length;
  mret (if len <=? pos then None else Some pos).

Definition dvb_eit_section_events_next (pos : Z) : M (option Z) :=
  end_ ← section_ext_length;
  n ← eit_descriptors_loop_length pos;
  let next := pos + sizeof_dvb_eit_event + n in
  mret (if end_ <=? next then None else Some next).

Definition dvb_eit_event_descriptors_for_each (e : Z) : M (list (Z * list Z)) :=
  n ← eit_descriptors_loop_length e;
  descriptors_for_each (e + sizeof_dvb_eit_event) n.

Definition dvb_eit_section_events_for_each : M (list (eit_event * list (Z * list Z))) :=
  for_each dvb_eit_section_events_first dvb_eit_section_events_next
    (fun p => s ← read_eit_event p; ds ← dvb_eit_event_descriptors_for_each p; mret (s, ds)).

(** The NIT: the transports are delimited by a length of their own, in [part2]. *)
Definition dvb_nit_section_descriptors_for_each : M (list (Z * list Z)) :=
  n ← network_descriptors_length; descriptors_for_each sizeof_dvb_nit_section n.

Definition dvb_nit_section_part2 : M Z :=
  n ← network_descriptors_length; mret (sizeof_dvb_nit_section + n).

Definition transport_stream_loop_length (part2 : Z) : M Z := ld_field12 part2.

Definition dvb_nit_section_transports_first (part2 : Z) : M (option Z) :=
  n ← transport_stream_loop_length part2;
  mret (if n =? 0 then None else Some (part2 + sizeof_dvb_nit_section_part2)).

Definition dvb_nit_section_transports_next (part2 pos : Z) : M (option Z) :=
  l ← transport_stream_loop_length part2;
  let end_ := part2 + sizeof_dvb_nit_section_part2 + l in
  n ← nit_transport_descriptors_length pos;
  let next := pos + sizeof_dvb_nit_transport + n in
  mret (if end_ <=? next then None else Some next).

Definition dvb_nit_transport_descriptors_for_each (t : Z) : M (list (Z * list Z)) :=
  n ← nit_transport_descriptors_length t;
  descriptors_for_each (t + sizeof_dvb_nit_transport) n.

Definition dvb_nit_section_transports_for_each : M (list (nit_transport * list (Z * list Z))) :=
  part2 ← dvb_nit_section_part2;
  for_each (dvb_nit_section_transports_first part2) (dvb_nit_section_transports_next part2)
    (fun p => t ← read_nit_transport p; ds ← dvb_nit_transport_descriptors_for_each p;
              mret (t, ds)).

(** The macro [dvb_sit_section_descriptors_for_each] steps with [.._descriptors_first]. *)
Definition dvb_sit_section_descriptors_first : M (option Z) :=
  n ← transmission_info_loop_length; mret (first_descriptor sizeof_dvb_sit_section n).

Definition dvb_sit_section_descriptors_for_each : M (list (Z * list Z)) :=
  for_each dvb_sit_section_descriptors_first (fun _ => dvb_sit_section_descriptors_first)
    read_descriptor.

(** ** What the codecs accept *)

(** The body of a transmitted SDT: the original network id and a reserved byte, the services. *)
Definition sdt_parse (bs : list Z) : option (Z * list (sdt_service * list (Z * list Z))) :=
  match bs with
  | o0 :: o1 :: _ :: rest => es ← parse_entries rest; Some (be_combine [o0; o1], es)
  | _ => None
  end.

(** [dvb_sdt_section_codec] accepts exactly the well-formed service descriptions, and the
    iterators over the result give every service, with its flags and descriptors. *)
Theorem sdt_codec_correct m :
  section_buffer m -> 9 <= sec_len m ->
  match sdt_parse (range m 8 (sec_len m - 9)) with
  | Some (onid, ss) => exists m', dvb_sdt_section_codec m = Ret tt m' /\
      ld16 8 m' = Ret onid m' /\ dvb_sdt_section_services_for_each m' = Ret ss m'
  | None => exists m', dvb_sdt_section_codec m = Null m'
  end.
Proof.
  intros Hs Hmin. pose proof Hs as [Hb Hfit].
  destruct (section_parts m 8 Hs ltac:(lia) ltac:(lia))
    as (pre & body & post & Hm & Hpre & Hbody & _ & Hbeq & Hsl).
  replace (sec_len m - 9) with (sec_len m - 1 - 8) by lia. rewrite <- Hbeq.
  destruct (decide (zlen body < 3)) as [Hshort|Hlong].
  { assert (sdt_parse body = None) as ->
      by (destruct body as [|? [|? [|? ?]]]; simpl in Hshort; done || lia).
    exists m. apply short_section; [done|lia|unfold sizeof_dvb_sdt_section; lia]. }
  destruct body as [|o0 [|o1 [|r rest]]]; simpl in Hlong; try lia. cbn [length] in Hbody.
  assert (Hh : zlen (pre ++ [o1; o0; r]) = 11) by (rewrite length_app; simpl; lia).
  assert (Hw : byte o0 /\ byte o1 /\ byte r) by (rewrite Hm in Hb; solve_bytes).
  destruct Hw as (? & ? & ?).
  assert (Hcodec : dvb_sdt_section_codec m =
    entry_loop (A := sdt_service) (11 + zlen rest) 11 ((pre ++ [o1; o0; r]) ++ rest ++ post)).
  { unfold dvb_sdt_section_codec. rewrite Hm at 1. run by (by apply Hsl).
    rewrite reject_run by (unfold sizeof_dvb_sdt_section; apply Z.ltb_ge; lia).
    run by (apply (bswap16_at _ pre o0 o1 ((r :: rest) ++ post)); done).
    replace (pre ++ [o1; o0] ++ (r :: rest) ++ post) with ((pre ++ [o1; o0; r]) ++ rest ++ post)
      by at_side.
    unfold entry_loop, mbind, M_bind at 1. replace (sec_len m - 1) with (11 + zlen rest) by lia.
    erewrite while_ext; [reflexivity|]. intros pos m'. unfold entry_body.
    cbn [ef_size ef_swap ef_length sdt_service_format]. bind_eq. }
  pose proof (header_table (codec := dvb_sdt_section_codec) (A := sdt_service) pre [o0; o1; r] [o1; o0; r] rest post Hm Hb eq_refl
    ltac:(solve_bytes)) as Htab. rewrite Hh in Htab.
  specialize (Htab ltac:(intros l; rewrite Hsl by done; f_equal; lia) Hcodec).
  cbn [sdt_parse]. destruct (parse_entries rest) as [es|]; [|done]. cbn [mbind option_bind].
  destruct Htab as (sw & Hrun & Heach). eexists. split; [exact Hrun|]. split.
  - by apply (ld16_at _ pre o1 o0 ((r :: sw) ++ post)).
  - eapply for_each_ext; [..|exact Heach]; [done|]. intros p m'.
    unfold dvb_sdt_service_descriptors_for_each, read_entry. cbn. bind_eq.
Qed.

(** The body of a transmitted EIT: transport stream id, original network id, the last section
    number of the segment, the last table id, and the events. *)
Definition eit_parse (bs : list Z) :
    option (Z * Z * Z * Z * list (eit_event * list (Z * list Z))) :=
  match bs with
  | t0 :: t1 :: o0 :: o1 :: seg :: lt :: rest =>
      es ← parse_entries rest; Some (be_combine [t0; t1], be_combine [o0; o1], seg, lt, es)
  | _ => None
  end.

(** [dvb_eit_section_codec] accepts exactly the well-formed event tables, and the iterators
    over the result give every event, with its times, flags and descriptors. *)
Theorem eit_codec_correct m :
  section_buffer m -> 9 <= sec_len m ->
  match eit_parse (range m 8 (sec_len m - 9)) with
  | Some (tsid, onid, seg, lt, es) => exists m', dvb_eit_section_codec m = Ret tt m' /\
      ld16 8 m' = Ret tsid m' /\ ld16 10 m' = Ret onid m' /\ ld8 12 m' = Ret seg m' /\
      ld8 13 m' = Ret lt m' /\ dvb_eit_section_events_for_each m' = Ret es m'
  | None => exists m', dvb_eit_section_codec m = Null m'
  end.
Proof.
  intros Hs Hmin. pose proof Hs as [Hb Hfit].
  destruct (section_parts m 8 Hs ltac:(lia) ltac:(lia))
    as (pre & body & post & Hm & Hpre & Hbody & _ & Hbeq & Hsl).
  replace (sec_len m - 9) with (sec_len m - 1 - 8) by lia. rewrite <- Hbeq.
  destruct (decide (zlen body < 6)) as [Hshort|Hlong].
  { assert (eit_parse body = None) as ->
      by (destruct body as [|? [|? [|? [|? [|? [|? ?]]]]]]; simpl in Hshort; done || lia).
    exists m. apply short_section; [done|lia|unfold sizeof_dvb_eit_section; lia]. }
  destruct body as [|t0 [|t1 [|o0 [|o1 [|seg [|lt rest]]]]]]; simpl in Hlong; try lia.
  cbn [length] in Hbody.
  set (w' := [t1; t0; o1; o0; seg; lt]).
  assert (Hh : zlen (pre ++ w') = 14) by (rewrite length_app; simpl; lia).
  assert (Hw : byte t0 /\ byte t1 /\ byte o0 /\ byte o1 /\ byte seg /\ byte lt)
    by (rewrite Hm in Hb; solve_bytes).
  destruct Hw as (? & ? & ? & ? & ? & ?).
  assert (Hcodec : dvb_eit_section_codec m =
    entry_loop (A := eit_event) (14 + zlen rest) 14 ((pre ++ w') ++ rest ++ post)).
  { unfold dvb_eit_section_codec. rewrite Hm at 1. run by (by apply Hsl).
    rewrite reject_run by (unfold sizeof_dvb_eit_section; apply Z.ltb_ge; lia).
    run by (apply (bswap16_at _ pre t0 t1 ((o0 :: o1 :: seg :: lt :: rest) ++ post)); done).
    run by (apply (bswap16_at _ (pre ++ [t1; t0]) o0 o1 ((seg :: lt :: rest) ++ post));
      [at_side|unfold sizeof_section_ext; at_side|done..]).
    replace ((pre ++ [t1; t0]) ++ [o1; o0] ++ (seg :: lt :: rest) ++ post)
      with ((pre ++ w') ++ rest ++ post) by (unfold w'; at_side).
    unfold entry_loop, mbind, M_bind at 1. replace (sec_len m - 1) with (14 + zlen rest) by lia.
    erewrite while_ext; [reflexivity|]. intros pos m'. unfold entry_body.
    cbn [ef_size ef_swap ef_length eit_event_format]. bind_eq. }
  pose proof (header_table (codec := dvb_eit_section_codec) (A := eit_event) pre [t0; t1; o0; o1; seg; lt] w' rest post Hm Hb eq_refl
    ltac:(unfold w'; solve_bytes)) as Htab. rewrite Hh in Htab.
  specialize (Htab ltac:(intros l; rewrite Hsl by done; f_equal; lia) Hcodec).
  cbn [eit_parse]. destruct (parse_entries rest) as [es|]; [|done]. cbn [mbind option_bind].
  destruct Htab as (sw & Hrun & Heach). eexists. split; [exact Hrun|]. unfold w'. split_and!.
  - by apply (ld16_at _ pre t1 t0 ((o1 :: o0 :: seg :: lt :: sw) ++ post)).
  - apply (ld16_at _ (pre ++ [t1; t0]) o1 o0 ((seg :: lt :: sw) ++ post)); at_side.
  - apply (ld8_at _ (pre ++ [t1; t0; o1; o0]) seg ((lt :: sw) ++ post)); at_side.
  - apply (ld8_at _ (pre ++ [t1; t0; o1; o0; seg]) lt (sw ++ post)); at_side.
  - eapply for_each_ext; [..|exact Heach]; [done|]. intros p m'.
    unfold dvb_eit_event_descriptors_for_each, read_entry. cbn. bind_eq.
Qed.

(** The body of a transmitted NIT (or BAT): the descriptor loop of the network, the length of the
    transport loop, the transports. *)
Definition nit_parse (bs : list Z) :
    option (list (Z * list Z) * Z * list (nit_transport * list (Z * list Z))) :=
  match bs with
  | n0 :: n1 :: rest =>
      let n := be12 n0 n1 in
      if n <=? zlen rest then
        ds ← parse_descriptors (take (Z.to_nat n) rest);
        match drop (Z.to_nat n) rest with
        | t0 :: t1 :: tl => es ← parse_entries tl; Some (ds, be12 t0 t1, es)
        | _ => None
        end
      else None
  | _ => None
  end.

(** The NIT codec after its header: the network's descriptor loop, the length word of the
    transport loop, the transports. *)
Lemma nit_codec_head m pre n0 n1 rest post :
  m = pre ++ (n0 :: n1 :: rest) ++ post -> zlen pre = 8 -> Forall byte m ->
  section_ext_length m = Ret (10 + zlen rest) m ->
  let n := be12 n0 n1 in
  let m1 := (pre ++ [n1; n0]) ++ rest ++ post in
  dvb_nit_section_codec m =
  if n <=? zlen rest then
    match parse_descriptors (take (Z.to_nat n) rest) with
    | Some _ =>
        (reject_if (10 + zlen rest <? 10 + n + 2);; bswap16 (10 + n);;
         entry_loop (A := nit_transport) (10 + zlen rest) (10 + n + 2)) m1
    | None => Null m1
    end
  else Null m1.
Proof.
  intros Hm Hpre Hb Hsl n m1. pose proof (be12_bound n0 n1) as Hn. fold n in Hn.
  assert (Hparts : byte n0 /\ byte n1) by (subst m; solve_bytes). destruct Hparts as [? ?].
  assert (Hb1 : Forall byte m1) by (unfold m1; subst m; solve_bytes).
  unfold dvb_nit_section_codec. run by exact Hsl.
  rewrite reject_run by (unfold sizeof_dvb_nit_section; apply Z.ltb_ge; lia).
  unfold sizeof_section_ext, network_descriptors_length.
  run by (apply (bswap16_at _ pre n0 n1 (rest ++ post)); try done; lia).
  replace (pre ++ [n1; n0] ++ rest ++ post) with m1 by (unfold m1; at_side).
  run by (apply (field12_at _ pre n1 n0 (rest ++ post)); unfold m1; at_side).
  fold n. etransitivity; [apply checked_descriptors; [at_side|at_side|lia|done]|].
  fold m1. case_if; [|done]. case_opt; [|done].
  unfold sizeof_dvb_nit_section_part2. change (8 + 2) with 10.
  destruct (10 + zlen rest <? 10 + n + 2); [done|]. cbn [reject_if].
  unfold entry_loop, mbind, M_bind, mret, M_ret.
  destruct (bswap16 (10 + n) m1); [|done..].
  erewrite while_ext; [reflexivity|]. intros pos m'. unfold entry_body. cbn [ef_size ef_swap
    ef_length nit_transport_format]. bind_eq.
Qed.

(** The fields of an accepted NIT, whatever the transports. *)
Lemma nit_fields pre n0 n1 d ds t0 t1 l :
  let n := be12 n0 n1 in
  let m := (pre ++ [n1; n0] ++ d ++ [t1; t0]) ++ l in
  zlen pre = 8 -> zlen d = n -> Forall byte m -> parse_descriptors d = Some ds ->
  dvb_nit_section_descriptors_for_each m = Ret ds m /\
  dvb_nit_section_part2 m = Ret (10 + n) m /\
  transport_stream_loop_length (10 + n) m = Ret (be12 t0 t1) m.
Proof.
  intros n m Hpre Hd Hb Hds.
  assert (Hdl : network_descriptors_length m = Ret n m).
  { apply (field12_at _ pre n1 n0 (d ++ [t1; t0] ++ l)); unfold m; at_side. }
  split_and!.
  - unfold dvb_nit_section_descriptors_for_each. run by exact Hdl.
    apply (for_descriptors_at _ _ (pre ++ [n1; n0]) d ([t1; t0] ++ l));
      unfold m, sizeof_dvb_nit_section; [at_side|at_side|done|exact Hb|done].
  - unfold dvb_nit_section_part2. by run by exact Hdl.
  - apply (field12_at _ (pre ++ [n1; n0] ++ d) t1 t0 l); unfold m;
      [at_side|rewrite !length_app; simpl length; lia].
Qed.

(** Iterating over the transports of an accepted NIT whose transport loop ends with the
    section. *)
Lemma nit_transports hdr part2 l len tl sw es post :
  let m := hdr ++ sw ++ post in
  zlen hdr = part2 + 2 -> Forall byte m -> len = zlen hdr + zlen tl ->
  entries_image tl sw es -> part2 + 2 + l = len ->
  dvb_nit_section_part2 m = Ret part2 m -> transport_stream_loop_length part2 m = Ret l m ->
  dvb_nit_section_transports_for_each m = Ret es m.
Proof.
  intros m Hh Hb Hlen Him Hend Hp2 Hl. unfold dvb_nit_section_transports_for_each.
  run by exact Hp2.
  eapply (for_each_ext _ _ (next_entry (E := nit_transport_format)
    (l ← transport_stream_loop_length part2;
     mret (part2 + sizeof_dvb_nit_section_part2 + l))) _ read_entry).
  - intros p m'. unfold dvb_nit_section_transports_next, next_entry. cbn. bind_eq.
  - intros p m'. unfold dvb_nit_transport_descriptors_for_each, read_entry. cbn. bind_eq.
  - apply (entries_for_each len _ _ tl sw es); try done.
    + unfold dvb_nit_section_transports_first. run by exact Hl.
      unfold sizeof_dvb_nit_section_part2. rewrite Hh.
      destruct (Z.eqb_spec l 0), (Z.leb_spec len (part2 + 2)); done || lia.
    + run by exact Hl. unfold mret, M_ret, sizeof_dvb_nit_section_part2. by rewrite Hend.
Qed.

(** [dvb_nit_section_codec] and [dvb_bat_section_codec] accept exactly the well-formed network
    tables; when the transport loop is as long as it announces, the iterators over the result
    give every transport with its descriptors. *)
Theorem nit_codec_correct codec m :
  codec = dvb_nit_section_codec \/ codec = dvb_bat_section_codec ->
  section_buffer m -> 9 <= sec_len m ->
  match nit_parse (range m 8 (sec_len m - 9)) with
  | Some (ds, l, es) => exists m' part2, codec m = Ret tt m' /\
      dvb_nit_section_descriptors_for_each m' = Ret ds m' /\
      dvb_nit_section_part2 m' = Ret part2 m' /\
      transport_stream_loop_length part2 m' = Ret l m' /\
      (part2 + 2 + l = sec_len m - 1 -> dvb_nit_section_transports_for_each m' = Ret es m')
  | None => exists m', codec m = Null m'
  end.
Proof.
  intros Hcodec Hs Hmin. assert (codec = dvb_nit_section_codec) as -> by by destruct Hcodec.
  clear Hcodec. pose proof Hs as [Hb Hfit].
  destruct (section_parts m 8 Hs ltac:(lia) ltac:(lia))
    as (pre & body & post & Hm & Hpre & Hbody & _ & Hbeq & Hsl).
  replace (sec_len m - 9) with (sec_len m - 1 - 8) by lia. rewrite <- Hbeq.
  destruct (decide (zlen body < 2)) as [Hshort|Hlong].
  { assert (nit_parse body = None) as ->
      by (destruct body as [|? [|? ?]]; simpl in Hshort; done || lia).
    exists m. apply short_section; [done|lia|unfold sizeof_dvb_nit_section; lia]. }
  destruct body as [|n0 [|n1 rest]]; simpl in Hlong; try lia. cbn [length] in Hbody.
  pose proof (nit_codec_head m pre n0 n1 rest post Hm Hpre Hb) as Hhead. cbv zeta in Hhead.
  replace (sec_len m - 1) with (10 + zlen rest) in * by lia.
  rewrite Hhead by (rewrite Hm at 1 2; by apply Hsl). clear Hhead.
  pose proof (be12_bound n0 n1) as Hn. cbn [nit_parse]. cbv zeta.
  destruct (Z.leb_spec (be12 n0 n1) (zlen rest)) as [Hle|]; [|by eexists].
  destruct (descriptors_first rest (be12 n0 n1) ltac:(lia)) as (d & tl & Hrest & Hd & Htk & Htl).
  rewrite Htk, Htl. destruct (parse_descriptors d) as [ds|] eqn:Hds; [|by eexists].
  cbn [mbind option_bind]. assert (Hlr : zlen rest = be12 n0 n1 + zlen tl)
    by (rewrite Hrest, length_app; lia).
  destruct tl as [|t0 [|t1 tl]]; cbn [length] in Hlr;
    [eexists; apply reject_null, Z.ltb_lt; lia..|].
  rewrite reject_run by (apply Z.ltb_ge; lia).
  set (hdr := pre ++ [n1; n0] ++ d ++ [t1; t0]).
  assert (Hbs : Forall byte (pre ++ [n1; n0] ++ d ++ [t1; t0] ++ tl ++ post)).
  { rewrite Hm, Hrest in Hb. clear - Hb. solve_bytes. }
  assert (Hb1 : Forall byte (hdr ++ tl ++ post)) by (unfold hdr; clear - Hbs; solve_bytes).
  assert (Hh : zlen hdr = 10 + be12 n0 n1 + 2)
    by (unfold hdr; rewrite !length_app; simpl length; lia).
  assert (Hswap : bswap16 (10 + be12 n0 n1) ((pre ++ [n1; n0]) ++ rest ++ post) =
    Ret tt (hdr ++ tl ++ post)).
  { apply (bswap16_at _ (pre ++ [n1; n0] ++ d) t0 t1 (tl ++ post)); unfold hdr;
      [rewrite Hrest; at_side|rewrite !length_app; simpl length; lia|clear - Hbs; solve_bytes..|
       at_side]. }
  rewrite (bind_run _ _ _ _ _ Hswap), <- Hh.
  pose proof (entry_loop_run (A := nit_transport) (10 + zlen rest) hdr tl post Hb1 ltac:(lia))
    as Hrun. cbv zeta in Hrun.
  destruct (parse_entries tl) as [es|]; cbn [mbind option_bind]; [|exact Hrun].
  destruct Hrun as (sw & Him & Hrun). exists (hdr ++ sw ++ post), (10 + be12 n0 n1).
  assert (Hb2 : Forall byte (hdr ++ sw ++ post)).
  { apply entries_image_bytes in Him; rewrite !Forall_app in *; tauto. }
  destruct (nit_fields pre n0 n1 d ds t0 t1 (sw ++ post) Hpre Hd Hb2 Hds) as (H1 & H2 & H3).
  split_and!; try done. intros Hend.
  apply (nit_transports hdr _ _ (10 + zlen rest) tl sw es post Hh Hb2 ltac:(lia) Him Hend H2 H3).
Qed.

(** the DVB table codecs touch no memory outside a section that holds a header and a CRC,
    always terminate, and leave the section header as it was, accepted or not. *)
Theorem dvb_codecs_safe m :
  section_buffer m -> 9 <= sec_len m ->
  Forall (fun c => codec_safe 8 c m)
    [dvb_nit_section_codec; dvb_bat_section_codec; dvb_sdt_section_codec; dvb_eit_section_codec;
     dvb_sit_section_codec; dvb_tva_container_section_codec] /\
  Forall (fun c => codec_safe 3 c m)
    [dvb_rst_section_codec; dvb_tdt_section_codec; dvb_tot_section_codec; dvb_dit_section_codec;
     dvb_st_section_codec].
Proof.
  intros Hs Hm. pose proof (sb_fits m Hs). rewrite !Forall_cons_iff. split_and!;
    lazymatch goal with |- Forall _ [] => apply Forall_nil | _ => idtac end; try exact I.
  - apply nit_safe; [done|lia].
  - apply bat_safe; [done|lia].
  - apply sdt_safe; [done|lia].
  - apply eit_safe; [done|lia].
  - apply sit_safe; [done|lia].
  - apply tva_safe; [done|lia].
  - apply rst_safe; [done|lia].
  - apply tdt_safe; [done|lia].
  - apply tot_safe; [done|lia].
  - apply dit_safe; [done|lia].
  - by apply safe_ret.
Qed.

Lemma dvb_codecs_safe_witness :
  let m := [0x42; 9; 0x80; 0; 1; 0xc1; 0; 0; 0; 0; 0; 0] in
  Forall (fun c => codec_safe 8 c m)
    [dvb_nit_section_codec; dvb_bat_section_codec; dvb_sdt_section_codec; dvb_eit_section_codec;
     dvb_sit_section_codec; dvb_tva_container_section_codec] /\
  Forall (fun c => codec_safe 3 c m)
    [dvb_rst_section_codec; dvb_tdt_section_codec; dvb_tot_section_codec; dvb_dit_section_codec;
     dvb_st_section_codec].
Proof.
  apply dvb_codecs_safe; [split; [|vm_compute; congruence]|vm_compute; congruence].
  repeat constructor; lia.
Defined.

(** ** Where the code does not keep its promise *)

(** The length of the transport loop of a NIT is not checked against the section: the codec
    accepts this table, and the iterator over the result leaves the buffer. *)
Theorem nit_loop_length_unchecked :
  let m := [0x40; 19; 0x80; 0; 1; 0xc1; 0; 0;  0; 0;  0; 12;  0; 1; 0; 2; 0; 0;  0; 0; 0; 0] in
  exists m', dvb_nit_section_codec m = Ret tt m' /\
    dvb_nit_section_transports_for_each m' = Fault OutOfBounds.
Proof. eexists. by vm_compute. Qed.

(** [dvb_int_section_codec] compares the length of a loop with [len - pos] before it steps over
    the length word, and [len - pos] wraps around once [pos] has passed [len]. *)
Theorem int_overread :
  dvb_int_section_codec
    [0x4c; 17; 0x80; 0; 1; 0xc1; 0; 0;  1; 2; 3; 4;  0; 0;  0; 2;  0; 0; 0; 4]
  = Fault OutOfBounds.
Proof. by vm_compute. Qed.

(** [section_length - CRC_SIZE] wraps around in [dvb_tot_section_codec]. *)
Theorem tot_short_section_overread :
  (section_codec 3;; dvb_tot_section_codec) [0x73; 0x70; 0] = Fault OutOfBounds.
Proof. by vm_compute. Qed.

(** The extra swap of [dvb_sit_section_codec] exchanges the tag and the length of the first
    descriptor of a service: this service, with one descriptor of one byte, is rejected. *)
Theorem sit_stray_swap :
  let m := [0x7f; 18; 0x80; 0; 1; 0xc1; 0; 0;  0; 0;  0; 5; 0; 3;  0x48; 1; 7;  0; 0; 0; 0] in
  parse_descriptors (range m 14 3) = Some [(0x48, [7])] /\
  exists m', dvb_sit_section_codec m = Null m'.
Proof. split; [by vm_compute|]. eexists. by vm_compute. Qed.

(** Iterating over the descriptors of a SIT section never ends when there is one. *)
Theorem sit_descriptors_diverge m p d fuel acc :
  dvb_sit_section_descriptors_first m = Ret (Some p) m -> read_descriptor p m = Ret d m ->
  iter_ fuel (for_each_body (fun _ => dvb_sit_section_descriptors_first) read_descriptor)
    (Some p, acc) m = Fault OutOfFuel.
Proof.
  intros Hf Hd. revert acc. induction fuel as [|fuel IH]; intros acc; [done|].
  by rewrite (for_each_step _ _ _ _ _ d (Some p) m Hd Hf).
Qed.

(** A status is 9 bytes on the wire, [sizeof(struct dvb_rst_status)] is 10, and the codec counts
    the CRC among the statuses: an accepted RST has a multiple of 10 bytes after its header. *)
Lemma rst_accepts m :
  section_buffer m -> 3 <= zlen m ->
  safe m 3 dvb_rst_section_codec (fun _ => sec_len m mod 10 = 0).
Proof.
  intros [_ Hfit] Hl. unfold dvb_rst_section_codec, sizeof_section, sizeof_dvb_rst_status.
  pose proof (sec_len_bound m). safe_step. subst.
  apply (safe_loop (fun pos => 3 <= pos <= sec_len m + 3 /\ (pos - 3) mod 10 = 0) (fun pos => pos)).
  - intros pos ?; lia.
  - split; [lia|done].
  - intros pos [Hp Hmod]. apply safe_cond. intros Hc. bool_facts. safe_steps.
    split; [|lia]. split; [lia|].
    replace (pos + 10 - 3) with (pos - 3 + 1 * 10) by lia. by rewrite Z.mod_add.
  - intros pos [Hp Hmod]. eapply safe_mono; [apply safe_reject_if|]. intros ? Hn. cbv beta in Hn. bool_facts.
    by replace (sec_len m) with (pos - 3) by lia.
Qed.

(** A conforming RST with one status (9 bytes and the CRC) is therefore never accepted. *)
Theorem rst_single_rejected m :
  section_buffer m -> sec_len m = 13 -> exists m', dvb_rst_section_codec m = Null m'.
Proof.
  intros Hs Hl. pose proof (sb_fits m Hs). apply (safe_rejected m 3); [apply Hs|].
  eapply safe_mono; [apply rst_accepts; [done|lia]|]. intros ?. by rewrite Hl.
Qed.

Lemma sdt_codec_correct_witness :
  let m := [66; 19; 0x80; 0; 1; 0xc1; 0; 0; 0; 1; 0xff; 0; 2; 0xfc; 0x80; 2; 0x48; 0; 0; 0; 0; 0] in
  match sdt_parse (range m 8 (sec_len m - 9)) with
  | Some (onid, ss) => exists m', dvb_sdt_section_codec m = Ret tt m' /\
      ld16 8 m' = Ret onid m' /\ dvb_sdt_section_services_for_each m' = Ret ss m'
  | None => exists m', dvb_sdt_section_codec m = Null m'
  end.
Proof.
  intros m. apply (sdt_codec_correct m); [split; [repeat constructor; lia|vm_compute; congruence]|vm_compute; congruence].
Defined.

Lemma eit_codec_correct_witness :
  let m := [78; 28; 0x80; 0; 1; 0xc1; 0; 0; 0; 1; 0; 2; 0; 0x4e; 0; 7; 0xe0; 1; 2; 3; 4; 5; 6; 0x80;
   2; 0x4d; 0; 0; 0; 0; 0] in
  match eit_parse (range m 8 (sec_len m - 9)) with
  | Some (tsid, onid, seg, lt, es) => exists m', dvb_eit_section_codec m = Ret tt m' /\
      ld16 8 m' = Ret tsid m' /\ ld16 10 m' = Ret onid m' /\ ld8 12 m' = Ret seg m' /\
      ld8 13 m' = Ret lt m' /\ dvb_eit_section_events_for_each m' = Ret es m'
  | None => exists m', dvb_eit_section_codec m = Null m'
  end.
Proof.
  intros m. apply (eit_codec_correct m); [split; [repeat constructor; lia|vm_compute; congruence]|vm_compute; congruence].
Defined.

Lemma nit_codec_correct_witness :
  let m := [64; 21; 0x80; 0; 1; 0xc1; 0; 0; 0xf0; 2; 0x40; 0; 0xf0; 6; 0; 1; 0; 2; 0xf0; 0; 0; 0; 0;
   0] in
  match nit_parse (range m 8 (sec_len m - 9)) with
  | Some (ds, l, es) => exists m' part2, dvb_nit_section_codec m = Ret tt m' /\
      dvb_nit_section_descriptors_for_each m' = Ret ds m' /\
      dvb_nit_section_part2 m' = Ret part2 m' /\
      transport_stream_loop_length part2 m' = Ret l m' /\
      (part2 + 2 + l = sec_len m - 1 -> dvb_nit_section_transports_for_each m' = Ret es m')
  | None => exists m', dvb_nit_section_codec m = Null m'
  end.
Proof.
  intros m. apply (nit_codec_correct dvb_nit_section_codec m); [left; reflexivity|split; [repeat constructor; lia|vm_compute; congruence]|vm_compute; congruence].
Defined.
