(* ===== verification/AtscText.v ===== *)
(** * libucsi/atsc: multiple string structures

    [atsc_text_validate] of types.c, the check the ATSC codecs apply to every text they meet, with
    the grammar it decides; and the two times of types.c. *)

From S2P Require Export CMem.

(** ** The code *)

(** The inner loop of [atsc_text_validate]; its result [None] is [return -1]. *)
Definition validate_segment (base len number_segments : Z) (s : Z * Z) :
    M (Z * Z + option Z) :=
  let '(j, pos) := s in
  if j <? number_segments then
    if len <? pos + 3 then mret (inr None)
    else
      number_bytes ← ld8 (base + pos + 2);
      let pos := pos + 3 in
      if len <? pos + number_bytes then mret (inr None)
      else mret (inl (j + 1, pos + number_bytes))
  else mret (inr (Some pos)).

Definition validate_string (base len number_strings : Z) (s : Z * Z) : M (Z * Z + Z) :=
  let '(i, pos) := s in
  if i <? number_strings then
    if len <? pos + 4 then mret (inr (-1))
    else
      number_segments ← ld8 (base + pos + 3);
      r ← iter (validate_segment base len number_segments) (0, pos + 4);
      match r with
      | None => mret (inr (-1))
      | Some pos => mret (inl (i + 1, pos))
      end
  else mret (inr 0).

(** [atsc_text_validate(buf, len)], [buf] at offset [base]. *)
Definition atsc_text_validate (base len : Z) : M Z :=
  if len =? 0 then mret 0
  else
    number_strings ← ld8 base;
    iter (validate_string base len number_strings) (0, 1).

Definition GPS_EPOCH : Z := 315964800.

(** [time_t] is 64 bits, [atsctime_t] 32. *)
Definition atsctime_to_unixtime (atsc : Z) : Z := atsc + GPS_EPOCH.
Definition unixtime_to_atsctime (t : Z) : Z := u32 (t - GPS_EPOCH).

(** ** Specification: the grammar of a text *)

Record text_segment := TextSegment {
  seg_compression_type : Z;
  seg_mode : Z;
  seg_bytes : list Z;
}.

Record text_string := TextString {
  str_language : list Z;
  str_segments : list text_segment;
}.

Fixpoint parse_segments (n : nat) (bs : list Z) : option (list text_segment * list Z) :=
  match n with
  | O => Some ([], bs)
  | S n' =>
      match bs with
      | ct :: md :: nb :: rest =>
          if nb <=? zlen rest then
            '(ss, tl) ← parse_segments n' (drop (Z.to_nat nb) rest);
            Some (TextSegment ct md (take (Z.to_nat nb) rest) :: ss, tl)
          else None
      | _ => None
      end
  end.

Fixpoint parse_strings (n : nat) (bs : list Z) : option (list text_string * list Z) :=
  match n with
  | O => Some ([], bs)
  | S n' =>
      match bs with
      | l0 :: l1 :: l2 :: ns :: rest =>
          '(ss, tl) ← parse_segments (Z.to_nat ns) rest;
          '(strs, tl) ← parse_strings n' tl;
          Some (TextString [l0; l1; l2] ss :: strs, tl)
      | _ => None
      end
  end.

(** A text, and the bytes after it; no bytes at all are an empty text. *)
Definition parse_text (bs : list Z) : option (list text_string * list Z) :=
  match bs with
  | [] => Some ([], [])
  | ns :: rest => parse_strings (Z.to_nat ns) rest
  end.

Definition encode_segment (s : text_segment) : list Z :=
  [seg_compression_type s; seg_mode s; zlen (seg_bytes s)] ++ seg_bytes s.

Definition encode_string (s : text_string) : list Z :=
  str_language s ++ [zlen (str_segments s)] ++ (str_segments s ≫= encode_segment).

Definition encode_text (t : list text_string) : list Z := zlen t :: (t ≫= encode_string).

Lemma parse_segments_encode ss tl :
  parse_segments (length ss) ((ss ≫= encode_segment) ++ tl) = Some (ss, tl).
Proof.
  induction ss as [|[ct md bs] ss IH]; [done|].
  cbn [length parse_segments mbind list_bind encode_segment seg_compression_type seg_mode
    seg_bytes app]. rewrite <- app_assoc.
  rewrite (proj2 (Z.leb_le _ _)) by (rewrite length_app; lia).
  rewrite Nat2Z.id, drop_app_length, take_app_length. cbn in IH |- *. by rewrite IH.
Qed.

Lemma parse_strings_encode t tl :
  Forall (fun s => length (str_language s) = 3%nat) t ->
  parse_strings (length t) ((t ≫= encode_string) ++ tl) = Some (t, tl).
Proof.
  induction 1 as [|[lang ss] t Hl _ IH]; [done|].
  destruct lang as [|l0 [|l1 [|l2 [|]]]]; try done.
  cbn [length parse_strings mbind list_bind encode_string str_language str_segments app].
  rewrite <- app_assoc, Nat2Z.id. pose proof (parse_segments_encode ss) as Hs.
  cbn in Hs, IH |- *. rewrite Hs. cbn. by rewrite IH.
Qed.

(** ** atsc_text_validate decides the grammar *)

Section Validate.
Context (m : mem) (base len : Z) (Hb : Forall byte m).
Context (Hbase : 0 <= base) (Hlen : 0 <= len) (Hin : base + len <= zlen m).

Let tail (pos : Z) : list Z := range m (base + pos) (len - pos).

Lemma text_byte p : 0 <= p < len ->
  exists b, byte b /\ ld8 (base + p) m = Ret b m /\ tail p = b :: tail (p + 1).
Proof.
  intros Hp. destruct (lookup_z_is_Some m (base + p)) as [b Hlk]; [lia|]. exists b.
  split; [by eapply lookup_z_Forall|]. split; [unfold ld8; by rewrite Hlk|].
  unfold tail. rewrite (range_cons _ _ _ b) by (done || lia). do 2 f_equal; lia.
Qed.

Lemma tail_length p : 0 <= p <= len -> zlen (tail p) = len - p.
Proof. intros. unfold tail. by rewrite range_length by lia. Qed.

Lemma tail_drop p n : 0 <= p -> 0 <= n -> drop (Z.to_nat n) (tail p) = tail (p + n).
Proof. intros. unfold tail. rewrite range_drop by lia. f_equal; lia. Qed.

(** The first [n] bytes of the rest of the text, when there are as many. *)
Lemma text_bytes p : 0 <= p -> p + 3 <= len ->
  exists b0 b1 b2, byte b2 /\ ld8 (base + p + 2) m = Ret b2 m /\
    tail p = b0 :: b1 :: b2 :: tail (p + 3).
Proof.
  intros Hp H3. destruct (text_byte p) as (b0 & _ & _ & E0); [lia|].
  destruct (text_byte (p + 1)) as (b1 & _ & _ & E1); [lia|].
  destruct (text_byte (p + 2)) as (b2 & Hb2 & R2 & E2); [lia|]. exists b0, b1, b2.
  split; [done|]. replace (base + p + 2) with (base + (p + 2)) by lia. split; [done|].
  rewrite E0, E1. replace (p + 1 + 1) with (p + 2) by lia. rewrite E2.
  by replace (p + 2 + 1) with (p + 3) by lia.
Qed.

Lemma short_tail p n : 0 <= p <= len -> len < p + n -> zlen (tail p) < n.
Proof. intros Hp Hn. rewrite tail_length; lia. Qed.

Lemma segments_loop fuel ns j pos :
  0 <= pos <= len -> 0 <= j -> len - pos < Z.of_nat fuel ->
  let r := iter_ fuel (validate_segment base len ns) (j, pos) m in
  match parse_segments (Z.to_nat (ns - j)) (tail pos) with
  | Some (_, tl) => exists pos', pos <= pos' <= len /\ tl = tail pos' /\ r = Ret (Some pos') m
  | None => r = Ret None m
  end.
Proof.
  cbv zeta. revert j pos. induction fuel as [|fuel IH]; intros j pos Hp Hj Hf; [lia|].
  destruct (Z.ltb_spec j ns) as [Hlt|Hge].
  2: { replace (Z.to_nat (ns - j)) with 0%nat by lia. cbn [parse_segments].
       exists pos. split_and!; [lia..|done|]. apply iter_done. unfold validate_segment.
       by rewrite (proj2 (Z.ltb_ge _ _)) by lia. }
  replace (Z.to_nat (ns - j)) with (S (Z.to_nat (ns - (j + 1)))) by lia.
  assert (Hbody : forall r, (if len <? pos + 3 then mret (inr None) else
      number_bytes ← ld8 (base + pos + 2);
      if len <? pos + 3 + number_bytes then mret (inr None)
      else mret (inl (j + 1, pos + 3 + number_bytes))) m = r ->
    validate_segment base len ns (j, pos) m = r).
  { intros r <-. unfold validate_segment. by rewrite (proj2 (Z.ltb_lt _ _)) by lia. }
  destruct (Z.ltb_spec len (pos + 3)) as [Hs|Hs].
  { pose proof (short_tail pos 3 Hp Hs). cbn [parse_segments].
    assert (match tail pos with _ :: _ :: _ :: _ => False | _ => True end)
      by (destruct (tail pos) as [|? [|? [|? ?]]]; simpl in *; done || lia).
    destruct (tail pos) as [|? [|? [|? ?]]]; try done; by eapply iter_done, Hbody. }
  destruct (text_bytes pos) as (b0 & b1 & nb & Hnb & R & ->); [lia..|]. unfold byte in Hnb.
  erewrite bind_run in Hbody by exact R.
  cbn [parse_segments]. rewrite tail_length by lia.
  destruct (Z.ltb_spec len (pos + 3 + nb)), (Z.leb_spec nb (len - (pos + 3))); try lia;
    [by eapply iter_done, Hbody|].
  rewrite tail_drop by lia. erewrite iter_next by by apply Hbody.
  specialize (IH (j + 1) (pos + 3 + nb) ltac:(lia) ltac:(lia) ltac:(lia)).
  destruct (parse_segments _ _) as [[ss tl]|]; cbn [mbind option_bind]; [|exact IH].
  destruct IH as (pos' & ? & ? & IH). exists pos'. split_and!; [lia..|done|exact IH].
Qed.

Lemma strings_loop fuel ns i pos :
  0 <= pos <= len -> 0 <= i -> len - pos < Z.of_nat fuel ->
  iter_ fuel (validate_string base len ns) (i, pos) m =
  Ret (match parse_strings (Z.to_nat (ns - i)) (tail pos) with Some _ => 0 | None => -1 end) m.
Proof.
  revert i pos. induction fuel as [|fuel IH]; intros i pos Hp Hi Hf; [lia|].
  destruct (Z.ltb_spec i ns) as [Hlt|Hge].
  2: { replace (Z.to_nat (ns - i)) with 0%nat by lia. apply iter_done. unfold validate_string.
       by rewrite (proj2 (Z.ltb_ge _ _)) by lia. }
  replace (Z.to_nat (ns - i)) with (S (Z.to_nat (ns - (i + 1)))) by lia.
  assert (Hbody : forall r, (if len <? pos + 4 then mret (inr (-1)) else
      number_segments ← ld8 (base + pos + 3);
      r ← iter (validate_segment base len number_segments) (0, pos + 4);
      match r with None => mret (inr (-1)) | Some pos => mret (inl (i + 1, pos)) end) m = r ->
    validate_string base len ns (i, pos) m = r).
  { intros r <-. unfold validate_string. by rewrite (proj2 (Z.ltb_lt _ _)) by lia. }
  destruct (Z.ltb_spec len (pos + 4)) as [Hs|Hs].
  { pose proof (short_tail pos 4 Hp Hs). cbn [parse_strings].
    assert (match tail pos with _ :: _ :: _ :: _ :: _ => False | _ => True end)
      by (destruct (tail pos) as [|? [|? [|? [|? ?]]]]; simpl in *; done || lia).
    destruct (tail pos) as [|? [|? [|? [|? ?]]]]; try done; by eapply iter_done, Hbody. }
  destruct (text_byte pos) as (l0 & _ & _ & ->); [lia|].
  destruct (text_bytes (pos + 1)) as (l1 & l2 & nseg & Hnb & R & ->); [lia..|].
  replace (pos + 1 + 3) with (pos + 4) by lia.
  replace (base + (pos + 1) + 2) with (base + pos + 3) in R by lia. unfold byte in Hnb.
  erewrite bind_run in Hbody by exact R. cbn [parse_strings].
  pose proof (segments_loop (S (length m)) nseg 0 (pos + 4) ltac:(lia) ltac:(lia) ltac:(lia))
    as Hseg. cbv zeta in Hseg. rewrite Z.sub_0_r in Hseg.
  destruct (parse_segments _ _) as [[ss tl]|]; cbn [mbind option_bind].
  - destruct Hseg as (pos' & Hpos' & -> & Hseg). erewrite bind_run in Hbody by exact Hseg.
    erewrite iter_next by by apply Hbody. rewrite IH by lia.
    by destruct (parse_strings _ _) as [[]|].
  - erewrite bind_run in Hbody by exact Hseg. by eapply iter_done, Hbody.
Qed.

Lemma atsc_text_validate_run :
  atsc_text_validate base len m =
  Ret (match parse_text (range m base len) with Some _ => 0 | None => -1 end) m.
Proof.
  unfold atsc_text_validate. destruct (Z.eqb_spec len 0) as [->|].
  { by rewrite range_nil by lia. }
  destruct (text_byte 0) as (ns & Hns & R & E); [lia|]. rewrite Z.add_0_r in R.
  unfold tail in E. rewrite Z.add_0_r, Z.sub_0_r in E. rewrite E.
  run by exact R. unfold iter. rewrite strings_loop by lia. cbn [parse_text].
  by rewrite Z.sub_0_r.
Qed.
End Validate.

Lemma safe_atsc_text_validate {m0 k} base len :
  0 <= base -> 0 <= len -> base + len <= zlen m0 ->
  safe m0 k (atsc_text_validate base len) (fun r => r = 0 \/ r = -1).
Proof.
  intros Hb Hl Hin m Hm. assert (Hm' := Hm). destruct Hm' as [Hlen Hbytes _].
  unfold wp. rewrite atsc_text_validate_run by (done || lia).
  split; [done|]. destruct (parse_text _); auto.
Qed.

#[export] Hint Extern 1 (safe _ _ (atsc_text_validate _ _) _) =>
  apply safe_atsc_text_validate; lia : safe.

(** [atsc_text_validate] accepts exactly the multiple string structures of A/65 that fit in the
    range, reads only inside it, and accepts whatever encoding of a text. *)
Theorem atsc_text_validate_correct m base len :
  Forall byte m -> 0 <= base -> 0 <= len -> base + len <= zlen m ->
  exists r, atsc_text_validate base len m = Ret r m /\
    (r = 0 <-> exists t, parse_text (range m base len) = Some t) /\ (r = 0 \/ r = -1) /\
    (forall t tl, Forall (fun s => length (str_language s) = 3%nat) t ->
       range m base len = encode_text t ++ tl -> r = 0).
Proof.
  intros Hb H1 H2 H3. eexists. split; [by apply atsc_text_validate_run|].
  destruct (parse_text (range m base len)) as [t|] eqn:E; split_and!.
  - split; [by exists t|done].
  - by left.
  - done.
  - by split; [|intros []].
  - by right.
  - intros t tl Hl Ht. rewrite Ht in E. unfold parse_text, encode_text in E. cbn [app] in E.
    rewrite Nat2Z.id in E. by rewrite parse_strings_encode in E.
Qed.

Lemma atsc_text_validate_correct_witness :
  let m := [1; 101; 110; 103; 1; 0; 0; 2; 72; 105] in
  exists r, atsc_text_validate 0 10 m = Ret r m /\
    (r = 0 <-> exists t, parse_text (range m 0 10) = Some t) /\ (r = 0 \/ r = -1) /\
    (forall t tl, Forall (fun s => length (str_language s) = 3%nat) t ->
       range m 0 10 = encode_text t ++ tl -> r = 0).
Proof.
  intros m. apply (atsc_text_validate_correct m 0 10); [unfold m; solve_bytes|lia|lia|cbn; lia].
Defined.
