(* ===== verification/Layout.v ===== *)
(** * Packed structures

    The structures of the library describe the wire: packed, with bit-fields that the [EBIT] macros of
    endianops.h put in the order of the wire.  On the little-endian host modelled here the macros
    reverse the fields, so a group of fields is a native integer (after [bswap*]) whose last field is
    in its lowest bits. *)

From S2P Require Export Descriptor AtscText.
From Stdlib Require Export String.
#[global] Open Scope string_scope.
#[global] Open Scope list_scope.
#[global] Open Scope Z_scope.
#[global] Open Scope dvb_scope.

(** ** The code *)

(** The groups of a structure; each field with its width in bits.  A nested structure and an array
    of bytes count as one field. *)
Definition group : Type := list (string * Z).
Definition layout : Type := list group.

Definition group_bits (g : group) : Z := foldr (λ f n, f.2 + n) 0 g.

Definition sizeof (l : layout) : Z := foldr (λ g n, group_bits g / 8 + n) 0 l.

(** The position of a field in its group: shift and width. *)
Fixpoint find_bits (g : group) (name : string) : option (Z * Z) :=
  match g with
  | [] => None
  | (f, w) :: g => if String.eqb f name then Some (group_bits g, w) else find_bits g name
  end.

(** Offset and number of bytes of the group, shift and width. *)
Fixpoint find_field (l : layout) (name : string) (off : Z) : option (Z * Z * Z * Z) :=
  match l with
  | [] => None
  | g :: l =>
      match find_bits g name with
      | Some (shift, w) => Some (off, group_bits g / 8, shift, w)
      | None => find_field l name (off + group_bits g / 8)
      end
  end.

(** [p->name] *)
Definition fld (l : layout) (name : string) (p : Z) : M Z :=
  match find_field l name 0 with
  | Some (off, n, shift, w) =>
      bs ← ld_bytes (p + off) (Z.to_nat n);
      mret (Z.land (Z.shiftr (le_combine bs) shift) (Z.ones w))
  | None => faulty OutOfBounds
  end.

(** A pointer that may be NULL, as a condition. *)
Definition is_some {A} (p : option A) : bool := match p with Some _ => true | None => false end.

(** *** descriptor.h *)

Definition struct_descriptor : layout := [[("tag", 8)]; [("len", 8)]].

(** [d->len] *)
Definition descriptor_len (d : Z) : M Z := ld8 (d + 1).

(** ** Reasoning *)

(** A descriptor at the end of a buffer, with [n] bytes after its header.  The codecs are given
    descriptors whose loop was verified, so all that lies before belongs to others. *)
Record descriptor_in (m : mem) (d n : Z) : Prop := {
  di_bytes : Forall byte m;
  di_pos : 0 <= d;
  di_len : m !z (d + 1) = Some n;
  di_size : zlen m = d + 2 + n;
}.

(** The codec reads only inside the buffer and writes only behind the header of the descriptor,
    whatever its bytes are. *)
Definition codec_safe (c : Z -> M unit) : Prop :=
  forall m d n, descriptor_in m d n -> safe m (d + 2) (c d) (λ _, True).

Lemma descriptor_in_len m d n : descriptor_in m d n -> 0 <= n < 256.
Proof. intros [Hb Hd Hn Hs]. apply (lookup_z_Forall _ _ _ _ Hb Hn). Qed.

Section Fields.
Context {m0 : mem} {k : Z}.

Lemma safe_fld l name p off n shift w b :
  find_field l name 0 = Some (off, n, shift, w) -> 2 ^ w = b -> 0 <= w ->
  0 <= p + off -> 0 <= n -> p + off + n <= zlen m0 ->
  safe m0 k (fld l name p) (λ v, 0 <= v < b).
Proof.
  intros Hf <- Hw Hp Hn Hl. unfold fld. rewrite Hf.
  eapply safe_bind; [apply safe_ld_bytes; lia|]. intros bs [_ Hb]. apply safe_ret.
  rewrite Z.land_ones by done. apply Z.mod_pos_bound. by apply Z.pow_pos_nonneg.
Qed.

Lemma safe_descriptor_len d n :
  m0 !z (d + 1) = Some n -> d + 2 <= k -> safe m0 k (descriptor_len d) (λ l, l = n).
Proof. intros Hn Hk. apply safe_ld8_prefix; [done|lia]. Qed.

Lemma safe_bswap40 p : 0 <= p -> k <= p -> p + 5 <= zlen m0 -> safe m0 k (bswap40 p) (λ _, True).
Proof.
  intros Hp Hk Hn. unfold bswap40.
  repeat (eapply safe_bind; [first [apply safe_ld8|apply safe_st8]; lia|]; intros ? ?).
  apply safe_st8; lia.
Qed.

Lemma safe_bswap48 p : 0 <= p -> k <= p -> p + 6 <= zlen m0 -> safe m0 k (bswap48 p) (λ _, True).
Proof.
  intros Hp Hk Hn. unfold bswap48.
  repeat (eapply safe_bind; [first [apply safe_ld8|apply safe_st8]; lia|]; intros ? ?).
  apply safe_st8; lia.
Qed.

Lemma safe_assoc {A B C} (c : M A) (f : A -> M B) (g : B -> M C) R :
  safe m0 k (c ≫= λ a, f a ≫= g) R -> safe m0 k ((c ≫= f) ≫= g) R.
Proof.
  intros H m Hm. specialize (H m Hm). unfold wp, mbind, M_bind in *. by destruct (c m).
Qed.

Lemma safe_ret_bind {A B} (a : A) (f : A -> M B) R :
  safe m0 k (f a) R -> safe m0 k (mret a ≫= f) R.
Proof. done. Qed.

(** [while (pos < len)]: an invariant of the position, which grows. *)
Lemma safe_pos_while {A} (J : Z -> Prop) len (body : Z -> M Z) p (f : Z -> M A) R :
  J p -> len <= zlen m0 -> (forall pos, J pos -> 0 <= pos) ->
  (forall pos, J pos -> pos < len -> safe m0 k (body pos) (λ pos', J pos' /\ pos < pos')) ->
  (forall pos, J pos -> len <= pos -> safe m0 k (f pos) R) ->
  safe m0 k (while (λ pos, mret (pos <? len)) body p ≫= f) R.
Proof.
  intros Hp Hl H0 Hbody Hf. eapply safe_bind with (Q := λ pos, J pos /\ len <= pos).
  2: { intros pos [HJ Hle]. by apply Hf. }
  apply (safe_while J (λ pos, Z.min pos (Z.max len 0))); [|intros pos HJ|done].
  - intros pos HJ. pose proof (H0 pos HJ). lia.
  - apply safe_ret. destruct (Z.ltb_spec pos len); [|done].
    eapply safe_mono; [by apply Hbody|]. intros pos' [HJ' Hlt]. split; [done|].
    pose proof (H0 pos HJ). lia.
Qed.

(** The condition reads the length again on each round. *)
Lemma safe_load_while {A} (J : Z -> Prop) (ld : M Z) v (body : Z -> M Z) p (f : Z -> M A) R :
  safe m0 k ld (λ w, w = v) ->
  J p -> v <= zlen m0 -> (forall pos, J pos -> 0 <= pos) ->
  (forall pos, J pos -> pos < v -> safe m0 k (body pos) (λ pos', J pos' /\ pos < pos')) ->
  (forall pos, J pos -> v <= pos -> safe m0 k (f pos) R) ->
  safe m0 k (while (λ pos, w ← ld; mret (pos <? w)) body p ≫= f) R.
Proof.
  intros Hld Hp Hl H0 Hbody Hf. eapply safe_bind with (Q := λ pos, J pos /\ v <= pos).
  2: { intros pos [HJ Hle]. by apply Hf. }
  apply (safe_while J (λ pos, Z.min pos (Z.max v 0))); [|intros pos HJ|done].
  - intros pos HJ. pose proof (H0 pos HJ). lia.
  - eapply safe_bind; [exact Hld|]. intros w ->.
    apply safe_ret. destruct (Z.ltb_spec pos v); [|done].
    eapply safe_mono; [by apply Hbody|]. intros pos' [HJ' Hlt]. split; [done|].
    pose proof (H0 pos HJ). lia.
Qed.

(** [for (idx = 0; idx < count; idx++)], over entries from [pos] on. *)
Lemma safe_count_while {A} (J : Z -> Prop) (ld : M Z) (body : Z * Z -> M (Z * Z)) p i
    (f : Z * Z -> M A) R :
  safe m0 k ld (λ _, True) ->
  J p -> (forall pos, J pos -> 0 <= pos <= zlen m0) ->
  (forall pos idx, J pos -> safe m0 k (body (pos, idx)) (λ '(pos', _), J pos' /\ pos < pos')) ->
  (forall pos idx, J pos -> safe m0 k (f (pos, idx)) R) ->
  safe m0 k (while (λ '(pos, idx), w ← ld; mret (idx <? w)) body (p, i) ≫= f) R.
Proof.
  intros Hld Hp H0 Hbody Hf. eapply safe_bind with (Q := λ s, J s.1).
  2: { intros [pos idx] HJ. by apply Hf. }
  apply (safe_while (λ s, J s.1) fst); [|intros [pos idx] HJ|done].
  - intros [pos idx] HJ. by apply H0.
  - eapply safe_bind; [exact Hld|]. intros w _.
    apply safe_ret. destruct (idx <? w); [|done].
    eapply safe_mono; [by apply Hbody|]. by intros [pos' idx'] ?.
Qed.

Lemma frame_trans m m' k' :
  k <= k' -> frame m0 k m -> frame m k' m' -> frame m0 k m'.
Proof.
  intros Hk [Hl Hb Hp] [Hl' Hb' Hp']. split; [congruence|done|].
  intros i Hi. rewrite Hp' by lia. auto.
Qed.

(** From here on, more of the buffer is left alone. *)
Lemma safe_rebase {A} k' (c : M A) Q :
  k <= k' -> (forall m, frame m0 k m -> safe m k' c Q) -> safe m0 k c Q.
Proof.
  intros Hk Hc m Hm. eapply wp_mono; [by apply (Hc m Hm m), frame_refl, Hm| |].
  - intros a m' [Hm' Ha]. split; [|done]. by eapply frame_trans.
  - intros m' Hm'. by eapply frame_trans.
Qed.

(** What lies there is read again as the same value. *)
Lemma ld_bytes_prefix p n :
  Forall byte m0 -> 0 <= p -> p + Z.of_nat n <= k -> p + Z.of_nat n <= zlen m0 ->
  exists bs, Forall byte bs /\ safe m0 k (ld_bytes p n) (λ w, w = bs).
Proof.
  intros Hb. revert p. induction n as [|n IH]; intros p Hp Hk Hl.
  { exists []. split; [constructor|by apply safe_ret]. }
  destruct (lookup_z_is_Some m0 p) as [b Eb]; [lia|].
  destruct (IH (p + 1)) as (bs & Hbs & Hs); [lia..|]. exists (b :: bs). split.
  - constructor; [by apply (lookup_z_Forall _ _ _ _ Hb Eb)|done].
  - cbn [ld_bytes]. eapply safe_bind; [apply (safe_ld8_prefix p b Eb); lia|]. intros ? ->.
    eapply safe_bind; [exact Hs|]. intros ? ->. by apply safe_ret.
Qed.

Lemma fld_prefix l name p off n shift w b :
  find_field l name 0 = Some (off, n, shift, w) -> 2 ^ w = b -> 0 <= w ->
  Forall byte m0 -> 0 <= p + off -> 0 <= n -> p + off + n <= k -> p + off + n <= zlen m0 ->
  exists v, 0 <= v < b /\ safe m0 k (fld l name p) (λ u, u = v).
Proof.
  intros Hf <- Hw Hb Hp Hn Hk Hl.
  destruct (ld_bytes_prefix (p + off) (Z.to_nat n) Hb) as (bs & Hbs & Hs); [lia..|].
  exists (Z.land (Z.shiftr (le_combine bs) shift) (Z.ones w)). split.
  - rewrite Z.land_ones by done. apply Z.mod_pos_bound. by apply Z.pow_pos_nonneg.
  - unfold fld. rewrite Hf. eapply safe_bind; [exact Hs|]. intros ? ->. by apply safe_ret.
Qed.

Lemma ld8_prefix p :
  Forall byte m0 -> 0 <= p < k -> p < zlen m0 ->
  exists v, 0 <= v < 256 /\ safe m0 k (ld8 p) (λ u, u = v).
Proof.
  intros Hb Hp Hl. destruct (lookup_z_is_Some m0 p) as [v Ev]; [lia|]. exists v. split.
  - apply (lookup_z_Forall _ _ _ _ Hb Ev).
  - apply safe_ld8_prefix; [done|lia].
Qed.
End Fields.

Lemma frame_weaken m0 k k' m : frame m0 k m -> k' <= k -> frame m0 k' m.
Proof. intros [Hl Hb Hp] Hk. split; [done..|]. intros i Hi. apply Hp. lia. Qed.

(** After [safe_rebase], the descriptor is still there. *)
Lemma frame_descriptor m0 d n m :
  frame m0 (d + 2) m -> m0 !z (d + 1) = Some n ->
  Forall byte m /\ m !z (d + 1) = Some n /\ zlen m = zlen m0.
Proof. intros [Hl Hb Hp] Hn. split_and!; [done| |lia]. rewrite Hp by lia. done. Qed.

(** A remaining length below zero wraps, and is then no multiple. *)
Lemma no_wrap_mod n s :
  0 <= n < 256 -> s = 2 \/ s = 4 -> u32 (n - 1) mod s = 0 -> 1 <= n /\ (n - 1) mod s = 0.
Proof.
  intros Hn Hs Hm. destruct (decide (n = 0)) as [-> |].
  - by destruct Hs as [-> | ->].
  - rewrite u32_id in Hm by lia. split; [lia|done].
Qed.

#[export] Hint Extern 1 (safe _ _ (bswap40 _) _) => apply safe_bswap40; lia : safe.
#[export] Hint Extern 1 (safe _ _ (bswap48 _) _) => apply safe_bswap48; lia : safe.
#[export] Hint Extern 1 (safe _ _ (descriptor_len _) _) =>
  eapply safe_descriptor_len; [eassumption|lia] : safe.

Ltac use_fld :=
  match goal with
  | |- safe _ _ (fld ?l ?name ?p) _ =>
      let r := eval vm_compute in (find_field l name 0) in
      match r with
      | Some (?off, ?n, ?shift, ?w) =>
          let b := eval vm_compute in (2 ^ w) in
          apply (safe_fld l name p off n shift w b); [reflexivity|reflexivity|lia..]
      end
  end.
#[export] Hint Extern 1 (safe _ _ (fld _ _ _) _) => use_fld : safe.

(** Sizes of structures as numbers. *)
Ltac sizes :=
  repeat match goal with
  | |- context [sizeof ?l] => let v := eval vm_compute in (sizeof l) in change (sizeof l) with v
  end.

(** The first action of the code; conditionals are followed into both branches. *)
Ltac code_step :=
  cbv beta iota zeta;
  lazymatch goal with
  | |- safe _ _ ((if ?b then _ else _) ≫= _) _ => destruct b eqn:?; bool_facts
  | |- safe _ _ ((_ ≫= _) ≫= _) _ => apply safe_assoc
  | |- safe _ _ (mret _ ≫= _) _ => apply safe_ret_bind
  | |- safe _ _ (while _ _ _ ≫= _) _ => fail
  | |- safe _ _ (_ ≫= _) _ => eapply safe_bind; [solve [eauto 2 with safe]|]; safe_intro; subst
  | |- safe _ _ (if ?b then _ else _) _ => destruct b eqn:?; bool_facts
  | |- safe _ _ (mret _) _ => apply safe_ret; first [exact I|idtac]
  | |- safe _ _ _ (λ _, True) => eapply safe_mono; [solve [eauto 2 with safe]|done]
  end.

Ltac code_steps := repeat code_step.

(** A loop over entries of [s] bytes, of which the length is a multiple. *)
Ltac entry_loop s :=
  match goal with
  | H : ?n mod s = 0 |- safe _ _ (while _ _ ?p ≫= _) _ =>
      let q := fresh "q" in let i := fresh "i" in let E := fresh "E" in
      apply Z.mod_divide in H as [q H]; [|done];
      apply (safe_pos_while (λ pos, exists i, 0 <= i /\ pos = p + i * s));
      [exists 0; lia|lia|intros pos (i & ? & ->); lia
      |intros pos (i & ? & ->) E; code_steps; try (split; [exists (i + 1)|]; lia)|intros; code_steps]
  end.

(** A loop whose body checks the position against the length. *)
Ltac checked_loop :=
  match goal with
  | |- safe _ _ (while (λ pos, mret (pos <? ?len)) _ ?p ≫= _) _ =>
      let E := fresh "E" in
      apply (safe_pos_while (λ pos, 0 <= pos <= len));
      [lia|lia|intros; lia|intros pos ? E; code_steps; try (split; lia)|intros; code_steps]
  end.

(** Leave alone all that is before [k], for the rest of the code. *)
Ltac rebase k :=
  lazymatch goal with
  | Hn : ?m0 !z (?d + 1) = Some ?n |- safe ?m0 _ _ _ =>
      apply (safe_rebase k); [lia|];
      let m1 := fresh "m1" in let Hm := fresh "Hm" in
      let Hb := fresh "Hb" in let Hl := fresh "Hl" in let H' := fresh "Hn" in
      intros m1 Hm;
      destruct (frame_descriptor m0 d n m1) as (Hb & H' & Hl);
      [apply (frame_weaken _ _ _ _ Hm); lia|exact Hn|clear Hm]
  end.

(** The field, or the byte, is known from here on. *)
Ltac know_fld l name p v :=
  let r := eval vm_compute in (find_field l name 0) in
  match r with
  | Some (?off, ?n, ?shift, ?w) =>
      let b := eval vm_compute in (2 ^ w) in
      let Hv := fresh "Hv" in let Hs := fresh "Hs" in
      match goal with
      | |- safe ?m ?k _ _ =>
          destruct (fld_prefix (m0 := m) (k := k) l name p off n shift w b) as (v & Hv & Hs);
          [reflexivity|reflexivity|lia|assumption|lia..|]
      end
  end.
Ltac know_ld8 p v :=
  let Hv := fresh "Hv" in let Hs := fresh "Hs" in
  match goal with
  | |- safe ?m ?k _ _ =>
      destruct (ld8_prefix (m0 := m) (k := k) p) as (v & Hv & Hs); [assumption|lia..|]
  end.
#[export] Hint Extern 0 (safe _ _ _ _) => eassumption : safe.

Ltac codec_start c :=
  let m := fresh "m" in let d := fresh "d" in let n := fresh "n" in let H := fresh "Hin" in
  intros m d n H; pose proof (descriptor_in_len _ _ _ H); destruct H as [? ? ? ?];
  unfold c; sizes.

Tactic Notation "codec" constr(c) := codec_start c; code_steps; try done.
