(* ===== verification/MpegDescriptors.v ===== *)
(** * libucsi/mpeg: the descriptors of ISO 13818-1

    The structures, the [*_descriptor_codec] functions, which check a descriptor and convert it to
    host byte order in place, and the accessors and iterators of the optional parts.  A pointer is a
    position in the buffer; [None] is NULL. *)

From S2P Require Export Layout.

(** *** audio_stream_descriptor.h *)

Definition struct_mpeg_audio_stream_descriptor : layout :=
  [[("d", 16)]; [("free_format_flag", 1); ("id", 1); ("layer", 2);
    ("variable_rate_audio_indicator", 1); ("reserved", 3)]].

Definition mpeg_audio_stream_descriptor_codec (d : Z) : M unit :=
  len ← descriptor_len d;
  reject_if (negb (len =? sizeof struct_mpeg_audio_stream_descriptor - 2)).

(** *** ca_descriptor.h *)

Definition struct_mpeg_ca_descriptor : layout :=
  [[("d", 16)]; [("ca_system_id", 16)]; [("reserved", 3); ("ca_pid", 13)]].

Definition mpeg_ca_descriptor_codec (d : Z) : M unit :=
  len ← descriptor_len d;
  reject_if (len <? sizeof struct_mpeg_ca_descriptor - 2);;
  bswap16 (d + 2);;
  bswap16 (d + 4).

Definition mpeg_ca_descriptor_data (d : Z) : Z := d + sizeof struct_mpeg_ca_descriptor.

Definition mpeg_ca_descriptor_data_length (d : Z) : M Z :=
  len ← descriptor_len d;
  mret (len - 4).

(** *** content_labelling_descriptor.h *)

Definition struct_mpeg_content_labelling_descriptor : layout :=
  [[("d", 16)]; [("metadata_application_format", 16)]].
Definition struct_mpeg_content_labelling_descriptor_application_format_identifier : layout :=
  [[("id", 32)]].
Definition struct_mpeg_content_labelling_descriptor_flags : layout :=
  [[("content_reference_id_record_flag", 1); ("content_time_base_indicator", 4);
    ("reserved", 3)]].
Definition struct_mpeg_content_labelling_descriptor_reference_id : layout :=
  [[("content_reference_id_record_length", 8)]].
Definition struct_mpeg_content_labelling_descriptor_time_base : layout :=
  [[("reserved_1", 7); ("content_time_base_value", 33)]; [("reserved_2", 7);
    ("metadata_time_base_value", 33)]].
Definition struct_mpeg_content_labelling_descriptor_content_id : layout :=
  [[("reserved", 1); ("contentId", 7)]].
Definition struct_mpeg_content_labelling_descriptor_time_base_association : layout :=
  [[("time_base_association_data_length", 8)]].

Definition mpeg_content_labelling_descriptor_codec (d : Z) : M unit :=
  let pos := 2 in
  len ← descriptor_len d;
  let len := len + 2 in
  reject_if (len <? sizeof struct_mpeg_content_labelling_descriptor);;
  bswap16 (d + pos);;
  id ← ld16 (d + pos);
  let pos := pos + 2 in
  pos ← (if id =? 0xffff then
    reject_if (len <? pos + 4);;
    bswap32 (d + pos);;
    mret (pos + 4)
  else mret pos);
  reject_if (len <? pos + sizeof struct_mpeg_content_labelling_descriptor_flags);;
  let flags := d + pos in
  let pos := pos + sizeof struct_mpeg_content_labelling_descriptor_flags in
  content_reference_id_record_flag ←
    fld struct_mpeg_content_labelling_descriptor_flags "content_reference_id_record_flag" flags;
  pos ← (if content_reference_id_record_flag =? 1 then
    reject_if (len <? pos + 1);;
    b ← ld8 (d + pos);
    reject_if (len <? pos + 1 + b);;
    b ← ld8 (d + pos);
    mret (pos + 1 + b)
  else mret pos);
  content_time_base_indicator ←
    fld struct_mpeg_content_labelling_descriptor_flags "content_time_base_indicator" flags;
  pos ← (if (content_time_base_indicator =? 1) || (content_time_base_indicator =? 2) then
    reject_if (len <? pos + sizeof struct_mpeg_content_labelling_descriptor_time_base);;
    bswap40 (d + pos);;
    bswap40 (d + pos + 5);;
    mret (pos + sizeof struct_mpeg_content_labelling_descriptor_time_base)
  else mret pos);
  content_time_base_indicator ←
    fld struct_mpeg_content_labelling_descriptor_flags "content_time_base_indicator" flags;
  pos ← (if content_time_base_indicator =? 2 then
    reject_if (len <? pos + sizeof struct_mpeg_content_labelling_descriptor_content_id);;
    mret (pos + sizeof struct_mpeg_content_labelling_descriptor_content_id)
  else mret pos);
  content_time_base_indicator ←
    fld struct_mpeg_content_labelling_descriptor_flags "content_time_base_indicator" flags;
  pos ← (if 2 <? content_time_base_indicator then
    reject_if (len <? pos + 1);;
    b ← ld8 (d + pos);
    reject_if (len <? pos + 1 + b);;
    b ← ld8 (d + pos);
    mret (pos + 1 + b)
  else mret pos);
  reject_if (len <? pos).

Definition mpeg_content_labelling_descriptor_id (d : Z) : M (option Z) :=
  metadata_application_format ←
    fld struct_mpeg_content_labelling_descriptor "metadata_application_format" d;
  if negb (metadata_application_format =? 0xffff) then mret None
  else mret (Some (d + sizeof struct_mpeg_content_labelling_descriptor)).

Definition mpeg_content_labelling_descriptor_flags (d : Z) : M Z :=
  let buf := d + sizeof struct_mpeg_content_labelling_descriptor in
  metadata_application_format ←
    fld struct_mpeg_content_labelling_descriptor "metadata_application_format" d;
  mret (if negb (metadata_application_format =? 0xffff) then buf + 4 else buf).

Definition mpeg_content_labelling_descriptor_reference_id (flags : Z) : M (option Z) :=
  let buf := flags + sizeof struct_mpeg_content_labelling_descriptor_flags in
  content_reference_id_record_flag ←
    fld struct_mpeg_content_labelling_descriptor_flags "content_reference_id_record_flag" flags;
  if negb (content_reference_id_record_flag =? 1) then mret None else mret (Some buf).

Definition mpeg_content_reference_id_data (d : Z) : Z :=
  d + sizeof struct_mpeg_content_labelling_descriptor_reference_id.

Definition mpeg_content_labelling_descriptor_time_base (flags : Z) : M (option Z) :=
  let buf := flags + sizeof struct_mpeg_content_labelling_descriptor_flags in
  content_time_base_indicator ←
    fld struct_mpeg_content_labelling_descriptor_flags "content_time_base_indicator" flags;
  if negb (content_time_base_indicator =? 1) && negb (content_time_base_indicator =? 2) then
    mret None
  else
    content_reference_id_record_flag ←
      fld struct_mpeg_content_labelling_descriptor_flags "content_reference_id_record_flag" flags;
    buf ← (if content_reference_id_record_flag =? 1 then
      b ← ld8 (buf + 1);
      mret (buf + 1 + b)
    else mret buf);
    mret (Some buf).

Definition mpeg_content_labelling_descriptor_content_id (flags : Z) : M (option Z) :=
  let buf := flags + sizeof struct_mpeg_content_labelling_descriptor_flags in
  content_time_base_indicator ←
    fld struct_mpeg_content_labelling_descriptor_flags "content_time_base_indicator" flags;
  if negb (content_time_base_indicator =? 2) then mret None
  else
    content_reference_id_record_flag ←
      fld struct_mpeg_content_labelling_descriptor_flags "content_reference_id_record_flag" flags;
    buf ← (if content_reference_id_record_flag =? 1 then
      b ← ld8 (buf + 1);
      mret (buf + 1 + b)
    else mret buf);
    content_time_base_indicator ←
      fld struct_mpeg_content_labelling_descriptor_flags "content_time_base_indicator" flags;
    let buf :=
      if (content_time_base_indicator =? 1) || (content_time_base_indicator =? 2)
      then buf + sizeof struct_mpeg_content_labelling_descriptor_time_base
      else buf in
    mret (Some buf).

Definition mpeg_content_labelling_descriptor_time_base_assoc (flags : Z) : M (option Z) :=
  let buf := flags + sizeof struct_mpeg_content_labelling_descriptor_flags in
  content_time_base_indicator ←
    fld struct_mpeg_content_labelling_descriptor_flags "content_time_base_indicator" flags;
  if content_time_base_indicator <? 3 then mret None
  else
    content_reference_id_record_flag ←
      fld struct_mpeg_content_labelling_descriptor_flags "content_reference_id_record_flag" flags;
    buf ← (if content_reference_id_record_flag =? 1 then
      b ← ld8 (buf + 1);
      mret (buf + 1 + b)
    else mret buf);
    content_time_base_indicator ←
      fld struct_mpeg_content_labelling_descriptor_flags "content_time_base_indicator" flags;
    let buf :=
      if (content_time_base_indicator =? 1) || (content_time_base_indicator =? 2)
      then buf + sizeof struct_mpeg_content_labelling_descriptor_time_base
      else buf in
    content_time_base_indicator ←
      fld struct_mpeg_content_labelling_descriptor_flags "content_time_base_indicator" flags;
    let buf :=
      if content_time_base_indicator =? 2
      then buf + sizeof struct_mpeg_content_labelling_descriptor_content_id
      else buf in
    mret (Some buf).

Definition mpeg_time_base_association_data (d : Z) : Z :=
  d + sizeof struct_mpeg_content_labelling_descriptor_time_base_association.

Definition mpeg_content_labelling_descriptor_data (d flags : Z) : M (Z * Z) :=
  let buf := flags + sizeof struct_mpeg_content_labelling_descriptor_flags in
  len ← descriptor_len d;
  let end_ := d + len + 2 in
  content_reference_id_record_flag ←
    fld struct_mpeg_content_labelling_descriptor_flags "content_reference_id_record_flag" flags;
  buf ← (if content_reference_id_record_flag =? 1 then
    b ← ld8 (buf + 1);
    mret (buf + 1 + b)
  else mret buf);
  content_time_base_indicator ←
    fld struct_mpeg_content_labelling_descriptor_flags "content_time_base_indicator" flags;
  let buf :=
    if (content_time_base_indicator =? 1) || (content_time_base_indicator =? 2)
    then buf + sizeof struct_mpeg_content_labelling_descriptor_time_base
    else buf in
  content_time_base_indicator ←
    fld struct_mpeg_content_labelling_descriptor_flags "content_time_base_indicator" flags;
  let buf :=
    if content_time_base_indicator =? 2
    then buf + sizeof struct_mpeg_content_labelling_descriptor_content_id
    else buf in
  content_time_base_indicator ←
    fld struct_mpeg_content_labelling_descriptor_flags "content_time_base_indicator" flags;
  buf ← (if content_time_base_indicator <? 3 then
    b ← ld8 (buf + 1);
    mret (buf + 1 + b)
  else mret buf);
  let length := end_ - buf in
  mret (buf, length).

(** *** copyright_descriptor.h *)

Definition struct_mpeg_copyright_descriptor : layout :=
  [[("d", 16)]; [("copyright_identifier", 32)]].

Definition mpeg_copyright_descriptor_codec (d : Z) : M unit :=
  len ← descriptor_len d;
  reject_if (len <? sizeof struct_mpeg_copyright_descriptor - 2);;
  bswap32 (d + 2).

Definition mpeg_copyright_descriptor_data (d : Z) : Z :=
  d + sizeof struct_mpeg_copyright_descriptor.

Definition mpeg_copyright_descriptor_data_length (d : Z) : M Z :=
  len ← descriptor_len d;
  mret (len - 4).

(** *** data_stream_alignment_descriptor.h *)

Definition struct_mpeg_data_stream_alignment_descriptor : layout :=
  [[("d", 16)]; [("alignment_type", 8)]].

Definition mpeg_data_stream_alignment_descriptor_codec (d : Z) : M unit :=
  len ← descriptor_len d;
  reject_if (negb (len =? sizeof struct_mpeg_data_stream_alignment_descriptor - 2)).

(** *** external_es_id_descriptor.h *)

Definition struct_mpeg_external_es_id_descriptor : layout :=
  [[("d", 16)]; [("external_es_id", 16)]].

Definition mpeg_external_es_id_descriptor_codec (d : Z) : M unit :=
  len ← descriptor_len d;
  reject_if (negb (len =? sizeof struct_mpeg_external_es_id_descriptor - 2));;
  bswap16 (d + 2).

(** *** fmc_descriptor.h *)

Definition struct_mpeg_fmc_descriptor : layout := [[("d", 16)]].
Definition struct_mpeg_flex_mux : layout := [[("es_id", 16)]; [("flex_mux_channel", 8)]].

Definition mpeg_fmc_descriptor_codec (d : Z) : M unit :=
  let buf := d + 2 in
  let pos := 0 in
  len ← descriptor_len d;
  reject_if (negb (len mod sizeof struct_mpeg_flex_mux =? 0));;
  _ ← while (fun pos => mret (pos <? len)) (fun pos =>
    bswap16 (buf + pos);;
    mret (pos + sizeof struct_mpeg_flex_mux)) pos;
  mret tt.

Definition mpeg_fmc_descriptor_muxes_first (d : Z) : M (option Z) :=
  len ← descriptor_len d;
  if len <? sizeof struct_mpeg_flex_mux then mret None
  else mret (Some (d + sizeof struct_mpeg_fmc_descriptor)).

Definition mpeg_fmc_descriptor_muxes_next (d pos : Z) : M (option Z) :=
  len ← descriptor_len d;
  let end_ := d + 2 + len in
  let next := pos + sizeof struct_mpeg_flex_mux in
  if end_ <=? next then mret None else mret (Some next).

(** *** fmxbuffer_size_descriptor.h *)

Definition struct_mpeg_fmxbuffer_size_descriptor : layout := [[("d", 16)]].

Definition mpeg_fmxbuffer_size_descriptor_codec (d : Z) : M unit := mret tt.

Definition mpeg_fmxbuffer_size_descriptor_descriptors (d : Z) : Z :=
  d + sizeof struct_mpeg_fmxbuffer_size_descriptor.

Definition mpeg_fmxbuffer_size_descriptor_descriptors_length (d : Z) : M Z :=
  len ← descriptor_len d;
  mret len.

(** *** hierarchy_descriptor.h *)

Definition struct_mpeg_hierarchy_descriptor : layout :=
  [[("d", 16)]; [("reserved_1", 4); ("hierarchy_type", 4)]; [("reserved_2", 2);
    ("hierarchy_layer_index", 6)]; [("reserved_3", 2); ("hierarchy_embedded_layer_index", 6)];
   [("reserved_4", 2); ("hierarchy_channel", 6)]].

Definition mpeg_hierarchy_descriptor_codec (d : Z) : M unit :=
  len ← descriptor_len d;
  reject_if (negb (len =? sizeof struct_mpeg_hierarchy_descriptor - 2)).

(** *** ibp_descriptor.h *)

Definition struct_mpeg_ibp_descriptor : layout :=
  [[("d", 16)]; [("closed_gop_flag", 1); ("identical_gop_flag", 1); ("max_gop_length", 14)]].

Definition mpeg_ibp_descriptor_codec (d : Z) : M unit :=
  len ← descriptor_len d;
  reject_if (negb (len =? sizeof struct_mpeg_ibp_descriptor - 2));;
  bswap16 (d + 2).

(** *** iod_descriptor.h *)

Definition struct_mpeg_iod_descriptor : layout :=
  [[("d", 16)]; [("scope_of_iod_label", 8)]; [("iod_label", 8)]].

Definition mpeg_iod_descriptor_codec (d : Z) : M unit :=
  len ← descriptor_len d;
  reject_if (len <? sizeof struct_mpeg_iod_descriptor - 2).

Definition mpeg_iod_descriptor_iod (d : Z) : Z := d + sizeof struct_mpeg_iod_descriptor.

Definition mpeg_iod_descriptor_iod_length (d : Z) : M Z :=
  len ← descriptor_len d;
  mret (len - 2).

(** *** iso_639_language_descriptor.h *)

Definition struct_mpeg_iso_639_language_descriptor : layout := [[("d", 16)]].
Definition struct_mpeg_iso_639_language_code : layout :=
  [[("language_code", 24)]; [("audio_type", 8)]].

Definition mpeg_iso_639_language_descriptor_codec (d : Z) : M unit :=
  len ← descriptor_len d;
  reject_if (negb (len mod sizeof struct_mpeg_iso_639_language_code =? 0)).

Definition mpeg_iso_639_language_descriptor_languages_first (d : Z) : M (option Z) :=
  len ← descriptor_len d;
  if len <? sizeof struct_mpeg_iso_639_language_code then mret None
  else mret (Some (d + sizeof struct_mpeg_iso_639_language_descriptor)).

Definition mpeg_iso_639_language_descriptor_languages_next (d pos : Z) : M (option Z) :=
  len ← descriptor_len d;
  let end_ := d + 2 + len in
  let next := pos + sizeof struct_mpeg_iso_639_language_code in
  if end_ <=? next then mret None else mret (Some next).

(** *** maximum_bitrate_descriptor.h *)

Definition struct_mpeg_maximum_bitrate_descriptor : layout :=
  [[("d", 16)]; [("reserved", 2); ("maximum_bitrate", 22)]].

Definition mpeg_maximum_bitrate_descriptor_codec (d : Z) : M unit :=
  len ← descriptor_len d;
  reject_if (negb (len =? sizeof struct_mpeg_maximum_bitrate_descriptor - 2));;
  bswap24 (d + 2).

(** *** metadata_descriptor.h *)

Definition struct_mpeg_metadata_descriptor : layout :=
  [[("d", 16)]; [("metadata_application_format", 16)]].
Definition struct_mpeg_metadata_descriptor_application_format_identifier : layout := [[("id", 32)]].
Definition struct_mpeg_metadata_descriptor_format_identifier : layout := [[("id", 32)]].
Definition struct_mpeg_metadata_descriptor_flags : layout :=
  [[("metadata_service_id", 8)]; [("decoder_config_flags", 3); ("dsm_cc_flag", 1);
    ("reserved", 4)]].
Definition struct_mpeg_metadata_descriptor_service_identifier : layout :=
  [[("service_identification_length", 8)]].
Definition struct_mpeg_metadata_descriptor_decoder_config : layout :=
  [[("decoder_config_length", 8)]].
Definition struct_mpeg_metadata_descriptor_decoder_config_id_record : layout :=
  [[("decoder_config_id_record_length", 8)]].
Definition struct_mpeg_metadata_descriptor_decoder_config_service_id : layout :=
  [[("decoder_config_metadata_service_id", 8)]].
Definition struct_mpeg_metadata_descriptor_decoder_config_reserved : layout :=
  [[("reserved_data_length", 8)]].

Definition mpeg_metadata_descriptor_codec (d : Z) : M unit :=
  let pos := 2 in
  len ← descriptor_len d;
  let len := len + 2 in
  reject_if (len <? sizeof struct_mpeg_metadata_descriptor);;
  bswap16 (d + pos);;
  id ← ld16 (d + pos);
  let pos := pos + 2 in
  pos ← (if id =? 0xffff then
    reject_if (len <? pos + 4);;
    bswap32 (d + pos);;
    mret (pos + 4)
  else mret pos);
  reject_if (len <? pos + 1);;
  id ← ld8 (d + pos);
  let pos := pos + 1 in
  pos ← (if id =? 0xff then
    reject_if (len <? pos + 4);;
    bswap32 (d + pos);;
    mret (pos + 4)
  else mret pos);
  reject_if (len <? pos + sizeof struct_mpeg_metadata_descriptor_flags);;
  let flags := d + pos in
  let pos := pos + sizeof struct_mpeg_metadata_descriptor_flags in
  dsm_cc_flag ← fld struct_mpeg_metadata_descriptor_flags "dsm_cc_flag" flags;
  pos ← (if dsm_cc_flag =? 1 then
    reject_if (len <? pos + 1);;
    b ← ld8 (d + pos);
    reject_if (len <? pos + 1 + b);;
    b ← ld8 (d + pos);
    mret (pos + 1 + b)
  else mret pos);
  decoder_config_flags ← fld struct_mpeg_metadata_descriptor_flags "decoder_config_flags" flags;
  pos ← (if decoder_config_flags =? 1 then
    reject_if (len <? pos + 1);;
    b ← ld8 (d + pos);
    reject_if (len <? pos + 1 + b);;
    b ← ld8 (d + pos);
    mret (pos + 1 + b)
  else mret pos);
  decoder_config_flags ← fld struct_mpeg_metadata_descriptor_flags "decoder_config_flags" flags;
  pos ← (if decoder_config_flags =? 3 then
    reject_if (len <? pos + 1);;
    b ← ld8 (d + pos);
    reject_if (len <? pos + 1 + b);;
    b ← ld8 (d + pos);
    mret (pos + 1 + b)
  else mret pos);
  decoder_config_flags ← fld struct_mpeg_metadata_descriptor_flags "decoder_config_flags" flags;
  pos ← (if decoder_config_flags =? 4 then
    reject_if (len <? pos + 1);;
    mret (pos + 1)
  else mret pos);
  decoder_config_flags ← fld struct_mpeg_metadata_descriptor_flags "decoder_config_flags" flags;
  pos ← (if (decoder_config_flags =? 5) || (decoder_config_flags =? 6) then
    reject_if (len <? pos + 1);;
    b ← ld8 (d + pos);
    reject_if (len <? pos + 1 + b);;
    b ← ld8 (d + pos);
    mret (pos + 1 + b)
  else mret pos);
  reject_if (len <? pos).

Definition mpeg_metadata_descriptor_appid (d : Z) : M (option Z) :=
  let buf := d + sizeof struct_mpeg_metadata_descriptor in
  metadata_application_format ← fld struct_mpeg_metadata_descriptor "metadata_application_format" d;
  if negb (metadata_application_format =? 0xffff) then mret None else mret (Some buf).

Definition mpeg_metadata_descriptor_metadata_format (d : Z) : M Z :=
  let buf := d + sizeof struct_mpeg_metadata_descriptor in
  metadata_application_format ← fld struct_mpeg_metadata_descriptor "metadata_application_format" d;
  let buf := if metadata_application_format =? 0xffff then buf + 4 else buf in
  b ← ld8 buf;
  mret b.

Definition mpeg_metadata_descriptor_formid (d : Z) : M (option Z) :=
  let buf := d + sizeof struct_mpeg_metadata_descriptor in
  metadata_application_format ← fld struct_mpeg_metadata_descriptor "metadata_application_format" d;
  let buf := if metadata_application_format =? 0xffff then buf + 4 else buf in
  b ← ld8 buf;
  if negb (b =? 0xff) then mret None else mret (Some (buf + 1)).

Definition mpeg_metadata_descriptor_flags (d : Z) : M Z :=
  let buf := d + sizeof struct_mpeg_metadata_descriptor in
  metadata_application_format ← fld struct_mpeg_metadata_descriptor "metadata_application_format" d;
  let buf := if metadata_application_format =? 0xffff then buf + 4 else buf in
  b ← ld8 buf;
  mret (if b =? 0xff then buf + 4 else buf).

Definition mpeg_metadata_descriptor_sevice_identifier (flags : Z) : M (option Z) :=
  let buf := flags + sizeof struct_mpeg_metadata_descriptor_flags in
  dsm_cc_flag ← fld struct_mpeg_metadata_descriptor_flags "dsm_cc_flag" flags;
  if negb (dsm_cc_flag =? 1) then mret None else mret (Some buf).

Definition mpeg_metadata_descriptor_service_identifier_data (d : Z) : Z :=
  d + sizeof struct_mpeg_metadata_descriptor_service_identifier.

Definition mpeg_metadata_descriptor_decoder_config (flags : Z) : M (option Z) :=
  let buf := flags + sizeof struct_mpeg_metadata_descriptor_flags in
  decoder_config_flags ← fld struct_mpeg_metadata_descriptor_flags "decoder_config_flags" flags;
  if negb (decoder_config_flags =? 1) then mret None
  else
    dsm_cc_flag ← fld struct_mpeg_metadata_descriptor_flags "dsm_cc_flag" flags;
    buf ← (if dsm_cc_flag =? 1 then
      b ← ld8 (buf + 1);
      mret (buf + 1 + b)
    else mret buf);
    mret (Some buf).

Definition mpeg_metadata_descriptor_decoder_config_data (d : Z) : Z :=
  d + sizeof struct_mpeg_metadata_descriptor_decoder_config.

Definition mpeg_metadata_descriptor_decoder_config_id_record (flags : Z) : M (option Z) :=
  let buf := flags + sizeof struct_mpeg_metadata_descriptor_flags in
  decoder_config_flags ← fld struct_mpeg_metadata_descriptor_flags "decoder_config_flags" flags;
  if negb (decoder_config_flags =? 3) then mret None
  else
    dsm_cc_flag ← fld struct_mpeg_metadata_descriptor_flags "dsm_cc_flag" flags;
    buf ← (if dsm_cc_flag =? 1 then
      b ← ld8 (buf + 1);
      mret (buf + 1 + b)
    else mret buf);
    mret (Some buf).

Definition mpeg_metadata_descriptor_decoder_config_id_record_data (d : Z) : Z :=
  d + sizeof struct_mpeg_metadata_descriptor_decoder_config_id_record.

Definition mpeg_metadata_descriptor_decoder_config_service_id (flags : Z) : M (option Z) :=
  let buf := flags + sizeof struct_mpeg_metadata_descriptor_flags in
  decoder_config_flags ← fld struct_mpeg_metadata_descriptor_flags "decoder_config_flags" flags;
  if negb (decoder_config_flags =? 4) then mret None
  else
    dsm_cc_flag ← fld struct_mpeg_metadata_descriptor_flags "dsm_cc_flag" flags;
    buf ← (if dsm_cc_flag =? 1 then
      b ← ld8 (buf + 1);
      mret (buf + 1 + b)
    else mret buf);
    mret (Some buf).

Definition mpeg_metadata_descriptor_decoder_config_reserved (flags : Z) : M (option Z) :=
  let buf := flags + sizeof struct_mpeg_metadata_descriptor_flags in
  decoder_config_flags ← fld struct_mpeg_metadata_descriptor_flags "decoder_config_flags" flags;
  if negb (decoder_config_flags =? 5) && negb (decoder_config_flags =? 6) then mret None
  else
    dsm_cc_flag ← fld struct_mpeg_metadata_descriptor_flags "dsm_cc_flag" flags;
    buf ← (if dsm_cc_flag =? 1 then
      b ← ld8 (buf + 1);
      mret (buf + 1 + b)
    else mret buf);
    mret (Some buf).

Definition mpeg_metadata_descriptor_decoder_config_reserved_data (d : Z) : Z :=
  d + sizeof struct_mpeg_metadata_descriptor_decoder_config_reserved.

Definition mpeg_metadata_descriptor_private_data (d flags : Z) : M (Z * Z) :=
  let buf := flags + sizeof struct_mpeg_metadata_descriptor_flags in
  len ← descriptor_len d;
  let end_ := d + len + 2 in
  dsm_cc_flag ← fld struct_mpeg_metadata_descriptor_flags "dsm_cc_flag" flags;
  buf ← (if dsm_cc_flag =? 1 then
    b ← ld8 (buf + 1);
    mret (buf + 1 + b)
  else mret buf);
  decoder_config_flags ← fld struct_mpeg_metadata_descriptor_flags "decoder_config_flags" flags;
  buf ← (if decoder_config_flags =? 1 then
    b ← ld8 (buf + 1);
    mret (buf + 1 + b)
  else mret buf);
  decoder_config_flags ← fld struct_mpeg_metadata_descriptor_flags "decoder_config_flags" flags;
  buf ← (if decoder_config_flags =? 3 then
    b ← ld8 (buf + 1);
    mret (buf + 1 + b)
  else mret buf);
  decoder_config_flags ← fld struct_mpeg_metadata_descriptor_flags "decoder_config_flags" flags;
  let buf := if decoder_config_flags =? 4 then buf + 1 else buf in
  decoder_config_flags ← fld struct_mpeg_metadata_descriptor_flags "decoder_config_flags" flags;
  buf ← (if (decoder_config_flags =? 5) || (decoder_config_flags =? 6) then
    b ← ld8 (buf + 1);
    mret (buf + 1 + b)
  else mret buf);
  let length := end_ - buf in
  mret (buf, length).

(** *** metadata_pointer_descriptor.h *)

Definition struct_mpeg_metadata_pointer_descriptor : layout :=
  [[("d", 16)]; [("metadata_application_format", 16)]].
Definition struct_mpeg_metadata_pointer_descriptor_application_format_identifier : layout :=
  [[("id", 32)]].
Definition struct_mpeg_metadata_pointer_descriptor_format_identifier : layout := [[("id", 32)]].
Definition struct_mpeg_metadata_pointer_descriptor_flags : layout :=
  [[("metadata_service_id", 8)]; [("metadata_locator_record_flag", 1);
    ("mpeg_carriage_flags", 2); ("reserved", 5)]].
Definition struct_mpeg_metadata_pointer_descriptor_locator : layout :=
  [[("metadata_locator_record_length", 8)]].
Definition struct_mpeg_metadata_pointer_descriptor_program_number : layout := [[("number", 16)]].
Definition struct_mpeg_metadata_pointer_descriptor_carriage : layout :=
  [[("transport_stream_location", 16)]; [("transport_stream_id", 16)]].

Definition mpeg_metadata_pointer_descriptor_codec (d : Z) : M unit :=
  let pos := 2 in
  len ← descriptor_len d;
  let len := len + 2 in
  reject_if (len <? sizeof struct_mpeg_metadata_pointer_descriptor);;
  bswap16 (d + pos);;
  id ← ld16 (d + pos);
  let pos := pos + 2 in
  pos ← (if id =? 0xffff then
    reject_if (len <? pos + 4);;
    bswap32 (d + pos);;
    mret (pos + 4)
  else mret pos);
  reject_if (len <? pos + 1);;
  id ← ld8 (d + pos);
  let pos := pos + 1 in
  pos ← (if id =? 0xff then
    reject_if (len <? pos + 4);;
    bswap32 (d + pos);;
    mret (pos + 4)
  else mret pos);
  reject_if (len <? pos + sizeof struct_mpeg_metadata_pointer_descriptor_flags);;
  let flags := d + pos in
  let pos := pos + sizeof struct_mpeg_metadata_pointer_descriptor_flags in
  metadata_locator_record_flag ←
    fld struct_mpeg_metadata_pointer_descriptor_flags "metadata_locator_record_flag" flags;
  pos ← (if metadata_locator_record_flag =? 1 then
    reject_if (len <? pos + 1);;
    b ← ld8 (d + pos);
    reject_if (len <? pos + 1 + b);;
    b ← ld8 (d + pos);
    mret (pos + 1 + b)
  else mret pos);
  mpeg_carriage_flags ←
    fld struct_mpeg_metadata_pointer_descriptor_flags "mpeg_carriage_flags" flags;
  pos ← (if mpeg_carriage_flags <? 3 then
    reject_if (len <? pos + 2);;
    bswap16 (d + pos);;
    mret (pos + 2)
  else mret pos);
  mpeg_carriage_flags ←
    fld struct_mpeg_metadata_pointer_descriptor_flags "mpeg_carriage_flags" flags;
  pos ← (if mpeg_carriage_flags =? 1 then
    reject_if (len <? pos + 4);;
    bswap16 (d + pos);;
    bswap16 (d + pos + 2);;
    mret (pos + 4)
  else mret pos);
  reject_if (len <? pos).

Definition mpeg_metadata_pointer_descriptor_appid (d : Z) : M (option Z) :=
  let buf := d + sizeof struct_mpeg_metadata_pointer_descriptor in
  metadata_application_format ←
    fld struct_mpeg_metadata_pointer_descriptor "metadata_application_format" d;
  if negb (metadata_application_format =? 0xffff) then mret None else mret (Some buf).

Definition mpeg_metadata_pointer_descriptor_metadata_format (d : Z) : M Z :=
  let buf := d + sizeof struct_mpeg_metadata_pointer_descriptor in
  metadata_application_format ←
    fld struct_mpeg_metadata_pointer_descriptor "metadata_application_format" d;
  let buf := if metadata_application_format =? 0xffff then buf + 4 else buf in
  b ← ld8 buf;
  mret b.

Definition mpeg_metadata_pointer_descriptor_formid (d : Z) : M (option Z) :=
  let buf := d + sizeof struct_mpeg_metadata_pointer_descriptor in
  metadata_application_format ←
    fld struct_mpeg_metadata_pointer_descriptor "metadata_application_format" d;
  let buf := if metadata_application_format =? 0xffff then buf + 4 else buf in
  b ← ld8 buf;
  if negb (b =? 0xff) then mret None else mret (Some (buf + 1)).

Definition mpeg_metadata_pointer_descriptor_flags (d : Z) : M Z :=
  let buf := d + sizeof struct_mpeg_metadata_pointer_descriptor in
  metadata_application_format ←
    fld struct_mpeg_metadata_pointer_descriptor "metadata_application_format" d;
  let buf := if metadata_application_format =? 0xffff then buf + 4 else buf in
  b ← ld8 buf;
  mret (if b =? 0xff then buf + 4 else buf).

Definition mpeg_metadata_pointer_descriptor_locator (flags : Z) : M (option Z) :=
  let buf := flags + sizeof struct_mpeg_metadata_pointer_descriptor_flags in
  metadata_locator_record_flag ←
    fld struct_mpeg_metadata_pointer_descriptor_flags "metadata_locator_record_flag" flags;
  if negb (metadata_locator_record_flag =? 1) then mret None else mret (Some buf).

Definition mpeg_metadata_pointer_descriptor_locator_data (d : Z) : Z :=
  d + sizeof struct_mpeg_metadata_pointer_descriptor_locator.

Definition mpeg_metadata_pointer_descriptor_program_number (flags : Z) : M (option Z) :=
  let buf := flags + sizeof struct_mpeg_metadata_pointer_descriptor_flags in
  mpeg_carriage_flags ←
    fld struct_mpeg_metadata_pointer_descriptor_flags "mpeg_carriage_flags" flags;
  if mpeg_carriage_flags <? 3 then mret None
  else
    metadata_locator_record_flag ←
      fld struct_mpeg_metadata_pointer_descriptor_flags "metadata_locator_record_flag" flags;
    buf ← (if metadata_locator_record_flag =? 1 then
      b ← ld8 (buf + 1);
      mret (buf + 1 + b)
    else mret buf);
    mret (Some buf).

Definition mpeg_metadata_pointer_descriptor_carriage (flags : Z) : M (option Z) :=
  let buf := flags + sizeof struct_mpeg_metadata_pointer_descriptor_flags in
  mpeg_carriage_flags ←
    fld struct_mpeg_metadata_pointer_descriptor_flags "mpeg_carriage_flags" flags;
  if negb (mpeg_carriage_flags =? 1) then mret None
  else
    metadata_locator_record_flag ←
      fld struct_mpeg_metadata_pointer_descriptor_flags "metadata_locator_record_flag" flags;
    buf ← (if metadata_locator_record_flag =? 1 then
      b ← ld8 (buf + 1);
      mret (buf + 1 + b)
    else mret buf);
    mpeg_carriage_flags ←
      fld struct_mpeg_metadata_pointer_descriptor_flags "mpeg_carriage_flags" flags;
    let buf :=
      if mpeg_carriage_flags <? 3
      then buf + sizeof struct_mpeg_metadata_pointer_descriptor_program_number
      else buf in
    mret (Some buf).

Definition mpeg_metadata_pointer_descriptor_private_data (d flags : Z) : M (Z * Z) :=
  let buf := flags + sizeof struct_mpeg_metadata_pointer_descriptor_flags in
  len ← descriptor_len d;
  let end_ := d + len + 2 in
  metadata_locator_record_flag ←
    fld struct_mpeg_metadata_pointer_descriptor_flags "metadata_locator_record_flag" flags;
  buf ← (if metadata_locator_record_flag =? 1 then
    b ← ld8 (buf + 1);
    mret (buf + 1 + b)
  else mret buf);
  mpeg_carriage_flags ←
    fld struct_mpeg_metadata_pointer_descriptor_flags "mpeg_carriage_flags" flags;
  let buf :=
    if mpeg_carriage_flags <? 3
    then buf + sizeof struct_mpeg_metadata_pointer_descriptor_program_number
    else buf in
  mpeg_carriage_flags ←
    fld struct_mpeg_metadata_pointer_descriptor_flags "mpeg_carriage_flags" flags;
  let buf :=
    if negb (mpeg_carriage_flags =? 1)
    then buf + sizeof struct_mpeg_metadata_pointer_descriptor_carriage
    else buf in
  let length := end_ - buf in
  mret (buf, length).

(** *** metadata_std_descriptor.h *)

Definition struct_mpeg_metadata_std_descriptor : layout :=
  [[("d", 16)]; [("reserved_1", 2); ("metadata_input_leak_rate", 22)]; [("reserved_2", 2);
    ("metadata_buffer_size", 22)]; [("reserved_3", 2); ("metadata_output_leak_rate", 22)]].

Definition mpeg_metadata_std_descriptor_codec (d : Z) : M unit :=
  len ← descriptor_len d;
  reject_if (negb (len =? sizeof struct_mpeg_metadata_std_descriptor - 2));;
  bswap24 (d + 2);;
  bswap24 (d + 5);;
  bswap24 (d + 8).

(** *** mpeg4_audio_descriptor.h *)

Definition struct_mpeg4_audio_descriptor : layout :=
  [[("d", 16)]; [("mpeg4_audio_profile_and_level", 8)]].

Definition mpeg4_audio_descriptor_codec (d : Z) : M unit :=
  len ← descriptor_len d;
  reject_if (negb (len =? sizeof struct_mpeg4_audio_descriptor - 2)).

(** *** mpeg4_video_descriptor.h *)

Definition struct_mpeg4_video_descriptor : layout :=
  [[("d", 16)]; [("mpeg4_visual_profile_and_level", 8)]].

Definition mpeg4_video_descriptor_codec (d : Z) : M unit :=
  len ← descriptor_len d;
  reject_if (negb (len =? sizeof struct_mpeg4_video_descriptor - 2)).

(** *** multiplex_buffer_descriptor.h *)

Definition struct_mpeg_multiplex_buffer_descriptor : layout :=
  [[("d", 16)]; [("mb_buffer_size", 24); ("tb_leak_rate", 24)]].

Definition mpeg_multiplex_buffer_descriptor_codec (d : Z) : M unit :=
  len ← descriptor_len d;
  reject_if (negb (len =? sizeof struct_mpeg_multiplex_buffer_descriptor - 2));;
  bswap48 (d + 2).

(** *** multiplex_buffer_utilization_descriptor.h *)

Definition struct_mpeg_multiplex_buffer_utilization_descriptor : layout :=
  [[("d", 16)]; [("bound_valid_flag", 1); ("ltw_offset_lower_bound", 15)]; [("reserved", 1);
    ("ltw_offset_upper_bound", 15)]].

Definition mpeg_multiplex_buffer_utilization_descriptor_codec (d : Z) : M unit :=
  len ← descriptor_len d;
  reject_if (negb (len =? sizeof struct_mpeg_multiplex_buffer_utilization_descriptor - 2));;
  bswap16 (d + 2);;
  bswap16 (d + 4).

(** *** muxcode_descriptor.h *)

Definition struct_mpeg_muxcode_descriptor : layout := [[("d", 16)]].

Definition mpeg_muxcode_descriptor_codec (d : Z) : M unit := mret tt.

Definition mpeg_muxcode_descriptor_entries (d : Z) : Z :=
  d + sizeof struct_mpeg_muxcode_descriptor.

Definition mpeg_muxcode_descriptor_entries_length (d : Z) : M Z :=
  len ← descriptor_len d;
  mret len.

(** *** private_data_indicator_descriptor.h *)

Definition struct_mpeg_private_data_indicator_descriptor : layout :=
  [[("d", 16)]; [("private_data_indicator", 32)]].

Definition mpeg_private_data_indicator_descriptor_codec (d : Z) : M unit :=
  len ← descriptor_len d;
  reject_if (negb (len =? sizeof struct_mpeg_private_data_indicator_descriptor - 2));;
  bswap32 (d + 2).

(** *** registration_descriptor.h *)

Definition struct_mpeg_registration_descriptor : layout :=
  [[("d", 16)]; [("format_identifier", 32)]].

Definition mpeg_registration_descriptor_codec (d : Z) : M unit :=
  len ← descriptor_len d;
  reject_if (len <? sizeof struct_mpeg_registration_descriptor - 2);;
  bswap32 (d + 2).

Definition mpeg_registration_descriptor_additional_id_info (d : Z) : Z :=
  d + sizeof struct_mpeg_registration_descriptor.

Definition mpeg_registration_descriptor_additional_id_info_length (d : Z) : M Z :=
  len ← descriptor_len d;
  mret (len - 4).

(** *** sl_descriptor.h *)

Definition struct_mpeg_sl_descriptor : layout := [[("d", 16)]; [("es_id", 16)]].

Definition mpeg_sl_descriptor_codec (d : Z) : M unit :=
  len ← descriptor_len d;
  reject_if (negb (len =? sizeof struct_mpeg_sl_descriptor - 2));;
  bswap16 (d + 2).

(** *** smoothing_buffer_descriptor.h *)

Definition struct_mpeg_smoothing_buffer_descriptor : layout :=
  [[("d", 16)]; [("reserved_1", 2); ("sb_leak_rate", 22); ("reserved_2", 2); ("sb_size", 22)]].

Definition mpeg_smoothing_buffer_descriptor_codec (d : Z) : M unit :=
  len ← descriptor_len d;
  reject_if (negb (len =? sizeof struct_mpeg_smoothing_buffer_descriptor - 2));;
  bswap48 (d + 2).

(** *** std_descriptor.h *)

Definition struct_mpeg_std_descriptor : layout :=
  [[("d", 16)]; [("reserved", 7); ("leak_valid_flag", 1)]].

Definition mpeg_std_descriptor_codec (d : Z) : M unit :=
  len ← descriptor_len d;
  reject_if (negb (len =? sizeof struct_mpeg_std_descriptor - 2)).

(** *** system_clock_descriptor.h *)

Definition struct_mpeg_system_clock_descriptor : layout :=
  [[("d", 16)]; [("external_clock_reference_indicator", 1); ("reserved_1", 1);
    ("clock_accuracy_integer", 6)]; [("clock_accuracy_exponent", 3); ("reserved_2", 5)]].

Definition mpeg_system_clock_descriptor_codec (d : Z) : M unit :=
  len ← descriptor_len d;
  reject_if (negb (len =? sizeof struct_mpeg_system_clock_descriptor - 2)).

(** *** target_background_grid_descriptor.h *)

Definition struct_mpeg_target_background_grid_descriptor : layout :=
  [[("d", 16)]; [("horizontal_size", 14); ("vertical_size", 14);
    ("aspect_ratio_information", 4)]].

Definition mpeg_target_background_grid_descriptor_codec (d : Z) : M unit :=
  len ← descriptor_len d;
  reject_if (negb (len =? sizeof struct_mpeg_target_background_grid_descriptor - 2));;
  bswap32 (d + 2).

(** *** video_stream_descriptor.h *)

Definition struct_mpeg_video_stream_descriptor : layout :=
  [[("d", 16)]; [("multiple_frame_rate_flag", 1); ("frame_rate_code", 4);
    ("mpeg_1_only_flag", 1); ("constrained_parameter_flag", 1); ("still_picture_flag", 1)]].
Definition struct_mpeg_video_stream_extra : layout :=
  [[("profile_and_level_indication", 8)]; [("chroma_format", 2); ("frame_rate_extension", 1);
    ("reserved", 5)]].

Definition mpeg_video_stream_descriptor_codec (d : Z) : M unit :=
  len ← descriptor_len d;
  reject_if (len <? sizeof struct_mpeg_video_stream_descriptor - 2);;
  mpeg_1_only_flag ← fld struct_mpeg_video_stream_descriptor "mpeg_1_only_flag" d;
  (if negb (negb (mpeg_1_only_flag =? 0)) then
    len ← descriptor_len d;
    reject_if (negb (len =? sizeof struct_mpeg_video_stream_descriptor + sizeof struct_mpeg_video_stream_extra - 2));;
    mret tt
  else mret tt).

Definition mpeg_video_stream_descriptor_extra (d : Z) : M (option Z) :=
  mpeg_1_only_flag ← fld struct_mpeg_video_stream_descriptor "mpeg_1_only_flag" d;
  if negb (mpeg_1_only_flag =? 0) then mret None
  else mret (Some (d + sizeof struct_mpeg_video_stream_descriptor)).

(** *** video_window_descriptor.h *)

Definition struct_mpeg_video_window_descriptor : layout :=
  [[("d", 16)]; [("horizontal_offset", 14); ("vertical_offset", 14); ("window_priority", 4)]].

Definition mpeg_video_window_descriptor_codec (d : Z) : M unit :=
  len ← descriptor_len d;
  reject_if (negb (len =? sizeof struct_mpeg_video_window_descriptor - 2));;
  bswap32 (d + 2).
