(* ===== verification/DvbDescriptors.v ===== *)
(** * libucsi/dvb: the descriptors of EN 300468 and related standards

    Structures, codecs, accessors and iterators, as in MpegDescriptors.v. *)

From S2P Require Export Layout.

(** *** ac3_descriptor.h *)

Definition struct_dvb_ac3_descriptor : layout :=
  [[("d", 16)]; [("ac3_type_flag", 1); ("bsid_flag", 1); ("mainid_flag", 1); ("asvc_flag", 1);
    ("reserved", 4)]].

Definition dvb_ac3_descriptor_codec (d : Z) : M unit :=
  len ← descriptor_len d;
  reject_if (len <? sizeof struct_dvb_ac3_descriptor - 2).

Definition dvb_ac3_descriptor_additional_info (d : Z) : Z :=
  d + sizeof struct_dvb_ac3_descriptor.

Definition dvb_ac3_descriptor_additional_info_length (d : Z) : M Z :=
  len ← descriptor_len d;
  mret (len - 1).

(** *** adaptation_field_data_descriptor.h *)

Definition struct_dvb_adaptation_field_data_descriptor : layout :=
  [[("d", 16)]; [("reserved", 7); ("announcement_switching_data", 1)]].

Definition dvb_adaptation_field_data_descriptor_codec (d : Z) : M unit :=
  len ← descriptor_len d;
  reject_if (negb (len =? sizeof struct_dvb_adaptation_field_data_descriptor - 2)).

(** *** ait_application_descriptor.h *)

Definition struct_dvb_ait_application_descriptor : layout :=
  [[("d", 16)]; [("application_profiles_length", 8)]].
Definition struct_dvb_ait_application_profile : layout :=
  [[("application_profile", 16)]; [("version_major", 8)]; [("version_minor", 8)];
   [("version_micro", 8)]].
Definition struct_dvb_ait_application_descriptor_part2 : layout :=
  [[("service_bound_flag", 1); ("visibility", 2); ("reserved", 5)];
   [("application_priority", 8)]].

Definition dvb_ait_application_descriptor_codec (d : Z) : M unit :=
  let pos := 0 in
  let pos2 := 0 in
  len ← descriptor_len d;
  let len := len + 2 in
  reject_if (len <? sizeof struct_dvb_ait_application_descriptor);;
  application_profiles_length ←
    fld struct_dvb_ait_application_descriptor "application_profiles_length" d;
  reject_if (len <? sizeof struct_dvb_ait_application_descriptor + application_profiles_length);;
  application_profiles_length ←
    fld struct_dvb_ait_application_descriptor "application_profiles_length" d;
  reject_if (negb (application_profiles_length mod
    sizeof struct_dvb_ait_application_profile =? 0));;
  let pos := pos + sizeof struct_dvb_ait_application_descriptor in
  let pos2 := 0 in
  pos2 ← while (fun pos2 =>
        application_profiles_length ← fld struct_dvb_ait_application_descriptor "application_profiles_length" d;
        mret (pos2 <? application_profiles_length)) (fun pos2 =>
    bswap16 (d + pos + pos2);;
    mret (pos2 + sizeof struct_dvb_ait_application_descriptor)) pos2;
  let pos := pos + pos2 in
  reject_if (len <? pos + sizeof struct_dvb_ait_application_descriptor_part2).

Definition dvb_ait_application_descriptor_part2 (d : Z) : M Z :=
  application_profiles_length ←
    fld struct_dvb_ait_application_descriptor "application_profiles_length" d;
  mret (d + sizeof struct_dvb_ait_application_descriptor + application_profiles_length).

Definition dvb_ait_application_descriptor_part2_transport_protocol_label (d : Z) : Z :=
  d + sizeof struct_dvb_ait_application_descriptor_part2.

Definition dvb_ait_application_descriptor_part2_transport_protocol_label_length (d part2 : Z) :
    M Z :=
  let ptr := part2 + sizeof struct_dvb_ait_application_descriptor_part2 in
  len ← descriptor_len d;
  let end_ := d + len + 2 in
  mret (end_ - ptr).

Definition dvb_ait_application_descriptor_profiles_first (d : Z) : M (option Z) :=
  application_profiles_length ←
    fld struct_dvb_ait_application_descriptor "application_profiles_length" d;
  if application_profiles_length =? 0 then mret None
  else mret (Some (d + sizeof struct_dvb_ait_application_descriptor)).

Definition dvb_ait_application_descriptor_profiles_next (d pos : Z) : M (option Z) :=
  application_profiles_length ←
    fld struct_dvb_ait_application_descriptor "application_profiles_length" d;
  let end_ := d + sizeof struct_dvb_ait_application_descriptor + application_profiles_length in
  let next := pos + sizeof struct_dvb_ait_application_profile in
  if end_ <=? next then mret None else mret (Some next).

(** *** ait_application_icons_descriptor.h *)

Definition struct_dvb_ait_application_icons_descriptor : layout :=
  [[("d", 16)]; [("icon_locator_length", 8)]].
Definition struct_dvb_ait_application_icons_descriptor_part2 : layout := [[("icon_flags", 16)]].

Definition dvb_ait_application_icons_descriptor_codec (d : Z) : M unit :=
  let pos := 0 in
  len ← descriptor_len d;
  let len := len + 2 in
  reject_if (len <? sizeof struct_dvb_ait_application_icons_descriptor);;
  icon_locator_length ← fld struct_dvb_ait_application_icons_descriptor "icon_locator_length" d;
  reject_if (len <? sizeof struct_dvb_ait_application_icons_descriptor + icon_locator_length);;
  icon_locator_length ← fld struct_dvb_ait_application_icons_descriptor "icon_locator_length" d;
  let pos := pos + sizeof struct_dvb_ait_application_icons_descriptor + icon_locator_length in
  reject_if (u32 (len - pos) <? sizeof struct_dvb_ait_application_icons_descriptor_part2);;
  bswap16 (d + pos).

Definition dvb_ait_application_icons_descriptor_icon_locator (e : Z) : Z :=
  e + sizeof struct_dvb_ait_application_icons_descriptor.

Definition dvb_ait_application_icons_descriptor_part2 (e : Z) : M Z :=
  icon_locator_length ← fld struct_dvb_ait_application_icons_descriptor "icon_locator_length" e;
  mret (e + sizeof struct_dvb_ait_application_icons_descriptor + icon_locator_length).

Definition dvb_ait_application_icons_descriptor_part2_reserved (e : Z) : Z :=
  e + sizeof struct_dvb_ait_application_icons_descriptor_part2.

Definition dvb_ait_application_icons_descriptor_part2_reserved_length (d part2 : Z) : M Z :=
  let ptr := part2 + sizeof struct_dvb_ait_application_icons_descriptor_part2 in
  len ← descriptor_len d;
  let end_ := d + len + 2 in
  mret (end_ - ptr).

(** *** ait_application_name_descriptor.h *)

Definition struct_dvb_ait_application_name_descriptor : layout := [[("d", 16)]].
Definition struct_dvb_ait_application_name : layout :=
  [[("language_code", 24)]; [("application_name_length", 8)]].

Definition dvb_ait_application_name_descriptor_codec (d : Z) : M unit :=
  let buf := d + 2 in
  let pos := 0 in
  len ← descriptor_len d;
  _ ← while (fun pos => mret (pos <? len)) (fun pos =>
    let e := buf + pos in
    let pos := pos + sizeof struct_dvb_ait_application_name in
    reject_if (len <? pos);;
    application_name_length ← fld struct_dvb_ait_application_name "application_name_length" e;
    let pos := pos + application_name_length in
    reject_if (len <? pos);;
    mret pos) pos;
  mret tt.

Definition dvb_ait_application_name_name (e : Z) : Z :=
  e + sizeof struct_dvb_ait_application_name.

Definition dvb_ait_application_name_descriptor_names_first (d : Z) : M (option Z) :=
  len ← descriptor_len d;
  if len =? 0 then mret None
  else mret (Some (d + sizeof struct_dvb_ait_application_name_descriptor)).

Definition dvb_ait_application_name_descriptor_names_next (d pos : Z) : M (option Z) :=
  len ← descriptor_len d;
  let end_ := d + 2 + len in
  application_name_length ← fld struct_dvb_ait_application_name "application_name_length" pos;
  let next := pos + sizeof struct_dvb_ait_application_name + application_name_length in
  if end_ <=? next then mret None else mret (Some next).

(** *** ait_external_application_authorisation_descriptor.h *)

Definition struct_dvb_ait_external_application_authorisation_descriptor : layout := [[("d", 16)]].
Definition struct_dvb_ait_external_application_authorisation : layout :=
  [[("organization_id", 32)]; [("application_id", 16)]; [("application_priority", 8)]].

Definition dvb_ait_external_application_authorisation_descriptor_codec (d : Z) : M unit :=
  let buf := d + 2 in
  let pos := 0 in
  len ← descriptor_len d;
  reject_if (negb (len mod sizeof struct_dvb_ait_external_application_authorisation =? 0));;
  _ ← while (fun pos => mret (pos <? len)) (fun pos =>
    bswap32 (buf + pos);;
    bswap32 (buf + pos + 4);;
    mret (pos + sizeof struct_dvb_ait_external_application_authorisation)) pos;
  mret tt.

Definition dvb_ait_external_application_authorisation_descriptor_auths_first (d : Z) :
    M (option Z) :=
  len ← descriptor_len d;
  if len =? 0 then mret None
  else mret (Some (d + sizeof struct_dvb_ait_external_application_authorisation_descriptor)).

Definition dvb_ait_external_application_authorisation_descriptor_auths_next (d pos : Z) :
    M (option Z) :=
  len ← descriptor_len d;
  let end_ := d + 2 + len in
  let next := pos + sizeof struct_dvb_ait_external_application_authorisation in
  if end_ <=? next then mret None else mret (Some next).

(** *** ancillary_data_descriptor.h *)

Definition struct_dvb_ancillary_data_descriptor : layout :=
  [[("d", 16)]; [("reserved", 1); ("rds_via_udcp", 1); ("mpeg4_ancillary_data", 1);
    ("scale_factor_error_check", 1); ("dab_ancillary_data", 1);
    ("announcement_switching_data", 1); ("extended_ancillary_data", 1);
    ("dvd_video_ancillary_data", 1)]].

Definition dvb_ancillary_data_descriptor_codec (d : Z) : M unit :=
  len ← descriptor_len d;
  reject_if (negb (len =? sizeof struct_dvb_ancillary_data_descriptor - 2)).

(** *** announcement_support_descriptor.h *)

Definition struct_dvb_announcement_support_descriptor : layout :=
  [[("d", 16)]; [("announcement_support_indicator", 16)]].
Definition struct_dvb_announcement_support_entry : layout :=
  [[("announcement_type", 4); ("reserved", 1); ("reference_type", 3)]].
Definition struct_dvb_announcement_support_reference : layout :=
  [[("original_network_id", 16)]; [("transport_stream_id", 16)]; [("service_id", 16)];
   [("component_tag", 8)]].

Definition dvb_announcement_support_descriptor_codec (d : Z) : M unit :=
  let pos := 0 in
  let buf := d + 2 in
  len ← descriptor_len d;
  reject_if (len <? sizeof struct_dvb_announcement_support_descriptor - 2);;
  bswap16 (buf + pos);;
  let pos := pos + 2 in
  _ ← while (fun pos => mret (pos <? len)) (fun pos =>
    let e := buf + pos in
    let pos := pos + sizeof struct_dvb_announcement_support_entry in
    reject_if (len <? pos);;
    reference_type ← fld struct_dvb_announcement_support_entry "reference_type" e;
    pos ← (if ((reference_type =? 1) || (reference_type =? 2)) || (reference_type =? 3) then
      reject_if (len <? pos + sizeof struct_dvb_announcement_support_reference);;
      bswap16 (buf + pos);;
      bswap16 (buf + pos + 2);;
      bswap16 (buf + pos + 4);;
      mret (pos + sizeof struct_dvb_announcement_support_reference)
    else mret pos);
    mret pos) pos;
  mret tt.

Definition dvb_announcement_support_entry_reference (entry : Z) : M (option Z) :=
  reference_type ← fld struct_dvb_announcement_support_entry "reference_type" entry;
  if negb (reference_type =? 0x01) &&
     negb (reference_type =? 0x02) && negb (reference_type =? 0x03) then
    mret None
  else mret (Some (entry + sizeof struct_dvb_announcement_support_entry)).

Definition dvb_announcement_support_descriptor_entries_first (d : Z) : M (option Z) :=
  len ← descriptor_len d;
  if len =? 2 then mret None
  else mret (Some (d + sizeof struct_dvb_announcement_support_descriptor)).

Definition dvb_announcement_support_descriptor_entries_next (d pos : Z) : M (option Z) :=
  len ← descriptor_len d;
  let end_ := d + 2 + len in
  let next := pos + sizeof struct_dvb_announcement_support_entry in
  reference ← dvb_announcement_support_entry_reference pos;
  let next :=
    if is_some reference
    then next + sizeof struct_dvb_announcement_support_reference
    else next in
  if end_ <=? next then mret None else mret (Some next).

(** *** application_signalling_descriptor.h *)

Definition struct_dvb_application_signalling_descriptor : layout := [[("d", 16)]].
Definition struct_dvb_application_signalling_entry : layout :=
  [[("application_type", 16)]; [("reserved", 3); ("AIT_version_number", 5)]].

Definition dvb_application_signalling_descriptor_codec (d : Z) : M unit :=
  let pos := 0 in
  len ← descriptor_len d;
  let buf := d + 2 in
  let pos := pos + (sizeof struct_dvb_application_signalling_descriptor - 2) in
  reject_if (negb (len mod sizeof struct_dvb_application_signalling_entry =? 0));;
  _ ← while (fun pos => mret (pos <? len)) (fun pos =>
    bswap16 (buf + pos);;
    mret (pos + 3)) pos;
  mret tt.

Definition dvb_application_signalling_descriptor_entries_first (d : Z) : M (option Z) :=
  len ← descriptor_len d;
  if len =? 0 then mret None
  else mret (Some (d + sizeof struct_dvb_application_signalling_descriptor)).

Definition dvb_application_signalling_descriptor_entries_next (d pos : Z) : M (option Z) :=
  len ← descriptor_len d;
  let end_ := d + 2 + len in
  let next := pos + sizeof struct_dvb_application_signalling_entry in
  if end_ <=? next then mret None else mret (Some next).

(** *** bouquet_name_descriptor.h *)

Definition struct_dvb_bouquet_name_descriptor : layout := [[("d", 16)]].

Definition dvb_bouquet_name_descriptor_codec (d : Z) : M unit := mret tt.

Definition dvb_bouquet_name_descriptor_name (d : Z) : Z :=
  d + sizeof struct_dvb_bouquet_name_descriptor.

Definition dvb_bouquet_name_descriptor_name_length (d : Z) : M Z :=
  len ← descriptor_len d;
  mret len.

(** *** ca_identifier_descriptor.h *)

Definition struct_dvb_ca_identifier_descriptor : layout := [[("d", 16)]].

Definition dvb_ca_identifier_descriptor_codec (d : Z) : M unit :=
  len ← descriptor_len d;
  let buf := d + 2 in
  let pos := 0 in
  reject_if (negb (len mod 2 =? 0));;
  _ ← while (fun pos => mret (pos <? len)) (fun pos =>
    bswap16 (buf + pos);;
    mret (pos + 2)) pos;
  mret tt.

Definition dvb_ca_identifier_descriptor_ca_system_ids (d : Z) : Z :=
  d + sizeof struct_dvb_ca_identifier_descriptor.

Definition dvb_ca_identifier_descriptor_ca_system_ids_count (d : Z) : M Z :=
  len ← descriptor_len d;
  mret (Z.shiftr len 1).

(** *** cable_delivery_descriptor.h *)

Definition struct_dvb_cable_delivery_descriptor : layout :=
  [[("d", 16)]; [("frequency", 32)]; [("reserved", 12); ("fec_outer", 4)]; [("modulation", 8)];
   [("symbol_rate", 28); ("fec_inner", 4)]].

Definition dvb_cable_delivery_descriptor_codec (d : Z) : M unit :=
  len ← descriptor_len d;
  reject_if (negb (len =? sizeof struct_dvb_cable_delivery_descriptor - 2));;
  bswap32 (d + 2);;
  bswap16 (d + 6);;
  bswap32 (d + 9).

(** *** cell_frequency_link_descriptor.h *)

Definition struct_dvb_cell_frequency_link_descriptor : layout := [[("d", 16)]].
Definition struct_dvb_cell_frequency_link_cell : layout :=
  [[("cell_id", 16)]; [("frequency", 32)]; [("subcell_loop_info_length", 8)]].
Definition struct_dvb_cell_frequency_link_cell_subcell : layout :=
  [[("cell_id_extension", 8)]; [("transposer_frequency", 32)]].

Definition dvb_cell_frequency_link_descriptor_codec (d : Z) : M unit :=
  let pos := 0 in
  let pos2 := 0 in
  let buf := d + 2 in
  len ← descriptor_len d;
  _ ← while (fun pos => mret (pos <? len)) (fun pos =>
    let e := buf + pos in
    reject_if (len <? pos + sizeof struct_dvb_cell_frequency_link_cell);;
    bswap16 (buf + pos);;
    bswap32 (buf + pos + 2);;
    let pos := pos + sizeof struct_dvb_cell_frequency_link_cell in
    subcell_loop_info_length ← fld struct_dvb_cell_frequency_link_cell "subcell_loop_info_length" e;
    reject_if (len <? pos + subcell_loop_info_length);;
    subcell_loop_info_length ← fld struct_dvb_cell_frequency_link_cell "subcell_loop_info_length" e;
    reject_if (negb (subcell_loop_info_length mod
      sizeof struct_dvb_cell_frequency_link_cell_subcell =? 0));;
    let pos2 := 0 in
    _ ← while (fun pos2 =>
          subcell_loop_info_length ← fld struct_dvb_cell_frequency_link_cell "subcell_loop_info_length" e;
          mret (pos2 <? subcell_loop_info_length)) (fun pos2 =>
      bswap32 (buf + pos + pos2 + 1);;
      mret (pos2 + sizeof struct_dvb_cell_frequency_link_cell_subcell)) pos2;
    subcell_loop_info_length ← fld struct_dvb_cell_frequency_link_cell "subcell_loop_info_length" e;
    mret (pos + subcell_loop_info_length)) pos;
  mret tt.

Definition dvb_cell_frequency_link_descriptor_cells_first (d : Z) : M (option Z) :=
  len ← descriptor_len d;
  if len =? 0 then mret None
  else mret (Some (d + sizeof struct_dvb_cell_frequency_link_descriptor)).

Definition dvb_cell_frequency_link_descriptor_cells_next (d pos : Z) : M (option Z) :=
  len ← descriptor_len d;
  let end_ := d + 2 + len in
  subcell_loop_info_length ← fld struct_dvb_cell_frequency_link_cell "subcell_loop_info_length" pos;
  let next := pos + sizeof struct_dvb_cell_frequency_link_cell + subcell_loop_info_length in
  if end_ <=? next then mret None else mret (Some next).

Definition dvb_cell_frequency_link_cell_subcells_first (d : Z) : M (option Z) :=
  subcell_loop_info_length ← fld struct_dvb_cell_frequency_link_cell "subcell_loop_info_length" d;
  if subcell_loop_info_length =? 0 then mret None
  else mret (Some (d + sizeof struct_dvb_cell_frequency_link_cell)).

Definition dvb_cell_frequency_link_cell_subcells_next (cell pos : Z) : M (option Z) :=
  subcell_loop_info_length ←
    fld struct_dvb_cell_frequency_link_cell "subcell_loop_info_length" cell;
  let end_ := cell + subcell_loop_info_length in
  let next := pos + sizeof struct_dvb_cell_frequency_link_cell_subcell in
  if end_ <=? next then mret None else mret (Some next).

(** *** cell_list_descriptor.h *)

Definition struct_dvb_cell_list_descriptor : layout := [[("d", 16)]].
Definition struct_dvb_cell_list_entry : layout :=
  [[("cell_id", 16)]; [("cell_latitude", 16)]; [("cell_longitude", 16)];
   [("cell_extend_of_latitude", 12); ("cell_extend_of_longitude", 12);
    ("subcell_info_loop_length", 8)]].
Definition struct_dvb_subcell_list_entry : layout :=
  [[("cell_id_extension", 8)]; [("subcell_latitude", 16)]; [("subcell_longitude", 16)];
   [("subcell_extend_of_latitude", 12); ("subcell_extend_of_longitude", 12)]].

Definition dvb_cell_list_descriptor_codec (d : Z) : M unit :=
  let pos := 0 in
  let pos2 := 0 in
  let buf := d + 2 in
  len ← descriptor_len d;
  _ ← while (fun pos => mret (pos <? len)) (fun pos =>
    let e := buf + pos in
    reject_if (len <? pos + sizeof struct_dvb_cell_list_entry);;
    bswap16 (buf + pos);;
    bswap16 (buf + pos + 2);;
    bswap16 (buf + pos + 4);;
    bswap32 (buf + pos + 6);;
    let pos := pos + sizeof struct_dvb_cell_list_entry in
    subcell_info_loop_length ← fld struct_dvb_cell_list_entry "subcell_info_loop_length" e;
    reject_if (len <? pos + subcell_info_loop_length);;
    subcell_info_loop_length ← fld struct_dvb_cell_list_entry "subcell_info_loop_length" e;
    reject_if (negb (subcell_info_loop_length mod sizeof struct_dvb_subcell_list_entry =? 0));;
    let pos2 := 0 in
    _ ← while (fun pos2 =>
          subcell_info_loop_length ← fld struct_dvb_cell_list_entry "subcell_info_loop_length" e;
          mret (pos2 <? subcell_info_loop_length)) (fun pos2 =>
      bswap16 (buf + pos + pos2 + 1);;
      bswap16 (buf + pos + pos2 + 3);;
      bswap24 (buf + pos + pos2 + 5);;
      mret (pos2 + sizeof struct_dvb_subcell_list_entry)) pos2;
    subcell_info_loop_length ← fld struct_dvb_cell_list_entry "subcell_info_loop_length" e;
    mret (pos + subcell_info_loop_length)) pos;
  mret tt.

Definition dvb_cell_list_descriptor_cells_first (d : Z) : M (option Z) :=
  len ← descriptor_len d;
  if len =? 0 then mret None else mret (Some (d + sizeof struct_dvb_cell_list_descriptor)).

Definition dvb_cell_list_descriptor_cells_next (d pos : Z) : M (option Z) :=
  len ← descriptor_len d;
  let end_ := d + 2 + len in
  subcell_info_loop_length ← fld struct_dvb_cell_list_entry "subcell_info_loop_length" pos;
  let next := pos + sizeof struct_dvb_cell_list_entry + subcell_info_loop_length in
  if end_ <=? next then mret None else mret (Some next).

Definition dvb_cell_list_entry_subcells_first (d : Z) : M (option Z) :=
  subcell_info_loop_length ← fld struct_dvb_cell_list_entry "subcell_info_loop_length" d;
  if subcell_info_loop_length =? 0 then mret None
  else mret (Some (d + sizeof struct_dvb_cell_list_entry)).

Definition dvb_cell_list_entry_subcells_next (d pos : Z) : M (option Z) :=
  let next := pos + sizeof struct_dvb_subcell_list_entry in
  subcell_info_loop_length ← fld struct_dvb_cell_list_entry "subcell_info_loop_length" d;
  let end_ := d + sizeof struct_dvb_cell_list_entry + subcell_info_loop_length in
  if end_ <=? next then mret None else mret (Some next).

(** *** component_descriptor.h *)

Definition struct_dvb_component_descriptor : layout :=
  [[("d", 16)]; [("reserved", 4); ("stream_content", 4)]; [("component_type", 8)];
   [("component_tag", 8)]; [("language_code", 24)]].

Definition dvb_component_descriptor_codec (d : Z) : M unit :=
  len ← descriptor_len d;
  reject_if (len <? sizeof struct_dvb_component_descriptor - 2).

Definition dvb_component_descriptor_text (d : Z) : Z :=
  d + sizeof struct_dvb_component_descriptor.

Definition dvb_component_descriptor_text_length (d : Z) : M Z :=
  len ← descriptor_len d;
  mret (len - 6).

(** *** content_descriptor.h *)

Definition struct_dvb_content_descriptor : layout := [[("d", 16)]].
Definition struct_dvb_content_nibble : layout :=
  [[("content_nibble_level_1", 4); ("content_nibble_level_2", 4)]; [("user_nibble_1", 4);
    ("user_nibble_2", 4)]].

Definition dvb_content_descriptor_codec (d : Z) : M unit :=
  len ← descriptor_len d;
  reject_if (negb (len mod sizeof struct_dvb_content_nibble =? 0)).

Definition dvb_content_descriptor_nibbles_first (d : Z) : M (option Z) :=
  len ← descriptor_len d;
  if len =? 0 then mret None else mret (Some (d + sizeof struct_dvb_content_descriptor)).

Definition dvb_content_descriptor_nibbles_next (d pos : Z) : M (option Z) :=
  len ← descriptor_len d;
  let end_ := d + 2 + len in
  let next := pos + sizeof struct_dvb_content_nibble in
  if end_ <=? next then mret None else mret (Some next).

(** *** content_identifier_descriptor.h *)

Definition struct_dvb_content_identifier_descriptor : layout := [[("d", 16)]].
Definition struct_dvb_content_identifier_entry : layout :=
  [[("crid_type", 6); ("crid_location", 2)]].
Definition struct_dvb_content_identifier_entry_data_0 : layout := [[("crid_length", 8)]].
Definition struct_dvb_content_identifier_entry_data_1 : layout := [[("crid_ref", 16)]].

Definition dvb_content_identifier_descriptor_codec (d : Z) : M unit :=
  len ← descriptor_len d;
  let len := len + 2 in
  let pos := 2 in
  pos ← while (fun pos => mret (pos <? len)) (fun pos =>
    let e := d + pos in
    reject_if (len <? pos + 1);;
    let pos := pos + 1 in
    crid_location ← fld struct_dvb_content_identifier_entry "crid_location" e;
    pos ← (if crid_location =? 0 then
      reject_if (len <? pos + 1);;
      b ← ld8 (d + pos);
      reject_if (len <? pos + 1 + b);;
      b ← ld8 (d + pos);
      mret (pos + 1 + b)
    else
      crid_location ← fld struct_dvb_content_identifier_entry "crid_location" e;
      (if crid_location =? 1 then
        reject_if (len <? pos + 2);;
        bswap16 (d + pos);;
        mret tt
      else mret tt);;
      mret pos);
    mret pos) pos;
  reject_if (negb (pos =? len)).

Definition dvb_content_identifier_entry_data_0 (d : Z) : M (option Z) :=
  crid_location ← fld struct_dvb_content_identifier_entry "crid_location" d;
  if negb (crid_location =? 0) then mret None
  else mret (Some (d + sizeof struct_dvb_content_identifier_entry)).

Definition dvb_content_identifier_entry_data_0_data (d : Z) : Z :=
  d + sizeof struct_dvb_content_identifier_entry_data_0.

Definition dvb_content_identifier_entry_data_1 (d : Z) : M (option Z) :=
  crid_location ← fld struct_dvb_content_identifier_entry "crid_location" d;
  if negb (crid_location =? 1) then mret None
  else mret (Some (d + sizeof struct_dvb_content_identifier_entry)).

Definition dvb_content_identifier_descriptor_entries_first (d : Z) : M (option Z) :=
  len ← descriptor_len d;
  if len =? 0 then mret None
  else mret (Some (d + sizeof struct_dvb_content_identifier_descriptor)).

Definition dvb_content_identifier_descriptor_entries_next (d pos : Z) : M (option Z) :=
  len ← descriptor_len d;
  let end_ := d + 2 + len in
  let next := pos + sizeof struct_dvb_content_identifier_entry in
  if end_ <=? next then mret None
  else
    crid_location ← fld struct_dvb_content_identifier_entry "crid_location" pos;
    if crid_location =? 0 then
      if end_ <=? next + 2 then mret None
      else
        b ← ld8 (next + 1);
        if end_ <=? next + 2 + b then mret None else mret (Some next)
    else
      crid_location ← fld struct_dvb_content_identifier_entry "crid_location" pos;
      if crid_location =? 1 then if end_ <=? next + 3 then mret None else mret (Some next)
      else mret (Some next).

(** *** country_availability_descriptor.h *)

Definition struct_dvb_country_availability_descriptor : layout :=
  [[("d", 16)]; [("country_availability_flag", 1); ("reserved", 7)]].
Definition struct_dvb_country_availability_entry : layout := [[("country_code", 24)]].

Definition dvb_country_availability_descriptor_codec (d : Z) : M unit :=
  len ← descriptor_len d;
  reject_if (len <? sizeof struct_dvb_country_availability_descriptor - 2);;
  reject_if (negb (u32 (len - 1) mod sizeof struct_dvb_country_availability_entry =? 0)).

Definition dvb_country_availability_descriptor_countries_first (d : Z) : M (option Z) :=
  len ← descriptor_len d;
  if len =? 1 then mret None
  else mret (Some (d + sizeof struct_dvb_country_availability_descriptor)).

Definition dvb_country_availability_descriptor_countries_next (d pos : Z) : M (option Z) :=
  len ← descriptor_len d;
  let end_ := d + 2 + len in
  let next := pos + sizeof struct_dvb_country_availability_entry in
  if end_ <=? next then mret None else mret (Some next).

(** *** data_broadcast_descriptor.h *)

Definition struct_dvb_data_broadcast_descriptor : layout :=
  [[("d", 16)]; [("data_broadcast_id", 16)]; [("component_tag", 8)]; [("selector_length", 8)]].
Definition struct_dvb_data_broadcast_descriptor_part2 : layout :=
  [[("language_code", 24)]; [("text_length", 8)]].

Definition dvb_data_broadcast_descriptor_codec (d : Z) : M unit :=
  let buf := d + 2 in
  let pos := sizeof struct_dvb_data_broadcast_descriptor - 2 in
  len ← descriptor_len d;
  reject_if (len <? pos);;
  bswap16 (buf + 2);;
  selector_length ← fld struct_dvb_data_broadcast_descriptor "selector_length" d;
  let pos := pos + selector_length in
  reject_if (len <? pos);;
  let p2 := buf + 2 + pos in
  let pos := pos + sizeof struct_dvb_data_broadcast_descriptor_part2 in
  reject_if (len <? pos);;
  text_length ← fld struct_dvb_data_broadcast_descriptor_part2 "text_length" p2;
  let pos := pos + text_length in
  reject_if (negb (pos =? len)).

Definition dvb_data_broadcast_descriptor_selector (d : Z) : Z :=
  d + sizeof struct_dvb_data_broadcast_descriptor.

Definition dvb_data_broadcast_descriptor_part2 (d : Z) : M Z :=
  selector_length ← fld struct_dvb_data_broadcast_descriptor "selector_length" d;
  mret (d + sizeof struct_dvb_data_broadcast_descriptor + selector_length).

Definition dvb_data_broadcast_descriptor_part2_text (d : Z) : Z :=
  d + sizeof struct_dvb_data_broadcast_descriptor_part2.

(** *** data_broadcast_id_descriptor.h *)

Definition struct_dvb_data_broadcast_id_descriptor : layout :=
  [[("d", 16)]; [("data_broadcast_id", 16)]].
Definition struct_dvb_id_selector_byte_000b : layout := [[("platform_id_data_length", 8)]].
Definition struct_dvb_ip_mac_notification_info : layout :=
  [[("platform_id", 24); ("action_type", 8)]; [("reserved", 2); ("INT_versioning_flag", 1);
    ("INT_version", 5)]].

Definition dvb_data_broadcast_id_descriptor_codec (d : Z) : M unit :=
  len ← descriptor_len d;
  reject_if (len <? sizeof struct_dvb_data_broadcast_id_descriptor - 2);;
  bswap16 (d + 2).

Definition dvb_data_broadcast_id_descriptor_id_selector_byte (d : Z) : Z :=
  d + sizeof struct_dvb_data_broadcast_id_descriptor.

Definition dvb_data_broadcast_id_descriptor_id_selector_byte_length (d : Z) : M Z :=
  len ← descriptor_len d;
  mret (len - 2).

Definition dvb_id_selector_byte_000b (d : Z) : M (option Z) :=
  data_broadcast_id ← fld struct_dvb_data_broadcast_id_descriptor "data_broadcast_id" d;
  if negb (data_broadcast_id =? 0x000B) then mret None
  else mret (Some (dvb_data_broadcast_id_descriptor_id_selector_byte d)).

Definition dvb_id_selector_byte_000b_private_data_length (d i : Z) : M Z :=
  len ← descriptor_len d;
  platform_id_data_length ← fld struct_dvb_id_selector_byte_000b "platform_id_data_length" i;
  mret (u8 (u8 (len - sizeof struct_descriptor - platform_id_data_length - sizeof struct_dvb_id_selector_byte_000b))).

Definition dvb_id_selector_byte_000b_private_data (d i : Z) : M (option Z) :=
  r ← dvb_id_selector_byte_000b_private_data_length d i;
  if r <=? 0 then mret None
  else
    platform_id_data_length ← fld struct_dvb_id_selector_byte_000b "platform_id_data_length" i;
    mret (Some (i + platform_id_data_length + sizeof struct_dvb_id_selector_byte_000b)).

Definition dvb_ip_mac_notification_info_first (d : Z) : M (option Z) :=
  platform_id_data_length ← fld struct_dvb_id_selector_byte_000b "platform_id_data_length" d;
  if platform_id_data_length =? 0 then mret None
  else
    bswap32 (d + sizeof struct_dvb_id_selector_byte_000b);;
    mret (Some (d + sizeof struct_dvb_id_selector_byte_000b)).

Definition dvb_ip_mac_notification_info_next (d pos : Z) : M (option Z) :=
  platform_id_data_length ← fld struct_dvb_id_selector_byte_000b "platform_id_data_length" d;
  let end_ := d + platform_id_data_length in
  let next := pos + sizeof struct_dvb_id_selector_byte_000b + sizeof struct_dvb_ip_mac_notification_info in
  if end_ <=? next then mret None
  else
    bswap32 next;;
    mret (Some next).

(** *** default_authority_descriptor.h *)

Definition struct_dvb_default_authority_descriptor : layout := [[("d", 16)]].

Definition dvb_default_authority_descriptor_codec (d : Z) : M unit := mret tt.

Definition dvb_default_authority_descriptor_name (d : Z) : Z :=
  d + sizeof struct_dvb_default_authority_descriptor.

Definition dvb_default_authority_descriptor_name_length (d : Z) : M Z :=
  len ← descriptor_len d;
  mret len.

(** *** dsng_descriptor.h *)

Definition struct_dvb_dsng_descriptor : layout := [[("d", 16)]].

Definition dvb_dsng_descriptor_codec (d : Z) : M unit := mret tt.

Definition dvb_dsng_descriptor_data (d : Z) : Z := d + sizeof struct_dvb_dsng_descriptor.

Definition dvb_dsng_descriptor_data_length (d : Z) : M Z :=
  len ← descriptor_len d;
  mret len.

(** *** extended_event_descriptor.h *)

Definition struct_dvb_extended_event_descriptor : layout :=
  [[("d", 16)]; [("descriptor_number", 4); ("last_descriptor_number", 4)];
   [("language_code", 24)]; [("length_of_items", 8)]].
Definition struct_dvb_extended_event_item : layout := [[("item_description_length", 8)]].
Definition struct_dvb_extended_event_item_part2 : layout := [[("item_length", 8)]].
Definition struct_dvb_extended_event_descriptor_part2 : layout := [[("text_length", 8)]].

Definition dvb_extended_event_descriptor_codec (d : Z) : M unit :=
  let buf := d + 2 in
  let pos := 0 in
  len ← descriptor_len d;
  let pos := pos + (sizeof struct_dvb_extended_event_descriptor - 2) in
  reject_if (len <? pos);;
  length_of_items ← fld struct_dvb_extended_event_descriptor "length_of_items" d;
  let pos := pos + length_of_items in
  reject_if (len <? pos);;
  let p2 := buf + pos in
  let pos := pos + sizeof struct_dvb_extended_event_descriptor_part2 in
  reject_if (len <? pos);;
  text_length ← fld struct_dvb_extended_event_descriptor_part2 "text_length" p2;
  let pos := pos + text_length in
  reject_if (negb (pos =? len)).

Definition dvb_extended_event_item_description (d : Z) : Z :=
  d + sizeof struct_dvb_extended_event_item.

Definition dvb_extended_event_item_part2 (d : Z) : M Z :=
  item_description_length ← fld struct_dvb_extended_event_item "item_description_length" d;
  mret (d + sizeof struct_dvb_extended_event_item + item_description_length).

Definition dvb_extended_event_item_part2_item (d : Z) : Z :=
  d + sizeof struct_dvb_extended_event_item_part2.

Definition dvb_extended_event_descriptor_part2 (d : Z) : M Z :=
  length_of_items ← fld struct_dvb_extended_event_descriptor "length_of_items" d;
  mret (d + sizeof struct_dvb_extended_event_descriptor + length_of_items).

Definition dvb_extended_event_descriptor_part2_text (d : Z) : Z :=
  d + sizeof struct_dvb_extended_event_descriptor_part2.

Definition dvb_extended_event_descriptor_items_first (d : Z) : M (option Z) :=
  length_of_items ← fld struct_dvb_extended_event_descriptor "length_of_items" d;
  if length_of_items =? 0 then mret None
  else mret (Some (d + sizeof struct_dvb_extended_event_descriptor)).

Definition dvb_extended_event_descriptor_items_next (d pos : Z) : M (option Z) :=
  p ← dvb_extended_event_item_part2 pos;
  length_of_items ← fld struct_dvb_extended_event_descriptor "length_of_items" d;
  let end_ := d + sizeof struct_dvb_extended_event_descriptor + length_of_items in
  item_length ← fld struct_dvb_extended_event_item_part2 "item_length" p;
  let next := p + sizeof struct_dvb_extended_event_item_part2 + item_length in
  if end_ <=? next then mret None else mret (Some next).

(** *** frequency_list_descriptor.h *)

Definition struct_dvb_frequency_list_descriptor : layout :=
  [[("d", 16)]; [("reserved", 6); ("coding_type", 2)]].

Definition dvb_frequency_list_descriptor_codec (d : Z) : M unit :=
  let pos := 0 in
  let buf := d + 2 in
  len ← descriptor_len d;
  let pos := pos + (sizeof struct_dvb_frequency_list_descriptor - 2) in
  reject_if (negb (u32 (len - pos) mod 4 =? 0));;
  _ ← while (fun pos => mret (pos <? len)) (fun pos =>
    bswap32 (buf + pos);;
    mret (pos + 4)) pos;
  mret tt.

Definition dvb_frequency_list_descriptor_centre_frequencies (d : Z) : Z :=
  d + sizeof struct_dvb_frequency_list_descriptor.

Definition dvb_frequency_list_descriptor_centre_frequencies_count (d : Z) : M Z :=
  len ← descriptor_len d;
  mret (Z.shiftr (len - 1) 2).

(** *** ip_mac_platform_name_descriptor.h *)

Definition struct_dvb_ip_platform_name_descriptor : layout :=
  [[("d", 16)]; [("language_code", 24)]].

Definition dvb_ip_platform_name_descriptor_codec (d : Z) : M unit :=
  len ← descriptor_len d;
  reject_if (len <? sizeof struct_dvb_ip_platform_name_descriptor - 2).

Definition dvb_ip_platform_name_descriptor_text (d : Z) : Z :=
  d + sizeof struct_dvb_ip_platform_name_descriptor.

Definition dvb_ip_platform_name_descriptor_text_length (d : Z) : M Z :=
  len ← descriptor_len d;
  mret (len - 3).

(** *** ip_mac_platform_provider_name_descriptor.h *)

Definition struct_dvb_ip_platform_provider_name_descriptor : layout :=
  [[("d", 16)]; [("language_code", 24)]].

Definition dvb_ip_platform_provider_name_descriptor_codec (d : Z) : M unit :=
  len ← descriptor_len d;
  reject_if (len <? sizeof struct_dvb_ip_platform_provider_name_descriptor - 2).

Definition dvb_ip_platform_provider_name_descriptor_text (d : Z) : Z :=
  d + sizeof struct_dvb_ip_platform_provider_name_descriptor.

Definition dvb_ip_platform_provider_name_descriptor_text_length (d : Z) : M Z :=
  len ← descriptor_len d;
  mret (len - 3).

(** *** ip_mac_stream_location_descriptor.h *)

Definition struct_dvb_ip_mac_stream_location_descriptor : layout :=
  [[("d", 16)]; [("network_id", 16)]; [("original_network_id", 16)];
   [("transport_stream_id", 16)]; [("service_id", 16)]; [("component_tag", 8)]].

Definition dvb_ip_mac_stream_location_descriptor_codec (d : Z) : M unit :=
  let buf := d + 2 in
  len ← descriptor_len d;
  reject_if (negb (len =? sizeof struct_dvb_ip_mac_stream_location_descriptor - 2));;
  bswap16 buf;;
  bswap16 (buf + 2);;
  bswap16 (buf + 4);;
  bswap16 (buf + 6).

(** *** linkage_descriptor.h *)

Definition struct_dvb_linkage_descriptor : layout :=
  [[("d", 16)]; [("transport_stream_id", 16)]; [("original_network_id", 16)];
   [("service_id", 16)]; [("linkage_type", 8)]].
Definition struct_dvb_linkage_data_08 : layout :=
  [[("hand_over_type", 4); ("reserved", 3); ("origin_type", 1)]].
Definition struct_dvb_linkage_data_0b : layout := [[("platform_id_data_length", 8)]].
Definition struct_dvb_platform_id : layout :=
  [[("platform_id", 24); ("platform_name_loop_length", 8)]].
Definition struct_dvb_platform_name : layout :=
  [[("language_code", 24)]; [("platform_name_length", 8)]].
Definition struct_dvb_linkage_data_0c : layout := [[("table_type", 8)]].

Definition dvb_linkage_descriptor_codec (d : Z) : M unit :=
  let pos := 0 in
  let buf := d + 2 in
  len ← descriptor_len d;
  reject_if (len <? sizeof struct_dvb_linkage_descriptor - 2);;
  bswap16 buf;;
  bswap16 (buf + 2);;
  bswap16 (buf + 4);;
  let pos := pos + (sizeof struct_dvb_linkage_descriptor - 2) in
  linkage_type ← fld struct_dvb_linkage_descriptor "linkage_type" d;
  pos ← (if linkage_type =? 0x08 then
    reject_if (u32 (len - pos) <? sizeof struct_dvb_linkage_data_08);;
    let d08 := buf + pos in
    let pos := pos + sizeof struct_dvb_linkage_data_08 in
    hand_over_type ← fld struct_dvb_linkage_data_08 "hand_over_type" d08;
    pos ← (if ((hand_over_type =? 1) || (hand_over_type =? 2)) || (hand_over_type =? 3) then
      reject_if (u32 (len - pos) <? 2);;
      bswap16 (buf + pos);;
      mret (pos + 2)
    else mret pos);
    origin_type ← fld struct_dvb_linkage_data_08 "origin_type" d08;
    pos ← (if origin_type =? 0 then
      reject_if (u32 (len - pos) <? 2);;
      bswap16 (buf + pos);;
      mret (pos + 2)
    else mret pos);
    mret pos
  else
    linkage_type ← fld struct_dvb_linkage_descriptor "linkage_type" d;
    pos ← (if linkage_type =? 0x0b then
      let pos2 := 0 in
      let l_0b := buf + pos in
      reject_if (u32 (len - pos) <? sizeof struct_dvb_linkage_data_0b);;
      let pos := pos + sizeof struct_dvb_linkage_data_0b in
      platform_id_data_length ← fld struct_dvb_linkage_data_0b "platform_id_data_length" l_0b;
      reject_if (u32 (len - pos) <? platform_id_data_length);;
      pos2 ← while (fun pos2 =>
            platform_id_data_length ← fld struct_dvb_linkage_data_0b "platform_id_data_length" l_0b;
            mret (pos2 <? platform_id_data_length)) (fun pos2 =>
        bswap32 (buf + pos + pos2);;
        let p_id := buf + pos + pos2 in
        platform_name_loop_length ← fld struct_dvb_platform_id "platform_name_loop_length" p_id;
        reject_if (u32 (u32 (len - pos) - pos2) <? platform_name_loop_length);;
        platform_name_loop_length ← fld struct_dvb_platform_id "platform_name_loop_length" p_id;
        mret (pos2 + sizeof struct_dvb_platform_id + platform_name_loop_length)) pos2;
      mret (pos + pos2)
    else
      linkage_type ← fld struct_dvb_linkage_descriptor "linkage_type" d;
      pos ← (if linkage_type =? 0x0c then
        let l_0c := buf + pos in
        reject_if (u32 (len - pos) <? sizeof struct_dvb_linkage_data_0c);;
        let pos := pos + sizeof struct_dvb_linkage_data_0c in
        table_type ← fld struct_dvb_linkage_data_0c "table_type" l_0c;
        (if table_type =? 0x02 then
          reject_if (u32 (len - pos) <? 2);;
          bswap16 (buf + pos);;
          mret tt
        else mret tt);;
        mret pos
      else mret pos);
      mret pos);
    mret pos);
  mret tt.

Definition dvb_linkage_descriptor_data (d : Z) : Z := d + sizeof struct_dvb_linkage_descriptor.

Definition dvb_linkage_descriptor_data_length (d : Z) : M Z :=
  len ← descriptor_len d;
  mret (len - 7).

Definition dvb_linkage_data_08 (d : Z) : M (option Z) :=
  linkage_type ← fld struct_dvb_linkage_descriptor "linkage_type" d;
  if negb (linkage_type =? 0x08) then mret None
  else mret (Some (dvb_linkage_descriptor_data d)).

Definition dvb_linkage_data_08_network_id (d d08 : Z) : M Z :=
  linkage_type ← fld struct_dvb_linkage_descriptor "linkage_type" d;
  if negb (linkage_type =? 0x08) then mret (-1)
  else
    hand_over_type ← fld struct_dvb_linkage_data_08 "hand_over_type" d08;
    if ((hand_over_type =? 1) || (hand_over_type =? 2)) || (hand_over_type =? 3) then
      w ← ld16 (d08 + sizeof struct_dvb_linkage_data_08);
      mret w
    else mret (-1).

Definition dvb_linkage_data_08_initial_service_id (d d08 : Z) : M Z :=
  linkage_type ← fld struct_dvb_linkage_descriptor "linkage_type" d;
  if negb (linkage_type =? 0x08) then mret (-1)
  else
    origin_type ← fld struct_dvb_linkage_data_08 "origin_type" d08;
    if negb (origin_type =? 0) then mret (-1)
    else
      let pos := d08 + sizeof struct_dvb_linkage_data_08 in
      hand_over_type ← fld struct_dvb_linkage_data_08 "hand_over_type" d08;
      let pos :=
        if ((hand_over_type =? 1) || (hand_over_type =? 2)) || (hand_over_type =? 3)
        then pos + 2
        else pos in
      w ← ld16 pos;
      mret w.

Definition dvb_linkage_data_08_data (d d08 : Z) : M ((option Z) * Z) :=
  let used := 0 in
  linkage_type ← fld struct_dvb_linkage_descriptor "linkage_type" d;
  if negb (linkage_type =? 0x08) then mret (None, 0)
  else
    let pos := d08 + sizeof struct_dvb_linkage_data_08 in
    hand_over_type ← fld struct_dvb_linkage_data_08 "hand_over_type" d08;
    '(pos, used) ← (if ((hand_over_type =? 1) || (hand_over_type =? 2)) || (hand_over_type =? 3) then
      let pos := pos + 2 in
      let used := used + 2 in
      mret (pos, used)
    else mret (pos, used));
    origin_type ← fld struct_dvb_linkage_data_08 "origin_type" d08;
    '(pos, used) ← (if origin_type =? 0 then
      let pos := pos + 2 in
      let used := used + 2 in
      mret (pos, used)
    else mret (pos, used));
    r ← dvb_linkage_descriptor_data_length d;
    let length := r - sizeof struct_dvb_linkage_data_08 + used in
    mret (Some pos, length).

Definition dvb_linkage_data_0b (d : Z) : M (option Z) :=
  linkage_type ← fld struct_dvb_linkage_descriptor "linkage_type" d;
  if negb (linkage_type =? 0x0b) then mret None
  else mret (Some (dvb_linkage_descriptor_data d)).

Definition dvb_platform_name_text (p : Z) : Z := p + sizeof struct_dvb_platform_name.

Definition dvb_linkage_data_0c (d : Z) : M (option Z) :=
  linkage_type ← fld struct_dvb_linkage_descriptor "linkage_type" d;
  if negb (linkage_type =? 0x0c) then mret None
  else mret (Some (dvb_linkage_descriptor_data d)).

Definition dvb_linkage_data_0c_bouquet_id (l_0c : Z) : M Z :=
  table_type ← fld struct_dvb_linkage_data_0c "table_type" l_0c;
  if negb (table_type =? 0x02) then mret (-1)
  else
    w ← ld16 (l_0c + 1);
    mret w.

Definition dvb_platform_id_first (d : Z) : M (option Z) :=
  platform_id_data_length ← fld struct_dvb_linkage_data_0b "platform_id_data_length" d;
  if platform_id_data_length =? 0 then mret None
  else mret (Some (d + sizeof struct_dvb_linkage_data_0b)).

Definition dvb_platform_id_next (d pos : Z) : M (option Z) :=
  platform_id_data_length ← fld struct_dvb_linkage_data_0b "platform_id_data_length" d;
  let end_ := d + platform_id_data_length in
  platform_name_loop_length ← fld struct_dvb_platform_id "platform_name_loop_length" pos;
  let next := pos + sizeof struct_dvb_platform_id + platform_name_loop_length in
  if end_ <=? next then mret None else mret (Some next).

Definition dvb_platform_name_first (p : Z) : M (option Z) :=
  platform_name_loop_length ← fld struct_dvb_platform_id "platform_name_loop_length" p;
  if platform_name_loop_length =? 0 then mret None
  else mret (Some (p + sizeof struct_dvb_platform_id)).

Definition dvb_platform_name_next (p pos : Z) : M (option Z) :=
  platform_name_loop_length ← fld struct_dvb_platform_id "platform_name_loop_length" p;
  let end_ := p + platform_name_loop_length in
  platform_name_length ← fld struct_dvb_platform_name "platform_name_length" pos;
  let next := pos + sizeof struct_dvb_platform_name + platform_name_length in
  if end_ <=? next then mret None else mret (Some next).

(** *** local_time_offset_descriptor.h *)

Definition struct_dvb_local_time_offset_descriptor : layout := [[("d", 16)]].
Definition struct_dvb_local_time_offset : layout :=
  [[("country_code", 24)]; [("country_region_id", 6); ("reserved", 1);
    ("local_time_offset_polarity", 1)]; [("local_time_offset", 16)]; [("time_of_change", 40)];
   [("next_time_offset", 16)]].

Definition dvb_local_time_offset_descriptor_codec (d : Z) : M unit :=
  len ← descriptor_len d;
  let pos := 0 in
  reject_if (negb (len mod sizeof struct_dvb_local_time_offset =? 0));;
  _ ← while (fun pos => mret (pos <? len)) (fun pos =>
    mret (pos + sizeof struct_dvb_local_time_offset)) pos;
  mret tt.

Definition dvb_local_time_offset_descriptor_offsets_first (d : Z) : M (option Z) :=
  len ← descriptor_len d;
  if len =? 0 then mret None
  else mret (Some (d + sizeof struct_dvb_local_time_offset_descriptor)).

Definition dvb_local_time_offset_descriptor_offsets_next (d pos : Z) : M (option Z) :=
  len ← descriptor_len d;
  let end_ := d + 2 + len in
  let next := pos + sizeof struct_dvb_local_time_offset in
  if end_ <=? next then mret None else mret (Some next).

(** *** mhp_data_broadcast_id_descriptor.h *)

Definition struct_dvb_mhp_data_broadcast_id_descriptor : layout := [[("d", 32)]].

Definition dvb_mhp_data_broadcast_id_descriptor_codec (d : Z) : M unit :=
  let pos := 0 in
  data_broadcast_id ← fld struct_dvb_data_broadcast_id_descriptor "data_broadcast_id" d;
  reject_if ((data_broadcast_id <? 0xf0) || (0xfe <? data_broadcast_id));;
  let buf := dvb_data_broadcast_id_descriptor_id_selector_byte d in
  len ← dvb_data_broadcast_id_descriptor_id_selector_byte_length d;
  reject_if (negb (len mod 2 =? 0));;
  _ ← while (fun pos => mret (pos <? len)) (fun pos =>
    bswap16 (buf + pos);;
    mret (pos + 2)) pos;
  mret tt.

Definition dvb_mhp_data_broadcast_id_descriptor_id_application_type (d : Z) : Z :=
  dvb_data_broadcast_id_descriptor_id_selector_byte d.

Definition dvb_mhp_data_broadcast_id_descriptor_id_application_type_count (d : Z) : M Z :=
  r ← dvb_data_broadcast_id_descriptor_id_selector_byte_length d;
  mret (Z.shiftr r 1).

(** *** mosaic_descriptor.h *)

Definition struct_dvb_mosaic_descriptor : layout :=
  [[("d", 16)]; [("mosaic_entry_point", 1); ("number_of_horiz_elementary_cells", 3);
    ("reserved", 1); ("number_of_vert_elementary_cells", 3)]].
Definition struct_dvb_mosaic_info : layout :=
  [[("logical_cell_id", 6); ("reserved", 7); ("logical_cell_presentation_info", 3)];
   [("elementary_cell_field_length", 8)]].
Definition struct_dvb_mosaic_elementary_cell_field : layout :=
  [[("reserved", 2); ("elementary_cell_id", 6)]].
Definition struct_dvb_mosaic_info_part2 : layout := [[("cell_linkage_info", 8)]].
Definition struct_dvb_mosaic_linkage_01 : layout := [[("bouquet_id", 16)]].
Definition struct_dvb_mosaic_linkage_02 : layout :=
  [[("original_network_id", 16)]; [("transport_stream_id", 16)]; [("service_id", 16)]].
Definition struct_dvb_mosaic_linkage_03 : layout :=
  [[("original_network_id", 16)]; [("transport_stream_id", 16)]; [("service_id", 16)]].
Definition struct_dvb_mosaic_linkage_04 : layout :=
  [[("original_network_id", 16)]; [("transport_stream_id", 16)]; [("service_id", 16)];
   [("event_id", 16)]].

Definition dvb_mosaic_descriptor_codec (d : Z) : M unit :=
  let buf := d + 2 in
  let pos := 0 in
  len ← descriptor_len d;
  let pos := pos + (sizeof struct_dvb_mosaic_descriptor - 2) in
  reject_if (len <? pos);;
  _ ← while (fun pos => mret (pos <? len)) (fun pos =>
    let e := buf + pos in
    reject_if (len <? pos + sizeof struct_dvb_mosaic_info);;
    bswap16 (buf + pos);;
    elementary_cell_field_length ← fld struct_dvb_mosaic_info "elementary_cell_field_length" e;
    let pos := pos + sizeof struct_dvb_mosaic_info + elementary_cell_field_length in
    reject_if (len <? pos);;
    let e2 := buf + pos in
    let pos := pos + sizeof struct_dvb_mosaic_info_part2 in
    reject_if (len <? pos);;
    cell_linkage_info ← fld struct_dvb_mosaic_info_part2 "cell_linkage_info" e2;
    pos ← (if cell_linkage_info =? 0x01 then
      reject_if (len <? pos + sizeof struct_dvb_mosaic_linkage_01);;
      bswap16 (buf + pos);;
      mret (pos + sizeof struct_dvb_mosaic_linkage_01)
    else
      cell_linkage_info ← fld struct_dvb_mosaic_info_part2 "cell_linkage_info" e2;
      pos ← (if cell_linkage_info =? 0x02 then
        reject_if (len <? pos + sizeof struct_dvb_mosaic_linkage_02);;
        bswap16 (buf + pos);;
        bswap16 (buf + pos + 2);;
        bswap16 (buf + pos + 4);;
        mret (pos + sizeof struct_dvb_mosaic_linkage_02)
      else
        cell_linkage_info ← fld struct_dvb_mosaic_info_part2 "cell_linkage_info" e2;
        pos ← (if cell_linkage_info =? 0x03 then
          reject_if (len <? pos + sizeof struct_dvb_mosaic_linkage_03);;
          bswap16 (buf + pos);;
          bswap16 (buf + pos + 2);;
          bswap16 (buf + pos + 4);;
          mret (pos + sizeof struct_dvb_mosaic_linkage_03)
        else
          cell_linkage_info ← fld struct_dvb_mosaic_info_part2 "cell_linkage_info" e2;
          pos ← (if cell_linkage_info =? 0x04 then
            reject_if (len <? pos + sizeof struct_dvb_mosaic_linkage_04);;
            bswap16 (buf + pos);;
            bswap16 (buf + pos + 2);;
            bswap16 (buf + pos + 4);;
            bswap16 (buf + pos + 6);;
            mret (pos + sizeof struct_dvb_mosaic_linkage_04)
          else mret pos);
          mret pos);
        mret pos);
      mret pos);
    mret pos) pos;
  mret tt.

Definition dvb_mosaic_info_part2 (entry : Z) : M Z :=
  elementary_cell_field_length ← fld struct_dvb_mosaic_info "elementary_cell_field_length" entry;
  mret (entry + sizeof struct_dvb_mosaic_info + elementary_cell_field_length).

Definition dvb_mosaic_linkage (entry : Z) : M (option Z) :=
  cell_linkage_info ← fld struct_dvb_mosaic_info_part2 "cell_linkage_info" entry;
  if negb (cell_linkage_info =? 0x01) && negb (cell_linkage_info =? 0x02) &&
     negb (cell_linkage_info =? 0x03) && negb (cell_linkage_info =? 0x04) then
    mret None
  else mret (Some (entry + sizeof struct_dvb_mosaic_info_part2)).

Definition dvb_mosaic_descriptor_infos_first (d : Z) : M (option Z) :=
  len ← descriptor_len d;
  if len =? 1 then mret None else mret (Some (d + sizeof struct_dvb_mosaic_descriptor)).

Definition dvb_mosaic_descriptor_infos_next (d pos : Z) : M (option Z) :=
  p ← dvb_mosaic_info_part2 pos;
  len ← descriptor_len d;
  let end_ := d + 2 + len in
  elementary_cell_field_length ← fld struct_dvb_mosaic_info "elementary_cell_field_length" pos;
  let next := pos + sizeof struct_dvb_mosaic_info + elementary_cell_field_length + sizeof struct_dvb_mosaic_info_part2 in
  cell_linkage_info ← fld struct_dvb_mosaic_info_part2 "cell_linkage_info" p;
  next ← (if cell_linkage_info =? 0x01 then
    mret (next + sizeof struct_dvb_mosaic_linkage_01)
  else
    cell_linkage_info ← fld struct_dvb_mosaic_info_part2 "cell_linkage_info" p;
    next ← (if cell_linkage_info =? 0x02 then
      mret (next + sizeof struct_dvb_mosaic_linkage_02)
    else
      cell_linkage_info ← fld struct_dvb_mosaic_info_part2 "cell_linkage_info" p;
      next ← (if cell_linkage_info =? 0x03 then
        mret (next + sizeof struct_dvb_mosaic_linkage_03)
      else
        cell_linkage_info ← fld struct_dvb_mosaic_info_part2 "cell_linkage_info" p;
        let next :=
          if cell_linkage_info =? 0x04
          then next + sizeof struct_dvb_mosaic_linkage_04
          else next in
        mret next);
      mret next);
    mret next);
  if end_ <=? next then mret None else mret (Some next).

Definition dvb_mosaic_info_fields_first (d : Z) : M (option Z) :=
  elementary_cell_field_length ← fld struct_dvb_mosaic_info "elementary_cell_field_length" d;
  if elementary_cell_field_length =? 0 then mret None
  else mret (Some (d + sizeof struct_dvb_mosaic_info)).

Definition dvb_mosaic_info_fields_next (d pos : Z) : M (option Z) :=
  elementary_cell_field_length ← fld struct_dvb_mosaic_info "elementary_cell_field_length" d;
  let end_ := d + sizeof struct_dvb_mosaic_info + elementary_cell_field_length in
  let next := pos + sizeof struct_dvb_mosaic_elementary_cell_field in
  if end_ <=? next then mret None else mret (Some next).

(** *** multilingual_bouquet_name_descriptor.h *)

Definition struct_dvb_multilingual_bouquet_name_descriptor : layout := [[("d", 16)]].
Definition struct_dvb_multilingual_bouquet_name : layout :=
  [[("language_code", 24)]; [("bouquet_name_length", 8)]].

Definition dvb_multilingual_bouquet_name_descriptor_codec (d : Z) : M unit :=
  let buf := d + 2 in
  let pos := 0 in
  len ← descriptor_len d;
  _ ← while (fun pos => mret (pos <? len)) (fun pos =>
    let e := buf + pos in
    let pos := pos + sizeof struct_dvb_multilingual_bouquet_name in
    reject_if (len <? pos);;
    bouquet_name_length ← fld struct_dvb_multilingual_bouquet_name "bouquet_name_length" e;
    let pos := pos + bouquet_name_length in
    reject_if (len <? pos);;
    mret pos) pos;
  mret tt.

Definition dvb_multilingual_bouquet_name_name (e : Z) : Z :=
  e + sizeof struct_dvb_multilingual_bouquet_name.

Definition dvb_multilingual_bouquet_name_descriptor_names_first (d : Z) : M (option Z) :=
  len ← descriptor_len d;
  if len =? 0 then mret None
  else mret (Some (d + sizeof struct_dvb_multilingual_bouquet_name_descriptor)).

Definition dvb_multilingual_bouquet_name_descriptor_names_next (d pos : Z) : M (option Z) :=
  len ← descriptor_len d;
  let end_ := d + 2 + len in
  bouquet_name_length ← fld struct_dvb_multilingual_bouquet_name "bouquet_name_length" pos;
  let next := pos + sizeof struct_dvb_multilingual_bouquet_name + bouquet_name_length in
  if end_ <=? next then mret None else mret (Some next).

(** *** multilingual_component_descriptor.h *)

Definition struct_dvb_multilingual_component_descriptor : layout :=
  [[("d", 16)]; [("component_tag", 8)]].
Definition struct_dvb_multilingual_component : layout :=
  [[("language_code", 24)]; [("text_description_length", 8)]].

Definition dvb_multilingual_component_descriptor_codec (d : Z) : M unit :=
  let buf := d + 2 in
  let pos := sizeof struct_dvb_multilingual_component_descriptor - 2 in
  len ← descriptor_len d;
  reject_if (len <? pos);;
  _ ← while (fun pos => mret (pos <? len)) (fun pos =>
    let e := buf + pos in
    let pos := pos + sizeof struct_dvb_multilingual_component in
    reject_if (len <? pos);;
    text_description_length ← fld struct_dvb_multilingual_component "text_description_length" e;
    let pos := pos + text_description_length in
    reject_if (len <? pos);;
    mret pos) pos;
  mret tt.

Definition dvb_multilingual_component_text_char (e : Z) : Z :=
  e + sizeof struct_dvb_multilingual_component.

Definition dvb_multilingual_component_descriptor_components_first (d : Z) : M (option Z) :=
  len ← descriptor_len d;
  if len =? 1 then mret None
  else mret (Some (d + sizeof struct_dvb_multilingual_component_descriptor)).

Definition dvb_multilingual_component_descriptor_components_next (d pos : Z) : M (option Z) :=
  len ← descriptor_len d;
  let end_ := d + 2 + len in
  text_description_length ← fld struct_dvb_multilingual_component "text_description_length" pos;
  let next := pos + sizeof struct_dvb_multilingual_component + text_description_length in
  if end_ <=? next then mret None else mret (Some next).

(** *** multilingual_network_name_descriptor.h *)

Definition struct_dvb_multilingual_network_name_descriptor : layout := [[("d", 16)]].
Definition struct_dvb_multilingual_network_name : layout :=
  [[("language_code", 24)]; [("network_name_length", 8)]].

Definition dvb_multilingual_network_name_descriptor_codec (d : Z) : M unit :=
  let buf := d + 2 in
  let pos := 0 in
  len ← descriptor_len d;
  _ ← while (fun pos => mret (pos <? len)) (fun pos =>
    let e := buf + pos in
    let pos := pos + sizeof struct_dvb_multilingual_network_name in
    reject_if (len <? pos);;
    network_name_length ← fld struct_dvb_multilingual_network_name "network_name_length" e;
    let pos := pos + network_name_length in
    reject_if (len <? pos);;
    mret pos) pos;
  mret tt.

Definition dvb_multilingual_network_name_name (e : Z) : Z :=
  e + sizeof struct_dvb_multilingual_network_name.

Definition dvb_multilingual_network_name_descriptor_names_first (d : Z) : M (option Z) :=
  len ← descriptor_len d;
  if len =? 0 then mret None
  else mret (Some (d + sizeof struct_dvb_multilingual_network_name_descriptor)).

Definition dvb_multilingual_network_name_descriptor_names_next (d pos : Z) : M (option Z) :=
  len ← descriptor_len d;
  let end_ := d + 2 + len in
  network_name_length ← fld struct_dvb_multilingual_network_name "network_name_length" pos;
  let next := pos + sizeof struct_dvb_multilingual_network_name + network_name_length in
  if end_ <=? next then mret None else mret (Some next).

(** *** multilingual_service_name_descriptor.h *)

Definition struct_dvb_multilingual_service_name_descriptor : layout := [[("d", 16)]].
Definition struct_dvb_multilingual_service_name : layout :=
  [[("language_code", 24)]; [("service_provider_name_length", 8)]].
Definition struct_dvb_multilingual_service_name_part2 : layout := [[("service_name_length", 8)]].

Definition dvb_multilingual_service_name_descriptor_codec (d : Z) : M unit :=
  let buf := d + 2 in
  let pos := 0 in
  len ← descriptor_len d;
  _ ← while (fun pos => mret (pos <? len)) (fun pos =>
    let e := buf + pos in
    let pos := pos + sizeof struct_dvb_multilingual_service_name in
    reject_if (len <? pos);;
    service_provider_name_length ←
      fld struct_dvb_multilingual_service_name "service_provider_name_length" e;
    let pos := pos + service_provider_name_length in
    reject_if (len <? pos);;
    let e2 := buf + pos in
    let pos := pos + sizeof struct_dvb_multilingual_service_name_part2 in
    reject_if (len <? pos);;
    service_name_length ← fld struct_dvb_multilingual_service_name_part2 "service_name_length" e2;
    let pos := pos + service_name_length in
    reject_if (len <? pos);;
    mret pos) pos;
  mret tt.

Definition dvb_multilingual_service_name_service_provider_name (e : Z) : Z :=
  e + sizeof struct_dvb_multilingual_service_name.

Definition dvb_multilingual_service_name_part2 (e : Z) : M Z :=
  service_provider_name_length ←
    fld struct_dvb_multilingual_service_name "service_provider_name_length" e;
  mret (e + sizeof struct_dvb_multilingual_service_name + service_provider_name_length).

Definition dvb_multilingual_service_name_service_name (e : Z) : Z :=
  e + sizeof struct_dvb_multilingual_service_name_part2.

Definition dvb_multilingual_service_name_descriptor_names_first (d : Z) : M (option Z) :=
  len ← descriptor_len d;
  if len =? 0 then mret None
  else mret (Some (d + sizeof struct_dvb_multilingual_service_name_descriptor)).

Definition dvb_multilingual_service_name_descriptor_names_next (d pos : Z) : M (option Z) :=
  p ← dvb_multilingual_service_name_part2 pos;
  len ← descriptor_len d;
  let end_ := d + 2 + len in
  service_name_length ← fld struct_dvb_multilingual_service_name_part2 "service_name_length" p;
  let next := p + sizeof struct_dvb_multilingual_service_name_part2 + service_name_length in
  if end_ <=? next then mret None else mret (Some next).

(** *** network_name_descriptor.h *)

Definition struct_dvb_network_name_descriptor : layout := [[("d", 16)]].

Definition dvb_network_name_descriptor_codec (d : Z) : M unit := mret tt.

Definition dvb_network_name_descriptor_name (d : Z) : Z :=
  d + sizeof struct_dvb_network_name_descriptor.

Definition dvb_network_name_descriptor_name_length (d : Z) : M Z :=
  len ← descriptor_len d;
  mret len.

(** *** nvod_reference_descriptor.h *)

Definition struct_dvb_nvod_reference_descriptor : layout := [[("d", 16)]].
Definition struct_dvb_nvod_reference : layout :=
  [[("transport_stream_id", 16)]; [("original_network_id", 16)]; [("service_id", 16)]].

Definition dvb_nvod_reference_descriptor_codec (d : Z) : M unit :=
  let pos := 0 in
  let buf := d + 2 in
  len ← descriptor_len d;
  reject_if (negb (len mod sizeof struct_dvb_nvod_reference =? 0));;
  _ ← while (fun pos => mret (pos <? len)) (fun pos =>
    bswap16 (buf + pos);;
    bswap16 (buf + pos + 2);;
    bswap16 (buf + pos + 4);;
    mret (pos + sizeof struct_dvb_nvod_reference)) pos;
  mret tt.

Definition dvb_nvod_reference_descriptor_references_first (d : Z) : M (option Z) :=
  len ← descriptor_len d;
  if len =? 0 then mret None
  else mret (Some (d + sizeof struct_dvb_nvod_reference_descriptor)).

Definition dvb_nvod_reference_descriptor_references_next (d pos : Z) : M (option Z) :=
  len ← descriptor_len d;
  let end_ := d + 2 + len in
  let next := pos + sizeof struct_dvb_nvod_reference in
  if end_ <=? next then mret None else mret (Some next).

(** *** parental_rating_descriptor.h *)

Definition struct_dvb_parental_rating_descriptor : layout := [[("d", 16)]].
Definition struct_dvb_parental_rating : layout := [[("country_code", 24)]; [("rating", 8)]].

Definition dvb_parental_rating_descriptor_codec (d : Z) : M unit :=
  len ← descriptor_len d;
  reject_if (negb (len mod sizeof struct_dvb_parental_rating =? 0)).

Definition dvb_parental_rating_descriptor_ratings_first (d : Z) : M (option Z) :=
  len ← descriptor_len d;
  if len =? 0 then mret None
  else mret (Some (d + sizeof struct_dvb_parental_rating_descriptor)).

Definition dvb_parental_rating_descriptor_ratings_next (d pos : Z) : M (option Z) :=
  len ← descriptor_len d;
  let end_ := d + 2 + len in
  let next := pos + sizeof struct_dvb_parental_rating in
  if end_ <=? next then mret None else mret (Some next).

(** *** partial_transport_stream_descriptor.h *)

Definition struct_dvb_partial_transport_stream_descriptor : layout :=
  [[("d", 16)]; [("reserved", 2); ("peak_rate", 22); ("reserved_2", 2);
    ("minimum_overall_smoothing_rate", 22); ("reserved_3", 2);
    ("maximum_overall_smoothing_rate", 14)]].

Definition dvb_partial_transport_stream_descriptor_codec (d : Z) : M unit :=
  len ← descriptor_len d;
  reject_if (negb (len =? sizeof struct_dvb_partial_transport_stream_descriptor - 2));;
  bswap64 (d + 2).

(** *** pdc_descriptor.h *)

Definition struct_dvb_pdc_descriptor : layout :=
  [[("d", 16)]; [("reserved", 4); ("programme_id_label", 20)]].

Definition dvb_pdc_descriptor_codec (d : Z) : M unit :=
  len ← descriptor_len d;
  reject_if (negb (len =? sizeof struct_dvb_pdc_descriptor - 2));;
  bswap24 (d + 2).

(** *** private_data_specifier_descriptor.h *)

Definition struct_dvb_private_data_specifier_descriptor : layout :=
  [[("d", 16)]; [("private_data_specifier", 32)]].

Definition dvb_private_data_specifier_descriptor_codec (d : Z) : M unit :=
  len ← descriptor_len d;
  reject_if (negb (len =? sizeof struct_dvb_private_data_specifier_descriptor - 2));;
  bswap32 (d + 2).

(** *** related_content_descriptor.h *)

Definition struct_dvb_related_content_descriptor : layout := [[("d", 16)]].

Definition dvb_related_content_descriptor_codec (d : Z) : M unit := mret tt.

(** *** rnt_rar_over_dvb_stream_descriptor.h *)

Definition struct_dvb_rnt_rar_over_dvb_stream_descriptor : layout :=
  [[("d", 16)]; [("first_valid_date", 40)]; [("last_valid_date", 40)]; [("weighting", 6);
    ("complete_flag", 1); ("scheduled_flag", 1)]; [("transport_stream_id", 16)];
   [("original_network_id", 16)]; [("service_id", 16)]; [("component_tag", 8)]].
Definition struct_dvb_rnt_rar_over_dvb_stream_descriptor_scheduled_info : layout :=
  [[("download_start_time", 40)]; [("download_period_duration", 8)];
   [("download_cycle_time", 8)]].

Definition dvb_rnt_rar_over_dvb_stream_descriptor_codec (d : Z) : M unit :=
  len ← descriptor_len d;
  let len := len + 2 in
  reject_if (len <? sizeof struct_dvb_rnt_rar_over_dvb_stream_descriptor);;
  bswap16 (d + 13);;
  bswap16 (d + 15);;
  bswap16 (d + 17);;
  scheduled_flag ← fld struct_dvb_rnt_rar_over_dvb_stream_descriptor "scheduled_flag" d;
  (if scheduled_flag =? 1 then
    reject_if (len <?
      sizeof struct_dvb_rnt_rar_over_dvb_stream_descriptor + sizeof struct_dvb_rnt_rar_over_dvb_stream_descriptor_scheduled_info);;
    mret tt
  else mret tt).

Definition dvb_rnt_rar_over_dvb_stream_descriptor_scheduled_info (d : Z) : M (option Z) :=
  scheduled_flag ← fld struct_dvb_rnt_rar_over_dvb_stream_descriptor "scheduled_flag" d;
  if negb (scheduled_flag =? 1) then mret None
  else mret (Some (d + sizeof struct_dvb_rnt_rar_over_dvb_stream_descriptor)).

(** *** rnt_rar_over_ip_descriptor.h *)

Definition struct_dvb_rnt_rar_over_ip_descriptor : layout :=
  [[("d", 16)]; [("first_valid_date", 40)]; [("last_valid_date", 40)]; [("weighting", 6);
    ("complete_flag", 1); ("reserved", 1)]; [("url_length", 8)]].

Definition dvb_rnt_rar_over_ip_descriptor_codec (d : Z) : M unit :=
  len ← descriptor_len d;
  let len := len + 2 in
  reject_if (len <? sizeof struct_dvb_rnt_rar_over_ip_descriptor);;
  b ← ld8 (d + 13);
  reject_if (len <? sizeof struct_dvb_rnt_rar_over_ip_descriptor + b).

Definition dvb_rnt_rar_over_ip_descriptor_url (d : Z) : Z :=
  d + sizeof struct_dvb_rnt_rar_over_ip_descriptor.

(** *** rnt_rnt_scan_descriptor.h *)

Definition struct_dvb_rnt_rnt_scan_descriptor : layout := [[("d", 16)]].
Definition struct_dvb_rnt_rnt_scan_entry : layout :=
  [[("transport_stream_id", 16)]; [("original_network_id", 16)]; [("scan_weighting", 8)]].

Definition dvb_rnt_rnt_scan_descriptor_codec (d : Z) : M unit :=
  len ← descriptor_len d;
  let len := len + 2 in
  let pos := 2 in
  reject_if (negb (u32 (len - 2) mod sizeof struct_dvb_rnt_rnt_scan_entry =? 0));;
  _ ← while (fun pos => mret (pos <? len)) (fun pos =>
    bswap16 (d + pos);;
    bswap16 (d + pos + 2);;
    mret (pos + sizeof struct_dvb_rnt_rnt_scan_entry)) pos;
  mret tt.

Definition dvb_rnt_rnt_scan_descriptor_entries_first (d : Z) : M (option Z) :=
  len ← descriptor_len d;
  if len =? 0 then mret None
  else mret (Some (d + sizeof struct_dvb_rnt_rnt_scan_descriptor)).

Definition dvb_rnt_rnt_scan_descriptor_entries_next (d pos : Z) : M (option Z) :=
  len ← descriptor_len d;
  let end_ := d + 2 + len in
  let next := pos + sizeof struct_dvb_rnt_rnt_scan_entry in
  if end_ <=? next then mret None else mret (Some next).

(** *** s2_satellite_delivery_descriptor.h *)

Definition struct_dvb_s2_satellite_delivery_descriptor : layout :=
  [[("d", 16)]; [("scrambling_sequence_selector", 1); ("multiple_input_stream", 1);
    ("backwards_compatability", 1); ("reserved", 5)]].

Definition dvb_s2_satellite_delivery_descriptor_codec (d : Z) : M unit :=
  len ← descriptor_len d;
  reject_if (len <? sizeof struct_dvb_s2_satellite_delivery_descriptor - 2);;
  let len := sizeof struct_dvb_s2_satellite_delivery_descriptor in
  scrambling_sequence_selector ←
    fld struct_dvb_s2_satellite_delivery_descriptor "scrambling_sequence_selector" d;
  let len := if negb (scrambling_sequence_selector =? 0) then len + 3 else len in
  multiple_input_stream ← fld struct_dvb_s2_satellite_delivery_descriptor "multiple_input_stream" d;
  let len := if negb (multiple_input_stream =? 0) then len + 1 else len in
  d_len ← descriptor_len d;
  reject_if (d_len <? len).

Definition dvb_s2_satellite_delivery_descriptor_scrambling_sequence_index (s2 : Z) : M Z :=
  scrambling_sequence_selector ←
    fld struct_dvb_s2_satellite_delivery_descriptor "scrambling_sequence_selector" s2;
  if negb (scrambling_sequence_selector =? 0) then
    b ← ld8 (s2 + 4);
    b_ ← ld8 (s2 + 5);
    b_2 ← ld8 (s2 + 6);
    mret (u32 (Z.lor (Z.lor (Z.shiftl (Z.land b 0x03) 16) (Z.shiftl b_ 8)) b_2))
  else mret 0.

Definition dvb_s2_satellite_delivery_descriptor_input_stream_id (s2 : Z) : M Z :=
  multiple_input_stream ←
    fld struct_dvb_s2_satellite_delivery_descriptor "multiple_input_stream" s2;
  if negb (negb (multiple_input_stream =? 0)) then mret 0
  else
    let off := 3 in
    scrambling_sequence_selector ←
      fld struct_dvb_s2_satellite_delivery_descriptor "scrambling_sequence_selector" s2;
    let off := if negb (scrambling_sequence_selector =? 0) then off + 3 else off in
    b ← ld8 (s2 + off);
    mret b.

(** *** satellite_delivery_descriptor.h *)

Definition struct_dvb_satellite_delivery_descriptor : layout :=
  [[("d", 16)]; [("frequency", 32)]; [("orbital_position", 16)]; [("west_east_flag", 1);
    ("polarization", 2); ("roll_off", 2); ("modulation_system", 1); ("modulation_type", 2)];
   [("symbol_rate", 28); ("fec_inner", 4)]].

Definition dvb_satellite_delivery_descriptor_codec (d : Z) : M unit :=
  len ← descriptor_len d;
  reject_if (len <? sizeof struct_dvb_satellite_delivery_descriptor - 2);;
  bswap32 (d + 2);;
  bswap16 (d + 6);;
  bswap32 (d + 9).

(** *** scrambling_descriptor.h *)

Definition struct_dvb_scrambling_descriptor : layout := [[("d", 16)]; [("scrambling_mode", 8)]].

Definition dvb_scrambling_descriptor_codec (d : Z) : M unit :=
  len ← descriptor_len d;
  reject_if (negb (len =? sizeof struct_dvb_scrambling_descriptor - 2)).

(** *** service_availability_descriptor.h *)

Definition struct_dvb_service_availability_descriptor : layout :=
  [[("d", 16)]; [("availability_flag", 1); ("reserved", 7)]].

Definition dvb_service_availability_descriptor_codec (d : Z) : M unit :=
  let pos := 0 in
  let buf := d + 2 in
  len ← descriptor_len d;
  let pos := pos + (sizeof struct_dvb_service_availability_descriptor - 2) in
  reject_if (negb (u32 (len - pos) mod 2 =? 0));;
  _ ← while (fun pos => mret (pos <? len)) (fun pos =>
    bswap16 (buf + pos);;
    mret (pos + 2)) pos;
  mret tt.

Definition dvb_service_availability_descriptor_cell_ids (d : Z) : Z :=
  d + sizeof struct_dvb_service_availability_descriptor.

Definition dvb_service_availability_descriptor_cell_ids_count (d : Z) : M Z :=
  len ← descriptor_len d;
  mret (Z.shiftr (len - 1) 1).

(** *** service_descriptor.h *)

Definition struct_dvb_service_descriptor : layout :=
  [[("d", 16)]; [("service_type", 8)]; [("service_provider_name_length", 8)]].
Definition struct_dvb_service_descriptor_part2 : layout := [[("service_name_length", 8)]].

Definition dvb_service_descriptor_codec (d : Z) : M unit :=
  let pos := sizeof struct_dvb_service_descriptor - 2 in
  len ← descriptor_len d;
  reject_if (len <? pos);;
  service_provider_name_length ← fld struct_dvb_service_descriptor "service_provider_name_length" d;
  let pos := pos + service_provider_name_length in
  reject_if (len <? pos);;
  let p2 := d + 2 + pos in
  let pos := pos + sizeof struct_dvb_service_descriptor_part2 in
  reject_if (len <? pos);;
  service_name_length ← fld struct_dvb_service_descriptor_part2 "service_name_length" p2;
  let pos := pos + service_name_length in
  reject_if (negb (pos =? len)).

Definition dvb_service_descriptor_service_provider_name (d : Z) : Z :=
  d + sizeof struct_dvb_service_descriptor.

Definition dvb_service_descriptor_part2 (d : Z) : M Z :=
  service_provider_name_length ← fld struct_dvb_service_descriptor "service_provider_name_length" d;
  mret (d + sizeof struct_dvb_service_descriptor + service_provider_name_length).

Definition dvb_service_descriptor_service_name (d : Z) : Z :=
  d + sizeof struct_dvb_service_descriptor_part2.

(** *** service_identifier_descriptor.h *)

Definition struct_dvb_service_identifier_descriptor : layout := [[("d", 16)]].

Definition dvb_service_identifier_descriptor_codec (d : Z) : M unit := mret tt.

Definition dvb_service_identifier_descriptor_identifier (d : Z) : Z :=
  d + sizeof struct_dvb_service_identifier_descriptor.

Definition dvb_service_identifier_descriptor_identifier_length (d : Z) : M Z :=
  len ← descriptor_len d;
  mret len.

(** *** service_list_descriptor.h *)

Definition struct_dvb_service_list_descriptor : layout := [[("d", 16)]].
Definition struct_dvb_service_list_service : layout :=
  [[("service_id", 16)]; [("service_type", 8)]].

Definition dvb_service_list_descriptor_codec (d : Z) : M unit :=
  let pos := 0 in
  len ← descriptor_len d;
  let p := d + 2 in
  reject_if (negb (len mod sizeof struct_dvb_service_list_service =? 0));;
  _ ← while (fun pos => mret (pos <? len)) (fun pos =>
    bswap16 (p + pos);;
    mret (pos + sizeof struct_dvb_service_list_service)) pos;
  mret tt.

Definition dvb_service_list_descriptor_services_first (d : Z) : M (option Z) :=
  len ← descriptor_len d;
  if len =? 0 then mret None
  else mret (Some (d + sizeof struct_dvb_service_list_descriptor)).

Definition dvb_service_list_descriptor_services_next (d pos : Z) : M (option Z) :=
  len ← descriptor_len d;
  let end_ := d + 2 + len in
  let next := pos + sizeof struct_dvb_service_list_service in
  if end_ <=? next then mret None else mret (Some next).

(** *** service_move_descriptor.h *)

Definition struct_dvb_service_move_descriptor : layout :=
  [[("d", 16)]; [("new_original_network_id", 16)]; [("new_transport_stream_id", 16)];
   [("new_service_id", 16)]].

Definition dvb_service_move_descriptor_codec (d : Z) : M unit :=
  len ← descriptor_len d;
  reject_if (negb (len =? sizeof struct_dvb_service_move_descriptor - 2));;
  bswap16 (d + 2);;
  bswap16 (d + 4);;
  bswap16 (d + 6).

(** *** short_event_descriptor.h *)

Definition struct_dvb_short_event_descriptor : layout :=
  [[("d", 16)]; [("language_code", 24)]; [("event_name_length", 8)]].
Definition struct_dvb_short_event_descriptor_part2 : layout := [[("text_length", 8)]].

Definition dvb_short_event_descriptor_codec (d : Z) : M unit :=
  let pos := sizeof struct_dvb_short_event_descriptor - 2 in
  len ← descriptor_len d;
  reject_if (len <? pos);;
  event_name_length ← fld struct_dvb_short_event_descriptor "event_name_length" d;
  let pos := pos + event_name_length in
  reject_if (len <? pos);;
  let p2 := d + 2 + pos in
  let pos := pos + sizeof struct_dvb_short_event_descriptor_part2 in
  reject_if (len <? pos);;
  text_length ← fld struct_dvb_short_event_descriptor_part2 "text_length" p2;
  let pos := pos + text_length in
  reject_if (negb (pos =? len)).

Definition dvb_short_event_descriptor_event_name (d : Z) : Z :=
  d + sizeof struct_dvb_short_event_descriptor.

Definition dvb_short_event_descriptor_part2 (d : Z) : M Z :=
  event_name_length ← fld struct_dvb_short_event_descriptor "event_name_length" d;
  mret (d + sizeof struct_dvb_short_event_descriptor + event_name_length).

Definition dvb_short_event_descriptor_text (d : Z) : Z :=
  d + sizeof struct_dvb_short_event_descriptor_part2.

(** *** short_smoothing_buffer_descriptor.h *)

Definition struct_dvb_short_smoothing_buffer_descriptor : layout :=
  [[("d", 16)]; [("sb_size", 2); ("sb_leak_rate", 6)]].

Definition dvb_short_smoothing_buffer_descriptor_codec (d : Z) : M unit :=
  len ← descriptor_len d;
  reject_if (len <? sizeof struct_dvb_short_smoothing_buffer_descriptor - 2).

Definition dvb_short_smoothing_buffer_descriptor_reserved (d : Z) : Z :=
  d + sizeof struct_dvb_short_smoothing_buffer_descriptor.

Definition dvb_short_smoothing_buffer_descriptor_reserved_length (d : Z) : M Z :=
  len ← descriptor_len d;
  mret (len - 1).

(** *** stream_identifier_descriptor.h *)

Definition struct_dvb_stream_identifier_descriptor : layout :=
  [[("d", 16)]; [("component_tag", 8)]].

Definition dvb_stream_identifier_descriptor_codec (d : Z) : M unit :=
  len ← descriptor_len d;
  reject_if (negb (len =? sizeof struct_dvb_stream_identifier_descriptor - 2)).

(** *** stuffing_descriptor.h *)

Definition struct_dvb_stuffing_descriptor : layout := [[("d", 16)]].

Definition dvb_stuffing_descriptor_codec (d : Z) : M unit := mret tt.

Definition dvb_stuffing_descriptor_data (d : Z) : Z :=
  d + sizeof struct_dvb_stuffing_descriptor.

Definition dvb_stuffing_descriptor_data_length (d : Z) : M Z :=
  len ← descriptor_len d;
  mret len.

(** *** subtitling_descriptor.h *)

Definition struct_dvb_subtitling_descriptor : layout := [[("d", 16)]].
Definition struct_dvb_subtitling_entry : layout :=
  [[("language_code", 24)]; [("subtitling_type", 8)]; [("composition_page_id", 16)];
   [("ancillary_page_id", 16)]].

Definition dvb_subtitling_descriptor_codec (d : Z) : M unit :=
  let pos := 0 in
  let ptr := d + 2 in
  len ← descriptor_len d;
  reject_if (negb (len mod sizeof struct_dvb_subtitling_entry =? 0));;
  _ ← while (fun pos => mret (pos <? len)) (fun pos =>
    bswap16 (ptr + pos + 4);;
    bswap16 (ptr + pos + 6);;
    mret (pos + sizeof struct_dvb_subtitling_entry)) pos;
  mret tt.

Definition dvb_subtitling_descriptor_subtitles_first (d : Z) : M (option Z) :=
  len ← descriptor_len d;
  if len =? 0 then mret None else mret (Some (d + sizeof struct_dvb_subtitling_descriptor)).

Definition dvb_subtitling_descriptor_subtitles_next (d pos : Z) : M (option Z) :=
  len ← descriptor_len d;
  let end_ := d + 2 + len in
  let next := pos + sizeof struct_dvb_subtitling_entry in
  if end_ <=? next then mret None else mret (Some next).

(** *** target_ip_address_descriptor.h *)

Definition struct_dvb_target_ip_address_descriptor : layout :=
  [[("d", 16)]; [("ipv4_addr_mask", 32)]].
Definition struct_dvb_ipv4_addr : layout := [[("ipv4_addr", 32)]].

Definition dvb_target_ip_address_descriptor_codec (d : Z) : M unit :=
  len ← descriptor_len d;
  let len := len - 4 in
  reject_if (negb (len mod sizeof struct_dvb_ipv4_addr =? 0)).

Definition dvb_target_ip_address_descriptor_ipv4_addr_first (d : Z) : M (option Z) :=
  len ← descriptor_len d;
  if len =? 4 then mret None
  else mret (Some (d + sizeof struct_dvb_target_ip_address_descriptor)).

Definition dvb_target_ip_address_descriptor_ipv4_addr_next (d pos : Z) : M (option Z) :=
  len ← descriptor_len d;
  let end_ := d + 2 + len - 4 in
  let next := pos + sizeof struct_dvb_ipv4_addr in
  if end_ <=? next then mret None else mret (Some next).

(** *** target_ip_slash_descriptor.h *)

Definition struct_dvb_target_ip_slash_descriptor : layout := [[("d", 16)]].
Definition struct_dvb_ipv4_slash : layout := [[("ipv4_addr", 32)]; [("ipv4_slash", 8)]].

Definition dvb_target_ip_slash_descriptor_codec (d : Z) : M unit :=
  len ← descriptor_len d;
  reject_if (negb (len mod sizeof struct_dvb_ipv4_slash =? 0)).

Definition dvb_target_ip_slash_descriptor_ipv4_slash_first (d : Z) : M (option Z) :=
  len ← descriptor_len d;
  if len =? 0 then mret None
  else mret (Some (d + sizeof struct_dvb_target_ip_slash_descriptor)).

Definition dvb_target_ip_slash_descriptor_ipv4_slash_next (d pos : Z) : M (option Z) :=
  len ← descriptor_len d;
  let end_ := d + 2 + len in
  let next := pos + sizeof struct_dvb_ipv4_slash in
  if end_ <=? next then mret None else mret (Some next).

(** *** target_ip_source_slash_descriptor.h *)

Definition struct_dvb_target_ip_source_slash_descriptor : layout := [[("d", 16)]].
Definition struct_dvb_ipv4_source_slash : layout :=
  [[("ipv4_source_addr", 32)]; [("ipv4_source_slash", 8)]; [("ipv4_dest_addr", 32)];
   [("ipv4_dest_slash", 8)]].

Definition dvb_target_ip_source_slash_descriptor_codec (d : Z) : M unit :=
  len ← descriptor_len d;
  reject_if (negb (len mod sizeof struct_dvb_ipv4_source_slash =? 0)).

Definition dvb_target_ip_source_slash_descriptor_ipv4_source_slash_first (d : Z) : M (option Z) :=
  len ← descriptor_len d;
  if len =? 0 then mret None
  else mret (Some (d + sizeof struct_dvb_target_ip_source_slash_descriptor)).

Definition dvb_target_ip_source_slash_descriptor_ipv4_source_slash_next (d pos : Z) :
    M (option Z) :=
  len ← descriptor_len d;
  let end_ := d + 2 + len in
  let next := pos + sizeof struct_dvb_ipv4_source_slash in
  if end_ <=? next then mret None else mret (Some next).

(** *** target_ipv6_address_descriptor.h *)

Definition struct_dvb_target_ipv6_address_descriptor : layout :=
  [[("d", 16)]; [("ipv6_addr_mask", 128)]].
Definition struct_dvb_ipv6_addr : layout := [[("ipv6_addr", 128)]].

Definition dvb_target_ipv6_address_descriptor_codec (d : Z) : M unit :=
  len ← descriptor_len d;
  let len := len - 16 in
  reject_if (negb (len mod sizeof struct_dvb_ipv6_addr =? 0)).

Definition dvb_target_ipv6_address_descriptor_ipv6_addr_first (d : Z) : M (option Z) :=
  len ← descriptor_len d;
  if len =? 16 then mret None
  else mret (Some (d + sizeof struct_dvb_target_ipv6_address_descriptor)).

Definition dvb_target_ipv6_address_descriptor_ipv6_addr_next (d pos : Z) : M (option Z) :=
  len ← descriptor_len d;
  let end_ := d + 2 + len - 16 in
  let next := pos + sizeof struct_dvb_ipv6_addr in
  if end_ <=? next then mret None else mret (Some next).

(** *** target_ipv6_slash_descriptor.h *)

Definition struct_dvb_target_ipv6_slash_descriptor : layout := [[("d", 16)]].
Definition struct_dvb_ipv6_slash : layout := [[("ipv6_addr", 128)]; [("ipv6_slash", 8)]].

Definition dvb_target_ipv6_slash_descriptor_codec (d : Z) : M unit :=
  len ← descriptor_len d;
  reject_if (negb (len mod sizeof struct_dvb_ipv6_slash =? 0)).

Definition dvb_target_ipv6_slash_descriptor_ipv6_slash_first (d : Z) : M (option Z) :=
  len ← descriptor_len d;
  if len =? 0 then mret None
  else mret (Some (d + sizeof struct_dvb_target_ipv6_slash_descriptor)).

Definition dvb_target_ipv6_slash_descriptor_ipv6_slash_next (d pos : Z) : M (option Z) :=
  len ← descriptor_len d;
  let end_ := d + 2 + len in
  let next := pos + sizeof struct_dvb_ipv6_slash in
  if end_ <=? next then mret None else mret (Some next).

(** *** target_ipv6_source_slash_descriptor.h *)

Definition struct_dvb_target_ipv6_source_slash_descriptor : layout := [[("d", 16)]].
Definition struct_dvb_ipv6_source_slash : layout :=
  [[("ipv6_source_addr", 128)]; [("ipv6_source_slash", 8)]; [("ipv6_dest_addr", 128)];
   [("ipv6_dest_slash", 8)]].

Definition dvb_target_ipv6_source_slash_descriptor_codec (d : Z) : M unit :=
  len ← descriptor_len d;
  reject_if (negb (len mod sizeof struct_dvb_ipv6_source_slash =? 0)).

Definition dvb_target_ipv6_source_slash_descriptor_ipv6_source_slash_first (d : Z) :
    M (option Z) :=
  len ← descriptor_len d;
  if len =? 0 then mret None
  else mret (Some (d + sizeof struct_dvb_target_ipv6_source_slash_descriptor)).

Definition dvb_target_ipv6_source_slash_descriptor_ipv6_source_slash_next (d pos : Z) :
    M (option Z) :=
  len ← descriptor_len d;
  let end_ := d + 2 + len in
  let next := pos + sizeof struct_dvb_ipv6_source_slash in
  if end_ <=? next then mret None else mret (Some next).

(** *** telephone_descriptor.h *)

Definition struct_dvb_telephone_descriptor : layout :=
  [[("d", 16)]; [("reserved_1", 2); ("foreign_availability", 1); ("connection_type", 5)];
   [("reserved_2", 1); ("country_prefix_length", 2); ("international_area_code_length", 3);
    ("operator_code_length", 2)]; [("reserved_3", 1); ("national_area_code_length", 3);
    ("core_number_length", 4)]].

Definition dvb_telephone_descriptor_codec (d : Z) : M unit :=
  let pos := sizeof struct_dvb_telephone_descriptor - 2 in
  len ← descriptor_len d;
  reject_if (len <? pos);;
  country_prefix_length ← fld struct_dvb_telephone_descriptor "country_prefix_length" d;
  international_area_code_length ←
    fld struct_dvb_telephone_descriptor "international_area_code_length" d;
  operator_code_length ← fld struct_dvb_telephone_descriptor "operator_code_length" d;
  national_area_code_length ← fld struct_dvb_telephone_descriptor "national_area_code_length" d;
  core_number_length ← fld struct_dvb_telephone_descriptor "core_number_length" d;
  let pos := pos + country_prefix_length + international_area_code_length + operator_code_length + national_area_code_length + core_number_length in
  reject_if (negb (pos =? len)).

Definition dvb_telephone_descriptor_country_prefix (d : Z) : Z :=
  d + sizeof struct_dvb_telephone_descriptor.

Definition dvb_telephone_descriptor_international_area_code (d : Z) : M Z :=
  country_prefix_length ← fld struct_dvb_telephone_descriptor "country_prefix_length" d;
  mret (dvb_telephone_descriptor_country_prefix d + country_prefix_length).

Definition dvb_telephone_descriptor_operator_code (d : Z) : M Z :=
  p ← dvb_telephone_descriptor_international_area_code d;
  international_area_code_length ←
    fld struct_dvb_telephone_descriptor "international_area_code_length" d;
  mret (p + international_area_code_length).

Definition dvb_telephone_descriptor_national_area_code (d : Z) : M Z :=
  p ← dvb_telephone_descriptor_operator_code d;
  operator_code_length ← fld struct_dvb_telephone_descriptor "operator_code_length" d;
  mret (p + operator_code_length).

Definition dvb_telephone_descriptor_core_number (d : Z) : M Z :=
  p ← dvb_telephone_descriptor_national_area_code d;
  national_area_code_length ← fld struct_dvb_telephone_descriptor "national_area_code_length" d;
  mret (p + national_area_code_length).

(** *** teletext_descriptor.h *)

Definition struct_dvb_teletext_descriptor : layout := [[("d", 16)]].
Definition struct_dvb_teletext_entry : layout :=
  [[("language_code", 24)]; [("type", 5); ("magazine_number", 3)]; [("page_number", 8)]].

Definition dvb_teletext_descriptor_codec (d : Z) : M unit :=
  len ← descriptor_len d;
  reject_if (negb (len mod sizeof struct_dvb_teletext_entry =? 0)).

Definition dvb_teletext_descriptor_entries_first (d : Z) : M (option Z) :=
  len ← descriptor_len d;
  if len =? 0 then mret None else mret (Some (d + sizeof struct_dvb_teletext_descriptor)).

Definition dvb_teletext_descriptor_entries_next (d pos : Z) : M (option Z) :=
  len ← descriptor_len d;
  let end_ := d + 2 + len in
  let next := pos + sizeof struct_dvb_teletext_entry in
  if end_ <=? next then mret None else mret (Some next).

(** *** terrestrial_delivery_descriptor.h *)

Definition struct_dvb_terrestrial_delivery_descriptor : layout :=
  [[("d", 16)]; [("centre_frequency", 32)]; [("bandwidth", 3); ("priority", 1);
    ("time_slicing_indicator", 1); ("mpe_fec_indicator", 1); ("reserved_1", 2)];
   [("constellation", 2); ("hierarchy_information", 3); ("code_rate_hp_stream", 3)];
   [("code_rate_lp_stream", 3); ("guard_interval", 2); ("transmission_mode", 2);
    ("other_frequency_flag", 1)]; [("reserved_2", 32)]].

Definition dvb_terrestrial_delivery_descriptor_codec (d : Z) : M unit :=
  len ← descriptor_len d;
  reject_if (negb (len =? sizeof struct_dvb_terrestrial_delivery_descriptor - 2));;
  bswap32 (d + 2);;
  bswap32 (d + 9).

(** *** time_shifted_event_descriptor.h *)

Definition struct_dvb_time_shifted_event_descriptor : layout :=
  [[("d", 16)]; [("reference_service_id", 16)]; [("reference_event_id", 16)]].

Definition dvb_time_shifted_event_descriptor_codec (d : Z) : M unit :=
  len ← descriptor_len d;
  reject_if (negb (len =? sizeof struct_dvb_time_shifted_event_descriptor - 2));;
  bswap16 (d + 2);;
  bswap16 (d + 4).

(** *** time_shifted_service_descriptor.h *)

Definition struct_dvb_time_shifted_service_descriptor : layout :=
  [[("d", 16)]; [("reference_service_id", 16)]].

Definition dvb_time_shifted_service_descriptor_codec (d : Z) : M unit :=
  len ← descriptor_len d;
  reject_if (negb (len =? sizeof struct_dvb_time_shifted_service_descriptor - 2));;
  bswap16 (d + 2).

(** *** time_slice_fec_identifier_descriptor.h *)

Definition struct_dvb_time_slice_fec_identifier_descriptor : layout :=
  [[("d", 16)]; [("time_slicing", 1); ("mpe_fec", 2); ("reserved", 2); ("frame_size", 3)];
   [("max_burst_duration", 8)]; [("max_average_rate", 4); ("time_slice_fec_id", 4)]].

Definition dvb_time_slice_fec_identifier_descriptor_codec (d : Z) : M unit :=
  len ← descriptor_len d;
  reject_if (len <? 3).

Definition dvb_time_slice_fec_identifier_selector_byte_length (d : Z) : M Z :=
  len ← descriptor_len d;
  mret (u8 (len - 3)).

Definition dvb_time_slice_fec_identifier_selector_bytes (d : Z) : M (option Z) :=
  len ← descriptor_len d;
  if len <? 3 then mret None else mret (Some (d + 2 + 3)).

Definition dvb_time_slice_fec_identifier_max_burst_duration_msec (d : Z) : M Z :=
  max_burst_duration ← fld struct_dvb_time_slice_fec_identifier_descriptor "max_burst_duration" d;
  mret (u16 ((max_burst_duration + 1) * 20)).

Definition dvb_time_slice_fec_identifier_frame_size_kbits (d : Z) : M Z :=
  frame_size ← fld struct_dvb_time_slice_fec_identifier_descriptor "frame_size" d;
  if 3 <? frame_size then mret 0
  else
    frame_size ← fld struct_dvb_time_slice_fec_identifier_descriptor "frame_size" d;
    mret (u16 ((frame_size + 1) * 512)).

Definition dvb_time_slice_fec_identifier_frame_size_rows (d : Z) : M Z :=
  r ← dvb_time_slice_fec_identifier_frame_size_kbits d;
  mret (u16 (r / 2)).

(** *** transport_stream_descriptor.h *)

Definition struct_dvb_transport_stream_descriptor : layout := [[("d", 16)]].

Definition dvb_transport_stream_descriptor_codec (d : Z) : M unit := mret tt.

Definition dvb_transport_stream_descriptor_data (d : Z) : Z :=
  d + sizeof struct_dvb_transport_stream_descriptor.

Definition dvb_transport_stream_descriptor_data_length (d : Z) : M Z :=
  len ← descriptor_len d;
  mret len.

(** *** tva_id_descriptor.h *)

Definition struct_dvb_tva_id_descriptor : layout := [[("d", 16)]].
Definition struct_dvb_tva_id_entry : layout :=
  [[("tva_id", 16)]; [("reserved", 5); ("running_status", 3)]].

Definition dvb_tva_id_descriptor_codec (d : Z) : M unit :=
  let pos := 0 in
  len ← descriptor_len d;
  let buf := d + 2 in
  let pos := pos + (sizeof struct_dvb_tva_id_descriptor - 2) in
  reject_if (negb (len mod sizeof struct_dvb_tva_id_entry =? 0));;
  _ ← while (fun pos => mret (pos <? len)) (fun pos =>
    bswap16 (buf + pos);;
    mret (pos + 3)) pos;
  mret tt.

Definition dvb_tva_id_descriptor_entries_first (d : Z) : M (option Z) :=
  len ← descriptor_len d;
  if len =? 0 then mret None else mret (Some (d + sizeof struct_dvb_tva_id_descriptor)).

Definition dvb_tva_id_descriptor_entries_next (d pos : Z) : M (option Z) :=
  len ← descriptor_len d;
  let end_ := d + 2 + len in
  let next := pos + sizeof struct_dvb_tva_id_entry in
  if end_ <=? next then mret None else mret (Some next).

(** *** vbi_data_descriptor.h *)

Definition struct_dvb_vbi_data_descriptor : layout := [[("d", 16)]].
Definition struct_dvb_vbi_data_entry : layout := [[("data_service_id", 8)]; [("data_length", 8)]].
Definition struct_dvb_vbi_data_x : layout :=
  [[("reserved", 2); ("field_parity", 1); ("line_offset", 5)]].

Definition dvb_vbi_data_descriptor_codec (d : Z) : M unit :=
  let p := d + 2 in
  let pos := 0 in
  len ← descriptor_len d;
  _ ← while (fun pos => mret (pos <? len)) (fun pos =>
    let e := p + pos in
    let pos := pos + sizeof struct_dvb_vbi_data_entry in
    reject_if (len <? pos);;
    data_length ← fld struct_dvb_vbi_data_entry "data_length" e;
    let pos := pos + data_length in
    reject_if (len <? pos);;
    mret pos) pos;
  mret tt.

Definition dvb_vbi_data_entry_data (d : Z) : Z := d + sizeof struct_dvb_vbi_data_entry.

Definition dvb_vbi_data_entry_data_x (d : Z) : M (option Z) :=
  data_service_id ← fld struct_dvb_vbi_data_entry "data_service_id" d;
  if (((((data_service_id =? 1) || (data_service_id =? 2)) || (data_service_id =? 4)) || (data_service_id =? 5)) || (data_service_id =? 6)) || (data_service_id =? 7) then
    mret (Some (d + sizeof struct_dvb_vbi_data_entry))
  else mret None.

Definition dvb_vbi_data_descriptor_entries_first (d : Z) : M (option Z) :=
  len ← descriptor_len d;
  if len =? 0 then mret None else mret (Some (d + sizeof struct_dvb_vbi_data_descriptor)).

Definition dvb_vbi_data_descriptor_entries_next (d pos : Z) : M (option Z) :=
  len ← descriptor_len d;
  let end_ := d + 2 + len in
  data_length ← fld struct_dvb_vbi_data_entry "data_length" pos;
  let next := pos + sizeof struct_dvb_vbi_data_entry + data_length in
  if end_ <=? next then mret None else mret (Some next).

(** *** vbi_teletext_descriptor.h *)

Definition struct_dvb_vbi_teletext_descriptor : layout := [[("d", 16)]].
Definition struct_dvb_vbi_teletext_entry : layout :=
  [[("language_code", 24)]; [("type", 5); ("magazine_number", 3)]; [("page_number", 8)]].

Definition dvb_vbi_teletext_descriptor_codec (d : Z) : M unit :=
  len ← descriptor_len d;
  reject_if (negb (len mod sizeof struct_dvb_vbi_teletext_entry =? 0)).

Definition dvb_vbi_teletext_descriptor_entries_first (d : Z) : M (option Z) :=
  len ← descriptor_len d;
  if len =? 0 then mret None
  else mret (Some (d + sizeof struct_dvb_vbi_teletext_descriptor)).

Definition dvb_vbi_teletext_descriptor_entries_next (d pos : Z) : M (option Z) :=
  len ← descriptor_len d;
  let end_ := d + 2 + len in
  let next := pos + sizeof struct_dvb_vbi_teletext_entry in
  if end_ <=? next then mret None else mret (Some next).
