(* ===== verification/AtscDescriptors.v ===== *)
(** * libucsi/atsc: the descriptors of A/65 and related standards

    Structures, codecs, accessors and iterators, as in MpegDescriptors.v. *)

From S2P Require Export Layout.

(** *** ac3_descriptor.h *)

Definition struct_atsc_ac3_descriptor : layout :=
  [[("d", 16)]; [("sample_rate_code", 3); ("bsid", 5)]; [("bit_rate_code", 6);
    ("surround_mode", 2)]; [("bsmod", 3); ("num_channels", 4); ("full_svc", 1)]].

Definition atsc_ac3_descriptor_codec (d : Z) : M unit :=
  let pos := 0 in
  len ← descriptor_len d;
  reject_if (len <? pos + 4);;
  let pos := pos + 4 in
  mret tt.

Definition atsc_ac3_descriptor_additional_info (d : Z) : Z :=
  let pos := sizeof struct_atsc_ac3_descriptor in
  d + pos.

Definition atsc_ac3_descriptor_additional_info_length (d : Z) : M Z :=
  len ← descriptor_len d;
  mret (len - 3).

(** *** caption_service_descriptor.h *)

Definition struct_atsc_caption_service_descriptor : layout :=
  [[("d", 16)]; [("reserved", 3); ("number_of_services", 5)]].
Definition struct_atsc_caption_service_entry : layout :=
  [[("language_code", 24)]; [("digital_cc", 1); ("reserved", 1); ("value", 6)];
   [("easy_reader", 1); ("wide_aspect_ratio", 1); ("reserved1", 14)]].

Definition atsc_caption_service_descriptor_codec (d : Z) : M unit :=
  let buf := d + 2 in
  let pos := 0 in
  len ← descriptor_len d;
  reject_if (len <? 1);;
  let pos := pos + 1 in
  let idx := 0 in
  _ ← while (fun '(pos, idx) =>
        number_of_services ← fld struct_atsc_caption_service_descriptor "number_of_services" d;
        mret (idx <? number_of_services)) (fun '(pos, idx) =>
    len ← descriptor_len d;
    reject_if (len <? pos + sizeof struct_atsc_caption_service_entry);;
    bswap16 (buf + pos + 4);;
    let pos := pos + sizeof struct_atsc_caption_service_entry in
    let idx := idx + 1 in
    mret (pos, idx)) (pos, idx);
  mret tt.

Definition atsc_caption_service_descriptor_entries_first (d : Z) : M (option Z) :=
  number_of_services ← fld struct_atsc_caption_service_descriptor "number_of_services" d;
  if number_of_services =? 0 then mret None
  else mret (Some (d + sizeof struct_atsc_caption_service_descriptor)).

Definition atsc_caption_service_descriptor_entries_next (d pos idx : Z) : M (option Z) :=
  number_of_services ← fld struct_atsc_caption_service_descriptor "number_of_services" d;
  if number_of_services <=? idx then mret None
  else mret (Some (pos + sizeof struct_atsc_caption_service_entry)).

(** *** component_name_descriptor.h *)

Definition struct_atsc_component_name_descriptor : layout := [[("d", 16)]].

Definition atsc_component_name_descriptor_codec (d : Z) : M unit :=
  let txt := d + sizeof struct_atsc_component_name_descriptor in
  len ← descriptor_len d;
  r ← atsc_text_validate txt len;
  reject_if (negb (r =? 0)).

Definition atsc_component_name_descriptor_text (d : Z) : Z :=
  let txt := d + sizeof struct_atsc_component_name_descriptor in
  txt.

Definition atsc_component_name_descriptor_text_length (d : Z) : M Z :=
  len ← descriptor_len d;
  mret len.

(** *** content_advisory_descriptor.h *)

Definition struct_atsc_content_advisory_descriptor : layout :=
  [[("d", 16)]; [("reserved", 2); ("rating_region_count", 6)]].
Definition struct_atsc_content_advisory_entry : layout :=
  [[("rating_region", 8)]; [("rated_dimensions", 8)]].
Definition struct_atsc_content_advisory_entry_dimension : layout :=
  [[("rating_dimension_j", 8)]; [("reserved", 4); ("rating_value", 4)]].
Definition struct_atsc_content_advisory_entry_part2 : layout :=
  [[("rating_description_length", 8)]].

Definition atsc_content_advisory_descriptor_codec (d : Z) : M unit :=
  let buf := d + 2 in
  let pos := 0 in
  len ← descriptor_len d;
  reject_if (len <? 1);;
  let pos := pos + 1 in
  let idx := 0 in
  _ ← while (fun '(pos, idx) =>
        rating_region_count ← fld struct_atsc_content_advisory_descriptor "rating_region_count" d;
        mret (idx <? rating_region_count)) (fun '(pos, idx) =>
    len ← descriptor_len d;
    reject_if (len <? pos + sizeof struct_atsc_content_advisory_entry);;
    let entry := buf + pos in
    let pos := pos + sizeof struct_atsc_content_advisory_entry in
    len ← descriptor_len d;
    rated_dimensions ← fld struct_atsc_content_advisory_entry "rated_dimensions" entry;
    reject_if (len <?
      pos + sizeof struct_atsc_content_advisory_entry_dimension * rated_dimensions);;
    rated_dimensions ← fld struct_atsc_content_advisory_entry "rated_dimensions" entry;
    let pos := pos + sizeof struct_atsc_content_advisory_entry_dimension * rated_dimensions in
    len ← descriptor_len d;
    reject_if (len <? pos + sizeof struct_atsc_content_advisory_entry_part2);;
    let part2 := buf + pos in
    let pos := pos + sizeof struct_atsc_content_advisory_entry_part2 in
    len ← descriptor_len d;
    rating_description_length ←
      fld struct_atsc_content_advisory_entry_part2 "rating_description_length" part2;
    reject_if (len <? pos + rating_description_length);;
    rating_description_length ←
      fld struct_atsc_content_advisory_entry_part2 "rating_description_length" part2;
    r ← atsc_text_validate (buf + pos) rating_description_length;
    reject_if (negb (r =? 0));;
    rating_description_length ←
      fld struct_atsc_content_advisory_entry_part2 "rating_description_length" part2;
    let pos := pos + rating_description_length in
    let idx := idx + 1 in
    mret (pos, idx)) (pos, idx);
  mret tt.

Definition atsc_content_advisory_entry_part2 (entry : Z) : M Z :=
  let pos := sizeof struct_atsc_content_advisory_entry in
  rated_dimensions ← fld struct_atsc_content_advisory_entry "rated_dimensions" entry;
  let pos := pos + rated_dimensions * sizeof struct_atsc_content_advisory_entry_dimension in
  mret (entry + pos).

Definition atsc_content_advisory_entry_part2_description (part2 : Z) : Z :=
  let txt := part2 + sizeof struct_atsc_content_advisory_entry_part2 in
  txt.

Definition atsc_content_advisory_descriptor_entries_first (d : Z) : M (option Z) :=
  rating_region_count ← fld struct_atsc_content_advisory_descriptor "rating_region_count" d;
  if rating_region_count =? 0 then mret None
  else mret (Some (d + sizeof struct_atsc_content_advisory_descriptor)).

Definition atsc_content_advisory_descriptor_entries_next (d pos idx : Z) : M (option Z) :=
  rating_region_count ← fld struct_atsc_content_advisory_descriptor "rating_region_count" d;
  if rating_region_count <=? idx then mret None
  else
    p ← atsc_content_advisory_entry_part2 pos;
    rating_description_length ←
      fld struct_atsc_content_advisory_entry_part2 "rating_description_length" p;
    mret (Some (p + sizeof struct_atsc_content_advisory_entry_part2 + rating_description_length)).

Definition atsc_content_advisory_entry_dimensions_first (e : Z) : M (option Z) :=
  rated_dimensions ← fld struct_atsc_content_advisory_entry "rated_dimensions" e;
  if rated_dimensions =? 0 then mret None
  else mret (Some (e + sizeof struct_atsc_content_advisory_entry)).

Definition atsc_content_advisory_entry_dimensions_next (e pos idx : Z) : M (option Z) :=
  let next := pos + sizeof struct_atsc_content_advisory_entry_dimension in
  rated_dimensions ← fld struct_atsc_content_advisory_entry "rated_dimensions" e;
  if rated_dimensions <=? idx then mret None else mret (Some next).

(** *** dcc_arriving_request_descriptor.h *)

Definition struct_atsc_dcc_arriving_request_descriptor : layout :=
  [[("d", 16)]; [("dcc_arriving_request_type", 8)]; [("dcc_arriving_request_text_length", 8)]].

Definition atsc_dcc_arriving_request_descriptor_codec (d : Z) : M unit :=
  len ← descriptor_len d;
  reject_if (len <? 2);;
  len ← descriptor_len d;
  dcc_arriving_request_text_length ←
    fld struct_atsc_dcc_arriving_request_descriptor "dcc_arriving_request_text_length" d;
  reject_if (negb (len =? 2 + dcc_arriving_request_text_length));;
  dcc_arriving_request_text_length ←
    fld struct_atsc_dcc_arriving_request_descriptor "dcc_arriving_request_text_length" d;
  r ←
    atsc_text_validate (d + sizeof struct_atsc_dcc_arriving_request_descriptor) dcc_arriving_request_text_length;
  reject_if (negb (r =? 0)).

Definition atsc_dcc_arriving_request_descriptor_text (d : Z) : Z :=
  let txt := d + sizeof struct_atsc_dcc_arriving_request_descriptor in
  txt.

Definition atsc_dcc_arriving_request_descriptor_text_length (d : Z) : M Z :=
  len ← descriptor_len d;
  mret (len - 2).

(** *** dcc_departing_request_descriptor.h *)

Definition struct_atsc_dcc_departing_request_descriptor : layout :=
  [[("d", 16)]; [("dcc_departing_request_type", 8)]; [("dcc_departing_request_text_length", 8)]].

Definition atsc_dcc_departing_request_descriptor_codec (d : Z) : M unit :=
  len ← descriptor_len d;
  reject_if (len <? 2);;
  len ← descriptor_len d;
  dcc_departing_request_text_length ←
    fld struct_atsc_dcc_departing_request_descriptor "dcc_departing_request_text_length" d;
  reject_if (negb (len =? 2 + dcc_departing_request_text_length));;
  dcc_departing_request_text_length ←
    fld struct_atsc_dcc_departing_request_descriptor "dcc_departing_request_text_length" d;
  r ←
    atsc_text_validate (d + sizeof struct_atsc_dcc_departing_request_descriptor) dcc_departing_request_text_length;
  reject_if (negb (r =? 0)).

Definition atsc_dcc_departing_request_descriptor_text (d : Z) : Z :=
  let txt := d + sizeof struct_atsc_dcc_departing_request_descriptor in
  txt.

Definition atsc_dcc_departing_request_descriptor_text_length (d : Z) : M Z :=
  len ← descriptor_len d;
  mret (len - 2).

(** *** extended_channel_name_descriptor.h *)

Definition struct_atsc_extended_channel_name_descriptor : layout := [[("d", 16)]].

Definition atsc_extended_channel_name_descriptor_codec (d : Z) : M unit :=
  len ← descriptor_len d;
  r ← atsc_text_validate (d + sizeof struct_atsc_extended_channel_name_descriptor) len;
  reject_if (negb (r =? 0)).

Definition atsc_extended_channel_name_descriptor_text (d : Z) : Z :=
  let txt := d + sizeof struct_atsc_extended_channel_name_descriptor in
  txt.

Definition atsc_extended_channel_name_descriptor_text_length (d : Z) : M Z :=
  len ← descriptor_len d;
  mret len.

(** *** genre_descriptor.h *)

Definition struct_atsc_genre_descriptor : layout :=
  [[("d", 16)]; [("reserved", 3); ("attribute_count", 5)]].

Definition atsc_genre_descriptor_codec (d : Z) : M unit :=
  len ← descriptor_len d;
  reject_if (len <? 1);;
  len ← descriptor_len d;
  attribute_count ← fld struct_atsc_genre_descriptor "attribute_count" d;
  reject_if (negb (len =? 1 + attribute_count)).

Definition atsc_genre_descriptor_attributes (d : Z) : Z :=
  d + sizeof struct_atsc_genre_descriptor.

(** *** rc_descriptor.h *)

Definition struct_atsc_rc_descriptor : layout := [[("d", 16)]].

Definition atsc_rc_descriptor_codec (d : Z) : M unit := mret tt.

Definition atsc_rc_descriptor_info (d : Z) : Z := d + sizeof struct_atsc_rc_descriptor.

Definition atsc_rc_descriptor_info_length (d : Z) : M Z :=
  len ← descriptor_len d;
  mret len.

(** *** service_location_descriptor.h *)

Definition struct_atsc_service_location_descriptor : layout :=
  [[("d", 16)]; [("reserved", 3); ("PCR_PID", 13)]; [("number_elements", 8)]].
Definition struct_atsc_caption_service_location_element : layout :=
  [[("stream_type", 8)]; [("reserved", 3); ("elementary_PID", 13)]; [("language_code", 24)]].

Definition atsc_service_location_descriptor_codec (d : Z) : M unit :=
  let buf := d + 2 in
  let pos := 0 in
  len ← descriptor_len d;
  reject_if (len <? 3);;
  bswap16 (buf + pos);;
  let pos := pos + 3 in
  let idx := 0 in
  _ ← while (fun '(pos, idx) =>
        number_elements ← fld struct_atsc_service_location_descriptor "number_elements" d;
        mret (idx <? number_elements)) (fun '(pos, idx) =>
    len ← descriptor_len d;
    reject_if (len <? pos + sizeof struct_atsc_caption_service_entry);;
    bswap16 (buf + pos + 1);;
    let pos := pos + sizeof struct_atsc_caption_service_entry in
    let idx := idx + 1 in
    mret (pos, idx)) (pos, idx);
  mret tt.

Definition atsc_service_location_descriptor_elements_first (d : Z) : M (option Z) :=
  number_elements ← fld struct_atsc_service_location_descriptor "number_elements" d;
  if number_elements =? 0 then mret None
  else mret (Some (d + sizeof struct_atsc_service_location_descriptor)).

Definition atsc_service_location_descriptor_elements_next (d pos idx : Z) : M (option Z) :=
  let next := pos + sizeof struct_atsc_caption_service_location_element in
  number_elements ← fld struct_atsc_service_location_descriptor "number_elements" d;
  if number_elements <=? idx then mret None else mret (Some next).

(** *** stuffing_descriptor.h *)

Definition struct_atsc_stuffing_descriptor : layout := [[("d", 16)]].

Definition atsc_stuffing_descriptor_codec (d : Z) : M unit := mret tt.

Definition atsc_stuffing_descriptor_data (d : Z) : Z :=
  d + sizeof struct_atsc_stuffing_descriptor.

Definition atsc_stuffing_descriptor_data_length (d : Z) : M Z :=
  len ← descriptor_len d;
  mret len.

(** *** time_shifted_service_descriptor.h *)

Definition struct_atsc_time_shifted_service_descriptor : layout :=
  [[("d", 16)]; [("reserved", 3); ("number_of_services", 5)]].
Definition struct_atsc_time_shifted_service : layout :=
  [[("reserved", 6); ("time_shift", 10)]; [("reserved2", 4); ("major_channel_number", 10);
    ("minor_channel_number", 10)]].

Definition atsc_time_shifted_service_descriptor_codec (d : Z) : M unit :=
  let buf := d + 2 in
  let pos := 0 in
  len ← descriptor_len d;
  reject_if (len <? 1);;
  let pos := pos + 1 in
  let idx := 0 in
  _ ← while (fun '(pos, idx) =>
        number_of_services ← fld struct_atsc_time_shifted_service_descriptor "number_of_services" d;
        mret (idx <? number_of_services)) (fun '(pos, idx) =>
    len ← descriptor_len d;
    reject_if (len <? pos + sizeof struct_atsc_time_shifted_service);;
    bswap16 (buf + pos);;
    bswap24 (buf + pos + 2);;
    let pos := pos + sizeof struct_atsc_time_shifted_service in
    let idx := idx + 1 in
    mret (pos, idx)) (pos, idx);
  mret tt.

Definition atsc_time_shifted_service_descriptor_services_first (d : Z) : M (option Z) :=
  number_of_services ← fld struct_atsc_time_shifted_service_descriptor "number_of_services" d;
  if number_of_services =? 0 then mret None
  else mret (Some (d + sizeof struct_atsc_time_shifted_service_descriptor)).

Definition atsc_time_shifted_service_descriptor_services_next (d pos idx : Z) : M (option Z) :=
  let next := pos + sizeof struct_atsc_time_shifted_service in
  number_of_services ← fld struct_atsc_time_shifted_service_descriptor "number_of_services" d;
  if number_of_services <=? idx then mret None else mret (Some next).
