(* ===== verification/DescriptorSafety.v ===== *)
(** * The descriptor codecs stay inside their descriptor

    One list per standard of the codecs of libucsi; each of them, whatever the bytes are, only reads
    inside the buffer and only writes behind the header of its descriptor.  Most are proved by
    following the code; the lemmas are for the codecs with a loop whose bound is read again or whose
    lengths wrap.  Four codecs are not in the lists because they do not stay inside: for each there is
    a descriptor on which it does not. *)

From S2P Require Export MpegDescriptors DvbDescriptors AtscDescriptors.

(** ** The codecs *)

Definition mpeg_codecs : list (Z -> M unit) :=
  [mpeg_audio_stream_descriptor_codec; mpeg_ca_descriptor_codec;
   mpeg_content_labelling_descriptor_codec; mpeg_copyright_descriptor_codec;
   mpeg_data_stream_alignment_descriptor_codec; mpeg_external_es_id_descriptor_codec;
   mpeg_fmc_descriptor_codec; mpeg_fmxbuffer_size_descriptor_codec; mpeg_hierarchy_descriptor_codec;
   mpeg_ibp_descriptor_codec; mpeg_iod_descriptor_codec; mpeg_iso_639_language_descriptor_codec;
   mpeg_maximum_bitrate_descriptor_codec; mpeg_metadata_descriptor_codec;
   mpeg_metadata_pointer_descriptor_codec; mpeg_metadata_std_descriptor_codec;
   mpeg4_audio_descriptor_codec; mpeg4_video_descriptor_codec;
   mpeg_multiplex_buffer_descriptor_codec; mpeg_multiplex_buffer_utilization_descriptor_codec;
   mpeg_muxcode_descriptor_codec; mpeg_private_data_indicator_descriptor_codec;
   mpeg_registration_descriptor_codec; mpeg_sl_descriptor_codec;
   mpeg_smoothing_buffer_descriptor_codec; mpeg_std_descriptor_codec;
   mpeg_system_clock_descriptor_codec; mpeg_target_background_grid_descriptor_codec;
   mpeg_video_stream_descriptor_codec; mpeg_video_window_descriptor_codec].

Definition dvb_codecs : list (Z -> M unit) :=
  [dvb_ac3_descriptor_codec; dvb_adaptation_field_data_descriptor_codec;
   dvb_ait_application_icons_descriptor_codec; dvb_ait_application_name_descriptor_codec;
   dvb_ancillary_data_descriptor_codec; dvb_announcement_support_descriptor_codec;
   dvb_application_signalling_descriptor_codec; dvb_bouquet_name_descriptor_codec;
   dvb_ca_identifier_descriptor_codec; dvb_cable_delivery_descriptor_codec;
   dvb_cell_frequency_link_descriptor_codec; dvb_cell_list_descriptor_codec;
   dvb_component_descriptor_codec; dvb_content_descriptor_codec;
   dvb_content_identifier_descriptor_codec; dvb_country_availability_descriptor_codec;
   dvb_data_broadcast_id_descriptor_codec; dvb_default_authority_descriptor_codec;
   dvb_dsng_descriptor_codec; dvb_extended_event_descriptor_codec;
   dvb_frequency_list_descriptor_codec; dvb_ip_platform_name_descriptor_codec;
   dvb_ip_platform_provider_name_descriptor_codec; dvb_ip_mac_stream_location_descriptor_codec;
   dvb_local_time_offset_descriptor_codec; dvb_mosaic_descriptor_codec;
   dvb_multilingual_bouquet_name_descriptor_codec; dvb_multilingual_component_descriptor_codec;
   dvb_multilingual_network_name_descriptor_codec; dvb_multilingual_service_name_descriptor_codec;
   dvb_network_name_descriptor_codec; dvb_nvod_reference_descriptor_codec;
   dvb_parental_rating_descriptor_codec; dvb_partial_transport_stream_descriptor_codec;
   dvb_pdc_descriptor_codec; dvb_private_data_specifier_descriptor_codec;
   dvb_related_content_descriptor_codec; dvb_rnt_rar_over_dvb_stream_descriptor_codec;
   dvb_rnt_rar_over_ip_descriptor_codec; dvb_rnt_rnt_scan_descriptor_codec;
   dvb_s2_satellite_delivery_descriptor_codec; dvb_satellite_delivery_descriptor_codec;
   dvb_scrambling_descriptor_codec; dvb_service_availability_descriptor_codec;
   dvb_service_descriptor_codec; dvb_service_identifier_descriptor_codec;
   dvb_service_list_descriptor_codec; dvb_service_move_descriptor_codec;
   dvb_short_event_descriptor_codec; dvb_short_smoothing_buffer_descriptor_codec;
   dvb_stream_identifier_descriptor_codec; dvb_stuffing_descriptor_codec;
   dvb_subtitling_descriptor_codec; dvb_target_ip_address_descriptor_codec;
   dvb_target_ip_slash_descriptor_codec; dvb_target_ip_source_slash_descriptor_codec;
   dvb_target_ipv6_address_descriptor_codec; dvb_target_ipv6_slash_descriptor_codec;
   dvb_target_ipv6_source_slash_descriptor_codec; dvb_telephone_descriptor_codec;
   dvb_teletext_descriptor_codec; dvb_terrestrial_delivery_descriptor_codec;
   dvb_time_shifted_event_descriptor_codec; dvb_time_shifted_service_descriptor_codec;
   dvb_time_slice_fec_identifier_descriptor_codec; dvb_transport_stream_descriptor_codec;
   dvb_tva_id_descriptor_codec; dvb_vbi_data_descriptor_codec; dvb_vbi_teletext_descriptor_codec].

Definition atsc_codecs : list (Z -> M unit) :=
  [atsc_ac3_descriptor_codec; atsc_caption_service_descriptor_codec;
   atsc_component_name_descriptor_codec; atsc_content_advisory_descriptor_codec;
   atsc_dcc_arriving_request_descriptor_codec; atsc_dcc_departing_request_descriptor_codec;
   atsc_extended_channel_name_descriptor_codec; atsc_genre_descriptor_codec;
   atsc_rc_descriptor_codec; atsc_service_location_descriptor_codec; atsc_stuffing_descriptor_codec;
   atsc_time_shifted_service_descriptor_codec].

(** ** Automation *)

(** Loops over entries first: the length is known to be a multiple. *)
Ltac codec_loop :=
  first [match goal with H : _ mod ?s = 0 |- _ => entry_loop s end | checked_loop].

(** A loop over entries whose bound is read again. *)
Ltac known_entry_loop :=
  match goal with
  | H : ?v mod ?s = 0, Hs : safe _ _ ?ld (λ u, u = ?v) |- safe _ _ (while _ _ _ ≫= _) _ =>
      let q := fresh "q" in let i := fresh "i" in let E := fresh "E" in let x := fresh "x" in
      apply Z.mod_divide in H as [q H]; [|done];
      apply (safe_load_while (λ pos, exists i, 0 <= i /\ pos = i * s) ld v _ _ _ _ Hs);
      [exists 0; lia|lia|intros x (i & ? & ->); lia
      |intros x (i & ? & ->) E; code_steps; try (split; [exists (i + 1)|]; lia)
      |intros; code_steps; try lia]
  end.

Ltac codec_auto := code_steps; repeat (progress codec_loop); try done.

(** A remaining length that wraps is not a multiple. *)

(** ** Codecs with wrapped lengths *)

Lemma application_icons_safe : codec_safe dvb_ait_application_icons_descriptor_codec.
Proof.
  codec_start dvb_ait_application_icons_descriptor_codec. do 2 code_step.
  rebase (d + 3).
  know_fld struct_dvb_ait_application_icons_descriptor "icon_locator_length" d l.
  code_steps. rewrite u32_id in * by lia. code_steps.
Qed.

Lemma frequency_list_safe : codec_safe dvb_frequency_list_descriptor_codec.
Proof.
  codec_start dvb_frequency_list_descriptor_codec. code_steps.
  match goal with H : _ |- _ => apply no_wrap_mod in H as [? H]; [|lia..] end.
  codec_loop.
Qed.

Lemma service_availability_safe : codec_safe dvb_service_availability_descriptor_codec.
Proof.
  codec_start dvb_service_availability_descriptor_codec. code_steps.
  match goal with H : _ |- _ => apply no_wrap_mod in H as [? H]; [|lia..] end.
  codec_loop.
Qed.

Lemma rnt_scan_safe : codec_safe dvb_rnt_rnt_scan_descriptor_codec.
Proof.
  codec_start dvb_rnt_rnt_scan_descriptor_codec. code_steps.
  rewrite u32_id in * by lia. codec_loop.
Qed.

(** ** Nested loops *)

Lemma cell_list_safe : codec_safe dvb_cell_list_descriptor_codec.
Proof.
  codec_start dvb_cell_list_descriptor_codec. code_steps.
  apply (safe_pos_while (λ pos, 0 <= pos <= n)); [lia|lia|lia| |intros; by code_steps].
  intros pos Hp E. do 5 code_step. rebase (d + 2 + pos + 10).
  know_fld struct_dvb_cell_list_entry "subcell_info_loop_length" (d + 2 + pos) l.
  code_steps. known_entry_loop.
Qed.

Lemma cell_frequency_link_safe : codec_safe dvb_cell_frequency_link_descriptor_codec.
Proof.
  codec_start dvb_cell_frequency_link_descriptor_codec. code_steps.
  apply (safe_pos_while (λ pos, 0 <= pos <= n)); [lia|lia|lia| |intros; by code_steps].
  intros pos Hp E. do 3 code_step. rebase (d + 2 + pos + 7).
  know_fld struct_dvb_cell_frequency_link_cell "subcell_loop_info_length" (d + 2 + pos) l.
  code_steps. known_entry_loop.
Qed.

(** ** Lengths that are read again *)

Lemma content_identifier_safe : codec_safe dvb_content_identifier_descriptor_codec.
Proof.
  codec_start dvb_content_identifier_descriptor_codec. code_steps.
  apply (safe_pos_while (λ pos, 2 <= pos <= n + 2)); [lia|lia|lia| |intros; by code_steps].
  intros pos Hp E. do 3 code_step; [do 2 code_step|code_steps; split; lia].
  rebase (d + pos + 2). know_ld8 (d + (pos + 1)) l. code_steps. split; lia.
Qed.

Ltac counted_loop n :=
  apply (safe_count_while (λ pos, 0 <= pos <= n)); [by code_steps|lia|intros; lia| |by code_steps];
  intros pos idx Hp.

Lemma caption_service_safe : codec_safe atsc_caption_service_descriptor_codec.
Proof.
  codec_start atsc_caption_service_descriptor_codec. code_steps.
  counted_loop n. code_steps. split; lia.
Qed.

Lemma service_location_safe : codec_safe atsc_service_location_descriptor_codec.
Proof.
  codec_start atsc_service_location_descriptor_codec. code_steps.
  counted_loop n. code_steps. split; lia.
Qed.

Lemma time_shifted_service_safe : codec_safe atsc_time_shifted_service_descriptor_codec.
Proof.
  codec_start atsc_time_shifted_service_descriptor_codec. code_steps.
  counted_loop n. code_steps. split; lia.
Qed.

Lemma content_advisory_safe : codec_safe atsc_content_advisory_descriptor_codec.
Proof.
  codec_start atsc_content_advisory_descriptor_codec. code_steps.
  counted_loop n. do 2 code_step. rebase (d + 2 + pos + 2).
  know_fld struct_atsc_content_advisory_entry "rated_dimensions" (d + 2 + pos) r.
  do 7 code_step. rebase (d + 2 + pos + 2 + 2 * r + 1).
  know_fld struct_atsc_content_advisory_entry_part2 "rating_description_length"
    (d + 2 + (pos + 2 + 2 * r)) t.
  code_steps. split; lia.
Qed.

Lemma arriving_request_safe : codec_safe atsc_dcc_arriving_request_descriptor_codec.
Proof.
  codec_start atsc_dcc_arriving_request_descriptor_codec. do 3 code_step. rebase (d + 4).
  know_fld struct_atsc_dcc_arriving_request_descriptor "dcc_arriving_request_text_length" d t.
  code_steps.
Qed.

Lemma departing_request_safe : codec_safe atsc_dcc_departing_request_descriptor_codec.
Proof.
  codec_start atsc_dcc_departing_request_descriptor_codec. do 3 code_step. rebase (d + 4).
  know_fld struct_atsc_dcc_departing_request_descriptor "dcc_departing_request_text_length" d t.
  code_steps.
Qed.

Create HintDb codec.
#[export] Hint Resolve application_icons_safe frequency_list_safe service_availability_safe
  rnt_scan_safe cell_list_safe cell_frequency_link_safe content_identifier_safe caption_service_safe
  service_location_safe time_shifted_service_safe content_advisory_safe arriving_request_safe
  departing_request_safe : codec.

Ltac codec_safe :=
  lazymatch goal with
  | |- codec_safe ?c => first [solve [auto 1 with codec nocore]|codec_start c; codec_auto]
  end.

Ltac codecs_safe := repeat (apply Forall_cons_2; [codec_safe|]); apply Forall_nil_2.

Lemma mpeg_descriptors_safe : Forall codec_safe mpeg_codecs.
Proof. unfold mpeg_codecs. codecs_safe. Qed.

Lemma atsc_descriptors_safe : Forall codec_safe atsc_codecs.
Proof. unfold atsc_codecs. codecs_safe. Qed.

Lemma dvb_descriptors_safe : Forall codec_safe dvb_codecs.
Proof. unfold dvb_codecs. codecs_safe. Qed.

(** ** Codecs that leave the buffer *)

(** A descriptor at the start of a buffer that ends with it. *)
Definition overrun_by (c : Z -> M unit) (m : mem) : Prop :=
  descriptor_in m 0 (zlen m - 2) /\ c 0 m = Fault OutOfBounds.

Lemma overrun_unsafe c m : overrun_by c m -> ~ codec_safe c.
Proof.
  intros [Hd Hc] Hs. specialize (Hs m 0 _ Hd m (frame_refl _ _ (di_bytes _ _ _ Hd))).
  unfold wp in Hs. by rewrite Hc in Hs.
Qed.

Ltac overrun m :=
  apply (overrun_unsafe _ m); split; [|vm_compute; reflexivity];
  split; [repeat (apply Forall_cons_2; [by vm_compute|]); apply Forall_nil_2|done|done|done].

(** ** Theorems *)

(** C38: a hundred and eleven descriptor codecs of libucsi, on a descriptor whose length field was
    checked against the buffer: whatever the other bytes are, the codec returns (the descriptor or
    NULL) after a bounded number of rounds, never reads outside the buffer, and changes nothing
    before the body of the descriptor. *)
Theorem descriptor_codecs_safe : Forall codec_safe (mpeg_codecs ++ dvb_codecs ++ atsc_codecs).
Proof. auto using Forall_app_2, mpeg_descriptors_safe, dvb_descriptors_safe, atsc_descriptors_safe. Qed.

(** four codecs do access memory behind the buffer, each on a descriptor whose length field is
    correct: the application descriptor steps over its profiles by the size of the wrong structure,
    the external application authorisation descriptor swaps a 16-bit field as 32 bits, the data
    broadcast descriptor looks for its second part two bytes too far, and the linkage descriptor
    swaps a platform id without checking that it fits. *)
Theorem unsafe_codecs :
  ~ codec_safe dvb_ait_application_descriptor_codec /\
  ~ codec_safe dvb_ait_external_application_authorisation_descriptor_codec /\
  ~ codec_safe dvb_data_broadcast_descriptor_codec /\
  ~ codec_safe dvb_linkage_descriptor_codec.
Proof.
  split_and!.
  - overrun [0; 11; 10; 0; 0; 0; 0; 0; 0; 0; 0; 0; 0].
  - overrun [0x76; 7; 0; 0; 0; 0; 0; 0; 0].
  - overrun [0x64; 8; 0; 0; 0; 0; 0; 0; 0; 0].
  - overrun [0x4a; 9; 0; 0; 0; 0; 0; 0; 0x0b; 1; 0].
Qed.
