(* ===== verification/DescriptorWalk.v ===== *)
(** * Walking over the entries of a descriptor

    The [_first] and [_next] functions of the descriptors whose entries have a fixed size, run the way
    the [_for_each] macros of the headers run them: they visit each entry once, in order, and change
    nothing. *)

From S2P Require Export MpegDescriptors DvbDescriptors AtscDescriptors.

(** ** The code *)

Record iterator := {
  it_first : Z -> M (option Z);
  it_next : Z -> Z -> M (option Z);
  it_header : Z;
  it_size : Z;
}.

(** [for (pos = first(d); pos; pos = next(d, pos))], with the positions the body sees. *)
Definition walk_body (it : iterator) (d : Z) (s : option Z * list Z) : M (option Z * list Z) :=
  match s with
  | (Some pos, seen) => next ← it_next it d pos; mret (next, seen ++ [pos])
  | (None, seen) => mret (None, seen)
  end.

Definition walk (it : iterator) (d : Z) : M (list Z) :=
  pos ← it_first it d;
  s ← while (λ s, mret (is_some s.1)) (walk_body it d) (pos, []);
  mret s.2.

Definition fixed_iterators : list iterator :=
  [{| it_first := mpeg_fmc_descriptor_muxes_first; it_next := mpeg_fmc_descriptor_muxes_next;
      it_header := sizeof struct_mpeg_fmc_descriptor; it_size := sizeof struct_mpeg_flex_mux |};
   {| it_first := mpeg_iso_639_language_descriptor_languages_first;
      it_next := mpeg_iso_639_language_descriptor_languages_next;
      it_header := sizeof struct_mpeg_iso_639_language_descriptor;
      it_size := sizeof struct_mpeg_iso_639_language_code |};
   {| it_first := dvb_ait_external_application_authorisation_descriptor_auths_first;
      it_next := dvb_ait_external_application_authorisation_descriptor_auths_next;
      it_header := sizeof struct_dvb_ait_external_application_authorisation_descriptor;
      it_size := sizeof struct_dvb_ait_external_application_authorisation |};
   {| it_first := dvb_application_signalling_descriptor_entries_first;
      it_next := dvb_application_signalling_descriptor_entries_next;
      it_header := sizeof struct_dvb_application_signalling_descriptor;
      it_size := sizeof struct_dvb_application_signalling_entry |};
   {| it_first := dvb_content_descriptor_nibbles_first;
      it_next := dvb_content_descriptor_nibbles_next;
      it_header := sizeof struct_dvb_content_descriptor;
      it_size := sizeof struct_dvb_content_nibble |};
   {| it_first := dvb_country_availability_descriptor_countries_first;
      it_next := dvb_country_availability_descriptor_countries_next;
      it_header := sizeof struct_dvb_country_availability_descriptor;
      it_size := sizeof struct_dvb_country_availability_entry |};
   {| it_first := dvb_local_time_offset_descriptor_offsets_first;
      it_next := dvb_local_time_offset_descriptor_offsets_next;
      it_header := sizeof struct_dvb_local_time_offset_descriptor;
      it_size := sizeof struct_dvb_local_time_offset |};
   {| it_first := dvb_nvod_reference_descriptor_references_first;
      it_next := dvb_nvod_reference_descriptor_references_next;
      it_header := sizeof struct_dvb_nvod_reference_descriptor;
      it_size := sizeof struct_dvb_nvod_reference |};
   {| it_first := dvb_parental_rating_descriptor_ratings_first;
      it_next := dvb_parental_rating_descriptor_ratings_next;
      it_header := sizeof struct_dvb_parental_rating_descriptor;
      it_size := sizeof struct_dvb_parental_rating |};
   {| it_first := dvb_rnt_rnt_scan_descriptor_entries_first;
      it_next := dvb_rnt_rnt_scan_descriptor_entries_next;
      it_header := sizeof struct_dvb_rnt_rnt_scan_descriptor;
      it_size := sizeof struct_dvb_rnt_rnt_scan_entry |};
   {| it_first := dvb_service_list_descriptor_services_first;
      it_next := dvb_service_list_descriptor_services_next;
      it_header := sizeof struct_dvb_service_list_descriptor;
      it_size := sizeof struct_dvb_service_list_service |};
   {| it_first := dvb_subtitling_descriptor_subtitles_first;
      it_next := dvb_subtitling_descriptor_subtitles_next;
      it_header := sizeof struct_dvb_subtitling_descriptor;
      it_size := sizeof struct_dvb_subtitling_entry |};
   {| it_first := dvb_target_ip_slash_descriptor_ipv4_slash_first;
      it_next := dvb_target_ip_slash_descriptor_ipv4_slash_next;
      it_header := sizeof struct_dvb_target_ip_slash_descriptor;
      it_size := sizeof struct_dvb_ipv4_slash |};
   {| it_first := dvb_target_ip_source_slash_descriptor_ipv4_source_slash_first;
      it_next := dvb_target_ip_source_slash_descriptor_ipv4_source_slash_next;
      it_header := sizeof struct_dvb_target_ip_source_slash_descriptor;
      it_size := sizeof struct_dvb_ipv4_source_slash |};
   {| it_first := dvb_target_ipv6_slash_descriptor_ipv6_slash_first;
      it_next := dvb_target_ipv6_slash_descriptor_ipv6_slash_next;
      it_header := sizeof struct_dvb_target_ipv6_slash_descriptor;
      it_size := sizeof struct_dvb_ipv6_slash |};
   {| it_first := dvb_target_ipv6_source_slash_descriptor_ipv6_source_slash_first;
      it_next := dvb_target_ipv6_source_slash_descriptor_ipv6_source_slash_next;
      it_header := sizeof struct_dvb_target_ipv6_source_slash_descriptor;
      it_size := sizeof struct_dvb_ipv6_source_slash |};
   {| it_first := dvb_teletext_descriptor_entries_first;
      it_next := dvb_teletext_descriptor_entries_next;
      it_header := sizeof struct_dvb_teletext_descriptor;
      it_size := sizeof struct_dvb_teletext_entry |};
   {| it_first := dvb_tva_id_descriptor_entries_first;
      it_next := dvb_tva_id_descriptor_entries_next;
      it_header := sizeof struct_dvb_tva_id_descriptor;
      it_size := sizeof struct_dvb_tva_id_entry |}].

(** The addresses behind the mask. *)
Definition address_iterators : list iterator :=
  [{| it_first := dvb_target_ip_address_descriptor_ipv4_addr_first;
      it_next := dvb_target_ip_address_descriptor_ipv4_addr_next;
      it_header := sizeof struct_dvb_target_ip_address_descriptor;
      it_size := sizeof struct_dvb_ipv4_addr |};
   {| it_first := dvb_target_ipv6_address_descriptor_ipv6_addr_first;
      it_next := dvb_target_ipv6_address_descriptor_ipv6_addr_next;
      it_header := sizeof struct_dvb_target_ipv6_address_descriptor;
      it_size := sizeof struct_dvb_ipv6_addr |}].

(** ** Specification *)

(** The positions of [k] entries. *)
Definition entries_at (it : iterator) (d : Z) (k : nat) : list Z :=
  map (λ i : nat, d + it_header it + Z.of_nat i * it_size it) (seq 0 k).

(** In a descriptor with room for exactly [k] entries, each is visited. *)
Definition visits_all (it : iterator) : Prop :=
  forall m d n k, descriptor_in m d n -> n + 2 = it_header it + Z.of_nat k * it_size it ->
  walk it d m = Ret (entries_at it d k) m.

(** All but the last one, when there are several. *)
Definition visits_but_last (it : iterator) : Prop :=
  forall m d n k, descriptor_in m d n -> n + 2 = it_header it + Z.of_nat (S (S k)) * it_size it ->
  walk it d m = Ret (entries_at it d (S k)) m.

(** ** Reasoning *)

Section Walk.
Context (it : iterator) (m : mem) (d fin : Z).
Hypothesis Hs : 0 < it_size it.
Hypothesis Hnext : forall p, it_next it d p m =
  Ret (if fin <=? p + it_size it then None else Some (p + it_size it)) m.

Local Abbreviation position j := (d + it_header it + Z.of_nat j * it_size it).

Lemma walk_step p seen :
  walk_body it d (Some p, seen) m =
  Ret (if fin <=? p + it_size it then None else Some (p + it_size it), seen ++ [p]) m.
Proof using Hnext. unfold walk_body. by run by apply Hnext. Qed.

Lemma walk_loop k : forall j f seen,
  fin = position (S (j + k)) -> (k + 1 < f)%nat ->
  iter_ f (while_body (λ s, mret (is_some s.1)) (walk_body it d)) (Some (position j), seen) m =
  Ret (None, seen ++ map (λ i, position i) (seq j (S k))) m.
Proof using Hs Hnext.
  induction k as [|k IH]; intros j f seen Hfin Hf; (destruct f as [|f]; [lia|]);
    erewrite while_step by (done || apply walk_step).
  - destruct f as [|f]; [lia|]. rewrite Nat.add_0_r in Hfin.
    destruct (Z.leb_spec fin (position j + it_size it)); [|lia]. by rewrite while_exit.
  - destruct (Z.leb_spec fin (position j + it_size it)); [lia|].
    replace (position j + it_size it) with (position (S j)) by lia.
    rewrite IH; [|lia..]. by rewrite <- app_assoc.
Qed.
End Walk.

(** Both kinds of iterators, by where they stop. *)
Lemma walk_run it m d fin k :
  0 < it_size it ->
  (forall p, it_next it d p m =
    Ret (if fin <=? p + it_size it then None else Some (p + it_size it)) m) ->
  it_first it d m = Ret (if Z.of_nat k =? 0 then None else Some (d + it_header it)) m ->
  fin = d + it_header it + Z.of_nat k * it_size it -> Z.of_nat k <= zlen m ->
  walk it d m = Ret (entries_at it d k) m.
Proof.
  intros Hs Hnext Hfirst Hfin Hk. unfold walk. run by exact Hfirst.
  destruct k as [|k]; cbn [Z.of_nat Z.eqb] in Hfirst |- *; cbv iota.
  - by run by (by rewrite while_run, while_exit).
  - replace (d + it_header it) with (d + it_header it + Z.of_nat 0 * it_size it) by lia.
    assert (S k <= List.length m)%nat by lia.
    by run by (rewrite while_run; apply (walk_loop it m d fin Hs Hnext k 0); lia).
Qed.

Lemma descriptor_len_run m d n : descriptor_in m d n -> descriptor_len d m = Ret n m.
Proof. intros [Hb Hd Hn Hs]. unfold descriptor_len, ld8. by rewrite Hn. Qed.

(** The functions of one iterator on a descriptor. *)
Ltac iterator_runs H :=
  lazymatch goal with
  | |- ?f _ _ _ = _ => unfold f
  | |- ?f _ _ = _ => unfold f
  end;
  rewrite (bind_run _ _ _ _ _ (descriptor_len_run _ _ _ H)); cbv beta iota zeta; sizes;
  repeat case_match; bool_facts; first [done | exfalso; lia].

Ltac visits fin :=
  let H := fresh "H" in let Hk := fresh "Hk" in
  intros m d n k H Hk; pose proof (descriptor_in_len _ _ _ H) as Hlen;
  destruct (H) as [_ Hd _ Hsize]; cbn [it_first it_next it_header it_size] in *;
  repeat match type of Hk with
  | context [sizeof ?l] => let v := eval vm_compute in (sizeof l) in change (sizeof l) with v in Hk
  end;
  apply (walk_run _ _ _ (d + 2 + n - fin)); cbn [it_first it_next it_header it_size]; sizes;
  [lia|intros p; iterator_runs H|iterator_runs H|lia|lia].

(** ** Theorems *)

(** the [_for_each] macros over entries of a fixed size, of eighteen descriptors: on every
    descriptor that has room for exactly [k] entries behind its header, [_first] and [_next] yield
    their [k] positions in order, then NULL, and leave the buffer alone. *)
Theorem descriptor_iterators_visit : Forall visits_all fixed_iterators.
Proof.
  unfold fixed_iterators. repeat (apply Forall_cons_2; [visits 0|]). apply Forall_nil_2.
Qed.

(** [dvb_target_ip_address_descriptor_ipv4_addr_next] and its IPv6 counterpart take the size of
    the mask off the end of the descriptor although the addresses run up to the end: whatever the
    number of addresses, when there are two or more the last one is never visited. *)
Theorem address_iterators_skip_last : Forall visits_but_last address_iterators.
Proof.
  unfold address_iterators. apply Forall_cons_2; [visits 4|apply Forall_cons_2; [visits 16|]].
  apply Forall_nil_2.
Qed.
