(* ===== verification/DescriptorLists.v ===== *)
(** * Descriptors that are lists of entries

    The codecs whose body is a sequence of entries of one size: each swaps the same fields of every
    entry.  The specification reverses the bytes of these fields, entry by entry; a body that is no
    whole number of entries is refused untouched. *)

From S2P Require Export DescriptorWalk EntryTable.

(** ** Specification *)

(** The codec, the size of the structure before the entries, the size of an entry, and its fields
    wider than a byte: width and offset. *)
Record list_codec := {
  lc_codec : Z -> M unit;
  lc_header : Z;
  lc_size : Z;
  lc_fields : list (nat * nat);
}.

Definition native_entry (fields : list (nat * nat)) (e : list Z) : list Z :=
  foldl (λ e '(n, k), swap_cells n k e) e fields.

Definition codes_entries (lc : list_codec) : Prop :=
  forall pre tag hd es,
    let wire := pre ++ [tag; zlen (hd ++ concat es)] ++ hd ++ concat es in
    zlen hd = lc_header lc - 2 -> Forall (λ e, zlen e = lc_size lc) es -> Forall byte wire ->
    lc_codec lc (zlen pre) wire =
    Ret tt (pre ++ [tag; zlen (hd ++ concat es)] ++ hd ++ concat (map (native_entry (lc_fields lc)) es)).

Definition refuses_others (lc : list_codec) : Prop :=
  forall m d n, descriptor_in m d n ->
    (forall k : nat, n + 2 <> lc_header lc + Z.of_nat k * lc_size lc) ->
    lc_codec lc d m = Null m.

Definition list_codecs : list list_codec :=
  [{| lc_codec := mpeg_fmc_descriptor_codec; lc_header := sizeof struct_mpeg_fmc_descriptor;
      lc_size := sizeof struct_mpeg_flex_mux; lc_fields := [(2, 0)%nat] |};
   {| lc_codec := dvb_application_signalling_descriptor_codec;
      lc_header := sizeof struct_dvb_application_signalling_descriptor;
      lc_size := sizeof struct_dvb_application_signalling_entry; lc_fields := [(2, 0)%nat] |};
   {| lc_codec := dvb_ca_identifier_descriptor_codec;
      lc_header := sizeof struct_dvb_ca_identifier_descriptor;
      lc_size := 2; lc_fields := [(2, 0)%nat] |};
   {| lc_codec := dvb_frequency_list_descriptor_codec;
      lc_header := sizeof struct_dvb_frequency_list_descriptor;
      lc_size := 4; lc_fields := [(4, 0)%nat] |};
   {| lc_codec := dvb_nvod_reference_descriptor_codec;
      lc_header := sizeof struct_dvb_nvod_reference_descriptor;
      lc_size := sizeof struct_dvb_nvod_reference;
      lc_fields := [(2, 0)%nat; (2, 2)%nat; (2, 4)%nat] |};
   {| lc_codec := dvb_rnt_rnt_scan_descriptor_codec;
      lc_header := sizeof struct_dvb_rnt_rnt_scan_descriptor;
      lc_size := sizeof struct_dvb_rnt_rnt_scan_entry; lc_fields := [(2, 0)%nat; (2, 2)%nat] |};
   {| lc_codec := dvb_service_availability_descriptor_codec;
      lc_header := sizeof struct_dvb_service_availability_descriptor;
      lc_size := 2; lc_fields := [(2, 0)%nat] |};
   {| lc_codec := dvb_service_list_descriptor_codec;
      lc_header := sizeof struct_dvb_service_list_descriptor;
      lc_size := sizeof struct_dvb_service_list_service; lc_fields := [(2, 0)%nat] |};
   {| lc_codec := dvb_subtitling_descriptor_codec;
      lc_header := sizeof struct_dvb_subtitling_descriptor;
      lc_size := sizeof struct_dvb_subtitling_entry; lc_fields := [(2, 4)%nat; (2, 6)%nat] |};
   {| lc_codec := dvb_tva_id_descriptor_codec;
      lc_header := sizeof struct_dvb_tva_id_descriptor;
      lc_size := sizeof struct_dvb_tva_id_entry; lc_fields := [(2, 0)%nat] |}].

(** ** Reasoning *)

Fixpoint swap_fields (fields : list (nat * nat)) (p : Z) : M unit :=
  match fields with
  | [] => mret tt
  | (n, k) :: fields => bswap_at n (p + Z.of_nat k);; swap_fields fields p
  end.

Lemma swap_cells_length n k e : (k + n <= length e)%nat -> length (swap_cells n k e) = length e.
Proof.
  intros H. unfold swap_cells.
  rewrite !length_app, length_rev, !length_take, !length_drop. lia.
Qed.

Lemma swap_cells_bytes n k e : Forall byte e -> Forall byte (swap_cells n k e).
Proof.
  intros H. unfold swap_cells.
  apply Forall_app_2; [by apply Forall_take|apply Forall_app_2; [|by apply Forall_drop]].
  by apply Forall_rev, Forall_take, Forall_drop.
Qed.

Lemma native_entry_length fields e :
  Forall (λ f, (f.2 + f.1 <= length e)%nat) fields -> length (native_entry fields e) = length e.
Proof.
  revert e. induction fields as [|[n k] fields IH]; intros e Hf; [done|].
  apply Forall_cons_iff in Hf as [H1 Hf]. cbn [native_entry foldl fst snd] in *.
  change (length (native_entry fields (swap_cells n k e)) = length e).
  rewrite IH; rewrite swap_cells_length; done.
Qed.

Lemma swap_fields_run fields pre e post :
  Forall (λ f, (f.2 + f.1 <= length e)%nat) fields -> Forall byte e ->
  swap_fields fields (zlen pre) (pre ++ e ++ post) =
  Ret tt (pre ++ native_entry fields e ++ post).
Proof.
  revert e. induction fields as [|[n k] fields IH]; intros e Hf Hb; [done|].
  apply Forall_cons_iff in Hf as [H1 Hf]. cbn [swap_fields fst snd] in *.
  run by (by apply bswap_cells).
  apply IH; [by rewrite swap_cells_length|by apply swap_cells_bytes].
Qed.

Section SwapLoop.
Context (fields : list (nat * nat)) (size base len : Z).
Hypothesis Hsize : 0 < size.
Hypothesis Hfields : Forall (λ f, Z.of_nat (f.2 + f.1) <= size) fields.

Local Abbreviation body := (λ pos : Z, swap_fields fields (base + pos);; mret (pos + size)).
Local Abbreviation cond := (λ pos : Z, mret (pos <? len) : M bool).

Lemma swap_loop es : forall pre pos f,
  base + pos = zlen pre -> len = pos + zlen (concat es) -> (length es < f)%nat ->
  Forall (λ e, zlen e = size) es -> Forall byte (concat es) ->
  iter_ f (while_body cond body) pos (pre ++ concat es) =
  Ret len (pre ++ concat (map (native_entry fields) es)).
Proof using Hsize Hfields.
  induction es as [|e es IH]; intros pre pos f Hpos Hlen Hf He Hb; (destruct f as [|f]; [lia|]).
  - cbn in Hlen. rewrite while_exit by (by destruct (Z.ltb_spec pos len); [lia|]).
    f_equal; lia.
  - apply Forall_cons_iff in He as [He Hes]. cbn [concat map] in *.
    apply Forall_app in Hb as [Hb Hbs]. rewrite length_app in Hlen. cbn [length] in Hf.
    assert (Hin : Forall (λ f, (f.2 + f.1 <= length e)%nat) fields)
      by (eapply Forall_impl; [|exact Hfields]; intros [n k]; cbn; lia).
    erewrite while_step.
    2: by destruct (Z.ltb_spec pos len); [|lia].
    2: { rewrite Hpos. run by (by apply swap_fields_run). done. }
    rewrite !app_assoc. apply IH; try done; rewrite ?length_app, ?native_entry_length by done; lia.
Qed.
End SwapLoop.

Lemma length_concat_entries size (es : list (list Z)) :
  Forall (λ e, zlen e = size) es -> zlen (concat es) = zlen es * size.
Proof.
  induction 1 as [|e es He Hes IH]; [done|]. cbn [concat length]. rewrite length_app. nia.
Qed.

(** What the codec amounts to once its length check passed. *)
Lemma list_codec_run fields size base skip len c d pre tag hd es :
  let wire := pre ++ [tag; zlen (hd ++ concat es)] ++ hd ++ concat es in
  0 < size -> Forall (λ f, Z.of_nat (f.2 + f.1) <= size) fields ->
  base + skip = zlen pre + 2 + zlen hd -> len = skip + zlen (concat es) -> d = zlen pre ->
  (c d wire = (_ ← while (λ pos, mret (pos <? len))
    (λ pos, swap_fields fields (base + pos);; mret (pos + size)) skip; mret tt) wire) ->
  Forall (λ e, zlen e = size) es -> Forall byte wire ->
  c d wire = Ret tt (pre ++ [tag; zlen (hd ++ concat es)] ++ hd ++ concat (map (native_entry fields) es)).
Proof.
  intros wire Hs Hf Hbase Hlen -> -> He Hb. pose proof (length_concat_entries _ _ He) as Hc.
  assert (Hw : wire = (pre ++ [tag; zlen (hd ++ concat es)] ++ hd) ++ concat es)
    by (unfold wire; by rewrite <- !app_assoc).
  rewrite Hw in *. apply Forall_app in Hb as [_ Hb].
  run by (rewrite while_run; apply (swap_loop fields size base len Hs Hf es);
    [rewrite !length_app; cbn; lia|done|rewrite !length_app; nia|done|done]).
  by rewrite <- !app_assoc.
Qed.

Lemma descriptor_len_wire pre tag n body :
  descriptor_len (zlen pre) (pre ++ [tag; n] ++ body) = Ret n (pre ++ [tag; n] ++ body).
Proof.
  unfold descriptor_len. apply (ld8_at _ (pre ++ [tag]) n body); [by rewrite <- app_assoc|].
  rewrite length_app. cbn. lia.
Qed.

Lemma multiple_accepted x s k : x = k * s -> 0 < s -> negb (x mod s =? 0) = false.
Proof. intros -> Hs. by rewrite Z.mod_mul by lia. Qed.

Lemma other_refused x s : 0 < s -> 0 <= x -> (forall k : nat, x <> Z.of_nat k * s) ->
  negb (x mod s =? 0) = true.
Proof.
  intros Hs Hx Hk. destruct (Z.eqb_spec (x mod s) 0) as [E|]; [|done].
  apply Z.mod_divide in E as [q Hq]; [|lia]. destruct (Hk (Z.to_nat q)). nia.
Qed.

Lemma wire_len_byte pre tag n body : Forall byte (pre ++ [tag; n] ++ body) -> byte n.
Proof. intros [_ [_ [H _]%Forall_cons_iff]%Forall_cons_iff]%Forall_app. exact H. Qed.

Ltac list_fields H :=
  repeat match type of H with
  | context [sizeof ?l] => let v := eval vm_compute in (sizeof l) in change (sizeof l) with v in H
  end.

Lemma while_bind_ext {S A} cond (body body' : S -> M S) s (f : S -> M A) m :
  (forall s m, body s m = body' s m) ->
  (while cond body s ≫= f) m = (while cond body' s ≫= f) m.
Proof. intros H. unfold mbind, M_bind. by rewrite (while_ext cond body body') by done. Qed.

(** One codec of the list: where its loop counts from, and up to. *)
Ltac codes c base skip len :=
  let Hhd := fresh "Hhd" in let He := fresh "He" in let Hb := fresh "Hb" in let HL := fresh "HL" in
  intros pre tag hd es wire Hhd He Hb; cbn [lc_codec lc_header lc_size lc_fields] in *;
  list_fields Hhd; list_fields He;
  pose proof (length_concat_entries _ _ He) as Hc; pose proof (wire_len_byte _ _ _ _ Hb) as Hn;
  unfold byte in Hn;
  assert (HL : zlen (hd ++ concat es) = zlen hd + zlen (concat es)) by (rewrite length_app; lia);
  eapply (list_codec_run _ _ (base (zlen pre)) skip (len (zlen (hd ++ concat es))));
  [| |lia|lia|reflexivity| |exact He|exact Hb]; [lia|repeat (apply Forall_cons_2; [cbn; lia|]); apply Forall_nil_2|];
  unfold c; sizes; fold wire; run by (apply descriptor_len_wire); fold wire;
  rewrite reject_run by (rewrite ?u32_id by lia; apply (multiple_accepted _ _ (zlen es)); lia);
  apply while_bind_ext; intros pos m; cbn [swap_fields]; unfold bswap16, bswap32;
  cbv beta; change (Z.of_nat 0) with 0; change (Z.of_nat 2) with 2; change (Z.of_nat 4) with 4;
  change (Z.of_nat 6) with 6;
  rewrite ?Z.add_0_r; bind_eq.

Lemma wrapped_refused n s :
  0 <= n < 256 -> s = 2 \/ s = 4 -> (forall k : nat, n - 1 <> Z.of_nat k * s) ->
  negb (u32 (n - 1) mod s =? 0) = true.
Proof.
  intros Hn Hs Hk. destruct (Z.eqb_spec (u32 (n - 1) mod s) 0) as [E|]; [|done].
  apply no_wrap_mod in E as [Hp E]; [|done..].
  pose proof (other_refused (n - 1) s) as H. rewrite E in H. apply H; [lia|lia|done].
Qed.

Ltac refuses c :=
  let H := fresh "H" in let Hk := fresh "Hk" in
  intros m d n H Hk; pose proof (descriptor_in_len _ _ _ H);
  cbn [lc_codec lc_header lc_size lc_fields] in *; list_fields Hk;
  unfold c; sizes; run by (by apply descriptor_len_run); apply reject_null;
  first [ apply wrapped_refused; [lia|auto|]
        | rewrite ?u32_id by lia; apply other_refused; [lia|lia|] ];
  intros k Ek; apply (Hk k); lia.

Ltac list_codec c base skip len := split; [codes c base skip len|refuses c].

(** ten codecs whose descriptor is a list of entries of one size (service list, NVOD references,
    subtitles, frequencies, ...): in a body made of such entries, each multi-byte field of each entry
    is converted from the byte order of the wire and nothing else changes; any other body is refused
    with the buffer as it was. *)
Theorem list_codecs_correct : Forall (λ lc, codes_entries lc /\ refuses_others lc) list_codecs.
Proof.
  unfold list_codecs. repeat apply Forall_cons_2; [..|apply Forall_nil_2].
  - list_codec mpeg_fmc_descriptor_codec (λ d, d + 2) 0 (λ n : Z, n).
  - list_codec dvb_application_signalling_descriptor_codec (λ d, d + 2) 0 (λ n : Z, n).
  - list_codec dvb_ca_identifier_descriptor_codec (λ d, d + 2) 0 (λ n : Z, n).
  - list_codec dvb_frequency_list_descriptor_codec (λ d, d + 2) 1 (λ n : Z, n).
  - list_codec dvb_nvod_reference_descriptor_codec (λ d, d + 2) 0 (λ n : Z, n).
  - list_codec dvb_rnt_rnt_scan_descriptor_codec (λ d : Z, d) 2 (λ n, n + 2).
  - list_codec dvb_service_availability_descriptor_codec (λ d, d + 2) 1 (λ n : Z, n).
  - list_codec dvb_service_list_descriptor_codec (λ d, d + 2) 0 (λ n : Z, n).
  - list_codec dvb_subtitling_descriptor_codec (λ d, d + 2) 0 (λ n : Z, n).
  - list_codec dvb_tva_id_descriptor_codec (λ d, d + 2) 0 (λ n : Z, n).
Qed.
