(* ===== verification/AtscSections.v ===== *)
(** * libucsi/atsc: the section codecs of A/65

    One definition per [atsc_*_section_codec].  Every PSIP section has the 8 bytes of
    [struct section_ext] and a protocol version. *)

From S2P Require Export CountedTable AtscText.

(** ** The code *)

Definition sizeof_atsc_section_psip : Z := 9.
Definition sizeof_atsc_cvct_section : Z := 10.
Definition sizeof_atsc_cvct_channel : Z := 32.
Definition sizeof_atsc_cvct_section_part2 : Z := 2.
Definition sizeof_atsc_tvct_section : Z := 10.
Definition sizeof_atsc_tvct_channel : Z := 32.
Definition sizeof_atsc_tvct_section_part2 : Z := 2.
Definition sizeof_atsc_dccsct_section : Z := 10.
Definition sizeof_atsc_dccsct_update : Z := 2.
Definition sizeof_atsc_dccsct_update_new_genre : Z := 1.
Definition sizeof_atsc_dccsct_update_new_state : Z := 1.
Definition sizeof_atsc_dccsct_update_new_county : Z := 3.
Definition sizeof_atsc_dccsct_update_part2 : Z := 2.
Definition sizeof_atsc_dccsct_section_part2 : Z := 2.
Definition sizeof_atsc_dcct_section : Z := 10.
Definition sizeof_atsc_dcct_test : Z := 15.
Definition sizeof_atsc_dcct_term : Z := 11.
Definition sizeof_atsc_dcct_test_part2 : Z := 2.
Definition sizeof_atsc_dcct_section_part2 : Z := 2.
Definition sizeof_atsc_eit_section : Z := 10.
Definition sizeof_atsc_eit_event : Z := 10.
Definition sizeof_atsc_eit_event_part2 : Z := 2.
Definition sizeof_atsc_ett_section : Z := 13.
Definition sizeof_atsc_mgt_section : Z := 11.
Definition sizeof_atsc_mgt_table : Z := 11.
Definition sizeof_atsc_mgt_section_part2 : Z := 2.
Definition sizeof_atsc_rrt_section : Z := 10.
Definition sizeof_atsc_rrt_section_part2 : Z := 1.
Definition sizeof_atsc_rrt_dimension : Z := 1.
Definition sizeof_atsc_rrt_dimension_part2 : Z := 1.
Definition sizeof_atsc_rrt_dimension_value : Z := 1.
Definition sizeof_atsc_rrt_dimension_value_part2 : Z := 1.
Definition sizeof_atsc_rrt_section_part3 : Z := 2.
Definition sizeof_atsc_stt_section : Z := 16.

Definition ATSC_DCCST_UPDATE_NEW_GENRE : Z := 0x01.
Definition ATSC_DCCST_UPDATE_NEW_STATE : Z := 0x02.
Definition ATSC_DCCST_UPDATE_NEW_COUNTY : Z := 0x03.

(** A native 16-bit word whose low 10 bits are a bit-field. *)
Definition ld_field10 (p : Z) : M Z := w ← ld16 p; mret (Z.land w 0x3ff).

(** [if (atsc_text_validate(buf + pos, len)) return NULL;] *)
Definition validate_or_null (base len : Z) : M unit :=
  r ← atsc_text_validate base len; reject_if (negb (r =? 0)).

Definition atsc_section_psip_decode : M unit :=
  len ← section_ext_length;
  reject_if (len <? sizeof_atsc_section_psip).

(** *** CVCT and TVCT *)

Definition atsc_cvct_section_codec : M unit :=
  let pos := sizeof_atsc_section_psip in
  len ← section_ext_length;
  reject_if (len <? sizeof_atsc_cvct_section);;
  let pos := pos + 1 in
  pos ← for_count (ld8 9) (fun pos =>
    reject_if (len <? pos + sizeof_atsc_cvct_channel);;
    let channel := pos in
    let pos := pos + 7 * 2 in
    bswap32 pos;;
    bswap32 (pos + 4);;
    bswap16 (pos + 8);;
    bswap16 (pos + 10);;
    bswap16 (pos + 12);;
    bswap16 (pos + 14);;
    bswap16 (pos + 16);;
    let pos := pos + 18 in
    n ← ld_field10 (channel + 30);
    reject_if (len <? pos + n);;
    verify_or_null pos n;;
    mret (pos + n)) pos;
  reject_if (len <? pos + sizeof_atsc_cvct_section_part2);;
  let part2 := pos in
  bswap16 pos;;
  let pos := pos + 2 in
  n ← ld_field10 part2;
  reject_if (len <? pos + n);;
  verify_or_null pos n;;
  let pos := pos + n in
  reject_if (negb (pos =? len)).

Definition atsc_tvct_section_codec : M unit :=
  let pos := sizeof_atsc_section_psip in
  len ← section_ext_length;
  reject_if (len <? sizeof_atsc_tvct_section);;
  let pos := pos + 1 in
  pos ← for_count (ld8 9) (fun pos =>
    reject_if (len <? pos + sizeof_atsc_tvct_channel);;
    let channel := pos in
    let pos := pos + 7 * 2 in
    bswap32 pos;;
    bswap32 (pos + 4);;
    bswap16 (pos + 8);;
    bswap16 (pos + 10);;
    bswap16 (pos + 12);;
    bswap16 (pos + 14);;
    bswap16 (pos + 16);;
    let pos := pos + 18 in
    n ← ld_field10 (channel + 30);
    reject_if (len <? pos + n);;
    verify_or_null pos n;;
    mret (pos + n)) pos;
  reject_if (len <? pos + sizeof_atsc_tvct_section_part2);;
  let part2 := pos in
  bswap16 pos;;
  let pos := pos + 2 in
  n ← ld_field10 part2;
  reject_if (len <? pos + n);;
  verify_or_null pos n;;
  let pos := pos + n in
  reject_if (negb (pos =? len)).

(** *** DCCSCT

    The pointer [part2] of an update is [(struct atsc_dccsct_update_part2 * ) buf + pos]: the cast
    binds tighter than the addition, so it is [2 * pos] bytes into the buffer. *)

Definition dccsct_update (len pos : Z) : M Z :=
  reject_if (len <? pos + sizeof_atsc_dccsct_update);;
  let update := pos in
  let pos := pos + sizeof_atsc_dccsct_update in
  update_data_length ← ld8 (update + 1);
  reject_if (len <? pos + update_data_length);;
  update_type ← ld8 update;
  (if update_type =? ATSC_DCCST_UPDATE_NEW_GENRE then
     let sublen := sizeof_atsc_dccsct_update_new_genre in
     reject_if (update_data_length <? sublen);;
     validate_or_null (pos + sublen) (update_data_length - sublen)
   else if update_type =? ATSC_DCCST_UPDATE_NEW_STATE then
     let sublen := sizeof_atsc_dccsct_update_new_state in
     reject_if (update_data_length <? sublen);;
     validate_or_null (pos + sublen) (update_data_length - sublen)
   else if update_type =? ATSC_DCCST_UPDATE_NEW_COUNTY then
     let sublen := sizeof_atsc_dccsct_update_new_county in
     reject_if (update_data_length <? sublen);;
     bswap16 (pos + 1);;
     validate_or_null (pos + sublen) (update_data_length - sublen)
   else mret tt);;
  let pos := pos + update_data_length in
  reject_if (len <? pos + sizeof_atsc_dccsct_update_part2);;
  let part2 := sizeof_atsc_dccsct_update_part2 * pos in
  bswap16 pos;;
  let pos := pos + sizeof_atsc_dccsct_update_part2 in
  n ← ld_field10 part2;
  reject_if (len <? pos + n);;
  verify_or_null pos n;;
  mret (pos + n).

Definition atsc_dccsct_section_codec : M unit :=
  len ← section_ext_length;
  reject_if (len <? sizeof_atsc_dccsct_section);;
  pos ← for_count (ld8 9) (dccsct_update len) sizeof_atsc_dccsct_section;
  reject_if (len <? pos + sizeof_atsc_dccsct_section_part2);;
  let part2 := pos in
  bswap16 pos;;
  let pos := pos + sizeof_atsc_dccsct_section_part2 in
  n ← ld_field10 part2;
  reject_if (len <? pos + n);;
  verify_or_null pos n;;
  let pos := pos + n in
  reject_if (negb (pos =? len)).

(** *** DCCT: tests, each with its terms *)

Definition dcct_term (len pos : Z) : M Z :=
  reject_if (len <? pos + sizeof_atsc_dcct_term);;
  let term := pos in
  bswap64 (pos + 1);;
  bswap16 (pos + 9);;
  let pos := pos + sizeof_atsc_dcct_term in
  n ← ld_field10 (term + 9);
  reject_if (len <? pos + n);;
  verify_or_null pos n;;
  mret (pos + n).

Definition dcct_test (len pos : Z) : M Z :=
  reject_if (len <? pos + sizeof_atsc_dcct_test);;
  let test := pos in
  bswap24 pos;;
  bswap24 (pos + 3);;
  bswap32 (pos + 6);;
  bswap32 (pos + 10);;
  let pos := pos + sizeof_atsc_dcct_test in
  pos ← for_count (ld8 (test + 14)) (dcct_term len) pos;
  reject_if (len <? pos + sizeof_atsc_dcct_test_part2);;
  let part2 := pos in
  bswap16 pos;;
  let pos := pos + sizeof_atsc_dcct_test_part2 in
  n ← ld_field10 part2;
  reject_if (len <? pos + n);;
  verify_or_null pos n;;
  mret (pos + n).

Definition atsc_dcct_section_codec : M unit :=
  len ← section_ext_length;
  reject_if (len <? sizeof_atsc_dcct_section);;
  pos ← for_count (ld8 9) (dcct_test len) sizeof_atsc_dcct_section;
  reject_if (len <? pos + sizeof_atsc_dcct_section_part2);;
  let part2 := pos in
  bswap16 pos;;
  let pos := pos + sizeof_atsc_dcct_section_part2 in
  n ← ld_field10 part2;
  reject_if (len <? pos + n);;
  verify_or_null pos n;;
  let pos := pos + n in
  reject_if (negb (pos =? len)).

(** *** EIT and ETT *)

Definition atsc_eit_section_codec : M unit :=
  len ← section_ext_length;
  reject_if (len <? sizeof_atsc_eit_section);;
  pos ← for_count (ld8 9) (fun pos =>
    reject_if (len <? pos + sizeof_atsc_eit_event);;
    let event := pos in
    bswap16 pos;;
    bswap32 (pos + 2);;
    bswap32 (pos + 6);;
    let pos := pos + sizeof_atsc_eit_event in
    title_length ← ld8 (event + 6);
    reject_if (len <? pos + title_length);;
    validate_or_null pos title_length;;
    let pos := pos + title_length in
    reject_if (len <? pos + sizeof_atsc_eit_event_part2);;
    let part2 := pos in
    bswap16 pos;;
    let pos := pos + sizeof_atsc_eit_event_part2 in
    n ← ld_field12 part2;
    reject_if (len <? pos + n);;
    verify_or_null pos n;;
    mret (pos + n)) sizeof_atsc_eit_section;
  reject_if (negb (pos =? len)).

Definition atsc_ett_section_codec : M unit :=
  let pos := sizeof_atsc_section_psip in
  len ← section_ext_length;
  reject_if (len <? sizeof_atsc_ett_section);;
  bswap32 pos;;
  let pos := pos + 4 in
  len ← section_ext_length;
  validate_or_null pos (len - sizeof_atsc_ett_section).

(** *** MGT *)

Definition mgt_table_descriptors_length (table : Z) : M Z := ld_field12 (table + 9).

Definition atsc_mgt_section_codec : M unit :=
  let pos := sizeof_atsc_section_psip in
  len ← section_ext_length;
  reject_if (len <? sizeof_atsc_mgt_section);;
  bswap16 pos;;
  let pos := pos + 2 in
  pos ← for_count (ld16 9) (fun pos =>
    reject_if (len <? pos + sizeof_atsc_mgt_table);;
    let table := pos in
    bswap16 pos;;
    bswap16 (pos + 2);;
    bswap32 (pos + 5);;
    bswap16 (pos + 9);;
    let pos := pos + sizeof_atsc_mgt_table in
    n ← mgt_table_descriptors_length table;
    reject_if (len <? pos + n);;
    verify_or_null pos n;;
    mret (pos + n)) pos;
  reject_if (len <? pos + sizeof_atsc_mgt_section_part2);;
  let part2 := pos in
  bswap16 pos;;
  let pos := pos + sizeof_atsc_mgt_section_part2 in
  n ← ld_field12 part2;
  reject_if (len <? pos + n);;
  verify_or_null pos n;;
  let pos := pos + n in
  reject_if (negb (pos =? len)).

(** *** RRT: the descriptors length of [part3] is read as transmitted *)

(** A text with a one-byte length, at [pos]. *)
Definition rrt_value (len pos : Z) : M Z :=
  reject_if (len <? pos + sizeof_atsc_rrt_dimension_value);;
  abbrev_rating_value_length ← ld8 pos;
  let pos := pos + sizeof_atsc_rrt_dimension_value in
  reject_if (len <? pos + abbrev_rating_value_length);;
  validate_or_null pos abbrev_rating_value_length;;
  let pos := pos + abbrev_rating_value_length in
  reject_if (len <? pos + sizeof_atsc_rrt_dimension_value_part2);;
  rating_value_length ← ld8 pos;
  let pos := pos + sizeof_atsc_rrt_dimension_value_part2 in
  reject_if (len <? pos + rating_value_length);;
  validate_or_null pos rating_value_length;;
  mret (pos + rating_value_length).

Definition rrt_dimension (len pos : Z) : M Z :=
  reject_if (len <? pos + sizeof_atsc_rrt_dimension);;
  dimension_name_length ← ld8 pos;
  let pos := pos + sizeof_atsc_rrt_dimension in
  reject_if (len <? pos + dimension_name_length);;
  validate_or_null pos dimension_name_length;;
  let pos := pos + dimension_name_length in
  reject_if (len <? pos + sizeof_atsc_rrt_dimension_part2);;
  let dpart2 := pos in
  let pos := pos + sizeof_atsc_rrt_dimension_part2 in
  for_count (b ← ld8 dpart2; mret (Z.land b 0x0f)) (rrt_value len) pos.

Definition atsc_rrt_section_codec : M unit :=
  len ← section_ext_length;
  reject_if (len <? sizeof_atsc_rrt_section);;
  let pos := sizeof_atsc_rrt_section in
  rating_region_name_length ← ld8 9;
  reject_if (len <? pos + rating_region_name_length);;
  validate_or_null pos rating_region_name_length;;
  let pos := pos + rating_region_name_length in
  reject_if (len <? pos + sizeof_atsc_rrt_section_part2);;
  let rrtpart2 := pos in
  let pos := pos + sizeof_atsc_rrt_section_part2 in
  pos ← for_count (ld8 rrtpart2) (rrt_dimension len) pos;
  reject_if (len <? pos + sizeof_atsc_rrt_section_part3);;
  let part3 := pos in
  let pos := pos + sizeof_atsc_rrt_section_part3 in
  n ← ld_field10 part3;
  reject_if (len <? pos + n);;
  verify_or_null pos n;;
  let pos := pos + n in
  reject_if (negb (pos =? len)).

(** *** STT *)

Definition atsc_stt_section_codec : M unit :=
  let pos := sizeof_atsc_section_psip in
  len ← section_ext_length;
  reject_if (len <? sizeof_atsc_stt_section);;
  bswap32 pos;;
  let pos := pos + 5 in
  bswap16 pos;;
  let pos := pos + 2 in
  verify_or_null pos (len - sizeof_atsc_stt_section).

(** ** The codecs are safe *)

Lemma safe_ld_field10 {m0 k} p :
  0 <= p -> p + 2 <= zlen m0 -> safe m0 k (ld_field10 p) (fun v => 0 <= v <= 1023).
Proof.
  intros Hp Hl. eapply safe_bind; [by apply safe_ld16|]. intros w _. apply safe_ret.
  apply (land_nonneg_le w 0x3ff). lia.
Qed.

Lemma safe_validate_or_null {m0 k} base len :
  0 <= base -> 0 <= len -> base + len <= zlen m0 ->
  safe m0 k (validate_or_null base len) (fun _ => True).
Proof. intros ? ? ?. unfold validate_or_null. safe_step. apply safe_finish. Qed.

#[export] Hint Extern 1 (safe _ _ (ld_field10 _) _) => apply safe_ld_field10; lia : safe.
#[export] Hint Extern 1 (safe _ _ (validate_or_null _ _) _) =>
  apply safe_validate_or_null; lia : safe.

(** A counted loop whose rounds all move forward, inside [lo, hi]. *)
Lemma safe_for_count {m0 k} lo hi n body pos :
  0 <= lo -> hi <= zlen m0 -> lo <= pos <= hi ->
  safe m0 k n (fun _ => True) ->
  (forall p, lo <= p <= hi -> safe m0 k (body p) (fun p' => p < p' <= hi)) ->
  safe m0 k (for_count n body pos) (fun p => lo <= p <= hi).
Proof.
  intros Hlo Hhi Hpos Hn Hbody. unfold for_count.
  apply (safe_loop (fun '(_, p) => lo <= p <= hi) snd).
  - intros [i p]; cbn; lia.
  - done.
  - intros [i p] Hp. eapply safe_bind; [exact Hn|]. intros c _. apply safe_cond. intros _.
    eapply safe_bind; [by apply Hbody|]. intros p' Hp'. cbv beta in Hp'. apply safe_ret. cbn. lia.
  - intros [i p] Hp. by apply safe_ret.
Qed.

Ltac safe_for lo hi :=
  eapply safe_bind;
  [ apply (safe_for_count lo hi);
    [ lia | lia | lia
    | first [ eapply safe_mono; [apply safe_ld8|done] | eapply safe_mono; [apply safe_ld16|done]
            | eapply safe_bind; [apply safe_ld8|intros; by apply safe_ret] ]; lia
    | let p := fresh "pos" in let H := fresh "Hp" in intros p H ]
  | let p := fresh "pos" in let H := fresh "Hp" in intros p H; cbv beta in H ].

Lemma cvct_safe m : section_buffer m -> 1 <= sec_len m -> codec_safe 8 atsc_cvct_section_codec m.
Proof.
  unfold atsc_cvct_section_codec, sizeof_atsc_cvct_section, sizeof_atsc_section_psip,
    sizeof_atsc_cvct_channel, sizeof_atsc_cvct_section_part2.
  safe_codec_start. safe_steps. safe_for 8 (sec_len m - 1).
  - safe_steps. lia.
  - safe_steps. apply safe_finish.
Qed.

Lemma tvct_safe m : section_buffer m -> 1 <= sec_len m -> codec_safe 8 atsc_tvct_section_codec m.
Proof. exact (cvct_safe m). Qed.

Lemma mgt_safe m : section_buffer m -> 1 <= sec_len m -> codec_safe 8 atsc_mgt_section_codec m.
Proof.
  unfold atsc_mgt_section_codec, sizeof_atsc_mgt_section, sizeof_atsc_section_psip,
    sizeof_atsc_mgt_table, sizeof_atsc_mgt_section_part2, mgt_table_descriptors_length.
  safe_codec_start. safe_steps. safe_for 8 (sec_len m - 1).
  - safe_steps. lia.
  - safe_steps. apply safe_finish.
Qed.

Lemma atsc_eit_safe m :
  section_buffer m -> 1 <= sec_len m -> codec_safe 8 atsc_eit_section_codec m.
Proof.
  unfold atsc_eit_section_codec, sizeof_atsc_eit_section, sizeof_atsc_eit_event,
    sizeof_atsc_eit_event_part2.
  safe_codec_start. safe_steps. safe_for 8 (sec_len m - 1).
  - safe_steps. lia.
  - apply safe_finish.
Qed.

Lemma ett_safe m : section_buffer m -> 1 <= sec_len m -> codec_safe 8 atsc_ett_section_codec m.
Proof.
  unfold atsc_ett_section_codec, sizeof_atsc_ett_section, sizeof_atsc_section_psip.
  safe_codec_start. safe_steps. subst. rewrite (ext_len_id m Hs Hmin).
  apply safe_validate_or_null; lia.
Qed.

Lemma stt_safe m : section_buffer m -> 1 <= sec_len m -> codec_safe 8 atsc_stt_section_codec m.
Proof.
  unfold atsc_stt_section_codec, sizeof_atsc_stt_section, sizeof_atsc_section_psip.
  safe_codec_start. safe_steps. apply safe_verify_or_null; lia.
Qed.

Lemma psip_safe m : section_buffer m -> 1 <= sec_len m -> codec_safe 8 atsc_section_psip_decode m.
Proof. unfold atsc_section_psip_decode. safe_codec_start. apply safe_finish. Qed.

Lemma safe_dcct_term {m0 k} len pos :
  0 <= k <= pos -> len <= zlen m0 ->
  safe m0 k (dcct_term len pos) (fun p => pos < p <= len).
Proof.
  intros Hk Hl. unfold dcct_term, sizeof_atsc_dcct_term. safe_steps. lia.
Qed.

Lemma safe_dcct_test {m0 k} len pos :
  0 <= k <= pos -> len <= zlen m0 ->
  safe m0 k (dcct_test len pos) (fun p => pos < p <= len).
Proof.
  intros Hk Hl. unfold dcct_test, sizeof_atsc_dcct_test, sizeof_atsc_dcct_test_part2.
  safe_steps. safe_for (pos + 15) len.
  - eapply safe_mono; [apply safe_dcct_term; lia|]. cbv beta. lia.
  - safe_steps. lia.
Qed.

Lemma dcct_safe m : section_buffer m -> 1 <= sec_len m -> codec_safe 8 atsc_dcct_section_codec m.
Proof.
  unfold atsc_dcct_section_codec, sizeof_atsc_dcct_section, sizeof_atsc_dcct_section_part2.
  safe_codec_start. safe_steps. safe_for 8 (sec_len m - 1).
  - eapply safe_mono; [apply safe_dcct_test; lia|]. cbv beta. lia.
  - safe_steps. apply safe_finish.
Qed.

Lemma safe_rrt_value {m0 k} len pos :
  0 <= pos -> len <= zlen m0 -> safe m0 k (rrt_value len pos) (fun p => pos < p <= len).
Proof.
  intros Hk Hl. unfold rrt_value, sizeof_atsc_rrt_dimension_value,
    sizeof_atsc_rrt_dimension_value_part2. safe_steps. lia.
Qed.

Lemma safe_rrt_dimension {m0 k} len pos :
  0 <= pos -> len <= zlen m0 -> safe m0 k (rrt_dimension len pos) (fun p => pos < p <= len).
Proof.
  intros Hk Hl. unfold rrt_dimension, sizeof_atsc_rrt_dimension, sizeof_atsc_rrt_dimension_part2.
  safe_steps. eapply safe_mono; [apply (safe_for_count (pos + 1 + v0 + 1) len); try lia|].
  - eapply safe_bind; [apply safe_ld8; lia|]. intros. by apply safe_ret.
  - intros p Hp. eapply safe_mono; [apply safe_rrt_value; lia|]. cbv beta. lia.
  - cbv beta. lia.
Qed.

Lemma rrt_safe m : section_buffer m -> 1 <= sec_len m -> codec_safe 8 atsc_rrt_section_codec m.
Proof.
  unfold atsc_rrt_section_codec, sizeof_atsc_rrt_section, sizeof_atsc_rrt_section_part2,
    sizeof_atsc_rrt_section_part3.
  safe_codec_start. safe_steps. safe_for 8 (sec_len m - 1).
  - eapply safe_mono; [apply safe_rrt_dimension; lia|]. cbv beta. lia.
  - safe_steps. apply safe_finish.
Qed.

(** the ATSC table codecs (but the one of the DCCSCT) touch no memory outside a section that
    holds its header and CRC, always terminate, and leave the section header as it was, accepted
    or not. *)
Theorem atsc_codecs_safe m :
  section_buffer m -> 9 <= sec_len m ->
  Forall (fun c => codec_safe 8 c m)
    [atsc_section_psip_decode; atsc_cvct_section_codec; atsc_tvct_section_codec;
     atsc_mgt_section_codec; atsc_eit_section_codec; atsc_ett_section_codec;
     atsc_stt_section_codec; atsc_dcct_section_codec; atsc_rrt_section_codec].
Proof.
  intros Hs Hm. assert (1 <= sec_len m) by lia. rewrite !Forall_cons_iff. split_and!;
    lazymatch goal with |- Forall _ [] => apply Forall_nil | _ => idtac end.
  - by apply psip_safe.
  - by apply cvct_safe.
  - by apply tvct_safe.
  - by apply mgt_safe.
  - by apply atsc_eit_safe.
  - by apply ett_safe.
  - by apply stt_safe.
  - by apply dcct_safe.
  - by apply rrt_safe.
Qed.

Lemma atsc_codecs_safe_witness :
  Forall (fun c => codec_safe 8 c [0xc7; 9; 0x80; 0; 1; 0xc1; 0; 0; 0; 0; 0; 0])
    [atsc_section_psip_decode; atsc_cvct_section_codec; atsc_tvct_section_codec;
     atsc_mgt_section_codec; atsc_eit_section_codec; atsc_ett_section_codec;
     atsc_stt_section_codec; atsc_dcct_section_codec; atsc_rrt_section_codec].
Proof.
  apply atsc_codecs_safe; [split; [|vm_compute; congruence]|vm_compute; congruence].
  repeat constructor; lia.
Defined.

(** ** Entries of the MGT and of the VCTs *)

(** [struct atsc_mgt_table]. *)
Record mgt_table := MgtTable {
  mt_table_type : Z;
  mt_PID : Z;
  mt_version_number : Z;
  mt_number_bytes : Z;
}.

Definition read_mgt_table (t : Z) : M mgt_table :=
  ty ← ld16 t;
  pid ← ld_field13 (t + 2);
  v ← ld8 (t + 4);
  nb ← ld32 (t + 5);
  mret (MgtTable ty pid (Z.land v 0x1f) nb).

(** [struct atsc_tvct_channel] and [struct atsc_cvct_channel]; the name stays in network order,
    [path_select] and [out_of_band] are reserved bits of the TVCT. *)
Record vct_channel := VctChannel {
  vc_short_name : list Z;
  vc_major_channel_number : Z;
  vc_minor_channel_number : Z;
  vc_modulation_mode : Z;
  vc_carrier_frequency : Z;
  vc_channel_TSID : Z;
  vc_program_number : Z;
  vc_ETM_location : Z;
  vc_access_controlled : Z;
  vc_hidden : Z;
  vc_path_select : Z;
  vc_out_of_band : Z;
  vc_hide_guide : Z;
  vc_service_type : Z;
  vc_source_id : Z;
}.

(** The channel from its words: the name, the channel numbers, the carrier, the TSID, the program
    number, the flags, the source. *)
Definition vct_channel_of (name : list Z) (w c ts pn f src : Z) : vct_channel :=
  VctChannel name (Z.land (Z.shiftr w 18) 0x3ff) (Z.land (Z.shiftr w 8) 0x3ff) (Z.land w 0xff)
    c ts pn (Z.land (Z.shiftr f 14) 3) (Z.land (Z.shiftr f 13) 1) (Z.land (Z.shiftr f 12) 1)
    (Z.land (Z.shiftr f 11) 1) (Z.land (Z.shiftr f 10) 1) (Z.land (Z.shiftr f 9) 1)
    (Z.land f 0x3f) src.

Definition read_vct_channel (ch : Z) : M vct_channel :=
  name ← ld_bytes ch 14;
  w ← ld32 (ch + 14);
  c ← ld32 (ch + 18);
  ts ← ld16 (ch + 22);
  pn ← ld16 (ch + 24);
  f ← ld16 (ch + 26);
  src ← ld16 (ch + 28);
  mret (vct_channel_of name w c ts pn f src).

Definition vct_descriptors_length (ch : Z) : M Z := ld_field10 (ch + 30).

Definition be10 (a b : Z) : Z := Z.land (be_combine [a; b]) 0x3ff.

Lemma be10_bound a b : 0 <= be10 a b <= 1023.
Proof. apply (land_nonneg_le _ 0x3ff). lia. Qed.

#[export] Hint Unfold mgt_table_descriptors_length vct_descriptors_length ld_field10
  read_mgt_table read_vct_channel : cells.

#[export] Instance mgt_table_format : EntryFormat mgt_table := {
  ef_size := sizeof_atsc_mgt_table;
  ef_swap p := bswap16 p;; bswap16 (p + 2);; bswap32 (p + 5);; bswap16 (p + 9);
  ef_length := mgt_table_descriptors_length;
  ef_read := read_mgt_table;
  ef_native hdr :=
    match hdr with
    | [a; b; c; d; e; f; g; h; i; j; k] => [b; a; d; c; e; i; h; g; f; k; j]
    | _ => hdr
    end;
  ef_len hdr := match hdr with [_; _; _; _; _; _; _; _; _; l0; l1] => be12 l0 l1 | _ => 0 end;
  ef_value hdr :=
    match hdr with
    | [t0; t1; p0; p1; v; n0; n1; n2; n3; _; _] =>
        MgtTable (be_combine [t0; t1]) (be13 p0 p1) (Z.land v 0x1f)
          (be_combine [n0; n1; n2; n3])
    | _ => MgtTable 0 0 0 0
    end;
}.

#[export] Instance mgt_table_laws : EntryLaws mgt_table_format.
Proof. entry_laws. Qed.

#[export] Instance vct_channel_format : EntryFormat vct_channel := {
  ef_size := sizeof_atsc_tvct_channel;
  ef_swap p :=
    bswap32 (p + 14);; bswap32 (p + 18);; bswap16 (p + 22);; bswap16 (p + 24);;
    bswap16 (p + 26);; bswap16 (p + 28);; bswap16 (p + 30);
  ef_length := vct_descriptors_length;
  ef_read := read_vct_channel;
  ef_native hdr :=
    match hdr with
    | [a0; a1; a2; a3; a4; a5; a6; a7; a8; a9; a10; a11; a12; a13;
       w0; w1; w2; w3; c0; c1; c2; c3; t0; t1; n0; n1; f0; f1; s0; s1; l0; l1] =>
      [a0; a1; a2; a3; a4; a5; a6; a7; a8; a9; a10; a11; a12; a13;
       w3; w2; w1; w0; c3; c2; c1; c0; t1; t0; n1; n0; f1; f0; s1; s0; l1; l0]
    | _ => hdr
    end;
  ef_len hdr :=
    match drop 30 hdr with [l0; l1] => be10 l0 l1 | _ => 0 end;
  ef_value hdr :=
    match drop 14 hdr with
    | [w0; w1; w2; w3; c0; c1; c2; c3; t0; t1; n0; n1; f0; f1; s0; s1; _; _] =>
        vct_channel_of (take 14 hdr) (be_combine [w0; w1; w2; w3])
          (be_combine [c0; c1; c2; c3]) (be_combine [t0; t1]) (be_combine [n0; n1])
          (be_combine [f0; f1]) (be_combine [s0; s1])
    | _ => vct_channel_of [] 0 0 0 0 0 0
    end;
}.

#[export] Instance vct_channel_laws : EntryLaws vct_channel_format.
Proof. entry_laws. Qed.

(** *** Iterators *)

Definition atsc_mgt_section_tables_for_each : M (list (mgt_table * list (Z * list Z))) :=
  for_each_idx (counted_first (ld16 9) sizeof_atsc_mgt_section)
    (counted_next (A := mgt_table) (ld16 9)) read_entry.

Definition atsc_mgt_section_part2 : M Z :=
  counted_end (A := mgt_table) (ld16 9) sizeof_atsc_mgt_section.

Definition atsc_mgt_section_part2_descriptors_for_each (part2 : Z) : M (list (Z * list Z)) :=
  n ← ld_field12 part2; descriptors_for_each (part2 + sizeof_atsc_mgt_section_part2) n.

(** The accessors of the CVCT are the same functions. *)
Definition atsc_tvct_section_channels_for_each : M (list (vct_channel * list (Z * list Z))) :=
  for_each_idx (counted_first (ld8 9) sizeof_atsc_tvct_section)
    (counted_next (A := vct_channel) (ld8 9)) read_entry.

Definition atsc_tvct_section_part2 : M Z :=
  counted_end (A := vct_channel) (ld8 9) sizeof_atsc_tvct_section.

Definition atsc_tvct_section_part2_descriptors_for_each (part2 : Z) : M (list (Z * list Z)) :=
  n ← ld_field10 part2; descriptors_for_each (part2 + sizeof_atsc_tvct_section_part2) n.

(** ** What the codecs accept *)

(** The body of a transmitted MGT: protocol version, number of tables, the tables, the final
    descriptor loop. *)
Definition mgt_parse (bs : list Z) :
    option (list (mgt_table * list (Z * list Z)) * list (Z * list Z)) :=
  match bs with
  | _ :: c0 :: c1 :: rest => parse_counted_table be12 (Z.to_nat (be_combine [c0; c1])) rest
  | _ => None
  end.

Definition vct_parse (bs : list Z) :
    option (list (vct_channel * list (Z * list Z)) * list (Z * list Z)) :=
  match bs with
  | _ :: c :: rest => parse_counted_table be10 (Z.to_nat c) rest
  | _ => None
  end.

Lemma field10_at p pre a b post m :
  m = pre ++ [a; b] ++ post -> p = zlen pre -> ld_field10 p m = Ret (be10 b a) m.
Proof. intros Hm Hp. unfold ld_field10. by run by (by apply (ld16_at _ pre a b post)). Qed.

Lemma be_combine_nonneg bs : Forall byte bs -> 0 <= be_combine bs.
Proof. intros H. apply le_combine_bound. by apply Forall_rev. Qed.

(** [atsc_mgt_section_codec] accepts exactly the well-formed master guides, and the iterators
    over the result give every table with its descriptors, and the descriptors of the guide. *)
Theorem mgt_codec_correct m :
  section_buffer m -> 9 <= sec_len m ->
  match mgt_parse (range m 8 (sec_len m - 9)) with
  | Some (ts, ds) => exists m' p2, atsc_mgt_section_codec m = Ret tt m' /\
      atsc_mgt_section_tables_for_each m' = Ret ts m' /\
      atsc_mgt_section_part2 m' = Ret p2 m' /\
      atsc_mgt_section_part2_descriptors_for_each p2 m' = Ret ds m'
  | None => exists m', atsc_mgt_section_codec m = Null m'
  end.
Proof.
  intros Hs Hmin. pose proof Hs as [Hb Hfit].
  destruct (section_parts m 8 Hs ltac:(lia) ltac:(lia))
    as (pre & body & post & Hm & Hpre & Hbody & _ & Hbeq & Hsl).
  replace (sec_len m - 9) with (sec_len m - 1 - 8) by lia. rewrite <- Hbeq.
  destruct (decide (zlen body < 3)) as [Hshort|Hlong].
  { assert (mgt_parse body = None) as ->
      by (destruct body as [|? [|? [|? ?]]]; simpl in Hshort; done || lia).
    exists m. apply short_section; [done|lia|unfold sizeof_atsc_mgt_section; lia]. }
  destruct body as [|pv [|c0 [|c1 rest]]]; simpl in Hlong; try lia. cbn [length] in Hbody.
  set (hdr := pre ++ [pv; c1; c0]).
  assert (Hh : zlen hdr = 11) by (unfold hdr; rewrite length_app; simpl; lia).
  assert (Hb1 : Forall byte (hdr ++ rest ++ post) /\ byte c0 /\ byte c1).
  { unfold hdr. rewrite Hm in Hb. clear - Hb. solve_bytes. }
  destruct Hb1 as (Hb1 & Hc0 & Hc1).
  assert (Hcount : forall l, ld16 9 (hdr ++ l) = Ret (be_combine [c0; c1]) (hdr ++ l)).
  { intros l. apply (ld16_at _ (pre ++ [pv]) c1 c0 l); unfold hdr; at_side. }
  assert (Hcodec : atsc_mgt_section_codec m =
    (pos ← for_count (ld16 9) (entry_body (A := mgt_table) (11 + zlen rest)) (zlen hdr);
     part2_codec ld_field12 (11 + zlen rest) pos) (hdr ++ rest ++ post)).
  { unfold atsc_mgt_section_codec. rewrite Hm at 1. run by (by apply Hsl).
    rewrite reject_run by (unfold sizeof_atsc_mgt_section; apply Z.ltb_ge; lia).
    run by (apply (bswap16_at _ (pre ++ [pv]) c0 c1 (rest ++ post));
      [at_side|unfold sizeof_atsc_section_psip; at_side|done..]).
    replace ((pre ++ [pv]) ++ [c1; c0] ++ rest ++ post) with (hdr ++ rest ++ post)
      by (unfold hdr; at_side).
    rewrite Hh. replace (sec_len m - 1) with (11 + zlen rest) by lia.
    apply bind_cong, for_count_ext.
    intros p m'. unfold entry_body. cbn [ef_size ef_swap ef_length mgt_table_format]. bind_eq. }
  cbn [mgt_parse].
  pose proof (counted_table (A := mgt_table) (11 + zlen rest) (be_combine [c0; c1]) (ld16 9) hdr
    ltac:(apply be_combine_nonneg; solve_bytes) Hcount ld_field12 be12
    (fun a b => proj1 (be12_bound a b))
    ltac:(intros; by eapply field12_at) rest post Hcodec Hb1 ltac:(lia)) as Htab.
  rewrite Hh in Htab. destruct (parse_counted_table _ _ _) as [[es ds]|]; [|exact Htab].
  destruct Htab as (l & p2 & Htab). exists (hdr ++ l), p2. exact Htab.
Qed.

(** [atsc_tvct_section_codec] and [atsc_cvct_section_codec] accept exactly the well-formed
    channel tables, and the iterators over the result give every channel with its fields and
    descriptors, and the descriptors of the table. *)
Theorem vct_codec_correct codec m :
  codec = atsc_tvct_section_codec \/ codec = atsc_cvct_section_codec ->
  section_buffer m -> 9 <= sec_len m ->
  match vct_parse (range m 8 (sec_len m - 9)) with
  | Some (cs, ds) => exists m' p2, codec m = Ret tt m' /\
      atsc_tvct_section_channels_for_each m' = Ret cs m' /\
      atsc_tvct_section_part2 m' = Ret p2 m' /\
      atsc_tvct_section_part2_descriptors_for_each p2 m' = Ret ds m'
  | None => exists m', codec m = Null m'
  end.
Proof.
  intros Hcodec Hs Hmin. assert (codec = atsc_tvct_section_codec) as -> by by destruct Hcodec.
  clear Hcodec. pose proof Hs as [Hb Hfit].
  destruct (section_parts m 8 Hs ltac:(lia) ltac:(lia))
    as (pre & body & post & Hm & Hpre & Hbody & _ & Hbeq & Hsl).
  replace (sec_len m - 9) with (sec_len m - 1 - 8) by lia. rewrite <- Hbeq.
  destruct (decide (zlen body < 2)) as [Hshort|Hlong].
  { assert (vct_parse body = None) as ->
      by (destruct body as [|? [|? ?]]; simpl in Hshort; done || lia).
    exists m. apply short_section; [done|lia|unfold sizeof_atsc_tvct_section; lia]. }
  destruct body as [|pv [|c rest]]; simpl in Hlong; try lia. cbn [length] in Hbody.
  set (hdr := pre ++ [pv; c]).
  assert (Hh : zlen hdr = 10) by (unfold hdr; rewrite length_app; simpl; lia).
  assert (Hb1 : Forall byte (hdr ++ rest ++ post) /\ byte c).
  { unfold hdr. rewrite Hm in Hb. clear - Hb. solve_bytes. }
  destruct Hb1 as (Hb1 & Hc).
  assert (Hcount : forall l, ld8 9 (hdr ++ l) = Ret c (hdr ++ l)).
  { intros l. apply (ld8_at _ (pre ++ [pv]) c l); unfold hdr; at_side. }
  assert (Hcodec : atsc_tvct_section_codec m =
    (pos ← for_count (ld8 9) (entry_body (A := vct_channel) (10 + zlen rest)) (zlen hdr);
     part2_codec ld_field10 (10 + zlen rest) pos) (hdr ++ rest ++ post)).
  { unfold atsc_tvct_section_codec. rewrite Hm at 1. run by (by apply Hsl).
    replace (pre ++ (pv :: c :: rest) ++ post) with (hdr ++ rest ++ post) by (unfold hdr; at_side).
    rewrite reject_run by (unfold sizeof_atsc_tvct_section; apply Z.ltb_ge; lia).
    rewrite Hh. replace (sec_len m - 1) with (10 + zlen rest) by lia.
    apply bind_cong, for_count_ext.
    intros p m'. unfold entry_body. cbn [ef_size ef_swap ef_length vct_channel_format].
    unfold sizeof_atsc_tvct_channel, vct_descriptors_length. change (7 * 2) with 14. rewrite <- !(Z.add_assoc p 14).
    change (14 + 4) with 18. change (14 + 8) with 22. change (14 + 10) with 24.
    change (14 + 12) with 26. change (14 + 14) with 28. change (14 + 16) with 30.
    change (14 + 18) with 32. bind_eq. }
  cbn [vct_parse].
  pose proof (counted_table (A := vct_channel) (10 + zlen rest) c (ld8 9) hdr
    ltac:(apply Hc) Hcount ld_field10 be10 (fun a b => proj1 (be10_bound a b))
    ltac:(intros; by eapply field10_at) rest post Hcodec Hb1 ltac:(lia)) as Htab.
  rewrite Hh in Htab. destruct (parse_counted_table _ _ _) as [[es ds]|]; [|exact Htab].
  destruct Htab as (l & p2 & Htab). exists (hdr ++ l), p2. exact Htab.
Qed.

(** ** Where the code does not keep its promise *)

(** The misplaced parenthesis in [atsc_dccsct_section_codec] reads [2 * pos] bytes into the
    buffer: past its end for this section with one empty update. *)
Theorem dccsct_overread :
  atsc_dccsct_section_codec
    [0xd4; 17; 0x80; 0; 1; 0xc1; 0; 0; 0; 1;  0; 0;  0; 0;  0; 0;  0; 0; 0; 0]
  = Fault OutOfBounds.
Proof. by vm_compute. Qed.

(** [atsc_rrt_section_codec] does not swap the length word of [part3]: this section, with one
    well-formed descriptor at the end, is rejected. *)
Theorem rrt_part3_not_swapped :
  let m := [0xca; 16; 0x80; 0; 1; 0xc1; 0; 0; 0; 0;  0;  0xfc; 2; 0x80; 0;  0; 0; 0; 0] in
  parse_part2 be10 (range m 11 4) = Some [(0x80, [])] /\
  exists m', atsc_rrt_section_codec m = Null m'.
Proof. split; [by vm_compute|]. eexists. by vm_compute. Qed.

Lemma mgt_codec_correct_witness :
  let m := [199; 25; 0x80; 0; 1; 0xc1; 0; 0; 0; 0; 1; 0; 0; 0xe1; 0; 0xe1; 0; 0; 0; 9; 0xf0; 0; 0xf0;
   0; 0; 0; 0; 0] in
  match mgt_parse (range m 8 (sec_len m - 9)) with
  | Some (ts, ds) => exists m' p2, atsc_mgt_section_codec m = Ret tt m' /\
      atsc_mgt_section_tables_for_each m' = Ret ts m' /\
      atsc_mgt_section_part2 m' = Ret p2 m' /\
      atsc_mgt_section_part2_descriptors_for_each p2 m' = Ret ds m'
  | None => exists m', atsc_mgt_section_codec m = Null m'
  end.
Proof.
  intros m. apply (mgt_codec_correct m); [split; [repeat constructor; lia|vm_compute; congruence]|vm_compute; congruence].
Defined.

Lemma vct_codec_correct_witness :
  let m := [200; 45; 0x80; 0; 1; 0xc1; 0; 0; 0; 1; 0; 0; 0; 0; 0; 0; 0; 0; 0; 0; 0; 0; 0; 0; 0; 0; 0;
   0; 0; 0; 0; 0; 0; 0; 0; 0; 0; 0; 0; 0; 0; 0; 0xfc; 0; 0; 0; 0; 0] in
  match vct_parse (range m 8 (sec_len m - 9)) with
  | Some (cs, ds) => exists m' p2, atsc_tvct_section_codec m = Ret tt m' /\
      atsc_tvct_section_channels_for_each m' = Ret cs m' /\
      atsc_tvct_section_part2 m' = Ret p2 m' /\
      atsc_tvct_section_part2_descriptors_for_each p2 m' = Ret ds m'
  | None => exists m', atsc_tvct_section_codec m = Null m'
  end.
Proof.
  intros m. apply (vct_codec_correct atsc_tvct_section_codec m); [left; reflexivity|split; [repeat constructor; lia|vm_compute; congruence]|vm_compute; congruence].
Defined.
