(* ===== verification/TableSafety.v ===== *)
(** * Memory safety of the section codecs

    The codecs of all three standards, together. *)

From S2P Require Export MpegSections DvbSections AtscSections.

(** The codecs of sections with an extended header. *)
Definition extended_codecs : list (M unit) :=
  [mpeg_pat_section_codec; mpeg_cat_section_codec; mpeg_pmt_section_codec; mpeg_tsdt_section_codec;
   mpeg_metadata_section_codec; mpeg_odsmt_section_codec;
   dvb_nit_section_codec; dvb_bat_section_codec; dvb_sdt_section_codec; dvb_eit_section_codec;
   dvb_sit_section_codec; dvb_tva_container_section_codec;
   atsc_section_psip_decode; atsc_cvct_section_codec; atsc_tvct_section_codec; atsc_mgt_section_codec;
   atsc_eit_section_codec; atsc_ett_section_codec; atsc_stt_section_codec; atsc_dcct_section_codec;
   atsc_rrt_section_codec].

(** And of sections with the short one. *)
Definition short_codecs : list (M unit) :=
  [dvb_rst_section_codec; dvb_tdt_section_codec; dvb_tot_section_codec; dvb_dit_section_codec;
   dvb_st_section_codec].


