(* ===== verification/AtscHuffman.v ===== *)
(** * libucsi/atsc/atsc_text.c: decoding of text segments

    Uncompressed and Huffman-compressed (A/65 annex C) text is decoded to UTF-8 in a buffer that
    grows by [realloc].  The tables are those of the source: row [c] is the tree used after
    character [c], an entry is the pair of its left and right index, and an index with bit 7 set
    is a literal. *)

From S2P Require Export CMem.

(** ** The tables *)

Definition HUFFTREE_LITERAL_MASK : Z := 0x80.
Definition HUFFSTRING_END : Z := 0x00.
Definition HUFFSTRING_ESCAPE : Z := 0x1b.
Definition DEST_ALLOC_DELTA : Z := 20.

Definition program_description_hufftree : list (list (Z * Z)) := [
  [(20,21); (155,214); (201,207); (215,199); (1,162); (206,203); (2,3); (197,204); (198,200);
  (4,196); (5,194); (6,195); (210,7); (211,8); (202,212); (9,205); (208,10); (193,11); (12,13);
  (14,15); (16,17); (18,19)]; [(155,155)]; [(155,155)]; [(155,155)]; [(155,155)]; [(155,155)];
  [(155,155)]; [(155,155)]; [(155,155)]; [(155,155)]; [(155,155)]; [(155,155)]; [(155,155)];
  [(155,155)]; [(155,155)]; [(155,155)]; [(155,155)]; [(155,155)]; [(155,155)]; [(155,155)];
  [(155,155)]; [(155,155)]; [(155,155)]; [(155,155)]; [(155,155)]; [(155,155)]; [(155,155)];
  [(155,155)]; [(155,155)]; [(155,155)]; [(155,155)]; [(155,155)]; [(56,57); (173,175);
  (183,218); (168,179); (181,1); (2,155); (180,241); (162,213); (214,217); (3,4); (5,207);
  (6,201); (249,234); (235,245); (246,7); (8,9); (178,197); (198,177); (10,238); (203,11);
  (212,12); (196,200); (210,13); (14,15); (199,202); (206,208); (215,16); (194,17); (204,236);
  (229,231); (18,205); (19,20); (195,21); (22,23); (237,24); (25,242); (26,211); (27,28);
  (228,29); (193,227); (30,233); (240,226); (247,31); (243,230); (32,33); (34,232); (239,35);
  (36,37); (38,39); (40,41); (42,244); (43,44); (45,46); (47,225); (48,49); (50,51); (52,53);
  (54,55)]; [(155,155)]; [(3,4); (128,174); (200,212); (1,2); (155,160)]; [(155,155)];
  [(155,155)]; [(155,155)]; [(155,155)]; [(2,243); (160,244); (155,1)]; [(155,155)]; [(172,155)];
  [(155,155)]; [(155,155)]; [(1,160); (155,162)]; [(7,8); (226,228); (229,230); (160,242);
  (225,1); (2,243); (227,3); (4,5); (155,6)]; [(4,128); (202,211); (162,1); (155,2); (3,160)];
  [(155,160)]; [(3,4); (155,183); (244,160); (176,243); (1,2)]; [(185,2); (184,155); (160,1)];
  [(174,2); (182,155); (1,160)]; [(160,1); (155,176)]; [(174,1); (155,160)]; [(174,1);
  (160,155)]; [(155,155)]; [(155,1); (172,174)]; [(155,155)]; [(2,3); (155,160); (181,182);
  (184,1)]; [(155,160)]; [(155,160)]; [(155,155)]; [(155,155)]; [(155,155)]; [(155,160)];
  [(155,155)]; [(8,9); (230,245); (243,244); (155,228); (1,237); (2,3); (4,242); (5,6);
  (236,238); (7,160)]; [(5,6); (155,236); (245,1); (2,225); (239,229); (233,242); (3,4)]; [(6,7);
  (155,233); (249,242); (245,1); (2,3); (236,239); (225,4); (232,5)]; [(5,6); (249,242);
  (245,155); (229,239); (1,2); (233,225); (3,4)]; [(6,7); (225,233); (238,246); (228,236);
  (243,1); (2,242); (3,4); (155,5)]; [(2,3); (229,236); (155,239); (1,242)]; [(5,6); (245,239);
  (155,236); (233,1); (225,242); (2,229); (3,4)]; [(3,4); (155,229); (233,245); (225,1);
  (239,2)]; [(4,5); (160,201); (243,155); (174,242); (1,2); (3,238)]; [(239,5); (155,174);
  (233,229); (1,245); (2,225); (3,4)]; [(229,3); (225,233); (242,155); (1,2)]; [(3,4); (155,233);
  (245,1); (229,2); (239,225)]; [(225,5); (155,227); (239,1); (245,229); (2,3); (233,4)];
  [(229,3); (155,233); (1,225); (239,2)]; [(3,4); (167,238); (236,242); (243,1); (155,2)];
  [(225,6); (155,232); (233,1); (242,236); (2,239); (3,229); (4,5)]; [(155,155)]; [(3,4);
  (155,174); (1,233); (2,225); (229,239)]; [(9,10); (246,249); (1,174); (227,233); (245,155);
  (229,239); (2,3); (225,4); (232,5); (6,244); (7,8)]; [(232,7); (229,247); (214,225); (155,233);
  (242,1); (2,3); (4,239); (5,6)]; [(174,1); (155,238)]; [(233,2); (229,155); (160,1)]; [(3,4);
  (155,232); (229,225); (239,1); (233,2)]; [(155,155)]; [(155,239)]; [(155,155)]; [(155,155)];
  [(155,155)]; [(155,155)]; [(155,155)]; [(155,155)]; [(155,155)]; [(24,25); (232,239);
  (248,155); (167,247); (250,1); (2,3); (4,229); (174,5); (230,226); (6,246); (235,245); (233,7);
  (240,249); (231,8); (9,228); (10,227); (11,237); (12,243); (13,14); (15,236); (16,244);
  (17,18); (242,160); (19,20); (21,238); (22,23)]; [(11,12); (228,243); (155,174); (226,1);
  (2,3); (236,160); (4,233); (242,245); (5,249); (225,6); (239,7); (229,8); (9,10)]; [(15,16);
  (241,174); (196,249); (172,1); (227,2); (155,242); (3,4); (160,236); (245,5); (6,233); (7,235);
  (8,244); (9,229); (10,239); (225,232); (11,12); (13,14)]; [(19,20); (167,187); (230,237);
  (247,231); (246,1); (2,155); (238,3); (4,236); (5,245); (6,172); (228,249); (242,7); (8,9);
  (174,10); (239,11); (225,243); (12,233); (13,14); (15,16); (229,17); (18,160)]; [(29,30);
  (169,232); (245,155); (1,173); (187,235); (250,2); (167,230); (226,231); (3,4); (5,6);
  (233,248); (7,172); (239,240); (8,237); (246,249); (9,247); (10,11); (174,12); (227,13);
  (229,244); (14,15); (228,16); (236,17); (225,18); (19,20); (21,22); (238,243); (23,24);
  (242,160); (25,26); (27,28)]; [(9,10); (174,155); (236,1); (245,2); (244,230); (3,225);
  (229,233); (4,242); (239,5); (6,7); (160,8)]; [(14,15); (173,231); (155,167); (249,1); (236,2);
  (172,242); (3,174); (243,245); (4,5); (239,6); (7,233); (225,8); (9,232); (10,11); (229,12);
  (160,13)]; [(13,14); (167,172); (243,173); (1,2); (155,249); (245,174); (3,238); (4,242);
  (5,6); (244,7); (8,9); (239,225); (160,10); (233,11); (12,229)]; [(20,21); (172,226);
  (248,155); (174,250); (1,235); (2,160); (3,4); (240,5); (6,230); (246,7); (228,237); (231,8);
  (225,239); (242,9); (10,11); (236,12); (229,227); (13,244); (14,243); (15,16); (17,238);
  (18,19)]; [(3,239); (155,225); (229,245); (1,2)]; [(8,9); (236,249); (167,238); (1,172);
  (155,174); (2,3); (4,243); (5,233); (6,160); (7,229)]; [(22,23); (167,173); (238,227);
  (235,242); (155,226); (1,2); (245,3); (244,172); (4,5); (230,237); (246,6); (174,240); (7,8);
  (243,9); (10,228); (11,12); (249,13); (239,14); (225,15); (16,233); (236,17); (160,229);
  (18,19); (20,21)]; [(12,13); (167,187); (155,1); (249,174); (226,2); (237,243); (3,245);
  (239,240); (4,5); (233,6); (7,8); (9,160); (225,229); (10,11)]; [(25,26); (173,187); (226,234);
  (237,242); (250,230); (236,1); (2,3); (155,245); (4,167); (246,249); (5,6); (235,239); (7,8);
  (9,10); (172,11); (12,227); (174,13); (238,233); (14,225); (15,243); (16,17); (244,18);
  (231,229); (19,20); (228,21); (22,23); (160,24)]; [(26,27); (194,155); (173,172); (248,1);
  (174,2); (3,229); (231,232); (249,233); (235,4); (227,225); (5,246); (6,228); (7,226); (240,8);
  (9,243); (244,247); (239,10); (11,12); (13,236); (14,15); (16,245); (237,17); (230,160);
  (18,242); (19,20); (21,238); (22,23); (24,25)]; [(14,15); (173,237); (249,155); (174,1);
  (243,2); (3,245); (244,240); (4,239); (5,233); (6,232); (160,225); (236,7); (242,8); (229,9);
  (10,11); (12,13)]; [(155,245)]; [(25,26); (169,187); (246,230); (1,155); (173,226); (240,2);
  (167,3); (4,5); (245,227); (172,231); (242,6); (235,7); (236,237); (238,249); (8,174); (9,10);
  (228,11); (12,244); (13,243); (14,15); (16,225); (239,17); (233,18); (19,229); (20,160);
  (21,22); (23,24)]; [(160,22); (162,167); (226,235); (237,238); (155,247); (1,2); (3,187);
  (249,240); (4,5); (236,6); (7,8); (245,225); (9,172); (227,10); (232,11); (233,12); (239,243);
  (174,13); (14,229); (15,16); (17,244); (18,19); (20,21)]; [(20,21); (187,226); (173,237);
  (1,155); (167,227); (172,236); (238,2); (247,3); (4,249); (5,6); (7,8); (244,174); (245,9);
  (10,242); (225,243); (11,12); (13,233); (14,15); (239,229); (16,160); (232,17); (18,19)];
  [(17,18); (239,246); (155,235); (249,1); (160,226); (2,225); (3,237); (4,227); (233,5);
  (228,229); (231,6); (236,240); (7,8); (9,10); (11,243); (12,244); (238,13); (242,14); (15,16)];
  [(5,229); (243,249); (155,1); (239,2); (3,225); (4,233)]; [(10,11); (174,155); (236,237);
  (1,2); (243,238); (242,3); (229,4); (232,160); (225,5); (239,6); (7,8); (233,9)]; [(5,6);
  (160,172); (173,244); (233,1); (2,225); (229,3); (155,4)]; [(17,160); (191,225); (226,230);
  (237,228); (233,247); (167,1); (2,187); (3,4); (236,5); (155,238); (6,239); (7,172); (229,243);
  (8,9); (10,174); (11,12); (13,14); (15,16)]; [(6,7); (160,174); (225,229); (236,250);
  (155,239); (233,1); (2,3); (4,5)]; [(155,155)]; [(155,155)]; [(155,155)]; [(155,155)]].

Definition program_title_hufftree : list (list (Z * Z)) := [
  [(27,28); (180,164); (178,183); (218,1); (209,2); (3,155); (4,213); (217,5); (203,214);
  (6,207); (7,8); (202,9); (201,197); (198,10); (210,196); (199,204); (208,200); (215,206);
  (11,193); (12,194); (205,195); (13,14); (15,16); (211,17); (212,18); (19,20); (21,22); (23,24);
  (25,26)]; [(155,155)]; [(155,155)]; [(155,155)]; [(155,155)]; [(155,155)]; [(155,155)];
  [(155,155)]; [(155,155)]; [(155,155)]; [(155,155)]; [(155,155)]; [(155,155)]; [(155,155)];
  [(155,155)]; [(155,155)]; [(155,155)]; [(155,155)]; [(155,155)]; [(155,155)]; [(155,155)];
  [(155,155)]; [(155,155)]; [(155,155)]; [(155,155)]; [(155,155)]; [(155,155)]; [(155,155)];
  [(155,155)]; [(155,155)]; [(155,155)]; [(155,155)]; [(41,42); (216,229); (185,1); (167,177);
  (236,209); (2,173); (178,218); (227,179); (3,228); (230,4); (155,226); (5,6); (7,8); (9,213);
  (10,214); (11,217); (12,166); (233,203); (197,207); (13,14); (202,201); (15,199); (16,17);
  (225,18); (19,198); (210,200); (206,193); (196,208); (204,20); (21,239); (194,215); (22,205);
  (23,244); (212,24); (25,26); (195,211); (27,28); (29,30); (31,32); (33,34); (35,36); (37,38);
  (39,40)]; [(1,128); (160,155)]; [(155,155)]; [(155,155)]; [(177,155)]; [(155,155)];
  [(155,160)]; [(4,243); (228,185); (1,244); (160,155); (2,3)]; [(155,155)]; [(155,155)]; [(1,2);
  (155,193); (200,211)]; [(155,155)]; [(155,160)]; [(7,8); (177,210); (211,212); (213,173);
  (205,193); (1,2); (3,160); (4,155); (5,6)]; [(160,5); (201,215); (211,1); (2,155); (174,128);
  (3,4)]; [(155,155)]; [(2,3); (173,155); (1,128); (160,176)]; [(4,5); (128,155); (177,178);
  (160,176); (185,1); (2,3)]; [(2,3); (177,186); (1,176); (155,128)]; [(128,1); (176,155)];
  [(155,184)]; [(155,155)]; [(155,155)]; [(155,176)]; [(155,160)]; [(2,3); (177,179); (185,176);
  (1,155)]; [(155,160)]; [(155,155)]; [(155,155)]; [(155,155)]; [(155,155)]; [(155,128)];
  [(155,155)]; [(19,20); (170,173); (174,246); (231,244); (226,233); (1,2); (194,240); (155,243);
  (227,230); (247,3); (245,4); (5,6); (242,7); (8,9); (10,11); (12,228); (160,13); (236,238);
  (14,237); (15,16); (17,18)]; [(8,9); (193,211); (155,1); (195,2); (233,236); (3,242); (245,4);
  (239,225); (5,229); (6,7)]; [(11,12); (193,249); (1,194); (207,229); (245,155); (233,2);
  (160,3); (4,5); (242,6); (236,7); (225,8); (9,232); (10,239)]; [(5,6); (249,155); (1,245);
  (2,242); (233,229); (239,3); (225,4)]; [(10,11); (241,245); (243,1); (237,249); (195,2);
  (236,238); (228,248); (3,155); (246,4); (5,225); (6,7); (8,9)]; [(7,8); (160,155); (204,1);
  (229,2); (236,245); (239,3); (233,242); (4,5); (225,6)]; [(9,10); (174,236); (249,193);
  (232,1); (155,2); (3,4); (225,245); (233,5); (229,6); (242,239); (7,8)]; [(239,5); (128,155);
  (245,1); (2,233); (225,3); (229,4)]; [(238,11); (186,212); (174,242); (227,1); (160,2);
  (128,155); (237,3); (201,243); (244,4); (5,6); (7,8); (9,10)]; [(2,3); (155,245); (1,225);
  (239,229)]; [(5,233); (225,239); (245,238); (155,229); (1,2); (3,4)]; [(4,5); (160,155);
  (1,245); (2,229); (239,3); (225,233)]; [(8,9); (170,212); (1,155); (227,2); (242,3); (229,4);
  (245,249); (233,5); (239,6); (7,225)]; [(229,8); (206,160); (198,245); (1,2); (155,194);
  (3,225); (4,239); (5,233); (6,7)]; [(9,10); (228,243); (230,246); (247,240); (242,1); (236,2);
  (3,160); (155,4); (5,245); (6,7); (238,8)]; [(11,12); (160,243); (249,174); (210,199); (1,155);
  (2,245); (3,4); (5,233); (236,6); (229,7); (239,8); (225,9); (242,10)]; [(1,245); (155,214)];
  [(4,5); (232,155); (1,245); (2,225); (233,239); (3,229)]; [(16,17); (170,236); (241,174);
  (160,247); (237,238); (1,2); (155,235); (3,4); (5,6); (227,7); (239,8); (233,245); (9,225);
  (229,240); (232,10); (11,12); (13,244); (14,15)]; [(232,10); (173,206); (155,1); (214,2);
  (245,247); (3,4); (225,229); (233,5); (242,6); (239,7); (8,9)]; [(238,3); (236,174); (1,155);
  (2,240)]; [(6,233); (160,195); (239,155); (229,1); (128,2); (3,225); (4,5)]; [(6,7); (198,215);
  (1,155); (242,2); (3,232); (229,225); (4,233); (239,5)]; [(155,155)]; [(2,239); (225,155);
  (1,229)]; [(1,239); (155,225)]; [(155,155)]; [(155,155)]; [(155,155)]; [(155,155)];
  [(155,155)]; [(155,155)]; [(25,26); (155,186); (229,234); (248,1); (2,230); (167,3); (250,232);
  (4,247); (5,245); (226,6); (235,7); (240,8); (128,246); (231,9); (228,10); (160,233); (11,227);
  (249,12); (13,237); (14,15); (243,16); (17,236); (18,244); (242,19); (238,20); (21,22);
  (23,24)]; [(10,11); (243,155); (245,226); (1,128); (160,2); (229,242); (233,3); (236,4);
  (249,5); (239,6); (225,7); (8,9)]; [(16,17); (195,204); (199,155); (227,1); (128,236); (249,2);
  (243,3); (245,4); (5,242); (6,233); (160,7); (8,239); (244,9); (10,225); (11,232); (235,229);
  (12,13); (14,15)]; [(14,15); (174,245); (247,1); (236,2); (228,231); (242,3); (155,239);
  (4,246); (5,6); (249,243); (7,233); (225,8); (9,128); (10,11); (229,12); (13,160)]; [(30,31);
  (155,161); (173,232); (234,241); (245,250); (1,2); (3,4); (186,248); (167,226); (233,5); (6,7);
  (230,237); (231,235); (8,9); (246,240); (10,239); (11,227); (12,13); (14,249); (15,228);
  (236,16); (229,17); (244,247); (18,19); (225,20); (21,22); (238,243); (23,128); (24,25);
  (242,26); (27,160); (28,29)]; [(160,11); (245,155); (1,236); (243,242); (128,225); (2,3);
  (244,233); (239,230); (4,5); (6,7); (229,8); (9,10)]; [(15,16); (186,249); (167,244); (155,1);
  (231,236); (2,238); (3,239); (245,4); (242,5); (6,233); (7,243); (225,8); (9,10); (11,229);
  (128,12); (232,160); (13,14)]; [(229,13); (226,245); (247,155); (236,1); (249,238); (2,3);
  (4,242); (5,128); (6,160); (225,239); (7,244); (233,8); (9,10); (11,12)]; [(21,22); (161,248);
  (233,235); (1,128); (155,250); (226,2); (3,4); (160,240); (5,6); (7,225); (8,230); (242,237);
  (246,9); (228,10); (239,244); (236,243); (231,229); (11,227); (12,13); (14,15); (16,17);
  (18,19); (238,20)]; [(239,1); (155,225)]; [(11,12); (212,239); (230,236); (247,225); (1,186);
  (2,155); (249,3); (4,5); (243,6); (7,8); (233,160); (9,128); (229,10)]; [(21,22); (167,186);
  (227,247); (242,173); (226,1); (2,155); (230,3); (237,246); (4,235); (5,244); (6,7); (8,243);
  (9,245); (10,239); (11,12); (128,249); (225,13); (228,233); (160,14); (15,236); (229,16);
  (17,18); (19,20)]; [(10,11); (249,155); (245,243); (1,2); (226,237); (128,3); (240,239);
  (4,160); (5,233); (6,225); (7,8); (9,229)]; [(24,25); (226,234); (242,232); (236,237);
  (250,155); (1,245); (2,3); (246,4); (186,230); (5,6); (235,239); (7,167); (249,8); (9,10);
  (11,227); (12,238); (225,13); (243,14); (233,15); (16,244); (128,228); (229,17); (18,231);
  (160,19); (20,21); (22,23)]; [(27,28); (174,250); (191,1); (167,155); (2,233); (248,249);
  (3,229); (232,4); (225,235); (5,226); (6,7); (227,8); (231,244); (9,128); (246,240); (10,228);
  (11,243); (247,12); (13,239); (236,160); (14,15); (237,230); (16,245); (17,18); (19,20);
  (21,242); (22,238); (23,24); (25,26)]; [(14,15); (237,167); (155,228); (1,249); (243,242);
  (244,2); (232,3); (236,240); (4,225); (233,5); (6,128); (160,7); (8,9); (10,229); (239,11);
  (12,13)]; [(155,245)]; [(24,25); (186,172); (246,155); (240,226); (1,230); (2,167); (174,231);
  (3,227); (245,4); (237,5); (6,7); (235,8); (9,238); (242,10); (228,11); (249,236); (12,13);
  (244,128); (14,239); (243,160); (225,15); (233,16); (17,229); (18,19); (20,21); (22,23)];
  [(25,26); (167,172); (191,195); (200,228); (230,237); (242,174); (236,238); (249,1); (2,3);
  (4,186); (5,155); (245,6); (7,8); (9,235); (240,10); (11,12); (225,227); (13,232); (14,15);
  (239,16); (17,243); (18,233); (19,229); (20,21); (244,22); (23,160); (24,128)]; [(20,21);
  (186,191); (228,247); (155,167); (1,238); (2,3); (4,227); (226,237); (5,249); (6,244); (7,236);
  (8,245); (242,9); (225,243); (10,239); (11,12); (13,233); (128,229); (14,160); (15,232);
  (16,17); (18,19)]; [(17,18); (235,250); (128,230); (155,1); (160,2); (3,233); (225,4);
  (228,240); (237,226); (227,231); (236,5); (229,6); (7,8); (9,244); (10,11); (12,243); (238,13);
  (14,242); (15,16)]; [(4,229); (243,239); (155,1); (225,2); (3,233)]; [(11,12); (167,226);
  (236,227); (242,1); (155,2); (3,4); (233,239); (238,229); (225,128); (5,160); (6,7); (8,9);
  (243,10)]; [(5,6); (155,160); (225,229); (233,1); (128,240); (2,244); (3,4)]; [(160,19);
  (227,173); (228,233); (238,239); (240,244); (246,161); (225,237); (1,226); (2,3); (4,167);
  (5,6); (247,7); (155,236); (8,229); (9,10); (11,12); (13,14); (243,15); (16,17); (128,18)];
  [(5,6); (229,250); (160,249); (155,1); (128,233); (2,225); (3,4)]; [(155,155)]; [(155,155)];
  [(155,155)]; [(155,155)]].

(** ** The code *)

Record huffbuff := Huffbuff {
  hb_buf : list Z;
  hb_buf_len : Z;
  hb_cur_byte : Z;
  hb_cur_bit : Z;
}.

Definition huffbuff_init (buf : list Z) (buf_len : Z) : huffbuff := Huffbuff buf buf_len 0 0.

(** The loop of [huffbuff_bits], [nbits] rounds to go. *)
Fixpoint huffbuff_bits_loop (nbits : nat) (result : Z) (h : huffbuff) : res (Z * huffbuff) :=
  match nbits with
  | O => mret (result, h)
  | S n =>
      if hb_buf_len h <=? hb_cur_byte h then mret (-1, h)
      else
        b ← at_ (hb_buf h) (hb_cur_byte h);
        let result := u8 (Z.shiftl result 1) in
        let result := if Z.land b (Z.shiftr 0x80 (hb_cur_bit h)) =? 0 then result
                      else Z.lor result 1 in
        let h := if 7 <? hb_cur_bit h + 1
                 then Huffbuff (hb_buf h) (hb_buf_len h) (hb_cur_byte h + 1) 0
                 else Huffbuff (hb_buf h) (hb_buf_len h) (hb_cur_byte h) (hb_cur_bit h + 1) in
        huffbuff_bits_loop n result h
  end.

Definition huffbuff_bits (h : huffbuff) (nbits : nat) : res (Z * huffbuff) :=
  if (8 <? Z.of_nat nbits) then mret (-1, h) else huffbuff_bits_loop nbits 0 h.

(** The destination: its bytes, [destbuflen] of them, and [destbufpos]. *)
Record dest := Dest {
  d_buf : list Z;
  d_buflen : Z;
  d_pos : Z;
}.

Definition utf8_encode (c : Z) : option (list Z) :=
  if c <? 0x80 then Some [u8 c]
  else if c <? 0x800 then
    Some [Z.lor 0xc0 (Z.land (Z.shiftr c 6) 0x1f); Z.lor 0x80 (Z.land c 0x3f)]
  else if c <? 0x10000 then
    Some [Z.lor 0xe0 (Z.land (Z.shiftr c 12) 0x0f); Z.lor 0x80 (Z.land (Z.shiftr c 6) 0x3f);
          Z.lor 0x80 (Z.land c 0x3f)]
  else None.

Definition memcpy_at (d : dest) (tmp : list Z) : res dest :=
  if d_pos d + zlen tmp <=? zlen (d_buf d) then
    Ok (Dest (take (Z.to_nat (d_pos d)) (d_buf d) ++ tmp ++
              drop (Z.to_nat (d_pos d + zlen tmp)) (d_buf d))
          (d_buflen d) (d_pos d + zlen tmp))
  else Err OutOfBounds.

Section Code.
(** [realloc(buf, size)]: the bytes of the new block, or NULL. *)
Context (realloc : list Z -> Z -> option (list Z)).

Definition append_unicode_char (d : dest) (c : Z) : res (Z * dest) :=
  match utf8_encode c with
  | None => mret (-1, d)
  | Some tmp =>
      if d_buflen d <=? d_pos d + zlen tmp then
        match realloc (d_buf d) (d_buflen d + DEST_ALLOC_DELTA) with
        | None => mret (-12, d)
        | Some new_dest =>
            d ← memcpy_at (Dest new_dest (d_buflen d + DEST_ALLOC_DELTA) (d_pos d)) tmp;
            mret (0, d)
        end
      else d ← memcpy_at d tmp; mret (0, d)
  end.

(** The loop of [unicode_decode] over the rest of the source. *)
Fixpoint unicode_decode_loop (src : list Z) (msb : Z) (d : dest) : res (Z * dest) :=
  match src with
  | [] => mret (d_pos d, d)
  | b :: src' =>
      '(r, d) ← append_unicode_char d (msb + b);
      if negb (r =? 0) then mret (-1, d) else unicode_decode_loop src' msb d
  end.

Definition unicode_decode (src : list Z) (mode : Z) (d : dest) : res (Z * dest) :=
  unicode_decode_loop src (Z.shiftl mode 8) d.

Fixpoint huffman_decode_uncompressed (fuel : nat) (h : huffbuff) (d : dest) :
    res (Z * huffbuff * dest) :=
  match fuel with
  | O => Err OutOfFuel
  | S fuel' =>
      if hb_cur_byte h <? hb_buf_len h then
        '(c, h) ← huffbuff_bits h 8;
        if c <? 0 then mret (-1, h, d)
        else if c =? HUFFSTRING_END then mret (0, h, d)
        else if c =? HUFFSTRING_ESCAPE then mret (HUFFSTRING_ESCAPE, h, d)
        else
          '(r, d) ← append_unicode_char d c;
          if negb (r =? 0) then mret (-1, h, d)
          else if Z.land c 0x80 =? 0 then mret (c, h, d)
          else huffman_decode_uncompressed fuel' h d
      else mret (HUFFSTRING_END, h, d)
  end.

(** Rows have 128 entries, those not written in the source are zero. *)
Definition tree_entry (tree : list (Z * Z)) (idx : Z) : Z * Z :=
  default (0, 0) (tree !z idx).

Fixpoint huffman_decode_loop (hufftree : list (list (Z * Z))) (fuel : nat) (h : huffbuff)
    (tree : list (Z * Z)) (treeidx : Z) (d : dest) : res (Z * dest) :=
  match fuel with
  | O => Err OutOfFuel
  | S fuel' =>
      if hb_cur_byte h <? hb_buf_len h then
        '(bit, h) ← huffbuff_bits h 1;
        if bit <? 0 then mret (d_pos d, d)
        else
          let treeval := if bit =? 0 then (tree_entry tree treeidx).1
                         else (tree_entry tree treeidx).2 in
          if negb (Z.land treeval HUFFTREE_LITERAL_MASK =? 0) then
            let c := Z.land treeval 0x7f in
            if c =? HUFFSTRING_END then mret (0, d)
            else if c =? HUFFSTRING_ESCAPE then
              '(tmp, h, d) ← huffman_decode_uncompressed fuel h d;
              if tmp <? 0 then mret (tmp, d)
              else if tmp =? 0 then mret (d_pos d, d)
              else tree ← at_ hufftree tmp; huffman_decode_loop hufftree fuel' h tree 0 d
            else
              '(r, d) ← append_unicode_char d c;
              if negb (r =? 0) then mret (-1, d)
              else tree ← at_ hufftree c; huffman_decode_loop hufftree fuel' h tree 0 d
          else huffman_decode_loop hufftree fuel' h tree treeval d
      else mret (d_pos d, d)
  end.

(** A round consumes at least one bit. *)
Definition huffman_decode (src : list Z) (d : dest) (hufftree : list (list (Z * Z))) :
    res (Z * dest) :=
  tree ← at_ hufftree 0;
  huffman_decode_loop hufftree (S (8 * length src)) (huffbuff_init src (zlen src)) tree 0 d.

(** The header of [struct atsc_text_string_segment], and its bytes. *)
Definition atsc_text_segment_decode (compression_type mode : Z) (bytes : list Z) (d : dest) :
    res (Z * dest) :=
  if 0x33 <? mode then mret (-1, d)
  else if negb (mode =? 0) && negb (compression_type =? 0) then mret (-1, d)
  else if compression_type =? 0 then unicode_decode bytes mode d
  else if compression_type =? 1 then huffman_decode bytes d program_title_hufftree
  else if compression_type =? 2 then huffman_decode bytes d program_description_hufftree
  else mret (-1, d).
End Code.

(** ** Specification *)

(** Decode one character of up to three UTF-8 bytes. *)
Definition utf8_decode (bs : list Z) : option (Z * list Z) :=
  match bs with
  | b0 :: tl =>
      if b0 <? 0x80 then Some (b0, tl)
      else if b0 <? 0xe0 then
        match tl with
        | b1 :: tl => Some (Z.land b0 0x1f * 64 + Z.land b1 0x3f, tl)
        | _ => None
        end
      else
        match tl with
        | b1 :: b2 :: tl =>
            Some (Z.land b0 0x0f * 4096 + Z.land b1 0x3f * 64 + Z.land b2 0x3f, tl)
        | _ => None
        end
  | [] => None
  end.

(** The bits of a byte string, most significant first. *)
Definition byte_msb (b : Z) : list bool := map (Z.testbit b) [7; 6; 5; 4; 3; 2; 1; 0].
Definition bits_of (bs : list Z) : list bool := bs ≫= byte_msb.

(** The path from node [idx] of a tree to the leaf [val]. *)
Fixpoint find_code (fuel : nat) (tree : list (Z * Z)) (idx val : Z) : option (list bool) :=
  match fuel with
  | O => None
  | S f =>
      let '(l, r) := tree_entry tree idx in
      let go v := if Z.land v HUFFTREE_LITERAL_MASK =? 0 then find_code f tree v val
                  else if v =? val then Some [] else None in
      match go l with
      | Some p => Some (false :: p)
      | None => cons true <$> go r
      end
  end.

Definition code_of (tree : list (Z * Z)) (c : Z) : option (list bool) :=
  find_code (length tree) tree 0 (0x80 + c).

(** The encoding of a text after the character [ctx], or inside an uncompressed run. *)
Fixpoint huffman_encode (hufftree : list (list (Z * Z))) (ctx : option Z) (cs : list Z) :
    option (list bool) :=
  match ctx, cs with
  | None, [] => Some (byte_msb HUFFSTRING_END)
  | None, c :: cs =>
      app (byte_msb c) <$> huffman_encode hufftree (if c <? 0x80 then Some c else None) cs
  | Some ctx, [] =>
      tree ← hufftree !z ctx;
      match code_of tree HUFFSTRING_END with
      | Some p => Some p
      | None => p ← code_of tree HUFFSTRING_ESCAPE; Some (p ++ byte_msb HUFFSTRING_END)
      end
  | Some ctx, c :: cs =>
      tree ← hufftree !z ctx;
      match (if c <? 0x80 then code_of tree c else None) with
      | Some p => app p <$> huffman_encode hufftree (Some c) cs
      | None =>
          p ← code_of tree HUFFSTRING_ESCAPE;
          tl ← huffman_encode hufftree (if c <? 0x80 then Some c else None) cs;
          Some (p ++ byte_msb c ++ tl)
      end
  end.

(** The characters a text may hold: not the two control characters. *)
Definition text_char (c : Z) : Prop := 1 <= c < 256 /\ c <> HUFFSTRING_ESCAPE.

Definition utf8 (c : Z) : list Z := default [] (utf8_encode c).

(** ** UTF-8 *)

Lemma utf8_encode_some c : 0 <= c < 0x10000 -> utf8_encode c = Some (utf8 c).
Proof.
  intros H. unfold utf8, utf8_encode. repeat case_if; try done. lia.
Qed.

Lemma utf8_length c : (length (utf8 c) <= 3)%nat.
Proof. unfold utf8, utf8_encode. repeat case_if; simpl; lia. Qed.

Lemma lor_field a b k : 0 <= k -> 0 <= b < 2 ^ k -> Z.land a (Z.ones k) = 0 ->
  Z.lor a b = a + b /\ Z.land (Z.lor a b) (Z.ones k) = b.
Proof.
  intros Hk Hb Ha. assert (Hab : Z.land a b = 0).
  { apply Z.bits_inj'. intros i Hi. rewrite Z.land_spec, Z.bits_0.
    destruct (Z.lt_ge_cases i k).
    - apply (f_equal (fun x => Z.testbit x i)) in Ha.
      rewrite Z.land_spec, Z.ones_spec_low, Z.bits_0, andb_true_r in Ha by lia. by rewrite Ha.
    - rewrite (testbit_high b k i) by lia. apply andb_false_r. }
  split.
  - rewrite Z.add_nocarry_lxor by done. by rewrite Z.lxor_lor.
  - rewrite Z.land_lor_distr_l, Ha. cbn [Z.lor]. rewrite Z.land_ones by done.
    by apply Z.mod_small.
Qed.

Lemma utf8_decode_encode c tl :
  0 <= c < 0x10000 -> utf8_decode (utf8 c ++ tl) = Some (c, tl).
Proof.
  intros Hc. unfold utf8, utf8_encode.
  assert (Hf : forall v k m, 0 <= k -> m = Z.ones k -> 0 <= Z.land v m < 2 ^ k).
  { intros v k m Hk ->. rewrite Z.land_ones by done. apply Z.mod_pos_bound. lia. }
  assert (Hlow : Z.land c 0x3f = c mod 64) by (change 0x3f with (Z.ones 6); by rewrite Z.land_ones).
  destruct (lor_field 0x80 (Z.land c 0x3f) 6) as [_ L0]; [done|by apply Hf|done|].
  change (Z.ones 6) with 0x3f in L0. repeat case_if; cbn [default utf8_decode app from_option id].
  - rewrite u8_id by (unfold byte; lia). by rewrite (proj2 (Z.ltb_lt _ _)) by lia.
  - destruct (lor_field 0xc0 (Z.land (Z.shiftr c 6) 0x1f) 5) as [E1 L1]; [done|by apply Hf|done|].
    change (Z.ones 5) with 0x1f in L1. pose proof (Hf (Z.shiftr c 6) 5 0x1f ltac:(lia) eq_refl).
    change (2 ^ 5) with 32 in *. rewrite (proj2 (Z.ltb_ge _ _)), (proj2 (Z.ltb_lt _ _)) by lia.
    rewrite L0, L1, Hlow. change 0x1f with (Z.ones 5). rewrite Z.land_ones, Z.shiftr_div_pow2 by lia.
    change (2 ^ 5) with 32. change (2 ^ 6) with 64. do 2 f_equal.
    rewrite (Z.mod_small (c / 64)) by (split; [apply Z.div_pos; lia|apply Z.div_lt_upper_bound; lia]).
    pose proof (Z.div_mod c 64). lia.
  - destruct (lor_field 0xe0 (Z.land (Z.shiftr c 12) 0x0f) 4) as [E2 L2]; [done|by apply Hf|done|].
    destruct (lor_field 0x80 (Z.land (Z.shiftr c 6) 0x3f) 6) as [_ L1]; [done|by apply Hf|done|].
    change (Z.ones 4) with 0x0f in L2. change (Z.ones 6) with 0x3f in L1.
    pose proof (Hf (Z.shiftr c 12) 4 0x0f ltac:(lia) eq_refl).
    change (2 ^ 4) with 16 in *. rewrite !(proj2 (Z.ltb_ge _ _)) by lia.
    rewrite L0, L1, L2, Hlow. change 0x0f with (Z.ones 4). change 0x3f with (Z.ones 6).
    rewrite !Z.land_ones, !Z.shiftr_div_pow2 by lia.
    change (2 ^ 4) with 16. change (2 ^ 6) with 64. change (2 ^ 12) with 4096. do 2 f_equal.
    rewrite (Z.mod_small (c / 4096))
      by (split; [apply Z.div_pos; lia|apply Z.div_lt_upper_bound; lia]).
    change 4096 with (64 * 64). rewrite <- Z.div_div by lia.
    pose proof (Z.div_mod c 64). pose proof (Z.div_mod (c / 64) 64). lia.
  - lia.
Qed.

(** ** The destination buffer *)

Record dest_ok (d : dest) : Prop := {
  do_buflen : zlen (d_buf d) = d_buflen d;
  do_pos : 0 <= d_pos d <= d_buflen d;
}.

(** What has been written. *)
Definition content (d : dest) : list Z := take (Z.to_nat (d_pos d)) (d_buf d).

Lemma content_length d : dest_ok d -> zlen (content d) = d_pos d.
Proof. intros [H1 H2]. unfold content. rewrite length_take. lia. Qed.

Lemma memcpy_at_ok d tmp :
  dest_ok d -> d_pos d + zlen tmp <= d_buflen d ->
  exists d', memcpy_at d tmp = Ok d' /\ dest_ok d' /\ content d' = content d ++ tmp.
Proof.
  intros [Hl Hp] Hfit. unfold memcpy_at. rewrite (proj2 (Z.leb_le _ _)) by lia.
  eexists. split; [done|]. split.
  - split; cbn [d_buf d_buflen d_pos]; [|lia].
    rewrite !length_app, length_take, length_drop. lia.
  - unfold content. cbn [d_buf d_pos]. rewrite app_assoc.
    rewrite take_app_le by (rewrite length_app, length_take; lia).
    rewrite take_ge; [done|]. rewrite length_app, length_take. lia.
Qed.

(** ** Bits of the source *)

Record huff_ok (h : huffbuff) : Prop := {
  ho_len : hb_buf_len h = zlen (hb_buf h);
  ho_byte : 0 <= hb_cur_byte h <= hb_buf_len h;
  ho_bit : 0 <= hb_cur_bit h < 8;
  ho_end : hb_cur_byte h = hb_buf_len h -> hb_cur_bit h = 0;
}.

(** The bits not read yet. *)
Definition bits_left (h : huffbuff) : list bool :=
  drop (Z.to_nat (8 * hb_cur_byte h + hb_cur_bit h)) (bits_of (hb_buf h)).

Lemma length_bits_of bs : length (bits_of bs) = (8 * length bs)%nat.
Proof.
  induction bs as [|b bs IH]; [done|].
  change (bits_of (b :: bs)) with (byte_msb b ++ bits_of bs). rewrite length_app, IH.
  cbn [byte_msb map length]. lia.
Qed.

Lemma bits_of_lookup bs i j b :
  bs !z i = Some b -> 0 <= j < 8 ->
  bits_of bs !! Z.to_nat (8 * i + j) = Some (Z.testbit b (7 - j)).
Proof.
  intros Hi Hj. apply lookup_z_Some in Hi as [H0 Hi].
  replace (Z.to_nat (8 * i + j)) with (8 * Z.to_nat i + Z.to_nat j)%nat by lia.
  revert Hi. generalize (Z.to_nat i). clear i H0. intros i. revert bs.
  induction i as [|i IH]; intros [|b' bs] Hi; cbn in Hi; try done.
  - injection Hi as ->. change (bits_of (b :: bs)) with (byte_msb b ++ bits_of bs).
    rewrite Nat.mul_0_r, Nat.add_0_l, lookup_app_l by (cbn; lia). unfold byte_msb.
    rewrite list_lookup_fmap.
    assert (Hs : [7; 6; 5; 4; 3; 2; 1; 0] !! Z.to_nat j = Some (7 - j)).
    { assert (j = 0 \/ j = 1 \/ j = 2 \/ j = 3 \/ j = 4 \/ j = 5 \/ j = 6 \/ j = 7) as Hc by lia.
      destruct_or! Hc; by subst. }
    by rewrite Hs.
  - change (bits_of (b' :: bs)) with (byte_msb b' ++ bits_of bs).
    rewrite lookup_app_r by (cbn; lia). rewrite <- (IH bs Hi). f_equal. cbn [byte_msb map length]. lia.
Qed.

(** The next bit. *)
Lemma next_bit h n r :
  huff_ok h -> hb_cur_byte h < hb_buf_len h ->
  exists b h', huff_ok h' /\ bits_left h = b :: bits_left h' /\
    huffbuff_bits_loop (S n) r h =
    huffbuff_bits_loop n (u8 (2 * r) + Z.b2z b) h'.
Proof.
  intros [Hl Hb Hbit Hend] Hlt.
  destruct (lookup_z_is_Some (hb_buf h) (hb_cur_byte h)) as [v Hv]; [lia|].
  pose proof (bits_of_lookup _ _ _ _ Hv Hbit) as Hlk.
  set (b := Z.testbit v (7 - hb_cur_bit h)) in *.
  set (h' := if 7 <? hb_cur_bit h + 1
             then Huffbuff (hb_buf h) (hb_buf_len h) (hb_cur_byte h + 1) 0
             else Huffbuff (hb_buf h) (hb_buf_len h) (hb_cur_byte h) (hb_cur_bit h + 1)).
  exists b, h'. split_and!.
  - unfold h'. case_if; split; cbn; lia.
  - unfold bits_left. rewrite (drop_S _ _ _ Hlk). f_equal.
    replace (hb_buf h') with (hb_buf h) by (unfold h'; by case_if). f_equal.
    unfold h'. case_if; cbn; lia.
  - cbn [huffbuff_bits_loop]. rewrite (proj2 (Z.leb_gt _ _)) by lia.
    unfold at_. rewrite Hv. cbn [mbind res_bind]. fold h'. f_equal.
    assert (Hm : Z.land v (Z.shiftr 0x80 (hb_cur_bit h)) = if b then 2 ^ (7 - hb_cur_bit h) else 0).
    { change 0x80 with (2 ^ 7). rewrite Z.shiftr_div_pow2 by lia.
      rewrite <- Z.pow_sub_r by lia. apply Z.bits_inj'. intros i Hi.
      rewrite Z.land_spec, Z.pow2_bits_eqb by lia. unfold b.
      destruct (Z.eqb_spec (7 - hb_cur_bit h) i) as [<-|Hne].
      - rewrite andb_true_r. destruct (Z.testbit v _); [by rewrite Z.pow2_bits_true by lia|].
        by rewrite Z.bits_0.
      - rewrite andb_false_r. destruct (Z.testbit v _); [by rewrite Z.pow2_bits_false by lia|].
        by rewrite Z.bits_0. }
    rewrite Hm, Z.shiftl_mul_pow2 by lia. change (2 ^ 1) with 2. rewrite (Z.mul_comm r).
    destruct b; cbn [Z.b2z].
    + assert (0 < 2 ^ (7 - hb_cur_bit h)) by (apply Z.pow_pos_nonneg; lia).
      rewrite (proj2 (Z.eqb_neq _ _)) by lia.
      rewrite Z.lor_comm. replace (u8 (2 * r)) with (Z.shiftl (u8 (2 * r) / 2) 1).
      * rewrite (lor_add 1 _ 1) by lia. rewrite Z.shiftl_mul_pow2 by lia. lia.
      * rewrite Z.shiftl_mul_pow2 by lia. change (2 ^ 1) with 2.
        unfold u8. change 256 with (2 * 128). rewrite Z.mul_mod_distr_l by lia.
        rewrite (Z.mul_comm 2 (r mod 128)), Z.div_mul by lia. done.
    + rewrite Z.eqb_refl. lia.
Qed.

Lemma bits_left_nil h : huff_ok h -> hb_buf_len h <= hb_cur_byte h -> bits_left h = [].
Proof.
  intros [Hl Hb Hbit Hend] Hge. unfold bits_left. apply drop_ge.
  rewrite length_bits_of, Hend by lia. lia.
Qed.

Lemma bits_left_length h :
  huff_ok h -> zlen (bits_left h) = 8 * hb_buf_len h - (8 * hb_cur_byte h + hb_cur_bit h).
Proof.
  intros [Hl Hb Hbit Hend]. unfold bits_left. rewrite length_drop, length_bits_of.
  assert (hb_cur_byte h = hb_buf_len h \/ hb_cur_byte h < hb_buf_len h) as [E|] by lia; [|lia].
  specialize (Hend E). lia.
Qed.

Lemma bits_left_cons h b bs :
  huff_ok h -> bits_left h = b :: bs -> hb_cur_byte h < hb_buf_len h.
Proof.
  intros Hh Hbits. destruct (Z.lt_ge_cases (hb_cur_byte h) (hb_buf_len h)); [done|].
  by rewrite bits_left_nil in Hbits.
Qed.

(** The value of some bits, most significant first, as the 8-bit accumulator computes it. *)
Definition bits_value (r : Z) (bs : list bool) : Z :=
  foldl (fun r b => u8 (2 * r) + Z.b2z b) r bs.

Lemma bits_loop_run bs h r tl :
  huff_ok h -> bits_left h = bs ++ tl ->
  exists h', huffbuff_bits_loop (length bs) r h = Ok (bits_value r bs, h') /\
    huff_ok h' /\ bits_left h' = tl.
Proof.
  revert h r. induction bs as [|b bs IH]; intros h r Hh Hbits; [by exists h|].
  destruct (next_bit h (length bs) r Hh) as (b' & h' & Hh' & Hbits' & Hrun).
  { by eapply bits_left_cons. }
  rewrite Hbits in Hbits'. cbn [app] in Hbits'. injection Hbits' as <- Htl.
  destruct (IH h' (u8 (2 * r) + Z.b2z b) Hh' (eq_sym Htl)) as (h2 & Hrun2 & Hh2 & Htl2).
  exists h2. cbn [length]. by rewrite Hrun, Hrun2.
Qed.

Lemma bits_value_byte_all :
  forallb (fun c => bits_value 0 (byte_msb c) =? c) (seqZ 0 256) = true.
Proof. by vm_compute. Qed.

Lemma bits_value_byte c : byte c -> bits_value 0 (byte_msb c) = c.
Proof.
  intros Hc. pose proof bits_value_byte_all as H. rewrite forallb_forall in H.
  apply Z.eqb_eq, (H c). apply list_elem_of_In, elem_of_seqZ. unfold byte in Hc. lia.
Qed.

Lemma read_byte h c tl :
  huff_ok h -> byte c -> bits_left h = byte_msb c ++ tl ->
  exists h', huffbuff_bits h 8 = Ok (c, h') /\ huff_ok h' /\ bits_left h' = tl.
Proof.
  intros Hh Hc Hbits. destruct (bits_loop_run _ h 0 tl Hh Hbits) as (h' & Hrun & Hh').
  exists h'. split; [|done]. unfold huffbuff_bits. rewrite bits_value_byte in Hrun by done.
  exact Hrun.
Qed.

Lemma read_bit h b tl :
  huff_ok h -> bits_left h = b :: tl ->
  exists h', huffbuff_bits h 1 = Ok (Z.b2z b, h') /\ huff_ok h' /\ bits_left h' = tl.
Proof.
  intros Hh Hbits. destruct (bits_loop_run [b] h 0 tl Hh Hbits) as (h' & Hrun & Hh').
  by exists h'.
Qed.

Lemma read_none h n : huff_ok h -> hb_buf_len h <= hb_cur_byte h -> 
  huffbuff_bits_loop (S n) 0 h = Ok (-1, h).
Proof. intros Hh Hge. cbn [huffbuff_bits_loop]. by rewrite (proj2 (Z.leb_le _ _)). Qed.

(** ** Decoding *)

Section Decode.
Context (realloc : list Z -> Z -> option (list Z)).
(** A successful [realloc] to a larger size keeps the old bytes. *)
Context (Hrealloc : forall b n, zlen b <= n ->
  exists b', realloc b n = Some b' /\ zlen b' = n /\ take (length b) b' = b).

Lemma append_run d c :
  dest_ok d -> 0 <= c < 0x10000 ->
  exists d', append_unicode_char realloc d c = Ok (0, d') /\ dest_ok d' /\
    content d' = content d ++ utf8 c.
Proof.
  intros [Hl Hp] Hc. unfold append_unicode_char. rewrite utf8_encode_some by done.
  pose proof (utf8_length c). case_if.
  - destruct (Hrealloc (d_buf d) (d_buflen d + DEST_ALLOC_DELTA)) as (b' & -> & Hb' & Hpre);
      [unfold DEST_ALLOC_DELTA; lia|].
    set (d1 := Dest b' (d_buflen d + DEST_ALLOC_DELTA) (d_pos d)).
    assert (Hd1 : dest_ok d1) by (split; cbn; unfold DEST_ALLOC_DELTA in *; lia).
    destruct (memcpy_at_ok d1 (utf8 c) Hd1) as (d' & Hrun & Hd' & Hct).
    { cbn. unfold DEST_ALLOC_DELTA in *. lia. }
    exists d'. cbn [mbind res_bind]. fold d1. rewrite Hrun. split; [done|]. split; [done|].
    rewrite Hct. f_equal. unfold content, d1. cbn. rewrite <- Hpre, take_take. f_equal. lia.
  - destruct (memcpy_at_ok d (utf8 c)) as (d' & Hrun & Hd' & Hct); [by split|lia|].
    exists d'. by rewrite Hrun.
Qed.

Lemma unicode_decode_run src mode d :
  dest_ok d -> Forall byte src -> 0 <= mode <= 0x33 ->
  exists d', unicode_decode realloc src mode d = Ok (d_pos d', d') /\ dest_ok d' /\
    content d' = content d ++ (src ≫= fun b => utf8 (256 * mode + b)).
Proof.
  intros Hd Hsrc Hmode. unfold unicode_decode. rewrite Z.shiftl_mul_pow2 by lia.
  change (2 ^ 8) with 256. rewrite (Z.mul_comm mode).
  revert d Hd. induction Hsrc as [|b src Hb _ IH]; intros d Hd.
  - exists d. split; [done|]. split; [done|]. by rewrite app_nil_r.
  - unfold byte in Hb. destruct (append_run d (256 * mode + b) Hd) as (d1 & Hrun & Hd1 & Hct);
      [lia|].
    cbn [unicode_decode_loop]. rewrite Hrun. cbn [mbind res_bind]. cbn [Z.eqb negb].
    destruct (IH d1 Hd1) as (d' & Hrun' & Hd' & Hct'). exists d'. split; [exact Hrun'|].
    split; [done|]. rewrite Hct', Hct, <- app_assoc. done.
Qed.

Context (hufftree : list (list (Z * Z))).

Let loop := huffman_decode_loop realloc hufftree.
Let sel (b : bool) (e : Z * Z) : Z := if b then e.2 else e.1.

(** One round at a node: its start, up to the choice of the index. *)
Lemma loop_bit fuel h tree idx d b tl :
  huff_ok h -> bits_left h = b :: tl ->
  exists h', huff_ok h' /\ bits_left h' = tl /\
    loop (S fuel) h tree idx d =
    (let treeval := sel b (tree_entry tree idx) in
     if negb (Z.land treeval HUFFTREE_LITERAL_MASK =? 0) then
       let c := Z.land treeval 0x7f in
       if c =? HUFFSTRING_END then mret (0, d)
       else if c =? HUFFSTRING_ESCAPE then
         '(tmp, h, d) ← huffman_decode_uncompressed realloc (S fuel) h' d;
         if tmp <? 0 then mret (tmp, d)
         else if tmp =? 0 then mret (d_pos d, d)
         else tree ← at_ hufftree tmp; loop fuel h tree 0 d
       else
         '(r, d) ← append_unicode_char realloc d c;
         if negb (r =? 0) then mret (-1, d)
         else tree ← at_ hufftree c; loop fuel h' tree 0 d
     else loop fuel h' tree treeval d).
Proof.
  intros Hh Hbits. destruct (read_bit h b tl Hh Hbits) as (h' & Hrun & Hh' & Htl).
  exists h'. split; [done|]. split; [done|]. unfold loop at 1. cbn [huffman_decode_loop].
  rewrite (proj2 (Z.ltb_lt _ _)) by (by eapply bits_left_cons).
  rewrite Hrun. cbn [mbind res_bind]. rewrite (proj2 (Z.ltb_ge _ _)) by (by destruct b).
  by destruct b.
Qed.

(** Following a code to the node above its leaf. *)
Lemma loop_walk f tree idx val p h tl fuel d :
  find_code f tree idx val = Some p -> huff_ok h -> bits_left h = p ++ tl ->
  (length (p ++ tl) < fuel)%nat ->
  exists fuel1 h1 idx1 b, loop fuel h tree idx d = loop (S fuel1) h1 tree idx1 d /\
    huff_ok h1 /\ bits_left h1 = b :: tl /\ (length tl < fuel1)%nat /\
    sel b (tree_entry tree idx1) = val.
Proof.
  revert idx p h fuel. induction f as [|f IH]; intros idx p h fuel Hp Hh Hbits Hf; [done|].
  cbn [find_code] in Hp. destruct (tree_entry tree idx) as [l r] eqn:He.
  assert (Hstep : forall b v p', sel b (l, r) = v -> p = b :: p' ->
    (if Z.land v HUFFTREE_LITERAL_MASK =? 0 then find_code f tree v val
     else if v =? val then Some [] else None) = Some p' ->
    exists fuel1 h1 idx1 b, loop fuel h tree idx d = loop (S fuel1) h1 tree idx1 d /\
    huff_ok h1 /\ bits_left h1 = b :: tl /\ (length tl < fuel1)%nat /\
    sel b (tree_entry tree idx1) = val).
  { intros b v p' Hv -> Hgo. destruct fuel as [|fuel]; [lia|]. cbn [app length] in *.
    destruct (Z.land v HUFFTREE_LITERAL_MASK =? 0) eqn:Hlit.
    - destruct (loop_bit fuel h tree idx d b _ Hh Hbits) as (h' & Hh' & Htl & Hrun).
      rewrite He, Hv in Hrun. cbv zeta in Hrun. rewrite Hlit in Hrun. cbn [negb] in Hrun.
      destruct (IH v p' h' fuel Hgo Hh' Htl ltac:(lia)) as (f1 & h1 & i1 & b1 & E & Hr).
      exists f1, h1, i1, b1. by rewrite Hrun.
    - case_if_in Hgo; [|done]. injection Hgo as <-. cbn [app] in *. subst val.
      exists fuel, h, idx, b. rewrite He. split_and!; done || lia. }
  destruct (if Z.land l _ =? 0 then _ else _) as [p'|] eqn:Hl in Hp.
  - injection Hp as <-. by eapply (Hstep false).
  - apply fmap_Some in Hp as (p' & Hr & ->). by eapply (Hstep true).
Qed.

(** Reading the code of the literal [c]. *)
Lemma literal_land c :
  0 <= c < 0x80 -> Z.land (0x80 + c) HUFFTREE_LITERAL_MASK <> 0 /\ Z.land (0x80 + c) 0x7f = c.
Proof.
  intros Hc. split.
  - intros H. apply (f_equal (fun x => Z.testbit x 7)) in H.
    rewrite Z.land_spec, Z.bits_0 in H. change (Z.testbit HUFFTREE_LITERAL_MASK 7) with true in H.
    rewrite andb_true_r in H. replace (0x80 + c) with (c + 1 * 2 ^ 7) in H by lia.
    rewrite Z.testbit_false, Z.div_add, Z.div_small in H by lia. done.
  - change 0x7f with (Z.ones 7). rewrite Z.land_ones by lia.
    replace (0x80 + c) with (c + 1 * 2 ^ 7) by lia. rewrite Z.mod_add by done.
    by apply Z.mod_small.
Qed.

Lemma loop_code tree c p h tl fuel d :
  code_of tree c = Some p -> 0 <= c < 0x80 -> huff_ok h -> bits_left h = p ++ tl ->
  (length (p ++ tl) < fuel)%nat ->
  exists fuel' h', huff_ok h' /\ bits_left h' = tl /\ (length tl < fuel')%nat /\
    loop fuel h tree 0 d =
    (if c =? HUFFSTRING_END then mret (0, d)
     else if c =? HUFFSTRING_ESCAPE then
       '(tmp, h, d) ← huffman_decode_uncompressed realloc (S fuel') h' d;
       if tmp <? 0 then mret (tmp, d)
       else if tmp =? 0 then mret (d_pos d, d)
       else tree ← at_ hufftree tmp; loop fuel' h tree 0 d
     else
       '(r, d) ← append_unicode_char realloc d c;
       if negb (r =? 0) then mret (-1, d)
       else tree ← at_ hufftree c; loop fuel' h' tree 0 d).
Proof.
  intros Hp Hc Hh Hbits Hf.
  destruct (loop_walk _ _ _ _ _ _ _ _ d Hp Hh Hbits Hf)
    as (fuel1 & h1 & idx1 & b & -> & Hh1 & Hb1 & Hf1 & Hsel).
  destruct (loop_bit fuel1 h1 tree idx1 d b tl Hh1 Hb1) as (h' & Hh' & Htl & ->).
  exists fuel1, h'. split_and!; [done..|]. destruct (literal_land c Hc) as [L1 L2].
  cbv zeta. rewrite Hsel, L2. by rewrite (proj2 (Z.eqb_neq _ _)) by done.
Qed.

(** What decoding must give: the text appended. *)
Let decodes (cs : list Z) (d : dest) (r : res (Z * dest)) : Prop :=
  exists n d', r = Ok (n, d') /\ 0 <= n /\ dest_ok d' /\ content d' = content d ++ (cs ≫= utf8).

Lemma decodes_cons c cs d d1 r :
  content d1 = content d ++ utf8 c -> decodes cs d1 r -> decodes (c :: cs) d r.
Proof.
  intros Hc (n & d' & Hr & Hn & Hd & Hct). exists n, d'. split_and!; [done..|].
  rewrite Hct, Hc, <- app_assoc. done.
Qed.

(** The rest of a round after an uncompressed run. *)
Let resume (fuel : nat) (x : Z * huffbuff * dest) : res (Z * dest) :=
  let '(tmp, h, d) := x in
  if tmp <? 0 then mret (tmp, d)
  else if tmp =? 0 then mret (d_pos d, d)
  else tree ← at_ hufftree tmp; loop fuel h tree 0 d.

Lemma uncompressed_char k h d c tl :
  text_char c -> huff_ok h -> dest_ok d -> bits_left h = byte_msb c ++ tl ->
  exists h' d1, huff_ok h' /\ bits_left h' = tl /\ dest_ok d1 /\
    content d1 = content d ++ utf8 c /\
    huffman_decode_uncompressed realloc (S k) h d =
    (if c <? 0x80 then Ok (c, h', d1) else huffman_decode_uncompressed realloc k h' d1).
Proof.
  intros [Hc Hesc] Hh Hd Hbits.
  destruct (read_byte h c tl Hh ltac:(unfold byte; lia) Hbits) as (h' & Hrun & Hh' & Htl).
  destruct (append_run d c Hd) as (d1 & Happ & Hd1 & Hct); [lia|].
  exists h', d1. split_and!; [done..|]. cbn [huffman_decode_uncompressed].
  rewrite (proj2 (Z.ltb_lt _ _)) by exact (bits_left_cons h _ _ Hh Hbits).
  rewrite Hrun. cbn [mbind res_bind]. rewrite (proj2 (Z.ltb_ge c 0)) by lia.
  unfold HUFFSTRING_END. rewrite (proj2 (Z.eqb_neq c 0)), (proj2 (Z.eqb_neq _ _) Hesc) by lia.
  rewrite Happ. cbn [mbind res_bind]. cbn [Z.eqb negb].
  assert (Hm : Z.land c 0x80 = if c <? 0x80 then 0 else 0x80).
  { apply Z.bits_inj'. intros i Hi. change 0x80 with (2 ^ 7) at 1.
    rewrite Z.land_spec, Z.pow2_bits_eqb by lia. destruct (Z.eqb_spec 7 i) as [<-|Hne].
    - rewrite andb_true_r, Z.testbit_eqb by lia. case_if.
      + rewrite Z.div_small by lia. by rewrite Z.bits_0.
      + change (2 ^ 7) with 128. replace (c / 128) with 1; [done|].
        apply (Z.div_unique c 128 1 (c - 128)); lia.
    - rewrite andb_false_r. case_if; [by rewrite Z.bits_0|]. change 0x80 with (2 ^ 7).
      by rewrite Z.pow2_bits_false. }
  rewrite Hm. by destruct (c <? 0x80).
Qed.

Lemma decode_encode cs :
  Forall text_char cs ->
  (forall c tree bits h d tl fuel,
     huffman_encode hufftree (Some c) cs = Some bits -> hufftree !z c = Some tree ->
     huff_ok h -> bits_left h = bits ++ tl -> (length (bits ++ tl) < fuel)%nat -> dest_ok d ->
     decodes cs d (loop fuel h tree 0 d)) /\
  (forall bits h d tl k fuel,
     huffman_encode hufftree None cs = Some bits ->
     huff_ok h -> bits_left h = bits ++ tl -> (length (bits ++ tl) < k)%nat ->
     (length (bits ++ tl) < fuel)%nat -> dest_ok d ->
     decodes cs d (huffman_decode_uncompressed realloc k h d ≫= resume fuel)).
Proof.
  induction 1 as [|c' cs Hc _ [IHc IHu]].
  { assert (Hu : forall bits h d tl k fuel,
     huffman_encode hufftree None [] = Some bits ->
     huff_ok h -> bits_left h = bits ++ tl -> (length (bits ++ tl) < k)%nat ->
     dest_ok d -> decodes [] d (huffman_decode_uncompressed realloc k h d ≫= resume fuel)).
    { intros bits h d tl [|k] fuel Henc Hh Hbits Hk Hd; [lia|]. injection Henc as <-.
      destruct (read_byte h 0 tl Hh ltac:(done) Hbits) as (h' & Hrun & _).
      cbn [huffman_decode_uncompressed].
      rewrite (proj2 (Z.ltb_lt _ _)) by exact (bits_left_cons h _ _ Hh Hbits).
      rewrite Hrun. cbn [mbind res_bind resume]. exists (d_pos d), d. pose proof (do_pos d Hd).
      split_and!; [done|lia|done|by rewrite app_nil_r]. }
    split; [|intros; by eapply Hu].
    intros c tree bits h d tl fuel Henc Htree Hh Hbits Hf Hd. cbn [huffman_encode] in Henc.
    rewrite Htree in Henc. cbn [mbind option_bind] in Henc.
    destruct (code_of tree HUFFSTRING_END) as [p|] eqn:Hend.
    - injection Henc as <-.
      destruct (loop_code tree _ p h tl fuel d Hend ltac:(done) Hh Hbits Hf) as (f' & h' & _ & _ & _ & ->).
      exists 0, d. split_and!; [done..|by rewrite app_nil_r].
    - destruct (code_of tree HUFFSTRING_ESCAPE) as [p|] eqn:Hesc; [|done].
      injection Henc as <-. rewrite <- app_assoc in Hbits, Hf.
      destruct (loop_code tree _ p h _ fuel d Hesc ltac:(done) Hh Hbits Hf)
        as (f' & h' & Hh' & Htl & Hf' & ->).
      by apply (Hu _ h' d tl (S f') f' eq_refl Hh' Htl ltac:(lia)). }
  assert (Hu : forall bits h d tl k fuel,
     app (byte_msb c') <$>
       huffman_encode hufftree (if c' <? 0x80 then Some c' else None) cs = Some bits ->
     huff_ok h -> bits_left h = bits ++ tl -> (length (bits ++ tl) < k)%nat ->
     (length (bits ++ tl) < fuel)%nat -> dest_ok d ->
     decodes (c' :: cs) d (huffman_decode_uncompressed realloc k h d ≫= resume fuel)).
  { intros bits h d tl [|k] fuel Henc Hh Hbits Hk Hf Hd; [lia|].
    apply fmap_Some in Henc as (bits' & Henc & ->). rewrite <- app_assoc in Hbits, Hk, Hf.
    cbn [byte_msb map app length] in Hk, Hf.
    destruct (uncompressed_char k h d c' _ Hc Hh Hd Hbits)
      as (h' & d1 & Hh' & Htl & Hd1 & Hct & ->).
    apply (decodes_cons _ _ _ d1); [done|]. destruct (c' <? 0x80) eqn:E7.
    - cbn [mbind res_bind resume]. destruct Hc as [Hc _].
      rewrite (proj2 (Z.ltb_ge c' 0)), (proj2 (Z.eqb_neq c' 0)) by lia.
      destruct (hufftree !z c') as [tree'|] eqn:Ht';
        [|by destruct cs; cbn [huffman_encode] in Henc; rewrite Ht' in Henc].
      unfold at_. rewrite Ht'. cbn [mbind res_bind].
      eapply IHc; [exact Henc|done|done|exact Htl|lia|done].
    - eapply IHu; [exact Henc|done|exact Htl|lia|lia|done]. }
  split; [|intros; by eapply Hu].
  intros c tree bits h d tl fuel Henc Htree Hh Hbits Hf Hd. cbn [huffman_encode] in Henc.
  rewrite Htree in Henc. cbn [mbind option_bind] in Henc.
  destruct (if c' <? 0x80 then code_of tree c' else None) as [p|] eqn:Hp.
  - case_if_in Hp; [|done]. apply fmap_Some in Henc as (bits' & Henc & ->).
    rewrite <- app_assoc in Hbits, Hf. destruct Hc as [Hc Hesc].
    destruct (loop_code tree _ p h _ fuel d Hp ltac:(lia) Hh Hbits Hf)
      as (f' & h' & Hh' & Htl & Hf' & ->). unfold HUFFSTRING_END.
    rewrite (proj2 (Z.eqb_neq c' 0)), (proj2 (Z.eqb_neq _ _) Hesc) by lia.
    destruct (append_run d c' Hd) as (d1 & -> & Hd1 & Hct); [lia|]. cbn [mbind res_bind].
    cbn [Z.eqb negb]. apply (decodes_cons _ _ _ d1); [done|].
    destruct (hufftree !z c') as [tree'|] eqn:Ht';
      [|by destruct cs; cbn [huffman_encode] in Henc; rewrite Ht' in Henc].
    unfold at_. rewrite Ht'. cbn [mbind res_bind].
    eapply IHc; [exact Henc|done|done|exact Htl|lia|done].
  - destruct (code_of tree HUFFSTRING_ESCAPE) as [p|] eqn:Hesc; [|done].
    cbn [mbind option_bind] in Henc.
    destruct (huffman_encode hufftree (if c' <? 0x80 then Some c' else None) cs) as [bits'|]
      eqn:Henc'; cbn [mbind option_bind] in Henc; [|done].
    assert (bits = p ++ byte_msb c' ++ bits') as -> by congruence. clear Henc.
    rewrite <- !app_assoc in Hbits, Hf.
    destruct (loop_code tree _ p h _ fuel d Hesc ltac:(done) Hh Hbits Hf)
      as (f' & h' & Hh' & Htl & Hf' & ->).
    apply (Hu (byte_msb c' ++ bits') h' d tl (S f') f');
      [done|done|by rewrite <- app_assoc|rewrite <- app_assoc; lia..|done].
Qed.
End Decode.

(** ** Safety *)

Section Safe.
Context (realloc : list Z -> Z -> option (list Z)).
(** [realloc] may fail; a block it returns has the requested size. *)
Context (Hsize : forall b n b', realloc b n = Some b' -> zlen b' = n).

Lemma append_safe d c :
  dest_ok d -> exists r d', append_unicode_char realloc d c = Ok (r, d') /\ dest_ok d'.
Proof.
  intros [Hl Hp]. unfold append_unicode_char.
  destruct (utf8_encode c) as [tmp|] eqn:Ht; [|by exists (-1), d].
  assert (Hlt : zlen tmp <= 3).
  { pose proof (utf8_length c) as H. unfold utf8 in H. rewrite Ht in H. cbn in H. lia. }
  unfold DEST_ALLOC_DELTA. case_if.
  - destruct (realloc _ _) as [b'|] eqn:Hr; [|by exists (-12), d]. apply Hsize in Hr.
    destruct (memcpy_at_ok (Dest b' (d_buflen d + 20) (d_pos d)) tmp) as (d' & Hrun & Hd' & _).
    + split; cbn; lia.
    + cbn. lia.
    + exists 0, d'. cbn [mbind res_bind]. by rewrite Hrun.
  - destruct (memcpy_at_ok d tmp) as (d' & Hrun & Hd' & _); [by split|lia|].
    exists 0, d'. by rewrite Hrun.
Qed.

(** [nbits] bits: all read, or the end of the source. *)
Lemma bits_safe h n r :
  huff_ok h -> 0 <= r < 256 ->
  exists c h', huffbuff_bits_loop n r h = Ok (c, h') /\ huff_ok h' /\ -1 <= c < 256 /\
    (c <> -1 -> (length (bits_left h') + n = length (bits_left h))%nat).
Proof.
  revert h r. induction n as [|n IH]; intros h r Hh Hr; [exists r, h; split_and!; done || lia|].
  destruct (Z.lt_ge_cases (hb_cur_byte h) (hb_buf_len h)) as [Hlt|Hge].
  - destruct (next_bit h n r Hh Hlt) as (b & h' & Hh' & Hbits & ->).
    destruct (IH h' (u8 (2 * r) + Z.b2z b) Hh') as (c & h2 & Hrun & Hh2 & Hc & Hlen).
    { unfold u8. change 256 with (2 * 128). rewrite Z.mul_mod_distr_l by lia.
      pose proof (Z.mod_pos_bound r 128). destruct b; cbn [Z.b2z]; lia. }
    exists c, h2. split_and!; [done..|lia|lia|]. intros Hne. rewrite Hbits. cbn [length].
    specialize (Hlen Hne). lia.
  - exists (-1), h. cbn [huffbuff_bits_loop]. rewrite (proj2 (Z.leb_le _ _)) by lia.
    split_and!; done || lia.
Qed.

Lemma land_7bit c : 0 <= c < 256 -> Z.land c 0x80 = 0 -> c < 128.
Proof.
  intros Hc H. apply (bits_bound c 7); [lia|]. split; [lia|]. intros i Hi.
  destruct (Z.eq_dec i 7) as [->|].
  - apply (f_equal (fun x => Z.testbit x 7)) in H. rewrite Z.land_spec, Z.bits_0 in H.
    by rewrite andb_true_r in H.
  - apply (testbit_high c 8); lia.
Qed.

Lemma uncompressed_safe k h d :
  huff_ok h -> dest_ok d -> (length (bits_left h) < k)%nat ->
  exists c h' d', huffman_decode_uncompressed realloc k h d = Ok (c, h', d') /\
    huff_ok h' /\ dest_ok d' /\ c < 128 /\
    (0 <= c -> (length (bits_left h') <= length (bits_left h))%nat).
Proof.
  revert h d. induction k as [|k IH]; intros h d Hh Hd Hk; [lia|].
  cbn [huffman_decode_uncompressed].
  destruct (hb_cur_byte h <? hb_buf_len h); [|by exists HUFFSTRING_END, h, d].
  destruct (bits_safe h 8 0 Hh ltac:(lia)) as (c & h' & Hrun & Hh' & Hc & Hlen).
  change (huffbuff_bits h 8) with (huffbuff_bits_loop 8 0 h). rewrite Hrun.
  cbn [mbind res_bind]. destruct (Z.ltb_spec c 0) as [Hneg|Hpos].
  { exists (-1), h', d. split_and!; done || lia. }
  specialize (Hlen ltac:(lia)).
  destruct (c =? HUFFSTRING_END); [exists 0, h', d; split_and!; done || lia|].
  destruct (c =? HUFFSTRING_ESCAPE); [exists HUFFSTRING_ESCAPE, h', d; split_and!; done || lia|].
  destruct (append_safe d c Hd) as (r & d1 & -> & Hd1). cbn [mbind res_bind].
  destruct (r =? 0); cbn [negb]; [|exists (-1), h', d1; split_and!; done || lia].
  destruct (Z.eqb_spec (Z.land c 0x80) 0) as [E7|].
  - exists c, h', d1. split_and!; try done; [by apply land_7bit; [lia|]|lia].
  - destruct (IH h' d1 Hh' Hd1 ltac:(lia)) as (c2 & h2 & d2 & Hr2 & Hh2 & Hd2 & Hc2 & Hl2).
    exists c2, h2, d2. split_and!; try done. intros. specialize (Hl2 ltac:(done)). lia.
Qed.

Context (hufftree : list (list (Z * Z))) (Hrows : length hufftree = 128%nat).

Lemma row_exists c : 0 <= c < 128 -> exists tree, at_ hufftree c = Ok tree.
Proof.
  intros Hc. destruct (lookup_z_is_Some hufftree c) as [t Ht]; [lia|]. exists t.
  unfold at_. by rewrite Ht.
Qed.

Lemma huffman_loop_safe fuel h tree idx d :
  huff_ok h -> dest_ok d -> (length (bits_left h) < fuel)%nat ->
  exists r d', huffman_decode_loop realloc hufftree fuel h tree idx d = Ok (r, d') /\ dest_ok d'.
Proof.
  revert h tree idx d. induction fuel as [|fuel IH]; intros h tree idx d Hh Hd Hf; [lia|].
  cbn [huffman_decode_loop]. destruct (hb_cur_byte h <? hb_buf_len h); [|by exists (d_pos d), d].
  destruct (bits_safe h 1 0 Hh ltac:(lia)) as (b & h' & Hrun & Hh' & Hb & Hlen).
  change (huffbuff_bits h 1) with (huffbuff_bits_loop 1 0 h). rewrite Hrun.
  cbn [mbind res_bind]. destruct (Z.ltb_spec b 0); [by exists (d_pos d), d|].
  specialize (Hlen ltac:(lia)). set (v := if b =? 0 then _ else _). cbv zeta.
  destruct (Z.land v HUFFTREE_LITERAL_MASK =? 0); cbn [negb]; [apply IH; done || lia|].
  pose proof (land_nonneg_le v 0x7f ltac:(lia)) as Hc. set (c := Z.land v 0x7f) in *.
  destruct (c =? HUFFSTRING_END); [by exists 0, d|]. destruct (c =? HUFFSTRING_ESCAPE).
  - destruct (uncompressed_safe (S fuel) h' d Hh' Hd ltac:(lia))
      as (tmp & h2 & d2 & -> & Hh2 & Hd2 & Htmp & Hl2). cbn [mbind res_bind].
    destruct (Z.ltb_spec tmp 0); [by exists tmp, d2|]. specialize (Hl2 ltac:(lia)).
    destruct (tmp =? 0); [by exists (d_pos d2), d2|].
    destruct (row_exists tmp ltac:(lia)) as [t ->]. cbn [mbind res_bind]. apply IH; done || lia.
  - destruct (append_safe d c Hd) as (r & d1 & -> & Hd1). cbn [mbind res_bind].
    destruct (r =? 0); cbn [negb]; [|by exists (-1), d1].
    destruct (row_exists c ltac:(lia)) as [t ->]. cbn [mbind res_bind]. apply IH; done || lia.
Qed.

Lemma huffman_decode_safe src d :
  dest_ok d -> exists r d', huffman_decode realloc src d hufftree = Ok (r, d') /\ dest_ok d'.
Proof.
  intros Hd. unfold huffman_decode. destruct (row_exists 0 ltac:(lia)) as [t ->].
  cbn [mbind res_bind]. apply huffman_loop_safe; [|done|].
  - split; cbn; lia.
  - unfold bits_left. cbn. rewrite length_drop, length_bits_of. lia.
Qed.

Lemma unicode_decode_safe src msb d :
  dest_ok d -> exists r d', unicode_decode_loop realloc src msb d = Ok (r, d') /\ dest_ok d'.
Proof.
  revert d. induction src as [|b src IH]; intros d Hd; [by exists (d_pos d), d|].
  cbn [unicode_decode_loop]. destruct (append_safe d (msb + b) Hd) as (r & d1 & -> & Hd1).
  cbn [mbind res_bind]. destruct (r =? 0); cbn [negb]; [by apply IH|by exists (-1), d1].
Qed.
End Safe.

(** ** Theorems *)

(** Every tree of the two tables can escape, so that every text can be encoded. *)
Lemma tables_escape :
  forallb (fun tree => match code_of tree HUFFSTRING_ESCAPE with Some _ => true | None => false end)
    (program_title_hufftree ++ program_description_hufftree) = true.
Proof. by vm_compute. Qed.

Lemma huffman_encodable T cs ctx :
  length T = 127%nat -> (forall tree, In tree T -> code_of tree HUFFSTRING_ESCAPE <> None) ->
  Forall (fun c => text_char c /\ c <> 127) cs ->
  match ctx with Some c => 0 <= c < 127 | None => True end ->
  exists bits, huffman_encode T ctx cs = Some bits.
Proof.
  intros HT Hesc Hcs. revert ctx. induction Hcs as [|c cs [[Hc _] Hne] _ IH]; intros ctx Hctx.
  all: assert (Hrow : forall c, 0 <= c < 127 -> exists tree p, T !z c = Some tree /\
      code_of tree HUFFSTRING_ESCAPE = Some p) by
    (intros c0 Hc0; destruct (lookup_z_is_Some T c0) as [t Ht]; [lia|];
     specialize (Hesc t); destruct (code_of t _) as [p|] eqn:Hp; [by exists t, p|];
     exfalso; apply Hesc; [|done]; apply lookup_z_Some in Ht as [_ Ht];
     apply list_elem_of_In; by eapply list_elem_of_lookup_2).
  - destruct ctx as [c|]; cbn [huffman_encode]; [|by eexists].
    destruct (Hrow c Hctx) as (t & p & -> & Hp). cbn [mbind option_bind]. rewrite Hp.
    destruct (code_of t HUFFSTRING_END); by eexists.
  - destruct (IH (if c <? 0x80 then Some c else None)) as [bits Hbits]; [by case_if; [lia|]|].
    destruct ctx as [c'|]; cbn [huffman_encode]; [|by rewrite Hbits; eexists].
    destruct (Hrow c' Hctx) as (t & p & -> & Hp). cbn [mbind option_bind]. rewrite Hp, Hbits.
    destruct (c <? 0x80); [|by eexists]. destruct (code_of t c); rewrite ?Hbits; by eexists.
Qed.

(** a Huffman segment (title or description) that holds the code of a text decodes to that
    text, as UTF-8 after what the destination held; every text without NUL, ESC and DEL has a
    code. *)
Theorem segment_decode_huffman realloc ct T cs :
  (forall b n, zlen b <= n ->
     exists b', realloc b n = Some b' /\ zlen b' = n /\ take (length b) b' = b) ->
  (ct, T) = (1, program_title_hufftree) \/ (ct, T) = (2, program_description_hufftree) ->
  Forall (fun c => text_char c /\ c <> 127) cs ->
  exists bits, huffman_encode T (Some 0) cs = Some bits /\
    forall src pad d, bits_of src = bits ++ pad -> dest_ok d ->
      exists r d', atsc_text_segment_decode realloc ct 0 src d = Ok (r, d') /\ 0 <= r /\
        dest_ok d' /\ content d' = content d ++ (cs ≫= utf8).
Proof.
  intros Hre HT Hcs. assert (HT' : length T = 127%nat /\
    (forall tree, In tree T -> code_of tree HUFFSTRING_ESCAPE <> None) /\
    forall src d, atsc_text_segment_decode realloc ct 0 src d = huffman_decode realloc src d T).
  { pose proof tables_escape as He. rewrite forallb_app in He. apply andb_prop in He.
    rewrite !forallb_forall in He. destruct He as [H1 H2].
    destruct HT as [HT|HT]; injection HT as -> ->; (split; [done|]); (split; [|done]);
      intros tree Hin Hn; [specialize (H1 tree Hin)|specialize (H2 tree Hin)];
      [by rewrite Hn in H1|by rewrite Hn in H2]. }
  destruct HT' as (Hlen & Hesc & Hdec).
  destruct (huffman_encodable T cs (Some 0) Hlen Hesc Hcs ltac:(cbn; lia)) as [bits Hbits].
  exists bits. split; [done|]. intros src pad d Hsrc Hd. rewrite Hdec. unfold huffman_decode.
  destruct (lookup_z_is_Some T 0) as [t Ht]; [lia|]. unfold at_. rewrite Ht.
  cbn [mbind res_bind].
  assert (Hch : Forall text_char cs) by (eapply Forall_impl; [|exact Hcs]; naive_solver).
  destruct (decode_encode realloc Hre T cs Hch) as [Hc Hu].
  apply (Hc 0 t bits (huffbuff_init src (zlen src)) d pad); [done|done| | | |done].
  - split; cbn; lia.
  - exact Hsrc.
  - rewrite <- Hsrc, length_bits_of. lia.
Qed.

(** an uncompressed segment of mode [m] decodes to its characters [256 * m + b], each written
    in UTF-8 (whose decoding gives the character back), and the new position is returned. *)
Theorem segment_decode_unicode realloc mode src d :
  (forall b n, zlen b <= n ->
     exists b', realloc b n = Some b' /\ zlen b' = n /\ take (length b) b' = b) ->
  0 <= mode <= 0x33 -> Forall byte src -> dest_ok d ->
  exists d', atsc_text_segment_decode realloc 0 mode src d = Ok (d_pos d', d') /\ dest_ok d' /\
    content d' = content d ++ (src ≫= fun b => utf8 (256 * mode + b)) /\
    Forall (fun b => forall tl, utf8_decode (utf8 (256 * mode + b) ++ tl) =
                                Some (256 * mode + b, tl)) src.
Proof.
  intros Hre Hm Hsrc Hd. unfold atsc_text_segment_decode.
  rewrite (proj2 (Z.ltb_ge _ _)) by lia. cbn [Z.eqb negb]. rewrite andb_false_r.
  destruct (unicode_decode_run realloc Hre src mode d Hd Hsrc Hm) as (d' & Hrun & Hd' & Hct).
  exists d'. split_and!; try done. eapply Forall_impl; [|exact Hsrc]. intros b Hb tl.
  unfold byte in Hb. apply utf8_decode_encode. lia.
Qed.

(** with a full table of 128 trees, decoding any bytes stays inside the source, the
    destination and the table, and ends; [realloc] may fail at any point. *)
Theorem huffman_decode_total realloc hufftree src d :
  (forall b n b', realloc b n = Some b' -> zlen b' = n) ->
  length hufftree = 128%nat -> dest_ok d ->
  exists r d', huffman_decode realloc src d hufftree = Ok (r, d') /\ dest_ok d'.
Proof. intros Hs Hrows Hd. by apply huffman_decode_safe. Qed.

(** A [realloc] that always succeeds, for the witnesses. *)
Definition zero_realloc (b : list Z) (n : Z) : option (list Z) :=
  Some (take (Z.to_nat n) (b ++ replicate (Z.to_nat n) 0)).

Lemma zero_realloc_law b n :
  zlen b <= n ->
  exists b', zero_realloc b n = Some b' /\ zlen b' = n /\ take (length b) b' = b.
Proof.
  intros H. eexists. split; [done|]. split.
  - rewrite length_take, length_app, length_replicate. lia.
  - rewrite take_take, Nat.min_l by lia. by rewrite take_app_length.
Qed.

(** "Hi". *)
Lemma segment_decode_huffman_witness :
  exists bits, huffman_encode program_title_hufftree (Some 0) [72; 105] = Some bits /\
    forall src pad d, bits_of src = bits ++ pad -> dest_ok d ->
      exists r d', atsc_text_segment_decode zero_realloc 1 0 src d = Ok (r, d') /\ 0 <= r /\
        dest_ok d' /\ content d' = content d ++ ([72; 105] ≫= utf8).
Proof.
  apply segment_decode_huffman; [exact zero_realloc_law|by left|].
  repeat constructor; vm_compute; congruence.
Defined.

Lemma segment_decode_unicode_witness :
  exists d', atsc_text_segment_decode zero_realloc 0 4 [0x10; 0x11] (Dest [] 0 0) =
      Ok (d_pos d', d') /\ dest_ok d' /\
    content d' = content (Dest [] 0 0) ++ ([0x10; 0x11] ≫= fun b => utf8 (256 * 4 + b)) /\
    Forall (fun b => forall tl, utf8_decode (utf8 (256 * 4 + b) ++ tl) =
                                Some (256 * 4 + b, tl)) [0x10; 0x11].
Proof.
  apply segment_decode_unicode; [exact zero_realloc_law|lia| |by split; cbn; lia].
  repeat constructor; lia.
Defined.

Lemma huffman_decode_total_witness :
  exists r d', huffman_decode (fun _ _ => None) [0xcb; 0x7f; 0] (Dest [] 0 0)
    (program_title_hufftree ++ [[(0x9b, 0x9b)]]) = Ok (r, d') /\ dest_ok d'.
Proof. apply huffman_decode_total; [done|done|by split; cbn; lia]. Defined.

(** The tables have 127 rows, not 128: an escaped DEL (0x7f) is used as an index past their
    end. *)
Theorem huffman_del_overread :
  length program_title_hufftree = 127%nat /\ length program_description_hufftree = 127%nat /\
  atsc_text_segment_decode zero_realloc 1 0 [0xcb; 0x7f] (Dest [] 0 0) = Err OutOfBounds.
Proof. split_and!; by vm_compute. Qed.

(** A text ended by its NUL returns 0, not the new position: here "Hi". *)
Theorem huffman_end_returns_zero :
  exists d', atsc_text_segment_decode zero_realloc 1 0 [0xff; 0x9a; 0x80] (Dest [] 0 0) =
    Ok (0, d') /\ content d' = [72; 105].
Proof. eexists. by vm_compute. Qed.
