(* ===== verification/TransportPacket.v ===== *)
(** * transport_packet.c and transport_packet.h: MPEG transport packets

    The extraction of the values of the adaptation field, and the continuity check.  A packet is
    the list of its 188 bytes; pointers into it are offsets. *)

From S2P Require Export CMem.

Definition TRANSPORT_PACKET_LENGTH : Z := 188.
Definition TRANSPORT_PACKET_SYNC : Z := 0x47.
Definition TRANSPORT_MAX_PIDS : Z := 0x2000.
Definition TRANSPORT_NULL_PID : Z := 0x1fff.

(** [a & f], as a condition. *)
Definition has (a f : Z) : bool := negb (Z.land a f =? 0).

(** ** The packet header *)

(** [struct transport_packet]. *)
Record transport_packet := TransportPacket {
  tp_sync_byte : Z;
  tp_transport_error_indicator : Z;
  tp_payload_unit_start_indicator : Z;
  tp_transport_priority : Z;
  tp_pid_hi : Z;
  tp_pid_lo : Z;
  tp_transport_scrambling_control : Z;
  tp_adaptation_field_control : Z;
  tp_continuity_counter : Z;
}.

(** The bit fields of the first four bytes. *)
Definition tp_header (pkt : list Z) : res transport_packet :=
  b0 ← at_ pkt 0;
  b1 ← at_ pkt 1;
  b2 ← at_ pkt 2;
  b3 ← at_ pkt 3;
  mret (TransportPacket b0 (Z.shiftr b1 7) (Z.land (Z.shiftr b1 6) 1) (Z.land (Z.shiftr b1 5) 1)
          (Z.land b1 0x1f) b2 (Z.shiftr b3 6) (Z.land (Z.shiftr b3 4) 3) (Z.land b3 0xf)).

Definition transport_packet_pid (h : transport_packet) : Z :=
  Z.lor (Z.shiftl (tp_pid_hi h) 8) (tp_pid_lo h).

(** [None]: the function returns [NULL]. *)
Definition transport_packet_init (pkt : list Z) : res (option transport_packet) :=
  h ← tp_header pkt;
  if negb (tp_sync_byte h =? TRANSPORT_PACKET_SYNC) then mret None
  else if TRANSPORT_MAX_PIDS <=? transport_packet_pid h then mret None
  else mret (Some h).

(** ** Extraction of values *)

Definition transport_adaptation_flag_pcr : Z := 0x10.
Definition transport_adaptation_flag_opcr : Z := 0x08.
Definition transport_adaptation_flag_splicing_point : Z := 0x04.
Definition transport_adaptation_flag_private_data : Z := 0x02.
Definition transport_adaptation_flag_extension : Z := 0x01.

Definition transport_adaptation_extension_flag_ltw : Z := 0x80.
Definition transport_adaptation_extension_flag_piecewise_rate : Z := 0x40.
Definition transport_adaptation_extension_flag_seamless_splice : Z := 0x20.

Definition transport_value_pcr : Z := 0x0001.
Definition transport_value_opcr : Z := 0x0002.
Definition transport_value_splice_countdown : Z := 0x0004.
Definition transport_value_private_data : Z := 0x0008.
Definition transport_value_ltw : Z := 0x0100.
Definition transport_value_piecewise_rate : Z := 0x0200.
Definition transport_value_seamless_splice : Z := 0x0400.

(** [struct transport_values]. *)
Record transport_values := TransportValues {
  tv_flags : Z;
  tv_payload : option Z;
  tv_payload_length : Z;
  tv_pcr : Z;
  tv_opcr : Z;
  tv_splice_countdown : Z;
  tv_private_data_length : Z;
  tv_private_data : Z;
  tv_ltw_offset : Z;
  tv_piecewise_rate : Z;
  tv_splice_type : Z;
  tv_dts_next_au : Z;
}.

Definition set_pcr (v : Z) (o : transport_values) : transport_values :=
  let '(TransportValues f p pl _ op sc dl d l r st dts) := o in
  TransportValues f p pl v op sc dl d l r st dts.
Definition set_opcr (v : Z) (o : transport_values) : transport_values :=
  let '(TransportValues f p pl pc _ sc dl d l r st dts) := o in
  TransportValues f p pl pc v sc dl d l r st dts.
Definition set_splice_countdown (v : Z) (o : transport_values) : transport_values :=
  let '(TransportValues f p pl pc op _ dl d l r st dts) := o in
  TransportValues f p pl pc op v dl d l r st dts.
Definition set_private_data (len ptr : Z) (o : transport_values) : transport_values :=
  let '(TransportValues f p pl pc op sc _ _ l r st dts) := o in
  TransportValues f p pl pc op sc len ptr l r st dts.
Definition set_ltw (v : Z) (o : transport_values) : transport_values :=
  let '(TransportValues f p pl pc op sc dl d _ r st dts) := o in
  TransportValues f p pl pc op sc dl d v r st dts.
Definition set_piecewise_rate (v : Z) (o : transport_values) : transport_values :=
  let '(TransportValues f p pl pc op sc dl d l _ st dts) := o in
  TransportValues f p pl pc op sc dl d l v st dts.
Definition set_seamless_splice (t v : Z) (o : transport_values) : transport_values :=
  let '(TransportValues f p pl pc op sc dl d l r _ _) := o in
  TransportValues f p pl pc op sc dl d l r t v.
Definition set_payload (p : option Z) (len flags : Z) (o : transport_values) : transport_values :=
  let '(TransportValues _ _ _ pc op sc dl d l r st dts) := o in
  TransportValues flags p len pc op sc dl d l r st dts.

(** The local variables [pos] and [extracted], and [*out]. *)
Record extraction := Extraction {
  x_pos : Z;
  x_out : transport_values;
  x_extracted : Z;
}.

(** [out->... = ...; extracted |= value]. *)
Definition record_value (value : Z) (set : transport_values -> transport_values)
    (s : extraction) : extraction :=
  Extraction (x_pos s) (set (x_out s)) (Z.lor (x_extracted s) value).

Definition skip (n : Z) (s : extraction) : extraction :=
  Extraction (x_pos s + n) (x_out s) (x_extracted s).

(** A stage of the function goes on with a new state, or takes [return -1]. *)
Definition stage : Type := extraction -> res (extraction + transport_values).

(** [if (flags & flag) { if ((pos+size) > adapend) return -1; get; pos += size; }] *)
Definition field (adapend flags flag size : Z) (get : extraction -> res extraction) : stage :=
  fun s =>
    if has flags flag then
      if adapend <? x_pos s + size then mret (inr (x_out s))
      else s ← get s; mret (inl (skip size s))
    else mret (inl s).

Section Extract.
Context (pkt : list Z) (extract : Z).

(** The 33-bit base and 9-bit extension of a program clock reference. *)
Definition ld_pcr (pos : Z) : res Z :=
  b0 ← at_ pkt pos;
  b1 ← at_ pkt (pos + 1);
  b2 ← at_ pkt (pos + 2);
  b3 ← at_ pkt (pos + 3);
  b4 ← at_ pkt (pos + 4);
  b5 ← at_ pkt (pos + 5);
  let base := Z.lor (Z.lor (Z.lor (Z.lor (Z.shiftl b0 25) (Z.shiftl b1 17)) (Z.shiftl b2 9))
                       (Z.shiftl b3 1)) (Z.shiftr b4 7) in
  let ext := Z.lor (Z.shiftl (Z.land b4 1) 8) b5 in
  mret (u64 (base * 300 + ext)).

Definition get_pcr (s : extraction) : res extraction :=
  if has extract transport_value_pcr then
    v ← ld_pcr (x_pos s); mret (record_value transport_value_pcr (set_pcr v) s)
  else mret s.

Definition get_opcr (s : extraction) : res extraction :=
  if has extract transport_value_opcr then
    v ← ld_pcr (x_pos s); mret (record_value transport_value_opcr (set_opcr v) s)
  else mret s.

Definition get_splice_countdown (s : extraction) : res extraction :=
  if has extract transport_value_splice_countdown then
    v ← at_ pkt (x_pos s);
    mret (record_value transport_value_splice_countdown (set_splice_countdown v) s)
  else mret s.

Definition private_data_stage (adapend adapflags : Z) : stage := fun s =>
  if has adapflags transport_adaptation_flag_private_data then
    if adapend <? x_pos s + 1 then mret (inr (x_out s))
    else
      len ← at_ pkt (x_pos s);
      if adapend <? x_pos s + 1 + len then mret (inr (x_out s))
      else
        let s := if has extract transport_value_private_data then
                   record_value transport_value_private_data
                     (set_private_data len (x_pos s + 1)) s
                 else s in
        mret (inl (skip (1 + len) s))
  else mret (inl s).

Definition get_ltw (s : extraction) : res extraction :=
  if has extract transport_value_ltw then
    b0 ← at_ pkt (x_pos s);
    if has b0 0x80 then
      b1 ← at_ pkt (x_pos s + 1);
      mret (record_value transport_value_ltw (set_ltw (Z.lor (Z.shiftl (Z.land b0 0x7f) 8) b1)) s)
    else mret s
  else mret s.

Definition get_piecewise_rate (s : extraction) : res extraction :=
  if has extract transport_value_piecewise_rate then
    b0 ← at_ pkt (x_pos s);
    b1 ← at_ pkt (x_pos s + 1);
    b2 ← at_ pkt (x_pos s + 2);
    mret (record_value transport_value_piecewise_rate
      (set_piecewise_rate (Z.lor (Z.lor (Z.shiftl (Z.land b0 0x3f) 16) (Z.shiftl b1 8)) b2)) s)
  else mret s.

(** The value is computed in type [int], then converted to [uint64_t]. *)
Definition int_to_u64 (z : Z) : Z := u64 ((u32 z + 2147483648) mod 4294967296 - 2147483648).

(** The condition is the one of the code: it tests [transport_value_piecewise_rate]. *)
Definition get_seamless_splice (s : extraction) : res extraction :=
  if has extract transport_value_piecewise_rate then
    b0 ← at_ pkt (x_pos s);
    b1 ← at_ pkt (x_pos s + 1);
    b2 ← at_ pkt (x_pos s + 2);
    b3 ← at_ pkt (x_pos s + 3);
    b4 ← at_ pkt (x_pos s + 4);
    let dts := Z.lor (Z.lor (Z.lor (Z.lor (Z.shiftl (Z.land b0 0x0e) 29) (Z.shiftl b1 22))
                  (Z.shiftl (Z.land b2 0xfe) 14)) (Z.shiftl b3 7)) (Z.shiftr (Z.land b4 0xfe) 1) in
    mret (record_value transport_value_seamless_splice
            (set_seamless_splice (Z.shiftr b0 4) (int_to_u64 dts)) s)
  else mret s.

(** [extract_payload:] to the end of the function. *)
Definition extract_payload (afc adaplength adapflags : Z) (s : extraction) :
    res (Z * transport_values) :=
  let '(payload, len) :=
    if has afc 1 then
      let off := 4 in
      let off := if has afc 2 then off + 1 else off in
      let off := off + adaplength in
      (Some off, u16 (TRANSPORT_PACKET_LENGTH - off))
    else (None, 0) in
  mret (x_extracted s, set_payload payload len adapflags (x_out s)).

(** The next stage, unless the last one returned [-1]. *)
Definition after (c : res (extraction + transport_values))
    (k : extraction -> res (Z * transport_values)) : res (Z * transport_values) :=
  r ← c;
  match r with
  | inl s => k s
  | inr out => mret (-1, out)
  end.

(** "is there an adaptation extension?", to the end of the function. *)
Definition extract_extension (adapend adapflags : Z) (exit : extraction -> res (Z * transport_values))
    (s : extraction) : res (Z * transport_values) :=
  if negb (has adapflags transport_adaptation_flag_extension) then exit s
  else if adapend <=? x_pos s then mret (-1, x_out s)
  else
    adapextlength ← at_ pkt (x_pos s);
    let s := skip 1 s in
    if adapend <? x_pos s + adapextlength then mret (-1, x_out s)
    else if negb (has extract 0xff00) || (adapextlength =? 0) then exit s
    else
      adapextflags ← at_ pkt (x_pos s);
      let s := skip 1 s in
      after (field adapend adapextflags transport_adaptation_extension_flag_ltw 2 get_ltw s) (λ s,
      after (field adapend adapextflags transport_adaptation_extension_flag_piecewise_rate 3
               get_piecewise_rate s) (λ s,
      after (field adapend adapextflags transport_adaptation_extension_flag_seamless_splice 5
               get_seamless_splice s) exit)).

(** The returned value and [*out], from its initial contents. *)
Definition transport_packet_values_extract (out : transport_values) : res (Z * transport_values) :=
  h ← tp_header pkt;
  let afc := tp_adaptation_field_control h in
  let s := Extraction 4 out 0 in
  if negb (has afc 2) then extract_payload afc 0 0 s
  else
    adaplength ← at_ pkt (x_pos s);
    let s := skip 1 s in
    if adaplength =? 0 then extract_payload afc adaplength 0 s
    else
      let adapend := x_pos s + adaplength in
      if TRANSPORT_PACKET_LENGTH <? adapend then mret (-1, x_out s)
      else
        adapflags ← at_ pkt (x_pos s);
        let s := skip 1 s in
        let exit := extract_payload afc adaplength adapflags in
        if negb (has extract 0xffff) then exit s
        else
          after (field adapend adapflags transport_adaptation_flag_pcr 6 get_pcr s) (λ s,
          after (field adapend adapflags transport_adaptation_flag_opcr 6 get_opcr s) (λ s,
          after (field adapend adapflags transport_adaptation_flag_splicing_point 1
                   get_splice_countdown s) (λ s,
          after (private_data_stage adapend adapflags s)
            (extract_extension adapend adapflags exit)))).
End Extract.

(** ** The continuity check *)

Definition CONTINUITY_VALID : Z := 0x80.
Definition CONTINUITY_DUPESEEN : Z := 0x40.

(** The returned value and the new [*cstate]. *)
Definition transport_packet_continuity_check (h : transport_packet) (discontinuity_indicator : bool)
    (cstate : Z) : Z * Z :=
  let pktcontinuity := tp_continuity_counter h in
  let prevcontinuity := Z.land cstate 0x0f in
  if transport_packet_pid h =? TRANSPORT_NULL_PID then (0, cstate)
  else if negb (has cstate CONTINUITY_VALID) then (0, Z.lor pktcontinuity CONTINUITY_VALID)
  else if discontinuity_indicator then (0, Z.lor pktcontinuity CONTINUITY_VALID)
  else
    let nextcontinuity :=
      if has (tp_adaptation_field_control h) 1 then Z.land (prevcontinuity + 1) 0xf
      else prevcontinuity in
    if nextcontinuity =? pktcontinuity then (0, Z.lor pktcontinuity CONTINUITY_VALID)
    else if (prevcontinuity =? pktcontinuity) && negb (has cstate CONTINUITY_DUPESEEN) then
      (0, Z.lor pktcontinuity (Z.lor CONTINUITY_VALID CONTINUITY_DUPESEEN))
    else (-1, cstate).

(** ** Safety of the extraction *)

Lemma has_pow2 a k : 0 <= k -> has a (2 ^ k) = Z.testbit a k.
Proof.
  intros Hk. unfold has. destruct (Z.testbit a k) eqn:E.
  - apply negb_true_iff, Z.eqb_neq. intros H0. apply (f_equal (λ z, Z.testbit z k)) in H0.
    rewrite Z.land_spec, Z.pow2_bits_true, E, Z.bits_0 in H0 by done. done.
  - apply negb_false_iff, Z.eqb_eq, Z.bits_inj'. intros i Hi.
    rewrite Z.land_spec, Z.pow2_bits_eqb, Z.bits_0 by done.
    destruct (Z.eqb_spec k i) as [<-|]; [by rewrite E|apply andb_false_r].
Qed.

Lemma has_lor a b f : has (Z.lor a b) f = has a f || has b f.
Proof.
  unfold has. rewrite Z.land_lor_distr_l, <- negb_andb. f_equal.
  destruct (Z.eqb_spec (Z.land a f) 0) as [->|Ha]; [done|].
  apply Z.eqb_neq. intros H. by apply Z.lor_eq_0_iff in H as [? _].
Qed.

(** The values a call may report: the requested ones, and the seamless splice. *)
Definition reportable (extract v : Z) : Prop :=
  0 <= v /\ Z.ldiff v (Z.lor extract transport_value_seamless_splice) = 0.

Lemma reportable_lor extract v k :
  reportable extract v -> 0 <= k -> has extract (2 ^ k) = true ->
  reportable extract (Z.lor v (2 ^ k)).
Proof.
  intros [Hp Hv] Hk H. rewrite has_pow2 in H by done. split.
  { apply Z.lor_nonneg. split; [done|]. by apply Z.pow_nonneg. }
  apply Z.bits_inj'. intros i Hi. apply (f_equal (λ z, Z.testbit z i)) in Hv.
  rewrite Z.ldiff_spec, Z.lor_spec, Z.bits_0 in *.
  rewrite Z.lor_spec, Z.pow2_bits_eqb, andb_orb_distrib_l, Hv by done.
  destruct (Z.eqb_spec k i) as [<-|]; [|done]. by rewrite H.
Qed.

Lemma reportable_splice extract v :
  reportable extract v -> reportable extract (Z.lor v transport_value_seamless_splice).
Proof.
  intros [Hp Hv]. split; [apply Z.lor_nonneg; by split|].
  apply Z.bits_inj'. intros i Hi. apply (f_equal (λ z, Z.testbit z i)) in Hv.
  rewrite Z.ldiff_spec, !Z.lor_spec, Z.bits_0 in *. rewrite andb_orb_distrib_l, Hv.
  by destruct (Z.testbit transport_value_seamless_splice i); rewrite ?orb_true_r, ?andb_false_r.
Qed.

(** The private data lie in the adaptation field, which ends at [adapend]. *)
Definition private_data_inside (adapend extracted : Z) (out : transport_values) : Prop :=
  has extracted transport_value_private_data = true ->
  6 < tv_private_data out /\ 0 <= tv_private_data_length out /\
  tv_private_data out + tv_private_data_length out <= adapend.

Record x_ok (extract adapend : Z) (s : extraction) : Prop := {
  xo_pos : 6 <= x_pos s <= adapend;
  xo_values : reportable extract (x_extracted s);
  xo_private : private_data_inside adapend (x_extracted s) (x_out s);
}.

(** A stage keeps the state well formed, or ends the function. *)
Definition stage_ok (extract adapend : Z) (st : stage) : Prop :=
  forall s, x_ok extract adapend s ->
  okay (st s) (λ r, match r with inl s' => x_ok extract adapend s' | inr _ => True end).

Section Safety.
Context (pkt : list Z) (extract adapend : Z).
Hypothesis Hlen : zlen pkt = TRANSPORT_PACKET_LENGTH.
Hypothesis Hbytes : Forall byte pkt.
Hypothesis Hend : adapend <= 188.

Abbreviation x_ok := (x_ok extract adapend).
Abbreviation stage_ok := (stage_ok extract adapend).

Lemma okay_pkt p : 0 <= p < 188 -> okay (at_ pkt p) byte.
Proof. intros Hp. apply okay_at; [done|]. by rewrite Hlen. Qed.

Lemma record_ok k set s :
  0 <= k -> x_ok s -> has extract (2 ^ k) = true ->
  (private_data_inside adapend (Z.lor (x_extracted s) (2 ^ k)) (set (x_out s))) ->
  x_ok (record_value (2 ^ k) set s).
Proof. intros Hk [H1 H2 H3] Hx Hp. split; cbn; [done|by apply reportable_lor|done]. Qed.

(** A setter that leaves the private data alone. *)
Definition keeps_private (set : transport_values -> transport_values) : Prop :=
  forall o, tv_private_data (set o) = tv_private_data o /\
    tv_private_data_length (set o) = tv_private_data_length o.

Lemma private_kept set s v :
  x_ok s -> keeps_private set -> Z.land v transport_value_private_data = 0 ->
  private_data_inside adapend (Z.lor (x_extracted s) v) (set (x_out s)).
Proof.
  intros [_ _ H3] Hset Hv H. destruct (Hset (x_out s)) as [-> ->]. apply H3.
  rewrite has_lor in H. unfold has at 2 in H. rewrite Hv in H. by rewrite orb_false_r in H.
Qed.

Lemma field_ok flags flag size get :
  0 <= size ->
  (forall s, x_ok s -> x_pos s + size <= adapend -> okay (get s) (λ s', x_ok s' /\ x_pos s' = x_pos s)) ->
  stage_ok (field adapend flags flag size get).
Proof.
  clear Hlen Hbytes Hend. intros Hs Hget s Hok. unfold field. destruct (has flags flag); [|done].
  destruct (Z.ltb_spec adapend (x_pos s + size)); [done|].
  eapply okay_bind; [by apply Hget|]. intros s' [[H1 H2 H3] Hp]. cbn.
  split; cbn; [lia|done..].
Qed.

Lemma ld_pcr_ok p : 0 <= p -> p + 6 <= 188 -> okay (ld_pcr pkt p) (λ _, True).
Proof.
  intros Hp He. unfold ld_pcr.
  repeat (eapply okay_bind; [apply okay_pkt; lia|]; intros ? ?). done.
Qed.

Ltac finish_value k :=
  apply okay_ret; split; [|done];
  apply (record_ok k); [done..|by apply private_kept; [|intros [] |]].

Ltac get_values := repeat (eapply okay_bind; [apply okay_pkt; lia|]; intros ? ?).

Lemma values_ok s :
  x_ok s ->
  (x_pos s + 6 <= adapend -> okay (get_pcr pkt extract s) (λ s', x_ok s' /\ x_pos s' = x_pos s)) /\
  (x_pos s + 6 <= adapend -> okay (get_opcr pkt extract s) (λ s', x_ok s' /\ x_pos s' = x_pos s)) /\
  (x_pos s + 1 <= adapend ->
    okay (get_splice_countdown pkt extract s) (λ s', x_ok s' /\ x_pos s' = x_pos s)) /\
  (x_pos s + 2 <= adapend -> okay (get_ltw pkt extract s) (λ s', x_ok s' /\ x_pos s' = x_pos s)) /\
  (x_pos s + 3 <= adapend ->
    okay (get_piecewise_rate pkt extract s) (λ s', x_ok s' /\ x_pos s' = x_pos s)) /\
  (x_pos s + 5 <= adapend ->
    okay (get_seamless_splice pkt extract s) (λ s', x_ok s' /\ x_pos s' = x_pos s)).
Proof.
  intros Hok. pose proof (xo_pos _ _ _ Hok) as Hp. split_and!; intros Hl.
  - unfold get_pcr. destruct (has extract _) eqn:E; [|done].
    eapply okay_bind; [apply ld_pcr_ok; lia|]. intros v _. finish_value 0.
  - unfold get_opcr. destruct (has extract _) eqn:E; [|done].
    eapply okay_bind; [apply ld_pcr_ok; lia|]. intros v _. finish_value 1.
  - unfold get_splice_countdown. destruct (has extract _) eqn:E; [|done].
    get_values. finish_value 2.
  - unfold get_ltw. destruct (has extract _) eqn:E; [|done]. get_values.
    destruct (has a 128); [|done]. get_values. finish_value 8.
  - unfold get_piecewise_rate. destruct (has extract _) eqn:E; [|done]. get_values.
    finish_value 9.
  - unfold get_seamless_splice. destruct (has extract _) eqn:E; [|done]. get_values.
    apply okay_ret. split; [|done]. destruct Hok as [Hpos Hval Hpriv] eqn:Eok.
    split; cbn; [done|by apply reportable_splice|].
    apply (private_kept (set_seamless_splice _ _)); [done| |done]. by intros [].
Qed.

Lemma private_data_stage_ok adapflags : stage_ok (private_data_stage pkt extract adapend adapflags).
Proof.
  intros s Hok. pose proof (xo_pos _ _ _ Hok) as Hp. unfold private_data_stage.
  destruct (has adapflags _); [|done].
  destruct (Z.ltb_spec adapend (x_pos s + 1)); [done|].
  eapply okay_bind; [apply okay_pkt; lia|]. intros len Hb. cbv beta in Hb.
  unfold byte in Hb. destruct (Z.ltb_spec adapend (x_pos s + 1 + len)); [done|].
  apply okay_ret. destruct Hok as [Hpos Hval Hpriv]. destruct (has extract _) eqn:E.
  - split; cbn; [lia|by apply (reportable_lor extract _ 3)|]. intros _.
    destruct (x_out s). cbn. lia.
  - split; cbn; [lia|done..].
Qed.

Lemma after_ok st k s (Q : Z * transport_values -> Prop) :
  stage_ok st -> x_ok s -> (forall s, x_ok s -> okay (k s) Q) ->
  (forall out, Q (-1, out)) -> okay (after (st s) k) Q.
Proof.
  intros Hst Hs Hk Hn. eapply okay_bind; [by apply Hst|]. intros [s'|out] H; [by apply Hk|].
  by apply okay_ret.
Qed.

Lemma extract_extension_ok adapflags exit s (Q : Z * transport_values -> Prop) :
  x_ok s -> (forall s, x_ok s -> okay (exit s) Q) -> (forall out, Q (-1, out)) ->
  okay (extract_extension pkt extract adapend adapflags exit s) Q.
Proof.
  intros Hok Hexit Hn. pose proof (xo_pos _ _ _ Hok) as Hp. unfold extract_extension.
  destruct (negb (has adapflags _)); [by apply Hexit|].
  destruct (Z.leb_spec adapend (x_pos s)); [by apply okay_ret|].
  eapply okay_bind; [apply okay_pkt; lia|]. intros len Hb. cbv beta in Hb.
  unfold byte in Hb. cbn [skip x_pos].
  destruct (Z.ltb_spec adapend (x_pos s + 1 + len)); [by apply okay_ret|].
  assert (Hok1 : x_ok (skip 1 s)) by (destruct Hok; split; cbn; [lia|done..]).
  destruct (negb (has extract _) || (len =? 0)) eqn:E0; [by apply Hexit|]. bool_facts.
  eapply okay_bind; [apply okay_pkt; cbn; lia|]. intros flags _.
  assert (Hok2 : x_ok (skip 1 (skip 1 s))) by (destruct Hok; split; cbn; [lia|done..]).
  repeat (apply after_ok; [apply field_ok; [done|]; intros; by apply values_ok|done| |done]; intros).
  by apply Hexit.
Qed.
End Safety.

(** On any packet of 188 bytes and for any request, [transport_packet_values_extract] reads
    only inside the packet and either reports an error or reports only requested values (or the
    seamless splice); the payload it returns, if the packet has one, ends exactly at the end of
    the packet, and the private data lie inside the packet. *)
Theorem values_extract_safe pkt extract out :
  zlen pkt = TRANSPORT_PACKET_LENGTH -> Forall byte pkt ->
  exists h r out', tp_header pkt = Ok h /\
    transport_packet_values_extract pkt extract out = Ok (r, out') /\
    (r = -1 \/
     reportable extract r /\ private_data_inside TRANSPORT_PACKET_LENGTH r out' /\
     match tv_payload out' with
     | Some off => has (tp_adaptation_field_control h) 1 = true /\ 4 <= off /\
         0 <= tv_payload_length out' /\ off + tv_payload_length out' = TRANSPORT_PACKET_LENGTH
     | None => has (tp_adaptation_field_control h) 1 = false /\ tv_payload_length out' = 0
     end).
Proof.
  intros Hlen Hb.
  assert (Hh : okay (tp_header pkt) (λ _, True)).
  { unfold tp_header. repeat (eapply okay_bind; [apply okay_pkt; [done..|lia]|]; intros ? ?).
    by apply okay_ret. }
  apply okay_inv in Hh as (h & Hh & _). exists h.
  set (Q := λ '(r, out'), r = -1 \/
     reportable extract r /\ private_data_inside TRANSPORT_PACKET_LENGTH r out' /\
     match tv_payload out' with
     | Some off => has (tp_adaptation_field_control h) 1 = true /\ 4 <= off /\
         0 <= tv_payload_length out' /\ off + tv_payload_length out' = TRANSPORT_PACKET_LENGTH
     | None => has (tp_adaptation_field_control h) 1 = false /\ tv_payload_length out' = 0
     end).
  assert (Hpay : forall alen fl s, 0 <= alen <= 183 -> reportable extract (x_extracted s) ->
    private_data_inside TRANSPORT_PACKET_LENGTH (x_extracted s) (x_out s) ->
    okay (extract_payload (tp_adaptation_field_control h) alen fl s) Q).
  { intros alen fl s Hal Hr Hp. unfold extract_payload. set (afc := tp_adaptation_field_control h) in *.
    destruct (has afc 1) eqn:E1; apply okay_ret; right; (split; [done|]).
    - destruct (x_out s). cbn. split; [exact Hp|].
      split; [done|]. unfold TRANSPORT_PACKET_LENGTH.
      destruct (has afc 2); rewrite u16_id by lia; lia.
    - by destruct (x_out s). }
  assert (H0 : reportable extract 0) by done.
  assert (Hmain : okay (transport_packet_values_extract pkt extract out) Q).
  { unfold transport_packet_values_extract. rewrite Hh. cbn [mbind res_bind].
    destruct (negb (has _ 2)); [by apply Hpay|]. cbn [x_pos].
    eapply okay_bind; [by apply okay_pkt|]. intros alen Ha. cbv beta in Ha. unfold byte in Ha.
    destruct (Z.eqb_spec alen 0); [apply Hpay; [lia|done..]|]. cbn [skip x_pos x_out x_extracted].
    change (4 + 1) with 5.
    destruct (Z.ltb_spec TRANSPORT_PACKET_LENGTH (5 + alen)) as [|He]; [by left|].
    unfold TRANSPORT_PACKET_LENGTH in He.
    eapply okay_bind; [by apply okay_pkt|]. intros fl _.
    assert (Hexit : forall s, x_ok extract (5 + alen) s ->
      okay (extract_payload (tp_adaptation_field_control h) alen fl s) Q).
    { intros s [Hpos Hval Hpriv]. apply Hpay; [lia|done|]. intros Hx. specialize (Hpriv Hx).
      unfold TRANSPORT_PACKET_LENGTH. lia. }
    assert (Hok : x_ok extract (5 + alen) (Extraction (5 + 1) out 0)) by (split; cbn; [lia|done..]).
    destruct (negb (has extract _)); [by apply Hexit|].
    do 3 (apply (after_ok extract (5 + alen));
      [apply (field_ok extract (5 + alen)); [done|]; intros; by apply (values_ok pkt extract (5 + alen))|done| |by left];
      intros).
    apply (after_ok extract (5 + alen)); [by apply private_data_stage_ok|done| |by left].
    intros. apply (extract_extension_ok pkt extract (5 + alen)); auto. by left. }
  apply okay_inv in Hmain as ([r out'] & Hm & HQ). by exists r, out'.
Qed.

(** ** Round trip

    A packet as a multiplexer writes it, from the values of its adaptation field. *)

(** [e_ltw]: [Some None] is a window offset that is not valid. *)
Record extension_values := ExtensionValues {
  e_ltw : option (option Z);
  e_piecewise_rate : option Z;
  e_reserved : list Z;
}.

(** [a_flags]: discontinuity, random access and priority, in the high three bits. *)
Record adaptation_values := AdaptationValues {
  a_flags : Z;
  a_pcr : option Z;
  a_opcr : option Z;
  a_splice_countdown : option Z;
  a_private_data : option (list Z);
  a_extension : option extension_values;
  a_stuffing : list Z;
}.

Definition opt_bytes {A} (f : A -> list Z) (o : option A) : list Z :=
  match o with Some v => f v | None => [] end.

Definition flag_if {A} (o : option A) (f : Z) : Z := match o with Some _ => f | None => 0 end.

(** 33 bits of base, 6 reserved bits, 9 bits of extension. *)
Definition pcr_bytes (v : Z) : list Z :=
  let base := v / 300 in
  let ext := v mod 300 in
  [base / 2 ^ 25; (base / 2 ^ 17) mod 256; (base / 2 ^ 9) mod 256; (base / 2) mod 256;
   base mod 2 * 128 + 126 + ext / 256; ext mod 256].

Definition ltw_bytes (o : option Z) : list Z :=
  match o with Some v => [128 + v / 256; v mod 256] | None => [0; 0] end.

Definition rate_bytes (v : Z) : list Z := [192 + v / 65536; (v / 256) mod 256; v mod 256].

Definition extension_bytes (e : extension_values) : list Z :=
  let body :=
    flag_if (e_ltw e) 128 + flag_if (e_piecewise_rate e) 64 + 0x1f ::
    opt_bytes ltw_bytes (e_ltw e) ++ opt_bytes rate_bytes (e_piecewise_rate e) ++ e_reserved e in
  zlen body :: body.

Definition private_bytes (d : list Z) : list Z := zlen d :: d.

Definition adaptation_flags (a : adaptation_values) : Z :=
  a_flags a * 32 + flag_if (a_pcr a) 16 + flag_if (a_opcr a) 8 + flag_if (a_splice_countdown a) 4 +
  flag_if (a_private_data a) 2 + flag_if (a_extension a) 1.

Definition adaptation_bytes (a : adaptation_values) : list Z :=
  let body :=
    adaptation_flags a ::
    opt_bytes pcr_bytes (a_pcr a) ++ opt_bytes pcr_bytes (a_opcr a) ++
    opt_bytes (λ v, [v]) (a_splice_countdown a) ++ opt_bytes private_bytes (a_private_data a) ++
    opt_bytes extension_bytes (a_extension a) ++ a_stuffing a in
  zlen body :: body.

Definition in_range (n : Z) (o : option Z) : Prop := forall v, o = Some v -> 0 <= v < n.

Record adaptation_ok (a : adaptation_values) : Prop := {
  ao_flags : 0 <= a_flags a < 8;
  ao_pcr : in_range (2 ^ 33 * 300) (a_pcr a);
  ao_opcr : in_range (2 ^ 33 * 300) (a_opcr a);
  ao_ltw : forall e v, a_extension a = Some e -> e_ltw e = Some (Some v) -> 0 <= v < 2 ^ 15;
  ao_rate : forall e, a_extension a = Some e -> in_range (2 ^ 22) (e_piecewise_rate e);
}.

(** A packet with the header bytes [b0] to [b2], scrambling bits and counter in [b3], an adaptation
    field and a payload. *)
Definition packet_bytes (b0 b1 b2 b3 : Z) (a : adaptation_values) (payload : list Z) : list Z :=
  [b0; b1; b2; b3] ++ adaptation_bytes a ++ payload.

(** What the extraction should give: each value that is present and requested. *)
Definition expect {A} (extract value : Z) (o : option A)
    (set : A -> transport_values -> transport_values) (r : Z * transport_values) :
    Z * transport_values :=
  match o with
  | Some v => if has extract value then (Z.lor r.1 value, set v r.2) else r
  | None => r
  end.

(** The offset of the private data in the packet. *)
Definition private_offset (a : adaptation_values) : Z :=
  6 + zlen (opt_bytes pcr_bytes (a_pcr a)) + zlen (opt_bytes pcr_bytes (a_opcr a)) +
  zlen (opt_bytes (λ v : Z, [v]) (a_splice_countdown a)) + 1.

Definition expected (extract : Z) (a : adaptation_values) (payload : option Z) (len : Z)
    (out : transport_values) : Z * transport_values :=
  let r := (0, out) in
  let r := expect extract transport_value_pcr (a_pcr a) set_pcr r in
  let r := expect extract transport_value_opcr (a_opcr a) set_opcr r in
  let r := expect extract transport_value_splice_countdown (a_splice_countdown a)
             set_splice_countdown r in
  let r := expect extract transport_value_private_data (a_private_data a)
             (λ d, set_private_data (zlen d) (private_offset a)) r in
  let r := match a_extension a with
           | Some e =>
               let r := match e_ltw e with
                        | Some o => expect extract transport_value_ltw o set_ltw r
                        | None => r
                        end in
               expect extract transport_value_piecewise_rate (e_piecewise_rate e)
                 set_piecewise_rate r
           | None => r
           end in
  (r.1, set_payload payload len (adaptation_flags a) r.2).

Example expected_ex :
  let a := AdaptationValues 4 (Some 123456789012) None (Some 7) (Some [1; 2; 3])
    (Some (ExtensionValues (Some (Some 1000)) (Some 4000000) [9])) [255; 255] in
  let pkt := packet_bytes 0x47 0 100 0x30 a (replicate 161 0) in
  let out := TransportValues 0 None 0 0 0 0 0 0 0 0 0 0 in
  zlen pkt = 188 /\
  transport_packet_values_extract pkt 0x30f out = Ok (expected 0x30f a (Some 27) 161 out).
Proof. vm_compute. done. Qed.

Definition mk (pos : Z) (r : Z * transport_values) : extraction := Extraction pos r.2 r.1.

Definition is_some {A} (o : option A) : bool := match o with Some _ => true | None => false end.

Lemma adaptation_flags_has a :
  0 <= a_flags a < 8 ->
  has (adaptation_flags a) 16 = is_some (a_pcr a) /\
  has (adaptation_flags a) 8 = is_some (a_opcr a) /\
  has (adaptation_flags a) 4 = is_some (a_splice_countdown a) /\
  has (adaptation_flags a) 2 = is_some (a_private_data a) /\
  has (adaptation_flags a) 1 = is_some (a_extension a).
Proof.
  unfold adaptation_flags. intros Hf.
  assert (a_flags a = 0 \/ a_flags a = 1 \/ a_flags a = 2 \/ a_flags a = 3 \/ a_flags a = 4 \/
    a_flags a = 5 \/ a_flags a = 6 \/ a_flags a = 7) as H by lia.
  destruct a as [fl p o s d e st]. cbn in *. clear Hf.
  destruct p, o, s, d, e; cbn; destruct_or?; subst; by vm_compute.
Qed.

(** [lia] with division and remainder by constants. *)
Local Ltac dlia :=
  change (2 ^ 25) with 33554432 in *; change (2 ^ 17) with 131072 in *;
  change (2 ^ 16) with 65536 in *; change (2 ^ 9) with 512 in *; change (2 ^ 8) with 256 in *;
  change (2 ^ 7) with 128 in *; change (2 ^ 6) with 64 in *; change (2 ^ 1) with 2 in *;
  Z.to_euclidean_division_equations; lia.

Lemma lor_mult a b k : 0 <= k -> 0 <= b < 2 ^ k -> Z.lor (a * 2 ^ k) b = a * 2 ^ k + b.
Proof.
  intros Hk Hb. rewrite Z.lor_comm, <- Z.shiftl_mul_pow2 by done. rewrite lor_add by done.
  rewrite Z.shiftl_mul_pow2 by done. lia.
Qed.

(** The bytes of a clock reference give it back. *)
Lemma pcr_value v :
  0 <= v < 2 ^ 33 * 300 ->
  let base := v / 300 in
  let ext := v mod 300 in
  let b0 := base / 2 ^ 25 in
  let b1 := (base / 2 ^ 17) mod 256 in
  let b2 := (base / 2 ^ 9) mod 256 in
  let b3 := (base / 2) mod 256 in
  let b4 := base mod 2 * 128 + 126 + ext / 256 in
  u64 (Z.lor (Z.lor (Z.lor (Z.lor (Z.shiftl b0 25) (Z.shiftl b1 17)) (Z.shiftl b2 9))
         (Z.shiftl b3 1)) (Z.shiftr b4 7) * 300 + Z.lor (Z.shiftl (Z.land b4 1) 8) (ext mod 256)) = v.
Proof.
  intros Hv base ext b0 b1 b2 b3 b4.
  change (2 ^ 33) with 8589934592 in Hv.
  assert (0 <= base < 8589934592 /\ 0 <= ext < 300 /\ v = base * 300 + ext) as (Hb & He & Ev)
    by (subst base ext; dlia).
  clearbody base ext. change (2 ^ 25) with 33554432 in b0. change (2 ^ 17) with 131072 in b1.
  change (2 ^ 9) with 512 in b2.
  assert (H4 : Z.shiftr b4 7 = base mod 2 /\ Z.land b4 1 = ext / 256).
  { rewrite Z.shiftr_div_pow2 by done. change (Z.land b4 1) with (Z.land b4 (Z.ones 1)).
    rewrite land_mask by done. unfold b4. dlia. }
  destruct H4 as [-> ->]. rewrite !Z.shiftl_mul_pow2 by done.
  rewrite (lor_mult b0 _ 25) by (unfold b1; dlia).
  replace (b0 * 2 ^ 25 + b1 * 2 ^ 17) with ((b0 * 2 ^ 8 + b1) * 2 ^ 17) by dlia.
  rewrite (lor_mult _ _ 17) by (unfold b2; dlia).
  replace ((b0 * 2 ^ 8 + b1) * 2 ^ 17 + b2 * 2 ^ 9)
    with (((b0 * 2 ^ 8 + b1) * 2 ^ 8 + b2) * 2 ^ 9) by dlia.
  rewrite (lor_mult _ _ 9) by (unfold b3; dlia).
  replace (((b0 * 2 ^ 8 + b1) * 2 ^ 8 + b2) * 2 ^ 9 + b3 * 2 ^ 1)
    with ((((b0 * 2 ^ 8 + b1) * 2 ^ 8 + b2) * 2 ^ 8 + b3) * 2 ^ 1) by dlia.
  rewrite (lor_mult _ _ 1) by dlia. rewrite (lor_mult _ _ 8) by dlia.
  subst b0 b1 b2 b3. rewrite u64_id; dlia.
Qed.

Lemma rate_value v :
  0 <= v < 2 ^ 22 ->
  Z.lor (Z.lor (Z.shiftl (Z.land (192 + v / 65536) 0x3f) 16) (Z.shiftl ((v / 256) mod 256) 8))
    (v mod 256) = v.
Proof.
  intros Hv. change (2 ^ 22) with 4194304 in Hv. change 0x3f with (Z.ones 6).
  rewrite land_mask by done. rewrite !Z.shiftl_mul_pow2 by done.
  rewrite (lor_mult _ _ 16) by dlia.
  replace ((192 + v / 65536) mod 2 ^ 6 * 2 ^ 16 + v / 256 mod 256 * 2 ^ 8)
    with (((192 + v / 65536) mod 2 ^ 6 * 2 ^ 8 + v / 256 mod 256) * 2 ^ 8) by dlia.
  rewrite (lor_mult _ _ 8) by dlia. dlia.
Qed.

Lemma ltw_value v :
  0 <= v < 2 ^ 15 ->
  has (128 + v / 256) 0x80 = true /\
  Z.lor (Z.shiftl (Z.land (128 + v / 256) 0x7f) 8) (v mod 256) = v.
Proof.
  intros Hv. change (2 ^ 15) with 32768 in Hv. split.
  - change 0x80 with (2 ^ 7). rewrite has_pow2 by done.
    rewrite Z.testbit_true by done. change (2 ^ 7) with 128. dlia.
  - change 0x7f with (Z.ones 7). rewrite land_mask by done. rewrite Z.shiftl_mul_pow2 by done.
    rewrite (lor_mult _ _ 8) by dlia. dlia.
Qed.

Lemma ld_pcr_run pre post v :
  0 <= v < 2 ^ 33 * 300 -> ld_pcr (pre ++ pcr_bytes v ++ post) (zlen pre) = Ok v.
Proof.
  intros Hv. unfold ld_pcr.
  erewrite (at_mid pre _ post (zlen pre) 0) by (reflexivity || lia). cbn [mbind res_bind].
  erewrite (at_mid pre _ post (zlen pre + 1) 1) by (reflexivity || lia). cbn [mbind res_bind].
  erewrite (at_mid pre _ post (zlen pre + 2) 2) by (reflexivity || lia). cbn [mbind res_bind].
  erewrite (at_mid pre _ post (zlen pre + 3) 3) by (reflexivity || lia). cbn [mbind res_bind].
  erewrite (at_mid pre _ post (zlen pre + 4) 4) by (reflexivity || lia). cbn [mbind res_bind].
  erewrite (at_mid pre _ post (zlen pre + 5) 5) by (reflexivity || lia). cbn [mbind res_bind].
  unfold mret, res_ret. f_equal. by apply pcr_value.
Qed.

(** A [field] on the bytes of an optional value. *)
Lemma field_run {A} (enc : A -> list Z) adapend flags flag size get (o : option A)
    (upd : A -> Z * transport_values) pre r :
  has flags flag = is_some o -> (forall v, o = Some v -> zlen (enc v) = size) ->
  zlen (pre ++ opt_bytes enc o) <= adapend ->
  (forall v, o = Some v -> get (mk (zlen pre) r) = Ok (mk (zlen pre) (upd v))) ->
  field adapend flags flag size get (mk (zlen pre) r) =
  Ok (inl (mk (zlen (pre ++ opt_bytes enc o)) (match o with Some v => upd v | None => r end))).
Proof.
  intros Hf Hs He Hg. unfold field. rewrite Hf. destruct o as [v|]; cbn [is_some opt_bytes] in *.
  - rewrite length_app in *. specialize (Hs v eq_refl). cbn [mk x_pos].
    rewrite (proj2 (Z.ltb_ge _ _)) by lia. fold (mk (zlen pre) r). rewrite (Hg v eq_refl).
    cbn [mbind res_bind]. unfold mret, res_ret, skip, mk. cbn. do 2 f_equal. f_equal. lia.
  - by rewrite app_nil_r.
Qed.

Section RoundTrip.
Context (pkt : list Z) (extract adapend : Z).

Lemma pcr_run flags o pre post r :
  pkt = pre ++ opt_bytes pcr_bytes o ++ post -> in_range (2 ^ 33 * 300) o ->
  has flags 16 = is_some o -> zlen (pre ++ opt_bytes pcr_bytes o) <= adapend ->
  field adapend flags transport_adaptation_flag_pcr 6 (get_pcr pkt extract) (mk (zlen pre) r) =
  Ok (inl (mk (zlen (pre ++ opt_bytes pcr_bytes o)) (expect extract transport_value_pcr o set_pcr r))).
Proof.
  intros Ep Hr Hf He.
  rewrite (field_run pcr_bytes _ _ _ _ _ o (λ v, expect extract 1 (Some v) set_pcr r));
    [by destruct o|done|done|done|].
  intros v ->. unfold get_pcr, expect, transport_value_pcr.
  destruct (has extract 1); [|done]. cbn [opt_bytes mk x_pos] in *.
  rewrite Ep, ld_pcr_run by by apply Hr. done.
Qed.

Lemma opcr_run flags o pre post r :
  pkt = pre ++ opt_bytes pcr_bytes o ++ post -> in_range (2 ^ 33 * 300) o ->
  has flags 8 = is_some o -> zlen (pre ++ opt_bytes pcr_bytes o) <= adapend ->
  field adapend flags transport_adaptation_flag_opcr 6 (get_opcr pkt extract) (mk (zlen pre) r) =
  Ok (inl (mk (zlen (pre ++ opt_bytes pcr_bytes o))
    (expect extract transport_value_opcr o set_opcr r))).
Proof.
  intros Ep Hr Hf He.
  rewrite (field_run pcr_bytes _ _ _ _ _ o (λ v, expect extract 2 (Some v) set_opcr r));
    [by destruct o|done|done|done|].
  intros v ->. unfold get_opcr, expect, transport_value_opcr.
  destruct (has extract 2); [|done]. cbn [opt_bytes mk x_pos] in *.
  rewrite Ep, ld_pcr_run by by apply Hr. done.
Qed.

Lemma splice_run flags (o : option Z) pre post r :
  pkt = pre ++ opt_bytes (λ v, [v]) o ++ post ->
  has flags 4 = is_some o -> zlen (pre ++ opt_bytes (λ v, [v]) o) <= adapend ->
  field adapend flags transport_adaptation_flag_splicing_point 1 (get_splice_countdown pkt extract) (mk (zlen pre) r) =
  Ok (inl (mk (zlen (pre ++ opt_bytes (λ v, [v]) o))
    (expect extract transport_value_splice_countdown o set_splice_countdown r))).
Proof.
  intros Ep Hf He.
  rewrite (field_run (λ v, [v]) _ _ _ _ _ o
    (λ v, expect extract 4 (Some v) set_splice_countdown r)); [by destruct o|done|by intros|done|].
  intros v ->. unfold get_splice_countdown, expect, transport_value_splice_countdown.
  destruct (has extract 4); [|done]. cbn [opt_bytes mk x_pos] in *.
  by rewrite Ep, (at_mid pre [v] post (zlen pre) 0 v) by (done || lia).
Qed.

Lemma private_run flags o pre post r :
  pkt = pre ++ opt_bytes private_bytes o ++ post ->
  has flags 2 = is_some o -> zlen (pre ++ opt_bytes private_bytes o) <= adapend ->
  private_data_stage pkt extract adapend flags (mk (zlen pre) r) =
  Ok (inl (mk (zlen (pre ++ opt_bytes private_bytes o))
    (expect extract transport_value_private_data o
      (λ d, set_private_data (zlen d) (zlen pre + 1)) r))).
Proof.
  intros Ep Hf He. unfold private_data_stage, transport_adaptation_flag_private_data. rewrite Hf.
  destruct o as [d|]; cbn [is_some opt_bytes private_bytes expect mk x_pos] in *.
  2: by rewrite app_nil_r.
  assert (Hl : zlen (private_bytes d) = 1 + zlen d) by (cbn; lia). rewrite length_app in He |- *.
  rewrite (proj2 (Z.ltb_ge _ _)) by lia.
  rewrite Ep. erewrite (at_mid pre _ post (zlen pre) 0) by (reflexivity || lia).
  cbn [mbind res_bind]. rewrite (proj2 (Z.ltb_ge _ _)) by lia.
  destruct (has extract _); unfold mret, res_ret, mk, skip; cbn; do 2 f_equal; f_equal; lia.
Qed.

Lemma ltw_run flags o pre post r :
  pkt = pre ++ opt_bytes ltw_bytes o ++ post -> (forall v, o = Some (Some v) -> 0 <= v < 2 ^ 15) ->
  has flags 0x80 = is_some o -> zlen (pre ++ opt_bytes ltw_bytes o) <= adapend ->
  field adapend flags transport_adaptation_extension_flag_ltw 2 (get_ltw pkt extract) (mk (zlen pre) r) =
  Ok (inl (mk (zlen (pre ++ opt_bytes ltw_bytes o))
    (match o with Some o => expect extract transport_value_ltw o set_ltw r | None => r end))).
Proof.
  intros Ep Hr Hf He.
  apply (field_run ltw_bytes _ _ _ _ _ o (λ o, expect extract 256 o set_ltw r));
    [done|by intros [v|]|done|].
  intros v ->. unfold get_ltw, transport_value_ltw. cbn [mk x_pos].
  destruct (has extract 256) eqn:E; [|by destruct v; cbn [expect]; rewrite ?E].
  cbn [opt_bytes] in *. rewrite Ep. destruct v as [v|]; cbn [ltw_bytes].
  - destruct (ltw_value v) as [H1 H2]; [by apply Hr|].
    erewrite (at_mid pre _ post (zlen pre) 0) by (reflexivity || lia). cbn [mbind res_bind]. rewrite H1.
    rewrite (at_mid pre [128 + v / 256; v mod 256] post (zlen pre + 1) 1 (v mod 256))
      by (done || lia).
    cbn [mbind res_bind expect]. by rewrite E, H2.
  - by rewrite (at_mid pre [0; 0] post (zlen pre) 0 0) by (done || lia).
Qed.

Lemma rate_run flags o pre post r :
  pkt = pre ++ opt_bytes rate_bytes o ++ post -> in_range (2 ^ 22) o ->
  has flags 0x40 = is_some o -> zlen (pre ++ opt_bytes rate_bytes o) <= adapend ->
  field adapend flags transport_adaptation_extension_flag_piecewise_rate 3 (get_piecewise_rate pkt extract) (mk (zlen pre) r) =
  Ok (inl (mk (zlen (pre ++ opt_bytes rate_bytes o))
    (expect extract transport_value_piecewise_rate o set_piecewise_rate r))).
Proof.
  intros Ep Hr Hf He.
  rewrite (field_run rate_bytes _ _ _ _ _ o (λ v, expect extract 512 (Some v) set_piecewise_rate r));
    [by destruct o|done|by intros|done|].
  intros v ->. unfold get_piecewise_rate, expect, transport_value_piecewise_rate.
  destruct (has extract 512); [|done]. cbn [opt_bytes mk x_pos] in *. rewrite Ep.
  rewrite (at_mid pre (rate_bytes v) post (zlen pre) 0 (192 + v / 65536)) by (done || lia).
  rewrite (at_mid pre (rate_bytes v) post (zlen pre + 1) 1 ((v / 256) mod 256)) by (done || lia).
  rewrite (at_mid pre (rate_bytes v) post (zlen pre + 2) 2 (v mod 256)) by (done || lia).
  cbn [mbind res_bind]. by rewrite rate_value by by apply Hr.
Qed.
End RoundTrip.

Lemma extension_flags_has e :
  let f := flag_if (e_ltw e) 128 + flag_if (e_piecewise_rate e) 64 + 0x1f in
  has f 0x80 = is_some (e_ltw e) /\ has f 0x40 = is_some (e_piecewise_rate e).
Proof. by destruct e as [[|] [|] ?]. Qed.

(** A request for a value is a request for one of its group. *)
Lemma has_group extract m v : Z.land m v = v -> has extract m = false -> has extract v = false.
Proof.
  intros Hv. unfold has. rewrite !negb_false_iff, !Z.eqb_eq. intros H.
  by rewrite <- Hv, Z.land_assoc, H.
Qed.

Lemma expect_none {A} extract v (o : option A) set r :
  has extract v = false -> expect extract v o set r = r.
Proof. intros H. destruct o; [|done]. cbn. by rewrite H. Qed.

Definition expect_extension (extract : Z) (e : option extension_values) (r : Z * transport_values) :
    Z * transport_values :=
  match e with
  | Some e =>
      let r := match e_ltw e with
               | Some o => expect extract transport_value_ltw o set_ltw r
               | None => r
               end in
      expect extract transport_value_piecewise_rate (e_piecewise_rate e) set_piecewise_rate r
  | None => r
  end.

Lemma extension_run pkt extract adapend flags (exit : extraction -> res (Z * transport_values))
    (o : option extension_values) pre post r :
  (forall p p' r, exit (mk p r) = exit (mk p' r)) ->
  pkt = pre ++ opt_bytes extension_bytes o ++ post ->
  (forall e v, o = Some e -> e_ltw e = Some (Some v) -> 0 <= v < 2 ^ 15) ->
  (forall e, o = Some e -> in_range (2 ^ 22) (e_piecewise_rate e)) ->
  has flags 1 = is_some o -> zlen (pre ++ opt_bytes extension_bytes o) <= adapend ->
  extract_extension pkt extract adapend flags exit (mk (zlen pre) r) =
  exit (mk 0 (expect_extension extract o r)).
Proof.
  intros Hexit Ep Hltw Hrate Hf He. unfold extract_extension, transport_adaptation_flag_extension.
  rewrite Hf. destruct o as [e|]; cbn [is_some negb opt_bytes expect_extension] in *; [|apply Hexit].
  unfold extension_bytes in *. set (fl := flag_if (e_ltw e) 128 + _ + 0x1f) in *.
  set (l := opt_bytes ltw_bytes (e_ltw e)) in *.
  set (w := opt_bytes rate_bytes (e_piecewise_rate e)) in *. cbv zeta in *.
  set (body := fl :: l ++ w ++ e_reserved e) in *.
  assert (Hbl : zlen body = 1 + zlen (l ++ w ++ e_reserved e)) by (unfold body; cbn [length]; lia).
  rewrite length_app in He. cbn [length] in He. cbn [mk x_pos].
  rewrite (proj2 (Z.leb_gt _ _)) by lia.
  rewrite Ep. erewrite (at_mid pre _ post (zlen pre) 0) by (reflexivity || lia).
  cbn [mbind res_bind skip mk x_pos x_out x_extracted]. rewrite (proj2 (Z.ltb_ge _ _)) by lia.
  rewrite (proj2 (Z.eqb_neq _ _)), orb_false_r by lia.
  destruct (has extract 0xff00) eqn:Eg; cbn [negb].
  2: { rewrite !expect_none by by apply (has_group extract 0xff00).
       change (Extraction _ _ _) with (mk (zlen pre + 1) r).
       destruct (e_ltw e); [rewrite expect_none by by apply (has_group extract 0xff00)|];
       apply Hexit. }
  erewrite (at_mid pre _ post (zlen pre + 1) 1) by (reflexivity || lia). cbn [mbind res_bind].
  destruct (extension_flags_has e) as [H80 H40]. fold fl in H80, H40.
  set (pre1 := pre ++ [zlen body; fl]).
  change (skip 1 _) with (mk (zlen pre + 1 + 1) r).
  replace (zlen pre + 1 + 1) with (zlen pre1) by (unfold pre1; rewrite length_app; cbn; lia).
  assert (Ep1 : pre ++ (zlen body :: body) ++ post = pre1 ++ l ++ w ++ e_reserved e ++ post).
  { unfold pre1, body. rewrite <- !app_assoc. cbn [app]. by rewrite <- !app_assoc. }
  rewrite Ep1. rewrite !length_app in Hbl.
  assert (Hl1 : zlen pre1 = zlen pre + 2) by (unfold pre1; rewrite length_app; cbn; lia).
  unfold after. erewrite ltw_run; [|reflexivity|intros v; by apply Hltw|done|].
  2: { rewrite length_app. fold l. lia. }
  cbn [mbind res_bind]. fold l.
  erewrite (rate_run _ _ _ _ _ (pre1 ++ l)); [|by rewrite <- app_assoc|by apply Hrate|done|].
  2: { rewrite !length_app. fold w. lia. }
  cbn [mbind res_bind]. unfold field at 1.
  assert (has fl transport_adaptation_extension_flag_seamless_splice = false) as ->.
  { unfold fl. by destruct e as [[|] [|] ?]. }
  cbn [mret res_ret mbind res_bind]. apply Hexit.
Qed.

(** A packet built from the values of an adaptation field gives them back:
    [transport_packet_values_extract] stores each value that is present and requested, reports
    exactly those, and finds the payload. *)
Theorem values_extract_roundtrip b0 b1 b2 b3 a payload extract out :
  adaptation_ok a -> zlen (packet_bytes b0 b1 b2 b3 a payload) = TRANSPORT_PACKET_LENGTH ->
  let afc := Z.land (Z.shiftr b3 4) 3 in
  has afc 2 = true ->
  transport_packet_values_extract (packet_bytes b0 b1 b2 b3 a payload) extract out =
  Ok (if has afc 1 then
        expected extract a (Some (TRANSPORT_PACKET_LENGTH - zlen payload)) (zlen payload) out
      else expected extract a None 0 out).
Proof.
  intros [Hfl Hpcr Hopcr Hltw Hrate] Hlen afc Hafc. set (pkt := packet_bytes b0 b1 b2 b3 a payload) in *.
  unfold transport_packet_values_extract.
  change (tp_header pkt) with (Ok (TransportPacket b0 (Z.shiftr b1 7) (Z.land (Z.shiftr b1 6) 1)
    (Z.land (Z.shiftr b1 5) 1) (Z.land b1 0x1f) b2 (Z.shiftr b3 6) afc (Z.land b3 0xf))).
  cbn [mbind res_bind tp_adaptation_field_control]. rewrite Hafc. cbn [negb x_pos].
  set (p := opt_bytes pcr_bytes (a_pcr a)). set (o := opt_bytes pcr_bytes (a_opcr a)).
  set (s := opt_bytes (λ v : Z, [v]) (a_splice_countdown a)).
  set (d := opt_bytes private_bytes (a_private_data a)).
  set (e := opt_bytes extension_bytes (a_extension a)).
  set (body := adaptation_flags a :: p ++ o ++ s ++ d ++ e ++ a_stuffing a).
  change (at_ pkt 4) with (Ok (zlen body)). cbn [mbind res_bind skip x_pos].
  assert (Hbl : zlen body = 1 + zlen (p ++ o ++ s ++ d ++ e ++ a_stuffing a))
    by (unfold body; cbn [length]; lia).
  rewrite !length_app in Hbl.
  assert (Htot : 5 + zlen body + zlen payload = 188).
  { unfold pkt, packet_bytes, adaptation_bytes in Hlen. rewrite !length_app in Hlen.
    fold p o s d e body in Hlen. cbn [length] in Hlen. fold body in Hlen.
    unfold TRANSPORT_PACKET_LENGTH in Hlen. lia. }
  rewrite (proj2 (Z.eqb_neq _ _)) by lia. change (4 + 1) with 5.
  unfold TRANSPORT_PACKET_LENGTH at 1. rewrite (proj2 (Z.ltb_ge _ _)) by lia.
  change (at_ pkt 5) with (Ok (adaptation_flags a)). cbn [mbind res_bind].
  set (exit := extract_payload afc (zlen body) (adaptation_flags a)).
  set (r := (0, out) : Z * transport_values).
  change (skip 1 (skip 1 _)) with (mk 6 r).

  destruct (adaptation_flags_has a Hfl) as (H16 & H8 & H4 & H2 & H1).
  assert (Hexit : forall q q' r, exit (mk q r) = exit (mk q' r)) by done.
  transitivity (exit (mk 0 (expect_extension extract (a_extension a)
    (expect extract transport_value_private_data (a_private_data a)
       (λ d, set_private_data (zlen d) (private_offset a))
    (expect extract transport_value_splice_countdown (a_splice_countdown a) set_splice_countdown
    (expect extract transport_value_opcr (a_opcr a) set_opcr
    (expect extract transport_value_pcr (a_pcr a) set_pcr r))))))).
  2: { unfold exit, extract_payload. rewrite Hafc. destruct (has afc 1); [|done].
       rewrite u16_id by (unfold TRANSPORT_PACKET_LENGTH; lia). unfold TRANSPORT_PACKET_LENGTH.
       replace (188 - (4 + 1 + zlen body)) with (zlen payload) by lia.
       replace (4 + 1 + zlen body) with (188 - zlen payload) by lia. done. }
  destruct (has extract 0xffff) eqn:Eg; cbn [negb].
  2: { rewrite !expect_none by by apply (has_group extract 0xffff).
       destruct (a_extension a) as [[[l|] w ?]|]; cbn [expect_extension e_ltw e_piecewise_rate];
       rewrite ?expect_none by (by apply (has_group extract 0xffff)); apply Hexit. }
  unfold after.
  set (pre := [b0; b1; b2; b3; zlen body; adaptation_flags a]). change 6 with (zlen pre).
  assert (Epkt : pkt = pre ++ p ++ o ++ s ++ d ++ e ++ a_stuffing a ++ payload).
  { unfold pkt, packet_bytes, adaptation_bytes. fold p o s d e. fold body. cbn [app].
    unfold body at 2, pre. cbn [app]. by rewrite <- !app_assoc. }
  assert (Hpre : zlen pre = 6) by done.
  erewrite (pcr_run pkt extract _ _ _ pre); [|exact Epkt|done|done|].
  2: { rewrite length_app. fold p. lia. }
  cbn [mbind res_bind]. fold p.
  erewrite (opcr_run pkt extract _ _ _ (pre ++ p)); [|by rewrite <- app_assoc|done|done|].
  2: { rewrite !length_app. fold o. lia. }
  cbn [mbind res_bind]. fold o.
  erewrite (splice_run pkt extract _ _ _ ((pre ++ p) ++ o)); [|by rewrite <- !app_assoc|done|].
  2: { rewrite !length_app. fold s. lia. }
  cbn [mbind res_bind]. fold s.
  erewrite (private_run pkt extract _ _ _ (((pre ++ p) ++ o) ++ s)); [|by rewrite <- !app_assoc|done|].
  2: { rewrite !length_app. fold d. lia. }
  cbn [mbind res_bind]. fold d.
  erewrite (extension_run pkt _ _ _ _ _ ((((pre ++ p) ++ o) ++ s) ++ d));
    [|done|by rewrite <- !app_assoc|done|done|done|].
  2: { rewrite !length_app. fold e. lia. }
  assert (zlen (((pre ++ p) ++ o) ++ s) + 1 = private_offset a) as ->; [|done].
  unfold private_offset. fold p o s. rewrite !length_app. lia.
Qed.

(** A packet of 188 bytes with a clock, a splice countdown, private data and an extension. *)
Definition sample_adaptation : adaptation_values :=
  AdaptationValues 4 (Some 123456789012) None (Some 7) (Some [1; 2; 3])
    (Some (ExtensionValues (Some (Some 1000)) (Some 4000000) [9])) [255; 255].

Lemma values_extract_roundtrip_witness :
  let a := sample_adaptation in
  let out := TransportValues 0 None 0 0 0 0 0 0 0 0 0 0 in
  transport_packet_values_extract (packet_bytes 0x47 0 100 0x30 a (replicate 161 0)) 0x30f out =
  Ok (expected 0x30f a (Some 27) 161 out).
Proof.
  intros a out.
  apply (values_extract_roundtrip 0x47 0 100 0x30 a (replicate 161 0) 0x30f out);
    [|reflexivity|reflexivity].
  split; unfold a, sample_adaptation, in_range; cbn.
  - lia.
  - intros v [= <-]. lia.
  - done.
  - intros e v [= <-] [= <-]. lia.
  - intros e [= <-] v [= <-]. lia.
Defined.

Lemma values_extract_safe_witness :
  exists h r out', tp_header (replicate 188 0x47) = Ok h /\
    transport_packet_values_extract (replicate 188 0x47) 0xffff
      (TransportValues 0 None 0 0 0 0 0 0 0 0 0 0) = Ok (r, out') /\
    (r = -1 \/
     reportable 0xffff r /\ private_data_inside TRANSPORT_PACKET_LENGTH r out' /\
     match tv_payload out' with
     | Some off => has (tp_adaptation_field_control h) 1 = true /\ 4 <= off /\
         0 <= tv_payload_length out' /\ off + tv_payload_length out' = TRANSPORT_PACKET_LENGTH
     | None => has (tp_adaptation_field_control h) 1 = false /\ tv_payload_length out' = 0
     end).
Proof.
  apply values_extract_safe; [reflexivity|]. by apply Forall_replicate.
Defined.

(** A packet whose adaptation field holds a seamless splice with the decoding time stamp 2^31. *)
Definition splice_packet : list Z :=
  [0x47; 0; 100; 0x20; 183; 0x01; 6; 0x20; 0x04; 0; 0; 0; 0] ++ replicate 175 0xff.

(** The seamless splice is extracted when the piecewise rate is requested, not when the
    seamless splice is; and its time stamp is sign-extended from 32 bits, because it is computed
    in type [int]. *)
Theorem seamless_splice_defects :
  let out := TransportValues 0 None 0 0 0 0 0 0 0 0 0 0 in
  zlen splice_packet = TRANSPORT_PACKET_LENGTH /\
  (exists out1, transport_packet_values_extract splice_packet transport_value_seamless_splice out
     = Ok (0, out1) /\ tv_dts_next_au out1 = 0) /\
  (exists out2, transport_packet_values_extract splice_packet transport_value_piecewise_rate out
     = Ok (transport_value_seamless_splice, out2) /\ tv_dts_next_au out2 = 2 ^ 64 - 2 ^ 31).
Proof. intros out. split_and!; [reflexivity|eexists; split; reflexivity..]. Qed.

(** ** The continuity check as a state machine *)

(** The last counter seen, and whether its packet has been seen twice. *)
Definition cc_state : Type := option (Z * bool).

Definition cc_encode (s : cc_state) : Z :=
  match s with
  | Some (c, dup) => c + CONTINUITY_VALID + (if dup : bool then CONTINUITY_DUPESEEN else 0)
  | None => 0
  end.

Definition cc_wf (s : cc_state) : Prop := forall c d, s = Some (c, d) -> 0 <= c < 16.

Definition has_payload (h : transport_packet) : bool := has (tp_adaptation_field_control h) 1.
Definition null_packet (h : transport_packet) : Prop := transport_packet_pid h = TRANSPORT_NULL_PID.

(** What is accepted, and the state it leads to. *)
Inductive cc_step (h : transport_packet) (disc : bool) : cc_state -> cc_state -> Prop :=
  | cc_null s : null_packet h -> cc_step h disc s s
  | cc_first : ~ null_packet h -> cc_step h disc None (Some (tp_continuity_counter h, false))
  | cc_discontinuity c d :
      ~ null_packet h -> disc = true ->
      cc_step h disc (Some (c, d)) (Some (tp_continuity_counter h, false))
  | cc_next c d :
      ~ null_packet h -> disc = false -> has_payload h = true ->
      tp_continuity_counter h = (c + 1) mod 16 ->
      cc_step h disc (Some (c, d)) (Some (tp_continuity_counter h, false))
  | cc_still c d :
      ~ null_packet h -> disc = false -> has_payload h = false -> tp_continuity_counter h = c ->
      cc_step h disc (Some (c, d)) (Some (c, false))
  | cc_duplicate c :
      ~ null_packet h -> disc = false -> has_payload h = true -> tp_continuity_counter h = c ->
      cc_step h disc (Some (c, false)) (Some (c, true)).

Lemma below_16 (P : Z -> Prop) c :
  0 <= c < 16 -> Forall P [0; 1; 2; 3; 4; 5; 6; 7; 8; 9; 10; 11; 12; 13; 14; 15] -> P c.
Proof.
  intros Hc HP. repeat (apply Forall_cons_iff in HP as [? HP]).
  assert (c = 0 \/ c = 1 \/ c = 2 \/ c = 3 \/ c = 4 \/ c = 5 \/ c = 6 \/ c = 7 \/ c = 8 \/ c = 9 \/
    c = 10 \/ c = 11 \/ c = 12 \/ c = 13 \/ c = 14 \/ c = 15) as Hcases by lia.
  destruct_or? Hcases; by subst.
Qed.

Lemma cc_encode_facts c d :
  0 <= c < 16 ->
  Z.land (cc_encode (Some (c, d))) 0x0f = c /\
  has (cc_encode (Some (c, d))) CONTINUITY_VALID = true /\
  has (cc_encode (Some (c, d))) CONTINUITY_DUPESEEN = d /\
  Z.land (c + 1) 0xf = (c + 1) mod 16 /\
  Z.lor c CONTINUITY_VALID = cc_encode (Some (c, false)) /\
  Z.lor c (Z.lor CONTINUITY_VALID CONTINUITY_DUPESEEN) = cc_encode (Some (c, true)).
Proof.
  intros Hc. apply (below_16 (λ c, _) c Hc). by destruct d; repeat constructor.
Qed.

(** The continuity check is the state machine [cc_step]: it returns 0 and moves exactly when
    the machine accepts the packet, and otherwise returns -1 and leaves its state alone. *)
Theorem continuity_check_refines h disc s :
  0 <= tp_continuity_counter h < 16 -> cc_wf s ->
  (exists s', cc_step h disc s s' /\ cc_wf s' /\
     transport_packet_continuity_check h disc (cc_encode s) = (0, cc_encode s')) \/
  ((forall s', ~ cc_step h disc s s') /\
     transport_packet_continuity_check h disc (cc_encode s) = (-1, cc_encode s)).
Proof.
  intros Hcc Hwf. unfold transport_packet_continuity_check.
  set (k := tp_continuity_counter h) in *. assert (Ek : k = tp_continuity_counter h) by done.
  destruct (cc_encode_facts k false Hcc) as (_ & _ & _ & _ & Hv & Hvd).
  assert (Hk : forall d, cc_wf (Some (k, d))) by (intros d c d' [= <- _]; done).
  destruct (Z.eqb_spec (transport_packet_pid h) TRANSPORT_NULL_PID) as [En|En].
  { left. exists s. split_and!; [by apply cc_null|done..]. }
  destruct s as [[c d]|].
  2: { left. exists (Some (k, false)). split_and!; [by apply cc_first|done|]. cbn. by rewrite Hv. }
  assert (Hc : 0 <= c < 16) by by eapply Hwf.
  destruct (cc_encode_facts c d Hc) as (H1 & H2 & H3 & H4 & H5 & H6).
  rewrite H1, H2, H3, H4. cbn [negb].
  destruct disc.
  { left. eexists. split_and!; [by apply cc_discontinuity|done|by rewrite Hv]. }
  fold (has_payload h).
  destruct (has_payload h) eqn:Ep.
  - destruct (Z.eqb_spec ((c + 1) mod 16) k) as [E|E].
    { left. eexists. split_and!; [by apply cc_next|done|by rewrite Hv]. }
    destruct (Z.eqb_spec c k) as [E'|E']; [destruct d; cbn [negb andb]|cbn [andb]].
    + right. split; [|done]. intros s' Hs. inversion Hs; congruence.
    + left. exists (Some (c, true)). split_and!; [by apply cc_duplicate|by rewrite E'|by rewrite E', <- Hvd].
    + right. split; [|done]. intros s' Hs. inversion Hs; congruence.
  - destruct (Z.eqb_spec c k) as [->|E'].
    { left. eexists. split_and!; [by eapply cc_still|done|by rewrite Hv]. }
    cbn [andb]. right. split; [|done].
    intros s' Hs. inversion Hs; congruence.
Qed.

Lemma cc_step_wf h disc s s' :
  0 <= tp_continuity_counter h < 16 -> cc_wf s -> cc_step h disc s s' -> cc_wf s'.
Proof.
  intros Hh Hs Hst. inversion Hst; subst; try done; intros ? ? [= <- <-]; try done.
  all: by eapply Hs.
Qed.

(** The machine is deterministic, so an accepted packet gives the encoded next state. *)
Lemma continuity_accepts h disc s s' :
  0 <= tp_continuity_counter h < 16 -> cc_wf s -> cc_step h disc s s' ->
  transport_packet_continuity_check h disc (cc_encode s) = (0, cc_encode s').
Proof.
  intros Hcc Hwf Hst. unfold transport_packet_continuity_check, null_packet in *.
  pose proof (cc_encode_facts _ false Hcc) as (_ & _ & _ & _ & Hv & Hvd).
  destruct s as [[c d]|].
  2: { inversion Hst; subst; unfold null_packet in *.
       - by rewrite (proj2 (Z.eqb_eq _ _)).
       - rewrite (proj2 (Z.eqb_neq _ _)) by done. cbn. by rewrite Hv. }
  assert (Hc : 0 <= c < 16) by by eapply Hwf.
  destruct (cc_encode_facts c d Hc) as (H1 & H2 & H3 & H4 & H5 & H6).
  rewrite H1, H2, H3, H4. cbn [negb]. unfold has_payload in *.
  inversion Hst; subst; unfold null_packet, has_payload in *;
    first [by rewrite (proj2 (Z.eqb_eq _ _))|rewrite (proj2 (Z.eqb_neq _ _)) by done];
    repeat match goal with H : has (tp_adaptation_field_control h) 1 = _ |- _ => rewrite H; clear H end.
  - by rewrite Hv.
  - rewrite (proj2 (Z.eqb_eq _ _)) by done. by rewrite Hv.
  - rewrite Z.eqb_refl. by rewrite Hv.
  - assert ((tp_continuity_counter h + 1) mod 16 <> tp_continuity_counter h) as Hne.
    { Z.to_euclidean_division_equations. lia. }
    rewrite (proj2 (Z.eqb_neq _ _) Hne), Z.eqb_refl. cbn [negb andb]. by rewrite Hvd.
Qed.

(** The packets a conforming multiplexer sends on a PID after one with counter [c]; [fresh] allows a
    duplicate of it.  Each packet comes with its discontinuity indicator. *)
Inductive conforming : Z -> bool -> list (transport_packet * bool) -> Prop :=
  | conf_end c fresh : conforming c fresh []
  | conf_null c fresh h disc l :
      null_packet h -> conforming c fresh l -> conforming c fresh ((h, disc) :: l)
  | conf_next c fresh h l :
      ~ null_packet h -> has_payload h = true ->
      tp_continuity_counter h = (c + 1) mod 16 ->
      conforming (tp_continuity_counter h) true l -> conforming c fresh ((h, false) :: l)
  | conf_duplicate c h l :
      ~ null_packet h -> has_payload h = true -> tp_continuity_counter h = c ->
      conforming c false l -> conforming c true ((h, false) :: l)
  | conf_still c fresh h l :
      ~ null_packet h -> has_payload h = false -> tp_continuity_counter h = c ->
      conforming c fresh l -> conforming c fresh ((h, false) :: l)
  | conf_discontinuity c fresh h l :
      ~ null_packet h -> 0 <= tp_continuity_counter h < 16 ->
      conforming (tp_continuity_counter h) true l -> conforming c fresh ((h, true) :: l).

(** The check of each packet of a PID in turn, until an error. *)
Fixpoint check_stream (l : list (transport_packet * bool)) (cstate : Z) : Z * Z :=
  match l with
  | [] => (0, cstate)
  | (h, disc) :: l =>
      let '(r, cstate) := transport_packet_continuity_check h disc cstate in
      if r =? 0 then check_stream l cstate else (r, cstate)
  end.

Lemma null_unchecked h disc cstate :
  null_packet h -> transport_packet_continuity_check h disc cstate = (0, cstate).
Proof.
  unfold null_packet, transport_packet_continuity_check. intros H.
  by rewrite (proj2 (Z.eqb_eq _ _)).
Qed.

(** No packet of a conforming stream is reported, wherever the check starts in it. *)
Theorem continuity_stream_accepted l c d fresh :
  0 <= c < 16 -> conforming c fresh l -> (fresh = true -> d = false) ->
  (check_stream l (cc_encode (Some (c, d)))).1 = 0.
Proof.
  intros Hc Hl. revert d Hc. induction Hl as [| |c fresh h l Hn Hp He Hl IH| | |]; intros d Hc Hfr.
  - done.
  - cbn [check_stream]. rewrite null_unchecked by done. by apply IHHl.
  - assert (Hh : 0 <= tp_continuity_counter h < 16) by (rewrite He; by apply Z.mod_pos_bound).
    cbn [check_stream]. erewrite continuity_accepts; [|done|by intros ? ? [= <- <-]|by apply cc_next].
    cbn [Z.eqb]. by apply IH.
  - rewrite (Hfr eq_refl). cbn [check_stream].
    erewrite continuity_accepts; [|lia|by intros ? ? [= <- <-]|by apply cc_duplicate].
    cbn [Z.eqb]. by apply IHHl.
  - cbn [check_stream]. erewrite continuity_accepts; [|lia|by intros ? ? [= <- <-]|by eapply cc_still].
    cbn [Z.eqb]. by apply IHHl.
  - cbn [check_stream].
    erewrite continuity_accepts; [|done|by intros ? ? [= <- <-]|by apply cc_discontinuity].
    cbn [Z.eqb]. by apply IHHl.
Qed.

(** The loss of up to 14 payload packets in a row is reported. *)
Theorem continuity_loss_reported h c d n :
  0 <= c < 16 -> 1 <= n <= 14 -> ~ null_packet h -> has_payload h = true ->
  tp_continuity_counter h = (c + 1 + n) mod 16 ->
  transport_packet_continuity_check h false (cc_encode (Some (c, d))) =
  (-1, cc_encode (Some (c, d))).
Proof.
  intros Hc Hn Hnull Hp He. destruct (cc_encode_facts c d Hc) as (H1 & H2 & H3 & H4 & _).
  unfold transport_packet_continuity_check. rewrite H1, H2, H3, H4. fold (has_payload h).
  rewrite Hp, (proj2 (Z.eqb_neq _ _) Hnull). cbn [negb].
  assert ((c + 1) mod 16 <> tp_continuity_counter h /\ c <> tp_continuity_counter h) as [Ha Hb].
  { rewrite He. Z.to_euclidean_division_equations. lia. }
  by rewrite (proj2 (Z.eqb_neq _ _) Ha), (proj2 (Z.eqb_neq _ _) Hb).
Qed.

(** Witnesses. *)
Definition sample_packet (afc cc : Z) : transport_packet := TransportPacket 0x47 0 0 0 1 0 0 afc cc.

Lemma continuity_check_refines_witness :
  let s := Some (15, false) in
  (exists s', cc_step (sample_packet 1 0) false s s' /\ cc_wf s' /\
     transport_packet_continuity_check (sample_packet 1 0) false (cc_encode s) = (0, cc_encode s')) \/
  ((forall s', ~ cc_step (sample_packet 1 0) false s s') /\
     transport_packet_continuity_check (sample_packet 1 0) false (cc_encode s) = (-1, cc_encode s)).
Proof.
  apply (continuity_check_refines (sample_packet 1 0) false (Some (15, false))).
  - cbn. lia.
  - intros c d [= <- <-]. lia.
Defined.

Lemma continuity_stream_accepted_witness :
  (check_stream [(sample_packet 1 0, false); (sample_packet 1 0, false); (sample_packet 2 0, false);
     (sample_packet 3 1, false); (sample_packet 1 9, true)] (cc_encode (Some (15, false)))).1 = 0.
Proof.
  apply (continuity_stream_accepted _ 15 false true); [lia| |done].
  apply conf_next; [done..|]. apply conf_duplicate; [done..|]. apply conf_still; [done..|].
  apply conf_next; [done..|]. apply conf_discontinuity; [done|cbn; lia|]. apply conf_end.
Defined.

Lemma continuity_loss_reported_witness :
  transport_packet_continuity_check (sample_packet 1 2) false (cc_encode (Some (15, true))) =
  (-1, cc_encode (Some (15, true))).
Proof. apply (continuity_loss_reported (sample_packet 1 2) 15 true 2); [lia|lia|done..]. Defined.
