(* ===== verification/Asn1.v ===== *)
(** * asn_1.c: ASN.1 length fields of EN50221 *)

From S2P Require Export CMem.

(** ** The code *)

(** The value stored in [*length] and the returned number of bytes; [None]: the function returns -1. *)
Definition asn_1_decode (asn_1_array : list Z) (asn_1_array_len : Z) : res (option (Z * Z)) :=
  if asn_1_array_len <? 1 then mret None
  else
    length_field ← at_ asn_1_array 0;
    if length_field <? 0x80 then mret (Some (Z.land length_field 0x7f, 1))
    else if length_field =? 0x81 then
      if asn_1_array_len <? 2 then mret None
      else b1 ← at_ asn_1_array 1; mret (Some (b1, 2))
    else if length_field =? 0x82 then
      if asn_1_array_len <? 3 then mret None
      else
        b1 ← at_ asn_1_array 1;
        b2 ← at_ asn_1_array 2;
        mret (Some (Z.lor (Z.shiftl b1 8) b2, 3))
    else mret None.

(** The bytes written at the start of the array, as many as the function returns; [None]: it returns
    -1.  [length] is a [uint16_t]. *)
Definition asn_1_encode (length : Z) (asn_1_array_len : Z) : option (list Z) :=
  let length := u16 length in
  if length <? 0x80 then
    if asn_1_array_len <? 1 then None else Some [Z.land length 0x7f]
  else if length <? 0x100 then
    if asn_1_array_len <? 2 then None else Some [0x81; u8 length]
  else
    if asn_1_array_len <? 3 then None else Some [0x82; u8 (Z.shiftr length 8); u8 length].

(** ** Properties *)

(** What [asn_1_decode] accepts: the three forms, in an array that holds them. *)
Inductive asn_1_form : list Z -> Z -> Z -> Prop :=
  | form_short b rest : 0 <= b < 0x80 -> asn_1_form (b :: rest) b 1
  | form_81 b rest : asn_1_form (0x81 :: b :: rest) b 2
  | form_82 b c rest : asn_1_form (0x82 :: b :: c :: rest) (b * 256 + c) 3.

Lemma be16 b c : byte b -> byte c -> Z.lor (Z.shiftl b 8) c = b * 256 + c.
Proof.
  intros Hb Hc. unfold byte in *. rewrite Z.lor_comm, (lor_add c b 8) by (change (2 ^ 8) with 256; lia).
  change (2 ^ 8) with 256. lia.
Qed.

Lemma asn_1_decode_run arr :
  Forall byte arr ->
  exists r, asn_1_decode arr (zlen arr) = Ok r /\
    (forall l n, r = Some (l, n) <-> asn_1_form arr l n).
Proof.
  intros Hb. unfold asn_1_decode. destruct arr as [|b arr].
  { eexists. split; [done|]. intros l n. split; [done|]. by inversion 1. }
  rewrite (proj2 (Z.ltb_ge _ _)) by (cbn [length]; lia). change (at_ (b :: arr) 0) with (Ok b).
  cbn [mbind res_bind]. apply Forall_cons_iff in Hb as [Hb Ha]. unfold byte in Hb.
  destruct (Z.ltb_spec b 128).
  { eexists. split; [done|]. intros l n. change 127 with (Z.ones 7).
    rewrite land_mask, Z.mod_small by (change (2 ^ 7) with 128; lia). split.
    - intros [= <- <-]. apply form_short; lia.
    - inversion 1; subst; done || lia. }
  destruct (Z.eqb_spec b 129) as [->|?Hne].
  { destruct arr as [|c arr].
    - eexists. split; [done|]. intros l n. split; [done|]. inversion 1; subst; lia.
    - rewrite (proj2 (Z.ltb_ge _ _)) by (cbn [length]; lia).
      eexists. split; [done|]. intros l n. split; [intros [= <- <-]; constructor|].
      inversion 1; subst; done || lia. }
  destruct (Z.eqb_spec b 130) as [->|?Hne].
  { destruct arr as [|c [|d arr]].
    - eexists. split; [done|]. intros l n. split; [done|]. inversion 1; subst; lia.
    - eexists. split; [done|]. intros l n. split; [done|]. inversion 1; subst; lia.
    - rewrite (proj2 (Z.ltb_ge _ _)) by (cbn [length]; lia).
      change (at_ (130 :: c :: d :: arr) 1) with (Ok c).
      change (at_ (130 :: c :: d :: arr) 2) with (Ok d). cbn [mbind res_bind].
      rewrite be16 by solve_bytes.
      eexists. split; [done|]. intros l n. split; [intros [= <- <-]; constructor|].
      inversion 1; subst; done || lia. }
  eexists. split; [done|]. intros l n. split; [done|]. inversion 1; subst; lia.
Qed.

Lemma asn_1_form_bounds arr l n :
  Forall byte arr -> asn_1_form arr l n -> 0 <= l < 65536 /\ 1 <= n <= 3 /\ n <= zlen arr.
Proof.
  intros Hb Hf. inversion Hf; subst; cbn [length]; rewrite ?Forall_cons_iff in Hb; destruct_and?;
    unfold byte in *; lia.
Qed.

Lemma asn_1_encode_form l rest :
  0 <= l < 65536 -> exists bs, asn_1_encode l 3 = Some bs /\ asn_1_form (bs ++ rest) l (zlen bs) /\
    Forall byte bs /\ 1 <= zlen bs <= 3.
Proof.
  intros Hl. unfold asn_1_encode. rewrite u16_id by done.
  destruct (Z.ltb_spec l 128).
  { eexists. split; [done|]. change 127 with (Z.ones 7).
    rewrite land_mask, Z.mod_small by (change (2 ^ 7) with 128; lia).
    split_and!; [apply form_short; lia|constructor; [unfold byte; lia|constructor]|cbn; lia..]. }
  destruct (Z.ltb_spec l 256).
  { eexists. split; [done|]. rewrite u8_id by (unfold byte; lia).
    split_and!; [apply form_81|solve_bytes; unfold byte; lia|cbn; lia..]. }
  eexists. split; [done|]. split_and!; [|solve_bytes; auto with dvb|cbn; lia..].
  - assert (l = u8 (Z.shiftr l 8) * 256 + u8 l) as E.
    { unfold u8. rewrite Z.shiftr_div_pow2 by done. change (2 ^ 8) with 256.
      Z.to_euclidean_division_equations. lia. }
    rewrite E at 3. apply form_82.
Qed.

(** Every length of 16 bits is encoded, in at most three bytes, and decoded back with the number
    of bytes it took, whatever follows. *)
Theorem asn_1_roundtrip l rest :
  0 <= l < 65536 -> Forall byte rest ->
  exists bs, asn_1_encode l 3 = Some bs /\ 1 <= zlen bs <= 3 /\
    asn_1_decode (bs ++ rest) (zlen (bs ++ rest)) = Ok (Some (l, zlen bs)).
Proof.
  intros Hl Hr. destruct (asn_1_encode_form l rest Hl) as (bs & He & Hf & Hb & Hn).
  exists bs. split_and!; [done|lia..|].
  destruct (asn_1_decode_run (bs ++ rest)) as (r & -> & Hiff); [by apply Forall_app|].
  f_equal. by apply Hiff.
Qed.

Lemma asn_1_roundtrip_witness :
  exists bs, asn_1_encode 4660 3 = Some bs /\ 1 <= zlen bs <= 3 /\
    asn_1_decode (bs ++ [1; 2]) (zlen (bs ++ [1; 2])) = Ok (Some (4660, zlen bs)).
Proof. apply (asn_1_roundtrip 4660 [1; 2]); [lia|solve_bytes]. Defined.

(** On any array, [asn_1_decode] reads only inside it, accepts exactly the three forms, and the
    length it returns fits in 16 bits. *)
Theorem asn_1_decode_correct arr :
  Forall byte arr ->
  exists r, asn_1_decode arr (zlen arr) = Ok r /\
    (forall l n, r = Some (l, n) <-> asn_1_form arr l n) /\
    (forall l n, r = Some (l, n) -> 0 <= l < 65536 /\ 1 <= n <= 3 /\ n <= zlen arr).
Proof.
  intros Hb. destruct (asn_1_decode_run arr Hb) as (r & Hr & Hiff). exists r.
  split_and!; [done..|]. intros l n E. apply asn_1_form_bounds; [done|]. by apply Hiff.
Qed.

Lemma asn_1_decode_correct_witness :
  exists r, asn_1_decode [0x82; 1; 0] 3 = Ok r /\
    (forall l n, r = Some (l, n) <-> asn_1_form [0x82; 1; 0] l n) /\
    (forall l n, r = Some (l, n) -> 0 <= l < 65536 /\ 1 <= n <= 3 /\ n <= 3).
Proof. apply (asn_1_decode_correct [0x82; 1; 0]). solve_bytes. Defined.
