(* ===== verification/Io.v ===== *)
(** * Effects of the EN50221 code: state, system calls, faults

    The CA code mutates structures, calls the operating system and calls back into the layer above.
    An action of the monad [IO S] threads a [world]: the program state [S], the number of system
    calls made so far, and the log of what was sent and called.  What the operating system answers
    is the environment, a parameter: each answer is a function of the number of the call, so it may
    change freely between calls.  The file also models the functions of dvbca.c and dvbmisc.h on
    which the transport layer is built. *)

From S2P Require Export CMem.

(** ** The monad *)

(** What is observable outside the layers: what is written to a device, or sent to it as a message, the
    slots that are reset, the devices that are closed, and the calls of the callbacks of the transport
    layer, of the session layer, and of a resource. *)
Inductive event :=
  | Written (fd : Z) (bytes : list Z)
  | MessageSent (fd : Z) (bytes : list Z)
  | SlotsReset (fd mask : Z)
  | Closed (fd : Z)
  | Called (arg reason : Z) (data : list Z) (slot_id connection_id : Z)
  | SessionCalled (arg reason slot_id session_number resource_id : Z)
  | ResourceCalled (arg slot_id session_number resource_id : Z) (data : list Z).

Record world (S : Type) := World {
  w_state : S;
  w_tick : nat;
  w_log : list event;
}.
Arguments World {S} _ _ _.
Arguments w_state {S} _.
Arguments w_tick {S} _.
Arguments w_log {S} _.

Definition IO (S A : Type) : Type := world S -> res (A * world S).

#[export] Instance io_ret S : MRet (IO S) := fun A a w => Ok (a, w).
#[export] Instance io_bind S : MBind (IO S) := fun A B k c w =>
  match c w with
  | Ok (a, w') => k a w'
  | Err f => Err f
  end.

(** The answers of the operating system.  [e_read]: [None] for an error, or the bytes read. *)
Record env := Env {
  e_malloc : nat -> bool;
  e_write : nat -> Z;
  e_read : nat -> option (list Z);
  e_clock : nat -> Z * Z;
  e_poll : nat -> Z * list Z;
}.

Section Calls.
Context {S : Type} (e : env).

Definition io_fault {A} (f : fault) : IO S A := fun _ => Err f.

(** A pure computation that may access memory out of bounds. *)
Definition lift {A} (c : res A) : IO S A := fun w =>
  match c with Ok a => Ok (a, w) | Err f => Err f end.

Definition get_state : IO S S := fun w => Ok (w_state w, w).

Definition modify (f : S -> S) : IO S unit := fun w =>
  Ok (tt, World (f (w_state w)) (w_tick w) (w_log w)).

Definition log_event (ev : event) : IO S unit := fun w =>
  Ok (tt, World (w_state w) (w_tick w) (w_log w ++ [ev])).

(** The number of this system call. *)
Definition tick : IO S nat := fun w =>
  Ok (w_tick w, World (w_state w) (Datatypes.S (w_tick w)) (w_log w)).

(** [malloc] and the like: whether there was memory. *)
Definition malloc : IO S bool := n ← tick; mret (e_malloc e n).

Definition gettimeofday : IO S (Z * Z) := n ← tick; mret (e_clock e n).

Definition sys_write (fd : Z) (bytes : list Z) : IO S Z :=
  n ← tick;
  log_event (Written fd bytes);;
  mret (e_write e n).

(** At most [count] bytes. *)
Definition sys_read (count : Z) : IO S (option (list Z)) :=
  n ← tick;
  mret (match e_read e n with Some bs => Some (take (Z.to_nat count) bs) | None => None end).

(** The returned value and the [revents]. *)
Definition sys_poll : IO S (Z * list Z) := n ← tick; mret (e_poll e n).

(** ** dvbca.c *)

(** [data_length] is a [uint16_t]. *)
Definition dvbca_link_write (fd slot connection_id : Z) (data : list Z) (data_length : Z) : IO S Z :=
  let data_length := u16 data_length in
  ok ← malloc;
  if negb ok then mret (-1)
  else if zlen data <? data_length then io_fault OutOfBounds
  else sys_write fd ([slot; connection_id] ++ take (Z.to_nat data_length) data).

(** The returned value, [*slot], [*connection_id] and the data; [None]: it returns -1. *)
Definition dvbca_link_read (fd data_length : Z) : IO S (option (Z * Z * list Z)) :=
  let data_length := u16 data_length in
  ok ← malloc;
  if negb ok then mret None
  else
    r ← sys_read (data_length + 2);
    match r with
    | Some (slot :: connection_id :: data) => mret (Some (slot, connection_id, data))
    | _ => mret None
    end.

(** ** dvbmisc.h *)

Definition timeval_ms (t : Z * Z) : Z := u64 (t.1 * 1000 + Z.quot t.2 1000).

Definition time_after (oldtime : Z * Z) (delta_ms : Z) : IO S bool :=
  let oldtime_ms := u64 (timeval_ms oldtime + delta_ms) in
  nowtime ← gettimeofday;
  mret (oldtime_ms <? timeval_ms nowtime).
End Calls.

(** ** Reasoning

    [hoare P c Q]: from a world satisfying [P], the action makes no fault, and ends with a result
    and a world satisfying [Q]. *)

Definition hoare {S A} (P : world S -> Prop) (c : IO S A) (Q : A -> world S -> Prop) : Prop :=
  forall w, P w -> okay (c w) (λ '(a, w'), Q a w').

Section Hoare.
Context {S : Type}.
Implicit Types P : world S -> Prop.

Lemma hoare_ret {A} P (a : A) Q : (forall w, P w -> Q a w) -> hoare P (mret a) Q.
Proof. intros H w Hw. by apply H. Qed.

Lemma hoare_bind {A B} P (c : IO S A) (k : A -> IO S B) Q R :
  hoare P c Q -> (forall a, hoare (Q a) (k a) R) -> hoare P (c ≫= k) R.
Proof.
  intros Hc Hk w Hw. specialize (Hc w Hw). unfold mbind, io_bind.
  destruct (c w) as [[a w']|]; [|done]. by apply Hk.
Qed.

Lemma hoare_mono {A} P P' (c : IO S A) Q Q' :
  hoare P c Q -> (forall w, P' w -> P w) -> (forall a w, Q a w -> Q' a w) -> hoare P' c Q'.
Proof.
  intros Hc HP HQ w Hw. specialize (Hc w (HP w Hw)).
  destruct (c w) as [[a w']|]; [|done]. by apply HQ.
Qed.

(** A first action whose outcome is known. *)
Lemma io_bind_run {A B} (c : IO S A) (k : A -> IO S B) w a w' :
  c w = Ok (a, w') -> (c ≫= k) w = k a w'.
Proof. intros E. unfold mbind, io_bind. by rewrite E. Qed.

Lemma bind_assoc_run {A B C} (c : IO S A) (k : A -> IO S B) (h : B -> IO S C) w :
  ((c ≫= k) ≫= h) w = (c ≫= λ a, k a ≫= h) w.
Proof. unfold mbind, io_bind. by destruct (c w) as [[]|]. Qed.

Lemma malloc_run e : (forall n, e_malloc e n = true) -> forall w : world S,
  malloc e w = Ok (true, World (w_state w) (Datatypes.S (w_tick w)) (w_log w)).
Proof. intros Hm w. unfold malloc, tick, mbind, io_bind, mret, io_ret. by rewrite Hm. Qed.

(** Invariants of the state that ignore the calls made and the log. *)
Definition on_state (I : S -> Prop) (w : world S) : Prop := I (w_state w).

(** [keeps I c R]: [c] makes no fault and keeps the invariant [I] of the state, with a result in
    [R]. *)
Definition keeps {A} (I : S -> Prop) (c : IO S A) (R : A -> Prop) : Prop :=
  hoare (on_state I) c (λ a w, on_state I w /\ R a).

Lemma keeps_ret {A} I (a : A) (R : A -> Prop) : R a -> keeps I (mret a) R.
Proof. intros Ha w Hw. by split. Qed.

Lemma keeps_bind {A B} I (c : IO S A) (k : A -> IO S B) Q R :
  keeps I c Q -> (forall a, Q a -> keeps I (k a) R) -> keeps I (c ≫= k) R.
Proof.
  intros Hc Hk. eapply hoare_bind; [exact Hc|]. intros a w [Hw Ha]. by apply Hk.
Qed.

Lemma keeps_mono {A} I (c : IO S A) (Q R : A -> Prop) :
  keeps I c Q -> (forall a, Q a -> R a) -> keeps I c R.
Proof. intros Hc H. eapply hoare_mono; [exact Hc|done|]. intros a w [? ?]. auto. Qed.

Lemma keeps_modify (I : S -> Prop) f : (forall s, I s -> I (f s)) -> keeps I (modify f) (λ _, True).
Proof. intros H w Hw. split; [by apply H|done]. Qed.

Lemma keeps_get (I : S -> Prop) : keeps I get_state I.
Proof. intros w Hw. by split. Qed.

Lemma keeps_tick (I : S -> Prop) : keeps I tick (λ _, True).
Proof. intros w Hw. by split. Qed.

Lemma keeps_log (I : S -> Prop) ev : keeps I (log_event ev) (λ _, True).
Proof. intros w Hw. by split. Qed.

Lemma keeps_lift {A} (I : S -> Prop) (c : res A) R : okay c R -> keeps I (lift c) R.
Proof. intros Hc w Hw. unfold lift. destruct c; [|done]. by split. Qed.

Lemma keeps_malloc I e : keeps I (malloc e) (λ _, True).
Proof. eapply keeps_bind; [apply keeps_tick|]. intros. by apply keeps_ret. Qed.

Lemma keeps_gettimeofday I e : keeps I (gettimeofday e) (λ _, True).
Proof. eapply keeps_bind; [apply keeps_tick|]. intros. by apply keeps_ret. Qed.

Lemma keeps_poll I e : keeps I (sys_poll e) (λ _, True).
Proof. eapply keeps_bind; [apply keeps_tick|]. intros. by apply keeps_ret. Qed.

Lemma keeps_time_after I e old delta : keeps I (time_after e old delta) (λ _, True).
Proof. eapply keeps_bind; [apply keeps_gettimeofday|]. intros. by apply keeps_ret. Qed.

Lemma keeps_link_write I e fd slot con data len :
  u16 len <= zlen data -> keeps I (dvbca_link_write e fd slot con data len) (λ _, True).
Proof.
  intros Hl. eapply keeps_bind; [apply keeps_malloc|]. intros ok _.
  destruct ok; cbn [negb]; [|by apply keeps_ret].
  rewrite (proj2 (Z.ltb_ge _ _)) by done.
  eapply keeps_bind; [apply keeps_tick|]. intros n _.
  eapply keeps_bind; [apply keeps_log|]. intros _ _. by apply keeps_ret.
Qed.

(** What is known of every read is known of the packet. *)
Lemma keeps_link_read I e fd len (P : list Z -> Prop) :
  (forall n bs, e_read e n = Some bs -> P (take (Z.to_nat (u16 len + 2)) bs)) ->
  keeps I (dvbca_link_read e fd len) (λ r, forall s c d, r = Some (s, c, d) -> P (s :: c :: d)).
Proof.
  intros Hr. eapply keeps_bind; [apply keeps_malloc|]. intros ok _.
  destruct ok; cbn [negb]; [|by apply keeps_ret].
  eapply keeps_bind with (Q := λ r, forall bs, r = Some bs -> P bs).
  { eapply keeps_bind; [apply keeps_tick|]. intros n _. apply keeps_ret. intros bs E.
    destruct (e_read e n) as [l|] eqn:El; [|done]. injection E as <-. by apply (Hr n). }
  intros r HQ. destruct r as [[|s [|c d]]|]; apply keeps_ret; try done.
  intros ? ? ? [= <- <- <-]. by apply HQ.
Qed.
End Hoare.
