(* ===== verification/En50221Transport.v ===== *)
(** * en50221_transport.c: the transport layer of the common interface

    Slots, their transport connections, the state machine of a connection, and the messages
    exchanged with the module.  The locks are not modelled: an operation is a sequence of steps of
    one thread.  A message queue is the list of its messages (SendQueue.v shows that the linked
    list of the code implements it). *)

From S2P Require Export Asn1 Io.

(** ** Data *)

Definition T_SB : Z := 0x80.
Definition T_RCV : Z := 0x81.
Definition T_CREATE_T_C : Z := 0x82.
Definition T_C_T_C_REPLY : Z := 0x83.
Definition T_DELETE_T_C : Z := 0x84.
Definition T_D_T_C_REPLY : Z := 0x85.
Definition T_REQUEST_T_C : Z := 0x86.
Definition T_NEW_T_C : Z := 0x87.
Definition T_T_C_ERROR : Z := 0x77.
Definition T_DATA_LAST : Z := 0xA0.
Definition T_DATA_MORE : Z := 0xA1.

Definition T_CALLBACK_REASON_CONNECTIONOPEN : Z := 0.
Definition T_CALLBACK_REASON_CAMCONNECTIONOPEN : Z := 1.
Definition T_CALLBACK_REASON_DATA : Z := 2.
Definition T_CALLBACK_REASON_CONNECTIONCLOSE : Z := 3.
Definition T_CALLBACK_REASON_SLOTCLOSE : Z := 4.

Definition EN50221ERR_CAREAD : Z := -1.
Definition EN50221ERR_CAWRITE : Z := -2.
Definition EN50221ERR_TIMEOUT : Z := -3.
Definition EN50221ERR_BADSLOTID : Z := -4.
Definition EN50221ERR_BADCONNECTIONID : Z := -5.
Definition EN50221ERR_BADSTATE : Z := -6.
Definition EN50221ERR_BADCAMDATA : Z := -7.
Definition EN50221ERR_OUTOFMEMORY : Z := -8.
Definition EN50221ERR_ASNENCODE : Z := -9.
Definition EN50221ERR_OUTOFCONNECTIONS : Z := -10.
Definition EN50221ERR_OUTOFSLOTS : Z := -11.

Inductive tc_state :=
  | T_STATE_IDLE
  | T_STATE_ACTIVE
  | T_STATE_ACTIVE_DELETEQUEUED
  | T_STATE_IN_CREATION
  | T_STATE_IN_DELETION.

#[export] Instance tc_state_eq_dec : EqDecision tc_state.
Proof. solve_decision. Defined.

(** The values of the states, which are bits: [state & mask] tests for several at once. *)
Definition state_value (s : tc_state) : Z :=
  match s with
  | T_STATE_IDLE => 0x01
  | T_STATE_ACTIVE => 0x02
  | T_STATE_ACTIVE_DELETEQUEUED => 0x04
  | T_STATE_IN_CREATION => 0x08
  | T_STATE_IN_DELETION => 0x10
  end.

Definition state_is (s t : tc_state) : bool := state_value s =? state_value t.

Definition state_in (s : tc_state) (ts : list tc_state) : bool :=
  negb (Z.land (state_value s) (foldr (λ t m, Z.lor (state_value t) m) 0 ts) =? 0).

(** [chain_buffer]: NULL, an allocated buffer of [buffer_length] bytes, or a pointer to memory that
    [realloc] has freed. *)
Inductive chain := NoChain | Chain (bytes : list Z) | Dangling.

Record connection := Connection {
  c_state : tc_state;
  c_tx_time : Z * Z;
  c_last_poll_time : Z * Z;
  c_chain : chain;
  c_send_queue : list (list Z);
}.

Record slot := Slot {
  s_ca_hndl : Z;
  s_slot : Z;
  s_connections : list connection;
  s_response_timeout : Z;
  s_poll_delay : Z;
}.

(** [struct en50221_transport_layer]; a pollfd is its [fd] and [events]; the callback is its
    [callback_arg] when it is not NULL. *)
Record transport_layer := TransportLayer {
  tl_max_slots : Z;
  tl_max_connections_per_slot : Z;
  tl_slots : list slot;
  tl_slot_pollfds : list (Z * Z);
  tl_slots_changed : bool;
  tl_error : Z;
  tl_error_slot : Z;
  tl_callback : option Z;
}.

Definition set_state (st : tc_state) (c : connection) : connection :=
  Connection st (c_tx_time c) (c_last_poll_time c) (c_chain c) (c_send_queue c).
Definition set_tx_time (t : Z * Z) (c : connection) : connection :=
  Connection (c_state c) t (c_last_poll_time c) (c_chain c) (c_send_queue c).
(** [tx_time.tv_sec = 0] *)
Definition clear_tx_time (c : connection) : connection := set_tx_time (0, (c_tx_time c).2) c.
Definition set_last_poll_time (t : Z * Z) (c : connection) : connection :=
  Connection (c_state c) (c_tx_time c) t (c_chain c) (c_send_queue c).
Definition set_chain (ch : chain) (c : connection) : connection :=
  Connection (c_state c) (c_tx_time c) (c_last_poll_time c) ch (c_send_queue c).
Definition set_send_queue (q : list (list Z)) (c : connection) : connection :=
  Connection (c_state c) (c_tx_time c) (c_last_poll_time c) (c_chain c) q.

Definition set_connections (cs : list connection) (s : slot) : slot :=
  Slot (s_ca_hndl s) (s_slot s) cs (s_response_timeout s) (s_poll_delay s).

Definition set_slots (ss : list slot) (tl : transport_layer) : transport_layer :=
  TransportLayer (tl_max_slots tl) (tl_max_connections_per_slot tl) ss (tl_slot_pollfds tl)
    (tl_slots_changed tl) (tl_error tl) (tl_error_slot tl) (tl_callback tl).
Definition set_pollfds (p : list (Z * Z)) (ch : bool) (tl : transport_layer) : transport_layer :=
  TransportLayer (tl_max_slots tl) (tl_max_connections_per_slot tl) (tl_slots tl) p ch
    (tl_error tl) (tl_error_slot tl) (tl_callback tl).
Definition set_error (err : Z) (tl : transport_layer) : transport_layer :=
  TransportLayer (tl_max_slots tl) (tl_max_connections_per_slot tl) (tl_slots tl)
    (tl_slot_pollfds tl) (tl_slots_changed tl) err (tl_error_slot tl) (tl_callback tl).
Definition set_error_slot (es : Z) (tl : transport_layer) : transport_layer :=
  TransportLayer (tl_max_slots tl) (tl_max_connections_per_slot tl) (tl_slots tl)
    (tl_slot_pollfds tl) (tl_slots_changed tl) (tl_error tl) es (tl_callback tl).
Definition set_callback (cb : option Z) (tl : transport_layer) : transport_layer :=
  TransportLayer (tl_max_slots tl) (tl_max_connections_per_slot tl) (tl_slots tl)
    (tl_slot_pollfds tl) (tl_slots_changed tl) (tl_error tl) (tl_error_slot tl) cb.

(** The program state contains a transport layer; the layers above have their own state, which the
    callback may change. *)
Class HasTransport (S : Type) := {
  get_tl : S -> transport_layer;
  put_tl : transport_layer -> S -> S;
}.

Class TransportLaws (S : Type) `{HasTransport S} := {
  get_put : forall t s, get_tl (put_tl t s) = t;
}.

#[export] Instance transport_alone : HasTransport transport_layer :=
  {| get_tl := λ t, t; put_tl := λ t _, t |}.
#[export] Instance transport_alone_laws : TransportLaws transport_layer.
Proof. done. Qed.

(** The callback of the layer above: reason, data, slot and connection. *)
Definition callback (S : Type) : Type := Z -> Z -> list Z -> Z -> Z -> IO S unit.

(** ** Operations *)

Section Transport.
Context {S : Type} `{HasTransport S} (e : env) (cb : callback S).

Definition tl_of : IO S transport_layer := s ← get_state; mret (get_tl s).
Definition tl_modify (f : transport_layer -> transport_layer) : IO S unit :=
  modify (λ s, put_tl (f (get_tl s)) s).

(** [tl->slots[slot_id]] and [tl->slots[slot_id].connections[connection_id]]. *)
Definition get_slot (slot_id : Z) : IO S slot := tl ← tl_of; lift (at_ (tl_slots tl) slot_id).

Definition get_connection (slot_id connection_id : Z) : IO S connection :=
  s ← get_slot slot_id;
  lift (at_ (s_connections s) connection_id).

Definition put_slot (slot_id : Z) (s : slot) : IO S unit :=
  tl ← tl_of;
  match insert_z slot_id s (tl_slots tl) with
  | Some ss => tl_modify (set_slots ss)
  | None => io_fault OutOfBounds
  end.

Definition upd_connection (slot_id connection_id : Z) (f : connection -> connection) : IO S unit :=
  s ← get_slot slot_id;
  c ← lift (at_ (s_connections s) connection_id);
  match insert_z connection_id (f c) (s_connections s) with
  | Some cs => put_slot slot_id (set_connections cs s)
  | None => io_fault OutOfBounds
  end.

(** [tl->error = err; return -1;], with and without [tl->error_slot = slot_id;]. *)
Definition fail (err : Z) : IO S Z := tl_modify (set_error err);; mret (-1).
Definition fail_slot (slot_id err : Z) : IO S Z :=
  tl_modify (set_error_slot slot_id);; fail err.

(** [if (cb) cb(cb_arg, reason, data, data_length, slot_id, connection_id);] *)
Definition run_callback (reason : Z) (data : list Z) (slot_id connection_id : Z) : IO S unit :=
  tl ← tl_of;
  match tl_callback tl with
  | Some arg =>
      log_event (Called arg reason data slot_id connection_id);;
      cb arg reason data slot_id connection_id
  | None => mret tt
  end.

(** [free(chain_buffer)], of a buffer that is allocated or NULL. *)
Definition free_chain (ch : chain) : IO S unit :=
  match ch with Dangling => io_fault BadPointer | _ => mret tt end.

Definition queue_message (slot_id connection_id : Z) (msg : list Z) : IO S unit :=
  upd_connection slot_id connection_id (λ c, set_send_queue (c_send_queue c ++ [msg]) c).

(** The first idle connection, from number [i] on. *)
Fixpoint find_idle (cs : list connection) (i : Z) : Z :=
  match cs with
  | [] => -1
  | c :: cs => if state_is (c_state c) T_STATE_IDLE then i else find_idle cs (i + 1)
  end.

Definition en50221_tl_alloc_new_tc (slot_id : Z) : IO S Z :=
  tl ← tl_of;
  s ← get_slot slot_id;
  if zlen (s_connections s) <? tl_max_connections_per_slot tl then io_fault OutOfBounds
  else
    let conid := find_idle
      (drop 1 (take (Z.to_nat (tl_max_connections_per_slot tl)) (s_connections s))) 1 in
    if conid =? -1 then mret (-1)
    else
      upd_connection slot_id conid (λ c, set_chain NoChain (set_state T_STATE_IN_CREATION c));;
      mret conid.

(** [dvbca_link_write] on the device of the slot. *)
Definition slot_write (slot_id connection_id : Z) (data : list Z) (data_length : Z) : IO S Z :=
  s ← get_slot slot_id;
  dvbca_link_write e (s_ca_hndl s) (s_slot s) connection_id data data_length.

Definition en50221_tl_poll_tc (slot_id connection_id : Z) : IO S Z :=
  t ← gettimeofday e;
  upd_connection slot_id connection_id (set_tx_time t);;
  r ← slot_write slot_id connection_id [T_DATA_LAST; 1; connection_id] 3;
  if r <? 0 then fail_slot slot_id EN50221ERR_CAWRITE else mret 0.

(** *** Messages from the module *)

Definition en50221_tl_handle_create_tc_reply (slot_id connection_id : Z) : IO S Z :=
  c ← get_connection slot_id connection_id;
  if state_is (c_state c) T_STATE_IN_CREATION then
    upd_connection slot_id connection_id (λ c, clear_tx_time (set_state T_STATE_ACTIVE c));;
    run_callback T_CALLBACK_REASON_CONNECTIONOPEN [] slot_id connection_id;;
    mret 0
  else fail_slot slot_id EN50221ERR_BADCAMDATA.

Definition en50221_tl_handle_delete_tc (slot_id connection_id : Z) : IO S Z :=
  c ← get_connection slot_id connection_id;
  if state_in (c_state c) [T_STATE_ACTIVE; T_STATE_IN_DELETION] then
    free_chain (c_chain c);;
    upd_connection slot_id connection_id (λ c, set_chain NoChain (set_state T_STATE_IDLE c));;
    r ← slot_write slot_id connection_id [T_D_T_C_REPLY; 1; connection_id] 3;
    if r <? 0 then fail_slot slot_id EN50221ERR_CAWRITE
    else
      run_callback T_CALLBACK_REASON_CONNECTIONCLOSE [] slot_id connection_id;;
      mret 0
  else fail_slot slot_id EN50221ERR_BADCAMDATA.

Definition en50221_tl_handle_delete_tc_reply (slot_id connection_id : Z) : IO S Z :=
  c ← get_connection slot_id connection_id;
  if state_is (c_state c) T_STATE_IN_DELETION then
    upd_connection slot_id connection_id (set_state T_STATE_IDLE);;
    mret 0
  else fail_slot slot_id EN50221ERR_BADCAMDATA.

Definition en50221_tl_handle_request_tc (slot_id connection_id : Z) : IO S Z :=
  conid ← en50221_tl_alloc_new_tc slot_id;
  if conid =? -1 then
    r ← slot_write slot_id connection_id [T_T_C_ERROR; 2; connection_id; 1] 4;
    if r <? 0 then fail_slot slot_id EN50221ERR_CAWRITE
    else upd_connection slot_id connection_id clear_tx_time;; mret 0
  else
    r ← slot_write slot_id connection_id [T_NEW_T_C; 2; connection_id; u8 conid] 4;
    if r <? 0 then
      upd_connection slot_id conid (set_state T_STATE_IDLE);;
      fail_slot slot_id EN50221ERR_CAWRITE
    else
      upd_connection slot_id connection_id clear_tx_time;;
      r ← slot_write slot_id (u8 conid) [T_CREATE_T_C; 1; u8 conid; u8 conid] 3;
      if r <? 0 then
        upd_connection slot_id conid (set_state T_STATE_IDLE);;
        fail_slot slot_id EN50221ERR_CAWRITE
      else
        t ← gettimeofday e;
        upd_connection slot_id conid (set_tx_time t);;
        run_callback T_CALLBACK_REASON_CAMCONNECTIONOPEN [] slot_id (u8 conid);;
        mret 0.

(** [realloc(chain_buffer, new_data_length)] followed by the copy of the new bytes at its end.
    [realloc(p, 0)] frees [p] and returns NULL when [p] is not NULL. *)
Definition realloc_append (ch : chain) (bytes : list Z) : IO S (option (list Z)) :=
  match ch with
  | Dangling => io_fault BadPointer
  | NoChain => ok ← malloc e; mret (if ok : bool then Some bytes else None)
  | Chain old =>
      if zlen (old ++ bytes) =? 0 then mret None
      else ok ← malloc e; mret (if ok : bool then Some (old ++ bytes) else None)
  end.

(** What [chain_buffer] points to after a failed [realloc]. *)
Definition chain_after_failure (ch : chain) (bytes : list Z) : chain :=
  match ch with
  | Chain old => if zlen (old ++ bytes) =? 0 then Dangling else ch
  | _ => ch
  end.

Definition en50221_tl_handle_data_more (slot_id connection_id : Z) (data : list Z) : IO S Z :=
  c ← get_connection slot_id connection_id;
  if negb (state_is (c_state c) T_STATE_ACTIVE) then fail_slot slot_id EN50221ERR_BADCAMDATA
  else
    upd_connection slot_id connection_id clear_tx_time;;
    new_data_buffer ← realloc_append (c_chain c) data;
    match new_data_buffer with
    | None =>
        upd_connection slot_id connection_id (set_chain (chain_after_failure (c_chain c) data));;
        fail_slot slot_id EN50221ERR_OUTOFMEMORY
    | Some b => upd_connection slot_id connection_id (set_chain (Chain b));; mret 0
    end.

Definition en50221_tl_handle_data_last (slot_id connection_id : Z) (data : list Z) : IO S Z :=
  c ← get_connection slot_id connection_id;
  if negb (state_is (c_state c) T_STATE_ACTIVE) then fail_slot slot_id EN50221ERR_BADCAMDATA
  else
    upd_connection slot_id connection_id clear_tx_time;;
    match c_chain c with
    | NoChain =>
        (if 0 <? zlen data then run_callback T_CALLBACK_REASON_DATA data slot_id connection_id
         else mret tt);;
        mret 0
    | ch =>
        new_data_buffer ← realloc_append ch data;
        match new_data_buffer with
        | None =>
            upd_connection slot_id connection_id (set_chain (chain_after_failure ch data));;
            fail_slot slot_id EN50221ERR_OUTOFMEMORY
        | Some b =>
            upd_connection slot_id connection_id (set_chain NoChain);;
            (if 0 <? zlen data then run_callback T_CALLBACK_REASON_DATA b slot_id connection_id
             else mret tt);;
            mret 0
        end
    end.

Definition en50221_tl_handle_sb (slot_id connection_id : Z) (data : list Z) : IO S Z :=
  c ← get_connection slot_id connection_id;
  if negb (state_is (c_state c) T_STATE_ACTIVE) then fail_slot slot_id EN50221ERR_BADCAMDATA
  else if negb (zlen data =? 1) then fail_slot slot_id EN50221ERR_BADCAMDATA
  else
    b ← lift (at_ data 0);
    if negb (Z.land b 0x80 =? 0) then
      r ← slot_write slot_id connection_id [T_RCV; 1; connection_id] 3;
      if r <? 0 then fail_slot slot_id EN50221ERR_CAWRITE
      else
        t ← gettimeofday e;
        upd_connection slot_id connection_id (set_tx_time t);;
        mret 0
    else upd_connection slot_id connection_id clear_tx_time;; mret 0.

(** The [switch] on the tag. *)
Definition handle_tpdu (slot_id tpdu_tag connection_id : Z) (data : list Z) : IO S Z :=
  if tpdu_tag =? T_C_T_C_REPLY then en50221_tl_handle_create_tc_reply slot_id connection_id
  else if tpdu_tag =? T_DELETE_T_C then en50221_tl_handle_delete_tc slot_id connection_id
  else if tpdu_tag =? T_D_T_C_REPLY then en50221_tl_handle_delete_tc_reply slot_id connection_id
  else if tpdu_tag =? T_REQUEST_T_C then en50221_tl_handle_request_tc slot_id connection_id
  else if tpdu_tag =? T_DATA_MORE then en50221_tl_handle_data_more slot_id connection_id data
  else if tpdu_tag =? T_DATA_LAST then en50221_tl_handle_data_last slot_id connection_id data
  else if tpdu_tag =? T_SB then en50221_tl_handle_sb slot_id connection_id data
  else fail_slot slot_id EN50221ERR_BADCAMDATA.

(** One TPDU at the start of [data]: the bytes that follow it, or [None] after [return -1]. *)
Definition process_tpdu (slot_id : Z) (data : list Z) : IO S (option (list Z)) :=
  let data_length := zlen data in
  let return_error err := fail_slot slot_id err;; mret None in
  tpdu_tag ← lift (at_ data 0);
  decoded ← lift (asn_1_decode (drop 1 data) (data_length - 1));
  match decoded with
  | None => return_error EN50221ERR_BADCAMDATA
  | Some (asn_data_length, length_field_len) =>
      if (asn_data_length <? 1) || (data_length - (1 + length_field_len) <? asn_data_length)
      then return_error EN50221ERR_BADCAMDATA
      else
        connection_id ← lift (at_ data (1 + length_field_len));
        tl ← tl_of;
        let data := drop (Z.to_nat (1 + length_field_len + 1)) data in
        let asn_data_length := asn_data_length - 1 in
        if tl_max_connections_per_slot tl <=? connection_id
        then return_error EN50221ERR_BADCONNECTIONID
        else
          result ← handle_tpdu slot_id tpdu_tag connection_id (take (Z.to_nat asn_data_length) data);
          if result <? 0 then mret None
          else mret (Some (drop (Z.to_nat asn_data_length) data))
  end.

(** [while (data_length)]; every TPDU takes a byte, so the number of bytes is enough fuel. *)
Fixpoint process_data_ (fuel : nat) (slot_id : Z) (data : list Z) : IO S Z :=
  if zlen data =? 0 then mret 0
  else
    match fuel with
    | O => io_fault OutOfFuel
    | Datatypes.S fuel =>
        r ← process_tpdu slot_id data;
        match r with
        | None => mret (-1)
        | Some data => process_data_ fuel slot_id data
        end
    end.

Definition en50221_tl_process_data (slot_id : Z) (data : list Z) : IO S Z :=
  process_data_ (length data) slot_id data.

(** *** Polling *)

Definition POLLIN : Z := 0x1.
Definition POLLPRI : Z := 0x2.
Definition POLLERR : Z := 0x8.

Definition slot_pollfd (s : slot) : Z * Z :=
  if negb (s_ca_hndl s =? -1) then (s_ca_hndl s, Z.lor (Z.lor POLLIN POLLPRI) POLLERR) else (0, 0).

(** The number of a used slot of the device [ca_hndl] for the CAM slot [r_slot_id], from number
    [i] on; the number of slots if there is none. *)
Fixpoint find_slot (ss : list slot) (ca_hndl r_slot_id i : Z) : Z :=
  match ss with
  | [] => i
  | s :: ss =>
      if (s_ca_hndl s =? ca_hndl) && (s_slot s =? r_slot_id) then i
      else find_slot ss ca_hndl r_slot_id (i + 1)
  end.

(** "read data ... process it if we got some"; 0 to go on. *)
Definition poll_read (slot_id ca_hndl : Z) : IO S Z :=
  r ← dvbca_link_read e ca_hndl 4096;
  match r with
  | None => fail_slot slot_id EN50221ERR_CAREAD
  | Some (r_slot_id, _, data) =>
      if zlen data =? 0 then mret 0
      else
        s ← get_slot slot_id;
        if negb (s_slot s =? r_slot_id) then
          tl ← tl_of;
          let new_slot_id := find_slot (tl_slots tl) ca_hndl r_slot_id 0 in
          if negb (new_slot_id =? tl_max_slots tl) then
            r ← en50221_tl_process_data new_slot_id data;
            mret (if r =? 0 then 0 else -1)
          else fail EN50221ERR_BADSLOTID
        else
          r ← en50221_tl_process_data slot_id data;
          mret (if r =? 0 then 0 else -1)
  end.

(** "send queued data", on a connection that is not idle. *)
Definition poll_send (slot_id j : Z) : IO S Z :=
  c ← get_connection slot_id j;
  if state_in (c_state c) [T_STATE_IN_CREATION; T_STATE_ACTIVE; T_STATE_ACTIVE_DELETEQUEUED] then
    match c_send_queue c with
    | msg :: queue =>
        if (c_tx_time c).1 =? 0 then
          upd_connection slot_id j (set_send_queue queue);;
          r ← slot_write slot_id j msg (zlen msg);
          if r <? 0 then fail_slot slot_id EN50221ERR_CAWRITE
          else
            t ← gettimeofday e;
            upd_connection slot_id j (set_tx_time t);;
            (if (0 <? zlen msg) && (default 0 (msg !z 0) =? T_DELETE_T_C) then
               c ← get_connection slot_id j;
               free_chain (c_chain c);;
               upd_connection slot_id j (λ c, set_chain NoChain (set_state T_STATE_IN_DELETION c))
             else mret tt);;
            mret 0
        else mret 0
    | [] => mret 0
    end
  else mret 0.

(** "poll it if we're not expecting a reponse and the poll time has elapsed". *)
Definition poll_ask (slot_id j : Z) : IO S Z :=
  c ← get_connection slot_id j;
  s ← get_slot slot_id;
  if state_in (c_state c) [T_STATE_ACTIVE] then
    if (c_tx_time c).1 =? 0 then
      late ← time_after e (c_last_poll_time c) (s_poll_delay s);
      if (late : bool) then
        t ← gettimeofday e;
        upd_connection slot_id j (set_last_poll_time t);;
        r ← en50221_tl_poll_tc slot_id j;
        mret (if r =? 0 then 0 else -1)
      else mret 0
    else mret 0
  else mret 0.

(** "check for timeouts - in any state". *)
Definition poll_timeout (slot_id j : Z) : IO S Z :=
  c ← get_connection slot_id j;
  s ← get_slot slot_id;
  if negb ((c_tx_time c).1 =? 0) then
    late ← time_after e (c_tx_time c) (s_response_timeout s);
    if (late : bool) then
      if state_in (c_state c) [T_STATE_IN_CREATION; T_STATE_IN_DELETION] then
        upd_connection slot_id j (set_state T_STATE_IDLE);; mret 0
      else if state_in (c_state c) [T_STATE_ACTIVE; T_STATE_ACTIVE_DELETEQUEUED] then
        fail_slot slot_id EN50221ERR_TIMEOUT
      else mret 0
    else mret 0
  else mret 0.

(** Go on with [k] unless the step returned an error. *)
Definition unless_error (c : IO S Z) (k : IO S Z) : IO S Z :=
  r ← c;
  if r <? 0 then mret (-1) else k.

Definition poll_connection (slot_id j : Z) : IO S Z :=
  c ← get_connection slot_id j;
  if state_is (c_state c) T_STATE_IDLE then mret 0
  else
    unless_error (poll_send slot_id j)
      (unless_error (poll_ask slot_id j) (poll_timeout slot_id j)).

Fixpoint poll_connections (n : nat) (slot_id j : Z) : IO S Z :=
  match n with
  | O => mret 0
  | Datatypes.S n =>
      unless_error (poll_connection slot_id j) (poll_connections n slot_id (j + 1))
  end.

Definition poll_slot (revents : list Z) (slot_id : Z) : IO S Z :=
  s ← get_slot slot_id;
  if s_ca_hndl s =? -1 then mret 0
  else
    tl ← tl_of;
    rev ← lift (at_ revents slot_id);
    unless_error
      (if negb (Z.land rev (Z.lor POLLPRI POLLIN) =? 0) then poll_read slot_id (s_ca_hndl s)
       else if negb (Z.land rev POLLERR =? 0) then fail_slot slot_id EN50221ERR_CAREAD
       else mret 0)
      (poll_connections (Z.to_nat (tl_max_connections_per_slot tl)) slot_id 0).

Fixpoint poll_slots (n : nat) (revents : list Z) (slot_id : Z) : IO S Z :=
  match n with
  | O => mret 0
  | Datatypes.S n => unless_error (poll_slot revents slot_id) (poll_slots n revents (slot_id + 1))
  end.

Definition en50221_tl_poll : IO S Z :=
  tl ← tl_of;
  (if tl_slots_changed tl then
     tl_modify (set_pollfds (slot_pollfd <$> tl_slots tl) false)
   else mret tt);;
  '(r, revents) ← sys_poll e;
  if r <? 0 then fail_slot (-1) EN50221ERR_CAREAD
  else poll_slots (Z.to_nat (tl_max_slots tl)) revents 0.

(** *** The interface of the layer *)

Definition idle_connection : connection := Connection T_STATE_IDLE (0, 0) (0, 0) NoChain [].

(** The first free slot, from number [i] on. *)
Fixpoint find_free_slot (ss : list slot) (i : Z) : Z :=
  match ss with
  | [] => -1
  | s :: ss => if s_ca_hndl s =? -1 then i else find_free_slot ss (i + 1)
  end.

Definition en50221_tl_register_slot (ca_hndl slot response_timeout poll_delay : Z) : IO S Z :=
  tl ← tl_of;
  let slot_id := find_free_slot (tl_slots tl) 0 in
  if slot_id =? -1 then fail EN50221ERR_OUTOFSLOTS
  else
    s ← get_slot slot_id;
    put_slot slot_id (Slot ca_hndl slot (s_connections s) response_timeout poll_delay);;
    tl_modify (λ tl, set_pollfds (tl_slot_pollfds tl) true tl);;
    mret slot_id.

(** [free] of the chain of each connection. *)
Fixpoint free_chains (cs : list connection) : IO S unit :=
  match cs with
  | [] => mret tt
  | c :: cs => free_chain (c_chain c);; free_chains cs
  end.

Definition clear_connection (c : connection) : connection :=
  Connection T_STATE_IDLE (0, (c_tx_time c).2) (0, 0) NoChain [].

Definition en50221_tl_destroy_slot (slot_id : Z) : IO S unit :=
  tl ← tl_of;
  if tl_max_slots tl <=? slot_id then mret tt
  else
    s ← get_slot slot_id;
    free_chains (s_connections s);;
    put_slot slot_id (Slot (-1) (s_slot s) (clear_connection <$> s_connections s)
                        (s_response_timeout s) (s_poll_delay s));;
    run_callback T_CALLBACK_REASON_SLOTCLOSE [] slot_id 0;;
    tl_modify (λ tl, set_pollfds (tl_slot_pollfds tl) true tl).

(** What [en50221_tl_destroy] frees that may not be allocated. *)
Fixpoint free_slots (ss : list slot) : IO S unit :=
  match ss with
  | [] => mret tt
  | s :: ss => free_chains (s_connections s);; free_slots ss
  end.

Definition en50221_tl_destroy : IO S unit := tl ← tl_of; free_slots (tl_slots tl).

Definition en50221_tl_register_callback (arg : option Z) : IO S unit := tl_modify (set_callback arg).
Definition en50221_tl_get_error_slot : IO S Z := tl ← tl_of; mret (tl_error_slot tl).
Definition en50221_tl_get_error : IO S Z := tl ← tl_of; mret (tl_error tl).

(** The checks common to the calls of the layer above: the slot is in use and the connection
    exists.  [k] goes on with the connection. *)
Definition checked (slot_id connection_id : Z) (k : connection -> IO S Z) : IO S Z :=
  tl ← tl_of;
  if tl_max_slots tl <=? slot_id then fail EN50221ERR_BADSLOTID
  else
    s ← get_slot slot_id;
    if s_ca_hndl s =? -1 then fail EN50221ERR_BADSLOTID
    else if tl_max_connections_per_slot tl <=? connection_id then
      fail_slot slot_id EN50221ERR_BADCONNECTIONID
    else c ← lift (at_ (s_connections s) connection_id); k c.

(** The message of [data], whose length is given as [data_size], in a buffer of
    [data_size + 10] bytes. *)
Definition queue_data (slot_id connection_id data_size : Z) (data : list Z) : IO S Z :=
  ok ← malloc e;
  if negb ok then fail_slot slot_id EN50221ERR_OUTOFMEMORY
  else
    match asn_1_encode (u32 (data_size + 1)) 3 with
    | None => fail_slot slot_id EN50221ERR_ASNENCODE
    | Some length_field =>
        let msg := [T_DATA_LAST] ++ length_field ++ [connection_id] ++ data in
        if data_size + 10 <? zlen msg then io_fault OutOfBounds
        else
          let length := u32 (1 + zlen length_field + 1 + data_size) in
          queue_message slot_id connection_id (take (Z.to_nat length) msg);;
          mret 0
    end.

Definition en50221_tl_send_data (slot_id connection_id : Z) (data : list Z) : IO S Z :=
  checked slot_id connection_id (λ c,
    if negb (state_is (c_state c) T_STATE_ACTIVE) then fail EN50221ERR_BADCONNECTIONID
    else queue_data slot_id connection_id (zlen data) data).

(** The total length is computed in 32 bits. *)
Definition en50221_tl_send_datav (slot_id connection_id : Z) (vector : list (list Z)) : IO S Z :=
  checked slot_id connection_id (λ c,
    if negb (state_is (c_state c) T_STATE_ACTIVE) then fail EN50221ERR_BADCONNECTIONID
    else
      let data_size := foldl (λ n v, u32 (n + zlen v)) 0 vector in
      queue_data slot_id connection_id data_size (concat vector)).

Definition en50221_tl_new_tc (slot_id : Z) : IO S Z :=
  tl ← tl_of;
  if tl_max_slots tl <=? slot_id then fail EN50221ERR_BADSLOTID
  else
    s ← get_slot slot_id;
    if s_ca_hndl s =? -1 then fail EN50221ERR_BADSLOTID
    else
      conid ← en50221_tl_alloc_new_tc slot_id;
      if conid =? -1 then fail_slot slot_id EN50221ERR_OUTOFCONNECTIONS
      else
        ok ← malloc e;
        if negb ok then fail_slot slot_id EN50221ERR_OUTOFMEMORY
        else
          queue_message slot_id conid [T_CREATE_T_C; 1; u8 conid];;
          mret conid.

Definition en50221_tl_del_tc (slot_id connection_id : Z) : IO S Z :=
  checked slot_id connection_id (λ c,
    if negb (state_in (c_state c) [T_STATE_ACTIVE; T_STATE_IN_DELETION]) then
      fail_slot slot_id EN50221ERR_BADSTATE
    else
      ok ← malloc e;
      if negb ok then fail_slot slot_id EN50221ERR_OUTOFMEMORY
      else
        queue_message slot_id connection_id [T_DELETE_T_C; 1; connection_id];;
        upd_connection slot_id connection_id (set_state T_STATE_ACTIVE_DELETEQUEUED);;
        mret 0).

Definition en50221_tl_get_connection_state (slot_id connection_id : Z) : IO S Z :=
  checked slot_id connection_id (λ c, mret (state_value (c_state c))).

(** The new layer.  When the connections of a slot cannot be allocated, the exit path destroys
    the layer, which follows the [connections] pointers of the slots not yet set up. *)
Fixpoint create_slots (n : nat) (max_connections_per_slot : Z) : IO S (option (list slot)) :=
  match n with
  | O => mret (Some [])
  | Datatypes.S n =>
      ok ← malloc e;
      if negb ok then
        match n with O => mret None | _ => io_fault BadPointer end
      else
        rest ← create_slots n max_connections_per_slot;
        match rest with
        | None => mret None
        | Some ss =>
            let s := Slot (-1) 0 (replicate (Z.to_nat max_connections_per_slot) idle_connection)
                       0 0 in
            mret (Some (s :: ss))
        end
  end.

Definition en50221_tl_create (max_slots max_connections_per_slot : Z) :
    IO S (option transport_layer) :=
  ok ← malloc e;
  if negb ok then mret None
  else
    ok ← malloc e;
    if negb ok then mret None
    else
      slots ← create_slots (Z.to_nat max_slots) max_connections_per_slot;
      match slots with
      | None => mret None
      | Some ss =>
          ok ← malloc e;
          if negb ok then mret None
          else
            mret (Some (TransportLayer max_slots max_connections_per_slot ss
                          (replicate (Z.to_nat max_slots) (0, 0)) true 0 0 None))
      end.
End Transport.
