(* ===== verification/En50221Safety.v ===== *)
(** * The transport layer is safe

    The state machine of a connection, the invariant of the layer, and the theorem that every
    operation of En50221Transport.v keeps the invariant without a memory fault, whatever the module
    sends and whatever the operating system answers. *)

From S2P Require Export En50221Transport.

(** ** The state machine of a connection *)

Inductive tc_step : tc_state -> tc_state -> Prop :=
  | step_create : tc_step T_STATE_IDLE T_STATE_IN_CREATION
  | step_created : tc_step T_STATE_IN_CREATION T_STATE_ACTIVE
  | step_not_created : tc_step T_STATE_IN_CREATION T_STATE_IDLE
  | step_queue_delete : tc_step T_STATE_ACTIVE T_STATE_ACTIVE_DELETEQUEUED
  | step_delete_again : tc_step T_STATE_IN_DELETION T_STATE_ACTIVE_DELETEQUEUED
  | step_delete : tc_step T_STATE_ACTIVE_DELETEQUEUED T_STATE_IN_DELETION
  | step_deleted : tc_step T_STATE_IN_DELETION T_STATE_IDLE
  | step_module_deletes : tc_step T_STATE_ACTIVE T_STATE_IDLE.

(** A sequence of steps. *)
Inductive tc_steps : tc_state -> tc_state -> Prop :=
  | steps_refl s : tc_steps s s
  | steps_step s t u : tc_steps s t -> tc_step t u -> tc_steps s u.

Lemma tc_steps_trans s t u : tc_steps s t -> tc_steps t u -> tc_steps s u.
Proof. intros Hst Htu. induction Htu as [|t' v u _ IH Hu]; [done|]. eapply steps_step; [by apply IH|done]. Qed.

Lemma tc_steps_one s t : tc_step s t -> tc_steps s t.
Proof. intros H. eapply steps_step; [constructor|done]. Qed.

(** At most one step: what a single write of the layer does to a connection. *)
Definition tc_move (s t : tc_state) : Prop := s = t \/ tc_step s t.

Lemma tc_move_same s : tc_move s s.
Proof. by left. Qed.

Lemma tc_move_one s t : tc_step s t -> tc_move s t.
Proof. by right. Qed.

(** An idle connection can only be created. *)
Lemma tc_move_not s t : tc_move s t -> s <> T_STATE_IDLE \/ t = T_STATE_IDLE \/ t = T_STATE_IN_CREATION.
Proof. intros [<-|[]]; destruct s; auto. Qed.

(** ** The invariant *)

Definition is_delete (msg : list Z) : Prop := msg !z 0 = Some T_DELETE_T_C.

(** [chain_buffer] is NULL, or allocated and not empty. *)
Definition chain_ok (ch : chain) : Prop :=
  match ch with
  | NoChain => True
  | Chain bs => bs <> [] /\ Forall byte bs
  | Dangling => False
  end.

Lemma chain_ok_allocated ch : chain_ok ch -> ch <> Dangling.
Proof. by intros H ->. Qed.

(** The chain buffer is in order; a T_DELETE_T_C message is only queued last,
    and only in the state that says so. *)
Record connection_ok (c : connection) : Prop := {
  co_chain : chain_ok (c_chain c);
  co_last : forall ms m, c_send_queue c = ms ++ [m] -> Forall (λ m, ~ is_delete m) ms;
  co_state : c_state c <> T_STATE_ACTIVE_DELETEQUEUED ->
    Forall (λ m, ~ is_delete m) (c_send_queue c);
}.

Definition connection_at (tl : transport_layer) (slot_id connection_id : Z) : option connection :=
  match tl_slots tl !z slot_id with
  | Some s => s_connections s !z connection_id
  | None => None
  end.

Section Invariant.
Context (max_slots max_connections : Z).

Record tl_wf (tl : transport_layer) : Prop := {
  wf_max_slots : tl_max_slots tl = max_slots;
  wf_max_connections : tl_max_connections_per_slot tl = max_connections;
  wf_slots : zlen (tl_slots tl) = max_slots;
  wf_lengths : Forall (λ s, zlen (s_connections s) = max_connections) (tl_slots tl);
  wf_connections : Forall (λ s, Forall connection_ok (s_connections s)) (tl_slots tl);
}.

(** Every connection is still there, in a state that is related to the one it had. *)
Definition tl_related (R : tc_state -> tc_state -> Prop) (tl tl' : transport_layer) : Prop :=
  forall slot_id connection_id c, connection_at tl slot_id connection_id = Some c ->
  exists c', connection_at tl' slot_id connection_id = Some c' /\ R (c_state c) (c_state c').

(** Since [tl] there were only steps of the state machine, or at most one for each connection. *)
Definition tl_evolves : transport_layer -> transport_layer -> Prop := tl_related tc_steps.
Definition tl_moves : transport_layer -> transport_layer -> Prop := tl_related tc_move.

Definition tl_inv (tl0 tl : transport_layer) : Prop := tl_wf tl /\ tl_evolves tl0 tl.

(** What a single write may do to a layer. *)
Definition tl_next (tl tl' : transport_layer) : Prop := tl_wf tl' /\ tl_moves tl tl'.

Lemma tl_inv_refl tl : tl_wf tl -> tl_inv tl tl.
Proof. intros H. split; [done|]. intros s i c Hc. exists c. split; [done|constructor]. Qed.

Lemma tl_inv_next tl0 tl tl' : tl_inv tl0 tl -> tl_next tl tl' -> tl_inv tl0 tl'.
Proof.
  intros [_ Hev] [Hwf Hm]. split; [done|]. intros s i c Hc. destruct (Hev s i c Hc) as (c1 & H1 & Hs).
  destruct (Hm s i c1 H1) as (c2 & H2 & [E|Hst]); exists c2; (split; [done|]); [by rewrite <- E|].
  by eapply steps_step.
Qed.

Lemma connection_at_some tl slot_id connection_id :
  tl_wf tl -> 0 <= slot_id < max_slots -> 0 <= connection_id < max_connections ->
  exists s c, tl_slots tl !z slot_id = Some s /\ s_connections s !z connection_id = Some c /\
    connection_ok c /\ connection_at tl slot_id connection_id = Some c.
Proof.
  intros [H1 H2 H3 H4 H5] Hs Hc. destruct (lookup_z_is_Some (tl_slots tl) slot_id) as [s Es]; [lia|].
  pose proof (lookup_z_Forall _ _ _ _ H4 Es) as Hl. cbv beta in Hl.
  pose proof (lookup_z_Forall _ _ _ _ H5 Es) as Hok. cbv beta in Hok.
  destruct (lookup_z_is_Some (s_connections s) connection_id) as [c Ec]; [lia|].
  exists s, c. split_and!; [done..|by eapply lookup_z_Forall|]. unfold connection_at. by rewrite Es.
Qed.

(** Replacing one connection. *)
Lemma tl_moves_connection tl slot_id connection_id s c c' :
  tl_slots tl !z slot_id = Some s -> s_connections s !z connection_id = Some c -> tc_move (c_state c) (c_state c') ->
  tl_moves tl (set_slots (<[Z.to_nat slot_id :=
    set_connections (<[Z.to_nat connection_id := c']> (s_connections s)) s]> (tl_slots tl)) tl).
Proof.
  intros Es Ec Hst. pose proof Es as Es'. pose proof Ec as Ec'.
  apply lookup_z_Some in Es as [Hs Es]. apply lookup_z_Some in Ec as [Hc Ec].
  intros sl co c1 Hc1. unfold connection_at in *. cbn [set_slots tl_slots].
  rewrite lookup_z_insert by done. destruct (Z.eqb_spec sl slot_id) as [->|]; [|exists c1; split; [done|by left]].
  cbn [set_connections s_connections]. rewrite lookup_z_insert by done. rewrite Es' in Hc1.
  destruct (Z.eqb_spec co connection_id) as [->|]; [|exists c1; split; [done|by left]].
  rewrite Ec' in Hc1. injection Hc1 as <-. by exists c'.
Qed.

Lemma tl_next_connection tl slot_id connection_id s c c' :
  tl_wf tl -> tl_slots tl !z slot_id = Some s -> s_connections s !z connection_id = Some c ->
  connection_ok c' -> tc_move (c_state c) (c_state c') ->
  tl_next tl (set_slots (<[Z.to_nat slot_id :=
    set_connections (<[Z.to_nat connection_id := c']> (s_connections s)) s]> (tl_slots tl)) tl).
Proof.
  intros [H1 H2 H3 H4 H5] Es Ec Hok Hst. split; [|by eapply tl_moves_connection].
  apply lookup_z_Some in Es as [Hs Es]. apply lookup_z_Some in Ec as [Hc Ec].
  split; cbn; [done..|by rewrite length_insert| |].
  - apply Forall_insert; [done|]. cbn. rewrite length_insert.
    by apply (Forall_lookup_1 _ _ _ _ H4 Es).
  - apply Forall_insert; [done|]. cbn. apply Forall_insert; [|done].
    by apply (Forall_lookup_1 _ _ _ _ H5 Es).
Qed.

(** Replacing one slot. *)
Lemma tl_wf_slot tl slot_id s' :
  tl_wf tl -> zlen (s_connections s') = max_connections ->
  Forall connection_ok (s_connections s') ->
  tl_wf (set_slots (<[Z.to_nat slot_id := s']> (tl_slots tl)) tl).
Proof.
  intros [H1 H2 H3 H4 H5] Hl Hok.
  split; cbn; [done..|by rewrite length_insert|by apply Forall_insert|by apply Forall_insert].
Qed.

Lemma tl_next_slot tl slot_id s s' :
  tl_wf tl -> tl_slots tl !z slot_id = Some s -> s_connections s' = s_connections s ->
  tl_next tl (set_slots (<[Z.to_nat slot_id := s']> (tl_slots tl)) tl).
Proof.
  intros Hwf Es Ecs. pose proof Hwf as [_ _ _ H4 H5]. split.
  - apply tl_wf_slot; [done|rewrite Ecs..].
    + by apply (lookup_z_Forall _ _ _ _ H4 Es).
    + by apply (lookup_z_Forall _ _ _ _ H5 Es).
  - intros sl co c Hc. exists c. split; [|by left].
    unfold connection_at in *. cbn [set_slots tl_slots]. pose proof Es as Es'.
    apply lookup_z_Some in Es' as [Hs _]. rewrite lookup_z_insert by done.
    destruct (Z.eqb_spec sl slot_id) as [->|]; [|done]. by rewrite Ecs, Es in *.
Qed.

(** Fields that the invariant does not mention. *)
Lemma tl_next_same tl tl' :
  tl_wf tl -> tl_slots tl' = tl_slots tl -> tl_max_slots tl' = tl_max_slots tl ->
  tl_max_connections_per_slot tl' = tl_max_connections_per_slot tl -> tl_next tl tl'.
Proof.
  intros [H1 H2 H3 H4 H5] Es Em Ec. split.
  - split; rewrite ?Es, ?Em, ?Ec; done.
  - intros sl co c Hc. exists c. unfold connection_at in *. rewrite Es. split; [done|by left].
Qed.
End Invariant.

(** ** The TPDU stream *)

(** The first TPDU of received data: tag, connection, payload, and the bytes after it. *)
Definition parse_tpdu (data : list Z) : option (Z * Z * list Z * list Z) :=
  match data with
  | [] => None
  | tag :: arr =>
      match asn_1_decode arr (zlen arr) with
      | Ok (Some (l, n)) =>
          if (l <? 1) || (zlen arr - n <? l) then None
          else
            match drop (Z.to_nat n) arr with
            | con :: body => Some (tag, con, take (Z.to_nat (l - 1)) body, drop (Z.to_nat (l - 1)) body)
            | [] => None
            end
      | _ => None
      end
  end.

(** No T_DATA_MORE of the data is empty. *)
Fixpoint no_empty_more (fuel : nat) (data : list Z) : bool :=
  match fuel with
  | O => true
  | Datatypes.S fuel =>
      match parse_tpdu data with
      | Some (tag, _, payload, rest) =>
          negb ((tag =? T_DATA_MORE) && (zlen payload =? 0)) && no_empty_more fuel rest
      | None => true
      end
  end.

Lemma parse_tpdu_length data tag con payload rest :
  parse_tpdu data = Some (tag, con, payload, rest) -> (length rest < length data)%nat.
Proof.
  unfold parse_tpdu. destruct data as [|t arr]; [done|].
  destruct (asn_1_decode arr (zlen arr)) as [[[l n]|]|]; try done.
  destruct (_ || _); [done|]. destruct (drop (Z.to_nat n) arr) as [|c body] eqn:E; [done|].
  intros [= <- <- <- <-]. apply (f_equal length) in E. rewrite length_drop in *.
  cbn [length] in *. lia.
Qed.

Lemma parse_tpdu_bytes data tag con payload rest :
  Forall byte data -> parse_tpdu data = Some (tag, con, payload, rest) ->
  byte tag /\ byte con /\ Forall byte payload /\ Forall byte rest.
Proof.
  unfold parse_tpdu. intros Hb. destruct data as [|t arr]; [done|].
  destruct (asn_1_decode arr (zlen arr)) as [[[l n]|]|]; try done.
  destruct (_ || _); [done|]. destruct (drop (Z.to_nat n) arr) as [|c body] eqn:E; [done|].
  intros [= <- <- <- <-]. apply Forall_cons_iff in Hb as [Ht Ha].
  assert (Forall byte (c :: body)) as Hcb by (rewrite <- E; by apply Forall_drop).
  apply Forall_cons_iff in Hcb as [Hc Hbody].
  split_and!; [done..|by apply Forall_take|by apply Forall_drop].
Qed.

(** The code parses TPDUs in this way. *)
Lemma process_tpdu_run {S} `{HasTransport S} e cb slot_id data :
  Forall byte data -> data <> [] ->
  process_tpdu (S := S) e cb slot_id data =
  match parse_tpdu data with
  | None => fail_slot slot_id EN50221ERR_BADCAMDATA;; mret None
  | Some (tag, con, payload, rest) =>
      tl ← tl_of;
      if tl_max_connections_per_slot tl <=? con
      then fail_slot slot_id EN50221ERR_BADCONNECTIONID;; mret None
      else
        result ← handle_tpdu e cb slot_id tag con payload;
        if result <? 0 then mret None else mret (Some rest)
  end.
Proof.
  intros Hb Hne. destruct data as [|tag arr]; [done|]. apply Forall_cons_iff in Hb as [Ht Ha].
  unfold process_tpdu. change (at_ (tag :: arr) 0) with (Ok tag).
  unfold mbind at 1, io_bind at 1, lift at 1. change (drop 1 (tag :: arr)) with arr.
  replace (zlen (tag :: arr) - 1) with (zlen arr) by (cbn [length]; lia).
  destruct (asn_1_decode_run arr Ha) as (r & Hr & Hf). unfold parse_tpdu. rewrite Hr.
  unfold mbind at 1, io_bind at 1, lift at 1. destruct r as [[l n]|]; [|done].
  assert (Hform : asn_1_form arr l n) by by apply Hf.
  pose proof (asn_1_form_bounds arr l n Ha Hform) as (Hl & Hn & Hna).
  replace (zlen (tag :: arr) - (1 + n)) with (zlen arr - n) by (cbn [length]; lia).
  destruct ((l <? 1) || (zlen arr - n <? l)) eqn:Elen; [done|]. bool_facts.
  destruct (drop (Z.to_nat n) arr) as [|con body] eqn:Ed.
  { apply (f_equal length) in Ed. rewrite length_drop in Ed. cbn in Ed. lia. }
  assert (at_ (tag :: arr) (1 + n) = Ok con) as ->.
  { unfold at_. rewrite lookup_z_cons by lia. replace (1 + n - 1) with (n + 0) by lia.
    rewrite <- lookup_z_drop by lia. by rewrite Ed. }
  unfold mbind at 1, io_bind at 1, lift at 1.
  assert (drop (Z.to_nat (1 + n + 1)) (tag :: arr) = body) as ->; [|done].
  replace (Z.to_nat (1 + n + 1)) with (Datatypes.S (Datatypes.S (Z.to_nat n))) by lia.
  cbn [drop]. replace (Datatypes.S (Z.to_nat n)) with (Z.to_nat n + 1)%nat by lia.
  rewrite <- drop_drop, Ed. done.
Qed.

(** ** Every operation keeps the invariant *)

Section Safety.
Context {S : Type} `{TransportLaws S} (e : env) (cb : callback S).
Context (max_slots max_connections : Z) (tl0 : transport_layer).
Hypothesis Hslots : 0 <= max_slots < 256.
Hypothesis Hconnections : 0 <= max_connections < 256.

(** What the layers above know, also of the steps of this one. *)
Context (J : S -> Prop).
Hypothesis HJ : forall tl s, J s -> tl_moves (get_tl s) tl -> J (put_tl tl s).

Definition inv (s : S) : Prop := tl_inv max_slots max_connections tl0 (get_tl s) /\ J s.

(** The callback may call the operations of the layer, so it is only assumed to keep the
    invariant too. *)
Hypothesis Hcb : forall arg reason data slot_id connection_id,
  byte slot_id -> byte connection_id -> Forall byte data ->
  keeps inv (cb arg reason data slot_id connection_id) (λ _, True).

Lemma inv_put tl s : inv s -> tl_next max_slots max_connections (get_tl s) tl -> inv (put_tl tl s).
Proof. intros [Hs HJs] Hn. split; [rewrite get_put; by eapply tl_inv_next|]. by apply HJ, Hn. Qed.

Definition valid (slot_id connection_id : Z) : Prop :=
  0 <= slot_id < max_slots /\ 0 <= connection_id < max_connections.

(** The state satisfies the invariant, and a connection is [c]. *)
Definition at_connection (slot_id connection_id : Z) (c : connection) (s : S) : Prop :=
  inv s /\ connection_at (get_tl s) slot_id connection_id = Some c /\ connection_ok c.

Lemma keeps_tl_of : keeps inv tl_of (tl_inv max_slots max_connections tl0).
Proof. eapply keeps_bind; [apply keeps_get|]. intros s [Hs _]. by apply keeps_ret. Qed.

Lemma keeps_tl_modify f :
  (forall tl, tl_wf max_slots max_connections tl -> tl_next max_slots max_connections tl (f tl)) ->
  keeps inv (tl_modify f) (λ _, True).
Proof.
  intros Hf. apply keeps_modify. intros s Hs. apply inv_put, Hf; [done|]. apply Hs.
Qed.

Lemma keeps_fail err : keeps inv (fail err) (λ r, r = -1).
Proof.
  eapply keeps_bind; [|intros; by apply keeps_ret]. apply keeps_tl_modify. intros tl Htl.
  by apply tl_next_same.
Qed.

Lemma keeps_fail_slot slot_id err : keeps inv (fail_slot slot_id err) (λ r, r = -1).
Proof.
  eapply keeps_bind; [|intros; by apply keeps_fail]. apply keeps_tl_modify. intros tl Htl.
  by apply tl_next_same.
Qed.

Lemma keeps_get_slot slot_id :
  0 <= slot_id < max_slots ->
  keeps inv (get_slot slot_id)
    (λ s, zlen (s_connections s) = max_connections /\ Forall connection_ok (s_connections s)).
Proof.
  intros Hs. eapply keeps_bind; [apply keeps_tl_of|]. intros tl [[H1 H2 H3 H4 H5] _].
  apply keeps_lift, okay_at; [|lia]. apply Forall_forall. intros s Hin.
  rewrite Forall_forall in H4, H5. auto.
Qed.

Lemma tl_of_run (w : world S) : tl_of w = Ok (get_tl (w_state w), w).
Proof. done. Qed.

Lemma get_slot_run slot_id s (w : world S) :
  tl_slots (get_tl (w_state w)) !z slot_id = Some s -> get_slot slot_id w = Ok (s, w).
Proof.
  intros Es. unfold get_slot, tl_of, get_state, mbind, io_bind, mret, io_ret, lift, at_.
  by rewrite Es.
Qed.

Lemma get_connection_run slot_id connection_id c (w : world S) :
  connection_at (get_tl (w_state w)) slot_id connection_id = Some c ->
  get_connection slot_id connection_id w = Ok (c, w).
Proof.
  unfold connection_at. destruct (tl_slots _ !z slot_id) as [s|] eqn:Es; [|done]. intros Ec.
  unfold get_connection. unfold mbind, io_bind at 1. rewrite (get_slot_run _ _ _ Es).
  unfold lift, at_. by rewrite Ec.
Qed.

Lemma upd_connection_run slot_id connection_id f s c (w : world S) :
  tl_slots (get_tl (w_state w)) !z slot_id = Some s -> s_connections s !z connection_id = Some c ->
  upd_connection slot_id connection_id f w =
  Ok (tt, World (put_tl (set_slots (<[Z.to_nat slot_id :=
     set_connections (<[Z.to_nat connection_id := f c]> (s_connections s)) s]>
     (tl_slots (get_tl (w_state w)))) (get_tl (w_state w))) (w_state w)) (w_tick w) (w_log w)).
Proof.
  intros Es Ec. unfold upd_connection. unfold mbind, io_bind at 1. rewrite (get_slot_run _ _ _ Es).
  unfold io_bind at 1, lift, at_. rewrite Ec. apply lookup_z_Some in Es as [Hs _].
  apply lookup_z_Some in Ec as [Hc _]. rewrite insert_z_Some by done.
  unfold put_slot, tl_of, get_state, mbind, io_bind, mret, io_ret, tl_modify, modify.
  by rewrite insert_z_Some.
Qed.

Lemma get_connection_at slot_id connection_id :
  valid slot_id connection_id ->
  hoare (on_state inv) (get_connection slot_id connection_id)
    (λ c, on_state (at_connection slot_id connection_id c)).
Proof.
  intros [Hs Hc] w Hw. pose proof Hw as [[Hwf _] HJw].
  destruct (connection_at_some _ _ _ _ _ Hwf Hs Hc) as (s & c & Es & Ec & Hok & Hat).
  by rewrite (get_connection_run _ _ _ _ Hat).
Qed.

(** An update of a connection that is known. *)
Lemma upd_connection_at slot_id connection_id f c :
  valid slot_id connection_id ->
  (connection_ok c -> connection_ok (f c) /\ tc_move (c_state c) (c_state (f c))) ->
  hoare (on_state (at_connection slot_id connection_id c)) (upd_connection slot_id connection_id f)
    (λ _, on_state (at_connection slot_id connection_id (f c))).
Proof.
  intros [Hs Hc] Hf w (Hw & Hat & Hok). pose proof Hw as [[Hwf _] HJw].
  destruct (connection_at_some _ _ _ _ _ Hwf Hs Hc) as (s & c' & Es & Ec & _ & Hat').
  rewrite Hat in Hat'. injection Hat' as <-. destruct (Hf Hok) as [Hok' Hst].
  rewrite (upd_connection_run _ _ _ _ _ _ Es Ec). cbn [okay]. split; [|split; [|done]].
  - unfold on_state. cbn [w_state]. apply inv_put; [done|]. by eapply tl_next_connection.
  - cbn [w_state]. rewrite get_put. unfold connection_at. cbn [set_slots tl_slots].
    apply lookup_z_Some in Es as [Hsl _]. apply lookup_z_Some in Ec as [Hcl _].
    rewrite lookup_z_insert by done. rewrite Z.eqb_refl. cbn [set_connections s_connections].
    rewrite lookup_z_insert by done. by rewrite Z.eqb_refl.
Qed.

(** An update that is right for every connection. *)
Lemma keeps_upd slot_id connection_id f :
  valid slot_id connection_id ->
  (forall c, connection_ok c -> connection_ok (f c) /\ tc_move (c_state c) (c_state (f c))) ->
  keeps inv (upd_connection slot_id connection_id f) (λ _, True).
Proof.
  intros Hv Hf w Hw. pose proof Hw as [[Hwf _] HJw]. destruct Hv as [Hs Hc].
  destruct (connection_at_some _ _ _ _ _ Hwf Hs Hc) as (s & c & _ & _ & Hok & Hat).
  pose proof (upd_connection_at slot_id connection_id f c (conj Hs Hc) (Hf c) w) as Hu.
  destruct (upd_connection slot_id connection_id f w) as [[[] w']|]; [|by apply Hu].
  destruct Hu as [Hu _]; done.
Qed.

(** Rules that read a connection, and go on knowing it. *)
Lemma keeps_with_connection {A} slot_id connection_id (k : connection -> IO S A) R :
  valid slot_id connection_id ->
  (forall c, connection_ok c ->
     hoare (on_state (at_connection slot_id connection_id c)) (k c) (λ a w, on_state inv w /\ R a)) ->
  keeps inv (get_connection slot_id connection_id ≫= k) R.
Proof.
  intros Hv Hk. eapply hoare_bind; [by apply get_connection_at|]. intros c w Hw.
  by apply (Hk c); [apply Hw|].
Qed.

Lemma hoare_at {A} slot_id connection_id c (k : IO S A) R :
  keeps inv k R ->
  hoare (on_state (at_connection slot_id connection_id c)) k (λ a w, on_state inv w /\ R a).
Proof. intros Hk. eapply hoare_mono; [exact Hk| |done]. by intros w [Hw _]. Qed.

Lemma hoare_at_upd {A} slot_id connection_id f c (k : IO S A) R :
  valid slot_id connection_id ->
  (connection_ok c -> connection_ok (f c) /\ tc_move (c_state c) (c_state (f c))) ->
  hoare (on_state (at_connection slot_id connection_id (f c))) k (λ a w, on_state inv w /\ R a) ->
  hoare (on_state (at_connection slot_id connection_id c)) (upd_connection slot_id connection_id f;; k)
    (λ a w, on_state inv w /\ R a).
Proof.
  intros Hv Hf Hk. eapply hoare_bind; [by apply upd_connection_at|]. by intros [].
Qed.

Lemma hoare_at_keeps {A B} slot_id connection_id c (x : IO S A) (k : A -> IO S B) Q R :
  keeps (at_connection slot_id connection_id c) x Q ->
  (forall a, Q a -> hoare (on_state (at_connection slot_id connection_id c)) (k a)
     (λ a w, on_state inv w /\ R a)) ->
  hoare (on_state (at_connection slot_id connection_id c)) (x ≫= k) (λ a w, on_state inv w /\ R a).
Proof.
  intros Hx Hk. eapply hoare_bind; [exact Hx|]. intros a w [Hw Ha]. by apply Hk.
Qed.

(** Updates of a connection that the invariant allows. *)
Lemma ok_same c c' :
  connection_ok c -> c_state c' = c_state c -> c_chain c' = c_chain c ->
  c_send_queue c' = c_send_queue c -> connection_ok c' /\ tc_move (c_state c) (c_state c').
Proof.
  intros [H1 H2 H3] Es Ec Eq. split; [|rewrite Es; apply tc_move_same].
  split; rewrite ?Es, ?Ec, ?Eq; done.
Qed.

Lemma ok_state c st :
  connection_ok c -> c_state c <> T_STATE_ACTIVE_DELETEQUEUED -> tc_step (c_state c) st ->
  connection_ok (set_state st c) /\ tc_move (c_state c) st.
Proof.
  intros [H1 H2 H3] Hne Hst. split; [|by apply tc_move_one]. split; cbn; [done..|].
  intros _. by apply H3.
Qed.

Lemma ok_chain c ch :
  connection_ok c -> chain_ok ch ->
  connection_ok (set_chain ch c) /\ tc_move (c_state c) (c_state (set_chain ch c)).
Proof. intros [H1 H2 H3] Hch. split; [by split|apply tc_move_same]. Qed.

Definition status (r : Z) : Prop := r = 0 \/ r = -1.

Lemma keeps_fail_status slot_id err : keeps inv (fail_slot slot_id err) status.
Proof. eapply keeps_mono; [by apply keeps_fail_slot|]. intros r ->. by right. Qed.

Lemma keeps_zero : keeps inv (mret 0) status.
Proof. apply keeps_ret. by left. Qed.

Lemma keeps_run_callback reason data slot_id connection_id :
  valid slot_id connection_id -> Forall byte data ->
  keeps inv (run_callback cb reason data slot_id connection_id) (λ _, True).
Proof.
  intros [Hs Hc] Hb. eapply keeps_bind; [apply keeps_tl_of|]. intros tl _. destruct (tl_callback tl).
  - eapply keeps_bind; [apply keeps_log|]. intros _ _. apply Hcb; [unfold byte; lia..|done].
  - by apply keeps_ret.
Qed.

Lemma keeps_slot_write (P : S -> Prop) slot_id con data len :
  (forall s, P s -> inv s) -> 0 <= slot_id < max_slots -> u16 len <= zlen data ->
  keeps P (slot_write e slot_id con data len) (λ _, True).
Proof.
  intros HP Hs Hl w Hw. pose proof (HP _ Hw) as [[[_ _ H3 _ _] _] _].
  destruct (lookup_z_is_Some (tl_slots (get_tl (w_state w))) slot_id) as [s Es]; [lia|].
  unfold slot_write, mbind, io_bind. rewrite (get_slot_run _ _ _ Es).
  by apply (keeps_link_write P).
Qed.

(** Binds nested to the left. *)
Lemma hoare_assoc {A B C} P (c : IO S A) (k : A -> IO S B) (h : B -> IO S C) Q :
  hoare P (c ≫= λ a, k a ≫= h) Q -> hoare P ((c ≫= k) ≫= h) Q.
Proof.
  intros Hc w Hw. specialize (Hc w Hw). unfold mbind, io_bind in *. by destruct (c w) as [[]|].
Qed.

Lemma at_get_connection slot_id connection_id c :
  keeps (at_connection slot_id connection_id c) (get_connection slot_id connection_id) (λ c', c' = c).
Proof. intros w Hw. pose proof Hw as (_ & Hat & _). by rewrite (get_connection_run _ _ _ _ Hat). Qed.

Lemma keeps_free_chain I ch : chain_ok ch -> keeps (S := S) I (free_chain ch) (λ _, True).
Proof. intros Hne. destruct ch; [by apply keeps_ret..|done]. Qed.


Lemma state_is_spec s t : state_is s t = true <-> s = t.
Proof. by destruct s, t. Qed.

(** *** The handlers *)

Ltac at_upd := apply hoare_at_upd; [done| |].
Ltac at_fail := apply hoare_at, keeps_fail_status.
Ltac then_zero := intros; apply keeps_zero.

(** The common shape: a write to the device, an error if it fails, or else more. *)
Lemma hoare_at_write slot_id connection_id c con data len (k : IO S Z) :
  valid slot_id connection_id -> u16 len <= zlen data ->
  hoare (on_state (at_connection slot_id connection_id c)) k (λ a w, on_state inv w /\ status a) ->
  hoare (on_state (at_connection slot_id connection_id c))
    (r ← slot_write e slot_id con data len;
     if r <? 0 then fail_slot slot_id EN50221ERR_CAWRITE else k)
    (λ a w, on_state inv w /\ status a).
Proof.
  intros Hv Hl Hk. eapply hoare_at_keeps; [by apply keeps_slot_write; [intros s []|apply Hv|]|].
  intros r _. destruct (r <? 0); [apply hoare_at, keeps_fail_status|done].
Qed.

Lemma create_tc_reply_keeps slot_id connection_id :
  valid slot_id connection_id ->
  keeps inv (en50221_tl_handle_create_tc_reply cb slot_id connection_id) status.
Proof.
  intros Hv. apply keeps_with_connection; [done|]. intros c Hok.
  destruct (state_is _ _) eqn:Est; [|at_fail]. apply state_is_spec in Est.
  at_upd.
  - intros [H1 H2 H3]. cbn. rewrite Est. split; [|apply tc_move_one; constructor].
    split; cbn; [done..|]. intros _. apply H3. by rewrite Est.
  - apply hoare_at. eapply keeps_bind; [by apply keeps_run_callback|]. then_zero.
Qed.

Lemma delete_tc_keeps slot_id connection_id :
  valid slot_id connection_id ->
  keeps inv (en50221_tl_handle_delete_tc e cb slot_id connection_id) status.
Proof.
  intros Hv. apply keeps_with_connection; [done|]. intros c Hok.
  destruct (state_in _ _) eqn:Est; [|at_fail].
  eapply hoare_at_keeps; [by apply keeps_free_chain, Hok|]. intros _ _.
  at_upd.
  - intros [H1 H2 H3]. cbn. split.
    + split; cbn; [done..|]. intros _. apply H3. by destruct (c_state c).
    + destruct (c_state c); try done; apply tc_move_one; constructor.
  - apply hoare_at_write; [done|done|]. apply hoare_at.
    eapply keeps_bind; [by apply keeps_run_callback|]. then_zero.
Qed.

Lemma delete_tc_reply_keeps slot_id connection_id :
  valid slot_id connection_id ->
  keeps inv (en50221_tl_handle_delete_tc_reply slot_id connection_id) status.
Proof.
  intros Hv. apply keeps_with_connection; [done|]. intros c Hok.
  destruct (state_is _ _) eqn:Est; [|at_fail]. apply state_is_spec in Est. at_upd.
  - intros Hc. apply ok_state; [done|by rewrite Est|rewrite Est; constructor].
  - apply hoare_at, keeps_zero.
Qed.

Lemma clear_tx_ok c :
  connection_ok c -> connection_ok (clear_tx_time c) /\ tc_move (c_state c) (c_state (clear_tx_time c)).
Proof. intros Hok. by apply ok_same. Qed.

Lemma set_tx_ok t c :
  connection_ok c -> connection_ok (set_tx_time t c) /\ tc_move (c_state c) (c_state (set_tx_time t c)).
Proof. intros Hok. by apply ok_same. Qed.

(** [realloc] keeps the chain allocated and not empty. *)
Lemma realloc_append_keeps I ch data :
  chain_ok ch -> Forall byte data -> (ch = NoChain -> data <> []) ->
  keeps (S := S) I (realloc_append e ch data)
    (λ r, match r with Some b => chain_ok (Chain b) | None => chain_after_failure ch data = ch end).
Proof.
  intros Hch Hb Hn. destruct ch as [|old|]; [| |done].
  - eapply keeps_bind; [apply keeps_malloc|]. intros [] _; apply keeps_ret; [|done].
    split; [by apply Hn|done].
  - destruct Hch as [Hne Ho]. assert (Hl : zlen (old ++ data) <> 0).
    { rewrite length_app. destruct old; [done|]. cbn [length]. lia. }
    unfold realloc_append, chain_after_failure. rewrite (proj2 (Z.eqb_neq _ _) Hl).
    eapply keeps_bind; [apply keeps_malloc|]. intros [] _; apply keeps_ret; [|done].
    split; [by destruct old|by apply Forall_app_2].
Qed.

Lemma data_more_keeps slot_id connection_id data :
  valid slot_id connection_id -> Forall byte data -> data <> [] ->
  keeps inv (en50221_tl_handle_data_more e slot_id connection_id data) status.
Proof.
  intros Hv Hb Hne. apply keeps_with_connection; [done|]. intros c Hok.
  destruct (negb _); [at_fail|]. at_upd; [apply clear_tx_ok|]. apply hoare_at.
  pose proof (co_chain c Hok) as Hch.
  eapply keeps_bind; [by apply realloc_append_keeps|]. intros [b|] Hr.
  - eapply keeps_bind; [|then_zero]. apply keeps_upd; [done|]. intros c' Hc'.
    by apply ok_chain.
  - rewrite Hr. eapply keeps_bind; [|intros; apply keeps_fail_status].
    apply keeps_upd; [done|]. intros c' Hc'. by apply ok_chain.
Qed.

Lemma data_last_keeps slot_id connection_id data :
  valid slot_id connection_id -> Forall byte data ->
  keeps inv (en50221_tl_handle_data_last e cb slot_id connection_id data) status.
Proof.
  intros Hv Hb. apply keeps_with_connection; [done|]. intros c Hok.
  destruct (negb _); [at_fail|]. at_upd; [apply clear_tx_ok|]. apply hoare_at.
  pose proof (co_chain c Hok) as Hch.
  assert (Hcall : forall b, Forall byte b -> keeps inv ((if 0 <? zlen data
    then run_callback cb T_CALLBACK_REASON_DATA b slot_id connection_id else mret tt);; mret 0) status).
  { intros b Hbb. eapply keeps_bind; [|then_zero].
    destruct (0 <? zlen data); [by apply keeps_run_callback|by apply keeps_ret]. }
  destruct (c_chain c) as [|old|] eqn:Ech; [by apply Hcall| |done].
  eapply keeps_bind; [by apply realloc_append_keeps|]. intros [b|] Hr.
  - eapply keeps_bind; [|intros; by apply Hcall, Hr]. apply keeps_upd; [done|]. intros c' Hc'.
    by apply ok_chain.
  - rewrite Hr. eapply keeps_bind; [|intros; apply keeps_fail_status].
    apply keeps_upd; [done|]. intros c' Hc'. by apply ok_chain.
Qed.

Lemma sb_keeps slot_id connection_id data :
  valid slot_id connection_id -> Forall byte data ->
  keeps inv (en50221_tl_handle_sb e slot_id connection_id data) status.
Proof.
  intros Hv Hb. apply keeps_with_connection; [done|]. intros c Hok.
  destruct (negb _); [at_fail|]. destruct (negb (zlen data =? 1)) eqn:El; [at_fail|]. bool_facts.
  eapply hoare_at_keeps; [apply keeps_lift, (okay_at byte); [done|lia]|]. intros b _.
  destruct (negb _).
  - apply hoare_at_write; [done|done|]. apply hoare_at.
    eapply keeps_bind; [apply keeps_gettimeofday|]. intros t _.
    eapply keeps_bind; [apply keeps_upd; [done|apply set_tx_ok]|]. then_zero.
  - at_upd; [apply clear_tx_ok|]. apply hoare_at, keeps_zero.
Qed.

Lemma find_idle_spec cs i :
  0 <= i -> find_idle cs i = -1 \/
  exists k c, find_idle cs i = i + Z.of_nat k /\ cs !! k = Some c /\ c_state c = T_STATE_IDLE.
Proof.
  revert i. induction cs as [|c cs IH]; intros i Hi; [by left|]. cbn [find_idle].
  destruct (state_is (c_state c) T_STATE_IDLE) eqn:Es.
  - right. exists 0%nat, c. apply state_is_spec in Es. split_and!; [lia|done..].
  - destruct (IH (i + 1)) as [|(k & c' & -> & Hk & Hs)]; [lia|by left|].
    right. exists (Datatypes.S k), c'. split_and!; [lia|done..].
Qed.

(** A connection is being created. *)
Definition in_creation (slot_id conid : Z) (s : S) : Prop :=
  inv s /\ exists c, connection_at (get_tl s) slot_id conid = Some c /\ connection_ok c /\
    c_state c = T_STATE_IN_CREATION.

Lemma alloc_new_tc_at slot_id :
  0 <= slot_id < max_slots ->
  hoare (on_state inv) (en50221_tl_alloc_new_tc slot_id)
    (λ conid w, on_state inv w /\
       (conid = -1 \/ 1 <= conid < max_connections /\ on_state (in_creation slot_id conid) w)).
Proof.
  intros Hs w Hw. pose proof Hw as [[[H1 H2 H3 H4 H5] _] HJw].
  destruct (lookup_z_is_Some (tl_slots (get_tl (w_state w))) slot_id) as [s Es]; [lia|].
  pose proof (lookup_z_Forall _ _ _ _ H4 Es) as Hl. cbv beta in Hl.
  unfold en50221_tl_alloc_new_tc. unfold mbind at 1, io_bind at 1, tl_of, get_state, mbind at 1,
    io_bind at 1, mret at 1, io_ret at 1.
  unfold mbind at 1, io_bind at 1. rewrite (get_slot_run _ _ _ Es). rewrite Hl, H2, Z.ltb_irrefl.
  set (cs := drop 1 _).
  destruct (find_idle_spec cs 1) as [Ef|(k & c & Ef & Ek & Eidle)]; [lia|..]; rewrite Ef.
  { cbn. split; [done|by left]. }
  rewrite (proj2 (Z.eqb_neq _ _)) by lia. unfold cs in Ek. rewrite lookup_drop in Ek.
  assert (Hk : Z.of_nat k + 1 < max_connections).
  { apply lookup_lt_Some in Ek. rewrite length_take in Ek. lia. }
  rewrite lookup_take_lt in Ek by lia.
  assert (Hv : valid slot_id (1 + Z.of_nat k)) by (split; lia).
  assert (Hat : connection_at (get_tl (w_state w)) slot_id (1 + Z.of_nat k) = Some c).
  { unfold connection_at. rewrite Es. unfold lookup_z. rewrite (proj2 (Z.leb_le _ _)) by lia.
    rewrite <- Ek. f_equal. lia. }
  assert (Hok : connection_ok c).
  { pose proof (lookup_z_Forall _ _ _ _ H5 Es) as Hcs. cbv beta in Hcs.
    by apply (Forall_lookup_1 _ _ _ _ Hcs Ek). }
  pose proof (upd_connection_at slot_id (1 + Z.of_nat k)
    (λ c, set_chain NoChain (set_state T_STATE_IN_CREATION c)) c Hv) as Hu.
  unfold mbind, io_bind. specialize (Hu ltac:(
    intros [Hc1 Hc2 Hc3]; cbn; rewrite Eidle; split; [|apply tc_move_one; constructor];
    split; cbn; [done..|]; intros _; apply Hc3; by rewrite Eidle) w (conj Hw (conj Hat Hok))).
  destruct (upd_connection _ _ _ w) as [[[] w']|]; [|done]. cbn [okay mret io_ret].
  split; [by apply Hu|]. right. split; [lia|]. destruct Hu as (Hi & Hat' & Hok').
  split; [done|]. by eexists.
Qed.

Lemma in_creation_upd slot_id conid connection_id f :
  valid slot_id connection_id -> 0 <= conid ->
  (forall c, connection_ok c -> connection_ok (f c) /\ tc_move (c_state c) (c_state (f c))) ->
  (forall c, c_state (f c) = c_state c) ->
  keeps (in_creation slot_id conid) (upd_connection slot_id connection_id f) (λ _, True).
Proof.
  intros [Hs Hc] Hcon Hf Hst w (Hw & c & Hat & Hok & Hcr). pose proof Hw as [[Hwf _] HJw].
  destruct (connection_at_some _ _ _ _ _ Hwf Hs Hc) as (s & c1 & Es & Ec & Hok1 & Hat1).
  destruct (Hf c1 Hok1) as [Hok' Hsteps].
  pose proof (upd_connection_run slot_id connection_id f s c1 w Es Ec) as Hrun. rewrite Hrun.
  cbn [okay]. split; [|done]. split.
  - cbn [w_state]. apply inv_put; [done|]. by eapply tl_next_connection.
  - cbn [w_state]. rewrite get_put. unfold connection_at in *. cbn [set_slots tl_slots].
    rewrite Es in Hat. apply lookup_z_Some in Es as [Hsl _]. apply lookup_z_Some in Ec as [Hcl Ec'].
    rewrite lookup_z_insert by done. rewrite Z.eqb_refl. cbn [set_connections s_connections].
    rewrite lookup_z_insert by done. destruct (Z.eqb_spec conid connection_id) as [->|].
    + exists (f c1). split; [done|]. split; [done|]. rewrite Hst.
      unfold lookup_z in Hat. rewrite (proj2 (Z.leb_le _ _)) in Hat by lia.
      rewrite Hat in Ec'. by injection Ec' as ->.
    + by exists c.
Qed.

(** Giving up a creation. *)
Lemma in_creation_abandon slot_id conid :
  valid slot_id conid ->
  hoare (on_state (in_creation slot_id conid))
    (upd_connection slot_id conid (set_state T_STATE_IDLE);; fail_slot slot_id EN50221ERR_CAWRITE)
    (λ a w, on_state inv w /\ status a).
Proof.
  intros Hv w (Hw & c & Hat & Hok & Hcr).
  apply (hoare_at_upd slot_id conid (set_state T_STATE_IDLE) c
    (fail_slot slot_id EN50221ERR_CAWRITE) status Hv); [| |by split].
  - intros Hc. apply ok_state; [done|by rewrite Hcr|rewrite Hcr; constructor].
  - apply hoare_at, keeps_fail_status.
Qed.

Lemma request_tc_keeps slot_id connection_id :
  valid slot_id connection_id ->
  keeps inv (en50221_tl_handle_request_tc e cb slot_id connection_id) status.
Proof.
  intros Hv. eapply hoare_bind; [apply alloc_new_tc_at, Hv|]. intros conid.
  destruct (Z.eqb_spec conid (-1)) as [->|Hne].
  - apply (hoare_mono (on_state inv) _ _ (λ a w, on_state inv w /\ status a)); [|by intros w []|done].
    eapply keeps_bind; [by apply (keeps_slot_write inv); [|apply Hv|]|]. intros r _.
    destruct (r <? 0); [apply keeps_fail_status|].
    eapply keeps_bind; [apply keeps_upd; [done|apply clear_tx_ok]|then_zero].
  - intros w [Hw [|[Hcon Hcr]]]; [done|]. revert w Hw Hcr.
    assert (Hvc : valid slot_id conid) by (destruct Hv; split; lia).
    assert (HP : forall s, in_creation slot_id conid s -> inv s) by by intros s [].
    enough (Hk : hoare (on_state (in_creation slot_id conid)) (
      r ← slot_write e slot_id connection_id [T_NEW_T_C; 2; connection_id; u8 conid] 4;
      if r <? 0 then
        upd_connection slot_id conid (set_state T_STATE_IDLE);;
        fail_slot slot_id EN50221ERR_CAWRITE
      else
        upd_connection slot_id connection_id clear_tx_time;;
        r ← slot_write e slot_id (u8 conid) [T_CREATE_T_C; 1; u8 conid; u8 conid] 3;
        if r <? 0 then
          upd_connection slot_id conid (set_state T_STATE_IDLE);;
          fail_slot slot_id EN50221ERR_CAWRITE
        else
          t ← gettimeofday e;
          upd_connection slot_id conid (set_tx_time t);;
          run_callback cb T_CALLBACK_REASON_CAMCONNECTIONOPEN [] slot_id (u8 conid);;
          mret 0) (λ a w, on_state inv w /\ status a)) by (intros w ? ?; by apply Hk).
    eapply hoare_bind; [by apply keeps_slot_write; [|apply Hv|]|]. intros r. cbv beta.
    apply (hoare_mono (on_state (in_creation slot_id conid)) _ _ (λ a w, on_state inv w /\ status a));
      [|by intros w []|done].
    destruct (r <? 0); [by apply in_creation_abandon|].
    eapply hoare_bind; [apply in_creation_upd; [done|lia|apply clear_tx_ok|done]|]. intros []. cbv beta.
    eapply hoare_bind.
    { eapply hoare_mono; [by apply (keeps_slot_write (in_creation slot_id conid)); [|apply Hv|]
        |by intros w []|done]. }
    intros r'. cbv beta.
    apply (hoare_mono (on_state (in_creation slot_id conid)) _ _ (λ a w, on_state inv w /\ status a));
      [|by intros w []|done].
    destruct (r' <? 0); [by apply in_creation_abandon|].
    apply (hoare_mono (on_state inv) _ _ (λ a w, on_state inv w /\ status a));
      [|intros w Hw; by apply HP|done].
    eapply keeps_bind; [apply keeps_gettimeofday|]. intros t _.
    eapply keeps_bind; [apply keeps_upd; [done|apply set_tx_ok]|]. intros _ _.
    eapply keeps_bind; [apply keeps_run_callback; [|done]|then_zero].
    rewrite u8_id; [done|]. unfold byte. destruct Hvc. lia.
Qed.

Lemma handle_tpdu_keeps slot_id tag connection_id payload :
  valid slot_id connection_id -> Forall byte payload ->
  (tag = T_DATA_MORE -> payload <> []) ->
  keeps inv (handle_tpdu e cb slot_id tag connection_id payload) status.
Proof.
  intros Hv Hb Hne. unfold handle_tpdu.
  case_if; [by apply create_tc_reply_keeps|]. case_if; [by apply delete_tc_keeps|].
  case_if; [by apply delete_tc_reply_keeps|]. case_if; [by apply request_tc_keeps|].
  case_if; [apply data_more_keeps; auto|]. case_if; [by apply data_last_keeps|].
  case_if; [by apply sb_keeps|]. apply keeps_fail_status.
Qed.

Lemma process_data_keeps fuel slot_id data :
  0 <= slot_id < max_slots -> Forall byte data -> (length data <= fuel)%nat ->
  no_empty_more fuel data = true ->
  keeps inv (process_data_ e cb fuel slot_id data) status.
Proof.
  intros Hs. revert data. induction fuel as [|fuel IH]; intros data Hb Hl Hn.
  { destruct data; [|cbn in Hl; lia]. apply keeps_zero. }
  cbn [process_data_]. destruct (Z.eqb_spec (zlen data) 0); [apply keeps_zero|].
  assert (Hne : data <> []) by by intros ->.
  assert (Herr : forall err, keeps inv (fail_slot (S := S) slot_id err;; mret None)
    (λ r : option (list Z), r = None)).
  { intros err. eapply keeps_bind; [apply keeps_fail_slot|]. intros. by apply keeps_ret. }
  rewrite process_tpdu_run by done. cbn [no_empty_more] in Hn.
  destruct (parse_tpdu data) as [[[[tag con] payload] rest]|] eqn:Ep.
  2: { eapply keeps_bind; [apply Herr|]. intros ? ->. apply keeps_ret. by right. }
  pose proof (parse_tpdu_length _ _ _ _ _ Ep) as Hlen.
  destruct (parse_tpdu_bytes _ _ _ _ _ Hb Ep) as (Ht & Hc & Hp & Hr). unfold byte in Hc.
  apply andb_prop in Hn as [Hm Hn]. apply negb_true_iff, andb_false_iff in Hm.
  eapply keeps_bind with (Q := λ r, r = None \/ r = Some rest).
  - eapply keeps_bind; [apply keeps_tl_of|]. intros tl [[_ Hmc _ _ _] _]. rewrite Hmc.
    destruct (Z.leb_spec max_connections con).
    { eapply keeps_mono; [apply Herr|]. auto. }
    eapply keeps_bind.
    + apply handle_tpdu_keeps; [split; lia|done|]. intros -> ->. by destruct Hm.
    + intros r _. destruct (r <? 0); apply keeps_ret; auto.
  - intros r [-> | ->]; [apply keeps_ret; by right|]. apply IH; [done|lia|done].
Qed.

(** *** Polling *)

Lemma unless_error_keeps c k :
  keeps inv c status -> keeps inv k status -> keeps inv (unless_error (S := S) c k) status.
Proof.
  intros Hc Hk. eapply keeps_bind; [exact Hc|]. intros r _. destruct (r <? 0); [|done].
  apply keeps_ret. by right.
Qed.

Lemma status_map c : keeps inv c status ->
  keeps inv (r ← c; mret (if r =? 0 then 0 else -1)) status.
Proof.
  intros Hc. eapply keeps_bind; [exact Hc|]. intros r _. apply keeps_ret.
  destruct (r =? 0); [by left|by right].
Qed.

Lemma first_is_delete msg :
  (0 <? zlen msg) && (default 0 (msg !z 0) =? T_DELETE_T_C) = true -> is_delete msg.
Proof.
  intros Hm. bool_facts. unfold is_delete. destruct msg as [|b msg]; [done|].
  rewrite lookup_z_0 in *. cbn in *. by subst.
Qed.

Lemma pop_ok c msg queue :
  c_send_queue c = msg :: queue -> connection_ok c ->
  connection_ok (set_send_queue queue c) /\
  (is_delete msg -> c_state c = T_STATE_ACTIVE_DELETEQUEUED /\ queue = []).
Proof.
  intros Eq [H1 H2 H3]. split.
  - split; cbn; [done| |].
    + intros ms m ->. specialize (H2 (msg :: ms) m). rewrite Eq in H2.
      specialize (H2 eq_refl). by inversion H2.
    + intros Hne. specialize (H3 Hne). rewrite Eq in H3. by inversion H3.
  - intros Hd. split.
    + destruct (decide (c_state c = T_STATE_ACTIVE_DELETEQUEUED)) as [|Hne]; [done|].
      specialize (H3 Hne). rewrite Eq in H3. apply Forall_cons_iff in H3 as [Hn _]. done.
    + destruct (exists_last (l := msg :: queue) ltac:(done)) as (ms & m & E).
      specialize (H2 ms m). rewrite Eq, E in H2. specialize (H2 eq_refl).
      destruct ms as [|m0 ms]; [by injection E|]. injection E as -> _.
      apply Forall_cons_iff in H2 as [Hn _]. done.
Qed.

Lemma poll_send_keeps slot_id j :
  valid slot_id j -> keeps inv (poll_send e slot_id j) status.
Proof.
  intros Hv. apply keeps_with_connection; [done|]. intros c Hok.
  destruct (state_in _ _) eqn:Est; [|apply hoare_at, keeps_zero].
  destruct (c_send_queue c) as [|msg queue] eqn:Eq; [apply hoare_at, keeps_zero|].
  destruct (_ =? 0); [|apply hoare_at, keeps_zero].
  destruct (pop_ok c msg queue Eq Hok) as [Hpop Hdel].
  at_upd; [intros _; split; [done|by left]|].
  apply hoare_at_write; [done|unfold u16; pose proof (Z.mod_le (zlen msg) 65536); lia|].
  eapply hoare_at_keeps; [apply keeps_gettimeofday|]. intros t _.
  at_upd; [apply set_tx_ok|].
  destruct ((0 <? zlen msg) && _) eqn:Em.
  - apply first_is_delete in Em. destruct (Hdel Em) as [Hst ->].
    apply hoare_assoc. eapply hoare_at_keeps; [apply at_get_connection|]. intros ? ->.
    apply hoare_assoc. eapply hoare_at_keeps.
    { apply keeps_free_chain. cbn. apply (co_chain c Hok). }
    intros _ _. at_upd; [|apply hoare_at, keeps_zero].
    intros [H1 H2 H3]. cbn. rewrite Hst. split; [|apply tc_move_one; constructor].
    by split.
  - apply hoare_at. eapply keeps_bind; [by apply (keeps_ret inv tt (λ _, True))|]. then_zero.
Qed.

Lemma keeps_get_slot_any (P : S -> Prop) slot_id :
  (forall s, P s -> inv s) -> 0 <= slot_id < max_slots ->
  keeps P (get_slot slot_id) (λ _, True).
Proof.
  intros HP Hs w Hw. pose proof (HP _ Hw) as [[[_ _ H3 _ _] _] _].
  destruct (lookup_z_is_Some (tl_slots (get_tl (w_state w))) slot_id) as [s Es]; [lia|].
  by rewrite (get_slot_run _ _ _ Es).
Qed.

Lemma poll_tc_keeps slot_id j : valid slot_id j -> keeps inv (en50221_tl_poll_tc e slot_id j) status.
Proof.
  intros Hv. eapply keeps_bind; [apply keeps_gettimeofday|]. intros t _.
  eapply keeps_bind; [apply keeps_upd; [done|apply set_tx_ok]|]. intros _ _.
  eapply keeps_bind; [by apply keeps_slot_write; [|apply Hv|]|]. intros r _.
  destruct (r <? 0); [apply keeps_fail_status|apply keeps_zero].
Qed.

Lemma poll_ask_keeps slot_id j : valid slot_id j -> keeps inv (poll_ask e slot_id j) status.
Proof.
  intros Hv. apply keeps_with_connection; [done|]. intros c Hok. apply hoare_at.
  eapply keeps_bind; [by apply keeps_get_slot_any; [|apply Hv]|]. intros s _.
  destruct (state_in _ _); [|apply keeps_zero]. destruct (_ =? 0); [|apply keeps_zero].
  eapply keeps_bind; [apply keeps_time_after|]. intros [] _; [|apply keeps_zero].
  eapply keeps_bind; [apply keeps_gettimeofday|]. intros t _.
  eapply keeps_bind; [apply keeps_upd; [done|]; intros; by apply ok_same|]. intros _ _.
  by apply status_map, poll_tc_keeps.
Qed.

Lemma poll_timeout_keeps slot_id j : valid slot_id j -> keeps inv (poll_timeout e slot_id j) status.
Proof.
  intros Hv. apply keeps_with_connection; [done|]. intros c Hok.
  eapply hoare_at_keeps; [by apply keeps_get_slot_any; [intros s []|apply Hv]|]. intros s _.
  destruct (negb _); [|apply hoare_at, keeps_zero].
  eapply hoare_at_keeps; [apply keeps_time_after|]. intros [] _; [|apply hoare_at, keeps_zero].
  destruct (state_in _ _) eqn:Est.
  - at_upd; [|apply hoare_at, keeps_zero].
    intros _. apply ok_state; [done|by destruct (c_state c)|].
    destruct (c_state c); try done; constructor.
  - clear Est. destruct (state_in _ _); [at_fail|apply hoare_at, keeps_zero].
Qed.

Lemma poll_connection_keeps slot_id j : valid slot_id j -> keeps inv (poll_connection e slot_id j) status.
Proof.
  intros Hv. apply keeps_with_connection; [done|]. intros c Hok. apply hoare_at.
  destruct (state_is _ _); [apply keeps_zero|].
  apply unless_error_keeps; [by apply poll_send_keeps|].
  apply unless_error_keeps; [by apply poll_ask_keeps|by apply poll_timeout_keeps].
Qed.

Lemma poll_connections_keeps n slot_id j :
  0 <= slot_id < max_slots -> 0 <= j -> j + Z.of_nat n <= max_connections ->
  keeps inv (poll_connections e n slot_id j) status.
Proof.
  intros Hs. revert j. induction n as [|n IH]; intros j Hj Hn; [apply keeps_zero|].
  apply unless_error_keeps; [apply poll_connection_keeps; split; lia|apply IH; lia].
Qed.

Lemma find_slot_spec ss ca_hndl r_slot_id i :
  i <= find_slot ss ca_hndl r_slot_id i <= i + zlen ss.
Proof.
  revert i. induction ss as [|s ss IH]; intros i; cbn [find_slot length]; [lia|].
  case_if; [lia|]. specialize (IH (i + 1)). lia.
Qed.

(** What poll(2) and the module promise: one [revents] for each pollfd, bytes, and no empty
    T_DATA_MORE (chaining one would make [realloc] free the buffer). *)
Record env_ok : Prop := {
  env_poll : forall n, zlen (e_poll e n).2 = max_slots;
  env_bytes : forall n bs, e_read e n = Some bs -> Forall byte bs;
  env_more : forall n bs, e_read e n = Some bs ->
    no_empty_more (length (drop 2 (take 4098 bs))) (drop 2 (take 4098 bs)) = true;
}.
Hypothesis Henv : env_ok.

Lemma poll_read_keeps slot_id ca_hndl :
  0 <= slot_id < max_slots -> keeps inv (poll_read e cb slot_id ca_hndl) status.
Proof.
  intros Hs. destruct Henv as [_ Hbytes Hmore].
  eapply keeps_bind.
  { apply (keeps_link_read _ _ _ _
      (λ bs, Forall byte bs /\ no_empty_more (length (drop 2 bs)) (drop 2 bs) = true)).
    intros n bs Hn. change (Z.to_nat (u16 4096 + 2)) with 4098%nat.
    split; [by apply Forall_take, (Hbytes n)|by apply (Hmore n)]. }
  intros [[[rs con] data]|] Hr; [|apply keeps_fail_status].
  destruct (Hr _ _ _ eq_refl) as [Hb Hn]. change (drop 2 (rs :: con :: data)) with data in Hn.
  apply Forall_cons_iff in Hb as [_ Hb]. apply Forall_cons_iff in Hb as [_ Hb].
  destruct (zlen data =? 0); [apply keeps_zero|].
  eapply keeps_bind; [by apply keeps_get_slot_any|]. intros s _.
  destruct (negb (_ =? rs)).
  - eapply keeps_bind; [apply keeps_tl_of|]. intros tl [[H1 _ H3 _ _] _].
    pose proof (find_slot_spec (tl_slots tl) ca_hndl rs 0) as Hf. rewrite H1.
    cbv zeta. destruct (Z.eqb_spec (find_slot (tl_slots tl) ca_hndl rs 0) max_slots); cbn [negb].
    + eapply keeps_mono; [apply keeps_fail|]. intros ? ->. by right.
    + apply status_map, process_data_keeps; [lia|done..].
  - apply status_map, process_data_keeps; [lia|done..].
Qed.

Lemma poll_slot_keeps revents slot_id :
  0 <= slot_id < max_slots -> zlen revents = max_slots ->
  keeps inv (poll_slot e cb revents slot_id) status.
Proof.
  intros Hs Hr. eapply keeps_bind; [by apply keeps_get_slot_any|]. intros s _.
  destruct (_ =? -1); [apply keeps_zero|].
  eapply keeps_bind; [apply keeps_tl_of|]. intros tl [[_ H2 _ _ _] _]. rewrite H2.
  eapply keeps_bind with (Q := λ _, True).
  { apply keeps_lift, (okay_at (λ _, True)); [by apply Forall_true|lia]. }
  intros rev _. apply unless_error_keeps.
  - destruct (negb _); [by apply poll_read_keeps|].
    destruct (negb _); [apply keeps_fail_status|apply keeps_zero].
  - apply poll_connections_keeps; lia.
Qed.

Lemma poll_slots_keeps n revents slot_id :
  0 <= slot_id -> slot_id + Z.of_nat n <= max_slots -> zlen revents = max_slots ->
  keeps inv (poll_slots e cb n revents slot_id) status.
Proof.
  revert slot_id. induction n as [|n IH]; intros slot_id Hs Hn Hr; [apply keeps_zero|].
  apply unless_error_keeps; [apply poll_slot_keeps; [lia|done]|apply IH; [lia..|done]].
Qed.

Lemma poll_keeps : keeps inv (en50221_tl_poll e cb) status.
Proof.
  eapply keeps_bind; [apply keeps_tl_of|]. intros tl [[H1 _ _ _ _] _]. rewrite H1.
  eapply keeps_bind with (Q := λ _, True).
  { destruct (tl_slots_changed tl); [|by apply keeps_ret]. apply keeps_tl_modify.
    intros tl' Htl. by apply tl_next_same. }
  intros _ _. eapply keeps_bind with (Q := λ x, zlen x.2 = max_slots).
  { eapply keeps_bind; [apply keeps_tick|]. intros n _. apply keeps_ret, Henv. }
  intros [r revents] Hr. destruct (r <? 0); [apply keeps_fail_status|].
  apply poll_slots_keeps; [lia|lia|done].
Qed.

(** *** The interface of the layer *)

Lemma checked_keeps slot_id connection_id k R :
  0 <= slot_id -> 0 <= connection_id -> R (-1) ->
  (forall c, valid slot_id connection_id -> connection_ok c ->
     hoare (on_state (at_connection slot_id connection_id c)) (k c)
       (λ a w, on_state inv w /\ R a)) ->
  keeps inv (checked slot_id connection_id k) R.
Proof.
  intros Hs Hc HR Hk w Hw. pose proof Hw as [[Hwf _] HJw]. pose proof Hwf as [H1 H2 H3 _ _].
  assert (Hf : forall err, keeps inv (fail (S := S) err) R).
  { intros err. eapply keeps_mono; [apply keeps_fail|]. by intros ? ->. }
  assert (Hf' : forall err, keeps inv (fail_slot (S := S) slot_id err) R).
  { intros err. eapply keeps_mono; [apply keeps_fail_slot|]. by intros ? ->. }
  unfold checked. rewrite (io_bind_run _ _ _ _ _ (tl_of_run w)). cbv beta. rewrite H1, H2.
  destruct (Z.leb_spec max_slots slot_id); [by apply Hf|].
  destruct (Z.leb_spec max_connections connection_id) as [|Hlt].
  - apply (keeps_bind inv (get_slot slot_id) _ (λ _, True)); [by apply keeps_get_slot_any| |done].
    intros s _. destruct (_ =? -1); auto.
  - destruct (connection_at_some _ _ _ slot_id connection_id Hwf) as (s & c & Es & Ec & Hok & Hat);
      [lia..|].
    rewrite (io_bind_run _ _ _ _ _ (get_slot_run _ _ _ Es)). destruct (_ =? -1); [by apply Hf|].
    rewrite (io_bind_run (lift _) _ w c w); [by apply (Hk c)|]. unfold lift, at_. by rewrite Ec.
Qed.

Lemma queue_ok msg c :
  c_state c <> T_STATE_ACTIVE_DELETEQUEUED -> ~ is_delete msg -> connection_ok c ->
  connection_ok (set_send_queue (c_send_queue c ++ [msg]) c) /\
  tc_move (c_state c) (c_state (set_send_queue (c_send_queue c ++ [msg]) c)).
Proof.
  intros Hst Hm [H1 H2 H3]. specialize (H3 Hst). split; [|apply tc_move_same]. split; cbn; [done| |].
  - intros ms m E. apply app_inj_tail in E as [<- _]. done.
  - intros _. apply Forall_app. by split; [|constructor].
Qed.

Lemma queue_data_keeps slot_id connection_id c data :
  valid slot_id connection_id -> c_state c = T_STATE_ACTIVE -> zlen data < 2 ^ 32 - 1 ->
  hoare (on_state (at_connection slot_id connection_id c))
    (queue_data e slot_id connection_id (zlen data) data) (λ a w, on_state inv w /\ status a).
Proof.
  intros Hv Hst Hl. eapply hoare_at_keeps; [apply keeps_malloc|]. intros [] _; cbn [negb]; [|at_fail].
  destruct (asn_1_encode _ 3) as [lf|] eqn:Elf; [|at_fail].
  assert (zlen lf <= 3).
  { unfold asn_1_encode in Elf. change (3 <? 1) with false in Elf. cbv zeta in Elf.
    repeat destruct (_ <? _) in Elf; simplify_eq; cbn [length]; lia. }
  cbv zeta. rewrite (proj2 (Z.ltb_ge _ _)).
  2: { cbn [app length]. rewrite length_app. cbn [length]. lia. }
  at_upd; [|apply hoare_at, keeps_zero]. apply queue_ok; [by rewrite Hst|].
  by destruct (Z.to_nat _).
Qed.

Lemma send_data_keeps slot_id connection_id data :
  0 <= slot_id -> 0 <= connection_id -> zlen data < 2 ^ 32 - 1 ->
  keeps inv (en50221_tl_send_data e slot_id connection_id data) status.
Proof.
  intros Hs Hc Hl. apply checked_keeps; [done..|by right|]. intros c Hv Hok.
  destruct (state_is _ _) eqn:Est; cbn [negb]; [|apply hoare_at].
  - apply state_is_spec in Est. by apply queue_data_keeps.
  - eapply keeps_mono; [apply keeps_fail|]. intros ? ->. by right.
Qed.

Lemma vector_size (vector : list (list Z)) n :
  0 <= n -> n + zlen (concat vector) < 2 ^ 32 ->
  foldl (λ n v, u32 (n + zlen v)) n vector = n + zlen (concat vector).
Proof.
  revert n. induction vector as [|v vector IH]; intros n Hn Hl; cbn [foldl concat] in *; [cbn; lia|].
  rewrite length_app in *. unfold u32 at 2. rewrite Z.mod_small by lia. rewrite IH; lia.
Qed.

Lemma send_datav_keeps slot_id connection_id vector :
  0 <= slot_id -> 0 <= connection_id -> zlen (concat vector) < 2 ^ 32 - 1 ->
  keeps inv (en50221_tl_send_datav e slot_id connection_id vector) status.
Proof.
  intros Hs Hc Hl. apply checked_keeps; [done..|by right|]. intros c Hv Hok.
  destruct (state_is _ _) eqn:Est; cbn [negb]; [|apply hoare_at].
  - apply state_is_spec in Est. rewrite vector_size by lia. by apply queue_data_keeps.
  - eapply keeps_mono; [apply keeps_fail|]. intros ? ->. by right.
Qed.

Lemma new_tc_keeps slot_id :
  0 <= slot_id -> keeps inv (en50221_tl_new_tc e slot_id) (λ r, -1 <= r < max_connections).
Proof.
  intros Hs. assert (0 <= max_connections) by lia.
  assert (Hf : forall err, keeps inv (fail_slot (S := S) slot_id err) (λ r, -1 <= r < max_connections)).
  { intros err. eapply keeps_mono; [apply keeps_fail_slot|]. cbv beta. lia. }
  assert (Hf' : forall err, keeps inv (fail (S := S) err) (λ r, -1 <= r < max_connections)).
  { intros err. eapply keeps_mono; [apply keeps_fail|]. cbv beta. lia. }
  eapply keeps_bind; [apply keeps_tl_of|]. intros tl [[Hms _ _ _ _] _]. rewrite Hms.
  destruct (Z.leb_spec max_slots slot_id); [apply Hf'|].
  eapply keeps_bind; [by apply keeps_get_slot_any; [|lia]|]. intros s _.
  destruct (_ =? -1); [apply Hf'|].
  eapply hoare_bind; [apply alloc_new_tc_at; lia|]. intros conid w [Hw Hcon].
  destruct (Z.eqb_spec conid (-1)); [by apply Hf|]. destruct Hcon as [|[Hcon (Hi & c & Hat & Hok & Hst)]];
    [done|].
  assert (Hv : valid slot_id conid) by by split; lia.
  apply (hoare_at_keeps slot_id conid c (malloc e) _ (λ _, True) (λ r, -1 <= r < max_connections));
    [apply keeps_malloc| |done].
  intros [] _; cbn [negb]; [|apply hoare_at, Hf].
  at_upd; [|apply hoare_at, keeps_ret; lia].
  apply queue_ok; [by rewrite Hst|]. done.
Qed.

Lemma set_slots_twice ss ss' (tl : transport_layer) : set_slots ss (set_slots ss' tl) = set_slots ss tl.
Proof. done. Qed.

Lemma set_connections_twice cs cs' s : set_connections cs (set_connections cs' s) = set_connections cs s.
Proof. done. Qed.

(** Two updates of a connection of which only the second makes it right again. *)
Lemma hoare_at_upd2 {A} slot_id connection_id f g c (k : IO S A) R :
  valid slot_id connection_id ->
  c_state (f c) = c_state c -> (connection_ok c -> connection_ok (g (f c)) /\ tc_move (c_state c) (c_state (g (f c)))) ->
  keeps inv k R ->
  hoare (on_state (at_connection slot_id connection_id c))
    (upd_connection slot_id connection_id f;; upd_connection slot_id connection_id g;; k)
    (λ a w, on_state inv w /\ R a).
Proof.
  intros [Hs Hc] Hsame Hf Hk w (Hw & Hat & Hok). pose proof Hw as [[Hwf _] HJw].
  destruct (connection_at_some _ _ _ _ _ Hwf Hs Hc) as (s & c' & Es & Ec & _ & Hat').
  rewrite Hat in Hat'. injection Hat' as <-. destruct (Hf Hok) as [Hok' Hst].
  unfold mbind, io_bind. rewrite (upd_connection_run _ _ f _ _ _ Es Ec).
  pose proof Es as Es'. pose proof Ec as Ec'.
  apply lookup_z_Some in Es' as [Hsl _]. apply lookup_z_Some in Ec' as [Hcl _].
  set (tl1 := set_slots _ _).
  assert (Es1 : tl_slots tl1 !z slot_id = Some (set_connections (<[Z.to_nat connection_id := f c]> (s_connections s)) s)).
  { cbn [tl1 set_slots tl_slots]. by rewrite lookup_z_insert, Z.eqb_refl. }
  assert (Ec1 : <[Z.to_nat connection_id := f c]> (s_connections s) !z connection_id = Some (f c)).
  { by rewrite lookup_z_insert, Z.eqb_refl. }
  assert (HJ1 : J (put_tl tl1 (w_state w))).
  { apply HJ; [done|]. apply (tl_moves_connection _ _ _ _ _ _ Es Ec). by left. }
  erewrite upd_connection_run; [|cbn [w_state]; rewrite get_put; exact Es1|exact Ec1].
  apply Hk. unfold on_state, inv. cbn [w_state w_tick w_log]. rewrite !get_put. split.
  - eapply tl_inv_next; [exact (proj1 Hw)|]. unfold tl1. cbn [set_slots tl_slots set_connections s_connections].
    rewrite !list_insert_insert_eq, set_slots_twice, set_connections_twice. by eapply tl_next_connection.
  - apply HJ; [exact HJ1|]. rewrite get_put. apply (tl_moves_connection _ _ _ _ _ _ Es1 Ec1). by rewrite Hsame.
Qed.

Lemma del_tc_keeps slot_id connection_id :
  0 <= slot_id -> 0 <= connection_id ->
  keeps inv (en50221_tl_del_tc e slot_id connection_id) status.
Proof.
  intros Hs Hc. apply checked_keeps; [done..|by right|]. intros c Hv Hok.
  destruct (state_in _ _) eqn:Est; cbn [negb]; [|at_fail].
  eapply hoare_at_keeps; [apply keeps_malloc|]. intros [] _; cbn [negb]; [|at_fail].
  apply hoare_at_upd2; [done|done| |apply keeps_zero]. intros [H1 H2 H3]. cbn. split.
  - split; cbn; [done| |done]. intros ms m E. apply app_inj_tail in E as [<- _]. apply H3.
    by destruct (c_state c).
  - apply tc_move_one. destruct (c_state c); try done; constructor.
Qed.

Lemma get_connection_state_keeps slot_id connection_id :
  0 <= slot_id -> 0 <= connection_id ->
  keeps inv (en50221_tl_get_connection_state slot_id connection_id) (λ _, True).
Proof.
  intros Hs Hc. apply checked_keeps; [done..|]. intros c _ _. by apply hoare_at, keeps_ret.
Qed.

Lemma find_free_slot_spec ss i :
  0 <= i -> find_free_slot ss i = -1 \/ i <= find_free_slot ss i < i + zlen ss.
Proof.
  revert i. induction ss as [|s ss IH]; intros i Hi; [by left|]. cbn [find_free_slot length].
  case_if; [right; lia|]. destruct (IH (i + 1)) as [|]; [lia|by left|right; lia].
Qed.

Lemma put_slot_run slot_id s (w : world S) :
  0 <= slot_id < zlen (tl_slots (get_tl (w_state w))) ->
  put_slot slot_id s w =
  Ok (tt, World (put_tl (set_slots (<[Z.to_nat slot_id := s]> (tl_slots (get_tl (w_state w))))
    (get_tl (w_state w))) (w_state w)) (w_tick w) (w_log w)).
Proof. intros Hs. unfold put_slot. rewrite (io_bind_run _ _ _ _ _ (tl_of_run w)). by rewrite insert_z_Some. Qed.

Lemma register_slot_keeps ca_hndl slot timeout delay :
  keeps inv (en50221_tl_register_slot ca_hndl slot timeout delay) (λ r, -1 <= r < max_slots).
Proof.
  intros w Hw. pose proof Hw as [[Hwf _] HJw]. pose proof Hwf as [_ _ H3 _ _].
  unfold en50221_tl_register_slot. rewrite (io_bind_run _ _ _ _ _ (tl_of_run w)).
  set (tl := get_tl (w_state w)) in *.
  destruct (find_free_slot_spec (tl_slots tl) 0) as [->|Hf]; [lia|..]; cbv zeta.
  { eapply (keeps_mono inv _ (λ r, r = -1)); [apply keeps_fail| |done]. cbv beta. lia. }
  set (slot_id := find_free_slot (tl_slots tl) 0) in *.
  destruct (lookup_z_is_Some (tl_slots tl) slot_id) as [s Es]; [lia|].
  rewrite (proj2 (Z.eqb_neq _ _)) by lia. rewrite (io_bind_run _ _ _ _ _ (get_slot_run _ _ _ Es)).
  rewrite (io_bind_run _ _ _ _ _ (put_slot_run slot_id _ w ltac:(fold tl; lia))).
  apply (keeps_bind inv _ _ (λ _, True)).
  - apply keeps_tl_modify. intros tl' Htl. by apply tl_next_same.
  - intros _ _. apply keeps_ret. lia.
  - unfold on_state. cbn [w_state]. apply inv_put; [done|]. by eapply tl_next_slot.
Qed.

Lemma register_callback_keeps arg : keeps inv (en50221_tl_register_callback (S := S) arg) (λ _, True).
Proof. apply keeps_tl_modify. intros tl Htl. by apply tl_next_same. Qed.
End Safety.

(** Destroying a slot makes its connections idle in any state. *)
Section Destroy.
Context {S : Type} `{TransportLaws S} (e : env) (cb : callback S).
Context (max_slots max_connections : Z).
Hypothesis Hslots : 0 <= max_slots < 256.

Context (J : S -> Prop).
Hypothesis HJ : forall tl s, J s -> J (put_tl tl s).

Definition wf (s : S) : Prop := tl_wf max_slots max_connections (get_tl s) /\ J s.

Hypothesis Hcb : forall arg reason data slot_id connection_id,
  byte slot_id -> byte connection_id -> Forall byte data ->
  keeps wf (cb arg reason data slot_id connection_id) (λ _, True).

Lemma free_chains_keeps (I : S -> Prop) cs :
  Forall connection_ok cs -> keeps I (free_chains cs) (λ _, True).
Proof.
  induction 1 as [|c cs Hc _ IH]; [by apply keeps_ret|].
  eapply keeps_bind; [by apply keeps_free_chain, Hc|]. intros _ _. apply IH.
Qed.

Lemma cleared_ok c : connection_ok c -> connection_ok (clear_connection c).
Proof. intros _. split; cbn; [done|by intros [|? []]|by constructor]. Qed.

Lemma destroy_slot_keeps slot_id :
  0 <= slot_id -> keeps wf (en50221_tl_destroy_slot cb slot_id) (λ _, True).
Proof.
  intros Hs w Hw. pose proof Hw as [[H1 H2 H3 H4 H5] HJw]. unfold en50221_tl_destroy_slot.
  rewrite (io_bind_run _ _ _ _ _ (tl_of_run w)). cbv beta. rewrite H1.
  destruct (Z.leb_spec max_slots slot_id); [by split|].
  destruct (lookup_z_is_Some (tl_slots (get_tl (w_state w))) slot_id) as [s Es]; [lia|].
  rewrite (io_bind_run _ _ _ _ _ (get_slot_run _ _ _ Es)).
  pose proof (lookup_z_Forall _ _ _ _ H4 Es) as Hl. pose proof (lookup_z_Forall _ _ _ _ H5 Es) as Hok.
  cbv beta in Hl, Hok.
  assert (Hf : keeps (λ s', s' = w_state w) (free_chains (s_connections s)) (λ _, True))
    by by apply free_chains_keeps.
  specialize (Hf w eq_refl). destruct (free_chains (s_connections s) w) as [[[] w']|] eqn:Ef; [|done].
  destruct Hf as [Hw' _]. unfold on_state in Hw'. rewrite (io_bind_run _ _ _ _ _ Ef).
  rewrite (io_bind_run _ _ _ _ _ (put_slot_run slot_id _ w' ltac:(rewrite Hw'; lia))). rewrite Hw'.
  apply (keeps_bind wf _ _ (λ _, True)).
  - apply keeps_bind with (λ _, True).
    { intros v Hv. by split. }
    intros tl _. destruct (tl_callback tl); [|by apply keeps_ret].
    eapply keeps_bind; [apply keeps_log|]. intros _ _. apply Hcb; unfold byte; (lia || constructor).
  - intros _ _. apply keeps_modify. intros v [[G1 G2 G3 G4 G5] GJ]. unfold wf. rewrite get_put.
    split; [by split|auto].
  - unfold on_state, wf. cbn [w_state]. rewrite get_put. split; [|auto].
    apply tl_wf_slot; [by split| |]; cbn.
    + by rewrite length_map.
    + apply Forall_fmap. eapply Forall_impl; [|exact Hok]. apply cleared_ok.
Qed.
End Destroy.

(** ** Sequences of calls *)

(** The calls a program makes on a layer; the data of the module is processed by [OpPoll]. *)
Inductive tl_op :=
  | OpPoll
  | OpRegisterSlot (ca_hndl slot response_timeout poll_delay : Z)
  | OpDestroySlot (slot_id : Z)
  | OpRegisterCallback (arg : option Z)
  | OpSendData (slot_id connection_id : Z) (data : list Z)
  | OpSendDatav (slot_id connection_id : Z) (vector : list (list Z))
  | OpNewTc (slot_id : Z)
  | OpDelTc (slot_id connection_id : Z)
  | OpGetConnectionState (slot_id connection_id : Z).

(** The types of the arguments: numbers are bytes, lengths [uint32_t]. *)
Definition op_typed (op : tl_op) : Prop :=
  match op with
  | OpDestroySlot s | OpNewTc s => byte s
  | OpSendData s c data => byte s /\ byte c /\ zlen data < 2 ^ 32 - 1
  | OpSendDatav s c vector => byte s /\ byte c /\ zlen (concat vector) < 2 ^ 32 - 1
  | OpDelTc s c | OpGetConnectionState s c => byte s /\ byte c
  | _ => True
  end.

Definition is_destroy (op : tl_op) : bool := match op with OpDestroySlot _ => true | _ => false end.

Section Sequences.
Context {S : Type} `{TransportLaws S} (e : env) (cb : callback S).

Definition run_op (op : tl_op) : IO S Z :=
  match op with
  | OpPoll => en50221_tl_poll e cb
  | OpRegisterSlot ca_hndl slot timeout delay => en50221_tl_register_slot ca_hndl slot timeout delay
  | OpDestroySlot slot_id => en50221_tl_destroy_slot cb slot_id;; mret 0
  | OpRegisterCallback arg => en50221_tl_register_callback arg;; mret 0
  | OpSendData slot_id connection_id data => en50221_tl_send_data e slot_id connection_id data
  | OpSendDatav slot_id connection_id vector => en50221_tl_send_datav e slot_id connection_id vector
  | OpNewTc slot_id => en50221_tl_new_tc e slot_id
  | OpDelTc slot_id connection_id => en50221_tl_del_tc e slot_id connection_id
  | OpGetConnectionState slot_id connection_id =>
      en50221_tl_get_connection_state slot_id connection_id
  end.

Fixpoint run_ops (ops : list tl_op) : IO S (list Z) :=
  match ops with
  | [] => mret []
  | op :: ops => r ← run_op op; rs ← run_ops ops; mret (r :: rs)
  end.

Context (max_slots max_connections : Z).
Hypothesis Hslots : 0 <= max_slots < 256.
Hypothesis Hconnections : 0 <= max_connections < 256.
Context (J : S -> Prop).
Hypothesis HJ : forall tl s, J s -> tl_moves (get_tl s) tl -> J (put_tl tl s).
Hypothesis Hcb : forall tl0 arg reason data slot_id connection_id,
  byte slot_id -> byte connection_id -> Forall byte data ->
  keeps (inv max_slots max_connections tl0 J) (cb arg reason data slot_id connection_id) (λ _, True).
Hypothesis Henv : env_ok e max_slots.

Lemma run_op_keeps tl0 op :
  op_typed op -> is_destroy op = false ->
  keeps (inv max_slots max_connections tl0 J) (run_op op) (λ _, True).
Proof.
  intros Ht Hd. unfold op_typed, byte in Ht.
  assert (Hany : forall R (c : IO S Z), keeps (inv max_slots max_connections tl0 J) c R ->
    keeps (inv max_slots max_connections tl0 J) c (λ _, True))
    by (intros R c Hc; by eapply keeps_mono).
  destruct op; cbn [run_op]; try done.
  - eapply Hany. apply poll_keeps; try done; apply Hcb.
  - eapply Hany. by apply register_slot_keeps.
  - eapply keeps_bind; [by apply register_callback_keeps|]. intros. by apply keeps_ret.
  - eapply Hany. apply send_data_keeps; try done; lia.
  - eapply Hany. apply send_datav_keeps; try done; lia.
  - eapply Hany. apply new_tc_keeps; try done; lia.
  - eapply Hany. apply del_tc_keeps; try done; lia.
  - eapply Hany. apply get_connection_state_keeps; try done; lia.
Qed.

Lemma keeps_wf {A} (c : IO S A) R :
  (forall tl0, keeps (inv max_slots max_connections tl0 J) c R) ->
  keeps (wf max_slots max_connections J) c R.
Proof.
  intros Hc w [Hw HJw].
  specialize (Hc (get_tl (w_state w)) w (conj (tl_inv_refl _ _ _ Hw) HJw)).
  destruct (c w) as [[a w']|]; [|done]. cbn in *. by destruct Hc as [[[Hc _] Hj] HR].
Qed.

(** Destroying a slot is no step of its connections. *)
Lemma run_op_wf op : (forall tl s, J s -> J (put_tl tl s)) -> op_typed op -> keeps (wf max_slots max_connections J) (run_op op) (λ _, True).
Proof.
  intros Hany Ht. destruct (is_destroy op) eqn:Ed.
  - destruct op; try done. eapply keeps_bind; [|intros; by apply keeps_ret].
    apply destroy_slot_keeps; [done|exact Hany| |by destruct Ht].
    intros. apply keeps_wf. intros. by apply Hcb.
  - apply keeps_wf. intros. by apply run_op_keeps.
Qed.

Lemma run_ops_wf ops : (forall tl s, J s -> J (put_tl tl s)) ->
  Forall op_typed ops ->
  keeps (wf max_slots max_connections J) (run_ops ops) (λ rs, length rs = length ops).
Proof.
  intros Hany. induction 1 as [|op ops Ht _ IH]; [by apply keeps_ret|].
  eapply keeps_bind; [by apply run_op_wf|]. intros r _.
  eapply keeps_bind; [apply IH|]. intros rs Hrs. apply keeps_ret. cbn. by rewrite Hrs.
Qed.

Lemma run_ops_keeps tl0 ops :
  Forall op_typed ops -> existsb is_destroy ops = false ->
  keeps (inv max_slots max_connections tl0 J) (run_ops ops) (λ _, True).
Proof.
  induction 1 as [|op ops Ht _ IH]; intros Hd; [by apply keeps_ret|].
  apply orb_false_iff in Hd as [Hd1 Hd2].
  eapply keeps_bind; [by apply run_op_keeps|]. intros r _.
  eapply keeps_bind; [by apply IH|]. intros. by apply keeps_ret.
Qed.
End Sequences.

(** ** The writes of a layer *)

(** Each value is related to the one before it. *)
Fixpoint stepwise {A} (R : A -> A -> Prop) (a : A) (l : list A) : Prop :=
  match l with [] => True | b :: l => R a b /\ stepwise R b l end.

Lemma stepwise_snoc {A} (R : A -> A -> Prop) a l b : stepwise R a l -> R (default a (last l)) b -> stepwise R a (l ++ [b]).
Proof.
  revert a. induction l as [|c l IH]; intros a Hl Hb; [by split|]. destruct Hl as [Hc Hl]. split; [done|].
  apply IH; [done|]. rewrite last_cons in Hb. by destruct (last l).
Qed.

(** A state that also holds every value that was written to one of its layers, in order. *)
Record recorded (L S : Type) := Recorded { rec_state : S; rec_writes : list L }.
Arguments Recorded {L S} _ _.
Arguments rec_state {L S} _.
Arguments rec_writes {L S} _.

#[export] Instance recorded_transport {S} `{HasTransport S} : HasTransport (recorded transport_layer S) :=
  {| get_tl := λ s, get_tl (rec_state s);
     put_tl := λ tl s, Recorded (put_tl tl (rec_state s)) (rec_writes s ++ [tl]) |}.
#[export] Instance recorded_transport_laws {S} `{TransportLaws S} : TransportLaws (recorded transport_layer S).
Proof. split. intros tl s. exact (get_put (S := S) tl (rec_state s)). Qed.

(** What was written since [before] leads from the layer [tl], write by write, to the present one. *)
Definition writes_linked {S} `{HasTransport S} (tl : transport_layer) (before : list transport_layer)
    (s : recorded transport_layer S) : Prop :=
  exists tls, rec_writes s = before ++ tls /\ stepwise tl_moves tl tls /\ get_tl s = default tl (last tls).

Lemma writes_linked_put {S} `{TransportLaws S} tl before tl' (s : recorded transport_layer S) :
  writes_linked tl before s -> tl_moves (get_tl s) tl' -> writes_linked tl before (put_tl tl' s).
Proof.
  intros (tls & Ew & Hl & Eg) Hm. exists (tls ++ [tl']). cbn. rewrite Ew, <- app_assoc, last_snoc. split; [done|].
  split; [|apply get_put]. apply stepwise_snoc; [done|]. by rewrite <- Eg.
Qed.

Lemma writes_linked_now {S} `{HasTransport S} (s : recorded transport_layer S) :
  writes_linked (get_tl s) (rec_writes s) s.
Proof. exists []. by rewrite app_nil_r. Qed.

(** A new layer is well formed, with every connection idle. *)
Lemma create_slots_run {S} e n max_connections (w : world S) :
  (forall k, e_malloc e k = true) ->
  create_slots e n max_connections w =
  Ok (Some (replicate n (Slot (-1) 0 (replicate (Z.to_nat max_connections) idle_connection) 0 0)),
      World (w_state w) (w_tick w + n) (w_log w)).
Proof.
  intros Hm. revert w. induction n as [|n IH]; intros w; cbn [create_slots replicate].
  - unfold mret, io_ret. rewrite Nat.add_0_r. by destruct w.
  - unfold malloc, tick, mbind, io_bind, mret, io_ret. rewrite Hm. cbn [negb]. rewrite IH.
    cbn. do 3 f_equal. lia.
Qed.

Lemma create_run {S} e max_slots max_connections (w : world S) :
  (forall k, e_malloc e k = true) -> 0 <= max_slots -> 0 <= max_connections ->
  exists tl w', en50221_tl_create e max_slots max_connections w = Ok (Some tl, w') /\
    w_state w' = w_state w /\ tl_wf max_slots max_connections tl /\
    forall slot_id connection_id, 0 <= slot_id < max_slots -> 0 <= connection_id < max_connections ->
    connection_at tl slot_id connection_id = Some idle_connection.
Proof.
  intros Hm Hs Hc. unfold en50221_tl_create. assert (Hmr := malloc_run (S := S) e Hm).
  do 2 (rewrite (io_bind_run _ _ _ _ _ (Hmr _)); cbn [negb]).
  rewrite (io_bind_run _ _ _ _ _ (create_slots_run _ _ _ _ Hm)).
  rewrite (io_bind_run _ _ _ _ _ (Hmr _)). cbn [negb].
  do 2 eexists. split; [done|]. split; [done|]. split.
  - split; cbn; [done..| | |].
    + rewrite length_replicate. lia.
    + apply Forall_replicate. cbn. rewrite length_replicate. lia.
    + apply Forall_replicate. cbn. apply Forall_replicate.
      split; cbn; [done|by intros [|? []]|by constructor].
  - intros sl co Hsl Hco. unfold connection_at, lookup_z. cbn [tl_slots].
    rewrite (proj2 (Z.leb_le _ _)) by lia. rewrite lookup_replicate_2 by lia. cbn [s_connections].
    rewrite (proj2 (Z.leb_le _ _)) by lia. by rewrite lookup_replicate_2 by lia.
Qed.

(** ** Properties *)

(** A new layer for which there is memory is well formed: [max_slots] slots of
    [max_connections_per_slot] connections, all of them idle. *)
Theorem transport_created {S} e max_slots max_connections (w : world S) :
  (forall k, e_malloc e k = true) -> 0 <= max_slots -> 0 <= max_connections ->
  exists tl w', en50221_tl_create e max_slots max_connections w = Ok (Some tl, w') /\
    w_state w' = w_state w /\ tl_wf max_slots max_connections tl /\
    forall slot_id connection_id, 0 <= slot_id < max_slots -> 0 <= connection_id < max_connections ->
    connection_at tl slot_id connection_id = Some idle_connection.
Proof. apply create_run. Qed.

(** C30: Whatever the module sends (short of an empty T_DATA_MORE) and the operating system answers, any
    sequence of calls on a well formed layer runs to its end without a memory fault (no access out of
    bounds, no use of a freed chain buffer) and leaves a well formed layer: chain buffers are
    allocated and not empty, and a T_DELETE_T_C message is only queued last, on a connection whose
    state says so.  The callback may itself call the layer, and may rely on and keep an invariant [J]
    of the state of the layers above. *)
Theorem transport_calls_safe {S} `{TransportLaws S} e cb max_slots max_connections (J : S -> Prop) ops
    (w : world S) :
  0 <= max_slots < 256 -> 0 <= max_connections < 256 ->
  (forall tl s, J s -> J (put_tl tl s)) ->
  (forall tl0 arg reason data slot_id connection_id,
     byte slot_id -> byte connection_id -> Forall byte data ->
     keeps (inv max_slots max_connections tl0 J) (cb arg reason data slot_id connection_id)
       (λ _, True)) ->
  env_ok e max_slots -> Forall op_typed ops ->
  tl_wf max_slots max_connections (get_tl (w_state w)) -> J (w_state w) ->
  okay (run_ops e cb ops w) (λ '(rs, w'),
    length rs = length ops /\ tl_wf max_slots max_connections (get_tl (w_state w')) /\
    J (w_state w')).
Proof.
  intros Hs Hc HJ Hcb He Ht Hw HJw.
  eapply okay_mono;
    [by apply (run_ops_wf e cb max_slots max_connections Hs Hc J (λ tl s Hj _, HJ tl s Hj) Hcb He ops HJ Ht w)|].
  by intros [rs w'] [[??] ?].
Qed.

(** C31: As long as no slot is destroyed, every write of the layer moves every connection by at most one transition of
    the connection state machine: with all the layers recorded that are written in a sequence of calls, each
    follows from the one before it, whatever the calls, the module (short of an empty T_DATA_MORE) and the
    operating system do, and the callback, as long as it changes the layer in this way only. *)
Theorem transport_state_machine {S} `{TransportLaws S} e (cb : callback (recorded transport_layer S)) max_slots
    max_connections (J : recorded transport_layer S -> Prop) ops (w : world (recorded transport_layer S)) :
  0 <= max_slots < 256 -> 0 <= max_connections < 256 ->
  (forall tl s, J s -> J (put_tl tl s)) ->
  (forall tl0 tl before arg reason data slot_id connection_id,
     byte slot_id -> byte connection_id -> Forall byte data ->
     keeps (inv max_slots max_connections tl0 (λ s, J s /\ writes_linked tl before s))
       (cb arg reason data slot_id connection_id) (λ _, True)) ->
  env_ok e max_slots -> Forall op_typed ops -> existsb is_destroy ops = false ->
  tl_wf max_slots max_connections (get_tl (w_state w)) -> J (w_state w) ->
  okay (run_ops e cb ops w) (λ '(_, w'),
    exists tls, rec_writes (w_state w') = rec_writes (w_state w) ++ tls /\
      stepwise tl_moves (get_tl (w_state w)) tls /\
      get_tl (w_state w') = default (get_tl (w_state w)) (last tls)).
Proof.
  intros Hs Hc HJ Hcb He Ht Hd Hw HJw. set (tl := get_tl (w_state w)). set (before := rec_writes (w_state w)).
  eapply okay_mono.
  - apply (run_ops_keeps e cb max_slots max_connections Hs Hc (λ s, J s /\ writes_linked tl before s)) with (tl0 := tl);
      [|exact (λ tl0, Hcb tl0 tl before)|done|done|done|].
    + intros tl' s [Hj Hl] Hm. split; [by apply HJ|by apply writes_linked_put].
    + split; [by apply tl_inv_refl|]. split; [done|apply writes_linked_now].
  - by intros [rs w'] [[_ [_ Hl]] _].
Qed.

(** *** Witnesses *)

(** A module that answers T_SB with waiting data, then sends it, on connection 1. *)
Definition demo_env : env := Env (λ _, true) (λ _, 0)
  (λ n, if (n <? 8)%nat then Some [0; 1; 0x83; 1; 1] else Some [0; 1; 0xA0; 3; 1; 7; 9; 0x80; 2; 1; 0])
  (λ n, (Z.of_nat n, 0)) (λ _, (1, [1])).

Definition demo_slot : slot := Slot 5 0 (replicate 2 idle_connection) 1000 100.
Definition demo_layer : transport_layer := TransportLayer 1 2 [demo_slot] [(0, 0)] true 0 0 (Some 42).
Definition no_callback {S} : callback S := λ _ _ _ _ _, mret tt.

Lemma demo_env_ok : env_ok demo_env 1.
Proof.
  split.
  - done.
  - intros n bs. cbn [e_read demo_env]. destruct (n <? 8)%nat; intros E; apply (inj Some) in E; subst bs; by repeat constructor.
  - intros n bs. cbn [e_read demo_env]. destruct (n <? 8)%nat; intros E; apply (inj Some) in E; subst bs; reflexivity.
Qed.

Lemma demo_layer_wf : tl_wf 1 2 demo_layer.
Proof.
  split; [done..| |].
  - by repeat constructor.
  - constructor; [|constructor]. apply Forall_replicate.
    split; cbn; [done|by intros [|? []]|by constructor].
Qed.

Definition demo_ops : list tl_op := [OpNewTc 0; OpPoll; OpPoll; OpSendData 0 1 [1; 2; 3]; OpPoll; OpDelTc 0 1].

Lemma demo_ops_typed : Forall op_typed demo_ops.
Proof.
  unfold demo_ops. rewrite !Forall_cons_iff. unfold op_typed, byte. cbn [length].
  split_and!; try lia; done.
Qed.

Lemma demo_callback_keeps tl0 arg reason data slot_id connection_id :
  keeps (inv (S := transport_layer) 1 2 tl0 (λ _, True)) (no_callback arg reason data slot_id connection_id)
    (λ _, True).
Proof. by apply keeps_ret. Qed.

(** The connection is opened, polled, receives data and sends some, then is to be deleted. *)
Example demo_run :
  match run_ops demo_env no_callback demo_ops (World demo_layer 0 []) with
  | Ok (rs, w) => rs = [1; 0; -1; 0; 0; 0] /\
      c_state <$> connection_at (w_state w) 0 1 = Some T_STATE_ACTIVE_DELETEQUEUED /\
      w_log w = [Called 42 0 [] 0 1; Written 5 [0; 1; 130; 1; 1];
        Called 42 2 [7; 9] 0 1; Written 5 [0; 1; 160; 1; 1];
        Called 42 2 [7; 9] 0 1; Written 5 [0; 1; 160; 4; 1; 1; 2; 3]]
  | Err _ => False
  end.
Proof. vm_compute. split_and!; reflexivity. Qed.

Lemma transport_created_witness :
  exists tl w', en50221_tl_create demo_env 2 3 (World tt 0 []) = Ok (Some tl, w') /\
    w_state w' = tt /\ tl_wf 2 3 tl /\
    forall slot_id connection_id, 0 <= slot_id < 2 -> 0 <= connection_id < 3 ->
    connection_at tl slot_id connection_id = Some idle_connection.
Proof. apply (transport_created demo_env 2 3 (World tt 0 [])); [done|lia|lia]. Defined.

Lemma transport_calls_safe_witness :
  okay (run_ops demo_env no_callback demo_ops (World demo_layer 0 [])) (λ '(rs, w'),
    length rs = length demo_ops /\ tl_wf 1 2 (get_tl (w_state w')) /\ True).
Proof.
  apply (transport_calls_safe demo_env no_callback 1 2 (λ _, True) demo_ops (World demo_layer 0 [])).
  - lia.
  - lia.
  - done.
  - intros. apply demo_callback_keeps.
  - apply demo_env_ok.
  - apply demo_ops_typed.
  - apply demo_layer_wf.
  - exact I.
Defined.

Definition demo_recorded : world (recorded transport_layer transport_layer) := World (Recorded demo_layer []) 0 [].

Lemma transport_state_machine_witness :
  okay (run_ops demo_env no_callback demo_ops demo_recorded) (λ '(_, w'),
    exists tls, rec_writes (w_state w') = rec_writes (w_state demo_recorded) ++ tls /\
      stepwise tl_moves (get_tl (w_state demo_recorded)) tls /\
      get_tl (w_state w') = default (get_tl (w_state demo_recorded)) (last tls)).
Proof.
  apply (transport_state_machine demo_env no_callback 1 2 (λ _, True) demo_ops demo_recorded).
  - lia.
  - lia.
  - done.
  - intros. by apply keeps_ret.
  - apply demo_env_ok.
  - apply demo_ops_typed.
  - reflexivity.
  - apply demo_layer_wf.
  - exact I.
Defined.
