(* ===== verification/En50221Exchange.v ===== *)
(** * What the transport layer sends and receives

    The TPDUs of the wire; data sent in one or more TPDUs is delivered to the callback exactly once
    and whole; queued messages leave in order, one at a time; and what happens at the limits. *)

From S2P Require Export En50221Safety.

(** ** TPDUs *)

(** The length field of a TPDU that carries [payload]. *)
Definition length_field (payload : list Z) : list Z :=
  default [] (asn_1_encode (zlen payload + 1) 3).

Definition tpdu (tag con : Z) (payload : list Z) : list Z :=
  tag :: length_field payload ++ con :: payload.

Definition sendable (payload : list Z) : Prop := Forall byte payload /\ zlen payload < 65535.

Lemma length_field_form payload rest :
  zlen payload < 65535 ->
  asn_1_form (length_field payload ++ rest) (zlen payload + 1) (zlen (length_field payload)) /\
  Forall byte (length_field payload).
Proof.
  intros Hl. destruct (asn_1_encode_form (zlen payload + 1) rest) as (bs & He & Hf & Hb & _); [lia|].
  unfold length_field. rewrite He. by split.
Qed.

Lemma parse_tpdu_tpdu tag con payload rest :
  byte con -> sendable payload -> Forall byte rest ->
  parse_tpdu (tpdu tag con payload ++ rest) = Some (tag, con, payload, rest).
Proof.
  intros Hc [Hp Hl] Hr. unfold tpdu. cbn [app parse_tpdu]. rewrite <- app_assoc. cbn [app].
  set (body := con :: payload ++ rest). assert (Hbody : Forall byte body).
  { unfold body. constructor; [done|]. by apply Forall_app. }
  destruct (length_field_form payload body Hl) as [Hf Hlf].
  destruct (asn_1_decode_run (length_field payload ++ body)) as (r & -> & Hr');
    [by apply Forall_app|].
  apply Hr' in Hf as ->. rewrite length_app.
  assert (Hb : zlen body = 1 + zlen payload + zlen rest) by (unfold body; cbn [length]; rewrite length_app; lia).
  rewrite (proj2 (Z.ltb_ge _ _)), (proj2 (Z.ltb_ge _ _)) by lia. cbn [orb].
  rewrite drop_app_length' by lia. unfold body. replace (zlen payload + 1 - 1) with (zlen payload) by lia.
  by rewrite Nat2Z.id, take_app_length, drop_app_length.
Qed.

Lemma tpdu_bytes tag con payload :
  byte tag -> byte con -> sendable payload -> Forall byte (tpdu tag con payload).
Proof.
  intros Ht Hc [Hp Hl]. destruct (length_field_form payload [] Hl) as [_ Hlf].
  constructor; [done|]. apply Forall_app. by split; [|constructor].
Qed.

(** ** Updates of one connection *)

Definition tl_upd (slot_id connection_id : Z) (f : connection -> connection) (tl : transport_layer) :
    transport_layer :=
  match tl_slots tl !z slot_id with
  | Some s =>
      match s_connections s !z connection_id with
      | Some c =>
          set_slots (<[Z.to_nat slot_id :=
            set_connections (<[Z.to_nat connection_id := f c]> (s_connections s)) s]> (tl_slots tl)) tl
      | None => tl
      end
  | None => tl
  end.

(** The slot without its connections. *)
Definition slot_params (tl : transport_layer) (slot_id : Z) : option (Z * Z * Z * Z) :=
  (λ s, (s_ca_hndl s, s_slot s, s_response_timeout s, s_poll_delay s)) <$> tl_slots tl !z slot_id.

(** Between the two layers only the connection changes, to [c]. *)
Record only_connection (slot_id connection_id : Z) (c : connection) (tl tl' : transport_layer) : Prop := {
  oc_at : connection_at tl' slot_id connection_id = Some c;
  oc_others : forall s i, (s, i) <> (slot_id, connection_id) -> connection_at tl' s i = connection_at tl s i;
  oc_params : forall s, slot_params tl' s = slot_params tl s;
  oc_callback : tl_callback tl' = tl_callback tl;
  oc_max_slots : tl_max_slots tl' = tl_max_slots tl;
  oc_max : tl_max_connections_per_slot tl' = tl_max_connections_per_slot tl;
}.

Lemma only_connection_refl slot_id connection_id c tl :
  connection_at tl slot_id connection_id = Some c -> only_connection slot_id connection_id c tl tl.
Proof. by split. Qed.

Lemma only_connection_trans slot_id connection_id c c' tl tl' tl'' :
  only_connection slot_id connection_id c tl tl' -> only_connection slot_id connection_id c' tl' tl'' ->
  only_connection slot_id connection_id c' tl tl''.
Proof.
  intros [] []. split; [done| | |congruence..].
  - intros s i Hne. transitivity (connection_at tl' s i); auto.
  - intros s. transitivity (slot_params tl' s); auto.
Qed.

Lemma tl_upd_only slot_id connection_id f c tl :
  connection_at tl slot_id connection_id = Some c ->
  only_connection slot_id connection_id (f c) tl (tl_upd slot_id connection_id f tl).
Proof.
  unfold connection_at, tl_upd. intros Hat. destruct (tl_slots tl !z slot_id) as [s|] eqn:Es; [|done].
  rewrite Hat. pose proof Es as Es'. apply lookup_z_Some in Es' as [Hs _].
  pose proof Hat as Hat'. apply lookup_z_Some in Hat' as [Hc _]. split; try done.
  - unfold connection_at. cbn [set_slots tl_slots]. rewrite lookup_z_insert, Z.eqb_refl by done.
    cbn [set_connections s_connections]. by rewrite lookup_z_insert, Z.eqb_refl.
  - intros sl i Hne. unfold connection_at. cbn [set_slots tl_slots]. rewrite lookup_z_insert by done.
    destruct (Z.eqb_spec sl slot_id) as [->|]; [|done]. cbn [set_connections s_connections].
    rewrite lookup_z_insert by done. rewrite Es.
    by destruct (Z.eqb_spec i connection_id) as [->|].
  - intros sl. unfold slot_params. cbn [set_slots tl_slots]. rewrite lookup_z_insert by done.
    destruct (Z.eqb_spec sl slot_id) as [->|]; [|done]. by rewrite Es.
Qed.

Section Exchange.
Context {S : Type} `{TransportLaws S} (e : env) (cb : callback S).

(** What the transport layer does not touch is as it was. *)
Definition untouched (s s' : S) : Prop :=
  forall J : S -> Prop, (forall tl s, J s -> J (put_tl tl s)) -> J s -> J s'.

Lemma untouched_refl s : untouched s s.
Proof. by intros J _ Hs. Qed.

Lemma untouched_trans s s' s'' : untouched s s' -> untouched s' s'' -> untouched s s''.
Proof. intros H1 H2 J HJ Hs. apply (H2 J HJ), (H1 J HJ), Hs. Qed.

(** From [w] to [w'] only the connection changes, to [c], and nothing is sent or called. *)
Definition quiet (slot_id connection_id : Z) (c : connection) (w w' : world S) : Prop :=
  only_connection slot_id connection_id c (get_tl (w_state w)) (get_tl (w_state w')) /\
  w_log w' = w_log w /\ untouched (w_state w) (w_state w').

Lemma quiet_trans slot_id connection_id c c' w w' w'' :
  quiet slot_id connection_id c w w' -> quiet slot_id connection_id c' w' w'' ->
  quiet slot_id connection_id c' w w''.
Proof.
  intros (H1 & H2 & H3) (H4 & H5 & H6).
  split_and!; [by eapply only_connection_trans|congruence|by eapply untouched_trans].
Qed.

Lemma upd_connection_quiet slot_id connection_id f c (w : world S) :
  connection_at (get_tl (w_state w)) slot_id connection_id = Some c ->
  exists w', upd_connection slot_id connection_id f w = Ok (tt, w') /\
    quiet slot_id connection_id (f c) w w' /\ w_tick w' = w_tick w.
Proof.
  intros Hat. pose proof (tl_upd_only slot_id connection_id f c _ Hat) as Ho.
  unfold connection_at in Hat. destruct (tl_slots _ !z slot_id) as [s|] eqn:Es; [|done].
  rewrite (upd_connection_run _ _ f _ _ _ Es Hat). eexists. split; [done|]. split; [|done].
  split_and!; [|done|intros J HJ Hs; by apply HJ].
  cbn [w_state]. rewrite get_put. unfold tl_upd in Ho. by rewrite Es, Hat in Ho.
Qed.

(** ** Receiving *)

Definition chain_bytes (ch : chain) : list Z := match ch with Chain old => old | _ => [] end.

Hypothesis Hmalloc : forall n, e_malloc e n = true.

Lemma realloc_append_run ch data (w : world S) :
  ch <> Dangling -> data <> [] ->
  exists w', realloc_append e ch data w = Ok (Some (chain_bytes ch ++ data), w') /\
    w_state w' = w_state w /\ w_log w' = w_log w.
Proof.
  intros Hch Hne. unfold realloc_append. destruct ch as [|old|]; [|..|done].
  - rewrite (io_bind_run _ _ _ _ _ (malloc_run e Hmalloc _)). by eexists.
  - rewrite (proj2 (Z.eqb_neq _ _)).
    2: { rewrite length_app. destruct data; [done|]. cbn [length]. lia. }
    rewrite (io_bind_run _ _ _ _ _ (malloc_run e Hmalloc _)). by eexists.
Qed.

(** The chain buffer grows by the data, then [f] is done to the connection. *)
Lemma extend_chain_run {A} slot_id connection_id c data f (k : list Z -> IO S A) (w : world S) :
  connection_at (get_tl (w_state w)) slot_id connection_id = Some c ->
  c_chain c <> Dangling -> data <> [] ->
  exists w1 w2, quiet slot_id connection_id (f (clear_tx_time c)) w w2 /\
    upd_connection slot_id connection_id clear_tx_time w = Ok (tt, w1) /\
    forall g : option (list Z) -> IO S A,
      g (Some (chain_bytes (c_chain c) ++ data)) =
        (upd_connection slot_id connection_id f;; k (chain_bytes (c_chain c) ++ data)) ->
      (realloc_append e (c_chain c) data ≫= g) w1 = k (chain_bytes (c_chain c) ++ data) w2.
Proof.
  intros Hat Hch Hne.
  destruct (upd_connection_quiet slot_id connection_id clear_tx_time c w Hat) as (w1 & Hu & Hq1 & _).
  destruct (realloc_append_run (c_chain c) data w1 Hch Hne) as (w2 & Hr & Hs2 & Hl2).
  destruct (upd_connection_quiet slot_id connection_id f (clear_tx_time c) w2) as (w3 & Hu3 & Hq3 & _);
    [rewrite Hs2; apply (proj1 Hq1)|].
  exists w1, w3. split; [|split; [done|]].
  - eapply quiet_trans; [exact Hq1|]. destruct Hq3 as (Ho & Hl & Hf). rewrite Hs2 in Ho, Hf.
    split_and!; [done|congruence|done].
  - intros g Hg. rewrite (io_bind_run _ _ _ _ _ Hr), Hg. by rewrite (io_bind_run _ _ _ _ _ Hu3).
Qed.

Lemma data_more_run slot_id connection_id c data (w : world S) :
  connection_at (get_tl (w_state w)) slot_id connection_id = Some c ->
  c_state c = T_STATE_ACTIVE -> c_chain c <> Dangling -> data <> [] ->
  exists w', en50221_tl_handle_data_more e slot_id connection_id data w = Ok (0, w') /\
    quiet slot_id connection_id
      (set_chain (Chain (chain_bytes (c_chain c) ++ data)) (clear_tx_time c)) w w'.
Proof.
  intros Hat Hst Hch Hne. unfold en50221_tl_handle_data_more.
  rewrite (io_bind_run _ _ _ _ _ (get_connection_run _ _ _ _ Hat)). rewrite Hst.
  change (negb (state_is T_STATE_ACTIVE T_STATE_ACTIVE)) with false. cbv iota.
  destruct (extend_chain_run slot_id connection_id c data
    (set_chain (Chain (chain_bytes (c_chain c) ++ data))) (λ _, mret 0) w Hat Hch Hne)
    as (w1 & w2 & Hq & Hu & Hr).
  rewrite (io_bind_run _ _ _ _ _ Hu). exists w2. split; [|done]. by rewrite Hr.
Qed.

Lemma run_callback_run reason data slot_id connection_id arg (w : world S) :
  tl_callback (get_tl (w_state w)) = Some arg ->
  run_callback cb reason data slot_id connection_id w =
  cb arg reason data slot_id connection_id
    (World (w_state w) (w_tick w) (w_log w ++ [Called arg reason data slot_id connection_id])).
Proof. intros Hcb. unfold run_callback. rewrite (io_bind_run _ _ _ _ _ (tl_of_run w)). by rewrite Hcb. Qed.

Lemma data_last_run slot_id connection_id c data (w : world S) :
  connection_at (get_tl (w_state w)) slot_id connection_id = Some c ->
  c_state c = T_STATE_ACTIVE -> c_chain c <> Dangling -> data <> [] ->
  exists w', quiet slot_id connection_id (set_chain NoChain (clear_tx_time c)) w w' /\
    en50221_tl_handle_data_last e cb slot_id connection_id data w =
    (run_callback cb T_CALLBACK_REASON_DATA (chain_bytes (c_chain c) ++ data) slot_id connection_id;;
     mret 0) w'.
Proof.
  intros Hat Hst Hch Hne. unfold en50221_tl_handle_data_last.
  rewrite (io_bind_run _ _ _ _ _ (get_connection_run _ _ _ _ Hat)). rewrite Hst.
  change (negb (state_is T_STATE_ACTIVE T_STATE_ACTIVE)) with false. cbv iota.
  assert (Hlen : (0 <? zlen data) = true).
  { apply Z.ltb_lt. destruct data; [done|]. cbn [length]. lia. }
  rewrite Hlen. destruct (c_chain c) as [|old|] eqn:Ech; [|..|done].
  - destruct (upd_connection_quiet slot_id connection_id clear_tx_time c w Hat) as (w1 & Hu & Hq1 & _).
    exists w1. rewrite (io_bind_run _ _ _ _ _ Hu). split; [|done].
    replace (set_chain NoChain (clear_tx_time c)) with (clear_tx_time c); [done|].
    unfold set_chain, clear_tx_time, set_tx_time. cbn. by rewrite Ech.
  - destruct (extend_chain_run slot_id connection_id c data (set_chain NoChain)
      (λ b, run_callback cb T_CALLBACK_REASON_DATA b slot_id connection_id;; mret 0) w Hat)
      as (w1 & w2 & Hq & Hu & Hr); [by rewrite Ech|done|].
    rewrite (io_bind_run _ _ _ _ _ Hu). exists w2. split; [done|]. rewrite Ech in Hr. by rewrite Hr.
Qed.

(** One TPDU of the stream. *)
Lemma process_data_step fuel slot_id tag con payload rest (w : world S) :
  byte tag -> byte con -> sendable payload -> Forall byte rest ->
  con < tl_max_connections_per_slot (get_tl (w_state w)) ->
  process_data_ e cb (Datatypes.S fuel) slot_id (tpdu tag con payload ++ rest) w =
  (result ← handle_tpdu e cb slot_id tag con payload;
   if result <? 0 then mret (-1) else process_data_ e cb fuel slot_id rest) w.
Proof.
  intros Ht Hc Hp Hr Hmax. cbn [process_data_]. rewrite (proj2 (Z.eqb_neq _ _)) by (cbn [app length tpdu]; lia).
  assert (Hb : Forall byte (tpdu tag con payload ++ rest)).
  { apply Forall_app. split; [by apply tpdu_bytes|done]. }
  rewrite process_tpdu_run by done. rewrite parse_tpdu_tpdu by done.
  unfold mbind, io_bind. rewrite tl_of_run. rewrite (proj2 (Z.leb_gt _ _)) by done.
  destruct (handle_tpdu e cb slot_id tag con payload w) as [[r w']|]; [|done].
  by destruct (r <? 0).
Qed.

Definition data_stream (con : Z) (chunks : list (list Z)) (last : list Z) : list Z :=
  concat (tpdu T_DATA_MORE con <$> chunks) ++ tpdu T_DATA_LAST con last.

Lemma data_stream_run chunks last fuel slot_id con c (w : world S) :
  byte con -> con < tl_max_connections_per_slot (get_tl (w_state w)) ->
  Forall (λ d, sendable d /\ d <> []) (chunks ++ [last]) ->
  connection_at (get_tl (w_state w)) slot_id con = Some c ->
  c_state c = T_STATE_ACTIVE -> c_chain c <> Dangling ->
  (length chunks < fuel)%nat ->
  exists w', quiet slot_id con (set_chain NoChain (clear_tx_time c)) w w' /\
    process_data_ e cb fuel slot_id (data_stream con chunks last) w =
    (run_callback cb T_CALLBACK_REASON_DATA (chain_bytes (c_chain c) ++ concat chunks ++ last)
       slot_id con;; mret 0) w'.
Proof.
  intros Hcon. revert fuel c w. induction chunks as [|d chunks IH];
    intros fuel c w Hmax Hd Hat Hst Hch Hf; (destruct fuel as [|fuel]; [lia|]).
  - cbn [app] in Hd. apply Forall_cons_iff in Hd as [[Hs Hne] _].
    destruct (data_last_run slot_id con c last w Hat Hst Hch Hne) as (w' & Hq & Hr).
    exists w'. split; [done|]. unfold data_stream. cbn [fmap list_fmap concat app].
    rewrite <- (app_nil_r (tpdu _ _ _)). rewrite process_data_step by done.
    change (handle_tpdu e cb slot_id T_DATA_LAST con last)
      with (en50221_tl_handle_data_last e cb slot_id con last).
    unfold mbind in *. unfold io_bind at 1. rewrite Hr. unfold io_bind.
    destruct (run_callback _ _ _ _ _ w') as [[[] w2]|]; [|done]. by destruct fuel.
  - cbn [app] in Hd. apply Forall_cons_iff in Hd as [[Hs Hne] Hd].
    destruct (data_more_run slot_id con c d w Hat Hst Hch Hne) as (w1 & Hr & Hq1).
    assert (Hbs : Forall byte (data_stream con chunks last)).
    { unfold data_stream. apply Forall_app in Hd as [Hd Hl]. apply Forall_app. split.
      - apply Forall_concat, Forall_fmap. eapply Forall_impl; [|exact Hd]. intros x [Hx _].
        by apply tpdu_bytes.
      - apply tpdu_bytes; [done..|]. apply Forall_cons_iff in Hl as [[Hl _] _]. done. }
    unfold data_stream. cbn [fmap list_fmap concat]. rewrite <- app_assoc.
    fold (data_stream con chunks last). rewrite process_data_step by done.
    change (handle_tpdu e cb slot_id T_DATA_MORE con d)
      with (en50221_tl_handle_data_more e slot_id con d).
    rewrite (io_bind_run _ _ _ _ _ Hr). change (0 <? 0) with false. cbv iota.
    pose proof Hq1 as [[Hat1 _ _ _ _ Hm1] _].
    destruct (IH fuel (set_chain (Chain (chain_bytes (c_chain c) ++ d)) (clear_tx_time c)) w1)
      as (w' & Hq & Hrun); [by rewrite Hm1|done..|cbn in Hf; lia|].
    exists w'. split; [by eapply quiet_trans|]. rewrite Hrun. cbn [c_chain set_chain chain_bytes].
    by rewrite <- !app_assoc.
Qed.

(** ** Sending *)

Lemma link_write_run fd slot con msg (w : world S) :
  zlen msg < 65536 ->
  dvbca_link_write e fd slot con msg (zlen msg) w =
  Ok (e_write e (Datatypes.S (w_tick w)),
      World (w_state w) (w_tick w + 2) (w_log w ++ [Written fd (slot :: con :: msg)])).
Proof.
  intros Hl. unfold dvbca_link_write. rewrite (io_bind_run _ _ _ _ _ (malloc_run e Hmalloc _)). cbn [negb].
  rewrite u16_id by lia. rewrite Z.ltb_irrefl, Nat2Z.id, take_ge by lia.
  unfold sys_write, tick, log_event, mbind, io_bind, mret, io_ret. cbn. do 3 f_equal. lia.
Qed.

Lemma slot_write_run slot_id con msg hndl num timeout delay (w : world S) :
  slot_params (get_tl (w_state w)) slot_id = Some (hndl, num, timeout, delay) -> zlen msg < 65536 ->
  slot_write e slot_id con msg (zlen msg) w =
  Ok (e_write e (Datatypes.S (w_tick w)),
      World (w_state w) (w_tick w + 2) (w_log w ++ [Written hndl (num :: con :: msg)])).
Proof.
  unfold slot_params. intros Hp Hl. destruct (tl_slots _ !z slot_id) as [s|] eqn:Es; [|done].
  injection Hp as <- <- <- <-. unfold slot_write. rewrite (io_bind_run _ _ _ _ _ (get_slot_run _ _ _ Es)).
  by apply link_write_run.
Qed.

(** The connection after a message of its queue was sent. *)
Definition sent (msg : list Z) (queue : list (list Z)) (t : Z * Z) (c : connection) : connection :=
  let c := set_tx_time t (set_send_queue queue c) in
  if decide (is_delete msg) then set_chain NoChain (set_state T_STATE_IN_DELETION c) else c.

Lemma is_delete_test msg :
  (0 <? zlen msg) && (default 0 (msg !z 0) =? T_DELETE_T_C) = bool_decide (is_delete msg).
Proof.
  unfold is_delete. destruct msg as [|b msg]; [done|].
  rewrite (proj2 (Z.ltb_lt _ _)) by (cbn [length]; lia). rewrite lookup_z_0.
  change ((b =? T_DELETE_T_C) = bool_decide (Some b = Some T_DELETE_T_C)).
  case_bool_decide as Hd; [by apply Z.eqb_eq, (inj Some)|]. apply Z.eqb_neq. intros ->. by apply Hd.
Qed.

(** "send queued data", on a connection that expects no answer and has a message queued. *)
Lemma poll_send_run slot_id j c hndl num timeout delay msg queue (w : world S) :
  connection_at (get_tl (w_state w)) slot_id j = Some c ->
  slot_params (get_tl (w_state w)) slot_id = Some (hndl, num, timeout, delay) ->
  c_state c <> T_STATE_IDLE -> c_state c <> T_STATE_IN_DELETION -> c_chain c <> Dangling ->
  c_send_queue c = msg :: queue -> (c_tx_time c).1 = 0 ->
  0 <= e_write e (Datatypes.S (w_tick w)) -> zlen msg < 65536 ->
  exists w' t, poll_send e slot_id j w = Ok (0, w') /\
    w_log w' = w_log w ++ [Written hndl (num :: j :: msg)] /\
    only_connection slot_id j (sent msg queue t c) (get_tl (w_state w)) (get_tl (w_state w')).
Proof.
  intros Hat Hp Hi Hd Hch Hq Htx Hw Hl. unfold poll_send.
  rewrite (io_bind_run _ _ _ _ _ (get_connection_run _ _ _ _ Hat)).
  assert (state_in (c_state c) [T_STATE_IN_CREATION; T_STATE_ACTIVE; T_STATE_ACTIVE_DELETEQUEUED] = true)
    as -> by by destruct (c_state c).
  rewrite Hq, Htx, Z.eqb_refl.
  destruct (upd_connection_quiet slot_id j (set_send_queue queue) c w Hat) as (w1 & Hu1 & [Ho1 [Hl1 _]] & Ht1).
  rewrite (io_bind_run _ _ _ _ _ Hu1).
  rewrite (io_bind_run _ _ _ _ _ (slot_write_run _ j msg hndl num timeout delay w1 ltac:(by rewrite (oc_params _ _ _ _ _ Ho1)) Hl)).
  rewrite Ht1, (proj2 (Z.ltb_ge _ _)) by done. set (w2 := World _ _ _).
  unfold gettimeofday, tick. unfold mbind at 1, io_bind at 1. unfold mbind at 1, io_bind at 1.
  unfold mret at 1, io_ret at 1. set (t := e_clock e _). set (w3 := World (w_state w2) _ _).
  destruct (upd_connection_quiet slot_id j (set_tx_time t) (set_send_queue queue c) w3)
    as (w4 & Hu4 & [Ho4 [Hl4 _]] & _); [apply Ho1|].
  rewrite (io_bind_run _ _ _ _ _ Hu4). rewrite is_delete_test.
  assert (Ho : only_connection slot_id j (set_tx_time t (set_send_queue queue c))
    (get_tl (w_state w)) (get_tl (w_state w4))) by by eapply only_connection_trans.
  assert (Hlog : w_log w4 = w_log w ++ [Written hndl (num :: j :: msg)]).
  { rewrite Hl4. unfold w3, w2. cbn [w_log]. by rewrite Hl1. }
  case_bool_decide as Hdel.
  - rewrite bind_assoc_run. rewrite (io_bind_run _ _ _ _ _ (get_connection_run _ _ _ _ (oc_at _ _ _ _ _ Ho))).
    rewrite bind_assoc_run. rewrite (io_bind_run (free_chain _) _ w4 tt w4) by (cbn; by destruct (c_chain c)).
    destruct (upd_connection_quiet slot_id j (λ c, set_chain NoChain (set_state T_STATE_IN_DELETION c))
      (set_tx_time t (set_send_queue queue c)) w4) as (w5 & Hu5 & [Ho5 [Hl5 _]] & _); [apply Ho|].
    rewrite (io_bind_run _ _ _ _ _ Hu5). exists w5, t. split_and!; [done|congruence|].
    unfold sent. cbv zeta. rewrite decide_True by done. by eapply only_connection_trans.
  - exists w4, t. split_and!; [done..|]. unfold sent. cbv zeta. by rewrite decide_False.
Qed.

(** The calls of the layer above, on a slot in use. *)
Lemma checked_run slot_id connection_id c k hndl num timeout delay (w : world S) :
  slot_id < tl_max_slots (get_tl (w_state w)) ->
  connection_id < tl_max_connections_per_slot (get_tl (w_state w)) ->
  slot_params (get_tl (w_state w)) slot_id = Some (hndl, num, timeout, delay) -> hndl <> -1 ->
  connection_at (get_tl (w_state w)) slot_id connection_id = Some c ->
  checked (S := S) slot_id connection_id k w = k c w.
Proof.
  unfold slot_params, connection_at. intros Hs Hc Hp Hh Hat.
  destruct (tl_slots _ !z slot_id) as [s|] eqn:Es; [|done]. injection Hp as <- <- <- <-.
  unfold checked. rewrite (io_bind_run _ _ _ _ _ (tl_of_run w)).
  rewrite (proj2 (Z.leb_gt _ _)) by done. rewrite (io_bind_run _ _ _ _ _ (get_slot_run _ _ _ Es)).
  rewrite (proj2 (Z.eqb_neq _ _)), (proj2 (Z.leb_gt _ _)) by done.
  rewrite (io_bind_run (lift _) _ w c w); [done|]. unfold lift, at_. by rewrite Hat.
Qed.

Lemma queue_data_run slot_id connection_id c data lf (w : world S) :
  connection_at (get_tl (w_state w)) slot_id connection_id = Some c ->
  asn_1_encode (zlen data + 1) 3 = Some lf -> zlen data < 2 ^ 32 - 10 ->
  exists w', queue_data e slot_id connection_id (zlen data) data w = Ok (0, w') /\
    quiet slot_id connection_id
      (set_send_queue (c_send_queue c ++ [T_DATA_LAST :: lf ++ connection_id :: data]) c) w w'.
Proof.
  intros Hat Hlf Hl. assert (Hn : zlen lf <= 3).
  { unfold asn_1_encode in Hlf. cbv zeta in Hlf. change (3 <? 1) with false in Hlf.
    repeat destruct (_ <? _) in Hlf; simplify_eq; cbn [length]; lia. }
  unfold queue_data. rewrite (io_bind_run _ _ _ _ _ (malloc_run e Hmalloc _)). cbn [negb].
  unfold u32. rewrite (Z.mod_small (zlen data + 1)) by lia. rewrite Hlf. cbv zeta.
  assert (Hlen : zlen ([T_DATA_LAST] ++ lf ++ [connection_id] ++ data) = 1 + zlen lf + 1 + zlen data).
  { cbn [app length]. rewrite length_app. cbn [length]. lia. }
  rewrite (proj2 (Z.ltb_ge _ _)) by lia. rewrite Z.mod_small by lia.
  rewrite take_ge by lia. set (w1 := World _ _ _).
  destruct (upd_connection_quiet slot_id connection_id
    (λ c, set_send_queue (c_send_queue c ++ [T_DATA_LAST :: lf ++ connection_id :: data]) c)
    c w1 Hat) as (w2 & Hu & [Ho Hlog] & _).
  exists w2. split; [|done]. by rewrite (io_bind_run _ _ _ _ _ Hu).
Qed.

Lemma send_data_run slot_id connection_id c data lf hndl num timeout delay (w : world S) :
  slot_id < tl_max_slots (get_tl (w_state w)) ->
  connection_id < tl_max_connections_per_slot (get_tl (w_state w)) ->
  slot_params (get_tl (w_state w)) slot_id = Some (hndl, num, timeout, delay) -> hndl <> -1 ->
  connection_at (get_tl (w_state w)) slot_id connection_id = Some c -> c_state c = T_STATE_ACTIVE ->
  asn_1_encode (zlen data + 1) 3 = Some lf -> zlen data < 2 ^ 32 - 10 ->
  exists w', en50221_tl_send_data e slot_id connection_id data w = Ok (0, w') /\
    quiet slot_id connection_id
      (set_send_queue (c_send_queue c ++ [T_DATA_LAST :: lf ++ connection_id :: data]) c) w w'.
Proof.
  intros Hs Hc Hp Hh Hat Hst Hlf Hl. unfold en50221_tl_send_data.
  rewrite (checked_run _ _ c _ hndl num timeout delay) by done. rewrite Hst.
  change (negb (state_is T_STATE_ACTIVE T_STATE_ACTIVE)) with false. cbv iota.
  by apply queue_data_run.
Qed.

Lemma send_datav_run slot_id connection_id c vector lf hndl num timeout delay (w : world S) :
  slot_id < tl_max_slots (get_tl (w_state w)) ->
  connection_id < tl_max_connections_per_slot (get_tl (w_state w)) ->
  slot_params (get_tl (w_state w)) slot_id = Some (hndl, num, timeout, delay) -> hndl <> -1 ->
  connection_at (get_tl (w_state w)) slot_id connection_id = Some c -> c_state c = T_STATE_ACTIVE ->
  asn_1_encode (zlen (concat vector) + 1) 3 = Some lf -> zlen (concat vector) < 2 ^ 32 - 10 ->
  exists w', en50221_tl_send_datav e slot_id connection_id vector w = Ok (0, w') /\
    quiet slot_id connection_id
      (set_send_queue (c_send_queue c ++ [T_DATA_LAST :: lf ++ connection_id :: concat vector]) c) w w'.
Proof.
  intros Hs Hc Hp Hh Hat Hst Hlf Hl. unfold en50221_tl_send_datav.
  rewrite (checked_run _ _ c _ hndl num timeout delay) by done. rewrite Hst.
  change (negb (state_is T_STATE_ACTIVE T_STATE_ACTIVE)) with false. cbv iota zeta.
  rewrite vector_size, Z.add_0_l by lia. by apply queue_data_run.
Qed.

End Exchange.

(** A message of 65535 bytes: the length field of 16 bits becomes 0. *)
Lemma asn_1_encode_wraps : asn_1_encode (65535 + 1) 3 = Some [0].
Proof. done. Qed.

(** The data of a whole stream reaches the callback. *)
Lemma data_stream_delivered {S} `{TransportLaws S} e cb chunks last slot_id con c arg (w : world S) :
  (forall n, e_malloc e n = true) -> byte con ->
  con < tl_max_connections_per_slot (get_tl (w_state w)) ->
  tl_callback (get_tl (w_state w)) = Some arg ->
  connection_at (get_tl (w_state w)) slot_id con = Some c ->
  c_state c = T_STATE_ACTIVE -> c_chain c = NoChain ->
  Forall (λ d, sendable d /\ d <> []) (chunks ++ [last]) ->
  exists w', only_connection slot_id con (clear_tx_time c) (get_tl (w_state w)) (get_tl (w_state w')) /\
    untouched (w_state w) (w_state w') /\
    w_log w' = w_log w ++ [Called arg T_CALLBACK_REASON_DATA (concat chunks ++ last) slot_id con] /\
    en50221_tl_process_data e cb slot_id (data_stream con chunks last) w =
    (cb arg T_CALLBACK_REASON_DATA (concat chunks ++ last) slot_id con;; mret 0) w'.
Proof.
  intros Hm Hcon Hmax Hcb Hat Hst Hch Hd.
  destruct (data_stream_run e cb Hm chunks last (length (data_stream con chunks last)) slot_id con c w)
    as (w1 & (Ho & Hl & Hf) & Hr); try done.
  - by rewrite Hch.
  - unfold data_stream. rewrite length_app. cbn [length tpdu].
    clear. induction chunks as [|d chunks IH]; cbn [fmap list_fmap concat length] in *; [lia|].
    rewrite length_app. cbn [length tpdu]. lia.
  - rewrite Hch in Hr. cbn [chain_bytes app] in Hr.
    replace (set_chain NoChain (clear_tx_time c)) with (clear_tx_time c) in Ho.
    2: { unfold set_chain, clear_tx_time, set_tx_time. cbn. by rewrite Hch. }
    exists (World (w_state w1) (w_tick w1)
      (w_log w1 ++ [Called arg T_CALLBACK_REASON_DATA (concat chunks ++ last) slot_id con])).
    split_and!; [done|done|by cbn; rewrite Hl|]. unfold en50221_tl_process_data. rewrite Hr.
    unfold mbind, io_bind. rewrite (run_callback_run cb _ _ _ _ arg); [done|].
    by rewrite (oc_callback _ _ _ _ _ Ho).
Qed.

(** ** Properties *)

(** Data that arrives in any number of T_DATA_MORE TPDUs and a final T_DATA_LAST, none of them empty,
    on an active connection is delivered to the callback exactly once, whole and in order; nothing else
    of the layer changes, and the chain buffer is gone afterwards. *)
Theorem data_reassembled {S} `{TransportLaws S} e cb chunks last slot_id con c arg (w : world S) :
  (forall n, e_malloc e n = true) -> byte con ->
  con < tl_max_connections_per_slot (get_tl (w_state w)) ->
  tl_callback (get_tl (w_state w)) = Some arg ->
  connection_at (get_tl (w_state w)) slot_id con = Some c ->
  c_state c = T_STATE_ACTIVE -> c_chain c = NoChain ->
  Forall (λ d, sendable d /\ d <> []) (chunks ++ [last]) ->
  exists w', only_connection slot_id con (clear_tx_time c) (get_tl (w_state w)) (get_tl (w_state w')) /\
    w_log w' = w_log w ++ [Called arg T_CALLBACK_REASON_DATA (concat chunks ++ last) slot_id con] /\
    en50221_tl_process_data e cb slot_id (data_stream con chunks last) w =
    (cb arg T_CALLBACK_REASON_DATA (concat chunks ++ last) slot_id con;; mret 0) w'.
Proof.
  intros Hm Hcon Hmax Hcb Hat Hst Hch Hd.
  destruct (data_stream_delivered e cb chunks last slot_id con c arg w) as (w' & Ho & _ & Hr); try done.
  by exists w'.
Qed.

(** C2: Data given to [en50221_tl_send_data] on an active connection is queued behind what waits there;
    when nothing waits and no answer is expected, the next poll of the connection writes it to the
    device as one TPDU, from which [en50221_tl_process_data] of a receiver delivers exactly the data. *)
Theorem data_roundtrip {S} `{TransportLaws S} e cb data slot_id con c hndl num timeout delay
    (w : world S) :
  (forall n, e_malloc e n = true) -> (forall n, 0 <= e_write e n) -> byte con ->
  slot_id < tl_max_slots (get_tl (w_state w)) ->
  con < tl_max_connections_per_slot (get_tl (w_state w)) ->
  slot_params (get_tl (w_state w)) slot_id = Some (hndl, num, timeout, delay) -> hndl <> -1 ->
  connection_at (get_tl (w_state w)) slot_id con = Some c -> connection_ok c ->
  c_state c = T_STATE_ACTIVE -> c_send_queue c = [] -> (c_tx_time c).1 = 0 ->
  sendable data -> data <> [] -> zlen data < 65531 ->
  exists w1 w2, en50221_tl_send_data e slot_id con data w = Ok (0, w1) /\
    w_log w1 = w_log w /\
    poll_send e slot_id con w1 = Ok (0, w2) /\
    w_log w2 = w_log w ++ [Written hndl (num :: con :: tpdu T_DATA_LAST con data)] /\
    forall slot_id' c' arg (v : world S),
      con < tl_max_connections_per_slot (get_tl (w_state v)) ->
      tl_callback (get_tl (w_state v)) = Some arg ->
      connection_at (get_tl (w_state v)) slot_id' con = Some c' ->
      c_state c' = T_STATE_ACTIVE -> c_chain c' = NoChain ->
      exists v', w_log v' = w_log v ++ [Called arg T_CALLBACK_REASON_DATA data slot_id' con] /\
        en50221_tl_process_data e cb slot_id' (tpdu T_DATA_LAST con data) v =
        (cb arg T_CALLBACK_REASON_DATA data slot_id' con;; mret 0) v'.
Proof.
  intros Hm Hw Hcon Hs Hc Hp Hh Hat Hok Hst Hq Htx Hsd Hne Hl.
  destruct (asn_1_encode_form (zlen data + 1) []) as (lf & Hlf & _ & _ & Hn); [lia|].
  destruct (send_data_run e Hm slot_id con c data lf hndl num timeout delay w)
    as (w1 & Hr1 & Ho1 & Hl1 & _); try done; [lia|].
  rewrite Hq in Ho1. cbn [app] in Ho1.
  assert (Hmsg : T_DATA_LAST :: lf ++ con :: data = tpdu T_DATA_LAST con data).
  { unfold tpdu, length_field. by rewrite Hlf. }
  rewrite Hmsg in Ho1.
  destruct (poll_send_run e Hm slot_id con _ hndl num timeout delay (tpdu T_DATA_LAST con data) [] w1
    (oc_at _ _ _ _ _ Ho1)) as (w2 & t & Hr2 & Hl2 & _); cbn [set_send_queue c_state c_chain c_send_queue c_tx_time];
    try done; [by rewrite (oc_params _ _ _ _ _ Ho1)|by rewrite Hst|by rewrite Hst|apply chain_ok_allocated, Hok| |].
  { rewrite <- Hmsg. cbn [length]. rewrite length_app. cbn [length]. lia. }
  exists w1, w2. split_and!; [done..|congruence|].
  intros slot_id' c' arg v Hmax Hcb Hat' Hst' Hch.
  destruct (data_stream_delivered e cb [] data slot_id' con c' arg v) as (v' & _ & _ & Hlog & Hrun); try done.
  { by constructor. }
  by exists v'.
Qed.

(** A connection that expects no answer sends the oldest message of its queue, whole and under its own
    slot and connection numbers, and nothing else; it then waits for the answer.  Sending T_DELETE_T_C
    moves the connection to deletion. *)
Theorem poll_send_in_order {S} `{TransportLaws S} e slot_id j c hndl num timeout delay msg queue
    (w : world S) :
  (forall n, e_malloc e n = true) ->
  connection_at (get_tl (w_state w)) slot_id j = Some c ->
  slot_params (get_tl (w_state w)) slot_id = Some (hndl, num, timeout, delay) ->
  c_state c <> T_STATE_IDLE -> c_state c <> T_STATE_IN_DELETION -> c_chain c <> Dangling ->
  c_send_queue c = msg :: queue -> (c_tx_time c).1 = 0 ->
  0 <= e_write e (Datatypes.S (w_tick w)) -> zlen msg < 65536 ->
  exists w' t, poll_send e slot_id j w = Ok (0, w') /\
    w_log w' = w_log w ++ [Written hndl (num :: j :: msg)] /\
    only_connection slot_id j (sent msg queue t c) (get_tl (w_state w)) (get_tl (w_state w')).
Proof. intros Hm. by apply poll_send_run. Qed.

(** *** Witnesses *)

Definition ready_connection (queue : list (list Z)) : connection :=
  Connection T_STATE_ACTIVE (0, 0) (0, 0) NoChain queue.

Definition ready_layer (queue : list (list Z)) : transport_layer :=
  TransportLayer 1 2 [Slot 5 3 [idle_connection; ready_connection queue] 1000 100] [(5, 11)] false 0 0
    (Some 42).

Lemma ready_ok : connection_ok (ready_connection []).
Proof. split; cbn; [done|by intros [|? []]|by constructor]. Qed.

Lemma data_reassembled_witness :
  exists w', only_connection 0 1 (clear_tx_time (ready_connection [])) (ready_layer []) (w_state w') /\
    w_log w' = [Called 42 T_CALLBACK_REASON_DATA [1; 2; 3; 4] 0 1] /\
    en50221_tl_process_data demo_env no_callback 0 (data_stream 1 [[1]; [2; 3]] [4])
      (World (ready_layer []) 0 []) =
    (no_callback 42 T_CALLBACK_REASON_DATA [1; 2; 3; 4] 0 1;; mret 0) w'.
Proof.
  refine (data_reassembled (S := transport_layer) demo_env no_callback [[1]; [2; 3]] [4] 0 1
    (ready_connection []) 42 (World (ready_layer []) 0 []) _ _ _ _ _ _ _ _); try done.
  repeat (constructor; [by split; [split; [solve_bytes|]|]|]). constructor.
Defined.

Lemma data_roundtrip_witness :
  exists w1 w2, en50221_tl_send_data demo_env 0 1 [8; 9] (World (ready_layer []) 0 []) = Ok (0, w1) /\
    w_log w1 = [] /\
    poll_send demo_env 0 1 w1 = Ok (0, w2) /\
    w_log w2 = [Written 5 (3 :: 1 :: tpdu T_DATA_LAST 1 [8; 9])] /\
    forall slot_id' c' arg (v : world transport_layer),
      1 < tl_max_connections_per_slot (w_state v) -> tl_callback (w_state v) = Some arg ->
      connection_at (w_state v) slot_id' 1 = Some c' ->
      c_state c' = T_STATE_ACTIVE -> c_chain c' = NoChain ->
      exists v', w_log v' = w_log v ++ [Called arg T_CALLBACK_REASON_DATA [8; 9] slot_id' 1] /\
        en50221_tl_process_data demo_env no_callback slot_id' (tpdu T_DATA_LAST 1 [8; 9]) v =
        (no_callback arg T_CALLBACK_REASON_DATA [8; 9] slot_id' 1;; mret 0) v'.
Proof.
  refine (data_roundtrip (S := transport_layer) demo_env no_callback [8; 9] 0 1 (ready_connection [])
    5 3 1000 100 (World (ready_layer []) 0 []) _ _ _ _ _ _ _ _ _ _ _ _ _ _ _); try done.
  - apply ready_ok.
  - by split; [solve_bytes|].
Defined.

Lemma poll_send_in_order_witness :
  exists w' t, poll_send demo_env 0 1 (World (ready_layer [[0x84; 1; 1]; [7]]) 0 []) = Ok (0, w') /\
    w_log w' = [Written 5 [3; 1; 0x84; 1; 1]] /\
    only_connection 0 1 (sent [0x84; 1; 1] [[7]] t (ready_connection [[0x84; 1; 1]; [7]]))
      (ready_layer [[0x84; 1; 1]; [7]]) (w_state w').
Proof.
  by refine (poll_send_in_order (S := transport_layer) demo_env 0 1
    (ready_connection [[0x84; 1; 1]; [7]]) 5 3 1000 100 [0x84; 1; 1] [[7]]
    (World (ready_layer [[0x84; 1; 1]; [7]]) 0 []) _ _ _ _ _ _ _ _ _ _).
Defined.

(** ** At the limits *)

(** An empty T_DATA_LAST ends a chain whose data is then lost: no callback. *)
Example empty_last_loses_chain :
  match en50221_tl_process_data demo_env no_callback 0 (data_stream 1 [[1; 2]] [])
    (World (ready_layer []) 0 []) with
  | Ok (r, w) => r = 0 /\ w_log w = [] /\ c_chain <$> connection_at (w_state w) 0 1 = Some NoChain
  | Err _ => False
  end.
Proof. vm_compute. split_and!; reflexivity. Qed.

(** Two empty T_DATA_MORE: [realloc] to no bytes frees the buffer, and the next one uses it. *)
Example empty_more_uses_freed_chain :
  en50221_tl_process_data demo_env no_callback 0 (tpdu T_DATA_MORE 1 [] ++ tpdu T_DATA_MORE 1 [])
    (World (ready_layer []) 0 []) = (fail_slot 0 EN50221ERR_OUTOFMEMORY) (World
      (tl_upd 0 1 (set_chain Dangling) (ready_layer [])) 1 []) /\
  en50221_tl_process_data demo_env no_callback 0 (tpdu T_DATA_MORE 1 [])
    (World (tl_upd 0 1 (set_chain Dangling) (ready_layer [])) 1 []) = Err BadPointer.
Proof. split; vm_compute; reflexivity. Qed.

(** 65535 bytes: [en50221_tl_send_data] succeeds, but the length field it writes is 0, which no
    receiver accepts. *)
Lemma send_data_truncates {S} `{TransportLaws S} e data slot_id con c hndl num timeout delay
    (w : world S) :
  (forall n, e_malloc e n = true) -> zlen data = 65535 ->
  slot_id < tl_max_slots (get_tl (w_state w)) ->
  con < tl_max_connections_per_slot (get_tl (w_state w)) ->
  slot_params (get_tl (w_state w)) slot_id = Some (hndl, num, timeout, delay) -> hndl <> -1 ->
  connection_at (get_tl (w_state w)) slot_id con = Some c -> c_state c = T_STATE_ACTIVE ->
  exists w', en50221_tl_send_data e slot_id con data w = Ok (0, w') /\
    only_connection slot_id con
      (set_send_queue (c_send_queue c ++ [T_DATA_LAST :: 0 :: con :: data]) c)
      (get_tl (w_state w)) (get_tl (w_state w')) /\
    parse_tpdu (T_DATA_LAST :: 0 :: con :: data) = None.
Proof.
  intros Hm Hl Hs Hc Hp Hh Hat Hst.
  destruct (send_data_run e Hm slot_id con c data [0] hndl num timeout delay w)
    as (w' & Hr & Ho & _); try done; [by rewrite Hl, asn_1_encode_wraps|by rewrite Hl|].
  exists w'. split_and!; [done..|]. cbn [parse_tpdu]. unfold asn_1_decode.
  rewrite (proj2 (Z.ltb_ge _ _)) by (cbn [length]; lia). reflexivity.
Qed.

(** A connection that the module deletes while its own deletion is queued: the message is refused, and
    the connection stays. *)
Example delete_refused_while_queued :
  let queued := tl_upd 0 1 (set_state T_STATE_ACTIVE_DELETEQUEUED) (ready_layer [[0x84; 1; 1]]) in
  match en50221_tl_process_data demo_env no_callback 0 [T_DELETE_T_C; 1; 1] (World queued 0 []) with
  | Ok (r, w) => r = -1 /\ tl_error (w_state w) = EN50221ERR_BADCAMDATA /\
      c_state <$> connection_at (w_state w) 0 1 = Some T_STATE_ACTIVE_DELETEQUEUED
  | Err _ => False
  end.
Proof. vm_compute. split_and!; reflexivity. Qed.

(** When the write of T_DELETE_T_C fails the message is lost, and the connection waits for ever: it is
    neither polled nor deleted, and a new deletion is refused. *)
Example delete_write_failure :
  let queued := tl_upd 0 1 (set_state T_STATE_ACTIVE_DELETEQUEUED) (ready_layer [[0x84; 1; 1]]) in
  let bad := Env (λ _, true) (λ _, -1) (λ _, None) (λ n, (Z.of_nat n, 0)) (λ _, (1, [1])) in
  match (poll_send bad 0 1;; en50221_tl_del_tc bad 0 1) (World queued 0 []) with
  | Ok (r, w) => r = -1 /\ tl_error (w_state w) = EN50221ERR_BADSTATE /\
      c_send_queue <$> connection_at (w_state w) 0 1 = Some []
  | Err _ => False
  end.
Proof. vm_compute. split_and!; reflexivity. Qed.
