(* ===== verification/En50221Session.v ===== *)
(** * en50221_session.c: the session layer of the common interface

    Sessions between the module and the resources of the host, multiplexed over the transport
    connections.  The layer is the callback of the transport layer below, and calls back to look up
    resources, to report about sessions, and to hand APDUs to resources.  The locks are not
    modelled. *)

From S2P Require Export En50221Transport.

(** ** Data *)

Definition S_STATUS_OPEN : Z := 0x00.
Definition S_STATUS_CLOSE_NO_RES : Z := 0xF0.
Definition S_STATUS_CLOSE_RES_UNAVAILABLE : Z := 0xF1.
Definition S_STATUS_CLOSE_RES_LOW_VERSION : Z := 0xF2.
Definition S_STATUS_CLOSE_RES_BUSY : Z := 0xF3.

Definition ST_OPEN_SESSION_REQ : Z := 0x91.
Definition ST_OPEN_SESSION_RES : Z := 0x92.
Definition ST_CREATE_SESSION : Z := 0x93.
Definition ST_CREATE_SESSION_RES : Z := 0x94.
Definition ST_CLOSE_SESSION_REQ : Z := 0x95.
Definition ST_CLOSE_SESSION_RES : Z := 0x96.
Definition ST_SESSION_NUMBER : Z := 0x90.

Definition S_SCALLBACK_REASON_CAMCONNECTING : Z := 0.
Definition S_SCALLBACK_REASON_CAMCONNECTED : Z := 1.
Definition S_SCALLBACK_REASON_CAMCONNECTFAIL : Z := 2.
Definition S_SCALLBACK_REASON_CONNECTED : Z := 3.
Definition S_SCALLBACK_REASON_CONNECTFAIL : Z := 4.
Definition S_SCALLBACK_REASON_CLOSE : Z := 5.
Definition S_SCALLBACK_REASON_TC_CONNECT : Z := 6.
Definition S_SCALLBACK_REASON_TC_CAMCONNECT : Z := 7.

Definition EN50221ERR_IOVLIMIT : Z := -12.
Definition EN50221ERR_BADSESSIONNUMBER : Z := -13.
Definition EN50221ERR_OUTOFSESSIONS : Z := -14.

Inductive s_state :=
  | S_STATE_IDLE
  | S_STATE_ACTIVE
  | S_STATE_IN_CREATION
  | S_STATE_IN_DELETION.

#[export] Instance s_state_eq_dec : EqDecision s_state.
Proof. solve_decision. Defined.

(** The values of the states: [state & (S_STATE_ACTIVE | S_STATE_IN_DELETION)]. *)
Definition s_state_value (s : s_state) : Z :=
  match s with
  | S_STATE_IDLE => 0x01
  | S_STATE_ACTIVE => 0x02
  | S_STATE_IN_CREATION => 0x04
  | S_STATE_IN_DELETION => 0x08
  end.

Definition s_state_is (s t : s_state) : bool := s_state_value s =? s_state_value t.

Definition s_state_in (s : s_state) (ts : list s_state) : bool :=
  negb (Z.land (s_state_value s) (foldr (λ t m, Z.lor (s_state_value t) m) 0 ts) =? 0).

(** A callback pointer with its argument is a number, or [None] for NULL. *)
Record session := Session {
  ss_state : s_state;
  ss_resource_id : Z;
  ss_slot_id : Z;
  ss_connection_id : Z;
  ss_callback : option Z;
}.

Record session_layer := SessionLayer {
  sl_max_sessions : Z;
  sl_lookup : option Z;
  sl_session : option Z;
  sl_error : Z;
  sl_sessions : list session;
}.

Definition set_s_state (st : s_state) (s : session) : session :=
  Session st (ss_resource_id s) (ss_slot_id s) (ss_connection_id s) (ss_callback s).

Definition set_sessions (ss : list session) (sl : session_layer) : session_layer :=
  SessionLayer (sl_max_sessions sl) (sl_lookup sl) (sl_session sl) (sl_error sl) ss.
Definition set_sl_error (err : Z) (sl : session_layer) : session_layer :=
  SessionLayer (sl_max_sessions sl) (sl_lookup sl) (sl_session sl) err (sl_sessions sl).
Definition set_lookup (cb : option Z) (sl : session_layer) : session_layer :=
  SessionLayer (sl_max_sessions sl) cb (sl_session sl) (sl_error sl) (sl_sessions sl).
Definition set_session (cb : option Z) (sl : session_layer) : session_layer :=
  SessionLayer (sl_max_sessions sl) (sl_lookup sl) cb (sl_error sl) (sl_sessions sl).

(** The program state contains a session layer, apart from the transport layer. *)
Class HasSessions (S : Type) := {
  get_sl : S -> session_layer;
  put_sl : session_layer -> S -> S;
}.

Class SessionLaws (S : Type) `{HasTransport S} `{HasSessions S} := {
  get_put_sl : forall l s, get_sl (put_sl l s) = l;
  get_sl_put_tl : forall t s, get_sl (put_tl t s) = get_sl s;
  get_tl_put_sl : forall l s, get_tl (put_sl l s) = get_tl s;
}.

(** Two layers and nothing else. *)
#[export] Instance transport_of_both : HasTransport (transport_layer * session_layer) :=
  {| get_tl := fst; put_tl := λ t s, (t, s.2) |}.
#[export] Instance transport_of_both_laws : TransportLaws (transport_layer * session_layer).
Proof. done. Qed.
#[export] Instance sessions_of_both : HasSessions (transport_layer * session_layer) :=
  {| get_sl := snd; put_sl := λ l s, (s.1, l) |}.
#[export] Instance sessions_of_both_laws : SessionLaws (transport_layer * session_layer).
Proof. done. Qed.

(** The callbacks of the layer above.  The lookup is given its argument, the slot and the requested
    resource; it returns the status and what it stored behind its output parameters: the callback of
    the resource, and the id of the resource if it did. *)
Record upper_layer (S : Type) := Upper {
  up_lookup : Z -> Z -> Z -> IO S (Z * option Z * option Z);
  up_session : Z -> Z -> Z -> Z -> Z -> IO S Z;
  up_resource : Z -> Z -> Z -> Z -> list Z -> IO S Z;
}.
Arguments up_lookup {S} _ _ _ _.
Arguments up_session {S} _ _ _ _ _ _.
Arguments up_resource {S} _ _ _ _ _ _.

(** ** Operations *)

Section Sessions.
Context {S : Type} `{HasTransport S} `{HasSessions S} (e : env) (up : upper_layer S).

(** What an uninitialised variable, or fresh memory, happens to hold. *)
Context (uninit : Z).

Definition sl_of : IO S session_layer := s ← get_state; mret (get_sl s).
Definition sl_modify (f : session_layer -> session_layer) : IO S unit :=
  modify (λ s, put_sl (f (get_sl s)) s).

(** [sl->sessions[session_number]] *)
Definition get_session (session_number : Z) : IO S session :=
  sl ← sl_of; lift (at_ (sl_sessions sl) session_number).

Definition upd_session (session_number : Z) (f : session -> session) : IO S unit :=
  sl ← sl_of;
  s ← lift (at_ (sl_sessions sl) session_number);
  match insert_z session_number (f s) (sl_sessions sl) with
  | Some ss => sl_modify (set_sessions ss)
  | None => io_fault OutOfBounds
  end.

(** [sl->error = err; return -1;] *)
Definition sl_fail (err : Z) : IO S Z := sl_modify (set_sl_error err);; mret (-1).

(** [if (cb) cb(cb_arg, reason, slot_id, session_number, resource_id);] *)
Definition session_callback (cb : option Z) (reason slot_id session_number resource_id : Z) :
    IO S unit :=
  match cb with
  | Some arg =>
      log_event (SessionCalled arg reason slot_id (u16 session_number) resource_id);;
      up_session up arg reason slot_id (u16 session_number) resource_id;;
      mret tt
  | None => mret tt
  end.

(** The four bytes of a resource id, and the two of a session number. *)
Definition id_bytes (resource_id : Z) : list Z :=
  [u8 (Z.shiftr resource_id 24); u8 (Z.shiftr resource_id 16); u8 (Z.shiftr resource_id 8);
   u8 resource_id].
Definition number_bytes (session_number : Z) : list Z :=
  [u8 (Z.shiftr session_number 8); u8 session_number].

(** The first idle session, from number [i] on. *)
Fixpoint find_idle_session (ss : list session) (i : Z) : Z :=
  match ss with
  | [] => -1
  | s :: ss => if s_state_is (ss_state s) S_STATE_IDLE then i else find_idle_session ss (i + 1)
  end.

Definition en50221_sl_alloc_new_session (resource_id slot_id connection_id : Z)
    (callback : option Z) : IO S Z :=
  sl ← sl_of;
  if zlen (sl_sessions sl) <? sl_max_sessions sl then io_fault OutOfBounds
  else
    let session_number := find_idle_session
      (drop 1 (take (Z.to_nat (sl_max_sessions sl)) (sl_sessions sl))) 1 in
    if session_number =? -1 then sl_fail EN50221ERR_OUTOFSESSIONS
    else
      upd_session session_number
        (λ _, Session S_STATE_IN_CREATION resource_id slot_id connection_id callback);;
      mret session_number.

(** *** The interface of the layer *)

(** A session of memory that was just allocated. *)
Definition fresh_session : session :=
  Session S_STATE_IDLE (u32 uninit) (u8 uninit) (u8 uninit) None.

(** The layer becomes the session layer of the state; false: NULL was returned.  [arg] is the
    pointer to the layer that the transport layer calls back with. *)
Definition en50221_sl_create (max_sessions arg : Z) : IO S bool :=
  ok ← malloc e;
  if negb ok then mret false
  else
    ok ← malloc e;
    if negb ok then mret false
    else
      sl_modify (λ _, SessionLayer max_sessions None None 0
                        (replicate (Z.to_nat max_sessions) fresh_session));;
      en50221_tl_register_callback (Some arg);;
      mret true.

Definition en50221_sl_get_error : IO S Z := sl ← sl_of; mret (sl_error sl).
Definition en50221_sl_register_lookup_callback (cb : option Z) : IO S unit :=
  sl_modify (set_lookup cb).
Definition en50221_sl_register_session_callback (cb : option Z) : IO S unit :=
  sl_modify (set_session cb).

(** [if (state == from) state = S_STATE_IDLE;], then the error of the transport layer. *)
Definition abandon (session_number : Z) (from : s_state) : IO S Z :=
  upd_session session_number
    (λ s, if s_state_is (ss_state s) from then set_s_state S_STATE_IDLE s else s);;
  err ← en50221_tl_get_error;
  sl_fail err.

Definition en50221_sl_create_session (slot_id connection_id resource_id : Z)
    (callback : option Z) : IO S Z :=
  session_number ← en50221_sl_alloc_new_session resource_id (u8 slot_id) connection_id callback;
  if session_number =? -1 then mret (-1)
  else
    let hdr := [ST_CREATE_SESSION; 6] ++ id_bytes resource_id ++ number_bytes session_number in
    r ← en50221_tl_send_data e (u8 slot_id) connection_id hdr;
    if negb (r =? 0) then abandon session_number S_STATE_IN_CREATION
    else mret session_number.

Definition en50221_sl_destroy_session (session_number : Z) : IO S Z :=
  sl ← sl_of;
  if sl_max_sessions sl <=? session_number then sl_fail EN50221ERR_BADSESSIONNUMBER
  else
    s ← get_session session_number;
    if negb (s_state_in (ss_state s) [S_STATE_ACTIVE; S_STATE_IN_DELETION]) then
      sl_fail EN50221ERR_BADSESSIONNUMBER
    else
      upd_session session_number (set_s_state S_STATE_IN_DELETION);;
      let hdr := [ST_CLOSE_SESSION_REQ; 2] ++ number_bytes session_number in
      r ← en50221_tl_send_data e (ss_slot_id s) (ss_connection_id s) hdr;
      if negb (r =? 0) then abandon session_number S_STATE_IN_DELETION
      else mret 0.

(** The checks common to the functions that send; [k] goes on with the session. *)
Definition active (session_number : Z) (k : session -> IO S Z) : IO S Z :=
  sl ← sl_of;
  if sl_max_sessions sl <=? session_number then sl_fail EN50221ERR_BADSESSIONNUMBER
  else
    s ← get_session session_number;
    if negb (s_state_is (ss_state s) S_STATE_ACTIVE) then sl_fail EN50221ERR_BADSESSIONNUMBER
    else k s.

(** Send the vector behind the header of the session. *)
Definition send_vector (session_number : Z) (s : session) (vector : list (list Z)) : IO S Z :=
  let hdr := [ST_SESSION_NUMBER; 2] ++ number_bytes session_number in
  r ← en50221_tl_send_datav e (ss_slot_id s) (ss_connection_id s) (hdr :: vector);
  if negb (r =? 0) then err ← en50221_tl_get_error; sl_fail err
  else mret 0.

Definition en50221_sl_send_data (session_number : Z) (data : list Z) : IO S Z :=
  active session_number (λ s, send_vector session_number s [data]).

Definition en50221_sl_send_datav (session_number : Z) (vector : list (list Z)) : IO S Z :=
  active session_number (λ s,
    if 9 <? zlen vector then sl_fail EN50221ERR_IOVLIMIT
    else send_vector session_number s vector).

(** [for (i = 0; i < sl->max_sessions; i++)] *)
Fixpoint broadcast (n : nat) (i slot_id resource_id : Z) (data : list Z) : IO S Z :=
  match n with
  | O => mret 0
  | Datatypes.S n =>
      s ← get_session i;
      (if negb (s_state_is (ss_state s) S_STATE_ACTIVE) then mret tt
       else if negb (slot_id =? -1) && negb (slot_id =? ss_slot_id s) then mret tt
       else if ss_resource_id s =? resource_id then en50221_sl_send_data (u16 i) data;; mret tt
       else mret tt);;
      broadcast n (i + 1) slot_id resource_id data
  end.

Definition en50221_sl_broadcast_data (slot_id resource_id : Z) (data : list Z) : IO S Z :=
  sl ← sl_of;
  broadcast (Z.to_nat (sl_max_sessions sl)) 0 slot_id resource_id data.

(** *** Messages from the module *)

(** The [switch] on what the lookup returned. *)
Definition lookup_status (status : Z) : Z :=
  if status =? 0 then S_STATUS_OPEN
  else if status =? -1 then S_STATUS_CLOSE_NO_RES
  else if status =? -2 then S_STATUS_CLOSE_RES_LOW_VERSION
  else if status =? -3 then S_STATUS_CLOSE_RES_UNAVAILABLE
  else status.

(** "first of all, lookup this resource id": status, callback and connected resource. *)
Definition open_lookup (slot_id requested_resource_id : Z) : IO S (Z * option Z * Z) :=
  sl ← sl_of;
  match sl_lookup sl with
  | Some arg =>
      '(status, callback, id) ← up_lookup up arg slot_id requested_resource_id;
      mret (lookup_status status, callback, default uninit id)
  | None => mret (S_STATUS_CLOSE_NO_RES, None, uninit)
  end.

(** "if we found it, get a new session for it": its number, or -1, and the status. *)
Definition open_session (status : Z) (callback : option Z) (resource_id slot_id connection_id : Z) :
    IO S (Z * Z) :=
  if status =? S_STATUS_OPEN then
    session_number ← en50221_sl_alloc_new_session resource_id slot_id connection_id callback;
    if session_number =? -1 then mret (-1, S_STATUS_CLOSE_NO_RES)
    else
      sl ← sl_of;
      match sl_session sl with
      | Some arg =>
          log_event (SessionCalled arg S_SCALLBACK_REASON_CAMCONNECTING slot_id
                       (u16 session_number) resource_id);;
          r ← up_session up arg S_SCALLBACK_REASON_CAMCONNECTING slot_id (u16 session_number)
                resource_id;
          mret (session_number, if negb (r =? 0) then S_STATUS_CLOSE_RES_BUSY else status)
      | None => mret (session_number, S_STATUS_CLOSE_RES_UNAVAILABLE)
      end
  else mret (-1, status).

(** "inform upper layers what happened". *)
Definition open_finish (session_number status slot_id resource_id : Z) : IO S unit :=
  if negb (session_number =? -1) then
    upd_session session_number
      (set_s_state (if negb (status =? S_STATUS_OPEN) then S_STATE_IDLE else S_STATE_ACTIVE));;
    s ← get_session session_number;
    if s_state_is (ss_state s) S_STATE_ACTIVE then
      sl ← sl_of;
      if status =? S_STATUS_OPEN then
        session_callback (sl_session sl) S_SCALLBACK_REASON_CAMCONNECTED slot_id session_number
          resource_id
      else
        upd_session session_number (set_s_state S_STATE_IDLE);;
        session_callback (sl_session sl) S_SCALLBACK_REASON_CAMCONNECTFAIL slot_id session_number
          resource_id
    else mret tt
  else mret tt.

Definition en50221_sl_handle_open_session_request (data : list Z) (slot_id connection_id : Z) :
    IO S unit :=
  if zlen data <? 5 then mret tt
  else
    b0 ← lift (at_ data 0);
    if negb (b0 =? 4) then mret tt
    else
      b1 ← lift (at_ data 1); b2 ← lift (at_ data 2);
      b3 ← lift (at_ data 3); b4 ← lift (at_ data 4);
      let requested_resource_id :=
        u32 (Z.lor (Z.lor (Z.lor (Z.shiftl b1 24) (Z.shiftl b2 16)) (Z.shiftl b3 8)) b4) in
      '(status, callback, resource_id) ← open_lookup slot_id requested_resource_id;
      '(session_number, status) ← open_session status callback resource_id slot_id connection_id;
      let hdr := [ST_OPEN_SESSION_RES; 7; u8 status] ++ id_bytes resource_id ++
        number_bytes session_number in
      r ← en50221_tl_send_data e slot_id connection_id hdr;
      let status := if negb (r =? 0) then S_STATUS_CLOSE_NO_RES else status in
      open_finish session_number status slot_id resource_id.

(** [(data[i] << 8) | data[i + 1]] *)
Definition number_at (data : list Z) (i : Z) : IO S Z :=
  h ← lift (at_ data i);
  l ← lift (at_ data (i + 1));
  mret (u16 (Z.lor (Z.shiftl h 8) l)).

Definition en50221_sl_handle_close_session_request (data : list Z) (slot_id connection_id : Z) :
    IO S unit :=
  if zlen data <? 3 then mret tt
  else
    b0 ← lift (at_ data 0);
    if negb (b0 =? 2) then mret tt
    else
      session_number ← number_at data 1;
      sl ← sl_of;
      '(code, resource_id) ← (if sl_max_sessions sl <=? session_number then mret (0xF0, 0)
        else
          s ← get_session session_number;
          let code := 0 in
          let code := if negb (slot_id =? ss_slot_id s) then 0xF0 else code in
          let code := if negb (connection_id =? ss_connection_id s) then 0xF0 else code in
          let code :=
            if negb (s_state_in (ss_state s) [S_STATE_ACTIVE; S_STATE_IN_DELETION]) then 0xF0
            else code in
          (if code =? 0 then upd_session session_number (set_s_state S_STATE_IDLE) else mret tt);;
          mret (code, ss_resource_id s));
      let hdr := [ST_CLOSE_SESSION_RES; 3; code] ++ number_bytes session_number in
      en50221_tl_send_data e slot_id connection_id hdr;;
      if code =? 0 then
        sl ← sl_of;
        session_callback (sl_session sl) S_SCALLBACK_REASON_CLOSE slot_id session_number resource_id
      else mret tt.

(** The checks of a message about a session: that there is one of this slot and connection in the
    right state. *)
Definition expected (session_number slot_id connection_id : Z) (state : s_state)
    (k : session -> IO S unit) : IO S unit :=
  sl ← sl_of;
  if sl_max_sessions sl <=? session_number then mret tt
  else
    s ← get_session session_number;
    if negb (slot_id =? ss_slot_id s) then mret tt
    else if negb (connection_id =? ss_connection_id s) then mret tt
    else if negb (s_state_is (ss_state s) state) then mret tt
    else k s.

Definition en50221_sl_handle_create_session_response (data : list Z) (slot_id connection_id : Z) :
    IO S unit :=
  if zlen data <? 8 then mret tt
  else
    b0 ← lift (at_ data 0);
    if negb (b0 =? 7) then mret tt
    else
      session_number ← number_at data 5;
      expected session_number slot_id connection_id S_STATE_IN_CREATION (λ _,
        status ← lift (at_ data 1);
        let ok := status =? S_STATUS_OPEN in
        upd_session session_number (set_s_state (if negb ok then S_STATE_IDLE else S_STATE_ACTIVE));;
        sl ← sl_of;
        s ← get_session session_number;
        session_callback (sl_session sl)
          (if negb ok then S_SCALLBACK_REASON_CONNECTFAIL else S_SCALLBACK_REASON_CONNECTED)
          slot_id session_number (ss_resource_id s)).

Definition en50221_sl_handle_close_session_response (data : list Z) (slot_id connection_id : Z) :
    IO S unit :=
  if zlen data <? 5 then mret tt
  else
    b0 ← lift (at_ data 0);
    if negb (b0 =? 4) then mret tt
    else
      session_number ← number_at data 2;
      expected session_number slot_id connection_id S_STATE_IN_DELETION (λ _,
        upd_session session_number (set_s_state S_STATE_IDLE)).

(** One APDU at the start of the package: the bytes after it, or [None] after [return]. *)
Definition next_apdu (data : list Z) : res (option (list Z * list Z)) :=
  if zlen data <? 3 then mret None
  else
    decoded ← asn_1_decode (drop 3 data) (zlen data - 3);
    match decoded with
    | None => mret None
    | Some (asn_data_length, length_field_len) =>
        let apdu_length := u32 (3 + length_field_len + asn_data_length) in
        if zlen data <? apdu_length then mret None
        else mret (Some (take (Z.to_nat apdu_length) data, drop (Z.to_nat apdu_length) data))
    end.

(** [while (data_length)]; an APDU has four bytes or more, so the number of bytes is enough fuel. *)
Fixpoint deliver_apdus (fuel : nat) (cb : option Z) (slot_id session_number resource_id : Z)
    (data : list Z) : IO S unit :=
  if zlen data =? 0 then mret tt
  else
    match fuel with
    | O => io_fault OutOfFuel
    | Datatypes.S fuel =>
        apdu ← lift (next_apdu data);
        match apdu with
        | None => mret tt
        | Some (apdu, rest) =>
            match cb with
            | Some arg =>
                log_event (ResourceCalled arg slot_id session_number resource_id apdu);;
                up_resource up arg slot_id session_number resource_id apdu;;
                mret tt
            | None => mret tt
            end;;
            deliver_apdus fuel cb slot_id session_number resource_id rest
        end
    end.

Definition en50221_sl_handle_session_package (data : list Z) (slot_id connection_id : Z) :
    IO S unit :=
  if zlen data <? 3 then mret tt
  else
    b0 ← lift (at_ data 0);
    if negb (b0 =? 2) then mret tt
    else
      session_number ← number_at data 1;
      expected session_number slot_id connection_id S_STATE_ACTIVE (λ s,
        deliver_apdus (length (drop 3 data)) (ss_callback s) slot_id session_number
          (ss_resource_id s) (drop 3 data)).

(** The sessions of a connection, or of a slot, are closed: [for (i = 0; i < max_sessions; i++)]. *)
Fixpoint close_sessions (n : nat) (i : Z) (closes : session -> bool) (cb : option Z) : IO S unit :=
  match n with
  | O => mret tt
  | Datatypes.S n =>
      s ← get_session i;
      (if s_state_is (ss_state s) S_STATE_IDLE then mret tt
       else if negb (closes s) then mret tt
       else
         upd_session i (set_s_state S_STATE_IDLE);;
         session_callback cb S_SCALLBACK_REASON_CLOSE (ss_slot_id s) i (ss_resource_id s));;
      close_sessions n (i + 1) closes cb
  end.

(** The [switch] on the tag. *)
Definition handle_spdu (data : list Z) (slot_id connection_id : Z) : IO S unit :=
  if zlen data <? 1 then mret tt
  else
    spdu_tag ← lift (at_ data 0);
    let data := drop 1 data in
    if spdu_tag =? ST_OPEN_SESSION_REQ then
      en50221_sl_handle_open_session_request data slot_id connection_id
    else if spdu_tag =? ST_CLOSE_SESSION_REQ then
      en50221_sl_handle_close_session_request data slot_id connection_id
    else if spdu_tag =? ST_SESSION_NUMBER then
      en50221_sl_handle_session_package data slot_id connection_id
    else if spdu_tag =? ST_CREATE_SESSION_RES then
      en50221_sl_handle_create_session_response data slot_id connection_id
    else if spdu_tag =? ST_CLOSE_SESSION_RES then
      en50221_sl_handle_close_session_response data slot_id connection_id
    else mret tt.

(** The callback of the transport layer; the argument is the pointer to this layer. *)
Definition en50221_sl_transport_callback (arg reason : Z) (data : list Z)
    (slot_id connection_id : Z) : IO S unit :=
  sl ← sl_of;
  if reason =? T_CALLBACK_REASON_CONNECTIONOPEN then
    session_callback (sl_session sl) S_SCALLBACK_REASON_TC_CONNECT slot_id connection_id 0
  else if reason =? T_CALLBACK_REASON_CAMCONNECTIONOPEN then
    session_callback (sl_session sl) S_SCALLBACK_REASON_TC_CAMCONNECT slot_id connection_id 0
  else if reason =? T_CALLBACK_REASON_CONNECTIONCLOSE then
    close_sessions (Z.to_nat (sl_max_sessions sl)) 0
      (λ s, ss_connection_id s =? connection_id) (sl_session sl)
  else if reason =? T_CALLBACK_REASON_SLOTCLOSE then
    close_sessions (Z.to_nat (sl_max_sessions sl)) 0
      (λ s, ss_slot_id s =? slot_id) (sl_session sl)
  else handle_spdu data slot_id connection_id.
End Sessions.
