(* ===== verification/En50221SessionSafety.v ===== *)
(** * The session layer is safe, on top of the transport layer

    The state machine of a session, the invariant of the layer, and the theorem that every operation
    of En50221Session.v keeps the invariants of both layers without a memory fault.  The layer is the
    callback that En50221Safety.v assumes; what it assumes in turn of the callbacks of the layer above
    is a hypothesis, so those may call back into both layers. *)

From S2P Require Export En50221Session En50221Safety.

(** ** The state machine of a session *)

Inductive session_step : s_state -> s_state -> Prop :=
  | session_create : session_step S_STATE_IDLE S_STATE_IN_CREATION
  | session_created : session_step S_STATE_IN_CREATION S_STATE_ACTIVE
  | session_not_created : session_step S_STATE_IN_CREATION S_STATE_IDLE
  | session_delete : session_step S_STATE_ACTIVE S_STATE_IN_DELETION
  | session_deleted : session_step S_STATE_IN_DELETION S_STATE_IDLE
  | session_closed : session_step S_STATE_ACTIVE S_STATE_IDLE.

(** A sequence of steps. *)
Inductive session_steps : s_state -> s_state -> Prop :=
  | session_refl s : session_steps s s
  | session_more s t u : session_steps s t -> session_step t u -> session_steps s u.

Lemma session_steps_trans s t u : session_steps s t -> session_steps t u -> session_steps s u.
Proof. intros Hst Htu. induction Htu as [|t' v u _ IH Hu]; [done|]. eapply session_more; [by apply IH|done]. Qed.

Lemma session_steps_one s t : session_step s t -> session_steps s t.
Proof. intros H. eapply session_more; [constructor|done]. Qed.

(** At most one step: what a single write of the layer does to a session. *)
Definition session_move (s t : s_state) : Prop := s = t \/ session_step s t.

Lemma session_move_same s : session_move s s.
Proof. by left. Qed.

Lemma session_move_one s t : session_step s t -> session_move s t.
Proof. by right. Qed.

(** Any session can be given up. *)
Lemma session_move_idle s : session_move s S_STATE_IDLE.
Proof. destruct s; [by left|right; constructor..]. Qed.

(** ** The invariant *)

Definition session_ok (s : session) : Prop := byte (ss_slot_id s) /\ byte (ss_connection_id s).

Definition session_at (sl : session_layer) (n : Z) : option session := sl_sessions sl !z n.

Section SessionInvariant.
Context (max_sessions : Z).

Record sl_wf (sl : session_layer) : Prop := {
  sl_wf_max : sl_max_sessions sl = max_sessions;
  sl_wf_length : zlen (sl_sessions sl) = max_sessions;
  sl_wf_sessions : Forall session_ok (sl_sessions sl);
}.

(** Every session is still there, in a state that is related to the one it had. *)
Definition sl_related (R : s_state -> s_state -> Prop) (sl sl' : session_layer) : Prop :=
  forall n s, session_at sl n = Some s ->
  exists s', session_at sl' n = Some s' /\ R (ss_state s) (ss_state s').

(** Since [sl] there were only steps of the state machine, or at most one for each session. *)
Definition sl_evolves : session_layer -> session_layer -> Prop := sl_related session_steps.
Definition sl_moves : session_layer -> session_layer -> Prop := sl_related session_move.

Definition sl_inv (sl0 sl : session_layer) : Prop := sl_wf sl /\ sl_evolves sl0 sl.

(** What a single write may do to a layer. *)
Definition sl_next (sl sl' : session_layer) : Prop := sl_wf sl' /\ sl_moves sl sl'.

Lemma sl_inv_refl sl : sl_wf sl -> sl_inv sl sl.
Proof. intros H. split; [done|]. intros n s Hs. exists s. split; [done|constructor]. Qed.

Lemma sl_inv_next sl0 sl sl' : sl_inv sl0 sl -> sl_next sl sl' -> sl_inv sl0 sl'.
Proof.
  intros [_ Hev] [Hwf Hm]. split; [done|]. intros n s Hs. destruct (Hev n s Hs) as (s1 & H1 & Hst).
  destruct (Hm n s1 H1) as (s2 & H2 & [E|Ho]); exists s2; (split; [done|]); [by rewrite <- E|].
  by eapply session_more.
Qed.

Lemma session_at_some sl n : sl_wf sl -> 0 <= n < max_sessions ->
  exists s, session_at sl n = Some s /\ session_ok s.
Proof.
  intros [H1 H2 H3] Hn. destruct (lookup_z_is_Some (sl_sessions sl) n) as [s Es]; [lia|].
  exists s. split; [done|]. apply (lookup_z_Forall _ _ _ _ H3 Es).
Qed.

(** Replacing one session. *)
Lemma sl_next_session sl n s s' :
  sl_wf sl -> session_at sl n = Some s -> session_ok s' -> session_move (ss_state s) (ss_state s') ->
  sl_next sl (set_sessions (<[Z.to_nat n := s']> (sl_sessions sl)) sl).
Proof.
  intros [H1 H2 H3] Es Hok Hst. unfold session_at in *.
  pose proof Es as Es'. apply lookup_z_Some in Es' as [Hn _]. split.
  - split; cbn; [done|by rewrite length_insert|by apply Forall_insert].
  - intros i s1 Hs1. unfold session_at in *. cbn [set_sessions sl_sessions]. rewrite lookup_z_insert by done.
    destruct (Z.eqb_spec i n) as [->|]; [|exists s1; split; [done|by left]].
    rewrite Hs1 in Es. injection Es as ->. by exists s'.
Qed.

(** Fields that the invariant does not mention. *)
Lemma sl_next_same sl sl' :
  sl_wf sl -> sl_sessions sl' = sl_sessions sl -> sl_max_sessions sl' = sl_max_sessions sl -> sl_next sl sl'.
Proof.
  intros [H1 H2 H3] Es Em. split.
  - split; rewrite ?Es, ?Em; done.
  - intros n s Hs. exists s. unfold session_at in *. rewrite Es. split; [done|by left].
Qed.
End SessionInvariant.

Lemma s_state_is_spec s t : s_state_is s t = true <-> s = t.
Proof. split; [|intros ->; by destruct t]. by destruct s, t. Qed.

(** ** Every operation keeps the invariants *)

Section SessionSafety.
Context {S : Type} `{HT : HasTransport S} `{!TransportLaws S} `{HS : HasSessions S} `{!SessionLaws S}.
Context (e : env) (up : upper_layer S) (uninit : Z).
Context (max_slots max_connections : Z) (tl0 : transport_layer).
Context (max_sessions : Z) (sl0 : session_layer).
Hypothesis Hslots : 0 <= max_slots < 256.
Hypothesis Hconnections : 0 <= max_connections < 256.

(** What the layers above know, also of the steps of this one. *)
Context (U : S -> Prop).
Hypothesis HU_tl : forall tl s, U s -> U (put_tl tl s).
Hypothesis HU_sl : forall sl s, U s -> sl_moves (get_sl s) sl -> U (put_sl sl s).

Definition upper (s : S) : Prop := sl_inv max_sessions sl0 (get_sl s) /\ U s.

Definition both : S -> Prop := inv max_slots max_connections tl0 upper.

(** Both invariants hold, and session [n] is [ss]. *)
Definition at_session (n : Z) (ss : session) : S -> Prop :=
  inv max_slots max_connections tl0 (λ s, upper s /\ session_at (get_sl s) n = Some ss).

Lemma upper_tl tl s : upper s -> upper (put_tl tl s).
Proof. intros [H1 H2]. split; [by rewrite get_sl_put_tl|auto]. Qed.

Lemma at_session_tl n ss tl s :
  upper s /\ session_at (get_sl s) n = Some ss ->
  upper (put_tl tl s) /\ session_at (get_sl (put_tl tl s)) n = Some ss.
Proof. intros [H1 H2]. split; [by apply upper_tl|by rewrite get_sl_put_tl]. Qed.

Lemma at_session_both n ss s : at_session n ss s -> both s.
Proof. intros [H1 [H2 _]]. by split. Qed.

Lemma both_sl s : both s -> sl_inv max_sessions sl0 (get_sl s).
Proof. by intros [_ [H _]]. Qed.

(** The session layer changes, within its invariant. *)
Lemma both_put_sl sl s : both s -> sl_next max_sessions (get_sl s) sl -> both (put_sl sl s).
Proof.
  intros [H1 [Hi HU]] Hn. split; [by rewrite get_tl_put_sl|].
  split; [rewrite get_put_sl; by eapply sl_inv_next|]. by apply HU_sl, Hn.
Qed.

Lemma sl_of_run (w : world S) : sl_of w = Ok (get_sl (w_state w), w).
Proof. done. Qed.

Lemma keeps_sl_of : keeps both sl_of (sl_inv max_sessions sl0).
Proof. intros w Hw. split; [done|]. by apply both_sl. Qed.

Lemma keeps_sl_modify f :
  (forall sl, sl_wf max_sessions sl -> sl_next max_sessions sl (f sl)) ->
  keeps both (sl_modify f) (λ _, True).
Proof. intros Hf. apply keeps_modify. intros s Hs. apply both_put_sl, Hf; [done|]. apply (both_sl s Hs). Qed.

Lemma keeps_sl_fail err : keeps both (sl_fail err) (λ r, r = -1).
Proof.
  eapply keeps_bind; [|intros; by apply keeps_ret]. apply keeps_sl_modify. intros sl Hsl.
  by apply sl_next_same.
Qed.

Lemma get_session_run n ss (w : world S) :
  session_at (get_sl (w_state w)) n = Some ss -> get_session n w = Ok (ss, w).
Proof.
  intros E. unfold get_session. rewrite (io_bind_run _ _ _ _ _ (sl_of_run w)).
  unfold lift, at_. unfold session_at in E. by rewrite E.
Qed.

Lemma upd_session_run n f ss (w : world S) :
  session_at (get_sl (w_state w)) n = Some ss ->
  upd_session n f w =
  Ok (tt, World (put_sl (set_sessions (<[Z.to_nat n := f ss]> (sl_sessions (get_sl (w_state w))))
     (get_sl (w_state w))) (w_state w)) (w_tick w) (w_log w)).
Proof.
  intros E. unfold upd_session. rewrite (io_bind_run _ _ _ _ _ (sl_of_run w)).
  unfold session_at in E. unfold lift, at_, mbind, io_bind. rewrite E.
  apply lookup_z_Some in E as [Hn _]. by rewrite insert_z_Some.
Qed.

Lemma get_session_at n :
  0 <= n < max_sessions ->
  hoare (on_state both) (get_session n) (λ ss w, on_state (at_session n ss) w /\ session_ok ss).
Proof.
  intros Hn w Hw. pose proof (both_sl _ Hw) as [Hwf _].
  destruct (session_at_some _ _ _ Hwf Hn) as (ss & Es & Hok).
  rewrite (get_session_run _ _ _ Es). destruct Hw as [H1 H2]. split; [|done]. by split.
Qed.

(** An update of a session that is known. *)
Lemma upd_session_at n f ss :
  session_ok (f ss) -> session_move (ss_state ss) (ss_state (f ss)) ->
  hoare (on_state (at_session n ss)) (upd_session n f) (λ _, on_state (at_session n (f ss))).
Proof.
  intros Hok Hst w Hw. pose proof Hw as [_ [_ Es]]. rewrite (upd_session_run _ _ _ _ Es). cbn [okay].
  pose proof (at_session_both _ _ _ Hw) as Hb.
  assert (Hin : sl_next max_sessions (get_sl (w_state w))
    (set_sessions (<[Z.to_nat n := f ss]> (sl_sessions (get_sl (w_state w)))) (get_sl (w_state w))))
    by (apply (sl_next_session max_sessions _ n ss); [exact (proj1 (both_sl _ Hb))|done..]).
  destruct (both_put_sl _ _ Hb Hin) as [H1 H2]. split; [done|]. split; [done|].
  cbn [w_state]. rewrite get_put_sl. unfold session_at in *. cbn [set_sessions sl_sessions].
  apply lookup_z_Some in Es as [Hn _]. by rewrite lookup_z_insert, Z.eqb_refl.
Qed.

(** Rules that read a session, and go on knowing it. *)
Lemma keeps_with_session {A} n (k : session -> IO S A) R :
  0 <= n < max_sessions ->
  (forall ss, session_ok ss ->
     hoare (on_state (at_session n ss)) (k ss) (λ a w, on_state both w /\ R a)) ->
  keeps both (get_session n ≫= k) R.
Proof.
  intros Hn Hk. eapply hoare_bind; [by apply get_session_at|]. intros ss w [Hw Hok].
  by apply (Hk ss Hok).
Qed.

Lemma session_forget {A} n ss (k : IO S A) R :
  keeps both k R -> hoare (on_state (at_session n ss)) k (λ a w, on_state both w /\ R a).
Proof. intros Hk. eapply hoare_mono; [exact Hk| |done]. intros w Hw. by eapply at_session_both. Qed.

Lemma session_upd {A} n f ss (k : IO S A) R :
  session_ok (f ss) -> session_move (ss_state ss) (ss_state (f ss)) ->
  hoare (on_state (at_session n (f ss))) k (λ a w, on_state both w /\ R a) ->
  hoare (on_state (at_session n ss)) (upd_session n f;; k) (λ a w, on_state both w /\ R a).
Proof. intros Hf Hs Hk. eapply hoare_bind; [by apply upd_session_at|]. by intros []. Qed.

(** The last action of a piece of code. *)
Lemma session_upd_last n f ss :
  session_ok (f ss) -> session_move (ss_state ss) (ss_state (f ss)) ->
  hoare (on_state (at_session n ss)) (upd_session n f) (λ _ w, on_state both w /\ True).
Proof.
  intros Hf Hs. eapply hoare_mono; [by apply upd_session_at|done|].
  intros [] w Hw. split; [by eapply at_session_both|done].
Qed.

(** An update that is right for every session. *)
Lemma keeps_upd_session n f :
  0 <= n < max_sessions ->
  (forall ss, session_ok ss -> session_ok (f ss) /\ session_move (ss_state ss) (ss_state (f ss))) ->
  keeps both (upd_session n f) (λ _, True).
Proof.
  intros Hn Hf w Hw. pose proof (both_sl _ Hw) as [Hwf _].
  destruct (session_at_some _ _ _ Hwf Hn) as (ss & Es & Hok). destruct (Hf ss Hok) as [Hok' Hst].
  destruct Hw as [H1 H2]. apply (session_upd_last n f ss Hok' Hst w). split; [done|by split].
Qed.

(** [state = S_STATE_IDLE] is right in any state. *)
Lemma keeps_upd_idle n :
  0 <= n < max_sessions -> keeps both (upd_session n (set_s_state S_STATE_IDLE)) (λ _, True).
Proof. intros Hn. apply keeps_upd_session; [done|]. intros ss Hss. split; [done|apply session_move_idle]. Qed.

(** Calls of the transport layer; what is known of the session stays known. *)
Lemma keeps_send_data J slot_id connection_id data :
  (forall tl s, J s -> J (put_tl tl s)) -> byte slot_id -> byte connection_id -> zlen data < 2 ^ 32 - 1 ->
  keeps (inv max_slots max_connections tl0 J) (en50221_tl_send_data e slot_id connection_id data) status.
Proof. intros HJ Hs Hc Hl. apply send_data_keeps; unfold byte in *; first [lia|done|by auto]. Qed.

Lemma keeps_get_error : keeps both en50221_tl_get_error (λ _, True).
Proof. intros w Hw. by split. Qed.

Lemma keeps_sl_fail_status err : keeps both (sl_fail err) status.
Proof. eapply keeps_mono; [apply keeps_sl_fail|]. intros r ->. by right. Qed.

Lemma id_bytes_length r n : zlen (id_bytes r ++ number_bytes n) = 6.
Proof. done. Qed.

(** *** The interface of the layer *)

Lemma find_idle_session_spec ss i :
  find_idle_session ss i = -1 \/
  exists k s, find_idle_session ss i = i + Z.of_nat k /\ ss !! k = Some s /\ ss_state s = S_STATE_IDLE.
Proof.
  revert i. induction ss as [|s ss IH]; intros i; [by left|]. cbn [find_idle_session].
  destruct (s_state_is (ss_state s) S_STATE_IDLE) eqn:Es.
  - right. exists 0%nat, s. apply s_state_is_spec in Es. split_and!; [lia|done..].
  - destruct (IH (i + 1)) as [|(k & s' & -> & Hk & Hs)]; [by left|].
    right. exists (Datatypes.S k), s'. split_and!; [lia|done..].
Qed.

(** Session [n] is in a state. *)
Definition at_state (n : Z) (st : s_state) : S -> Prop :=
  inv max_slots max_connections tl0
    (λ s, upper s /\ exists ss, session_at (get_sl s) n = Some ss /\ ss_state ss = st).

Lemma at_state_tl n st tl s :
  (upper s /\ exists ss, session_at (get_sl s) n = Some ss /\ ss_state ss = st) ->
  upper (put_tl tl s) /\ exists ss, session_at (get_sl (put_tl tl s)) n = Some ss /\ ss_state ss = st.
Proof. intros [H1 H2]. split; [by apply upper_tl|by rewrite get_sl_put_tl]. Qed.

Lemma at_state_both n st s : at_state n st s -> both s.
Proof. intros [H1 [H2 _]]. by split. Qed.

Lemma alloc_new_session_at resource_id slot_id connection_id cb :
  byte slot_id -> byte connection_id ->
  hoare (on_state both) (en50221_sl_alloc_new_session resource_id slot_id connection_id cb)
    (λ n w, on_state both w /\
       (n = -1 \/ 1 <= n < max_sessions /\ on_state (at_state n S_STATE_IN_CREATION) w)).
Proof.
  intros Hs Hc w Hw. pose proof (both_sl _ Hw) as [Hwf _]. pose proof Hwf as [H1 H2 H3].
  unfold en50221_sl_alloc_new_session. rewrite (io_bind_run _ _ _ _ _ (sl_of_run w)).
  rewrite H1, H2, Z.ltb_irrefl. set (ss := drop 1 _).
  destruct (find_idle_session_spec ss 1) as [Ef|(k & s & Ef & Ek & Eidle)]; rewrite Ef.
  { eapply okay_mono; [by apply keeps_sl_fail|]. intros [r w'] [? ->]. split; [done|by left]. }
  rewrite (proj2 (Z.eqb_neq _ _)) by lia. unfold ss in Ek. rewrite lookup_drop in Ek.
  assert (Hk : Z.of_nat k + 1 < max_sessions).
  { apply lookup_lt_Some in Ek. rewrite length_take in Ek. lia. }
  rewrite lookup_take_lt in Ek by lia.
  assert (Es : session_at (get_sl (w_state w)) (1 + Z.of_nat k) = Some s).
  { unfold session_at, lookup_z. rewrite (proj2 (Z.leb_le _ _)) by lia.
    rewrite <- Ek. f_equal. lia. }
  assert (Hat : on_state (at_session (1 + Z.of_nat k) s) w).
  { destruct Hw as [? ?]. split; [done|by split]. }
  set (f := λ _ : session, Session S_STATE_IN_CREATION resource_id slot_id connection_id cb).
  assert (Hu : okay (upd_session (1 + Z.of_nat k) f w)
    (λ '(_, w'), on_state (at_session (1 + Z.of_nat k) (f s)) w')).
  { apply (upd_session_at (1 + Z.of_nat k) f s); [by split| |done].
    rewrite Eidle. apply session_move_one. constructor. }
  unfold mbind, io_bind. destruct (upd_session (1 + Z.of_nat k) f w) as [[[] w']|]; [|done].
  cbn [okay mret io_ret] in *. split; [by eapply at_session_both|]. right. split; [lia|].
  destruct Hu as [? [? ?]]. split; [done|]. split; [done|]. by exists (f s).
Qed.

(** Go on from a session in a state, forgetting it. *)
Lemma state_forget {A} n st (k : IO S A) R :
  keeps both k R -> hoare (on_state (at_state n st)) k (λ a w, on_state both w /\ R a).
Proof. intros Hk. eapply hoare_mono; [exact Hk| |done]. intros w Hw. by eapply at_state_both. Qed.

Lemma state_bind {A B} n st (c : IO S A) (k : A -> IO S B) Q R :
  keeps (at_state n st) c Q ->
  (forall a, Q a -> hoare (on_state (at_state n st)) (k a) (λ b w, on_state both w /\ R b)) ->
  hoare (on_state (at_state n st)) (c ≫= k) (λ b w, on_state both w /\ R b).
Proof. intros Hc Hk. eapply hoare_bind; [exact Hc|]. intros a w [Hw Ha]. by apply Hk. Qed.

Lemma abandon_keeps n from :
  0 <= n < max_sessions -> keeps both (abandon n from) status.
Proof.
  intros Hn. eapply keeps_bind.
  { apply keeps_upd_session; [done|]. intros ss Hss. destruct (s_state_is _ _); [|by split; [|left]].
    split; [done|apply session_move_idle]. }
  intros _ _. eapply keeps_bind; [apply keeps_get_error|]. intros err _. apply keeps_sl_fail_status.
Qed.

Lemma byte_u8 z : byte (u8 z).
Proof. unfold byte, u8. apply Z.mod_pos_bound. lia. Qed.

Lemma create_session_keeps slot_id connection_id resource_id cb :
  byte connection_id ->
  keeps both (en50221_sl_create_session e slot_id connection_id resource_id cb)
    (λ r, -1 <= r < max_sessions).
Proof.
  intros Hc. eapply hoare_bind; [apply alloc_new_session_at; [apply byte_u8|done]|]. intros n w [Hw Hn].
  destruct Hn as [->|[Hn Hcr]]; [split; [done|]|].
  { pose proof (both_sl _ Hw) as [[_ H _] _]. lia. }
  rewrite (proj2 (Z.eqb_neq _ _)) by lia. clear Hw. revert w Hcr.
  apply (state_bind n S_STATE_IN_CREATION _ _ status).
  { apply keeps_send_data; [apply at_state_tl|apply byte_u8|done|done]. }
  intros r _. destruct (negb (r =? 0)); [|apply state_forget, keeps_ret; lia].
  apply state_forget. eapply keeps_mono; [apply abandon_keeps; lia|]. intros ? [-> | ->]; lia.
Qed.

Lemma destroy_session_keeps n : 0 <= n -> keeps both (en50221_sl_destroy_session e n) status.
Proof.
  intros Hn. eapply keeps_bind; [apply keeps_sl_of|]. intros sl [[H1 _ _] _]. rewrite H1.
  destruct (Z.leb_spec max_sessions n); [apply keeps_sl_fail_status|].
  apply keeps_with_session; [lia|]. intros ss Hss.
  destruct (negb (s_state_in _ _)) eqn:Est; [apply session_forget, keeps_sl_fail_status|].
  apply session_upd; [done| |].
  { cbn. destruct (ss_state ss); try done; [apply session_move_one; constructor|apply session_move_same]. }
  apply session_forget. eapply keeps_bind.
  { apply keeps_send_data; [apply upper_tl|apply Hss|apply Hss|done]. }
  intros r _. destruct (negb (r =? 0)); [apply abandon_keeps; lia|by apply keeps_ret; left].
Qed.

(** What is sent on a session: short vectors. *)
Lemma send_vector_keeps n ss vector :
  session_ok ss -> zlen (concat vector) < 2 ^ 32 - 5 ->
  keeps both (send_vector e n ss vector) status.
Proof.
  intros [Hs Hc] Hl. eapply keeps_bind.
  { apply send_datav_keeps; [intros tl s Hs' _; by apply upper_tl|unfold byte in *; lia..|].
    unfold number_bytes. cbn [concat app length]. lia. }
  intros r _. destruct (negb (r =? 0)); [|by apply keeps_ret; left].
  eapply keeps_bind; [apply keeps_get_error|]. intros err _. apply keeps_sl_fail_status.
Qed.

Lemma active_keeps n k :
  0 <= n -> (forall ss, session_ok ss -> keeps both (k ss) status) -> keeps both (active n k) status.
Proof.
  intros Hn Hk. eapply keeps_bind; [apply keeps_sl_of|]. intros sl [[H1 _ _] _]. rewrite H1.
  destruct (Z.leb_spec max_sessions n); [apply keeps_sl_fail_status|].
  apply keeps_with_session; [lia|]. intros ss Hss. apply session_forget.
  destruct (negb _); [apply keeps_sl_fail_status|by apply Hk].
Qed.

Lemma sl_send_data_keeps n data :
  0 <= n -> zlen data < 65536 -> keeps both (en50221_sl_send_data e n data) status.
Proof.
  intros Hn Hl. apply active_keeps; [done|]. intros ss Hss. apply send_vector_keeps; [done|].
  cbn [concat]. rewrite app_nil_r. lia.
Qed.

Lemma sl_send_datav_keeps n vector :
  0 <= n -> zlen (concat vector) < 2 ^ 32 - 5 -> keeps both (en50221_sl_send_datav e n vector) status.
Proof.
  intros Hn Hl. apply active_keeps; [done|]. intros ss Hss.
  destruct (9 <? zlen vector); [apply keeps_sl_fail_status|by apply send_vector_keeps].
Qed.

Lemma broadcast_keeps n : forall i slot_id resource_id data,
  0 <= i -> i + Z.of_nat n <= max_sessions -> zlen data < 65536 ->
  keeps both (broadcast e n i slot_id resource_id data) (λ r, r = 0).
Proof.
  induction n as [|n IH]; intros i slot_id resource_id data Hi Hn Hl; [by apply keeps_ret|].
  cbn [broadcast]. apply keeps_with_session; [lia|]. intros ss Hss. apply session_forget.
  apply keeps_bind with (Q := λ _, True); [|intros _ _; apply IH; lia].
  case_if; [by apply keeps_ret|]. case_if; [by apply keeps_ret|]. case_if; [|by apply keeps_ret].
  eapply keeps_bind; [apply sl_send_data_keeps; [apply Z.mod_pos_bound; lia|done]|].
  intros. by apply keeps_ret.
Qed.

Lemma broadcast_data_keeps slot_id resource_id data :
  zlen data < 65536 -> keeps both (en50221_sl_broadcast_data e slot_id resource_id data) (λ r, r = 0).
Proof.
  intros Hl. eapply keeps_bind; [apply keeps_sl_of|]. intros sl [[H1 H2 _] _].
  apply broadcast_keeps; lia.
Qed.

(** *** Messages from the module *)

(** The callbacks of the layer above keep the invariants: they may call both layers.  While a session
    is being opened the layer above is asked about it, and must leave it as it is. *)
Record upper_ok : Prop := {
  uo_lookup : forall arg slot_id id, byte slot_id ->
    keeps both (up_lookup up arg slot_id id) (λ _, True);
  uo_session : forall arg reason slot_id n id, byte slot_id -> 0 <= n < 65536 ->
    keeps both (up_session up arg reason slot_id n id) (λ _, True);
  uo_resource : forall arg slot_id n id apdu, byte slot_id -> 0 <= n < 65536 -> Forall byte apdu ->
    keeps both (up_resource up arg slot_id n id apdu) (λ _, True);
  uo_connecting : forall arg slot_id n id, byte slot_id -> 1 <= n < max_sessions ->
    keeps (at_state n S_STATE_IN_CREATION)
      (up_session up arg S_SCALLBACK_REASON_CAMCONNECTING slot_id (u16 n) id) (λ _, True);
}.
Hypothesis Hup : upper_ok.

Lemma session_callback_keeps cb reason slot_id n id :
  byte slot_id -> keeps both (session_callback up cb reason slot_id n id) (λ _, True).
Proof.
  intros Hs. destruct cb as [arg|]; [|by apply keeps_ret].
  eapply keeps_bind; [apply keeps_log|]. intros _ _.
  eapply keeps_bind; [apply Hup; [done|apply Z.mod_pos_bound; lia]|]. intros _ _. by apply keeps_ret.
Qed.

Lemma open_lookup_keeps slot_id id :
  byte slot_id -> keeps both (open_lookup up uninit slot_id id) (λ _, True).
Proof.
  intros Hs. eapply keeps_bind; [apply keeps_sl_of|]. intros sl _.
  destruct (sl_lookup sl); [|by apply keeps_ret].
  eapply keeps_bind; [by apply Hup|]. intros [[? ?] ?] _. by apply keeps_ret.
Qed.

(** The session that is being opened, if there is one. *)
Definition opening (n : Z) (w : world S) : Prop :=
  on_state both w /\ (n = -1 \/ 1 <= n < max_sessions /\ on_state (at_state n S_STATE_IN_CREATION) w).

Lemma open_session_at status cb id slot_id connection_id :
  byte slot_id -> byte connection_id ->
  hoare (on_state both) (open_session up status cb id slot_id connection_id) (λ r, opening r.1).
Proof.
  intros Hs Hc. unfold open_session. destruct (status =? S_STATUS_OPEN).
  2: { intros w Hw. split; [done|by left]. }
  eapply hoare_bind; [by apply alloc_new_session_at|]. intros n w [Hw [->|[Hn Hcr]]].
  { split; [done|by left]. }
  rewrite (proj2 (Z.eqb_neq _ _)) by lia. clear Hw. revert w Hcr.
  change (hoare (on_state (at_state n S_STATE_IN_CREATION)) (
    sl ← sl_of;
    match sl_session sl with
    | Some arg =>
        log_event (SessionCalled arg S_SCALLBACK_REASON_CAMCONNECTING slot_id (u16 n) id);;
        r ← up_session up arg S_SCALLBACK_REASON_CAMCONNECTING slot_id (u16 n) id;
        mret (n, if negb (r =? 0) then S_STATUS_CLOSE_RES_BUSY else status)
    | None => mret (n, S_STATUS_CLOSE_RES_UNAVAILABLE)
    end) (λ r, opening r.1)).
  eapply hoare_mono with (Q := λ r w, on_state (at_state n S_STATE_IN_CREATION) w /\ r.1 = n); [|done|].
  2: { intros [? ?] w [Hw [= ->]]. split; [by eapply at_state_both|by right]. }
  eapply keeps_bind with (Q := λ _, True); [by intros w Hw|]. intros sl _.
  destruct (sl_session sl); [|by apply keeps_ret].
  eapply keeps_bind; [apply keeps_log|]. intros _ _.
  eapply keeps_bind; [by apply Hup|]. intros r _. by apply keeps_ret.
Qed.

Lemma open_finish_keeps n status slot_id id :
  byte slot_id -> hoare (opening n) (open_finish up n status slot_id id) (λ _ w, on_state both w /\ True).
Proof.
  intros Hs w [Hw [->|[Hn Hcr]]]; [by split|]. unfold open_finish.
  rewrite (proj2 (Z.eqb_neq n (-1))) by lia. cbn [negb]. clear Hw.
  destruct Hcr as [H1 [H2 (ss & Es & Est)]].
  assert (Hok : session_ok ss).
  { destruct H2 as [[[_ _ H3] _] _]. apply (lookup_z_Forall _ _ _ _ H3 Es). }
  apply (session_upd n _ ss _ (λ _, True)); [done| | |split; [done|by split]].
  { cbn. rewrite Est. destruct (negb _); apply session_move_one; constructor. }
  apply session_forget, keeps_with_session; [lia|]. intros ss' Hss'. apply session_forget.
  destruct (s_state_is _ _); [|by apply keeps_ret].
  eapply keeps_bind; [apply keeps_sl_of|]. intros sl _.
  destruct (status =? S_STATUS_OPEN); [by apply session_callback_keeps|].
  eapply keeps_bind; [apply keeps_upd_idle; lia|]. intros _ _. by apply session_callback_keeps.
Qed.

(** What is sent while a session is opening leaves it alone. *)
Lemma opening_send n slot_id connection_id data :
  byte slot_id -> byte connection_id -> zlen data < 2 ^ 32 - 1 ->
  hoare (opening n) (en50221_tl_send_data e slot_id connection_id data) (λ _, opening n).
Proof.
  intros Hs Hc Hl w [Hw Hn].
  assert (Hk : forall J, (forall tl s, J s -> J (put_tl tl s)) ->
    keeps (inv max_slots max_connections tl0 J) (en50221_tl_send_data e slot_id connection_id data) status)
    by (intros; by apply keeps_send_data).
  pose proof (Hk upper upper_tl w Hw) as Hb.
  destruct Hn as [->|[Hn Hcr]].
  - destruct (en50221_tl_send_data _ _ _ _ w) as [[r w']|]; [|done]. split; [apply Hb|by left].
  - pose proof (Hk _ (at_state_tl n S_STATE_IN_CREATION) w Hcr) as Hc'.
    destruct (en50221_tl_send_data _ _ _ _ w) as [[r w']|]; [|done].
    split; [apply Hb|]. right. split; [done|apply Hc'].
Qed.

Lemma open_session_request_keeps data slot_id connection_id :
  byte slot_id -> byte connection_id ->
  keeps both (en50221_sl_handle_open_session_request e up uninit data slot_id connection_id) (λ _, True).
Proof.
  intros Hs Hc. unfold en50221_sl_handle_open_session_request.
  destruct (Z.ltb_spec (zlen data) 5); [by apply keeps_ret|].
  assert (Hat : forall i, 0 <= i < 5 -> keeps both (lift (at_ data i)) (λ _, True)).
  { intros i Hi. apply keeps_lift, okay_at; [by apply Forall_true|lia]. }
  eapply keeps_bind; [by apply Hat|]. intros b0 _. case_if; [by apply keeps_ret|].
  do 4 (eapply keeps_bind; [by apply Hat|]; intros ? _).
  eapply keeps_bind; [by apply open_lookup_keeps|]. intros [[status cb] id] _.
  eapply hoare_bind; [by apply open_session_at|]. intros [n status']. cbn [fst].
  eapply hoare_bind; [by apply opening_send|]. intros r. by apply open_finish_keeps.
Qed.

Lemma keeps_at I (data : list Z) i : 0 <= i < zlen data -> keeps (S := S) I (lift (at_ data i)) (λ _, True).
Proof. intros Hi. apply keeps_lift, okay_at; [by apply Forall_true|done]. Qed.

Lemma number_at_keeps data i :
  0 <= i -> i + 1 < zlen data -> keeps both (number_at data i) (λ n, 0 <= n < 65536).
Proof.
  intros Hi Hl. eapply keeps_bind; [apply keeps_at; lia|]. intros h _.
  eapply keeps_bind; [apply keeps_at; lia|]. intros l _. apply keeps_ret.
  unfold u16. apply Z.mod_pos_bound. lia.
Qed.

Lemma close_session_request_keeps data slot_id connection_id :
  byte slot_id -> byte connection_id ->
  keeps both (en50221_sl_handle_close_session_request e up data slot_id connection_id) (λ _, True).
Proof.
  intros Hs Hc. unfold en50221_sl_handle_close_session_request.
  destruct (Z.ltb_spec (zlen data) 3); [by apply keeps_ret|].
  eapply keeps_bind; [apply keeps_at; lia|]. intros b0 _. case_if; [by apply keeps_ret|].
  eapply keeps_bind; [apply number_at_keeps; lia|]. intros n Hn. cbv beta in Hn.
  eapply keeps_bind; [apply keeps_sl_of|]. intros sl [[H1 _ _] _]. rewrite H1.
  eapply keeps_bind with (Q := λ _, True).
  { destruct (Z.leb_spec max_sessions n); [by apply keeps_ret|].
    apply keeps_with_session; [lia|]. intros ss Hss. cbv zeta. apply session_forget.
    eapply keeps_bind with (Q := λ _, True); [|intros; by apply keeps_ret].
    destruct (_ =? 0); [apply keeps_upd_idle; lia|by apply keeps_ret]. }
  intros [code id] _. eapply keeps_bind; [by apply keeps_send_data; [apply upper_tl|..]|]. intros r _.
  destruct (code =? 0); [|by apply keeps_ret].
  eapply keeps_bind; [apply keeps_sl_of|]. intros sl' _. by apply session_callback_keeps.
Qed.

Lemma expected_keeps n slot_id connection_id st k :
  0 <= n ->
  (forall ss, session_ok ss -> ss_state ss = st -> 0 <= n < max_sessions ->
     hoare (on_state (at_session n ss)) (k ss) (λ _ w, on_state both w /\ True)) ->
  keeps both (expected n slot_id connection_id st k) (λ _, True).
Proof.
  intros Hn Hk. eapply keeps_bind; [apply keeps_sl_of|]. intros sl [[H1 _ _] _]. rewrite H1.
  destruct (Z.leb_spec max_sessions n); [by apply keeps_ret|].
  apply keeps_with_session; [lia|]. intros ss Hss.
  destruct (negb (slot_id =? _)); [by apply session_forget, keeps_ret|].
  destruct (negb (connection_id =? _)); [by apply session_forget, keeps_ret|].
  destruct (s_state_is _ _) eqn:Est; cbn [negb]; [|by apply session_forget, keeps_ret].
  apply s_state_is_spec in Est. by apply Hk.
Qed.

Lemma create_session_response_keeps data slot_id connection_id :
  byte slot_id ->
  keeps both (en50221_sl_handle_create_session_response up data slot_id connection_id) (λ _, True).
Proof.
  intros Hs. unfold en50221_sl_handle_create_session_response.
  destruct (Z.ltb_spec (zlen data) 8); [by apply keeps_ret|].
  eapply keeps_bind; [apply keeps_at; lia|]. intros b0 _. case_if; [by apply keeps_ret|].
  eapply keeps_bind; [apply number_at_keeps; lia|]. intros n Hn. cbv beta in Hn.
  apply expected_keeps; [apply Hn|]. intros ss Hss Est Hnm.
  eapply hoare_bind; [apply (keeps_at _ data 1); lia|]. intros status w [Hw _]. revert w Hw.
  apply (session_upd n _ ss _ (λ _, True)); [done| |].
  { cbn. rewrite Est. destruct (negb _); apply session_move_one; constructor. }
  apply session_forget. eapply keeps_bind; [apply keeps_sl_of|]. intros sl _.
  apply keeps_with_session; [done|]. intros ss' Hss'. by apply session_forget, session_callback_keeps.
Qed.

Lemma close_session_response_keeps data slot_id connection_id :
  keeps both (en50221_sl_handle_close_session_response data slot_id connection_id) (λ _, True).
Proof.
  unfold en50221_sl_handle_close_session_response.
  destruct (Z.ltb_spec (zlen data) 5); [by apply keeps_ret|].
  eapply keeps_bind; [apply keeps_at; lia|]. intros b0 _. case_if; [by apply keeps_ret|].
  eapply keeps_bind; [apply number_at_keeps; lia|]. intros n Hn. cbv beta in Hn.
  apply expected_keeps; [apply Hn|]. intros ss Hss Est Hnm.
  apply session_forget, keeps_upd_idle. done.
Qed.

(** An APDU is whole and not empty, so the loop ends. *)
Lemma next_apdu_ok data :
  Forall byte data -> data <> [] ->
  okay (next_apdu data) (λ r, forall apdu rest, r = Some (apdu, rest) ->
    data = apdu ++ rest /\ (length rest < length data)%nat /\ Forall byte apdu /\ Forall byte rest).
Proof.
  intros Hb Hne. unfold next_apdu. destruct (Z.ltb_spec (zlen data) 3); [done|].
  destruct (asn_1_decode_run (drop 3 data)) as (r & Hr & Hf); [by apply Forall_drop|].
  rewrite length_drop in Hr. replace (Z.of_nat (length data - 3)) with (zlen data - 3) in Hr by lia.
  rewrite Hr. cbn [mbind res_bind]. destruct r as [[l n]|]; [|done].
  assert (Hform : asn_1_form (drop 3 data) l n) by by apply Hf.
  apply asn_1_form_bounds in Hform as (Hl & Hn & _); [|by apply Forall_drop].
  rewrite u32_id by lia. destruct (Z.ltb_spec (zlen data) (3 + n + l)); [done|].
  intros apdu rest [= <- <-]. split; [by rewrite take_drop|].
  split_and!; [rewrite length_drop; lia|by apply Forall_take|by apply Forall_drop].
Qed.

Lemma deliver_apdus_keeps cb slot_id n id fuel : forall data,
  byte slot_id -> 0 <= n < 65536 -> Forall byte data -> (length data <= fuel)%nat ->
  keeps both (deliver_apdus up fuel cb slot_id n id data) (λ _, True).
Proof.
  induction fuel as [|fuel IH]; intros data Hs Hn Hb Hl.
  { destruct data; [by apply keeps_ret|cbn in Hl; lia]. }
  cbn [deliver_apdus]. destruct (Z.eqb_spec (zlen data) 0); [by apply keeps_ret|].
  assert (Hne : data <> []) by by intros ->.
  eapply keeps_bind; [by apply keeps_lift, next_apdu_ok|]. intros [[apdu rest]|] Hr; [|by apply keeps_ret].
  destruct (Hr _ _ eq_refl) as (-> & Hlt & Hba & Hbr).
  apply keeps_bind with (Q := λ _, True); [|intros _ _; apply IH; [done|done|done|lia]].
  destruct cb as [arg|]; [|by apply keeps_ret].
  eapply keeps_bind; [apply keeps_log|]. intros _ _.
  eapply keeps_bind; [by apply Hup|]. intros _ _. by apply keeps_ret.
Qed.

Lemma session_package_keeps data slot_id connection_id :
  byte slot_id -> Forall byte data ->
  keeps both (en50221_sl_handle_session_package up data slot_id connection_id) (λ _, True).
Proof.
  intros Hs Hb. unfold en50221_sl_handle_session_package.
  destruct (Z.ltb_spec (zlen data) 3); [by apply keeps_ret|].
  eapply keeps_bind; [apply keeps_at; lia|]. intros b0 _. case_if; [by apply keeps_ret|].
  eapply keeps_bind; [apply number_at_keeps; lia|]. intros n Hn. cbv beta in Hn.
  apply expected_keeps; [apply Hn|]. intros ss Hss Est Hnm.
  apply session_forget, deliver_apdus_keeps; [done|done|by apply Forall_drop|done].
Qed.

Lemma close_sessions_keeps n closes cb : forall i,
  0 <= i -> i + Z.of_nat n <= max_sessions ->
  keeps both (close_sessions up n i closes cb) (λ _, True).
Proof.
  induction n as [|n IH]; intros i Hi Hn; [by apply keeps_ret|].
  cbn [close_sessions]. apply keeps_with_session; [lia|]. intros ss Hss. apply session_forget.
  apply keeps_bind with (Q := λ _, True); [|intros _ _; apply IH; lia].
  case_if; [by apply keeps_ret|]. case_if; [by apply keeps_ret|].
  eapply keeps_bind; [apply keeps_upd_idle; lia|]. intros _ _. apply session_callback_keeps, Hss.
Qed.

(** The callback keeps the invariants of both layers: the assumption of the transport layer. *)
Lemma transport_callback_keeps arg reason data slot_id connection_id :
  byte slot_id -> byte connection_id -> Forall byte data ->
  keeps both (en50221_sl_transport_callback e up uninit arg reason data slot_id connection_id)
    (λ _, True).
Proof.
  intros Hs Hc Hb. eapply keeps_bind; [apply keeps_sl_of|]. intros sl [[H1 H2 _] _].
  case_if; [by apply session_callback_keeps|]. case_if; [by apply session_callback_keeps|].
  case_if; [apply close_sessions_keeps; lia|]. case_if; [apply close_sessions_keeps; lia|].
  unfold handle_spdu. destruct (Z.ltb_spec (zlen data) 1); [by apply keeps_ret|].
  eapply keeps_bind; [apply keeps_at; lia|]. intros tag _.
  assert (Hd : Forall byte (drop 1 data)) by by apply Forall_drop.
  case_if; [by apply open_session_request_keeps|]. case_if; [by apply close_session_request_keeps|].
  case_if; [by apply session_package_keeps|]. case_if; [by apply create_session_response_keeps|].
  case_if; [apply close_session_response_keeps|]. by apply keeps_ret.
Qed.
End SessionSafety.

(** ** Sequences of calls *)

(** The calls a program makes on the two layers; what the module sends is processed by polling the
    transport layer. *)
Inductive sl_op :=
  | OpTransport (op : tl_op)
  | OpRegisterLookup (cb : option Z)
  | OpRegisterSession (cb : option Z)
  | OpCreateSession (slot_id connection_id resource_id : Z) (cb : option Z)
  | OpDestroySession (session_number : Z)
  | OpSessionSend (session_number : Z) (data : list Z)
  | OpSessionSendv (session_number : Z) (vector : list (list Z))
  | OpBroadcast (slot_id resource_id : Z) (data : list Z).

(** The types of the arguments; the total length of a vector is that of an [uint32_t]. *)
Definition sl_op_typed (op : sl_op) : Prop :=
  match op with
  | OpTransport op => op_typed op
  | OpCreateSession _ c _ _ => byte c
  | OpDestroySession n => 0 <= n < 65536
  | OpSessionSend n data => 0 <= n < 65536 /\ zlen data < 65536
  | OpSessionSendv n vector => 0 <= n < 65536 /\ zlen (concat vector) < 2 ^ 32 - 5
  | OpBroadcast _ _ data => zlen data < 65536
  | _ => True
  end.

Section SessionSequences.
Context {S : Type} `{HT : HasTransport S} `{!TransportLaws S} `{HS : HasSessions S} `{!SessionLaws S}.
Context (e : env) (up : upper_layer S) (uninit : Z).

Definition run_sl_op (op : sl_op) : IO S Z :=
  match op with
  | OpTransport op => run_op e (en50221_sl_transport_callback e up uninit) op
  | OpRegisterLookup cb => en50221_sl_register_lookup_callback cb;; mret 0
  | OpRegisterSession cb => en50221_sl_register_session_callback cb;; mret 0
  | OpCreateSession slot_id connection_id resource_id cb =>
      en50221_sl_create_session e slot_id connection_id resource_id cb
  | OpDestroySession n => en50221_sl_destroy_session e n
  | OpSessionSend n data => en50221_sl_send_data e n data
  | OpSessionSendv n vector => en50221_sl_send_datav e n vector
  | OpBroadcast slot_id resource_id data => en50221_sl_broadcast_data e slot_id resource_id data
  end.

Fixpoint run_sl_ops (ops : list sl_op) : IO S (list Z) :=
  match ops with
  | [] => mret []
  | op :: ops => r ← run_sl_op op; rs ← run_sl_ops ops; mret (r :: rs)
  end.

Context (max_slots max_connections max_sessions : Z) (sl0 : session_layer) (U : S -> Prop).
Hypothesis Hslots : 0 <= max_slots < 256.
Hypothesis Hconnections : 0 <= max_connections < 256.
Hypothesis HU_tl : forall tl s, U s -> U (put_tl tl s).
Hypothesis HU_sl : forall sl s, U s -> sl_moves (get_sl s) sl -> U (put_sl sl s).
Hypothesis Hup : forall tl0, upper_ok up max_slots max_connections tl0 max_sessions sl0 U.
Hypothesis Henv : env_ok e max_slots.

Lemma run_sl_op_keeps op :
  sl_op_typed op ->
  keeps (wf max_slots max_connections (upper max_sessions sl0 U)) (run_sl_op op) (λ _, True).
Proof.
  intros Ht. assert (Hsession : forall R (c : IO S Z),
    (forall tl0, keeps (both max_slots max_connections tl0 max_sessions sl0 U) c R) ->
    keeps (wf max_slots max_connections (upper max_sessions sl0 U)) c (λ _, True)).
  { intros R c Hc. apply keeps_wf. intros tl0. by eapply keeps_mono; [apply Hc|]. }
  assert (Hregister : forall f, (forall sl, sl_sessions (f sl) = sl_sessions sl) ->
    (forall sl, sl_max_sessions (f sl) = sl_max_sessions sl) ->
    keeps (wf max_slots max_connections (upper max_sessions sl0 U)) (sl_modify f;; mret 0) (λ _, True)).
  { intros f Hf1 Hf2. apply (Hsession (λ _, True)). intros tl0.
    eapply keeps_bind; [|intros; by apply keeps_ret]. apply keeps_sl_modify; [done|].
    intros sl Hsl. by apply sl_next_same. }
  destruct op; cbn [run_sl_op sl_op_typed] in *.
  - assert (Htl : forall tl s, upper max_sessions sl0 U s -> upper max_sessions sl0 U (put_tl tl s)) by (intros; by apply upper_tl).
    apply run_op_wf; try done; [by auto|]. intros. by apply transport_callback_keeps.
  - by apply Hregister.
  - by apply Hregister.
  - eapply Hsession. intros tl0. by apply create_session_keeps.
  - eapply Hsession. intros tl0. apply destroy_session_keeps; [done..|apply Ht].
  - eapply Hsession. intros tl0. apply sl_send_data_keeps; [done..|apply Ht|apply Ht].
  - eapply Hsession. intros tl0. apply sl_send_datav_keeps; [done..|apply Ht|apply Ht].
  - eapply Hsession. intros tl0. by apply broadcast_data_keeps.
Qed.

Lemma run_sl_ops_keeps ops :
  Forall sl_op_typed ops ->
  keeps (wf max_slots max_connections (upper max_sessions sl0 U)) (run_sl_ops ops)
    (λ rs, length rs = length ops).
Proof.
  induction 1 as [|op ops Ht _ IH]; [by apply keeps_ret|].
  eapply keeps_bind; [by apply run_sl_op_keeps|]. intros r _.
  eapply keeps_bind; [apply IH|]. intros rs Hrs. apply keeps_ret. cbn. by rewrite Hrs.
Qed.
End SessionSequences.

Lemma upper_refl {S} `{HasTransport S} `{HasSessions S} max_sessions U (s : S) :
  sl_wf max_sessions (get_sl s) -> U s -> upper max_sessions (get_sl s) U s.
Proof. intros Hs HU. split; [by apply sl_inv_refl|done]. Qed.

(** ** The writes of the layer *)

#[export] Instance recording_transport {S} `{HasTransport S} : HasTransport (recorded session_layer S) :=
  {| get_tl := λ s, get_tl (rec_state s); put_tl := λ tl s, Recorded (put_tl tl (rec_state s)) (rec_writes s) |}.
#[export] Instance recording_transport_laws {S} `{TransportLaws S} : TransportLaws (recorded session_layer S).
Proof. split. intros tl s. exact (get_put (S := S) tl (rec_state s)). Qed.

#[export] Instance recorded_sessions {S} `{HasSessions S} : HasSessions (recorded session_layer S) :=
  {| get_sl := λ s, get_sl (rec_state s);
     put_sl := λ sl s, Recorded (put_sl sl (rec_state s)) (rec_writes s ++ [sl]) |}.
#[export] Instance recorded_sessions_laws {S} `{SessionLaws S} : SessionLaws (recorded session_layer S).
Proof.
  split; intros l s; [exact (get_put_sl (S := S) l (rec_state s))|exact (get_sl_put_tl (S := S) l (rec_state s))
    |exact (get_tl_put_sl (S := S) l (rec_state s))].
Qed.

(** What was written since [before] leads from the layer [sl], write by write, to the present one. *)
Definition sessions_linked {S} `{HasSessions S} (sl : session_layer) (before : list session_layer)
    (s : recorded session_layer S) : Prop :=
  exists sls, rec_writes s = before ++ sls /\ stepwise sl_moves sl sls /\ get_sl s = default sl (last sls).

Lemma sessions_linked_put {S} `{HT : HasTransport S} `{HS : HasSessions S} `{!SessionLaws S} sl before sl'
    (s : recorded session_layer S) :
  sessions_linked sl before s -> sl_moves (get_sl s) sl' -> sessions_linked sl before (put_sl sl' s).
Proof.
  intros (sls & Ew & Hl & Eg) Hm. exists (sls ++ [sl']). cbn. rewrite Ew, <- app_assoc, last_snoc. split; [done|].
  split; [|apply get_put_sl]. apply stepwise_snoc; [done|]. by rewrite <- Eg.
Qed.

Lemma sessions_linked_tl {S} `{HT : HasTransport S} `{HS : HasSessions S} `{!SessionLaws S} sl before tl
    (s : recorded session_layer S) :
  sessions_linked sl before s -> sessions_linked sl before (put_tl tl s).
Proof.
  intros (sls & Ew & Hl & Eg). exists sls. split; [done|]. split; [done|]. rewrite <- Eg. apply get_sl_put_tl.
Qed.

Lemma sessions_linked_now {S} `{HasSessions S} (s : recorded session_layer S) :
  sessions_linked (get_sl s) (rec_writes s) s.
Proof. exists []. by rewrite app_nil_r. Qed.

(** ** Properties *)

(** C17: Whatever the module sends (short of an empty T_DATA_MORE) and the operating system answers, any
    sequence of calls on the two layers runs to its end without a memory fault, and leaves both layers
    well formed.  The callbacks of the layer above may call both layers, and may rely on and keep an
    invariant [U] of their own state. *)
Theorem session_calls_safe {S} `{HT : HasTransport S} `{!TransportLaws S} `{HS : HasSessions S}
    `{!SessionLaws S} e up uninit max_slots max_connections max_sessions (U : S -> Prop) ops
    (w : world S) :
  0 <= max_slots < 256 -> 0 <= max_connections < 256 ->
  (forall tl s, U s -> U (put_tl tl s)) -> (forall sl s, U s -> U (put_sl sl s)) ->
  (forall tl0 sl0, upper_ok up max_slots max_connections tl0 max_sessions sl0 U) ->
  env_ok e max_slots -> Forall sl_op_typed ops ->
  tl_wf max_slots max_connections (get_tl (w_state w)) -> sl_wf max_sessions (get_sl (w_state w)) ->
  U (w_state w) ->
  okay (run_sl_ops e up uninit ops w) (λ '(rs, w'),
    length rs = length ops /\ tl_wf max_slots max_connections (get_tl (w_state w')) /\
    sl_wf max_sessions (get_sl (w_state w')) /\ U (w_state w')).
Proof.
  intros Hs Hc Ht Hl Hup He Hops Hw1 Hw2 HU. eapply okay_mono.
  - apply (run_sl_ops_keeps e up uninit max_slots max_connections max_sessions (get_sl (w_state w)) U);
      try done; [by auto|]. split; [done|by apply upper_refl].
  - by intros [rs w'] [[? [[? _] ?]] ?].
Qed.


(** *** Witnesses *)

(** A connection is active; the module asks for a session with a resource, and sends two APDUs on it. *)
Definition talking_layer : transport_layer :=
  TransportLayer 1 2 [Slot 5 0 [idle_connection; Connection T_STATE_ACTIVE (0, 0) (0, 0) NoChain []] 1000 100]
    [(5, 11)] true 0 0 (Some 42).
Definition quiet_sessions : session_layer :=
  SessionLayer 3 (Some 50) (Some 51) 0 (replicate 3 (fresh_session 0)).
Definition talking : world (transport_layer * session_layer) :=
  World (talking_layer, quiet_sessions) 0 [].

Definition talking_env : env := Env (λ _, true) (λ _, 0)
  (λ _, Some ([0; 1] ++ [0xA0; 7; 1; 0x91; 4; 0; 1; 0; 0x41]
     ++ [0xA0; 14; 1; 0x90; 2; 0; 1; 0x9F; 0x80; 0x10; 0; 0x9F; 0x80; 0x11; 1; 6] ++ [0x80; 2; 1; 0]))
  (λ n, (Z.of_nat n, 0)) (λ _, (1, [1])).

(** The layer above offers every resource, and answers each APDU with another: it calls the layer from
    its callback. *)
Definition answering {S} `{HasTransport S} `{HasSessions S} : upper_layer S :=
  Upper _ (λ _ _ id, mret (0, Some 60, Some id)) (λ _ _ _ _ _, mret 0)
    (λ _ _ n _ _, en50221_sl_send_data talking_env n [0x9F; 0x80; 0x12; 0]).

Lemma talking_env_ok : env_ok talking_env 1.
Proof.
  split.
  - done.
  - intros n bs [= <-]. solve_bytes.
  - intros n bs [= <-]. reflexivity.
Qed.

Lemma talking_layer_wf : tl_wf 1 2 talking_layer.
Proof.
  split; [done..| |].
  - by repeat constructor.
  - constructor; [|constructor]. apply Forall_cons_2; [|apply Forall_cons_2; [|constructor]];
      (split; cbn; [done|by intros [|? []]|by constructor]).
Qed.

Lemma quiet_sessions_wf : sl_wf 3 quiet_sessions.
Proof. split; [done..|]. apply Forall_replicate. by split. Qed.

Lemma answering_ok {S} `{HT : HasTransport S} `{!TransportLaws S} `{HS : HasSessions S} `{!SessionLaws S} tl0 sl0 (U : S -> Prop) :
  (forall tl s, U s -> U (put_tl tl s)) -> (forall sl s, U s -> sl_moves (get_sl s) sl -> U (put_sl sl s)) ->
  upper_ok answering 1 2 tl0 3 sl0 U.
Proof.
  intros Ht Hl. split; intros; [by apply keeps_ret..| |by apply keeps_ret].
  eapply keeps_mono; [|done]. apply sl_send_data_keeps; try done; lia.
Qed.

Definition talking_ops : list sl_op :=
  [OpTransport OpPoll; OpTransport OpPoll; OpSessionSend 1 [5]; OpBroadcast (-1) 65601 [6];
   OpDestroySession 1; OpSessionSend 1 [5]].

Lemma talking_ops_typed : Forall sl_op_typed talking_ops.
Proof. repeat (apply Forall_cons_2; [cbn; lia|]). constructor. Qed.

(** Two sessions are opened; the APDUs reach the resource, whose answers are queued for the module. *)
Example talking_run :
  match run_sl_ops talking_env answering 0 (take 2 talking_ops) talking with
  | Ok (rs, w) => rs = [0; 0] /\
      (ss_state <$> sl_sessions (get_sl (w_state w))) = [S_STATE_IDLE; S_STATE_ACTIVE; S_STATE_ACTIVE] /\
      take 7 (w_log w) = [Called 42 2 [0x91; 4; 0; 1; 0; 0x41] 0 1;
        SessionCalled 51 S_SCALLBACK_REASON_CAMCONNECTING 0 1 65601;
        SessionCalled 51 S_SCALLBACK_REASON_CAMCONNECTED 0 1 65601;
        Called 42 2 [0x90; 2; 0; 1; 0x9F; 0x80; 0x10; 0; 0x9F; 0x80; 0x11; 1; 6] 0 1;
        ResourceCalled 60 0 1 65601 [0x9F; 0x80; 0x10; 0];
        ResourceCalled 60 0 1 65601 [0x9F; 0x80; 0x11; 1; 6];
        Written 5 [0; 1; 0xA0; 10; 1; 0x92; 7; 0; 0; 1; 0; 0x41; 0; 1]]
  | Err _ => False
  end.
Proof. vm_compute. split_and!; reflexivity. Qed.

Lemma session_calls_safe_witness :
  okay (run_sl_ops talking_env answering 0 talking_ops talking) (λ '(rs, w'),
    length rs = length talking_ops /\ tl_wf 1 2 (get_tl (w_state w')) /\
    sl_wf 3 (get_sl (w_state w')) /\ True).
Proof.
  apply (session_calls_safe talking_env answering 0 1 2 3 (λ _, True) talking_ops talking).
  - lia.
  - lia.
  - done.
  - done.
  - intros. by apply answering_ok.
  - apply talking_env_ok.
  - apply talking_ops_typed.
  - apply talking_layer_wf.
  - apply quiet_sessions_wf.
  - exact I.
Defined.

Definition talking_recorded : world (recorded session_layer (transport_layer * session_layer)) :=
  World (Recorded (talking_layer, quiet_sessions) []) 0 [].

