(* ===== verification/En50221SessionExchange.v ===== *)
(** * What the session layer sends and receives

    The APDUs of a session package reach the resource of the session exactly, in order; data sent on a
    session arrives at the resource of the peer; every request of a session is answered, on every branch;
    and the responses that the layer misreads. *)

From S2P Require Export En50221SessionSafety En50221Exchange.

(** ** APDUs *)

(** A tag of three bytes, the length field, and the body. *)
Definition is_apdu (a : list Z) : Prop :=
  exists tag lf body, a = tag ++ lf ++ body /\ zlen tag = 3 /\
    asn_1_form (lf ++ body) (zlen body) (zlen lf) /\ Forall byte a.

(** The bytes break off inside an APDU (or before it). *)
Definition cut_apdu (p : list Z) : Prop := exists q, q <> [] /\ is_apdu (p ++ q).

Lemma asn_1_form_inj arr l n l' n' : asn_1_form arr l n -> asn_1_form arr l' n' -> l = l' /\ n = n'.
Proof. intros H1 H2. inversion H1; subst; inversion H2; subst; done || lia. Qed.

Lemma asn_1_form_app arr l n rest : asn_1_form arr l n -> asn_1_form (arr ++ rest) l n.
Proof. intros H. inversion H; subst; cbn [app]; by constructor. Qed.

Lemma next_apdu_some data l n :
  Forall byte data -> 3 <= zlen data -> asn_1_form (drop 3 data) l n ->
  next_apdu data =
    Ok (if zlen data <? 3 + n + l then None
        else Some (take (Z.to_nat (3 + n + l)) data, drop (Z.to_nat (3 + n + l)) data)).
Proof.
  intros Hb Hl Hf. unfold next_apdu. rewrite (proj2 (Z.ltb_ge _ _)) by done.
  assert (Hd : Forall byte (drop 3 data)) by by apply Forall_drop.
  destruct (asn_1_decode_run (drop 3 data) Hd) as (r & Hr & Hiff).
  rewrite length_drop in Hr. replace (Z.of_nat (length data - 3)) with (zlen data - 3) in Hr by lia.
  rewrite Hr. apply Hiff in Hf as Hsome. rewrite Hsome. cbn [mbind res_bind].
  apply asn_1_form_bounds in Hf as (? & ? & ?); [|done]. rewrite u32_id by lia. by case_if.
Qed.

(** The first APDU is taken off whole. *)
Lemma next_apdu_whole a rest :
  is_apdu a -> Forall byte rest -> next_apdu (a ++ rest) = Ok (Some (a, rest)).
Proof.
  intros (tag & lf & body & -> & Ht & Hf & Hb) Hr.
  rewrite (next_apdu_some _ (zlen body) (zlen lf)).
  - assert (E : 3 + zlen lf + zlen body = zlen (tag ++ lf ++ body)) by (rewrite !length_app; lia).
    rewrite E, Nat2Z.id. rewrite length_app, (proj2 (Z.ltb_ge _ _)) by lia.
    by rewrite take_app_length, drop_app_length.
  - by apply Forall_app.
  - rewrite !length_app. lia.
  - rewrite <- !app_assoc, drop_app_length' by lia. rewrite app_assoc. by apply asn_1_form_app.
Qed.

(** Nothing is taken off an APDU that breaks off. *)
Lemma next_apdu_cut p : cut_apdu p -> next_apdu p = Ok None.
Proof.
  intros (q & Hq & tag & lf & body & E & Ht & Hf & Hb). apply Forall_app in Hb as [Hb _].
  assert (Hlen : zlen p < 3 + zlen lf + zlen body).
  { apply (f_equal length) in E. rewrite !length_app in E. destruct q; [done|]. cbn [length] in E. lia. }
  destruct (Z.ltb_spec (zlen p) 3) as [Hs|Hs].
  { unfold next_apdu. by rewrite (proj2 (Z.ltb_lt _ _)). }
  assert (Hdrop : drop 3 p ++ q = lf ++ body).
  { apply (f_equal (drop 3)) in E. rewrite drop_app_le in E by lia.
    by rewrite drop_app_length' in E by lia. }
  assert (Hd : Forall byte (drop 3 p)) by by apply Forall_drop.
  destruct (asn_1_decode_run (drop 3 p) Hd) as (r & Hr & Hiff). destruct r as [[l n]|].
  - assert (Hf' : asn_1_form (drop 3 p) l n) by by apply Hiff.
    rewrite (next_apdu_some p l n); [|done..].
    apply (asn_1_form_app _ _ _ q) in Hf'. rewrite Hdrop in Hf'.
    destruct (asn_1_form_inj _ _ _ _ _ Hf Hf') as [<- <-]. by rewrite (proj2 (Z.ltb_lt _ _)).
  - unfold next_apdu. rewrite (proj2 (Z.ltb_ge _ _)) by done.
    rewrite length_drop in Hr. replace (Z.of_nat (length p - 3)) with (zlen p - 3) in Hr by lia.
    by rewrite Hr.
Qed.

Lemma is_apdu_length a : is_apdu a -> a <> [] /\ Forall byte a.
Proof. intros (tag & lf & body & -> & Ht & _ & Hb). split; [|done]. by destruct tag. Qed.

(** ** Receiving on a session *)

(** A session of the layer is open, for a slot, a connection and a resource, with its callback. *)
Record session_open (sl : session_layer) (n slot_id connection_id resource_id arg : Z) : Prop := {
  so_at : session_at sl n = Some (Session S_STATE_ACTIVE resource_id slot_id connection_id (Some arg));
  so_number : 0 <= n < sl_max_sessions sl;
  so_max : sl_max_sessions sl <= 65536;
}.

Section Receiving.
Context {S : Type} `{HT : HasTransport S} `{!TransportLaws S} `{HS : HasSessions S} `{!SessionLaws S}.
Context (e : env) (up : upper_layer S) (uninit : Z).

(** The resource is called with each APDU, in order. *)
Fixpoint resource_calls (arg slot_id n resource_id : Z) (apdus : list (list Z)) : IO S unit :=
  match apdus with
  | [] => mret tt
  | a :: apdus =>
      log_event (ResourceCalled arg slot_id n resource_id a);;
      up_resource up arg slot_id n resource_id a;;
      resource_calls arg slot_id n resource_id apdus
  end.

Lemma deliver_apdus_run arg slot_id n resource_id apdus rest fuel : forall w : world S,
  Forall is_apdu apdus -> cut_apdu rest -> (length (concat apdus ++ rest) <= fuel)%nat ->
  deliver_apdus up fuel (Some arg) slot_id n resource_id (concat apdus ++ rest) w =
  resource_calls arg slot_id n resource_id apdus w.
Proof.
  intros w Ha Hrest. revert fuel w. induction Ha as [|a apdus Ha Has IH]; intros fuel w Hf; cbn [concat app] in *.
  - destruct rest as [|b rest]; [by destruct fuel|]. destruct fuel as [|fuel]; [cbn in Hf; lia|].
    cbn [deliver_apdus]. rewrite (proj2 (Z.eqb_neq _ _)) by (cbn [length]; lia).
    by rewrite next_apdu_cut.
  - rewrite <- app_assoc in *. destruct (is_apdu_length a Ha) as [Hne Hb].
    destruct a as [|b a]; [done|]. destruct fuel as [|fuel]; [cbn in Hf; lia|].
    cbn [deliver_apdus]. rewrite (proj2 (Z.eqb_neq _ _)) by (cbn [app length]; lia).
    rewrite next_apdu_whole; [|done|].
    2: { apply Forall_app. split.
      - apply Forall_concat. eapply Forall_impl; [|exact Has]. intros x Hx. by apply is_apdu_length.
      - destruct Hrest as (q & _ & Hq). apply is_apdu_length in Hq as [_ Hq].
        apply Forall_app in Hq. apply Hq. }
    cbn [resource_calls]. unfold lift. unfold mbind, io_bind.
    destruct (log_event _ w) as [[[] w1]|]; [|done].
    destruct (up_resource up arg slot_id n resource_id (b :: a) w1) as [[r w2]|]; [|done].
    cbn [mret io_ret]. apply IH. cbn [app length] in Hf. rewrite length_app in Hf. lia.
Qed.

Lemma number_bytes_value n : 0 <= n < 65536 ->
  u16 (Z.lor (Z.shiftl (u8 (Z.shiftr n 8)) 8) (u8 n)) = n.
Proof.
  intros Hn. rewrite be16 by (unfold byte, u8; apply Z.mod_pos_bound; lia).
  unfold u8. rewrite Z.shiftr_div_pow2 by done. change (2 ^ 8) with 256.
  rewrite u16_id; Z.to_euclidean_division_equations; lia.
Qed.

(** What the session layer does with a package for an open session. *)
Lemma package_run n slot_id connection_id resource_id arg apdus rest (w : world S) :
  session_open (get_sl (w_state w)) n slot_id connection_id resource_id arg ->
  Forall is_apdu apdus -> cut_apdu rest ->
  en50221_sl_handle_session_package up ([2] ++ number_bytes n ++ concat apdus ++ rest)
    slot_id connection_id w =
  resource_calls arg slot_id n resource_id apdus w.
Proof.
  intros [Hat Hn Hmax] Ha Hrest. unfold en50221_sl_handle_session_package.
  rewrite (proj2 (Z.ltb_ge _ _)) by (cbn [number_bytes app length]; lia).
  unfold number_at. cbn [number_bytes app].
  rewrite (io_bind_run _ _ w 2 w) by done. change (negb (2 =? 2)) with false. cbv iota.
  rewrite (io_bind_run _ _ w n w).
  2: { transitivity (Ok (u16 (Z.lor (Z.shiftl (u8 (Z.shiftr n 8)) 8) (u8 n)), w)); [done|].
    by rewrite number_bytes_value by lia. }
  unfold expected. rewrite (io_bind_run _ _ _ _ _ (sl_of_run w)).
  rewrite (proj2 (Z.leb_gt _ _)) by lia. rewrite (io_bind_run _ _ _ _ _ (get_session_run _ _ _ Hat)).
  cbn [ss_slot_id ss_connection_id ss_state ss_callback ss_resource_id].
  rewrite !Z.eqb_refl. change (s_state_is S_STATE_ACTIVE S_STATE_ACTIVE) with true. cbn [negb drop].
  by apply deliver_apdus_run.
Qed.
End Receiving.

(** ** Packages through the transport layer *)

(** The package of session [n] that carries [payload]. *)
Definition package (n : Z) (payload : list Z) : list Z :=
  [ST_SESSION_NUMBER; 2] ++ number_bytes n ++ payload.

(** What the calls of the transport layer leave alone. *)
Lemma untouched_sl {S} `{TransportLaws S} `{HS : HasSessions S} `{!SessionLaws S} (s s' : S) :
  untouched s s' -> get_sl s' = get_sl s.
Proof. intros Hu. apply (Hu (λ s', get_sl s' = get_sl s)); [|done]. intros tl s0. by rewrite get_sl_put_tl. Qed.

(** A connection that is up: its slot is in use, and it is active. *)
Record connection_up (tl : transport_layer) (slot_id connection_id : Z) (c : connection) (hndl num : Z) :
    Prop := {
  cu_slot : slot_id < tl_max_slots tl;
  cu_max : connection_id < tl_max_connections_per_slot tl;
  cu_handle : hndl <> -1;
  cu_params : exists timeout delay, slot_params tl slot_id = Some (hndl, num, timeout, delay);
  cu_at : connection_at tl slot_id connection_id = Some c;
  cu_state : c_state c = T_STATE_ACTIVE;
}.

Section Packages.
Context {S : Type} `{HT : HasTransport S} `{!TransportLaws S} `{HS : HasSessions S} `{!SessionLaws S}.
Context (e : env) (up : upper_layer S) (uninit : Z).
Hypothesis Hmalloc : forall k, e_malloc e k = true.

Lemma callback_package_run sl_arg n slot_id connection_id resource_id arg apdus rest (w : world S) :
  session_open (get_sl (w_state w)) n slot_id connection_id resource_id arg ->
  Forall is_apdu apdus -> cut_apdu rest ->
  en50221_sl_transport_callback e up uninit sl_arg T_CALLBACK_REASON_DATA
    (package n (concat apdus ++ rest)) slot_id connection_id w =
  resource_calls up arg slot_id n resource_id apdus w.
Proof.
  intros Ho Ha Hrest. rewrite <- (package_run up n slot_id connection_id resource_id arg apdus rest w Ho Ha Hrest).
  unfold en50221_sl_transport_callback. rewrite (io_bind_run _ _ _ _ _ (sl_of_run w)).
  change (T_CALLBACK_REASON_DATA =? _) with false at 1. cbv iota.
  unfold handle_spdu. rewrite (proj2 (Z.ltb_ge _ _)) by (cbn [package app length]; lia). done.
Qed.

(** A package in a stream of TPDUs. *)
Lemma package_stream_run sl_arg chunks last n slot_id con resource_id arg c apdus rest (v : world S) :
  byte con -> con < tl_max_connections_per_slot (get_tl (w_state v)) ->
  tl_callback (get_tl (w_state v)) = Some sl_arg ->
  connection_at (get_tl (w_state v)) slot_id con = Some c ->
  c_state c = T_STATE_ACTIVE -> c_chain c = NoChain ->
  Forall (λ d, sendable d /\ d <> []) (chunks ++ [last]) ->
  concat chunks ++ last = package n (concat apdus ++ rest) ->
  session_open (get_sl (w_state v)) n slot_id con resource_id arg ->
  Forall is_apdu apdus -> cut_apdu rest ->
  exists v', get_sl (w_state v') = get_sl (w_state v) /\
    w_log v' = w_log v ++
      [Called sl_arg T_CALLBACK_REASON_DATA (package n (concat apdus ++ rest)) slot_id con] /\
    en50221_tl_process_data e (en50221_sl_transport_callback e up uninit) slot_id
      (data_stream con chunks last) v =
    (resource_calls up arg slot_id n resource_id apdus;; mret 0) v'.
Proof.
  intros Hcon Hmax Hcb Hat Hst Hch Hd E Ho Ha Hrest.
  destruct (data_stream_delivered e (en50221_sl_transport_callback e up uninit) chunks last slot_id con c
    sl_arg v) as (v' & Htl & Hu & Hlog & Hr); try done.
  apply untouched_sl in Hu. rewrite E in Hlog, Hr. exists v'. split_and!; [done..|]. rewrite Hr.
  unfold mbind at 1 2, io_bind. by rewrite (callback_package_run _ _ _ _ _ _ _ _ v') by by rewrite ?Hu.
Qed.

(** Data sent on a session is queued as one TPDU. *)
Lemma send_vector_run n s vector c hndl num (w : world S) :
  connection_up (get_tl (w_state w)) (ss_slot_id s) (ss_connection_id s) c hndl num ->
  zlen (concat vector) < 65531 ->
  exists w', send_vector e n s vector w = Ok (0, w') /\
    quiet (ss_slot_id s) (ss_connection_id s) (set_send_queue (c_send_queue c ++
      [tpdu T_DATA_LAST (ss_connection_id s) (package n (concat vector))]) c) w w'.
Proof.
  intros [Hs Hc Hh (timeout & delay & Hp) Hcat Hst] Hl. unfold send_vector. cbv zeta.
  set (v := _ :: vector).
  assert (Ev : concat v = package n (concat vector)) by reflexivity.
  assert (El : zlen (package n (concat vector)) = 4 + zlen (concat vector))
    by (unfold package, number_bytes; cbn [app length]; lia).
  destruct (asn_1_encode_form (zlen (package n (concat vector)) + 1) []) as (lf & Hlf & _); [lia|].
  destruct (send_datav_run e Hmalloc (ss_slot_id s) (ss_connection_id s) c v lf hndl num timeout delay w)
    as (w' & Hr & Hq); try done; [rewrite Ev; lia|].
  exists w'. rewrite (io_bind_run _ _ _ _ _ Hr). split; [done|].
  unfold tpdu, length_field. rewrite Hlf. by rewrite Ev in Hq.
Qed.

Lemma active_run n k s (w : world S) :
  session_at (get_sl (w_state w)) n = Some s -> ss_state s = S_STATE_ACTIVE ->
  n < sl_max_sessions (get_sl (w_state w)) -> active n k w = k s w.
Proof.
  intros Hat Hst Hn. unfold active. rewrite (io_bind_run _ _ _ _ _ (sl_of_run w)).
  rewrite (proj2 (Z.leb_gt _ _)) by done. rewrite (io_bind_run _ _ _ _ _ (get_session_run _ _ _ Hat)).
  by rewrite Hst.
Qed.

Lemma sl_send_run n slot_id con resource_id cb data c hndl num (w : world S) :
  session_at (get_sl (w_state w)) n = Some (Session S_STATE_ACTIVE resource_id slot_id con cb) ->
  n < sl_max_sessions (get_sl (w_state w)) ->
  connection_up (get_tl (w_state w)) slot_id con c hndl num -> zlen data < 65531 ->
  exists w', en50221_sl_send_data e n data w = Ok (0, w') /\
    quiet slot_id con (set_send_queue (c_send_queue c ++ [tpdu T_DATA_LAST con (package n data)]) c) w w'.
Proof.
  intros Hat Hn Hup Hl. unfold en50221_sl_send_data. rewrite (active_run _ _ _ _ Hat) by done.
  pose proof (send_vector_run n (Session S_STATE_ACTIVE resource_id slot_id con cb) [data] c hndl num w Hup) as Hr.
  cbn [concat] in Hr. rewrite app_nil_r in Hr. by apply Hr.
Qed.

Lemma sl_sendv_run n slot_id con resource_id cb vector c hndl num (w : world S) :
  session_at (get_sl (w_state w)) n = Some (Session S_STATE_ACTIVE resource_id slot_id con cb) ->
  n < sl_max_sessions (get_sl (w_state w)) -> zlen vector <= 9 ->
  connection_up (get_tl (w_state w)) slot_id con c hndl num -> zlen (concat vector) < 65531 ->
  exists w', en50221_sl_send_datav e n vector w = Ok (0, w') /\
    quiet slot_id con
      (set_send_queue (c_send_queue c ++ [tpdu T_DATA_LAST con (package n (concat vector))]) c) w w'.
Proof.
  intros Hat Hn Hv Hup Hl. unfold en50221_sl_send_datav. rewrite (active_run _ _ _ _ Hat) by done.
  rewrite (proj2 (Z.ltb_ge _ _)) by done.
  by apply (send_vector_run n (Session S_STATE_ACTIVE resource_id slot_id con cb) vector c hndl num w).
Qed.
End Packages.

Lemma package_bytes n payload : 0 <= n < 65536 -> Forall byte payload -> Forall byte (package n payload).
Proof.
  intros Hn Hp. unfold package, number_bytes. cbn [app].
  repeat (apply Forall_cons_2; [first [apply byte_u8|done]|]). done.
Qed.

(** Nothing at all is before an APDU. *)
Lemma cut_nil : cut_apdu [].
Proof.
  exists [0x9F; 0x80; 0x30; 0]. split; [done|]. exists [0x9F; 0x80; 0x30], [0], [].
  split_and!; [done..|apply (form_short 0 []); lia|solve_bytes].
Qed.

(** A receiver of a TPDU with the package: the APDU is handed to the resource. *)
Definition received {S} `{HT : HasTransport S} `{HS : HasSessions S} e up uninit (con n : Z) (apdu : list Z) :
    Prop :=
  forall sl_arg slot_id' resource_id' arg c' (v : world S),
    con < tl_max_connections_per_slot (get_tl (w_state v)) ->
    tl_callback (get_tl (w_state v)) = Some sl_arg ->
    connection_at (get_tl (w_state v)) slot_id' con = Some c' ->
    c_state c' = T_STATE_ACTIVE -> c_chain c' = NoChain ->
    session_open (get_sl (w_state v)) n slot_id' con resource_id' arg ->
    exists v', w_log v' = w_log v ++
        [Called sl_arg T_CALLBACK_REASON_DATA (package n apdu) slot_id' con] /\
      en50221_tl_process_data e (en50221_sl_transport_callback e up uninit) slot_id'
        (tpdu T_DATA_LAST con (package n apdu)) v =
      (resource_calls up arg slot_id' n resource_id' [apdu];; mret 0) v'.

(** The queued package of an APDU is written by the next poll, and a receiver hands on the APDU. *)
Lemma queued_package_exchanged {S} `{HT : HasTransport S} `{!TransportLaws S} `{HS : HasSessions S}
    `{!SessionLaws S} e up uninit n slot_id con apdu c hndl num (w w1 : world S) :
  (forall k, e_malloc e k = true) -> (forall k, 0 <= e_write e k) -> byte con -> 0 <= n < 65536 ->
  connection_up (get_tl (w_state w)) slot_id con c hndl num -> connection_ok c ->
  c_send_queue c = [] -> (c_tx_time c).1 = 0 -> is_apdu apdu -> zlen apdu < 65527 ->
  quiet slot_id con (set_send_queue (c_send_queue c ++ [tpdu T_DATA_LAST con (package n apdu)]) c) w w1 ->
  exists w2, w_log w1 = w_log w /\ poll_send e slot_id con w1 = Ok (0, w2) /\
    w_log w2 = w_log w ++ [Written hndl (num :: con :: tpdu T_DATA_LAST con (package n apdu))] /\
    received e up uninit con n apdu.
Proof.
  intros Hm Hw Hcon Hn Hup Hok Hq Htx Ha Hl (Ho1 & Hl1 & _). destruct (is_apdu_length apdu Ha) as [_ Hb].
  assert (El : zlen (package n apdu) = 4 + zlen apdu) by (unfold package, number_bytes; cbn [app length]; lia).
  rewrite Hq in Ho1. cbn [app] in Ho1. destruct Hup as [Hs Hc Hh (timeout & delay & Hp) Hcat Hst].
  destruct (poll_send_run e Hm slot_id con _ hndl num timeout delay (tpdu T_DATA_LAST con (package n apdu)) [] w1
    (oc_at _ _ _ _ _ Ho1)) as (w2 & t & Hr2 & Hl2 & _);
    cbn [set_send_queue c_state c_chain c_send_queue c_tx_time];
    try done; [by rewrite (oc_params _ _ _ _ _ Ho1)|by rewrite Hst|by rewrite Hst|apply chain_ok_allocated, Hok| |].
  { unfold tpdu, length_field. destruct (asn_1_encode_form (zlen (package n apdu) + 1) []) as (lf & -> & _ & _ & Hlf);
      [lia|]. cbn [default from_option id length]. rewrite length_app. cbn [length]. lia. }
  exists w2. split_and!; [done..|congruence|].
  intros sl_arg slot_id' resource_id' arg c' v Hcm Hcb Hat' Hst' Hch Hopen.
  destruct (package_stream_run e up uninit Hm sl_arg [] (package n apdu) n slot_id' con resource_id' arg c'
    [apdu] [] v) as (v' & _ & Hlog & Hrun); try done.
  - apply Forall_cons_2; [|constructor]. split; [|done]. split; [by apply package_bytes|lia].
  - cbn [concat app]. by rewrite !app_nil_r.
  - by apply Forall_cons_2.
  - apply cut_nil.
  - cbn [concat] in *. rewrite !app_nil_r in Hlog. by exists v'.
Qed.

(** ** Properties of packages *)

(** A package of an open session, however the transport layer cuts it into TPDUs, hands each of its
    APDUs whole and in order to the callback of the resource, and nothing of an APDU that breaks off at
    the end. *)
Theorem session_apdus_delivered {S} `{HT : HasTransport S} `{!TransportLaws S} `{HS : HasSessions S}
    `{!SessionLaws S} e up uninit sl_arg chunks last n slot_id con resource_id arg c apdus rest
    (v : world S) :
  (forall k, e_malloc e k = true) -> byte con ->
  con < tl_max_connections_per_slot (get_tl (w_state v)) ->
  tl_callback (get_tl (w_state v)) = Some sl_arg ->
  connection_at (get_tl (w_state v)) slot_id con = Some c ->
  c_state c = T_STATE_ACTIVE -> c_chain c = NoChain ->
  Forall (λ d, sendable d /\ d <> []) (chunks ++ [last]) ->
  concat chunks ++ last = package n (concat apdus ++ rest) ->
  session_open (get_sl (w_state v)) n slot_id con resource_id arg ->
  Forall is_apdu apdus -> cut_apdu rest ->
  exists v', get_sl (w_state v') = get_sl (w_state v) /\
    w_log v' = w_log v ++
      [Called sl_arg T_CALLBACK_REASON_DATA (package n (concat apdus ++ rest)) slot_id con] /\
    en50221_tl_process_data e (en50221_sl_transport_callback e up uninit) slot_id
      (data_stream con chunks last) v =
    (resource_calls up arg slot_id n resource_id apdus;; mret 0) v'.
Proof. intros Hm. by apply package_stream_run. Qed.

(** C12: An APDU sent on an active session is queued on the connection of the session; the next poll writes
    it to the device as one TPDU, from which a receiver with that session open hands exactly the APDU to
    the callback of the resource. *)
Theorem session_data_roundtrip {S} `{HT : HasTransport S} `{!TransportLaws S} `{HS : HasSessions S}
    `{!SessionLaws S} e up uninit n slot_id con resource_id cb apdu c hndl num (w : world S) :
  (forall k, e_malloc e k = true) -> (forall k, 0 <= e_write e k) -> byte con -> 0 <= n < 65536 ->
  session_at (get_sl (w_state w)) n = Some (Session S_STATE_ACTIVE resource_id slot_id con cb) ->
  n < sl_max_sessions (get_sl (w_state w)) ->
  connection_up (get_tl (w_state w)) slot_id con c hndl num -> connection_ok c ->
  c_send_queue c = [] -> (c_tx_time c).1 = 0 -> is_apdu apdu -> zlen apdu < 65527 ->
  exists w1 w2, en50221_sl_send_data e n apdu w = Ok (0, w1) /\ w_log w1 = w_log w /\
    poll_send e slot_id con w1 = Ok (0, w2) /\
    w_log w2 = w_log w ++ [Written hndl (num :: con :: tpdu T_DATA_LAST con (package n apdu))] /\
    received e up uninit con n apdu.
Proof.
  intros Hm Hw Hcon Hn Hat Hmax Hup Hok Hq Htx Ha Hl.
  destruct (sl_send_run e Hm n slot_id con resource_id cb apdu c hndl num w) as (w1 & Hr1 & Hq1);
    try done; [lia|].
  destruct (queued_package_exchanged e up uninit n slot_id con apdu c hndl num w w1)
    as (w2 & Hl1 & Hr2 & Hl2 & Hrcv); try done. by exists w1, w2.
Qed.

(** ** Requests for a session *)

(** A layer above that answers, and does nothing else. *)
Definition answers {S} (lookup : Z -> Z -> Z -> Z * option Z * option Z)
    (consent : Z -> Z -> Z -> Z -> Z -> Z) : upper_layer S :=
  Upper S (λ arg slot_id id, mret (lookup arg slot_id id))
    (λ arg reason slot_id n id, mret (consent arg reason slot_id n id)) (λ _ _ _ _ _, mret 0).

(** What the module is told, and what the layer above is told, about a request for a resource. *)
Record open_result := OpenResult {
  or_status : Z;
  or_number : Z;
  or_resource : Z;
  or_callback : option Z;
}.

Section Opening.
Context (lookup : Z -> Z -> Z -> Z * option Z * option Z) (consent : Z -> Z -> Z -> Z -> Z -> Z).
Context (uninit : Z).

(** The first idle session but session 0. *)
Definition free_session (sl : session_layer) : Z := find_idle_session (drop 1 (sl_sessions sl)) 1.

Definition open_result_of (sl : session_layer) (slot_id requested : Z) : open_result :=
  match sl_lookup sl with
  | None => OpenResult S_STATUS_CLOSE_NO_RES (-1) uninit None
  | Some arg =>
      let '(r, cb, id) := lookup arg slot_id requested in
      let id := default uninit id in
      if negb (r =? 0) then OpenResult (lookup_status r) (-1) id cb
      else if free_session sl =? -1 then OpenResult S_STATUS_CLOSE_NO_RES (-1) id cb
      else
        let n := free_session sl in
        match sl_session sl with
        | None => OpenResult S_STATUS_CLOSE_RES_UNAVAILABLE n id cb
        | Some arg =>
            OpenResult (if consent arg S_SCALLBACK_REASON_CAMCONNECTING slot_id n id =? 0
                        then S_STATUS_OPEN else S_STATUS_CLOSE_RES_BUSY) n id cb
        end
  end.

(** The sessions afterwards: the session is active when the request was granted, else idle. *)
Definition open_sessions_of (sl : session_layer) (slot_id connection_id : Z) (r : open_result) :
    list session :=
  if or_number r =? -1 then sl_sessions sl
  else
    <[Z.to_nat (or_number r) :=
      Session (if or_status r =? S_STATUS_OPEN then S_STATE_ACTIVE else S_STATE_IDLE)
        (or_resource r) slot_id connection_id (or_callback r)]> (sl_sessions sl).

Definition open_calls_of (sl : session_layer) (slot_id : Z) (r : open_result) : list event :=
  match sl_session sl with
  | Some arg =>
      if or_number r =? -1 then []
      else
        SessionCalled arg S_SCALLBACK_REASON_CAMCONNECTING slot_id (or_number r) (or_resource r) ::
        (if or_status r =? S_STATUS_OPEN then
           [SessionCalled arg S_SCALLBACK_REASON_CAMCONNECTED slot_id (or_number r) (or_resource r)]
         else [])
  | None => []
  end.

(** The response. *)
Definition open_response (r : open_result) : list Z :=
  [ST_OPEN_SESSION_RES; 7; u8 (or_status r)] ++ id_bytes (or_resource r) ++ number_bytes (or_number r).
End Opening.

Section OpenRuns.
Context {S : Type} `{HT : HasTransport S} `{!TransportLaws S} `{HS : HasSessions S} `{!SessionLaws S}.
Context (e : env) (lookup : Z -> Z -> Z -> Z * option Z * option Z).
Context (consent : Z -> Z -> Z -> Z -> Z -> Z) (uninit : Z).
Hypothesis Hmalloc : forall k, e_malloc e k = true.

(** The transport layer is as it was, the session layer has other sessions, and there were calls. *)
Record sessions_become (ss : list session) (calls : list event) (w w' : world S) : Prop := {
  sb_tl : get_tl (w_state w') = get_tl (w_state w);
  sb_sessions : sl_sessions (get_sl (w_state w')) = ss;
  sb_session : sl_session (get_sl (w_state w')) = sl_session (get_sl (w_state w));
  sb_max : sl_max_sessions (get_sl (w_state w')) = sl_max_sessions (get_sl (w_state w));
  sb_log : w_log w' = w_log w ++ calls;
}.

Lemma sessions_become_refl (w : world S) : sessions_become (sl_sessions (get_sl (w_state w))) [] w w.
Proof. split; [done..|]. by rewrite app_nil_r. Qed.

Lemma sessions_become_trans ss calls ss' calls' (w w' w'' : world S) :
  sessions_become ss calls w w' -> sessions_become ss' calls' w' w'' ->
  sessions_become ss' (calls ++ calls') w w''.
Proof. intros [] []. split; [congruence..|]. rewrite app_assoc. congruence. Qed.

Lemma find_idle_session_range ss i : 0 < i ->
  find_idle_session ss i = -1 \/ i <= find_idle_session ss i < i + zlen ss.
Proof.
  intros Hi. destruct (find_idle_session_spec ss i) as [|(k & s & -> & Hk & _)]; [by left|].
  right. apply lookup_lt_Some in Hk. lia.
Qed.

Lemma upd_session_become n f ss (w : world S) :
  session_at (get_sl (w_state w)) n = Some ss ->
  exists w', upd_session n f w = Ok (tt, w') /\
    sessions_become (<[Z.to_nat n := f ss]> (sl_sessions (get_sl (w_state w)))) [] w w'.
Proof.
  intros Hat. rewrite (upd_session_run n f ss w Hat). eexists. split; [done|].
  split; cbn [w_state w_log]; rewrite ?get_tl_put_sl, ?get_put_sl; [done..|]. by rewrite app_nil_r.
Qed.

Lemma alloc_new_session_run id slot_id connection_id cb max_sessions (w : world S) :
  sl_wf max_sessions (get_sl (w_state w)) ->
  let sl := get_sl (w_state w) in
  exists w', en50221_sl_alloc_new_session id slot_id connection_id cb w = Ok (free_session sl, w') /\
    sessions_become
      (if free_session sl =? -1 then sl_sessions sl
       else <[Z.to_nat (free_session sl) := Session S_STATE_IN_CREATION id slot_id connection_id cb]>
              (sl_sessions sl)) [] w w'.
Proof.
  intros [H1 H2 _]. cbv zeta. unfold en50221_sl_alloc_new_session, free_session.
  rewrite (io_bind_run _ _ _ _ _ (sl_of_run w)). rewrite H1, H2, Z.ltb_irrefl.
  rewrite take_ge by lia. set (n := find_idle_session _ 1).
  destruct (Z.eqb_spec n (-1)) as [->|Hne].
  - eexists. split; [done|]. split; cbn; rewrite ?get_tl_put_sl, ?get_put_sl; [done..|].
    by rewrite app_nil_r.
  - destruct (find_idle_session_range (drop 1 (sl_sessions (get_sl (w_state w)))) 1) as [|Hr]; [lia|done|].
    fold n in Hr. rewrite length_drop in Hr.
    destruct (lookup_z_is_Some (sl_sessions (get_sl (w_state w))) n) as [s Es]; [lia|].
    destruct (upd_session_become n (λ _, Session S_STATE_IN_CREATION id slot_id connection_id cb) s w Es)
      as (w' & Hu & Hb).
    exists w'. by rewrite (io_bind_run _ _ _ _ _ Hu).
Qed.
(** The call that asks whether a session may be opened. *)
Definition connecting_calls (sl : session_layer) (slot_id n id : Z) : list event :=
  match sl_session sl with
  | Some arg =>
      if n =? -1 then [] else [SessionCalled arg S_SCALLBACK_REASON_CAMCONNECTING slot_id n id]
  | None => []
  end.

(** What [open_session] makes of the status of the lookup. *)
Definition granted (sl : session_layer) (slot_id status id : Z) : Z * Z :=
  if status =? S_STATUS_OPEN then
    if free_session sl =? -1 then (-1, S_STATUS_CLOSE_NO_RES)
    else
      (free_session sl,
        match sl_session sl with
        | None => S_STATUS_CLOSE_RES_UNAVAILABLE
        | Some arg =>
            if consent arg S_SCALLBACK_REASON_CAMCONNECTING slot_id (free_session sl) id =? 0
            then S_STATUS_OPEN else S_STATUS_CLOSE_RES_BUSY
        end)
  else (-1, status).

Lemma free_session_range sl max_sessions :
  sl_wf max_sessions sl -> free_session sl = -1 \/ 1 <= free_session sl < max_sessions.
Proof.
  intros [H1 H2 _]. unfold free_session.
  destruct (find_idle_session_range (drop 1 (sl_sessions sl)) 1) as [H|H]; [lia|by left|right].
  rewrite length_drop in H. lia.
Qed.

Lemma open_session_run status cb id slot_id connection_id max_sessions (w : world S) :
  sl_wf max_sessions (get_sl (w_state w)) -> max_sessions <= 65536 ->
  let sl := get_sl (w_state w) in let r := granted sl slot_id status id in
  exists w', open_session (answers lookup consent) status cb id slot_id connection_id w = Ok (r, w') /\
    sessions_become
      (if r.1 =? -1 then sl_sessions sl
       else <[Z.to_nat r.1 := Session S_STATE_IN_CREATION id slot_id connection_id cb]> (sl_sessions sl))
      (connecting_calls sl slot_id r.1 id) w w'.
Proof.
  intros Hwf Hmax. cbv zeta. set (sl := get_sl (w_state w)). unfold open_session, granted.
  destruct (Z.eqb_spec status S_STATUS_OPEN) as [->|Hst].
  2: { exists w. split; [done|]. unfold connecting_calls. cbn [fst].
    destruct (sl_session sl); apply sessions_become_refl. }
  destruct (alloc_new_session_run id slot_id connection_id cb max_sessions w Hwf) as (w1 & Hr1 & Hb1).
  fold sl in Hr1, Hb1. rewrite (io_bind_run _ _ _ _ _ Hr1).
  destruct (Z.eqb_spec (free_session sl) (-1)) as [E|Hne]; cbn [fst].
  { exists w1. split; [done|]. change (-1 =? -1) with true. cbv iota. unfold connecting_calls.
    by destruct (sl_session sl). }
  rewrite (proj2 (Z.eqb_neq _ _) Hne). rewrite (io_bind_run _ _ _ _ _ (sl_of_run w1)).
  rewrite (sb_session _ _ _ _ Hb1). fold sl. unfold connecting_calls.
  rewrite (proj2 (Z.eqb_neq _ _) Hne). destruct (sl_session sl) as [arg|]; [|by exists w1].
  destruct (free_session_range sl max_sessions Hwf) as [|Hn]; [done|].
  rewrite u16_id by lia. eexists. split.
  - unfold mbind, io_bind, log_event. cbn [up_session answers mret io_ret].
    by destruct (consent _ _ _ _ _ =? 0).
  - destruct Hb1 as [? ? ? ? Hl]. split; cbn [w_state w_log]; [done..|]. by rewrite Hl, app_nil_r.
Qed.
Lemma open_finish_run n status s slot_id id (w : world S) :
  (n = -1 \/ 0 <= n < 65536 /\ session_at (get_sl (w_state w)) n = Some s) ->
  let sl := get_sl (w_state w) in
  exists w', open_finish (answers lookup consent) n status slot_id id w = Ok (tt, w') /\
    sessions_become
      (if n =? -1 then sl_sessions sl
       else <[Z.to_nat n := set_s_state (if status =? S_STATUS_OPEN then S_STATE_ACTIVE else S_STATE_IDLE) s]>
              (sl_sessions sl))
      (match sl_session sl with
       | Some arg =>
           if n =? -1 then []
           else if status =? S_STATUS_OPEN
                then [SessionCalled arg S_SCALLBACK_REASON_CAMCONNECTED slot_id n id] else []
       | None => []
       end) w w'.
Proof.
  intros Hn. cbv zeta. set (sl := get_sl (w_state w)). unfold open_finish.
  destruct (Z.eqb_spec n (-1)) as [->|Hne]; cbn [negb].
  { exists w. split; [done|]. destruct (sl_session sl); apply sessions_become_refl. }
  destruct Hn as [|[Hn Hat]]; [done|].
  destruct (upd_session_become n
    (set_s_state (if negb (status =? S_STATUS_OPEN) then S_STATE_IDLE else S_STATE_ACTIVE)) s w Hat)
    as (w1 & Hu & Hb). fold sl in Hb.
  rewrite (io_bind_run _ _ _ _ _ Hu). rewrite (io_bind_run (get_session n) _ w1
    (set_s_state (if negb (status =? S_STATUS_OPEN) then S_STATE_IDLE else S_STATE_ACTIVE) s) w1).
  2: { apply get_session_run. unfold session_at in *. rewrite (sb_sessions _ _ _ _ Hb).
    apply lookup_z_Some in Hat as [Hl _]. by rewrite lookup_z_insert, Z.eqb_refl. }
  destruct (status =? S_STATUS_OPEN); cbn [negb] in *.
  2: { exists w1. split; [done|]. by destruct (sl_session sl). }
  change (s_state_is _ S_STATE_ACTIVE) with true. cbv iota.
  rewrite (io_bind_run _ _ _ _ _ (sl_of_run w1)). rewrite (sb_session _ _ _ _ Hb). fold sl.
  destruct (sl_session sl) as [arg|]; [|by exists w1].
  eexists. split; [done|]. rewrite u16_id by lia.
  destruct Hb as [? ? ? ? Hl]. split; cbn [w_state w_log]; [done..|]. by rewrite Hl, app_nil_r.
Qed.

Lemma id_bytes_value id :
  0 <= id < 2 ^ 32 ->
  u32 (Z.lor (Z.lor (Z.lor (Z.shiftl (u8 (Z.shiftr id 24)) 24) (Z.shiftl (u8 (Z.shiftr id 16)) 16))
        (Z.shiftl (u8 (Z.shiftr id 8)) 8)) (u8 id)) = id.
Proof.
  intros Hid. change (2 ^ 32) with 4294967296 in Hid.
  assert (Hb : forall z, 0 <= u8 z < 256) by (intros; apply Z.mod_pos_bound; lia).
  pose proof (Hb id). pose proof (Hb (Z.shiftr id 8)). pose proof (Hb (Z.shiftr id 16)).
  rewrite Z.lor_comm. rewrite (Z.lor_comm _ (Z.shiftl (u8 (Z.shiftr id 8)) 8)), Z.lor_assoc.
  rewrite (Z.lor_comm (Z.shiftl (u8 (Z.shiftr id 24)) 24)), Z.lor_assoc.
  rewrite (lor_add (u8 id) _ 8) by (change (2 ^ 8) with 256; lia).
  rewrite (lor_add _ _ 16) by (change (2 ^ 8) with 256; change (2 ^ 16) with 65536; lia).
  rewrite (lor_add _ _ 24)
    by (change (2 ^ 8) with 256; change (2 ^ 16) with 65536; change (2 ^ 24) with 16777216; lia).
  unfold u8, u32. rewrite !Z.shiftr_div_pow2 by done.
  change (2 ^ 8) with 256; change (2 ^ 16) with 65536; change (2 ^ 24) with 16777216.
  change (2 ^ 32) with 4294967296. clear -Hid. Z.to_euclidean_division_equations. lia.
Qed.
Lemma open_lookup_run slot_id requested (w : world S) :
  let sl := get_sl (w_state w) in
  open_lookup (answers lookup consent) uninit slot_id requested w =
  Ok (match sl_lookup sl with
      | Some arg =>
          let '(r, cb, id) := lookup arg slot_id requested in (lookup_status r, cb, default uninit id)
      | None => (S_STATUS_CLOSE_NO_RES, None, uninit)
      end, w).
Proof.
  cbv zeta. unfold open_lookup. rewrite (io_bind_run _ _ _ _ _ (sl_of_run w)).
  destruct (sl_lookup _) as [arg|]; [|done]. cbn [up_lookup answers].
  unfold mbind, io_bind, mret, io_ret. by destruct (lookup arg slot_id requested) as [[? ?] ?].
Qed.

(** The steps of a request put together: [r] is its result. *)
Lemma open_steps_run status cb id slot_id con c hndl num max_sessions (w : world S) :
  sl_wf max_sessions (get_sl (w_state w)) -> max_sessions <= 65536 ->
  connection_up (get_tl (w_state w)) slot_id con c hndl num ->
  let sl := get_sl (w_state w) in
  let r := OpenResult (granted sl slot_id status id).2 (granted sl slot_id status id).1 id cb in
  exists w',
    ('(n, status) ← open_session (answers lookup consent) status cb id slot_id con;
     let hdr := [ST_OPEN_SESSION_RES; 7; u8 status] ++ id_bytes id ++ number_bytes n in
     r ← en50221_tl_send_data e slot_id con hdr;
     let status := if negb (r =? 0) then S_STATUS_CLOSE_NO_RES else status in
     open_finish (answers lookup consent) n status slot_id id) w = Ok (tt, w') /\
    only_connection slot_id con
      (set_send_queue (c_send_queue c ++ [tpdu T_DATA_LAST con (open_response r)]) c)
      (get_tl (w_state w)) (get_tl (w_state w')) /\
    sl_sessions (get_sl (w_state w')) = open_sessions_of sl slot_id con r /\
    w_log w' = w_log w ++ open_calls_of sl slot_id r.
Proof.
  intros Hwf Hmax Hup. cbv zeta. set (sl := get_sl (w_state w)).
  destruct (open_session_run status cb id slot_id con max_sessions w Hwf Hmax) as (w1 & Hr1 & Hb1).
  fold sl in Hr1, Hb1. rewrite (io_bind_run _ _ _ _ _ Hr1).
  assert (Hn : (granted sl slot_id status id).1 = -1 \/ 1 <= (granted sl slot_id status id).1 < max_sessions).
  { destruct (free_session_range sl max_sessions Hwf) as [Hf|Hf]; unfold granted;
      (destruct (status =? S_STATUS_OPEN); [|by left]); [rewrite Hf; by left|].
    rewrite (proj2 (Z.eqb_neq _ _)) by lia. by right. }
  destruct (granted sl slot_id status id) as [n st]. cbn [fst snd] in *. destruct Hup as [Hs Hc Hh (to & de & Hp) Hat Hst].
  set (response := [ST_OPEN_SESSION_RES; 7; u8 st] ++ id_bytes id ++ number_bytes n).
  destruct (asn_1_encode_form (zlen response + 1) []) as (lf & Hlf & _); [done|].
  destruct (send_data_run e Hmalloc slot_id con c response lf hndl num to de w1) as (w2 & Hr2 & Ho2 & Hl2 & Hu2);
    try (rewrite (sb_tl _ _ _ _ Hb1)); try done.
  apply untouched_sl in Hu2. rewrite (sb_tl _ _ _ _ Hb1) in Ho2.
  rewrite (io_bind_run _ _ _ _ _ Hr2). change (negb (0 =? 0)) with false. cbv iota.
  destruct (open_finish_run n st (Session S_STATE_IN_CREATION id slot_id con cb) slot_id id w2) as (w3 & Hr3 & Hb3).
  { destruct Hn as [->|Hn]; [by left|right]. split; [lia|]. rewrite Hu2. unfold session_at.
    rewrite (sb_sessions _ _ _ _ Hb1), (proj2 (Z.eqb_neq _ _)) by lia.
    destruct Hwf as [_ Hlen _]. fold sl in Hlen. by rewrite lookup_z_insert, Z.eqb_refl by lia. }
  rewrite Hu2, (sb_session _ _ _ _ Hb1), (sb_sessions _ _ _ _ Hb1) in Hb3. fold sl in Hb3.
  exists w3. split; [done|]. split; [|split].
  - rewrite (sb_tl _ _ _ _ Hb3). unfold tpdu, length_field, open_response. cbn [or_status or_resource or_number].
    fold response. by rewrite Hlf.
  - rewrite (sb_sessions _ _ _ _ Hb3). unfold open_sessions_of. cbn [or_number or_status or_resource or_callback].
    destruct (n =? -1); [done|]. by rewrite list_insert_insert_eq.
  - rewrite (sb_log _ _ _ _ Hb3), Hl2, (sb_log _ _ _ _ Hb1), <- app_assoc. f_equal.
    unfold connecting_calls, open_calls_of. cbn [or_number or_status or_resource].
    destruct (sl_session sl); [|done]. by destruct (n =? -1).
Qed.
End OpenRuns.

Lemma lookup_status_open r : (lookup_status r =? S_STATUS_OPEN) = (r =? 0).
Proof.
  unfold lookup_status, S_STATUS_OPEN. destruct (Z.eqb_spec r 0) as [->|Hr]; [done|].
  do 3 (case_if; [done|]). by apply Z.eqb_neq.
Qed.

(** A request of the module for a resource is answered with exactly one response, whatever the layer
    above says.  The status is that of the lookup if it refuses, "no resource" when there is no lookup or
    no free session, "unavailable" or "busy" without the consent of the layer above, and else "open"; the
    session with the number of the response is active exactly if it is open, no other session changes,
    and the layer above is asked first and told if the session is open. *)
Theorem open_request_answered {S} `{HT : HasTransport S} `{!TransportLaws S} `{HS : HasSessions S}
    `{!SessionLaws S} e lookup consent uninit requested slot_id con c hndl num max_sessions (w : world S) :
  (forall k, e_malloc e k = true) ->
  sl_wf max_sessions (get_sl (w_state w)) -> max_sessions <= 65536 -> 0 <= requested < 2 ^ 32 ->
  connection_up (get_tl (w_state w)) slot_id con c hndl num ->
  let sl := get_sl (w_state w) in
  let r := open_result_of lookup consent uninit sl slot_id requested in
  exists w', en50221_sl_handle_open_session_request e (answers lookup consent) uninit
      ([4] ++ id_bytes requested) slot_id con w = Ok (tt, w') /\
    only_connection slot_id con
      (set_send_queue (c_send_queue c ++ [tpdu T_DATA_LAST con (open_response r)]) c)
      (get_tl (w_state w)) (get_tl (w_state w')) /\
    sl_sessions (get_sl (w_state w')) = open_sessions_of sl slot_id con r /\
    w_log w' = w_log w ++ open_calls_of sl slot_id r.
Proof.
  intros Hm Hwf Hmax Hreq Hup. cbv zeta. set (sl := get_sl (w_state w)).
  unfold en50221_sl_handle_open_session_request.
  rewrite (proj2 (Z.ltb_ge _ _)) by (cbn [id_bytes app length]; lia). cbn [id_bytes app].
  rewrite (io_bind_run _ _ w 4 w) by done. change (negb (4 =? 4)) with false. cbv iota.
  do 4 (erewrite io_bind_run by done). cbv zeta. rewrite id_bytes_value by done.
  rewrite (io_bind_run _ _ _ _ _ (open_lookup_run lookup consent uninit slot_id requested w)). fold sl.
  unfold open_result_of. destruct (sl_lookup sl) as [arg|].
  - destruct (lookup arg slot_id requested) as [[r cb] id].
    destruct (open_steps_run e lookup consent Hm (lookup_status r) cb (default uninit id) slot_id con c
      hndl num max_sessions w Hwf Hmax Hup) as (w' & Hr & Ho & Hs & Hl). fold sl in Hr, Ho, Hs, Hl.
    exists w'. split; [exact Hr|]. unfold granted in Ho, Hs, Hl. rewrite lookup_status_open in Ho, Hs, Hl.
    destruct (r =? 0); cbn [negb]; [|done]. destruct (free_session sl =? -1); [done|].
    by destruct (sl_session sl).
  - destruct (open_steps_run e lookup consent Hm S_STATUS_CLOSE_NO_RES None uninit slot_id con c
      hndl num max_sessions w Hwf Hmax Hup) as (w' & Hr & Ho & Hs & Hl). fold sl in Hr, Ho, Hs, Hl.
    by exists w'.
Qed.

(** ** Requests and responses about a session *)

(** A session that a message from a connection of a slot may close. *)
Definition closable (s : session) (slot_id connection_id : Z) : bool :=
  (slot_id =? ss_slot_id s) && (connection_id =? ss_connection_id s) &&
  s_state_in (ss_state s) [S_STATE_ACTIVE; S_STATE_IN_DELETION].

(** The closed session, if the request is right. *)
Definition closed_by (sl : session_layer) (n slot_id connection_id : Z) : option session :=
  if sl_max_sessions sl <=? n then None
  else s ← session_at sl n; if closable s slot_id connection_id then Some s else None.

Lemma close_code s slot_id connection_id :
  (let code := 0 in
   let code := if negb (slot_id =? ss_slot_id s) then 0xF0 else code in
   let code := if negb (connection_id =? ss_connection_id s) then 0xF0 else code in
   if negb (s_state_in (ss_state s) [S_STATE_ACTIVE; S_STATE_IN_DELETION]) then 0xF0 else code) =
  if closable s slot_id connection_id then 0 else 0xF0.
Proof. cbv zeta. unfold closable. by destruct (_ =? _), (_ =? _), (s_state_in _ _). Qed.

Lemma number_at_run {S} h l pre post (w : world S) :
  number_at (pre ++ h :: l :: post) (zlen pre) w = Ok (u16 (Z.lor (Z.shiftl h 8) l), w).
Proof.
  unfold number_at, at_. rewrite !lookup_z_app_r by lia. rewrite Z.sub_diag.
  replace (zlen pre + 1 - zlen pre) with 1 by lia. done.
Qed.

Section Closing.
Context {S : Type} `{HT : HasTransport S} `{!TransportLaws S} `{HS : HasSessions S} `{!SessionLaws S}.
Context (e : env) (lookup : Z -> Z -> Z -> Z * option Z * option Z).
Context (consent : Z -> Z -> Z -> Z -> Z -> Z) (uninit : Z).
Hypothesis Hmalloc : forall k, e_malloc e k = true.

(** The session is closed, if it may be. *)
Lemma close_steps_run n slot_id con max_sessions (w : world S) :
  sl_wf max_sessions (get_sl (w_state w)) -> 0 <= n ->
  let sl := get_sl (w_state w) in
  exists w', (if sl_max_sessions sl <=? n then mret (0xF0, 0)
     else
       s ← get_session n;
       let code := 0 in
       let code := if negb (slot_id =? ss_slot_id s) then 0xF0 else code in
       let code := if negb (con =? ss_connection_id s) then 0xF0 else code in
       let code :=
         if negb (s_state_in (ss_state s) [S_STATE_ACTIVE; S_STATE_IN_DELETION]) then 0xF0
         else code in
       (if code =? 0 then upd_session n (set_s_state S_STATE_IDLE) else mret tt);;
       mret (code, ss_resource_id s)) w =
    Ok (match closed_by sl n slot_id con with
        | Some s => (0, ss_resource_id s)
        | None => (0xF0, if sl_max_sessions sl <=? n then 0
                         else default 0 (ss_resource_id <$> session_at sl n))
        end, w') /\
    sessions_become
      (match closed_by sl n slot_id con with
       | Some s => <[Z.to_nat n := set_s_state S_STATE_IDLE s]> (sl_sessions sl)
       | None => sl_sessions sl
       end) [] w w'.
Proof.
  intros Hwf Hn. cbv zeta. set (sl := get_sl (w_state w)). unfold closed_by.
  destruct Hwf as [H1 H2 _]. fold sl in H1, H2. destruct (Z.leb_spec (sl_max_sessions sl) n) as [Hge|Hlt].
  { exists w. split; [done|apply sessions_become_refl]. }
  destruct (lookup_z_is_Some (sl_sessions sl) n) as [s Es]; [lia|].
  change (session_at sl n = Some s) in Es. rewrite (io_bind_run _ _ _ _ _ (get_session_run n s w Es)).
  rewrite Es. cbn [mbind option_bind fmap option_fmap option_map default from_option id].
  pose proof (close_code s slot_id con) as Hcode. cbv zeta in Hcode. rewrite Hcode.
  destruct (closable s slot_id con).
  - change (0 =? 0) with true. cbv iota.
    destruct (upd_session_become n (set_s_state S_STATE_IDLE) s w Es) as (w1 & Hu & Hb).
    exists w1. by rewrite (io_bind_run _ _ _ _ _ Hu).
  - exists w. split; [done|apply sessions_become_refl].
Qed.
End Closing.

(** A request to close a session is answered with exactly one response, and the session is idle after
    it when it is one of the slot and connection that asked, active or being deleted; the layer above is
    then told.  Otherwise the response says so and nothing else happens. *)
Theorem close_request_answered {S} `{HT : HasTransport S} `{!TransportLaws S} `{HS : HasSessions S}
    `{!SessionLaws S} e lookup consent n slot_id con c hndl num max_sessions (w : world S) :
  (forall k, e_malloc e k = true) ->
  sl_wf max_sessions (get_sl (w_state w)) -> 0 <= n < 65536 ->
  connection_up (get_tl (w_state w)) slot_id con c hndl num ->
  let sl := get_sl (w_state w) in
  let closed := closed_by sl n slot_id con in
  exists w', en50221_sl_handle_close_session_request e (answers lookup consent)
      ([2] ++ number_bytes n) slot_id con w = Ok (tt, w') /\
    only_connection slot_id con
      (set_send_queue (c_send_queue c ++ [tpdu T_DATA_LAST con
        ([ST_CLOSE_SESSION_RES; 3; match closed with Some _ => 0 | None => 0xF0 end] ++ number_bytes n)]) c)
      (get_tl (w_state w)) (get_tl (w_state w')) /\
    sl_sessions (get_sl (w_state w')) =
      match closed with
      | Some s => <[Z.to_nat n := set_s_state S_STATE_IDLE s]> (sl_sessions sl)
      | None => sl_sessions sl
      end /\
    w_log w' = w_log w ++
      match sl_session sl, closed with
      | Some arg, Some s => [SessionCalled arg S_SCALLBACK_REASON_CLOSE slot_id n (ss_resource_id s)]
      | _, _ => []
      end.
Proof.
  intros Hm Hwf Hn [Hs Hc Hh (to & de & Hp) Hat Hst]. cbv zeta. set (sl := get_sl (w_state w)).
  unfold en50221_sl_handle_close_session_request.
  rewrite (proj2 (Z.ltb_ge _ _)) by (cbn [number_bytes app length]; lia).
  rewrite (io_bind_run _ _ w 2 w) by done. change (negb (2 =? 2)) with false. cbv iota.
  rewrite (io_bind_run (number_at _ 1) _ w n w).
  2: { rewrite <- (number_bytes_value n) at 2 by done. apply (number_at_run _ _ [2] [] w). } rewrite (io_bind_run _ _ _ _ _ (sl_of_run w)). fold sl.
  destruct (close_steps_run n slot_id con max_sessions w Hwf) as (w1 & Hr1 & Hb1); [lia|].
  fold sl in Hr1, Hb1. rewrite (io_bind_run _ _ _ _ _ Hr1).
  set (code := match closed_by sl n slot_id con with Some _ => 0 | None => 0xF0 end).
  set (response := [ST_CLOSE_SESSION_RES; 3; code] ++ number_bytes n).
  destruct (asn_1_encode_form (zlen response + 1) []) as (lf & Hlf & _); [done|].
  destruct (send_data_run e Hm slot_id con c response lf hndl num to de w1) as (w2 & Hr2 & Ho2 & Hl2 & Hu2);
    try (rewrite (sb_tl _ _ _ _ Hb1)); try done.
  apply untouched_sl in Hu2. rewrite (sb_tl _ _ _ _ Hb1) in Ho2. rewrite (sb_log _ _ _ _ Hb1), app_nil_r in Hl2.
  assert (Ht : tpdu T_DATA_LAST con response = T_DATA_LAST :: lf ++ con :: response)
    by (unfold tpdu, length_field; by rewrite Hlf).
  rewrite Ht. unfold response, code in *. pose proof (sb_session _ _ _ _ Hb1) as Hse.
  pose proof (sb_sessions _ _ _ _ Hb1) as Hss. fold sl in Hse. rewrite <- Hu2 in Hse, Hss.
  destruct (closed_by sl n slot_id con) as [s|]; rewrite (io_bind_run _ _ _ _ _ Hr2).
  - change (0 =? 0) with true. cbv iota. rewrite (io_bind_run _ _ _ _ _ (sl_of_run w2)). rewrite Hse.
    destruct (sl_session sl) as [arg|].
    + eexists. split; [done|]. rewrite u16_id by done. cbn [w_state w_log]. by rewrite Hl2.
    + exists w2. by rewrite Hl2, app_nil_r.
  - exists w2. rewrite Hl2. destruct (sl_session sl); by rewrite app_nil_r.
Qed.

(** The responses of a module to the requests of the host are not understood.  The number of a session
    that the host creates is looked for one byte too early, so that the response is dropped when the
    number found there is out of range; and a response to a close request is dropped in the form that
    this layer itself sends, so that a session which the host closes stays in deletion. *)
Theorem host_responses_dropped {S} `{HT : HasTransport S} `{HS : HasSessions S} e up uninit sl_arg
    status id n slot_id con (w : world S) :
  0 <= id < 2 ^ 32 -> 0 <= n < 65536 ->
  sl_max_sessions (get_sl (w_state w)) <= id mod 256 * 256 + n / 256 ->
  en50221_sl_transport_callback e up uninit sl_arg T_CALLBACK_REASON_DATA
    ([ST_CREATE_SESSION_RES; 7; status] ++ id_bytes id ++ number_bytes n) slot_id con w = Ok (tt, w) /\
  en50221_sl_transport_callback e up uninit sl_arg T_CALLBACK_REASON_DATA
    ([ST_CLOSE_SESSION_RES; 3; status] ++ number_bytes n) slot_id con w = Ok (tt, w).
Proof.
  intros Hid Hn Hmax. split; [|done].
  transitivity (en50221_sl_handle_create_session_response up
    ([7; status] ++ id_bytes id ++ number_bytes n) slot_id con w); [done|].
  unfold en50221_sl_handle_create_session_response.
  rewrite (proj2 (Z.ltb_ge _ _)) by (cbn [id_bytes number_bytes app length]; lia).
  rewrite (io_bind_run _ _ w 7 w) by done. change (negb (7 =? 7)) with false. cbv iota.
  rewrite (io_bind_run (number_at _ 5) _ w (u16 (Z.lor (Z.shiftl (u8 id) 8) (u8 (Z.shiftr n 8)))) w) by done.
  unfold expected.
  rewrite (io_bind_run _ _ _ _ _ (sl_of_run w)).
  rewrite be16 by (unfold byte, u8; apply Z.mod_pos_bound; lia).
  replace (u8 (Z.shiftr n 8)) with (n / 256).
  2: { unfold u8. rewrite Z.shiftr_div_pow2 by done. change (2 ^ 8) with 256.
    rewrite Z.mod_small; Z.to_euclidean_division_equations; lia. }
  rewrite u16_id by (unfold u8; change (2 ^ 8) with 256; Z.to_euclidean_division_equations; lia).
  by rewrite (proj2 (Z.leb_le _ _)).
Qed.

(** *** Witnesses *)

Definition open_sessions : session_layer :=
  SessionLayer 3 (Some 50) (Some 51) 0
    [fresh_session 0; Session S_STATE_ACTIVE 65601 0 1 (Some 60); fresh_session 0].
Definition both_ready : world (transport_layer * session_layer) :=
  World (ready_layer [], open_sessions) 0 [].
Definition some_answers : upper_layer (transport_layer * session_layer) :=
  answers (λ _ _ id, (0, Some 60, Some id)) (λ _ _ _ _ _, 0).

Lemma both_ready_up : connection_up (ready_layer []) 0 1 (ready_connection []) 5 3.
Proof. split; [done..| |done|done]. by exists 1000, 100. Qed.

Lemma open_sessions_open : session_open open_sessions 1 0 1 65601 60.
Proof. by split. Qed.

Lemma open_sessions_wf : sl_wf 3 open_sessions.
Proof. split; [done..|]. repeat (apply Forall_cons_2; [by split|]). constructor. Qed.

Lemma short_apdu t b : byte t -> byte b -> is_apdu [0x9F; 0x80; t; 1; b].
Proof.
  intros Ht Hb. exists [0x9F; 0x80; t], [1], [b]. split_and!; [done..|apply (form_short 1 [b]); lia|].
  repeat (apply Forall_cons_2; [first [done|unfold byte; lia]|]). constructor.
Qed.

Lemma session_apdus_delivered_witness :
  exists v', get_sl (w_state v') = open_sessions /\
    w_log v' = [Called 42 T_CALLBACK_REASON_DATA
      (package 1 (concat [[0x9F; 0x80; 0x10; 1; 7]; [0x9F; 0x80; 0x11; 1; 8]] ++ [0x9F])) 0 1] /\
    en50221_tl_process_data demo_env (en50221_sl_transport_callback demo_env some_answers 0) 0
      (data_stream 1 [[0x90; 2; 0; 1; 0x9F; 0x80; 0x10]] [1; 7; 0x9F; 0x80; 0x11; 1; 8; 0x9F]) both_ready =
    (resource_calls some_answers 60 0 1 65601 [[0x9F; 0x80; 0x10; 1; 7]; [0x9F; 0x80; 0x11; 1; 8]];;
     mret 0) v'.
Proof.
  refine (session_apdus_delivered demo_env some_answers 0 42 [[0x90; 2; 0; 1; 0x9F; 0x80; 0x10]]
    [1; 7; 0x9F; 0x80; 0x11; 1; 8; 0x9F] 1 0 1 65601 60 (ready_connection [])
    [[0x9F; 0x80; 0x10; 1; 7]; [0x9F; 0x80; 0x11; 1; 8]] [0x9F] both_ready _ _ _ _ _ _ _ _ _ _ _ _);
    try done.
  - repeat (apply Forall_cons_2; [by split; [split; [solve_bytes|]|]|]). constructor.
  - repeat (apply Forall_cons_2; [by apply short_apdu|]). constructor.
  - exists [0x80; 0x10; 1; 7]. split; [done|by apply short_apdu].
Defined.

Lemma session_data_roundtrip_witness :
  exists w1 w2, en50221_sl_send_data demo_env 1 [0x9F; 0x80; 0x10; 1; 7] both_ready = Ok (0, w1) /\
    w_log w1 = [] /\ poll_send demo_env 0 1 w1 = Ok (0, w2) /\
    w_log w2 = [Written 5 (3 :: 1 :: tpdu T_DATA_LAST 1 (package 1 [0x9F; 0x80; 0x10; 1; 7]))] /\
    received demo_env some_answers 0 1 1 [0x9F; 0x80; 0x10; 1; 7].
Proof.
  refine (session_data_roundtrip demo_env some_answers 0 1 0 1 65601 (Some 60) [0x9F; 0x80; 0x10; 1; 7]
    (ready_connection []) 5 3 both_ready _ _ _ _ _ _ _ _ _ _ _ _); try done.
  - apply both_ready_up.
  - apply ready_ok.
  - by apply short_apdu.
Defined.

Lemma open_request_answered_witness :
  let r := OpenResult 0 2 65601 (Some 60) in
  exists w', en50221_sl_handle_open_session_request demo_env some_answers 0 [4; 0; 1; 0; 0x41] 0 1 both_ready =
      Ok (tt, w') /\
    only_connection 0 1 (set_send_queue [tpdu T_DATA_LAST 1 (open_response r)] (ready_connection []))
      (ready_layer []) (get_tl (w_state w')) /\
    sl_sessions (get_sl (w_state w')) =
      [fresh_session 0; Session S_STATE_ACTIVE 65601 0 1 (Some 60); Session S_STATE_ACTIVE 65601 0 1 (Some 60)] /\
    w_log w' = [SessionCalled 51 S_SCALLBACK_REASON_CAMCONNECTING 0 2 65601;
                SessionCalled 51 S_SCALLBACK_REASON_CAMCONNECTED 0 2 65601].
Proof.
  refine (open_request_answered demo_env (λ _ _ id, (0, Some 60, Some id)) (λ _ _ _ _ _, 0) 0 65601 0 1
    (ready_connection []) 5 3 3 both_ready _ _ _ _ _); [done|apply open_sessions_wf|lia|lia|apply both_ready_up].
Defined.

Lemma close_request_answered_witness :
  exists w', en50221_sl_handle_close_session_request demo_env some_answers [2; 0; 1] 0 1 both_ready =
      Ok (tt, w') /\
    only_connection 0 1 (set_send_queue [tpdu T_DATA_LAST 1 [ST_CLOSE_SESSION_RES; 3; 0; 0; 1]] (ready_connection []))
      (ready_layer []) (get_tl (w_state w')) /\
    sl_sessions (get_sl (w_state w')) =
      [fresh_session 0; Session S_STATE_IDLE 65601 0 1 (Some 60); fresh_session 0] /\
    w_log w' = [SessionCalled 51 S_SCALLBACK_REASON_CLOSE 0 1 65601].
Proof.
  refine (close_request_answered demo_env (λ _ _ id, (0, Some 60, Some id)) (λ _ _ _ _ _, 0) 1 0 1
    (ready_connection []) 5 3 3 both_ready _ _ _ _); [done|apply open_sessions_wf|lia|apply both_ready_up].
Defined.

Lemma host_responses_dropped_witness :
  en50221_sl_transport_callback demo_env some_answers 0 42 T_CALLBACK_REASON_DATA
    [ST_CREATE_SESSION_RES; 7; 0; 0; 1; 0; 0x41; 0; 1] 0 1 both_ready = Ok (tt, both_ready) /\
  en50221_sl_transport_callback demo_env some_answers 0 42 T_CALLBACK_REASON_DATA
    [ST_CLOSE_SESSION_RES; 3; 0; 0; 1] 0 1 both_ready = Ok (tt, both_ready).
Proof.
  apply (host_responses_dropped demo_env some_answers 0 42 0 65601 1 0 1 both_ready); [lia|lia|done].
Defined.

(** ** Other behaviours *)

(** A status of the lookup that is a multiple of 256 refuses the session, but tells the module that
    session 65535 is open. *)
Example status_truncated :
  match en50221_sl_handle_open_session_request demo_env
    (answers (S := transport_layer * session_layer) (λ _ _ id, (256, None, Some id)) (λ _ _ _ _ _, 0)) 0
    [4; 0; 1; 0; 0x41] 0 1 both_ready with
  | Ok (_, w) => sl_sessions (get_sl (w_state w)) = sl_sessions open_sessions /\
      c_send_queue <$> connection_at (get_tl (w_state w)) 0 1 =
        Some [tpdu T_DATA_LAST 1 [ST_OPEN_SESSION_RES; 7; 0; 0; 1; 0; 0x41; 0xFF; 0xFF]]
  | Err _ => False
  end.
Proof. vm_compute. split; reflexivity. Qed.

(** When connection 1 of slot 0 closes, the sessions of connection 1 of slot 9 are closed too. *)
Example close_crosses_slots :
  let sl := SessionLayer 2 None (Some 51) 0 [fresh_session 0; Session S_STATE_ACTIVE 65601 9 1 (Some 60)] in
  match en50221_sl_transport_callback demo_env some_answers 0 42 T_CALLBACK_REASON_CONNECTIONCLOSE [] 0 1
    (World (ready_layer [], sl) 0 []) with
  | Ok (_, w) => (ss_state <$> sl_sessions (get_sl (w_state w))) = [S_STATE_IDLE; S_STATE_IDLE] /\
      w_log w = [SessionCalled 51 S_SCALLBACK_REASON_CLOSE 9 1 65601]
  | Err _ => False
  end.
Proof. vm_compute. split; reflexivity. Qed.
