(* ===== verification/En50221App.v ===== *)
(** * en50221_app_*.c: the resources of the common interface

    The resources that keep no state but their callbacks: application information, resource manager,
    conditional access, authentication, host control (dvb), date and time, program guide, teletext and
    smart card.  Each has functions that send APDUs of the host and a function that is given the APDUs
    of the module.  The callbacks and the send functions are parameters; the mutexes are not modelled. *)

From S2P Require Export En50221Transport.

(** ** en50221_app_utils.c *)

Definition MKRID (class type version : Z) : Z :=
  Z.lor (Z.lor (Z.shiftl (Z.land class 0xffff) 16) (Z.shiftl (Z.land type 0x3ff) 6))
    (Z.land version 0x3f).

Record public_resource_id := PublicResourceId {
  resource_class : Z;
  resource_type : Z;
  resource_version : Z;
}.

Definition en50221_app_decode_public_resource_id (resource_id : Z) : option public_resource_id :=
  if Z.land resource_id 0xc0000000 =? 0xc0000000 then None
  else
    Some (PublicResourceId (Z.land (Z.shiftr resource_id 16) 0xffff)
            (Z.land (Z.shiftr resource_id 6) 0x3ff) (Z.land resource_id 0x3f)).

Definition en50221_app_encode_public_resource_id (idf : public_resource_id) : Z :=
  u32 (MKRID (resource_class idf) (resource_type idf) (resource_version idf)).

(** ** Tags and callbacks *)

Definition TAG_PROFILE_ENQUIRY : Z := 0x9f8010.
Definition TAG_PROFILE : Z := 0x9f8011.
Definition TAG_PROFILE_CHANGE : Z := 0x9f8012.
Definition TAG_APP_INFO_ENQUIRY : Z := 0x9f8020.
Definition TAG_APP_INFO : Z := 0x9f8021.
Definition TAG_ENTER_MENU : Z := 0x9f8022.
Definition TAG_CA_INFO_ENQUIRY : Z := 0x9f8030.
Definition TAG_CA_INFO : Z := 0x9f8031.
Definition TAG_CA_PMT : Z := 0x9f8032.
Definition TAG_CA_PMT_REPLY : Z := 0x9f8033.
Definition TAG_TUNE : Z := 0x9f8400.
Definition TAG_REPLACE : Z := 0x9f8401.
Definition TAG_CLEAR_REPLACE : Z := 0x9f8402.
Definition TAG_ASK_RELEASE : Z := 0x9f8403.
Definition TAG_DATE_TIME_ENQUIRY : Z := 0x9f8440.
Definition TAG_AUTH_REQ : Z := 0x9f8200.
Definition TAG_AUTH_RESP : Z := 0x9f8201.
Definition TAG_TELETEXT_EBU : Z := 0x9f9000.
Definition TAG_SMARTCARD_COMMAND : Z := 0x9f8e00.
Definition TAG_SMARTCARD_REPLY : Z := 0x9f8e01.
Definition TAG_SMARTCARD_SEND : Z := 0x9f8e02.
Definition TAG_SMARTCARD_RCV : Z := 0x9f8e03.
Definition TAG_EPG_ENQUIRY : Z := 0x9f8f00.
Definition TAG_EPG_REPLY : Z := 0x9f8f01.
Definition SMARTCARD_REPLY_ID_ANSW_TO_RESET : Z := 0x04.

(** What a callback is called with, after its argument, the slot and the session. *)
Inductive app_call :=
  | AiInfo (application_type application_manufacturer manufacturer_code : Z) (menu_string : list Z)
  | RmEnquiry
  | RmReply (resource_ids : list Z)
  | RmChanged
  | CaInfo (ca_ids : list Z)
  | CaPmtReply (reply : list Z)
  | AuthRequest (auth_protocol_id : Z) (auth_data : list Z)
  | DvbTune (network_id original_network_id transport_stream_id service_id : Z)
  | DvbReplace (replacement_ref replace_pid replacement_pid : Z)
  | DvbClearReplace (replacement_ref : Z)
  | DateTimeEnquiry (response_interval : Z)
  | EpgReply (event_status : Z)
  | TeletextEbu (teletext_data : list Z)
  | SmartcardCommand (command_id : Z)
  | SmartcardSend (CLA INS P1 P2 : Z) (data_in : list Z) (length_out : Z).

(** The resources: their callback pointers, each with its argument; [None] is NULL. *)
Record app_ai := AppAi { ai_callback : option Z }.
Record app_rm := AppRm {
  rm_enqcallback : option Z;
  rm_replycallback : option Z;
  rm_changedcallback : option Z;
}.
Record app_ca := AppCa { ca_info_callback : option Z; ca_pmt_reply_callback : option Z }.
Record app_auth := AppAuth { auth_callback : option Z }.
Record app_dvb := AppDvb {
  dvb_tune_callback : option Z;
  dvb_replace_callback : option Z;
  dvb_clear_replace_callback : option Z;
}.
Record app_datetime := AppDatetime { datetime_callback : option Z }.
Record app_epg := AppEpg { epg_callback : option Z }.
Record app_teletext := AppTeletext { teletext_callback : option Z }.
Record app_smartcard := AppSmartcard {
  smartcard_command_callback : option Z;
  smartcard_send_callback : option Z;
}.

(** *** Registering callbacks *)

Definition en50221_app_ai_register_callback (cb : option Z) (ai : app_ai) : app_ai := AppAi cb.
Definition en50221_app_rm_register_enq_callback (cb : option Z) (rm : app_rm) : app_rm :=
  AppRm cb (rm_replycallback rm) (rm_changedcallback rm).
Definition en50221_app_rm_register_reply_callback (cb : option Z) (rm : app_rm) : app_rm :=
  AppRm (rm_enqcallback rm) cb (rm_changedcallback rm).
Definition en50221_app_rm_register_changed_callback (cb : option Z) (rm : app_rm) : app_rm :=
  AppRm (rm_enqcallback rm) (rm_replycallback rm) cb.
Definition en50221_app_ca_register_info_callback (cb : option Z) (ca : app_ca) : app_ca :=
  AppCa cb (ca_pmt_reply_callback ca).
Definition en50221_app_ca_register_pmt_reply_callback (cb : option Z) (ca : app_ca) : app_ca :=
  AppCa (ca_info_callback ca) cb.
Definition en50221_app_auth_register_request_callback (cb : option Z) (auth : app_auth) : app_auth := AppAuth cb.
Definition en50221_app_dvb_register_tune_callback (cb : option Z) (dvb : app_dvb) : app_dvb :=
  AppDvb cb (dvb_replace_callback dvb) (dvb_clear_replace_callback dvb).
Definition en50221_app_dvb_register_replace_callback (cb : option Z) (dvb : app_dvb) : app_dvb :=
  AppDvb (dvb_tune_callback dvb) cb (dvb_clear_replace_callback dvb).
Definition en50221_app_dvb_register_clear_replace_callback (cb : option Z) (dvb : app_dvb) : app_dvb :=
  AppDvb (dvb_tune_callback dvb) (dvb_replace_callback dvb) cb.
Definition en50221_app_datetime_register_enquiry_callback (cb : option Z) (d : app_datetime) :
    app_datetime := AppDatetime cb.
Definition en50221_app_epg_register_enquiry_callback (cb : option Z) (epg : app_epg) : app_epg := AppEpg cb.
Definition en50221_app_teletext_register_callback (cb : option Z) (t : app_teletext) :
    app_teletext := AppTeletext cb.
Definition en50221_app_smartcard_register_command_callback (cb : option Z) (s : app_smartcard) :
    app_smartcard := AppSmartcard cb (smartcard_send_callback s).
Definition en50221_app_smartcard_register_send_callback (cb : option Z) (s : app_smartcard) :
    app_smartcard := AppSmartcard (smartcard_command_callback s) cb.

(** ** Words of a buffer *)

(** An action on a buffer of its own; [return NULL] does not occur in it. *)
Definition run_m {A} (c : M A) (m : mem) : res (A * mem) :=
  match c m with
  | Ret a m' => Ok (a, m')
  | Null _ => Err BadPointer
  | Fault f => Err f
  end.

(** [for (i = 0; i < count; i++) { bswapN(data); data += k; }] *)
Fixpoint bswap_words (k : nat) (count : nat) (p : Z) : M unit :=
  match count with
  | O => mret tt
  | S count => bswap_at k p;; bswap_words k count (p + Z.of_nat k)
  end.

(** The words as the host reads them. *)
Fixpoint ld_words (k : nat) (count : nat) (p : Z) : M (list Z) :=
  match count with
  | O => mret []
  | S count =>
      bs ← ld_bytes p k;
      ws ← ld_words k count (p + Z.of_nat k);
      mret (le_combine bs :: ws)
  end.

(** [while (pos < asn_data_length) { bswap16(data + pos); pos += 3; }] *)
Definition bswap_replies (asn_data_length : Z) : M Z :=
  while (λ pos, mret (pos <? asn_data_length)) (λ pos, bswap16 pos;; mret (pos + 3)) 4.

Definition word_at (data : list Z) (i : Z) : res Z :=
  h ← at_ data i; l ← at_ data (i + 1); mret (Z.lor (Z.shiftl h 8) l).

(** The length field at the start of the data: the length, which has to be [min] or more and for which
    there have to be data, and the data behind the field.  [None]: the function returns -1. *)
Definition asn_body (min : Z) (data : list Z) : res (option (Z * list Z)) :=
  decoded ← asn_1_decode data (zlen data);
  mret
    (match decoded with
     | None => None
     | Some (asn_data_length, length_field_len) =>
         if asn_data_length <? min then None
         else if u32 (zlen data - length_field_len) <? asn_data_length then None
         else Some (asn_data_length, drop (Z.to_nat length_field_len) data)
     end).

(** The three bytes of a tag. *)
Definition app_tag (tag : Z) : list Z :=
  [Z.land (Z.shiftr tag 16) 0xFF; Z.land (Z.shiftr tag 8) 0xFF; Z.land tag 0xFF].

(** The bytes of a [uint16_t], and of a [uint32_t] after [bswap32], in memory. *)
Definition word_bytes (v : Z) : list Z := [u8 (Z.shiftr v 8); u8 v].
Definition long_bytes (v : Z) : list Z := le_split 4 (bswap_n 4 (le_combine (le_split 4 v))).

(** [if (cb) return cb(...); return 0;] *)
Definition tell {S C} (upcall : Z -> Z -> Z -> C -> IO S Z) (cb : option Z)
    (slot_id session_number : Z) (c : C) : IO S Z :=
  match cb with
  | Some arg => upcall arg slot_id session_number c
  | None => mret 0
  end.

Section Resources.
Context {S : Type} (e : env).

(** The callbacks: what they do when called with their argument, the slot and the session. *)
Context (upcall : Z -> Z -> Z -> app_call -> IO S Z).

(** [struct en50221_app_send_functions] *)
Context (send_data : Z -> list Z -> IO S Z) (send_datav : Z -> list (list Z) -> IO S Z).

(** What uninitialised memory holds. *)
Context (uninit : Z).

Definition create {A} (a : A) : IO S (option A) :=
  ok ← malloc e; mret (if ok : bool then Some a else None).

Definition en50221_app_ai_create : IO S (option app_ai) := create (AppAi None).
Definition en50221_app_rm_create : IO S (option app_rm) := create (AppRm None None None).
Definition en50221_app_ca_create : IO S (option app_ca) := create (AppCa None None).
Definition en50221_app_auth_create : IO S (option app_auth) := create (AppAuth None).
Definition en50221_app_dvb_create : IO S (option app_dvb) := create (AppDvb None None None).
Definition en50221_app_datetime_create : IO S (option app_datetime) := create (AppDatetime None).
Definition en50221_app_epg_create : IO S (option app_epg) := create (AppEpg None).
Definition en50221_app_teletext_create : IO S (option app_teletext) := create (AppTeletext None).
Definition en50221_app_smartcard_create : IO S (option app_smartcard) := create (AppSmartcard None None).

(** ** What the host sends *)

(** A tag alone. *)
Definition send_tag (session_number tag : Z) : IO S Z :=
  send_data session_number (app_tag tag ++ [0]).

Definition en50221_app_ai_enquiry (session_number : Z) : IO S Z :=
  send_tag session_number TAG_APP_INFO_ENQUIRY.
Definition en50221_app_ai_entermenu (session_number : Z) : IO S Z :=
  send_tag session_number TAG_ENTER_MENU.
Definition en50221_app_rm_enq (session_number : Z) : IO S Z :=
  send_tag session_number TAG_PROFILE_ENQUIRY.
Definition en50221_app_rm_changed (session_number : Z) : IO S Z :=
  send_tag session_number TAG_PROFILE_CHANGE.
Definition en50221_app_ca_info_enq (session_number : Z) : IO S Z :=
  send_tag session_number TAG_CA_INFO_ENQUIRY.
Definition en50221_app_dvb_ask_release (session_number : Z) : IO S Z :=
  send_tag session_number TAG_ASK_RELEASE.

Definition en50221_app_rm_reply (session_number : Z) (resource_ids : list Z) : IO S Z :=
  let size := u32 (zlen resource_ids * 4) in
  match asn_1_encode size 3 with
  | None => mret (-1)
  | Some length_field =>
      send_datav session_number
        [app_tag TAG_PROFILE ++ length_field;
         take (Z.to_nat size) (concat (long_bytes <$> resource_ids))]
  end.

Definition en50221_app_ca_pmt (session_number : Z) (ca_pmt : list Z) : IO S Z :=
  match asn_1_encode (zlen ca_pmt) 3 with
  | None => mret (-1)
  | Some length_field => send_datav session_number [app_tag TAG_CA_PMT ++ length_field; ca_pmt]
  end.

Definition en50221_app_auth_send (session_number auth_protocol_id : Z) (auth_data : list Z) : IO S Z :=
  match asn_1_encode (u32 (zlen auth_data + 2)) 3 with
  | None => mret (-1)
  | Some length_field =>
      send_datav session_number
        [app_tag TAG_AUTH_RESP ++ length_field ++ word_bytes auth_protocol_id; auth_data]
  end.

Definition en50221_app_epg_enquire (session_number command_id network_id original_network_id
    transport_stream_id service_id event_id : Z) : IO S Z :=
  send_data session_number
    (app_tag TAG_EPG_ENQUIRY ++ [11; command_id] ++ word_bytes network_id ++
     word_bytes original_network_id ++ word_bytes transport_stream_id ++ word_bytes service_id ++
     word_bytes event_id).

(** The length field of the answer to reset is written over [data], not into the header; any other
    reply sends six bytes of [data], not the header. *)
Definition en50221_app_smartcard_command_reply (session_number reply_id status : Z) (data : list Z) :
    IO S Z :=
  if reply_id =? SMARTCARD_REPLY_ID_ANSW_TO_RESET then
    match asn_1_encode (u32 (zlen data + 2)) 3 with
    | None => mret (-1)
    | Some length_field =>
        if zlen data <? 3 + zlen length_field then io_fault OutOfBounds
        else
          let hdr := app_tag TAG_SMARTCARD_REPLY ++ replicate (length length_field) (u8 uninit) ++
            [reply_id; status] in
          send_datav session_number
            [hdr; take 3 data ++ length_field ++ drop (3 + length length_field) data]
    end
  else if zlen data <? 6 then io_fault OutOfBounds
  else send_datav session_number [take 6 data].

Definition en50221_app_smartcard_receive (session_number : Z) (data : list Z) (SW1 SW2 : Z) : IO S Z :=
  match asn_1_encode (u32 (zlen data + 2)) 3 with
  | None => mret (-1)
  | Some length_field =>
      send_datav session_number [app_tag TAG_SMARTCARD_RCV ++ length_field; data; [SW1; SW2]]
  end.

(** ** What the module sends

    Each function returns what the callback returns, or -1. *)

(** "get the tag": short data, or the tag and what follows it. *)
Definition app_message (data : list Z) (dispatch : Z -> list Z -> IO S Z) : IO S Z :=
  if zlen data <? 3 then mret (-1)
  else
    b0 ← lift (at_ data 0); b1 ← lift (at_ data 1); b2 ← lift (at_ data 2);
    let tag := Z.lor (Z.lor (Z.shiftl b0 16) (Z.shiftl b1 8)) b2 in
    dispatch tag (drop 3 data).

(** A message with a length field, of at least [min] bytes. *)
Definition asn_message (min : Z) (data : list Z) (parse : Z -> list Z -> IO S Z) : IO S Z :=
  body ← lift (asn_body min data);
  match body with
  | None => mret (-1)
  | Some (asn_data_length, data) => parse asn_data_length data
  end.

Definition en50221_app_ai_parse_app_info (ai : app_ai) (slot_id session_number : Z) (data : list Z) :
    IO S Z :=
  asn_message 6 data (λ asn_data_length app_info,
    application_type ← lift (at_ app_info 0);
    application_manufacturer ← lift (word_at app_info 1);
    manufacturer_code ← lift (word_at app_info 3);
    menu_string_length ← lift (at_ app_info 5);
    let menu_string_length :=
      if asn_data_length - 6 <? menu_string_length then u8 (asn_data_length - 6)
      else menu_string_length in
    '(menu_string, _) ← lift (run_m (ld_bytes 6 (Z.to_nat menu_string_length)) app_info);
    tell upcall (ai_callback ai) slot_id session_number
      (AiInfo application_type application_manufacturer manufacturer_code menu_string)).

Definition en50221_app_ai_message (ai : app_ai) (slot_id session_number resource_id : Z)
    (data : list Z) : IO S Z :=
  app_message data (λ tag data,
    if tag =? TAG_APP_INFO then en50221_app_ai_parse_app_info ai slot_id session_number data
    else mret (-1)).

Definition en50221_app_rm_parse_profile_enq (rm : app_rm) (slot_id session_number : Z)
    (data : list Z) : IO S Z :=
  tell upcall (rm_enqcallback rm) slot_id session_number RmEnquiry.

Definition en50221_app_rm_parse_profile_reply (rm : app_rm) (slot_id session_number : Z)
    (data : list Z) : IO S Z :=
  asn_message 0 data (λ asn_data_length data,
    let resources_count := Z.to_nat (asn_data_length / 4) in
    '(resource_ids, _) ← lift (run_m (bswap_words 4 resources_count 0;; ld_words 4 resources_count 0) data);
    tell upcall (rm_replycallback rm) slot_id session_number (RmReply resource_ids)).

Definition en50221_app_rm_parse_profile_change (rm : app_rm) (slot_id session_number : Z)
    (data : list Z) : IO S Z :=
  tell upcall (rm_changedcallback rm) slot_id session_number RmChanged.

Definition en50221_app_rm_message (rm : app_rm) (slot_id session_number resource_id : Z)
    (data : list Z) : IO S Z :=
  app_message data (λ tag data,
    if tag =? TAG_PROFILE_ENQUIRY then en50221_app_rm_parse_profile_enq rm slot_id session_number data
    else if tag =? TAG_PROFILE then en50221_app_rm_parse_profile_reply rm slot_id session_number data
    else if tag =? TAG_PROFILE_CHANGE then
      en50221_app_rm_parse_profile_change rm slot_id session_number data
    else mret (-1)).

Definition en50221_app_ca_parse_info (ca : app_ca) (slot_id session_number : Z) (data : list Z) :
    IO S Z :=
  asn_message 0 data (λ asn_data_length data,
    let ca_id_count := Z.to_nat (asn_data_length / 2) in
    '(ids, _) ← lift (run_m (bswap_words 2 ca_id_count 0;; ld_words 2 ca_id_count 0) data);
    tell upcall (ca_info_callback ca) slot_id session_number (CaInfo ids)).

(** The callback is given the reply as it is in memory. *)
Definition en50221_app_ca_parse_reply (ca : app_ca) (slot_id session_number : Z) (data : list Z) :
    IO S Z :=
  asn_message 4 data (λ asn_data_length data,
    '(_, data) ← lift (run_m (bswap16 0;; bswap_replies asn_data_length) data);
    tell upcall (ca_pmt_reply_callback ca) slot_id session_number
      (CaPmtReply (take (Z.to_nat asn_data_length) data))).

Definition en50221_app_ca_message (ca : app_ca) (slot_id session_number resource_id : Z)
    (data : list Z) : IO S Z :=
  app_message data (λ tag data,
    if tag =? TAG_CA_INFO then en50221_app_ca_parse_info ca slot_id session_number data
    else if tag =? TAG_CA_PMT_REPLY then en50221_app_ca_parse_reply ca slot_id session_number data
    else mret (-1)).

Definition en50221_app_auth_parse_request (auth : app_auth) (slot_id session_number : Z)
    (data : list Z) : IO S Z :=
  asn_message 2 data (λ asn_data_length auth_data,
    auth_protocol_id ← lift (word_at auth_data 0);
    '(rest, _) ← lift (run_m (ld_bytes 2 (Z.to_nat (asn_data_length - 2))) auth_data);
    tell upcall (auth_callback auth) slot_id session_number (AuthRequest auth_protocol_id rest)).

Definition en50221_app_auth_message (auth : app_auth) (slot_id session_number resource_id : Z)
    (data : list Z) : IO S Z :=
  app_message data (λ tag data,
    if tag =? TAG_AUTH_REQ then en50221_app_auth_parse_request auth slot_id session_number data
    else mret (-1)).

(** A message of a fixed size: its length is [size], which the first byte says too. *)
Definition fixed_message (size : Z) (short : bool) (data : list Z) (parse : list Z -> IO S Z) : IO S Z :=
  if short then mret (-1)
  else
    b ← lift (at_ data 0);
    if negb (b =? size) then mret (-1) else parse (drop 1 data).

Definition en50221_app_dvb_parse_tune (dvb : app_dvb) (slot_id session_number : Z) (data : list Z) :
    IO S Z :=
  fixed_message 8 (zlen data <? 9) data (λ tune_data,
    network_id ← lift (word_at tune_data 0);
    original_network_id ← lift (word_at tune_data 2);
    transport_stream_id ← lift (word_at tune_data 4);
    service_id ← lift (word_at tune_data 6);
    tell upcall (dvb_tune_callback dvb) slot_id session_number
      (DvbTune network_id original_network_id transport_stream_id service_id)).

Definition en50221_app_dvb_parse_replace (dvb : app_dvb) (slot_id session_number : Z) (data : list Z) :
    IO S Z :=
  fixed_message 5 (zlen data <? 6) data (λ replace_data,
    replacement_ref ← lift (at_ replace_data 0);
    b1 ← lift (at_ replace_data 1); b2 ← lift (at_ replace_data 2);
    b3 ← lift (at_ replace_data 3); b4 ← lift (at_ replace_data 4);
    let replace_pid := Z.lor (Z.shiftl (Z.land b1 0x1f) 8) b2 in
    let replacement_pid := Z.lor (Z.shiftl (Z.land b3 0x1f) 8) b4 in
    tell upcall (dvb_replace_callback dvb) slot_id session_number
      (DvbReplace replacement_ref replace_pid replacement_pid)).

Definition en50221_app_dvb_parse_clear_replace (dvb : app_dvb) (slot_id session_number : Z)
    (data : list Z) : IO S Z :=
  fixed_message 1 (zlen data <? 2) data (λ replace_data,
    replacement_ref ← lift (at_ replace_data 0);
    tell upcall (dvb_clear_replace_callback dvb) slot_id session_number (DvbClearReplace replacement_ref)).

Definition en50221_app_dvb_message (dvb : app_dvb) (slot_id session_number resource_id : Z)
    (data : list Z) : IO S Z :=
  app_message data (λ tag data,
    if tag =? TAG_TUNE then en50221_app_dvb_parse_tune dvb slot_id session_number data
    else if tag =? TAG_REPLACE then en50221_app_dvb_parse_replace dvb slot_id session_number data
    else if tag =? TAG_CLEAR_REPLACE then
      en50221_app_dvb_parse_clear_replace dvb slot_id session_number data
    else mret (-1)).

Definition en50221_app_datetime_parse_enquiry (datetime : app_datetime) (slot_id session_number : Z)
    (data : list Z) : IO S Z :=
  fixed_message 1 (negb (zlen data =? 2)) data (λ data,
    response_interval ← lift (at_ data 0);
    tell upcall (datetime_callback datetime) slot_id session_number (DateTimeEnquiry response_interval)).

Definition en50221_app_datetime_message (datetime : app_datetime)
    (slot_id session_number resource_id : Z) (data : list Z) : IO S Z :=
  app_message data (λ tag data,
    if tag =? TAG_DATE_TIME_ENQUIRY then
      en50221_app_datetime_parse_enquiry datetime slot_id session_number data
    else mret (-1)).

Definition en50221_app_epg_parse_reply (epg : app_epg) (slot_id session_number : Z) (data : list Z) :
    IO S Z :=
  fixed_message 1 (negb (zlen data =? 2)) data (λ data,
    event_status ← lift (at_ data 0);
    tell upcall (epg_callback epg) slot_id session_number (EpgReply event_status)).

Definition en50221_app_epg_message (epg : app_epg) (slot_id session_number resource_id : Z)
    (data : list Z) : IO S Z :=
  app_message data (λ tag data,
    if tag =? TAG_EPG_REPLY then en50221_app_epg_parse_reply epg slot_id session_number data
    else mret (-1)).

Definition en50221_app_teletext_parse_ebu (teletext : app_teletext) (slot_id session_number : Z)
    (data : list Z) : IO S Z :=
  asn_message 0 data (λ asn_data_length teletext_data,
    '(bytes, _) ← lift (run_m (ld_bytes 0 (Z.to_nat asn_data_length)) teletext_data);
    tell upcall (teletext_callback teletext) slot_id session_number (TeletextEbu bytes)).

Definition en50221_app_teletext_message (teletext : app_teletext)
    (slot_id session_number resource_id : Z) (data : list Z) : IO S Z :=
  app_message data (λ tag data,
    if tag =? TAG_TELETEXT_EBU then en50221_app_teletext_parse_ebu teletext slot_id session_number data
    else mret (-1)).

Definition en50221_app_smartcard_parse_command (smartcard : app_smartcard)
    (slot_id session_number : Z) (data : list Z) : IO S Z :=
  fixed_message 1 (negb (zlen data =? 2)) data (λ data,
    command_id ← lift (at_ data 0);
    tell upcall (smartcard_command_callback smartcard) slot_id session_number (SmartcardCommand command_id)).

Definition en50221_app_smartcard_parse_send (smartcard : app_smartcard) (slot_id session_number : Z)
    (data : list Z) : IO S Z :=
  asn_message 8 data (λ asn_data_length data,
    CLA ← lift (at_ data 0); INS ← lift (at_ data 1); P1 ← lift (at_ data 2); P2 ← lift (at_ data 3);
    length_in ← lift (word_at data 4);
    if negb (length_in + 8 =? asn_data_length) then mret (-1)
    else
      '(data_in, _) ← lift (run_m (ld_bytes 6 (Z.to_nat length_in)) data);
      length_out ← lift (word_at data (6 + length_in));
      tell upcall (smartcard_send_callback smartcard) slot_id session_number
        (SmartcardSend CLA INS P1 P2 data_in length_out)).

Definition en50221_app_smartcard_message (smartcard : app_smartcard)
    (slot_id session_number resource_id : Z) (data : list Z) : IO S Z :=
  app_message data (λ tag data,
    if tag =? TAG_SMARTCARD_COMMAND then
      en50221_app_smartcard_parse_command smartcard slot_id session_number data
    else if tag =? TAG_SMARTCARD_SEND then
      en50221_app_smartcard_parse_send smartcard slot_id session_number data
    else mret (-1)).
End Resources.
