(* ===== verification/En50221Resources.v ===== *)
(** * The resources of the common interface are correct

    No message of the module makes a resource read outside it, with one exception; every well formed
    message reaches its callback with the values it encodes; what the host sends are whole APDUs; and a
    profile sent by one side arrives at the other through all layers. *)

From S2P Require Export En50221App En50221SessionExchange.

(** ** Words *)

(** The first [n] groups of [k] bytes. *)
Fixpoint chunks (k n : nat) (l : list Z) : list (list Z) :=
  match n with
  | O => []
  | S n => take k l :: chunks k n (drop k l)
  end.

Lemma chunks_concat k ws rest :
  Forall (λ w, length w = k) ws -> chunks k (length ws) (concat ws ++ rest) = ws.
Proof.
  induction 1 as [|w ws Hw _ IH]; [done|]. cbn [length chunks concat]. rewrite <- app_assoc.
  rewrite take_app_length', drop_app_length' by lia. by rewrite IH.
Qed.

Lemma bswap_words_run k n : forall pre data,
  Forall byte data -> (k * n <= length data)%nat ->
  bswap_words k n (zlen pre) (pre ++ data) =
  Ret tt (pre ++ concat (@rev Z <$> chunks k n data) ++ drop (k * n) data).
Proof.
  induction n as [|n IH]; intros pre data Hb Hl.
  { cbn [bswap_words chunks fmap list_fmap concat app]. by rewrite Nat.mul_0_r, drop_0. }
  cbn [bswap_words chunks fmap list_fmap concat].
  assert (Ht : length (take k data) = k) by (rewrite length_take; lia).
  rewrite <- (take_drop k data) at 1.
  erewrite bind_run; [|apply bswap_at_app; [done|done|by apply Forall_take]].
  replace (zlen pre + Z.of_nat k) with (zlen (pre ++ rev (take k data)))
    by (rewrite length_app, length_rev; lia).
  rewrite app_assoc, IH; [|by apply Forall_drop|rewrite length_drop; lia].
  rewrite <- !app_assoc, drop_drop. do 5 f_equal. lia.
Qed.

Lemma ld_words_run k ws : forall pre post,
  Forall (λ w, length w = k) ws ->
  ld_words k (length ws) (zlen pre) (pre ++ concat ws ++ post) =
  Ret (le_combine <$> ws) (pre ++ concat ws ++ post).
Proof.
  intros pre post H. revert pre. induction H as [|w ws Hw _ IH]; intros pre; [done|].
  cbn [length ld_words concat]. rewrite <- app_assoc. subst k.
  erewrite bind_run; [|apply ld_bytes_app].
  replace (zlen pre + zlen w) with (zlen (pre ++ w)) by (rewrite length_app; lia).
  rewrite app_assoc. erewrite bind_run; [|apply IH]. done.
Qed.

Lemma chunks_lengths k n l : (k * n <= length l)%nat ->
  length (chunks k n l) = n /\ Forall (λ w, length w = k) (chunks k n l).
Proof.
  revert l. induction n as [|n IH]; intros l Hl; [by split|]. cbn [chunks length].
  destruct (IH (drop k l)) as [H1 H2]; [rewrite length_drop; lia|]. rewrite H1.
  split; [done|]. constructor; [rewrite length_take; lia|done].
Qed.

Lemma chunks_take k n l : (k * n <= length l)%nat -> concat (chunks k n l) = take (k * n) l.
Proof.
  revert l. induction n as [|n IH]; intros l Hl; [by rewrite Nat.mul_0_r|]. cbn [chunks concat].
  rewrite IH by (rewrite length_drop; lia). rewrite take_take_drop. f_equal. lia.
Qed.

(** The words of the host are the numbers of the wire. *)
Lemma swapped_words_run k n data :
  Forall byte data -> (k * n <= length data)%nat ->
  exists m, run_m (bswap_words k n 0;; ld_words k n 0) data = Ok (be_combine <$> chunks k n data, m).
Proof.
  intros Hb Hl. destruct (chunks_lengths k n data Hl) as [H1 H2].
  pose proof (bswap_words_run k n [] data Hb Hl) as Hr. cbn [app length] in Hr.
  unfold run_m. erewrite bind_run by exact Hr.
  pose proof (ld_words_run k (@rev Z <$> chunks k n data) [] (drop (k * n) data)) as Hw. cbn [app length] in Hw.
  change (Z.of_nat 0) with 0 in Hw. rewrite length_fmap, H1 in Hw. rewrite Hw.
  2: { apply Forall_fmap. eapply Forall_impl; [|exact H2]. intros w Hwl. cbn. by rewrite length_rev. }
  eexists. by rewrite <- list_fmap_compose.
Qed.

Lemma ld_run p n data :
  0 <= p -> p + Z.of_nat n <= zlen data ->
  run_m (ld_bytes p n) data = Ok (range data p (Z.of_nat n), data).
Proof.
  intros Hp Hl. destruct (split_range data p (Z.of_nat n)) as (E & Hp' & Hn); [lia..|].
  unfold run_m. rewrite E at 1. rewrite <- Hp' at 1.
  replace n with (length (range data p (Z.of_nat n))) at 1 by lia.
  by rewrite ld_bytes_app, <- E.
Qed.

Lemma word_at_run a b pre post : word_at (pre ++ a :: b :: post) (zlen pre) = Ok (Z.lor (Z.shiftl a 8) b).
Proof.
  unfold word_at, at_. rewrite !lookup_z_app_r by lia. rewrite Z.sub_diag.
  by replace (zlen pre + 1 - zlen pre) with 1 by lia.
Qed.

(** ** Length fields *)

Lemma asn_body_ok min data :
  Forall byte data ->
  okay (asn_body min data) (λ r, forall l rest, r = Some (l, rest) ->
    min <= l /\ 0 <= l < 65536 /\ l <= zlen rest /\ Forall byte rest).
Proof.
  intros Hb. unfold asn_body. destruct (asn_1_decode_run data Hb) as (r & Hr & Hf). rewrite Hr.
  cbn [mbind res_bind]. destruct r as [[l n]|]; [|done].
  assert (Hform : asn_1_form data l n) by by apply Hf.
  apply asn_1_form_bounds in Hform as (Hl & Hn & Hnd); [|done].
  destruct (Z.ltb_spec l min); [done|]. destruct (Z.ltb_spec (u32 (zlen data - n)) l); [done|].
  intros l' rest [= <- <-]. rewrite length_drop. split_and!; [lia..| |by apply Forall_drop].
  assert (u32 (zlen data - n) <= zlen data - n) by (unfold u32; apply Z.mod_le; lia). lia.
Qed.

Lemma asn_body_run min lf body :
  asn_1_form (lf ++ body) (zlen body) (zlen lf) -> Forall byte (lf ++ body) ->
  min <= zlen body -> asn_body min (lf ++ body) = Ok (Some (zlen body, body)).
Proof.
  intros Hf Hb Hm. unfold asn_body. destruct (asn_1_decode_run (lf ++ body) Hb) as (r & -> & Hiff).
  apply Hiff in Hf as Hs. subst r. cbn [mbind res_bind]. apply asn_1_form_bounds in Hf as (Hl & _); [|done].
  rewrite (proj2 (Z.ltb_ge _ _)) by done. rewrite length_app.
  replace (Z.of_nat (length lf + length body) - zlen lf) with (zlen body) by lia.
  rewrite u32_id by lia. rewrite Z.ltb_irrefl, Nat2Z.id. by rewrite drop_app_length.
Qed.

(** ** No message is read outside *)

Section MessagesSafe.
Context {S : Type} (upcall : Z -> Z -> Z -> app_call -> IO S Z) (I : S -> Prop).
Hypothesis Hup : forall arg slot_id n c, keeps I (upcall arg slot_id n c) (λ _, True).

Definition harmless (c : IO S Z) : Prop := keeps I c (λ _, True).

Lemma tell_keeps cb slot_id n c : harmless (tell upcall cb slot_id n c).
Proof. destruct cb; [by apply Hup|by apply keeps_ret]. Qed.

Lemma keeps_byte data i :
  Forall byte data -> 0 <= i < zlen data -> keeps (S := S) I (lift (at_ data i)) byte.
Proof. intros Hb Hi. by apply keeps_lift, okay_at. Qed.

Lemma keeps_word data i :
  Forall byte data -> 0 <= i -> i + 1 < zlen data ->
  keeps (S := S) I (lift (word_at data i)) (λ v, 0 <= v < 65536).
Proof.
  intros Hb Hi Hl. apply keeps_lift. eapply okay_bind; [apply okay_at; [exact Hb|lia]|]. intros h Hh.
  eapply okay_bind; [apply okay_at; [exact Hb|lia]|]. intros l Hl'. rewrite be16 by done.
  unfold byte in *. apply okay_ret. lia.
Qed.

Lemma keeps_ld p n data (k : list Z * mem -> IO S Z) :
  0 <= p -> p + Z.of_nat n <= zlen data ->
  (forall bs, harmless (k (bs, data))) -> harmless (lift (run_m (ld_bytes p n) data) ≫= k).
Proof. intros Hp Hl Hk. rewrite ld_run by done. intros w Hw. by apply Hk. Qed.

Lemma keeps_words k n data (f : list Z * mem -> IO S Z) :
  Forall byte data -> (k * n <= length data)%nat ->
  (forall ws m, harmless (f (ws, m))) ->
  harmless (lift (run_m (bswap_words k n 0;; ld_words k n 0) data) ≫= f).
Proof.
  intros Hb Hl Hf. destruct (swapped_words_run k n data Hb Hl) as [m ->]. intros w Hw. by apply Hf.
Qed.

Lemma app_message_keeps data dispatch :
  Forall byte data -> (forall tag rest, Forall byte rest -> harmless (dispatch tag rest)) ->
  harmless (app_message data dispatch).
Proof.
  intros Hb Hd. unfold harmless, app_message. destruct (Z.ltb_spec (zlen data) 3); [by apply keeps_ret|].
  do 3 (eapply keeps_bind; [apply keeps_byte; [done|lia]|]; intros ? _). by apply Hd, Forall_drop.
Qed.

Lemma asn_message_keeps min data parse :
  Forall byte data ->
  (forall l rest, min <= l -> 0 <= l < 65536 -> l <= zlen rest -> Forall byte rest ->
     harmless (parse l rest)) ->
  harmless (asn_message min data parse).
Proof.
  intros Hb Hp. eapply keeps_bind; [by apply keeps_lift, asn_body_ok|]. intros [[l rest]|] Hr.
  - destruct (Hr l rest eq_refl) as (? & ? & ? & ?). by apply Hp.
  - by apply keeps_ret.
Qed.

Lemma fixed_message_keeps size short data parse :
  Forall byte data -> (short = false -> size < zlen data) -> 0 <= size ->
  (forall rest, size <= zlen rest -> Forall byte rest -> harmless (parse rest)) ->
  harmless (fixed_message size short data parse).
Proof.
  intros Hb Hs H0 Hp. unfold fixed_message. destruct short; [by apply keeps_ret|]. specialize (Hs eq_refl).
  eapply keeps_bind; [apply keeps_byte; [done|lia]|]. intros b _. case_if; [by apply keeps_ret|].
  apply Hp; [rewrite length_drop; lia|by apply Forall_drop].
Qed.

Ltac message_step :=
  match goal with
  | |- keeps _ (app_message _ _) _ => apply app_message_keeps; [done|]; intros ? ? ?
  | |- keeps _ (asn_message _ _ _) _ => apply asn_message_keeps; [done|]; intros ? ? ? ? ? ?
  | |- keeps _ (fixed_message _ _ _ _) _ =>
      apply fixed_message_keeps; [done|intros; bool_facts; lia|lia|]; intros ? ? ?
  | |- keeps _ (tell _ _ _ _ _) _ => apply tell_keeps
  | |- keeps _ (mret _) _ => by apply keeps_ret
  | |- keeps _ (if _ then _ else _) _ => case_if
  | |- keeps _ (lift (at_ _ _) ≫= _) _ =>
      eapply keeps_bind; [apply keeps_byte; [done|unfold byte in *; cbv beta in *; lia]|]; intros ? ?
  | |- keeps _ (lift (word_at _ _) ≫= _) _ =>
      eapply keeps_bind; [apply keeps_word; [done|unfold byte in *; cbv beta in *; lia..]|]; intros ? ?
  | |- keeps _ (lift (run_m (ld_bytes _ _) _) ≫= _) _ =>
      apply keeps_ld; [unfold byte in *; cbv beta in *; lia..|]; intros ?
  | |- keeps _ (lift (run_m (bswap_words _ _ _;; _) _) ≫= _) _ =>
      apply keeps_words; [done|Z.to_euclidean_division_equations; lia|]; intros ? ?
  | |- harmless _ => unfold harmless
  end; cbv beta zeta.

Lemma ai_message_keeps ai slot_id n id data :
  Forall byte data -> harmless (en50221_app_ai_message upcall ai slot_id n id data).
Proof.
  intros Hb. unfold en50221_app_ai_message, en50221_app_ai_parse_app_info.
  repeat message_step. destruct (Z.ltb_spec (l - 6) a2); [rewrite u8_id by (unfold byte in *; lia)|];
    repeat message_step.
Qed.

Lemma rm_message_keeps rm slot_id n id data :
  Forall byte data -> harmless (en50221_app_rm_message upcall rm slot_id n id data).
Proof.
  intros Hb. unfold en50221_app_rm_message, en50221_app_rm_parse_profile_enq,
    en50221_app_rm_parse_profile_reply, en50221_app_rm_parse_profile_change. repeat message_step.
Qed.

Lemma auth_message_keeps auth slot_id n id data :
  Forall byte data -> harmless (en50221_app_auth_message upcall auth slot_id n id data).
Proof.
  intros Hb. unfold en50221_app_auth_message, en50221_app_auth_parse_request. repeat message_step.
Qed.

Lemma dvb_message_keeps dvb slot_id n id data :
  Forall byte data -> harmless (en50221_app_dvb_message upcall dvb slot_id n id data).
Proof.
  intros Hb. unfold en50221_app_dvb_message, en50221_app_dvb_parse_tune, en50221_app_dvb_parse_replace,
    en50221_app_dvb_parse_clear_replace. repeat message_step.
Qed.

Lemma datetime_message_keeps datetime slot_id n id data :
  Forall byte data -> harmless (en50221_app_datetime_message upcall datetime slot_id n id data).
Proof.
  intros Hb. unfold en50221_app_datetime_message, en50221_app_datetime_parse_enquiry. repeat message_step.
Qed.

Lemma epg_message_keeps epg slot_id n id data :
  Forall byte data -> harmless (en50221_app_epg_message upcall epg slot_id n id data).
Proof.
  intros Hb. unfold en50221_app_epg_message, en50221_app_epg_parse_reply. repeat message_step.
Qed.

Lemma teletext_message_keeps teletext slot_id n id data :
  Forall byte data -> harmless (en50221_app_teletext_message upcall teletext slot_id n id data).
Proof.
  intros Hb. unfold en50221_app_teletext_message, en50221_app_teletext_parse_ebu. repeat message_step.
Qed.

Lemma smartcard_message_keeps smartcard slot_id n id data :
  Forall byte data -> harmless (en50221_app_smartcard_message upcall smartcard slot_id n id data).
Proof.
  intros Hb. unfold en50221_app_smartcard_message, en50221_app_smartcard_parse_command,
    en50221_app_smartcard_parse_send. repeat message_step.
Qed.
End MessagesSafe.

(** *** Conditional access: the replies *)

(** The two bytes of the stream number change places. *)
Definition swap_reply (w : list Z) : list Z := match w with [a; b; c] => [b; a; c] | _ => w end.

Lemma bswap_replies_loop ws : forall tail pre post fuel l,
  Forall (λ w, length w = 3%nat /\ Forall byte w) ws -> (tail = [] \/ length tail = 2%nat) ->
  Forall byte tail -> l = zlen pre + 3 * zlen ws + zlen tail -> (length ws + 1 < fuel)%nat ->
  exists p, iter_ fuel (while_body (λ pos, mret (pos <? l)) (λ pos, bswap16 pos;; mret (pos + 3))) (zlen pre)
    (pre ++ concat ws ++ tail ++ post) = Ret p (pre ++ concat (swap_reply <$> ws) ++ rev tail ++ post).
Proof.
  induction ws as [|w ws IH]; intros tail pre post fuel l Hws Htail Hb Hl Hf.
  - cbn [concat fmap list_fmap app length] in *. destruct fuel as [|fuel]; [lia|].
    destruct Htail as [-> |Ht]; [|destruct tail as [|a [|b [|? ?]]]; try done].
    { eexists. apply while_exit. unfold mret, M_ret. f_equal. cbn in Hl. apply Z.ltb_ge. lia. }
    destruct fuel as [|fuel]; [lia|]. exists (zlen pre + 3).
    apply Forall_cons_iff in Hb as [Ha Hb]. apply Forall_cons_iff in Hb as [Hb _].
    erewrite while_step; [apply while_exit| |].
    + unfold mret, M_ret. f_equal. apply Z.ltb_ge. cbn in Hl. lia.
    + unfold mret, M_ret. f_equal. apply Z.ltb_lt. cbn in Hl. lia.
    + run by (eapply (bswap16_at _ pre a b post); done). done.
  - apply Forall_cons_iff in Hws as [[Hlw Hbw] Hws]. destruct w as [|a [|b [|c [|? ?]]]]; try done.
    destruct fuel as [|fuel]; [lia|]. rewrite !Forall_cons_iff in Hbw. destruct Hbw as (Ha & Hb' & Hc & _).
    destruct (IH tail (pre ++ [b; a; c]) post fuel l Hws Htail Hb) as [p Hp].
    { rewrite length_app. cbn [length] in *. lia. }
    { cbn [length] in Hf. lia. }
    exists p. cbn [fmap list_fmap concat swap_reply].
    erewrite while_step; [| |].
    2: { unfold mret, M_ret. f_equal. apply Z.ltb_lt. cbn [length] in Hl. lia. }
    2: { run by (eapply (bswap16_at _ pre a b (c :: concat ws ++ tail ++ post)); done). done. }
    replace (zlen pre + 3) with (zlen (pre ++ [b; a; c])) by (rewrite length_app; cbn [length]; lia).
    rewrite <- app_assoc in Hp. cbn [app] in *. rewrite Hp. by rewrite <- app_assoc.
Qed.

(** A reply of whole streams, or with two bytes left over. *)
Lemma ca_reply_run h0 h1 h2 h3 ws tail post l :
  byte h0 -> byte h1 -> Forall (λ w, length w = 3%nat /\ Forall byte w) ws ->
  (tail = [] \/ length tail = 2%nat) -> Forall byte tail -> l = 4 + 3 * zlen ws + zlen tail ->
  exists p, run_m (bswap16 0;; bswap_replies l) ([h0; h1; h2; h3] ++ concat ws ++ tail ++ post) =
    Ok (p, [h1; h0; h2; h3] ++ concat (swap_reply <$> ws) ++ rev tail ++ post).
Proof.
  intros H0 H1 Hws Htail Hb Hl. unfold run_m.
  erewrite bind_run; [|by eapply (bswap16_at 0 [] h0 h1 ([h2; h3] ++ concat ws ++ tail ++ post))].
  unfold bswap_replies. rewrite while_run.
  assert (Hlen : length (concat ws) = (3 * length ws)%nat).
  { clear -Hws. induction Hws as [|w ws [Hw _] _ IH]; [done|]. cbn [concat length]. rewrite length_app. lia. }
  destruct (bswap_replies_loop ws tail [h1; h0; h2; h3] post
    (Datatypes.S (length ([h1; h0; h2; h3] ++ concat ws ++ tail ++ post))) l Hws Htail Hb) as [p Hp].
  - rewrite Hl. cbn [length]. lia.
  - rewrite !length_app, Hlen. cbn [length]. lia.
  - exists p. cbn [app length] in *. change (Z.of_nat 4) with 4 in Hp. by rewrite Hp.
Qed.

(** The bytes of a message in groups of three. *)
Lemma in_threes l data :
  Forall byte data -> 4 <= l -> l <= zlen data -> l mod 3 <> 2 ->
  exists h0 h1 h2 h3 ws tail post, data = [h0; h1; h2; h3] ++ concat ws ++ tail ++ post /\
    byte h0 /\ byte h1 /\ Forall (λ w, length w = 3%nat /\ Forall byte w) ws /\
    (tail = [] \/ length tail = 2%nat) /\ Forall byte tail /\ l = 4 + 3 * zlen ws + zlen tail.
Proof.
  intros Hb Hl Hd Hmod. destruct data as [|h0 [|h1 [|h2 [|h3 rest]]]]; try (cbn [length] in Hd; lia).
  rewrite !Forall_cons_iff in Hb. destruct Hb as (H0 & H1 & _ & _ & Hb). cbn [length] in Hd.
  set (n := Z.to_nat ((l - 4) / 3)). set (t := Z.to_nat ((l - 4) mod 3)).
  assert (Hn : Z.of_nat n = (l - 4) / 3) by (unfold n; rewrite Z2Nat.id; [done|apply Z.div_pos; lia]).
  assert (Ht : Z.of_nat t = (l - 4) mod 3) by (unfold t; rewrite Z2Nat.id; [done|apply Z.mod_pos_bound; lia]).
  assert (Hlen : (3 * n + t <= length rest)%nat) by (Z.to_euclidean_division_equations; lia).
  destruct (chunks_lengths 3 n rest) as [Hc1 Hc2]; [lia|].
  exists h0, h1, h2, h3, (chunks 3 n rest), (take t (drop (3 * n) rest)), (drop t (drop (3 * n) rest)).
  split_and!; [|done|done| | |by apply Forall_take, Forall_drop|].
  - rewrite chunks_take by lia. rewrite take_drop. by rewrite take_drop.
  - apply Forall_forall. intros w Hw. rewrite Forall_forall in Hc2. split; [by apply Hc2|].
    apply Forall_forall. intros b Hin. rewrite Forall_forall in Hb. apply Hb.
    rewrite <- (take_drop (3 * n) rest), <- chunks_take by lia. apply in_or_app. left.
    apply in_concat. by exists w.
  - assert (length (take t (drop (3 * n) rest)) = t) by (rewrite length_take, length_drop; lia).
    destruct (decide (t = 0%nat)) as [E|]; [left; by apply nil_length_inv; lia|right].
    Z.to_euclidean_division_equations. lia.
  - rewrite Hc1, length_take, length_drop. Z.to_euclidean_division_equations. lia.
Qed.

(** A reply that ends inside the number of a stream has its last byte swapped with the one behind it;
    see [ca_reply_overruns] below. *)
Definition ca_reply_whole (data : list Z) : Prop :=
  forall l rest, asn_body 4 (drop 3 data) = Ok (Some (l, rest)) -> l mod 3 <> 2.

Lemma ca_message_keeps {S} upcall (I : S -> Prop) ca slot_id n id data :
  (forall arg slot_id n c, keeps I (upcall arg slot_id n c) (λ _, True)) ->
  Forall byte data -> ca_reply_whole data ->
  keeps I (en50221_app_ca_message upcall ca slot_id n id data) (λ _, True).
Proof.
  intros Hup Hb Hw. unfold en50221_app_ca_message, app_message.
  destruct (Z.ltb_spec (zlen data) 3); [by apply keeps_ret|].
  do 3 (eapply keeps_bind; [apply keeps_byte; [done|lia]|]; intros ? _).
  assert (Hd : Forall byte (drop 3 data)) by by apply Forall_drop.
  cbv zeta. case_if; [|case_if; [|by apply keeps_ret]].
  - apply (asn_message_keeps I); [done|]. intros l rest _ Hl Hlr Hr.
    apply (keeps_words I); [done|Z.to_euclidean_division_equations; lia|]. intros ws m. by apply tell_keeps.
  - unfold en50221_app_ca_parse_reply, asn_message.
    pose proof (asn_body_ok 4 (drop 3 data) Hd) as Ha. specialize (Hw).
    unfold ca_reply_whole in Hw. destruct (asn_body 4 (drop 3 data)) as [r|]; [|done].
    intros w Hi. change ((lift (Ok r) ≫= _) w) with
      (match r with
       | None => mret (-1)
       | Some (l, data) =>
           '(_, data) ← lift (run_m (bswap16 0;; bswap_replies l) data);
           tell upcall (ca_pmt_reply_callback ca) slot_id n (CaPmtReply (take (Z.to_nat l) data))
       end w).
    destruct r as [[l rest]|]; [|by split]. destruct (Ha l rest eq_refl) as (Hmin & Hl & Hlr & Hr).
    destruct (in_threes l rest Hr Hmin Hlr (Hw l rest eq_refl))
      as (h0 & h1 & h2 & h3 & ws & tail & post & -> & Hh0 & Hh1 & Hws & Ht & Hbt & El).
    destruct (ca_reply_run h0 h1 h2 h3 ws tail post l Hh0 Hh1 Hws Ht Hbt El) as [p ->].
    by apply (tell_keeps upcall I Hup).
Qed.

(** The resources of a host. *)
Record apps := Apps {
  the_ai : app_ai; the_rm : app_rm; the_ca : app_ca; the_auth : app_auth; the_dvb : app_dvb;
  the_datetime : app_datetime; the_epg : app_epg; the_teletext : app_teletext;
  the_smartcard : app_smartcard;
}.

(** The functions that are given the messages of the module, but that of conditional access. *)
Definition message_functions {S} (upcall : Z -> Z -> Z -> app_call -> IO S Z) (a : apps) :
    list (Z -> Z -> Z -> list Z -> IO S Z) :=
  [en50221_app_ai_message upcall (the_ai a); en50221_app_rm_message upcall (the_rm a);
   en50221_app_auth_message upcall (the_auth a); en50221_app_dvb_message upcall (the_dvb a);
   en50221_app_datetime_message upcall (the_datetime a); en50221_app_epg_message upcall (the_epg a);
   en50221_app_teletext_message upcall (the_teletext a);
   en50221_app_smartcard_message upcall (the_smartcard a)].

(** ** Messages and their values *)

(** A number of 13 bits, the upper three bits of the first byte being reserved. *)
Definition pid_bytes (pid : Z) : list Z := word_bytes pid.

(** The length field for a body. *)
Definition asn_field (body : list Z) : list Z := default [] (asn_1_encode (zlen body) 3).

Definition long_be (v : Z) : list Z := rev (le_split 4 v).

(** A reply on the wire from the reply in memory. *)
Definition wire_reply (reply : list Z) : list Z :=
  match reply with
  | h1 :: h0 :: h2 :: h3 :: rest =>
      [h0; h1; h2; h3] ++ concat (swap_reply <$> chunks 3 (length rest / 3) rest)
  | _ => []
  end.

(** The body of the message that says a call, and its tag. *)
Definition call_body (c : app_call) : list Z :=
  match c with
  | AiInfo t m c menu => [t] ++ word_bytes m ++ word_bytes c ++ [zlen menu] ++ menu
  | RmReply ids => concat (long_be <$> ids)
  | CaInfo ids => concat (word_bytes <$> ids)
  | CaPmtReply reply => wire_reply reply
  | AuthRequest id data => word_bytes id ++ data
  | DvbTune n o t s => word_bytes n ++ word_bytes o ++ word_bytes t ++ word_bytes s
  | DvbReplace r p q => [r] ++ pid_bytes p ++ pid_bytes q
  | DvbClearReplace r => [r]
  | DateTimeEnquiry i => [i]
  | EpgReply s => [s]
  | TeletextEbu data => data
  | SmartcardCommand c => [c]
  | SmartcardSend CLA INS P1 P2 data l =>
      [CLA; INS; P1; P2] ++ word_bytes (zlen data) ++ data ++ word_bytes l
  | RmEnquiry | RmChanged => []
  end.

Definition call_tag (c : app_call) : Z :=
  match c with
  | AiInfo _ _ _ _ => TAG_APP_INFO
  | RmEnquiry => TAG_PROFILE_ENQUIRY
  | RmReply _ => TAG_PROFILE
  | RmChanged => TAG_PROFILE_CHANGE
  | CaInfo _ => TAG_CA_INFO
  | CaPmtReply _ => TAG_CA_PMT_REPLY
  | AuthRequest _ _ => TAG_AUTH_REQ
  | DvbTune _ _ _ _ => TAG_TUNE
  | DvbReplace _ _ _ => TAG_REPLACE
  | DvbClearReplace _ => TAG_CLEAR_REPLACE
  | DateTimeEnquiry _ => TAG_DATE_TIME_ENQUIRY
  | EpgReply _ => TAG_EPG_REPLY
  | TeletextEbu _ => TAG_TELETEXT_EBU
  | SmartcardCommand _ => TAG_SMARTCARD_COMMAND
  | SmartcardSend _ _ _ _ _ _ => TAG_SMARTCARD_SEND
  end.

(** The message. *)
Definition call_apdu (c : app_call) : list Z := app_tag (call_tag c) ++ asn_field (call_body c) ++ call_body c.

(** The message with any bits in the places that are reserved, above the two PIDs of a replacement. *)
Definition reserved_body (r1 r2 : Z) (c : app_call) : list Z :=
  match c with
  | DvbReplace r p q => [r] ++ pid_bytes (r1 * 8192 + p) ++ pid_bytes (r2 * 8192 + q)
  | _ => call_body c
  end.

Definition reserved_apdu (r1 r2 : Z) (c : app_call) : list Z :=
  app_tag (call_tag c) ++ asn_field (reserved_body r1 r2 c) ++ reserved_body r1 r2 c.

Definition word (v : Z) : Prop := 0 <= v < 65536.

(** The values that a message can say. *)
Definition call_ok (c : app_call) : Prop :=
  match c with
  | AiInfo t m c menu => byte t /\ word m /\ word c /\ Forall byte menu /\ zlen menu < 256
  | RmReply ids => Forall (λ id, 0 <= id < 2 ^ 32) ids /\ zlen ids < 16384
  | CaInfo ids => Forall word ids /\ zlen ids < 32768
  | CaPmtReply reply => Forall byte reply /\ 4 <= zlen reply < 65536 /\ (zlen reply - 4) mod 3 = 0
  | AuthRequest id data => word id /\ Forall byte data /\ zlen data < 65534
  | DvbTune n o t s => word n /\ word o /\ word t /\ word s
  | DvbReplace r p q => byte r /\ 0 <= p < 8192 /\ 0 <= q < 8192
  | DvbClearReplace b | DateTimeEnquiry b | EpgReply b | SmartcardCommand b => byte b
  | TeletextEbu data => Forall byte data /\ zlen data < 65536
  | SmartcardSend CLA INS P1 P2 data l =>
      byte CLA /\ byte INS /\ byte P1 /\ byte P2 /\ Forall byte data /\ zlen data < 65528 /\ word l
  | RmEnquiry | RmChanged => True
  end.

(** The function that is given the message, and the callback it is for. *)
Definition call_function {S} (upcall : Z -> Z -> Z -> app_call -> IO S Z) (a : apps) (c : app_call) :
    Z -> Z -> Z -> list Z -> IO S Z :=
  match c with
  | AiInfo _ _ _ _ => en50221_app_ai_message upcall (the_ai a)
  | RmEnquiry | RmReply _ | RmChanged => en50221_app_rm_message upcall (the_rm a)
  | CaInfo _ | CaPmtReply _ => en50221_app_ca_message upcall (the_ca a)
  | AuthRequest _ _ => en50221_app_auth_message upcall (the_auth a)
  | DvbTune _ _ _ _ | DvbReplace _ _ _ | DvbClearReplace _ => en50221_app_dvb_message upcall (the_dvb a)
  | DateTimeEnquiry _ => en50221_app_datetime_message upcall (the_datetime a)
  | EpgReply _ => en50221_app_epg_message upcall (the_epg a)
  | TeletextEbu _ => en50221_app_teletext_message upcall (the_teletext a)
  | SmartcardCommand _ | SmartcardSend _ _ _ _ _ _ => en50221_app_smartcard_message upcall (the_smartcard a)
  end.

Definition call_callback (a : apps) (c : app_call) : option Z :=
  match c with
  | AiInfo _ _ _ _ => ai_callback (the_ai a)
  | RmEnquiry => rm_enqcallback (the_rm a)
  | RmReply _ => rm_replycallback (the_rm a)
  | RmChanged => rm_changedcallback (the_rm a)
  | CaInfo _ => ca_info_callback (the_ca a)
  | CaPmtReply _ => ca_pmt_reply_callback (the_ca a)
  | AuthRequest _ _ => auth_callback (the_auth a)
  | DvbTune _ _ _ _ => dvb_tune_callback (the_dvb a)
  | DvbReplace _ _ _ => dvb_replace_callback (the_dvb a)
  | DvbClearReplace _ => dvb_clear_replace_callback (the_dvb a)
  | DateTimeEnquiry _ => datetime_callback (the_datetime a)
  | EpgReply _ => epg_callback (the_epg a)
  | TeletextEbu _ => teletext_callback (the_teletext a)
  | SmartcardCommand _ => smartcard_command_callback (the_smartcard a)
  | SmartcardSend _ _ _ _ _ _ => smartcard_send_callback (the_smartcard a)
  end.

(** ** Every message reaches its callback *)

Lemma word_value v : word v -> Z.lor (Z.shiftl (u8 (Z.shiftr v 8)) 8) (u8 v) = v.
Proof.
  intros Hv. unfold word in Hv. rewrite be16 by (unfold byte, u8; apply Z.mod_pos_bound; lia).
  unfold u8. rewrite Z.shiftr_div_pow2 by done. change (2 ^ 8) with 256.
  Z.to_euclidean_division_equations. lia.
Qed.

Lemma word_bytes_bytes v : Forall byte (word_bytes v).
Proof. unfold word_bytes. repeat (apply Forall_cons_2; [apply byte_u8|]). constructor. Qed.

Lemma long_be_bytes v : length (long_be v) = 4%nat /\ Forall byte (long_be v).
Proof.
  unfold long_be. rewrite length_rev, length_le_split. split; [done|]. apply Forall_rev, le_split_bytes.
Qed.

Lemma asn_field_form body :
  zlen body < 65536 ->
  asn_1_form (asn_field body ++ body) (zlen body) (zlen (asn_field body)) /\ Forall byte (asn_field body).
Proof.
  intros Hl. destruct (asn_1_encode_form (zlen body) body) as (lf & He & Hf & Hb & _); [lia|].
  unfold asn_field. by rewrite He.
Qed.

Section Understood.
Context {S : Type} (upcall : Z -> Z -> Z -> app_call -> IO S Z).

Lemma app_message_run c rest (d : Z -> list Z -> IO S Z) w :
  app_message (app_tag (call_tag c) ++ rest) d w = d (call_tag c) rest w.
Proof.
  unfold app_message. rewrite (proj2 (Z.ltb_ge _ _)) by (rewrite length_app; cbn [app_tag length]; lia).
  by destruct c.
Qed.

Lemma asn_message_run min body (parse : Z -> list Z -> IO S Z) w :
  Forall byte body -> min <= zlen body < 65536 ->
  asn_message min (asn_field body ++ body) parse w = parse (zlen body) body w.
Proof.
  intros Hb Hl. destruct (asn_field_form body) as [Hf Hfb]; [lia|]. unfold asn_message.
  rewrite asn_body_run; [done|done|by apply Forall_app|lia].
Qed.

Lemma fixed_message_run short body (parse : list Z -> IO S Z) w :
  zlen body < 128 -> short = false ->
  fixed_message (zlen body) short (asn_field body ++ body) parse w = parse body w.
Proof.
  intros Hl ->. assert (Hf : asn_field body = [zlen body]).
  { unfold asn_field, asn_1_encode. rewrite u16_id by lia. rewrite (proj2 (Z.ltb_lt _ _)) by done.
    cbn [default from_option id]. change 127 with (Z.ones 7). rewrite land_mask, Z.mod_small by lia. done. }
  rewrite Hf. unfold fixed_message. rewrite (io_bind_run _ _ w (zlen body) w) by done.
  by rewrite Z.eqb_refl.
Qed.

Lemma lift_run {A B} (c : res A) (k : A -> IO S B) a w : c = Ok a -> (lift c ≫= k) w = k a w.
Proof. by intros ->. Qed.

(** Reading back fields that are laid out one after the other. *)
Lemma read_rest pre data post (k : list Z * mem -> IO S Z) n p w :
  p = zlen pre -> n = length data ->
  (lift (run_m (ld_bytes p n) (pre ++ data ++ post)) ≫= k) w = k (data, pre ++ data ++ post) w.
Proof.
  intros -> ->. apply lift_run. rewrite ld_run by (rewrite ?length_app; lia). by rewrite (range_at _ _ pre data post).
Qed.

Lemma read_words k ws bs (f : list Z * mem -> IO S Z) n w :
  Forall byte bs -> bs = concat ws -> Forall (λ x, length x = k) ws -> n = length ws ->
  exists m, (lift (run_m (bswap_words k n 0;; ld_words k n 0) bs) ≫= f) w = f (be_combine <$> ws, m) w.
Proof.
  intros Hb -> Hws ->.
  assert (Hl : (k * length ws <= length (concat ws))%nat).
  { clear -Hws. induction Hws as [|x ws Hx _ IH]; [cbn; lia|]. cbn [length concat]. rewrite length_app. lia. }
  destruct (swapped_words_run k (length ws) (concat ws) Hb Hl) as [m Hm]. exists m.
  rewrite (lift_run _ _ _ _ Hm). pose proof (chunks_concat k ws [] Hws) as Hc. rewrite app_nil_r in Hc.
  by rewrite Hc.
Qed.
Context (a : apps) (slot_id n id : Z).

(** What has to be shown of a message. *)
Definition understood (c : app_call) : Prop := forall w,
  call_function upcall a c slot_id n id (call_apdu c) w = tell upcall (call_callback a c) slot_id n c w.

Lemma word_read pre v post i :
  i = zlen pre -> word v -> word_at (pre ++ word_bytes v ++ post) i = Ok v.
Proof. intros -> Hv. unfold word_bytes. cbn [app]. rewrite word_at_run. by rewrite word_value. Qed.

Tactic Notation "open_message" reference(f) :=
  intros w; unfold call_function, call_apdu; cbn [call_callback]; unfold f;
  match goal with |- app_message (app_tag (call_tag ?c) ++ _) _ _ = _ => rewrite (app_message_run c) end;
  cbv beta;
  repeat (match goal with |- (if ?b then _ else _) _ = _ =>
    let v := eval compute in b in change b with v end; cbv iota).

Ltac bytes := repeat first
  [ apply Forall_app; split | apply word_bytes_bytes | apply Forall_cons_2 | apply Forall_nil_2
  | done | unfold byte, word in *; cbn [length] in *; lia ].

Lemma ai_understood t m c menu : call_ok (AiInfo t m c menu) -> understood (AiInfo t m c menu).
Proof.
  intros (Ht & Hm & Hc & Hb & Hl). open_message en50221_app_ai_message. unfold en50221_app_ai_parse_app_info.
  assert (Hlen : zlen (call_body (AiInfo t m c menu)) = 6 + zlen menu)
    by (cbn [call_body word_bytes app length]; lia).
  rewrite asn_message_run; [|cbn [call_body]; bytes|lia].
  rewrite Hlen. cbn [call_body].
  rewrite (lift_run _ _ t) by done.
  rewrite (lift_run _ _ m) by by apply (word_read [t]).
  rewrite (lift_run _ _ c) by (by apply (word_read ([t] ++ word_bytes m))).
  rewrite (lift_run _ _ (zlen menu)) by done. cbv zeta.
  rewrite (proj2 (Z.ltb_ge _ _)) by lia. rewrite Nat2Z.id.
  pose proof (read_rest ([t] ++ word_bytes m ++ word_bytes c ++ [zlen menu]) menu []) as Hr.
  rewrite app_nil_r, <- !app_assoc in Hr. by rewrite Hr.
Qed.

Lemma rm_enquiry_understood : understood RmEnquiry.
Proof. by open_message en50221_app_rm_message. Qed.

Lemma rm_changed_understood : understood RmChanged.
Proof. by open_message en50221_app_rm_message. Qed.

Lemma fields_length {A} (f : A -> list Z) k xs :
  (forall x, length (f x) = k) -> length (concat (f <$> xs)) = (k * length xs)%nat.
Proof.
  intros Hf. induction xs as [|x xs IH]; [cbn; lia|].
  change (concat (f <$> x :: xs)) with (f x ++ concat (f <$> xs)).
  rewrite length_app, Hf, IH. cbn [length]. lia.
Qed.

Lemma fields_bytes {A} (f : A -> list Z) xs :
  (forall x, Forall byte (f x)) -> Forall byte (concat (f <$> xs)).
Proof. intros Hf. apply Forall_concat, Forall_fmap, Forall_true. done. Qed.

Lemma long_be_value v : 0 <= v < 2 ^ 32 -> be_combine (long_be v) = v.
Proof.
  intros Hv. unfold be_combine, long_be. rewrite rev_involutive.
  by apply (le_split_combine 4).
Qed.

Lemma word_bytes_value v : word v -> be_combine (word_bytes v) = v.
Proof.
  intros Hv. unfold word_bytes. rewrite be_combine_two. cbn [le_combine].
  rewrite <- (word_value v Hv) at 3. rewrite be16 by apply byte_u8. lia.
Qed.

Lemma rm_reply_understood ids : call_ok (RmReply ids) -> understood (RmReply ids).
Proof.
  intros [Hids Hl]. open_message en50221_app_rm_message. unfold en50221_app_rm_parse_profile_reply.
  assert (Hlen : length (concat (long_be <$> ids)) = (4 * length ids)%nat)
    by (apply fields_length; intros; apply long_be_bytes).
  assert (Hb : Forall byte (concat (long_be <$> ids)))
    by (apply fields_bytes; intros; apply long_be_bytes).
  rewrite asn_message_run; cbn [call_body]; [|done|lia]. cbv zeta.
  destruct (read_words 4 (long_be <$> ids) (concat (long_be <$> ids))
    (λ '(ws, _), tell upcall (rm_replycallback (the_rm a)) slot_id n (RmReply ws))
    (Z.to_nat (zlen (concat (long_be <$> ids)) / 4)) w Hb eq_refl) as [m Hr].
  - apply Forall_fmap, Forall_true. intros x. apply long_be_bytes.
  - rewrite length_fmap, Hlen. replace (Z.of_nat (4 * length ids)) with (zlen ids * 4) by lia.
    rewrite Z.div_mul by done. lia.
  - etransitivity; [exact Hr|]. do 2 f_equal. rewrite <- list_fmap_compose.
    rewrite <- (list_fmap_id ids) at 2. apply list_fmap_ext. intros i x Hx. cbn.
    apply long_be_value. by apply (Forall_lookup_1 _ _ _ _ Hids Hx).
Qed.

Lemma ca_info_understood ids : call_ok (CaInfo ids) -> understood (CaInfo ids).
Proof.
  intros [Hids Hl]. open_message en50221_app_ca_message. unfold en50221_app_ca_parse_info.
  assert (Hlen : length (concat (word_bytes <$> ids)) = (2 * length ids)%nat) by by apply fields_length.
  assert (Hb : Forall byte (concat (word_bytes <$> ids))) by apply fields_bytes, word_bytes_bytes.
  rewrite asn_message_run; cbn [call_body]; [|done|lia]. cbv zeta.
  destruct (read_words 2 (word_bytes <$> ids) (concat (word_bytes <$> ids))
    (λ '(ws, _), tell upcall (ca_info_callback (the_ca a)) slot_id n (CaInfo ws))
    (Z.to_nat (zlen (concat (word_bytes <$> ids)) / 2)) w Hb eq_refl) as [m Hr].
  - by apply Forall_fmap, Forall_true.
  - rewrite length_fmap, Hlen. replace (Z.of_nat (2 * length ids)) with (zlen ids * 2) by lia.
    rewrite Z.div_mul by done. lia.
  - etransitivity; [exact Hr|]. do 2 f_equal. rewrite <- list_fmap_compose.
    rewrite <- (list_fmap_id ids) at 2. apply list_fmap_ext. intros i x Hx. cbn.
    apply word_bytes_value. by apply (Forall_lookup_1 _ _ _ _ Hids Hx).
Qed.

Lemma auth_understood i data : call_ok (AuthRequest i data) -> understood (AuthRequest i data).
Proof.
  intros (Hi & Hb & Hl). open_message en50221_app_auth_message. unfold en50221_app_auth_parse_request.
  assert (Hlen : zlen (call_body (AuthRequest i data)) = 2 + zlen data)
    by (cbn [call_body word_bytes app length]; lia).
  rewrite asn_message_run; [|cbn [call_body]; bytes|lia]. rewrite Hlen. cbn [call_body].
  rewrite (lift_run _ _ i) by by apply (word_read []).
  pose proof (read_rest (word_bytes i) data []) as Hr. rewrite app_nil_r in Hr. rewrite Hr; [done..|lia].
Qed.

Lemma tune_understood o p q r : call_ok (DvbTune o p q r) -> understood (DvbTune o p q r).
Proof.
  intros (Ho & Hp & Hq & Hr). open_message en50221_app_dvb_message. unfold en50221_app_dvb_parse_tune.
  rewrite (fixed_message_run _ (call_body (DvbTune o p q r))) by done. cbn [call_body].
  rewrite (lift_run _ _ o) by by apply (word_read []).
  rewrite (lift_run _ _ p) by by apply (word_read (word_bytes o)).
  rewrite (lift_run _ _ q) by by apply (word_read (word_bytes o ++ word_bytes p)).
  pose proof (word_read (word_bytes o ++ word_bytes p ++ word_bytes q) r []) as Hw.
  rewrite app_nil_r, <- !app_assoc in Hw. by rewrite (lift_run _ _ r) by by apply Hw.
Qed.

Lemma pid_value r p : 0 <= r < 8 -> 0 <= p < 8192 ->
  Z.lor (Z.shiftl (Z.land (u8 (Z.shiftr (r * 8192 + p) 8)) 0x1f) 8) (u8 (r * 8192 + p)) = p.
Proof.
  intros Hr Hp. replace (Z.land (u8 (Z.shiftr (r * 8192 + p) 8)) 0x1f) with (u8 (Z.shiftr p 8)).
  - replace (u8 (r * 8192 + p)) with (u8 p); [apply word_value; unfold word; lia|].
    unfold u8. Z.to_euclidean_division_equations. lia.
  - change 0x1f with (Z.ones 5). rewrite land_mask by lia. unfold u8. rewrite !Z.shiftr_div_pow2 by done.
    change (2 ^ 8) with 256. change (2 ^ 5) with 32. Z.to_euclidean_division_equations. lia.
Qed.

Lemma replace_understood r1 r2 r p q : 0 <= r1 < 8 -> 0 <= r2 < 8 -> call_ok (DvbReplace r p q) -> forall w,
  call_function upcall a (DvbReplace r p q) slot_id n id (reserved_apdu r1 r2 (DvbReplace r p q)) w =
  tell upcall (call_callback a (DvbReplace r p q)) slot_id n (DvbReplace r p q) w.
Proof.
  intros H1 H2 (Hr & Hp & Hq). unfold reserved_apdu. open_message en50221_app_dvb_message.
  unfold en50221_app_dvb_parse_replace.
  rewrite (fixed_message_run _ (reserved_body r1 r2 (DvbReplace r p q))) by done. cbn [reserved_body pid_bytes].
  rewrite (lift_run _ _ r) by done. do 4 (erewrite lift_run by done). cbv zeta.
  by rewrite !pid_value.
Qed.

Lemma one_byte_understood c b :
  call_ok c -> c = DvbClearReplace b \/ c = DateTimeEnquiry b \/ c = EpgReply b \/ c = SmartcardCommand b ->
  understood c.
Proof.
  intros Hb [-> |[-> |[-> | ->]]].
  - open_message en50221_app_dvb_message. unfold en50221_app_dvb_parse_clear_replace.
    by rewrite (fixed_message_run _ [b]) by done.
  - open_message en50221_app_datetime_message. unfold en50221_app_datetime_parse_enquiry.
    by rewrite (fixed_message_run _ [b]) by done.
  - open_message en50221_app_epg_message. unfold en50221_app_epg_parse_reply.
    by rewrite (fixed_message_run _ [b]) by done.
  - open_message en50221_app_smartcard_message. unfold en50221_app_smartcard_parse_command.
    by rewrite (fixed_message_run _ [b]) by done.
Qed.

Lemma teletext_understood data : call_ok (TeletextEbu data) -> understood (TeletextEbu data).
Proof.
  intros (Hb & Hl). open_message en50221_app_teletext_message. unfold en50221_app_teletext_parse_ebu.
  rewrite asn_message_run; cbn [call_body]; [|done|lia].
  pose proof (read_rest [] data []) as Hr. rewrite app_nil_r in Hr. rewrite Hr; [done..|lia].
Qed.

Lemma smartcard_send_understood CLA INS P1 P2 data l :
  call_ok (SmartcardSend CLA INS P1 P2 data l) -> understood (SmartcardSend CLA INS P1 P2 data l).
Proof.
  intros (H0 & H1 & H2 & H3 & Hb & Hl & Hw). open_message en50221_app_smartcard_message.
  unfold en50221_app_smartcard_parse_send.
  set (pre := [CLA; INS; P1; P2] ++ word_bytes (zlen data)).
  assert (Hlen : zlen (call_body (SmartcardSend CLA INS P1 P2 data l)) = 8 + zlen data)
    by (cbn [call_body]; rewrite !length_app; cbn [word_bytes length]; lia).
  rewrite asn_message_run; [|cbn [call_body]; bytes|lia]. rewrite Hlen. cbn [call_body].
  do 4 (erewrite lift_run by done).
  rewrite (lift_run _ _ (zlen data)) by (apply (word_read [CLA; INS; P1; P2]); [done|unfold word; lia]).
  rewrite (proj2 (Z.eqb_eq _ _)) by lia. cbn [negb]. rewrite Nat2Z.id.
  change ([CLA; INS; P1; P2] ++ word_bytes (zlen data) ++ data ++ word_bytes l) with
    (pre ++ data ++ word_bytes l).
  rewrite (read_rest pre data (word_bytes l)) by done.
  pose proof (word_read (pre ++ data) l []) as Hr. rewrite app_nil_r, <- app_assoc in Hr.
  rewrite (lift_run _ _ l) by (apply Hr; [unfold pre; rewrite !length_app; cbn [word_bytes length]; lia|done]).
  done.
Qed.

Lemma swap_reply_involutive w : length w = 3%nat -> swap_reply (swap_reply w) = w.
Proof. by destruct w as [|x [|y [|z [|? ?]]]]. Qed.

Lemma swap_reply_bytes w : length w = 3%nat /\ Forall byte w -> length (swap_reply w) = 3%nat /\ Forall byte (swap_reply w).
Proof.
  intros [Hl Hb]. destruct w as [|x [|y [|z [|? ?]]]]; try done. rewrite !Forall_cons_iff in Hb.
  destruct Hb as (? & ? & ? & _). split; [done|]. cbn. by repeat apply Forall_cons_2.
Qed.

Lemma chunks_bytes k j l : Forall byte l -> Forall (Forall byte) (chunks k j l).
Proof.
  revert l. induction j as [|j IH]; intros l Hb; cbn [chunks]; [constructor|].
  constructor; [by apply Forall_take|]. by apply IH, Forall_drop.
Qed.

Lemma ca_reply_understood reply : call_ok (CaPmtReply reply) -> understood (CaPmtReply reply).
Proof.
  intros (Hb & Hl & Hmod). open_message en50221_app_ca_message. unfold en50221_app_ca_parse_reply.
  destruct reply as [|h1 [|h0 [|h2 [|h3 rest]]]]; try (cbn [length] in Hl; lia).
  rewrite !Forall_cons_iff in Hb. destruct Hb as (H1 & H0 & H2 & H3 & Hb). cbn [length] in Hl, Hmod.
  set (k := (length rest / 3)%nat). set (ws := chunks 3 k rest).
  assert (Hk : length rest = (3 * k)%nat).
  { unfold k. pose proof (Nat.div_mod_eq (length rest) 3). enough (length rest mod 3 = 0)%nat by lia.
    apply Nat2Z.inj. rewrite Nat2Z.inj_mod. change (Z.of_nat 0) with 0. rewrite <- Hmod. f_equal. lia. }
  destruct (chunks_lengths 3 k rest) as [Hc1 Hc2]; [lia|].
  assert (Hws : Forall (λ w, length w = 3%nat /\ Forall byte w) ws).
  { apply List.Forall_and; [done|by apply chunks_bytes]. }
  assert (Hsw : Forall (λ w, length w = 3%nat /\ Forall byte w) (swap_reply <$> ws)).
  { apply Forall_fmap. eapply Forall_impl; [|exact Hws]. intros x. apply swap_reply_bytes. }
  assert (Hcat : concat ws = rest) by (unfold ws; rewrite chunks_take by lia; rewrite <- Hk; by apply take_ge).
  assert (Hlen : length (concat (swap_reply <$> ws)) = length rest).
  { rewrite <- Hcat. clear -Hws. induction Hws as [|x ws Hx _ IH]; [done|].
    change (concat (swap_reply <$> x :: ws)) with (swap_reply x ++ concat (swap_reply <$> ws)).
    cbn [concat]. rewrite !length_app, IH. f_equal. destruct (swap_reply_bytes x Hx) as [E _]. lia. }
  assert (Hbody : zlen (call_body (CaPmtReply (h1 :: h0 :: h2 :: h3 :: rest))) = 4 + zlen rest).
  { cbn [call_body wire_reply app length]. fold k ws. rewrite Hlen. lia. }
  rewrite asn_message_run; [| |lia].
  2: { cbn [call_body wire_reply app]. fold k ws. repeat (apply Forall_cons_2; [done|]).
    apply Forall_concat. eapply Forall_impl; [|exact Hsw]. by intros x [_ ?]. }
  rewrite Hbody. cbn [call_body wire_reply]. fold k ws.
  destruct (ca_reply_run h0 h1 h2 h3 (swap_reply <$> ws) [] [] (4 + zlen rest) H0 H1 Hsw) as [p Hr];
    [by left|constructor| |].
  { rewrite length_fmap. unfold ws. rewrite Hc1. cbn [length]. lia. }
  rewrite app_nil_r in Hr. rewrite (lift_run _ _ _ _ Hr). do 2 f_equal.
  assert (Hinv : swap_reply <$> (swap_reply <$> ws) = ws).
  { rewrite <- list_fmap_compose. rewrite <- (list_fmap_id ws) at 2. apply list_fmap_ext.
    intros i x Hx. apply swap_reply_involutive. by apply (Forall_lookup_1 _ _ _ _ Hc2 Hx). }
  rewrite Hinv, Hcat. cbn [rev app]. rewrite !app_nil_r. apply take_ge. cbn [length]. lia.
Qed.

Lemma every_call_understood c : call_ok c -> understood c.
Proof.
  intros Hc. destruct c; try (by eapply one_byte_understood; eauto).
  - by apply ai_understood.
  - apply rm_enquiry_understood.
  - by apply rm_reply_understood.
  - apply rm_changed_understood.
  - by apply ca_info_understood.
  - by apply ca_reply_understood.
  - by apply auth_understood.
  - by apply tune_understood.
  - intros w. by apply (replace_understood 0 0).
  - by apply teletext_understood.
  - by apply smartcard_send_understood.
Qed.
End Understood.

(** ** What is sent *)

Lemma long_bytes_be v : 0 <= v < 2 ^ 32 -> long_bytes v = long_be v.
Proof.
  intros Hv. unfold long_bytes, bswap_n, long_be. rewrite (le_split_combine 4) by done.
  pose proof (long_be_bytes v) as [Hl Hb]. unfold long_be in Hl, Hb. rewrite <- Hl at 1.
  by rewrite le_combine_split.
Qed.

(** The message of a call is an APDU. *)
Lemma call_apdu_is_apdu c : Forall byte (call_body c) -> zlen (call_body c) < 65536 -> is_apdu (call_apdu c).
Proof.
  intros Hb Hl. destruct (asn_field_form (call_body c) Hl) as [Hf Hlf].
  exists (app_tag (call_tag c)), (asn_field (call_body c)), (call_body c). split_and!; [done..|].
  unfold call_apdu. apply Forall_app. split; [|by apply Forall_app].
  unfold app_tag. repeat (apply Forall_cons_2; [by destruct c|]). constructor.
Qed.

Lemma rm_reply_body ids :
  zlen (call_body (RmReply ids)) = 4 * zlen ids /\ Forall byte (call_body (RmReply ids)).
Proof.
  cbn [call_body]. split; [|apply fields_bytes; intros; apply long_be_bytes].
  rewrite (fields_length long_be 4) by (intros; apply long_be_bytes). lia.
Qed.

(** The reply of a resource manager is the message that says the profile. *)
Lemma rm_reply_run {S} (send_datav : Z -> list (list Z) -> IO S Z) n ids :
  Forall (λ id, 0 <= id < 2 ^ 32) ids -> zlen ids < 16384 ->
  en50221_app_rm_reply send_datav n ids =
  send_datav n [app_tag TAG_PROFILE ++ asn_field (call_body (RmReply ids)); call_body (RmReply ids)].
Proof.
  intros Hids Hl. destruct (rm_reply_body ids) as [Hlen _].
  unfold en50221_app_rm_reply. rewrite u32_id by lia. replace (zlen ids * 4) with (4 * zlen ids) by lia.
  unfold asn_field. rewrite Hlen.
  destruct (asn_1_encode_form (4 * zlen ids) []) as (lf & -> & _); [lia|]. cbn [default from_option id].
  assert (E : concat (long_bytes <$> ids) = call_body (RmReply ids)).
  { cbn [call_body]. f_equal. apply list_fmap_ext. intros i x Hx. apply long_bytes_be.
    by apply (Forall_lookup_1 _ _ _ _ Hids Hx). }
  rewrite E. by rewrite take_ge by lia.
Qed.

(** ** Properties *)


(** C29: Every message of application information, the resource manager, conditional access, authentication, DVB
    control, date and time, EPG, teletext and smart cards that a module sends (MMI and low speed communication
    have theorems of their own), whatever is in its reserved bits, calls the callback that is registered for it,
    with exactly the values that the message encodes. *)
Theorem messages_understood {S} (upcall : Z -> Z -> Z -> app_call -> IO S Z) a slot_id n id r1 r2 c w :
  0 <= r1 < 8 -> 0 <= r2 < 8 -> call_ok c ->
  call_function upcall a c slot_id n id (reserved_apdu r1 r2 c) w = tell upcall (call_callback a c) slot_id n c w.
Proof.
  intros H1 H2 Hc. assert (E : understood upcall a slot_id n id c) by by apply every_call_understood.
  destruct c; try exact (E w). by apply replace_understood.
Qed.

(** A profile that one side sends on a session arrives at the resource manager of the other side
    through all layers: the reply is queued as one TPDU, written by the next poll, and a receiver whose
    session belongs to its resource manager calls the reply callback with exactly the resource ids. *)
Theorem profile_exchanged {S} `{HT : HasTransport S} `{!TransportLaws S} `{HS : HasSessions S}
    `{!SessionLaws S} e up uninit upcall rm n slot_id con resource_id cb ids c hndl num (w : world S) :
  (forall k, e_malloc e k = true) -> (forall k, 0 <= e_write e k) -> byte con -> 0 <= n < 65536 ->
  session_at (get_sl (w_state w)) n = Some (Session S_STATE_ACTIVE resource_id slot_id con cb) ->
  n < sl_max_sessions (get_sl (w_state w)) ->
  connection_up (get_tl (w_state w)) slot_id con c hndl num -> connection_ok c ->
  c_send_queue c = [] -> (c_tx_time c).1 = 0 ->
  Forall (λ id, 0 <= id < 2 ^ 32) ids -> zlen ids < 16380 ->
  (forall arg slot_id n id apdu,
     up_resource up arg slot_id n id apdu = en50221_app_rm_message upcall rm slot_id n id apdu) ->
  let apdu := call_apdu (RmReply ids) in
  exists w1 w2, en50221_app_rm_reply (en50221_sl_send_datav e) n ids w = Ok (0, w1) /\
    poll_send e slot_id con w1 = Ok (0, w2) /\
    w_log w2 = w_log w ++ [Written hndl (num :: con :: tpdu T_DATA_LAST con (package n apdu))] /\
    forall sl_arg slot_id' resource_id' arg c' (v : world S),
      con < tl_max_connections_per_slot (get_tl (w_state v)) ->
      tl_callback (get_tl (w_state v)) = Some sl_arg ->
      connection_at (get_tl (w_state v)) slot_id' con = Some c' ->
      c_state c' = T_STATE_ACTIVE -> c_chain c' = NoChain ->
      session_open (get_sl (w_state v)) n slot_id' con resource_id' arg ->
      exists v', w_log v' = w_log v ++
          [Called sl_arg T_CALLBACK_REASON_DATA (package n apdu) slot_id' con;
           ResourceCalled arg slot_id' n resource_id' apdu] /\
        en50221_tl_process_data e (en50221_sl_transport_callback e up uninit) slot_id'
          (tpdu T_DATA_LAST con (package n apdu)) v =
        (tell upcall (rm_replycallback rm) slot_id' n (RmReply ids);; mret 0) v'.
Proof.
  intros Hm Hw Hcon Hn Hat Hmax Hup Hok Hq Htx Hids Hl Hup_rm. cbv zeta.
  destruct (rm_reply_body ids) as [Hlen Hb]. rewrite rm_reply_run by (done || lia).
  set (vector := [_; _]).
  assert (Ev : concat vector = call_apdu (RmReply ids)).
  { unfold vector. cbn [concat]. rewrite app_nil_r, <- app_assoc. done. }
  assert (Hlf : zlen (asn_field (call_body (RmReply ids))) <= 3).
  { unfold asn_field. destruct (asn_1_encode_form (zlen (call_body (RmReply ids))) []) as (lf & -> & _ & _ & ?);
      [lia|]. cbn [default from_option id]. lia. }
  assert (El : zlen (call_apdu (RmReply ids)) < 65527).
  { unfold call_apdu. rewrite !length_app. cbn [app_tag length]. lia. }
  destruct (sl_sendv_run e Hm n slot_id con resource_id cb vector c hndl num w) as (w1 & Hr1 & Hq1);
    try done; [by rewrite Ev; lia|].
  rewrite Ev in Hq1.
  destruct (queued_package_exchanged e up uninit n slot_id con (call_apdu (RmReply ids)) c hndl num w w1)
    as (w2 & Hl1 & Hr2 & Hl2 & Hrcv); try done; [apply call_apdu_is_apdu; [done|lia]|].
  exists w1, w2. split_and!; [done..|]. intros sl_arg slot_id' resource_id' arg c' v Hc1 Hc2 Hc3 Hc4 Hc5 Hopen.
  destruct (Hrcv sl_arg slot_id' resource_id' arg c' v Hc1 Hc2 Hc3 Hc4 Hc5 Hopen) as (v' & Hlog & Hrun).
  exists (World (w_state v') (w_tick v')
    (w_log v' ++ [ResourceCalled arg slot_id' n resource_id' (call_apdu (RmReply ids))])).
  split; [cbn; by rewrite Hlog, <- app_assoc|]. rewrite Hrun. cbn [resource_calls].
  rewrite !bind_assoc_run. unfold log_event at 1. unfold mbind at 1, io_bind at 1.
  rewrite !bind_assoc_run. rewrite Hup_rm. set (v2 := World _ _ _).
  assert (Hu : en50221_app_rm_message upcall rm slot_id' n resource_id' (call_apdu (RmReply ids)) v2 =
    tell upcall (rm_replycallback rm) slot_id' n (RmReply ids) v2).
  { apply (every_call_understood upcall (Apps (AppAi None) rm (AppCa None None) (AppAuth None)
      (AppDvb None None None) (AppDatetime None) (AppEpg None) (AppTeletext None) (AppSmartcard None None))
      slot_id' n resource_id' (RmReply ids)). split; [done|lia]. }
  unfold mbind, io_bind. rewrite Hu. by destruct (tell _ _ _ _ _ v2) as [[]|].
Qed.

(** *** Witnesses *)

(** Callbacks that log what they are told. *)
Definition recording {S} (arg slot_id n : Z) (c : app_call) : IO S Z :=
  log_event (ResourceCalled arg slot_id n (call_tag c) (call_body c));; mret 0.

Definition demo_apps : apps :=
  Apps (AppAi (Some 1)) (AppRm (Some 2) (Some 3) (Some 4)) (AppCa (Some 5) (Some 6)) (AppAuth (Some 7))
    (AppDvb (Some 8) (Some 9) (Some 10)) (AppDatetime (Some 11)) (AppEpg (Some 12)) (AppTeletext (Some 13))
    (AppSmartcard (Some 14) (Some 15)).


Lemma messages_understood_witness :
  call_function recording demo_apps (DvbReplace 9 0x1ABC 0x123) 0 1 0
    ([0x9F; 0x84; 0x01; 5] ++ [9; 0xFA; 0xBC; 0xA1; 0x23]) (World tt 0 []) =
  tell recording (call_callback demo_apps (DvbReplace 9 0x1ABC 0x123)) 0 1 (DvbReplace 9 0x1ABC 0x123) (World tt 0 []).
Proof.
  apply (messages_understood (S := unit) recording demo_apps 0 1 0 7 5 (DvbReplace 9 0x1ABC 0x123)); [lia|lia|].
  split_and!; unfold byte; lia.
Defined.

Definition profile_upper : upper_layer (transport_layer * session_layer) :=
  Upper _ (λ _ _ id, mret (0, Some 60, Some id)) (λ _ _ _ _ _, mret 0)
    (λ _ slot_id n id apdu, en50221_app_rm_message recording (the_rm demo_apps) slot_id n id apdu).

Lemma profile_exchanged_witness :
  let apdu := [0x9F; 0x80; 0x11; 8; 0; 1; 0; 0x41; 0; 2; 0; 0x41] in
  exists w1 w2, en50221_app_rm_reply (en50221_sl_send_datav demo_env) 1 [0x10041; 0x20041] both_ready = Ok (0, w1) /\
    poll_send demo_env 0 1 w1 = Ok (0, w2) /\
    w_log w2 = [Written 5 (3 :: 1 :: tpdu T_DATA_LAST 1 (package 1 apdu))] /\
    forall sl_arg slot_id' resource_id' arg c' (v : world (transport_layer * session_layer)),
      1 < tl_max_connections_per_slot (get_tl (w_state v)) ->
      tl_callback (get_tl (w_state v)) = Some sl_arg ->
      connection_at (get_tl (w_state v)) slot_id' 1 = Some c' ->
      c_state c' = T_STATE_ACTIVE -> c_chain c' = NoChain ->
      session_open (get_sl (w_state v)) 1 slot_id' 1 resource_id' arg ->
      exists v', w_log v' = w_log v ++
          [Called sl_arg T_CALLBACK_REASON_DATA (package 1 apdu) slot_id' 1;
           ResourceCalled arg slot_id' 1 resource_id' apdu] /\
        en50221_tl_process_data demo_env (en50221_sl_transport_callback demo_env profile_upper 0) slot_id'
          (tpdu T_DATA_LAST 1 (package 1 apdu)) v =
        (tell recording (Some 3) slot_id' 1 (RmReply [0x10041; 0x20041]);; mret 0) v'.
Proof.
  refine (profile_exchanged demo_env profile_upper 0 recording (the_rm demo_apps) 1 0 1 65601 (Some 60)
    [0x10041; 0x20041] (ready_connection []) 5 3 both_ready _ _ _ _ _ _ _ _ _ _ _ _ _); try done.
  - apply both_ready_up.
  - apply ready_ok.
  - repeat (apply Forall_cons_2; [lia|]). constructor.
Defined.

(** ** Where the code goes wrong *)

(** A reply of five bytes: its last byte is swapped with the byte behind the APDU. *)
Example ca_reply_overruns :
  en50221_app_ca_message (S := unit) recording (the_ca demo_apps) 0 1 0
    [0x9F; 0x80; 0x33; 5; 0; 1; 7; 0x81; 0xE1] (World tt 0 []) = Err OutOfBounds.
Proof. reflexivity. Qed.

(** A reply to a smart card command sends six bytes of the caller's data, and no header. *)
Example smartcard_reply_without_header :
  en50221_app_smartcard_command_reply (S := unit)
    (λ n v, log_event (Written n (concat v));; mret 0) 0 1 0x01 0 [1; 2; 3; 4; 5; 6; 7] (World tt 0 []) =
  Ok (0, World tt 0 [Written 1 [1; 2; 3; 4; 5; 6]]).
Proof. reflexivity. Qed.

(** An answer to reset is sent with an uninitialised length field, and the length field is written over
    the fourth byte of the answer. *)
Example smartcard_reset_overwritten :
  en50221_app_smartcard_command_reply (S := unit)
    (λ n v, log_event (Written n (concat v));; mret 0) 0xEE 1 0x04 0 [1; 2; 3; 4; 5; 6] (World tt 0 []) =
  Ok (0, World tt 0 [Written 1 [0x9F; 0x8E; 0x01; 0xEE; 0x04; 0; 1; 2; 3; 8; 5; 6]]).
Proof. reflexivity. Qed.

(** 16384 resource ids have a length of 65536, whose length field says 0. *)
Example profile_length_wraps : asn_1_encode (u32 (16384 * 4)) 3 = Some [0].
Proof. reflexivity. Qed.

(** ** Messages on the wire

    What a tag and a length field of [asn_1_encode] are read as; shared by the properties of low speed
    communication and of MMI. *)

(** The three bytes of a tag make the tag. *)
Lemma tag_combine tag : 0 <= tag < 2 ^ 24 ->
  Z.lor (Z.lor (Z.shiftl (Z.land (Z.shiftr tag 16) 255) 16)
    (Z.shiftl (Z.land (Z.shiftr tag 8) 255) 8)) (Z.land tag 255) = tag.
Proof.
  intros Ht. rewrite !land_ff, !Z.shiftr_div_pow2, <- (Z.shiftl_shiftl _ 8 8), <- Z.shiftl_lor by lia.
  rewrite (Z.lor_comm _ (tag mod 256)), lor_add by (lia || by apply Z.mod_pos_bound).
  rewrite (Z.lor_comm (Z.shiftl _ 8)), lor_add by (lia || by apply Z.mod_pos_bound).
  change (2 ^ 8) with 256. change (2 ^ 16) with 65536. change (2 ^ 24) with 16777216 in Ht.
  Z.to_euclidean_division_equations; lia.
Qed.

Lemma app_message_tag {S} tag rest (d : Z -> list Z -> IO S Z) w :
  0 <= tag < 2 ^ 24 -> app_message (app_tag tag ++ rest) d w = d tag rest w.
Proof.
  intros Ht. unfold app_message.
  rewrite (proj2 (Z.ltb_ge _ _)) by (rewrite length_app; cbn [app_tag length]; lia).
  rewrite (io_bind_run _ _ w (Z.land (Z.shiftr tag 16) 255) w) by done.
  rewrite (io_bind_run _ _ w (Z.land (Z.shiftr tag 8) 255) w) by done.
  rewrite (io_bind_run _ _ w (Z.land tag 255) w) by done. by rewrite tag_combine.
Qed.

Lemma app_tag_bytes tag : Forall byte (app_tag tag).
Proof.
  unfold app_tag. rewrite !land_ff. repeat (apply Forall_cons; [by apply Z.mod_pos_bound|]). apply Forall_nil.
Qed.

(** A length field, its body, and what is behind it. *)
Lemma asn_decode_field body post :
  Forall byte body -> Forall byte post -> zlen body < 65536 ->
  asn_1_decode (asn_field body ++ body ++ post) (zlen (asn_field body ++ body ++ post)) =
  Ok (Some (zlen body, zlen (asn_field body))).
Proof.
  intros Hb Hp Hl. destruct (asn_1_encode_form (zlen body) (body ++ post)) as (lf & He & Hf & Hlf & _); [lia|].
  unfold asn_field. rewrite He. cbn [default]. 
  destruct (asn_1_decode_run (lf ++ body ++ post)) as (r & Hr & Hiff); [by rewrite !Forall_app|].
  apply Hiff in Hf as ->. exact Hr.
Qed.

Lemma asn_field_bytes body : zlen body < 65536 -> Forall byte (asn_field body).
Proof. intros Hl. by apply asn_field_form. Qed.

(** An environment where there is always memory. *)
Definition always : env := Env (λ _, true) (λ _, 0) (λ _, None) (λ _, (0, 0)) (λ _, (0, [])).
