(* ===== verification/En50221Fragments.v ===== *)
(** * Messages in fragments: what low speed communication and MMI share

    Both resources keep a linked list of sessions, and in each session the fragments of messages that are
    not complete.  The file holds the operations on such lists, and the growth of a chain of fragments
    with [realloc] and [memcpy]. *)

From S2P Require Export En50221App.

(** ** Lists of sessions *)

Section Sessions.
Context {A : Type} (number : A -> Z).

(** [while (cur_s) { if (cur_s->session_number == session_number) break; cur_s = cur_s->next; }] *)
Fixpoint find_session (session_number : Z) (sessions : list A) : option A :=
  match sessions with
  | [] => None
  | cur_s :: next =>
      if number cur_s =? session_number then Some cur_s else find_session session_number next
  end.

(** A change of the session that is found. *)
Fixpoint update_session (session_number : Z) (f : A -> A) (sessions : list A) : list A :=
  match sessions with
  | [] => []
  | cur_s :: next =>
      if number cur_s =? session_number then f cur_s :: next
      else cur_s :: update_session session_number f next
  end.

(** Unlinking the session that is found. *)
Fixpoint unlink_session (session_number : Z) (sessions : list A) : list A :=
  match sessions with
  | [] => []
  | cur_s :: next =>
      if number cur_s =? session_number then next else cur_s :: unlink_session session_number next
  end.

Lemma find_session_number n ss s : find_session n ss = Some s -> number s = n.
Proof.
  induction ss as [|c ss IH]; cbn [find_session]; [done|].
  destruct (Z.eqb_spec (number c) n); [|done]. by intros [= <-].
Qed.

Lemma find_update n m f ss : (forall s, number (f s) = number s) ->
  find_session m (update_session n f ss) =
  if m =? n then f <$> find_session n ss else find_session m ss.
Proof.
  intros Hf. induction ss as [|c ss IH]; cbn [find_session update_session]; [by destruct (m =? n)|].
  destruct (Z.eqb_spec (number c) n) as [E|E]; cbn [find_session].
  - rewrite Hf, E. destruct (Z.eqb_spec m n) as [->|Hmn]; [by rewrite Z.eqb_refl|].
    by rewrite (proj2 (Z.eqb_neq n m)) by congruence.
  - rewrite IH. destruct (Z.eqb_spec m n) as [->|Hmn]; [|done].
    by rewrite (proj2 (Z.eqb_neq _ _) E).
Qed.

Lemma Forall_update (P : A -> Prop) n f ss :
  Forall P ss -> (forall s, P s -> P (f s)) -> Forall P (update_session n f ss).
Proof.
  intros H Hf. induction H as [|s ss Hs H IH]; cbn [update_session]; [constructor|].
  case_if; apply Forall_cons; auto.
Qed.

Lemma Forall_unlink (P : A -> Prop) n ss : Forall P ss -> Forall P (unlink_session n ss).
Proof.
  intros H. induction H as [|s ss Hs H IH]; cbn [unlink_session]; [constructor|].
  case_if; [done|by apply Forall_cons].
Qed.

Lemma Forall_find (P : A -> Prop) n ss s : Forall P ss -> find_session n ss = Some s -> P s.
Proof.
  induction 1 as [|c ss Hc H IH]; cbn [find_session]; [done|]. case_if; [by intros [= <-]|done].
Qed.
End Sessions.

(** ** Chains of fragments *)

Definition chain_length (ch : chain) : Z := match ch with Chain bs => zlen bs | _ => 0 end.

(** Memory from a pointer on, and the length the code has for it. *)
Definition slice : Type := list Z * Z.

(** Reading all of it. *)
Definition read_slice (s : slice) : res (list Z) :=
  if zlen s.1 <? s.2 then Err OutOfBounds else Ok (take (Z.to_nat s.2) s.1).

Section Chains.
Context {S : Type} (e : env).

(** [realloc]: what the new memory starts with; [None] is NULL. *)
Definition realloc (ch : chain) (size : Z) : IO S (option (list Z)) :=
  match ch with
  | Dangling => io_fault BadPointer
  | NoChain => ok ← malloc e; mret (if ok : bool then Some [] else None)
  | Chain old =>
      if size =? 0 then mret None
      else ok ← malloc e; mret (if ok : bool then Some old else None)
  end.

(** What the pointer is after [realloc] has returned NULL: [realloc(p, 0)] frees [p]. *)
Definition after_failed_realloc (ch : chain) (size : Z) : chain :=
  match ch with
  | Chain old => if size =? 0 then Dangling else ch
  | _ => ch
  end.

(** [free] of a pointer that is not NULL. *)
Definition free_chain (ch : chain) : IO S unit :=
  match ch with Dangling => io_fault BadPointer | _ => mret tt end.

(** [new_data = realloc(block_chain, block_length + data_length)], and if it is not NULL
    [memcpy(new_data + block_length, data, data_length)]. *)
Definition append_block (ch : chain) (data : slice) : IO S (option (list Z)) :=
  let size := u32 (chain_length ch + data.2) in
  new_data ← realloc ch size;
  match new_data with
  | None => mret None
  | Some old =>
      if (size <? zlen old + data.2) || (zlen data.1 <? data.2) then io_fault OutOfBounds
      else mret (Some (old ++ take (Z.to_nat data.2) data.1))
  end.

Definition chain_after_block (ch : chain) (data : slice) : chain :=
  after_failed_realloc ch (u32 (chain_length ch + data.2)).
End Chains.

(** ** Specification: reassembly as a step relation

    A message is for a key (a session, or one kind of message of a session), and is the last of its
    fragments or not.  What is pending for each key is the only state. *)

Section Exchange.
Context {K C : Type} `{EqDecision K}.

Record fragment := Fragment { fr_key : K; fr_last : bool; fr_data : list Z }.

(** The call that a complete message leads to. *)
Context (complete : K -> list Z -> C -> Prop).

Definition pending_set (p : K -> list Z) (k : K) (bs : list Z) : K -> list Z :=
  λ k', if decide (k' = k) then bs else p k'.

Inductive exchange : (K -> list Z) -> list fragment -> list (K * C) -> (K -> list Z) -> Prop :=
  | exchange_end p : exchange p [] [] p
  | exchange_more p k data ms cs p' :
      Forall byte data -> data <> [] -> zlen data < 65536 -> zlen (p k) + zlen data < 2 ^ 32 ->
      exchange (pending_set p k (p k ++ data)) ms cs p' ->
      exchange p (Fragment k false data :: ms) cs p'
  | exchange_last p k data c ms cs p' :
      Forall byte data -> zlen data < 65536 -> zlen (p k) + zlen data < 2 ^ 32 -> complete k (p k ++ data) c ->
      exchange (pending_set p k []) ms cs p' ->
      exchange p (Fragment k true data :: ms) ((k, c) :: cs) p'.

(** *** Simulation: an implementation that simulates each step simulates the exchange *)

Context {S : Type} (step : fragment -> IO S Z) (represents : (K -> list Z) -> world S -> Prop).
Context (events : K * C -> list event).

(** One message: what it answers is the same for all implementations of the callbacks. *)
Definition simulates (f : fragment) (p' : K -> list Z) (evs : list event) (w : world S) : Prop :=
  exists r w', step f w = Ok (r, w') /\ represents p' w' /\ w_log w' = w_log w ++ evs.

Hypothesis more_step : forall p k data w, represents p w ->
  Forall byte data -> data <> [] -> zlen data < 65536 -> zlen (p k) + zlen data < 2 ^ 32 ->
  simulates (Fragment k false data) (pending_set p k (p k ++ data)) [] w.

Hypothesis last_step : forall p k data c w, represents p w ->
  Forall byte data -> zlen data < 65536 -> zlen (p k) + zlen data < 2 ^ 32 -> complete k (p k ++ data) c ->
  simulates (Fragment k true data) (pending_set p k []) (events (k, c)) w.

Fixpoint run_fragments (ms : list fragment) : IO S unit :=
  match ms with
  | [] => mret tt
  | f :: ms => step f;; run_fragments ms
  end.

Lemma exchange_run p ms cs p' : exchange p ms cs p' -> forall w, represents p w ->
  exists w', run_fragments ms w = Ok (tt, w') /\ represents p' w' /\
    w_log w' = w_log w ++ (cs ≫= events).
Proof.
  induction 1 as [p|p k data ms cs p' Hb Hne Hl Hf _ IH|p k data c ms cs p' Hb Hl Hf Hc _ IH]; intros w Hw.
  - exists w. by rewrite app_nil_r.
  - destruct (more_step p k data w Hw Hb Hne Hl Hf) as (r & w1 & Hr & Hw1 & Hlog).
    destruct (IH w1 Hw1) as (w2 & Hr2 & Hw2 & Hlog2). exists w2. cbn [run_fragments].
    rewrite (io_bind_run _ _ _ _ _ Hr). split_and!; [done..|]. by rewrite Hlog2, Hlog, app_nil_r.
  - destruct (last_step p k data c w Hw Hb Hl Hf Hc) as (r & w1 & Hr & Hw1 & Hlog).
    destruct (IH w1 Hw1) as (w2 & Hr2 & Hw2 & Hlog2). exists w2. cbn [run_fragments].
    rewrite (io_bind_run _ _ _ _ _ Hr). split_and!; [done..|].
    rewrite Hlog2, Hlog, <- app_assoc. done.
Qed.
End Exchange.
Arguments Fragment {K} _ _ _.

(** ** Growing a chain *)

Section Append.
Context {S : Type} (e : env).
Hypothesis memory : forall k, e_malloc e k = true.

Definition chain_data (ch : chain) : list Z := match ch with Chain bs => bs | _ => [] end.

Definition ticked (w : world S) : world S :=
  World (w_state w) (Datatypes.S (w_tick w)) (w_log w).

Lemma append_block_run ch (data post : list Z) (w : world S) :
  ch <> Dangling -> ch <> Chain [] -> zlen (chain_data ch) + zlen data < 2 ^ 32 ->
  append_block e ch (data ++ post, zlen data) w = Ok (Some (chain_data ch ++ data), ticked w).
Proof.
  intros Hd Hne Hl. unfold append_block. cbn [fst snd].
  assert (Hlen : chain_length ch = zlen (chain_data ch)) by by destruct ch.
  rewrite Hlen, u32_id by lia.
  assert (Hr : realloc e ch (zlen (chain_data ch) + zlen data) w = Ok (Some (chain_data ch), ticked w)).
  { assert (Hm : forall k : bool -> IO S (option (list Z)), (malloc e ≫= k) w = k true (ticked w)).
    { intros k. apply io_bind_run. unfold malloc, tick, mbind, io_bind, mret, io_ret. by rewrite memory. }
    destruct ch as [|old|]; cbn [realloc chain_data]; [by rewrite Hm| |done].
    destruct old as [|o old]; [done|].
    rewrite (proj2 (Z.eqb_neq _ _)) by (cbn [length]; lia). by rewrite Hm. }
  rewrite (io_bind_run _ _ _ _ _ Hr).
  rewrite Z.ltb_irrefl, (proj2 (Z.ltb_ge _ _)) by (rewrite length_app; lia).
  cbn [orb]. by rewrite Nat2Z.id, take_app_length.
Qed.
End Append.

(** A chain that can grow. *)
Definition chain_fine (ch : chain) : Prop := ch <> Dangling /\ ch <> Chain [].

Lemma chain_fine_app bs data : data <> [] -> chain_fine (Chain (bs ++ data)).
Proof. intros H. split; [done|]. intros [= E]. by destruct bs, data. Qed.
