(* ===== verification/En50221Lowspeed.v ===== *)
(** * en50221_app_lowspeed.c: low speed communication

    The module commands the host to connect to a modem and the like, and sends blocks of data in fragments,
    which the resource keeps for each session.  The state of the resource is part of the program state
    ([HasLowspeed]), because the callbacks may call the resource again.  The mutex and the freeing of
    complete blocks are not modelled. *)

From S2P Require Export En50221Fragments DvbDescriptors.

Definition TAG_COMMS_COMMAND : Z := 0x9f8c00.
Definition TAG_CONNECTION_DESCRIPTOR : Z := 0x9f8c01.
Definition TAG_COMMS_REPLY : Z := 0x9f8c02.
Definition TAG_COMMS_SEND_LAST : Z := 0x9f8c03.
Definition TAG_COMMS_SEND_MORE : Z := 0x9f8c04.
Definition TAG_COMMS_RECV_LAST : Z := 0x9f8c05.

Definition COMMS_COMMAND_ID_CONNECT_ON_CHANNEL : Z := 0x01.
Definition COMMS_COMMAND_ID_DISCONNECT_ON_CHANNEL : Z := 0x02.
Definition COMMS_COMMAND_ID_SET_PARAMS : Z := 0x03.
Definition COMMS_COMMAND_ID_ENQUIRE_STATUS : Z := 0x04.
Definition COMMS_COMMAND_ID_GET_NEXT_BUFFER : Z := 0x05.
Definition CONNECTION_DESCRIPTOR_TYPE_TELEPHONE : Z := 0x01.
Definition CONNECTION_DESCRIPTOR_TYPE_CABLE : Z := 0x02.
Definition dtag_dvb_telephone : Z := 0x57.

(** ** Data *)

Record lowspeed_session := LowspeedSession {
  lss_session_number : Z;
  lss_block_chain : chain;
}.

Definition set_lss_chain (ch : chain) (s : lowspeed_session) : lowspeed_session :=
  LowspeedSession (lss_session_number s) ch.

Record app_lowspeed := AppLowspeed {
  ls_command_callback : option Z;
  ls_send_callback : option Z;
  ls_sessions : list lowspeed_session;
}.

Definition set_ls_sessions (ss : list lowspeed_session) (l : app_lowspeed) : app_lowspeed :=
  AppLowspeed (ls_command_callback l) (ls_send_callback l) ss.

Class HasLowspeed (S : Type) := {
  get_lowspeed : S -> app_lowspeed;
  put_lowspeed : app_lowspeed -> S -> S;
}.

Class LowspeedLaws (S : Type) `{HasLowspeed S} := {
  get_put_lowspeed : forall l s, get_lowspeed (put_lowspeed l s) = l;
}.

#[export] Instance lowspeed_only : HasLowspeed app_lowspeed := {| get_lowspeed := id; put_lowspeed := λ l _, l |}.
#[export] Instance lowspeed_only_laws : LowspeedLaws app_lowspeed.
Proof. done. Qed.

(** [struct en50221_app_lowspeed_command]: the descriptor of a telephone connection is a pointer to the
    bytes of a [dvb_telephone_descriptor]. *)
Inductive connection_descriptor :=
  | Telephone (descriptor : list Z)
  | CableChannel (cable_channel_id : Z).

Inductive comms_command :=
  | ConnectOnChannel (descriptor : connection_descriptor) (retry_count timeout : Z)
  | DisconnectOnChannel
  | SetParams (buffer_size timeout : Z)
  | EnquireStatus
  | GetNextBuffer (phase_id : Z).

(** What a callback is called with. *)
Inductive lowspeed_call :=
  | CommsCommand (command_id : Z) (command : comms_command)
  | CommsSend (phase_id : Z) (data : list Z).

Definition en50221_app_lowspeed_register_command_callback (cb : option Z) (l : app_lowspeed) : app_lowspeed :=
  AppLowspeed cb (ls_send_callback l) (ls_sessions l).
Definition en50221_app_lowspeed_register_send_callback (cb : option Z) (l : app_lowspeed) : app_lowspeed :=
  AppLowspeed (ls_command_callback l) cb (ls_sessions l).

(** ** Commands *)

(** The descriptor of a connection, and the data behind it; [None]: the function returns -1. *)
Definition parse_connection_descriptor (descriptor_type asn_data_length : Z) (data : list Z) :
    res (option (connection_descriptor * list Z)) :=
  if descriptor_type =? CONNECTION_DESCRIPTOR_TYPE_TELEPHONE then
    if asn_data_length <? 2 then mret None
    else
      len ← at_ data 1;
      if negb (asn_data_length =? 2 + len) then mret None
      else
        tag ← at_ data 0;
        if negb (tag =? dtag_dvb_telephone) then mret None
        else
          match dvb_telephone_descriptor_codec 0 data with
          | Ret _ data => mret (Some (Telephone (take (Z.to_nat (2 + len)) data), drop (Z.to_nat (2 + len)) data))
          | Null _ => mret None
          | Fault f => Err f
          end
  else if descriptor_type =? CONNECTION_DESCRIPTOR_TYPE_CABLE then
    if negb (asn_data_length =? 1) then mret None
    else cable_channel_id ← at_ data 0; mret (Some (CableChannel cable_channel_id, drop 1 data))
  else mret None.

Definition en50221_app_lowspeed_parse_connect_on_channel (data : list Z) (data_length : Z) :
    res (option comms_command) :=
  if data_length <? 3 then mret None
  else
    b0 ← at_ data 0; b1 ← at_ data 1; b2 ← at_ data 2;
    if negb (Z.lor (Z.lor (Z.shiftl b0 16) (Z.shiftl b1 8)) b2 =? TAG_CONNECTION_DESCRIPTOR) then mret None
    else
      let data := drop 3 data in
      let data_length := data_length - 3 in
      decoded ← asn_1_decode data data_length;
      match decoded with
      | None => mret None
      | Some (asn_data_length, length_field_len) =>
          let data := drop (Z.to_nat length_field_len) data in
          let data_length := data_length - length_field_len in
          if data_length <? asn_data_length then mret None
          else if asn_data_length <? 1 then mret None
          else
            descriptor_type ← at_ data 0;
            let rest := drop 1 data in
            r ← parse_connection_descriptor descriptor_type (asn_data_length - 1) rest;
            match r with
            | None => mret None
            | Some (descriptor, data) =>
                if negb (data_length - asn_data_length =? 2) then mret None
                else
                  retry_count ← at_ data 0;
                  timeout ← at_ data 1;
                  mret (Some (ConnectOnChannel descriptor retry_count timeout))
            end
      end.

(** The body of a command; [None]: the function returns -1. *)
Definition parse_comms_command (command_id asn_data_length : Z) (data : list Z) : res (option comms_command) :=
  if command_id =? COMMS_COMMAND_ID_CONNECT_ON_CHANNEL then
    en50221_app_lowspeed_parse_connect_on_channel data asn_data_length
  else if command_id =? COMMS_COMMAND_ID_SET_PARAMS then
    if negb (asn_data_length =? 2) then mret None
    else buffer_size ← at_ data 0; timeout ← at_ data 1; mret (Some (SetParams buffer_size timeout))
  else if command_id =? COMMS_COMMAND_ID_GET_NEXT_BUFFER then
    if negb (asn_data_length =? 1) then mret None
    else phase_id ← at_ data 0; mret (Some (GetNextBuffer phase_id))
  else if command_id =? COMMS_COMMAND_ID_DISCONNECT_ON_CHANNEL then mret (Some DisconnectOnChannel)
  else if command_id =? COMMS_COMMAND_ID_ENQUIRE_STATUS then mret (Some EnquireStatus)
  else mret None.

Section Lowspeed.
Context {S : Type} `{HasLowspeed S} (e : env).
Context (upcall : Z -> Z -> Z -> lowspeed_call -> IO S Z).
Context (send_data : Z -> list Z -> IO S Z) (send_datav : Z -> list (list Z) -> IO S Z).

Definition lowspeed_of : IO S app_lowspeed := s ← get_state; mret (get_lowspeed s).
Definition lowspeed_modify (f : app_lowspeed -> app_lowspeed) : IO S unit :=
  modify (λ s, put_lowspeed (f (get_lowspeed s)) s).
Definition set_lowspeed_chain (session_number : Z) (ch : chain) : IO S unit :=
  lowspeed_modify (λ l,
    set_ls_sessions (update_session lss_session_number session_number (set_lss_chain ch) (ls_sessions l)) l).

Definition en50221_app_lowspeed_create : IO S (option app_lowspeed) := create e (AppLowspeed None None []).

(** The mutex stays locked when the session is found. *)
Definition en50221_app_lowspeed_clear_session (session_number : Z) : IO S unit :=
  lowspeed_modify (λ l,
    set_ls_sessions (unlink_session lss_session_number session_number (ls_sessions l)) l).

Definition en50221_app_lowspeed_send_comms_reply (session_number comms_reply_id return_value : Z) : IO S Z :=
  send_data session_number (app_tag TAG_COMMS_REPLY ++ [2; comms_reply_id; return_value]).

Definition en50221_app_lowspeed_send_comms_data (session_number phase_id : Z) (tx_data : list Z) : IO S Z :=
  if 254 <? zlen tx_data then mret (-1)
  else
    match asn_1_encode (zlen tx_data + 1) 3 with
    | None => mret (-1)
    | Some length_field =>
        send_datav session_number [app_tag TAG_COMMS_RECV_LAST ++ length_field ++ [phase_id]; tx_data]
    end.

Definition en50221_app_lowspeed_parse_command (slot_id session_number : Z) (data : list Z) : IO S Z :=
  asn_message 1 data (λ asn_data_length data,
    command_id ← lift (at_ data 0);
    command ← lift (parse_comms_command command_id (asn_data_length - 1) (drop 1 data));
    match command with
    | None => mret (-1)
    | Some command =>
        lowspeed ← lowspeed_of;
        tell upcall (ls_command_callback lowspeed) slot_id session_number (CommsCommand command_id command)
    end).

(** A fragment that others follow. *)
Definition more_comms_data (session_number : Z) (data : slice) : IO S Z :=
  lowspeed ← lowspeed_of;
  cur_s ←
    match find_session lss_session_number session_number (ls_sessions lowspeed) with
    | Some s => mret (Some s)
    | None =>
        ok ← malloc e;
        if negb ok then mret None
        else
          let s := LowspeedSession session_number NoChain in
          lowspeed_modify (λ l, set_ls_sessions (s :: ls_sessions l) l);;
          mret (Some s)
    end;
  match cur_s with
  | None => mret (-1)
  | Some s =>
      new_data ← append_block e (lss_block_chain s) data;
      match new_data with
      | None => set_lowspeed_chain session_number (chain_after_block (lss_block_chain s) data);; mret (-1)
      | Some bytes => set_lowspeed_chain session_number (Chain bytes);; mret 0
      end
  end.

(** The last fragment, put behind the others; [None]: -1.  The length is a [uint16_t]. *)
Definition last_comms_data (session_number : Z) (data : slice) : IO S (option slice) :=
  lowspeed ← lowspeed_of;
  match find_session lss_session_number session_number (ls_sessions lowspeed) with
  | None => mret (Some data)
  | Some s =>
      new_data ← append_block e (lss_block_chain s) data;
      match new_data with
      | None => set_lowspeed_chain session_number (chain_after_block (lss_block_chain s) data);; mret None
      | Some bytes =>
          set_lowspeed_chain session_number NoChain;;
          mret (Some (bytes, u16 (u32 (chain_length (lss_block_chain s) + data.2))))
      end
  end.

Definition en50221_app_lowspeed_parse_send (slot_id session_number : Z) (more_last : bool) (data : list Z) :
    IO S Z :=
  asn_message 0 data (λ asn_data_length data,
    if negb more_last then more_comms_data session_number (data, asn_data_length)
    else
      block ← last_comms_data session_number (data, asn_data_length);
      match block with
      | None => mret (-1)
      | Some (data, asn_data_length) =>
          if asn_data_length <? 1 then mret (-1)
          else
            phase_id ← lift (at_ data 0);
            lowspeed ← lowspeed_of;
            match ls_send_callback lowspeed with
            | Some arg =>
                bytes ← lift (read_slice (drop 1 data, asn_data_length - 1));
                upcall arg slot_id session_number (CommsSend phase_id bytes)
            | None => mret 0
            end
      end).

Definition en50221_app_lowspeed_message (slot_id session_number resource_id : Z) (data : list Z) : IO S Z :=
  app_message data (λ tag data,
    if tag =? TAG_COMMS_COMMAND then en50221_app_lowspeed_parse_command slot_id session_number data
    else if tag =? TAG_COMMS_SEND_LAST then
      en50221_app_lowspeed_parse_send slot_id session_number true data
    else if tag =? TAG_COMMS_SEND_MORE then
      en50221_app_lowspeed_parse_send slot_id session_number false data
    else mret (-1)).
End Lowspeed.
