(* ===== verification/En50221LowspeedExchange.v ===== *)
(** * Low speed communication: properties

    The blocks that the module sends in fragments arrive whole, and its commands with the values they
    encode. *)

From S2P Require Export En50221Lowspeed En50221Resources.

(** ** Blocks *)

Section Blocks.
Context {S : Type} `{HL : HasLowspeed S} `{!LowspeedLaws S} (e : env).
Context (upcall : Z -> Z -> Z -> lowspeed_call -> IO S Z) (cb : option Z) (slot_id id : Z).
Context (ev : Z -> Z -> lowspeed_call -> event).

Implicit Types w : world S.

Hypothesis memory : forall k, e_malloc e k = true.

(** The callback leaves the resource alone. *)
Hypothesis recorded : forall arg n c w, exists r w', upcall arg slot_id n c w = Ok (r, w') /\
  get_lowspeed (w_state w') = get_lowspeed (w_state w) /\ w_log w' = w_log w ++ [ev arg n c].

Definition comms_apdu (last : bool) (data : list Z) : list Z :=
  app_tag (if last then TAG_COMMS_SEND_LAST else TAG_COMMS_SEND_MORE) ++ asn_field data ++ data.

Definition comms_step (f : fragment (K := Z)) : IO S Z :=
  en50221_app_lowspeed_message e upcall slot_id (fr_key f) id (comms_apdu (fr_last f) (fr_data f)).

(** A block: the phase, and at most 65534 bytes. *)
Definition comms_complete (n : Z) (block : list Z) (c : lowspeed_call) : Prop :=
  exists phase_id data, block = phase_id :: data /\ zlen data < 65535 /\ c = CommsSend phase_id data.

Definition comms_events (call : Z * lowspeed_call) : list event :=
  match cb with Some arg => [ev arg call.1 call.2] | None => [] end.

Definition lowspeed_chain (l : app_lowspeed) (n : Z) : chain :=
  match find_session lss_session_number n (ls_sessions l) with
  | Some s => lss_block_chain s
  | None => NoChain
  end.

Record lowspeed_holds (p : Z -> list Z) (l : app_lowspeed) : Prop := {
  lh_callback : ls_send_callback l = cb;
  lh_fine : Forall (λ s, chain_fine (lss_block_chain s)) (ls_sessions l);
  lh_pending : forall n, chain_data (lowspeed_chain l n) = p n;
}.

Definition lowspeed_represents (p : Z -> list Z) (w : world S) : Prop :=
  lowspeed_holds p (get_lowspeed (w_state w)).

Lemma lowspeed_chain_fine p l n : lowspeed_holds p l -> chain_fine (lowspeed_chain l n).
Proof.
  intros [_ Hf _]. unfold lowspeed_chain. destruct (find_session _ _ _) as [s|] eqn:E; [|done].
  exact (Forall_find _ _ _ _ _ Hf E).
Qed.

(** The chain of a session that exists is replaced. *)
Lemma lowspeed_holds_update p l n ch s :
  lowspeed_holds p l -> find_session lss_session_number n (ls_sessions l) = Some s -> chain_fine ch ->
  lowspeed_holds (pending_set p n (chain_data ch))
    (set_ls_sessions (update_session lss_session_number n (set_lss_chain ch) (ls_sessions l)) l).
Proof.
  intros [Hc Hf Hp] Hs Hch. split; [done| |].
  - apply Forall_update; [done|]. by intros.
  - intros m. unfold lowspeed_chain, pending_set. cbn [ls_sessions set_ls_sessions].
    rewrite find_update by done. destruct (Z.eqb_spec m n) as [->|Hmn].
    + rewrite decide_True by done. by rewrite Hs.
    + rewrite decide_False by done. apply Hp.
Qed.

(** A new session has nothing pending. *)
Lemma lowspeed_holds_new p l n :
  lowspeed_holds p l -> find_session lss_session_number n (ls_sessions l) = None ->
  lowspeed_holds p (set_ls_sessions (LowspeedSession n NoChain :: ls_sessions l) l).
Proof.
  intros [Hc Hf Hp] Hs. split; [done|by apply Forall_cons|].
  intros m. rewrite <- Hp. unfold lowspeed_chain. cbn [ls_sessions set_ls_sessions find_session lss_session_number].
  destruct (Z.eqb_spec n m) as [->|]; [|done]. by rewrite Hs.
Qed.

(** The world after a change of the resource. *)
Definition with_lowspeed (f : app_lowspeed -> app_lowspeed) (w : world S) : world S :=
  World (put_lowspeed (f (get_lowspeed (w_state w))) (w_state w)) (w_tick w) (w_log w).

Lemma set_chain_run n ch w : set_lowspeed_chain n ch w = Ok (tt, with_lowspeed (λ l,
  set_ls_sessions (update_session lss_session_number n (set_lss_chain ch) (ls_sessions l)) l) w).
Proof. done. Qed.

(** Appending to what is pending. *)
Lemma append_pending p l n data w :
  lowspeed_holds p l -> zlen (p n) + zlen data < 2 ^ 32 ->
  append_block e (lowspeed_chain l n) (data, zlen data) w = Ok (Some (p n ++ data), ticked w).
Proof.
  intros Hl Hlen. pose proof (lowspeed_chain_fine p l n Hl) as [Hd Hne].
  pose proof (lh_pending p l Hl n) as Hp. rewrite <- Hp in *. rewrite <- (app_nil_r data) at 1.
  by apply append_block_run.
Qed.

Lemma more_comms_run p n data w :
  lowspeed_represents p w -> data <> [] -> zlen (p n) + zlen data < 2 ^ 32 ->
  exists w', more_comms_data e n (data, zlen data) w = Ok (0, w') /\
    lowspeed_represents (pending_set p n (p n ++ data)) w' /\ w_log w' = w_log w.
Proof.
  intros Hl Hne Hlen. unfold more_comms_data.
  rewrite (io_bind_run lowspeed_of _ w (get_lowspeed (w_state w)) w) by done.
  assert (Hstep : forall s w1, lowspeed_represents p w1 -> w_log w1 = w_log w ->
    find_session lss_session_number n (ls_sessions (get_lowspeed (w_state w1))) = Some s ->
    exists w', (new_data ← append_block e (lss_block_chain s) (data, zlen data);
      match new_data with
      | None => set_lowspeed_chain n (chain_after_block (lss_block_chain s) (data, zlen data));; mret (-1)
      | Some bytes => set_lowspeed_chain n (Chain bytes);; mret 0
      end) w1 = Ok (0, w') /\
      lowspeed_represents (pending_set p n (p n ++ data)) w' /\ w_log w' = w_log w).
  { intros s w1 Hl1 Hlog Hs.
    pose proof (append_pending p _ n data w1 Hl1 Hlen) as Ha. unfold lowspeed_chain in Ha. rewrite Hs in Ha.
    rewrite (io_bind_run _ _ _ _ _ Ha). eexists. split; [by rewrite (io_bind_run _ _ _ _ _ (set_chain_run _ _ _))|].
    split; [|done]. unfold lowspeed_represents. cbn [w_state with_lowspeed ticked]. rewrite get_put_lowspeed.
    apply (lowspeed_holds_update p _ n (Chain (p n ++ data)) s); [done..|by apply chain_fine_app]. }
  destruct (find_session lss_session_number n _) as [s|] eqn:Es.
  - rewrite (io_bind_run _ _ w (Some s) w) by done. by apply Hstep.
  - set (w1 := with_lowspeed (λ l, set_ls_sessions (LowspeedSession n NoChain :: ls_sessions l) l) (ticked w)).
    rewrite (io_bind_run _ _ w (Some (LowspeedSession n NoChain)) w1).
    2: { rewrite (io_bind_run _ _ w true (ticked w)); [done|].
      unfold malloc, tick, mbind, io_bind, mret, io_ret. by rewrite memory. }
    apply Hstep; [|done|]; unfold lowspeed_represents, w1; cbn [w_state with_lowspeed ticked]; rewrite get_put_lowspeed.
    + by apply lowspeed_holds_new.
    + cbn [set_ls_sessions ls_sessions find_session lss_session_number]. by rewrite Z.eqb_refl.
Qed.

Lemma last_comms_run p n data w :
  lowspeed_represents p w -> zlen (p n) + zlen data < 2 ^ 32 -> zlen (p n ++ data) < 65536 ->
  exists w', last_comms_data e n (data, zlen data) w = Ok (Some (p n ++ data, zlen (p n ++ data)), w') /\
    lowspeed_represents (pending_set p n []) w' /\ w_log w' = w_log w.
Proof.
  intros Hl Hlen Hfit. unfold last_comms_data.
  rewrite (io_bind_run lowspeed_of _ w (get_lowspeed (w_state w)) w) by done.
  pose proof (append_pending p _ n data w Hl Hlen) as Ha. pose proof (lh_pending p _ Hl n) as Hp.
  unfold lowspeed_chain in Ha, Hp. destruct (find_session lss_session_number n _) as [s|] eqn:Es.
  - assert (El : u16 (u32 (chain_length (lss_block_chain s) + zlen data)) = zlen (p n ++ data)).
    { replace (chain_length (lss_block_chain s)) with (zlen (p n)) by (rewrite <- Hp; by destruct (lss_block_chain s)).
      rewrite length_app in *. rewrite u32_id, u16_id; lia. }
    rewrite (io_bind_run _ _ _ _ _ Ha). cbn [snd]. rewrite El.
    eexists. split; [by rewrite (io_bind_run _ _ _ _ _ (set_chain_run _ _ _))|]. split; [|done].
    unfold lowspeed_represents. cbn [w_state with_lowspeed ticked]. rewrite get_put_lowspeed.
    by apply (lowspeed_holds_update p _ n NoChain s).
  - exists w. cbn [chain_data] in Hp. rewrite <- Hp. split; [done|]. split; [|done].
    destruct Hl as [Hc Hf Hpend]. split; [done..|]. intros m. rewrite Hpend. unfold pending_set.
    case_decide as E; [by rewrite E|done].
Qed.

Lemma comms_more_step p n data w : lowspeed_represents p w ->
  Forall byte data -> data <> [] -> zlen data < 65536 -> zlen (p n) + zlen data < 2 ^ 32 ->
  simulates comms_step lowspeed_represents (Fragment n false data) (pending_set p n (p n ++ data)) [] w.
Proof.
  intros Hl Hb Hne Hd Hlen. destruct (more_comms_run p n data w Hl Hne Hlen) as (w' & Hr & Hl' & Hlog).
  exists 0, w'. split; [|by rewrite app_nil_r]. unfold comms_step, en50221_app_lowspeed_message, comms_apdu.
  cbn [fr_key fr_last fr_data]. rewrite app_message_tag by done.
  change (TAG_COMMS_SEND_MORE =? TAG_COMMS_COMMAND) with false.
  change (TAG_COMMS_SEND_MORE =? TAG_COMMS_SEND_LAST) with false.
  change (TAG_COMMS_SEND_MORE =? TAG_COMMS_SEND_MORE) with true. cbv iota. unfold en50221_app_lowspeed_parse_send.
  by rewrite asn_message_run by (done || lia).
Qed.

Lemma comms_last_step p n data c w : lowspeed_represents p w ->
  Forall byte data -> zlen data < 65536 -> zlen (p n) + zlen data < 2 ^ 32 -> comms_complete n (p n ++ data) c ->
  simulates comms_step lowspeed_represents (Fragment n true data) (pending_set p n []) (comms_events (n, c)) w.
Proof.
  intros Hl Hb Hd Hlen (phase_id & rest & E & Hrest & ->).
  assert (Hfit : zlen (p n ++ data) < 65536) by (rewrite E; cbn [length]; lia).
  destruct (last_comms_run p n data w Hl Hlen Hfit) as (w1 & Hr & Hl' & Hlog). rewrite E in Hr.
  assert (Hstep : comms_step (Fragment n true data) w =
    tell upcall cb slot_id n (CommsSend phase_id rest) w1).
  { unfold comms_step, en50221_app_lowspeed_message, comms_apdu. cbn [fr_key fr_last fr_data].
    rewrite app_message_tag by done. change (TAG_COMMS_SEND_LAST =? TAG_COMMS_COMMAND) with false.
    change (TAG_COMMS_SEND_LAST =? TAG_COMMS_SEND_LAST) with true. cbv iota.
    unfold en50221_app_lowspeed_parse_send. rewrite asn_message_run by (done || lia). cbn [negb].
    rewrite (io_bind_run _ _ _ _ _ Hr). rewrite (proj2 (Z.ltb_ge _ _)) by (cbn [length]; lia).
    rewrite (io_bind_run _ _ w1 phase_id w1) by done.
    rewrite (io_bind_run lowspeed_of _ w1 (get_lowspeed (w_state w1)) w1) by done.
    rewrite (lh_callback _ _ Hl'). unfold tell. destruct cb as [arg|]; [|done].
    change (drop 1 (phase_id :: rest)) with rest. replace (zlen (phase_id :: rest) - 1) with (zlen rest)
      by (cbn [length]; lia).
    refine (io_bind_run _ (λ bytes, upcall arg slot_id n (CommsSend phase_id bytes)) _ rest _ _).
    unfold read_slice. cbn [fst snd]. rewrite Z.ltb_irrefl, Nat2Z.id, firstn_all. done. }
  unfold simulates, comms_events. rewrite Hstep. cbn [fst snd]. unfold tell. destruct cb as [arg|] eqn:Ecb.
  - destruct (recorded arg n (CommsSend phase_id rest) w1) as (r & w2 & Hc & Hg & Hlog2).
    exists r, w2. split; [done|]. split; [|by rewrite Hlog2, Hlog]. unfold lowspeed_represents. by rewrite Hg.
  - exists 0, w1. split; [done|]. split; [done|]. by rewrite app_nil_r.
Qed.
End Blocks.

(** ** Commands *)

(** A telephone descriptor: the five lengths in its header are those of the numbers that follow. *)
Definition telephone_ok (d : list Z) : Prop :=
  match d with
  | tag :: len :: _ :: f2 :: f3 :: numbers =>
      tag = dtag_dvb_telephone /\ len = 3 + zlen numbers /\ len < 256 /\
      Z.land (Z.shiftr f2 5) 3 + Z.land (Z.shiftr f2 2) 7 + Z.land f2 3 + Z.land (Z.shiftr f3 4) 7 +
        Z.land f3 15 = zlen numbers
  | _ => False
  end.

Definition connection_bytes (d : connection_descriptor) : list Z :=
  match d with
  | Telephone d => CONNECTION_DESCRIPTOR_TYPE_TELEPHONE :: d
  | CableChannel c => [CONNECTION_DESCRIPTOR_TYPE_CABLE; c]
  end.

Definition command_id (c : comms_command) : Z :=
  match c with
  | ConnectOnChannel _ _ _ => COMMS_COMMAND_ID_CONNECT_ON_CHANNEL
  | DisconnectOnChannel => COMMS_COMMAND_ID_DISCONNECT_ON_CHANNEL
  | SetParams _ _ => COMMS_COMMAND_ID_SET_PARAMS
  | EnquireStatus => COMMS_COMMAND_ID_ENQUIRE_STATUS
  | GetNextBuffer _ => COMMS_COMMAND_ID_GET_NEXT_BUFFER
  end.

Definition command_bytes (c : comms_command) : list Z :=
  match c with
  | ConnectOnChannel d retry_count timeout =>
      app_tag TAG_CONNECTION_DESCRIPTOR ++ asn_field (connection_bytes d) ++ connection_bytes d ++
      [retry_count; timeout]
  | SetParams buffer_size timeout => [buffer_size; timeout]
  | GetNextBuffer phase_id => [phase_id]
  | DisconnectOnChannel | EnquireStatus => []
  end.

Definition command_ok (c : comms_command) : Prop :=
  Forall byte (command_bytes c) /\
  match c with ConnectOnChannel (Telephone d) _ _ => telephone_ok d | _ => True end.

Definition command_apdu (c : comms_command) : list Z :=
  let body := command_id c :: command_bytes c in app_tag TAG_COMMS_COMMAND ++ asn_field body ++ body.

Lemma ld_bytes_one p b m : m !z p = Some b -> ld_bytes p 1 m = Ret [b] m.
Proof. intros Hb. cbn [ld_bytes]. unfold ld8, mbind, M_bind. by rewrite Hb. Qed.

Lemma fld_byte l name p off shift w b m :
  find_field l name 0 = Some (off, 1, shift, w) -> m !z (p + off) = Some b ->
  fld l name p m = Ret (Z.land (Z.shiftr b shift) (Z.ones w)) m.
Proof.
  intros Hf Hb. unfold fld. rewrite Hf. change (Z.to_nat 1) with 1%nat.
  run by (apply ld_bytes_one; exact Hb). unfold mret, M_ret. cbn [le_combine].
  by rewrite Z.mul_0_r, Z.add_0_r.
Qed.

Lemma telephone_codec_run d post : telephone_ok d -> Forall byte d ->
  dvb_telephone_descriptor_codec 0 (d ++ post) = Ret tt (d ++ post).
Proof.
  intros Hok Hb. destruct d as [|tag [|len [|f1 [|f2 [|f3 numbers]]]]]; try done.
  destruct Hok as (-> & El & Hlen & Hsum). unfold dvb_telephone_descriptor_codec. cbn [app].
  set (m := _ :: _). run by (exact (eq_refl : descriptor_len 0 m = Ret len m)).
  change (sizeof struct_dvb_telephone_descriptor - 2) with 3.
  rewrite reject_run by (apply Z.ltb_ge; lia).
  run by (apply (fld_byte struct_dvb_telephone_descriptor "country_prefix_length" 0 3 5 2 f2 m); reflexivity).
  run by (apply (fld_byte struct_dvb_telephone_descriptor "international_area_code_length" 0 3 2 3 f2 m); reflexivity).
  run by (apply (fld_byte struct_dvb_telephone_descriptor "operator_code_length" 0 3 0 2 f2 m); reflexivity).
  run by (apply (fld_byte struct_dvb_telephone_descriptor "national_area_code_length" 0 4 4 3 f3 m); reflexivity).
  run by (apply (fld_byte struct_dvb_telephone_descriptor "core_number_length" 0 4 0 4 f3 m); reflexivity).
  change (Z.ones 2) with 3. change (Z.ones 3) with 7. change (Z.ones 4) with 15. rewrite !Z.shiftr_0_r.
  unfold reject_if. rewrite (proj2 (Z.eqb_eq _ _)); [done|lia].
Qed.

Lemma connection_run d rest : Forall byte (connection_bytes d) ->
  match d with Telephone t => telephone_ok t | _ => True end ->
  exists ty bs, connection_bytes d = ty :: bs /\
    parse_connection_descriptor ty (zlen bs) (bs ++ rest) = Ok (Some (d, rest)).
Proof.
  destruct d as [t|c]; intros Hb Hok.
  - exists CONNECTION_DESCRIPTOR_TYPE_TELEPHONE, t. split; [done|]. apply Forall_cons_iff in Hb as [_ Hb].
    pose proof (telephone_codec_run t rest Hok Hb) as Hc. unfold parse_connection_descriptor.
    change (_ =? CONNECTION_DESCRIPTOR_TYPE_TELEPHONE) with true. cbv iota.
    destruct t as [|tag [|len [|f1 [|f2 [|f3 numbers]]]]]; try done. destruct Hok as (-> & El & Hlen & _).
    set (t := dtag_dvb_telephone :: _) in *.
    assert (Ht : Z.to_nat (2 + len) = length t) by (unfold t; cbn [length]; lia).
    rewrite (proj2 (Z.ltb_ge _ _)) by lia. change (at_ (t ++ rest) 1) with (Ok len).
    cbn [mbind res_bind]. rewrite (proj2 (Z.eqb_eq _ _)) by lia. cbn [negb].
    change (at_ (t ++ rest) 0) with (Ok dtag_dvb_telephone). cbn [mbind res_bind].
    rewrite Z.eqb_refl. cbn [negb]. rewrite Hc, Ht. by rewrite take_app_length, drop_app_length.
  - exists CONNECTION_DESCRIPTOR_TYPE_CABLE, [c]. done.
Qed.

Lemma connect_run d retry_count timeout :
  command_ok (ConnectOnChannel d retry_count timeout) ->
  zlen (connection_bytes d) < 65536 ->
  let bs := command_bytes (ConnectOnChannel d retry_count timeout) in
  en50221_app_lowspeed_parse_connect_on_channel bs (zlen bs) = Ok (Some (ConnectOnChannel d retry_count timeout)).
Proof.
  intros [Hb Hd] Hl. cbv zeta. cbn [command_bytes] in *. rewrite !Forall_app in Hb. destruct Hb as (_ & Hf & Hc & Hr).
  destruct (connection_run d [retry_count; timeout] Hc) as (ty & bs & E & Hrun); [by destruct d|].
  pose proof (asn_decode_field _ _ Hc Hr Hl) as Hdec.
  assert (Hlen : zlen (connection_bytes d) = 1 + zlen bs) by (rewrite E; cbn [length]; lia).
  set (lf := asn_field (connection_bytes d)) in *. set (body := lf ++ connection_bytes d ++ [retry_count; timeout]) in *.
  assert (Hbl : zlen body = zlen lf + 1 + zlen bs + 2).
  { unfold body. rewrite !length_app. cbn [length]. lia. }
  unfold en50221_app_lowspeed_parse_connect_on_channel.
  assert (Hal : zlen (app_tag TAG_CONNECTION_DESCRIPTOR ++ body) = 3 + zlen body)
    by (rewrite length_app; cbn [app_tag length]; lia).
  rewrite Hal, (proj2 (Z.ltb_ge _ _)) by lia.
  change (app_tag TAG_CONNECTION_DESCRIPTOR ++ body) with (0x9f :: 0x8c :: 0x01 :: body).
  change (at_ (_ :: _) 0) with (Ok 0x9f). change (at_ (_ :: _) 1) with (Ok 0x8c). change (at_ (_ :: _) 2) with (Ok 0x01).
  cbn [mbind res_bind]. change (negb (Z.lor (Z.lor (Z.shiftl 0x9f 16) (Z.shiftl 0x8c 8)) 0x01 =? TAG_CONNECTION_DESCRIPTOR)) with false.
  cbv iota zeta. change (drop 3 (0x9f :: 0x8c :: 0x01 :: body)) with body.
  replace (3 + zlen body - 3) with (zlen body) by lia.  rewrite Hdec. cbn [mbind res_bind].
  rewrite (proj2 (Z.ltb_ge _ _)), (proj2 (Z.ltb_ge _ _)) by lia.
  assert (Hdrop : drop (Z.to_nat (zlen lf)) body = ty :: bs ++ [retry_count; timeout]).
  { unfold body. by rewrite Nat2Z.id, drop_app_length, E. }
  rewrite Hdrop. change (at_ (ty :: bs ++ _) 0) with (Ok ty). cbn [mbind res_bind].
  change (drop 1 (ty :: bs ++ [retry_count; timeout])) with (bs ++ [retry_count; timeout]). rewrite Hlen. replace (1 + zlen bs - 1) with (zlen bs) by lia.
  rewrite Hrun. cbn [mbind res_bind]. by rewrite (proj2 (Z.eqb_eq _ _)) by lia.
Qed.

Lemma parse_command_run c : command_ok c -> zlen (command_bytes c) < 65535 ->
  parse_comms_command (command_id c) (zlen (command_bytes c)) (command_bytes c) = Ok (Some c).
Proof.
  intros Hok Hl. destruct c as [d r t| |b t| |p]; try done.
  unfold parse_comms_command. change (_ =? COMMS_COMMAND_ID_CONNECT_ON_CHANNEL) with true. cbv iota.
  apply connect_run; [done|]. cbn [command_bytes] in Hl. rewrite !length_app in Hl. lia.
Qed.

(** low speed communication: each command of the module (connect over a telephone or a cable descriptor,
    disconnect, set parameters, enquire status, get the next buffer) that is encoded in a message reaches
    the callback with the values it was encoded from, and the state of the resource does not change. *)
Theorem comms_commands_understood {S} `{HasLowspeed S} (e : env)
    (upcall : Z -> Z -> Z -> lowspeed_call -> IO S Z) slot_id n id c w :
  command_ok c -> zlen (command_bytes c) < 65535 ->
  en50221_app_lowspeed_message e upcall slot_id n id (command_apdu c) w =
  tell upcall (ls_command_callback (get_lowspeed (w_state w))) slot_id n (CommsCommand (command_id c) c) w.
Proof.
  intros Hok Hl. assert (Hlen : zlen (command_id c :: command_bytes c) = 1 + zlen (command_bytes c)) by (cbn [length]; lia).
  unfold en50221_app_lowspeed_message, command_apdu. cbv zeta. rewrite app_message_tag by done.
  change (TAG_COMMS_COMMAND =? TAG_COMMS_COMMAND) with true. cbv iota. unfold en50221_app_lowspeed_parse_command.
  rewrite asn_message_run; [|apply Forall_cons; [by destruct c|apply Hok]|lia].
  rewrite (io_bind_run _ _ w (command_id c) w) by done.
  rewrite Hlen. replace (1 + zlen (command_bytes c) - 1) with (zlen (command_bytes c)) by lia.
  change (drop 1 (command_id c :: command_bytes c)) with (command_bytes c).
  rewrite (io_bind_run _ _ w (Some c) w) by by rewrite parse_command_run. done.
Qed.


(** *** Witnesses *)

Definition recording_lowspeed {S} (arg slot_id n : Z) (c : lowspeed_call) : IO S Z :=
  log_event (ResourceCalled arg slot_id n 0
    match c with CommsSend phase_id data => phase_id :: data | CommsCommand id c => id :: command_bytes c end);;
  mret 0.

Definition demo_lowspeed : app_lowspeed := AppLowspeed (Some 1) (Some 2) [].

Lemma comms_commands_understood_witness :
  let c := ConnectOnChannel (Telephone [0x57; 5; 0; 0x05; 0; 0x31; 0x32]) 3 60 in
  en50221_app_lowspeed_message always recording_lowspeed 0 1 0 (command_apdu c) (World demo_lowspeed 0 []) =
  tell recording_lowspeed (Some 1) 0 1 (CommsCommand 1 c) (World demo_lowspeed 0 []).
Proof.
  refine (comms_commands_understood always recording_lowspeed 0 1 0
    (ConnectOnChannel (Telephone [0x57; 5; 0; 0x05; 0; 0x31; 0x32]) 3 60) (World demo_lowspeed 0 []) _ _); [|done].
  split; [|done]. cbn [command_bytes connection_bytes]. rewrite !Forall_app.
  split_and!; [by repeat constructor|by apply asn_field_bytes|by repeat constructor..].
Defined.


(** The length of a block that was put together is a [uint16_t]: of 65536 bytes, none are left, and the
    block is refused; the session has lost it. *)
Definition long_fragment : Z -> lowspeed_session := λ n, LowspeedSession n (Chain (repeat 7 (Z.to_nat 65535))).

Lemma long_block_refused :
  let l := AppLowspeed None (Some 2) [long_fragment 1] in
  last_comms_data always 1 ([9], 1) (World l 0 []) =
  Ok (Some (repeat 7 (Z.to_nat 65535) ++ [9], 0), World (AppLowspeed None (Some 2) [LowspeedSession 1 NoChain]) 1 []).
Proof.
  cbv zeta. unfold last_comms_data, long_fragment. set (bs := repeat 7 (Z.to_nat 65535)).
  assert (Hl : zlen bs = 65535) by (unfold bs; rewrite repeat_length; lia).
  assert (Hne : Chain bs <> Chain []) by (intros [= E]; rewrite E in Hl; done). clearbody bs.
  set (w := World _ _ _). rewrite (io_bind_run lowspeed_of _ w (w_state w) w) by done.
  change (find_session lss_session_number 1 (ls_sessions (w_state w))) with (Some (LowspeedSession 1 (Chain bs))).
  cbv iota. assert (Ha : append_block always (Chain bs) ([9], 1) w = Ok (Some (bs ++ [9]), ticked w)).
  { apply (append_block_run always (λ _, eq_refl) (Chain bs) [9] [] w); [done|exact Hne|].
 cbn [chain_data length]. lia. }
  cbn [lss_block_chain]. rewrite (io_bind_run _ _ _ _ _ Ha). cbn [chain_length snd]. by rewrite Hl.
Qed.
