(* ===== verification/En50221Mmi.v ===== *)
(** * en50221_app_mmi.c: the man machine interface

    Menus, lists, questions and subtitles of the module.  Menus, lists and subtitles come in fragments,
    which the resource keeps for each session; the texts in a menu may be in fragments again.  A text is
    a slice: the memory from its pointer on, and its length; the callbacks read all of it.  The state of
    the resource is part of the program state ([HasMmi]), because the callbacks may call the resource
    again.  The mutex and the freeing of complete messages are not modelled. *)

From S2P Require Export En50221Fragments.

Definition TAG_CLOSE_MMI : Z := 0x9f8800.
Definition TAG_DISPLAY_CONTROL : Z := 0x9f8801.
Definition TAG_DISPLAY_REPLY : Z := 0x9f8802.
Definition TAG_TEXT_LAST : Z := 0x9f8803.
Definition TAG_TEXT_MORE : Z := 0x9f8804.
Definition TAG_KEYPAD_CONTROL : Z := 0x9f8805.
Definition TAG_KEYPRESS : Z := 0x9f8806.
Definition TAG_ENQUIRY : Z := 0x9f8807.
Definition TAG_ANSWER : Z := 0x9f8808.
Definition TAG_MENU_LAST : Z := 0x9f8809.
Definition TAG_MENU_MORE : Z := 0x9f880a.
Definition TAG_MENU_ANSWER : Z := 0x9f880b.
Definition TAG_LIST_LAST : Z := 0x9f880c.
Definition TAG_LIST_MORE : Z := 0x9f880d.
Definition TAG_SUBTITLE_SEGMENT_LAST : Z := 0x9f880e.
Definition TAG_SUBTITLE_SEGMENT_MORE : Z := 0x9f880f.
Definition TAG_DISPLAY_MESSAGE : Z := 0x9f8810.
Definition TAG_SCENE_END_MARK : Z := 0x9f8811.
Definition TAG_SCENE_DONE : Z := 0x9f8812.
Definition TAG_SCENE_CONTROL : Z := 0x9f8813.
Definition TAG_SUBTITLE_DOWNLOAD_LAST : Z := 0x9f8814.
Definition TAG_SUBTITLE_DOWNLOAD_MORE : Z := 0x9f8815.
Definition TAG_FLUSH_DOWNLOAD : Z := 0x9f8816.
Definition TAG_DOWNLOAD_REPLY : Z := 0x9f8817.

Definition MMI_CLOSE_MMI_CMD_ID_DELAY : Z := 0x01.
Definition MMI_DISPLAY_CONTROL_CMD_ID_SET_MMI_MODE : Z := 0x01.
Definition MMI_DISPLAY_REPLY_ID_MMI_MODE_ACK : Z := 0x01.
Definition MMI_DISPLAY_REPLY_ID_LIST_DISPLAY_CHAR_TABLES : Z := 0x02.
Definition MMI_DISPLAY_REPLY_ID_LIST_INPUT_CHAR_TABLES : Z := 0x03.
Definition MMI_DISPLAY_REPLY_ID_LIST_OVERLAY_GFX_CHARACTERISTICS : Z := 0x04.
Definition MMI_DISPLAY_REPLY_ID_LIST_FULLSCREEN_GFX_CHARACTERISTICS : Z := 0x05.
Definition MMI_ANSW_ID_ANSWER : Z := 0x01.

(** ** Data *)

Record mmi_session := MmiSession {
  ms_session_number : Z;
  ms_menu_block_chain : chain;
  ms_list_block_chain : chain;
  ms_subtitlesegment_block_chain : chain;
  ms_subtitledownload_block_chain : chain;
}.

(** The callbacks, each with its argument. *)
Record app_mmi := AppMmi {
  mmi_closecallback : option Z;
  mmi_displaycontrolcallback : option Z;
  mmi_keypadcontrolcallback : option Z;
  mmi_subtitlesegmentcallback : option Z;
  mmi_sceneendmarkcallback : option Z;
  mmi_scenecontrolcallback : option Z;
  mmi_subtitledownloadcallback : option Z;
  mmi_flushdownloadcallback : option Z;
  mmi_enqcallback : option Z;
  mmi_menucallback : option Z;
  mmi_listcallback : option Z;
  mmi_sessions : list mmi_session;
}.

Definition set_mmi_sessions (ss : list mmi_session) (m : app_mmi) : app_mmi :=
  match m with AppMmi a b c d e f g h i j k _ => AppMmi a b c d e f g h i j k ss end.

Class HasMmi (S : Type) := {
  get_mmi : S -> app_mmi;
  put_mmi : app_mmi -> S -> S;
}.

Class MmiLaws (S : Type) `{HasMmi S} := {
  get_put_mmi : forall m s, get_mmi (put_mmi m s) = m;
}.

#[export] Instance mmi_only : HasMmi app_mmi := {| get_mmi := id; put_mmi := λ m _, m |}.
#[export] Instance mmi_only_laws : MmiLaws app_mmi.
Proof. done. Qed.

(** What a callback is called with. *)
Inductive mmi_call :=
  | MmiClose (cmd_id delay : Z)
  | MmiDisplayControl (cmd_id mmi_mode : Z)
  | MmiKeypadControl (cmd_id : Z) (key_codes : list Z)
  | MmiSubtitleSegment (segment : list Z)
  | MmiSceneEndMark (decoder_continue_flag scene_reveal_flag send_scene_done scene_tag : Z)
  | MmiSceneControl (decoder_continue_flag scene_reveal_flag scene_tag : Z)
  | MmiSubtitleDownload (segment : list Z)
  | MmiFlushDownload
  | MmiEnq (blind_answer expected_answer_length : Z) (text : list Z)
  | MmiMenu (title sub_title bottom : list Z) (items : list (list Z)) (items_raw : list Z)
  | MmiList (title sub_title bottom : list Z) (items : list (list Z)) (items_raw : list Z).

(** [struct en50221_app_mmi_display_reply_details] is a union. *)
Record pixel_depth := PixelDepth { display_depth : Z; pixels_per_byte : Z; region_overhead : Z }.

Inductive display_reply_details :=
  | ModeAck (mmi_mode : Z)
  | CharTable (table : list Z)
  | Gfx (width height aspect_ratio gfx_relation_to_video multiple_depths display_bytes
         composition_buffer_bytes object_cache_bytes : Z) (pixel_depths : list pixel_depth).

(** *** Registering callbacks *)

Definition en50221_app_mmi_register_close_callback (cb : option Z) (m : app_mmi) : app_mmi :=
  match m with AppMmi _ b c d e f g h i j k s => AppMmi cb b c d e f g h i j k s end.
Definition en50221_app_mmi_register_display_control_callback (cb : option Z) (m : app_mmi) : app_mmi :=
  match m with AppMmi a _ c d e f g h i j k s => AppMmi a cb c d e f g h i j k s end.
Definition en50221_app_mmi_register_keypad_control_callback (cb : option Z) (m : app_mmi) : app_mmi :=
  match m with AppMmi a b _ d e f g h i j k s => AppMmi a b cb d e f g h i j k s end.
Definition en50221_app_mmi_register_subtitle_segment_callback (cb : option Z) (m : app_mmi) : app_mmi :=
  match m with AppMmi a b c _ e f g h i j k s => AppMmi a b c cb e f g h i j k s end.
Definition en50221_app_mmi_register_scene_end_mark_callback (cb : option Z) (m : app_mmi) : app_mmi :=
  match m with AppMmi a b c d _ f g h i j k s => AppMmi a b c d cb f g h i j k s end.
Definition en50221_app_mmi_register_scene_control_callback (cb : option Z) (m : app_mmi) : app_mmi :=
  match m with AppMmi a b c d e _ g h i j k s => AppMmi a b c d e cb g h i j k s end.
Definition en50221_app_mmi_register_subtitle_download_callback (cb : option Z) (m : app_mmi) : app_mmi :=
  match m with AppMmi a b c d e f _ h i j k s => AppMmi a b c d e f cb h i j k s end.
Definition en50221_app_mmi_register_flush_download_callback (cb : option Z) (m : app_mmi) : app_mmi :=
  match m with AppMmi a b c d e f g _ i j k s => AppMmi a b c d e f g cb i j k s end.
Definition en50221_app_mmi_register_enq_callback (cb : option Z) (m : app_mmi) : app_mmi :=
  match m with AppMmi a b c d e f g h _ j k s => AppMmi a b c d e f g h cb j k s end.
Definition en50221_app_mmi_register_menu_callback (cb : option Z) (m : app_mmi) : app_mmi :=
  match m with AppMmi a b c d e f g h i _ k s => AppMmi a b c d e f g h i cb k s end.
Definition en50221_app_mmi_register_list_callback (cb : option Z) (m : app_mmi) : app_mmi :=
  match m with AppMmi a b c d e f g h i j _ s => AppMmi a b c d e f g h i j cb s end.

(** *** The chains of a session *)

(** [block_chain] and [block_length], by the tag. *)
Inductive mmi_block := MenuBlock | ListBlock | SegmentBlock | DownloadBlock.

#[export] Instance block_eq_dec : EqDecision mmi_block.
Proof. solve_decision. Defined.

Definition block_of_tag (tag_id : Z) : option mmi_block :=
  if (tag_id =? TAG_MENU_LAST) || (tag_id =? TAG_MENU_MORE) then Some MenuBlock
  else if (tag_id =? TAG_LIST_LAST) || (tag_id =? TAG_LIST_MORE) then Some ListBlock
  else if (tag_id =? TAG_SUBTITLE_SEGMENT_LAST) || (tag_id =? TAG_SUBTITLE_SEGMENT_MORE)
  then Some SegmentBlock
  else if (tag_id =? TAG_SUBTITLE_DOWNLOAD_LAST) || (tag_id =? TAG_SUBTITLE_DOWNLOAD_MORE)
  then Some DownloadBlock
  else None.

Definition block_chain (b : mmi_block) (s : mmi_session) : chain :=
  match b with
  | MenuBlock => ms_menu_block_chain s
  | ListBlock => ms_list_block_chain s
  | SegmentBlock => ms_subtitlesegment_block_chain s
  | DownloadBlock => ms_subtitledownload_block_chain s
  end.

Definition set_block_chain (b : mmi_block) (ch : chain) (s : mmi_session) : mmi_session :=
  match s with
  | MmiSession n menu list segment download =>
      match b with
      | MenuBlock => MmiSession n ch list segment download
      | ListBlock => MmiSession n menu ch segment download
      | SegmentBlock => MmiSession n menu list ch download
      | DownloadBlock => MmiSession n menu list segment ch
      end
  end.

Section Mmi.
Context {S : Type} `{HasMmi S} (e : env).
Context (upcall : Z -> Z -> Z -> mmi_call -> IO S Z).
Context (send_data : Z -> list Z -> IO S Z) (send_datav : Z -> list (list Z) -> IO S Z).

Definition mmi_of : IO S app_mmi := s ← get_state; mret (get_mmi s).
Definition mmi_modify (f : app_mmi -> app_mmi) : IO S unit := modify (λ s, put_mmi (f (get_mmi s)) s).
Definition update_mmi_session (session_number : Z) (f : mmi_session -> mmi_session) : IO S unit :=
  mmi_modify (λ m, set_mmi_sessions (update_session ms_session_number session_number f (mmi_sessions m)) m).

Definition en50221_app_mmi_create : IO S (option app_mmi) :=
  create e (AppMmi None None None None None None None None None None None []).

(** The mutex stays locked when the session is found. *)
Definition en50221_app_mmi_clear_session (session_number : Z) : IO S unit :=
  mmi_modify (λ m, set_mmi_sessions (unlink_session ms_session_number session_number (mmi_sessions m)) m).

(** ** What the host sends *)

Definition en50221_app_mmi_close (session_number cmd_id delay : Z) : IO S Z :=
  send_data session_number
    (if cmd_id =? MMI_CLOSE_MMI_CMD_ID_DELAY
     then app_tag TAG_CLOSE_MMI ++ [2; cmd_id; delay]
     else app_tag TAG_CLOSE_MMI ++ [1; cmd_id]).

(** The ten bytes after the length field. *)
Definition gfx_bytes (reply_id width height aspect_ratio gfx_relation_to_video multiple_depths display_bytes
    composition_buffer_bytes object_cache_bytes num_pixel_depths : Z) : list Z :=
  [reply_id; u8 (Z.shiftr width 8); u8 width; u8 (Z.shiftr height 8); u8 height;
   Z.lor (Z.lor (Z.shiftl (Z.land aspect_ratio 0x0f) 4) (Z.shiftl (Z.land gfx_relation_to_video 0x07) 1))
     (Z.land multiple_depths 1);
   u8 (Z.shiftr display_bytes 4);
   Z.lor (Z.shiftl (Z.land display_bytes 0x0f) 4) (Z.shiftr (Z.land composition_buffer_bytes 0xf0) 4);
   Z.lor (Z.shiftl (Z.land composition_buffer_bytes 0x0f) 4) (Z.shiftr (Z.land object_cache_bytes 0xf0) 4);
   Z.lor (Z.shiftl (Z.land object_cache_bytes 0x0f) 4) (Z.land num_pixel_depths 0x0f)].

(** Reading another member of the union than the one stored is a fault of the model.  The pixel depths
    are written with a pointer that is advanced; the pointer sent is the advanced one, behind them. *)
Definition en50221_app_mmi_display_reply (session_number reply_id : Z) (details : display_reply_details) :
    IO S Z :=
  if reply_id =? MMI_DISPLAY_REPLY_ID_MMI_MODE_ACK then
    match details with
    | ModeAck mmi_mode => send_datav session_number [app_tag TAG_DISPLAY_REPLY ++ [2; reply_id; mmi_mode]]
    | _ => io_fault BadPointer
    end
  else if (reply_id =? MMI_DISPLAY_REPLY_ID_LIST_DISPLAY_CHAR_TABLES) ||
          (reply_id =? MMI_DISPLAY_REPLY_ID_LIST_INPUT_CHAR_TABLES) then
    match details with
    | CharTable table =>
        match asn_1_encode (u32 (zlen table + 1)) 3 with
        | None => mret (-1)
        | Some length_field =>
            send_datav session_number [app_tag TAG_DISPLAY_REPLY ++ length_field ++ [reply_id]; table]
        end
    | _ => io_fault BadPointer
    end
  else if (reply_id =? MMI_DISPLAY_REPLY_ID_LIST_OVERLAY_GFX_CHARACTERISTICS) ||
          (reply_id =? MMI_DISPLAY_REPLY_ID_LIST_FULLSCREEN_GFX_CHARACTERISTICS) then
    match details with
    | Gfx width height aspect_ratio gfx_relation_to_video multiple_depths display_bytes
          composition_buffer_bytes object_cache_bytes pixel_depths =>
        match asn_1_encode (1 + 9 + zlen pixel_depths * 2) 3 with
        | None => mret (-1)
        | Some length_field =>
            if 0 <? zlen pixel_depths then io_fault OutOfBounds
            else
              send_datav session_number
                [app_tag TAG_DISPLAY_REPLY ++ length_field ++
                 gfx_bytes reply_id width height aspect_ratio gfx_relation_to_video multiple_depths
                   display_bytes composition_buffer_bytes object_cache_bytes (zlen pixel_depths); []]
        end
    | _ => io_fault BadPointer
    end
  else send_datav session_number [app_tag TAG_DISPLAY_REPLY ++ [1; reply_id]].

(** A tag and one byte. *)
Definition send_byte (session_number tag b : Z) : IO S Z :=
  send_data session_number (app_tag tag ++ [1; b]).

Definition en50221_app_mmi_keypress (session_number keycode : Z) : IO S Z :=
  send_byte session_number TAG_KEYPRESS keycode.
Definition en50221_app_mmi_display_message (session_number display_message_id : Z) : IO S Z :=
  send_byte session_number TAG_DISPLAY_MESSAGE display_message_id.
Definition en50221_app_mmi_scene_done (session_number decoder_continue scene_reveal scene_tag : Z) : IO S Z :=
  send_byte session_number TAG_SCENE_DONE
    (Z.lor (Z.lor (if negb (decoder_continue =? 0) then 0x80 else 0)
              (if negb (scene_reveal =? 0) then 0x40 else 0)) (Z.land scene_tag 0x0f)).
Definition en50221_app_mmi_download_reply (session_number object_id download_reply_id : Z) : IO S Z :=
  send_data session_number
    (app_tag TAG_DOWNLOAD_REPLY ++ [3] ++ word_bytes object_id ++ [download_reply_id]).

Definition en50221_app_mmi_answ (session_number answ_id : Z) (text : list Z) : IO S Z :=
  if answ_id =? MMI_ANSW_ID_ANSWER then
    match asn_1_encode (u32 (zlen text + 1)) 3 with
    | None => mret (-1)
    | Some length_field => send_datav session_number [app_tag TAG_ANSWER ++ length_field ++ [answ_id]; text]
    end
  else send_datav session_number [app_tag TAG_ANSWER ++ [1; answ_id]].

Definition en50221_app_mmi_menu_answ (session_number choice_ref : Z) : IO S Z :=
  send_byte session_number TAG_MENU_ANSWER choice_ref.

(** ** Reassembly *)

(** 0: the message is not complete; 1: it is in [indata]; 2: it was put together; -1: an error. *)
Definition en50221_app_mmi_defragment (session_number tag_id : Z) (more_last : bool) (indata : slice) :
    IO S (Z * slice) :=
  mmi ← mmi_of;
  let cur_s := find_session ms_session_number session_number (mmi_sessions mmi) in
  if negb more_last then
    cur_s ←
      match cur_s with
      | Some s => mret (Some s)
      | None =>
          ok ← malloc e;
          if negb ok then mret None
          else
            let s := MmiSession session_number NoChain NoChain NoChain NoChain in
            mmi_modify (λ m, set_mmi_sessions (s :: mmi_sessions m) m);;
            mret (Some s)
      end;
    match cur_s with
    | None => mret (-1, ([], 0))
    | Some s =>
        match block_of_tag tag_id with
        | None => mret (-1, ([], 0))
        | Some b =>
            new_data ← append_block e (block_chain b s) indata;
            match new_data with
            | None =>
                update_mmi_session session_number
                  (set_block_chain b (chain_after_block (block_chain b s) indata));;
                mret (-1, ([], 0))
            | Some bytes =>
                update_mmi_session session_number (set_block_chain b (Chain bytes));;
                mret (0, ([], 0))
            end
        end
    end
  else
    match cur_s with
    | Some s =>
        match block_of_tag tag_id with
        | None => mret (-1, ([], 0))
        | Some b =>
            new_data ← append_block e (block_chain b s) indata;
            match new_data with
            | None =>
                update_mmi_session session_number
                  (set_block_chain b (chain_after_block (block_chain b s) indata));;
                mret (-1, ([], 0))
            | Some bytes =>
                update_mmi_session session_number (set_block_chain b NoChain);;
                mret (2, (bytes, zlen bytes))
            end
        end
    | None => mret (1, indata)
    end.

(** One text: the status (1: in the data, 2: put together, -1: an error), the text, and the bytes
    consumed.  Nothing compares the length of a text with the data there are. *)
Fixpoint defragment_text (fuel : nat) (data : list Z) (data_length : Z) (text : chain) (consumed : Z) :
    IO S (Z * slice * Z) :=
  match fuel with
  | O => io_fault OutOfFuel
  | Datatypes.S fuel =>
      if data_length <? 3 then free_chain text;; mret (-1, ([], 0), 0)
      else
        b0 ← lift (at_ data 0); b1 ← lift (at_ data 1); b2 ← lift (at_ data 2);
        let tag := Z.lor (Z.lor (Z.shiftl b0 16) (Z.shiftl b1 8)) b2 in
        let data := drop 3 data in
        let data_length := u32 (data_length - 3) in
        let consumed := u32 (consumed + 3) in
        decoded ← lift (asn_1_decode data data_length);
        match decoded with
        | None => free_chain text;; mret (-1, ([], 0), 0)
        | Some (asn_data_length, length_field_len) =>
            let data := drop (Z.to_nat length_field_len) data in
            let data_length := u32 (data_length - length_field_len) in
            let consumed := u32 (consumed + length_field_len) in
            if tag =? TAG_TEXT_LAST then
              match text with
              | NoChain => mret (1, (data, asn_data_length), u32 (consumed + asn_data_length))
              | _ =>
                  new_text ← append_block e text (data, asn_data_length);
                  match new_text with
                  | None => free_chain (chain_after_block text (data, asn_data_length));; mret (-1, ([], 0), 0)
                  | Some bytes => mret (2, (bytes, zlen bytes), u32 (consumed + asn_data_length))
                  end
              end
            else if tag =? TAG_TEXT_MORE then
              new_text ← append_block e text (data, asn_data_length);
              match new_text with
              | None => free_chain (chain_after_block text (data, asn_data_length));; mret (-1, ([], 0), 0)
              | Some bytes =>
                  defragment_text fuel (drop (Z.to_nat asn_data_length) data)
                    (u32 (data_length - asn_data_length)) (Chain bytes) (u32 (consumed + asn_data_length))
              end
            else free_chain text;; mret (-1, ([], 0), 0)
        end
  end.

Definition en50221_app_mmi_defragment_text (data : slice) : IO S (Z * slice * Z) :=
  defragment_text (Datatypes.S (length data.1)) data.1 data.2 NoChain 0.

(** ** What the module sends *)

(** A callback that reads the memory it is given. *)
Definition tell_reading (cb : option Z) (slot_id session_number : Z) (c : res mmi_call) : IO S Z :=
  match cb with
  | Some arg => c ← lift c; upcall arg slot_id session_number c
  | None => mret 0
  end.

(** The checks at the start of a close or display control message, and the byte after the command. *)
Definition command_message (with_argument : Z) (data : list Z) (parse : Z -> Z -> IO S Z) : IO S Z :=
  if zlen data <? 2 then mret (-1)
  else
    length ← lift (at_ data 0);
    if zlen data - 1 <? length then mret (-1)
    else
      cmd_id ← lift (at_ data 1);
      if cmd_id =? with_argument then
        if negb (length =? 2) then mret (-1)
        else argument ← lift (at_ data 2); parse cmd_id argument
      else parse cmd_id 0.

Definition en50221_app_mmi_parse_close (slot_id session_number : Z) (data : list Z) : IO S Z :=
  command_message MMI_CLOSE_MMI_CMD_ID_DELAY data (λ cmd_id delay,
    mmi ← mmi_of;
    tell upcall (mmi_closecallback mmi) slot_id session_number (MmiClose cmd_id delay)).

Definition en50221_app_mmi_parse_display_control (slot_id session_number : Z) (data : list Z) : IO S Z :=
  command_message MMI_DISPLAY_CONTROL_CMD_ID_SET_MMI_MODE data (λ cmd_id mmi_mode,
    mmi ← mmi_of;
    tell upcall (mmi_displaycontrolcallback mmi) slot_id session_number (MmiDisplayControl cmd_id mmi_mode)).

Definition en50221_app_mmi_parse_keypad_control (slot_id session_number : Z) (data : list Z) : IO S Z :=
  asn_message 1 data (λ asn_data_length data,
    cmd_id ← lift (at_ data 0);
    mmi ← mmi_of;
    tell_reading (mmi_keypadcontrolcallback mmi) slot_id session_number
      (key_codes ← read_slice (drop 1 data, asn_data_length - 1); mret (MmiKeypadControl cmd_id key_codes))).

Definition en50221_app_mmi_parse_enq (slot_id session_number : Z) (data : list Z) : IO S Z :=
  asn_message 2 data (λ asn_data_length data,
    b0 ← lift (at_ data 0);
    let blind_answer := if negb (Z.land b0 0x01 =? 0) then 1 else 0 in
    answer_length ← lift (at_ data 1);
    mmi ← mmi_of;
    tell_reading (mmi_enqcallback mmi) slot_id session_number
      (text ← read_slice (drop 2 data, asn_data_length - 2); mret (MmiEnq blind_answer answer_length text))).

(** [for (i = 0; i < text_count; i++)]: the texts, and the data behind them; [None]: the exit with -1. *)
Fixpoint extract_texts (text_count : nat) (data : slice) : IO S (option (list slice * slice)) :=
  match text_count with
  | O => mret (Some ([], data))
  | Datatypes.S text_count =>
      '(cur_status, text, consumed) ← en50221_app_mmi_defragment_text data;
      if cur_status <? 0 then mret None
      else
        r ← extract_texts text_count (drop (Z.to_nat consumed) data.1, u32 (data.2 - consumed));
        mret (match r with Some (texts, data) => Some (text :: texts, data) | None => None end)
  end.

Fixpoint read_slices (ss : list slice) : res (list (list Z)) :=
  match ss with
  | [] => mret []
  | s :: ss => t ← read_slice s; ts ← read_slices ss; mret (t :: ts)
  end.

(** The arguments of the menu and the list callback: the first three texts, the items, and what follows
    them if the number of items is 0xff. *)
Definition menu_arguments (texts : list slice) (items_raw : slice)
    (call : list Z -> list Z -> list Z -> list (list Z) -> list Z -> mmi_call) : res mmi_call :=
  title ← at_ texts 0 ≫= read_slice;
  sub_title ← at_ texts 1 ≫= read_slice;
  bottom ← at_ texts 2 ≫= read_slice;
  items ← read_slices (drop 3 texts);
  raw ← read_slice items_raw;
  mret (call title sub_title bottom items raw).

(** [text_count] is a [uint8_t]. *)
Definition en50221_app_mmi_parse_list_menu (slot_id session_number tag_id : Z) (more_last : bool)
    (data : list Z) : IO S Z :=
  asn_message 0 data (λ asn_data_length data,
    '(dfstatus, outdata) ← en50221_app_mmi_defragment session_number tag_id more_last (data, asn_data_length);
    if dfstatus <=? 0 then mret dfstatus
    else if outdata.2 <? 1 then mret (-1)
    else
      choice_nb ← lift (at_ outdata.1 0);
      let text_count := if choice_nb =? 0xff then 3 else u8 (choice_nb + 3) in
      r ← extract_texts (Z.to_nat text_count) (drop 1 outdata.1, u32 (outdata.2 - 1));
      match r with
      | None => mret (-1)
      | Some (text_data, data) =>
          let items_raw := if choice_nb =? 0xff then data else ([], 0) in
          mmi ← mmi_of;
          if tag_id =? TAG_MENU_LAST then
            tell_reading (mmi_menucallback mmi) slot_id session_number
              (menu_arguments text_data items_raw MmiMenu)
          else if tag_id =? TAG_LIST_LAST then
            tell_reading (mmi_listcallback mmi) slot_id session_number
              (menu_arguments text_data items_raw MmiList)
          else mret 0
      end).

Definition en50221_app_mmi_parse_subtitle (slot_id session_number tag_id : Z) (more_last : bool)
    (data : list Z) : IO S Z :=
  asn_message 0 data (λ asn_data_length data,
    '(dfstatus, outdata) ← en50221_app_mmi_defragment session_number tag_id more_last (data, asn_data_length);
    if dfstatus <=? 0 then mret dfstatus
    else
      mmi ← mmi_of;
      if tag_id =? TAG_SUBTITLE_SEGMENT_LAST then
        tell_reading (mmi_subtitlesegmentcallback mmi) slot_id session_number
          (segment ← read_slice outdata; mret (MmiSubtitleSegment segment))
      else if tag_id =? TAG_SUBTITLE_DOWNLOAD_LAST then
        tell_reading (mmi_subtitledownloadcallback mmi) slot_id session_number
          (segment ← read_slice outdata; mret (MmiSubtitleDownload segment))
      else mret 0).

(** [(flags & mask) ? 1 : 0] *)
Definition flag_bit (flags mask : Z) : Z := if negb (Z.land flags mask =? 0) then 1 else 0.

Definition en50221_app_mmi_parse_scene_end_mark (slot_id session_number : Z) (data : list Z) : IO S Z :=
  fixed_message 1 (negb (zlen data =? 2)) data (λ data,
    flags ← lift (at_ data 0);
    mmi ← mmi_of;
    tell upcall (mmi_sceneendmarkcallback mmi) slot_id session_number
      (MmiSceneEndMark (flag_bit flags 0x80) (flag_bit flags 0x40) (flag_bit flags 0x20) (Z.land flags 0x0f))).

Definition en50221_app_mmi_parse_scene_control (slot_id session_number : Z) (data : list Z) : IO S Z :=
  fixed_message 1 (negb (zlen data =? 2)) data (λ data,
    flags ← lift (at_ data 0);
    mmi ← mmi_of;
    tell upcall (mmi_scenecontrolcallback mmi) slot_id session_number
      (MmiSceneControl (flag_bit flags 0x80) (flag_bit flags 0x40) (Z.land flags 0x0f))).

Definition en50221_app_mmi_parse_flush_download (slot_id session_number : Z) (data : list Z) : IO S Z :=
  fixed_message 0 (negb (zlen data =? 1)) data (λ _,
    mmi ← mmi_of;
    tell upcall (mmi_flushdownloadcallback mmi) slot_id session_number MmiFlushDownload).

Definition en50221_app_mmi_message (slot_id session_number resource_id : Z) (data : list Z) : IO S Z :=
  app_message data (λ tag data,
    if tag =? TAG_CLOSE_MMI then en50221_app_mmi_parse_close slot_id session_number data
    else if tag =? TAG_DISPLAY_CONTROL then
      en50221_app_mmi_parse_display_control slot_id session_number data
    else if tag =? TAG_KEYPAD_CONTROL then
      en50221_app_mmi_parse_keypad_control slot_id session_number data
    else if tag =? TAG_ENQUIRY then en50221_app_mmi_parse_enq slot_id session_number data
    else if (tag =? TAG_MENU_LAST) || (tag =? TAG_LIST_LAST) then
      en50221_app_mmi_parse_list_menu slot_id session_number tag true data
    else if (tag =? TAG_MENU_MORE) || (tag =? TAG_LIST_MORE) then
      en50221_app_mmi_parse_list_menu slot_id session_number tag false data
    else if (tag =? TAG_SUBTITLE_SEGMENT_LAST) || (tag =? TAG_SUBTITLE_DOWNLOAD_LAST) then
      en50221_app_mmi_parse_subtitle slot_id session_number tag true data
    else if (tag =? TAG_SUBTITLE_SEGMENT_MORE) || (tag =? TAG_SUBTITLE_DOWNLOAD_MORE) then
      en50221_app_mmi_parse_subtitle slot_id session_number tag false data
    else if tag =? TAG_SCENE_END_MARK then
      en50221_app_mmi_parse_scene_end_mark slot_id session_number data
    else if tag =? TAG_SCENE_CONTROL then
      en50221_app_mmi_parse_scene_control slot_id session_number data
    else if tag =? TAG_FLUSH_DOWNLOAD then
      en50221_app_mmi_parse_flush_download slot_id session_number data
    else mret (-1)).
End Mmi.
