(* ===== verification/En50221MmiExchange.v ===== *)
(** * MMI: properties

    Menus, lists and subtitles arrive whole however their fragments are interleaved, their texts are read
    as they were written, and the other messages reach their callbacks with the values they encode. *)

From S2P Require Export En50221Mmi En50221Resources.

(** ** The texts of a menu *)

(** A text on the wire: fragments that others follow, and the last. *)
Record text := Text { t_more : list (list Z); t_last : list Z }.

Definition text_data (t : text) : list Z := concat (t_more t) ++ t_last t.

Definition text_object (tag : Z) (data : list Z) : list Z := app_tag tag ++ asn_field data ++ data.

Definition text_bytes (t : text) : list Z :=
  concat (text_object TAG_TEXT_MORE <$> t_more t) ++ text_object TAG_TEXT_LAST (t_last t).

Definition fragment_ok (data : list Z) : Prop := Forall byte data /\ zlen data < 65536.

Definition text_ok (t : text) : Prop :=
  Forall (λ f, fragment_ok f /\ f <> []) (t_more t) /\ fragment_ok (t_last t).

Lemma text_object_bytes tag data : fragment_ok data -> Forall byte (text_object tag data).
Proof.
  intros [Hb Hl]. unfold text_object. rewrite !Forall_app.
  split_and!; [apply app_tag_bytes|by apply asn_field_bytes|done].
Qed.

Lemma text_bytes_bytes t : text_ok t -> Forall byte (text_bytes t).
Proof.
  intros [Hm Hl]. unfold text_bytes. apply Forall_app. split; [|by apply text_object_bytes].
  apply Forall_concat, Forall_fmap. eapply Forall_impl; [|exact Hm]. intros x [Hx _]. by apply text_object_bytes.
Qed.

Section Texts.
Context {S : Type} (e : env).
Hypothesis memory : forall k, e_malloc e k = true.
Implicit Types w : world S.

(** One round of the loop, up to the tag. *)
Lemma text_object_run fuel tag data post ch consumed w :
  0 <= tag < 2 ^ 24 -> fragment_ok data -> Forall byte post ->
  let bytes := text_object tag data ++ post in
  zlen bytes < 2 ^ 32 -> 0 <= consumed -> consumed + zlen bytes < 2 ^ 32 ->
  defragment_text e (Datatypes.S fuel) bytes (zlen bytes) ch consumed w =
  (let consumed' := consumed + zlen (text_object tag data) in
   if tag =? TAG_TEXT_LAST then
     match ch with
     | NoChain => mret (1, (data ++ post, zlen data), consumed')
     | _ =>
         new_text ← append_block e ch (data ++ post, zlen data);
         match new_text with
         | None => free_chain (chain_after_block ch (data ++ post, zlen data));; mret (-1, ([], 0), 0)
         | Some bytes => mret (2, (bytes, zlen bytes), consumed')
         end
     end
   else if tag =? TAG_TEXT_MORE then
     new_text ← append_block e ch (data ++ post, zlen data);
     match new_text with
     | None => free_chain (chain_after_block ch (data ++ post, zlen data));; mret (-1, ([], 0), 0)
     | Some bytes => defragment_text e fuel post (zlen post) (Chain bytes) consumed'
     end
   else free_chain ch;; mret (-1, ([], 0), 0)) w.
Proof.
  intros Ht [Hb Hl] Hp. cbv zeta. unfold text_object. intros Hlen Hc Hfit.
  pose proof (asn_decode_field data post Hb Hp Hl) as Hdec. rewrite <- !app_assoc in *.
  set (lf := asn_field data) in *. set (body := lf ++ data ++ post) in *.
  assert (Hbl : zlen body = zlen lf + zlen data + zlen post) by (unfold body; rewrite !length_app; lia).
  assert (Htl : zlen (app_tag tag ++ body) = 3 + zlen body) by (rewrite length_app; cbn [app_tag length]; lia).
  assert (Hol : zlen (app_tag tag ++ lf ++ data) = 3 + zlen lf + zlen data)
    by (rewrite !length_app; cbn [app_tag length]; lia).
  rewrite Htl in *. rewrite Hol. cbn [defragment_text]. rewrite (proj2 (Z.ltb_ge _ _)) by lia.
  rewrite (io_bind_run _ _ w (Z.land (Z.shiftr tag 16) 255) w) by done.
  rewrite (io_bind_run _ _ w (Z.land (Z.shiftr tag 8) 255) w) by done.
  rewrite (io_bind_run _ _ w (Z.land tag 255) w) by done. rewrite tag_combine by done. cbv zeta.
  change (drop 3 (app_tag tag ++ body)) with body. replace (3 + zlen body - 3) with (zlen body) by lia.
  rewrite (u32_id (zlen body)) by lia. rewrite (io_bind_run _ _ w (Some (zlen data, zlen lf)) w) by by rewrite Hdec.
  assert (Hdrop : drop (Z.to_nat (zlen lf)) body = data ++ post) by (unfold body; by rewrite Nat2Z.id, drop_app_length).
  rewrite Hdrop. rewrite !(u32_id (zlen body - zlen lf)) by lia. rewrite (u32_id (consumed + 3)) by lia.
  rewrite (u32_id (consumed + 3 + zlen lf)) by lia.
  rewrite (u32_id (consumed + 3 + zlen lf + zlen data)) by lia.
  rewrite (u32_id (zlen body - zlen lf - zlen data)) by lia.
  rewrite Nat2Z.id, drop_app_length. replace (zlen body - zlen lf - zlen data) with (zlen post) by lia.
  replace (consumed + 3 + zlen lf + zlen data) with (consumed + (3 + zlen lf + zlen data)) by lia. done.
Qed.
(** The world is the same but for the number of system calls. *)
Definition same_world w w' : Prop := w_state w' = w_state w /\ w_log w' = w_log w.

Lemma text_object_length tag data : zlen data + 3 <= zlen (text_object tag data).
Proof. unfold text_object. rewrite !length_app. cbn [app_tag length]. lia. Qed.

Lemma defragment_text_run last post more : forall fuel ch consumed w,
  text_ok (Text more last) -> Forall byte post -> (length more < fuel)%nat -> chain_fine ch ->
  let bytes := text_bytes (Text more last) ++ post in
  zlen (chain_data ch) + zlen bytes < 2 ^ 32 -> 0 <= consumed -> consumed + zlen bytes < 2 ^ 32 ->
  exists st sl w', defragment_text e fuel bytes (zlen bytes) ch consumed w =
      Ok ((st, sl, consumed + zlen (text_bytes (Text more last))), w') /\
    0 < st /\ read_slice sl = Ok (chain_data ch ++ text_data (Text more last)) /\ same_world w w'.
Proof.
  induction more as [|f more IH]; intros fuel ch consumed w [Hmore Hlast] Hp Hfuel Hch; cbv zeta;
    cbn [t_more t_last] in *; (destruct fuel as [|fuel]; [lia|]).
  - unfold text_bytes, text_data. cbn [t_more t_last fmap list_fmap concat app]. intros Hl Hc Hfit.
    rewrite text_object_run by (done || lia). cbv zeta. change (TAG_TEXT_LAST =? TAG_TEXT_LAST) with true. cbv iota.
    pose proof (text_object_length TAG_TEXT_LAST last). rewrite length_app in Hl.
    pose proof (append_block_run e memory ch last post w (proj1 Hch) (proj2 Hch) ltac:(lia)) as Ha.
    destruct ch as [|old|]; [| |by destruct Hch].
    + exists 1, (last ++ post, zlen last), w. split; [done|]. split; [lia|]. split; [|done].
      unfold read_slice. cbn [fst snd]. rewrite (proj2 (Z.ltb_ge _ _)) by (rewrite length_app; lia).
      by rewrite Nat2Z.id, take_app_length.
    + rewrite (io_bind_run _ _ _ _ _ Ha). cbn [chain_data]. eexists 2, _, _. split; [done|]. split; [lia|].
      split; [|done]. unfold read_slice. cbn [fst snd]. by rewrite Z.ltb_irrefl, Nat2Z.id, take_ge by lia.
  - unfold text_bytes, text_data. cbn [t_more t_last fmap list_fmap concat]. rewrite <- !app_assoc.
    apply Forall_cons_iff in Hmore as [[Hf Hne] Hmore]. intros Hl Hc Hfit.
    assert (Hrest : Forall byte (text_bytes (Text more last) ++ post)).
    { apply Forall_app. split; [by apply text_bytes_bytes|done]. }
    unfold text_bytes in Hrest, IH. cbn [t_more t_last] in Hrest, IH. rewrite <- !app_assoc in *.
    set (rest := concat (text_object TAG_TEXT_MORE <$> more) ++ text_object TAG_TEXT_LAST last ++ post) in *.
    pose proof (text_object_length TAG_TEXT_MORE f) as Hfl. rewrite length_app in Hl, Hfit.
    rewrite text_object_run by (done || (rewrite ?length_app; lia)). cbv zeta.
    change (TAG_TEXT_MORE =? TAG_TEXT_LAST) with false. change (TAG_TEXT_MORE =? TAG_TEXT_MORE) with true. cbv iota.
    pose proof (append_block_run e memory ch f rest w (proj1 Hch) (proj2 Hch) ltac:(lia)) as Ha.
    rewrite (io_bind_run _ _ _ _ _ Ha).
    destruct (IH fuel (Chain (chain_data ch ++ f)) (consumed + zlen (text_object TAG_TEXT_MORE f)) (ticked w))
      as (st & sl & w' & Hr & Hst & Hsl & Hw); [by split|done|cbn [length] in Hfuel; lia|by apply chain_fine_app
      |cbn [chain_data]; rewrite length_app; lia|lia|lia|].
    exists st, sl, w'. rewrite Hr. split; [|split; [done|split; [|exact Hw]]].
    + do 3 f_equal. rewrite !length_app. lia.
    + rewrite Hsl. unfold text_data. cbn [chain_data t_more t_last]. by rewrite <- app_assoc.
Qed.

(** A text, and what is behind it. *)
Lemma text_run t post w :
  text_ok t -> Forall byte post -> zlen (text_bytes t ++ post) < 2 ^ 32 ->
  let bytes := text_bytes t ++ post in
  exists st sl w', en50221_app_mmi_defragment_text e (bytes, zlen bytes) w =
      Ok ((st, sl, zlen (text_bytes t)), w') /\
    0 < st /\ read_slice sl = Ok (text_data t) /\ same_world w w'.
Proof.
  intros Ht Hp Hl. cbv zeta. destruct t as [more last]. unfold en50221_app_mmi_defragment_text. cbn [fst snd].
  apply (defragment_text_run last post more _ NoChain 0); [done|done| |done|cbn [chain_data length]; lia|done|lia].
  assert (Hn : (length more <= length (concat (text_object TAG_TEXT_MORE <$> more)))%nat).
  { clear. induction more as [|f more IH]; [cbn; lia|]. rewrite fmap_cons. cbn [concat length]. rewrite length_app.
    pose proof (text_object_length TAG_TEXT_MORE f). lia. }
  unfold text_bytes. rewrite !length_app. cbn [t_more]. lia.
Qed.

Lemma extract_texts_run ts : forall post w,
  Forall text_ok ts -> Forall byte post ->
  let bytes := concat (text_bytes <$> ts) ++ post in
  zlen bytes < 2 ^ 32 ->
  exists sls w', extract_texts e (length ts) (bytes, zlen bytes) w = Ok (Some (sls, (post, zlen post)), w') /\
    Forall2 (λ sl t, read_slice sl = Ok (text_data t)) sls ts /\ same_world w w'.
Proof.
  induction ts as [|t ts IH]; intros post w Hts Hp; cbv zeta; intros Hl; [by exists [], w|].
  apply Forall_cons_iff in Hts as [Ht Hts]. cbn [fmap list_fmap concat] in *. rewrite <- app_assoc in *.
  set (rest := concat (text_bytes <$> ts) ++ post) in *.
  assert (Hrest : Forall byte rest).
  { apply Forall_app. split; [|done]. apply Forall_concat, Forall_fmap. eapply Forall_impl; [|exact Hts].
    intros x Hx. by apply text_bytes_bytes. }
  destruct (text_run t rest w Ht Hrest Hl) as (st & sl & w1 & Hr & Hst & Hsl & Hw1).
  cbn [length extract_texts]. rewrite (io_bind_run _ _ _ _ _ Hr). rewrite (proj2 (Z.ltb_ge _ _)) by lia.
  cbn [fst snd]. rewrite length_app in *. rewrite Nat2Z.id, drop_app_length, u32_id by lia.
  replace (Z.of_nat (length (text_bytes t) + length rest) - zlen (text_bytes t)) with (zlen rest) by lia.
  destruct (IH post w1 Hts Hp) as (sls & w2 & Hr2 & Hall & Hw2); [fold rest; lia|].
  exists (sl :: sls), w2. split; [by rewrite (io_bind_run _ _ _ _ _ Hr2)|]. split; [by apply Forall2_cons|].
  destruct Hw1, Hw2. split; congruence.
Qed.
End Texts.

(** ** Menus and lists *)

(** The items are counted, or the count is 0xff and they are raw data. *)
Inductive items := Items (ts : list text) | RawItems (data : list Z).

Record menu := Menu { m_title : text; m_sub_title : text; m_bottom : text; m_items : items }.

Definition menu_texts (m : menu) : list text :=
  [m_title m; m_sub_title m; m_bottom m] ++ match m_items m with Items ts => ts | RawItems _ => [] end.

Definition menu_count (m : menu) : Z := match m_items m with Items ts => zlen ts | RawItems _ => 0xff end.

Definition menu_raw (m : menu) : list Z := match m_items m with Items _ => [] | RawItems data => data end.

Definition menu_bytes (m : menu) : list Z := menu_count m :: concat (text_bytes <$> menu_texts m) ++ menu_raw m.

(** With three texts more than 252 items there are do not fit the counter. *)
Definition menu_ok (m : menu) : Prop :=
  Forall text_ok (menu_texts m) /\
  match m_items m with Items ts => zlen ts <= 252 | RawItems data => Forall byte data end.

Definition menu_call (call : list Z -> list Z -> list Z -> list (list Z) -> list Z -> mmi_call) (m : menu) :
    mmi_call :=
  call (text_data (m_title m)) (text_data (m_sub_title m)) (text_data (m_bottom m))
    (text_data <$> match m_items m with Items ts => ts | RawItems _ => [] end) (menu_raw m).

(** The number of texts the code computes from the count. *)
Lemma menu_text_count m : menu_ok m ->
  Z.to_nat (if menu_count m =? 0xff then 3 else u8 (menu_count m + 3)) = length (menu_texts m).
Proof.
  intros [_ Hi]. unfold menu_count, menu_texts. rewrite length_app. destruct (m_items m) as [ts|raw]; [|done].
  rewrite (proj2 (Z.eqb_neq _ _)) by lia. unfold u8. rewrite Z.mod_small by lia. cbn [length]. lia.
Qed.

Lemma menu_raw_bytes m : menu_ok m -> Forall byte (menu_raw m).
Proof. intros [_ Hi]. unfold menu_raw. destruct (m_items m); [apply Forall_nil|done]. Qed.

(** What the code passes as raw items. *)
Lemma menu_raw_slice m : menu_ok m ->
  (if menu_count m =? 0xff then (menu_raw m, zlen (menu_raw m)) else ([], 0)) = (menu_raw m, zlen (menu_raw m)).
Proof.
  intros [_ Hi]. unfold menu_count, menu_raw. destruct (m_items m) as [ts|raw]; [|done].
  by rewrite (proj2 (Z.eqb_neq _ _)) by lia.
Qed.

Lemma read_slices_run sls ts : Forall2 (λ sl t, read_slice sl = Ok (text_data t)) sls ts ->
  read_slices sls = Ok (text_data <$> ts).
Proof. induction 1 as [|sl t sls ts Hs _ IH]; [done|]. cbn [read_slices]. by rewrite Hs, IH. Qed.

Lemma read_whole data : read_slice (data, zlen data) = Ok data.
Proof. unfold read_slice. cbn [fst snd]. by rewrite Z.ltb_irrefl, Nat2Z.id, firstn_all. Qed.

(** The call of the callback, from the texts that were read. *)
Lemma menu_arguments_run m sls call :
  Forall2 (λ sl t, read_slice sl = Ok (text_data t)) sls (menu_texts m) ->
  menu_arguments sls (menu_raw m, zlen (menu_raw m)) call = Ok (menu_call call m).
Proof.
  intros Hall. unfold menu_texts in Hall. cbn [app] in Hall.
  apply Forall2_cons_inv_r in Hall as (s1 & sls1 & H1 & Hall & ->).
  apply Forall2_cons_inv_r in Hall as (s2 & sls2 & H2 & Hall & ->).
  apply Forall2_cons_inv_r in Hall as (s3 & sls3 & H3 & Hall & ->). apply read_slices_run in Hall.
  cbv beta in H1, H2, H3. unfold menu_arguments.
  change (at_ (s1 :: s2 :: s3 :: sls3) 0) with (Ok s1). change (at_ (s1 :: s2 :: s3 :: sls3) 1) with (Ok s2).
  change (at_ (s1 :: s2 :: s3 :: sls3) 2) with (Ok s3). change (drop 3 (s1 :: s2 :: s3 :: sls3)) with sls3.
  cbn [mbind res_bind]. by rewrite H1, H2, H3, Hall, read_whole.
Qed.

(** ** Blocks *)

Definition tag_of (b : mmi_block) (last : bool) : Z :=
  match b, last with
  | MenuBlock, true => TAG_MENU_LAST
  | MenuBlock, false => TAG_MENU_MORE
  | ListBlock, true => TAG_LIST_LAST
  | ListBlock, false => TAG_LIST_MORE
  | SegmentBlock, true => TAG_SUBTITLE_SEGMENT_LAST
  | SegmentBlock, false => TAG_SUBTITLE_SEGMENT_MORE
  | DownloadBlock, true => TAG_SUBTITLE_DOWNLOAD_LAST
  | DownloadBlock, false => TAG_SUBTITLE_DOWNLOAD_MORE
  end.

Lemma block_of_tag_of b last : block_of_tag (tag_of b last) = Some b.
Proof. by destruct b, last. Qed.

Lemma block_chain_set b b' ch s :
  block_chain b (set_block_chain b' ch s) = if decide (b = b') then ch else block_chain b s.
Proof. by destruct b, b', s. Qed.

Lemma number_set_block_chain b ch s : ms_session_number (set_block_chain b ch s) = ms_session_number s.
Proof. by destruct b, s. Qed.

(** What the module means by a whole block. *)
Definition mmi_complete (k : Z * mmi_block) (data : list Z) (c : mmi_call) : Prop :=
  match k.2 with
  | MenuBlock => exists m, menu_ok m /\ data = menu_bytes m /\ c = menu_call MmiMenu m
  | ListBlock => exists m, menu_ok m /\ data = menu_bytes m /\ c = menu_call MmiList m
  | SegmentBlock => c = MmiSubtitleSegment data
  | DownloadBlock => c = MmiSubtitleDownload data
  end.

(** The callbacks of complete blocks. *)
Definition block_callback (m : app_mmi) (b : mmi_block) : option Z :=
  match b with
  | MenuBlock => mmi_menucallback m
  | ListBlock => mmi_listcallback m
  | SegmentBlock => mmi_subtitlesegmentcallback m
  | DownloadBlock => mmi_subtitledownloadcallback m
  end.

Definition mmi_chain (m : app_mmi) (k : Z * mmi_block) : chain :=
  match find_session ms_session_number k.1 (mmi_sessions m) with
  | Some s => block_chain k.2 s
  | None => NoChain
  end.

Record mmi_holds (cbs : mmi_block -> option Z) (p : Z * mmi_block -> list Z) (m : app_mmi) : Prop := {
  mh_callback : forall b, block_callback m b = cbs b;
  mh_fine : forall k, chain_fine (mmi_chain m k);
  mh_pending : forall k, chain_data (mmi_chain m k) = p k;
}.

Lemma block_callback_sessions ss m b : block_callback (set_mmi_sessions ss m) b = block_callback m b.
Proof. by destruct m, b. Qed.

Lemma mmi_sessions_set ss m : mmi_sessions (set_mmi_sessions ss m) = ss.
Proof. by destruct m. Qed.

(** The chain of a session that exists is replaced. *)
Lemma mmi_holds_update cbs p m n b ch s :
  mmi_holds cbs p m -> find_session ms_session_number n (mmi_sessions m) = Some s -> chain_fine ch ->
  mmi_holds cbs (pending_set p (n, b) (chain_data ch))
    (set_mmi_sessions (update_session ms_session_number n (set_block_chain b ch) (mmi_sessions m)) m).
Proof.
  intros [Hc Hf Hp] Hs Hch.
  assert (Hk : forall k, mmi_chain (set_mmi_sessions
      (update_session ms_session_number n (set_block_chain b ch) (mmi_sessions m)) m) k =
    if decide (k = (n, b)) then ch else mmi_chain m k).
  { intros [n' b']. unfold mmi_chain. cbn [fst snd].
    rewrite mmi_sessions_set, find_update by (intros; apply number_set_block_chain).
    destruct (Z.eqb_spec n' n) as [->|Hn]; [|by rewrite decide_False by congruence].
    rewrite Hs. cbn [fmap option_fmap option_map]. rewrite block_chain_set.
    destruct (decide (b' = b)) as [->|Hb]; [by rewrite decide_True|by rewrite decide_False by congruence]. }
  split; [intros b'; by rewrite block_callback_sessions|intros k; rewrite Hk; by case_decide|].
  intros k. rewrite Hk. unfold pending_set. by case_decide.
Qed.

(** A new session has nothing pending. *)
Lemma mmi_holds_new cbs p m n :
  mmi_holds cbs p m -> find_session ms_session_number n (mmi_sessions m) = None ->
  mmi_holds cbs p (set_mmi_sessions (MmiSession n NoChain NoChain NoChain NoChain :: mmi_sessions m) m).
Proof.
  intros [Hc Hf Hp] Hs.
  assert (Hk : forall k, mmi_chain (set_mmi_sessions
      (MmiSession n NoChain NoChain NoChain NoChain :: mmi_sessions m) m) k = mmi_chain m k).
  { intros [n' b']. unfold mmi_chain. cbn [fst snd].
    rewrite mmi_sessions_set. cbn [find_session ms_session_number]. destruct (Z.eqb_spec n n') as [<-|]; [|done].
    rewrite Hs. by destruct b'. }
  split; [intros b'; by rewrite block_callback_sessions|intros k; by rewrite Hk..].
Qed.

Section Blocks.
Context {S : Type} `{HM : HasMmi S} `{!MmiLaws S} (e : env).
Context (upcall : Z -> Z -> Z -> mmi_call -> IO S Z) (cbs : mmi_block -> option Z) (slot_id id : Z).
Context (ev : Z -> Z -> mmi_call -> event).

Implicit Types w : world S.

Hypothesis memory : forall k, e_malloc e k = true.

(** The callback leaves the resource alone. *)
Hypothesis recorded : forall arg n c w, exists r w', upcall arg slot_id n c w = Ok (r, w') /\
  get_mmi (w_state w') = get_mmi (w_state w) /\ w_log w' = w_log w ++ [ev arg n c].

Definition mmi_step (f : fragment (K := Z * mmi_block)) : IO S Z :=
  en50221_app_mmi_message e upcall slot_id (fr_key f).1 id
    (text_object (tag_of (fr_key f).2 (fr_last f)) (fr_data f)).

Definition mmi_events (call : Z * mmi_block * mmi_call) : list event :=
  match cbs call.1.2 with Some arg => [ev arg call.1.1 call.2] | None => [] end.

Definition mmi_represents (p : Z * mmi_block -> list Z) (w : world S) : Prop :=
  mmi_holds cbs p (get_mmi (w_state w)).

(** The world after a change of the resource. *)
Definition with_mmi (f : app_mmi -> app_mmi) (w : world S) : world S :=
  World (put_mmi (f (get_mmi (w_state w))) (w_state w)) (w_tick w) (w_log w).

Lemma update_session_run n f w : update_mmi_session n f w = Ok (tt, with_mmi (λ m,
  set_mmi_sessions (update_session ms_session_number n f (mmi_sessions m)) m) w).
Proof. done. Qed.

(** Appending to what is pending. *)
Lemma append_pending_mmi p n b s data w w0 :
  mmi_represents p w -> find_session ms_session_number n (mmi_sessions (get_mmi (w_state w))) = Some s ->
  zlen (p (n, b)) + zlen data < 2 ^ 32 ->
  append_block e (block_chain b s) (data, zlen data) w0 = Ok (Some (p (n, b) ++ data), ticked w0).
Proof.
  intros [_ Hf Hp] Hs Hlen. specialize (Hf (n, b)). specialize (Hp (n, b)). unfold mmi_chain in *.
  cbn [fst snd] in *. rewrite Hs in *. rewrite <- Hp in *. rewrite <- (app_nil_r data) at 1.
  apply append_block_run; [done|apply Hf..|done].
Qed.

Lemma mmi_more_run p n b data w :
  mmi_represents p w -> data <> [] -> zlen (p (n, b)) + zlen data < 2 ^ 32 ->
  exists w', en50221_app_mmi_defragment e n (tag_of b false) false (data, zlen data) w = Ok ((0, ([] : list Z, 0)), w') /\
    mmi_represents (pending_set p (n, b) (p (n, b) ++ data)) w' /\ w_log w' = w_log w.
Proof.
  intros Hm Hne Hlen. unfold en50221_app_mmi_defragment.
  rewrite (io_bind_run mmi_of _ w (get_mmi (w_state w)) w) by done. cbv zeta. cbn [negb].
  rewrite block_of_tag_of.
  assert (Hstep : forall s w1, mmi_represents p w1 -> w_log w1 = w_log w ->
    find_session ms_session_number n (mmi_sessions (get_mmi (w_state w1))) = Some s ->
    exists w', (new_data ← append_block e (block_chain b s) (data, zlen data);
      match new_data with
      | None => update_mmi_session n (set_block_chain b (chain_after_block (block_chain b s) (data, zlen data)));;
          mret (-1, ([] : list Z, 0))
      | Some bytes => update_mmi_session n (set_block_chain b (Chain bytes));; mret (0, ([] : list Z, 0))
      end) w1 = Ok ((0, ([] : list Z, 0)), w') /\
      mmi_represents (pending_set p (n, b) (p (n, b) ++ data)) w' /\ w_log w' = w_log w).
  { intros s w1 Hm1 Hlog Hs. rewrite (io_bind_run _ _ _ _ _ (append_pending_mmi p n b s data w1 w1 Hm1 Hs Hlen)).
    eexists. split; [by rewrite (io_bind_run _ _ _ _ _ (update_session_run _ _ _))|]. split; [|done].
    unfold mmi_represents. cbn [w_state with_mmi ticked]. rewrite get_put_mmi.
    apply (mmi_holds_update cbs p _ n b (Chain (p (n, b) ++ data)) s); [done..|by apply chain_fine_app]. }
  destruct (find_session ms_session_number n _) as [s|] eqn:Es.
  - rewrite (io_bind_run _ _ w (Some s) w) by done. by apply Hstep.
  - set (s := MmiSession n NoChain NoChain NoChain NoChain) in *.
    set (w1 := with_mmi (λ m, set_mmi_sessions (s :: mmi_sessions m) m) (ticked w)).
    rewrite (io_bind_run _ _ w (Some s) w1).
    2: { by rewrite (io_bind_run _ _ w true (ticked w)) by by apply malloc_run. }
    apply Hstep; [|done|]; unfold mmi_represents, w1; cbn [w_state with_mmi ticked]; rewrite get_put_mmi.
    + by apply mmi_holds_new.
    + rewrite mmi_sessions_set. cbn [find_session]. by rewrite Z.eqb_refl.
Qed.

Lemma mmi_last_run p n b data w :
  mmi_represents p w -> zlen (p (n, b)) + zlen data < 2 ^ 32 ->
  exists st w', en50221_app_mmi_defragment e n (tag_of b true) true (data, zlen data) w =
      Ok ((st, (p (n, b) ++ data, zlen (p (n, b) ++ data))), w') /\
    0 < st /\ mmi_represents (pending_set p (n, b) []) w' /\ w_log w' = w_log w.
Proof.
  intros Hm Hlen. unfold en50221_app_mmi_defragment.
  rewrite (io_bind_run mmi_of _ w (get_mmi (w_state w)) w) by done. cbv zeta. cbn [negb].
  rewrite block_of_tag_of. destruct (find_session ms_session_number n _) as [s|] eqn:Es.
  - rewrite (io_bind_run _ _ _ _ _ (append_pending_mmi p n b s data w w Hm Es Hlen)).
    eexists _, _. split; [by rewrite (io_bind_run _ _ _ _ _ (update_session_run _ _ _))|].
    split; [done|]. split; [|done].
    unfold mmi_represents. cbn [w_state with_mmi ticked]. rewrite get_put_mmi.
    by apply (mmi_holds_update cbs p _ n b NoChain s).
  - destruct Hm as [Hc Hf Hp].
    assert (E : p (n, b) = []) by (rewrite <- Hp; unfold mmi_chain; cbn [fst snd]; by rewrite Es).
    rewrite E. exists 1, w. split; [done|]. split; [done|]. split; [|done]. split; [done..|].
    intros k. rewrite Hp. unfold pending_set. by case_decide as Ek; [rewrite Ek|].
Qed.

(** The message function finds the parser of the block. *)
Lemma mmi_step_run n b last data w :
  mmi_step (Fragment (n, b) last data) w =
  (match b with
   | MenuBlock | ListBlock => en50221_app_mmi_parse_list_menu e upcall slot_id n (tag_of b last) last
   | SegmentBlock | DownloadBlock => en50221_app_mmi_parse_subtitle e upcall slot_id n (tag_of b last) last
   end) (asn_field data ++ data) w.
Proof.
  unfold mmi_step, en50221_app_mmi_message, text_object. cbn [fr_key fr_last fr_data fst snd].
  rewrite app_message_tag by by destruct b, last. by destruct b, last.
Qed.

Lemma mmi_more_step p k data w : mmi_represents p w ->
  Forall byte data -> data <> [] -> zlen data < 65536 -> zlen (p k) + zlen data < 2 ^ 32 ->
  simulates mmi_step mmi_represents (Fragment k false data) (pending_set p k (p k ++ data)) [] w.
Proof.
  intros Hm Hb Hne Hd Hlen. destruct k as [n b].
  destruct (mmi_more_run p n b data w Hm Hne Hlen) as (w' & Hr & Hm' & Hlog).
  exists 0, w'. split; [|by rewrite app_nil_r]. rewrite mmi_step_run.
  destruct b; unfold en50221_app_mmi_parse_list_menu, en50221_app_mmi_parse_subtitle;
    rewrite asn_message_run by (done || lia); by rewrite (io_bind_run _ _ _ _ _ Hr).
Qed.

(** The callback of a complete block is called, if there is one. *)
Lemma tell_reading_run p n b c read w w1 :
  mmi_represents p w1 -> w_log w1 = w_log w -> read = Ok c ->
  exists r w', tell_reading upcall (cbs b) slot_id n read w1 = Ok (r, w') /\
    mmi_represents p w' /\ w_log w' = w_log w ++ mmi_events (n, b, c).
Proof.
  intros Hm Hlog ->. unfold mmi_events, tell_reading. cbn [fst snd]. destruct (cbs b) as [arg|].
  - destruct (recorded arg n c w1) as (r & w2 & Hc & Hg & Hlog2). exists r, w2.
    rewrite (io_bind_run _ _ w1 c w1) by done. split; [done|]. split; [|by rewrite Hlog2, Hlog].
    unfold mmi_represents. by rewrite Hg.
  - exists 0, w1. split; [done|]. split; [done|]. by rewrite app_nil_r.
Qed.

Lemma mmi_represents_state p w w' : mmi_represents p w -> w_state w' = w_state w -> mmi_represents p w'.
Proof. intros H E. unfold mmi_represents. by rewrite E. Qed.

(** The last fragment of a menu or a list. *)
Lemma menu_last_run p n b call m data w :
  mmi_represents p w -> Forall byte data -> zlen data < 65536 -> zlen (p (n, b)) + zlen data < 2 ^ 32 ->
  menu_ok m -> p (n, b) ++ data = menu_bytes m -> (b, call) = (MenuBlock, MmiMenu) \/ (b, call) = (ListBlock, MmiList) ->
  exists r w', en50221_app_mmi_parse_list_menu e upcall slot_id n (tag_of b true) true (asn_field data ++ data) w =
      Ok (r, w') /\
    mmi_represents (pending_set p (n, b) []) w' /\ w_log w' = w_log w ++ mmi_events (n, b, menu_call call m).
Proof.
  intros Hm Hb Hd Hlen Hok E Hbc. pose proof (proj1 Hok) as Hts.
  destruct (mmi_last_run p n b data w Hm Hlen) as (st & w1 & Hr & Hst & Hm1 & Hlog1).
  unfold en50221_app_mmi_parse_list_menu. rewrite asn_message_run by (done || lia).
  rewrite (io_bind_run _ _ _ _ _ Hr). rewrite (proj2 (Z.leb_gt _ _)) by lia. cbn [fst snd].
  assert (Hl : zlen (menu_bytes m) < 2 ^ 32) by (rewrite <- E, length_app; lia).
  rewrite E in *. clear E Hr. unfold menu_bytes in *. cbn [length] in Hl.
  set (rest := concat (text_bytes <$> menu_texts m) ++ menu_raw m) in *.
  rewrite (proj2 (Z.ltb_ge _ _)) by (cbn [length]; lia).
  rewrite (io_bind_run _ _ w1 (menu_count m) w1) by done. cbv zeta.
  change (drop 1 (menu_count m :: rest)) with rest.
  replace (zlen (menu_count m :: rest) - 1) with (zlen rest) by (cbn [length]; lia). rewrite u32_id by lia.
  rewrite menu_text_count by done. pose proof (menu_raw_bytes m Hok) as Hraw.
  destruct (extract_texts_run e memory (menu_texts m) (menu_raw m) w1 Hts Hraw) as (sls & w2 & Hx & Hall & Hs2 & Hl2);
    [fold rest; lia|]. fold rest in Hx. rewrite (io_bind_run _ _ _ _ _ Hx). cbv zeta.
  rewrite (io_bind_run mmi_of _ w2 (get_mmi (w_state w2)) w2) by done.
  pose proof (mmi_represents_state _ _ _ Hm1 Hs2) as Hm2.
  rewrite menu_raw_slice by done. pose proof (mh_callback _ _ _ Hm2 b) as Hcb.
  destruct Hbc as [[= -> ->]|[= -> ->]].
  - change (tag_of MenuBlock true =? TAG_MENU_LAST) with true. cbv iota. cbn [block_callback] in Hcb. rewrite Hcb.
    apply tell_reading_run; [done|congruence|by apply menu_arguments_run].
  - change (tag_of ListBlock true =? TAG_MENU_LAST) with false. change (tag_of ListBlock true =? TAG_LIST_LAST) with true.
    cbv iota. cbn [block_callback] in Hcb. rewrite Hcb.
    apply tell_reading_run; [done|congruence|by apply menu_arguments_run].
Qed.

(** The last fragment of a subtitle. *)
Lemma subtitle_last_run p n b c data w :
  mmi_represents p w -> Forall byte data -> zlen data < 65536 -> zlen (p (n, b)) + zlen data < 2 ^ 32 ->
  (b, c) = (SegmentBlock, MmiSubtitleSegment (p (n, b) ++ data)) \/
  (b, c) = (DownloadBlock, MmiSubtitleDownload (p (n, b) ++ data)) ->
  exists r w', en50221_app_mmi_parse_subtitle e upcall slot_id n (tag_of b true) true (asn_field data ++ data) w =
      Ok (r, w') /\
    mmi_represents (pending_set p (n, b) []) w' /\ w_log w' = w_log w ++ mmi_events (n, b, c).
Proof.
  intros Hm Hb Hd Hlen Hc. destruct (mmi_last_run p n b data w Hm Hlen) as (st & w1 & Hr & Hst & Hm1 & Hlog1).
  unfold en50221_app_mmi_parse_subtitle. rewrite asn_message_run by (done || lia).
  rewrite (io_bind_run _ _ _ _ _ Hr). rewrite (proj2 (Z.leb_gt _ _)) by lia.
  rewrite (io_bind_run mmi_of _ w1 (get_mmi (w_state w1)) w1) by done.
  pose proof (mh_callback _ _ _ Hm1 b) as Hcb.
  destruct Hc as [[= -> ->]|[= -> ->]]; cbn [block_callback] in Hcb.
  - change (tag_of SegmentBlock true =? TAG_SUBTITLE_SEGMENT_LAST) with true. cbv iota. rewrite Hcb.
    apply tell_reading_run; [done..|by rewrite read_whole].
  - change (tag_of DownloadBlock true =? TAG_SUBTITLE_SEGMENT_LAST) with false.
    change (tag_of DownloadBlock true =? TAG_SUBTITLE_DOWNLOAD_LAST) with true. cbv iota. rewrite Hcb.
    apply tell_reading_run; [done..|by rewrite read_whole].
Qed.

Lemma mmi_last_step p k data c w : mmi_represents p w ->
  Forall byte data -> zlen data < 65536 -> zlen (p k) + zlen data < 2 ^ 32 -> mmi_complete k (p k ++ data) c ->
  simulates mmi_step mmi_represents (Fragment k true data) (pending_set p k []) (mmi_events (k, c)) w.
Proof.
  intros Hm Hb Hd Hlen Hc. destruct k as [n b]. unfold simulates. rewrite mmi_step_run.
  destruct b; cbn [mmi_complete snd] in Hc; (destruct Hc as (m & Hok & E & ->) || subst c).
  - eapply menu_last_run; eauto.
  - eapply menu_last_run; eauto.
  - eapply subtitle_last_run; eauto.
  - eapply subtitle_last_run; eauto.
Qed.
End Blocks.

(** C8: the MMI resource refines the reassembly specification: however the fragments of menus, lists,
    subtitle segments and subtitle downloads of several sessions are interleaved, every block that ends is
    delivered once and whole to the callback of its kind, with the title, the texts and the items of a
    menu as they were written (the texts may be in fragments again), and what is pending for each session
    and kind is what the specification has. *)
Theorem mmi_exchanged {S} `{HasMmi S} `{!MmiLaws S} (e : env)
    (upcall : Z -> Z -> Z -> mmi_call -> IO S Z) cbs slot_id id ev p ms cs p' w :
  (forall k, e_malloc e k = true) ->
  (forall arg n c w, exists r w', upcall arg slot_id n c w = Ok (r, w') /\
    get_mmi (w_state w') = get_mmi (w_state w) /\ w_log w' = w_log w ++ [ev arg n c]) ->
  exchange mmi_complete p ms cs p' -> mmi_represents cbs p w ->
  exists w', run_fragments (mmi_step e upcall slot_id id) ms w = Ok (tt, w') /\
    mmi_represents cbs p' w' /\ w_log w' = w_log w ++ (cs ≫= mmi_events cbs ev).
Proof.
  intros Hm Hrec Hx Hw. revert w Hw. eapply exchange_run; [| |exact Hx].
  - intros. by apply mmi_more_step.
  - intros. by apply mmi_last_step.
Qed.

(** ** The other messages *)

(** The tag, the length field and the body of a call that is one message. *)
Definition mmi_message_bytes (c : mmi_call) : list Z :=
  match c with
  | MmiClose cmd_id delay =>
      app_tag TAG_CLOSE_MMI ++ if cmd_id =? MMI_CLOSE_MMI_CMD_ID_DELAY then [2; cmd_id; delay] else [1; cmd_id]
  | MmiDisplayControl cmd_id mmi_mode =>
      app_tag TAG_DISPLAY_CONTROL ++
      if cmd_id =? MMI_DISPLAY_CONTROL_CMD_ID_SET_MMI_MODE then [2; cmd_id; mmi_mode] else [1; cmd_id]
  | MmiKeypadControl cmd_id key_codes => text_object TAG_KEYPAD_CONTROL (cmd_id :: key_codes)
  | MmiEnq blind_answer expected_answer_length text =>
      text_object TAG_ENQUIRY (blind_answer :: expected_answer_length :: text)
  | MmiSceneEndMark decoder_continue scene_reveal send_scene_done scene_tag =>
      app_tag TAG_SCENE_END_MARK ++
      [1; decoder_continue * 128 + scene_reveal * 64 + send_scene_done * 32 + scene_tag]
  | MmiSceneControl decoder_continue scene_reveal scene_tag =>
      app_tag TAG_SCENE_CONTROL ++ [1; decoder_continue * 128 + scene_reveal * 64 + scene_tag]
  | MmiFlushDownload => app_tag TAG_FLUSH_DOWNLOAD ++ [0]
  | _ => []
  end.

Definition mmi_bit (b : Z) : Prop := b = 0 \/ b = 1.

Definition mmi_message_ok (c : mmi_call) : Prop :=
  match c with
  | MmiClose cmd_id argument | MmiDisplayControl cmd_id argument => cmd_id <> 1 -> argument = 0
  | MmiKeypadControl cmd_id key_codes => fragment_ok (cmd_id :: key_codes)
  | MmiEnq blind_answer length text => mmi_bit blind_answer /\ fragment_ok (blind_answer :: length :: text)
  | MmiSceneEndMark a b c t => mmi_bit a /\ mmi_bit b /\ mmi_bit c /\ 0 <= t < 16
  | MmiSceneControl a b t => mmi_bit a /\ mmi_bit b /\ 0 <= t < 16
  | MmiFlushDownload => True
  | _ => False
  end.

(** The callback of a message. *)
Definition mmi_callback (m : app_mmi) (c : mmi_call) : option Z :=
  match c with
  | MmiClose _ _ => mmi_closecallback m
  | MmiDisplayControl _ _ => mmi_displaycontrolcallback m
  | MmiKeypadControl _ _ => mmi_keypadcontrolcallback m
  | MmiSubtitleSegment _ => mmi_subtitlesegmentcallback m
  | MmiSceneEndMark _ _ _ _ => mmi_sceneendmarkcallback m
  | MmiSceneControl _ _ _ => mmi_scenecontrolcallback m
  | MmiSubtitleDownload _ => mmi_subtitledownloadcallback m
  | MmiFlushDownload => mmi_flushdownloadcallback m
  | MmiEnq _ _ _ => mmi_enqcallback m
  | MmiMenu _ _ _ _ _ => mmi_menucallback m
  | MmiList _ _ _ _ _ => mmi_listcallback m
  end.

(** The flags of a scene, whatever the tag. *)
Definition scene_flags (a b c t : Z) : Prop :=
  let flags := a * 128 + b * 64 + c * 32 + t in
  flag_bit flags 0x80 = a /\ flag_bit flags 0x40 = b /\ flag_bit flags 0x20 = c /\ Z.land flags 0x0f = t.

Lemma scene_flags_run a b c t :
  mmi_bit a -> mmi_bit b -> mmi_bit c -> 0 <= t < 16 -> scene_flags a b c t.
Proof.
  intros Ha Hb Hc Ht.
  assert (Hall : forallb (λ t, bool_decide (scene_flags a b c t)) (seqZ 0 16) = true).
  { by destruct Ha as [-> | ->], Hb as [-> | ->], Hc as [-> | ->]. }
  rewrite forallb_forall in Hall. specialize (Hall t). rewrite bool_decide_eq_true in Hall.
  apply Hall, list_elem_of_In, elem_of_seqZ. lia.
Qed.

Section MessagesUnderstood.
Context {S : Type} `{HasMmi S} (e : env) (upcall : Z -> Z -> Z -> mmi_call -> IO S Z).
Implicit Types w : world S.

Lemma command_run (with_argument cmd_id argument : Z) (parse : Z -> Z -> IO S Z) w :
  (cmd_id <> with_argument -> argument = 0) ->
  command_message with_argument (if cmd_id =? with_argument then [2; cmd_id; argument] else [1; cmd_id]) parse w =
  parse cmd_id argument w.
Proof.
  intros Ha. unfold command_message. destruct (Z.eqb_spec cmd_id with_argument) as [->|E].
  - change (zlen _ <? 2) with false. cbv iota. rewrite (io_bind_run _ _ w 2 w) by done.
    change (_ - 1 <? 2) with false. cbv iota. rewrite (io_bind_run _ _ w with_argument w) by done.
    by rewrite Z.eqb_refl.
  - change (zlen _ <? 2) with false. cbv iota. rewrite (io_bind_run _ _ w 1 w) by done.
    change (_ - 1 <? 1) with false. cbv iota. rewrite (io_bind_run _ _ w cmd_id w) by done.
    rewrite (proj2 (Z.eqb_neq _ _)) by done. by rewrite Ha.
Qed.

Lemma flags_run (flags : Z) (parse : list Z -> IO S Z) w :
  fixed_message 1 false [1; flags] parse w = parse [flags] w.
Proof. done. Qed.

Lemma tell_read cb slot_id n read c w :
  read = Ok c -> tell_reading upcall cb slot_id n read w = tell upcall cb slot_id n c w.
Proof. intros ->. by destruct cb. Qed.
End MessagesUnderstood.

(** the messages of MMI that are not in fragments: a close or display control command, a keypad control
    with its key codes, a question with its text, the flags of a scene and the end of a download each
    reach their own callback with the values they encode, whatever follows a one byte message. *)
Theorem mmi_messages_understood {S} `{HasMmi S} (e : env) (upcall : Z -> Z -> Z -> mmi_call -> IO S Z)
    slot_id n id c w :
  mmi_message_ok c ->
  en50221_app_mmi_message e upcall slot_id n id (mmi_message_bytes c) w =
  tell upcall (mmi_callback (get_mmi (w_state w)) c) slot_id n c w.
Proof.
  intros Hok. unfold en50221_app_mmi_message.
  destruct c as [cmd_id delay|cmd_id mode|cmd_id keys| |a b d t|a b t| | |blind len text| |]; try done;
    cbn [mmi_message_bytes mmi_message_ok mmi_callback] in *; unfold text_object; rewrite app_message_tag by done.
  - trans (en50221_app_mmi_parse_close upcall slot_id n
      (if cmd_id =? MMI_CLOSE_MMI_CMD_ID_DELAY then [2; cmd_id; delay] else [1; cmd_id]) w); [done|].
    unfold en50221_app_mmi_parse_close. by rewrite command_run.
  - trans (en50221_app_mmi_parse_display_control upcall slot_id n
      (if cmd_id =? MMI_DISPLAY_CONTROL_CMD_ID_SET_MMI_MODE then [2; cmd_id; mode] else [1; cmd_id]) w); [done|].
    unfold en50221_app_mmi_parse_display_control. by rewrite command_run.
  - destruct Hok as [Hb Hl]. change (en50221_app_mmi_parse_keypad_control upcall slot_id n
      (asn_field (cmd_id :: keys) ++ cmd_id :: keys) w = tell upcall (mmi_keypadcontrolcallback (get_mmi (w_state w)))
      slot_id n (MmiKeypadControl cmd_id keys) w).
    unfold en50221_app_mmi_parse_keypad_control. rewrite asn_message_run by (done || (cbn [length] in *; lia)).
    rewrite (io_bind_run _ _ w cmd_id w) by done. rewrite (io_bind_run mmi_of _ w (get_mmi (w_state w)) w) by done.
    apply tell_read. change (drop 1 (cmd_id :: keys)) with keys.
    replace (zlen (cmd_id :: keys) - 1) with (zlen keys) by (cbn [length]; lia). by rewrite read_whole.
  - destruct Hok as (Ha & Hb & Hd & Ht). destruct (scene_flags_run a b d t Ha Hb Hd Ht) as (E1 & E2 & E3 & E4).
    set (f := a * 128 + b * 64 + d * 32 + t) in *.
    trans (tell upcall (mmi_sceneendmarkcallback (get_mmi (w_state w))) slot_id n
      (MmiSceneEndMark (flag_bit f 0x80) (flag_bit f 0x40) (flag_bit f 0x20) (Z.land f 0x0f)) w); [done|].
    by rewrite E1, E2, E3, E4.
  - destruct Hok as (Ha & Hb & Ht).
    destruct (scene_flags_run a b 0 t Ha Hb (or_introl eq_refl) Ht) as (E1 & E2 & _ & E4).
    rewrite Z.mul_0_l, Z.add_0_r in *. set (f := a * 128 + b * 64 + t) in *.
    trans (tell upcall (mmi_scenecontrolcallback (get_mmi (w_state w))) slot_id n
      (MmiSceneControl (flag_bit f 0x80) (flag_bit f 0x40) (Z.land f 0x0f)) w); [done|].
    by rewrite E1, E2, E4.
  - destruct Hok as (Hblind & Hb & Hl). change (en50221_app_mmi_parse_enq upcall slot_id n
      (asn_field (blind :: len :: text) ++ blind :: len :: text) w = tell upcall (mmi_enqcallback (get_mmi (w_state w)))
      slot_id n (MmiEnq blind len text) w).
    unfold en50221_app_mmi_parse_enq. rewrite asn_message_run by (done || (cbn [length] in *; lia)).
    rewrite (io_bind_run _ _ w blind w) by done. cbv zeta. rewrite (io_bind_run _ _ w len w) by done.
    rewrite (io_bind_run mmi_of _ w (get_mmi (w_state w)) w) by done.
    apply tell_read. change (drop 2 (blind :: len :: text)) with text.
    replace (zlen (blind :: len :: text) - 2) with (zlen text) by (cbn [length]; lia). rewrite read_whole.
    by destruct Hblind as [-> | ->].
Qed.

(** *** Witnesses *)

Definition recording_mmi {S} (arg slot_id n : Z) (c : mmi_call) : IO S Z :=
  log_event (ResourceCalled arg slot_id n 0
    match c with
    | MmiMenu title _ _ items raw | MmiList title _ _ items raw => title ++ concat items ++ raw
    | MmiSubtitleSegment data | MmiSubtitleDownload data => data
    | _ => []
    end);; mret 0.

Definition demo_mmi : app_mmi :=
  AppMmi (Some 1) (Some 2) (Some 3) (Some 4) (Some 5) (Some 6) (Some 7) (Some 8) (Some 9) (Some 10) (Some 11) [].

Definition demo_menu : menu :=
  Menu (Text [[72]] [105]) (Text [] []) (Text [] []) (Items [Text [] [79; 75]]).

Lemma mmi_exchanged_witness :
  exists w', run_fragments (mmi_step always recording_mmi 0 0)
      [Fragment (1, MenuBlock) false [1; 0x9f; 0x88]; Fragment (1, SegmentBlock) true [5; 6];
       Fragment (1, MenuBlock) true [0x04; 1; 72; 0x9f; 0x88; 0x03; 1; 105; 0x9f; 0x88; 0x03; 0; 0x9f; 0x88; 0x03; 0;
         0x9f; 0x88; 0x03; 2; 79; 75]] (World demo_mmi 0 []) = Ok (tt, w') /\
    mmi_represents (block_callback demo_mmi)
      (pending_set (pending_set (pending_set (λ _, []) (1, MenuBlock) [1; 0x9f; 0x88]) (1, SegmentBlock) [])
        (1, MenuBlock) []) w' /\
    w_log w' = [ResourceCalled 4 0 1 0 [5; 6]; ResourceCalled 10 0 1 0 [72; 105; 79; 75]].
Proof.
  apply (mmi_exchanged always recording_mmi (block_callback demo_mmi) 0 0
    (λ arg n c, ResourceCalled arg 0 n 0
      match c with
      | MmiMenu title _ _ items raw | MmiList title _ _ items raw => title ++ concat items ++ raw
      | MmiSubtitleSegment data | MmiSubtitleDownload data => data
      | _ => []
      end)
    (λ _, []) _ [(1, SegmentBlock, MmiSubtitleSegment [5; 6]); (1, MenuBlock, menu_call MmiMenu demo_menu)]).
  - done.
  - intros arg n c w. by eexists _, _.
  - apply exchange_more; [solve_bytes|done|done|done|].
    apply exchange_last; [solve_bytes|done|done|done|].
    apply exchange_last; [solve_bytes|done|done| |apply exchange_end].
    exists demo_menu. split; [|done]. split; [|by vm_compute]. by repeat constructor.
  - split; [done|by intros k; split|done].
Defined.

Lemma mmi_messages_understood_witness :
  let c := MmiEnq 1 4 [80; 73; 78] in
  en50221_app_mmi_message always recording_mmi 0 1 0 (mmi_message_bytes c) (World demo_mmi 0 []) =
  tell recording_mmi (Some 9) 0 1 c (World demo_mmi 0 []).
Proof.
  refine (mmi_messages_understood always recording_mmi 0 1 0 (MmiEnq 1 4 [80; 73; 78]) (World demo_mmi 0 []) _).
  split; [by right|]. split; [solve_bytes|done].
Defined.

(** ** Where the code leaves the data *)

Definition mmi_run (data : list Z) : res (list event) :=
  '(_, w) ← en50221_app_mmi_message always recording_mmi 0 1 0 data (World demo_mmi 0 []); mret (w_log w).

(** The length of a text is not compared with the data there are: a menu whose last text claims 200 bytes
    of which none is there makes the callback read behind the message. *)
Lemma text_overrun :
  mmi_run (app_tag TAG_MENU_LAST ++ [14; 0; 0x9f; 0x88; 0x03; 0; 0x9f; 0x88; 0x03; 0; 0x9f; 0x88; 0x03; 0x81; 200]) =
  Err OutOfBounds.
Proof. vm_compute. reflexivity. Qed.

(** The number of texts is computed in 8 bits: of a menu with 253 items no text is read, and the callback
    gets texts that nothing has set. *)
Lemma menu_count_wraps : mmi_run (app_tag TAG_MENU_LAST ++ [1; 253]) = Err OutOfBounds.
Proof. vm_compute. reflexivity. Qed.

(** Empty fragments: [realloc(p, 0)] frees the chain and its NULL is taken for a lack of memory, so that
    the third empty fragment is put in memory that is not allocated. *)
Lemma empty_fragments_freed :
  let more := app_tag TAG_MENU_MORE ++ [0] in
  (en50221_app_mmi_message always recording_mmi 0 1 0 more;;
   r ← en50221_app_mmi_message always recording_mmi 0 1 0 more; lift (mret r);;
   en50221_app_mmi_message always recording_mmi 0 1 0 more) (World demo_mmi 0 []) = Err BadPointer.
Proof. vm_compute. reflexivity. Qed.

(** A text of two empty fragments is freed twice. *)
Lemma empty_texts_freed_twice :
  mmi_run (app_tag TAG_MENU_LAST ++ [9; 0; 0x9f; 0x88; 0x04; 0; 0x9f; 0x88; 0x04; 0]) = Err BadPointer.
Proof. vm_compute. reflexivity. Qed.

(** A description of graphics with pixel depths is sent from a pointer behind them. *)
Lemma gfx_reply_overruns (send_datav : Z -> list (list Z) -> IO app_mmi Z) w :
  en50221_app_mmi_display_reply send_datav 1 MMI_DISPLAY_REPLY_ID_LIST_OVERLAY_GFX_CHARACTERISTICS
    (Gfx 720 576 3 0 0 100 50 20 [PixelDepth 8 1 4]) w = Err OutOfBounds.
Proof. reflexivity. Qed.
