(* ===== verification/En50221CaPmt.v ===== *)
(** * en50221_app_ca.c: formatting a CA PMT

    [en50221_ca_format_pmt] tells a module what to descramble: it copies the CA descriptors out of a
    program map that [mpeg_pmt_section_codec] has converted, for the program and for each stream.  The
    linked lists of the code are lists here, the pointers in them offsets into the program map; that
    every node is freed is not modelled. *)

From S2P Require Export MpegSections En50221App.

(** ** The code *)

Definition dtag_mpeg_ca : Z := 9.

Record ca_pmt_descriptor := CaPmtDescriptor {
  cd_descriptor : Z;
  cd_length : Z;
}.

Record ca_pmt_stream := CaPmtStream {
  cs_stream_type : Z;
  cs_pid : Z;
  cs_descriptors : list ca_pmt_descriptor;
  cs_descriptors_count : Z;
}.

(** [descriptors_length] of a list of descriptors, with the byte of the command. *)
Definition ca_descriptors_length (ds : list ca_pmt_descriptor) : Z :=
  let length := foldl (λ n d, u32 (n + cd_length d)) 0 ds in
  if negb (length =? 0) then u32 (length + 1) else length.

(** The total, and the length of the descriptors of the program. *)
Definition en50221_ca_calculate_length (pmt_descriptors : list ca_pmt_descriptor)
    (pmt_streams : list ca_pmt_stream) : Z * Z :=
  let pmt_descriptors_length := ca_descriptors_length pmt_descriptors in
  (foldl (λ n s, u32 (n + u32 (5 + ca_descriptors_length (cs_descriptors s))))
     (u32 (6 + pmt_descriptors_length)) pmt_streams, pmt_descriptors_length).

Definition current_next_indicator : M Z := b ← ld8 5; mret (Z.land b 1).

Section FormatPmt.
Context {S : Type} (e : env).

(** [struct mpeg_pmt_section *pmt] *)
Context (pmt : mem).

(** Reading the program map. *)
Definition peek {A} (c : M A) : IO S A := '(a, _) ← lift (run_m c pmt); mret a.

(** [for (pos = first; pos; pos = next)] with a body that may [goto] the error exit: [None]. *)
Fixpoint each_ {A} (fuel : nat) (next : Z -> M (option Z)) (body : Z -> A -> IO S (option A))
    (pos : option Z) (acc : A) : IO S (option A) :=
  match fuel with
  | O => io_fault OutOfFuel
  | Datatypes.S fuel =>
      match pos with
      | None => mret (Some acc)
      | Some p =>
          r ← body p acc;
          match r with
          | None => mret None
          | Some acc => pos ← peek (next p); each_ fuel next body pos acc
          end
      end
  end.

Definition each {A} (first : M (option Z)) (next : Z -> M (option Z)) (body : Z -> A -> IO S (option A))
    (acc : A) : IO S (option A) :=
  pos ← peek first; each_ (Datatypes.S (length pmt)) next body pos acc.

Definition each_descriptor {A} (base len : Z) : (Z -> A -> IO S (option A)) -> A -> IO S (option A) :=
  each (mret (first_descriptor base len)) (fun p => next_descriptor base len (Some p)).

(** [if (cur_descriptor->tag == dtag_mpeg_ca)] a new structure; [None] without memory, [Some None] for
    another descriptor. *)
Definition new_ca_descriptor (cur_descriptor : Z) : IO S (option (option ca_pmt_descriptor)) :=
  tag ← peek (ld8 cur_descriptor);
  if tag =? dtag_mpeg_ca then
    ok ← malloc e;
    if negb ok then mret None
    else
      len ← peek (ld8 (cur_descriptor + 1));
      mret (Some (Some (CaPmtDescriptor cur_descriptor (u16 (len + 2)))))
  else mret (Some None).

Definition en50221_ca_extract_pmt_descriptors : IO S (option (list ca_pmt_descriptor)) :=
  n ← peek pmt_program_info_length;
  each_descriptor sizeof_mpeg_pmt_section n (λ cur_descriptor descriptors,
    new_d ← new_ca_descriptor cur_descriptor;
    mret
      (match new_d with
       | None => None
       | Some None => Some descriptors
       | Some (Some d) => Some (descriptors ++ [d])
       end)) [].

Definition en50221_ca_extract_streams : IO S (option (list ca_pmt_stream)) :=
  each mpeg_pmt_section_streams_first mpeg_pmt_section_streams_next (λ cur_stream streams,
    ok ← malloc e;
    if negb ok then mret None
    else
      s ← peek (read_pmt_stream cur_stream);
      n ← peek (pmt_stream_es_info_length cur_stream);
      r ← each_descriptor (cur_stream + sizeof_mpeg_pmt_stream) n (λ cur_descriptor new_s,
        new_d ← new_ca_descriptor cur_descriptor;
        mret
          (match new_d with
           | None => None
           | Some None => Some new_s
           | Some (Some d) =>
               Some (CaPmtStream (cs_stream_type new_s) (cs_pid new_s) (cs_descriptors new_s ++ [d])
                       (u32 (cs_descriptors_count new_s + 1)))
           end)) (CaPmtStream (stream_type s) (stream_pid s) [] 0);
      mret (match r with None => None | Some new_s => Some (streams ++ [new_s]) end)) [].

(** The inner loop of [en50221_ca_try_move_pmt_descriptors]. *)
Fixpoint same_descriptors (cur first : list ca_pmt_descriptor) : IO S bool :=
  match cur, first with
  | [], _ => mret true
  | _ :: _, [] => io_fault BadPointer
  | c :: cur, f :: first =>
      if negb (cd_length c =? cd_length f) then mret false
      else
        a ← peek (ld_bytes (cd_descriptor c) (Z.to_nat (cd_length c)));
        b ← peek (ld_bytes (cd_descriptor f) (Z.to_nat (cd_length c)));
        if decide (a = b) then same_descriptors cur first else mret false
  end.

Fixpoint same_streams (first_stream : ca_pmt_stream) (cur : list ca_pmt_stream) : IO S bool :=
  match cur with
  | [] => mret true
  | cur_stream :: cur =>
      if negb (cs_descriptors_count cur_stream =? cs_descriptors_count first_stream) then mret false
      else
        same ← same_descriptors (cs_descriptors cur_stream) (cs_descriptors first_stream);
        if (same : bool) then same_streams first_stream cur else mret false
  end.

Definition without_descriptors (s : ca_pmt_stream) : ca_pmt_stream :=
  CaPmtStream (cs_stream_type s) (cs_pid s) [] 0.

Definition en50221_ca_try_move_pmt_descriptors (pmt_descriptors : list ca_pmt_descriptor)
    (pmt_streams : list ca_pmt_stream) : IO S (list ca_pmt_descriptor * list ca_pmt_stream) :=
  match pmt_streams with
  | [] => mret (pmt_descriptors, pmt_streams)
  | first_stream :: others =>
      same ← same_streams first_stream others;
      mret
        (if (same : bool)
         then (cs_descriptors first_stream, without_descriptors <$> pmt_streams)
         else (pmt_descriptors, pmt_streams))
  end.

(** [data[data_pos++] = v] *)
Definition put (data_pos v : Z) : M Z := st8 data_pos v;; mret (data_pos + 1).

Fixpoint put_descriptors (ds : list ca_pmt_descriptor) (data_pos : Z) : M Z :=
  match ds with
  | [] => mret data_pos
  | cur_d :: ds =>
      match run_m (ld_bytes (cd_descriptor cur_d) (Z.to_nat (cd_length cur_d))) pmt with
      | Ok (bs, _) => st_bytes data_pos bs;; put_descriptors ds (data_pos + cd_length cur_d)
      | Err f => faulty f
      end
  end.

(** The two bytes of the length, the command and the descriptors. *)
Definition put_info (ca_pmt_cmd_id : Z) (ds : list ca_pmt_descriptor) (descriptors_length data_pos : Z) :
    M Z :=
  data_pos ← put data_pos (Z.land (Z.shiftr descriptors_length 8) 0x0f);
  data_pos ← put data_pos descriptors_length;
  if negb (descriptors_length =? 0) then
    data_pos ← put data_pos ca_pmt_cmd_id;
    put_descriptors ds data_pos
  else mret data_pos.

Fixpoint put_streams (ca_pmt_cmd_id : Z) (ss : list ca_pmt_stream) (data_pos : Z) : M Z :=
  match ss with
  | [] => mret data_pos
  | cur_s :: ss =>
      data_pos ← put data_pos (cs_stream_type cur_s);
      data_pos ← put data_pos (Z.land (Z.shiftr (cs_pid cur_s) 8) 0x1f);
      data_pos ← put data_pos (cs_pid cur_s);
      data_pos ← put_info ca_pmt_cmd_id (cs_descriptors cur_s)
        (ca_descriptors_length (cs_descriptors cur_s)) data_pos;
      put_streams ca_pmt_cmd_id ss data_pos
  end.

(** The result, and [data] afterwards. *)
Definition en50221_ca_format_pmt (data : mem) (data_length : Z) (move_ca_descriptors : bool)
    (ca_pmt_list_management ca_pmt_cmd_id : Z) : IO S (Z * mem) :=
  r ← en50221_ca_extract_pmt_descriptors;
  match r with
  | None => mret (-1, data)
  | Some pmt_descriptors =>
      r ← en50221_ca_extract_streams;
      match r with
      | None => mret (-1, data)
      | Some pmt_streams =>
          '(pmt_descriptors, pmt_streams) ←
            match pmt_descriptors with
            | [] =>
                if move_ca_descriptors
                then en50221_ca_try_move_pmt_descriptors pmt_descriptors pmt_streams
                else mret (pmt_descriptors, pmt_streams)
            | _ => mret (pmt_descriptors, pmt_streams)
            end;
          let '(total_required_length, pmt_descriptors_length) :=
            en50221_ca_calculate_length pmt_descriptors pmt_streams in
          if data_length <? total_required_length then mret (-1, data)
          else
            program_number ← peek (ld16 3);
            head ← peek ld_section_ext;
            cni ← peek current_next_indicator;
            lift (run_m
              (data_pos ← put 0 ca_pmt_list_management;
               data_pos ← put data_pos (Z.shiftr program_number 8);
               data_pos ← put data_pos program_number;
               data_pos ← put data_pos (Z.lor (Z.shiftl (version_number head) 1) cni);
               data_pos ← put_info ca_pmt_cmd_id pmt_descriptors pmt_descriptors_length data_pos;
               put_streams ca_pmt_cmd_id pmt_streams data_pos) data)
      end
  end.
End FormatPmt.
