(* ===== verification/En50221CaPmtExtract.v ===== *)
(** * The CA PMT: what is extracted from the program map

    The loops of [en50221_ca_format_pmt] over the program map, against the iterators whose result
    [pmt_codec_correct] gives: each list of structures points to exactly the CA descriptors. *)

From S2P Require Export En50221CaPmt.

(** ** Actions that only read *)

Definition reads {A} (c : M A) : Prop := forall m a m', c m = Ret a m' -> m' = m.

Lemma reads_ret {A} (a : A) : reads (mret a).
Proof. intros m a' m' [= _ ->]. done. Qed.

Lemma reads_bind {A B} (c : M A) (k : A -> M B) :
  reads c -> (forall a, reads (k a)) -> reads (c ≫= k).
Proof.
  intros Hc Hk m b m'. unfold mbind, M_bind. destruct (c m) as [a m1| |] eqn:E; [|done..].
  apply Hc in E as ->. apply Hk.
Qed.

Lemma reads_ld8 p : reads (ld8 p).
Proof. intros m a m'. unfold ld8. case_match; [|done]. by intros [= _ ->]. Qed.

Create HintDb reads.
#[export] Hint Resolve reads_ret reads_bind reads_ld8 : reads.
#[export] Hint Extern 1 (reads (if ?b then _ else _)) => destruct b : reads.

Lemma reads_ld_bytes k p : reads (ld_bytes p k).
Proof. revert p. induction k as [|k IH]; intros p; cbn [ld_bytes]; auto 6 with reads. Qed.
#[export] Hint Resolve reads_ld_bytes : reads.

Lemma reads_next_descriptor base len p : reads (next_descriptor base len (Some p)).
Proof. unfold next_descriptor. auto 6 with reads. Qed.

Lemma reads_descriptor p : reads (read_descriptor p).
Proof. unfold read_descriptor. auto 8 with reads. Qed.
#[export] Hint Resolve reads_next_descriptor reads_descriptor : reads.

Lemma reads_for_each_body {A} next (read : Z -> M A) s :
  (forall p, reads (next p)) -> (forall p, reads (read p)) -> reads (for_each_body next read s).
Proof. intros Hn Hr. destruct s as [[p|] acc]; cbn [for_each_body]; auto 6 with reads. Qed.

Lemma reads_iter {St A} fuel (body : St -> M (St + A)) :
  (forall s, reads (body s)) -> forall s, reads (iter_ fuel body s).
Proof.
  intros Hb. induction fuel as [|fuel IH]; intros s; cbn [iter_]; [done|].
  apply reads_bind; [done|]. intros [s'|a]; auto with reads.
Qed.

Lemma reads_descriptors_for_each base len : reads (descriptors_for_each base len).
Proof.
  unfold descriptors_for_each, for_each. apply reads_bind; [auto with reads|]. intros start m.
  unfold iter. intros a m'. apply reads_iter. intros s. apply reads_for_each_body; auto with reads.
Qed.

Lemma reads_field12 p : reads (ld_field12 p).
Proof. unfold ld_field12, ld16. auto 8 with reads. Qed.
Lemma reads_field13 p : reads (ld_field13 p).
Proof. unfold ld_field13, ld16. auto 8 with reads. Qed.
#[export] Hint Resolve reads_descriptors_for_each reads_field12 reads_field13 : reads.

Lemma reads_streams_next p : reads (mpeg_pmt_section_streams_next p).
Proof.
  unfold mpeg_pmt_section_streams_next, section_ext_length, length_field, pmt_stream_es_info_length.
  unfold ld16. auto 12 with reads.
Qed.

Lemma reads_streams_first : reads mpeg_pmt_section_streams_first.
Proof.
  unfold mpeg_pmt_section_streams_first, section_ext_length, length_field, pmt_program_info_length.
  unfold ld16. auto 12 with reads.
Qed.

Lemma reads_pmt_stream p : reads (read_pmt_stream p).
Proof. unfold read_pmt_stream. auto 8 with reads. Qed.
#[export] Hint Resolve reads_streams_next reads_streams_first reads_pmt_stream : reads.

(** ** The positions a loop visits *)

Inductive path (m : mem) (next : Z -> M (option Z)) : nat -> option Z -> list Z -> Prop :=
  | path_end f : path m next (S f) None []
  | path_step f p q ps : next p m = Ret q m -> path m next f q ps -> path m next (S f) (Some p) (p :: ps).

Definition found {A} (m : mem) (read : Z -> M A) (p : Z) (x : A) : Prop := read p m = Ret x m.

Lemma bind_ret {A B} (c : M A) (k : A -> M B) m b m' :
  reads c -> (c ≫= k) m = Ret b m' -> exists a, c m = Ret a m /\ k a m = Ret b m'.
Proof.
  intros Hc. unfold mbind, M_bind. destruct (c m) as [a m1| |] eqn:E; [|done..].
  pose proof (Hc _ _ _ E) as ->. eauto.
Qed.

Lemma iter_path {A} m next (read : Z -> M A) :
  (forall p, reads (next p)) -> (forall p, reads (read p)) ->
  forall f pos acc l m', iter_ f (for_each_body next read) (pos, acc) m = Ret l m' ->
  exists ps xs, l = acc ++ xs /\ path m next f pos ps /\ Forall2 (found m read) ps xs.
Proof.
  intros Hn Hr. induction f as [|f IH]; intros pos acc l m'; [done|]. cbn [iter_].
  destruct pos as [p|].
  - cbn [for_each_body]. intros H. apply bind_ret in H as (r & H1 & H2); [|auto 8 with reads].
    apply bind_ret in H1 as (x & Hx & H1); [|auto].
    apply bind_ret in H1 as (q & Hq & H1); [|auto]. injection H1 as <-.
    apply IH in H2 as (ps & xs & -> & Hp & Hf).
    exists (p :: ps), (x :: xs). rewrite <- app_assoc. split_and!; [done|by econstructor|by constructor].
  - intros [= <- _]. exists [], []. rewrite app_nil_r. split_and!; [done|constructor|constructor].
Qed.

Lemma for_each_path {A} m first next (read : Z -> M A) l m' :
  reads first -> (forall p, reads (next p)) -> (forall p, reads (read p)) ->
  for_each first next read m = Ret l m' ->
  exists start ps, first m = Ret start m /\ path m next (S (length m)) start ps /\
    Forall2 (found m read) ps l.
Proof.
  intros Hf Hn Hr. unfold for_each. intros H. apply bind_ret in H as (start & Hs & H); [|done].
  apply iter_path in H as (ps & xs & -> & Hp & H2); [|done..]. eauto.
Qed.

Lemma ld_bytes_cons m p k b bs :
  ld8 p m = Ret b m -> ld_bytes (p + 1) k m = Ret bs m -> ld_bytes p (S k) m = Ret (b :: bs) m.
Proof. intros H1 H2. cbn [ld_bytes]. unfold mbind, M_bind. by rewrite H1, H2. Qed.

Lemma ld_bytes_length m k p bs m' : ld_bytes p k m = Ret bs m' -> length bs = k.
Proof.
  revert p bs m'. induction k as [|k IH]; intros p bs m' H; [by injection H as <- _|].
  cbn [ld_bytes] in H. apply bind_ret in H as (b & _ & H); [|auto with reads].
  apply bind_ret in H as (bs' & H' & H); [|auto with reads]. injection H as <- _.
  cbn. f_equal. by eapply IH.
Qed.

(** ** Actions that may run out of memory *)

Section Extract.
Context {S : Type} (e : env) (pmt : mem).
Implicit Types w : world S.

(** The action ends, changes nothing but the count of system calls, and answers [None] only when there
    is no memory at some time. *)
Definition attempts {A} (c : IO S (option A)) (Q : A -> Prop) : Prop :=
  forall w, exists r w', c w = Ok (r, w') /\ w_state w' = w_state w /\ w_log w' = w_log w /\
    match r with Some a => Q a | None => exists k, e_malloc e k = false end.

Lemma attempts_ret {A} (a : A) (Q : A -> Prop) : Q a -> attempts (mret (Some a)) Q.
Proof. intros H w. by exists (Some a), w. Qed.

Lemma attempts_bind {A B} (c : IO S (option A)) (k : option A -> IO S (option B)) Q R :
  attempts c Q -> (forall a, Q a -> attempts (k (Some a)) R) -> (forall w, k None w = Ok (None, w)) ->
  attempts (c ≫= k) R.
Proof.
  intros Hc Hk Hn w. destruct (Hc w) as (r & w1 & Hr & Hs & Hl & HQ).
  rewrite (io_bind_run _ _ _ _ _ Hr). destruct r as [a|].
  - destruct (Hk a HQ w1) as (r & w2 & -> & Hs2 & Hl2 & HR).
    exists r, w2. split_and!; [done|congruence|congruence|done].
  - exists None, w1. by rewrite Hn.
Qed.

Lemma attempts_malloc {B} (c : IO S (option B)) Q :
  attempts c Q -> attempts (ok ← malloc e; if negb ok then mret None else c) Q.
Proof.
  intros Hc w. set (w1 := World (w_state w) (Datatypes.S (w_tick w)) (w_log w)).
  rewrite (io_bind_run (malloc e) _ w (e_malloc e (w_tick w)) w1) by done.
  destruct (e_malloc e (w_tick w)) eqn:E; cbn [negb].
  - destruct (Hc w1) as (r & w2 & -> & Hs & Hl & HQ). by exists r, w2.
  - exists None, w1. split_and!; [done..|eauto].
Qed.

Lemma attempts_mono {A} (c : IO S (option A)) (Q R : A -> Prop) :
  attempts c Q -> (forall a, Q a -> R a) -> attempts c R.
Proof.
  intros Hc HR w. destruct (Hc w) as (r & w' & H1 & H2 & H3 & H4). exists r, w'.
  split_and!; [done..|]. destruct r; auto.
Qed.

Lemma peek_run {A B} (c : M A) (k : A -> IO S B) a w :
  c pmt = Ret a pmt -> (peek pmt c ≫= k) w = k a w.
Proof.
  intros H. unfold peek, run_m. apply io_bind_run. rewrite H. done.
Qed.

Lemma attempts_peek {A B} (c : M A) (k : A -> IO S (option B)) a Q :
  c pmt = Ret a pmt -> attempts (k a) Q -> attempts (peek pmt c ≫= k) Q.
Proof. intros H Hk w. rewrite (peek_run _ _ _ _ H). apply Hk. Qed.

(** A loop whose positions are known is a loop over them, and keeps an invariant between what it has
    seen and what it has built. *)
Lemma each_attempts {A X} next (read : Z -> M X) (body : Z -> A -> IO S (option A))
    (R : list X -> A -> Prop) :
  (forall p x seen acc, found pmt read p x -> R seen acc ->
     attempts (body p acc) (R (seen ++ [x]))) ->
  forall f pos ps, path pmt next f pos ps ->
  forall xs seen acc, Forall2 (found pmt read) ps xs -> R seen acc ->
  attempts (each_ pmt f next body pos acc) (R (seen ++ xs)).
Proof.
  intros Hb f pos ps Hp. induction Hp as [f|f p q ps Hq Hp IH]; intros xs seen acc H2 HR.
  - inversion H2; subst. rewrite app_nil_r. by apply attempts_ret.
  - inversion H2 as [|? x ? xs' Hx H2']; subst. cbn [each_].
    eapply attempts_bind; [by apply Hb|intros a Ha|done].
    apply (attempts_peek _ _ q); [done|].
    replace (seen ++ x :: xs') with ((seen ++ [x]) ++ xs') by (by rewrite <- app_assoc). by apply IH.
Qed.

Lemma for_each_attempts {A X} first next (read : Z -> M X) (body : Z -> A -> IO S (option A))
    (R : list X -> A -> Prop) xs acc m' :
  reads first -> (forall p, reads (next p)) -> (forall p, reads (read p)) ->
  for_each first next read pmt = Ret xs m' ->
  (forall p x seen acc, found pmt read p x -> R seen acc ->
     attempts (body p acc) (R (seen ++ [x]))) ->
  R [] acc -> attempts (each pmt first next body acc) (R xs).
Proof.
  intros Hf Hn Hr H Hb HR. apply for_each_path in H as (start & ps & Hs & Hp & H2); [|done..].
  unfold each. apply (attempts_peek _ _ start); [done|].
  by apply (each_attempts next read body R Hb _ _ _ Hp xs []).
Qed.

(** ** The CA descriptors *)

Definition is_ca (d : Z * list Z) : Prop := d.1 = dtag_mpeg_ca.
Definition ca_of (ds : list (Z * list Z)) : list (Z * list Z) := filter is_ca ds.

(** The structure points to the descriptor. *)
Definition points_to (d : ca_pmt_descriptor) (x : Z * list Z) : Prop :=
  cd_length d = zlen (encode_descriptor x) /\ 0 <= cd_length d /\
  ld_bytes (cd_descriptor d) (Z.to_nat (cd_length d)) pmt = Ret (encode_descriptor x) pmt.

Definition point_to (ds : list ca_pmt_descriptor) (xs : list (Z * list Z)) : Prop :=
  Forall2 points_to ds xs.

Lemma found_descriptor p tag data : Forall byte pmt ->
  found pmt read_descriptor p (tag, data) ->
  ld8 p pmt = Ret tag pmt /\ ld8 (p + 1) pmt = Ret (zlen data) pmt /\ zlen data < 256 /\
  points_to (CaPmtDescriptor p (zlen data + 2)) (tag, data).
Proof.
  intros Hb H. unfold found, read_descriptor in H.
  apply bind_ret in H as (t & Ht & H); [|auto with reads].
  apply bind_ret in H as (l & Hl & H); [|auto with reads].
  apply bind_ret in H as (bs & Hbs & H); [|auto with reads]. injection H as -> ->.
  assert (Hbl : byte l).
  { unfold ld8 in Hl. destruct (pmt !z (p + 1)) as [v|] eqn:E; [|done]. injection Hl as ->.
    by apply (lookup_z_Forall _ _ _ _ Hb E). }
  unfold byte in Hbl.
  assert (El : zlen data = l).
  { apply ld_bytes_length in Hbs. lia. }
  split_and!; [done|by rewrite El|lia|]. unfold points_to, encode_descriptor. cbn [cd_length cd_descriptor fst snd].
  split_and!; [cbn [length]; lia|lia|].
  replace (Z.to_nat (zlen data + 2)) with (Datatypes.S (Datatypes.S (Z.to_nat l))) by lia.
  apply ld_bytes_cons; [done|]. rewrite El. apply ld_bytes_cons; [done|]. by rewrite <- Z.add_assoc.
Qed.

Lemma ca_of_snoc ds d : ca_of (ds ++ [d]) = ca_of ds ++ (if decide (is_ca d) then [d] else []).
Proof. unfold ca_of. rewrite filter_app. by rewrite filter_cons, filter_nil. Qed.

Lemma new_ca_descriptor_attempts p x : Forall byte pmt ->
  found pmt read_descriptor p x ->
  attempts (new_ca_descriptor e pmt p)
    (λ r, match r with Some d => is_ca x /\ points_to d x | None => ~ is_ca x end).
Proof.
  intros Hb Hx. destruct x as [tag data].
  destruct (found_descriptor p tag data Hb Hx) as (Ht & Hl & Hd & Hp).
  unfold new_ca_descriptor. apply (attempts_peek _ _ tag); [done|].
  destruct (Z.eqb_spec tag dtag_mpeg_ca) as [E|E].
  - apply attempts_malloc. apply (attempts_peek _ _ (zlen data)); [done|]. apply attempts_ret.
    rewrite u16_id by lia. done.
  - by apply attempts_ret.
Qed.

(** A loop over descriptors that collects the CA descriptors in [acc]. *)
Lemma each_descriptor_attempts {A} base len ds (add : A -> ca_pmt_descriptor -> A)
    (R : list (Z * list Z) -> A -> Prop) (acc : A) :
  Forall byte pmt -> descriptors_for_each base len pmt = Ret ds pmt ->
  (forall seen acc d x, points_to d x -> R seen acc -> R (seen ++ [x]) (add acc d)) ->
  R [] acc ->
  attempts (each_descriptor pmt base len (λ cur_descriptor acc,
      new_d ← new_ca_descriptor e pmt cur_descriptor;
      mret (match new_d with
            | None => None
            | Some None => Some acc
            | Some (Some d) => Some (add acc d)
            end)) acc) (λ a, R (ca_of ds) a).
Proof.
  intros Hb Hds Hadd HR. unfold each_descriptor.
  apply (for_each_attempts _ _ read_descriptor _ (λ seen a, R (ca_of seen) a) ds acc pmt);
    [auto with reads..|done| |done].
  intros p x seen a Hx Ha. eapply attempts_bind; [by apply new_ca_descriptor_attempts| |done].
  intros [d|] Hd; apply attempts_ret; rewrite ca_of_snoc.
  - destruct Hd as [Hca Hp]. rewrite decide_True by done. by apply Hadd.
  - rewrite decide_False by done. by rewrite app_nil_r.
Qed.

Lemma point_to_snoc ds xs d x : point_to ds xs -> points_to d x -> point_to (ds ++ [d]) (xs ++ [x]).
Proof. intros H Hd. apply Forall2_app; [done|]. by constructor. Qed.

Lemma extract_descriptors ds : Forall byte pmt ->
  mpeg_pmt_section_descriptors_for_each pmt = Ret ds pmt ->
  attempts (en50221_ca_extract_pmt_descriptors e pmt) (λ a, point_to a (ca_of ds)).
Proof.
  intros Hb Hds. unfold mpeg_pmt_section_descriptors_for_each in Hds.
  apply bind_ret in Hds as (n & Hn & Hds); [|apply reads_field12].
  unfold en50221_ca_extract_pmt_descriptors. apply (attempts_peek _ _ n); [done|].
  apply (each_descriptor_attempts _ _ ds (λ acc d, acc ++ [d]) (λ seen a, point_to a seen));
    [done..| |constructor].
  intros seen acc d x Hd Ha. by apply point_to_snoc.
Qed.

(** The structure of a stream. *)
Definition stream_of (s : ca_pmt_stream) (x : pmt_stream * list (Z * list Z)) : Prop :=
  cs_stream_type s = stream_type x.1 /\ cs_pid s = stream_pid x.1 /\
  cs_descriptors_count s = u32 (zlen x.2) /\ point_to (cs_descriptors s) x.2.

(** A stream with only its CA descriptors. *)
Definition ca_stream (x : pmt_stream * list (Z * list Z)) : pmt_stream * list (Z * list Z) :=
  (x.1, ca_of x.2).

Lemma extract_streams ss : Forall byte pmt ->
  mpeg_pmt_section_streams_for_each pmt = Ret ss pmt ->
  attempts (en50221_ca_extract_streams e pmt) (λ a, Forall2 stream_of a (ca_stream <$> ss)).
Proof.
  intros Hb Hss. unfold mpeg_pmt_section_streams_for_each in Hss.
  unfold en50221_ca_extract_streams.
  eapply (for_each_attempts _ _ _ _ (λ seen a, Forall2 stream_of a (ca_stream <$> seen)));
    [auto with reads..| |exact Hss| |constructor].
  { intros p. unfold mpeg_pmt_stream_descriptors_for_each, pmt_stream_es_info_length.
    auto 10 with reads. }
  intros p [s ds] seen acc Hx Ha. unfold found in Hx.
  apply bind_ret in Hx as (s' & Hs & Hx); [|auto with reads].
  apply bind_ret in Hx as (ds' & Hds & Hx);
    [|unfold mpeg_pmt_stream_descriptors_for_each, pmt_stream_es_info_length; auto 10 with reads].
  injection Hx as -> ->. unfold mpeg_pmt_stream_descriptors_for_each in Hds.
  apply bind_ret in Hds as (n & Hn & Hds); [|apply reads_field12].
  apply attempts_malloc, (attempts_peek _ _ s); [done|]. apply (attempts_peek _ _ n); [done|].
  eapply attempts_bind; [|intros new_s Hnew; apply attempts_ret|done].
  - apply (each_descriptor_attempts _ _ ds (λ new_s d, CaPmtStream (cs_stream_type new_s)
      (cs_pid new_s) (cs_descriptors new_s ++ [d]) (u32 (cs_descriptors_count new_s + 1)))
      (λ seen new_s, stream_of new_s (s, seen))); [done..| |by repeat split; constructor].
    intros seen' acc' d x Hd (H1 & H2 & H3 & H4). split_and!; cbn; [done..| |by apply point_to_snoc].
    rewrite H3, length_app, Nat2Z.inj_add. cbn. unfold u32. by rewrite Zplus_mod_idemp_l.
  - rewrite fmap_app. apply Forall2_app; [done|].
    apply Forall2_cons; [exact Hnew|constructor].
Qed.
End Extract.
