(* ===== verification/En50221CaPmtFormat.v ===== *)
(** * The CA PMT: what is sent

    The abstract CA PMT, its encoding and its decoder in the module, and that
    [en50221_ca_format_pmt] writes that encoding of the program map. *)

From S2P Require Export En50221CaPmtExtract.

(** ** Specification *)

Abbreviation descriptors := (list (Z * list Z)).

(** A program: its CA descriptors, and its streams with theirs. *)
Abbreviation ca_program := (descriptors * list (pmt_stream * descriptors))%type.

(** Moving the descriptors of the streams to the program, when it has none and all streams the same. *)
Definition move_descriptors (move : bool) (p : ca_program) : ca_program :=
  match p with
  | ([], first :: others) =>
      if move && bool_decide (Forall (λ x, x.2 = first.2) others)
      then (first.2, (λ x, (x.1, [])) <$> first :: others)
      else p
  | _ => p
  end.

Definition info_length (ds : descriptors) : Z :=
  if decide (ds = []) then 0 else zlen (encode_descriptors ds) + 1.

Definition encode_info (cmd : Z) (ds : descriptors) : list Z :=
  [info_length ds / 256; info_length ds mod 256] ++
  (if decide (ds = []) then [] else cmd :: encode_descriptors ds).

Definition encode_stream (cmd : Z) (x : pmt_stream * descriptors) : list Z :=
  [stream_type x.1; stream_pid x.1 / 256; stream_pid x.1 mod 256] ++ encode_info cmd x.2.

Definition encode_ca_pmt (list_management cmd program_number version cni : Z) (p : ca_program) : list Z :=
  [list_management; program_number / 256; program_number mod 256; 2 * version + cni] ++
  encode_info cmd p.1 ++ (p.2 ≫= encode_stream cmd).

(** How the module reads it: the descriptors, all under the same command, and what follows. *)
Definition parse_info (cmd : Z) (bs : list Z) : option (descriptors * list Z) :=
  match bs with
  | h :: l :: rest =>
      let n := be12 h l in
      if n =? 0 then Some ([], rest)
      else
        match take (Z.to_nat n) rest with
        | c :: info =>
            if (c =? cmd) && (n <=? zlen rest) then
              ds ← parse_descriptors info; Some (ds, drop (Z.to_nat n) rest)
            else None
        | [] => None
        end
  | _ => None
  end.

Fixpoint parse_streams (fuel : nat) (cmd : Z) (bs : list Z) : option (list (pmt_stream * descriptors)) :=
  match fuel, bs with
  | _, [] => Some []
  | S fuel, ty :: p0 :: p1 :: rest =>
      '(ds, rest) ← parse_info cmd rest;
      ss ← parse_streams fuel cmd rest;
      Some ((PmtStream ty (be13 p0 p1), ds) :: ss)
  | _, _ => None
  end.

Record ca_pmt := CaPmt {
  cp_list_management : Z;
  cp_program_number : Z;
  cp_version : Z;
  cp_current_next : Z;
  cp_program : ca_program;
}.

Definition parse_ca_pmt (cmd : Z) (bs : list Z) : option ca_pmt :=
  match bs with
  | lm :: p0 :: p1 :: v :: rest =>
      '(ds, rest) ← parse_info cmd rest;
      ss ← parse_streams (length rest) cmd rest;
      Some (CaPmt lm (be_combine [p0; p1]) (Z.land (Z.shiftr v 1) 0x1f) (Z.land v 1) (ds, ss))
  | _ => None
  end.

(** What a stream is descrambled with: the descriptors of the program, and its own. *)
Definition descrambling (p : ca_program) : list (pmt_stream * descriptors) :=
  (λ x, (x.1, p.1 ++ x.2)) <$> p.2.

(** *** Sizes *)

Definition small (ds : descriptors) : Prop := zlen (encode_descriptors ds) < 4095.

Definition stream_ok (x : pmt_stream * descriptors) : Prop :=
  byte (stream_type x.1) /\ 0 <= stream_pid x.1 < 8192 /\ small x.2.

Definition weight (ds : descriptors) : Z := zlen (encode_descriptors ds) + 1.
Fixpoint streams_weight (ss : list (pmt_stream * descriptors)) : Z :=
  match ss with
  | [] => 0
  | x :: ss => 5 + weight x.2 + streams_weight ss
  end.

Definition program_weight (p : ca_program) : Z := 6 + weight p.1 + streams_weight p.2.

(** A program map that fits a section. *)
Record program_ok (p : ca_program) : Prop := {
  po_small : small p.1;
  po_streams : Forall stream_ok p.2;
  po_weight : program_weight p < 2 ^ 16;
}.

Lemma encode_descriptors_cons d ds :
  encode_descriptors (d :: ds) = encode_descriptor d ++ encode_descriptors ds.
Proof. done. Qed.

Lemma encode_descriptors_snoc_le d ds : zlen (encode_descriptors ds) + 2 <= zlen (encode_descriptors (d :: ds)).
Proof. rewrite encode_descriptors_cons, length_app. cbn [encode_descriptor length]. lia. Qed.

Lemma ca_of_length ds : zlen (encode_descriptors (ca_of ds)) <= zlen (encode_descriptors ds).
Proof.
  induction ds as [|d ds IH]; [done|]. unfold ca_of in *. rewrite filter_cons. case_decide.
  - rewrite !encode_descriptors_cons, !length_app. lia.
  - pose proof (encode_descriptors_snoc_le d ds). lia.
Qed.

Lemma streams_weight_nonneg ss : 0 <= streams_weight ss.
Proof. induction ss as [|x ss IH]; cbn [streams_weight]; [done|]. unfold weight. lia. Qed.

Lemma ca_weight ds ss : program_weight (ca_of ds, ca_stream <$> ss) <= program_weight (ds, ss).
Proof.
  assert (streams_weight (ca_stream <$> ss) <= streams_weight ss).
  { induction ss as [|x ss IH]; [done|]. cbn [fmap list_fmap streams_weight ca_stream snd] in *.
    pose proof (ca_of_length x.2). unfold weight. lia. }
  pose proof (ca_of_length ds). unfold program_weight, weight. cbn [fst snd]. lia.
Qed.

Lemma ca_program_ok ds ss : program_ok (ds, ss) -> program_ok (ca_of ds, ca_stream <$> ss).
Proof.
  intros [Hs Hss Hw]. cbn [fst snd] in *. pose proof (ca_of_length ds). pose proof (ca_weight ds ss).
  split; cbn [fst snd]; [unfold small in *; lia| |lia].
  apply Forall_fmap. eapply Forall_impl; [|exact Hss]. intros x (H1 & H2 & H3).
  pose proof (ca_of_length x.2). split; [done|]. split; [done|].
  unfold small, ca_stream in *. cbn [fst snd]. lia.
Qed.

Lemma move_weight b p : program_weight (move_descriptors b p) <= program_weight p.
Proof.
  destruct p as [[|d ds] [|first others]]; [done| |done..]. cbn [move_descriptors]. case_match; [|done].
  assert (streams_weight ((λ x, (x.1, [])) <$> others) <= streams_weight others).
  { clear. induction others as [|x ss IH]; [done|]. cbn [fmap list_fmap streams_weight snd] in *.
    unfold weight. change (zlen (encode_descriptors [])) with 0. lia. }
  unfold program_weight, weight. cbn [fmap list_fmap streams_weight fst snd] in *. unfold weight.
  change (zlen (encode_descriptors [])) with 0. cbn [snd].
  change (zlen (encode_descriptors [])) with 0. lia.
Qed.

Lemma move_program_ok b p : program_ok p -> program_ok (move_descriptors b p).
Proof.
  intros Hp. pose proof (move_weight b p) as Hw.
  destruct p as [[|d ds] [|first others]]; [done| |done..]. cbn [move_descriptors] in *. case_match; [|done].
  destruct Hp as [_ Hss Hw']. cbn [fst snd] in *. apply Forall_cons_iff in Hss as Hss'.
  destruct Hss' as [(_ & _ & H3) _]. split; cbn [fst snd]; [done| |lia].
  apply Forall_fmap. eapply Forall_impl; [|exact Hss]. by intros x (H1 & H2 & _).
Qed.

(** *** Moving keeps what each stream is descrambled with *)

Lemma move_descrambling b p : descrambling (move_descriptors b p) = descrambling p.
Proof.
  destruct p as [[|d ds] [|first others]]; [done| |done..]. cbn [move_descriptors].
  destruct (b && _) eqn:E; [|done]. apply andb_prop in E as [_ E]. apply bool_decide_eq_true in E.
  unfold descrambling. cbn [fst snd]. rewrite <- list_fmap_compose. apply list_fmap_ext. intros i x Hx.
  cbn. rewrite app_nil_r. f_equal. destruct i as [|i]; [by injection Hx as <-|].
  symmetry. exact (Forall_lookup_1 _ _ _ _ E Hx).
Qed.

(** *** The module reads what is encoded *)

Lemma be12_encode n : 0 <= n < 4096 -> be12 (n / 256) (n mod 256) = n.
Proof.
  intros Hn. unfold be12, be_combine. cbn [rev app le_combine]. change 0xfff with (Z.ones 12).
  rewrite Z.land_ones by lia. change (2 ^ 12) with 4096.
  rewrite Z.mod_small; Z.to_euclidean_division_equations; lia.
Qed.

Lemma be13_encode n : 0 <= n < 8192 -> be13 (n / 256) (n mod 256) = n.
Proof.
  intros Hn. unfold be13, be_combine. cbn [rev app le_combine]. change 0x1fff with (Z.ones 13).
  rewrite Z.land_ones by lia. change (2 ^ 13) with 8192.
  rewrite Z.mod_small; Z.to_euclidean_division_equations; lia.
Qed.

Lemma encode_descriptors_nonempty ds : ds <> [] -> 2 <= zlen (encode_descriptors ds).
Proof. destruct ds as [|d ds]; [done|]. pose proof (encode_descriptors_snoc_le d ds). lia. Qed.

Lemma parse_info_encode cmd ds rest : small ds ->
  parse_info cmd (encode_info cmd ds ++ rest) = Some (ds, rest).
Proof.
  intros Hs. unfold encode_info, info_length, small in *.
  case_decide as E; [by subst|]. pose proof (encode_descriptors_nonempty ds E).
  cbn [app parse_info]. rewrite be12_encode by lia. rewrite (proj2 (Z.eqb_neq _ _)) by lia.
  replace (Z.to_nat (_ + 1)) with (length (cmd :: encode_descriptors ds)) by (cbn [length]; lia).
  change (cmd :: encode_descriptors ds ++ rest) with ((cmd :: encode_descriptors ds) ++ rest).
  rewrite take_app_length, drop_app_length. cbn [andb]. rewrite Z.eqb_refl.
  rewrite (proj2 (Z.leb_le _ _)) by (rewrite length_app; cbn [length]; lia).
  by rewrite parse_encode.
Qed.

Lemma parse_streams_encode cmd ss fuel : Forall stream_ok ss -> (length ss <= fuel)%nat ->
  parse_streams fuel cmd (ss ≫= encode_stream cmd) = Some ss.
Proof.
  intros Hok. revert fuel. induction Hok as [|[[ty pid] ds] ss (_ & Hpid & Hs) Hok IH]; intros fuel Hf.
  { by destruct fuel. }
  destruct fuel as [|fuel]; [cbn in Hf; lia|]. cbn [fst snd stream_pid] in *.
  change (((PmtStream ty pid, ds) :: ss) ≫= encode_stream cmd) with (encode_stream cmd (PmtStream ty pid, ds) ++ (ss ≫= encode_stream cmd)).
  unfold encode_stream at 1. rewrite <- app_assoc. cbn [app parse_streams fst snd stream_type stream_pid]. rewrite parse_info_encode by done.
  cbn [mbind option_bind]. rewrite IH by (cbn in Hf; lia).
  cbn [mbind option_bind]. by rewrite be13_encode.
Qed.

Lemma streams_fuel cmd ss : (length ss <= length (ss ≫= encode_stream cmd))%nat.
Proof.
  induction ss as [|x ss IH]; [done|].
  change ((x :: ss) ≫= encode_stream cmd) with (encode_stream cmd x ++ (ss ≫= encode_stream cmd)).
  rewrite length_app. unfold encode_stream at 1. rewrite length_app. cbn [length]. lia.
Qed.

Lemma parse_ca_pmt_encode lm cmd pn version cni p :
  program_ok p -> 0 <= pn < 65536 -> 0 <= version < 32 -> 0 <= cni < 2 ->
  parse_ca_pmt cmd (encode_ca_pmt lm cmd pn version cni p) = Some (CaPmt lm pn version cni p).
Proof.
  intros [Hs Hss _] Hpn Hv Hc. destruct p as [ds ss]. cbn [fst snd] in *.
  unfold encode_ca_pmt. cbn [app parse_ca_pmt fst snd]. rewrite parse_info_encode by done.
  cbn [mbind option_bind]. rewrite parse_streams_encode by (done || apply streams_fuel).
  cbn [mbind option_bind]. unfold be_combine. cbn [rev app le_combine].
  rewrite Z.shiftr_div_pow2 by lia. change 0x1f with (Z.ones 5). change (Z.land (2 * version + cni) 1) with (Z.land (2 * version + cni) (Z.ones 1)).
  rewrite !Z.land_ones by lia. do 2 f_equal; Z.to_euclidean_division_equations; lia.
Qed.

(** ** The code *)

Section Format.
Context {S : Type} (e : env) (pmt : mem).
Hypothesis pmt_bytes : Forall byte pmt.
Implicit Types w : world S.

Lemma encode_descriptor_inj x y : encode_descriptor x = encode_descriptor y -> x = y.
Proof. destruct x, y. intros [= -> _ ->]. done. Qed.

Lemma same_descriptors_run cs xs fs ys w :
  point_to pmt cs xs -> point_to pmt fs ys -> length xs = length ys ->
  same_descriptors pmt cs fs w = Ok (bool_decide (xs = ys), w).
Proof.
  intros Hc. revert fs ys. induction Hc as [|c x cs xs (Hl & H0 & Hr) Hc IH]; intros fs ys Hf Hlen.
  { by destruct ys. }
  destruct Hf as [|f y fs ys (Hl' & H0' & Hr') Hf]; [done|]. cbn [same_descriptors].
  destruct (Z.eqb_spec (cd_length c) (cd_length f)) as [E|E]; cbn [negb].
  - rewrite (peek_run _ _ _ _ _ Hr). rewrite E. rewrite (peek_run _ _ _ _ _ Hr').
    destruct (decide (encode_descriptor x = encode_descriptor y)) as [Exy|Exy].
    + apply encode_descriptor_inj in Exy as <-. rewrite (IH fs ys) by (done || by injection Hlen).
      do 2 f_equal. apply bool_decide_ext. split; [by intros -> | by intros [= ->]].
    + rewrite bool_decide_eq_false_2; [done|]. by intros [= -> _].
  - rewrite bool_decide_eq_false_2; [done|]. intros [= -> _]. congruence.
Qed.

Lemma ca_descriptors_count ds xs : point_to pmt ds xs -> length ds = length xs.
Proof. apply Forall2_length. Qed.

Lemma same_streams_run s x ss xs w :
  stream_of pmt s x -> Forall2 (stream_of pmt) ss xs ->
  Forall (λ x, zlen x.2 < 2 ^ 32) (x :: xs) ->
  same_streams pmt s ss w = Ok (bool_decide (Forall (λ y, y.2 = x.2) xs), w).
Proof.
  intros (_ & _ & Hn & Hd) Hss Hb. apply Forall_cons_iff in Hb as [Hb Hbs].
  induction Hss as [|c y ss xs (_ & _ & Hn' & Hd') Hss IH].
  { by rewrite bool_decide_eq_true_2. }
  apply Forall_cons_iff in Hbs as [Hb' Hbs]. cbn [same_streams]. rewrite Hn, Hn', !u32_id by lia.
  destruct (Z.eqb_spec (zlen y.2) (zlen x.2)) as [E|E]; cbn [negb].
  - rewrite (io_bind_run _ _ _ _ _ (same_descriptors_run _ _ _ _ w Hd' Hd ltac:(lia))).
    cbv beta. destruct (decide (y.2 = x.2)) as [Ey|Ey];
      [rewrite (bool_decide_eq_true_2 _ Ey)|rewrite (bool_decide_eq_false_2 _ Ey)].
    + rewrite IH by done. do 2 f_equal. apply bool_decide_ext. rewrite Forall_cons_iff. tauto.
    + rewrite bool_decide_eq_false_2; [done|]. rewrite Forall_cons_iff. tauto.
  - rewrite bool_decide_eq_false_2; [done|]. rewrite Forall_cons_iff. intros [Ey _]. by rewrite Ey in E.
Qed.

Lemma without_descriptors_of ss xs : Forall2 (stream_of pmt) ss xs ->
  Forall2 (stream_of pmt) (without_descriptors <$> ss) ((λ x, (x.1, [])) <$> xs).
Proof.
  intros H. apply Forall2_fmap. eapply Forall2_impl; [|exact H]. intros s x (H1 & H2 & _ & _).
  split; [done|]. split; [done|]. split; [done|constructor].
Qed.

(** The step between extraction and formatting. *)
Lemma move_run (move : bool) ds xs ss ys w :
  point_to pmt ds xs -> Forall2 (stream_of pmt) ss ys -> Forall (λ x, zlen x.2 < 2 ^ 32) ys ->
  exists ds' ss',
    match ds with
    | [] => if move then en50221_ca_try_move_pmt_descriptors pmt ds ss else mret (ds, ss)
    | _ => mret (ds, ss)
    end w = Ok ((ds', ss'), w) /\
    point_to pmt ds' (move_descriptors move (xs, ys)).1 /\
    Forall2 (stream_of pmt) ss' (move_descriptors move (xs, ys)).2.
Proof.
  intros Hd Hs Hb. destruct Hd as [|d x ds xs Hx Hd]; 
    [|exists (d :: ds), ss; split; [done|split; [by apply Forall2_cons|done]]].
  destruct Hs as [|s y ss ys Hy Hs].
  { exists [], []. split; [by destruct move|]. by repeat constructor. }
  destruct move; 
    [|exists [], (s :: ss); split; [done|split; [constructor|by apply Forall2_cons]]].
  unfold en50221_ca_try_move_pmt_descriptors.
  rewrite (io_bind_run _ _ _ _ _ (same_streams_run s y ss ys w Hy Hs Hb)).
  cbn [move_descriptors andb]. case_bool_decide.
  - eexists _, _. split; [done|]. split; [by destruct Hy as (_ & _ & _ & ?)|].
    by apply without_descriptors_of, Forall2_cons.
  - exists [], (s :: ss). split; [done|]. split; [constructor|by apply Forall2_cons].
Qed.

(** *** Lengths *)

Lemma lengths_run ds xs : point_to pmt ds xs -> forall n, 0 <= n -> n + zlen (encode_descriptors xs) < 2 ^ 32 ->
  foldl (λ n d, u32 (n + cd_length d)) n ds = n + zlen (encode_descriptors xs).
Proof.
  induction 1 as [|d x ds xs (Hl & _ & _) Hd IH]; intros n Hn Hb; [cbn; lia|].
  rewrite encode_descriptors_cons, length_app in *. cbn [foldl].
  rewrite u32_id by lia. rewrite IH by lia. lia.
Qed.

Lemma ca_length_run ds xs : point_to pmt ds xs -> zlen (encode_descriptors xs) < 2 ^ 32 - 1 ->
  ca_descriptors_length ds = info_length xs.
Proof.
  intros Hd Hb. unfold ca_descriptors_length, info_length.
  rewrite (lengths_run ds xs Hd) by lia. rewrite Z.add_0_l. case_decide as E.
  - by subst.
  - pose proof (encode_descriptors_nonempty xs E). rewrite (proj2 (Z.eqb_neq _ _)) by lia.
    cbn [negb]. by rewrite u32_id by lia.
Qed.

Lemma encode_info_length cmd ds : zlen (encode_info cmd ds) = 2 + info_length ds.
Proof.
  unfold encode_info, info_length. case_decide; [done|]. rewrite length_app. cbn [length]. lia.
Qed.

Lemma info_length_bound ds : 0 <= info_length ds <= weight ds.
Proof. unfold info_length, weight. case_decide; lia. Qed.

Lemma encode_streams_length cmd ss :
  zlen (ss ≫= encode_stream cmd) = foldr (λ x n, 5 + info_length x.2 + n) 0 ss /\
  0 <= foldr (λ x n, 5 + info_length x.2 + n) 0 ss <= streams_weight ss.
Proof.
  induction ss as [|x ss IH]; [done|].
  change ((x :: ss) ≫= encode_stream cmd) with (encode_stream cmd x ++ (ss ≫= encode_stream cmd)).
  rewrite length_app. cbn [foldr streams_weight]. pose proof (info_length_bound x.2).
  unfold encode_stream at 1. rewrite length_app. pose proof (encode_info_length cmd x.2). cbn [length]. lia.
Qed.

Lemma encode_ca_pmt_length lm cmd pn v cni p :
  zlen (encode_ca_pmt lm cmd pn v cni p) =
  6 + info_length p.1 + foldr (λ x n, 5 + info_length x.2 + n) 0 p.2.
Proof.
  unfold encode_ca_pmt. rewrite !length_app. pose proof (encode_info_length cmd p.1).
  destruct (encode_streams_length cmd p.2) as [H1 _]. cbn [length]. lia.
Qed.

Lemma encode_ca_pmt_bound lm cmd pn v cni p :
  zlen (encode_ca_pmt lm cmd pn v cni p) <= program_weight p.
Proof.
  rewrite encode_ca_pmt_length. unfold program_weight. pose proof (info_length_bound p.1).
  destruct (encode_streams_length cmd p.2). lia.
Qed.

Lemma streams_total_run ss ys : Forall2 (stream_of pmt) ss ys ->
  forall n, 0 <= n -> n + streams_weight ys < 2 ^ 16 ->
  foldl (λ n s, u32 (n + u32 (5 + ca_descriptors_length (cs_descriptors s)))) n ss =
  n + foldr (λ x n, 5 + info_length x.2 + n) 0 ys.
Proof.
  induction 1 as [|s y ss ys (_ & _ & _ & Hd) Hs IH]; intros n Hn Hb; [cbn; lia|].
  cbn [foldl foldr streams_weight] in *. pose proof (info_length_bound y.2).
  pose proof (streams_weight_nonneg ys). unfold weight in *.
  rewrite (ca_length_run _ y.2) by (done || lia).
  rewrite (u32_id (5 + _)) by lia. rewrite u32_id by lia. rewrite IH by lia. lia.
Qed.

Lemma total_length_run lm cmd pn v cni ds ss p :
  program_ok p -> point_to pmt ds p.1 -> Forall2 (stream_of pmt) ss p.2 ->
  en50221_ca_calculate_length ds ss = (zlen (encode_ca_pmt lm cmd pn v cni p), info_length p.1).
Proof.
  intros [Hs Hss Hw] Hd Hss'. unfold en50221_ca_calculate_length, small, program_weight, weight in *.
  rewrite (ca_length_run ds p.1) by (done || lia). pose proof (info_length_bound p.1).
  pose proof (streams_weight_nonneg p.2). unfold weight in *.
  rewrite u32_id by lia. rewrite (streams_total_run ss p.2), encode_ca_pmt_length by (done || lia).
  done.
Qed.
End Format.
