(* ===== verification/En50221CaPmtCorrect.v ===== *)
(** * The CA PMT: properties

    The bytes that [en50221_ca_format_pmt] writes, and what the module makes of them, from the section
    that was received to the descriptors each stream is descrambled with. *)

From S2P Require Export En50221CaPmtFormat.

(** ** Writing *)

(** The action writes exactly [bs] at its position and moves behind it. *)
Definition writes (c : Z -> M Z) (bs : list Z) : Prop := forall pre old post,
  length old = length bs -> c (zlen pre) (pre ++ old ++ post) = Ret (zlen pre + zlen bs) (pre ++ bs ++ post).

Lemma writes_nil : writes mret [].
Proof. intros pre [|] post; [|done]. intros _. cbn [length]. by rewrite Z.add_0_r. Qed.

Lemma writes_put v : writes (λ p, put p v) [u8 v].
Proof.
  intros pre [|o [|]] post; [done| |done]. intros _. unfold put. by run by apply st8_app.
Qed.

Lemma writes_bind c c' bs bs' : writes c bs -> writes c' bs' -> writes (λ p, p' ← c p; c' p') (bs ++ bs').
Proof.
  intros Hc Hc' pre old post Hl. rewrite length_app in Hl.
  rewrite <- (take_drop (length bs) old), <- (app_assoc (take _ _)).
  run by (apply Hc; rewrite length_take; lia).
  rewrite (app_assoc pre bs), <- (Nat2Z.inj_add (length pre)), <- (length_app pre bs).
  rewrite Hc' by (rewrite length_drop; lia). rewrite !length_app. f_equal; [lia|].
  by rewrite <- !app_assoc.
Qed.

Lemma writes_put_bind v c bs : writes c bs -> writes (λ p, p' ← put p v; c p') (u8 v :: bs).
Proof. intros H. exact (writes_bind _ _ [u8 v] bs (writes_put v) H). Qed.

Lemma writes_bytes_bind bs c bs' : Forall byte bs -> writes c bs' ->
  writes (λ p, st_bytes p bs;; c (p + zlen bs)) (bs ++ bs').
Proof.
  intros Hb H pre old post Hl.
  rewrite <- (writes_bind (λ p, st_bytes p bs;; mret (p + zlen bs)) c bs bs') with (old := old); [|..|done|done].
  - unfold mbind, M_bind. by destruct (st_bytes _ _ _).
  - intros pre' old' post' Hl'. by run by by apply st_bytes_app.
Qed.

Section Writing.
Context {S : Type} (e : env) (pmt : mem).
Hypothesis pmt_bytes : Forall byte pmt.
Implicit Types w : world S.

Lemma loaded_bytes p k bs m' : ld_bytes p k pmt = Ret bs m' -> Forall byte bs.
Proof.
  revert p bs m'. induction k as [|k IH]; intros p bs m' H; [by injection H as <- _|].
  cbn [ld_bytes] in H. apply bind_ret in H as (b & Hb & H); [|auto with reads].
  apply bind_ret in H as (bs' & H' & H); [|auto with reads]. injection H as <- _.
  apply Forall_cons; [|by eapply IH]. unfold ld8 in Hb. destruct (pmt !z p) as [v|] eqn:E; [|done].
  injection Hb as ->. by apply (lookup_z_Forall _ _ _ _ pmt_bytes E).
Qed.

Lemma writes_descriptors ds xs : point_to pmt ds xs ->
  writes (put_descriptors pmt ds) (encode_descriptors xs).
Proof.
  induction 1 as [|d x ds xs (Hl & H0 & Hr) Hd IH]; [apply writes_nil|].
  rewrite encode_descriptors_cons. cbn [put_descriptors].
  intros pre old post Hlen. unfold run_m. rewrite Hr. rewrite Hl.
  refine (writes_bytes_bind _ (put_descriptors pmt ds) _ _ IH pre old post Hlen).
  by apply (loaded_bytes _ _ _ _ Hr).
Qed.

Lemma writes_info cmd ds xs : byte cmd -> point_to pmt ds xs -> small xs ->
  writes (put_info pmt cmd ds (info_length xs)) (encode_info cmd xs).
Proof.
  intros Hcmd Hd Hs. unfold put_info, encode_info. pose proof (info_length_bound xs) as Hb.
  assert (Hi : info_length xs < 4096) by (unfold small, weight in *; lia).
  replace [_ / 256; _ mod 256] with [u8 (Z.land (Z.shiftr (info_length xs) 8) 0x0f); u8 (info_length xs)].
  2: { change 0x0f with (Z.ones 4). rewrite Z.land_ones, Z.shiftr_div_pow2 by lia. unfold u8.
    change (2 ^ 8) with 256. do 2 f_equal. Z.to_euclidean_division_equations; lia. }
  apply writes_put_bind, writes_put_bind. unfold info_length. case_decide as E.
  - apply writes_nil.
  - rewrite (proj2 (Z.eqb_neq _ _)) by lia. cbn [negb]. 
    replace (cmd :: encode_descriptors xs) with (u8 cmd :: encode_descriptors xs) by (by rewrite u8_id).
    by apply writes_put_bind, writes_descriptors.
Qed.

Lemma writes_streams cmd ss ys : byte cmd -> Forall2 (stream_of pmt) ss ys -> Forall stream_ok ys ->
  writes (put_streams pmt cmd ss) (ys ≫= encode_stream cmd).
Proof.
  intros Hcmd Hss Hok. induction Hss as [|s y ss ys (Ht & Hp & _ & Hd) Hss IH]; [apply writes_nil|].
  apply Forall_cons_iff in Hok as [(Hty & Hpid & Hs) Hok]. cbn [put_streams].
  change ((y :: ys) ≫= encode_stream cmd) with (encode_stream cmd y ++ (ys ≫= encode_stream cmd)).
  unfold encode_stream at 1. rewrite <- app_assoc.
  replace [_; _; _] with [u8 (cs_stream_type s); u8 (Z.land (Z.shiftr (cs_pid s) 8) 0x1f); u8 (cs_pid s)].
  2: { rewrite Ht, Hp. change 0x1f with (Z.ones 5). rewrite Z.land_ones, Z.shiftr_div_pow2 by lia.
    rewrite u8_id by done. unfold u8. change (2 ^ 8) with 256. change (2 ^ 5) with 32.
    do 3 f_equal. Z.to_euclidean_division_equations; lia. }
  apply writes_put_bind, writes_put_bind, writes_put_bind.
  rewrite (ca_length_run pmt _ y.2) by (done || unfold small in Hs; lia).
  apply writes_bind; [by apply writes_info|by apply IH].
Qed.

(** *** The whole function *)

Definition header_of (program_number : Z) (head : section_ext) (cni : Z) : Prop :=
  ld16 3 pmt = Ret program_number pmt /\ ld_section_ext pmt = Ret head pmt /\
  current_next_indicator pmt = Ret cni pmt /\
  0 <= program_number < 65536 /\ 0 <= version_number head < 32 /\ 0 <= cni < 2.

Lemma writes_ca_pmt lm cmd pn head cni p ds ss :
  byte lm -> byte cmd -> header_of pn head cni ->
  program_ok p -> point_to pmt ds p.1 -> Forall2 (stream_of pmt) ss p.2 ->
  writes (λ data_pos, data_pos ← put data_pos lm;
      data_pos ← put data_pos (Z.shiftr pn 8);
      data_pos ← put data_pos pn;
      data_pos ← put data_pos (Z.lor (Z.shiftl (version_number head) 1) cni);
      data_pos ← put_info pmt cmd ds (info_length p.1) data_pos;
      put_streams pmt cmd ss data_pos)
    (encode_ca_pmt lm cmd pn (version_number head) cni p).
Proof.
  intros Hlm Hcmd (_ & _ & _ & Hpn & Hv & Hc) [Hs Hss _] Hd Hss'. unfold encode_ca_pmt.
  replace [lm; _; _; _] with [u8 lm; u8 (Z.shiftr pn 8); u8 pn;
    u8 (Z.lor (Z.shiftl (version_number head) 1) cni)].
  2: { assert (Z.lor (Z.shiftl (version_number head) 1) cni = 2 * version_number head + cni) as ->.
    { rewrite Z.lor_comm, lor_add; lia. }
    rewrite Z.shiftr_div_pow2, u8_id by (done || lia). unfold u8. change (2 ^ 8) with 256.
    do 4 f_equal; Z.to_euclidean_division_equations; lia. }
  apply writes_put_bind, writes_put_bind, writes_put_bind, writes_put_bind, writes_bind.
  - by apply writes_info.
  - by apply writes_streams.
Qed.
End Writing.

(** ** The program map in a section *)

Lemma streams_parsed f bs ss : Forall byte bs ->
  entries_fuel (A := pmt_stream) f bs = Some ss ->
  zlen bs = streams_weight ss - zlen ss /\ (zlen bs < 4095 -> Forall stream_ok ss).
Proof.
  revert bs ss. induction f as [|f IH]; intros bs ss Hb H; [done|].
  destruct (decide (bs = [])) as [->|Hne]; [injection H as <-; split; [done|constructor]|].
  rewrite entries_fuel_eq in H by done. destruct (_ && _) eqn:E in H; [|done].
  apply andb_prop in E as [E1 E2]. apply Z.leb_le in E1, E2.
  change (Z.to_nat ef_size) with 5%nat in *. change ef_size with 5 in *.
  destruct bs as [|ty [|p0 [|p1 [|l0 [|l1 rest]]]]]; cbn [length] in E1; try lia.
  cbn [take drop ef_len ef_value pmt_stream_format] in *. change (take 0 rest) with (@nil Z) in *.
  change (drop 0 rest) with rest in *. cbv iota in *. pose proof (be12_bound l0 l1) as Hn.
  set (n := be12 l0 l1) in *. rewrite !Forall_cons_iff in Hb. destruct Hb as (Hty & H0 & H1 & _ & _ & Hb).
  destruct (parse_descriptors (take _ rest)) as [ds|] eqn:Eds; [|done]. cbn [mbind option_bind] in H.
  destruct (entries_fuel f _) as [es|] eqn:Ees; [|done]. cbn [mbind option_bind] in H. injection H as <-.
  apply IH in Ees as [Hw Hok]; [|by apply Forall_drop].
  apply parse_sound in Eds as [Eds _]; [|by apply Forall_take].
  assert (Hlen : zlen (encode_descriptors ds) = n) by (rewrite Eds, length_take; lia).
  rewrite length_drop in *. cbn [streams_weight snd length]. unfold weight. split; [lia|].
  intros Hs. apply Forall_cons; [|apply Hok; lia]. split; [done|]. split; [|unfold small; cbn [snd]; lia].
  cbn [fst stream_pid]. unfold be13.
  pose proof (land_nonneg_le (be_combine [p0; p1]) 0x1fff ltac:(lia)). lia.
Qed.

Lemma streams_weight_count ss : 6 * zlen ss <= streams_weight ss.
Proof. induction ss as [|x ss IH]; cbn [streams_weight length]; [done|]. unfold weight. lia. Qed.

Lemma pmt_parsed bs pcr ds ss : Forall byte bs -> zlen bs < 4090 ->
  pmt_parse bs = Some (pcr, ds, ss) ->
  program_ok (ds, ss) /\ zlen bs = 3 + weight ds + streams_weight ss - zlen ss.
Proof.
  intros Hb Hlen H. destruct bs as [|c0 [|c1 [|i0 [|i1 rest]]]]; try done. cbn [pmt_parse] in H.
  cbv zeta in H. pose proof (be12_bound i0 i1). set (n := be12 i0 i1) in *. destruct (_ <=? _) eqn:E in H; [|done]. apply Z.leb_le in E.
  destruct (parse_descriptors (take _ rest)) as [ds'|] eqn:Eds; [|done]. cbn [mbind option_bind] in H.
  destruct (parse_entries _) as [ss'|] eqn:Ess; [|done]. cbn [mbind option_bind] in H.
  injection H as <- <- <-. rewrite !Forall_cons_iff in Hb. destruct Hb as (_ & _ & _ & _ & Hb).
  apply parse_sound in Eds as [Eds _]; [|by apply Forall_take].
  apply streams_parsed in Ess as [Hw Hok]; [|by apply Forall_drop].
  assert (El : zlen (encode_descriptors ds') = n) by (rewrite Eds, length_take; lia).
  rewrite length_drop in *. cbn [length] in *. unfold weight.
  pose proof (streams_weight_count ss').
  split; [split; unfold small; cbn [fst snd]|]; [lia|apply Hok; lia|unfold program_weight, weight; cbn [fst snd]; lia|lia].
Qed.

Lemma stream_counts ss : Forall stream_ok ss -> Forall (λ x, zlen x.2 < 2 ^ 32) (ca_stream <$> ss).
Proof.
  intros H. apply Forall_fmap. eapply Forall_impl; [|exact H]. intros [s ds] (_ & _ & Hs).
  unfold small in Hs. cbn [snd] in Hs. pose proof (ca_of_length ds) as Hc.
  assert (Hn : forall l, 2 * zlen l <= zlen (encode_descriptors l)).
  { induction l as [|d l IH]; [done|]. pose proof (encode_descriptors_snoc_le d l). cbn [length]. lia. }
  specialize (Hn (ca_of ds)). unfold compose, ca_stream. cbn [fst snd]. lia.
Qed.

(** A result that answers a failed call, or the formatted bytes in [data]. *)
Definition formatted (e : env) (out data : mem) (data_length r : Z) (data' : mem) : Prop :=
  (r = -1 /\ data' = data /\ ((exists k, e_malloc e k = false) \/ data_length < zlen out)) \/
  (r = zlen out /\ zlen out <= data_length /\ data' = out ++ drop (length out) data).

Lemma format_run {S} (e : env) pmt ds ss pn head cni move lm cmd data data_length (w : world S) :
  Forall byte pmt -> header_of pmt pn head cni -> byte lm -> byte cmd ->
  mpeg_pmt_section_descriptors_for_each pmt = Ret ds pmt ->
  mpeg_pmt_section_streams_for_each pmt = Ret ss pmt ->
  program_ok (ds, ss) -> data_length <= zlen data ->
  exists r data' w',
    en50221_ca_format_pmt e pmt data data_length move lm cmd w = Ok ((r, data'), w') /\
    w_state w' = w_state w /\ w_log w' = w_log w /\
    formatted e (encode_ca_pmt lm cmd pn (version_number head) cni
      (move_descriptors move (ca_of ds, ca_stream <$> ss))) data data_length r data'.
Proof.
  intros Hb Hh Hlm Hcmd Hds Hss Hok Hl. unfold en50221_ca_format_pmt.
  destruct (extract_descriptors e pmt ds Hb Hds w) as (r & w1 & Hr & Hs1 & Hl1 & HQ).
  rewrite (io_bind_run _ _ _ _ _ Hr).
  destruct r as [d|]; [|exists (-1), data, w1; split_and!; [done..|left; auto]].
  destruct (extract_streams e pmt ss Hb Hss w1) as (r & w2 & Hr2 & Hs2 & Hl2 & HQ2).
  rewrite (io_bind_run _ _ _ _ _ Hr2).
  destruct r as [s|]; [|exists (-1), data, w2; split_and!; [done|congruence..|left; auto]].
  destruct (move_run pmt move d (ca_of ds) s (ca_stream <$> ss) w2 HQ HQ2) as (d' & s' & Hm & Hd & Hs);
    [apply stream_counts, Hok|].
  rewrite (io_bind_run _ _ _ _ _ Hm). pose proof (move_program_ok move _ (ca_program_ok ds ss Hok)) as Hp.
  set (p := move_descriptors _ _) in *. set (out := encode_ca_pmt _ _ _ _ _ _).
  rewrite (total_length_run pmt lm cmd pn (version_number head) cni d' s' p Hp Hd Hs). fold out.
  destruct (Z.ltb_spec data_length (zlen out)) as [Hlt|Hge].
  - exists (-1), data, w2. split_and!; [done|congruence..|left; auto].
  - destruct Hh as (H1 & H2 & H3 & Hr1).
    rewrite (peek_run _ _ _ _ _ H1), (peek_run _ _ _ _ _ H2), (peek_run _ _ _ _ _ H3).
    pose proof (writes_ca_pmt pmt Hb lm cmd pn head cni p d' s' Hlm Hcmd
      (conj H1 (conj H2 (conj H3 Hr1))) Hp Hd Hs [] (take (length out) data) (drop (length out) data)) as Hw.
    rewrite length_take, take_drop in Hw. specialize (Hw ltac:(fold out; lia)).
    exists (zlen out), (out ++ drop (length out) data), w2. split_and!; [|congruence..|right; auto].
    unfold lift, run_m. cbn [length app] in Hw. change (Z.of_nat 0) with 0 in Hw. by rewrite Hw.
Qed.

(** The header of a section, before and behind its codec. *)
Lemma header_cells (m : mem) : 8 <= zlen m ->
  exists c0 c1 c2 c3 c4 c5 c6 c7 rest, m = c0 :: c1 :: c2 :: c3 :: c4 :: c5 :: c6 :: c7 :: rest.
Proof. do 8 (destruct m as [|? m]; [cbn [length]; lia|]). intros _. repeat eexists. Qed.

Lemma header_frame m m' pn head cni : 8 <= zlen m -> frame m 8 m' ->
  header_of m pn head cni -> header_of m' pn head cni.
Proof.
  intros Hl [Hlen _ Hp] (H1 & H2 & H3 & Hr).
  destruct (header_cells m Hl) as (c0 & c1 & c2 & c3 & c4 & c5 & c6 & c7 & rest & ->).
  destruct (header_cells m') as (d0 & d1 & d2 & d3 & d4 & d5 & d6 & d7 & rest' & ->); [by rewrite Hlen|].
  assert (E : forall i, i < 8 -> _) by exact Hp.
  pose proof (Hp 3 ltac:(lia)) as E3. pose proof (Hp 4 ltac:(lia)) as E4.
  pose proof (Hp 5 ltac:(lia)) as E5. pose proof (Hp 6 ltac:(lia)) as E6.
  pose proof (Hp 7 ltac:(lia)) as E7. injection E3 as ->. injection E4 as ->. injection E5 as ->.
  injection E6 as ->. injection E7 as ->.
  injection H1 as H1. injection H2 as H2. injection H3 as H3.
  split; [by rewrite <- H1|]. split; [by rewrite <- H2|]. split; [by rewrite <- H3|]. done.
Qed.

(** What the codec leaves of a program map is what the formatter needs. *)
Lemma pmt_accepted m pcr ds ss pn head cni :
  section_buffer m -> 9 <= sec_len m -> header_of m pn head cni ->
  pmt_parse (range m 8 (sec_len m - 9)) = Some (pcr, ds, ss) ->
  exists m', mpeg_pmt_section_codec m = Ret tt m' /\ Forall byte m' /\ header_of m' pn head cni /\
    mpeg_pmt_section_descriptors_for_each m' = Ret ds m' /\
    mpeg_pmt_section_streams_for_each m' = Ret ss m'.
Proof.
  intros Hs Hmin Hh Hp. pose proof (pmt_codec_run m Hs Hmin) as Hrun. rewrite Hp in Hrun.
  destruct Hrun as (m' & Hc & _ & Hds & Hss). exists m'.
  pose proof (pmt_safe m Hs ltac:(lia) m (frame_refl m 8 (sb_bytes m Hs))) as Hf.
  unfold wp in Hf. rewrite Hc in Hf. destruct Hf as [Hf _]. pose proof (sb_fits m Hs).
  split; [done|]. split; [by apply (frame_bytes _ _ _ Hf)|].
  split; [eapply header_frame; [|done..]; lia|done].
Qed.

(** Both steps. *)
Lemma ca_pmt_run {S} (e : env) m pcr ds ss pn head cni move lm cmd data data_length (w : world S) :
  section_buffer m -> 9 <= sec_len m -> header_of m pn head cni -> byte lm -> byte cmd ->
  pmt_parse (range m 8 (sec_len m - 9)) = Some (pcr, ds, ss) -> data_length <= zlen data ->
  program_ok (ds, ss) /\ program_weight (ds, ss) = sec_len m - 6 + zlen ss /\
  exists m' r data' w',
    mpeg_pmt_section_codec m = Ret tt m' /\
    en50221_ca_format_pmt e m' data data_length move lm cmd w = Ok ((r, data'), w') /\
    w_state w' = w_state w /\ w_log w' = w_log w /\
    formatted e (encode_ca_pmt lm cmd pn (version_number head) cni
      (move_descriptors move (ca_of ds, ca_stream <$> ss))) data data_length r data'.
Proof.
  intros Hs Hmin Hh Hlm Hcmd Hp Hl. pose proof (sb_fits m Hs). pose proof (sec_len_bound m).
  destruct (pmt_accepted m pcr ds ss pn head cni Hs Hmin Hh Hp) as (m' & Hc & Hb & Hh' & Hds & Hss).
  assert (Hlen : zlen (range m 8 (sec_len m - 9)) = sec_len m - 9) by (rewrite range_length; lia).
  destruct (pmt_parsed _ _ _ _ (range_bytes _ 8 (sec_len m - 9) (sb_bytes m Hs)) ltac:(lia) Hp) as [Hok Hw].
  split; [done|]. split; [unfold program_weight; cbn [fst snd]; lia|].
  destruct (format_run e m' ds ss pn head cni move lm cmd data data_length w Hb Hh' Hlm Hcmd Hds Hss Hok Hl)
    as (r & data' & w' & Hr & Hst & Hlog & Hf).
  by exists m', r, data', w'.
Qed.

Lemma moved_descriptors move ds ss :
  (move_descriptors move (ds, ss)).1 = ds \/ move = true /\ ds = [].
Proof. destruct ds, ss, move; auto. Qed.

(** ** Properties *)

(** C4: A program map that was received and converted is told to the module completely: whenever the CA PMT
    is written, the module reads from it the header of the program map, the streams in their order, and
    for each stream exactly the CA descriptors of the program and of the stream, whether or not
    descriptors were moved to the program. *)
Theorem ca_pmt_conveys {S} (e : env) m pcr ds ss pn head cni move lm cmd data data_length (w : world S) :
  section_buffer m -> 9 <= sec_len m -> header_of m pn head cni -> byte lm -> byte cmd ->
  pmt_parse (range m 8 (sec_len m - 9)) = Some (pcr, ds, ss) -> data_length <= zlen data ->
  exists m' r data' w',
    mpeg_pmt_section_codec m = Ret tt m' /\
    en50221_ca_format_pmt e m' data data_length move lm cmd w = Ok ((r, data'), w') /\
    (0 <= r -> exists p,
      parse_ca_pmt cmd (take (Z.to_nat r) data') = Some (CaPmt lm pn (version_number head) cni p) /\
      descrambling p = (λ '(s, d), (s, ca_of ds ++ ca_of d)) <$> ss /\
      (p.1 = ca_of ds \/ move = true /\ ca_of ds = [])).
Proof.
  intros Hs Hmin Hh Hlm Hcmd Hp Hl.
  destruct (ca_pmt_run e m pcr ds ss pn head cni move lm cmd data data_length w Hs Hmin Hh Hlm Hcmd Hp Hl)
    as (Hok & _ & m' & r & data' & w' & Hc & Hr & _ & _ & Hf).
  exists m', r, data', w'. split; [done|]. split; [done|]. intros Hr0.
  destruct Hf as [(-> & _)|(-> & Hle & ->)]; [done|].
  exists (move_descriptors move (ca_of ds, ca_stream <$> ss)).
  destruct Hh as (_ & _ & _ & ? & ? & ?). rewrite Nat2Z.id, take_app_length.
  split; [|split; [|apply moved_descriptors]].
  - apply parse_ca_pmt_encode; [by apply move_program_ok, ca_program_ok|done..].
  - rewrite move_descrambling. unfold descrambling. cbn [fst snd]. rewrite <- list_fmap_compose.
    apply list_fmap_ext. by intros _ [s d] _.
Qed.

(** Formatting the CA PMT of a received program map never writes outside [data] or behind the length it
    returns, and fails only without memory or room, leaving [data] alone; room for the section and one
    byte for each stream is always enough. *)
Theorem ca_pmt_bounded {S} (e : env) m pcr ds ss pn head cni move lm cmd data data_length (w : world S) :
  section_buffer m -> 9 <= sec_len m -> header_of m pn head cni -> byte lm -> byte cmd ->
  pmt_parse (range m 8 (sec_len m - 9)) = Some (pcr, ds, ss) -> data_length <= zlen data ->
  exists m' r data' w',
    mpeg_pmt_section_codec m = Ret tt m' /\
    en50221_ca_format_pmt e m' data data_length move lm cmd w = Ok ((r, data'), w') /\
    w_state w' = w_state w /\ w_log w' = w_log w /\
    (r = -1 /\ data' = data \/ 6 <= r <= data_length) /\
    length data' = length data /\ drop (Z.to_nat r) data' = drop (Z.to_nat r) data /\
    ((forall k, e_malloc e k = true) -> sec_len m - 6 + zlen ss <= data_length -> 6 <= r).
Proof.
  intros Hs Hmin Hh Hlm Hcmd Hp Hl.
  destruct (ca_pmt_run e m pcr ds ss pn head cni move lm cmd data data_length w Hs Hmin Hh Hlm Hcmd Hp Hl)
    as (Hok & Hw & m' & r & data' & w' & Hc & Hr & Hst & Hlog & Hf).
  exists m', r, data', w'. do 4 (split; [done|]). set (p := move_descriptors _ _) in *.
  pose proof (move_weight move (ca_of ds, ca_stream <$> ss)) as Hw1. fold p in Hw1.
  pose proof (ca_weight ds ss). pose proof (encode_ca_pmt_bound lm cmd pn (version_number head) cni p).
  pose proof (encode_ca_pmt_length lm cmd pn (version_number head) cni p).
  pose proof (info_length_bound p.1). destruct (encode_streams_length cmd p.2) as [_ ?].
  destruct Hf as [(-> & -> & Hwhy)|(-> & Hle & ->)].
  - split_and!; [auto|done..|]. intros Hm Hroom. destruct Hwhy as [[k Hk]|]; [by rewrite Hm in Hk|lia].
  - rewrite Nat2Z.id, drop_app_length, length_app, length_drop. split_and!; [lia..|done|lia].
Qed.

(** *** Witnesses *)

(** A section with a program of two streams, each with its CA descriptors. *)
Definition demo_pmt (d1 d2 : list Z) : mem :=
  let body := [0xe0; 0x21; 0xf0; 0] ++ [2; 0xe0; 0x21; 0xf0; zlen d1] ++ d1 ++ [4; 0xe0; 0x22; 0xf0; zlen d2] ++ d2 in
  [2; 9 + zlen body; 0xb0; 0x34; 0x12; 0xc7; 0; 0] ++ body ++ [0; 0; 0; 0].
Definition demo_ca : list Z := [9; 4; 6; 4; 0xe1; 0].
Definition demo_env : env := Env (λ _, true) (λ _, 0) (λ _, None) (λ _, (0, 0)) (λ _, (0, [])).

Lemma ca_pmt_conveys_witness :
  let m := demo_pmt demo_ca (demo_ca ++ [0x52; 1; 7]) in
  exists pcr ds ss, pmt_parse (range m 8 (sec_len m - 9)) = Some (pcr, ds, ss) /\
  exists m' r data' w',
    mpeg_pmt_section_codec m = Ret tt m' /\
    en50221_ca_format_pmt demo_env m' (replicate 100 0) 100 true 3 1 (World tt 0 []) = Ok ((r, data'), w') /\
    (0 <= r -> exists p,
      parse_ca_pmt 1 (take (Z.to_nat r) data') = Some (CaPmt 3 0x1234 3 1 p) /\
      descrambling p = (λ '(s, d), (s, ca_of ds ++ ca_of d)) <$> ss /\
      (p.1 = ca_of ds \/ true = true /\ ca_of ds = [])).
Proof.
  eexists _, _, _. split; [vm_compute; reflexivity|].
  refine (ca_pmt_conveys demo_env _ _ _ _ 0x1234 (SectionExt 3 0 0) 1 true 3 1 _ 100 (World tt 0 []) _ _ _ _ _ _ _).
  - split; [by repeat constructor|vm_compute; done].
  - vm_compute; done.
  - by repeat split.
  - done.
  - done.
  - vm_compute; reflexivity.
  - done.
Defined.

Lemma ca_pmt_bounded_witness :
  let m := demo_pmt demo_ca [] in
  exists pcr ds ss, pmt_parse (range m 8 (sec_len m - 9)) = Some (pcr, ds, ss) /\
  exists m' r data' w',
    mpeg_pmt_section_codec m = Ret tt m' /\
    en50221_ca_format_pmt demo_env m' (replicate 22 0) 20 true 3 1 (World tt 0 []) = Ok ((r, data'), w') /\
    w_state w' = tt /\ w_log w' = [] /\
    (r = -1 /\ data' = replicate 22 0 \/ 6 <= r <= 20) /\
    length data' = 22%nat /\ drop (Z.to_nat r) data' = drop (Z.to_nat r) (replicate 22 0) /\
    ((forall k, e_malloc demo_env k = true) -> sec_len m - 6 + zlen ss <= 20 -> 6 <= r).
Proof.
  eexists _, _, _. split; [vm_compute; reflexivity|].
  refine (ca_pmt_bounded demo_env _ _ _ _ 0x1234 (SectionExt 3 0 0) 1 true 3 1 _ 20 (World tt 0 []) _ _ _ _ _ _ _).
  - split; [by repeat constructor|vm_compute; done].
  - vm_compute; done.
  - by repeat split.
  - done.
  - done.
  - vm_compute; reflexivity.
  - done.
Defined.

(** The CA PMT of a program map, after its codec. *)
Definition demo_format (m : mem) : option (list Z) :=
  match mpeg_pmt_section_codec m with
  | Ret _ m' =>
      match en50221_ca_format_pmt demo_env m' (replicate 60 0) 60 true 3 1 (World tt 0 []) with
      | Ok ((r, data), _) => Some (take (Z.to_nat r) data)
      | Err _ => None
      end
  | _ => None
  end.

(** Two streams with the same CA descriptors: they are moved to the program. *)
Example descriptors_moved :
  demo_format (demo_pmt demo_ca demo_ca) =
  Some ([3; 0x12; 0x34; 7; 0; 7; 1] ++ demo_ca ++ [2; 0; 0x21; 0; 0; 4; 0; 0x22; 0; 0]).
Proof. reflexivity. Qed.

(** "all the other streams with CA descriptors": one without prevents the move, too. *)
Example clear_stream_prevents_move :
  demo_format (demo_pmt demo_ca []) =
  Some ([3; 0x12; 0x34; 7; 0; 0] ++ [2; 0; 0x21; 0; 7; 1] ++ demo_ca ++ [4; 0; 0x22; 0; 0]).
Proof. reflexivity. Qed.
