(* ===== verification/SendQueue.v ===== *)
(** * The message queue of a connection, as the linked list it is

    [queue_message] of en50221_transport.c links a message at the tail; [en50221_tl_poll] takes the
    message at the head; destroying a slot frees them all.  The store of allocated messages is
    explicit: following a pointer to a message that is not allocated is a fault, and so is freeing it.
    The queue is shown to implement the list of messages that En50221Transport.v keeps. *)

From S2P Require Export CMem.
From stdpp Require Export fin_maps gmap.

(** ** The code *)

(** [struct en50221_message]; NULL is [None]. *)
Record message := Message {
  m_next : option positive;
  m_data : list Z;
}.

Abbreviation heap := (gmap positive message).

(** [send_queue] and [send_queue_tail] of a connection. *)
Record send_queue := SendQueue {
  q_head : option positive;
  q_tail : option positive;
}.

Definition empty_queue : send_queue := SendQueue None None.

Definition deref (h : heap) (p : positive) : res message :=
  match h !! p with Some m => Ok m | None => Err BadPointer end.

Definition set_next (h : heap) (p : positive) (next : option positive) : res heap :=
  m ← deref h p; mret (<[p := Message next (m_data m)]> h).

Definition free_message (h : heap) (p : positive) : res heap :=
  _ ← deref h p; mret (delete p h).

Definition queue_message (h : heap) (q : send_queue) (msg : positive) : res (heap * send_queue) :=
  h ← set_next h msg None;
  match q_tail q with
  | Some tail => h ← set_next h tail (Some msg); mret (h, SendQueue (q_head q) (Some msg))
  | None => mret (h, SendQueue (Some msg) (Some msg))
  end.

(** "get the message": of a queue that is not empty. *)
Definition dequeue_message (h : heap) (q : send_queue) (msg : positive) : res send_queue :=
  m ← deref h msg;
  match m_next m with
  | Some next => mret (SendQueue (Some next) (q_tail q))
  | None => mret empty_queue
  end.

(** [while (cur_msg)]: a list without a cycle has no more messages than the store. *)
Fixpoint free_messages (fuel : nat) (h : heap) (cur_msg : option positive) : res heap :=
  match cur_msg with
  | None => mret h
  | Some p =>
      match fuel with
      | O => Err OutOfFuel
      | S fuel =>
          m ← deref h p;
          h ← free_message h p;
          free_messages fuel h (m_next m)
      end
  end.

Definition free_queue (h : heap) (q : send_queue) : res (heap * send_queue) :=
  h ← free_messages (size h) h (q_head q);
  mret (h, empty_queue).

(** ** The representation

    [rep h q ps]: the messages of the queue are, in order, those of [ps], with their addresses. *)

Fixpoint linked (h : heap) (ps : list (positive * list Z)) : Prop :=
  match ps with
  | [] => True
  | (p, d) :: ps => h !! p = Some (Message (fst <$> head ps) d) /\ linked h ps
  end.

Record rep (h : heap) (q : send_queue) (ps : list (positive * list Z)) : Prop := {
  rep_nodup : NoDup ps.*1;
  rep_linked : linked h ps;
  rep_head : q_head q = fst <$> head ps;
  rep_tail : q_tail q = fst <$> last ps;
}.

Lemma linked_insert h ps p m : p ∉ ps.*1 -> linked h ps -> linked (<[p := m]> h) ps.
Proof.
  induction ps as [|[p' d] ps IH]; [done|]. intros Hp [Hh Hl].
  apply not_elem_of_cons in Hp as [Hne Hp]. split; [|by apply IH]. by rewrite lookup_insert_ne.
Qed.

Lemma linked_delete h ps p : p ∉ ps.*1 -> linked h ps -> linked (delete p h) ps.
Proof.
  induction ps as [|[p' d] ps IH]; [done|]. intros Hp [Hh Hl].
  apply not_elem_of_cons in Hp as [Hne Hp]. split; [|by apply IH]. by rewrite lookup_delete_ne.
Qed.

Lemma linked_snoc h ps pt dt p d :
  NoDup ((ps ++ [(pt, dt)]).*1) -> p ∉ (ps ++ [(pt, dt)]).*1 -> linked h (ps ++ [(pt, dt)]) ->
  linked (<[pt := Message (Some p) dt]> (<[p := Message None d]> h)) (ps ++ [(pt, dt); (p, d)]).
Proof.
  intros Hn Hp Hl. induction ps as [|[p' d'] ps IH]; cbn [app linked head fmap list_fmap option_fmap option_map fst] in *.
  - apply not_elem_of_cons in Hp as [Hne _]. rewrite lookup_insert_eq. split; [done|].
    rewrite lookup_insert_ne by done. by rewrite lookup_insert_eq.
  - apply NoDup_cons in Hn as [Hn' Hn]. apply not_elem_of_cons in Hp as [Hne Hp].
    destruct Hl as [Hh Hl]. split; [|by apply IH].
    assert (p' <> pt).
    { intros ->. apply Hn'. rewrite fmap_app. apply elem_of_app. right. apply list_elem_of_here. }
    rewrite !lookup_insert_ne by done. rewrite Hh. by destruct ps.
Qed.

Lemma deref_run h p m : h !! p = Some m -> deref h p = Ok m.
Proof. intros E. unfold deref. by rewrite E. Qed.

Lemma set_next_run h p m next :
  h !! p = Some m -> set_next h p next = Ok (<[p := Message next (m_data m)]> h).
Proof. intros E. unfold set_next. by rewrite (deref_run _ _ _ E). Qed.

(** A message is appended. *)
Lemma queue_message_rep h q ps p d next :
  rep h q ps -> h !! p = Some (Message next d) -> p ∉ ps.*1 ->
  exists h' q', queue_message h q p = Ok (h', q') /\ rep h' q' (ps ++ [(p, d)]) /\
    dom h' = dom h.
Proof.
  intros [Hn Hl Hh Ht] Hp Hnp. unfold queue_message. rewrite (set_next_run _ _ _ _ Hp).
  cbn [mbind res_bind m_data]. assert (Hdom : dom (<[p := Message None d]> h) = dom h).
  { rewrite dom_insert_L. apply subseteq_union_1_L, singleton_subseteq_l, elem_of_dom. by eexists. }
  destruct ps as [|[pt dt] ps _] using rev_ind; rewrite Ht.
  - cbn. do 2 eexists. split; [done|]. split; [|done]. split; cbn; try done.
    + apply NoDup_singleton.
    + split; [by rewrite lookup_insert_eq|done].
  - rewrite last_snoc. cbn [fmap option_fmap option_map fst].
    assert (Hlast : h !! pt = Some (Message None dt)).
    { clear -Hl. induction ps as [|[p' d'] ps IH]; [by destruct Hl|]. destruct Hl. auto. }
    assert (Hne : pt <> p).
    { intros ->. apply Hnp. rewrite fmap_app. apply elem_of_app. right. apply list_elem_of_here. }
    rewrite (set_next_run _ _ (Message None dt)) by by rewrite lookup_insert_ne.
    cbn [mbind res_bind m_data]. do 2 eexists. split; [done|]. rewrite <- app_assoc. cbn [app].
    split; [split|].
    + rewrite fmap_app in *. cbn in *. replace (ps.*1 ++ [pt; p]) with ((ps.*1 ++ [pt]) ++ [p])
        by by rewrite <- app_assoc.
      apply NoDup_app. split; [done|]. split; [|apply NoDup_singleton].
      intros x Hx ->%list_elem_of_singleton. done.
    + by apply linked_snoc.
    + cbn [q_head]. rewrite Hh. by destruct ps.
    + cbn [q_tail]. replace (ps ++ [(pt, dt); (p, d)]) with ((ps ++ [(pt, dt)]) ++ [(p, d)])
        by by rewrite <- app_assoc. by rewrite last_snoc.
    + rewrite dom_insert_L, Hdom. apply subseteq_union_1_L, singleton_subseteq_l, elem_of_dom.
      by eexists.
Qed.

(** The oldest message is taken, and freed. *)
Lemma dequeue_message_rep h q p d ps :
  rep h q ((p, d) :: ps) ->
  exists q', q_head q = Some p /\ deref h p = Ok (Message (fst <$> head ps) d) /\
    dequeue_message h q p = Ok q' /\ rep (delete p h) q' ps.
Proof.
  intros [Hn [Hp Hl] Hh Ht]. unfold dequeue_message. rewrite (deref_run _ _ _ Hp).
  cbn in Hn. apply NoDup_cons in Hn as [Hnp Hn]. cbn [mbind res_bind m_next].
  destruct ps as [|[p' d'] ps].
  - eexists. split_and!; [done..|]. by split.
  - eexists. split_and!; [done..|]. split; cbn [q_head q_tail]; try done.
    by apply linked_delete.
Qed.

Lemma free_messages_run fuel h ps :
  NoDup ps.*1 -> linked h ps -> (length ps <= fuel)%nat ->
  exists h', free_messages fuel h (fst <$> head ps) = Ok h' /\
    dom h' = dom h ∖ list_to_set ps.*1.
Proof.
  revert h ps. induction fuel as [|fuel IH]; intros h [|[p d] ps] Hn Hl Hf; cbn in Hf; try lia.
  - exists h. split; [done|]. cbn. set_solver.
  - exists h. split; [done|]. cbn. set_solver.
  - cbn in Hn. apply NoDup_cons in Hn as [Hnp Hn]. destruct Hl as [Hp Hl].
    destruct (IH (delete p h) ps) as (h' & Hr & Hd); [done|by apply linked_delete|lia|].
    exists h'. split.
    + cbn [head fmap option_fmap option_map fst free_messages]. unfold free_message.
      rewrite (deref_run _ _ _ Hp). exact Hr.
    + rewrite Hd, dom_delete_L. cbn. set_solver.
Qed.

Lemma linked_dom h ps : linked h ps -> list_to_set ps.*1 ⊆ dom h.
Proof.
  induction ps as [|[p d] ps IH]; [by intros; apply empty_subseteq|]. intros [Hp Hl]. cbn.
  apply union_subseteq. split; [|auto]. apply singleton_subseteq_l, elem_of_dom. by eexists.
Qed.

Lemma free_queue_rep h q ps :
  rep h q ps ->
  exists h', free_queue h q = Ok (h', empty_queue) /\ dom h' = dom h ∖ list_to_set ps.*1.
Proof.
  intros [Hn Hl Hh Ht]. destruct (free_messages_run (size h) h ps Hn Hl) as (h' & Hr & Hd).
  - pose proof (linked_dom h ps Hl) as Hs. apply subseteq_size in Hs.
    rewrite size_list_to_set, size_dom, length_fmap in Hs by done. done.
  - exists h'. unfold free_queue. rewrite Hh, Hr. done.
Qed.

(** ** Any sequence of operations *)

(** A message allocated, filled and queued; the oldest one sent; the slot destroyed. *)
Inductive queue_op := Enqueue (data : list Z) | Send | Destroy.

Definition run_queue_op (h : heap) (q : send_queue) (op : queue_op) :
    res (heap * send_queue * list (list Z)) :=
  match op with
  | Enqueue data =>
      let msg := fresh (dom h) in
      '(h, q) ← queue_message (<[msg := Message None data]> h) q msg;
      mret (h, q, [])
  | Send =>
      match q_head q with
      | None => mret (h, q, [])
      | Some msg =>
          m ← deref h msg;
          q ← dequeue_message h q msg;
          h ← free_message h msg;
          mret (h, q, [m_data m])
      end
  | Destroy => '(h, q) ← free_queue h q; mret (h, q, [])
  end.

Fixpoint run_queue_ops (h : heap) (q : send_queue) (ops : list queue_op) :
    res (heap * send_queue * list (list Z)) :=
  match ops with
  | [] => mret (h, q, [])
  | op :: ops =>
      '(h, q, out) ← run_queue_op h q op;
      '(h, q, outs) ← run_queue_ops h q ops;
      mret (h, q, out ++ outs)
  end.

(** The queue as the list of its messages. *)
Definition spec_op (queue : list (list Z)) (op : queue_op) : list (list Z) * list (list Z) :=
  match op, queue with
  | Enqueue data, _ => (queue ++ [data], [])
  | Send, [] => ([], [])
  | Send, data :: queue => (queue, [data])
  | Destroy, _ => ([], [])
  end.

Fixpoint spec_ops (queue : list (list Z)) (ops : list queue_op) : list (list Z) * list (list Z) :=
  match ops with
  | [] => (queue, [])
  | op :: ops =>
      let '(queue, out) := spec_op queue op in
      let '(queue, outs) := spec_ops queue ops in
      (queue, out ++ outs)
  end.

(** The allocated messages are those of the queue, and it holds the messages of the list. *)
Definition owns (h : heap) (q : send_queue) (queue : list (list Z)) : Prop :=
  exists ps, rep h q ps /\ ps.*2 = queue /\ dom h = list_to_set ps.*1.

Lemma owns_empty : owns ∅ empty_queue [].
Proof. exists []. split; [|done]. split; cbn; try done. constructor. Qed.

Lemma run_queue_op_refines h q queue op :
  owns h q queue ->
  exists h' q', run_queue_op h q op = Ok (h', q', (spec_op queue op).2) /\
    owns h' q' (spec_op queue op).1.
Proof.
  intros (ps & Hr & <- & Hd). pose proof Hr as [Hn Hl Hh Ht]. destruct op as [data| |]; cbn [run_queue_op].
  - set (msg := fresh (dom h)). assert (Hm : msg ∉ dom h) by apply is_fresh.
    destruct (queue_message_rep (<[msg := Message None data]> h) q ps msg data None) as (h' & q' & Hq & Hr' & Hd').
    + split; [done| |done..]. apply linked_insert; [|done]. by rewrite Hd, elem_of_list_to_set in Hm.
    + apply lookup_insert_eq.
    + by rewrite Hd, elem_of_list_to_set in Hm.
    + cbv zeta. rewrite Hq. exists h', q'. split; [done|]. exists (ps ++ [(msg, data)]).
      rewrite Hd', dom_insert_L, !fmap_app, list_to_set_app_L. cbn. split_and!; [done..|]. set_solver.
  - destruct ps as [|[p d] ps]; rewrite Hh.
    + exists h, q. split; [done|]. by exists [].
    + destruct (dequeue_message_rep h q p d ps Hr) as (q' & _ & Hm & Hq & Hr').
      cbn [head fmap option_fmap option_map fst]. rewrite Hm. cbn [mbind res_bind]. rewrite Hq.
      cbn [mbind res_bind]. unfold free_message. rewrite Hm. cbn [mbind res_bind mret res_ret].
      exists (delete p h), q'. split; [done|]. exists ps. split_and!; [done..|].
      rewrite dom_delete_L, Hd. cbn in *. apply NoDup_cons in Hn as [Hnp Hn]. set_solver.
  - destruct (free_queue_rep h q ps Hr) as (h' & Hf & Hd'). rewrite Hf.
    exists h', empty_queue. split; [done|]. rewrite Hd in Hd'.
    replace h' with (∅ : heap) by (symmetry; apply dom_empty_inv_L; rewrite Hd'; set_solver).
    apply owns_empty.
Qed.

(** C36: The linked list of messages is a queue: starting empty, any sequence of queueing, sending and
    destroying makes no bad memory access, sends exactly the messages a first-in first-out list would,
    in its order, and at every end the allocated messages are those still queued. *)
Theorem send_queue_fifo ops :
  exists h q, run_queue_ops ∅ empty_queue ops = Ok (h, q, (spec_ops [] ops).2) /\
    owns h q (spec_ops [] ops).1.
Proof.
  generalize (owns_empty). generalize (∅ : heap), empty_queue, (@nil (list Z)).
  induction ops as [|op ops IH]; intros h q queue Ho; cbn [run_queue_ops spec_ops]; [by exists h, q|].
  destruct (run_queue_op_refines h q queue op Ho) as (h1 & q1 & Hr & Ho1). rewrite Hr.
  destruct (spec_op queue op) as [queue1 out]. cbn [fst snd mbind res_bind] in *.
  destruct (IH h1 q1 queue1 Ho1) as (h2 & q2 & Hr2 & Ho2). rewrite Hr2.
  destruct (spec_ops queue1 ops) as [queue2 outs]. cbn [fst snd] in *. by exists h2, q2.
Qed.
