(* ===== verification/CText.v ===== *)
(** * Characters, strings and numbers of the C library

    The functions of ctype.h, string.h and stdio.h that the sources use, in the C locale.  A character is a
    byte, a string the list of its characters before the NUL.  Numbers are read and written in the formats
    [%i], [%u], [%x] and by [atoi] and [strtoul]. *)

From S2P Require Export CMem.
From Stdlib Require Export String.
From Stdlib Require Import Ascii.
Export stdpp.list_basics.list.

(** Of lists, not of strings. *)
Abbreviation length := Datatypes.length.

(** The characters of a literal. *)
Definition lit (s : String.string) : list Z :=
  map (λ a, Z.of_nat (Ascii.nat_of_ascii a)) (String.list_ascii_of_string s).
#[global] Arguments lit s%_string.

(** [char] is signed. *)
Definition schar (c : Z) : Z := if c <? 128 then c else c - 256.

(** What a [char *] points to, up to the NUL. *)
Fixpoint c_string (m : list Z) : list Z :=
  match m with
  | [] => []
  | c :: m => if c =? 0 then [] else c :: c_string m
  end.

(** ** ctype.h *)

Definition isspace (c : Z) : bool := (c =? 32) || ((9 <=? c) && (c <=? 13)).
Definition isdigit (c : Z) : bool := (48 <=? c) && (c <=? 57).
Definition toupper (c : Z) : Z := if (97 <=? c) && (c <=? 122) then c - 32 else c.
Definition tolower (c : Z) : Z := if (65 <=? c) && (c <=? 90) then c + 32 else c.

(** ** string.h *)

(** The first character of a string, or the NUL. *)
Definition char0 (s : list Z) : Z := match s with [] => 0 | c :: _ => c end.

(** [!strncmp(a, b, n)] *)
Fixpoint strncmp_eq (n : nat) (a b : list Z) : bool :=
  match n with
  | O => true
  | S n =>
      if negb (char0 a =? char0 b) then false
      else if char0 a =? 0 then true
      else strncmp_eq n (drop 1 a) (drop 1 b)
  end.

(** [!strncasecmp(a, b, n)] *)
Definition strncasecmp_eq (n : nat) (a b : list Z) : bool := strncmp_eq n (map tolower a) (map tolower b).

(** [!strcmp(a, b)] and [!strcasecmp(a, b)] *)
Definition strcmp_eq (a b : list Z) : bool := bool_decide (a = b).
Definition strcasecmp_eq (a b : list Z) : bool := bool_decide (map tolower a = map tolower b).

Fixpoint skip_spaces (s : list Z) : list Z :=
  match s with
  | [] => []
  | c :: s' => if isspace c then skip_spaces s' else s
  end.

(** ** stdio.h *)

(** [getline]: a line with its newline, and the rest of the file. *)
Fixpoint getline (file : list Z) : list Z * list Z :=
  match file with
  | [] => ([], [])
  | c :: file => if c =? 10 then ([c], file) else let '(line, rest) := getline file in (c :: line, rest)
  end.

(** ** Numbers *)

Definition digit_value (c : Z) : option Z :=
  if isdigit c then Some (c - 48)
  else if (97 <=? tolower c) && (tolower c <=? 122) then Some (tolower c - 87)
  else None.

(** The value of the digits that follow in a base, how many there are, and the rest. *)
Fixpoint read_digits (base acc : Z) (s : list Z) : Z * nat * list Z :=
  match s with
  | [] => (acc, O, [])
  | c :: s' =>
      match digit_value c with
      | Some d =>
          if d <? base then
            let '(v, n, rest) := read_digits base (acc * base + d) s' in (v, S n, rest)
          else (acc, O, s)
      | None => (acc, O, s)
      end
  end.

(** An optional sign. *)
Definition read_sign (s : list Z) : bool * list Z :=
  match s with
  | c :: s' => if c =? 45 then (true, s') else if c =? 43 then (false, s') else (false, s)
  | [] => (false, [])
  end.

Definition s32 (z : Z) : Z := (z + 2147483648) mod 4294967296 - 2147483648.

Definition clamp_long (z : Z) : Z := Z.max (- 2 ^ 63) (Z.min (2 ^ 63 - 1) z).

(** [sscanf(s, %i)]: the number and the rest; [None]: no number.  A number that does not fit in [long] is
    clamped as [strtol] does it, and the result is stored in an [int]. *)
Definition scan_i (s : list Z) : option (Z * list Z) :=
  let '(negative, s) := read_sign (skip_spaces s) in
  let '(v, n, rest) :=
    match s with
    | 48 :: x :: s' => if tolower x =? 120 then read_digits 16 0 s' else read_digits 8 0 s
    | 48 :: _ => read_digits 8 0 s
    | _ => read_digits 10 0 s
    end in
  match n with
  | O => None
  | _ => Some (s32 (clamp_long (if negative : bool then - v else v)), rest)
  end.

(** [atoi] *)
Definition atoi (s : list Z) : Z :=
  let '(negative, s) := read_sign (skip_spaces s) in
  let '(v, _, _) := read_digits 10 0 s in
  s32 (clamp_long (if negative : bool then - v else v)).

(** The digits of a number in a base, without leading zeros but for 0 itself. *)
Fixpoint digits_fuel (fuel : nat) (base v : Z) (acc : list Z) : list Z :=
  match fuel with
  | O => acc
  | S fuel =>
      let d := v mod base in
      let acc := (if d <? 10 then 48 + d else 87 + d) :: acc in
      if v / base =? 0 then acc else digits_fuel fuel base (v / base) acc
  end.

(** 64 digits are enough for any number of 64 bits in any base. *)
Definition digits (base v : Z) : list Z := digits_fuel 64 base v [].

(** [printf(%i)] of an [int], [printf(%u)] and [printf(%x)] of an [unsigned int]. *)
Definition print_i (v : Z) : list Z := if v <? 0 then 45 :: digits 10 (- v) else digits 10 v.
Definition print_u (v : Z) : list Z := digits 10 v.
Definition print_x (v : Z) : list Z := digits 16 v.

(** ** Facts *)

(** *** Lists and results *)

Lemma find_app {A} (f : A -> bool) l1 l2 :
  List.find f (l1 ++ l2) = match List.find f l1 with Some x => Some x | None => List.find f l2 end.
Proof. induction l1 as [|x l1 IH]; [done|]. cbn. by destruct (f x). Qed.

Lemma ok_inj {B} (x y : B) : Ok x = Ok y -> x = y.
Proof. by injection 1. Qed.

(** *** Strings *)

Lemma getline_line l rest : Forall (λ c, c <> 10) l -> getline (l ++ 10 :: rest) = (l ++ [10], rest).
Proof.
  induction 1 as [|c l Hc H IH]; cbn [app getline]; [done|].
  by rewrite (proj2 (Z.eqb_neq c 10)), IH.
Qed.

Lemma c_string_plain l : Forall (λ c, c <> 0) l -> c_string l = l.
Proof.
  induction 1 as [|c l Hc H IH]; cbn [c_string]; [done|]. by rewrite (proj2 (Z.eqb_neq c 0)), IH.
Qed.

Lemma c_string_ok s rest : Forall (λ c, c <> 0) s -> c_string (s ++ 0 :: rest) = s.
Proof.
  induction 1 as [|c s Hc H IH]; cbn [app c_string]; [done|].
  by rewrite (proj2 (Z.eqb_neq c 0)), IH.
Qed.

Lemma strncmp_eq_prefix p : Forall (λ c, c <> 0) p -> forall s,
  strncmp_eq (length p) s p = true <-> exists r, s = p ++ r.
Proof.
  induction 1 as [|c p Hc H IH]; intros s; cbn [length strncmp_eq char0 drop].
  - split; [by exists s|done].
  - destruct s as [|d s]; cbn [char0 drop].
    + rewrite (proj2 (Z.eqb_neq 0 c)) by done. split; [done|]. by intros [r E].
    + destruct (Z.eqb_spec d c) as [-> | Hd]; cbn [negb].
      * rewrite (proj2 (Z.eqb_neq c 0)) by done. rewrite !drop_0, IH. split; intros [r E]; exists r; [by rewrite E|by injection E].
      * split; [done|]. intros [r E]. injection E as E1 E2. done.
Qed.

(** *** Numbers *)

Lemma u32_s32 v : 0 <= v < 2 ^ 32 -> u32 (s32 v) = v /\ - 2 ^ 31 <= s32 v < 2 ^ 31.
Proof.
  intros Hv. change (2 ^ 32) with 4294967296 in Hv. change (2 ^ 31) with 2147483648.
  unfold u32, s32. Z.div_mod_to_equations. lia.
Qed.

Lemma digit_value_digit base d : 0 <= d < base -> base <= 16 ->
  digit_value (if d <? 10 then 48 + d else 87 + d) = Some d.
Proof.
  intros Hd Hb. assert (Hall : forallb (λ d, bool_decide
    (digit_value (if d <? 10 then 48 + d else 87 + d) = Some d)) (seqZ 0 16) = true) by done.
  rewrite forallb_forall in Hall. specialize (Hall d). rewrite bool_decide_eq_true in Hall.
  apply Hall, list_elem_of_In, elem_of_seqZ. lia.
Qed.

(** Reading digits is a fold. *)
Lemma read_digits_app base acc s rest ds :
  Forall2 (λ c d, digit_value c = Some d /\ d < base) s ds ->
  match rest with [] => True | c :: _ => match digit_value c with Some d => base <= d | None => True end end ->
  read_digits base acc (s ++ rest) = (fold_left (λ v d, v * base + d) ds acc, length s, rest).
Proof.
  intros H Hr. revert acc. induction H as [|c d s ds [Hc Hd] H IH]; intros acc; cbn [app].
  - destruct rest as [|c rest]; [done|]. cbn [read_digits]. destruct (digit_value c) as [d|]; [|done].
    by rewrite (proj2 (Z.ltb_ge _ _)).
  - cbn [read_digits]. rewrite Hc, (proj2 (Z.ltb_lt _ _)), IH by done. done.
Qed.

(** The digits of a number and their values. *)
Lemma digits_fuel_values base : 2 <= base <= 16 -> forall fuel v acc vals,
  0 <= v < base ^ Z.of_nat fuel -> Forall2 (λ c d, digit_value c = Some d /\ d < base) acc vals ->
  (0 < fuel)%nat ->
  exists ds, Forall2 (λ c d, digit_value c = Some d /\ d < base) (digits_fuel fuel base v acc) (ds ++ vals) /\
    fold_left (λ v d, v * base + d) ds 0 = v /\ ds <> [].
Proof.
  intros Hb. induction fuel as [|fuel IH]; intros v acc vals Hv Hacc Hf; [lia|]. cbn [digits_fuel]. cbv zeta.
  assert (Hd : 0 <= v mod base < base) by (apply Z.mod_pos_bound; lia).
  assert (Hacc' : Forall2 (λ c d, digit_value c = Some d /\ d < base)
    ((if v mod base <? 10 then 48 + v mod base else 87 + v mod base) :: acc) (v mod base :: vals)).
  { apply Forall2_cons; [|done]. split; [|lia]. apply (digit_value_digit base); lia. }
  destruct (Z.eqb_spec (v / base) 0) as [E|E].
  - exists [v mod base]. split_and!; [done| |done]. cbn. pose proof (Z.div_mod v base ltac:(lia)) as Hdm. rewrite E in Hdm. lia.
  - assert (Hq : 0 <= v / base) by (apply Z.div_pos; lia).
    assert (Hv' : 0 <= v / base < base ^ Z.of_nat fuel).
    { split; [done|]. apply Z.div_lt_upper_bound; [lia|]. rewrite <- Z.pow_succ_r by lia.
      rewrite <- Nat2Z.inj_succ. apply Hv. }
    destruct fuel as [|fuel].
    { change (Z.of_nat 0) with 0 in Hv'. rewrite Z.pow_0_r in Hv'. lia. }
    destruct (IH (v / base) _ (v mod base :: vals) Hv' Hacc') as (ds & Hds & Hval & Hne); [lia|].
    exists (ds ++ [v mod base]). split_and!.
    + by rewrite <- app_assoc.
    + rewrite fold_left_app, Hval. cbn. pose proof (Z.div_mod v base ltac:(lia)). lia.
    + by destruct ds.
Qed.

Lemma digits_values base v : 2 <= base <= 16 -> 0 <= v < 2 ^ 64 ->
  exists ds, Forall2 (λ c d, digit_value c = Some d /\ d < base) (digits base v) ds /\
    fold_left (λ v d, v * base + d) ds 0 = v /\ ds <> [].
Proof.
  intros Hb Hv. destruct (digits_fuel_values base Hb 64 v [] []) as (ds & H & E & Hne);
    [|constructor|lia|exists ds; by rewrite app_nil_r in H].
  split; [lia|]. apply Z.lt_le_trans with (2 ^ 64); [lia|]. apply (Z.pow_le_mono_l 2 base); lia.
Qed.

(** ** Reading what was printed *)

(** What follows a number does not continue it. *)
Definition ends_number (base : Z) (rest : list Z) : Prop :=
  match rest with [] => True | c :: _ => match digit_value c with Some d => base <= d | None => True end end.

Lemma read_print base v rest : 2 <= base <= 16 -> 0 <= v < 2 ^ 64 -> ends_number base rest ->
  read_digits base 0 (digits base v ++ rest) = (v, length (digits base v), rest) /\ digits base v <> [].
Proof.
  intros Hb Hv Hr. destruct (digits_values base v Hb Hv) as (ds & H & E & Hne). split.
  - by rewrite (read_digits_app base 0 _ rest ds H Hr), E.
  - intros E2. rewrite E2 in H. inversion H. by subst.
Qed.

(** What follows is neither a digit nor a letter. *)
Definition number_ends (rest : list Z) : Prop :=
  match rest with [] => True | c :: _ => digit_value c = None end.

Lemma number_ends_base base rest : number_ends rest -> ends_number base rest.
Proof. destruct rest as [|c rest]; [done|]. cbn. by intros ->. Qed.

Lemma digits_fuel_head base : 2 <= base <= 16 -> forall fuel v acc,
  0 < v < base ^ Z.of_nat fuel -> exists c s, digits_fuel fuel base v acc = c :: s /\
    c <> 48 /\ (exists d, digit_value c = Some d /\ d < base).
Proof.
  intros Hb. induction fuel as [|fuel IH]; intros v acc Hv.
  { change (Z.of_nat 0) with 0 in Hv. rewrite Z.pow_0_r in Hv. lia. }
  cbn [digits_fuel]. cbv zeta. pose proof (Z.div_mod v base ltac:(lia)) as Hdm.
  pose proof (Z.mod_pos_bound v base ltac:(lia)) as Hm.
  destruct (Z.eqb_spec (v / base) 0) as [E|E].
  - rewrite E in Hdm. eexists _, _. split; [done|]. split; [|exists (v mod base); split; [|lia]].
    + destruct (Z.ltb_spec (v mod base) 10); lia.
    + apply (digit_value_digit base); lia.
  - apply IH. split; [apply Z.div_str_pos; nia|]. apply Z.div_lt_upper_bound; [lia|].
    rewrite <- Z.pow_succ_r, <- Nat2Z.inj_succ by lia. apply Hv.
Qed.

Lemma digits_head base v : 2 <= base <= 16 -> 0 < v < 2 ^ 64 ->
  exists c s, digits base v = c :: s /\ c <> 48 /\ exists d, digit_value c = Some d /\ d < base.
Proof.
  intros Hb Hv. apply digits_fuel_head; [done|]. split; [lia|].
  apply Z.lt_le_trans with (2 ^ 64); [lia|]. apply (Z.pow_le_mono_l 2 base); lia.
Qed.

Lemma digits_zero base : digits base 0 = [48].
Proof. unfold digits. cbn [digits_fuel]. by rewrite Zmod_0_l, Zdiv_0_l. Qed.

(** A decimal digit is not a space, a sign or a letter. *)
Lemma decimal_digit c d : digit_value c = Some d -> d < 10 ->
  isspace c = false /\ (c =? 45) = false /\ (c =? 43) = false.
Proof.
  unfold digit_value, isdigit, isspace, tolower. intros H Hd.
  destruct ((48 <=? c) && (c <=? 57)) eqn:E.
  - apply andb_prop in E as [E1 E2]. bool_facts.
    rewrite (proj2 (Z.eqb_neq c 32)), (proj2 (Z.eqb_neq c 45)), (proj2 (Z.eqb_neq c 43)), (proj2 (Z.leb_gt c 13)) by lia.
    by rewrite andb_false_r.
  - destruct ((97 <=? (if (65 <=? c) && (c <=? 90) then c + 32 else c)) && _) eqn:E2; [|done].
    apply andb_prop in E2 as [E2 _]. bool_facts. injection H as <-. lia.
Qed.

(** Reading an unsigned number that was printed. *)
Lemma read_unsigned v rest : 0 <= v < 2 ^ 64 -> number_ends rest ->
  skip_spaces (digits 10 v ++ rest) = digits 10 v ++ rest /\
  read_sign (digits 10 v ++ rest) = (false, digits 10 v ++ rest).
Proof.
  intros Hv Hr. assert (Hh : exists c s, digits 10 v = c :: s /\ exists d, digit_value c = Some d /\ d < 10).
  { destruct (Z.eq_dec v 0) as [->|Hne]; [rewrite digits_zero; exists 48, []; split; [done|by exists 0]|].
    destruct (digits_head 10 v) as (c & s & E & _ & Hd); [lia..|]. by exists c, s. }
  destruct Hh as (c & s & -> & d & Hc & Hd). destruct (decimal_digit c d Hc Hd) as (H1 & H2 & H3).
  cbn [app skip_spaces read_sign]. by rewrite H1, H2, H3.
Qed.

(** The digits are read in the base they are in. *)
Lemma scan_base v rest : 0 <= v < 2 ^ 64 -> number_ends rest ->
  (match digits 10 v ++ rest with
   | 48 :: x :: s' => if tolower x =? 120 then read_digits 16 0 s' else read_digits 8 0 (digits 10 v ++ rest)
   | 48 :: _ => read_digits 8 0 (digits 10 v ++ rest)
   | _ => read_digits 10 0 (digits 10 v ++ rest)
   end) = (v, length (digits 10 v), rest).
Proof.
  intros Hv Hr. destruct (Z.eq_dec v 0) as [->|Hne].
  - rewrite digits_zero. cbn [app]. destruct rest as [|x rest]; [done|]. cbn in Hr.
    assert (Hx : (tolower x =? 120) = false).
    { apply Z.eqb_neq. intros E. unfold digit_value in Hr. destruct (isdigit x); [done|]. by rewrite E in Hr. }
    rewrite Hx. cbn [read_digits]. change (digit_value 48) with (Some 0). cbv iota.
    change (0 <? 8) with true. cbv iota. by rewrite Hr.
  - destruct (read_print 10 v rest) as [Hread _]; [lia..|by apply number_ends_base|].
    destruct (digits_head 10 v) as (c & s & E & Hc & _); [lia..|]. rewrite E in *. cbn [app] in *.
    rewrite Hread. destruct c as [|p|p]; try done. do 6 (destruct p as [p|p|]; try done).
Qed.

Lemma clamp_s32 v : - 2 ^ 31 <= v < 2 ^ 31 -> s32 (clamp_long v) = v.
Proof.
  intros Hv. unfold clamp_long. rewrite Z.min_r, Z.max_r by lia. unfold s32. rewrite Z.mod_small by lia. lia.
Qed.

(** [%i] reads what [%i] printed. *)
Lemma scan_print_i v rest : - 2 ^ 31 <= v < 2 ^ 31 -> number_ends rest ->
  scan_i (print_i v ++ rest) = Some (v, rest).
Proof.
  intros Hv Hr. unfold scan_i, print_i. destruct (Z.ltb_spec v 0).
  - cbn [app skip_spaces]. change (isspace 45) with false. cbv iota. cbn [read_sign].
    change (45 =? 45) with true. cbv iota. rewrite scan_base by (done || lia).
    destruct (read_print 10 (- v) rest) as [_ Hne]; [lia..|by apply number_ends_base|].
    destruct (digits 10 (- v)) as [|c s]; [done|]. cbn [length]. by rewrite Z.opp_involutive, clamp_s32 by lia.
  - destruct (read_unsigned v rest) as [-> ->]; [lia|done|]. rewrite scan_base by (done || lia).
    destruct (read_print 10 v rest) as [_ Hne]; [lia..|by apply number_ends_base|].
    destruct (digits 10 v) as [|c s]; [done|]. cbn [length]. by rewrite clamp_s32 by lia.
Qed.

Lemma atoi_print_i v rest : - 2 ^ 31 <= v < 2 ^ 31 -> number_ends rest -> atoi (print_i v ++ rest) = v.
Proof.
  intros Hv Hr. unfold atoi, print_i. destruct (Z.ltb_spec v 0).
  - cbn [app skip_spaces]. change (isspace 45) with false. cbv iota. cbn [read_sign].
    change (45 =? 45) with true. cbv iota.
    destruct (read_print 10 (- v) rest) as [-> _]; [lia..|by apply number_ends_base|].
    by rewrite Z.opp_involutive, clamp_s32 by lia.
  - destruct (read_unsigned v rest) as [-> ->]; [lia|done|].
    destruct (read_print 10 v rest) as [-> _]; [lia..|by apply number_ends_base|]. by rewrite clamp_s32 by lia.
Qed.

(** The characters of a printed number: a sign and decimal digits. *)
Definition number_char (c : Z) : Prop := c = 45 \/ exists d, digit_value c = Some d /\ d < 10.

Lemma digits_chars v : 0 <= v < 2 ^ 64 -> Forall number_char (digits 10 v).
Proof.
  intros Hv. destruct (digits_values 10 v) as (ds & H & _); [lia..|].
  induction H as [|c d s ds [Hc Hd] _ IH]; [apply Forall_nil|]. apply Forall_cons; [right; by exists d|done].
Qed.

Lemma print_i_chars v : - 2 ^ 31 <= v < 2 ^ 31 -> Forall number_char (print_i v) /\ print_i v <> [].
Proof.
  intros Hv. unfold print_i. destruct (Z.ltb_spec v 0).
  - split; [|done]. apply Forall_cons; [by left|]. apply digits_chars. lia.
  - split; [apply digits_chars; lia|]. apply (read_print 10 v []); [lia..|done].
Qed.

Lemma number_char_plain c : number_char c -> isspace c = false /\ 45 <= c <= 57.
Proof.
  intros [-> | (d & Hc & Hd)]; [done|]. split; [by apply (decimal_digit c d)|].
  unfold digit_value, isdigit, tolower in Hc. destruct ((48 <=? c) && (c <=? 57)) eqn:E.
  - apply andb_prop in E as [E1 E2]. bool_facts. lia.
  - destruct ((97 <=? (if (65 <=? c) && (c <=? 90) then c + 32 else c)) && _) eqn:E2; [|done].
    apply andb_prop in E2 as [E2 _]. bool_facts. injection Hc as <-. lia.
Qed.

Lemma digits_fuel_length base : 2 <= base -> forall n fuel v acc,
  0 <= v < base ^ Z.of_nat n -> (0 < n)%nat -> (length (digits_fuel fuel base v acc) <= n + length acc)%nat.
Proof.
  intros Hb. induction n as [|n IH]; intros fuel v acc Hv Hn; [lia|].
  destruct fuel as [|fuel]; [cbn [digits_fuel]; lia|]. cbn [digits_fuel]. cbv zeta.
  destruct (Z.eqb_spec (v / base) 0) as [E|E]; [cbn [length]; lia|].
  destruct n as [|n].
  { change (Z.of_nat 1) with 1 in Hv. rewrite Z.pow_1_r in Hv. exfalso. apply E. by apply Z.div_small. }
  etrans; [apply IH; [|lia]|cbn [length]; lia]. split; [apply Z.div_pos; lia|].
  apply Z.div_lt_upper_bound; [lia|]. rewrite <- Z.pow_succ_r, <- Nat2Z.inj_succ by lia. apply Hv.
Qed.

Lemma print_i_length v : - 2 ^ 31 <= v < 2 ^ 31 -> (length (print_i v) <= 11)%nat.
Proof.
  intros Hv. unfold print_i.
  assert (H : forall u, 0 <= u <= 2 ^ 31 -> (length (digits 10 u) <= 10)%nat).
  { intros u Hu. apply (digits_fuel_length 10 ltac:(lia) 10 64 u []); [lia|lia]. }
  destruct (Z.ltb_spec v 0); [cbn [length]; specialize (H (- v)); lia|specialize (H v); lia].
Qed.
