(* ===== verification/CFloat.v ===== *)
(** * Floating point of C

    [float] and [double] are the numbers of SpecFloat with 24 and 53 bits.  The lemmas bound the rounding
    errors of [double] for numbers of moderate size, as multiples of 2^-60. *)

From S2P Require Export CMem.
From Stdlib Require Export Floats.SpecFloat.

Definition binary32_of_Z (z : Z) : spec_float := binary_normalize 24 128 z 0 false.

(** [(double) x]: exact. *)
Definition binary64_of_binary32 (x : spec_float) : spec_float :=
  match x with
  | S754_finite s m e => binary_normalize 53 1024 (if s then Zneg m else Zpos m) e s
  | _ => x
  end.

(** The [double] of an [int]: exact. *)
Definition binary64_of_Z (z : Z) : spec_float := binary_normalize 53 1024 z 0 false.

(** [(int) x]: towards zero, and undefined where it does not fit. *)
Definition int_of_float (x : spec_float) : res Z :=
  match x with
  | S754_zero _ => Ok 0
  | S754_finite s m e =>
      let v := if 0 <=? e then Zpos m * 2 ^ e else Zpos m / 2 ^ (- e) in
      let v := if s then - v else v in
      if (v <? - 2147483648) || (2147483647 <? v) then Err Undefined else Ok v
  | _ => Err Undefined
  end.

(** ** Rounding *)

Lemma digits_bounds p : 2 ^ (Zpos (digits2_pos p) - 1) <= Zpos p < 2 ^ Zpos (digits2_pos p).
Proof.
  induction p as [p IH | p IH |]; cbn [digits2_pos]; [| |by cbn];
    rewrite Pos2Z.inj_succ; replace (Z.succ (Zpos (digits2_pos p)) - 1) with (Z.succ (Zpos (digits2_pos p) - 1)) by lia;
    rewrite !Z.pow_succ_r by lia; lia.
Qed.

Lemma shr_1_half r : 0 <= shr_m r -> shr_m (shr_1 r) = shr_m r / 2.
Proof.
  destruct r as [[|[p|p|]|p] a b]; cbn; intros H; try done; try lia.
  - rewrite (Pos2Z.inj_xI p). Z.div_mod_to_equations; lia.
  - rewrite (Pos2Z.inj_xO p). Z.div_mod_to_equations; lia.
Qed.

Lemma iter_shr p : forall r, 0 <= shr_m r -> shr_m (iter_pos shr_1 p r) = shr_m r / 2 ^ Zpos p.
Proof.
  induction p as [p IH | p IH |]; intros r Hr; cbn [iter_pos].
  - assert (Hp : 0 < 2 ^ Zpos p) by (apply Z.pow_pos_nonneg; lia).
    pose proof (shr_1_half r Hr) as E. assert (0 <= shr_m (shr_1 r)) by (rewrite E; apply Z.div_pos; lia).
    rewrite IH; rewrite IH by done; [|apply Z.div_pos; lia].
    rewrite E, !Z.div_div by lia. f_equal.
    replace (Zpos p~1) with (1 + (Zpos p + Zpos p)) by lia. rewrite !Z.pow_add_r by lia. ring.
  - assert (Hp : 0 < 2 ^ Zpos p) by (apply Z.pow_pos_nonneg; lia).
    rewrite IH; rewrite IH by done; [|apply Z.div_pos; lia].
    rewrite Z.div_div by lia. f_equal.
    replace (Zpos p~0) with (Zpos p + Zpos p) by lia. by rewrite Z.pow_add_r by lia.
  - by rewrite shr_1_half.
Qed.

Lemma shr_value m l e n : 0 <= m ->
  shr_m (shr (shr_record_of_loc m l) e n).1 = m / 2 ^ Z.max n 0 /\ (shr (shr_record_of_loc m l) e n).2 = e + Z.max n 0.
Proof.
  intros Hm. assert (E : shr_m (shr_record_of_loc m l) = m) by (by destruct l as [|[]]).
  destruct n as [|p|p]; cbn [shr fst snd Z.max Z.compare].
  - rewrite E. split; [by rewrite Z.div_1_r | lia].
  - rewrite iter_shr, E by (by rewrite E). done.
  - rewrite E. split; [by rewrite Z.div_1_r | lia].
Qed.

Lemma nearest_next m l : round_nearest_even m l = m \/ round_nearest_even m l = m + 1.
Proof. destruct l as [|[]]; cbn; auto. destruct (Z.even m); auto. Qed.

(** A positive number, in units of 2^-60. *)
Definition scaled (x : spec_float) (v : Z) : Prop :=
  exists m e, x = S754_finite false m e /\ -60 <= e /\ v = Zpos m * 2 ^ (e + 60).

(** The shift to 53 bits. *)
Lemma shr_fexp_value p e l : -60 <= e ->
  let k := Z.max (Zpos (digits2_pos p) - 53) 0 in
  shr_m (shr_fexp 53 1024 (Zpos p) e l).1 = Zpos p / 2 ^ k /\ (shr_fexp 53 1024 (Zpos p) e l).2 = e + k.
Proof.
  intros He k. unfold shr_fexp. destruct (shr_value (Zpos p) l e (fexp 53 1024 (Zdigits2 (Zpos p) + e) - e)) as [-> ->]; [lia|].
  replace (Z.max (fexp 53 1024 (Zdigits2 (Zpos p) + e) - e) 0) with k; [done|].
  unfold k, fexp, emin. cbn [Zdigits2]. lia.
Qed.

Lemma digits_small p n : 0 <= n -> Zpos p < 2 ^ n -> Zpos (digits2_pos p) <= n.
Proof.
  intros Hn Hp. pose proof (digits_bounds p) as [Hd _]. enough (Zpos (digits2_pos p) - 1 < n) by lia.
  apply (Z.pow_lt_mono_r_iff 2); lia.
Qed.

(** The number of 53 bits that a positive number is rounded to. *)
Lemma round_mantissa p e l : -60 <= e -> let k := Z.max (Zpos (digits2_pos p) - 53) 0 in
  exists r, (r = Zpos p / 2 ^ k \/ r = Zpos p / 2 ^ k + 1) /\ (l = loc_Exact -> k = 0 -> r = Zpos p) /\ 0 < r <= 2 ^ 53 /\
    binary_round_aux 53 1024 false (Zpos p) e l =
    (if r =? 2 ^ 53 then
       if e + k + 1 <=? 971 then S754_finite false (2 ^ 52) (e + k + 1) else S754_infinity false
     else if e + k <=? 971 then S754_finite false (Z.to_pos r) (e + k) else S754_infinity false).
Proof.
  intros He k. unfold binary_round_aux. destruct (shr_fexp_value p e l He) as [Hm He'].
  destruct (shr_fexp 53 1024 (Zpos p) e l) as [mrs e'] eqn:Eshr. cbn [fst snd] in Hm, He'. fold k in Hm, He'. subst e'.
  set (r := round_nearest_even (shr_m mrs) (loc_of_shr_record mrs)). exists r.
  pose proof (digits_bounds p) as Hd. assert (Hk : 0 <= k) by (unfold k; lia).
  assert (Hpow : 0 < 2 ^ k) by (apply Z.pow_pos_nonneg; lia).
  assert (Hq : 0 < Zpos p / 2 ^ k < 2 ^ 53).
  { split; [apply Z.div_str_pos; split; [done|] | apply Z.div_lt_upper_bound; [done|]].
    - apply Z.le_trans with (2 ^ (Zpos (digits2_pos p) - 1)); [apply Z.pow_le_mono_r; unfold k; lia | lia].
    - rewrite <- Z.pow_add_r by lia. apply Z.lt_le_trans with (2 ^ Zpos (digits2_pos p)); [lia|].
      apply Z.pow_le_mono_r; unfold k; lia. }
  assert (Hr : r = Zpos p / 2 ^ k \/ r = Zpos p / 2 ^ k + 1) by (rewrite <- Hm; apply nearest_next).
  split; [done|]. split.
  { intros -> Hk0. unfold shr_fexp in Eshr. rewrite Hk0, Z.div_1_r in Hm.
    replace (fexp 53 1024 (Zdigits2 (Zpos p) + e) - e) with (Z.min 0 (fexp 53 1024 (Zdigits2 (Zpos p) + e) - e)) in Eshr
      by (unfold k, fexp, emin in *; cbn [Zdigits2] in *; lia).
    unfold r. rewrite Hm. destruct (Z.min 0 _) eqn:En; cbn in Eshr; [| lia |]; by injection Eshr as <- _. }
  split; [lia|]. destruct r as [|rp|rp] eqn:Er; try lia.
  destruct (shr_fexp_value rp (e + k) loc_Exact ltac:(lia)) as [Hm2 He2].
  destruct (shr_fexp 53 1024 (Zpos rp) (e + k) loc_Exact) as [mrs2 e2]. cbn [fst snd] in Hm2, He2. subst e2.
  destruct (Z.eqb_spec (Zpos rp) (2 ^ 53)) as [Efull | Hnot].
  - injection Efull as ->. rewrite Hm2. cbn. done.
  - assert (Hdig : Zpos (digits2_pos rp) <= 53) by (apply digits_small; lia).
    rewrite (Z.max_r _ 0) in Hm2 |- * by lia. rewrite Hm2, Z.div_1_r, Z.add_0_r. done.
Qed.

Lemma scaled_finite m e v : -60 <= e -> v = Zpos m * 2 ^ (e + 60) -> scaled (S754_finite false m e) v.
Proof. intros He ->. by exists m, e. Qed.

Lemma pow_small a b : 0 <= a <= b -> 2 ^ a <= 2 ^ b.
Proof. intros H. apply Z.pow_le_mono_r; lia. Qed.

(** Rounding does not change a number that fits, and changes another by at most the last bit of its 53. *)
Lemma round_aux_scaled p e l : -60 <= e -> Zpos p * 2 ^ (e + 60) < 2 ^ 77 -> l = loc_Exact \/ e <= -36 ->
  exists v, scaled (binary_round_aux 53 1024 false (Zpos p) e l) v /\ Z.abs (v - Zpos p * 2 ^ (e + 60)) <= 2 ^ 24 /\
    (l = loc_Exact -> Zpos p < 2 ^ 53 -> v = Zpos p * 2 ^ (e + 60)).
Proof.
  intros He Hbound Hl. destruct (round_mantissa p e l He) as (r & Hr & Hexact & Hr0 & ->).
  pose proof (digits_bounds p) as Hd. set (d := Zpos (digits2_pos p)) in *. set (k := Z.max (d - 53) 0) in *.
  assert (Hde : d + e <= 17).
  { enough (d - 1 + (e + 60) < 77) by lia. apply (Z.pow_lt_mono_r_iff 2); [lia..|]. rewrite Z.pow_add_r by (unfold d; lia).
    apply Z.le_lt_trans with (Zpos p * 2 ^ (e + 60)); [|done]. apply Z.mul_le_mono_nonneg_r; [apply Z.pow_nonneg; lia | lia]. }
  assert (Hd0 : 0 < d) by (unfold d; lia).
  exists (r * 2 ^ (e + k + 60)). split; [|split].
  - rewrite (proj2 (Z.leb_le (e + k + 1) 971)), (proj2 (Z.leb_le (e + k) 971)) by lia.
    destruct (Z.eqb_spec r (2 ^ 53)) as [-> | _]; apply scaled_finite; try lia.
    + replace (e + k + 1 + 60) with (Z.succ (e + k + 60)) by lia. rewrite Z.pow_succ_r by lia.
      change (2 ^ 53) with (Zpos (2 ^ 52) * 2). ring.
    + by rewrite Z2Pos.id by lia.
  - replace (e + k + 60) with (k + (e + 60)) by lia. rewrite Z.pow_add_r, Z.mul_assoc, <- Z.mul_sub_distr_r by lia.
    assert (Hpow : 0 < 2 ^ k) by (apply Z.pow_pos_nonneg; lia).
    assert (Herr : Z.abs (r * 2 ^ k - Zpos p) <= 2 ^ k).
    { pose proof (Z.div_mod (Zpos p) (2 ^ k) ltac:(lia)). pose proof (Z.mod_pos_bound (Zpos p) (2 ^ k) ltac:(lia)).
      destruct Hr as [-> | ->]; nia. }
    rewrite Z.abs_mul, (Z.abs_eq (2 ^ (e + 60))) by (apply Z.pow_nonneg; lia).
    destruct (Z.eq_dec (r * 2 ^ k) (Zpos p)) as [E | Hne]; [rewrite E, Z.sub_diag; cbn; lia|].
    apply Z.le_trans with (2 ^ k * 2 ^ (e + 60)); [apply Z.mul_le_mono_nonneg_r; [apply Z.pow_nonneg; lia | done]|].
    rewrite <- Z.pow_add_r by lia. apply pow_small. split; [lia|].
    destruct (Z.eq_dec k 0) as [Hk | Hk]; [|lia]. destruct Hl as [Hl | Hl]; [|lia].
    rewrite Hk, (Hexact Hl Hk) in Hne. lia.
  - intros Hl' Hp. assert (Hk : k = 0) by (assert (d <= 53) by (unfold d; apply digits_small; lia); lia).
    rewrite (Hexact Hl' Hk), Hk. do 2 f_equal. lia.
Qed.

(** ** Operations *)

Lemma align_value m e e' : -60 <= e' -> e' <= e ->
  Zpos (shl_align m e e').1 * 2 ^ (e' + 60) = Zpos m * 2 ^ (e + 60).
Proof.
  intros H60 He. unfold shl_align. destruct (e' - e) as [|q|q] eqn:E; cbn [fst]; [by replace e' with e by lia | lia|].
  assert (Hiter : Zpos (Pos.iter xO m q) = Zpos m * 2 ^ Zpos q).
  { clear. revert m. induction q as [|q IH] using Pos.peano_ind; intros m; [cbn; lia|].
    rewrite Pos.iter_succ. rewrite (Pos2Z.inj_xO (Pos.iter xO m q)), IH, Pos2Z.inj_succ, Z.pow_succ_r by lia. ring. }
  rewrite Hiter, <- Z.mul_assoc, <- Z.pow_add_r by lia. do 2 f_equal. lia.
Qed.

Lemma align_up m e e' : e <= e' -> shl_align m e e' = (m, e).
Proof. intros He. unfold shl_align. by destruct (e' - e) eqn:E; try lia. Qed.

(** A number with any exponent. *)
Lemma normalize_scaled z e s : 0 < z -> -60 <= e -> 2 ^ 53 <= z * 2 ^ (e + 60) < 2 ^ 77 ->
  exists v, scaled (binary_normalize 53 1024 z e s) v /\ Z.abs (v - z * 2 ^ (e + 60)) <= 2 ^ 24 /\
    (z < 2 ^ 53 -> v = z * 2 ^ (e + 60)).
Proof.
  intros Hz He Hbound. destruct z as [|p|p]; try lia. unfold binary_normalize, binary_round.
  pose proof (digits_bounds p) as Hd. set (d := Zpos (digits2_pos p)) in *.
  set (e' := fexp 53 1024 (d + e)). destruct (Z.le_gt_cases e e') as [Hle | Hgt].
  - rewrite align_up by done. destruct (round_aux_scaled p e loc_Exact) as (v & Hv & Herr & Hex); [done | lia | by left|].
    exists v. auto.
  - assert (Hde : -7 <= d + e).
    { enough (53 < d + (e + 60)) by lia. apply (Z.pow_lt_mono_r_iff 2); [lia..|]. rewrite Z.pow_add_r by (unfold d; lia).
      apply Z.le_lt_trans with (Zpos p * 2 ^ (e + 60)); [lia|]. apply Z.mul_lt_mono_pos_r; [apply Z.pow_pos_nonneg; lia | lia]. }
    assert (He' : -60 <= e') by (unfold e', fexp, emin; lia).
    pose proof (align_value p e e' He' ltac:(lia)) as Ev. unfold shl_align in *.
    destruct (e' - e) as [|q|q] eqn:E; try lia. cbn [fst] in Ev. rewrite <- Ev.
    destruct (round_aux_scaled (Pos.iter xO p q) e' loc_Exact) as (v & Hv & Herr & Hex); [done | lia | by left|].
    exists v. split; [done|]. split; [done|]. intros Hsmall. apply Hex; [done|].
    apply (Z.mul_lt_mono_pos_r (2 ^ (e' + 60))); [apply Z.pow_pos_nonneg; lia|]. rewrite Ev.
    assert (Hexp : e' = d + e - 53) by (unfold e', fexp, emin in *; lia).
    replace (e' + 60) with (d + e + 60 - 53) by lia. rewrite <- Z.pow_add_r by lia.
    replace (53 + (d + e + 60 - 53)) with (d + (e + 60)) by lia. rewrite (Z.pow_add_r 2 d (e + 60)) by (unfold d; lia).
    apply Z.mul_lt_mono_pos_r; [apply Z.pow_pos_nonneg; lia | lia].
Qed.

(** An [int] as a [double]. *)
Lemma of_Z_scaled z : 0 < z < 2 ^ 17 -> scaled (binary64_of_Z z) (z * 2 ^ 60).
Proof.
  intros Hz. destruct (normalize_scaled z 0 false) as (v & Hv & _ & Hex); [lia..|]. unfold binary64_of_Z.
  rewrite Hex in Hv by lia. exact Hv.
Qed.

Lemma sub_scaled x y vx vy : scaled x vx -> scaled y vy -> 2 ^ 53 <= vx - vy < 2 ^ 77 ->
  exists v, scaled (SFsub 53 1024 x y) v /\ Z.abs (v - (vx - vy)) <= 2 ^ 24.
Proof.
  intros (mx & ex & -> & Hex & ->) (my & ey & -> & Hey & ->) Hb. cbn [SFsub cond_Zopp].
  set (ez := Z.min ex ey). pose proof (align_value mx ex ez ltac:(lia) ltac:(lia)) as Ex.
  pose proof (align_value my ey ez ltac:(lia) ltac:(lia)) as Ey. rewrite <- Ex, <- Ey in *.
  set (a := Zpos (shl_align mx ex ez).1) in *. set (b := Zpos (shl_align my ey ez).1) in *.
  change (Zpos (fst (shl_align mx ex ez))) with a. change (Zpos (fst (shl_align my ey ez))) with b.
  rewrite <- Z.mul_sub_distr_r in *. assert (Hpow : 0 < 2 ^ (ez + 60)) by (apply Z.pow_pos_nonneg; lia).
  destruct (normalize_scaled (a - b) ez false) as (v & Hv & Herr & _); [nia | lia | done|]. by exists v.
Qed.

(** The quotient, for a divisor with bits behind the point. *)
Lemma div_scaled x vx my ey : scaled x vx -> -60 <= ey <= 0 ->
  let vy := Zpos my * 2 ^ (ey + 60) in 2 ^ 53 * vy <= vx * 2 ^ 60 < 2 ^ 76 * vy ->
  exists v, scaled (SFdiv 53 1024 x (S754_finite false my ey)) v /\ Z.abs (v * vy - vx * 2 ^ 60) <= 2 ^ 25 * vy.
Proof.
  intros (mx & ex & -> & Hex & ->) Hey vy Hb. cbn [SFdiv xorb]. unfold SFdiv_core_binary. cbn [Zdigits2].
  pose proof (digits_bounds mx) as Hdx. pose proof (digits_bounds my) as Hdy.
  set (dx := Zpos (digits2_pos mx)) in *. set (dy := Zpos (digits2_pos my)) in *.
  assert (Hdpos : 0 < dx /\ 0 < dy) by (unfold dx, dy; lia).
  set (A := 2 ^ (ex + 60)) in *. set (B := 2 ^ (ey + 60)) in *.
  assert (HA : 0 < A) by (apply Z.pow_pos_nonneg; lia). assert (HB : 0 < B) by (apply Z.pow_pos_nonneg; lia).
  assert (Hlow : -7 < dx + ex - (dy + ey) + 1).
  { enough (53 + (dy - 1) + (ey + 60) < dx + (ex + 60) + 60) by lia. apply (Z.pow_lt_mono_r_iff 2); [lia..|].
    rewrite (Z.pow_add_r 2 _ (ey + 60)), (Z.pow_add_r 2 53), (Z.pow_add_r 2 (dx + (ex + 60)) 60), (Z.pow_add_r 2 dx) by lia. fold A B.
    apply Z.le_lt_trans with (2 ^ 53 * vy).
    - unfold vy. rewrite <- Z.mul_assoc. apply Z.mul_le_mono_nonneg_l; [lia|]. apply Z.mul_le_mono_nonneg_r; lia.
    - apply Z.le_lt_trans with (Zpos mx * A * 2 ^ 60); [lia|]. apply Z.mul_lt_mono_pos_r; [lia|].
      apply Z.mul_lt_mono_pos_r; lia. }
  assert (Hhigh : dx + ex - (dy + ey) - 1 < 16).
  { enough (dx - 1 + (ex + 60) + 60 < 76 + dy + (ey + 60)) by lia. apply (Z.pow_lt_mono_r_iff 2); [lia..|].
    rewrite (Z.pow_add_r 2 (dx - 1 + (ex + 60)) 60), (Z.pow_add_r 2 (dx - 1)), (Z.pow_add_r 2 (76 + dy) (ey + 60)), (Z.pow_add_r 2 76) by lia. fold A B.
    apply Z.le_lt_trans with (Zpos mx * A * 2 ^ 60).
    - apply Z.mul_le_mono_nonneg_r; [lia|]. apply Z.mul_le_mono_nonneg_r; lia.
    - apply Z.lt_le_trans with (2 ^ 76 * vy); [lia|]. unfold vy. rewrite <- Z.mul_assoc. apply Z.mul_le_mono_nonneg_l; [lia|].
      apply Z.mul_le_mono_nonneg_r; lia. }
  set (e := Z.min (fexp 53 1024 (dx + ex - (dy + ey))) (ex - ey)).
  assert (He : -60 <= e <= -36) by (unfold e, fexp, emin; lia).
  set (s := ex - ey - e). assert (Hs : 0 <= s) by (unfold s; lia).
  assert (Em : match s with Z0 => Zpos mx | Zpos _ => Z.shiftl (Zpos mx) s | Zneg _ => 0 end = Zpos mx * 2 ^ s)
    by (rewrite <- Z.shiftl_mul_pow2 by lia; destruct s; [by rewrite Z.shiftl_0_r | done | lia]).
  rewrite Em. pose proof (Z_div_mod (Zpos mx * 2 ^ s) (Zpos my) eq_refl) as Hdiv.
  destruct (Z.div_eucl (Zpos mx * 2 ^ s) (Zpos my)) as [q r]. destruct Hdiv as [Eq Hr].
  set (E := 2 ^ (e + 60)). assert (HE : 0 < E) by (apply Z.pow_pos_nonneg; lia).
  assert (Evx : Zpos mx * 2 ^ s * E * B = Zpos mx * A * 2 ^ 60).
  { unfold E, B, A. rewrite <- !Z.mul_assoc, <- !Z.pow_add_r by lia. do 2 f_equal. unfold s. lia. }
  rewrite <- Evx, Eq in *. unfold vy in *.
  assert (HE24 : E <= 2 ^ 24) by (apply pow_small; lia).
  assert (H0 : 0 < Zpos my * B) by (apply Z.mul_pos_pos; lia).
  assert (Hsplit : (Zpos my * q + r) * E * B = q * (Zpos my * B) * E + r * E * B) by ring. rewrite Hsplit in *.
  assert (Hr24 : 0 <= r * E * B <= 2 ^ 24 * (Zpos my * B)).
  { split; [repeat apply Z.mul_nonneg_nonneg; lia|]. replace (2 ^ 24 * (Zpos my * B)) with (Zpos my * 2 ^ 24 * B) by ring.
    apply Z.mul_le_mono_nonneg_r; [lia|]. apply Z.mul_le_mono_nonneg; lia. }
  set (P := Zpos my * B) in *.
  assert (Hq : 0 < q).
  { enough (~ q <= 0) by lia. intros Hq. assert (q * P * E <= 0) by (apply Z.mul_nonpos_nonneg; [apply Z.mul_nonpos_nonneg|]; lia). lia. }
  destruct q as [|q|q]; try lia.
  destruct (round_aux_scaled q e (new_location (Zpos my) r)) as (v & Hv & Herr & _); [lia | | by right; lia|].
  { fold E. enough (Zpos q * E < 2 ^ 76) by lia. apply (Z.mul_lt_mono_pos_r P); [done|].
    replace (Zpos q * E * P) with (Zpos q * P * E) by ring. lia. }
  exists v. split; [done|]. fold E in Herr.
  assert (Hd1 : Z.abs ((v - Zpos q * E) * P) <= 2 ^ 24 * P)
    by (rewrite Z.abs_mul, (Z.abs_eq P) by lia; apply Z.mul_le_mono_nonneg_r; lia).
  replace (v * P - (Zpos q * P * E + r * E * B)) with ((v - Zpos q * E) * P - r * E * B) by ring. lia.
Qed.

Lemma int_scaled x v : scaled x v -> v < 2 ^ 77 -> int_of_float x = Ok (v / 2 ^ 60).
Proof.
  intros (m & e & -> & He & ->) Hv. unfold int_of_float.
  assert (Ev : (if 0 <=? e then Zpos m * 2 ^ e else Zpos m / 2 ^ (- e)) = Zpos m * 2 ^ (e + 60) / 2 ^ 60).
  { destruct (Z.leb_spec 0 e).
    - rewrite (Z.pow_add_r 2 e 60), Z.mul_assoc, Z.div_mul by lia. done.
    - assert (E : 2 ^ 60 = 2 ^ (- e) * 2 ^ (e + 60)) by (rewrite <- Z.pow_add_r by lia; f_equal; lia). rewrite E.
      rewrite Z.div_mul_cancel_r; [done|..]; apply Z.pow_nonzero; lia. }
  cbv zeta. rewrite Ev.
  assert (0 <= Zpos m * 2 ^ (e + 60) / 2 ^ 60 < 2 ^ 17).
  { assert (0 < 2 ^ (e + 60)) by (apply Z.pow_pos_nonneg; lia). split; [apply Z.div_pos; nia|].
    apply Z.div_lt_upper_bound; [lia|]. change (2 ^ 60 * 2 ^ 17) with (2 ^ 77). done. }
  destruct (Z.ltb_spec (Zpos m * 2 ^ (e + 60) / 2 ^ 60) (- 2147483648)); [lia|].
  destruct (Z.ltb_spec 2147483647 (Zpos m * 2 ^ (e + 60) / 2 ^ 60)); [lia|]. done.
Qed.
