(* ===== verification/DvbTypes.v ===== *)
(** * dvb/types.c: dates, durations and character sets of DVB

    Dates are a modified Julian day and a time of six BCD digits, in UTC.  The conversions use [double] and
    the functions of time.h: [gmtime_r], and [mktime] for a time zone without daylight saving. *)

From S2P Require Export CFloat CText.

(** ** time.h *)

(** [struct tm]: the month counts from 0, the year from 1900. *)
Record tm := Tm { tm_sec : Z; tm_min : Z; tm_hour : Z; tm_mday : Z; tm_mon : Z; tm_year : Z }.

(** The days from 1970 to a year, by the rules of the Gregorian calendar. *)
Definition days_before_year (y : Z) : Z :=
  365 * (y - 1970) + (y - 1969) / 4 - (y - 1901) / 100 + (y - 1601) / 400.

Definition leap_day (y : Z) : Z := days_before_year (y + 1) - days_before_year y - 365.

(** The days of a year before its months. *)
Definition days_before_month (y : Z) : list Z :=
  let l := leap_day y in
  [0; 31; 59 + l; 90 + l; 120 + l; 151 + l; 181 + l; 212 + l; 243 + l; 273 + l; 304 + l; 334 + l].

(** The day of a date, counted from 1970; months beyond the year are of other years. *)
Definition day_number (year mon mday : Z) : Z :=
  let y := 1900 + year + mon / 12 in
  days_before_year y + nth (Z.to_nat (mon mod 12)) (days_before_month y) 0 + mday - 1.

(** [mktime], where the local time is [gmtoff] seconds ahead of UTC. *)
Definition mktime (gmtoff : Z) (t : tm) : Z :=
  day_number (tm_year t) (tm_mon t) (tm_mday t) * 86400 + tm_hour t * 3600 + tm_min t * 60 + tm_sec t - gmtoff.

(** The year of a day: counted up from a year that is not behind it. *)
Fixpoint count_years (fuel : nat) (y days : Z) : Z :=
  match fuel with
  | O => y
  | S fuel => if days_before_year (y + 1) <=? days then count_years fuel (y + 1) days else y
  end.
Definition year_of_day (days : Z) : Z :=
  count_years (Z.to_nat (Z.abs days / 365 + 2)) (1970 + (if 0 <=? days then days / 366 else days / 365)) days.

(** The month of a day of the year. *)
Definition month_of_day (y yday : Z) : Z := zlen (List.filter (λ d, d <=? yday) (days_before_month y)) - 1.

Definition gmtime_r (t : Z) : tm :=
  let days := t / 86400 in
  let secs := t mod 86400 in
  let y := year_of_day days in
  let yday := days - days_before_year y in
  let mon := month_of_day y yday in
  Tm (secs mod 60) (secs / 60 mod 60) (secs / 3600)
     (yday - nth (Z.to_nat mon) (days_before_month y) 0 + 1) mon (y - 1900).

(** ** Binary coded decimals *)

(** [integer_to_bcd]: eight digits from the lowest on. *)
Fixpoint bcd_loop (n : nat) (i intval val : Z) : Z :=
  match n with
  | O => val
  | S n => bcd_loop n (i + 4) (intval / 10) (Z.lor val (u32 (Z.shiftl (intval mod 10) i)))
  end.
Definition integer_to_bcd (intval : Z) : Z := bcd_loop 8 0 intval 0.

(** [bcd_to_integer]: from the highest on. *)
Fixpoint integer_loop (n : nat) (i bcdval val : Z) : Z :=
  match n with
  | O => val
  | S n =>
      let val := u32 (val + Z.land (Z.shiftr bcdval i) 0x0f) in
      integer_loop n (i - 4) bcdval (if i =? 0 then val else u32 (val * 10))
  end.
Definition bcd_to_integer (bcdval : Z) : Z := integer_loop 8 28 bcdval 0.

(** ** Dates *)

(** A decimal constant: the nearest [double] of a fraction. *)
Definition decimal (n d : Z) : spec_float := SFdiv 53 1024 (binary64_of_Z n) (binary64_of_Z d).

Definition fsub (x y : spec_float) : spec_float := SFsub 53 1024 x y.
Definition fadd (x y : spec_float) : spec_float := SFadd 53 1024 x y.
Definition fmul (x y : spec_float) : spec_float := SFmul 53 1024 x y.
Definition fdiv (x y : spec_float) : spec_float := SFdiv 53 1024 x y.

Definition dvbdate_to_unixtime (gmtoff : Z) (dvbdate : list Z) : res Z :=
  d0 ← at_ dvbdate 0; d1 ← at_ dvbdate 1; d2 ← at_ dvbdate 2; d3 ← at_ dvbdate 3; d4 ← at_ dvbdate 4;
  if (d0 =? 0xff) && (d1 =? 0xff) && (d2 =? 0xff) && (d3 =? 0xff) && (d4 =? 0xff) then mret (-1)
  else
    let mjd := binary64_of_Z (Z.lor (Z.shiftl d0 8) d1) in
    year ← int_of_float (fdiv (fsub mjd (decimal 150782 10)) (decimal 36525 100));
    year_days ← int_of_float (fmul (binary64_of_Z year) (decimal 36525 100));
    mon ← int_of_float (fdiv (fsub (fsub mjd (decimal 149561 10)) (binary64_of_Z year_days)) (decimal 306001 10000));
    day ← int_of_float mjd;
    month_days ← int_of_float (fmul (binary64_of_Z mon) (decimal 306001 10000));
    let mday := day - 14956 - year_days - month_days in
    let k := if (mon =? 14) || (mon =? 15) then 1 else 0 in
    mret (mktime gmtoff
      (Tm (s32 (bcd_to_integer d4)) (s32 (bcd_to_integer d3)) (s32 (bcd_to_integer d2)) mday (mon - 2 - k * 12) (year + k))).

Definition unixtime_to_dvbdate (unixtime : Z) : res (list Z) :=
  if unixtime =? -1 then mret [0xff; 0xff; 0xff; 0xff; 0xff]
  else
    let t := gmtime_r unixtime in
    let mon := tm_mon t + 1 in
    let l := binary64_of_Z (if (mon =? 1) || (mon =? 2) then 1 else 0) in
    year_days ← int_of_float (fmul (fsub (binary64_of_Z (tm_year t)) l) (decimal 36525 100));
    month_days ← int_of_float (fmul (fadd (binary64_of_Z (mon + 1)) (fmul l (binary64_of_Z 12))) (decimal 306001 10000));
    let mjd := 14956 + tm_mday t + year_days + month_days in
    mret [u8 (Z.shiftr (Z.land mjd 0xff00) 8); Z.land mjd 0xff;
          u8 (integer_to_bcd (u32 (tm_hour t))); u8 (integer_to_bcd (u32 (tm_min t))); u8 (integer_to_bcd (u32 (tm_sec t)))].

(** ** Durations *)

Definition dvbduration_to_seconds (dvbduration : list Z) : res Z :=
  d0 ← at_ dvbduration 0; d1 ← at_ dvbduration 1; d2 ← at_ dvbduration 2;
  mret (s32 (u32 (bcd_to_integer d0 * 60 * 60) + u32 (bcd_to_integer d1 * 60) + bcd_to_integer d2)).

Definition seconds_to_dvbduration (seconds : Z) : list Z :=
  let hours := Z.quot seconds (60 * 60) in
  let seconds := seconds - hours * 60 * 60 in
  let mins := Z.quot seconds 60 in
  let seconds := seconds - mins * 60 in
  [u8 (integer_to_bcd (u32 hours)); u8 (integer_to_bcd (u32 mins)); u8 (integer_to_bcd (u32 seconds))].

Definition dvbhhmm_to_seconds (dvbhhmm : list Z) : res Z :=
  d0 ← at_ dvbhhmm 0; d1 ← at_ dvbhhmm 1;
  mret (s32 (u32 (bcd_to_integer d0 * 60 * 60) + u32 (bcd_to_integer d1 * 60))).

Definition seconds_to_dvbhhmm (seconds : Z) : list Z :=
  let hours := Z.quot seconds (60 * 60) in
  let seconds := seconds - hours * 60 * 60 in
  let mins := Z.quot seconds 60 in
  [u8 (integer_to_bcd (u32 hours)); u8 (integer_to_bcd (u32 mins))].

(** ** Character sets *)

Inductive charset :=
  | ISO6937 | ISO8859 (part : Z) | UTF16 | EUC_KR | GB2312 | GBK | UTF8.

(** The table behind the byte 0x10, by the number in the two bytes that follow. *)
Definition charset_ext (ext : Z) : option charset :=
  if existsb (Z.eqb ext) [1; 2; 3; 4; 5; 6; 7; 8; 9; 10; 11; 13; 14; 15] then Some (ISO8859 ext) else None.

(** The table of the first byte. *)
Definition charset_byte (c : Z) : option charset :=
  if existsb (Z.eqb c) [0x01; 0x02; 0x03; 0x04; 0x05; 0x06; 0x07; 0x09; 0x0a; 0x0b] then Some (ISO8859 (c + 4))
  else if c =? 0x11 then Some UTF16
  else if c =? 0x12 then Some EUC_KR
  else if c =? 0x13 then Some GB2312
  else if c =? 0x14 then Some GBK
  else if c =? 0x15 then Some UTF8
  else None.

(** [char] is signed. *)
Definition s8 (z : Z) : Z := (z + 128) mod 256 - 128.

(** The text is of [char].  The set, and how many bytes name it. *)
Definition dvb_charset (dvb_text : list Z) (dvb_text_length : Z) : res (charset * Z) :=
  if dvb_text_length =? 0 then mret (ISO6937, 0)
  else
    c ← at_ dvb_text 0;
    if 32 <=? s8 c then mret (ISO6937, 0)
    else if s8 c =? 0x10 then
      if dvb_text_length <? 3 then mret (ISO6937, 0)
      else
        c1 ← at_ dvb_text 1; c2 ← at_ dvb_text 2;
        mret (match charset_ext (u16 (Z.lor (Z.shiftl (s8 c1) 8) (s8 c2))) with Some s => (s, 3) | None => (ISO6937, 0) end)
    else mret (match charset_byte (s8 c) with Some s => (s, 1) | None => (ISO6937, 0) end).
