(* ===== verification/DvbTypesCorrect.v ===== *)
(** * Dates of DVB are converted exactly

    The formulas of the standard for modified Julian days, with the [double] arithmetic of the code, give the
    Gregorian date of every day a date of DVB can name from March 1900 on, and back. *)

From S2P Require Export DvbTypes.

(** ** The formulas in integers *)

Definition mjd_year (mjd : Z) : Z := (20 * mjd - 301564) / 7305.
Definition mjd_year_days (year : Z) : Z := year * 1461 / 4.
Definition mjd_mon (mjd year_days : Z) : Z := 1000 * (10 * mjd - 149561 - 10 * year_days) / 306001.
Definition mjd_month_days (mon : Z) : Z := mon * 306001 / 10000.

(** A day that a date of DVB can name and that the formulas hold for: from March 1900 to April 2038. *)
Definition good_mjd (mjd : Z) : Prop := 15079 <= mjd <= 65535.

Lemma double_15078_2 : decimal 150782 10 = S754_finite false 8289328112966042 (-39).
Proof. by vm_compute. Qed.
Lemma double_365_25 : decimal 36525 100 = S754_finite false 6425545952722944 (-44).
Proof. by vm_compute. Qed.
Lemma double_14956_1 : decimal 149561 10 = S754_finite false 8222202928090317 (-39).
Proof. by vm_compute. Qed.
Lemma double_30_6001 : decimal 306001 10000 = S754_finite false 8613162434843745 (-48).
Proof. by vm_compute. Qed.

(** The quotient of the code, rounded, has the integer part of the exact one. *)
Lemma year_run mjd : good_mjd mjd ->
  int_of_float (fdiv (fsub (binary64_of_Z mjd) (decimal 150782 10)) (decimal 36525 100)) = Ok (mjd_year mjd).
Proof.
  unfold good_mjd, fdiv, fsub. intros Hm. rewrite double_15078_2, double_365_25.
  destruct (Z.le_gt_cases mjd 15081) as [Hfirst | Hlater].
  { assert (Hin : In mjd [15079; 15080; 15081]) by (cbn; lia). by repeat (destruct Hin as [<- | Hin]; [by vm_compute|]). }
  destruct (sub_scaled (binary64_of_Z mjd) (S754_finite false 8289328112966042 (-39)) (mjd * 2 ^ 60)
    (8289328112966042 * 2 ^ 21)) as (v1 & H1 & E1); [apply of_Z_scaled; lia | by apply scaled_finite | lia|].
  destruct (div_scaled _ v1 6425545952722944 (-44) H1) as (v & H2 & E2); [lia | change (2 ^ (-44 + 60)) with (2 ^ 16); cbv zeta; lia|].
  change (2 ^ (-44 + 60)) with (2 ^ 16) in E2.
  rewrite (int_scaled _ v H2) by lia. f_equal. unfold mjd_year.
  symmetry. apply Z.div_unique_pos with (v - mjd_year mjd * 2 ^ 60); unfold mjd_year; [|lia].
  pose proof (Z.div_mod (20 * mjd - 301564) 7305 ltac:(lia)) as Ed.
  pose proof (Z.mod_pos_bound (20 * mjd - 301564) 7305 ltac:(lia)) as Hr.
  set (k := (20 * mjd - 301564) / 7305) in *. set (r := (20 * mjd - 301564) mod 7305) in *. clearbody k r. lia.
Qed.

(** A check of a range of numbers. *)
Lemma all_in_range (f : Z -> bool) lo n x : forallb f (seqZ lo n) = true -> lo <= x < lo + n -> f x = true.
Proof. intros H Hx. rewrite forallb_forall in H. apply H, list_elem_of_In, elem_of_seqZ. lia. Qed.

(** The days of the years before. *)
Lemma year_days_ok : forallb (λ y,
  match int_of_float (fmul (binary64_of_Z y) (decimal 36525 100)) with Ok v => v =? mjd_year_days y | Err _ => false end)
  (seqZ 0 139) = true.
Proof. by vm_compute. Qed.

Lemma year_days_run year : 0 <= year < 139 ->
  int_of_float (fmul (binary64_of_Z year) (decimal 36525 100)) = Ok (mjd_year_days year).
Proof.
  intros Hy. pose proof year_days_ok as H. rewrite forallb_forall in H.
  specialize (H year ltac:(apply list_elem_of_In, elem_of_seqZ; lia)). cbv beta in H.
  destruct (int_of_float _) as [v|]; [|done]. by apply Z.eqb_eq in H as ->.
Qed.

Lemma mon_run mjd year_days : 0 <= year_days -> 1221 <= 10 * mjd - 149561 - 10 * year_days < 4900 -> good_mjd mjd ->
  int_of_float (fdiv (fsub (fsub (binary64_of_Z mjd) (decimal 149561 10)) (binary64_of_Z year_days)) (decimal 306001 10000)) =
  Ok (mjd_mon mjd year_days).
Proof.
  unfold good_mjd, fdiv, fsub. intros Hy HN Hm. rewrite double_14956_1, double_30_6001.
  destruct (sub_scaled (binary64_of_Z mjd) (S754_finite false 8222202928090317 (-39)) (mjd * 2 ^ 60)
    (8222202928090317 * 2 ^ 21)) as (v1 & H1 & E1); [apply of_Z_scaled; lia | by apply scaled_finite | lia|].
  assert (Hsub : exists v2, scaled (SFsub 53 1024 (SFsub 53 1024 (binary64_of_Z mjd) (S754_finite false 8222202928090317 (-39)))
      (binary64_of_Z year_days)) v2 /\ Z.abs (v2 - (v1 - year_days * 2 ^ 60)) <= 2 ^ 24).
  { destruct (Z.eq_dec year_days 0) as [-> | Hne].
    - exists v1. destruct H1 as (m & e & -> & He & ->). split; [by exists m, e | lia].
    - apply sub_scaled; [done | apply of_Z_scaled; lia | lia]. }
  destruct Hsub as (v2 & H2 & E2). clear H1.
  destruct (div_scaled _ v2 8613162434843745 (-48) H2) as (v & H3 & E3); [lia | change (2 ^ (-48 + 60)) with (2 ^ 12); cbv zeta; lia|].
  change (2 ^ (-48 + 60)) with (2 ^ 12) in E3. rewrite (int_scaled _ v H3) by lia. f_equal. unfold mjd_mon.
  set (N := 10 * mjd - 149561 - 10 * year_days) in *.
  assert (Hdiv : (1000 * N) mod 306001 <> 0).
  { intros H0. apply Z.mod_divide in H0; [|lia]. apply Z.gauss in H0; [|done]. apply Z.divide_pos_le in H0; lia. }
  pose proof (Z.div_mod (1000 * N) 306001 ltac:(lia)) as Ed. pose proof (Z.mod_pos_bound (1000 * N) 306001 ltac:(lia)) as Hr.
  symmetry. apply Z.div_unique_pos with (v - 1000 * N / 306001 * 2 ^ 60); [|lia].
  set (k := 1000 * N / 306001) in *. set (r := (1000 * N) mod 306001) in *.
  assert (HN' : N = 10 * mjd - 149561 - 10 * year_days) by done. clearbody k r N. lia.
Qed.

Lemma month_days_run mon : 4 <= mon < 16 ->
  int_of_float (fmul (binary64_of_Z mon) (decimal 306001 10000)) = Ok (mjd_month_days mon).
Proof.
  intros Hm. assert (Hin : In mon [4; 5; 6; 7; 8; 9; 10; 11; 12; 13; 14; 15]) by (cbn; lia).
  rewrite double_30_6001. repeat (destruct Hin as [<- | Hin]; [by vm_compute|]). destruct Hin.
Qed.

(** ** The calendar *)

(** The date of the formulas: year, month and day as [mktime] is given them. *)
Definition mjd_date (mjd : Z) : Z * Z * Z :=
  let year := mjd_year mjd in
  let mon := mjd_mon mjd (mjd_year_days year) in
  let k := if (mon =? 14) || (mon =? 15) then 1 else 0 in
  (year + k, mon - 2 - k * 12, mjd - 14956 - mjd_year_days year - mjd_month_days mon).

Definition mjd_checks (mjd : Z) : bool :=
  let '(year, mon, mday) := mjd_date mjd in
  (day_number year mon mday =? mjd - 40587) && (4 <=? mjd_mon mjd (mjd_year_days (mjd_year mjd))) &&
  (mjd_mon mjd (mjd_year_days (mjd_year mjd)) <? 16).

(** The first year and then a cycle of four. *)
Lemma first_years_ok : forallb mjd_checks (seqZ 15079 1830) = true.
Proof. by vm_compute. Qed.

Lemma four_years y : 1901 <= y -> y + 4 < 2100 ->
  days_before_year (y + 4) = days_before_year y + 1461.
Proof. intros H1 H2. unfold days_before_year. Z.div_mod_to_equations; lia. Qed.

Lemma day_number_four year mon mday : 1 <= year -> year < 140 -> 0 <= mon < 12 ->
  day_number (year + 4) mon mday = day_number year mon mday + 1461.
Proof.
  intros Hy Hy' Hm. unfold day_number. rewrite Z.div_small, Z.mod_small, !Z.add_0_r by lia.
  replace (1900 + (year + 4)) with (1900 + year + 4) by lia. rewrite four_years by lia.
  assert (El : leap_day (1900 + year + 4) = leap_day (1900 + year)).
  { unfold leap_day. replace (1900 + year + 4 + 1) with (1900 + year + 1 + 4) by lia. rewrite !four_years by lia. lia. }
  unfold days_before_month. rewrite El. lia.
Qed.

Lemma mjd_year_four mjd : mjd_year (mjd + 1461) = mjd_year mjd + 4.
Proof. unfold mjd_year. replace (20 * (mjd + 1461) - 301564) with (20 * mjd - 301564 + 4 * 7305) by lia. by rewrite Z.div_add by lia. Qed.

Lemma mjd_mon_four mjd : mjd_mon (mjd + 1461) (mjd_year_days (mjd_year (mjd + 1461))) = mjd_mon mjd (mjd_year_days (mjd_year mjd)).
Proof.
  rewrite mjd_year_four. unfold mjd_mon, mjd_year_days. replace ((mjd_year mjd + 4) * 1461) with (mjd_year mjd * 1461 + 1461 * 4) by lia.
  rewrite Z.div_add by lia. f_equal. lia.
Qed.

Lemma mjd_checks_four mjd : 15079 + 307 <= mjd -> mjd + 1461 <= 65535 -> mjd_checks mjd = true -> mjd_checks (mjd + 1461) = true.
Proof.
  intros H1 H2 H. unfold mjd_checks, mjd_date in *. rewrite mjd_mon_four, mjd_year_four.
  set (mon := mjd_mon mjd (mjd_year_days (mjd_year mjd))) in *.
  apply andb_prop in H as [H Hm2]. apply andb_prop in H as [Hd Hm1]. rewrite Hm1, Hm2. apply Z.eqb_eq in Hd.
  apply Z.leb_le in Hm1. apply Z.ltb_lt in Hm2. rewrite !andb_true_r. apply Z.eqb_eq.
  assert (Hyear : 0 <= mjd_year mjd < 135) by (unfold mjd_year; Z.div_mod_to_equations; lia).
  set (k := if (mon =? 14) || (mon =? 15) then 1 else 0) in *.
  assert (Hk : 1 <= mjd_year mjd + k /\ 0 <= mon - 2 - k * 12 < 12 /\ k <= 1).
  { unfold k. destruct (Z.eqb_spec mon 14), (Z.eqb_spec mon 15); cbn [orb]; repeat split; try lia;
      (enough (1 <= mjd_year mjd \/ mon >= 14) by lia; unfold mon, mjd_mon, mjd_year_days in *;
       destruct (Z.le_gt_cases 1 (mjd_year mjd)); [by left|]; right;
       assert (E0 : mjd_year mjd = 0) by lia; rewrite E0; cbn; Z.div_mod_to_equations; lia). }
  replace (mjd_year mjd + 4 + k) with (mjd_year mjd + k + 4) by lia.
  replace (mjd + 1461 - 14956 - mjd_year_days (mjd_year mjd + 4) - mjd_month_days mon) with
    (mjd - 14956 - mjd_year_days (mjd_year mjd) - mjd_month_days mon).
  - rewrite day_number_four by lia. lia.
  - unfold mjd_year_days. replace ((mjd_year mjd + 4) * 1461) with (mjd_year mjd * 1461 + 1461 * 4) by lia.
    rewrite Z.div_add by lia. lia.
Qed.

Lemma mjd_checks_all mjd : good_mjd mjd -> mjd_checks mjd = true.
Proof.
  intros Hm. assert (Hc : forall c, 15079 <= mjd - 1461 * Z.of_nat c < 16909 -> 15386 <= mjd - 1461 * Z.of_nat c \/ c = 0%nat ->
    mjd_checks mjd = true).
  { intros c. revert mjd Hm. induction c as [|c IH]; intros mjd Hm Hr Hfirst.
    - pose proof first_years_ok as H. rewrite forallb_forall in H. apply H, list_elem_of_In, elem_of_seqZ. lia.
    - unfold good_mjd in *. rewrite <- (Z.sub_add 1461 mjd). apply mjd_checks_four; [lia..|]. apply IH; lia. }
  unfold good_mjd in Hm. destruct (Z.lt_ge_cases mjd 16847) as [Hlow | Hhigh].
  - apply (Hc 0%nat); [lia | by right].
  - apply (Hc (Z.to_nat ((mjd - 15386) / 1461))); [|left]; rewrite Z2Nat.id by (Z.div_mod_to_equations; lia);
      Z.div_mod_to_equations; lia.
Qed.

(** ** Binary coded decimals *)

Definition bcd (v : Z) : Z := v / 10 * 16 + v mod 10.

Lemma two_digits_ok : forallb (λ v,
  (s32 (bcd_to_integer (bcd v)) =? v) && (bcd_to_integer (bcd v) =? v) && (u8 (integer_to_bcd (u32 v)) =? bcd v))
  (seqZ 0 100) = true.
Proof. by vm_compute. Qed.

Lemma two_digits v : 0 <= v < 100 ->
  s32 (bcd_to_integer (bcd v)) = v /\ bcd_to_integer (bcd v) = v /\ u8 (integer_to_bcd (u32 v)) = bcd v.
Proof.
  intros Hv. pose proof two_digits_ok as H. rewrite forallb_forall in H.
  specialize (H v ltac:(apply list_elem_of_In, elem_of_seqZ; lia)). apply andb_prop in H as [H H3].
  apply andb_prop in H as [H1 H2]. apply Z.eqb_eq in H1, H2, H3. auto.
Qed.

(** The arithmetic is not unfolded from here on. *)
#[local] Opaque int_of_float fadd fsub fmul fdiv binary64_of_Z decimal.

(** ** Dates to time *)

Definition dvb_date (mjd hour min sec : Z) : list Z := [mjd / 256; mjd mod 256; bcd hour; bcd min; bcd sec].

Lemma date_run gmtoff mjd hour min sec : good_mjd mjd -> 0 <= hour < 100 -> 0 <= min < 100 -> 0 <= sec < 100 ->
  dvbdate_to_unixtime gmtoff (dvb_date mjd hour min sec) =
  Ok ((mjd - 40587) * 86400 + hour * 3600 + min * 60 + sec - gmtoff).
Proof.
  intros Hm Hh Hmin Hs. pose proof Hm as Hm'. unfold good_mjd in Hm'. unfold dvbdate_to_unixtime, dvb_date.
  change (at_ [mjd / 256; mjd mod 256; bcd hour; bcd min; bcd sec] 0) with (Ok (mjd / 256)).
  change (at_ [mjd / 256; mjd mod 256; bcd hour; bcd min; bcd sec] 1) with (Ok (mjd mod 256)).
  change (at_ [mjd / 256; mjd mod 256; bcd hour; bcd min; bcd sec] 2) with (Ok (bcd hour)).
  change (at_ [mjd / 256; mjd mod 256; bcd hour; bcd min; bcd sec] 3) with (Ok (bcd min)).
  change (at_ [mjd / 256; mjd mod 256; bcd hour; bcd min; bcd sec] 4) with (Ok (bcd sec)). cbn [mbind res_bind].
  assert (Hff : (bcd sec =? 0xff) = false) by (apply Z.eqb_neq; unfold bcd; Z.div_mod_to_equations; lia).
  rewrite Hff, andb_false_r.
  replace (Z.lor (Z.shiftl (mjd / 256) 8) (mjd mod 256)) with mjd.
  2: { rewrite Z.lor_comm, lor_add; [change (2 ^ 8) with 256; Z.div_mod_to_equations; lia | lia |].
       change (2 ^ 8) with 256. apply Z.mod_pos_bound. lia. }
  rewrite year_run by done. cbn [mbind res_bind].
  pose proof (mjd_checks_all mjd Hm) as Hc. unfold mjd_checks, mjd_date in Hc.
  apply andb_prop in Hc as [Hc Hm2]. apply andb_prop in Hc as [Hd Hm1].
  apply Z.eqb_eq in Hd. apply Z.leb_le in Hm1. apply Z.ltb_lt in Hm2.
  assert (Hyear : 0 <= mjd_year mjd < 139) by (unfold mjd_year; Z.div_mod_to_equations; lia).
  rewrite year_days_run by done. cbn [mbind res_bind].
  assert (HN : 1221 <= 10 * mjd - 149561 - 10 * mjd_year_days (mjd_year mjd) < 4900)
    by (clear - Hm1 Hm2; unfold mjd_mon in *; set (N := 10 * mjd - 149561 - _) in *; clearbody N; Z.div_mod_to_equations; lia).
  rewrite mon_run; [|unfold mjd_year_days; Z.div_mod_to_equations; lia | done | done]. cbn [mbind res_bind].
  rewrite (int_scaled (binary64_of_Z mjd) (mjd * 2 ^ 60)), Z.div_mul; [|done | apply of_Z_scaled; lia | lia]. cbn [mbind res_bind].
  rewrite month_days_run by lia. cbn [mbind res_bind]. cbv zeta. unfold mktime. cbn [tm_year tm_mon tm_mday tm_hour tm_min tm_sec].
  rewrite Hd. destruct (two_digits hour Hh) as (-> & _), (two_digits min Hmin) as (-> & _), (two_digits sec Hs) as (-> & _). done.
Qed.

(** ** Time to dates *)

Lemma year_step y : 365 <= days_before_year (y + 1) - days_before_year y <= 366.
Proof. unfold days_before_year. Z.div_mod_to_equations; lia. Qed.

Lemma years_apart n y : 365 * Z.of_nat n <= days_before_year (y + Z.of_nat n) - days_before_year y <= 366 * Z.of_nat n.
Proof.
  induction n as [|n IH]; [cbn; rewrite Z.add_0_r; lia|]. pose proof (year_step (y + Z.of_nat n)).
  replace (y + Z.of_nat (S n)) with (y + Z.of_nat n + 1) by lia. lia.
Qed.

Lemma count_years_ok fuel : forall y days, days_before_year y <= days -> days < days_before_year (y + Z.of_nat fuel) ->
  let r := count_years fuel y days in days_before_year r <= days < days_before_year (r + 1).
Proof.
  induction fuel as [|fuel IH]; intros y days Hlow Hhigh; cbn [count_years]; [rewrite Z.add_0_r in Hhigh; lia|].
  destruct (Z.leb_spec (days_before_year (y + 1)) days); [|lia]. apply IH; [done|].
  replace (y + 1 + Z.of_nat fuel) with (y + Z.of_nat (S fuel)) by lia. done.
Qed.

(** The year of a day contains it. *)
Lemma year_of_day_ok days : days_before_year (year_of_day days) <= days < days_before_year (year_of_day days + 1).
Proof.
  unfold year_of_day. assert (E1970 : days_before_year 1970 = 0) by done.
  set (y := 1970 + (if 0 <=? days then days / 366 else days / 365)).
  assert (Hlow : days_before_year y <= days).
  { unfold y. destruct (Z.leb_spec 0 days) as [H | H].
    - pose proof (years_apart (Z.to_nat (days / 366)) 1970). rewrite Z2Nat.id in * by (apply Z.div_pos; lia).
      Z.div_mod_to_equations; lia.
    - pose proof (years_apart (Z.to_nat (- (days / 365))) (1970 + days / 365)) as Ha.
      rewrite Z2Nat.id in Ha by (Z.div_mod_to_equations; lia).
      replace (1970 + days / 365 + - (days / 365)) with 1970 in Ha by lia. Z.div_mod_to_equations; lia. }
  apply count_years_ok; [done|]. rewrite Z2Nat.id by (Z.div_mod_to_equations; lia).
  set (last := y + (Z.abs days / 365 + 2)).
  assert (Hlast : 1970 + (Z.max days 0) / 365 + 1 <= last) by (unfold last, y; destruct (Z.leb_spec 0 days); Z.div_mod_to_equations; lia).
  pose proof (years_apart (Z.to_nat (last - 1970)) 1970) as Ha. rewrite Z2Nat.id in Ha by (Z.div_mod_to_equations; lia).
  replace (1970 + (last - 1970)) with last in Ha by lia. Z.div_mod_to_equations; lia.
Qed.

Lemma month_ok y yday : 0 <= yday < 366 -> 0 <= month_of_day y yday < 12 /\
  nth (Z.to_nat (month_of_day y yday)) (days_before_month y) 0 <= yday /\
  (month_of_day y yday < 2 -> yday < 59 + leap_day y).
Proof.
  intros Hd. unfold month_of_day, days_before_month. pose proof (year_step y) as Hy. fold (leap_day y) in Hy.
  assert (Hl : leap_day y = 0 \/ leap_day y = 1) by (unfold leap_day; lia). clear Hy.
  assert (Hall : forall l, l = 0 \/ l = 1 -> forallb (λ yday,
    let months := [0; 31; 59 + l; 90 + l; 120 + l; 151 + l; 181 + l; 212 + l; 243 + l; 273 + l; 304 + l; 334 + l] in
    let mon := zlen (List.filter (λ d, d <=? yday) months) - 1 in
    (0 <=? mon) && (mon <? 12) && (nth (Z.to_nat mon) months 0 <=? yday) && ((2 <=? mon) || (yday <? 59 + l))) (seqZ 0 366) = true)
    by (intros l [-> | ->]; by vm_compute).
  specialize (Hall _ Hl). rewrite forallb_forall in Hall.
  specialize (Hall yday ltac:(apply list_elem_of_In, elem_of_seqZ; lia)). cbv zeta beta in Hall.
  apply andb_prop in Hall as [Hall H4]. apply andb_prop in Hall as [Hall H3]. apply andb_prop in Hall as [H1 H2].
  apply Z.leb_le in H1, H3. apply Z.ltb_lt in H2. split; [done|]. split; [done|]. intros Hm.
  apply orb_prop in H4 as [H4 | H4]; [apply Z.leb_le in H4; lia | by apply Z.ltb_lt in H4].
Qed.

Lemma leap_cases y : leap_day y = 0 \/ leap_day y = 1.
Proof. pose proof (year_step y). unfold leap_day. lia. Qed.

(** The fields of a time in UTC. *)
Lemma gmtime_fields t : let days := t / 86400 in let g := gmtime_r t in
  days = days_before_year (1900 + tm_year g) + nth (Z.to_nat (tm_mon g)) (days_before_month (1900 + tm_year g)) 0 + tm_mday g - 1 /\
  0 <= tm_mon g < 12 /\ days_before_year (1900 + tm_year g) <= days < days_before_year (1900 + tm_year g + 1) /\
  (tm_mon g < 2 -> days < days_before_year (1900 + tm_year g) + 59 + leap_day (1900 + tm_year g)) /\
  0 <= tm_hour g < 24 /\ 0 <= tm_min g < 60 /\ 0 <= tm_sec g < 60 /\
  t = days * 86400 + tm_hour g * 3600 + tm_min g * 60 + tm_sec g.
Proof.
  cbv zeta. unfold gmtime_r. cbn [tm_year tm_mon tm_mday tm_hour tm_min tm_sec].
  pose proof (year_of_day_ok (t / 86400)) as Hy. set (days := t / 86400) in *. set (y := year_of_day days) in *.
  replace (1900 + (y - 1900)) with y by lia. pose proof (year_step y).
  destruct (month_ok y (days - days_before_year y)) as (Hm & Hn & H2); [lia|].
  split; [lia|]. split; [done|]. split; [done|]. split; [lia|].
  pose proof (Z.mod_pos_bound t 86400 ltac:(lia)) as Hs. pose proof (Z.div_mod t 86400 ltac:(lia)) as Et. fold days in Et.
  set (s := t mod 86400) in *. clearbody s days. clear - Hs Et. repeat split; Z.div_mod_to_equations; lia.
Qed.

(** January and February are months 13 and 14 of the year before. *)
Lemma shifted_year_ok : forallb (λ y, forallb (λ l,
  match int_of_float (fmul (fsub (binary64_of_Z y) (binary64_of_Z l)) (decimal 36525 100)) with
  | Ok v => v =? mjd_year_days (y - l)
  | Err _ => (y =? 0) && (l =? 1)
  end || ((y =? 0) && (l =? 1))) [0; 1]) (seqZ 0 139) = true.
Proof. by vm_compute. Qed.

Lemma shifted_month_ok : forallb (λ mon,
  let l := if (mon =? 1) || (mon =? 2) then 1 else 0 in
  match int_of_float (fmul (fadd (binary64_of_Z (mon + 1)) (fmul (binary64_of_Z l) (binary64_of_Z 12))) (decimal 306001 10000)) with
  | Ok v => v =? mjd_month_days (mon + 1 + 12 * l)
  | Err _ => false
  end) (seqZ 1 12) = true.
Proof. by vm_compute. Qed.

Lemma calendar_ok : forallb (λ y, forallb (λ mon,
  let l := if (mon =? 0) || (mon =? 1) then 1 else 0 in
  (mjd_year_days (y - l) + mjd_month_days (mon + 2 + 12 * l) + 14956 =?
   days_before_year (1900 + y) + nth (Z.to_nat mon) (days_before_month (1900 + y)) 0 + 40587 - 1) ||
  ((y =? 0) && (l =? 1))) (seqZ 0 12)) (seqZ 0 139) = true.
Proof. by vm_compute. Qed.

Lemma years_before_2039 y : days_before_year y <= 24948 -> y <= 2038.
Proof. intros H. unfold days_before_year in H. Z.div_mod_to_equations; lia. Qed.

Lemma years_from_1900 y : -25508 < days_before_year (y + 1) -> 1900 <= y.
Proof. intros H. unfold days_before_year in H. Z.div_mod_to_equations; lia. Qed.


(** The Julian day of a time, as [unixtime_to_dvbdate] computes it. *)
Lemma time_mjd_run t : let g := gmtime_r t in let mon := tm_mon g + 1 in
  let l := binary64_of_Z (if (mon =? 1) || (mon =? 2) then 1 else 0) in
  good_mjd (t / 86400 + 40587) -> exists year_days month_days,
  int_of_float (fmul (fsub (binary64_of_Z (tm_year g)) l) (decimal 36525 100)) = Ok year_days /\
  int_of_float (fmul (fadd (binary64_of_Z (mon + 1)) (fmul l (binary64_of_Z 12))) (decimal 306001 10000)) = Ok month_days /\
  14956 + tm_mday g + year_days + month_days = t / 86400 + 40587.
Proof.
  cbv zeta. unfold good_mjd. intros Hm. pose proof (gmtime_fields t) as Hg. cbv zeta in Hg. set (g := gmtime_r t) in *.
  destruct Hg as (Hdays & Hmon & Hyear & Hfeb & _). set (days := t / 86400) in *. clearbody days g.
  pose proof (years_before_2039 (1900 + tm_year g) ltac:(lia)). pose proof (years_from_1900 (1900 + tm_year g) ltac:(lia)).
  set (l := if (tm_mon g + 1 =? 1) || (tm_mon g + 1 =? 2) then 1 else 0).
  assert (El : l = if (tm_mon g =? 0) || (tm_mon g =? 1) then 1 else 0).
  { unfold l. destruct (Z.eqb_spec (tm_mon g + 1) 1), (Z.eqb_spec (tm_mon g + 1) 2), (Z.eqb_spec (tm_mon g) 0), (Z.eqb_spec (tm_mon g) 1);
      try done; lia. }
  assert (Hl : In l [0; 1]) by (unfold l; destruct (_ || _); cbn; auto).
  assert (Hfirst : (tm_year g =? 0) && (l =? 1) = false).
  { apply andb_false_iff. destruct (Z.eqb_spec (tm_year g) 0) as [E0 | _]; [right | by left]. rewrite El.
    destruct (Z.eqb_spec (tm_mon g) 0), (Z.eqb_spec (tm_mon g) 1); try done;
      rewrite E0 in *; change (days_before_year (1900 + 0)) with (-25567) in *; change (leap_day (1900 + 0)) with 0 in *; lia. }
  pose proof (all_in_range _ _ _ (tm_year g) shifted_year_ok ltac:(lia)) as Hsy. cbv beta in Hsy. rewrite forallb_forall in Hsy.
  specialize (Hsy l Hl). rewrite Hfirst, orb_false_r in Hsy.
  destruct (int_of_float (fmul (fsub _ _) _)) as [year_days|]; [|done]. apply Z.eqb_eq in Hsy.
  pose proof (all_in_range _ _ _ (tm_mon g + 1) shifted_month_ok ltac:(lia)) as Hsm. cbv zeta beta in Hsm. fold l in Hsm.
  destruct (int_of_float (fmul (fadd _ _) _)) as [month_days|]; [|done]. apply Z.eqb_eq in Hsm.
  pose proof (all_in_range _ _ _ (tm_year g) calendar_ok ltac:(lia)) as Hc. cbv beta in Hc.
  pose proof (all_in_range _ _ _ (tm_mon g) Hc ltac:(lia)) as Hc'. cbv zeta beta in Hc'. rewrite <- El, Hfirst, orb_false_r in Hc'.
  apply Z.eqb_eq in Hc'. exists year_days, month_days. split; [done|]. split; [done|].
  replace (tm_mon g + 1 + 1 + 12 * l) with (tm_mon g + 2 + 12 * l) in Hsm by lia. lia.
Qed.

Lemma time_run t : t <> -1 -> good_mjd (t / 86400 + 40587) ->
  unixtime_to_dvbdate t =
  Ok (dvb_date (t / 86400 + 40587) (tm_hour (gmtime_r t)) (tm_min (gmtime_r t)) (tm_sec (gmtime_r t))).
Proof.
  intros Ht Hm. destruct (time_mjd_run t Hm) as (year_days & month_days & Ey & Em & Emjd).
  destruct (gmtime_fields t) as (_ & _ & _ & _ & Hh & Hmin & Hs & _). unfold unixtime_to_dvbdate, good_mjd in *.
  rewrite (proj2 (Z.eqb_neq t (-1)) Ht). cbv zeta. rewrite Ey. cbn [mbind res_bind]. rewrite Em. cbn [mbind res_bind]. rewrite Emjd.
  destruct (two_digits (tm_hour (gmtime_r t))) as (_ & _ & ->); [lia|].
  destruct (two_digits (tm_min (gmtime_r t))) as (_ & _ & ->); [lia|].
  destruct (two_digits (tm_sec (gmtime_r t))) as (_ & _ & ->); [lia|]. unfold dvb_date, mret, res_ret.
  set (mjd := t / 86400 + 40587) in *. rewrite land_ff, Z.shiftr_land. change (Z.shiftr 0xff00 8) with 0xff.
  rewrite land_ff, Z.shiftr_div_pow2 by lia. change (2 ^ 8) with 256. unfold u8.
  rewrite Z.mod_mod, (Z.mod_small (mjd / 256)) by (Z.div_mod_to_equations; lia). done.
Qed.

(** C27: on a system whose local time is UTC, dates of DVB are converted exactly: with the [double] arithmetic of the
    code, the date of every day from the first of March 1900 to the last that two bytes can name, with any two
    digits for the hour, the minute and the second, is converted to the seconds of that day and time since
    1970; and from a time of these days (but -1) [unixtime_to_dvbdate] makes the date that is converted back to it.
    Where the local time is another, the code is wrong by the difference: see [local_time_wrong]. *)
Theorem dates_converted :
  (forall mjd hour min sec, good_mjd mjd -> 0 <= hour < 100 -> 0 <= min < 100 -> 0 <= sec < 100 ->
    dvbdate_to_unixtime 0 (dvb_date mjd hour min sec) = Ok ((mjd - 40587) * 86400 + hour * 3600 + min * 60 + sec)) /\
  (forall t, t <> -1 -> good_mjd (t / 86400 + 40587) ->
    exists date, unixtime_to_dvbdate t = Ok date /\ dvbdate_to_unixtime 0 date = Ok t).
Proof.
  split; [intros; rewrite date_run by done; f_equal; lia|]. intros t Ht Hm. exists (dvb_date (t / 86400 + 40587) (tm_hour (gmtime_r t)) (tm_min (gmtime_r t)) (tm_sec (gmtime_r t))).
  split; [by apply time_run|]. destruct (gmtime_fields t) as (_ & _ & _ & _ & Hh & Hmin & Hs & Et).
  rewrite date_run by (done || lia). f_equal. lia.
Qed.

Lemma dates_converted_witness : dvbdate_to_unixtime 0 (dvb_date 45218 12 45 0) = Ok 400164300.
Proof. apply (proj1 dates_converted 45218 12 45 0); unfold good_mjd; lia. Defined.

(** Durations of less than a hundred hours are encoded in BCD and decoded to the same seconds, and those of
    whole minutes in the shorter form too; numbers of eight digits are the same after both conversions. *)
Theorem durations_roundtrip seconds : 0 <= seconds < 360000 ->
  dvbduration_to_seconds (seconds_to_dvbduration seconds) = Ok seconds /\
  dvbhhmm_to_seconds (seconds_to_dvbhhmm seconds) = Ok (seconds / 60 * 60).
Proof.
  intros Hs. unfold seconds_to_dvbduration, seconds_to_dvbhhmm. cbv zeta.
  rewrite !(Z.quot_div_nonneg seconds) by lia. set (hours := seconds / (60 * 60)).
  assert (Hh : 0 <= hours < 100) by (unfold hours; Z.div_mod_to_equations; lia).
  assert (Hrest : 0 <= seconds - hours * 60 * 60 < 3600) by (unfold hours; Z.div_mod_to_equations; lia).
  rewrite !Z.quot_div_nonneg by lia. set (rest := seconds - hours * 60 * 60) in *. set (mins := rest / 60).
  assert (Hmin : 0 <= mins < 60) by (unfold mins; Z.div_mod_to_equations; lia).
  assert (Hsec : 0 <= rest - mins * 60 < 60) by (unfold mins; Z.div_mod_to_equations; lia).
  assert (Emin : seconds / 60 * 60 = hours * 3600 + mins * 60) by (unfold mins, rest, hours; Z.div_mod_to_equations; lia).
  destruct (two_digits hours) as (_ & Eh & ->); [lia|]. destruct (two_digits mins) as (_ & Em & ->); [lia|].
  destruct (two_digits (rest - mins * 60)) as (_ & Es & ->); [lia|].
  unfold dvbduration_to_seconds, dvbhhmm_to_seconds.
  change (at_ [bcd hours; bcd mins; bcd (rest - mins * 60)] 0) with (Ok (bcd hours)).
  change (at_ [bcd hours; bcd mins; bcd (rest - mins * 60)] 1) with (Ok (bcd mins)).
  change (at_ [bcd hours; bcd mins; bcd (rest - mins * 60)] 2) with (Ok (bcd (rest - mins * 60))).
  change (at_ [bcd hours; bcd mins] 0) with (Ok (bcd hours)). change (at_ [bcd hours; bcd mins] 1) with (Ok (bcd mins)).
  cbn [mbind res_bind]. rewrite Eh, Em, Es. unfold mret, res_ret, s32.
  rewrite (u32_id (hours * 60 * 60)), (u32_id (mins * 60)) by lia. rewrite !Z.mod_small by lia.
  split; f_equal; [unfold rest | rewrite Emin]; lia.
Qed.

Lemma durations_roundtrip_witness : dvbduration_to_seconds (seconds_to_dvbduration 5025) = Ok 5025.
Proof. apply (durations_roundtrip 5025). lia. Defined.

(** The local time is not UTC: the seconds of a date of DVB, which is in UTC, are off by the difference. *)
Lemma local_time_wrong : dvbdate_to_unixtime 3600 (dvb_date 40587 12 0 0) = Ok (11 * 3600).
Proof. apply (date_run 3600 40587 12 0 0); unfold good_mjd; lia. Qed.
