(* ===== verification/DvbCa.v ===== *)
(** * dvbca.c: the device of a CA interface

    The functions that ask the driver about a slot, reset it, and exchange messages with a module whose
    driver speaks the protocol itself.  What the driver answers is a parameter ([ca_driver]): each answer
    is a function of the number of the call, as those of [env] are.  The reads and writes of the link
    layer are in Io.v. *)

From S2P Require Export Io CText.

Definition CA_CI : Z := 1.
Definition CA_CI_LINK : Z := 2.
Definition CA_CI_MODULE_PRESENT : Z := 1.
Definition CA_CI_MODULE_READY : Z := 2.

Definition DVBCA_INTERFACE_LINK : Z := 0.
Definition DVBCA_INTERFACE_HLCI : Z := 1.
Definition DVBCA_CAMSTATE_MISSING : Z := 0.
Definition DVBCA_CAMSTATE_INITIALISING : Z := 1.
Definition DVBCA_CAMSTATE_READY : Z := 2.

(** The answers of the driver.  [ca_slot_info]: [None] for an error, or the type and the flags;
    [ca_get_msg]: what [ioctl] returns, and the length and the bytes of the message. *)
Record ca_driver := CaDriver {
  ca_open : nat -> list Z -> Z;
  ca_slot_info : nat -> option (Z * Z);
  ca_reset : nat -> Z;
  ca_send_msg : nat -> Z;
  ca_get_msg : nat -> Z * Z * list Z;
}.

Section Device.
Context {S : Type} (ca : ca_driver).

Definition sys_open (filename : list Z) : IO S Z := n ← tick; mret (ca_open ca n filename).

Definition sys_close (fd : Z) : IO S unit := log_event (Closed fd).

Definition dvbca_open (adapter cadevice : Z) : IO S Z :=
  fd ← sys_open (lit "/dev/dvb/adapter" ++ print_i adapter ++ lit "/ca" ++ print_i cadevice);
  if fd <? 0 then sys_open (lit "/dev/dvb" ++ print_i adapter ++ lit ".ca" ++ print_i cadevice)
  else mret fd.

Definition dvbca_reset (fd slot : Z) : IO S Z :=
  n ← tick;
  log_event (SlotsReset fd (Z.shiftl 1 slot));;
  mret (ca_reset ca n).

Definition dvbca_get_interface_type (fd slot : Z) : IO S Z :=
  n ← tick;
  mret
    (match ca_slot_info ca n with
     | None => -1
     | Some (type, _) =>
         if negb (Z.land type CA_CI_LINK =? 0) then DVBCA_INTERFACE_LINK
         else if negb (Z.land type CA_CI =? 0) then DVBCA_INTERFACE_HLCI
         else -1
     end).

(** What [dvbca_get_cam_state] makes of the answer. *)
Definition cam_state_of (info : option (Z * Z)) : Z :=
  match info with
  | None => -1
  | Some (_, flags) =>
      if flags =? 0 then DVBCA_CAMSTATE_MISSING
      else if negb (Z.land flags CA_CI_MODULE_READY =? 0) then DVBCA_CAMSTATE_READY
      else if negb (Z.land flags CA_CI_MODULE_PRESENT =? 0) then DVBCA_CAMSTATE_INITIALISING
      else -1
  end.

Definition dvbca_get_cam_state (fd slot : Z) : IO S Z := n ← tick; mret (cam_state_of (ca_slot_info ca n)).

(** The array of [struct ca_msg] has 256 bytes. *)
Definition dvbca_hlci_write (fd : Z) (data : list Z) (data_length : Z) : IO S Z :=
  let data_length := u16 data_length in
  if 256 <? data_length then mret (-1)
  else if zlen data <? data_length then io_fault OutOfBounds
  else
    n ← tick;
    log_event (MessageSent fd (take (Z.to_nat data_length) data));;
    mret (ca_send_msg ca n).

(** The returned value, and what is in [data] when it is not negative. *)
Definition dvbca_hlci_read (fd app_tag data_length : Z) : IO S (Z * list Z) :=
  let data_length := if 256 <? u16 data_length then 256 else u16 data_length in
  n ← tick;
  let '(status, length, msg) := ca_get_msg ca n in
  if status <? 0 then mret (status, [])
  else
    let length := if data_length <? length then data_length else length in
    if zlen msg <? length then io_fault OutOfBounds
    else mret (length, take (Z.to_nat length) msg).
End Device.
