(* ===== verification/En50221Stdcam.v ===== *)
(** * en50221_stdcam*.c: the standard CAM

    What most programs use of the common interface: one module in one slot, with the resources for
    application information, conditional access, MMI, date and time and the resource manager.  A device
    of the link layer (LLCI) is driven through the transport and the session layer, for which this file is
    the layer above; a device whose driver speaks the protocol itself (HLCI) is given the APDUs.  The
    callbacks of the application are parameters.  [struct en50221_stdcam_llci] is part of the program
    state ([HasLlci]) because the layers below call back. *)

From S2P Require Export DvbCa DvbTypes En50221Session En50221Mmi.

(** ** The date and time that the host sends: en50221_app_datetime.c

    The enquiry of the module is in En50221App.v. *)

Definition TAG_DATE_TIME : Z := 0x9f8441.

(** The APDU with the time, and the offset of the local time unless it is -1. *)
Definition date_time_apdu (utc_time time_offset : Z) : res (list Z) :=
  date ← unixtime_to_dvbdate utc_time;
  mret (if negb (time_offset =? -1)
        then app_tag TAG_DATE_TIME ++ [7] ++ date ++ [u8 (Z.shiftr time_offset 8); u8 time_offset]
        else app_tag TAG_DATE_TIME ++ [5] ++ date).

Definition en50221_app_datetime_send {S} (send_data : Z -> list Z -> IO S Z)
    (session_number utc_time time_offset : Z) : IO S Z :=
  data ← lift (date_time_apdu utc_time time_offset);
  send_data session_number data.

(** ** The standard CAM *)

Definition EN50221_APP_RM_RESOURCEID : Z := MKRID 1 1 1.
Definition EN50221_APP_AI_RESOURCEID : Z := MKRID 2 1 1.
Definition EN50221_APP_CA_RESOURCEID : Z := MKRID 3 1 1.
Definition EN50221_APP_DATETIME_RESOURCEID : Z := MKRID 36 1 1.
Definition EN50221_APP_MMI_RESOURCEID : Z := MKRID 64 1 1.

Definition LLCI_RESPONSE_TIMEOUT_MS : Z := 1000.
Definition LLCI_POLL_DELAY_MS : Z := 100.

Definition EIO : Z := 5.

Definition resource_ids : list Z :=
  [EN50221_APP_RM_RESOURCEID; EN50221_APP_CA_RESOURCEID; EN50221_APP_AI_RESOURCEID;
   EN50221_APP_MMI_RESOURCEID; EN50221_APP_DATETIME_RESOURCEID].

(** ** Data *)

Inductive stdcam_status := CAM_NONE | CAM_INRESET | CAM_OK | CAM_BAD.

#[export] Instance stdcam_status_eq_dec : EqDecision stdcam_status.
Proof. solve_decision. Defined.

(** The resources; NULL is [None], and for the MMI, which is a part of the state of its own, [false]. *)
Record stdcam := Stdcam {
  ai_resource : option app_ai;
  ca_resource : option app_ca;
  mmi_resource : bool;
  ai_session_number : Z;
  ca_session_number : Z;
  mmi_session_number : Z;
}.

(** The function of a resource that the session layer calls. *)
Inductive resource_function := RM_message | DATETIME_message | AI_message | CA_message | MMI_message.

(** The callback and its argument are one number for the session layer: that of the resource. *)
Definition function_number (f : resource_function) : Z :=
  match f with RM_message => 0 | DATETIME_message => 1 | AI_message => 2 | CA_message => 3 | MMI_message => 4 end.

Record llci_resource := LlciResource {
  lr_resid : option public_resource_id;
  lr_binary_resource_id : Z;
  lr_callback : resource_function;
}.

Record stdcam_llci := StdcamLlci {
  ll_stdcam : stdcam;
  ll_cafd : Z;
  ll_slotnum : Z;
  ll_state : stdcam_status;
  ll_resources : list llci_resource;
  ll_tl_slot_id : Z;
  ll_rm_resource : app_rm;
  ll_datetime_resource : app_datetime;
  ll_datetime_session_number : Z;
  ll_datetime_response_interval : Z;
  ll_datetime_next_send : Z;
  ll_datetime_dvbtime : Z;
}.

Record stdcam_hlci := StdcamHlci {
  hl_stdcam : stdcam;
  hl_cafd : Z;
  hl_slotnum : Z;
  hl_initialised : bool;
}.

Definition set_ai_session (n : Z) (c : stdcam) : stdcam :=
  Stdcam (ai_resource c) (ca_resource c) (mmi_resource c) n (ca_session_number c) (mmi_session_number c).
Definition set_ca_session (n : Z) (c : stdcam) : stdcam :=
  Stdcam (ai_resource c) (ca_resource c) (mmi_resource c) (ai_session_number c) n (mmi_session_number c).
Definition set_mmi_session (n : Z) (c : stdcam) : stdcam :=
  Stdcam (ai_resource c) (ca_resource c) (mmi_resource c) (ai_session_number c) (ca_session_number c) n.

Definition upd_stdcam (f : stdcam -> stdcam) (l : stdcam_llci) : stdcam_llci :=
  match l with StdcamLlci c fd n st rs id rm dt s i t d => StdcamLlci (f c) fd n st rs id rm dt s i t d end.
Definition set_cam_state (st : stdcam_status) (l : stdcam_llci) : stdcam_llci :=
  match l with StdcamLlci c fd n _ rs id rm dt s i t d => StdcamLlci c fd n st rs id rm dt s i t d end.
Definition set_tl_slot_id (id : Z) (l : stdcam_llci) : stdcam_llci :=
  match l with StdcamLlci c fd n st rs _ rm dt s i t d => StdcamLlci c fd n st rs id rm dt s i t d end.
Definition set_datetime_session (s : Z) (l : stdcam_llci) : stdcam_llci :=
  match l with StdcamLlci c fd n st rs id rm dt _ i t d => StdcamLlci c fd n st rs id rm dt s i t d end.
Definition set_interval (i t : Z) (l : stdcam_llci) : stdcam_llci :=
  match l with StdcamLlci c fd n st rs id rm dt s _ _ d => StdcamLlci c fd n st rs id rm dt s i t d end.
Definition set_next_send (t : Z) (l : stdcam_llci) : stdcam_llci :=
  match l with StdcamLlci c fd n st rs id rm dt s i _ d => StdcamLlci c fd n st rs id rm dt s i t d end.
Definition set_dvbtime (d : Z) (l : stdcam_llci) : stdcam_llci :=
  match l with StdcamLlci c fd n st rs id rm dt s i t _ => StdcamLlci c fd n st rs id rm dt s i t d end.

(** No session is in place. *)
Definition no_sessions (l : stdcam_llci) : stdcam_llci :=
  set_datetime_session (-1) (upd_stdcam (λ c, set_mmi_session (-1) (set_ca_session (-1) (set_ai_session (-1) c))) l).

Class HasLlci (S : Type) := {
  get_llci : S -> stdcam_llci;
  put_llci : stdcam_llci -> S -> S;
}.

(** The standard CAM is a part of the state of its own. *)
Class LlciLaws (S : Type) `{HasTransport S} `{HasSessions S} `{HasLlci S} := {
  get_put_llci : forall l s, get_llci (put_llci l s) = l;
  get_llci_put_tl : forall t s, get_llci (put_tl t s) = get_llci s;
  get_llci_put_sl : forall l s, get_llci (put_sl l s) = get_llci s;
  get_tl_put_llci : forall l s, get_tl (put_llci l s) = get_tl s;
  get_sl_put_llci : forall l s, get_sl (put_llci l s) = get_sl s;
}.

(** The whole stack. *)
Record ci_stack := CiStack {
  ci_tl : transport_layer;
  ci_sl : session_layer;
  ci_mmi : app_mmi;
  ci_llci : stdcam_llci;
}.

#[export] Instance stack_transport : HasTransport ci_stack :=
  {| get_tl := ci_tl; put_tl := λ t s, CiStack t (ci_sl s) (ci_mmi s) (ci_llci s) |}.
#[export] Instance stack_transport_laws : TransportLaws ci_stack.
Proof. done. Qed.
#[export] Instance stack_sessions : HasSessions ci_stack :=
  {| get_sl := ci_sl; put_sl := λ l s, CiStack (ci_tl s) l (ci_mmi s) (ci_llci s) |}.
#[export] Instance stack_sessions_laws : SessionLaws ci_stack.
Proof. done. Qed.
#[export] Instance stack_mmi : HasMmi ci_stack :=
  {| get_mmi := ci_mmi; put_mmi := λ m s, CiStack (ci_tl s) (ci_sl s) m (ci_llci s) |}.
#[export] Instance stack_mmi_laws : MmiLaws ci_stack.
Proof. done. Qed.
#[export] Instance stack_llci : HasLlci ci_stack :=
  {| get_llci := ci_llci; put_llci := λ l s, CiStack (ci_tl s) (ci_sl s) (ci_mmi s) l |}.
#[export] Instance stack_llci_laws : LlciLaws ci_stack.
Proof. done. Qed.

(** ** The link layer *)

Section Llci.
Context {S : Type} `{HasTransport S} `{HasSessions S} `{HasMmi S} `{HasLlci S}.
Context (e : env) (ca : ca_driver).

(** The callbacks of the application, for application information and conditional access, and for MMI. *)
Context (upcall : Z -> Z -> Z -> app_call -> IO S Z) (mmi_upcall : Z -> Z -> Z -> mmi_call -> IO S Z).

(** What an uninitialised variable holds, and the pointer to the structure. *)
Context (uninit self : Z).

Definition llci_of : IO S stdcam_llci := s ← get_state; mret (get_llci s).
Definition llci_modify (f : stdcam_llci -> stdcam_llci) : IO S unit := modify (λ s, put_llci (f (get_llci s)) s).

(** [time(NULL)] *)
Definition time_now : IO S Z := t ← gettimeofday e; mret t.1.

(** A pointer that must not be NULL. *)
Definition not_null {A} (p : option A) : IO S A :=
  match p with Some a => mret a | None => io_fault BadPointer end.

(** [llci->sendfuncs]; the number of a session is an [uint16_t]. *)
Definition llci_send_data (session_number : Z) (data : list Z) : IO S Z :=
  en50221_sl_send_data e (u16 session_number) data.
Definition llci_send_datav (session_number : Z) (vector : list (list Z)) : IO S Z :=
  en50221_sl_send_datav e (u16 session_number) vector.

(** *** The callbacks of the resource manager, and of date and time *)

Definition llci_rm_enq_callback (session_number : Z) : IO S Z :=
  en50221_app_rm_reply llci_send_datav session_number resource_ids;; mret 0.

Definition llci_rm_reply_callback (session_number : Z) : IO S Z :=
  en50221_app_rm_changed llci_send_data session_number;; mret 0.

Definition llci_rm_changed_callback (session_number : Z) : IO S Z :=
  en50221_app_rm_enq llci_send_data session_number;; mret 0.

Definition llci_datetime_enquiry_callback (session_number response_interval : Z) : IO S Z :=
  llci_modify (set_interval response_interval 0);;
  (if negb (response_interval =? 0) then t ← time_now; llci_modify (set_next_send (t + response_interval))
   else mret tt);;
  llci ← llci_of;
  en50221_app_datetime_send llci_send_data session_number (ll_datetime_dvbtime llci) 0;;
  mret 0.

(** The callbacks that are registered: those of the standard CAM itself, or of the application. *)
Definition llci_upcall (arg slot_id session_number : Z) (c : app_call) : IO S Z :=
  match c with
  | RmEnquiry => llci_rm_enq_callback session_number
  | RmReply _ => llci_rm_reply_callback session_number
  | RmChanged => llci_rm_changed_callback session_number
  | DateTimeEnquiry response_interval => llci_datetime_enquiry_callback session_number response_interval
  | _ => upcall arg slot_id session_number c
  end.

(** *** The callbacks of the session layer *)

(** "limit sessions to certain resources": whether there is a session of the resource. *)
Definition session_in_place (llci : stdcam_llci) (requested_resource_id : Z) : bool :=
  if requested_resource_id =? EN50221_APP_DATETIME_RESOURCEID then negb (ll_datetime_session_number llci =? -1)
  else if requested_resource_id =? EN50221_APP_AI_RESOURCEID then
    negb (ai_session_number (ll_stdcam llci) =? -1)
  else if requested_resource_id =? EN50221_APP_CA_RESOURCEID then
    negb (ca_session_number (ll_stdcam llci) =? -1)
  else if requested_resource_id =? EN50221_APP_MMI_RESOURCEID then
    negb (mmi_session_number (ll_stdcam llci) =? -1)
  else false.

(** [resid.resource_class == ... && resid.resource_type == ...] *)
Definition same_resource (resid : public_resource_id) (r : llci_resource) : bool :=
  match lr_resid r with
  | Some id => (resource_class resid =? resource_class id) && (resource_type resid =? resource_type id)
  | None => false
  end.

Definition llci_lookup_callback (requested_resource_id : Z) : IO S (Z * option Z * option Z) :=
  match en50221_app_decode_public_resource_id requested_resource_id with
  | None => mret (-1, None, None)
  | Some resid =>
      llci ← llci_of;
      match List.find (same_resource resid) (ll_resources llci) with
      | None => mret (-1, None, None)
      | Some r =>
          if session_in_place llci requested_resource_id then mret (-3, None, None)
          else mret (0, Some (function_number (lr_callback r)), Some (lr_binary_resource_id r))
      end
  end.

Definition llci_session_callback (reason session_number resource_id : Z) : IO S Z :=
  llci ← llci_of;
  (if reason =? S_SCALLBACK_REASON_CAMCONNECTED then
     if resource_id =? EN50221_APP_RM_RESOURCEID then
       en50221_app_rm_enq llci_send_data session_number;; mret tt
     else if resource_id =? EN50221_APP_DATETIME_RESOURCEID then
       llci_modify (set_datetime_session session_number)
     else if resource_id =? EN50221_APP_AI_RESOURCEID then
       not_null (ai_resource (ll_stdcam llci));;
       en50221_app_ai_enquiry llci_send_data session_number;;
       llci_modify (upd_stdcam (set_ai_session session_number))
     else if resource_id =? EN50221_APP_CA_RESOURCEID then
       not_null (ca_resource (ll_stdcam llci));;
       en50221_app_ca_info_enq llci_send_data session_number;;
       llci_modify (upd_stdcam (set_ca_session session_number))
     else if resource_id =? EN50221_APP_MMI_RESOURCEID then
       llci_modify (upd_stdcam (set_mmi_session session_number))
     else mret tt
   else if reason =? S_SCALLBACK_REASON_CLOSE then
     if resource_id =? EN50221_APP_MMI_RESOURCEID then llci_modify (upd_stdcam (set_mmi_session (-1)))
     else if resource_id =? EN50221_APP_DATETIME_RESOURCEID then llci_modify (set_datetime_session (-1))
     else if resource_id =? EN50221_APP_AI_RESOURCEID then llci_modify (upd_stdcam (set_ai_session (-1)))
     else if resource_id =? EN50221_APP_CA_RESOURCEID then llci_modify (upd_stdcam (set_ca_session (-1)))
     else mret tt
   else mret tt);;
  mret 0.

(** The functions that are given the APDUs of a resource: those of conditional access and of MMI are
    parameters here, because they do not stay inside every APDU.  The lookup gives no other numbers than
    those of the five functions. *)
Definition llci_message_of (ca_message mmi_message : Z -> Z -> Z -> list Z -> IO S Z)
    (arg slot_id session_number resource_id : Z) (data : list Z) : IO S Z :=
  llci ← llci_of;
  if arg =? function_number RM_message then
    en50221_app_rm_message llci_upcall (ll_rm_resource llci) slot_id session_number resource_id data
  else if arg =? function_number DATETIME_message then
    en50221_app_datetime_message llci_upcall (ll_datetime_resource llci) slot_id session_number resource_id data
  else if arg =? function_number AI_message then
    ai ← not_null (ai_resource (ll_stdcam llci));
    en50221_app_ai_message llci_upcall ai slot_id session_number resource_id data
  else if arg =? function_number CA_message then ca_message slot_id session_number resource_id data
  else mmi_message slot_id session_number resource_id data.

Definition llci_ca_message (slot_id session_number resource_id : Z) (data : list Z) : IO S Z :=
  llci ← llci_of;
  ca ← not_null (ca_resource (ll_stdcam llci));
  en50221_app_ca_message llci_upcall ca slot_id session_number resource_id data.

Definition llci_mmi_message (slot_id session_number resource_id : Z) (data : list Z) : IO S Z :=
  llci ← llci_of;
  if mmi_resource (ll_stdcam llci) then
    en50221_app_mmi_message e mmi_upcall slot_id session_number resource_id data
  else io_fault BadPointer.

(** The layer above the session layer. *)
Definition llci_upper_of (ca_message mmi_message : Z -> Z -> Z -> list Z -> IO S Z) : upper_layer S :=
  Upper S (λ arg slot_id requested, llci_lookup_callback requested)
    (λ arg reason slot_id n id, llci_session_callback reason n id)
    (llci_message_of ca_message mmi_message).

Definition llci_upper : upper_layer S := llci_upper_of llci_ca_message llci_mmi_message.

(** *** The module in its slot

    [up] is what the session layer calls: [llci_upper], when the session layer has been given the callbacks
    of [en50221_stdcam_llci_create]. *)

Context (up : upper_layer S).

Definition tl_callback_of : callback S := en50221_sl_transport_callback e up uninit.

(** [tl_slot_id] is an [int], the slot of the transport layer an [uint8_t]. *)
Definition llci_cam_removed : IO S unit :=
  llci ← llci_of;
  (if negb (ll_tl_slot_id llci =? -1) then
     en50221_tl_destroy_slot tl_callback_of (u8 (ll_tl_slot_id llci));;
     llci_modify (λ l, no_sessions (set_tl_slot_id (-1) l))
   else mret tt);;
  llci_modify (set_cam_state CAM_NONE).

Definition llci_cam_added : IO S unit :=
  llci ← llci_of;
  (if negb (ll_tl_slot_id llci =? -1) then llci_cam_removed else mret tt);;
  dvbca_reset ca (ll_cafd llci) (u8 (ll_slotnum llci));;
  llci_modify (set_cam_state CAM_INRESET).

Definition llci_cam_in_reset : IO S unit :=
  llci ← llci_of;
  state ← dvbca_get_cam_state ca (ll_cafd llci) (u8 (ll_slotnum llci));
  if negb (state =? DVBCA_CAMSTATE_READY) then mret tt
  else
    id ← en50221_tl_register_slot (ll_cafd llci) (u8 (ll_slotnum llci)) LLCI_RESPONSE_TIMEOUT_MS LLCI_POLL_DELAY_MS;
    llci_modify (set_tl_slot_id id);;
    if id <? 0 then llci_modify (set_cam_state CAM_BAD)
    else
      r ← en50221_tl_new_tc e (u8 id);
      if r <? 0 then
        llci_modify (set_cam_state CAM_BAD);;
        llci_modify (set_tl_slot_id (-1));;
        llci ← llci_of;
        en50221_tl_destroy_slot tl_callback_of (u8 (ll_tl_slot_id llci))
      else llci_modify (set_cam_state CAM_OK).

(** "send date/time response" *)
Definition llci_send_datetime : IO S unit :=
  llci ← llci_of;
  if negb (ll_datetime_session_number llci =? -1) then
    cur_time ← time_now;
    if negb (ll_datetime_response_interval llci =? 0) && (ll_datetime_next_send llci <? cur_time) then
      en50221_app_datetime_send llci_send_data (ll_datetime_session_number llci) (ll_datetime_dvbtime llci) 0;;
      llci_modify (set_next_send (cur_time + ll_datetime_response_interval llci))
    else mret tt
  else mret tt.

Definition en50221_stdcam_llci_poll : IO S stdcam_status :=
  llci ← llci_of;
  state ← dvbca_get_cam_state ca (ll_cafd llci) (u8 (ll_slotnum llci));
  (if state =? DVBCA_CAMSTATE_MISSING then
     if bool_decide (ll_state llci = CAM_NONE) then mret tt else llci_cam_removed
   else if state =? DVBCA_CAMSTATE_READY then
     if bool_decide (ll_state llci = CAM_NONE) then llci_cam_added
     else if bool_decide (ll_state llci = CAM_INRESET) then llci_cam_in_reset
     else mret tt
   else mret tt);;
  en50221_tl_poll e tl_callback_of;;
  llci_send_datetime;;
  llci ← llci_of;
  mret (ll_state llci).

Definition en50221_stdcam_llci_dvbtime (dvbtime : Z) : IO S unit := llci_modify (set_dvbtime dvbtime).

Definition en50221_stdcam_llci_destroy (closefd : bool) : IO S unit :=
  llci_cam_removed;;
  llci ← llci_of;
  if closefd then sys_close (ll_cafd llci) else mret tt.

(** *** Creation *)

Definition llci_resource_of (f : resource_function) (resource_id : Z) : llci_resource :=
  LlciResource (en50221_app_decode_public_resource_id resource_id) resource_id f.

(** The resource manager and date and time are used without a look whether there was memory for them.
    The structure is the standard CAM of the state after it; false: NULL was returned. *)
Definition en50221_stdcam_llci_create (cafd slotnum : Z) : IO S bool :=
  ok ← malloc e;
  if negb ok then mret false
  else
    rm ← en50221_app_rm_create e;
    rm ← not_null rm;
    let rm := en50221_app_rm_register_changed_callback (Some self)
      (en50221_app_rm_register_reply_callback (Some self) (en50221_app_rm_register_enq_callback (Some self) rm)) in
    datetime ← en50221_app_datetime_create e;
    datetime ← not_null datetime;
    let datetime := en50221_app_datetime_register_enquiry_callback (Some self) datetime in
    ai ← en50221_app_ai_create e;
    ca ← en50221_app_ca_create e;
    mmi ← en50221_app_mmi_create e;
    match mmi with Some m => modify (put_mmi m) | None => mret tt end;;
    en50221_sl_register_lookup_callback (Some self);;
    en50221_sl_register_session_callback (Some self);;
    llci_modify (λ _, StdcamLlci
      (Stdcam ai ca (match mmi with Some _ => true | None => false end) (-1) (-1) (-1))
      cafd slotnum CAM_NONE
      [llci_resource_of RM_message EN50221_APP_RM_RESOURCEID;
       llci_resource_of DATETIME_message EN50221_APP_DATETIME_RESOURCEID;
       llci_resource_of AI_message EN50221_APP_AI_RESOURCEID;
       llci_resource_of CA_message EN50221_APP_CA_RESOURCEID;
       llci_resource_of MMI_message EN50221_APP_MMI_RESOURCEID]
      (-1) rm datetime (-1) 0 0 0);;
    mret true.
End Llci.

(** ** The high level *)

Section Hlci.
Context {S : Type} (e : env) (ca : ca_driver).
Context (upcall : Z -> Z -> Z -> app_call -> IO S Z).

Definition hlci_send_data (hlci : stdcam_hlci) (session_number : Z) (data : list Z) : IO S Z :=
  dvbca_hlci_write ca (hl_cafd hlci) data (u16 (zlen data)).

(** [data_size] has 32 bits, the length that is written 16. *)
Definition hlci_send_datav (hlci : stdcam_hlci) (session_number : Z) (vector : list (list Z)) : IO S Z :=
  let data_size := u32 (zlen (concat vector)) in
  ok ← malloc e;
  if negb ok then mret (-1)
  else if data_size <? zlen (concat vector) then io_fault OutOfBounds
  else dvbca_hlci_write ca (hl_cafd hlci) (concat vector) (u16 data_size).

Definition en50221_stdcam_hlci_create (cafd slotnum : Z) : IO S (option stdcam_hlci) :=
  ok ← malloc e;
  if negb ok then mret None
  else
    ai ← en50221_app_ai_create e;
    ca ← en50221_app_ca_create e;
    mret (Some (StdcamHlci (Stdcam ai ca false 0 1 (-1)) cafd slotnum false)).

(** What is returned, and the structure after it. *)
Definition hlci_cam_added (hlci : stdcam_hlci) : IO S (Z * stdcam_hlci) :=
  ai ← not_null (ai_resource (hl_stdcam hlci));
  r ← en50221_app_ai_enquiry (hlci_send_data hlci) 0;
  if negb (r =? 0) then mret (- EIO, hlci)
  else
    '(size, buf) ← dvbca_hlci_read ca (hl_cafd hlci) TAG_APP_INFO 256;
    if size <? 0 then mret (size, hlci)
    else
      r ← en50221_app_ai_message upcall ai 0 0 EN50221_APP_AI_RESOURCEID buf;
      if negb (r =? 0) then mret (- EIO, hlci)
      else
        ca ← not_null (ca_resource (hl_stdcam hlci));
        r ← en50221_app_ca_message upcall ca 0 0 EN50221_APP_CA_RESOURCEID
              [Z.shiftr TAG_CA_INFO 16; u8 (Z.shiftr TAG_CA_INFO 8); u8 TAG_CA_INFO; 0];
        if negb (r =? 0) then mret (- EIO, hlci)
        else mret (0, StdcamHlci (hl_stdcam hlci) (hl_cafd hlci) (hl_slotnum hlci) true).

Definition en50221_stdcam_hlci_poll (hlci : stdcam_hlci) : IO S (stdcam_status * stdcam_hlci) :=
  state ← dvbca_get_cam_state ca (hl_cafd hlci) (u8 (hl_slotnum hlci));
  hlci ←
    (if state =? DVBCA_CAMSTATE_MISSING then
       mret (StdcamHlci (hl_stdcam hlci) (hl_cafd hlci) (hl_slotnum hlci) false)
     else if (state =? DVBCA_CAMSTATE_READY) || (state =? DVBCA_CAMSTATE_INITIALISING) then
       if hl_initialised hlci then mret hlci else '(_, hlci) ← hlci_cam_added hlci; mret hlci
     else mret hlci);
  mret (if hl_initialised hlci then CAM_OK else CAM_NONE, hlci).

Definition en50221_stdcam_hlci_destroy (hlci : stdcam_hlci) (closefd : bool) : IO S unit :=
  if closefd then sys_close (hl_cafd hlci) else mret tt.
End Hlci.

(** ** Either *)

Inductive stdcam_device := LlciDevice | HlciDevice (hlci : stdcam_hlci).

(** [dvbca_open] failing is tested by [== -1], which is all that [open] returns. *)
Definition en50221_stdcam_create {S : Type} `{HasSessions S} `{HasMmi S} `{HasLlci S} (e : env) (ca : ca_driver)
    (self adapter slotnum : Z) : IO S (option stdcam_device) :=
  cafd ← dvbca_open ca adapter 0;
  if cafd =? -1 then mret None
  else
    ca_type ← dvbca_get_interface_type ca cafd (u8 slotnum);
    result ←
      (if ca_type =? DVBCA_INTERFACE_LINK then
         ok ← en50221_stdcam_llci_create e self cafd slotnum; mret (if ok : bool then Some LlciDevice else None)
       else if ca_type =? DVBCA_INTERFACE_HLCI then
         hlci ← en50221_stdcam_hlci_create e cafd slotnum; mret (HlciDevice <$> hlci)
       else mret None);
    match result with None => sys_close cafd | Some _ => mret tt end;;
    mret result.
