(* ===== verification/En50221StdcamCorrect.v ===== *)
(** * The standard CAM: properties

    The standard CAM is a layer above the session layer as that layer assumes it: the whole stack, driven by
    polling the standard CAM, runs without a memory fault; and what the module asks is answered. *)

From S2P Require Export DvbTypesCorrect En50221Stdcam En50221Resources.

(** ** Date and time *)

(** A time that a date of DVB can name, or the undefined one. *)
Definition dvb_time (t : Z) : Prop := t = -1 \/ good_mjd (t / 86400 + 40587).

Lemma unixtime_run t : dvb_time t -> exists date, unixtime_to_dvbdate t = Ok date /\ zlen date = 5 /\
  Forall byte date /\ dvbdate_to_unixtime 0 date = Ok t.
Proof.
  intros [-> | Ht]; [by exists [0xff; 0xff; 0xff; 0xff; 0xff]; split_and!; [..|solve_bytes|]|].
  destruct (Z.eq_dec t (-1)) as [->|Hne]; [by exists [0xff; 0xff; 0xff; 0xff; 0xff]; split_and!; [..|solve_bytes|]|].
  eexists. split; [by apply time_run|]. destruct (gmtime_fields t) as (_ & _ & _ & _ & Hh & Hm & Hs & Et).
  split_and!; [done| |rewrite date_run by (done || lia); f_equal; lia].
  unfold good_mjd in Ht. set (mjd := t / 86400 + 40587) in *.
  assert (Hb : forall v, 0 <= v < 100 -> byte (bcd v)).
  { intros v Hv. destruct (two_digits v Hv) as (_ & _ & <-). apply byte_u8. }
  unfold dvb_date. repeat apply Forall_cons_2; first [done|apply Hb; lia|unfold byte; Z.div_mod_to_equations; lia].
Qed.

Lemma date_time_run t offset : dvb_time t -> exists data, date_time_apdu t offset = Ok data /\ zlen data <= 11.
Proof.
  intros Ht. destruct (unixtime_run t Ht) as (date & Ed & Hl & _). unfold date_time_apdu. rewrite Ed.
  cbn [mbind res_bind]. eexists. split; [reflexivity|]. case_if; rewrite !length_app; cbn [app_tag length]; lia.
Qed.

(** ** The stack is safe *)

(** What the standard CAM knows of itself. *)
Record llci_wf (max_slots : Z) (l : stdcam_llci) : Prop := {
  lw_ai : is_Some (ai_resource (ll_stdcam l));
  lw_slot : ll_tl_slot_id l = -1 \/ 0 <= ll_tl_slot_id l < max_slots;
  lw_datetime_session : -1 <= ll_datetime_session_number l < 65536;
  lw_ca : is_Some (ca_resource (ll_stdcam l));
  lw_ai_session : -1 <= ai_session_number (ll_stdcam l) < 65536;
  lw_ca_session : -1 <= ca_session_number (ll_stdcam l) < 65536;
  lw_mmi_session : -1 <= mmi_session_number (ll_stdcam l) < 65536;
  lw_dvbtime : dvb_time (ll_datetime_dvbtime l);
}.

(** The steps of a module in its slot. *)
Inductive cam_step : stdcam_status -> stdcam_status -> Prop :=
  | cam_stays st : cam_step st st
  | cam_inserted : cam_step CAM_NONE CAM_INRESET
  | cam_started : cam_step CAM_INRESET CAM_OK
  | cam_not_started : cam_step CAM_INRESET CAM_BAD
  | cam_pulled st : cam_step st CAM_NONE.

(** The statuses that polling returns, from the first state to the last. *)
Inductive cam_path : stdcam_status -> list stdcam_status -> stdcam_status -> Prop :=
  | path_end st : cam_path st [] st
  | path_step st r rs st' : cam_step st r -> cam_path r rs st' -> cam_path st (r :: rs) st'.

Lemma cam_path_app st rs r rs' st' : cam_path st rs r -> cam_path r rs' st' -> cam_path st (rs ++ rs') st'.
Proof. intros Hp Hp'. induction Hp as [|st r rs st1 Hs _ IH]; [done|]. eapply path_step; [done|by apply IH]. Qed.

(** What an application does with a standard CAM: it polls, says what time it is, and sends on the sessions. *)
Inductive cam_op :=
  | CamPoll
  | CamDvbtime (dvbtime : Z)
  | CamSend (session_number : Z) (data : list Z)
  | CamSendv (session_number : Z) (vector : list (list Z)).

Definition cam_op_typed (op : cam_op) : Prop :=
  match op with
  | CamPoll => True
  | CamDvbtime t => dvb_time t
  | CamSend _ data => zlen data < 65536
  | CamSendv _ vector => zlen (concat vector) < 65536
  end.

Section CamOps.
Context {S : Type} `{HasTransport S} `{HasSessions S} `{HasLlci S} (e : env) (ca : ca_driver) (uninit : Z).
Context (up : upper_layer S).

Definition run_cam_op (op : cam_op) : IO S (list stdcam_status) :=
  match op with
  | CamPoll => r ← en50221_stdcam_llci_poll e ca uninit up; mret [r]
  | CamDvbtime t => en50221_stdcam_llci_dvbtime t;; mret []
  | CamSend n data => llci_send_data e n data;; mret []
  | CamSendv n vector => llci_send_datav e n vector;; mret []
  end.

Fixpoint run_cam_ops (ops : list cam_op) : IO S (list stdcam_status) :=
  match ops with
  | [] => mret []
  | op :: ops => rs ← run_cam_op op; rs' ← run_cam_ops ops; mret (rs ++ rs')
  end.
End CamOps.

Section StdcamSafety.
Context {S : Type} `{HT : HasTransport S} `{!TransportLaws S} `{HS : HasSessions S} `{!SessionLaws S}.
Context `{HM : HasMmi S} `{HL : HasLlci S} `{!LlciLaws S}.
Context (e : env) (ca : ca_driver) (upcall : Z -> Z -> Z -> app_call -> IO S Z) (uninit : Z).
Context (ca_message mmi_message : Z -> Z -> Z -> list Z -> IO S Z).
Context (max_slots max_connections max_sessions : Z) (sl0 : session_layer).
Hypothesis Hslots : 0 <= max_slots < 256.
Hypothesis Hconnections : 0 <= max_connections < 256.

(** The standard CAM is well formed, its module in state [st], in slot [id] of the transport layer. *)
Definition cam_at (st : stdcam_status) (id : Z) (s : S) : Prop :=
  llci_wf max_slots (get_llci s) /\ ll_state (get_llci s) = st /\ ll_tl_slot_id (get_llci s) = id.

(** What the callbacks are called under: both layers and the standard CAM. *)
Definition stack_inv (tl0 : transport_layer) (st : stdcam_status) (id : Z) : S -> Prop :=
  both max_slots max_connections tl0 max_sessions sl0 (cam_at st id).

(** The same, without the history of the connections. *)
Definition stack_wf (st : stdcam_status) (id : Z) : S -> Prop :=
  wf max_slots max_connections (upper max_sessions sl0 (cam_at st id)).

Lemma cam_at_tl st id tl s : cam_at st id s -> cam_at st id (put_tl tl s).
Proof. unfold cam_at. by rewrite get_llci_put_tl. Qed.

Lemma cam_at_sl st id sl s : cam_at st id s -> cam_at st id (put_sl sl s).
Proof. unfold cam_at. by rewrite get_llci_put_sl. Qed.

Lemma keeps_llci_of tl0 st id :
  keeps (stack_inv tl0 st id) llci_of (λ l, llci_wf max_slots l /\ ll_state l = st /\ ll_tl_slot_id l = id).
Proof. intros w Hw. split; [done|]. apply Hw. Qed.

Lemma keeps_llci_modify tl0 st id f :
  (forall l, llci_wf max_slots l -> llci_wf max_slots (f l) /\ ll_state (f l) = ll_state l /\
     ll_tl_slot_id (f l) = ll_tl_slot_id l) ->
  keeps (stack_inv tl0 st id) (llci_modify f) (λ _, True).
Proof.
  intros Hf. apply keeps_modify. intros s [H1 [H2 (Hwf & Est & Eid)]].
  destruct (Hf _ Hwf) as (Hwf' & Est' & Eid'). unfold stack_inv, both, inv, upper, cam_at.
  rewrite get_tl_put_llci, get_sl_put_llci, get_put_llci. split_and!; try done; congruence.
Qed.

(** *** The callbacks of the layers below *)

(** The callbacks of the application keep all that the layers below them rely on. *)
Hypothesis Hupcall : forall tl0 st id arg slot_id n c,
  keeps (stack_inv tl0 st id) (upcall arg slot_id n c) (λ _, True).
Hypothesis Hca : forall tl0 st id slot_id n resource_id data, Forall byte data ->
  keeps (stack_inv tl0 st id) (ca_message slot_id n resource_id data) (λ _, True).
Hypothesis Hmmi : forall tl0 st id slot_id n resource_id data, Forall byte data ->
  keeps (stack_inv tl0 st id) (mmi_message slot_id n resource_id data) (λ _, True).

Lemma keeps_send tl0 st id n data : zlen data < 65536 ->
  keeps (stack_inv tl0 st id) (llci_send_data e n data) (λ _, True).
Proof.
  intros Hl. eapply keeps_mono; [|done]. assert (0 <= u16 n) by (apply Z.mod_pos_bound; lia).
  apply sl_send_data_keeps; try done; [intros; by apply cam_at_tl|intros; by apply cam_at_sl].
Qed.

Lemma keeps_tag tl0 st id n tag :
  keeps (stack_inv tl0 st id) (send_tag (llci_send_data e) n tag) (λ _, True).
Proof. by apply keeps_send. Qed.

Lemma keeps_sendv tl0 st id n vector : zlen (concat vector) < 65536 ->
  keeps (stack_inv tl0 st id) (llci_send_datav e n vector) (λ _, True).
Proof.
  intros Hl. eapply keeps_mono; [|done]. assert (0 <= u16 n) by (apply Z.mod_pos_bound; lia).
  apply sl_send_datav_keeps; try done; [intros; by apply cam_at_tl|intros; by apply cam_at_sl|lia].
Qed.

(** Both of what follows, whatever the first returns. *)
Lemma keeps_seq {A B} (I : S -> Prop) (c : IO S A) (k : A -> IO S B) :
  keeps I c (λ _, True) -> (forall a, keeps I (k a) (λ _, True)) -> keeps I (c ≫= k) (λ _, True).
Proof. intros Hc Hk. eapply keeps_bind; [exact Hc|]. intros a _. apply Hk. Qed.

Lemma keeps_datetime_send tl0 st id n t : dvb_time t ->
  keeps (stack_inv tl0 st id) (en50221_app_datetime_send (llci_send_data e) n t 0) (λ _, True).
Proof.
  intros Ht. unfold en50221_app_datetime_send. destruct (date_time_run t 0 Ht) as (data & -> & Hl).
  intros w Hw. apply (keeps_send tl0 st id n data ltac:(lia) w Hw).
Qed.

Lemma upd_interval i t l : llci_wf max_slots l ->
  llci_wf max_slots (set_interval i t l) /\ ll_state (set_interval i t l) = ll_state l /\
    ll_tl_slot_id (set_interval i t l) = ll_tl_slot_id l.
Proof. intros [? ? ? ? ? ? ? ?]. by destruct l. Qed.

Lemma upd_next_send t l : llci_wf max_slots l ->
  llci_wf max_slots (set_next_send t l) /\ ll_state (set_next_send t l) = ll_state l /\
    ll_tl_slot_id (set_next_send t l) = ll_tl_slot_id l.
Proof. intros [? ? ? ? ? ? ? ?]. by destruct l. Qed.

Lemma upd_datetime_session n l : -1 <= n < 65536 -> llci_wf max_slots l ->
  llci_wf max_slots (set_datetime_session n l) /\ ll_state (set_datetime_session n l) = ll_state l /\
    ll_tl_slot_id (set_datetime_session n l) = ll_tl_slot_id l.
Proof. intros Hn [? ? ? ? ? ? ? ?]. by destruct l. Qed.

(** The sessions of the resources of the application. *)
Lemma upd_stdcam_session f n l : f ∈ [set_ai_session; set_ca_session; set_mmi_session] -> -1 <= n < 65536 ->
  llci_wf max_slots l ->
  llci_wf max_slots (upd_stdcam (f n) l) /\ ll_state (upd_stdcam (f n) l) = ll_state l /\
    ll_tl_slot_id (upd_stdcam (f n) l) = ll_tl_slot_id l.
Proof.
  intros Hf Hn [? ? ? ? ? ? ? ?]. destruct l. rewrite !elem_of_cons, elem_of_nil in Hf.
  by destruct Hf as [-> | [-> | [-> | []]]].
Qed.

Lemma datetime_enquiry_keeps tl0 st id n i :
  keeps (stack_inv tl0 st id) (llci_datetime_enquiry_callback e n i) (λ _, True).
Proof.
  apply keeps_seq; [apply keeps_llci_modify; apply upd_interval|]. intros _. apply keeps_seq.
  - case_if; [|by apply keeps_ret]. apply keeps_seq.
    + eapply keeps_bind; [apply keeps_gettimeofday|]. intros. by apply keeps_ret.
    + intros t. apply keeps_llci_modify. apply upd_next_send.
  - intros _. eapply keeps_bind; [apply keeps_llci_of|]. intros l [Hl _].
    apply keeps_seq; [by apply keeps_datetime_send, Hl|]. intros. by apply keeps_ret.
Qed.

(** The five numbers of the resources. *)
Lemma rm_reply_keeps tl0 st id n :
  keeps (stack_inv tl0 st id) (en50221_app_rm_reply (llci_send_datav e) n resource_ids) (λ _, True).
Proof. apply keeps_sendv. by vm_compute. Qed.

Lemma llci_upcall_keeps tl0 st id arg slot_id n c :
  keeps (stack_inv tl0 st id) (llci_upcall e upcall arg slot_id n c) (λ _, True).
Proof.
  destruct c; cbn [llci_upcall]; try apply Hupcall; try (by apply datetime_enquiry_keeps);
    (apply keeps_seq; [|intros; by apply keeps_ret]).
  - by apply rm_reply_keeps.
  - by apply keeps_tag.
  - by apply keeps_tag.
Qed.

Lemma session_callback_stays tl0 st id reason n resource_id : 0 <= n < 65536 ->
  keeps (stack_inv tl0 st id) (llci_session_callback e reason n resource_id) (λ _, True).
Proof.
  intros Hn. eapply keeps_bind; [apply keeps_llci_of|]. intros l (Hl & _).
  destruct (lw_ai _ _ Hl) as [ai Eai], (lw_ca _ _ Hl) as [c Eca]. rewrite Eai, Eca. cbn [not_null].
  apply keeps_seq; [|intros; by apply keeps_ret].
  assert (Hset : forall f m, f ∈ [set_ai_session; set_ca_session; set_mmi_session] -> -1 <= m < 65536 ->
    keeps (stack_inv tl0 st id) (llci_modify (upd_stdcam (f m))) (λ _, True)).
  { intros f m Hf Hm. apply keeps_llci_modify. intros. by apply upd_stdcam_session. }
  assert (Hdt : forall m, -1 <= m < 65536 ->
    keeps (stack_inv tl0 st id) (llci_modify (set_datetime_session m)) (λ _, True)).
  { intros m Hm. apply keeps_llci_modify. intros. by apply upd_datetime_session. }
  repeat case_if; first [by apply keeps_ret | apply Hdt; lia | apply Hset; [repeat constructor|lia] | idtac].
  - apply keeps_seq; [apply keeps_tag|]. intros. by apply keeps_ret.
  - apply keeps_seq; [apply keeps_ret; exact I|]. intros _. apply keeps_seq; [apply keeps_tag|]. intros _.
    apply Hset; [repeat constructor|lia].
  - apply keeps_seq; [apply keeps_ret; exact I|]. intros _. apply keeps_seq; [apply keeps_tag|]. intros _.
    apply Hset; [repeat constructor|lia].
Qed.

Lemma llci_message_keeps tl0 st id arg slot_id n resource_id apdu : Forall byte apdu ->
  keeps (stack_inv tl0 st id) (llci_message_of e upcall ca_message mmi_message arg slot_id n resource_id apdu)
    (λ _, True).
Proof.
  intros Hb. eapply keeps_bind; [apply keeps_llci_of|]. intros l (Hl & _).
  destruct (lw_ai _ _ Hl) as [ai Eai]. rewrite Eai.
  pose proof (llci_upcall_keeps tl0 st id) as Hup.
  case_if; [by apply rm_message_keeps|]. case_if; [by apply datetime_message_keeps|].
  case_if; [|case_if; [by apply Hca|by apply Hmmi]].
  apply keeps_seq; [by apply keeps_ret|]. intros a.
  by apply ai_message_keeps.
Qed.

(** The standard CAM is a layer above as the session layer assumes it. *)
Lemma llci_upper_ok tl0 st id :
  upper_ok (llci_upper_of e upcall ca_message mmi_message) max_slots max_connections tl0 max_sessions sl0 (cam_at st id).
Proof.
  split; cbn [llci_upper_of up_lookup up_session up_resource].
  - intros arg slot_id requested _. unfold llci_lookup_callback.
    destruct (en50221_app_decode_public_resource_id requested); [|by apply keeps_ret].
    eapply keeps_bind; [apply keeps_llci_of|]. intros l _.
    destruct (List.find _ _); [case_if|]; by apply keeps_ret.
  - intros. by apply session_callback_stays.
  - intros. by apply llci_message_keeps.
  - intros arg slot_id n id' _ _ w Hw. by split.
Qed.

(** *** The module in its slot *)

Hypothesis Henv : env_ok e max_slots.

Let up := llci_upper_of e upcall ca_message mmi_message.

Lemma wf_of_inv {A} st id (c : IO S A) R :
  (forall tl0, keeps (stack_inv tl0 st id) c R) -> keeps (stack_wf st id) c R.
Proof. apply keeps_wf. Qed.

Lemma stack_callback_keeps tl0 st id arg reason data slot_id con :
  byte slot_id -> byte con -> Forall byte data ->
  keeps (stack_inv tl0 st id) (tl_callback_of e uninit up arg reason data slot_id con) (λ _, True).
Proof.
  intros. apply transport_callback_keeps; try done;
    [intros; by apply cam_at_tl|intros; by apply cam_at_sl|apply llci_upper_ok].
Qed.

Lemma upper_cam_tl st id tl s :
  upper max_sessions sl0 (cam_at st id) s -> upper max_sessions sl0 (cam_at st id) (put_tl tl s).
Proof. apply upper_tl. intros. by apply cam_at_tl. Qed.

Lemma stack_poll_keeps st id :
  keeps (stack_wf st id) (en50221_tl_poll e (tl_callback_of e uninit up)) (λ _, True).
Proof.
  apply wf_of_inv. intros tl0. eapply keeps_mono; [|done].
  apply poll_keeps; [done..|intros; by apply upper_cam_tl| |done]. intros. by apply stack_callback_keeps.
Qed.

Lemma stack_destroy_keeps st id slot_id : 0 <= slot_id ->
  keeps (stack_wf st id) (en50221_tl_destroy_slot (tl_callback_of e uninit up) slot_id) (λ _, True).
Proof.
  intros Hs. apply destroy_slot_keeps; [done|apply upper_cam_tl| |done].
  intros. apply keeps_wf. intros. by apply stack_callback_keeps.
Qed.

(** The state of the module changes. *)
Lemma llci_moves st id st' id' f :
  (forall l, llci_wf max_slots l -> ll_state l = st -> ll_tl_slot_id l = id ->
     llci_wf max_slots (f l) /\ ll_state (f l) = st' /\ ll_tl_slot_id (f l) = id') ->
  hoare (on_state (stack_wf st id)) (llci_modify f) (λ _, on_state (stack_wf st' id')).
Proof.
  intros Hf w [H1 [H2 (Hwf & Est & Eid)]]. unfold llci_modify, modify, okay.
  unfold on_state, stack_wf, wf, upper, cam_at. cbn [w_state]. rewrite get_tl_put_llci, get_sl_put_llci, get_put_llci. split; [done|]. split; [done|]. by apply Hf.
Qed.

Lemma set_state_wf st id st' l : llci_wf max_slots l -> ll_state l = st -> ll_tl_slot_id l = id ->
  llci_wf max_slots (set_cam_state st' l) /\ ll_state (set_cam_state st' l) = st' /\
    ll_tl_slot_id (set_cam_state st' l) = id.
Proof. intros [? ? ? ? ? ? ? ?] _ <-. by destruct l. Qed.

Lemma set_slot_wf st id id' l : id' = -1 \/ 0 <= id' < max_slots ->
  llci_wf max_slots l -> ll_state l = st -> ll_tl_slot_id l = id ->
  llci_wf max_slots (set_tl_slot_id id' l) /\ ll_state (set_tl_slot_id id' l) = st /\
    ll_tl_slot_id (set_tl_slot_id id' l) = id'.
Proof. intros Hid [? ? ? ? ? ? ? ?] <- _. by destruct l. Qed.

Lemma no_sessions_wf st id l : llci_wf max_slots l -> ll_state l = st -> ll_tl_slot_id l = id ->
  llci_wf max_slots (no_sessions (set_tl_slot_id (-1) l)) /\ ll_state (no_sessions (set_tl_slot_id (-1) l)) = st /\
    ll_tl_slot_id (no_sessions (set_tl_slot_id (-1) l)) = -1.
Proof. intros [? ? ? ? ? ? ? ?] <- _. destruct l. split; [|done]. split; cbn; first [done|lia|by left]. Qed.

(** What is known of the standard CAM when it is read. *)
Lemma with_llci {A} st id (k : stdcam_llci -> IO S A) Q :
  (forall l, llci_wf max_slots l -> ll_state l = st -> ll_tl_slot_id l = id ->
     hoare (on_state (stack_wf st id)) (k l) Q) ->
  hoare (on_state (stack_wf st id)) (llci_of ≫= k) Q.
Proof. intros Hk w Hw. pose proof Hw as [_ [_ (H1 & H2 & H3)]]. by apply (Hk _ H1 H2 H3 w). Qed.

(** An action that keeps the state of the module, before the others. *)
Lemma moves_after {A B} st id (c : IO S A) (k : A -> IO S B) (R : A -> Prop) Q :
  keeps (stack_wf st id) c R -> (forall a, R a -> hoare (on_state (stack_wf st id)) (k a) Q) ->
  hoare (on_state (stack_wf st id)) (c ≫= k) Q.
Proof. intros Hc Hk. eapply hoare_bind; [exact Hc|]. intros a w [Hw Ha]. by apply Hk. Qed.

Lemma moves_bind {A B} st id st' id' (c : IO S A) (k : A -> IO S B) Q :
  hoare (on_state (stack_wf st id)) c (λ _, on_state (stack_wf st' id')) ->
  (forall a, hoare (on_state (stack_wf st' id')) (k a) Q) ->
  hoare (on_state (stack_wf st id)) (c ≫= k) Q.
Proof. intros Hc Hk. eapply hoare_bind; [exact Hc|]. intros a. apply Hk. Qed.

(** Whatever its slot and its state: the module is removed. *)
Lemma cam_removed_moves st id :
  hoare (on_state (stack_wf st id)) (llci_cam_removed e uninit up) (λ _, on_state (stack_wf CAM_NONE (-1))).
Proof.
  apply with_llci. intros l Hl Est Eid. apply moves_bind with st (-1).
  - destruct (Z.eqb_spec (ll_tl_slot_id l) (-1)) as [E|E]; cbn [negb].
    + assert (id = -1) as -> by congruence. by intros w Hw.
    + eapply moves_after; [apply stack_destroy_keeps, Z.mod_pos_bound; lia|]. intros _ _.
      apply llci_moves. intros. by eapply no_sessions_wf.
  - intros _. apply llci_moves. intros. by eapply set_state_wf.
Qed.

Lemma cam_state_keeps st id fd slot : keeps (stack_wf st id) (dvbca_get_cam_state ca fd slot) (λ _, True).
Proof. eapply keeps_bind; [apply keeps_tick|]. intros. by apply keeps_ret. Qed.

(** A module that works has a slot of the transport layer, any other none. *)
Definition slot_known (st : stdcam_status) (id : Z) : Prop :=
  (st = CAM_OK /\ 0 <= id < max_slots) \/ (st <> CAM_OK /\ id = -1).

(** The module is in state [r], one step from [st]. *)
Definition cam_now (st r : stdcam_status) (w : world S) : Prop :=
  cam_step st r /\ exists id, slot_known r id /\ on_state (stack_wf r id) w.

Lemma stays_now st id (w : world S) : slot_known st id -> on_state (stack_wf st id) w -> exists r, cam_now st r w.
Proof. intros Hk Hw. exists st. split; [constructor|]. by exists id. Qed.

Lemma cam_added_moves :
  hoare (on_state (stack_wf CAM_NONE (-1))) (llci_cam_added e ca uninit up) (λ _ w, exists r, cam_now CAM_NONE r w).
Proof.
  apply with_llci. intros l Hl Est Eid. rewrite Eid. change (negb (-1 =? -1)) with false. cbv iota.
  apply moves_after with (λ _, True); [by apply keeps_ret|]. intros _ _.
  eapply moves_after with (λ _, True).
  { eapply keeps_bind; [apply keeps_tick|]. intros n _. eapply keeps_bind; [apply keeps_log|]. intros. by apply keeps_ret. }
  intros _ _. eapply hoare_mono; [eapply (llci_moves _ _ CAM_INRESET (-1))| |].
  - intros. by eapply set_state_wf.
  - done.
  - intros ? w Hw. exists CAM_INRESET. split; [constructor|]. exists (-1). split; [by right|done].
Qed.

Lemma cam_in_reset_moves :
  hoare (on_state (stack_wf CAM_INRESET (-1))) (llci_cam_in_reset e ca uninit up)
    (λ _ w, exists r, cam_now CAM_INRESET r w).
Proof.
  apply with_llci. intros l Hl Est Eid. eapply moves_after; [apply cam_state_keeps|]. intros state _.
  case_if; [intros w Hw; by apply (stays_now _ (-1)); [right|]|].
  eapply moves_after with (λ r, -1 <= r < max_slots).
  { apply wf_of_inv. intros tl0. apply register_slot_keeps; [done..|intros; by apply upper_cam_tl]. }
  intros id Hid. apply moves_bind with CAM_INRESET id.
  { apply llci_moves. intros. eapply set_slot_wf; [lia|done..]. }
  intros _. destruct (Z.ltb_spec id 0).
  - assert (id = -1) as -> by lia. eapply hoare_mono; [eapply (llci_moves _ _ CAM_BAD (-1))|done|].
    + intros. by eapply set_state_wf.
    + intros ? w Hw. exists CAM_BAD. split; [constructor|]. exists (-1). split; [by right|done].
  - eapply moves_after with (λ _, True).
    { apply wf_of_inv. intros tl0. eapply keeps_mono; [|done].
      apply new_tc_keeps; [done..|intros; by apply upper_cam_tl|apply Z.mod_pos_bound; lia]. }
    intros r _. case_if.
    + apply moves_bind with CAM_BAD id; [apply llci_moves; intros; by eapply set_state_wf|]. intros _.
      apply moves_bind with CAM_BAD (-1); [apply llci_moves; intros; eapply set_slot_wf; [by left|done..]|]. intros _.
      apply with_llci. intros l' Hl' _ _. eapply hoare_mono; [apply (stack_destroy_keeps CAM_BAD (-1))|done|].
      * apply Z.mod_pos_bound. lia.
      * intros ? w [Hw _]. exists CAM_BAD. split; [constructor|]. exists (-1). split; [by right|done].
    + eapply hoare_mono; [eapply (llci_moves _ _ CAM_OK id)|done|].
      * intros. by eapply set_state_wf.
      * intros ? w Hw. exists CAM_OK. split; [constructor|]. exists id. split; [left; split; [done|lia]|done].
Qed.

Lemma send_datetime_keeps st id : keeps (stack_wf st id) (llci_send_datetime e) (λ _, True).
Proof.
  apply wf_of_inv. intros tl0. eapply keeps_bind; [apply keeps_llci_of|]. intros l (Hl & _).
  case_if; [|by apply keeps_ret].
  eapply keeps_bind with (Q := λ _, True).
  { eapply keeps_bind; [apply keeps_gettimeofday|]. intros. by apply keeps_ret. }
  intros now _. case_if; [|by apply keeps_ret].
  apply keeps_seq; [apply keeps_datetime_send, Hl|]. intros _. apply keeps_llci_modify. apply upd_next_send.
Qed.

Lemma cam_poll_moves st id : slot_known st id ->
  hoare (on_state (stack_wf st id)) (en50221_stdcam_llci_poll e ca uninit up) (cam_now st).
Proof.
  intros Hk. apply with_llci. intros l Hl Est Eid. eapply moves_after; [apply cam_state_keeps|]. intros state _.
  eapply hoare_bind with (Q := λ _ w, exists r, cam_now st r w).
  - rewrite Est. clear Est. assert (Hstay : hoare (S := S) (on_state (stack_wf st id)) (mret tt) (λ _ w, exists r, cam_now st r w)).
    { intros w Hw. by eapply stays_now. }
    case_if; [|case_if; [|done]].
    + case_bool_decide; [done|]. eapply hoare_mono; [apply cam_removed_moves|done|].
      intros ? w Hw. exists CAM_NONE. split; [constructor|]. exists (-1). split; [by right|done].
    + destruct Hk as [[-> ?] | [? ->]]; [done|]. case_bool_decide; [subst st; apply cam_added_moves|].
      case_bool_decide; [subst st; apply cam_in_reset_moves|done].
  - intros _ w (r & Hstep & id' & Hk' & Hw). revert w Hw.
    change (hoare (on_state (stack_wf r id')) (en50221_tl_poll e (tl_callback_of e uninit up);;
      llci_send_datetime e;; llci ← llci_of; mret (ll_state llci)) (cam_now st)).
    eapply moves_after; [apply stack_poll_keeps|]. intros _ _.
    eapply moves_after; [apply send_datetime_keeps|]. intros _ _.
    apply with_llci. intros l' _ <- _ w Hw. split; [done|]. by exists id'.
Qed.

(** *** Sequences of calls *)

Lemma dvbtime_moves st id t : dvb_time t ->
  keeps (stack_wf st id) (en50221_stdcam_llci_dvbtime t) (λ _, True).
Proof.
  intros Ht. apply wf_of_inv. intros tl0. apply keeps_llci_modify. intros l [? ? ? ? ? ? ? ?]. by destruct l.
Qed.

Lemma cam_op_moves st op : cam_op_typed op ->
  hoare (λ w, exists id, slot_known st id /\ on_state (stack_wf st id) w) (run_cam_op e ca uninit up op)
    (λ rs w, exists r, cam_path st rs r /\ exists id, slot_known r id /\ on_state (stack_wf r id) w).
Proof.
  intros Ht w (id & Hk & Hw). revert w Hw.
  assert (Hkeep : forall (c : IO S Z), (forall tl0, keeps (stack_inv tl0 st id) c (λ _, True)) ->
    hoare (on_state (stack_wf st id)) (c;; mret [])
      (λ rs w, exists r, cam_path st rs r /\ exists id, slot_known r id /\ on_state (stack_wf r id) w)).
  { intros c Hc. eapply moves_after; [apply wf_of_inv, Hc|]. intros _ _ w Hw. exists st.
    split; [constructor|]. by exists id. }
  destruct op; cbn [run_cam_op cam_op_typed] in *.
  - eapply hoare_bind; [by apply cam_poll_moves|]. intros r w (Hstep & Hr). exists r.
    split; [by eapply path_step; [|constructor]|done].
  - eapply moves_after; [by apply dvbtime_moves|]. intros _ _ w Hw. exists st. split; [constructor|]. by exists id.
  - apply Hkeep. intros. by apply keeps_send.
  - apply Hkeep. intros. by apply keeps_sendv.
Qed.

Lemma cam_ops_move ops : Forall cam_op_typed ops -> forall st,
  hoare (λ w, exists id, slot_known st id /\ on_state (stack_wf st id) w) (run_cam_ops e ca uninit up ops)
    (λ rs w, exists r, cam_path st rs r /\ exists id, slot_known r id /\ on_state (stack_wf r id) w).
Proof.
  induction 1 as [|op ops Ht _ IH]; intros st; cbn [run_cam_ops].
  { intros w Hw. exists st. split; [constructor|done]. }
  intros w Hw. pose proof (cam_op_moves st op Ht w Hw) as Hop. unfold mbind, io_bind at 1.
  destruct (run_cam_op e ca uninit up op w) as [[rs w1]|]; [|done]. destruct Hop as (r & Hp & Hw1).
  specialize (IH r w1 Hw1). unfold mbind, io_bind.
  destruct (run_cam_ops e ca uninit up ops w1) as [[rs' w2]|]; [|done].
  destruct IH as (r' & Hp' & Hw2). exists r'. split; [by eapply cam_path_app|done].
Qed.
End StdcamSafety.

(** *** From its creation on *)

Section Creation.
Context {S : Type} `{HT : HasTransport S} `{!TransportLaws S} `{HS : HasSessions S} `{!SessionLaws S}.
Context `{HM : HasMmi S} `{HL : HasLlci S} `{!LlciLaws S}.
Context (e : env) (self : Z).

(** A part of the state that the MMI does not change. *)
Hypothesis Hmmi_tl : forall m s, get_tl (put_mmi m s) = get_tl s.
Hypothesis Hmmi_sl : forall m s, get_sl (put_mmi m s) = get_sl s.

Definition next_tick (w : world S) : world S := World (w_state w) (Datatypes.S (w_tick w)) (w_log w).

Lemma malloc_at (w : world S) : e_malloc e (w_tick w) = true -> malloc e w = Ok (true, next_tick w).
Proof. intros Hm. unfold malloc, tick, mbind, io_bind, mret, io_ret. by rewrite Hm. Qed.

Lemma create_at {A} (a : A) (w : world S) :
  e_malloc e (w_tick w) = true -> create e a w = Ok (Some a, next_tick w).
Proof. intros Hm. unfold create. by rewrite (io_bind_run _ _ _ _ _ (malloc_at w Hm)). Qed.

(** The callbacks are registered, and nothing else of the layers changes. *)
Lemma llci_create_run cafd slotnum max_slots (w : world S) :
  (forall k, (w_tick w <= k < w_tick w + 6)%nat -> e_malloc e k = true) ->
  exists w', en50221_stdcam_llci_create e self cafd slotnum w = Ok (true, w') /\
    get_tl (w_state w') = get_tl (w_state w) /\
    get_sl (w_state w') = set_session (Some self) (set_lookup (Some self) (get_sl (w_state w))) /\
    llci_wf max_slots (get_llci (w_state w')) /\ ll_state (get_llci (w_state w')) = CAM_NONE /\
    ll_tl_slot_id (get_llci (w_state w')) = -1.
Proof.
  intros Hm. unfold en50221_stdcam_llci_create.
  erewrite io_bind_run by (apply malloc_at, Hm; cbn; lia). cbn [negb].
  do 2 (erewrite io_bind_run by (apply create_at, Hm; cbn; lia); erewrite io_bind_run by reflexivity).
  do 3 (erewrite io_bind_run by (apply create_at, Hm; cbn; lia)).
  do 4 (erewrite io_bind_run by reflexivity). eexists. split; [reflexivity|]. cbn [w_state next_tick].
  rewrite get_tl_put_llci, get_sl_put_llci, get_put_llci, !get_put_sl, !get_tl_put_sl, Hmmi_tl, Hmmi_sl.
  split_and!; try done. split; cbn; try lia; [done..|]. right. unfold good_mjd. change (0 / 86400) with 0. lia.
Qed.
End Creation.

(** ** Properties *)

(** C13: The standard CAM, from its creation on (for which memory can be allocated), through all layers: whatever the module sends (short of an empty
    T_DATA_MORE), and the driver and the operating system answer, polling it, setting the time and sending
    run to their end without a memory fault.  The transport layer, the session layer and the standard CAM are
    well formed then; the module has a slot of the transport layer exactly when it works; and the statuses that
    polling has returned are steps of the module in its slot.  The callbacks of the application, and the
    functions for the messages of conditional access and of MMI, must keep all that the layers rely on. *)
Theorem stdcam_calls_safe {S} `{HT : HasTransport S} `{!TransportLaws S} `{HS : HasSessions S}
    `{!SessionLaws S} `{HM : HasMmi S} `{HL : HasLlci S} `{!LlciLaws S} e ca upcall uninit self cafd slotnum
    ca_message mmi_message max_slots max_connections max_sessions ops (w : world S) :
  0 <= max_slots < 256 -> 0 <= max_connections < 256 ->
  (forall m s, get_tl (put_mmi m s) = get_tl s) -> (forall m s, get_sl (put_mmi m s) = get_sl s) ->
  (forall k, (w_tick w <= k < w_tick w + 6)%nat -> e_malloc e k = true) ->
  (forall sl0 tl0 st id arg slot_id n c,
     keeps (stack_inv max_slots max_connections max_sessions sl0 tl0 st id) (upcall arg slot_id n c) (λ _, True)) ->
  (forall sl0 tl0 st id slot_id n resource_id data, Forall byte data ->
     keeps (stack_inv max_slots max_connections max_sessions sl0 tl0 st id)
       (ca_message slot_id n resource_id data) (λ _, True)) ->
  (forall sl0 tl0 st id slot_id n resource_id data, Forall byte data ->
     keeps (stack_inv max_slots max_connections max_sessions sl0 tl0 st id)
       (mmi_message slot_id n resource_id data) (λ _, True)) ->
  env_ok e max_slots -> Forall cam_op_typed ops ->
  tl_wf max_slots max_connections (get_tl (w_state w)) -> sl_wf max_sessions (get_sl (w_state w)) ->
  okay ((en50221_stdcam_llci_create e self cafd slotnum;;
         run_cam_ops e ca uninit (llci_upper_of e upcall ca_message mmi_message) ops) w) (λ '(rs, w'),
    let llci := get_llci (w_state w') in
    tl_wf max_slots max_connections (get_tl (w_state w')) /\ sl_wf max_sessions (get_sl (w_state w')) /\
    llci_wf max_slots llci /\ cam_path CAM_NONE rs (ll_state llci) /\
    (ll_state llci = CAM_OK <-> ll_tl_slot_id llci <> -1)).
Proof.
  intros Hs Hc Hmt Hms Hm Hup Hca Hmmi He Hops Hw1 Hw2.
  destruct (llci_create_run e self Hmt Hms cafd slotnum max_slots w Hm) as (w1 & Hr & Etl & Esl & Hwf & Est & Eid).
  rewrite (io_bind_run _ _ _ _ _ Hr). set (sl0 := get_sl (w_state w1)).
  assert (Hsl : sl_wf max_sessions sl0) by (unfold sl0; rewrite Esl; by destruct Hw2).
  eapply okay_mono.
  - apply (cam_ops_move e ca upcall uninit ca_message mmi_message max_slots max_connections max_sessions sl0
      Hs Hc (Hup sl0) (Hca sl0) (Hmmi sl0) He ops Hops CAM_NONE w1).
    exists (-1). split; [by right|]. split; [by rewrite Etl|]. split; [by apply sl_inv_refl|done].
  - intros [rs w2] (r & Hp & id & Hk & [Htl [[Hsl' _] (Hl & Er & Ei)]]). cbv zeta. rewrite Er, Ei.
    split_and!; [done..|]. destruct Hk as [[-> ?] | [Hr0 ->]]; split; intros; first [done | lia].
Qed.

(** *** Witnesses *)

Definition demo_llci : stdcam_llci :=
  StdcamLlci (Stdcam (Some (AppAi None)) (Some (AppCa None None)) true (-1) (-1) (-1)) 5 0 CAM_OK
    [llci_resource_of RM_message EN50221_APP_RM_RESOURCEID;
     llci_resource_of DATETIME_message EN50221_APP_DATETIME_RESOURCEID;
     llci_resource_of AI_message EN50221_APP_AI_RESOURCEID;
     llci_resource_of CA_message EN50221_APP_CA_RESOURCEID;
     llci_resource_of MMI_message EN50221_APP_MMI_RESOURCEID]
    0 (AppRm (Some 7) (Some 7) (Some 7)) (AppDatetime (Some 7)) (-1) 0 0 400164300.

Definition no_mmi : app_mmi := AppMmi None None None None None None None None None None None [].

Definition no_upcall {C} (arg slot_id n : Z) (c : C) : IO ci_stack Z := mret 0.

(** An empty slot for a connection of its own, no session, and a standard CAM of memory that was not used yet. *)
Definition new_stack : world ci_stack :=
  World (CiStack (TransportLayer 1 2 [Slot (-1) 0 (replicate 2 idle_connection) 0 0] [(0, 0)] true 0 0 (Some 42))
           (SessionLayer 3 None None 0 (replicate 3 (fresh_session 0))) no_mmi demo_llci) 0 [].

Definition ready_driver : ca_driver :=
  CaDriver (λ _ _, 5) (λ _, Some (2, 3)) (λ _, 0) (λ _, 0) (λ _, (0, 0, [])).

(** A module that accepts the connection, and then asks for a session with the resource manager each time. *)
Definition asking_env : env := Env (λ _, true) (λ _, 0)
  (λ n, if (n <? 40)%nat then Some [0; 1; 0x83; 1; 1] else Some ([0; 1] ++ [0xA0; 7; 1; 0x91; 4; 0; 1; 0; 0x41]))
  (λ n, (Z.of_nat n, 0)) (λ _, (1, [1])).

Lemma asking_env_ok : env_ok asking_env 1.
Proof.
  split.
  - done.
  - intros n bs. cbn [e_read asking_env]. destruct (n <? 40)%nat; intros E; apply (inj Some) in E; subst bs; solve_bytes.
  - intros n bs. cbn [e_read asking_env]. destruct (n <? 40)%nat; intros E; apply (inj Some) in E; subst bs; reflexivity.
Qed.

Definition cam_ops : list cam_op :=
  [CamPoll; CamDvbtime 400164300; CamPoll; CamPoll; CamPoll; CamPoll; CamPoll; CamPoll; CamPoll; CamPoll;
   CamSend 1 [0x9F; 0x80; 0x12; 0]].

Lemma cam_ops_typed : Forall cam_op_typed cam_ops.
Proof.
  unfold cam_ops. repeat (apply Forall_cons_2; [first [exact I|by vm_compute|right; split; vm_compute; discriminate]|]).
  constructor.
Qed.

(** The module starts to work, asks for sessions with the resource manager, and is asked for its profile. *)
Example cam_run :
  match (en50221_stdcam_llci_create asking_env 7 5 0;;
      run_cam_ops asking_env ready_driver 0 (llci_upper asking_env no_upcall no_upcall) cam_ops) new_stack with
  | Ok (rs, w) => (rs, ss_state <$> sl_sessions (get_sl (w_state w)), w_log w) =
      ([CAM_INRESET; CAM_OK; CAM_OK; CAM_OK; CAM_OK; CAM_OK; CAM_OK; CAM_OK; CAM_OK],
       [S_STATE_IDLE; S_STATE_ACTIVE; S_STATE_ACTIVE],
       [SlotsReset 5 1; Called 42 0 [] 0 1; SessionCalled 7 6 0 1 0; Written 5 [0; 1; 0x82; 1; 1];
        Called 42 2 [0x91; 4; 0; 1; 0; 0x41] 0 1; SessionCalled 7 0 0 1 65601; SessionCalled 7 1 0 1 65601;
        Written 5 [0; 1; 0xA0; 10; 1; 0x92; 7; 0; 0; 1; 0; 0x41; 0; 1];
        Called 42 2 [0x91; 4; 0; 1; 0; 0x41] 0 1; SessionCalled 7 0 0 2 65601; SessionCalled 7 1 0 2 65601;
        Written 5 [0; 1; 0xA0; 9; 1; 0x90; 2; 0; 1; 0x9F; 0x80; 0x10; 0]])
  | Err _ => False
  end.
Proof. vm_compute. reflexivity. Qed.

Lemma stdcam_calls_safe_witness :
  okay ((en50221_stdcam_llci_create asking_env 7 5 0;;
         run_cam_ops asking_env ready_driver 0
           (llci_upper_of asking_env no_upcall (λ _ _ _ _, mret 0) (λ _ _ _ _, mret 0)) cam_ops) new_stack)
    (λ '(rs, w'),
      let llci := get_llci (w_state w') in
      tl_wf 1 2 (get_tl (w_state w')) /\ sl_wf 3 (get_sl (w_state w')) /\ llci_wf 1 llci /\
      cam_path CAM_NONE rs (ll_state llci) /\ (ll_state llci = CAM_OK <-> ll_tl_slot_id llci <> -1)).
Proof.
  apply (stdcam_calls_safe asking_env ready_driver no_upcall 0 7 5 0 (λ _ _ _ _, mret 0) (λ _ _ _ _, mret 0)
    1 2 3 cam_ops new_stack).
  - lia.
  - lia.
  - done.
  - done.
  - done.
  - intros. by apply keeps_ret.
  - intros. by apply keeps_ret.
  - intros. by apply keeps_ret.
  - apply asking_env_ok.
  - apply cam_ops_typed.
  - split; [done..| |]; apply Forall_cons_2; [done|constructor| |constructor].
    apply Forall_replicate. split; cbn; [done|by intros [|? []]|by constructor].
  - split; [done..|]. apply Forall_replicate. by split.
Defined.

(** ** Where the code goes wrong *)

(** A second session of a resource is refused, but not when the module asks for another version of it. *)
Lemma second_session_refused :
  let llci := upd_stdcam (set_ai_session 1) demo_llci in
  let w := World (CiStack (ci_tl (w_state new_stack)) (ci_sl (w_state new_stack)) no_mmi llci) 0 [] in
  llci_lookup_callback EN50221_APP_AI_RESOURCEID w = Ok ((-3, None, None), w) /\
  llci_lookup_callback (MKRID 2 1 2) w = Ok ((0, Some (function_number AI_message), Some EN50221_APP_AI_RESOURCEID), w).
Proof. by split. Qed.

(** A slot whose connection cannot be created is not given back: the number of the slot is cleared first. *)
Lemma slot_not_given_back :
  let e := Env (λ _, false) (λ _, 0) (λ _, None) (λ _, (0, 0)) (λ _, (0, [0])) in
  let llci := set_tl_slot_id (-1) (set_cam_state CAM_INRESET demo_llci) in
  let w := World (CiStack (ci_tl (w_state new_stack)) (ci_sl (w_state new_stack)) no_mmi llci) 0 [] in
  match llci_cam_in_reset e ready_driver 0 (llci_upper e no_upcall no_upcall) w with
  | Ok (_, w') => ll_state (get_llci (w_state w')) = CAM_BAD /\ ll_tl_slot_id (get_llci (w_state w')) = -1 /\
      (s_ca_hndl <$> tl_slots (get_tl (w_state w'))) = [5]
  | Err _ => False
  end.
Proof. vm_compute. split_and!; reflexivity. Qed.

(** Without memory for the resource manager its pointer is used all the same. *)
Lemma resource_manager_null :
  en50221_stdcam_llci_create (Env (λ n, (n <? 1)%nat) (λ _, 0) (λ _, None) (λ _, (0, 0)) (λ _, (0, [0]))) 7 5 0 new_stack =
  Err BadPointer.
Proof. reflexivity. Qed.
