(* ===== verification/En50221StdcamServe.v ===== *)
(** * The standard CAM: the module is served

    What the module asks of the resource manager and of date and time is answered on the same session,
    through all layers. *)

From S2P Require Export En50221StdcamCorrect.

(** The callbacks of the standard CAM itself are registered with its resources. *)
Record llci_registered (self : Z) (l : stdcam_llci) : Prop := {
  lr_rm : ll_rm_resource l = AppRm (Some self) (Some self) (Some self);
  lr_datetime : ll_datetime_resource l = AppDatetime (Some self);
  lr_time : dvb_time (ll_datetime_dvbtime l);
}.

(** The resource that a message is for, and the right answer to it, at the time [t]. *)
Definition served_by (c : app_call) : resource_function :=
  match c with DateTimeEnquiry _ => DATETIME_message | _ => RM_message end.

Definition answers_call (t : Z) (c : app_call) (apdu : list Z) : Prop :=
  match c with
  | RmEnquiry => apdu = call_apdu (RmReply resource_ids)
  | RmReply _ => apdu = call_apdu RmChanged
  | RmChanged => apdu = call_apdu RmEnquiry
  | DateTimeEnquiry _ =>
      exists date, apdu = app_tag TAG_DATE_TIME ++ [7] ++ date ++ [0; 0] /\ zlen date = 5 /\
        dvbdate_to_unixtime 0 date = Ok t
  | _ => False
  end.

(** What the standard CAM remembers of it. *)
Definition remembers (c : app_call) (l l' : stdcam_llci) : Prop :=
  match c with
  | DateTimeEnquiry interval =>
      exists t, l' = set_interval interval t l /\ (interval = 0 -> t = 0)
  | _ => l' = l
  end.

Section Serving.
Context {S : Type} `{HT : HasTransport S} `{!TransportLaws S} `{HS : HasSessions S} `{!SessionLaws S}.
Context `{HM : HasMmi S} `{HL : HasLlci S} `{!LlciLaws S}.
Context (e : env) (upcall : Z -> Z -> Z -> app_call -> IO S Z) (mmi_upcall : Z -> Z -> Z -> mmi_call -> IO S Z).
Context (uninit self : Z).
Hypothesis Hmalloc : forall k, e_malloc e k = true.

(** A session [n] on connection [con] of a slot, with the state of the connection. *)
Record session_ready (w : world S) (n slot_id con resource_id arg : Z) (c : connection) (hndl num : Z) : Prop := {
  sr_open : session_open (get_sl (w_state w)) n slot_id con resource_id arg;
  sr_up : connection_up (get_tl (w_state w)) slot_id con c hndl num;
}.

(** The answer [apdu] is queued, and nothing else changes in the layers. *)
Definition queued (n slot_id con : Z) (c : connection) (apdu : list Z) (w w' : world S) : Prop :=
  only_connection slot_id con (set_send_queue (c_send_queue c ++ [tpdu T_DATA_LAST con (package n apdu)]) c)
    (get_tl (w_state w)) (get_tl (w_state w')) /\
  get_sl (w_state w') = get_sl (w_state w).

Lemma untouched_llci (s s' : S) : untouched s s' -> get_llci s' = get_llci s.
Proof. intros Hu. apply (Hu (λ s', get_llci s' = get_llci s)); [|done]. intros tl s0. by rewrite get_llci_put_tl. Qed.

Lemma send_queued n slot_id con resource_id arg c hndl num data (w : world S) :
  session_ready w n slot_id con resource_id arg c hndl num -> zlen data < 65531 ->
  exists w', llci_send_data e n data w = Ok (0, w') /\ queued n slot_id con c data w w' /\
    get_llci (w_state w') = get_llci (w_state w).
Proof.
  intros [[Hat Hn Hmax] Hup] Hl. unfold llci_send_data. rewrite u16_id by lia.
  destruct (sl_send_run e Hmalloc n slot_id con resource_id (Some arg) data c hndl num w Hat) as (w' & Hr & Ho & _ & Hu);
    [lia|done..|].
  exists w'. split; [done|]. split; [by split; [|apply untouched_sl]|by apply untouched_llci].
Qed.

Lemma sendv_queued n slot_id con resource_id arg c hndl num vector (w : world S) :
  session_ready w n slot_id con resource_id arg c hndl num -> zlen vector <= 9 -> zlen (concat vector) < 65531 ->
  exists w', llci_send_datav e n vector w = Ok (0, w') /\ queued n slot_id con c (concat vector) w w' /\
    get_llci (w_state w') = get_llci (w_state w).
Proof.
  intros [[Hat Hn Hmax] Hup] Hv Hl. unfold llci_send_datav. rewrite u16_id by lia.
  destruct (sl_sendv_run e Hmalloc n slot_id con resource_id (Some arg) vector c hndl num w Hat) as (w' & Hr & Ho & _ & Hu);
    [lia|done..|].
  exists w'. split; [done|]. split; [by split; [|apply untouched_sl]|by apply untouched_llci].
Qed.

(** Changing the standard CAM leaves the session as it is. *)
Lemma modify_ready f (w : world S) n slot_id con resource_id arg c hndl num :
  session_ready w n slot_id con resource_id arg c hndl num ->
  session_ready (World (put_llci (f (get_llci (w_state w))) (w_state w)) (w_tick w) (w_log w))
    n slot_id con resource_id arg c hndl num.
Proof. intros [Ho Hup]. split; cbn [w_state]; by rewrite ?get_sl_put_llci, ?get_tl_put_llci. Qed.

Lemma tick_ready (w : world S) k n slot_id con resource_id arg c hndl num :
  session_ready w n slot_id con resource_id arg c hndl num ->
  session_ready (World (w_state w) k (w_log w)) n slot_id con resource_id arg c hndl num.
Proof. by intros [Ho Hup]. Qed.

(** The callbacks answer. *)
Definition upcall_answers (w : world S) (n slot_id con : Z) (c : connection) (call : app_call) : Prop :=
  exists apdu w', (forall arg, llci_upcall e upcall arg slot_id n call w = Ok (0, w')) /\
    answers_call (ll_datetime_dvbtime (get_llci (w_state w))) call apdu /\ queued n slot_id con c apdu w w' /\
    remembers call (get_llci (w_state w)) (get_llci (w_state w')).

(** A first action that returns 0 and queues the answer. *)
Lemma then_zero {A} (k : IO S A) (w w' : world S) a : k w = Ok (a, w') -> (k;; mret 0) w = Ok (0, w').
Proof. intros E. by rewrite (io_bind_run _ _ _ _ _ E). Qed.

Lemma tag_answered n slot_id con resource_id arg c hndl num tag (w : world S) :
  session_ready w n slot_id con resource_id arg c hndl num ->
  exists w', (send_tag (llci_send_data e) n tag;; mret 0) w = Ok (0, w') /\
    queued n slot_id con c (app_tag tag ++ [0]) w w' /\ get_llci (w_state w') = get_llci (w_state w).
Proof.
  intros Hw. destruct (send_queued n slot_id con resource_id arg c hndl num (app_tag tag ++ [0]) w Hw) as (w' & Hr & Hq);
    [cbn; lia|].
  exists w'. split; [by eapply then_zero|done].
Qed.

Lemma profile_answered n slot_id con resource_id arg c hndl num (w : world S) :
  session_ready w n slot_id con resource_id arg c hndl num -> upcall_answers w n slot_id con c RmEnquiry.
Proof.
  intros Hw. unfold upcall_answers. cbn [llci_upcall llci_rm_enq_callback answers_call remembers].
  unfold llci_rm_enq_callback. rewrite rm_reply_run.
  2: { unfold resource_ids. repeat (apply Forall_cons_2; [by vm_compute|]). constructor. }
  2: done.
  set (vector := [_; _]).
  assert (Ev : concat vector = call_apdu (RmReply resource_ids)) by (unfold vector; cbn [concat]; by rewrite app_nil_r, <- app_assoc).
  assert (El : zlen (call_apdu (RmReply resource_ids)) < 65531) by by vm_compute.
  destruct (sendv_queued n slot_id con resource_id arg c hndl num vector w Hw) as (w' & Hr & Hq & Hll);
    [done|by rewrite Ev|].
  rewrite Ev in Hq. exists (call_apdu (RmReply resource_ids)), w'. split_and!; try done.
  intros _. by eapply then_zero.
Qed.

Lemma datetime_answered n slot_id con resource_id arg c hndl num interval (w : world S) :
  session_ready w n slot_id con resource_id arg c hndl num -> dvb_time (ll_datetime_dvbtime (get_llci (w_state w))) ->
  upcall_answers w n slot_id con c (DateTimeEnquiry interval).
Proof.
  intros Hw Ht. set (l := get_llci (w_state w)) in *.
  assert (Hset : exists t w1, (interval = 0 -> t = 0) /\ session_ready w1 n slot_id con resource_id arg c hndl num /\
    get_llci (w_state w1) = set_interval interval t l /\ get_tl (w_state w1) = get_tl (w_state w) /\
    get_sl (w_state w1) = get_sl (w_state w) /\ forall B (k : IO S B),
    (llci_modify (set_interval interval 0);;
     (if negb (interval =? 0) then t ← time_now e; llci_modify (set_next_send (t + interval)) else mret tt);; k) w = k w1).
  { destruct (Z.eqb_spec interval 0) as [->|Hi]; cbn [negb].
    - exists 0. eexists. split; [done|]. split; [by apply (modify_ready (set_interval 0 0))|].
      cbn [w_state]. rewrite get_put_llci, get_tl_put_llci, get_sl_put_llci. by split_and!.
    - set (t := (e_clock e (w_tick w)).1). exists (t + interval). eexists. split; [done|].
      split; [apply (modify_ready (set_next_send (t + interval))), (λ w', tick_ready w' (Datatypes.S (w_tick w))),
        (modify_ready (set_interval interval 0)), Hw|].
      cbn [w_state w_tick w_log]. split_and!; [|by rewrite ?get_tl_put_llci|by rewrite ?get_sl_put_llci|done].
      rewrite !get_put_llci. unfold l. by destruct (get_llci (w_state w)). }
  destruct Hset as (t & w1 & Hi & Hw1 & Hl1 & Htl1 & Hsl1 & Hk).
  destruct (unixtime_run _ Ht) as (date & Ed & Hlen & _ & Hback).
  set (apdu := app_tag TAG_DATE_TIME ++ [7] ++ date ++ [0; 0]).
  assert (Hadpu : zlen apdu < 65531) by (unfold apdu; rewrite !length_app; cbn [app_tag length]; lia).
  destruct (send_queued n slot_id con resource_id arg c hndl num apdu w1 Hw1 Hadpu) as (w' & Hr & Hq & Hll).
  exists apdu, w'. split_and!.
  - intros arg'. cbn [llci_upcall]. unfold llci_datetime_enquiry_callback. rewrite Hk.
    unfold llci_of. erewrite io_bind_run by reflexivity. rewrite Hl1.
    replace (ll_datetime_dvbtime (set_interval interval t l)) with (ll_datetime_dvbtime l) by (unfold l; by destruct (get_llci (w_state w))).
    eapply then_zero. unfold en50221_app_datetime_send, date_time_apdu. rewrite Ed. cbn [mbind res_bind]. exact Hr.
  - by exists date.
  - unfold queued in *. by rewrite <- Htl1, <- Hsl1.
  - exists t. by rewrite Hll.
Qed.

(** The messages that the standard CAM answers itself. *)
Definition answerable (call : app_call) : Prop :=
  match call with
  | RmEnquiry | RmChanged => True
  | RmReply ids => Forall (λ id, 0 <= id < 2 ^ 32) ids /\ zlen ids < 16380
  | DateTimeEnquiry i => byte i
  | _ => False
  end.

Lemma answerable_ok call : answerable call ->
  call_ok call /\ Forall byte (call_body call) /\ zlen (call_body call) < 65524.
Proof.
  destruct call; (try by intros []); intros Hc.
  - destruct Hc as [Hids Hl]. destruct (rm_reply_body resource_ids) as [E Hb]. rewrite E. split; [split; [done|lia]|]. split; [done|lia].
  - split_and!; [done|by constructor|done].
Qed.

Lemma call_answered n slot_id con resource_id arg c hndl num call (w : world S) :
  session_ready w n slot_id con resource_id arg c hndl num -> dvb_time (ll_datetime_dvbtime (get_llci (w_state w))) ->
  answerable call -> upcall_answers w n slot_id con c call.
Proof.
  intros Hw Ht Hc. destruct call; try done.
  - by eapply profile_answered.
  - destruct (tag_answered n slot_id con resource_id arg c hndl num TAG_PROFILE_CHANGE w Hw) as (w' & Hr & Hq & Hl).
    exists (call_apdu RmChanged), w'. by split_and!.
  - destruct (tag_answered n slot_id con resource_id arg c hndl num TAG_PROFILE_ENQUIRY w Hw) as (w' & Hr & Hq & Hl).
    exists (call_apdu RmEnquiry), w'. by split_and!.
  - by eapply datetime_answered.
Qed.

(** The function of the resource is given the message, and calls the callback. *)
Lemma message_upcall slot_id n resource_id call (w : world S) :
  llci_registered self (get_llci (w_state w)) -> answerable call ->
  up_resource (llci_upper e upcall mmi_upcall) (function_number (served_by call)) slot_id n resource_id (call_apdu call) w =
  llci_upcall e upcall self slot_id n call w.
Proof.
  intros [Hrm Hdt _] Hc. destruct (answerable_ok call Hc) as [Hok _].
  cbn [up_resource llci_upper llci_upper_of]. unfold llci_message_of. unfold llci_of at 1.
  erewrite io_bind_run by (erewrite io_bind_run by reflexivity; reflexivity).
  pose (a := Apps (AppAi None) (AppRm (Some self) (Some self) (Some self)) (AppCa None None) (AppAuth None)
    (AppDvb None None None) (AppDatetime (Some self)) (AppEpg None) (AppTeletext None) (AppSmartcard None None)).
  pose proof (every_call_understood (llci_upcall e upcall) a slot_id n resource_id call Hok w) as Hu.
  destruct call; try done; cbn [served_by function_number]; rewrite ?Hrm, ?Hdt; exact Hu.
Qed.
End Serving.

(** C15: The module is served through all layers: when it sends on a session of the resource manager its enquiry,
    its own profile or that the profile has changed, or on a session of date and time the enquiry for the
    time, the answer is queued for it on the same session, in one TPDU behind what was queued before.  The
    profile lists the five resources of the standard CAM; the date is read by the module as the time that the
    application has set.  Nothing else changes in the layers, and the standard CAM remembers how often
    it has to send the time. *)
Theorem module_served {S} `{HT : HasTransport S} `{!TransportLaws S} `{HS : HasSessions S} `{!SessionLaws S}
    `{HM : HasMmi S} `{HL : HasLlci S} `{!LlciLaws S} e upcall mmi_upcall uninit self sl_arg n slot_id con
    resource_id c hndl num call (w : world S) :
  (forall k, e_malloc e k = true) -> byte con -> answerable call ->
  session_ready w n slot_id con resource_id (function_number (served_by call)) c hndl num ->
  c_chain c = NoChain -> tl_callback (get_tl (w_state w)) = Some sl_arg ->
  llci_registered self (get_llci (w_state w)) ->
  exists apdu w',
    en50221_tl_process_data e
      (en50221_sl_transport_callback e (llci_upper e upcall mmi_upcall) uninit) slot_id
      (tpdu T_DATA_LAST con (package n (call_apdu call))) w = Ok (0, w') /\
    answers_call (ll_datetime_dvbtime (get_llci (w_state w))) call apdu /\
    queued n slot_id con (clear_tx_time c) apdu w w' /\
    remembers call (get_llci (w_state w)) (get_llci (w_state w')).
Proof.
  intros Hm Hcon Hc [Ho Hup] Hch Hcb Hreg. destruct (answerable_ok call Hc) as (_ & Hb & Hl).
  pose proof Ho as [_ Hn Hmax]. pose proof (call_apdu_is_apdu call Hb ltac:(lia)) as Ha.
  destruct (is_apdu_length _ Ha) as [Hne Hbytes]. destruct Hup as [Hs Hcm Hh Hp Hat Hst].
  assert (Elen : zlen (call_apdu call) < 65530).
  { unfold call_apdu. rewrite !length_app. unfold asn_field.
    destruct (asn_1_encode_form (zlen (call_body call)) []) as (lf & -> & _ & _ & ?); [lia|].
    cbn [app_tag length default from_option id]. lia. }
  destruct (data_stream_delivered e (en50221_sl_transport_callback e (llci_upper e upcall mmi_upcall) uninit) []
    (package n (call_apdu call)) slot_id con c sl_arg w) as (w1 & Ho1 & Hu & _ & Hr); try done.
  { apply Forall_cons_2; [|constructor]. split; [|done]. split; [apply package_bytes; [lia|done]|].
    unfold package, number_bytes. cbn [app length]. lia. }
  pose proof (untouched_sl _ _ Hu) as Esl. pose proof (untouched_llci _ _ Hu) as Ell.
  assert (Hready : session_ready w1 n slot_id con resource_id (function_number (served_by call)) (clear_tx_time c) hndl num).
  { split; [by rewrite Esl|]. destruct Ho1 as [H1 H2 H3 H4 H5 H6]. split; rewrite ?H5, ?H6, ?H3; try done. }
  set (w2 := World (w_state w1) (w_tick w1) (w_log w1 ++
    [ResourceCalled (function_number (served_by call)) slot_id n resource_id (call_apdu call)])).
  assert (Hready2 : session_ready w2 n slot_id con resource_id (function_number (served_by call)) (clear_tx_time c) hndl num)
    by by destruct Hready.
  destruct (call_answered e upcall Hm n slot_id con resource_id _ (clear_tx_time c) hndl num call w2 Hready2)
    as (apdu & w' & Hans & Hap & Hq & Hrem); [cbn [w_state w2]; rewrite Ell; apply Hreg|done|].
  exists apdu, w'. split_and!.
  - cbn [concat app] in Hr. unfold data_stream in Hr. cbn [fmap list_fmap concat app] in Hr. rewrite Hr.
    assert (Eapdu : package n (call_apdu call) = package n (concat [call_apdu call] ++ [])) by (cbn [concat]; by rewrite !app_nil_r).
    rewrite Eapdu. eapply then_zero.
    rewrite (callback_package_run e (llci_upper e upcall mmi_upcall) uninit sl_arg n slot_id con resource_id
      (function_number (served_by call)) [call_apdu call] [] w1).
    + cbn [resource_calls]. erewrite io_bind_run by reflexivity. fold w2.
      erewrite io_bind_run by (rewrite message_upcall with (self := self); [apply Hans|cbn [w_state w2]; by rewrite Ell|done]).
      reflexivity.
    + by apply Hready.
    + by apply Forall_cons_2.
    + apply cut_nil.
  - cbn [w_state w2] in Hap. by rewrite Ell in Hap.
  - destruct Hq as [Hq1 Hq2]. split; [|cbn [w_state w2] in *; congruence].
    eapply only_connection_trans; [exact Ho1|exact Hq1].
  - cbn [w_state w2] in Hrem. by rewrite Ell in Hrem.
Qed.

(** *** Witnesses *)

Definition demo_sessions : session_layer :=
  SessionLayer 3 (Some 7) (Some 7) 0
    [fresh_session 0; Session S_STATE_ACTIVE EN50221_APP_RM_RESOURCEID 0 1 (Some 0);
     Session S_STATE_ACTIVE EN50221_APP_DATETIME_RESOURCEID 0 1 (Some 1)].

Definition demo_stack : world ci_stack := World (CiStack (ready_layer []) demo_sessions no_mmi demo_llci) 0 [].

Lemma module_served_witness :
  exists apdu w',
    en50221_tl_process_data demo_env
      (en50221_sl_transport_callback demo_env (llci_upper demo_env no_upcall no_upcall) 0) 0
      [0xA0; 10; 1; 0x90; 2; 0; 2; 0x9F; 0x84; 0x40; 1; 10] demo_stack = Ok (0, w') /\
    answers_call 400164300 (DateTimeEnquiry 10) apdu /\
    queued 2 0 1 (clear_tx_time (ready_connection [])) apdu demo_stack w' /\
    remembers (DateTimeEnquiry 10) demo_llci (get_llci (w_state w')).
Proof.
  refine (module_served demo_env no_upcall no_upcall 0 7 42 2 0 1 EN50221_APP_DATETIME_RESOURCEID
    (ready_connection []) 5 3 (DateTimeEnquiry 10) demo_stack _ _ _ _ _ _ _); try done.
  - split; [by split|apply both_ready_up].
  - split; [done|done|]. right. split; vm_compute; discriminate.
Defined.

(** The answers: the profile, and Monday the 6th of September 1982, 10:45:00. *)
Example served_run :
  match en50221_tl_process_data demo_env
      (en50221_sl_transport_callback demo_env (llci_upper demo_env no_upcall no_upcall) 0) 0
      ([0xA0; 9; 1; 0x90; 2; 0; 1; 0x9F; 0x80; 0x10; 0] ++ [0xA0; 10; 1; 0x90; 2; 0; 2; 0x9F; 0x84; 0x40; 1; 10])
      demo_stack with
  | Ok (r, w) => r = 0 /\ (c_send_queue <$> connection_at (get_tl (w_state w)) 0 1) = Some
      [[0xA0; 29; 1; 0x90; 2; 0; 1; 0x9F; 0x80; 0x11; 20; 0; 1; 0; 0x41; 0; 3; 0; 0x41; 0; 2; 0; 0x41; 0; 64; 0; 0x41; 0; 36; 0; 0x41];
       [0xA0; 16; 1; 0x90; 2; 0; 2; 0x9F; 0x84; 0x41; 7; 0xB0; 0xA2; 0x12; 0x45; 0; 0; 0]]
  | Err _ => False
  end.
Proof. vm_compute. split; reflexivity. Qed.

(** ** A device that speaks the protocol itself *)

Section Hlci.
Context {S : Type} (e : env) (ca : ca_driver) (upcall : Z -> Z -> Z -> app_call -> IO S Z).

(** After [n] more calls of the system, and with [events] logged. *)
Definition went_on (n : nat) (events : list event) (w : world S) : world S :=
  World (w_state w) (n + w_tick w) (w_log w ++ events).

(** A module that is there but was not asked yet: the host asks for its application information, hands the
    answer to the callback of the application, tells it that there are no CA systems, and the module works. *)
Lemma hlci_module_started hlci ai c t m code menu w w1 w2 length msg :
  ai_resource (hl_stdcam hlci) = Some ai -> ca_resource (hl_stdcam hlci) = Some c -> hl_initialised hlci = false ->
  In (cam_state_of (ca_slot_info ca (w_tick w))) [DVBCA_CAMSTATE_READY; DVBCA_CAMSTATE_INITIALISING] ->
  ca_send_msg ca (Datatypes.S (w_tick w)) = 0 ->
  ca_get_msg ca (Datatypes.S (Datatypes.S (w_tick w))) = (0, length, msg) -> 0 <= length <= 256 -> length <= zlen msg ->
  call_ok (AiInfo t m code menu) -> take (Z.to_nat length) msg = call_apdu (AiInfo t m code menu) ->
  let asked := went_on 3 [MessageSent (hl_cafd hlci) [0x9F; 0x80; 0x20; 0]] w in
  tell upcall (ai_callback ai) 0 0 (AiInfo t m code menu) asked = Ok (0, w1) ->
  tell upcall (ca_info_callback c) 0 0 (CaInfo []) w1 = Ok (0, w2) ->
  en50221_stdcam_hlci_poll ca upcall hlci w =
    Ok ((CAM_OK, StdcamHlci (hl_stdcam hlci) (hl_cafd hlci) (hl_slotnum hlci) true), w2).
Proof.
  intros Eai Eca Hi Hst Hsend Hget Hl Hlm Hok Hmsg asked Hai Hca. unfold en50221_stdcam_hlci_poll.
  erewrite io_bind_run by reflexivity.
  pose (a := Apps ai (AppRm None None None) c (AppAuth None) (AppDvb None None None) (AppDatetime None)
    (AppEpg None) (AppTeletext None) (AppSmartcard None None)).
  pose proof (every_call_understood upcall a 0 0 EN50221_APP_AI_RESOURCEID (AiInfo t m code menu) Hok) as Hu_ai.
  assert (Hnone : call_ok (CaInfo [])) by (split; [constructor|done]).
  pose proof (every_call_understood upcall a 0 0 EN50221_APP_CA_RESOURCEID (CaInfo []) Hnone) as Hu_ca.
  assert (Hadded : forall v, v = World (w_state w) (Datatypes.S (w_tick w)) (w_log w) ->
    hlci_cam_added ca upcall hlci v = Ok ((0, StdcamHlci (hl_stdcam hlci) (hl_cafd hlci) (hl_slotnum hlci) true), w2)).
  { intros v ->. unfold hlci_cam_added. rewrite Eai. erewrite io_bind_run by reflexivity.
    erewrite io_bind_run by reflexivity.
    cbn [w_tick]. rewrite Hsend. change (negb (0 =? 0)) with false. cbv iota.
    erewrite io_bind_run by (unfold dvbca_hlci_read; erewrite io_bind_run by reflexivity; cbn [w_tick]; rewrite Hget;
      change (0 <? 0) with false; change (256 <? u16 256) with false; change (u16 256) with 256; cbv iota zeta;
      rewrite (proj2 (Z.ltb_ge 256 length)) by lia; rewrite (proj2 (Z.ltb_ge (zlen msg) length)) by lia; reflexivity).
    cbv beta iota. rewrite (proj2 (Z.ltb_ge length 0)) by lia. rewrite Hmsg.
    erewrite io_bind_run by (etransitivity; [exact (Hu_ai _)|exact Hai]).
    change (negb (0 =? 0)) with false. cbv iota. rewrite Eca. erewrite io_bind_run by reflexivity.
    erewrite io_bind_run by (etransitivity; [exact (Hu_ca _)|exact Hca]).
    done. }
  erewrite io_bind_run.
  2: { rewrite Hi. destruct Hst as [<- | [<- | []]]; exact (io_bind_run _ _ _ _ _ (Hadded _ eq_refl)). }
  done.
Qed.
End Hlci.

(** The module names itself. *)
Example hlci_run :
  let ai := [0x9F; 0x80; 0x21; 8; 1; 0; 5; 0; 7; 2; 0x43; 0x49] in
  en50221_stdcam_hlci_poll (CaDriver (λ _ _, 5) (λ _, Some (1, 3)) (λ _, 0) (λ _, 0) (λ _, (0, 12, ai ++ replicate 244 0)))
    recording (StdcamHlci (Stdcam (Some (AppAi (Some 1))) (Some (AppCa (Some 2) None)) false 0 1 (-1)) 5 0 false)
    (World tt 0 []) =
  Ok ((CAM_OK, StdcamHlci (Stdcam (Some (AppAi (Some 1))) (Some (AppCa (Some 2) None)) false 0 1 (-1)) 5 0 true),
    World tt 3 [MessageSent 5 [0x9F; 0x80; 0x20; 0]; ResourceCalled 1 0 0 TAG_APP_INFO [1; 0; 5; 0; 7; 2; 0x43; 0x49];
                ResourceCalled 2 0 0 TAG_CA_INFO []]).
Proof. vm_compute. reflexivity. Qed.
