(* ===== verification/Frontend.v ===== *)
(** * dvbfe.c: the tuner

    The library's view of a frontend device: the parameters of a tuning are translated between the
    enumerations of the library and those of the kernel, and the device is asked with [ioctl].  What the
    driver answers is a parameter ([fe_env]): each answer is a function of the number of the call.  What was
    asked of it is the state. *)

From S2P Require Export Io.

(** ** dvbfe.h *)

(** [enum dvbfe_type] *)
Definition DVBFE_TYPE_DVBS : Z := 0.
Definition DVBFE_TYPE_DVBC : Z := 1.
Definition DVBFE_TYPE_DVBT : Z := 2.
Definition DVBFE_TYPE_ATSC : Z := 3.

(** [enum dvbfe_spectral_inversion] *)
Definition DVBFE_INVERSION_OFF : Z := 0.
Definition DVBFE_INVERSION_ON : Z := 1.
Definition DVBFE_INVERSION_AUTO : Z := 2.

(** [enum dvbfe_code_rate] *)
Definition DVBFE_FEC_NONE : Z := 0.
Definition DVBFE_FEC_1_2 : Z := 1.
Definition DVBFE_FEC_2_3 : Z := 2.
Definition DVBFE_FEC_3_4 : Z := 3.
Definition DVBFE_FEC_4_5 : Z := 4.
Definition DVBFE_FEC_5_6 : Z := 5.
Definition DVBFE_FEC_6_7 : Z := 6.
Definition DVBFE_FEC_7_8 : Z := 7.
Definition DVBFE_FEC_8_9 : Z := 8.
Definition DVBFE_FEC_AUTO : Z := 9.

(** [enum dvbfe_dvbt_const] *)
Definition DVBFE_DVBT_CONST_QPSK : Z := 0.
Definition DVBFE_DVBT_CONST_QAM_16 : Z := 1.
Definition DVBFE_DVBT_CONST_QAM_32 : Z := 2.
Definition DVBFE_DVBT_CONST_QAM_64 : Z := 3.
Definition DVBFE_DVBT_CONST_QAM_128 : Z := 4.
Definition DVBFE_DVBT_CONST_QAM_256 : Z := 5.
Definition DVBFE_DVBT_CONST_AUTO : Z := 6.

(** [enum dvbfe_dvbc_mod] *)
Definition DVBFE_DVBC_MOD_QAM_16 : Z := 0.
Definition DVBFE_DVBC_MOD_QAM_32 : Z := 1.
Definition DVBFE_DVBC_MOD_QAM_64 : Z := 2.
Definition DVBFE_DVBC_MOD_QAM_128 : Z := 3.
Definition DVBFE_DVBC_MOD_QAM_256 : Z := 4.
Definition DVBFE_DVBC_MOD_AUTO : Z := 5.

(** [enum dvbfe_atsc_mod] *)
Definition DVBFE_ATSC_MOD_QAM_64 : Z := 0.
Definition DVBFE_ATSC_MOD_QAM_256 : Z := 1.
Definition DVBFE_ATSC_MOD_VSB_8 : Z := 2.
Definition DVBFE_ATSC_MOD_VSB_16 : Z := 3.
Definition DVBFE_ATSC_MOD_AUTO : Z := 4.

(** [enum dvbfe_dvbt_transmit_mode] *)
Definition DVBFE_DVBT_TRANSMISSION_MODE_2K : Z := 0.
Definition DVBFE_DVBT_TRANSMISSION_MODE_8K : Z := 1.
Definition DVBFE_DVBT_TRANSMISSION_MODE_AUTO : Z := 2.

(** [enum dvbfe_dvbt_bandwidth] *)
Definition DVBFE_DVBT_BANDWIDTH_8_MHZ : Z := 0.
Definition DVBFE_DVBT_BANDWIDTH_7_MHZ : Z := 1.
Definition DVBFE_DVBT_BANDWIDTH_6_MHZ : Z := 2.
Definition DVBFE_DVBT_BANDWIDTH_AUTO : Z := 3.

(** [enum dvbfe_dvbt_guard_interval] *)
Definition DVBFE_DVBT_GUARD_INTERVAL_1_32 : Z := 0.
Definition DVBFE_DVBT_GUARD_INTERVAL_1_16 : Z := 1.
Definition DVBFE_DVBT_GUARD_INTERVAL_1_8 : Z := 2.
Definition DVBFE_DVBT_GUARD_INTERVAL_1_4 : Z := 3.
Definition DVBFE_DVBT_GUARD_INTERVAL_AUTO : Z := 4.

(** [enum dvbfe_dvbt_hierarchy] *)
Definition DVBFE_DVBT_HIERARCHY_NONE : Z := 0.
Definition DVBFE_DVBT_HIERARCHY_1 : Z := 1.
Definition DVBFE_DVBT_HIERARCHY_2 : Z := 2.
Definition DVBFE_DVBT_HIERARCHY_4 : Z := 3.
Definition DVBFE_DVBT_HIERARCHY_AUTO : Z := 4.

(** [enum dvbfe_sec_voltage] *)
Definition DVBFE_SEC_VOLTAGE_13 : Z := 0.
Definition DVBFE_SEC_VOLTAGE_18 : Z := 1.
Definition DVBFE_SEC_VOLTAGE_OFF : Z := 2.

(** [enum dvbfe_sec_tone_mode] *)
Definition DVBFE_SEC_TONE_ON : Z := 0.
Definition DVBFE_SEC_TONE_OFF : Z := 1.

(** [enum dvbfe_sec_mini_cmd] *)
Definition DVBFE_SEC_MINI_A : Z := 0.
Definition DVBFE_SEC_MINI_B : Z := 1.

(** [enum dvbfe_info_mask] *)
Definition DVBFE_INFO_LOCKSTATUS : Z := 0x01.
Definition DVBFE_INFO_FEPARAMS : Z := 0x02.
Definition DVBFE_INFO_BER : Z := 0x04.
Definition DVBFE_INFO_SIGNAL_STRENGTH : Z := 0x08.
Definition DVBFE_INFO_SNR : Z := 0x10.
Definition DVBFE_INFO_UNCORRECTED_BLOCKS : Z := 0x20.

(** [enum dvbfe_info_querytype] *)
Definition DVBFE_INFO_QUERYTYPE_IMMEDIATE : Z := 0.
Definition DVBFE_INFO_QUERYTYPE_LOCKCHANGE : Z := 1.

(** ** frontend.h: the interface of the kernel *)

(** [enum fe_type] *)
Definition FE_QPSK : Z := 0.
Definition FE_QAM : Z := 1.
Definition FE_OFDM : Z := 2.
Definition FE_ATSC : Z := 3.

(** [enum fe_sec_voltage] *)
Definition SEC_VOLTAGE_13 : Z := 0.
Definition SEC_VOLTAGE_18 : Z := 1.
Definition SEC_VOLTAGE_OFF : Z := 2.

(** [enum fe_sec_tone_mode] *)
Definition SEC_TONE_ON : Z := 0.
Definition SEC_TONE_OFF : Z := 1.

(** [enum fe_sec_mini_cmd] *)
Definition SEC_MINI_A : Z := 0.
Definition SEC_MINI_B : Z := 1.

(** [enum fe_status] *)
Definition FE_HAS_SIGNAL : Z := 0x01.
Definition FE_HAS_CARRIER : Z := 0x02.
Definition FE_HAS_VITERBI : Z := 0x04.
Definition FE_HAS_SYNC : Z := 0x08.
Definition FE_HAS_LOCK : Z := 0x10.
Definition FE_TIMEDOUT : Z := 0x20.
Definition FE_REINIT : Z := 0x40.

(** [enum fe_spectral_inversion] *)
Definition INVERSION_OFF : Z := 0.
Definition INVERSION_ON : Z := 1.
Definition INVERSION_AUTO : Z := 2.

(** [enum fe_code_rate] *)
Definition FEC_NONE : Z := 0.
Definition FEC_1_2 : Z := 1.
Definition FEC_2_3 : Z := 2.
Definition FEC_3_4 : Z := 3.
Definition FEC_4_5 : Z := 4.
Definition FEC_5_6 : Z := 5.
Definition FEC_6_7 : Z := 6.
Definition FEC_7_8 : Z := 7.
Definition FEC_8_9 : Z := 8.
Definition FEC_AUTO : Z := 9.

(** [enum fe_modulation] *)
Definition QPSK : Z := 0.
Definition QAM_16 : Z := 1.
Definition QAM_32 : Z := 2.
Definition QAM_64 : Z := 3.
Definition QAM_128 : Z := 4.
Definition QAM_256 : Z := 5.
Definition QAM_AUTO : Z := 6.
Definition VSB_8 : Z := 7.
Definition VSB_16 : Z := 8.

(** [enum fe_transmit_mode] *)
Definition TRANSMISSION_MODE_2K : Z := 0.
Definition TRANSMISSION_MODE_8K : Z := 1.
Definition TRANSMISSION_MODE_AUTO : Z := 2.

(** [enum fe_bandwidth] *)
Definition BANDWIDTH_8_MHZ : Z := 0.
Definition BANDWIDTH_7_MHZ : Z := 1.
Definition BANDWIDTH_6_MHZ : Z := 2.
Definition BANDWIDTH_AUTO : Z := 3.

(** [enum fe_guard_interval] *)
Definition GUARD_INTERVAL_1_32 : Z := 0.
Definition GUARD_INTERVAL_1_16 : Z := 1.
Definition GUARD_INTERVAL_1_8 : Z := 2.
Definition GUARD_INTERVAL_1_4 : Z := 3.
Definition GUARD_INTERVAL_AUTO : Z := 4.

(** [enum fe_hierarchy] *)
Definition HIERARCHY_NONE : Z := 0.
Definition HIERARCHY_1 : Z := 1.
Definition HIERARCHY_2 : Z := 2.
Definition HIERARCHY_4 : Z := 3.
Definition HIERARCHY_AUTO : Z := 4.

(** ** Parameters *)

(** The union of [struct dvbfe_parameters]. *)
Inductive dvbfe_tuning :=
  | Dvbs (symbol_rate fec_inner : Z)
  | Dvbc (symbol_rate fec_inner modulation : Z)
  | Dvbt (bandwidth code_rate_HP code_rate_LP constellation transmission_mode guard_interval
          hierarchy_information : Z)
  | Atsc (modulation : Z).

Record dvbfe_parameters := DvbfeParameters {
  fp_frequency : Z;
  fp_inversion : Z;
  fp_u : dvbfe_tuning;
}.

(** The union of [struct dvb_frontend_parameters]. *)
Inductive kernel_tuning :=
  | Qpsk (symbol_rate fec_inner : Z)
  | Qam (symbol_rate fec_inner modulation : Z)
  | Ofdm (bandwidth code_rate_HP code_rate_LP constellation transmission_mode guard_interval
          hierarchy_information : Z)
  | Vsb (modulation : Z).

Record dvb_frontend_parameters := KernelParameters {
  kp_frequency : Z;
  kp_inversion : Z;
  kp_u : kernel_tuning;
}.

(** ** Translation *)

Definition dvbfe_spectral_inversion_to_kapi : list (Z * Z) :=
  [(DVBFE_INVERSION_OFF, INVERSION_OFF);
   (DVBFE_INVERSION_ON, INVERSION_ON);
   (DVBFE_INVERSION_AUTO, INVERSION_AUTO);
   (-1, -1)].

Definition dvbfe_code_rate_to_kapi : list (Z * Z) :=
  [(DVBFE_FEC_NONE, FEC_NONE);
   (DVBFE_FEC_1_2, FEC_1_2);
   (DVBFE_FEC_2_3, FEC_2_3);
   (DVBFE_FEC_3_4, FEC_3_4);
   (DVBFE_FEC_4_5, FEC_4_5);
   (DVBFE_FEC_5_6, FEC_5_6);
   (DVBFE_FEC_6_7, FEC_6_7);
   (DVBFE_FEC_7_8, FEC_7_8);
   (DVBFE_FEC_8_9, FEC_8_9);
   (DVBFE_FEC_AUTO, FEC_AUTO);
   (-1, -1)].

Definition dvbfe_dvbt_const_to_kapi : list (Z * Z) :=
  [(DVBFE_DVBT_CONST_QPSK, FE_QPSK);
   (DVBFE_DVBT_CONST_QAM_16, QAM_16);
   (DVBFE_DVBT_CONST_QAM_32, QAM_32);
   (DVBFE_DVBT_CONST_QAM_64, QAM_64);
   (DVBFE_DVBT_CONST_QAM_128, QAM_128);
   (DVBFE_DVBT_CONST_QAM_256, QAM_256);
   (DVBFE_DVBT_CONST_AUTO, QAM_AUTO);
   (-1, -1)].

Definition dvbfe_dvbc_mod_to_kapi : list (Z * Z) :=
  [(DVBFE_DVBC_MOD_QAM_16, QAM_16);
   (DVBFE_DVBC_MOD_QAM_32, QAM_32);
   (DVBFE_DVBC_MOD_QAM_64, QAM_64);
   (DVBFE_DVBC_MOD_QAM_128, QAM_128);
   (DVBFE_DVBC_MOD_QAM_256, QAM_256);
   (DVBFE_DVBC_MOD_AUTO, QAM_AUTO);
   (-1, -1)].

Definition dvbfe_atsc_mod_to_kapi : list (Z * Z) :=
  [(DVBFE_ATSC_MOD_QAM_64, QAM_64);
   (DVBFE_ATSC_MOD_QAM_256, QAM_256);
   (DVBFE_ATSC_MOD_VSB_8, VSB_8);
   (DVBFE_ATSC_MOD_VSB_16, VSB_16);
   (DVBFE_ATSC_MOD_AUTO, QAM_AUTO);
   (-1, -1)].

Definition dvbfe_dvbt_transmit_mode_to_kapi : list (Z * Z) :=
  [(DVBFE_DVBT_TRANSMISSION_MODE_2K, TRANSMISSION_MODE_2K);
   (DVBFE_DVBT_TRANSMISSION_MODE_8K, TRANSMISSION_MODE_8K);
   (DVBFE_DVBT_TRANSMISSION_MODE_AUTO, TRANSMISSION_MODE_AUTO);
   (-1, -1)].

Definition dvbfe_dvbt_bandwidth_to_kapi : list (Z * Z) :=
  [(DVBFE_DVBT_BANDWIDTH_8_MHZ, BANDWIDTH_8_MHZ);
   (DVBFE_DVBT_BANDWIDTH_7_MHZ, BANDWIDTH_7_MHZ);
   (DVBFE_DVBT_BANDWIDTH_6_MHZ, BANDWIDTH_6_MHZ);
   (DVBFE_DVBT_BANDWIDTH_AUTO, BANDWIDTH_AUTO);
   (-1, -1)].

Definition dvbfe_dvbt_guard_interval_to_kapi : list (Z * Z) :=
  [(DVBFE_DVBT_GUARD_INTERVAL_1_32, GUARD_INTERVAL_1_32);
   (DVBFE_DVBT_GUARD_INTERVAL_1_16, GUARD_INTERVAL_1_16);
   (DVBFE_DVBT_GUARD_INTERVAL_1_8, GUARD_INTERVAL_1_8);
   (DVBFE_DVBT_GUARD_INTERVAL_1_4, GUARD_INTERVAL_1_4);
   (DVBFE_DVBT_GUARD_INTERVAL_AUTO, GUARD_INTERVAL_AUTO);
   (-1, -1)].

Definition dvbfe_dvbt_hierarchy_to_kapi : list (Z * Z) :=
  [(DVBFE_DVBT_HIERARCHY_NONE, HIERARCHY_NONE);
   (DVBFE_DVBT_HIERARCHY_1, HIERARCHY_1);
   (DVBFE_DVBT_HIERARCHY_2, HIERARCHY_2);
   (DVBFE_DVBT_HIERARCHY_4, HIERARCHY_4);
   (DVBFE_DVBT_HIERARCHY_AUTO, HIERARCHY_AUTO);
   (-1, -1)].

(** Every table ends with a pair of -1. *)
Fixpoint lookupval (val : Z) (reverse : bool) (table : list (Z * Z)) : Z :=
  match table with
  | [] => -1
  | (a, b) :: table =>
      if a =? -1 then -1
      else if negb reverse then if val =? a then b else lookupval val reverse table
      else if val =? b then a else lookupval val reverse table
  end.

(** The [switch] of [dvbfe_set] on the type of the frontend; [None]: it returns [-EINVAL].  Reading another
    member of the union than the one stored is a fault of the model. *)
Definition tuning_to_kapi (type : Z) (u : dvbfe_tuning) : res (option kernel_tuning) :=
  if type =? FE_QPSK then
    match u with
    | Dvbs symbol_rate fec_inner => mret (Some (Qpsk symbol_rate (lookupval fec_inner false dvbfe_code_rate_to_kapi)))
    | _ => Err BadPointer
    end
  else if type =? FE_QAM then
    match u with
    | Dvbc symbol_rate fec_inner modulation =>
        mret (Some (Qam symbol_rate (lookupval fec_inner false dvbfe_code_rate_to_kapi)
          (lookupval modulation false dvbfe_dvbc_mod_to_kapi)))
    | _ => Err BadPointer
    end
  else if type =? FE_OFDM then
    match u with
    | Dvbt bandwidth code_rate_HP code_rate_LP constellation transmission_mode guard_interval
        hierarchy_information =>
        mret (Some (Ofdm (lookupval bandwidth false dvbfe_dvbt_bandwidth_to_kapi)
          (lookupval code_rate_HP false dvbfe_code_rate_to_kapi)
          (lookupval code_rate_LP false dvbfe_code_rate_to_kapi)
          (lookupval constellation false dvbfe_dvbt_const_to_kapi)
          (lookupval transmission_mode false dvbfe_dvbt_transmit_mode_to_kapi)
          (lookupval guard_interval false dvbfe_dvbt_guard_interval_to_kapi)
          (lookupval hierarchy_information false dvbfe_dvbt_hierarchy_to_kapi)))
    | _ => Err BadPointer
    end
  else if type =? FE_ATSC then
    match u with
    | Atsc modulation => mret (Some (Vsb (lookupval modulation false dvbfe_atsc_mod_to_kapi)))
    | _ => Err BadPointer
    end
  else mret None.

(** The [switch] of [dvbfe_get_info]; [None]: no case, the result is not changed. *)
Definition tuning_of_kapi (type : Z) (u : kernel_tuning) : res (option dvbfe_tuning) :=
  if type =? FE_QPSK then
    match u with
    | Qpsk symbol_rate fec_inner => mret (Some (Dvbs symbol_rate (lookupval fec_inner true dvbfe_code_rate_to_kapi)))
    | _ => Err BadPointer
    end
  else if type =? FE_QAM then
    match u with
    | Qam symbol_rate fec_inner modulation =>
        mret (Some (Dvbc symbol_rate (lookupval fec_inner true dvbfe_code_rate_to_kapi)
          (lookupval modulation true dvbfe_dvbc_mod_to_kapi)))
    | _ => Err BadPointer
    end
  else if type =? FE_OFDM then
    match u with
    | Ofdm bandwidth code_rate_HP code_rate_LP constellation transmission_mode guard_interval
        hierarchy_information =>
        mret (Some (Dvbt (lookupval bandwidth true dvbfe_dvbt_bandwidth_to_kapi)
          (lookupval code_rate_HP true dvbfe_code_rate_to_kapi)
          (lookupval code_rate_LP true dvbfe_code_rate_to_kapi)
          (lookupval constellation true dvbfe_dvbt_const_to_kapi)
          (lookupval transmission_mode true dvbfe_dvbt_transmit_mode_to_kapi)
          (lookupval guard_interval true dvbfe_dvbt_guard_interval_to_kapi)
          (lookupval hierarchy_information true dvbfe_dvbt_hierarchy_to_kapi)))
    | _ => Err BadPointer
    end
  else if type =? FE_ATSC then
    match u with
    | Vsb modulation => mret (Some (Atsc (lookupval modulation true dvbfe_atsc_mod_to_kapi)))
    | _ => Err BadPointer
    end
  else mret None.

(** ** The device *)

(** What is asked of the operating system. *)
Inductive fe_op :=
  | OpSetFrontend (p : dvb_frontend_parameters)
  | OpGetFrontend
  | OpReadStatus
  | OpGetEvent
  | OpReadBer
  | OpReadSignalStrength
  | OpReadSnr
  | OpReadUncorrectedBlocks
  | OpSetTone (tone : Z)
  | OpSendBurst (minicmd : Z)
  | OpSetVoltage (voltage : Z)
  | OpEnableHighLnbVoltage (on : Z)
  | OpDishnetworkCommand (cmd : Z)
  | OpSendMasterCmd (msg : list Z)
  | OpPoll (timeout : Z)
  | OpUsleep (usec : Z).

(** The answers: what [ioctl] returns and what it stores. *)
Record fe_env := FeEnv {
  fe_ioctl : nat -> Z;
  fe_status : nat -> Z;
  fe_params : nat -> dvb_frontend_parameters;
  fe_word : nat -> Z;
  fe_poll : nat -> Z * Z;
  fe_clock : nat -> Z * Z;
}.

Definition EINVAL : Z := 22.
Definition ETIMEDOUT : Z := 110.

Record dvbfe_handle := DvbfeHandle { fh_type : Z; fh_name : list Z }.

Record dvbfe_info := DvbfeInfo {
  fi_type : Z;
  fi_name : list Z;
  fi_signal : Z;
  fi_carrier : Z;
  fi_viterbi : Z;
  fi_sync : Z;
  fi_lock : Z;
  fi_feparams : dvbfe_parameters;
  fi_ber : Z;
  fi_signal_strength : Z;
  fi_snr : Z;
  fi_ucblocks : Z;
}.

(** [if (flags & mask)] *)
Definition has_flag (flags mask : Z) : bool := negb (Z.land flags mask =? 0).

Section Frontend.
Context (e : fe_env).

Abbreviation FE := (IO (list fe_op)).

(** The number of the call. *)
Definition ask (op : fe_op) : FE nat := n ← tick; modify (λ ops, ops ++ [op]);; mret n.

(** [ioctl(fd, op)]: the number of the call and what it returns. *)
Definition ioctl (op : fe_op) : FE (nat * Z) := n ← ask op; mret (n, fe_ioctl e n).

Definition usleep (usec : Z) : FE unit := ask (OpUsleep usec);; mret tt.

Definition fe_gettimeofday : FE (Z * Z) := n ← tick; mret (fe_clock e n).

(** *** Switches of the dish *)

(** An operation whose only result is what the [ioctl] returns. *)
Definition plain_ioctl (op : fe_op) : FE Z := '(_, ret) ← ioctl op; mret ret.

Definition dvbfe_set_22k_tone (tone : Z) : FE Z :=
  if tone =? DVBFE_SEC_TONE_OFF then plain_ioctl (OpSetTone SEC_TONE_OFF)
  else if tone =? DVBFE_SEC_TONE_ON then plain_ioctl (OpSetTone SEC_TONE_ON)
  else mret 0.

Definition dvbfe_set_tone_data_burst (minicmd : Z) : FE Z :=
  if minicmd =? DVBFE_SEC_MINI_A then plain_ioctl (OpSendBurst SEC_MINI_A)
  else if minicmd =? DVBFE_SEC_MINI_B then plain_ioctl (OpSendBurst SEC_MINI_B)
  else mret 0.

Definition dvbfe_set_voltage (voltage : Z) : FE Z :=
  if voltage =? DVBFE_SEC_VOLTAGE_OFF then plain_ioctl (OpSetVoltage SEC_VOLTAGE_OFF)
  else if voltage =? DVBFE_SEC_VOLTAGE_13 then plain_ioctl (OpSetVoltage SEC_VOLTAGE_13)
  else if voltage =? DVBFE_SEC_VOLTAGE_18 then plain_ioctl (OpSetVoltage SEC_VOLTAGE_18)
  else mret 0.

Definition dvbfe_set_high_lnb_voltage (on : Z) : FE Z :=
  (if on =? 0 then plain_ioctl (OpEnableHighLnbVoltage 0) else plain_ioctl (OpEnableHighLnbVoltage 1));;
  mret 0.

Definition dvbfe_do_dishnetworks_legacy_command (cmd : Z) : FE Z := plain_ioctl (OpDishnetworkCommand cmd).

(** [len] is a [uint8_t]. *)
Definition dvbfe_do_diseqc_command (data : list Z) (len : Z) : FE Z :=
  let len := u8 len in
  if 6 <? len then mret (- EINVAL)
  else if zlen data <? len then io_fault OutOfBounds
  else plain_ioctl (OpSendMasterCmd (take (Z.to_nat len) data)).

(** *** Tuning *)

(** [while (1)]: [endtime] is [None] when nothing is compared with the clock. *)
Fixpoint wait_for_lock (fuel : nat) (endtime : option (Z * Z)) (status : option Z) : FE (option Z) :=
  match fuel with
  | O => io_fault OutOfFuel
  | Datatypes.S fuel =>
      '(n, r) ← ioctl OpReadStatus;
      let status := if r =? 0 then Some (fe_status e n) else status in
      if (r =? 0) && has_flag (fe_status e n) FE_HAS_LOCK then mret status
      else
        expired ←
          match endtime with
          | None => mret false
          | Some (sec, usec) =>
              '(cur_sec, cur_usec) ← fe_gettimeofday;
              mret ((sec <? cur_sec) || ((cur_sec =? sec) && (usec <=? cur_usec)))
          end;
        if expired : bool then mret status
        else
          usleep 100000;;
          wait_for_lock fuel endtime status
  end.

Definition dvbfe_set (fuel : nat) (fehandle : dvbfe_handle) (params : dvbfe_parameters) (timeout : Z) : FE Z :=
  u ← lift (tuning_to_kapi (fh_type fehandle) (fp_u params));
  match u with
  | None => mret (- EINVAL)
  | Some u =>
      let kparams := KernelParameters (fp_frequency params)
        (lookupval (fp_inversion params) false dvbfe_spectral_inversion_to_kapi) u in
      '(_, res) ← ioctl (OpSetFrontend kparams);
      if negb (res =? 0) then mret res
      else if timeout =? 0 then mret 0
      else
        endtime ←
          (if 0 <? timeout then
             '(sec, usec) ← fe_gettimeofday;
             let timeout := timeout * 1000 in
             if 2147483647 <? timeout then io_fault Undefined
             else mret (Some (sec + Z.quot timeout 1000000, usec + Z.rem timeout 1000000))
           else mret None);
        status ← wait_for_lock fuel endtime None;
        match status with
        | None => io_fault Uninitialised
        | Some status => if has_flag status FE_HAS_LOCK then mret 0 else mret (- ETIMEDOUT)
        end
  end.

(** *** Information *)

(** What [kevent] has got: the status and the parameters. *)
Definition query_event (querymask querytype timeout : Z) : FE (Z * Z * option dvb_frontend_parameters) :=
  if querytype =? DVBFE_INFO_QUERYTYPE_IMMEDIATE then
    '(returnval, status) ←
      (if has_flag querymask DVBFE_INFO_LOCKSTATUS then
         '(n, r) ← ioctl OpReadStatus;
         mret (if r =? 0 then (DVBFE_INFO_LOCKSTATUS, fe_status e n) else (0, 0))
       else mret (0, 0));
    if has_flag querymask DVBFE_INFO_FEPARAMS then
      '(n, r) ← ioctl OpGetFrontend;
      mret (if r =? 0 then (Z.lor returnval DVBFE_INFO_FEPARAMS, status, Some (fe_params e n))
            else (returnval, status, None))
    else mret (returnval, status, None)
  else if querytype =? DVBFE_INFO_QUERYTYPE_LOCKCHANGE then
    n ← ask (OpPoll timeout);
    let '(r, revents) := fe_poll e n in
    let ok := negb (r <? 0) && negb (has_flag revents 8) && has_flag revents 1 in
    if ok && (has_flag querymask DVBFE_INFO_LOCKSTATUS || has_flag querymask DVBFE_INFO_FEPARAMS) then
      '(n, r) ← ioctl OpGetEvent;
      if r =? 0 then
        let returnval := if has_flag querymask DVBFE_INFO_LOCKSTATUS then DVBFE_INFO_LOCKSTATUS else 0 in
        mret (if has_flag querymask DVBFE_INFO_FEPARAMS
              then (Z.lor returnval DVBFE_INFO_FEPARAMS, fe_status e n, Some (fe_params e n))
              else (returnval, fe_status e n, None))
      else mret (0, 0, None)
    else mret (0, 0, None)
  else mret (0, 0, None).

(** [x & mask ? 1 : 0] *)
Definition status_bit (status mask : Z) : Z := if has_flag status mask then 1 else 0.

(** One of the four numbers: the flag if it was asked for and read, and the number. *)
Definition query_word (querymask mask : Z) (op : fe_op) (old : Z) : FE (Z * Z) :=
  if has_flag querymask mask then
    '(n, r) ← ioctl op;
    mret (if r =? 0 then (mask, fe_word e n) else (0, old))
  else mret (0, old).

Definition dvbfe_get_info (fehandle : dvbfe_handle) (querymask : Z) (result : dvbfe_info) (querytype timeout : Z) :
    FE (Z * dvbfe_info) :=
  '(returnval, status, params) ← query_event querymask querytype timeout;
  let '(DvbfeInfo _ _ signal carrier viterbi sync lock feparams ber strength snr ucblocks) := result in
  let '(signal, carrier, viterbi, sync, lock) :=
    if has_flag returnval DVBFE_INFO_LOCKSTATUS then
      (status_bit status FE_HAS_SIGNAL, status_bit status FE_HAS_CARRIER, status_bit status FE_HAS_VITERBI,
       status_bit status FE_HAS_SYNC, status_bit status FE_HAS_LOCK)
    else (signal, carrier, viterbi, sync, lock) in
  feparams ←
    match params with
    | Some kparams =>
        u ← lift (tuning_of_kapi (fh_type fehandle) (kp_u kparams));
        mret (DvbfeParameters (kp_frequency kparams)
          (lookupval (kp_inversion kparams) true dvbfe_spectral_inversion_to_kapi)
          (match u with Some u => u | None => fp_u feparams end))
    | None => mret feparams
    end;
  '(r1, ber) ← query_word querymask DVBFE_INFO_BER OpReadBer ber;
  '(r2, strength) ← query_word querymask DVBFE_INFO_SIGNAL_STRENGTH OpReadSignalStrength strength;
  '(r3, snr) ← query_word querymask DVBFE_INFO_SNR OpReadSnr snr;
  '(r4, ucblocks) ← query_word querymask DVBFE_INFO_UNCORRECTED_BLOCKS OpReadUncorrectedBlocks ucblocks;
  mret (Z.lor (Z.lor (Z.lor (Z.lor returnval r1) r2) r3) r4,
        DvbfeInfo (fh_type fehandle) (fh_name fehandle) signal carrier viterbi sync lock feparams
          ber strength snr ucblocks).
End Frontend.
