(* ===== verification/FrontendCorrect.v ===== *)
(** * dvbfe.c: tuning

    The parameters the kernel is given are the caller's: reading them back with [dvbfe_get_info] gives the
    same.  [dvbfe_set] waits until the frontend has a lock or the time has passed, and says which. *)

From S2P Require Import Frontend.

(** ** Translation *)

(** The enumerators that a translation table has. *)
Definition in_table (table : list (Z * Z)) (v : Z) : Prop := 0 <= v < zlen table - 1.

(** Every table is one to one and starts at 0. *)
Definition tables : list (list (Z * Z)) :=
  [dvbfe_spectral_inversion_to_kapi; dvbfe_code_rate_to_kapi; dvbfe_dvbt_const_to_kapi; dvbfe_dvbc_mod_to_kapi;
   dvbfe_atsc_mod_to_kapi; dvbfe_dvbt_transmit_mode_to_kapi; dvbfe_dvbt_bandwidth_to_kapi;
   dvbfe_dvbt_guard_interval_to_kapi; dvbfe_dvbt_hierarchy_to_kapi].

Lemma lookupval_back table v : table ∈ tables -> in_table table v ->
  lookupval (lookupval v false table) true table = v.
Proof.
  intros Ht Hv. assert (H : forallb (λ table, forallb (λ v,
    lookupval (lookupval v false table) true table =? v) (seqZ 0 (zlen table - 1))) tables = true) by done.
  rewrite forallb_forall in H. specialize (H table ltac:(by apply list_elem_of_In)).
  rewrite forallb_forall in H. apply Z.eqb_eq, H, list_elem_of_In, elem_of_seqZ. unfold in_table in Hv. lia.
Qed.

Definition valid_tuning (type : Z) (u : dvbfe_tuning) : Prop :=
  match u with
  | Dvbs _ fec_inner => type = FE_QPSK /\ in_table dvbfe_code_rate_to_kapi fec_inner
  | Dvbc _ fec_inner modulation =>
      type = FE_QAM /\ in_table dvbfe_code_rate_to_kapi fec_inner /\ in_table dvbfe_dvbc_mod_to_kapi modulation
  | Dvbt bandwidth code_rate_HP code_rate_LP constellation transmission_mode guard_interval hierarchy =>
      type = FE_OFDM /\ in_table dvbfe_dvbt_bandwidth_to_kapi bandwidth /\
      in_table dvbfe_code_rate_to_kapi code_rate_HP /\ in_table dvbfe_code_rate_to_kapi code_rate_LP /\
      in_table dvbfe_dvbt_const_to_kapi constellation /\
      in_table dvbfe_dvbt_transmit_mode_to_kapi transmission_mode /\
      in_table dvbfe_dvbt_guard_interval_to_kapi guard_interval /\ in_table dvbfe_dvbt_hierarchy_to_kapi hierarchy
  | Atsc modulation => type = FE_ATSC /\ in_table dvbfe_atsc_mod_to_kapi modulation
  end.

Lemma tuning_back type u : valid_tuning type u -> exists k, tuning_to_kapi type u = Ok (Some k) /\
  tuning_of_kapi type k = Ok (Some u).
Proof.
  intros Hu. destruct u; cbn [valid_tuning] in Hu; destruct_and? Hu; subst type; (eexists; split; [reflexivity|]);
    unfold tuning_of_kapi; cbn [Z.eqb FE_QPSK FE_QAM FE_OFDM FE_ATSC Pos.eqb];
    rewrite !lookupval_back by (done || (apply list_elem_of_In; cbn; tauto)); done.
Qed.

(** The steps of the monad and of the device. *)
Ltac fe_cbv := cbv [mbind io_bind mret io_ret lift plain_ioctl ioctl usleep fe_gettimeofday ask tick modify].

(** Asking for the parameters. *)
Lemma get_params_run e h result k u w : fe_ioctl e (w_tick w) = 0 -> fe_params e (w_tick w) = k ->
  tuning_of_kapi (fh_type h) (kp_u k) = Ok (Some u) ->
  exists info w2,
    dvbfe_get_info e h DVBFE_INFO_FEPARAMS result DVBFE_INFO_QUERYTYPE_IMMEDIATE 0 w =
      Ok ((DVBFE_INFO_FEPARAMS, info), w2) /\
    fi_feparams info = DvbfeParameters (kp_frequency k)
      (lookupval (kp_inversion k) true dvbfe_spectral_inversion_to_kapi) u.
Proof.
  intros Hio Hpar Hu.
  assert (E : query_event e DVBFE_INFO_FEPARAMS DVBFE_INFO_QUERYTYPE_IMMEDIATE 0 w =
    Ok ((DVBFE_INFO_FEPARAMS, 0, Some k), World (w_state w ++ [OpGetFrontend]) (S (w_tick w)) (w_log w))).
  { unfold query_event. fe_cbv. change (has_flag DVBFE_INFO_FEPARAMS DVBFE_INFO_LOCKSTATUS) with false.
    change (has_flag DVBFE_INFO_FEPARAMS DVBFE_INFO_FEPARAMS) with true. cbn. by rewrite Hio, Hpar. }
  assert (Eq : forall mask op old, has_flag DVBFE_INFO_FEPARAMS mask = false ->
    query_word e DVBFE_INFO_FEPARAMS mask op old = mret (0, old)).
  { intros mask op old H. unfold query_word. by rewrite H. }
  destruct result. unfold dvbfe_get_info. rewrite !Eq by done. fe_cbv. rewrite E.
  change (has_flag DVBFE_INFO_FEPARAMS DVBFE_INFO_LOCKSTATUS) with false. cbv iota beta. rewrite Hu.
  eexists _, _. split; [reflexivity|done].
Qed.

(** C16: [dvbfe_set] passes the caller's parameters to the kernel faithfully: for every type of frontend and
    valid enumerators, if the kernel later reports what it was given, [dvbfe_get_info] returns exactly the
    caller's parameters. *)
Theorem frontend_params_roundtrip e fuel h params w :
  valid_tuning (fh_type h) (fp_u params) -> in_table dvbfe_spectral_inversion_to_kapi (fp_inversion params) ->
  exists k w',
    dvbfe_set e fuel h params 0 w = Ok (fe_ioctl e (w_tick w), w') /\
    w_state w' = w_state w ++ [OpSetFrontend k] /\
    forall e2 result w2, fe_ioctl e2 (w_tick w2) = 0 -> fe_params e2 (w_tick w2) = k ->
      exists info w3,
        dvbfe_get_info e2 h DVBFE_INFO_FEPARAMS result DVBFE_INFO_QUERYTYPE_IMMEDIATE 0 w2 =
          Ok ((DVBFE_INFO_FEPARAMS, info), w3) /\
        fi_feparams info = params.
Proof.
  intros Hu Hi. destruct (tuning_back _ _ Hu) as (k & Ek & Eback).
  set (kp := KernelParameters (fp_frequency params)
    (lookupval (fp_inversion params) false dvbfe_spectral_inversion_to_kapi) k).
  eexists kp, _. split_and!.
  - unfold dvbfe_set. rewrite Ek. fe_cbv. fold kp.
    by destruct (Z.eqb_spec (fe_ioctl e (w_tick w)) 0) as [-> |].
  - done.
  - intros e2 result w2 Hio Hpar. destruct (get_params_run e2 h result kp (fp_u params) w2) as (info & w3 & E & Ei); [done..|].
    exists info, w3. split; [done|]. rewrite Ei. subst kp. cbn [kp_frequency kp_inversion].
    rewrite lookupval_back; [by destruct params|apply list_elem_of_In; cbn; tauto|done].
Qed.

(** A frontend for terrestrial television, and a driver that reports what it was given. *)
Definition terrestrial : dvbfe_parameters :=
  DvbfeParameters 578000000 DVBFE_INVERSION_AUTO
    (Dvbt DVBFE_DVBT_BANDWIDTH_8_MHZ DVBFE_FEC_2_3 DVBFE_FEC_NONE DVBFE_DVBT_CONST_QAM_64
      DVBFE_DVBT_TRANSMISSION_MODE_8K DVBFE_DVBT_GUARD_INTERVAL_1_8 DVBFE_DVBT_HIERARCHY_NONE).

Definition terrestrial_kapi : dvb_frontend_parameters :=
  KernelParameters 578000000 INVERSION_AUTO
    (Ofdm BANDWIDTH_8_MHZ FEC_2_3 FEC_NONE QAM_64 TRANSMISSION_MODE_8K GUARD_INTERVAL_1_8 HIERARCHY_NONE).

(** The lock is there from the fifth call on; the clock advances by 100 ms with each call. *)
Definition slow_driver : fe_env :=
  FeEnv (λ _, 0) (λ n, if (n <? 5)%nat then FE_HAS_SIGNAL else Z.lor FE_HAS_SIGNAL FE_HAS_LOCK)
    (λ _, terrestrial_kapi) (λ _, 0) (λ _, (0, 0)) (λ n, (1000 + Z.of_nat n / 10, 100000 * (Z.of_nat n mod 10))).

Definition tuner : dvbfe_handle := DvbfeHandle FE_OFDM [].

Lemma frontend_params_roundtrip_witness :
  exists k w',
    dvbfe_set slow_driver 0 tuner terrestrial 0 (World [] 0 []) = Ok (0, w') /\
    w_state w' = [] ++ [OpSetFrontend k] /\
    forall e2 result w2, fe_ioctl e2 (w_tick w2) = 0 -> fe_params e2 (w_tick w2) = k ->
      exists info w3,
        dvbfe_get_info e2 tuner DVBFE_INFO_FEPARAMS result DVBFE_INFO_QUERYTYPE_IMMEDIATE 0 w2 =
          Ok ((DVBFE_INFO_FEPARAMS, info), w3) /\
        fi_feparams info = terrestrial.
Proof.
  apply (frontend_params_roundtrip slow_driver 0 tuner terrestrial (World [] 0 [])).
  - unfold in_table. repeat split; (vm_compute; congruence).
  - split; (vm_compute; congruence).
Defined.

(** ** Waiting *)

Section Wait.
Context (e : fe_env) (n0 : nat) (endtime : Z * Z).

(** The calls of the poll with an index, when the first is number [n0]. *)
Definition poll_call (i : nat) : nat := (n0 + 3 * i)%nat.

(** The status was read. *)
Definition poll_read (i : nat) : bool := fe_ioctl e (poll_call i) =? 0.
Definition poll_locked (i : nat) : bool := poll_read i && has_flag (fe_status e (poll_call i)) FE_HAS_LOCK.

(** The time has passed when the clock is read after it. *)
Definition poll_late (i : nat) : bool :=
  let '(sec, usec) := fe_clock e (S (poll_call i)) in
  (endtime.1 <? sec) || ((sec =? endtime.1) && (endtime.2 <=? usec)).
End Wait.

Lemma poll_shift e n0 endtime i :
  poll_read e (n0 + 3) i = poll_read e n0 (S i) /\ poll_locked e (n0 + 3) i = poll_locked e n0 (S i) /\
  poll_late e (n0 + 3) endtime i = poll_late e n0 endtime (S i).
Proof.
  assert (E : poll_call (n0 + 3) i = poll_call n0 (S i)) by (unfold poll_call; lia).
  unfold poll_locked, poll_read, poll_late. by rewrite E.
Qed.

(** The operations of [k] polls after the first. *)
Fixpoint poll_ops (k : nat) : list fe_op :=
  match k with
  | O => [OpReadStatus]
  | S k => OpReadStatus :: OpUsleep 100000 :: poll_ops k
  end.

Definition no_lock (status : option Z) : Prop :=
  match status with Some s => has_flag s FE_HAS_LOCK = false | None => True end.

(** One poll. *)
Lemma wait_step e fuel endtime status w :
  wait_for_lock e (S fuel) (Some endtime) status w =
  let n := w_tick w in
  let status := if poll_read e n 0 then Some (fe_status e n) else status in
  let ops := w_state w ++ [OpReadStatus] in
  if poll_locked e n 0 then Ok (status, World ops (S n) (w_log w))
  else if poll_late e n endtime 0 then Ok (status, World ops (S (S n)) (w_log w))
  else wait_for_lock e fuel (Some endtime) status (World (ops ++ [OpUsleep 100000]) (S (S (S n))) (w_log w)).
Proof.
  destruct endtime as [sec usec]. cbn [wait_for_lock]. fe_cbv. cbv zeta.
  unfold poll_locked, poll_late, poll_read. replace (poll_call (w_tick w) 0) with (w_tick w) by (unfold poll_call; lia).
  cbn [w_tick w_state w_log fst snd].
  destruct (fe_ioctl e (w_tick w) =? 0); [destruct (has_flag _ FE_HAS_LOCK); [done|]|]; cbn [andb w_tick w_state w_log];
    destruct (fe_clock e (S (w_tick w))) as [cs cu];
    destruct ((sec <? cs) || (cs =? sec) && (usec <=? cu)); reflexivity.
Qed.

(** The loop ends at the first poll that sees the lock or comes too late. *)
Lemma wait_run e endtime k : forall fuel status w, (k < fuel)%nat -> no_lock status ->
  (forall i, (i < k)%nat -> poll_locked e (w_tick w) i = false /\ poll_late e (w_tick w) endtime i = false) ->
  poll_locked e (w_tick w) k = true \/ poll_late e (w_tick w) endtime k = true ->
  status <> None \/ (exists i, (i <= k)%nat /\ poll_read e (w_tick w) i = true) ->
  exists s w', wait_for_lock e fuel (Some endtime) status w = Ok (Some s, w') /\
    has_flag s FE_HAS_LOCK = poll_locked e (w_tick w) k /\ w_state w' = w_state w ++ poll_ops k.
Proof.
  induction k as [|k IH]; intros fuel status w Hf Hs Hi Hk Hr; (destruct fuel as [|fuel]; [lia|]);
    rewrite wait_step; cbv zeta; set (st := if poll_read e (w_tick w) 0 then _ else status).
  - assert (Hst : exists s, st = Some s /\ has_flag s FE_HAS_LOCK = poll_locked e (w_tick w) 0).
    { subst st. unfold poll_locked.
      assert (E0 : poll_call (w_tick w) 0 = w_tick w) by (unfold poll_call; lia). rewrite E0.
      destruct (poll_read e (w_tick w) 0) eqn:Er; [by eexists|]. destruct status as [s|]; [by exists s|].
      destruct Hr as [Hr | ([|i] & Hi0 & Hr)]; [done|congruence|lia]. }
    destruct Hst as (s & -> & Hs').
    destruct (poll_locked e (w_tick w) 0); [by eexists _, _|]. destruct Hk as [Hk | Hk]; [done|].
    rewrite Hk. by eexists _, _.
  - destruct (Hi 0%nat ltac:(lia)) as [Hl0 Ht0]. rewrite Hl0, Ht0.
    set (w1 := World ((w_state w ++ [OpReadStatus]) ++ [OpUsleep 100000]) (S (S (S (w_tick w)))) (w_log w)).
    assert (Et : w_tick w1 = (w_tick w + 3)%nat) by (cbn; lia).
    pose proof (poll_shift e (w_tick w) endtime) as Hp.
    destruct (IH fuel st w1) as (s & w' & E & El & Ew).
    + lia.
    + subst st. destruct (poll_read e (w_tick w) 0) eqn:Er; [|done]. unfold poll_locked in Hl0. rewrite Er in Hl0.
      unfold poll_call in Hl0. by rewrite Nat.mul_0_r, Nat.add_0_r in Hl0.
    + intros i Hik. rewrite Et. destruct (Hp i) as (_ & -> & ->). apply Hi. lia.
    + rewrite Et. by destruct (Hp k) as (_ & -> & ->).
    + destruct Hr as [Hr | ([|i] & Hik & Hr)]; subst st.
      * left. by destruct (poll_read e (w_tick w) 0).
      * left. by rewrite Hr.
      * right. exists i. rewrite Et. destruct (Hp i) as (-> & _ & _). split; [lia|done].
    + exists s, w'. split_and!; [done| |].
      * rewrite El, Et. by destruct (Hp k) as (_ & -> & _).
      * rewrite Ew. cbn [w1 w_state poll_ops]. by rewrite <- !app_assoc.
Qed.

(** When the time of a timeout in milliseconds has passed. *)
Definition deadline (now : Z * Z) (timeout : Z) : Z * Z :=
  (now.1 + Z.quot (timeout * 1000) 1000000, now.2 + Z.rem (timeout * 1000) 1000000).

(** The polls up to the first that sees the lock or comes after the deadline of the code. *)
Lemma set_polls e fuel h params timeout w u k :
  let n := w_tick w in
  let endtime := deadline (fe_clock e (S n)) timeout in
  tuning_to_kapi (fh_type h) (fp_u params) = Ok (Some u) ->
  fe_ioctl e n = 0 ->
  0 < timeout <= 2147483 ->
  (forall i, (i < k)%nat -> poll_locked e (S (S n)) i = false /\ poll_late e (S (S n)) endtime i = false) ->
  poll_locked e (S (S n)) k = true \/ poll_late e (S (S n)) endtime k = true ->
  (exists i, (i <= k)%nat /\ poll_read e (S (S n)) i = true) ->
  (k < fuel)%nat ->
  exists w', dvbfe_set e fuel h params timeout w =
    Ok (if poll_locked e (S (S n)) k then 0 else - ETIMEDOUT, w') /\
    exists kparams, w_state w' = w_state w ++ OpSetFrontend kparams :: poll_ops k.
Proof.
  intros n endtime Hu Hio Ht Hi Hk Hr Hf. unfold dvbfe_set. rewrite Hu. fe_cbv. fold n. rewrite Hio.
  set (kparams := KernelParameters _ _ _). set (w1 := World _ _ _).
  change (negb (0 =? 0)) with false. cbv iota. rewrite (proj2 (Z.eqb_neq timeout 0)), (proj2 (Z.ltb_lt 0 timeout)) by lia.
  change (w_tick w1) with (S n). subst endtime. unfold deadline in Hi, Hk. destruct (fe_clock e (S n)) as [sec usec] eqn:Ec.
  rewrite (proj2 (Z.ltb_ge 2147483647 (timeout * 1000))) by lia.
  set (w2 := World (w_state w1) (S (S n)) (w_log w1)).
  destruct (wait_run e _ k fuel None w2 Hf I Hi Hk (or_intror Hr)) as (s & w' & E & El & Ew).
  cbn [fst snd] in E. rewrite E, El. exists w'. split; [by change (w_tick w2) with (S (S n)); destruct (poll_locked _ _ _)|].
  exists kparams. rewrite Ew. cbn [w2 w1 w_state]. by rewrite <- app_assoc.
Qed.

(** Times in microseconds. *)
Definition usec_of (t : Z * Z) : Z := t.1 * 1000000 + t.2.
Definition clock_ok (e : fe_env) : Prop := forall k, 0 <= (fe_clock e k).2 < 1000000.

(** How long a poll, of those that begin at the system call [n0], comes after [start]. *)
Definition waited (e : fe_env) (n0 : nat) (start : Z * Z) (i : nat) : Z :=
  usec_of (fe_clock e (S (poll_call n0 i))) - usec_of start.

(** The microseconds of the deadline that do not fit into its second: the code does not carry them. *)
Definition lost_carry (start : Z * Z) (timeout : Z) : Z :=
  Z.max 0 (start.2 + (timeout * 1000) mod 1000000 - 1000000).

Lemma lost_carry_small start timeout : 0 <= start.2 < 1000000 -> 0 <= lost_carry start timeout < 1000000.
Proof. intros H. unfold lost_carry. pose proof (Z.mod_pos_bound (timeout * 1000) 1000000 ltac:(lia)). lia. Qed.

Lemma deadline_mod start timeout : 0 < timeout ->
  deadline start timeout = (start.1 + timeout * 1000 / 1000000, start.2 + (timeout * 1000) mod 1000000).
Proof. intros H. unfold deadline. by rewrite Z.quot_div_nonneg, Z.rem_mod_nonneg by lia. Qed.

(** The comparison of the code is late for every time after the deadline, and early by less than what it lost. *)
Lemma late_waited e n0 start timeout i : clock_ok e -> 0 <= start.2 -> 0 < timeout ->
  if poll_late e n0 (deadline start timeout) i then timeout * 1000 - lost_carry start timeout <= waited e n0 start i
  else waited e n0 start i < timeout * 1000.
Proof.
  intros He Hs Ht. rewrite deadline_mod by done. unfold poll_late, waited, usec_of, lost_carry. cbn [fst snd].
  specialize (He (S (poll_call n0 i))). destruct (fe_clock e (S (poll_call n0 i))) as [sec usec]. cbn [fst snd] in *.
  pose proof (Z.div_mod (timeout * 1000) 1000000 ltac:(lia)) as Hd.
  pose proof (Z.mod_pos_bound (timeout * 1000) 1000000 ltac:(lia)) as Hr.
  destruct (_ || _) eqn:E; lia.
Qed.

(** The first number of which a predicate holds. *)
Lemma first_such (p : nat -> bool) k : p k = true -> exists j, (j <= k)%nat /\ p j = true /\ forall i, (i < j)%nat -> p i = false.
Proof.
  induction k as [k IH] using lt_wf_ind. intros Hk.
  destruct (existsb p (seq 0 k)) eqn:E.
  - apply existsb_exists in E as (j & Hj & Hp). apply in_seq in Hj. destruct (IH j) as (j' & Hle & H); [lia|done|].
    exists j'. split; [lia|done].
  - exists k. split; [lia|]. split; [done|]. intros i Hi. destruct (p i) eqn:Ep; [|done].
    assert (existsb p (seq 0 k) = true) by (apply existsb_exists; exists i; split; [apply in_seq; lia|done]). congruence.
Qed.



(** A deadline whose microseconds are more than a second is over with the next second: a timeout of 100 ms that starts
    50 ms before a second is over at that second, 50 ms early, and not before. *)
Example deadline_without_carry :
  deadline (1000, 950000) 100 = (1000, 1050000) /\
  forall e n usec, fe_clock e (S (poll_call n 0)) = (1000, usec) -> usec < 1000000 ->
    poll_late e n (deadline (1000, 950000) 100) 0 = false.
Proof.
  split; [done|]. intros e n usec E Hu. unfold poll_late. rewrite E.
  change (deadline (1000, 950000) 100) with (1000, 1050000). cbn [fst snd]. lia.
Qed.
