(* ===== verification/DvbSec.v ===== *)
(** * dvbsec_api.c: satellite equipment control

    The messages to switches, converters and motors of a dish (DiSEqC), and the sequence in which they, the
    voltage and the tones are sent.  The commands in texts are in DvbSecCommand.v. *)

From S2P Require Export Frontend CFloat.

(** ** dvbsec_api.h *)

(** [enum dvbsec_diseqc_framing] *)
Definition DISEQC_FRAMING_MASTER_NOREPLY : Z := 0xE0.
Definition DISEQC_FRAMING_MASTER_NOREPLY_REPEAT : Z := 0xE1.
Definition DISEQC_FRAMING_MASTER_REPLY : Z := 0xE2.
Definition DISEQC_FRAMING_MASTER_REPLY_REPEAT : Z := 0xE3.
Definition DISEQC_FRAMING_SLAVE_OK : Z := 0xE4.
Definition DISEQC_FRAMING_SLAVE_UNSUPPORTED : Z := 0xE5.
Definition DISEQC_FRAMING_SLAVE_PARITY_ERROR : Z := 0xE6.
Definition DISEQC_FRAMING_SLAVE_UNRECOGNISED : Z := 0xE7.

(** [enum dvbsec_diseqc_address] *)
Definition DISEQC_ADDRESS_ANY_DEVICE : Z := 0x00.
Definition DISEQC_ADDRESS_ANY_LNB_SWITCHER_SMATV : Z := 0x10.
Definition DISEQC_ADDRESS_LNB : Z := 0x11.
Definition DISEQC_ADDRESS_LNB_WITH_LOOP : Z := 0x12.
Definition DISEQC_ADDRESS_SWITCHER : Z := 0x14.
Definition DISEQC_ADDRESS_SWITCHER_WITH_LOOP : Z := 0x15.
Definition DISEQC_ADDRESS_SMATV : Z := 0x18.
Definition DISEQC_ADDRESS_ANY_POLARISER : Z := 0x20.
Definition DISEQC_ADDRESS_LINEAR_POLARISER : Z := 0x21.
Definition DISEQC_ADDRESS_ANY_POSITIONER : Z := 0x30.
Definition DISEQC_ADDRESS_POLAR_AZIMUTH_POSITIONER : Z := 0x31.
Definition DISEQC_ADDRESS_ELEVATION_POSITIONER : Z := 0x32.
Definition DISEQC_ADDRESS_ANY_INSTALLER_AID : Z := 0x40.
Definition DISEQC_ADDRESS_SIGNAL_STRENGTH : Z := 0x41.
Definition DISEQC_ADDRESS_ANY_INTERFACE : Z := 0x70.
Definition DISEQC_ADDRESS_HEADEND_INTERFACE : Z := 0x71.
Definition DISEQC_ADDRESS_REALLOC_BASE : Z := 0x60.
Definition DISEQC_ADDRESS_OEM_BASE : Z := 0xf0.

(** [enum dvbsec_diseqc_reset] *)
Definition DISEQC_RESET : Z := 0.
Definition DISEQC_RESET_CLEAR : Z := 1.

(** [enum dvbsec_diseqc_power] *)
Definition DISEQC_POWER_OFF : Z := 0.
Definition DISEQC_POWER_ON : Z := 1.

(** [enum dvbsec_diseqc_listen] *)
Definition DISEQC_LISTEN_SLEEP : Z := 0.
Definition DISEQC_LISTEN_AWAKE : Z := 1.

(** [enum dvbsec_diseqc_polarization]: the characters h, v, l and r *)
Definition DISEQC_POLARIZATION_UNCHANGED : Z := 0.
Definition DISEQC_POLARIZATION_H : Z := 104.
Definition DISEQC_POLARIZATION_V : Z := 118.
Definition DISEQC_POLARIZATION_L : Z := 108.
Definition DISEQC_POLARIZATION_R : Z := 114.

(** [enum dvbsec_diseqc_oscillator] *)
Definition DISEQC_OSCILLATOR_UNCHANGED : Z := 0.
Definition DISEQC_OSCILLATOR_LOW : Z := 1.
Definition DISEQC_OSCILLATOR_HIGH : Z := 2.

(** [enum dvbsec_diseqc_switch] *)
Definition DISEQC_SWITCH_UNCHANGED : Z := 0.
Definition DISEQC_SWITCH_A : Z := 1.
Definition DISEQC_SWITCH_B : Z := 2.

(** [enum dvbsec_diseqc_analog_id] *)
Definition DISEQC_ANALOG_ID_A0 : Z := 0.
Definition DISEQC_ANALOG_ID_A1 : Z := 1.

(** [enum dvbsec_diseqc_drive_mode] *)
Definition DISEQC_DRIVE_MODE_STEPS : Z := 0.
Definition DISEQC_DRIVE_MODE_TIMEOUT : Z := 1.

(** [enum dvbsec_diseqc_direction] *)
Definition DISEQC_DIRECTION_EAST : Z := 0.
Definition DISEQC_DIRECTION_WEST : Z := 1.

(** [enum dvbsec_config_type] *)
Definition DVBSEC_CONFIG_NONE : Z := 0.
Definition DVBSEC_CONFIG_POWER : Z := 1.
Definition DVBSEC_CONFIG_STANDARD : Z := 2.
Definition DVBSEC_CONFIG_ADVANCED : Z := 3.

(** [struct dvbsec_config]: the commands are arrays of [MAX_SEC_CMD_LEN] characters. *)
Definition MAX_SEC_CMD_LEN : Z := 100.

Record dvbsec_config := DvbsecConfig {
  sec_id : list Z;
  switch_frequency : Z;
  lof_lo_v : Z;
  lof_lo_h : Z;
  lof_lo_l : Z;
  lof_lo_r : Z;
  lof_hi_v : Z;
  lof_hi_h : Z;
  lof_hi_l : Z;
  lof_hi_r : Z;
  config_type : Z;
  adv_cmd_lo_h : mem;
  adv_cmd_lo_v : mem;
  adv_cmd_lo_l : mem;
  adv_cmd_lo_r : mem;
  adv_cmd_hi_h : mem;
  adv_cmd_hi_v : mem;
  adv_cmd_hi_l : mem;
  adv_cmd_hi_r : mem;
}.

(** ** Floating point *)

(** The constants 16.0 and 0.9 of type [double]. *)
Definition double_16 : spec_float := binary_normalize 53 1024 16 0 false.
Definition double_0_9 : spec_float := binary_normalize 53 1024 8106479329266893 (-53) false.

(** ** DiSEqC messages *)

Section DvbSec.
Context (e : fe_env).

Abbreviation FE := (IO (list fe_op)).

(** [dvbfe_do_diseqc_command(fe, data, sizeof(data))] *)
Definition do_diseqc (data : list Z) : FE Z := dvbfe_do_diseqc_command e (map u8 data) (zlen data).

Definition dvbsec_diseqc_set_reset (address state : Z) : FE Z :=
  do_diseqc [DISEQC_FRAMING_MASTER_NOREPLY; address; if state =? DISEQC_RESET_CLEAR then 0x01 else 0x00].

Definition dvbsec_diseqc_set_power (address state : Z) : FE Z :=
  do_diseqc [DISEQC_FRAMING_MASTER_NOREPLY; address; if state =? DISEQC_POWER_ON then 0x03 else 0x02].

Definition dvbsec_diseqc_set_listen (address state : Z) : FE Z :=
  do_diseqc [DISEQC_FRAMING_MASTER_NOREPLY; address; if state =? DISEQC_LISTEN_AWAKE then 0x31 else 0x30].

(** The bits that one switch adds to the data byte. *)
Definition switch_bits (s a b : Z) : Z :=
  if s =? DISEQC_SWITCH_A then a else if s =? DISEQC_SWITCH_B then b else 0.

Definition oscillator_bits (oscillator : Z) : Z :=
  if oscillator =? DISEQC_OSCILLATOR_LOW then 0x10 else if oscillator =? DISEQC_OSCILLATOR_HIGH then 0x11 else 0.

Definition polarization_bits (polarization : Z) : Z :=
  if (polarization =? DISEQC_POLARIZATION_V) || (polarization =? DISEQC_POLARIZATION_R) then 0x20
  else if (polarization =? DISEQC_POLARIZATION_H) || (polarization =? DISEQC_POLARIZATION_L) then 0x22
  else 0.

Definition committed_bits (oscillator polarization sat_pos switch_option : Z) : Z :=
  Z.lor (Z.lor (Z.lor (oscillator_bits oscillator) (polarization_bits polarization))
    (switch_bits sat_pos 0x40 0x44)) (switch_bits switch_option 0x80 0x88).

Definition dvbsec_diseqc_set_committed_switches (address oscillator polarization sat_pos switch_option : Z) : FE Z :=
  let data3 := committed_bits oscillator polarization sat_pos switch_option in
  if data3 =? 0 then mret 0 else do_diseqc [DISEQC_FRAMING_MASTER_NOREPLY; address; 0x38; data3].

Definition uncommitted_bits (s1 s2 s3 s4 : Z) : Z :=
  Z.lor (Z.lor (Z.lor (switch_bits s1 0x10 0x11) (switch_bits s2 0x20 0x22)) (switch_bits s3 0x40 0x44))
    (switch_bits s4 0x80 0x88).

Definition dvbsec_diseqc_set_uncommitted_switches (address s1 s2 s3 s4 : Z) : FE Z :=
  let data3 := uncommitted_bits s1 s2 s3 s4 in
  if data3 =? 0 then mret 0 else do_diseqc [DISEQC_FRAMING_MASTER_NOREPLY; address; 0x39; data3].

Definition dvbsec_diseqc_set_analog_value (address id value : Z) : FE Z :=
  do_diseqc [DISEQC_FRAMING_MASTER_NOREPLY; address; if id =? DISEQC_ANALOG_ID_A1 then 0x49 else 0x48; value].

(** [for (i = 0; i <= 24; i += 4)]: seven decimal digits. *)
Fixpoint bcd_digits (n : nat) (i frequency bcdval : Z) : Z :=
  match n with
  | O => bcdval
  | S n => bcd_digits n (i + 4) (frequency / 10) (Z.lor bcdval (Z.shiftl (frequency mod 10) i))
  end.

Definition dvbsec_diseqc_set_frequency (address frequency : Z) : FE Z :=
  let bcdval := bcd_digits 7 0 frequency 0 in
  let data := [DISEQC_FRAMING_MASTER_NOREPLY; address; 0x58; Z.shiftr bcdval 16; Z.shiftr bcdval 8;
               if Z.land bcdval 0xff =? 0 then 0x00 else bcdval] in
  dvbfe_do_diseqc_command e (map u8 data) (if Z.land bcdval 0xff =? 0 then 5 else 6).

Definition dvbsec_diseqc_set_channel (address channel : Z) : FE Z :=
  do_diseqc [DISEQC_FRAMING_MASTER_NOREPLY; address; 0x59; Z.shiftr channel 8; channel].

Definition dvbsec_diseqc_halt_satpos (address : Z) : FE Z :=
  do_diseqc [DISEQC_FRAMING_MASTER_NOREPLY; address; 0x60].

Definition dvbsec_diseqc_disable_satpos_limits (address : Z) : FE Z :=
  do_diseqc [DISEQC_FRAMING_MASTER_NOREPLY; address; 0x63].

Definition dvbsec_diseqc_set_satpos_limit (address direction : Z) : FE Z :=
  do_diseqc [DISEQC_FRAMING_MASTER_NOREPLY; address; if direction =? DISEQC_DIRECTION_WEST then 0x67 else 0x66].

Definition dvbsec_diseqc_drive_satpos_motor (address direction mode value : Z) : FE Z :=
  do_diseqc [DISEQC_FRAMING_MASTER_NOREPLY; address; if direction =? DISEQC_DIRECTION_WEST then 0x69 else 0x68;
    if mode =? DISEQC_DRIVE_MODE_STEPS then Z.lor (Z.land value 0x7f) 0x80
    else if mode =? DISEQC_DRIVE_MODE_TIMEOUT then Z.land value 0x7f else 0x00].

Definition dvbsec_diseqc_store_satpos_preset (address id : Z) : FE Z :=
  do_diseqc [DISEQC_FRAMING_MASTER_NOREPLY; address; 0x6A; id].

Definition dvbsec_diseqc_goto_satpos_preset (address id : Z) : FE Z :=
  do_diseqc [DISEQC_FRAMING_MASTER_NOREPLY; address; 0x6B; id].

Definition dvbsec_diseqc_recalculate_satpos_positions (address val1 val2 : Z) : FE Z :=
  let data := [DISEQC_FRAMING_MASTER_NOREPLY; address; 0x6F; if val1 =? -1 then 0x00 else val1;
               if val2 =? -1 then 0x00 else val2] in
  let len := if val1 =? -1 then 3 else 4 in
  let len := if val2 =? -1 then len else 5 in
  dvbfe_do_diseqc_command e (map u8 data) len.

(** The fraction in sixteenths, some of them made even. *)
Definition bearing_fraction (angle : spec_float) (integer : Z) : res Z :=
  let difference := SFsub 24 128 angle (binary32_of_Z integer) in
  fraction ← int_of_float (SFadd 53 1024 (SFmul 53 1024 (binary64_of_binary32 difference) double_16) double_0_9);
  let fraction := Z.land fraction 0x0f in
  mret (if existsb (Z.eqb fraction) [1; 4; 7; 9; 12; 15] then fraction - 1 else fraction).

Definition dvbsec_diseqc_goto_rotator_bearing (address : Z) (angle : spec_float) : FE Z :=
  integer ← lift (int_of_float angle);
  fraction ← lift (bearing_fraction angle integer);
  let direction := if integer <? 0 then 0xD0 else 0xE0 in
  let integer := Z.abs integer in
  do_diseqc [DISEQC_FRAMING_MASTER_NOREPLY; address; 0x6e;
    Z.lor direction (Z.land (integer / 16) 0x0f);
    Z.lor (Z.shiftl (Z.land (integer mod 16) 0x0f) 4) fraction].

(** ** Sequences *)

Definition dvbsec_std_sequence (oscillator polarization sat_pos switch_option : Z) : FE Z :=
  dvbfe_set_22k_tone e DVBFE_SEC_TONE_OFF;;
  voltage ←
    (if (polarization =? DISEQC_POLARIZATION_V) || (polarization =? DISEQC_POLARIZATION_R) then
       dvbfe_set_voltage e DVBFE_SEC_VOLTAGE_13;; mret true
     else if (polarization =? DISEQC_POLARIZATION_H) || (polarization =? DISEQC_POLARIZATION_L) then
       dvbfe_set_voltage e DVBFE_SEC_VOLTAGE_18;; mret true
     else mret false);
  if negb voltage then mret (- EINVAL)
  else
    dvbsec_diseqc_set_committed_switches DISEQC_ADDRESS_ANY_DEVICE oscillator polarization sat_pos switch_option;;
    usleep 15000;;
    (if sat_pos =? DISEQC_SWITCH_A then dvbfe_set_tone_data_burst e DVBFE_SEC_MINI_A;; mret tt
     else if sat_pos =? DISEQC_SWITCH_B then dvbfe_set_tone_data_burst e DVBFE_SEC_MINI_B;; mret tt
     else mret tt);;
    (if negb (sat_pos =? DISEQC_SWITCH_UNCHANGED) then usleep 15000 else mret tt);;
    (if oscillator =? DISEQC_OSCILLATOR_LOW then dvbfe_set_22k_tone e DVBFE_SEC_TONE_OFF;; mret tt
     else if oscillator =? DISEQC_OSCILLATOR_HIGH then dvbfe_set_22k_tone e DVBFE_SEC_TONE_ON;; mret tt
     else mret tt);;
    mret 0.
End DvbSec.
