(* ===== verification/DvbSecCommand.v ===== *)
(** * dvbsec_api.c: commands in texts

    [dvbsec_command] interprets a text such as [tone(B) voltage(18) wait(15) Dcommitted(0,h,l,A,A)], and
    [dvbsec_set] tunes.  The text is memory that contains a NUL; the functions work on positions in it, one
    of them writes to it, and they may leave it. *)

From S2P Require Export DvbSec CText.

(** ** Characters of the text *)

Section Text.
Context (text : mem).

(** [while ( **line) ...]; the text is enough fuel, because each round reads one more of its characters.
    The result is whether it returned 0, and the new position; [end_] is [None] for NULL. *)
Fixpoint skipwhite_ (fuel : nat) (line : Z) (end_ : option Z) : res (bool * Z) :=
  match fuel with
  | O => Err OutOfFuel
  | S fuel =>
      c ← at_ text line;
      if c =? 0 then mret (false, line)
      else if match end_ with Some end_ => end_ <=? line | None => false end then mret (false, line)
      else if negb (isspace c) then mret (true, line)
      else skipwhite_ fuel (line + 1) end_
  end.

Definition skipwhite (line : Z) (end_ : option Z) : res (bool * Z) := skipwhite_ (S (length text)) line end_.

(** The length of what was read, and the new position. *)
Fixpoint getstringupto_ (fuel : nat) (start line : Z) (end_ : option Z) (match_ : Z) : res (Z * Z) :=
  match fuel with
  | O => Err OutOfFuel
  | S fuel =>
      c ← at_ text line;
      if c =? 0 then mret (line - start, line)
      else if match end_ with Some end_ => end_ <=? line | None => false end then mret (line - start, line)
      else if c =? match_ then mret (line - start, line)
      else getstringupto_ fuel start (line + 1) end_ match_
  end.

Definition getstringupto (line : Z) (end_ : option Z) (match_ : Z) : res (Z * Z) :=
  getstringupto_ (S (length text)) line line end_ match_.

(** [nameptr], [namelen], [argsptr], [argslen] and the new position; [None]: it returned -1.  The test for
    the end of the text compares the pointer with 0, not the character: it never succeeds. *)
Definition parsefunction (line : Z) : res (option (Z * Z * Z * Z * Z)) :=
  '(found, line) ← skipwhite line None;
  if negb found then mret None
  else
    let nameptr := line in
    '(namelen, line) ← getstringupto line None 40;
    let line := line + 1 in
    let argsptr := line in
    '(argslen, line) ← getstringupto line None 41;
    mret (Some (nameptr, namelen, argsptr, argslen, line + 1)).

Definition substring (p len : Z) : list Z := take (Z.to_nat len) (drop (Z.to_nat p) text).

(** The argument at [args]: its start, its length, and the position of the next; [None]: the function
    returns -1. *)
Definition next_arg (args argsend : Z) : res (option (Z * Z * Z)) :=
  '(found, args) ← skipwhite args (Some argsend);
  if negb found then mret None
  else
    let arg := args in
    '(arglen, args) ← getstringupto args (Some argsend) 44;
    c ← at_ text args;
    mret (Some (arg, arglen, if c =? 44 then args + 1 else args)).
End Text.

(** ** Numbers with a fraction *)

Inductive scan_result :=
  | Scanned (x : spec_float)
  | NoMatch
  | RunsOut.

(** [m * base ^ ex] rounded to a [float].  The mantissa has at most 31 digits, so beyond 500 the exponent
    makes no difference. *)
Definition round_float (negative : bool) (base m ex : Z) : spec_float :=
  let ex := Z.max (-500) (Z.min 500 ex) in
  match m with
  | Zpos m =>
      if 0 <=? ex then
        binary_normalize 24 128 (if negative then Zneg (m * Z.to_pos (base ^ ex)) else Zpos (m * Z.to_pos (base ^ ex)))
          0 negative
      else
        SFdiv 24 128 (S754_finite negative m 0) (S754_finite false (Z.to_pos (base ^ (- ex))) 0)
  | _ => S754_zero negative
  end.

(** The exponent behind a mantissa, whose letter is [e] or [p]. *)
Definition scan_exponent (letter : Z) (s : list Z) (k : Z -> spec_float) : scan_result :=
  match s with
  | [] => RunsOut
  | c :: s' =>
      if tolower c =? letter then
        let '(negative, s') := read_sign s' in
        let '(v, n, rest) := read_digits 10 0 s' in
        match rest, n with
        | [], _ => RunsOut
        | _, O => NoMatch
        | _, _ => Scanned (k (if negative : bool then - v else v))
        end
      else Scanned (k 0)
  end.

(** A mantissa with or without a point, and an exponent; [expbase] is the base of the exponent, [places]
    how much a digit behind the point counts in it. *)
Definition scan_mantissa (negative : bool) (base expbase places letter : Z) (s : list Z) : scan_result :=
  let '(v, n, rest) := read_digits base 0 s in
  let '(v, n, fraction, rest) :=
    match rest with
    | 46 :: rest' =>
        let '(v, n', rest) := read_digits base v rest' in (v, (n + n')%nat, Z.of_nat n', rest)
    | _ => (v, n, 0, rest)
    end in
  match rest, n with
  | [], _ => RunsOut
  | _, O => NoMatch
  | _, _ => scan_exponent letter rest (λ ex, round_float negative expbase v (ex - places * fraction))
  end.

(** A word that has to follow, letter by letter. *)
Fixpoint scan_word (w s : list Z) (k : list Z -> scan_result) : scan_result :=
  match w, s with
  | [], _ => k s
  | _, [] => RunsOut
  | a :: w, c :: s => if tolower c =? a then scan_word w s k else NoMatch
  end.

(** [sscanf(tmp, %f)], where the characters of [tmp] behind [s] are not known: [RunsOut] if they are read. *)
Definition scan_f (s : list Z) : scan_result :=
  let '(negative, s) := read_sign (skip_spaces s) in
  match s with
  | [] => RunsOut
  | c :: s' =>
      if tolower c =? 105 then
        scan_word (lit "inf") s (λ s,
          match s with
          | [] => RunsOut
          | c :: _ =>
              if tolower c =? 105 then scan_word (lit "inity") s (λ _, Scanned (S754_infinity negative))
              else Scanned (S754_infinity negative)
          end)
      else if tolower c =? 110 then
        scan_word (lit "nan") s (λ s,
          match s with
          | [] => RunsOut
          | c :: _ => if c =? 40 then RunsOut else Scanned S754_nan
          end)
      else if c =? 48 then
        match s' with
        | [] => RunsOut
        | x :: s'' => if tolower x =? 120 then scan_mantissa negative 16 2 4 112 s'' else scan_mantissa negative 10 10 1 101 s
        end
      else scan_mantissa negative 10 10 1 101 s
  end.

(** ** Arguments *)

(** The arguments that are left of a command: the text, which [parsefloatarg] changes, and a position. *)
Definition Args (A : Type) : Type := mem * Z -> res (option (A * (mem * Z))).

#[export] Instance args_ret : MRet Args := λ A a s, Ok (Some (a, s)).
#[export] Instance args_bind : MBind Args := λ A B k c s,
  match c s with
  | Ok (Some (a, s')) => k a s'
  | Ok None => Ok None
  | Err f => Err f
  end.

Definition parseintarg (argsend : Z) : Args Z := λ '(text, args),
  r ← next_arg text args argsend;
  match r with
  | None => mret None
  | Some (arg, arglen, args) =>
      let tmp := substring text arg (Z.min arglen 31) in
      match scan_i tmp with
      | None => mret None
      | Some (result, _) => mret (Some (result, (text, args)))
      end
  end.

(** [result] is what the variable held before, [None] if nothing has been stored in it. *)
Definition parsechararg (argsend : Z) (result : option Z) : Args (option Z) := λ '(text, args),
  r ← next_arg text args argsend;
  match r with
  | None => mret None
  | Some (arg, arglen, args) =>
      if 0 <? arglen then c ← at_ text arg; mret (Some (Some (schar c), (text, args)))
      else mret (Some (result, (text, args)))
  end.

(** The NUL is stored in the text instead of [tmp]: [tmp] has no end, the text gets one. *)
Definition parsefloatarg (argsend : Z) : Args spec_float := λ '(text, args),
  r ← next_arg text args argsend;
  match r with
  | None => mret None
  | Some (arg, arglen, args) =>
      let arglen := Z.min arglen 31 in
      let tmp := substring text arg arglen in
      match insert_z (arg + arglen) 0 text with
      | None => Err OutOfBounds
      | Some text =>
          match scan_f tmp with
          | Scanned result => mret (Some (result, (text, args)))
          | NoMatch => mret None
          | RunsOut => Err Uninitialised
          end
      end
  end.

(** The value of a variable. *)
Definition value_of (v : option Z) : Args Z := λ s,
  match v with Some z => Ok (Some (z, s)) | None => Err Uninitialised end.

(** ** Commands *)

Inductive sec_call :=
  | Tone (c : Z)
  | Voltage (v : Z)
  | Toneburst (c : Z)
  | Highvoltage (on : Z)
  | Dishnetworks (cmd : Z)
  | Wait (ms : Z)
  | Dreset (address state : Z)
  | Dpower (address state : Z)
  | Dcommitted (address oscillator polarization sat_pos switch_option : Z)
  | Duncommitted (address s1 s2 s3 s4 : Z)
  | Dfrequency (address frequency : Z)
  | Dchannel (address channel : Z)
  | Dgotopreset (address id : Z)
  | Dgotobearing (address : Z) (angle : spec_float).

(** The variables of [dvbsec_command], which keep their values from one command to the next. *)
Record sec_locals := SecLocals {
  v_address : option Z;
  v_iarg : option Z;
  v_iarg2 : option Z;
  v_iarg3 : option Z;
  v_iarg4 : option Z;
}.

Definition set_address (v : option Z) (l : sec_locals) : sec_locals :=
  SecLocals v (v_iarg l) (v_iarg2 l) (v_iarg3 l) (v_iarg4 l).
Definition set_iarg (v : option Z) (l : sec_locals) : sec_locals :=
  SecLocals (v_address l) v (v_iarg2 l) (v_iarg3 l) (v_iarg4 l).

(** One character, and one integer. *)
Definition char_command (f : Z -> sec_call) (argsend : Z) (l : sec_locals) : Args (sec_call * sec_locals) :=
  iarg ← parsechararg argsend (v_iarg l);
  c ← value_of iarg;
  mret (f c, set_iarg iarg l).

Definition int_command (f : Z -> sec_call) (argsend : Z) (l : sec_locals) : Args (sec_call * sec_locals) :=
  iarg ← parseintarg argsend;
  mret (f iarg, set_iarg (Some iarg) l).

(** An address and an integer. *)
Definition address_command (f : Z -> Z -> sec_call) (argsend : Z) (l : sec_locals) :
    Args (sec_call * sec_locals) :=
  address ← parseintarg argsend;
  iarg ← parseintarg argsend;
  mret (f address iarg, set_iarg (Some iarg) (set_address (Some address) l)).

(** The four characters of a switch command. *)
Definition four_chars (f : Z -> Z -> Z -> Z -> sec_call) (argsend : Z) (l : sec_locals) :
    Args (sec_call * sec_locals) :=
  iarg ← parsechararg argsend (v_iarg l);
  iarg2 ← parsechararg argsend (v_iarg2 l);
  iarg3 ← parsechararg argsend (v_iarg3 l);
  iarg4 ← parsechararg argsend (v_iarg4 l);
  a ← value_of iarg; b ← value_of iarg2; c ← value_of iarg3; d ← value_of iarg4;
  mret (f a b c d, SecLocals (v_address l) iarg iarg2 iarg3 iarg4).

Definition committed_command (argsend : Z) (l : sec_locals) : Args (sec_call * sec_locals) :=
  address ← parseintarg argsend;
  four_chars (Dcommitted address) argsend (set_address (Some address) l).

(** The address is read as a character. *)
Definition uncommitted_command (argsend : Z) (l : sec_locals) : Args (sec_call * sec_locals) :=
  address ← parsechararg argsend (v_address l);
  a ← value_of address;
  four_chars (Duncommitted a) argsend (set_address address l).

Definition bearing_command (argsend : Z) (l : sec_locals) : Args (sec_call * sec_locals) :=
  address ← parseintarg argsend;
  farg ← parsefloatarg argsend;
  mret (Dgotobearing address farg, set_address (Some address) l).

(** The [else if] chain: the first name of which the name in the text is a beginning, ignoring case. *)
Definition command_table : list (list Z * (Z -> sec_locals -> Args (sec_call * sec_locals))) :=
  [(lit "tone", char_command Tone);
   (lit "voltage", int_command Voltage);
   (lit "toneburst", char_command Toneburst);
   (lit "highvoltage", int_command Highvoltage);
   (lit "dishnetworks", int_command Dishnetworks);
   (lit "wait", int_command Wait);
   (lit "Dreset", address_command Dreset);
   (lit "Dpower", address_command Dpower);
   (lit "Dcommitted", committed_command);
   (lit "Duncommitted", uncommitted_command);
   (lit "Dfrequency", address_command Dfrequency);
   (lit "Dchannel", address_command Dchannel);
   (lit "Dgotopreset", address_command Dgotopreset);
   (lit "Dgotobearing", bearing_command)].

Fixpoint find_command {A} (name : list Z) (table : list (list Z * A)) : option A :=
  match table with
  | [] => None
  | (word, a) :: table =>
      if strncasecmp_eq (length name) name word then Some a else find_command name table
  end.

Definition parse_switch (c : Z) : Z :=
  let c := toupper c in
  if c =? 65 then DISEQC_SWITCH_A else if c =? 66 then DISEQC_SWITCH_B else DISEQC_SWITCH_UNCHANGED.

Definition parse_oscillator (c : Z) : Z :=
  let c := toupper c in
  if c =? 72 then DISEQC_OSCILLATOR_HIGH
  else if c =? 76 then DISEQC_OSCILLATOR_LOW
  else DISEQC_OSCILLATOR_UNCHANGED.

Definition parse_polarization (c : Z) : Z :=
  let c := toupper c in
  if c =? 72 then DISEQC_POLARIZATION_H
  else if c =? 86 then DISEQC_POLARIZATION_V
  else if c =? 76 then DISEQC_POLARIZATION_L
  else if c =? 82 then DISEQC_POLARIZATION_R
  else -1.

Section Commands.
Context (e : fe_env).

Abbreviation FE := (IO (list fe_op)).

(** What a command does; [false]: [dvbsec_command] returns -1.  [usleep] takes an unsigned number. *)
Definition run_command (c : sec_call) : FE bool :=
  match c with
  | Tone c => dvbfe_set_22k_tone e (if toupper c =? 66 then DVBFE_SEC_TONE_ON else DVBFE_SEC_TONE_OFF);; mret true
  | Voltage v =>
      if v =? 0 then dvbfe_set_voltage e DVBFE_SEC_VOLTAGE_OFF;; mret true
      else if v =? 13 then dvbfe_set_voltage e DVBFE_SEC_VOLTAGE_13;; mret true
      else if v =? 18 then dvbfe_set_voltage e DVBFE_SEC_VOLTAGE_18;; mret true
      else mret false
  | Toneburst c =>
      dvbfe_set_tone_data_burst e (if toupper c =? 66 then DVBFE_SEC_MINI_B else DVBFE_SEC_MINI_A);; mret true
  | Highvoltage on => dvbfe_set_high_lnb_voltage e (if on =? 0 then 0 else 1);; mret true
  | Dishnetworks cmd => dvbfe_do_dishnetworks_legacy_command e (u32 cmd);; mret true
  | Wait ms =>
      if ms =? 0 then mret true
      else if (ms * 1000 <? - 2147483648) || (2147483647 <? ms * 1000) then io_fault Undefined
      else usleep (u32 (ms * 1000));; mret true
  | Dreset address state =>
      dvbsec_diseqc_set_reset e address (if state =? 0 then DISEQC_RESET_CLEAR else DISEQC_RESET);; mret true
  | Dpower address state =>
      dvbsec_diseqc_set_power e address (if state =? 0 then DISEQC_POWER_OFF else DISEQC_POWER_ON);; mret true
  | Dcommitted address a b c d =>
      dvbsec_diseqc_set_committed_switches e address (parse_oscillator a) (parse_polarization b)
        (parse_switch c) (parse_switch d);; mret true
  | Duncommitted address a b c d =>
      dvbsec_diseqc_set_uncommitted_switches e address (parse_switch a) (parse_switch b) (parse_switch c)
        (parse_switch d);; mret true
  | Dfrequency address frequency => dvbsec_diseqc_set_frequency e address (u32 frequency);; mret true
  | Dchannel address channel => dvbsec_diseqc_set_channel e address (u16 channel);; mret true
  | Dgotopreset address id => dvbsec_diseqc_goto_satpos_preset e address (u8 id);; mret true
  | Dgotobearing address angle => dvbsec_diseqc_goto_rotator_bearing e address angle;; mret true
  end.

(** The result, and the text.  Each command takes at least two characters of the text. *)
Fixpoint dvbsec_command_ (fuel : nat) (text : mem) (line : Z) (l : sec_locals) : FE (Z * mem) :=
  match fuel with
  | O => io_fault OutOfFuel
  | S fuel =>
      f ← lift (parsefunction text line);
      match f with
      | None => mret (0, text)
      | Some (name, namelen, args, argslen, line) =>
          match find_command (substring text name namelen) command_table with
          | None => mret (-1, text)
          | Some parse =>
              r ← lift (parse (args + argslen) l (text, args));
              match r with
              | None => mret (-1, text)
              | Some (call, l, (text, _)) =>
                  ok ← run_command call;
                  if negb ok then mret (-1, text) else dvbsec_command_ fuel text line l
              end
          end
      end
  end.

Definition dvbsec_command (command : mem) : FE (Z * mem) :=
  dvbsec_command_ (S (length command)) command 0 (SecLocals None None None None None).
End Commands.

(** ** Tuning *)

Section Tuning.
Context (e : fe_env).

Abbreviation FE := (IO (list fe_op)).

(** Which of the commands is meant, and the configuration with it replaced; [None]: [-EINVAL]. *)
Definition advanced_command (c : dvbsec_config) (polarization : Z) (high : bool) :
    option (mem * (mem -> dvbsec_config)) :=
  let '(DvbsecConfig id sf llv llh lll llr lhv lhh lhl lhr ty lo_h lo_v lo_l lo_r hi_h hi_v hi_l hi_r) := c in
  let config := DvbsecConfig id sf llv llh lll llr lhv lhh lhl lhr ty in
  if polarization =? DISEQC_POLARIZATION_H then
    Some (if negb high then (lo_h, λ m, config m lo_v lo_l lo_r hi_h hi_v hi_l hi_r)
          else (hi_h, λ m, config lo_h lo_v lo_l lo_r m hi_v hi_l hi_r))
  else if polarization =? DISEQC_POLARIZATION_V then
    Some (if negb high then (lo_v, λ m, config lo_h m lo_l lo_r hi_h hi_v hi_l hi_r)
          else (hi_v, λ m, config lo_h lo_v lo_l lo_r hi_h m hi_l hi_r))
  else if polarization =? DISEQC_POLARIZATION_L then
    Some (if negb high then (lo_l, λ m, config lo_h lo_v m lo_r hi_h hi_v hi_l hi_r)
          else (hi_l, λ m, config lo_h lo_v lo_l lo_r hi_h hi_v m hi_r))
  else if polarization =? DISEQC_POLARIZATION_R then
    Some (if negb high then (lo_r, λ m, config lo_h lo_v lo_l m hi_h hi_v hi_l hi_r)
          else (hi_r, λ m, config lo_h lo_v lo_l lo_r hi_h hi_v hi_l m))
  else None.

(** [sec_config->switch_frequency && (sec_config->switch_frequency < params->frequency)] *)
Definition high_band (c : dvbsec_config) (frequency : Z) : bool :=
  negb (switch_frequency c =? 0) && (switch_frequency c <? frequency).

(** "perform SEC": what it returns if it is negative, and the configuration. *)
Definition perform_sec (c : dvbsec_config) (polarization sat_pos switch_option frequency : Z) :
    FE (Z * dvbsec_config) :=
  if config_type c =? DVBSEC_CONFIG_POWER then dvbfe_set_voltage e DVBFE_SEC_VOLTAGE_13;; mret (0, c)
  else if config_type c =? DVBSEC_CONFIG_STANDARD then
    let osc := if high_band c frequency then DISEQC_OSCILLATOR_HIGH else DISEQC_OSCILLATOR_LOW in
    tmp ← dvbsec_std_sequence e osc polarization sat_pos switch_option;
    mret (tmp, c)
  else if config_type c =? DVBSEC_CONFIG_ADVANCED then
    match advanced_command c polarization (high_band c frequency) with
    | None => mret (- EINVAL, c)
    | Some (cmd, put_cmd) =>
        '(tmp, cmd) ← dvbsec_command e cmd;
        mret (tmp, put_cmd cmd)
    end
  else mret (0, c).

(** "work out the correct LOF value" *)
Definition lof_value (c : dvbsec_config) (polarization frequency : Z) : Z :=
  let '(h, v, l, r) :=
    if (switch_frequency c =? 0) || (frequency <? switch_frequency c)
    then (lof_lo_h c, lof_lo_v c, lof_lo_l c, lof_lo_r c)
    else (lof_hi_h c, lof_hi_v c, lof_hi_l c, lof_hi_r c) in
  if polarization =? DISEQC_POLARIZATION_H then h
  else if polarization =? DISEQC_POLARIZATION_V then v
  else if polarization =? DISEQC_POLARIZATION_L then l
  else if polarization =? DISEQC_POLARIZATION_R then r
  else 0.

(** "do frequency adjustment": the difference is an [int]. *)
Definition adjust_frequency (frequency lof : Z) : Z :=
  let tmpfreq := s32 (u32 (frequency - lof)) in
  let tmpfreq := if tmpfreq <? 0 then s32 (- tmpfreq) else tmpfreq in
  u32 tmpfreq.

Definition dvbsec_set (fuel : nat) (fe : dvbfe_handle) (sec_config : option dvbsec_config)
    (polarization sat_pos switch_option : Z) (params : dvbfe_parameters) (timeout : Z) :
    FE (Z * option dvbsec_config) :=
  match sec_config with
  | None => r ← dvbfe_set e fuel fe params timeout; mret (r, None)
  | Some c =>
      '(tmp, c) ← perform_sec c polarization sat_pos switch_option (fp_frequency params);
      if tmp <? 0 then mret (tmp, Some c)
      else
        let lof := lof_value c polarization (fp_frequency params) in
        let topass :=
          if lof =? 0 then params
          else DvbfeParameters (adjust_frequency (fp_frequency params) lof) (fp_inversion params) (fp_u params) in
        r ← dvbfe_set e fuel fe topass timeout;
        mret (r, Some c)
  end.
End Tuning.
