(* ===== verification/DvbSecCorrect.v ===== *)
(** * Satellite equipment control: properties

    What the DiSEqC messages tell the devices, the order of the standard sequence, the frequency that is
    tuned to, and that the commands in a text are carried out as they were written. *)

From S2P Require Export DvbSecCommand.

(** ** What is asked of the device *)

Section Runs.
Context {A B : Type}.

(** Whatever the device answers, [c] returns a value in [R] and asks exactly for [ops]. *)
Definition fe_runs {A} (c : IO (list fe_op) A) (R : A -> Prop) (ops : list fe_op) : Prop :=
  forall w, exists a t, c w = Ok (a, World (w_state w ++ ops) t (w_log w)) /\ R a.

Lemma fe_runs_ret (a : A) (R : A -> Prop) : R a -> fe_runs (mret a) R [].
Proof. intros Ha w. exists a, (w_tick w). rewrite app_nil_r. by destruct w. Qed.

Lemma fe_runs_bind (c : IO (list fe_op) A) (k : A -> IO (list fe_op) B) R Q ops1 ops2 :
  fe_runs c R ops1 -> (forall a, R a -> fe_runs (k a) Q ops2) -> fe_runs (c ≫= k) Q (ops1 ++ ops2).
Proof.
  intros Hc Hk w. destruct (Hc w) as (a & t & Hr & Ha). destruct (Hk a Ha (World (w_state w ++ ops1) t (w_log w)))
    as (b & t' & Hr' & Hb). exists b, t'. split; [|done]. rewrite (io_bind_run _ _ _ _ _ Hr), Hr'.
  cbn [w_state w_log]. by rewrite app_assoc.
Qed.

Lemma fe_runs_mono (c : IO (list fe_op) A) (R Q : A -> Prop) ops :
  fe_runs c R ops -> (forall a, R a -> Q a) -> fe_runs c Q ops.
Proof. intros Hc H w. destruct (Hc w) as (a & t & Hr & Ha). eauto. Qed.
End Runs.

(** An action of which nothing is known but what it asks for. *)
Abbreviation asks c ops := (fe_runs c (λ _, True) ops).

Section Asks.
Context (e : fe_env).

Lemma asks_ioctl op : asks (plain_ioctl e op) [op].
Proof. intros w. by eexists _, _. Qed.

Lemma asks_usleep usec : asks (usleep usec) [OpUsleep usec].
Proof. intros w. by eexists _, _. Qed.

Lemma asks_diseqc data : (length data <= 6)%nat -> asks (do_diseqc e data) [OpSendMasterCmd (map u8 data)].
Proof.
  intros Hl w. unfold do_diseqc, dvbfe_do_diseqc_command. cbv zeta.
  rewrite u8_id by (unfold byte; lia). rewrite (proj2 (Z.ltb_ge _ _)) by lia.
  rewrite length_map, Z.ltb_irrefl, Nat2Z.id, take_ge by (rewrite length_map; lia). by eexists _, _.
Qed.

Lemma asks_tone tone : tone = DVBFE_SEC_TONE_OFF \/ tone = DVBFE_SEC_TONE_ON ->
  asks (dvbfe_set_22k_tone e tone) [OpSetTone tone].
Proof. by intros [-> | ->]; apply asks_ioctl. Qed.

Lemma asks_burst burst : burst = DVBFE_SEC_MINI_A \/ burst = DVBFE_SEC_MINI_B ->
  asks (dvbfe_set_tone_data_burst e burst) [OpSendBurst burst].
Proof. by intros [-> | ->]; apply asks_ioctl. Qed.

Lemma asks_voltage v : v = DVBFE_SEC_VOLTAGE_13 \/ v = DVBFE_SEC_VOLTAGE_18 \/ v = DVBFE_SEC_VOLTAGE_OFF ->
  asks (dvbfe_set_voltage e v) [OpSetVoltage v].
Proof. by intros [-> | [-> | ->]]; apply asks_ioctl. Qed.
End Asks.

(** ** The switches *)

(** The four switches of a multiswitch: band, polarization, position and option; [true] is the high band,
    horizontal, and the second position. *)
Definition switches : Type := bool * bool * bool * bool.

(** What a multiswitch does with the data byte: the upper four bits say which switches change, and the lower
    four how. *)
Definition obey (data : Z) (st : switches) : switches :=
  let bit i (old : bool) := if Z.testbit data (4 + i) then Z.testbit data i else old in
  let '(s1, s2, s3, s4) := st in (bit 0 s1, bit 1 s2, bit 2 s3, bit 3 s4).

Definition wanted_switch (s : Z) (old : bool) : bool :=
  if s =? DISEQC_SWITCH_A then false else if s =? DISEQC_SWITCH_B then true else old.

Definition wanted_band (oscillator : Z) (old : bool) : bool :=
  if oscillator =? DISEQC_OSCILLATOR_LOW then false
  else if oscillator =? DISEQC_OSCILLATOR_HIGH then true else old.

(** Right circular is taken as vertical, left circular as horizontal. *)
Definition wanted_polarization (polarization : Z) (old : bool) : bool :=
  if (polarization =? DISEQC_POLARIZATION_V) || (polarization =? DISEQC_POLARIZATION_R) then false
  else if (polarization =? DISEQC_POLARIZATION_H) || (polarization =? DISEQC_POLARIZATION_L) then true
  else old.

Lemma obey_committed o p s w st :
  obey (committed_bits o p s w) st =
  let '(s1, s2, s3, s4) := st in
  (wanted_band o s1, wanted_polarization p s2, wanted_switch s s3, wanted_switch w s4).
Proof.
  destruct st as [[[s1 s2] s3] s4]. unfold committed_bits, oscillator_bits, polarization_bits, switch_bits,
    wanted_band, wanted_polarization, wanted_switch.
  by destruct (o =? DISEQC_OSCILLATOR_LOW), (o =? DISEQC_OSCILLATOR_HIGH),
    ((p =? DISEQC_POLARIZATION_V) || (p =? DISEQC_POLARIZATION_R)),
    ((p =? DISEQC_POLARIZATION_H) || (p =? DISEQC_POLARIZATION_L)),
    (s =? DISEQC_SWITCH_A), (s =? DISEQC_SWITCH_B), (w =? DISEQC_SWITCH_A), (w =? DISEQC_SWITCH_B).
Qed.

Lemma obey_uncommitted a b c d st :
  obey (uncommitted_bits a b c d) st =
  let '(s1, s2, s3, s4) := st in (wanted_switch a s1, wanted_switch b s2, wanted_switch c s3, wanted_switch d s4).
Proof.
  destruct st as [[[s1 s2] s3] s4]. unfold uncommitted_bits, switch_bits, wanted_switch.
  by destruct (a =? DISEQC_SWITCH_A), (a =? DISEQC_SWITCH_B), (b =? DISEQC_SWITCH_A), (b =? DISEQC_SWITCH_B),
    (c =? DISEQC_SWITCH_A), (c =? DISEQC_SWITCH_B), (d =? DISEQC_SWITCH_A), (d =? DISEQC_SWITCH_B).
Qed.

(** A multiswitch that is sent a message: [committed] are the switches that 0x38 sets, the others those that
    0x39 sets. *)
Definition multiswitch (st : switches * switches) (op : fe_op) : switches * switches :=
  match op with
  | OpSendMasterCmd [framing; address; command; data] =>
      if command =? 0x38 then (obey data st.1, st.2)
      else if command =? 0x39 then (st.1, obey data st.2)
      else st
  | _ => st
  end.

Lemma obey_zero st : obey 0 st = st.
Proof. by destruct st as [[[]]]. Qed.

Lemma committed_bits_byte o p s w : u8 (committed_bits o p s w) = committed_bits o p s w.
Proof.
  unfold committed_bits, oscillator_bits, polarization_bits, switch_bits.
  by destruct (o =? DISEQC_OSCILLATOR_LOW), (o =? DISEQC_OSCILLATOR_HIGH),
    ((p =? DISEQC_POLARIZATION_V) || (p =? DISEQC_POLARIZATION_R)),
    ((p =? DISEQC_POLARIZATION_H) || (p =? DISEQC_POLARIZATION_L)),
    (s =? DISEQC_SWITCH_A), (s =? DISEQC_SWITCH_B), (w =? DISEQC_SWITCH_A), (w =? DISEQC_SWITCH_B).
Qed.

Lemma uncommitted_bits_byte a b c d : u8 (uncommitted_bits a b c d) = uncommitted_bits a b c d.
Proof.
  unfold uncommitted_bits, switch_bits.
  by destruct (a =? DISEQC_SWITCH_A), (a =? DISEQC_SWITCH_B), (b =? DISEQC_SWITCH_A), (b =? DISEQC_SWITCH_B),
    (c =? DISEQC_SWITCH_A), (c =? DISEQC_SWITCH_B), (d =? DISEQC_SWITCH_A), (d =? DISEQC_SWITCH_B).
Qed.

(** What is sent to set the switches. *)
Definition switch_message (address command data : Z) : list fe_op :=
  if data =? 0 then [] else [OpSendMasterCmd [0xE0; u8 address; command; data]].

Lemma asks_switches e address command data :
  byte command -> u8 data = data ->
  asks (if data =? 0 then mret 0 else do_diseqc e [DISEQC_FRAMING_MASTER_NOREPLY; address; command; data])
    (switch_message address command data).
Proof.
  intros Hc Hd. unfold switch_message. destruct (data =? 0); [by apply fe_runs_ret|].
  pose proof (asks_diseqc e [DISEQC_FRAMING_MASTER_NOREPLY; address; command; data]) as H.
  cbn [map] in H. rewrite Hd, (u8_id command Hc) in H. apply H. cbn. lia.
Qed.

(** C24: whatever the driver answers, after the message that sets the committed or the uncommitted switches a
    multiswitch has each switch as asked, and leaves the switches that are to be unchanged as they were;
    the other group of switches is not touched, and if nothing is asked nothing is sent. *)
Theorem switch_messages_obeyed e address (st : switches * switches) :
  (forall o p s w, exists sent,
     asks (dvbsec_diseqc_set_committed_switches e address o p s w) sent /\
     fold_left multiswitch sent st =
       (let '(s1, s2, s3, s4) := st.1 in
        (wanted_band o s1, wanted_polarization p s2, wanted_switch s s3, wanted_switch w s4), st.2)) /\
  (forall a b c d, exists sent,
     asks (dvbsec_diseqc_set_uncommitted_switches e address a b c d) sent /\
     fold_left multiswitch sent st =
       (st.1, let '(s1, s2, s3, s4) := st.2 in
        (wanted_switch a s1, wanted_switch b s2, wanted_switch c s3, wanted_switch d s4))).
Proof.
  split.
  - intros o p s w. exists (switch_message address 0x38 (committed_bits o p s w)). split.
    + apply asks_switches; [by unfold byte|apply committed_bits_byte].
    + rewrite <- obey_committed. unfold switch_message.
      destruct (Z.eqb_spec (committed_bits o p s w) 0) as [->|_]; [|done].
      rewrite obey_zero. by destruct st.
  - intros a b c d. exists (switch_message address 0x39 (uncommitted_bits a b c d)). split.
    + apply asks_switches; [by unfold byte|apply uncommitted_bits_byte].
    + rewrite <- obey_uncommitted. unfold switch_message.
      destruct (Z.eqb_spec (uncommitted_bits a b c d) 0) as [->|_]; [|done].
      rewrite obey_zero. by destruct st.
Qed.

(** ** The standard sequence *)

Definition burst_of (sat_pos : Z) : list fe_op :=
  if sat_pos =? DISEQC_SWITCH_A then [OpSendBurst SEC_MINI_A]
  else if sat_pos =? DISEQC_SWITCH_B then [OpSendBurst SEC_MINI_B] else [].

Definition tone_of (oscillator : Z) : list fe_op :=
  if oscillator =? DISEQC_OSCILLATOR_LOW then [OpSetTone SEC_TONE_OFF]
  else if oscillator =? DISEQC_OSCILLATOR_HIGH then [OpSetTone SEC_TONE_ON] else [].

Definition is_vertical (polarization : Z) : bool :=
  (polarization =? DISEQC_POLARIZATION_V) || (polarization =? DISEQC_POLARIZATION_R).
Definition is_horizontal (polarization : Z) : bool :=
  (polarization =? DISEQC_POLARIZATION_H) || (polarization =? DISEQC_POLARIZATION_L).

(** What the sequence asks for. *)
Definition std_sequence (oscillator polarization sat_pos switch_option : Z) : list fe_op :=
  [OpSetTone SEC_TONE_OFF] ++
  (if is_vertical polarization || is_horizontal polarization then
     [OpSetVoltage (if is_vertical polarization then SEC_VOLTAGE_13 else SEC_VOLTAGE_18)] ++
     switch_message 0 0x38 (committed_bits oscillator polarization sat_pos switch_option) ++
     [OpUsleep 15000] ++ burst_of sat_pos ++
     (if sat_pos =? DISEQC_SWITCH_UNCHANGED then [] else [OpUsleep 15000]) ++
     tone_of oscillator
   else []).

Section Sequence.
Context (e : fe_env).

(** An optional step whose result is dropped. *)
Lemma asks_then (c : IO (list fe_op) Z) ops : asks c ops -> asks (c;; mret tt) ops.
Proof. intros H. rewrite <- (app_nil_r ops). apply (fe_runs_bind _ _ _ _ _ _ H). intros _ _. by apply fe_runs_ret. Qed.

Lemma asks_seq {A B} (c : IO (list fe_op) A) (k : IO (list fe_op) B) Q ops1 ops2 :
  asks c ops1 -> fe_runs k Q ops2 -> fe_runs (c;; k) Q (ops1 ++ ops2).
Proof. intros Hc Hk. apply (fe_runs_bind _ _ _ _ _ _ Hc). by intros. Qed.

Lemma asks_nothing {A} (a : A) : asks (mret a) [].
Proof. by apply fe_runs_ret. Qed.

(** The part after the voltage. *)
Lemma switching_run oscillator polarization sat_pos switch_option :
  fe_runs
    (dvbsec_diseqc_set_committed_switches e DISEQC_ADDRESS_ANY_DEVICE oscillator polarization sat_pos switch_option;;
     usleep 15000;;
     (if sat_pos =? DISEQC_SWITCH_A then dvbfe_set_tone_data_burst e DVBFE_SEC_MINI_A;; mret tt
      else if sat_pos =? DISEQC_SWITCH_B then dvbfe_set_tone_data_burst e DVBFE_SEC_MINI_B;; mret tt
      else mret tt);;
     (if negb (sat_pos =? DISEQC_SWITCH_UNCHANGED) then usleep 15000 else mret tt);;
     (if oscillator =? DISEQC_OSCILLATOR_LOW then dvbfe_set_22k_tone e DVBFE_SEC_TONE_OFF;; mret tt
      else if oscillator =? DISEQC_OSCILLATOR_HIGH then dvbfe_set_22k_tone e DVBFE_SEC_TONE_ON;; mret tt
      else mret tt);;
     mret 0) (λ r, r = 0)
    (switch_message 0 0x38 (committed_bits oscillator polarization sat_pos switch_option) ++
     [OpUsleep 15000] ++ burst_of sat_pos ++
     (if sat_pos =? DISEQC_SWITCH_UNCHANGED then [] else [OpUsleep 15000]) ++ tone_of oscillator).
Proof.
  apply asks_seq; [apply asks_switches; [by unfold byte|apply committed_bits_byte]|].
  apply asks_seq; [apply asks_usleep|]. apply asks_seq.
  { unfold burst_of. destruct (sat_pos =? DISEQC_SWITCH_A); [apply asks_then, asks_burst; by left|].
    destruct (sat_pos =? DISEQC_SWITCH_B); [apply asks_then, asks_burst; by right|apply asks_nothing]. }
  apply asks_seq; [destruct (sat_pos =? DISEQC_SWITCH_UNCHANGED); [apply asks_nothing|apply asks_usleep]|].
  rewrite <- (app_nil_r (tone_of oscillator)). apply asks_seq; [|by apply fe_runs_ret].
  unfold tone_of. destruct (oscillator =? DISEQC_OSCILLATOR_LOW); [apply asks_then, asks_tone; by left|].
  destruct (oscillator =? DISEQC_OSCILLATOR_HIGH); [apply asks_then, asks_tone; by right|apply asks_nothing].
Qed.

Lemma std_sequence_run oscillator polarization sat_pos switch_option :
  fe_runs (dvbsec_std_sequence e oscillator polarization sat_pos switch_option)
    (λ r, r = if is_vertical polarization || is_horizontal polarization then 0 else - EINVAL)
    (std_sequence oscillator polarization sat_pos switch_option).
Proof.
  unfold dvbsec_std_sequence, std_sequence. apply asks_seq; [apply asks_tone; by left|].
  change ((polarization =? DISEQC_POLARIZATION_V) || (polarization =? DISEQC_POLARIZATION_R)) with (is_vertical polarization).
  change ((polarization =? DISEQC_POLARIZATION_H) || (polarization =? DISEQC_POLARIZATION_L)) with (is_horizontal polarization).
  assert (Hv : forall v, v = DVBFE_SEC_VOLTAGE_13 \/ v = DVBFE_SEC_VOLTAGE_18 ->
    fe_runs (dvbfe_set_voltage e v;; mret true) (λ b, b = true) ([OpSetVoltage v] ++ [])).
  { intros v Hv. apply asks_seq; [apply asks_voltage; tauto|by apply fe_runs_ret]. }
  destruct (is_vertical polarization); [|destruct (is_horizontal polarization)]; cbn [orb].
  - apply (fe_runs_bind _ _ (λ b, b = true)); [apply (Hv DVBFE_SEC_VOLTAGE_13); by left|].
    intros ? ->. apply switching_run.
  - apply (fe_runs_bind _ _ (λ b, b = true)); [apply (Hv DVBFE_SEC_VOLTAGE_18); by right|].
    intros ? ->. apply switching_run.
  - apply (fe_runs_bind _ _ (λ b, b = false) _ []); [by apply fe_runs_ret|]. intros ? ->. by apply fe_runs_ret.
Qed.
End Sequence.

(** ** Tuning *)

(** The oscillator frequency of a band. *)
Definition band_lof (c : dvbsec_config) (polarization : Z) (high : bool) : Z :=
  if polarization =? DISEQC_POLARIZATION_H then if high then lof_hi_h c else lof_lo_h c
  else if polarization =? DISEQC_POLARIZATION_V then if high then lof_hi_v c else lof_lo_v c
  else if polarization =? DISEQC_POLARIZATION_L then if high then lof_hi_l c else lof_lo_l c
  else if polarization =? DISEQC_POLARIZATION_R then if high then lof_hi_r c else lof_lo_r c
  else 0.

(** But at the switching frequency itself, the oscillator that is switched on is the one that is reckoned
    with. *)
Lemma lof_value_band c polarization frequency :
  frequency <> switch_frequency c ->
  lof_value c polarization frequency = band_lof c polarization (high_band c frequency).
Proof.
  intros Hne. unfold lof_value, high_band, band_lof.
  destruct (Z.eqb_spec (switch_frequency c) 0) as [E|E]; cbn [orb negb andb].
  - done.
  - destruct (Z.ltb_spec frequency (switch_frequency c)); destruct (Z.ltb_spec (switch_frequency c) frequency);
      try lia; done.
Qed.

Lemma adjust_frequency_abs frequency lof :
  0 <= frequency < 2 ^ 31 -> 0 <= lof < 2 ^ 31 -> adjust_frequency frequency lof = Z.abs (frequency - lof).
Proof.
  intros Hf Hl. unfold adjust_frequency. assert (E : s32 (u32 (frequency - lof)) = frequency - lof).
  { unfold s32, u32. Z.to_euclidean_division_equations. lia. }
  rewrite E. destruct (Z.ltb_spec (frequency - lof) 0).
  - assert (E2 : s32 (- (frequency - lof)) = - (frequency - lof)).
    { unfold s32. rewrite Z.mod_small by lia. lia. }
    rewrite E2, u32_id by lia. lia.
  - rewrite u32_id by lia. lia.
Qed.

Lemma dvbfe_set_now e fuel h f inversion u ku :
  tuning_to_kapi (fh_type h) u = Ok (Some ku) ->
  asks (dvbfe_set e fuel h (DvbfeParameters f inversion u) 0)
    [OpSetFrontend (KernelParameters f (lookupval inversion false dvbfe_spectral_inversion_to_kapi) ku)].
Proof.
  intros Hu w. unfold dvbfe_set. cbn [fp_u fp_frequency fp_inversion]. rewrite Hu.
  rewrite (io_bind_run _ _ w (Some ku) w) by done. cbv zeta.
  set (op := OpSetFrontend _). set (w1 := World (w_state w ++ [op]) (S (w_tick w)) (w_log w)).
  rewrite (io_bind_run _ _ w (w_tick w, fe_ioctl e (w_tick w)) w1) by done.
  exists (if negb (fe_ioctl e (w_tick w) =? 0) then fe_ioctl e (w_tick w) else 0), (S (w_tick w)).
  split; [|done]. by destruct (negb _).
Qed.

(** C7: with a standard configuration, [dvbsec_set] first runs the standard sequence and then tunes: the
    sequence selects the converter's band of the frequency and the polarization, and the tuner is given the
    difference to the oscillator of that band, for every frequency but the switching frequency itself. *)
Theorem satellite_tuned e fuel h c polarization sat_pos switch_option f inversion u ku :
  config_type c = DVBSEC_CONFIG_STANDARD ->
  is_vertical polarization || is_horizontal polarization = true ->
  f <> switch_frequency c -> 0 <= f < 2 ^ 31 -> 0 <= band_lof c polarization (high_band c f) < 2 ^ 31 ->
  tuning_to_kapi (fh_type h) u = Ok (Some ku) ->
  asks (dvbsec_set e fuel h (Some c) polarization sat_pos switch_option (DvbfeParameters f inversion u) 0)
    (std_sequence (if high_band c f then DISEQC_OSCILLATOR_HIGH else DISEQC_OSCILLATOR_LOW) polarization
       sat_pos switch_option ++
     [OpSetFrontend (KernelParameters (Z.abs (f - band_lof c polarization (high_band c f)))
        (lookupval inversion false dvbfe_spectral_inversion_to_kapi) ku)]).
Proof.
  intros Hty Hpol Hne Hf Hlof Hu. unfold dvbsec_set. cbn [fp_frequency fp_inversion fp_u].
  apply (fe_runs_bind _ _ (λ r, r = (0, c))).
  { unfold perform_sec. rewrite Hty. change (DVBSEC_CONFIG_STANDARD =? DVBSEC_CONFIG_POWER) with false.
    change (DVBSEC_CONFIG_STANDARD =? DVBSEC_CONFIG_STANDARD) with true. cbv iota zeta.
    rewrite <- (app_nil_r (std_sequence _ _ _ _)).
    apply (fe_runs_bind _ _ (λ r, r = 0)); [|intros ? ->; by apply fe_runs_ret].
    pose proof (std_sequence_run e (if high_band c f then DISEQC_OSCILLATOR_HIGH else DISEQC_OSCILLATOR_LOW)
      polarization sat_pos switch_option) as Hs. by rewrite Hpol in Hs. }
  intros ? ->. change (0 <? 0) with false. cbv iota zeta. rewrite lof_value_band by done.
  set (lof := band_lof c polarization (high_band c f)) in *.
  rewrite <- (app_nil_r [OpSetFrontend _]).
  apply (fe_runs_bind _ _ (λ _, True)); [|intros; by apply fe_runs_ret].
  destruct (Z.eqb_spec lof 0) as [E|E].
  - rewrite E, Z.sub_0_r, Z.abs_eq by lia. by apply dvbfe_set_now.
  - rewrite adjust_frequency_abs by done. by apply dvbfe_set_now.
Qed.

(** An Astra transponder in the high band with an universal converter. *)
Definition universal : dvbsec_config :=
  DvbsecConfig [] 11700000 9750000 9750000 0 0 10600000 10600000 0 0 DVBSEC_CONFIG_STANDARD
    [] [] [] [] [] [] [] [].

Definition deaf_driver : fe_env :=
  FeEnv (λ _, 0) (λ _, 0) (λ _, KernelParameters 0 0 (Vsb 0)) (λ _, 0) (λ _, (0, 0)) (λ _, (0, 0)).

Lemma satellite_tuned_witness :
  high_band universal 12187500 = true /\
  asks (dvbsec_set deaf_driver 0 (DvbfeHandle FE_QPSK []) (Some universal) DISEQC_POLARIZATION_H
      DISEQC_SWITCH_A DISEQC_SWITCH_UNCHANGED
      (DvbfeParameters 12187500 DVBFE_INVERSION_AUTO (Dvbs 27500000 DVBFE_FEC_3_4)) 0)
    (std_sequence DISEQC_OSCILLATOR_HIGH DISEQC_POLARIZATION_H DISEQC_SWITCH_A DISEQC_SWITCH_UNCHANGED ++
     [OpSetFrontend (KernelParameters 1587500 INVERSION_AUTO (Qpsk 27500000 FEC_3_4))]).
Proof.
  split; [reflexivity|].
  apply (satellite_tuned deaf_driver 0 (DvbfeHandle FE_QPSK []) universal DISEQC_POLARIZATION_H DISEQC_SWITCH_A
    DISEQC_SWITCH_UNCHANGED 12187500 DVBFE_INVERSION_AUTO (Dvbs 27500000 DVBFE_FEC_3_4) (Qpsk 27500000 FEC_3_4));
    [reflexivity|reflexivity|discriminate|lia| |reflexivity].
  split; [discriminate|reflexivity].
Defined.

(** ** Frequencies *)

(** Two decimal digits in a byte, and what bytes of them mean. *)
Definition bcd2 (v : Z) : Z := v mod 10 + 16 * ((v / 10) mod 10).
Definition bcd_value (bs : list Z) : Z := fold_left (λ v b, v * 100 + b / 16 * 10 + b mod 16) bs 0.

Lemma bcd2_bounds v : 0 <= bcd2 v < 256 /\ bcd2 v / 16 * 10 + bcd2 v mod 16 = v mod 100.
Proof. unfold bcd2. Z.to_euclidean_division_equations. lia. Qed.

Fixpoint bcd_sum (n : nat) (f : Z) : Z :=
  match n with O => 0 | S n => f mod 10 + 16 * bcd_sum n (f / 10) end.

Lemma bcd_digits_sum n : forall i f v, 0 <= i -> 0 <= v < 2 ^ i -> bcd_digits n i f v = v + 2 ^ i * bcd_sum n f.
Proof.
  induction n as [|n IH]; intros i f v Hi Hv; cbn [bcd_digits bcd_sum]; [lia|].
  pose proof (Z.mod_pos_bound f 10 ltac:(lia)). rewrite lor_add by done.
  rewrite IH; [|lia|]; rewrite Z.pow_add_r by lia; change (2 ^ 4) with 16; nia.
Qed.

Lemma bcd_sum_bytes f : 0 <= f ->
  bcd_sum 7 f = bcd2 f + 256 * bcd2 (f / 100) + 65536 * bcd2 (f / 10000) + 16777216 * (f / 1000000 mod 10).
Proof.
  intros Hf. unfold bcd2. cbn [bcd_sum]. rewrite !Z.div_div by lia.
  change (10 * 10 * 10 * 10 * 10 * 10) with 1000000. change (10 * 10 * 10 * 10 * 10) with 100000.
  change (10 * 10 * 10 * 10) with 10000. change (10 * 10 * 10) with 1000. change (10 * 10) with 100.
  change (100 * 10) with 1000. change (10000 * 10) with 100000. lia.
Qed.

(** The message that sets a frequency has its last six decimal digits, two in each byte, and leaves out
    the last byte if it is zero; the seventh digit, which the loop computes, is lost. *)
Theorem frequency_sent e address f :
  0 <= f < 2 ^ 32 ->
  exists digits,
    asks (dvbsec_diseqc_set_frequency e address f) [OpSendMasterCmd ([0xE0; u8 address; 0x58] ++ digits)] /\
    bcd_value (take 3 (digits ++ [0])) = f mod 1000000 /\
    Forall (λ b, 0 <= b < 256 /\ b / 16 < 10 /\ b mod 16 < 10) digits /\
    zlen digits = if f mod 100 =? 0 then 2 else 3.
Proof.
  intros Hf. unfold dvbsec_diseqc_set_frequency. rewrite bcd_digits_sum by lia.
  replace (0 + 2 ^ 0 * bcd_sum 7 f) with (bcd_sum 7 f) by lia. rewrite bcd_sum_bytes by lia. cbv zeta.
  destruct (bcd2_bounds f) as [B0 V0], (bcd2_bounds (f / 100)) as [B1 V1], (bcd2_bounds (f / 10000)) as [B2 V2].
  assert (N : forall v, bcd2 v / 16 < 10 /\ bcd2 v mod 16 < 10).
  { intros v. unfold bcd2. Z.to_euclidean_division_equations. lia. }
  pose proof (N f) as N0. pose proof (N (f / 100)) as N1. pose proof (N (f / 10000)) as N2. clear N.
  set (b0 := bcd2 f) in *. set (b1 := bcd2 (f / 100)) in *. set (b2 := bcd2 (f / 10000)) in *.
  set (d6 := f / 1000000 mod 10) in *. assert (0 <= d6) by (apply Z.mod_pos_bound; lia).
  set (v := b0 + 256 * b1 + 65536 * b2 + 16777216 * d6).
  assert (E0 : u8 v = b0) by (unfold u8, v; Z.to_euclidean_division_equations; lia).
  assert (E1 : u8 (Z.shiftr v 8) = b1).
  { rewrite Z.shiftr_div_pow2 by lia. unfold u8, v. change (2 ^ 8) with 256. Z.to_euclidean_division_equations; lia. }
  assert (E2 : u8 (Z.shiftr v 16) = b2).
  { rewrite Z.shiftr_div_pow2 by lia. unfold u8, v. change (2 ^ 16) with 65536. Z.to_euclidean_division_equations; lia. }
  rewrite land_ff. change (v mod 256) with (u8 v). rewrite E0.
  assert (Hz : (b0 =? 0) = (f mod 100 =? 0)).
  { destruct (Z.eqb_spec b0 0) as [E|E], (Z.eqb_spec (f mod 100) 0) as [E'|E']; try done; exfalso.
    - rewrite E in V0. by rewrite <- V0 in E'.
    - apply E. rewrite E' in V0. Z.to_euclidean_division_equations; lia. }
  rewrite Hz. cbn [map]. rewrite E1, E2.
  assert (Hv : forall lo, lo = b0 -> bcd_value [b2; b1; lo] = f mod 1000000).
  { intros lo ->. unfold bcd_value. cbn [fold_left].
    assert (E : f mod 1000000 = f / 10000 mod 100 * 10000 + f / 100 mod 100 * 100 + f mod 100)
      by (Z.to_euclidean_division_equations; lia).
    rewrite E, <- V0, <- V1, <- V2. lia. }
  exists (if f mod 100 =? 0 then [b2; b1] else [b2; b1; b0]).
  destruct (Z.eqb_spec (f mod 100) 0) as [Ez|Ez].
  - assert (E0z : b0 = 0) by (apply Z.eqb_eq; by rewrite Hz). split_and!; [|by apply Hv| |done].
    + intros w. by eexists _, _.
    + repeat (apply Forall_cons; [done|]). apply Forall_nil.
  - split_and!; [|by apply Hv| |done].
    + intros w. rewrite E0. by eexists _, _.
    + repeat (apply Forall_cons; [done|]). apply Forall_nil.
Qed.

(** ** Bearings *)

(** The tenths of a degree in the sixteenths that a rotator understands. *)
Definition tenths : list Z := [0; 2; 3; 5; 6; 8; 10; 11; 13; 14].

(** [k] tenths of a degree as a [float]. *)
Definition float_tenths (negative : bool) (k : Z) : spec_float := round_float negative 10 k (-1).

Definition bearing_ok (k : Z) : bool :=
  match int_of_float (float_tenths false k) with
  | Ok integer =>
      (integer =? k / 10) &&
      match bearing_fraction (float_tenths false k) integer with
      | Ok fraction => fraction =? nth (Z.to_nat (k mod 10)) tenths 0
      | Err _ => false
      end
  | Err _ => false
  end.

Lemma bearings_ok : forallb bearing_ok (seqZ 0 1800) = true.
Proof. vm_cast_no_check (eq_refl true). Qed.

(** C35: for every bearing from 0 to 179.9 degrees east in steps of a tenth, as the [float] nearest to it, the
    rotator is sent the whole degrees in binary and the tenths in the sixteenths the standard has for them. *)
Theorem east_bearings_sent e address k :
  0 <= k < 1800 ->
  asks (dvbsec_diseqc_goto_rotator_bearing e address (float_tenths false k))
    [OpSendMasterCmd [0xE0; u8 address; 0x6e; 0xE0 + k / 10 / 16;
       16 * (k / 10 mod 16) + nth (Z.to_nat (k mod 10)) tenths 0]].
Proof.
  intros Hk. pose proof bearings_ok as Hall. rewrite forallb_forall in Hall.
  specialize (Hall k ltac:(apply list_elem_of_In, elem_of_seqZ; lia)). unfold bearing_ok in Hall.
  destruct (int_of_float (float_tenths false k)) as [integer|] eqn:Ei; [|done].
  apply andb_prop in Hall as [Hi Hf]. apply Z.eqb_eq in Hi. subst integer.
  destruct (bearing_fraction _ _) as [fraction|] eqn:Ef; [|done]. apply Z.eqb_eq in Hf.
  assert (Hfr : 0 <= fraction < 16).
  { rewrite Hf. assert (Hm : 0 <= k mod 10 < 10) by (apply Z.mod_pos_bound; lia).
    assert (Hin : Forall (λ x, 0 <= x < 16) tenths) by (by repeat constructor).
    rewrite Forall_nth in Hin. apply Hin. cbn. lia. }
  assert (Hq : 0 <= k / 10 < 180) by (split; [apply Z.div_pos|apply Z.div_lt_upper_bound]; lia).
  unfold dvbsec_diseqc_goto_rotator_bearing. intros w. rewrite Ei.
  rewrite (io_bind_run _ _ w (k / 10) w) by done. rewrite Ef. rewrite (io_bind_run _ _ w fraction w) by done.
  cbv zeta. rewrite (proj2 (Z.ltb_ge _ _)), Z.abs_eq by lia.
  change 0x0f with (Z.ones 4). rewrite !land_mask by lia. change (2 ^ 4) with 16.
  assert (H3 : Z.lor 0xE0 (k / 10 / 16 mod 16) = 0xE0 + k / 10 / 16).
  { rewrite Z.mod_small by (Z.to_euclidean_division_equations; lia).
    rewrite Z.lor_comm. change (Z.lor (k / 10 / 16) 0xE0) with (Z.lor (k / 10 / 16) (Z.shiftl 14 4)).
    rewrite (lor_add _ _ 4); [lia|lia|]. change (2 ^ 4) with 16. Z.to_euclidean_division_equations; lia. }
  assert (H4 : Z.lor (Z.shiftl ((k / 10 mod 16) mod 16) 4) fraction = 16 * (k / 10 mod 16) + fraction).
  { rewrite Z.lor_comm, (lor_add _ _ 4) by (lia || (change (2 ^ 4) with 16; lia)). rewrite Z.mod_mod by lia. lia. }
  rewrite H3, H4, <- Hf.
  assert (Hq16 : 0 <= k / 10 / 16 < 16) by (Z.to_euclidean_division_equations; lia).
  pose proof (Z.mod_pos_bound (k / 10) 16 ltac:(lia)).
  pose proof (asks_diseqc e [0xE0; address; 0x6e; 0xE0 + k / 10 / 16; 16 * (k / 10 mod 16) + fraction]) as Ha.
  cbn [map] in Ha. rewrite (u8_id (0xE0 + k / 10 / 16)), (u8_id (16 * (k / 10 mod 16) + fraction)) in Ha
    by (unfold byte; lia).
  apply Ha. cbn. lia.
Qed.

(** 19.2 degrees east. *)
Lemma east_bearings_sent_witness :
  asks (dvbsec_diseqc_goto_rotator_bearing deaf_driver 0x31 (float_tenths false 192))
    [OpSendMasterCmd [0xE0; 0x31; 0x6e; 0xE1; 0x33]].
Proof. apply (east_bearings_sent deaf_driver 0x31 192). split; [discriminate|reflexivity]. Defined.

(** To the west the fraction is that of a negative number, and half a degree west is sent as east. *)
Lemma west_fraction_wrong :
  bearing_fraction (float_tenths true 123) (-12) = Ok 13 /\ nth 3 tenths 0 = 5 /\
  int_of_float (float_tenths true 5) = Ok 0.
Proof. by vm_compute. Qed.
