(* ===== verification/DvbSecText.v ===== *)
(** * Commands in texts: properties

    A list of commands that is written as a text is carried out as written. *)

From S2P Require Export DvbSecCorrect.

(** ** Positions in a text *)

(** [s] is in the text at [p]. *)
Definition holds (text : mem) (p : Z) (s : list Z) : Prop :=
  exists pre post, text = pre ++ s ++ post /\ p = zlen pre.

Lemma holds_app text p a b : holds text p (a ++ b) -> holds text p a /\ holds text (p + zlen a) b.
Proof.
  intros (pre & post & -> & ->). split.
  - exists pre, (b ++ post). by rewrite <- app_assoc.
  - exists (pre ++ a), post. rewrite length_app, <- !app_assoc. split; [done|lia].
Qed.

Lemma holds_at text p c s : holds text p (c :: s) -> at_ text p = Ok c.
Proof.
  intros (pre & post & -> & ->). unfold at_. rewrite lookup_z_app_r by lia. by rewrite Z.sub_diag.
Qed.

Lemma holds_cons text p c s : holds text p (c :: s) -> at_ text p = Ok c /\ holds text (p + 1) s.
Proof. intros H. split; [by eapply holds_at|]. by apply (holds_app text p [c] s). Qed.

Lemma holds_fuel text p s : holds text p s -> (length s <= length text)%nat.
Proof. intros (pre & post & -> & _). rewrite !length_app. lia. Qed.

Lemma holds_substring text p s : holds text p s -> substring text p (zlen s) = s.
Proof.
  intros (pre & post & -> & ->). unfold substring. by rewrite !Nat2Z.id, drop_app_length, take_app_length.
Qed.

Section Positions.
Context (text : mem).

(** Whether the end, if there is one, is not before [p]. *)
Definition not_before (end_ : option Z) (p : Z) : Prop :=
  match end_ with Some end_ => p <= end_ | None => True end.

Lemma skipwhite_run end_ spaces c : isspace c = false -> c <> 0 -> forall fuel p,
  Forall (λ c, isspace c = true) spaces -> holds text p (spaces ++ [c]) -> (length spaces < fuel)%nat ->
  not_before end_ (p + zlen spaces + 1) ->
  skipwhite_ text fuel p end_ = Ok (true, p + zlen spaces).
Proof.
  intros Hc Hc0. induction spaces as [|s spaces IH]; intros fuel p Hs Ht Hf Hend;
    (destruct fuel as [|fuel]; [cbn [length] in Hf; lia|]); cbn [skipwhite_ app length] in *.
  - apply holds_cons in Ht as [-> _]. cbn [mbind res_bind]. rewrite (proj2 (Z.eqb_neq _ _)) by done.
    assert (E : match end_ with Some end_ => end_ <=? p | None => false end = false).
    { destruct end_ as [end_|]; [|done]. cbn in Hend. apply Z.leb_gt. lia. }
    rewrite E, Hc. cbn [negb]. by replace (p + Z.of_nat 0) with p by lia.
  - apply Forall_cons_iff in Hs as [Hs Hss]. apply holds_cons in Ht as [-> Ht]. cbn [mbind res_bind].
    assert (Hs0 : s <> 0) by (intros ->; done). rewrite (proj2 (Z.eqb_neq _ _)) by done.
    assert (E : match end_ with Some end_ => end_ <=? p | None => false end = false).
    { destruct end_ as [end_|]; [|done]. cbn in Hend. apply Z.leb_gt. lia. }
    rewrite E, Hs. cbn [negb]. rewrite IH; [|done|done|lia|].
    + do 2 f_equal. lia.
    + destruct end_; [cbn in *; lia|done].
Qed.

(** No character of the string stops the search for [m]. *)
Definition passes (m : Z) (s : list Z) : Prop := Forall (λ c, c <> 0 /\ c <> m) s.

Lemma getstringupto_run end_ m s c start : c = m \/ c = 0 -> forall fuel p,
  passes m s -> holds text p (s ++ [c]) -> (length s < fuel)%nat -> not_before end_ (p + zlen s) ->
  getstringupto_ text fuel start p end_ m = Ok (p + zlen s - start, p + zlen s).
Proof.
  intros Hc. induction s as [|a s IH]; intros fuel p Hs Ht Hf Hend;
    (destruct fuel as [|fuel]; [cbn [length] in Hf; lia|]); cbn [getstringupto_ app length] in *.
  - apply holds_cons in Ht as [-> _]. cbn [mbind res_bind]. replace (p + Z.of_nat 0) with p by lia.
    destruct (c =? 0) eqn:E0; [done|]. destruct (match end_ with Some _ => _ | None => _ end); [done|].
    destruct Hc as [-> | ->]; [by rewrite Z.eqb_refl|done].
  - apply Forall_cons_iff in Hs as [[Ha0 Ham] Hs]. apply holds_cons in Ht as [-> Ht]. cbn [mbind res_bind].
    rewrite (proj2 (Z.eqb_neq a 0)) by done.
    assert (E : match end_ with Some end_ => end_ <=? p | None => false end = false).
    { destruct end_ as [end_|]; [|done]. cbn in Hend. apply Z.leb_gt. lia. }
    rewrite E, (proj2 (Z.eqb_neq a m)) by done. rewrite IH; [|done|done|lia|].
    + do 2 f_equal; lia.
    + destruct end_; [cbn in *; lia|done].
Qed.

(** The same when the end stops it. *)
Lemma getstringupto_end m s c start : forall fuel p,
  passes m s -> holds text p (s ++ [c]) -> (length s < fuel)%nat ->
  getstringupto_ text fuel start p (Some (p + zlen s)) m = Ok (p + zlen s - start, p + zlen s).
Proof.
  induction s as [|a s IH]; intros fuel p Hs Ht Hf;
    (destruct fuel as [|fuel]; [cbn [length] in Hf; lia|]); cbn [getstringupto_ app length] in *.
  - apply holds_cons in Ht as [-> _]. cbn [mbind res_bind]. replace (p + Z.of_nat 0) with p by lia.
    rewrite Z.leb_refl. by destruct (c =? 0).
  - apply Forall_cons_iff in Hs as [[Ha0 Ham] Hs]. apply holds_cons in Ht as [-> Ht]. cbn [mbind res_bind].
    rewrite (proj2 (Z.eqb_neq a 0)), (proj2 (Z.leb_gt _ _)), (proj2 (Z.eqb_neq a m)) by (done || lia).
    replace (p + Z.of_nat (S (length s))) with (p + 1 + zlen s) by lia. rewrite IH; [done..|lia].
Qed.

(** An argument that is followed by a comma, or is the last. *)
Definition arg_end (argsend p c : Z) : Prop := (c = 44 /\ p < argsend) \/ (c <> 44 /\ p = argsend).

Lemma next_arg_run p a s c argsend :
  isspace a = false -> passes 44 (a :: s) -> holds text p ((a :: s) ++ [c]) ->
  arg_end argsend (p + zlen (a :: s)) c ->
  next_arg text p argsend =
  Ok (Some (p, zlen (a :: s), p + zlen (a :: s) + if c =? 44 then 1 else 0)).
Proof.
  intros Ha Hs Ht Hend. pose proof (holds_fuel _ _ _ Ht) as Hfuel. rewrite length_app in Hfuel.
  unfold next_arg, skipwhite. assert (Hse : p + zlen (a :: s) <= argsend) by (destruct Hend as [[_ H]|[_ H]]; lia).
  rewrite (skipwhite_run (Some argsend) [] a Ha); [| |apply Forall_nil| |cbn; lia|cbn [length not_before] in *; lia].
  2: { by apply Forall_cons_iff in Hs as [[? _] _]. }
  2: { apply (holds_app text p [a] (s ++ [c])) in Ht. apply Ht. }
  cbn [mbind res_bind negb]. replace (p + zlen []) with p by (cbn [length]; lia). unfold getstringupto.
  assert (Hg : getstringupto_ text (S (length text)) p p (Some argsend) 44 =
    Ok (p + zlen (a :: s) - p, p + zlen (a :: s))).
  { destruct Hend as [[-> H]|[_ <-]].
    - apply (getstringupto_run (Some argsend) 44 (a :: s) 44 p); [by left|done|done|lia|cbn [not_before]; lia].
    - apply (getstringupto_end 44 (a :: s) c p); [done|done|lia]. }
  rewrite Hg. cbn [mbind res_bind]. apply holds_app in Ht as [_ Ht]. apply holds_cons in Ht as [-> _]. cbn [mbind res_bind].
  replace (p + zlen (a :: s) - p) with (zlen (a :: s)) by lia. destruct (c =? 44); [done|]. by rewrite Z.add_0_r.
Qed.
End Positions.

(** ** Arguments *)

Section Arguments.
Context (text : mem) (argsend : Z).

(** Where the next argument is. *)
Definition behind (p : Z) (a : list Z) (c : Z) : Z := p + zlen a + if c =? 44 then 1 else 0.

Lemma parseintarg_run v p c :
  - 2 ^ 31 <= v < 2 ^ 31 -> holds text p (print_i v ++ [c]) -> arg_end argsend (p + zlen (print_i v)) c ->
  parseintarg argsend (text, p) = Ok (Some (v, (text, behind p (print_i v) c))).
Proof.
  intros Hv Ht Hend. destruct (print_i_chars v Hv) as [Hchars Hne]. pose proof (print_i_length v Hv) as Hlen.
  unfold parseintarg. pose proof (scan_print_i v [] Hv I) as Hscan. rewrite app_nil_r in Hscan.
  destruct (print_i v) as [|a s] eqn:E; [done|].
  rewrite (next_arg_run text p a s c argsend); [| |eapply Forall_impl; [|exact Hchars]|done|done].
  2: { apply Forall_cons_iff in Hchars as [Ha _]. by apply number_char_plain. }
  2: { intros x Hx. apply number_char_plain in Hx as [_ Hx]. lia. }
  cbn [mbind res_bind]. rewrite Z.min_l by lia. apply holds_app in Ht as [Ht _].
  by rewrite (holds_substring _ _ _ Ht), Hscan.
Qed.

(** A character that can be an argument. *)
Definition arg_char (c : Z) : Prop := 0 < c < 128 /\ isspace c = false /\ c <> 44 /\ c <> 40 /\ c <> 41.

Lemma parsechararg_run ch p c old :
  arg_char ch -> holds text p ([ch] ++ [c]) -> arg_end argsend (p + 1) c ->
  parsechararg argsend old (text, p) = Ok (Some (Some ch, (text, behind p [ch] c))).
Proof.
  intros (Hch & Hs & H44 & _) Ht Hend. unfold parsechararg.
  rewrite (next_arg_run text p ch [] c argsend); [|done| |done|done].
  2: { apply Forall_cons; [lia|apply Forall_nil]. }
  cbn [mbind res_bind]. change (0 <? zlen [ch]) with true. cbv iota. apply holds_at in Ht. rewrite Ht.
  cbn [mbind res_bind]. unfold schar. by rewrite (proj2 (Z.ltb_lt _ _)) by lia.
Qed.
End Arguments.

(** ** Commands as they are written *)

Fixpoint join (args : list (list Z)) : list Z :=
  match args with
  | [] => []
  | [a] => a
  | a :: args => a ++ 44 :: join args
  end.

Definition call_name (c : sec_call) : list Z :=
  match c with
  | Tone _ => lit "tone"
  | Voltage _ => lit "voltage"
  | Toneburst _ => lit "toneburst"
  | Highvoltage _ => lit "highvoltage"
  | Dishnetworks _ => lit "dishnetworks"
  | Wait _ => lit "wait"
  | Dreset _ _ => lit "Dreset"
  | Dpower _ _ => lit "Dpower"
  | Dcommitted _ _ _ _ _ => lit "Dcommitted"
  | Duncommitted _ _ _ _ _ => lit "Duncommitted"
  | Dfrequency _ _ => lit "Dfrequency"
  | Dchannel _ _ => lit "Dchannel"
  | Dgotopreset _ _ => lit "Dgotopreset"
  | Dgotobearing _ _ => lit "Dgotobearing"
  end.

Definition call_args (c : sec_call) : list (list Z) :=
  match c with
  | Tone c | Toneburst c => [[c]]
  | Voltage v | Highvoltage v | Dishnetworks v | Wait v => [print_i v]
  | Dreset a v | Dpower a v | Dfrequency a v | Dchannel a v | Dgotopreset a v => [print_i a; print_i v]
  | Dcommitted a s1 s2 s3 s4 => [print_i a; [s1]; [s2]; [s3]; [s4]]
  | Duncommitted a s1 s2 s3 s4 => [[a]; [s1]; [s2]; [s3]; [s4]]
  | Dgotobearing _ _ => []
  end.

Definition int_ok (v : Z) : Prop := - 2 ^ 31 <= v < 2 ^ 31.

(** A command that can be written: bearings are not read as they are written, see [bearing_unterminated]. *)
Definition call_ok (c : sec_call) : Prop :=
  match c with
  | Tone c | Toneburst c => arg_char c
  | Voltage v | Highvoltage v | Dishnetworks v | Wait v => int_ok v
  | Dreset a v | Dpower a v | Dfrequency a v | Dchannel a v | Dgotopreset a v => int_ok a /\ int_ok v
  | Dcommitted a s1 s2 s3 s4 => int_ok a /\ Forall arg_char [s1; s2; s3; s4]
  | Duncommitted a s1 s2 s3 s4 => Forall arg_char [a; s1; s2; s3; s4]
  | Dgotobearing _ _ => False
  end.

(** The commands that do what dvbsec_cfg.h says of their arguments.  [tone(1)] switches the tone off, and the address
    of [Duncommitted] is taken for a character: see [tone_one_is_off] and [uncommitted_address]. *)
Definition as_documented (c : sec_call) : Prop :=
  match c with
  | Tone c => c = 48
  | Duncommitted _ _ _ _ _ | Dgotobearing _ _ => False
  | _ => True
  end.

Definition print_call (c : sec_call) : list Z := call_name c ++ 40 :: join (call_args c) ++ [41].

(** Each command behind its white space, and white space at the end. *)
Definition print_calls (cs : list (list Z * sec_call)) (trailing : list Z) : list Z :=
  (cs ≫= λ '(spaces, c), spaces ++ print_call c) ++ trailing.

(** *** The arguments, one after the other *)

Definition holds_args (text : mem) (p argsend : Z) (args : list (list Z)) : Prop :=
  holds text p (join args ++ [41]) /\ argsend = p + zlen (join args).

Lemma first_arg text p argsend a args : holds_args text p argsend (a :: args) ->
  exists c, holds text p (a ++ [c]) /\ arg_end argsend (p + zlen a) c /\
    (args <> [] -> holds_args text (behind p a c) argsend args).
Proof.
  intros [Ht ->]. unfold holds_args, behind. destruct args as [|b args].
  - exists 41. split; [done|]. split; [right; split; [done|cbn [join]; lia]|done].
  - exists 44. change (join (a :: b :: args)) with (a ++ 44 :: join (b :: args)) in *.
    rewrite <- app_assoc in Ht. cbn [app] in Ht. split_and!.
    + apply (holds_app text p (a ++ [44]) (join (b :: args) ++ [41])). by rewrite <- app_assoc.
    + left. split; [done|]. rewrite length_app. cbn [length]. lia.
    + intros _. apply holds_app in Ht as [_ Ht]. apply holds_cons in Ht as [_ Ht].
      change (44 =? 44) with true. cbv iota. split; [by replace (p + (zlen a + 1)) with (p + zlen a + 1) by lia|].
      rewrite length_app. cbn [length]. lia.
Qed.

Lemma int_arg text p argsend v args : int_ok v -> holds_args text p argsend (print_i v :: args) ->
  exists p', parseintarg argsend (text, p) = Ok (Some (v, (text, p'))) /\
    (args <> [] -> holds_args text p' argsend args).
Proof.
  intros Hv Ht. destruct (first_arg _ _ _ _ _ Ht) as (c & H1 & H2 & H3). eexists. split; [|exact H3].
  by apply parseintarg_run.
Qed.

Lemma char_arg text p argsend ch args old : arg_char ch -> holds_args text p argsend ([ch] :: args) ->
  exists p', parsechararg argsend old (text, p) = Ok (Some (Some ch, (text, p'))) /\
    (args <> [] -> holds_args text p' argsend args).
Proof.
  intros Hc Ht. destruct (first_arg _ _ _ _ _ Ht) as (c & H1 & H2 & H3). eexists. split; [|exact H3].
  by apply parsechararg_run.
Qed.

(** A first argument that is known. *)
Lemma args_bind_run {A B} (c : Args A) (k : A -> Args B) s a s' :
  c s = Ok (Some (a, s')) -> (c ≫= k) s = k a s'.
Proof. intros E. unfold mbind, args_bind. by rewrite E. Qed.

Ltac next_arg_step E H' H :=
  rewrite (args_bind_run _ _ _ _ _ E); clear E; try specialize (H' ltac:(done)); clear H; rename H' into H.

Ltac next_int H :=
  match type of H with
  | holds_args ?text ?p ?argsend (print_i ?v :: ?args) =>
      let q := fresh "p" in let E := fresh "E" in let H' := fresh "H" in
      destruct (int_arg text p argsend v args ltac:(assumption) H) as (q & E & H'); next_arg_step E H' H
  end.

Ltac next_char H :=
  match type of H with
  | holds_args ?text ?p ?argsend ([?ch] :: ?args) =>
      match goal with
      | |- context [(parsechararg argsend ?old ≫= _) (text, p)] =>
          let q := fresh "p" in let E := fresh "E" in let H' := fresh "H" in
          destruct (char_arg text p argsend ch args old ltac:(assumption) H) as (q & E & H'); next_arg_step E H' H
      end
  end.

(** What [dvbsec_command] does with the name and the arguments of a command. *)
Lemma command_parsed c text p argsend l : call_ok c -> holds_args text p argsend (call_args c) ->
  exists parse, find_command (call_name c) command_table = Some parse /\
    exists l' p', parse argsend l (text, p) = Ok (Some (c, l', (text, p'))).
Proof.
  intros Hok Ht.
  destruct c; cbn [call_ok call_args] in *; try done; rewrite ?Forall_cons_iff in Hok; destruct_and?.
  all: eexists; split; [reflexivity|].
  all: unfold char_command, int_command, address_command, committed_command, uncommitted_command, four_chars.
  all: repeat first [next_int Ht | next_char Ht | rewrite (args_bind_run (value_of (Some _)) _ _ _ _ eq_refl)].
  all: by eexists _, _.
Qed.

(** *** The whole text *)

Lemma word_passes m w : (forallb (λ c, negb (c =? 0) && negb (c =? m)) w = true) -> passes m w.
Proof.
  rewrite forallb_forall. intros H. apply Forall_forall. intros c Hc. specialize (H c Hc). apply andb_prop in H as [H1 H2]. bool_facts. done.
Qed.

Lemma name_passes c : passes 40 (call_name c) /\ exists a s, call_name c = a :: s /\ isspace a = false.
Proof. destruct c; (split; [by apply word_passes|]); eexists _, _; by split. Qed.

(** Nothing in the arguments ends them. *)
Lemma args_passes c : call_ok c -> passes 41 (join (call_args c)).
Proof.
  assert (Hint : forall v, int_ok v -> passes 41 (print_i v)).
  { intros v Hv. destruct (print_i_chars v Hv) as [Hc _]. eapply Forall_impl; [|exact Hc].
    intros x Hx. apply number_char_plain in Hx as [_ Hx]. lia. }
  assert (Hchar : forall ch, arg_char ch -> passes 41 [ch]).
  { intros ch (Hc & _ & _ & _ & Hn). apply Forall_cons; [split; [lia|done]|apply Forall_nil]. }
  assert (Hjoin : forall a args, passes 41 a -> passes 41 (join args) -> passes 41 (join (a :: args))).
  { intros a args Ha Hargs. destruct args as [|b args]; [done|]. change (join (a :: b :: args)) with (a ++ 44 :: join (b :: args)).
    apply Forall_app. split; [done|]. apply Forall_cons; done. }
  intros Hok. destruct c; cbn [call_ok call_args] in *; rewrite ?Forall_cons_iff in Hok; destruct_and?; try done;
    repeat apply Hjoin; auto; apply Forall_nil.
Qed.

Lemma parsefunction_run text line spaces c :
  Forall (λ c, isspace c = true) spaces -> call_ok c -> holds text line (spaces ++ print_call c) ->
  let name := line + zlen spaces in
  let args := name + zlen (call_name c) + 1 in
  parsefunction text line =
    Ok (Some (name, zlen (call_name c), args, zlen (join (call_args c)), args + zlen (join (call_args c)) + 1)) /\
  substring text name (zlen (call_name c)) = call_name c /\
  holds_args text args (args + zlen (join (call_args c))) (call_args c).
Proof.
  intros Hs Hok Ht. cbv zeta. pose proof (holds_fuel _ _ _ Ht) as Hf. unfold print_call in *.
  rewrite !length_app in Hf. cbn [length] in Hf. rewrite length_app in Hf.
  destruct (name_passes c) as [Hname (a & s & Ea & Ha)].
  assert (Ha0 : a <> 0) by (rewrite Ea in Hname; by apply Forall_cons_iff in Hname as [[? _] _]).
  assert (Hspaces : holds text line (spaces ++ [a])).
  { apply (holds_app text line (spaces ++ [a]) (s ++ 40 :: join (call_args c) ++ [41])).
    rewrite Ea in Ht. by rewrite <- !app_assoc in *. }
  apply holds_app in Ht as [_ Hcall]. pose proof Hcall as Hcall2.
  apply holds_app in Hcall2 as [Hn Hargs]. apply holds_cons in Hargs as [_ Hargs].
  split; [|split; [by apply holds_substring|by split]].
  unfold parsefunction, skipwhite. rewrite (skipwhite_run text None spaces a Ha Ha0); [|done|done|lia|done].
  cbn [mbind res_bind negb]. unfold getstringupto.
  rewrite (getstringupto_run text None 40 (call_name c) 40); [|by left|done| |lia|done].
  2: { apply (holds_app text _ (call_name c ++ [40]) (join (call_args c) ++ [41])). by rewrite <- app_assoc. }
  cbn [mbind res_bind].
  rewrite (getstringupto_run text None 41 (join (call_args c)) 41); [|by left|by apply args_passes|done|lia|done].
  cbn [mbind res_bind]. repeat first [lia | f_equal].
Qed.

Lemma parsefunction_end text line spaces :
  Forall (λ c, isspace c = true) spaces -> holds text line (spaces ++ [0]) -> parsefunction text line = Ok None.
Proof.
  intros Hs Ht. unfold parsefunction, skipwhite. pose proof (holds_fuel _ _ _ Ht) as Hf. rewrite length_app in Hf.
  cbn [length] in Hf.
  assert (H : forall fuel line, holds text line (spaces ++ [0]) -> (length spaces < fuel)%nat ->
    exists line', skipwhite_ text fuel line None = Ok (false, line')).
  { clear -Hs. induction Hs as [|s spaces Hs Hss IH]; intros fuel line Ht Hf;
      (destruct fuel as [|fuel]; [cbn [length] in Hf; lia|]); cbn [skipwhite_ app length] in *.
    - apply holds_at in Ht as ->. by eexists.
    - apply holds_cons in Ht as [-> Ht]. cbn [mbind res_bind]. destruct (s =? 0); [by eexists|].
      rewrite Hs. cbn [negb]. apply IH; [done|lia]. }
  destruct (H (S (length text)) line Ht ltac:(lia)) as [line' ->]. done.
Qed.

(** The commands, one after the other, up to one that is refused. *)
Fixpoint run_calls (e : fe_env) (cs : list sec_call) : IO (list fe_op) bool :=
  match cs with
  | [] => mret true
  | c :: cs => ok ← run_command e c; if negb ok then mret false else run_calls e cs
  end.

Lemma commands_run e text trailing : Forall (λ c, isspace c = true) trailing -> forall cs fuel line l w,
  Forall (λ '(spaces, c), Forall (λ c, isspace c = true) spaces /\ call_ok c) cs ->
  holds text line (print_calls cs trailing ++ [0]) -> (length cs < fuel)%nat ->
  dvbsec_command_ e fuel text line l w =
  (ok ← run_calls e (map snd cs); mret (if ok : bool then 0 else -1, text)) w.
Proof.
  intros Htrail. induction cs as [|[spaces c] cs IH]; intros fuel line l w Hcs Ht Hf;
    (destruct fuel as [|fuel]; [cbn [length] in Hf; lia|]); cbn [dvbsec_command_ map run_calls snd] in *.
  - rewrite (io_bind_run _ _ w None w); [done|]. by rewrite (parsefunction_end _ _ _ Htrail Ht).
  - apply Forall_cons_iff in Hcs as [[Hs Hok] Hcs].
    assert (Ht' : holds text line ((spaces ++ print_call c) ++ print_calls cs trailing ++ [0])).
    { unfold print_calls in *. cbn [mbind list_bind] in Ht. by rewrite <- !app_assoc in *. }
    apply holds_app in Ht' as [Hc Hrest].
    destruct (parsefunction_run text line spaces c Hs Hok Hc) as (Hf1 & Hname & Hargs).
    destruct (command_parsed c text _ _ l Hok Hargs) as (parse & Hfind & l' & p' & Hparse).
    rewrite (io_bind_run _ _ w _ w) by by rewrite Hf1. cbv iota. rewrite Hname, Hfind.
    rewrite (io_bind_run _ _ w _ w) by by rewrite Hparse. cbv iota.
    rewrite bind_assoc_run. destruct (run_command e c w) as [[ok w']|f] eqn:Er.
    2: { unfold mbind, io_bind. by rewrite Er. }
    rewrite !(io_bind_run _ _ _ _ _ Er). destruct ok; cbn [negb]; [|done].
    apply IH; [done| |cbn [length] in Hf; lia].
    assert (El : line + zlen (spaces ++ print_call c) =
      line + zlen spaces + zlen (call_name c) + 1 + zlen (join (call_args c)) + 1).
    { unfold print_call. rewrite !length_app. cbn [length]. rewrite length_app. cbn [length]. lia. }
    by rewrite El in Hrest.
Qed.

(** C6: a text of commands of dvbsec_cfg.h ([tone(0)], voltages, bursts, the higher voltage, legacy commands, waits,
    [Dreset], [Dpower], [Dcommitted], [Dfrequency], [Dchannel] and [Dgotopreset], with numbers in decimal, letters,
    no white space inside a command and any between them) is carried out as it was written: each command with
    its arguments, in order, up to the first that is refused, whatever is behind the end of the text.  Three
    commands are left out, which the code does not carry out as documented: [tone(1)], [Duncommitted] and
    [Dgotobearing]. *)
Theorem commands_carried_out e cs trailing behind w :
  Forall (λ '(spaces, c), Forall (λ c, isspace c = true) spaces /\ call_ok c /\ as_documented c) cs ->
  Forall (λ c, isspace c = true) trailing ->
  let text := print_calls cs trailing ++ 0 :: behind in
  dvbsec_command e text w = (ok ← run_calls e (map snd cs); mret (if ok : bool then 0 else -1, text)) w.
Proof.
  intros Hcs Htrail. cbv zeta. apply (commands_run e _ trailing); [done| | |].
  - eapply Forall_impl; [|exact Hcs]. by intros [spaces c] (? & ? & _).
  - exists [], behind. by rewrite <- app_assoc.
  - assert (Hl : (length cs <= length (print_calls cs trailing))%nat).
    { unfold print_calls. rewrite length_app. clear. induction cs as [|[spaces c] cs IH]; [cbn; lia|].
      rewrite bind_cons. cbn [length]. rewrite !length_app. unfold print_call at 1. rewrite length_app.
      cbn [length]. lia. }
    rewrite length_app. lia.
Qed.

(** *** Witnesses *)

(** A driver that does what it is asked, and a lock that is always there. *)
Definition quiet_driver : fe_env :=
  FeEnv (λ _, 0) (λ _, FE_HAS_LOCK) (λ _, KernelParameters 0 0 (Vsb 0)) (λ _, 0) (λ _, (0, 0)) (λ _, (0, 0)).

Lemma commands_carried_out_witness :
  let text := lit " tone(0)voltage(18) Dcommitted(16,h,v,A,B) " ++ 0 :: [7] in
  dvbsec_command quiet_driver text (World [] 0 []) =
  (ok ← run_calls quiet_driver [Tone 48; Voltage 18; Dcommitted 16 104 118 65 66];
   mret (if ok : bool then 0 else -1, text)) (World [] 0 []).
Proof.
  apply (commands_carried_out quiet_driver [([32], Tone 48); ([], Voltage 18); ([32], Dcommitted 16 104 118 65 66)]
    [32] [7]).
  - repeat apply Forall_cons; try apply Forall_nil; (split; [by repeat constructor|]); (split; [|done]);
      cbn [call_ok]; unfold int_ok, arg_char;
      rewrite ?Forall_cons_iff; split_and?; try done; apply Forall_nil.
  - by repeat constructor.
Defined.

(** *** Where the text is left *)

(** A command without its parenthesis makes the function read behind the end of the text. *)
Lemma unclosed_command_overruns :
  dvbsec_command quiet_driver (lit "tone" ++ [0]) (World [] 0 []) = Err OutOfBounds.
Proof. by vm_compute. Qed.

(** A bearing is read from an array without an end: this one reads what nothing has written. *)
Lemma bearing_unterminated :
  dvbsec_command quiet_driver (lit "Dgotobearing(49,12.5)" ++ [0]) (World [] 0 []) = Err Uninitialised.
Proof. by vm_compute. Qed.

(** And the end is stored in the text: the parenthesis is gone when the text is used again. *)
Lemma bearing_changes_text :
  exists w, dvbsec_command quiet_driver (lit "Dgotobearing(49,12.5 )" ++ [0]) (World [] 0 []) =
    Ok ((0, lit "Dgotobearing(49,12.5 " ++ [0; 0]), w).
Proof. eexists. vm_compute. reflexivity. Qed.

(** The tone is on for the letter B only: 1, which is documented to switch it on, switches it off. *)
Lemma tone_one_is_off :
  exists t, dvbsec_command quiet_driver (lit "tone(1)" ++ [0]) (World [] 0 []) =
    Ok ((0, lit "tone(1)" ++ [0]), World [OpSetTone SEC_TONE_OFF] t []).
Proof. eexists. vm_compute. reflexivity. Qed.

(** The address of [Duncommitted] is the code of a character: 0x31 for 1. *)
Lemma uncommitted_address :
  exists t, dvbsec_command quiet_driver (lit "Duncommitted(1,A,A,A,A)" ++ [0]) (World [] 0 []) =
    Ok ((0, lit "Duncommitted(1,A,A,A,A)" ++ [0]), World [OpSendMasterCmd [0xE0; 0x31; 0x39; 0xF0]] t []).
Proof. eexists. vm_compute. reflexivity. Qed.
