(* ===== verification/DvbSecCfg.v ===== *)
(** * dvbsec_cfg.c: configurations of dishes

    A text file of sections of keys and values, read into [struct dvbsec_config], searched by name, and
    written.  A file is the list of its bytes; the strings of a configuration are arrays, lists of as many
    bytes as they have. *)

From S2P Require Export DvbSecCommand.

Definition EIO : Z := 5.

(** ** Strings in arrays *)

(** [strncpy(dest, value, size)]: without a NUL if there is no room for it. *)
Definition strncpy (size : nat) (value : list Z) : mem :=
  take size value ++ repeat 0 (size - length value).

(** The string in an array. *)
Fixpoint array_string (m : mem) : res (list Z) :=
  match m with
  | [] => Err OutOfBounds
  | c :: m => if c =? 0 then mret [] else s ← array_string m; mret (c :: s)
  end.

(** [!strcmp(s, array)] *)
Fixpoint strcmp_array (s : list Z) (m : mem) : res bool :=
  match m with
  | [] => Err OutOfBounds
  | c :: m =>
      if negb (char0 s =? c) then mret false
      else if c =? 0 then mret true
      else strcmp_array (drop 1 s) m
  end.

(** ** Lines *)

(** [strchr(line, '#')] *)
Fixpoint chop_comment (line : list Z) : list Z :=
  match line with
  | [] => []
  | c :: line => if c =? 35 then [] else c :: chop_comment line
  end.

(** White space at the end. *)
Definition trim_end (line : list Z) : list Z := rev (skip_spaces (rev line)).

(** "chop any comments", "trim the line" *)
Definition clean_line (line : list Z) : list Z := trim_end (skip_spaces (chop_comment (c_string line))).

Definition dvbcfg_issection (line sectionname : list Z) : bool :=
  match line with
  | first :: rest =>
      match rest with
      | [] => false
      | _ =>
          if negb (first =? 91) || negb (List.last line 0 =? 93) then false
          else strncmp_eq (length sectionname) (skip_spaces rest) sectionname
      end
  | [] => false
  end.

(** The value; [None] is NULL. *)
Definition dvbcfg_iskey (line keyname : list Z) : option (list Z) :=
  if negb (strncmp_eq (length keyname) line keyname) then None
  else
    match skip_spaces (drop (length keyname) line) with
    | c :: value => if c =? 61 then Some (skip_spaces value) else None
    | [] => None
    end.

(** ** Loading *)

Definition no_command : mem := repeat 0 100.

(** [memset(&tmpsec, 0, sizeof(tmpsec))] *)
Definition empty_config : dvbsec_config :=
  DvbsecConfig (repeat 0 32) 0 0 0 0 0 0 0 0 0 0 no_command no_command no_command no_command
    no_command no_command no_command no_command.

(** What a key does: it stores its value, or the section is not valid. *)
Definition store_number (f : Z -> dvbsec_config -> dvbsec_config) (value : list Z) (c : dvbsec_config) :
    option dvbsec_config := Some (f (u32 (atoi value)) c).
Definition store_command (f : mem -> dvbsec_config -> dvbsec_config) (value : list Z) (c : dvbsec_config) :
    option dvbsec_config := Some (f (strncpy 100 value) c).

Definition store_type (value : list Z) (c : dvbsec_config) : option dvbsec_config :=
  let '(DvbsecConfig id sf llv llh lll llr lhv lhh lhl lhr ty a1 a2 a3 a4 a5 a6 a7 a8) := c in
  let set ty := Some (DvbsecConfig id sf llv llh lll llr lhv lhh lhl lhr ty a1 a2 a3 a4 a5 a6 a7 a8) in
  if strcasecmp_eq value (lit "none") then set DVBSEC_CONFIG_NONE
  else if strcasecmp_eq value (lit "power") then set DVBSEC_CONFIG_POWER
  else if strcasecmp_eq value (lit "standard") then set DVBSEC_CONFIG_STANDARD
  else if strcasecmp_eq value (lit "advanced") then set DVBSEC_CONFIG_ADVANCED
  else None.

Definition set_id (v : mem) (c : dvbsec_config) : dvbsec_config :=
  let '(DvbsecConfig _ sf llv llh lll llr lhv lhh lhl lhr ty a1 a2 a3 a4 a5 a6 a7 a8) := c in
  DvbsecConfig v sf llv llh lll llr lhv lhh lhl lhr ty a1 a2 a3 a4 a5 a6 a7 a8.

(** The number with an index, in the order of the structure: the switching frequency, then the oscillators. *)
Definition set_number (i : nat) (v : Z) (c : dvbsec_config) : dvbsec_config :=
  let '(DvbsecConfig id sf llv llh lll llr lhv lhh lhl lhr ty a1 a2 a3 a4 a5 a6 a7 a8) := c in
  let at_ j old := if (i =? j)%nat then v else old in
  DvbsecConfig id (at_ 0%nat sf) (at_ 1%nat llv) (at_ 2%nat llh) (at_ 3%nat lll) (at_ 4%nat llr)
    (at_ 5%nat lhv) (at_ 6%nat lhh) (at_ 7%nat lhl) (at_ 8%nat lhr) ty a1 a2 a3 a4 a5 a6 a7 a8.

(** The command with an index, in the order of the structure. *)
Definition set_command (i : nat) (v : mem) (c : dvbsec_config) : dvbsec_config :=
  let '(DvbsecConfig id sf llv llh lll llr lhv lhh lhl lhr ty a1 a2 a3 a4 a5 a6 a7 a8) := c in
  let at_ j old := if (i =? j)%nat then v else old in
  DvbsecConfig id sf llv llh lll llr lhv lhh lhl lhr ty (at_ 0%nat a1) (at_ 1%nat a2) (at_ 2%nat a3)
    (at_ 3%nat a4) (at_ 4%nat a5) (at_ 5%nat a6) (at_ 6%nat a7) (at_ 7%nat a8).

(** The [else if] chain. *)
Definition key_table : list (list Z * (list Z -> dvbsec_config -> option dvbsec_config)) :=
  [(lit "name", λ v c, Some (set_id (strncpy 32 v) c));
   (lit "switch-frequency", store_number (set_number 0));
   (lit "lof-lo-v", store_number (set_number 1));
   (lit "lof-lo-h", store_number (set_number 2));
   (lit "lof-lo-l", store_number (set_number 3));
   (lit "lof-lo-r", store_number (set_number 4));
   (lit "lof-hi-v", store_number (set_number 5));
   (lit "lof-hi-h", store_number (set_number 6));
   (lit "lof-hi-l", store_number (set_number 7));
   (lit "lof-hi-r", store_number (set_number 8));
   (lit "config-type", store_type);
   (lit "cmd-lo-v", store_command (set_command 1));
   (lit "cmd-lo-h", store_command (set_command 0));
   (lit "cmd-lo-r", store_command (set_command 3));
   (lit "cmd-lo-l", store_command (set_command 2));
   (lit "cmd-hi-v", store_command (set_command 5));
   (lit "cmd-hi-h", store_command (set_command 4));
   (lit "cmd-hi-r", store_command (set_command 7));
   (lit "cmd-hi-l", store_command (set_command 6))].

(** The first key that matches. *)
Fixpoint find_key {A} (line : list Z) (table : list (list Z * A)) : option (list Z * A) :=
  match table with
  | [] => None
  | (key, a) :: table =>
      match dvbcfg_iskey line key with
      | Some value => Some (value, a)
      | None => find_key line table
      end
  end.

(** A line that is not the start of a section: whether the section is still valid, and [tmpsec]. *)
Definition key_line (line : list Z) (insection : bool) (tmpsec : dvbsec_config) : bool * dvbsec_config :=
  match find_key line key_table with
  | Some (value, store) =>
      match store value tmpsec with
      | Some tmpsec => (insection, tmpsec)
      | None => (false, tmpsec)
      end
  | None => (false, tmpsec)
  end.

Section Load.
Context {A : Type} (cb : A -> dvbsec_config -> res (A * bool)).

(** The loop over the lines, each of which takes at least one character of the file; [tmpsec] is not read
    before a section has cleared it.  The callback answers whether to stop. *)
Fixpoint load_lines (fuel : nat) (file : list Z) (insection : bool) (tmpsec : dvbsec_config) (a : A) : res A :=
  match fuel with
  | O => Err OutOfFuel
  | S fuel =>
      let '(line, rest) := getline file in
      match line with
      | [] => if insection then '(a, _) ← cb a tmpsec; mret a else mret a
      | _ =>
          let line := clean_line line in
          match line with
          | [] => load_lines fuel rest insection tmpsec a
          | _ =>
              if dvbcfg_issection line (lit "sec") then
                if insection then
                  '(a, stop) ← cb a tmpsec;
                  if stop : bool then mret a else load_lines fuel rest true empty_config a
                else load_lines fuel rest true empty_config a
              else
                let '(insection, tmpsec) := key_line line insection tmpsec in
                load_lines fuel rest insection tmpsec a
          end
      end
  end.

Definition dvbsec_cfg_load (file : list Z) (a : A) : res A :=
  load_lines (S (length file)) file false empty_config a.
End Load.

(** ** Finding *)

(** [defaults] *)
Definition default_config (id : list Z) (sf v h hv hh type : Z) : dvbsec_config :=
  DvbsecConfig (strncpy 32 id) sf v h 0 0 hv hh 0 0 type no_command no_command no_command no_command
    no_command no_command no_command no_command.

Definition defaults : list dvbsec_config :=
  [default_config (lit "NULL") 0 0 0 0 0 DVBSEC_CONFIG_STANDARD;
   default_config (lit "UNIVERSAL") 11700000 9750000 9750000 10600000 10600000 DVBSEC_CONFIG_STANDARD;
   default_config (lit "DBS") 0 11250000 11250000 0 0 DVBSEC_CONFIG_STANDARD;
   default_config (lit "STANDARD") 0 10000000 10000000 0 0 DVBSEC_CONFIG_STANDARD;
   default_config (lit "ENHANCED") 0 9750000 9750000 0 0 DVBSEC_CONFIG_STANDARD;
   default_config (lit "C-BAND") 0 5150000 5150000 0 0 DVBSEC_CONFIG_POWER;
   default_config (lit "C-MULTI") 0 5150000 5750000 0 0 DVBSEC_CONFIG_POWER].

Definition sec_id_string (c : dvbsec_config) : list Z := c_string (sec_id c).

(** [dvbsec_cfg_find_default] *)
Fixpoint find_default (sec_id : list Z) (table : list dvbsec_config) (sec : dvbsec_config) : Z * dvbsec_config :=
  match table with
  | [] => (-1, sec)
  | c :: table => if strncmp_eq 32 sec_id (sec_id_string c) then (0, c) else find_default sec_id table sec
  end.

Definition dvbsec_cfg_find_default (sec_id : list Z) (sec : dvbsec_config) : Z * dvbsec_config :=
  find_default sec_id defaults sec.

(** The argument of the callback is the destination. *)
Definition dvbsec_cfg_find_callback (id : list Z) (dest sec : dvbsec_config) : res (dvbsec_config * bool) :=
  same ← strcmp_array id (sec_id sec);
  mret (if same : bool then (sec, true) else (dest, false)).

(** The result and the structure.  The file is [None] when the caller passes NULL, [Some None] when it cannot
    be opened. *)
Definition dvbsec_cfg_find (config_file : option (option (list Z))) (id : list Z) : res (Z * dvbsec_config) :=
  match config_file with
  | Some None => mret (- EIO, empty_config)
  | Some (Some file) =>
      sec ← dvbsec_cfg_load (dvbsec_cfg_find_callback id) file empty_config;
      first ← at_ (sec_id sec) 0;
      mret (if negb (first =? 0) then (0, sec) else dvbsec_cfg_find_default id sec)
  | None => mret (dvbsec_cfg_find_default id empty_config)
  end.

(** ** Saving *)

Definition type_name (type : Z) : list Z :=
  if type =? DVBSEC_CONFIG_NONE then lit "none"
  else if type =? DVBSEC_CONFIG_POWER then lit "power"
  else if type =? DVBSEC_CONFIG_STANDARD then lit "standard"
  else if type =? DVBSEC_CONFIG_ADVANCED then lit "advanced"
  else [].

(** [fprintf(f, key=%i), unless the number is 0] *)
Definition save_number (key : list Z) (v : Z) : list Z :=
  if v =? 0 then [] else key ++ [61] ++ print_i (s32 v) ++ [10].

(** [fprintf(f, key=%s)], unless the string is empty. *)
Definition save_command (key : list Z) (m : mem) : res (list Z) :=
  first ← at_ m 0;
  if first =? 0 then mret []
  else s ← array_string m; mret (key ++ [61] ++ s ++ [10]).

Definition save_commands (c : dvbsec_config) : res (list Z) :=
  s1 ← save_command (lit "cmd-lo-h") (adv_cmd_lo_h c);
  s2 ← save_command (lit "cmd-lo-v") (adv_cmd_lo_v c);
  s3 ← save_command (lit "cmd-lo-r") (adv_cmd_lo_r c);
  s4 ← save_command (lit "cmd-lo-l") (adv_cmd_lo_l c);
  s5 ← save_command (lit "cmd-hi-h") (adv_cmd_hi_h c);
  s6 ← save_command (lit "cmd-hi-v") (adv_cmd_hi_v c);
  s7 ← save_command (lit "cmd-hi-r") (adv_cmd_hi_r c);
  s8 ← save_command (lit "cmd-hi-l") (adv_cmd_hi_l c);
  mret (s1 ++ s2 ++ s3 ++ s4 ++ s5 ++ s6 ++ s7 ++ s8).

Definition save_one (c : dvbsec_config) : res (list Z) :=
  commands ← (if config_type c =? DVBSEC_CONFIG_ADVANCED then save_commands c else mret []);
  mret (lit "[lnb]" ++ [10]
    ++ lit "switch-frequency=" ++ print_i (s32 (switch_frequency c)) ++ [10]
    ++ save_number (lit "lof-lo-v") (lof_lo_v c) ++ save_number (lit "lof-lo-h") (lof_lo_h c)
    ++ save_number (lit "lof-lo-l") (lof_lo_l c) ++ save_number (lit "lof-lo-r") (lof_lo_r c)
    ++ save_number (lit "lof-hi-v") (lof_hi_v c) ++ save_number (lit "lof-hi-h") (lof_hi_h c)
    ++ save_number (lit "lof-hi-l") (lof_hi_l c) ++ save_number (lit "lof-hi-r") (lof_hi_r c)
    ++ lit "config-type=" ++ type_name (config_type c) ++ [10]
    ++ commands ++ [10]).

Fixpoint dvbsec_cfg_save (secs : list dvbsec_config) : res (list Z) :=
  match secs with
  | [] => mret []
  | c :: secs => one ← save_one c; rest ← dvbsec_cfg_save secs; mret (one ++ rest)
  end.
