(* ===== verification/DvbSecCfgCorrect.v ===== *)
(** * dvbsec_cfg.c: what the files of configurations mean

    A file in the format of the library, with a section [sec] for each configuration, is read as these
    configurations; searching it finds the first with the name, or the built in one.  The files that the
    library writes itself are not of this format, and reading them finds nothing. *)

From S2P Require Import DvbSecCfg.

(** ** The file of a list of configurations *)

(** Text that a line can carry: nothing that ends it, and no white space around it. *)
Definition line_char (c : Z) : Prop := c <> 0 /\ c <> 10 /\ c <> 35.
Definition plain (s : list Z) : Prop := Forall line_char s /\ skip_spaces s = s /\ trim_end s = s.

Definition config_lines (c : dvbsec_config) : list (list Z * list Z) :=
  [(lit "name", c_string (sec_id c));
   (lit "config-type", type_name (config_type c));
   (lit "switch-frequency", print_i (s32 (switch_frequency c)));
   (lit "lof-lo-v", print_i (s32 (lof_lo_v c))); (lit "lof-lo-h", print_i (s32 (lof_lo_h c)));
   (lit "lof-lo-l", print_i (s32 (lof_lo_l c))); (lit "lof-lo-r", print_i (s32 (lof_lo_r c)));
   (lit "lof-hi-v", print_i (s32 (lof_hi_v c))); (lit "lof-hi-h", print_i (s32 (lof_hi_h c)));
   (lit "lof-hi-l", print_i (s32 (lof_hi_l c))); (lit "lof-hi-r", print_i (s32 (lof_hi_r c)));
   (lit "cmd-lo-h", c_string (adv_cmd_lo_h c)); (lit "cmd-lo-v", c_string (adv_cmd_lo_v c));
   (lit "cmd-lo-l", c_string (adv_cmd_lo_l c)); (lit "cmd-lo-r", c_string (adv_cmd_lo_r c));
   (lit "cmd-hi-h", c_string (adv_cmd_hi_h c)); (lit "cmd-hi-v", c_string (adv_cmd_hi_v c));
   (lit "cmd-hi-l", c_string (adv_cmd_hi_l c)); (lit "cmd-hi-r", c_string (adv_cmd_hi_r c))].

Definition key_value (kv : list Z * list Z) : list Z := kv.1 ++ [61] ++ kv.2.

Definition write_config (c : dvbsec_config) : list Z :=
  lit "[sec]" ++ [10] ++ (config_lines c ≫= λ kv, key_value kv ++ [10]).

Definition write_configs (cs : list dvbsec_config) : list Z := cs ≫= write_config.

(** A text in an array that has room for its NUL. *)
Definition text_array (n : nat) (m : mem) : Prop :=
  exists s, plain s /\ (length s < n)%nat /\ m = strncpy n s.

Definition valid_config (c : dvbsec_config) : Prop :=
  text_array 32 (sec_id c) /\
  Forall (λ v, 0 <= v < 2 ^ 32) [switch_frequency c; lof_lo_v c; lof_lo_h c; lof_lo_l c; lof_lo_r c;
    lof_hi_v c; lof_hi_h c; lof_hi_l c; lof_hi_r c] /\
  0 <= config_type c < 4 /\
  Forall (text_array 100) [adv_cmd_lo_h c; adv_cmd_lo_v c; adv_cmd_lo_l c; adv_cmd_lo_r c;
    adv_cmd_hi_h c; adv_cmd_hi_v c; adv_cmd_hi_l c; adv_cmd_hi_r c].

(** ** Lines *)

Lemma chop_comment_plain l : Forall (λ c, c <> 35) l -> chop_comment l = l.
Proof.
  induction 1 as [|c l Hc H IH]; cbn [chop_comment]; [done|]. by rewrite (proj2 (Z.eqb_neq c 35)), IH.
Qed.

Lemma trim_end_newline l : trim_end (l ++ [10]) = trim_end l.
Proof. unfold trim_end. by rewrite rev_app_distr. Qed.

Lemma skip_spaces_char c l : isspace c = false -> skip_spaces (c :: l) = c :: l.
Proof. intros H. cbn. by rewrite H. Qed.

(** The last character of a text that ends with another text. *)
Lemma trim_end_app l c : isspace c = false -> trim_end (l ++ [c]) = l ++ [c].
Proof. intros H. unfold trim_end. rewrite rev_app_distr. cbn. rewrite H. cbn. by rewrite rev_involutive. Qed.

Lemma skip_spaces_drop s : exists n, skip_spaces s = drop n s.
Proof.
  induction s as [|c s [n IH]]; [by exists O|]. cbn. destruct (isspace c); [by exists (S n)|by exists O].
Qed.

Lemma trim_end_fixed s : trim_end s = s -> s = [] \/ exists s' c, s = s' ++ [c] /\ isspace c = false.
Proof.
  destruct s as [|c s _] using rev_ind; [by left|]. right. exists s, c. split; [done|].
  unfold trim_end in H. rewrite rev_app_distr in H. cbn in H. destruct (isspace c); [|done].
  exfalso. destruct (skip_spaces_drop (rev s)) as [n E]. rewrite E in H.
  apply (f_equal length) in H. rewrite length_rev, length_drop, length_rev, length_app in H. cbn in H. lia.
Qed.

Lemma clean_line_ok l : Forall line_char l -> skip_spaces l = l -> trim_end l = l -> clean_line (l ++ [10]) = l.
Proof.
  intros Hl Hs Ht. unfold clean_line.
  assert (H0 : Forall (λ c, c <> 0) (l ++ [10])).
  { apply Forall_app. split; [|by repeat constructor]. eapply Forall_impl; [|exact Hl]. by intros c (?&?&?). }
  assert (H35 : Forall (λ c, c <> 35) (l ++ [10])).
  { apply Forall_app. split; [|by repeat constructor]. eapply Forall_impl; [|exact Hl]. by intros c (?&?&?). }
  rewrite c_string_plain, chop_comment_plain by done. destruct l as [|c l]; [done|].
  cbn [skip_spaces] in Hs. cbn [app skip_spaces]. destruct (isspace c) eqn:E.
  - exfalso. destruct (skip_spaces_drop l) as [n En]. rewrite En in Hs.
    apply (f_equal length) in Hs. rewrite length_drop in Hs. cbn in Hs. lia.
  - change (c :: l ++ [10]) with ((c :: l) ++ [10]). by rewrite trim_end_newline.
Qed.

(** ** Keys *)

(** Characters of keys. *)
Definition key_char (c : Z) : Prop := c = 45 \/ 97 <= c <= 122.

Lemma key_char_plain c : key_char c -> line_char c /\ isspace c = false /\ c <> 61 /\ c <> 91.
Proof.
  intros H. assert (E : isspace c = false).
  { unfold isspace. destruct H as [-> | H]; [done|].
    rewrite (proj2 (Z.eqb_neq c 32)), (proj2 (Z.leb_gt c 13)), andb_false_r by lia. done. }
  unfold key_char in H. unfold line_char. repeat split; [lia.. | done | lia | lia].
Qed.

Lemma iskey_other k k' v : Forall key_char k -> Forall key_char k' -> k <> k' ->
  dvbcfg_iskey (k ++ [61] ++ v) k' = None.
Proof.
  intros Hk Hk' Hne. unfold dvbcfg_iskey.
  assert (H0 : Forall (λ c, c <> 0) k').
  { eapply Forall_impl; [|exact Hk']. intros c Hc. apply key_char_plain in Hc. by destruct Hc as ((?&?)&?). }
  destruct (strncmp_eq (length k') (k ++ [61] ++ v) k') eqn:E; cbn [negb]; [|done].
  apply (strncmp_eq_prefix k' H0) in E as [r E]. rewrite E, drop_app_length.
  apply app_eq_inv in E as [(r' & -> & Er) | (r' & -> & Er)].
  - destruct r' as [|c r']; [by rewrite app_nil_r in Hne|].
    apply Forall_app in Hk as [_ Hr]. apply Forall_cons_iff in Hr as [Hc _].
    apply key_char_plain in Hc as (_ & Hs & Hne61 & _). subst r. cbn [app].
    rewrite skip_spaces_char by done. by rewrite (proj2 (Z.eqb_neq c 61)).
  - destruct r' as [|c r']; [by rewrite app_nil_r in Hne|]. cbn in Er. injection Er as <- Er.
    apply Forall_app in Hk' as [_ Hr]. apply Forall_cons_iff in Hr as [Hc _].
    by apply key_char_plain in Hc as (_ & _ & ? & _).
Qed.

Lemma iskey_same k v : Forall key_char k -> skip_spaces v = v -> dvbcfg_iskey (k ++ [61] ++ v) k = Some v.
Proof.
  intros Hk Hv. unfold dvbcfg_iskey.
  assert (H0 : Forall (λ c, c <> 0) k).
  { eapply Forall_impl; [|exact Hk]. intros c Hc. apply key_char_plain in Hc. by destruct Hc as ((?&?)&?). }
  rewrite (proj2 (strncmp_eq_prefix k H0 _)) by (by eexists). cbn [negb].
  rewrite drop_app_length. cbn. by rewrite Hv.
Qed.

Lemma find_key_entry {A} k v (f : A) table :
  Forall (λ e, Forall key_char e.1) table -> NoDup (map fst table) -> (k, f) ∈ table -> skip_spaces v = v ->
  find_key (k ++ [61] ++ v) table = Some (v, f).
Proof.
  intros Hk Hn Hin Hv. induction table as [|[k' f'] table IH]; [by apply not_elem_of_nil in Hin|].
  apply Forall_cons_iff in Hk as [Hk' Hk]. cbn in Hn. inversion Hn as [|? ? Hn' Hn2]; subst. cbn [find_key].
  apply elem_of_cons in Hin as [[= -> ->] | Hin]; [by rewrite iskey_same|].
  rewrite iskey_other; [by apply IH| |done|].
  - rewrite Forall_forall in Hk. by apply (Hk (k, f)), list_elem_of_In.
  - intros ->. apply Hn'. apply list_elem_of_fmap. by exists (k', f).
Qed.

Lemma key_table_chars : Forall (λ e, Forall key_char e.1) key_table.
Proof.
  assert (H : forallb (λ e, forallb (λ c, (c =? 45) || (97 <=? c) && (c <=? 122)) e.1) key_table = true) by done.
  rewrite forallb_forall in H. rewrite Forall_forall. intros e He. specialize (H e He).
  rewrite forallb_forall in H. rewrite Forall_forall. intros c Hc. specialize (H c Hc). unfold key_char. lia.
Qed.

Lemma key_table_distinct : NoDup (map fst key_table).
Proof. apply (bool_decide_unpack _). vm_compute. exact I. Qed.

Lemma key_line_entry k v f t t' : (k, f) ∈ key_table -> skip_spaces v = v -> f v t = Some t' ->
  key_line (k ++ [61] ++ v) true t = (true, t').
Proof.
  intros Hin Hv Hf. unfold key_line.
  by rewrite (find_key_entry k v f key_table key_table_chars key_table_distinct Hin Hv), Hf.
Qed.

(** ** Sections *)

Section Load.
Context {A : Type} (cb : A -> dvbsec_config -> res (A * bool)).

(** A line of a key stores its value. *)
Lemma load_key fuel k v rest f t t' a : (k, f) ∈ key_table -> plain v -> f v t = Some t' ->
  load_lines cb (S fuel) (key_value (k, v) ++ [10] ++ rest) true t a = load_lines cb fuel rest true t' a.
Proof.
  intros Hin (Hv & Hs & Ht) Hf.
  assert (Hk : Forall key_char k).
  { pose proof key_table_chars as H. rewrite Forall_forall in H. by apply (H (k, f)), list_elem_of_In. }
  assert (Hne : exists c k', k = c :: k').
  { assert (H : Forall (λ e, e.1 <> []) key_table) by (by repeat constructor).
    rewrite Forall_forall in H. specialize (H (k, f) ltac:(by apply list_elem_of_In)).
    destruct k; [done|]. by eexists _, _. }
  destruct Hne as (c & k' & Ek). pose proof (key_line_entry k v f t t' Hin Hs Hf) as Hkl.
  assert (Hkc : Forall line_char (k ++ [61] ++ v)).
  { apply Forall_app. split; [|by constructor].
    eapply Forall_impl; [|exact Hk]. intros d Hd. by apply (key_char_plain d Hd). }
  assert (Hc : isspace c = false /\ c <> 91).
  { rewrite Ek in Hk. apply Forall_cons_iff in Hk as [Hc _]. by apply key_char_plain in Hc as (_ & ? & _ & ?). }
  destruct Hc as [Hc Hc91].
  assert (Hclean : clean_line ((k ++ [61] ++ v) ++ [10]) = k ++ [61] ++ v).
  { apply clean_line_ok; [done|by rewrite Ek; apply skip_spaces_char|].
    destruct (trim_end_fixed v Ht) as [-> | (s' & d & -> & Hd)].
    - by apply (trim_end_app k 61).
    - rewrite !app_assoc. by apply trim_end_app. }
  change (k ++ [61] ++ v) with (key_value (k, v)) in *. cbn [load_lines app].
  rewrite getline_line by (eapply Forall_impl; [|exact Hkc]; by intros d (?&?&?)).
  rewrite Hclean, Hkl. unfold key_value. rewrite Ek. cbn [app fst snd]. unfold dvbcfg_issection.
  rewrite (proj2 (Z.eqb_neq c 91)) by done. by destruct k'.
Qed.

(** What lines of keys store. *)
Fixpoint store_lines (kvs : list (list Z * list Z)) (t : dvbsec_config) : option dvbsec_config :=
  match kvs with
  | [] => Some t
  | (k, v) :: kvs =>
      match List.find (λ e, bool_decide (e.1 = k)) key_table with
      | Some (_, f) => match f v t with Some t => store_lines kvs t | None => None end
      | None => None
      end
  end.

Lemma load_keys kvs : Forall (λ kv, plain kv.2) kvs -> forall fuel rest t t' a, store_lines kvs t = Some t' ->
  load_lines cb (length kvs + fuel) ((kvs ≫= λ kv, key_value kv ++ [10]) ++ rest) true t a =
  load_lines cb fuel rest true t' a.
Proof.
  induction 1 as [|[k v] kvs Hv H IH]; intros fuel rest t t' a E; cbn [store_lines] in E; [by injection E as ->|].
  destruct (List.find _ key_table) as [[k' f]|] eqn:Ef; [|done].
  apply find_some in Ef as [Hin Ek]. apply bool_decide_eq_true in Ek. cbn in Ek. subst k'.
  destruct (f v t) as [t1|] eqn:Ef; [|done].
  cbn [length Nat.add]. change (((k, v) :: kvs) ≫= (λ kv, key_value kv ++ [10])) with
    ((key_value (k, v) ++ [10]) ++ (kvs ≫= λ kv, key_value kv ++ [10])).
  rewrite <- !app_assoc. rewrite (load_key _ _ _ _ f t t1); [by apply IH|by apply list_elem_of_In|done|done].
Qed.

(** The start of a section hands over the one before it. *)
Lemma load_section fuel rest ins t a :
  load_lines cb (S fuel) (lit "[sec]" ++ [10] ++ rest) ins t a =
  (if ins : bool then
     '(a, stop) ← cb a t;
     if stop : bool then mret a else load_lines cb fuel rest true empty_config a
   else load_lines cb fuel rest true empty_config a).
Proof. done. Qed.

(** The callback on each configuration until it stops. *)
Fixpoint feed (cs : list dvbsec_config) (a : A) : res A :=
  match cs with
  | [] => mret a
  | c :: cs => '(a, stop) ← cb a c; if stop : bool then mret a else feed cs a
  end.
End Load.

(** ** Configurations *)

Lemma c_string_strncpy n s : Forall (λ c, c <> 0) s -> (length s < n)%nat -> c_string (strncpy n s) = s.
Proof.
  intros H Hl. unfold strncpy. rewrite take_ge by lia.
  destruct (n - length s)%nat as [|k] eqn:E; [lia|]. by apply c_string_ok.
Qed.

Lemma plain_nul s : plain s -> Forall (λ c, c <> 0) s.
Proof. intros [H _]. eapply Forall_impl; [|exact H]. by intros c []. Qed.

Lemma text_array_string n m : text_array n m -> plain (c_string m) /\ strncpy n (c_string m) = m.
Proof. intros (s & Hs & Hn & ->). rewrite c_string_strncpy; [done|by apply plain_nul|done]. Qed.

Lemma print_i_plain v : - 2 ^ 31 <= v < 2 ^ 31 -> plain (print_i v).
Proof.
  intros Hv. destruct (print_i_chars v Hv) as [H Hne].
  assert (Hs : Forall (λ c, isspace c = false) (print_i v)).
  { eapply Forall_impl; [|exact H]. intros c Hc. by apply number_char_plain. }
  split_and!.
  - eapply Forall_impl; [|exact H]. intros c Hc. apply number_char_plain in Hc as [_ Hc]. unfold line_char. lia.
  - destruct (print_i v) as [|c s]; [done|]. apply skip_spaces_char. by apply Forall_cons_iff in Hs as [? _].
  - destruct (print_i v) as [|c s _] using rev_ind; [done|]. apply trim_end_app.
    apply Forall_app in Hs as [_ Hs]. by apply Forall_cons_iff in Hs as [? _].
Qed.

Lemma number_stored v : 0 <= v < 2 ^ 32 -> u32 (atoi (print_i (s32 v))) = v.
Proof.
  intros Hv. destruct (u32_s32 v Hv) as [E Hs]. rewrite <- (app_nil_r (print_i _)).
  by rewrite atoi_print_i.
Qed.

Lemma store_config c : valid_config c -> store_lines (config_lines c) empty_config = Some c.
Proof.
  intros (Hid & Hn & Ht & Hc).
  destruct c as [id sf llv llh lll llr lhv lhh lhl lhr ty a1 a2 a3 a4 a5 a6 a7 a8]. cbn in Hid, Hn, Ht, Hc.
  repeat match goal with H : Forall _ (_ :: _) |- _ => apply Forall_cons_iff in H as [? H] end.
  assert (E : store_lines (config_lines (DvbsecConfig id sf llv llh lll llr lhv lhh lhl lhr ty
      a1 a2 a3 a4 a5 a6 a7 a8)) empty_config =
    let n v := u32 (atoi (print_i (s32 v))) in let s v := strncpy 100 (c_string v) in
    Some (DvbsecConfig (strncpy 32 (c_string id)) (n sf) (n llv) (n llh) (n lll) (n llr) (n lhv) (n lhh)
      (n lhl) (n lhr) ty (s a1) (s a2) (s a3) (s a4) (s a5) (s a6) (s a7) (s a8))).
  { assert (Hty : ty = 0 \/ ty = 1 \/ ty = 2 \/ ty = 3) by lia.
    destruct Hty as [-> | [-> | [-> | ->]]]; lazy -[strncpy c_string u32 atoi print_i s32]; reflexivity. }
  rewrite E. cbv beta zeta. rewrite !number_stored by done.
  repeat match goal with H : text_array _ _ |- _ => apply text_array_string in H as [_ H]; rewrite H; clear H end.
  done.
Qed.

Lemma type_name_plain t : 0 <= t < 4 -> plain (type_name t).
Proof.
  intros H. assert (Ht : t = 0 \/ t = 1 \/ t = 2 \/ t = 3) by lia.
  destruct Ht as [-> | [-> | [-> | ->]]]; (split; [|done]); repeat constructor; done.
Qed.

Lemma config_plain c : valid_config c -> Forall (λ kv, plain kv.2) (config_lines c).
Proof.
  intros (Hid & Hn & Ht & Hc).
  assert (Hp : forall v, 0 <= v < 2 ^ 32 -> plain (print_i (s32 v))) by (intros v Hv; by apply print_i_plain, u32_s32).
  assert (Hs : forall n m, text_array n m -> plain (c_string m)) by (intros n m Hm; by apply (text_array_string n)).
  repeat match goal with H : Forall _ (_ :: _) |- _ => apply Forall_cons_iff in H as [? H] end.
  unfold config_lines. repeat (apply Forall_cons_iff; split); cbn [snd]; eauto using type_name_plain.
Qed.

(** ** Files *)

Section Files.
Context {A : Type} (cb : A -> dvbsec_config -> res (A * bool)).

Lemma load_config fuel c rest ins t a : valid_config c ->
  load_lines cb (S (19 + fuel)) (write_config c ++ rest) ins t a =
  (if ins : bool then
     '(a, stop) ← cb a t;
     if stop : bool then mret a else load_lines cb fuel rest true c a
   else load_lines cb fuel rest true c a).
Proof.
  intros Hc. unfold write_config. rewrite <- !app_assoc, load_section.
  assert (E : forall a, load_lines cb (19 + fuel) ((config_lines c ≫= λ kv, key_value kv ++ [10]) ++ rest) true
    empty_config a = load_lines cb fuel rest true c a).
  { intros a'. change 19%nat with (length (config_lines c)). apply load_keys; [by apply config_plain|].
    by apply store_config. }
  rewrite E. destruct ins; [|done]. destruct (cb a t) as [[a' stop]|]; [|done]. cbn [mbind res_bind].
  destruct stop; [done|apply E].
Qed.

(** A configuration has at least 20 lines, so the length of the file is enough fuel. *)
Lemma write_config_length c : (20 <= length (write_config c))%nat.
Proof. unfold write_config. rewrite !length_app. cbn. rewrite !length_app. cbn. lia. Qed.

Lemma load_configs cs : Forall valid_config cs -> forall fuel c a, (length (write_configs cs) < fuel)%nat ->
  load_lines cb fuel (write_configs cs) true c a = feed cb (c :: cs) a.
Proof.
  induction 1 as [|d cs Hd H IH]; intros fuel c a Hf.
  - destruct fuel; [cbn in Hf; lia|]. cbn. by destruct (cb a c) as [[a' []]|].
  - change (write_configs (d :: cs)) with (write_config d ++ write_configs cs) in *.
    rewrite length_app in Hf. pose proof (write_config_length d) as Hl.
    replace fuel with (S (19 + (fuel - 20)))%nat by lia. rewrite load_config by done. cbn [feed].
    destruct (cb a c) as [[a' []]|]; cbn [mbind res_bind]; [done| |done]. apply IH. lia.
Qed.

Lemma cfg_loaded cs a : Forall valid_config cs -> dvbsec_cfg_load cb (write_configs cs) a = feed cb cs a.
Proof.
  intros H. unfold dvbsec_cfg_load. destruct H as [|c cs Hc H]; [done|].
  change (write_configs (c :: cs)) with (write_config c ++ write_configs cs). rewrite length_app.
  pose proof (write_config_length c) as Hl.
  replace (S (length (write_config c) + length (write_configs cs)))%nat with
    (S (19 + (length (write_config c) + length (write_configs cs) - 19)))%nat by lia.
  rewrite load_config by done. apply load_configs; [done|lia].
Qed.
End Files.

(** ** Searching *)

Lemma strcmp_array_ok s r : Forall (λ c, c <> 0) s -> forall id, Forall (λ c, c <> 0) id ->
  strcmp_array id (s ++ 0 :: r) = Ok (bool_decide (id = s)).
Proof.
  induction 1 as [|c s Hc H IH]; intros id Hid; cbn [app strcmp_array].
  - destruct id as [|d id]; [done|]. apply Forall_cons_iff in Hid as [Hd _]. cbn [char0].
    rewrite (proj2 (Z.eqb_neq d 0)) by done. by rewrite bool_decide_false.
  - destruct id as [|d id]; cbn [char0].
    + rewrite (proj2 (Z.eqb_neq 0 c)) by done. by rewrite bool_decide_false.
    + apply Forall_cons_iff in Hid as [Hd Hid]. destruct (Z.eqb_spec d c) as [-> | Hdc]; cbn [negb].
      * rewrite (proj2 (Z.eqb_neq c 0)) by done. cbn [drop]. rewrite drop_0, IH by done. f_equal.
        apply bool_decide_ext. split; [by intros ->|by intros [= ->]].
      * rewrite bool_decide_false; [done|]. by intros [= ? _].
Qed.

Lemma strncmp_eq_short n s id : Forall (λ c, c <> 0) s -> Forall (λ c, c <> 0) id -> (length s < n)%nat ->
  strncmp_eq n id s = bool_decide (id = s).
Proof.
  intros H. revert n id. induction H as [|c s Hc H IH]; intros n id Hid Hn; (destruct n as [|n]; [cbn in Hn; lia|]);
    cbn [strncmp_eq]; cbn [char0].
  - destruct id as [|d id]; [done|]. apply Forall_cons_iff in Hid as [Hd _]. cbn [char0].
    rewrite (proj2 (Z.eqb_neq d 0)) by done. by rewrite bool_decide_false.
  - destruct id as [|d id]; cbn [char0].
    + rewrite (proj2 (Z.eqb_neq 0 c)) by done. by rewrite bool_decide_false.
    + apply Forall_cons_iff in Hid as [Hd Hid]. destruct (Z.eqb_spec d c) as [-> | Hdc]; cbn [negb].
      * rewrite (proj2 (Z.eqb_neq c 0)) by done. cbn [drop]. rewrite !drop_0, IH by (cbn in Hn; done || lia).
        apply bool_decide_ext. split; [by intros ->|by intros [= ->]].
      * rewrite bool_decide_false; [done|]. by intros [= ? _].
Qed.

Definition named (id : list Z) (c : dvbsec_config) : bool := bool_decide (id = c_string (sec_id c)).

Lemma find_default_ok id sec : Forall (λ c, c <> 0) id ->
  dvbsec_cfg_find_default id sec =
  match List.find (named id) defaults with Some c => (0, c) | None => (-1, sec) end.
Proof.
  intros Hid. unfold dvbsec_cfg_find_default.
  assert (Hd : forallb (λ c, forallb (λ x, negb (x =? 0)) (sec_id_string c) &&
    (length (sec_id_string c) <? 32)%nat) defaults = true) by done.
  induction defaults as [|c cs IH]; [done|]. cbn [forallb] in Hd. apply andb_prop in Hd as [Hc Hcs].
  apply andb_prop in Hc as [Hc Hl]. cbn [find_default List.find].
  rewrite strncmp_eq_short; [| |done|by apply Nat.ltb_lt].
  - unfold named at 1. fold (sec_id_string c). destruct (bool_decide _); [done|by apply IH].
  - rewrite forallb_forall in Hc. apply Forall_forall. intros x Hx. apply Hc in Hx.
    apply negb_true_iff, Z.eqb_neq in Hx. done.
Qed.

Lemma find_callback_ok id dest c : valid_config c -> Forall (λ c, c <> 0) id ->
  dvbsec_cfg_find_callback id dest c = Ok (if named id c then (c, true) else (dest, false)).
Proof.
  intros ((s & Hs & Hn & E) & _) Hid. apply plain_nul in Hs. unfold dvbsec_cfg_find_callback, named.
  rewrite E, c_string_strncpy by done. unfold strncpy. rewrite take_ge by lia.
  destruct (32 - length s)%nat as [|k] eqn:Ek; [lia|]. cbn [repeat].
  rewrite strcmp_array_ok by done. done.
Qed.

Lemma feed_find id cs dest : Forall valid_config cs -> Forall (λ c, c <> 0) id ->
  feed (dvbsec_cfg_find_callback id) cs dest =
  Ok (match List.find (named id) cs with Some c => c | None => dest end).
Proof.
  intros H Hid. induction H as [|c cs Hc H IH]; [done|]. cbn [feed List.find].
  rewrite find_callback_ok by done. cbn [mbind res_bind]. by destruct (named id c).
Qed.

(** C11: a file of configurations is searched by name: [dvbsec_cfg_find] gives the first configuration of the
    file with the name, every field as it was written, or else the built in one with the name, and reports
    that there is none when neither exists. *)
Theorem config_found cs id : Forall valid_config cs -> Forall (λ c, c <> 0) id -> id <> [] ->
  dvbsec_cfg_find (Some (Some (write_configs cs))) id =
  Ok (match List.find (named id) (cs ++ defaults) with Some c => (0, c) | None => (-1, empty_config) end).
Proof.
  intros Hcs Hid Hne. unfold dvbsec_cfg_find. rewrite cfg_loaded, feed_find, find_app by done.
  cbn [mbind res_bind]. destruct (List.find (named id) cs) as [c|] eqn:Ef.
  - apply find_some in Ef as [_ Hn]. apply bool_decide_eq_true in Hn.
    destruct (sec_id c) as [|x m] eqn:E; [by rewrite Hn in Hne|]. cbn [c_string] in Hn.
    change (at_ (x :: m) 0) with (@Ok Z x). cbn [mbind res_bind].
    destruct (Z.eqb_spec x 0) as [-> | Hx]; [by rewrite Hn in Hne|done].
  - change (at_ (sec_id empty_config) 0) with (@Ok Z 0). cbn [mbind res_bind]. by rewrite find_default_ok.
Qed.

Definition two_dishes : list dvbsec_config :=
  [DvbsecConfig (strncpy 32 (lit "OLD")) 0 9750000 9750000 0 0 0 0 0 0 DVBSEC_CONFIG_POWER
     no_command no_command no_command no_command no_command no_command no_command no_command;
   DvbsecConfig (strncpy 32 (lit "MAIN")) 11700000 9750000 9750000 0 0 10600000 10600000 0 4294967295
     DVBSEC_CONFIG_ADVANCED (strncpy 100 (lit "tone(D) voltage(18)")) no_command no_command no_command
     (strncpy 100 (lit "tone(B)")) no_command no_command no_command].

Lemma two_dishes_valid : Forall valid_config two_dishes.
Proof.
  assert (Hp : forall n s, forallb (λ c, negb (c =? 0) && negb (c =? 10) && negb (c =? 35)) s = true ->
    skip_spaces s = s -> trim_end s = s -> (length s < n)%nat -> text_array n (strncpy n s)).
  { intros n s H Hs Ht Hn. exists s. split; [|done]. split; [|done]. rewrite forallb_forall in H.
    apply Forall_forall. intros c Hc. specialize (H c Hc). unfold line_char. lia. }
  unfold two_dishes. repeat (apply Forall_cons_iff; split); [..|constructor]; unfold valid_config;
    cbn [sec_id switch_frequency lof_lo_v lof_lo_h lof_lo_l lof_lo_r lof_hi_v lof_hi_h lof_hi_l lof_hi_r
    config_type adv_cmd_lo_h adv_cmd_lo_v adv_cmd_lo_l adv_cmd_lo_r adv_cmd_hi_h adv_cmd_hi_v adv_cmd_hi_l
    adv_cmd_hi_r]; change no_command with (strncpy 100 []); split_and!; try done; try (by apply Hp; [..|cbn; lia]).
  all: repeat (apply Forall_cons_iff; split); [..|constructor]; try lia; by apply Hp; [..|cbn; lia].
Qed.

(** The second of two configurations is found. *)
Lemma config_found_witness : dvbsec_cfg_find (Some (Some (write_configs two_dishes))) (lit "MAIN") =
  Ok (match List.find (named (lit "MAIN")) (two_dishes ++ defaults) with
      | Some c => (0, c) | None => (-1, empty_config) end) /\
  List.find (named (lit "MAIN")) (two_dishes ++ defaults) = two_dishes !! 1%nat.
Proof.
  split; [|reflexivity].
  apply (config_found two_dishes (lit "MAIN") two_dishes_valid); [|discriminate].
  repeat constructor; discriminate.
Defined.

(** ** The files the library writes *)

Lemma skip_spaces_end l c : isspace c = false -> exists l', skip_spaces (l ++ [c]) = l' ++ [c].
Proof.
  intros Hc. induction l as [|d l IH]; cbn; [rewrite Hc; by exists []|].
  destruct (isspace d); [done|by exists (d :: l)].
Qed.

(** A line keeps its first character. *)
Lemma clean_line_head c l : c <> 0 -> c <> 35 -> isspace c = false -> exists l', clean_line (c :: l) = c :: l'.
Proof.
  intros H0 H35 Hs. unfold clean_line. cbn [c_string]. rewrite (proj2 (Z.eqb_neq c 0)) by done.
  cbn [chop_comment]. rewrite (proj2 (Z.eqb_neq c 35)), skip_spaces_char by done. unfold trim_end. cbn [rev].
  destruct (skip_spaces_end (rev (chop_comment (c_string l))) c Hs) as [l' E]. rewrite E, rev_app_distr.
  by exists (rev l').
Qed.

Section Skipped.
Context {A : Type} (cb : A -> dvbsec_config -> res (A * bool)).

(** Text that is read without entering a section. *)
Definition skipped (text : list Z) : Prop :=
  exists n, (n <= length text)%nat /\ forall fuel rest t, exists t', forall a,
    load_lines cb (n + fuel) (text ++ rest) false t a = load_lines cb fuel rest false t' a.

Lemma skipped_nil : skipped [].
Proof. exists O. split; [done|]. intros fuel rest t. by exists t. Qed.

Lemma skipped_app x y : skipped x -> skipped y -> skipped (x ++ y).
Proof.
  intros (n & Hn & Hx) (k & Hk & Hy). exists (n + k)%nat. split; [rewrite length_app; lia|].
  intros fuel rest t. destruct (Hx (k + fuel)%nat (y ++ rest) t) as [t1 E1].
  destruct (Hy fuel rest t1) as [t2 E2]. exists t2. intros a.
  by rewrite <- app_assoc, <- Nat.add_assoc, E1, E2.
Qed.

Lemma skipped_line l : Forall (λ c, c <> 10) l ->
  dvbcfg_issection (clean_line (l ++ [10])) (lit "sec") = false -> skipped (l ++ [10]).
Proof.
  intros Hl Hsec. exists 1%nat. split; [rewrite length_app; cbn; lia|]. intros fuel rest t.
  destruct (key_line (clean_line (l ++ [10])) false t) as [ins t1] eqn:Ek.
  assert (Hins : ins = false).
  { unfold key_line in Ek. destruct (find_key _ _) as [[v f]|]; [destruct (f v t)|]; by inversion Ek. }
  subst ins. exists (if clean_line (l ++ [10]) is [] then t else t1). intros a.
  rewrite <- app_assoc. cbn [app Nat.add load_lines]. rewrite getline_line by done.
  destruct (clean_line (l ++ [10])) as [|c l'] eqn:Ec; [by destruct l|].
  rewrite Hsec, Ek. by destruct l.
Qed.

Lemma skipped_key k v : Forall key_char k -> k <> [] -> Forall (λ c, c <> 10) v ->
  skipped (k ++ [61] ++ v ++ [10]).
Proof.
  intros Hk Hne Hv. destruct k as [|c k]; [done|]. rewrite !app_assoc. apply skipped_line.
  - rewrite <- app_assoc. apply Forall_app. split; [|by constructor].
    eapply Forall_impl; [|exact Hk]. intros d Hd. by destruct (key_char_plain d Hd) as ((?&?&?)&_).
  - apply Forall_cons_iff in Hk as [Hc _]. apply key_char_plain in Hc as ((H0 & _ & H35) & Hs & _ & H91).
    destruct (clean_line_head c (((k ++ [61]) ++ v) ++ [10]) H0 H35 Hs) as [l' E].
    cbn [app] in *. rewrite E. unfold dvbcfg_issection. rewrite (proj2 (Z.eqb_neq c 91)) by done. by destruct l'.
Qed.

Lemma number_line v : Forall (λ c, c <> 10) (print_i (s32 v)).
Proof.
  assert (Hs : - 2 ^ 31 <= s32 v < 2 ^ 31) by (unfold s32; change (2 ^ 31) with 2147483648; Z.div_mod_to_equations; lia).
  destruct (print_i_plain _ Hs) as [H _]. eapply Forall_impl; [|exact H]. by intros c (?&?&?).
Qed.

Lemma skipped_number k v : Forall key_char k -> k <> [] -> skipped (save_number k v).
Proof.
  intros Hk Hne. unfold save_number. destruct (v =? 0); [apply skipped_nil|].
  apply skipped_key; [done|done|apply number_line].
Qed.

Lemma array_string_forall (P : Z -> Prop) m : Forall P m -> forall s, array_string m = Ok s -> Forall P s.
Proof.
  induction 1 as [|c m Hc H IH]; intros s; cbn [array_string]; [done|].
  destruct (c =? 0); [by intros [= <-]|]. destruct (array_string m) as [s'|]; [|done].
  intros [= <-]. constructor; [done|by apply IH].
Qed.

Lemma skipped_command k m text : Forall key_char k -> k <> [] -> Forall (λ c, c <> 10) m ->
  save_command k m = Ok text -> skipped text.
Proof.
  intros Hk Hne Hm. unfold save_command. destruct (at_ m 0) as [c|]; [|done]. cbn [mbind res_bind].
  destruct (c =? 0); [intros [= <-]; apply skipped_nil|].
  destruct (array_string m) as [s|] eqn:Es; [|done]. intros [= <-].
  apply skipped_key; [done|done|by apply (array_string_forall _ m)].
Qed.

(** Commands of one line each. *)
Definition one_line (c : dvbsec_config) : Prop :=
  Forall (Forall (λ x, x <> 10)) [adv_cmd_lo_h c; adv_cmd_lo_v c; adv_cmd_lo_r c; adv_cmd_lo_l c;
    adv_cmd_hi_h c; adv_cmd_hi_v c; adv_cmd_hi_r c; adv_cmd_hi_l c].

Lemma table_key k : bool_decide (k ∈ map fst key_table) = true -> Forall key_char k.
Proof.
  intros H. apply bool_decide_eq_true, list_elem_of_fmap in H as ([k' f] & -> & Hin).
  pose proof key_table_chars as Hk. rewrite Forall_forall in Hk. by apply (Hk (k', f)), list_elem_of_In.
Qed.

Lemma skipped_commands c text : one_line c -> save_commands c = Ok text -> skipped text.
Proof.
  unfold one_line, save_commands. intros H.
  repeat match goal with H : Forall _ (_ :: _) |- _ => apply Forall_cons_iff in H as [? H] end.
  repeat match goal with |- context [save_command ?k ?m] =>
    let s := fresh "s" in let E := fresh "E" in
    destruct (save_command k m) as [s|] eqn:E; [|done]; cbn [mbind res_bind];
    apply skipped_command in E; [|by apply table_key|done|done] end.
  intros [= <-]. repeat apply skipped_app; done.
Qed.

Lemma skipped_one c text : one_line c -> save_one c = Ok text -> skipped text.
Proof.
  intros H. unfold save_one.
  destruct (if config_type c =? DVBSEC_CONFIG_ADVANCED then save_commands c else mret []) as [s|] eqn:Es; [|done].
  assert (Hs : skipped s).
  { destruct (config_type c =? DVBSEC_CONFIG_ADVANCED); [by apply (skipped_commands c)|].
    injection Es as <-. apply skipped_nil. }
  cbn [mbind res_bind]. intros E.
  refine (eq_rect _ skipped _ _ (ok_inj _ _ E)). rewrite (app_assoc (lit "[lnb]")). apply skipped_app.
  { apply skipped_line; [by repeat constructor|done]. }
  assert (Hk : forall k v rest, Forall key_char k -> k <> [] -> Forall (λ c, c <> 10) v -> skipped rest ->
    skipped ((k ++ [61]) ++ v ++ [10] ++ rest)).
  { intros k v rest Hk Hne Hv Hrest. pose proof (skipped_app _ _ (skipped_key k v Hk Hne Hv) Hrest) as E2.
    replace ((k ++ [61]) ++ v ++ [10] ++ rest) with ((k ++ [61] ++ v ++ [10]) ++ rest) by (cbn [app]; rewrite <- !app_assoc; cbn [app]; by rewrite <- !app_assoc). done. }
  apply (Hk (lit "switch-frequency")); [by apply table_key|done|apply number_line|].
  repeat (apply skipped_app; [apply skipped_number; [by apply table_key|done]|]).
  apply (Hk (lit "config-type")); [by apply table_key|done| |].
  - unfold type_name. repeat case_match; by repeat constructor.
  - apply skipped_app; [done|]. apply (skipped_line []); [constructor|done].
Qed.

(** Reading what the library wrote finds no configuration. *)
Lemma saved_skipped secs file : Forall one_line secs -> dvbsec_cfg_save secs = Ok file -> skipped file.
Proof.
  intros H. revert file. induction H as [|c secs Hc H IH]; intros file; cbn [dvbsec_cfg_save].
  - intros [= <-]. apply skipped_nil.
  - destruct (save_one c) as [x|] eqn:Ex; [|done]. cbn [mbind res_bind].
    destruct (dvbsec_cfg_save secs) as [y|]; [|done]. intros [= <-].
    apply skipped_app; [by apply (skipped_one c)|by apply IH].
Qed.

Lemma load_skipped file a : skipped file -> dvbsec_cfg_load cb file a = Ok a.
Proof.
  intros (n & Hn & H). unfold dvbsec_cfg_load. destruct (H (S (length file - n)) [] empty_config) as [t E].
  specialize (E a). rewrite app_nil_r in E. replace (n + S (length file - n))%nat with (S (length file)) in E by lia.
  by rewrite E.
Qed.

Lemma saved_configurations_lost secs file a : Forall one_line secs -> dvbsec_cfg_save secs = Ok file ->
  dvbsec_cfg_load cb file a = Ok a.
Proof. intros H E. by apply load_skipped, (saved_skipped secs). Qed.
End Skipped.
