(* ===== verification/DvbCfg.v ===== *)
(** * libdvbcfg: lines of fields

    What the files of channels (dvbcfg_zapchannel.c) and of transponders (dvbcfg_scanfile.c) have in common:
    a line for each, with fields between colons or spaces.  The functions of dvbcfg_common.c move a pointer through
    the line; here the pointer is the memory it points to, and NULL is [None].  The memory behind the line
    is not known, so that reading it is a fault. *)

From S2P Require Export CText Frontend.

(** ** dvbcfg_common.c *)

(** [struct dvbcfg_setting]; the entry with the NULL is the end of the list. *)
Definition dvbcfg_setting : Type := list Z * Z.

(** From [start] up to a token, which is overwritten, or to the NUL: the text between, and [stop]. *)
Fixpoint next_token (tokens : list Z) (text : mem) : res (list Z * mem) :=
  match text with
  | [] => Err OutOfBounds
  | c :: rest =>
      if c =? 0 then mret ([], text)
      else if existsb (Z.eqb c) tokens then mret ([], rest)
      else '(field, stop) ← next_token tokens rest; mret (c :: field, stop)
  end.

Definition dvbcfg_parse_int (text : mem) (tokens : list Z) : res (Z * option mem) :=
  '(start, stop) ← next_token tokens text;
  match scan_i start with
  | Some (value, _) => mret (value, Some stop)
  | None => mret (-1, None)
  end.

Definition dvbcfg_parse_char (text : mem) (tokens : list Z) : res (Z * option mem) :=
  '(start, stop) ← next_token tokens text;
  match start with
  | value :: _ => mret (schar value, Some stop)
  | [] => mret (-1, None)
  end.

Fixpoint find_setting (start : list Z) (settings : list dvbcfg_setting) : option Z :=
  match settings with
  | [] => None
  | (name, value) :: settings => if strcmp_eq start name then Some value else find_setting start settings
  end.

Definition dvbcfg_parse_setting (text : mem) (tokens : list Z) (settings : list dvbcfg_setting) :
    res (Z * option mem) :=
  '(start, stop) ← next_token tokens text;
  match find_setting start settings with
  | Some value => mret (value, Some stop)
  | None => mret (-1, None)
  end.

(** The string up to a token or the NUL.  [strchr] finds the NUL among any tokens, so that at the end of the
    text the pointer moves behind it. *)
Fixpoint string_token (tokens : list Z) (text : mem) : res (list Z * mem) :=
  match text with
  | [] => Err OutOfBounds
  | c :: rest =>
      if (c =? 0) || existsb (Z.eqb c) tokens then mret ([], rest)
      else '(field, stop) ← string_token tokens rest; mret (c :: field, stop)
  end.

(** What is copied to [dest], [None] for nothing.  The NUL is copied with the string: at the end of the text
    it is there, and a token has been overwritten by it. *)
Definition dvbcfg_parse_string (text : mem) (tokens : list Z) (size : Z) : res (option (list Z) * option mem) :=
  '(field, stop) ← string_token tokens text;
  let length := zlen field + 1 in
  mret (if length <=? size then (Some field, Some stop) else (None, None)).

Fixpoint dvbcfg_lookup_setting (setting : Z) (settings : list dvbcfg_setting) : option (list Z) :=
  match settings with
  | [] => None
  | (name, value) :: settings => if setting =? value then Some name else dvbcfg_lookup_setting setting settings
  end.

(** [strstr(line, needle) != NULL] *)
Fixpoint strstr (line needle : list Z) : bool :=
  strncmp_eq (length needle) line needle ||
  match line with [] => false | _ :: line => strstr line needle end.

(** "remove newline and comments": the first character that ends the line becomes a NUL. *)
Fixpoint end_line (line : list Z) : list Z :=
  match line with
  | [] => []
  | c :: rest => if (c =? 0) || (c =? 10) || (c =? 35) then 0 :: rest else c :: end_line rest
  end.

(** The line in memory. *)
Definition line_memory (line : list Z) : mem := end_line line ++ [0].

(** ** Reading fields

    A function that reads fields one after the other: [None] when [line_pos] has become NULL. *)

Definition Fields (A : Type) : Type := mem -> res (option (A * mem)).

#[export] Instance fields_ret : MRet Fields := λ A a text, Ok (Some (a, text)).
#[export] Instance fields_bind : MBind Fields := λ A B k c text,
  match c text with
  | Ok (Some (a, text)) => k a text
  | Ok None => Ok None
  | Err f => Err f
  end.

(** [if (!line_pos) continue;] *)
Definition checked {A} (r : res (A * option mem)) : res (option (A * mem)) :=
  match r with
  | Ok (a, Some text) => Ok (Some (a, text))
  | Ok (_, None) => Ok None
  | Err f => Err f
  end.

Definition int_field (tokens : list Z) : Fields Z := λ text, checked (dvbcfg_parse_int text tokens).
Definition char_field (tokens : list Z) : Fields Z := λ text, checked (dvbcfg_parse_char text tokens).
Definition setting_field (tokens : list Z) (settings : list dvbcfg_setting) : Fields Z := λ text,
  checked (dvbcfg_parse_setting text tokens settings).

(** [continue;] *)
Definition skip_line {A} : Fields A := λ _, Ok None.

(** Behaviour that is not defined. *)
Definition undefined {A} : Fields A := λ _, Err Undefined.

Definition is_polarization (c : Z) : bool := (c =? 104) || (c =? 118) || (c =? 108) || (c =? 114).

(** The tokens of the two kinds of files. *)
Abbreviation colon := [58].
Abbreviation space := [32].

Section Parse.
Context {A C : Type} (parse_line : Fields C) (callback : A -> C -> A * Z).

(** The loop over the lines, each of which takes at least one character of the file. *)
Fixpoint parse_lines (fuel : nat) (file : list Z) (a : A) : res (A * Z) :=
  match fuel with
  | O => Err OutOfFuel
  | S fuel =>
      let '(line, rest) := getline file in
      match line with
      | [] => mret (a, 0)
      | _ =>
          r ← parse_line (line_memory line);
          match r with
          | None => parse_lines fuel rest a
          | Some (channel, _) =>
              let '(a, ret_val) := callback a channel in
              if ret_val =? 0 then parse_lines fuel rest a
              else mret (a, if ret_val <? 0 then 0 else ret_val)
          end
      end
  end.

Definition parse_file (file : list Z) (a : A) : res (A * Z) := parse_lines (S (length file)) file a.
End Parse.

(** [%i] of an unsigned number. *)
Definition print_unsigned (v : Z) : list Z := print_i (s32 v).

(** ** Facts *)

Lemma fields_run {A B} (c : Fields A) (k : A -> Fields B) text a text' :
  c text = Ok (Some (a, text')) -> (c ≫= k) text = k a text'.
Proof. intros E. unfold mbind, fields_bind. by rewrite E. Qed.

(** Characters of fields between [d]s. *)
Definition field_char (d c : Z) : Prop := c <> 0 /\ c <> d.

Lemma next_token_sep d s rest : d <> 0 -> Forall (field_char d) s -> next_token [d] (s ++ d :: rest) = Ok (s, rest).
Proof.
  intros Hd. induction 1 as [|c s [H0 Hc] H IH]; cbn [app next_token existsb].
  - by rewrite (proj2 (Z.eqb_neq d 0)), Z.eqb_refl.
  - by rewrite (proj2 (Z.eqb_neq c 0)), (proj2 (Z.eqb_neq c d)), IH.
Qed.

Lemma next_token_end d s rest : Forall (field_char d) s -> next_token [d] (s ++ 0 :: rest) = Ok (s, 0 :: rest).
Proof.
  induction 1 as [|c s [H0 Hc] H IH]; cbn [app next_token existsb]; [done|].
  by rewrite (proj2 (Z.eqb_neq c 0)), (proj2 (Z.eqb_neq c d)), IH.
Qed.

Lemma string_token_colon s rest : Forall (field_char 58) s -> string_token colon (s ++ 58 :: rest) = Ok (s, rest).
Proof.
  induction 1 as [|c s [H0 Hc] H IH]; cbn [app string_token existsb]; [done|].
  by rewrite (proj2 (Z.eqb_neq c 0)), (proj2 (Z.eqb_neq c 58)), IH.
Qed.

(** Text that a line can carry, between its ends. *)
Definition line_char (c : Z) : Prop := c <> 0 /\ c <> 10 /\ c <> 35.

Lemma line_memory_ok s : Forall line_char s -> line_memory (s ++ [10]) = s ++ [0; 0].
Proof.
  intros H. unfold line_memory. assert (E : end_line (s ++ [10]) = s ++ [0]).
  { induction H as [|c s (H0 & H10 & H35) H IH]; [done|]. cbn [app end_line].
    rewrite (proj2 (Z.eqb_neq c 0)), (proj2 (Z.eqb_neq c 10)), (proj2 (Z.eqb_neq c 35)) by done. cbn [orb].
    by rewrite IH. }
  by rewrite E, <- app_assoc.
Qed.

(** *** Numbers *)

Definition is_int (v : Z) : Prop := - 2 ^ 31 <= v < 2 ^ 31.

(** The tokens. *)
Definition token (d : Z) : Prop := d = 58 \/ d = 32.

Lemma number_field d v : token d -> is_int v -> Forall (field_char d) (print_i v).
Proof.
  intros Hd Hv. destruct (print_i_chars v Hv) as [H _]. eapply Forall_impl; [|exact H].
  intros c Hc. apply number_char_plain in Hc as [_ Hc]. unfold field_char, token in *. lia.
Qed.

Lemma scan_number v : is_int v -> scan_i (print_i v) = Some (v, []).
Proof. intros Hv. rewrite <- (app_nil_r (print_i v)) at 1. by apply scan_print_i. Qed.

Lemma int_field_sep d v rest : token d -> is_int v ->
  int_field [d] (print_i v ++ d :: rest) = Ok (Some (v, rest)).
Proof.
  intros Hd Hv. unfold int_field, dvbcfg_parse_int.
  rewrite next_token_sep; [|unfold token in Hd; lia|by apply number_field].
  cbn [mbind res_bind]. by rewrite scan_number.
Qed.

Lemma int_field_run v rest : is_int v -> int_field colon (print_i v ++ 58 :: rest) = Ok (Some (v, rest)).
Proof. apply int_field_sep. by left. Qed.

(** *** Settings *)

(** A value of the list. *)
Definition listed (settings : list dvbcfg_setting) (v : Z) : Prop := dvbcfg_lookup_setting v settings <> None.

(** The names are different and can be fields. *)
Definition good_settings (settings : list dvbcfg_setting) : bool :=
  bool_decide (NoDup (map fst settings)) &&
  forallb (λ s : dvbcfg_setting,
    forallb (λ c, negb (c =? 0) && negb (c =? 10) && negb (c =? 32) && negb (c =? 35) && negb (c =? 58)) s.1) settings.

(** Characters of names. *)
Definition name_char (c : Z) : Prop := c <> 0 /\ c <> 10 /\ c <> 32 /\ c <> 35 /\ c <> 58.

Lemma lookup_setting_in v settings name : dvbcfg_lookup_setting v settings = Some name -> In (name, v) settings.
Proof.
  induction settings as [|[n v'] settings IH]; [done|]. cbn [dvbcfg_lookup_setting].
  destruct (Z.eqb_spec v v') as [-> | Hne]; [intros [= ->]; by left|]. intros E. right. by apply IH.
Qed.

Lemma find_setting_in settings name v : NoDup (map fst settings) -> In (name, v) settings ->
  find_setting name settings = Some v.
Proof.
  intros Hn Hin. induction settings as [|[n v'] settings IH]; [done|]. cbn in Hn.
  inversion Hn as [|? ? Hn1 Hn2]; subst. cbn [find_setting]. unfold strcmp_eq.
  destruct Hin as [[= -> ->] | Hin]; [by rewrite bool_decide_true|].
  rewrite bool_decide_false; [by apply IH|]. intros ->. apply Hn1, list_elem_of_fmap.
  exists (n, v). split; [done|by apply list_elem_of_In].
Qed.

Lemma setting_name settings v : good_settings settings = true -> listed settings v -> exists name,
  dvbcfg_lookup_setting v settings = Some name /\ In (name, v) settings /\ Forall name_char name /\
  find_setting name settings = Some v.
Proof.
  intros Hg Hl. apply andb_prop in Hg as [Hn Hc]. apply bool_decide_eq_true in Hn. unfold listed in Hl.
  destruct (dvbcfg_lookup_setting v settings) as [name|] eqn:E; [|done]. exists name. split; [done|].
  apply lookup_setting_in in E. split; [done|]. split; [|by apply find_setting_in].
  rewrite forallb_forall in Hc. specialize (Hc _ E). cbn in Hc. rewrite forallb_forall in Hc.
  apply Forall_forall. intros c Hin. specialize (Hc c Hin). unfold name_char. lia.
Qed.

Lemma setting_field_sep d settings name v rest : token d -> Forall name_char name ->
  find_setting name settings = Some v -> setting_field [d] settings (name ++ d :: rest) = Ok (Some (v, rest)).
Proof.
  intros Hd Hname Hf. unfold setting_field, dvbcfg_parse_setting. rewrite next_token_sep.
  - cbn [mbind res_bind]. by rewrite Hf.
  - unfold token in Hd. lia.
  - eapply Forall_impl; [|exact Hname]. intros c Hch. unfold name_char, field_char, token in *. lia.
Qed.

(** The characters of the numbers behind the settings. *)
Definition tail_char (c : Z) : Prop := 45 <= c <= 58.

Lemma number_tail v : is_int v -> Forall tail_char (print_i v).
Proof.
  intros Hv. destruct (print_i_chars v Hv) as [H _]. eapply Forall_impl; [|exact H].
  intros c Hc. apply number_char_plain in Hc as [_ Hc]. unfold tail_char. lia.
Qed.

Lemma name_line name : Forall name_char name -> Forall line_char name.
Proof. intros H. eapply Forall_impl; [|exact H]. intros c Hc. unfold name_char, line_char in *. lia. Qed.

Lemma tail_line t : Forall tail_char t -> Forall line_char t.
Proof. intros H. eapply Forall_impl; [|exact H]. intros c Hc. unfold tail_char, line_char in *. lia. Qed.

Lemma print_unsigned_ok v : 0 <= v < 2 ^ 32 -> print_unsigned v = print_i (s32 v) /\ is_int (s32 v) /\ u32 (s32 v) = v.
Proof. intros Hv. destruct (u32_s32 v Hv). done. Qed.

(** Text of which every piece has a property. *)
Ltac pieces tac := repeat first [apply Forall_nil | apply Forall_app; split | apply Forall_cons; [tac|]]; auto.

Lemma polarization_char p : is_polarization p = true ->
  tolower p = p /\ u8 p = p /\ schar p = p /\ field_char 58 p /\ line_char p /\ p <> 70 /\ p <> 86 /\ p <> 81.
Proof.
  intros H. assert (E : p = 104 \/ p = 118 \/ p = 108 \/ p = 114) by (unfold is_polarization in H; lia).
  by destruct E as [-> | [-> | [-> | ->]]].
Qed.

(** *** Substrings *)

Lemma strstr_app a b needle : strstr b needle = true -> strstr (a ++ b) needle = true.
Proof. intros H. induction a as [|c a IH]; [done|]. cbn [app strstr]. rewrite IH. apply orb_true_r. Qed.

Lemma strstr_here needle b : Forall (λ c, c <> 0) needle -> strstr (needle ++ b) needle = true.
Proof.
  intros H. assert (E : strncmp_eq (length needle) (needle ++ b) needle = true)
    by (apply strncmp_eq_prefix; [done|by exists b]).
  destruct (needle ++ b); cbn [strstr]; by rewrite E.
Qed.

(** A character that the text does not have. *)
Lemma strstr_absent c needle line : Forall (λ c, c <> 0) needle -> In c needle -> Forall (λ d, d <> c) line ->
  strstr line needle = false.
Proof.
  intros Hn Hc. assert (Hp : forall line, Forall (λ d, d <> c) line -> strncmp_eq (length needle) line needle = false).
  { intros l Hl. destruct (strncmp_eq _ _ _) eqn:E; [|done]. apply strncmp_eq_prefix in E as [r ->]; [|done].
    rewrite Forall_forall in Hl. specialize (Hl c ltac:(apply in_or_app; by left)). done. }
  induction line as [|d line IH]; intros Hl; cbn [strstr]; rewrite Hp by done; [done|].
  apply Forall_cons_iff in Hl as [_ Hl]. by apply IH.
Qed.

(** *** Files *)

(** The channels are handed to the callback until it stops. *)
Fixpoint hand_over {A C} (callback : A -> C -> A * Z) (cs : list C) (a : A) : A * Z :=
  match cs with
  | [] => (a, 0)
  | c :: cs =>
      let '(a, r) := callback a c in
      if r =? 0 then hand_over callback cs a else (a, if r <? 0 then 0 else r)
  end.

(** A line that is read as something. *)
Lemma parse_one {A C} (parse : Fields C) (callback : A -> C -> A * Z) fuel line rest c t a :
  Forall line_char line -> parse (line_memory (line ++ [10])) = Ok (Some (c, t)) ->
  parse_lines parse callback (S fuel) (line ++ [10] ++ rest) a =
  (let '(a, r) := callback a c in
   if r =? 0 then parse_lines parse callback fuel rest a else Ok (a, if r <? 0 then 0 else r)).
Proof.
  intros Hl Hp. cbn [parse_lines app]. rewrite getline_line.
  2: { eapply Forall_impl; [|exact Hl]. by intros x (?&?&?). }
  rewrite Hp. cbn [mbind res_bind]. by destruct line.
Qed.
