(* ===== verification/DvbCfgZapchannel.v ===== *)
(** * dvbcfg_zapchannel.c: files of channels

    A channel is a line of fields between colons.  What is written is read back. *)

From S2P Require Export DvbCfg.

Definition dvbcfg_inversion_list : list dvbcfg_setting :=
  [(lit "INVERSION_ON", DVBFE_INVERSION_ON);
   (lit "INVERSION_OFF", DVBFE_INVERSION_OFF);
   (lit "INVERSION_AUTO", DVBFE_INVERSION_AUTO)].

Definition dvbcfg_fec_list : list dvbcfg_setting :=
  [(lit "FEC_1_2", DVBFE_FEC_1_2);
   (lit "FEC_2_3", DVBFE_FEC_2_3);
   (lit "FEC_3_4", DVBFE_FEC_3_4);
   (lit "FEC_4_5", DVBFE_FEC_4_5);
   (lit "FEC_5_6", DVBFE_FEC_5_6);
   (lit "FEC_6_7", DVBFE_FEC_6_7);
   (lit "FEC_7_8", DVBFE_FEC_7_8);
   (lit "FEC_8_9", DVBFE_FEC_8_9);
   (lit "FEC_AUTO", DVBFE_FEC_AUTO);
   (lit "FEC_NONE", DVBFE_FEC_NONE)].

Definition dvbcfg_dvbc_modulation_list : list dvbcfg_setting :=
  [(lit "QAM_16", DVBFE_DVBC_MOD_QAM_16);
   (lit "QAM_32", DVBFE_DVBC_MOD_QAM_32);
   (lit "QAM_64", DVBFE_DVBC_MOD_QAM_64);
   (lit "QAM_128", DVBFE_DVBC_MOD_QAM_128);
   (lit "QAM_256", DVBFE_DVBC_MOD_QAM_256);
   (lit "QAM_AUTO", DVBFE_DVBC_MOD_AUTO)].

Definition dvbcfg_bandwidth_list : list dvbcfg_setting :=
  [(lit "BANDWIDTH_6_MHZ", DVBFE_DVBT_BANDWIDTH_6_MHZ);
   (lit "BANDWIDTH_7_MHZ", DVBFE_DVBT_BANDWIDTH_7_MHZ);
   (lit "BANDWIDTH_8_MHZ", DVBFE_DVBT_BANDWIDTH_8_MHZ);
   (lit "BANDWIDTH_AUTO", DVBFE_DVBT_BANDWIDTH_AUTO)].

Definition dvbcfg_constellation_list : list dvbcfg_setting :=
  [(lit "QAM_16", DVBFE_DVBT_CONST_QAM_16);
   (lit "QAM_32", DVBFE_DVBT_CONST_QAM_32);
   (lit "QAM_64", DVBFE_DVBT_CONST_QAM_64);
   (lit "QAM_128", DVBFE_DVBT_CONST_QAM_128);
   (lit "QAM_256", DVBFE_DVBT_CONST_QAM_256);
   (lit "QPSK", DVBFE_DVBT_CONST_QPSK);
   (lit "QAM_AUTO", DVBFE_DVBT_CONST_AUTO)].

Definition dvbcfg_transmission_mode_list : list dvbcfg_setting :=
  [(lit "TRANSMISSION_MODE_2K", DVBFE_DVBT_TRANSMISSION_MODE_2K);
   (lit "TRANSMISSION_MODE_8K", DVBFE_DVBT_TRANSMISSION_MODE_8K);
   (lit "TRANSMISSION_MODE_AUTO", DVBFE_DVBT_TRANSMISSION_MODE_AUTO)].

Definition dvbcfg_guard_interval_list : list dvbcfg_setting :=
  [(lit "GUARD_INTERVAL_1_32", DVBFE_DVBT_GUARD_INTERVAL_1_32);
   (lit "GUARD_INTERVAL_1_16", DVBFE_DVBT_GUARD_INTERVAL_1_16);
   (lit "GUARD_INTERVAL_1_8", DVBFE_DVBT_GUARD_INTERVAL_1_8);
   (lit "GUARD_INTERVAL_1_4", DVBFE_DVBT_GUARD_INTERVAL_1_4);
   (lit "GUARD_INTERVAL_AUTO", DVBFE_DVBT_GUARD_INTERVAL_AUTO)].

Definition dvbcfg_hierarchy_list : list dvbcfg_setting :=
  [(lit "HIERARCHY_1", DVBFE_DVBT_HIERARCHY_1);
   (lit "HIERARCHY_2", DVBFE_DVBT_HIERARCHY_2);
   (lit "HIERARCHY_4", DVBFE_DVBT_HIERARCHY_4);
   (lit "HIERARCHY_AUTO", DVBFE_DVBT_HIERARCHY_AUTO);
   (lit "HIERARCHY_NONE", DVBFE_DVBT_HIERARCHY_NONE)].

Definition dvbcfg_atsc_modulation_list : list dvbcfg_setting :=
  [(lit "8VSB", DVBFE_ATSC_MOD_VSB_8);
   (lit "16VSB", DVBFE_ATSC_MOD_VSB_16);
   (lit "QAM_64", DVBFE_ATSC_MOD_QAM_64);
   (lit "QAM_256", DVBFE_ATSC_MOD_QAM_256)].
(** The name is the string in the array; the polarization and the switch are [None] when nothing has been
    stored in them. *)
Record dvbcfg_zapchannel := DvbcfgZapchannel {
  zc_name : list Z;
  zc_video_pid : Z;
  zc_audio_pid : Z;
  zc_service_id : Z;
  zc_fe_type : Z;
  zc_fe_params : dvbfe_parameters;
  zc_polarization : option Z;
  zc_diseqc_switch : option Z;
}.

(** The settings of a frontend: the parameters, the polarization and the switch. *)
Definition zap_settings (fe_type frequency : Z) : Fields (dvbfe_parameters * option Z * option Z) :=
  if fe_type =? DVBFE_TYPE_ATSC then
    modulation ← setting_field colon dvbcfg_atsc_modulation_list;
    mret (DvbfeParameters frequency DVBFE_INVERSION_AUTO (Atsc modulation), None, None)
  else if fe_type =? DVBFE_TYPE_DVBC then
    inversion ← setting_field colon dvbcfg_inversion_list;
    symbol_rate ← int_field colon;
    fec_inner ← setting_field colon dvbcfg_fec_list;
    modulation ← setting_field colon dvbcfg_dvbc_modulation_list;
    mret (DvbfeParameters frequency inversion (Dvbc (u32 symbol_rate) fec_inner modulation), None, None)
  else if fe_type =? DVBFE_TYPE_DVBS then
    let frequency := u32 (frequency * 1000) in
    c ← char_field colon;
    let polarization := tolower c in
    if negb (is_polarization polarization) then skip_line
    else
      diseqc_switch ← int_field colon;
      symbol_rate ← int_field colon;
      if (symbol_rate * 1000 <? - 2147483648) || (2147483647 <? symbol_rate * 1000) then undefined
      else
        mret (DvbfeParameters frequency DVBFE_INVERSION_AUTO (Dvbs (u32 (symbol_rate * 1000)) DVBFE_FEC_AUTO),
              Some polarization, Some diseqc_switch)
  else
    inversion ← setting_field colon dvbcfg_inversion_list;
    bandwidth ← setting_field colon dvbcfg_bandwidth_list;
    code_rate_HP ← setting_field colon dvbcfg_fec_list;
    code_rate_LP ← setting_field colon dvbcfg_fec_list;
    constellation ← setting_field colon dvbcfg_constellation_list;
    transmission_mode ← setting_field colon dvbcfg_transmission_mode_list;
    guard_interval ← setting_field colon dvbcfg_guard_interval_list;
    hierarchy_information ← setting_field colon dvbcfg_hierarchy_list;
    mret (DvbfeParameters frequency inversion (Dvbt bandwidth code_rate_HP code_rate_LP constellation
            transmission_mode guard_interval hierarchy_information), None, None).

(** "try to determine frontend type" *)
Definition zap_type (line : list Z) : Z :=
  if strstr line (lit ":FEC_") then
    if strstr line (lit ":HIERARCHY_") then DVBFE_TYPE_DVBT else DVBFE_TYPE_DVBC
  else
    if strstr line (lit "VSB:") || strstr line (lit "QAM_") then DVBFE_TYPE_ATSC else DVBFE_TYPE_DVBS.

(** "old files don't have a service id" *)
Definition service_field : Fields Z := λ text,
  match dvbcfg_parse_int text colon with
  | Ok (v, Some text) => Ok (Some (v, text))
  | Ok (_, None) => Ok (Some (0, text))
  | Err f => Err f
  end.

(** One line. *)
Definition zap_line : Fields dvbcfg_zapchannel := λ text,
  r ← dvbcfg_parse_string text colon 128;
  match r with
  | (Some name, Some text) =>
      (frequency ← int_field colon;
       fe_type ← (λ text, Ok (Some (zap_type (c_string text), text)));
       '(fe_params, polarization, diseqc_switch) ← zap_settings fe_type (u32 frequency);
       video_pid ← int_field colon;
       audio_pid ← int_field colon;
       service_id ← service_field;
       mret (DvbcfgZapchannel name video_pid audio_pid service_id fe_type fe_params polarization diseqc_switch)
       : Fields _) text
  | _ => Ok None
  end.

Definition dvbcfg_zapchannel_parse {A} (callback : A -> dvbcfg_zapchannel -> A * Z) : list Z -> A -> res (A * Z) :=
  parse_file zap_line callback.

(** ** Saving *)

(** [%s] of a setting: a NULL is not a string. *)
Definition print_setting (setting : Z) (settings : list dvbcfg_setting) : res (list Z) :=
  match dvbcfg_lookup_setting setting settings with Some name => mret name | None => Err Undefined end.

(** Reading a member of the structure that nothing was stored in, or another member of the union. *)
Definition stored {A} (x : option A) : res A := match x with Some a => Ok a | None => Err Uninitialised end.

Definition save_settings (c : dvbcfg_zapchannel) : res (list Z) :=
  let '(DvbfeParameters frequency inversion u) := zc_fe_params c in
  if zc_fe_type c =? DVBFE_TYPE_ATSC then
    match u with
    | Atsc modulation =>
        m ← print_setting modulation dvbcfg_atsc_modulation_list;
        mret (print_unsigned frequency ++ colon ++ m ++ colon)
    | _ => Err Uninitialised
    end
  else if zc_fe_type c =? DVBFE_TYPE_DVBC then
    match u with
    | Dvbc symbol_rate fec_inner modulation =>
        i ← print_setting inversion dvbcfg_inversion_list;
        f ← print_setting fec_inner dvbcfg_fec_list;
        m ← print_setting modulation dvbcfg_dvbc_modulation_list;
        mret (print_unsigned frequency ++ colon ++ i ++ colon ++ print_unsigned symbol_rate ++ colon ++ f
              ++ colon ++ m ++ colon)
    | _ => Err Uninitialised
    end
  else if zc_fe_type c =? DVBFE_TYPE_DVBS then
    match u with
    | Dvbs symbol_rate _ =>
        polarization ← stored (zc_polarization c);
        diseqc_switch ← stored (zc_diseqc_switch c);
        mret (print_unsigned (frequency / 1000) ++ colon ++ [u8 (tolower polarization)] ++ colon
              ++ print_i diseqc_switch ++ colon ++ print_unsigned (symbol_rate / 1000) ++ colon)
    | _ => Err Uninitialised
    end
  else if zc_fe_type c =? DVBFE_TYPE_DVBT then
    match u with
    | Dvbt bandwidth code_rate_HP code_rate_LP constellation transmission_mode guard_interval
        hierarchy_information =>
        i ← print_setting inversion dvbcfg_inversion_list;
        b ← print_setting bandwidth dvbcfg_bandwidth_list;
        hp ← print_setting code_rate_HP dvbcfg_fec_list;
        lp ← print_setting code_rate_LP dvbcfg_fec_list;
        cn ← print_setting constellation dvbcfg_constellation_list;
        t ← print_setting transmission_mode dvbcfg_transmission_mode_list;
        g ← print_setting guard_interval dvbcfg_guard_interval_list;
        h ← print_setting hierarchy_information dvbcfg_hierarchy_list;
        mret (print_unsigned frequency ++ colon ++ i ++ colon ++ b ++ colon ++ hp ++ colon ++ lp ++ colon
              ++ cn ++ colon ++ t ++ colon ++ g ++ colon ++ h ++ colon)
    | _ => Err Uninitialised
    end
  else mret [].

Definition save_channel (c : dvbcfg_zapchannel) : res (list Z) :=
  s ← save_settings c;
  mret (zc_name c ++ colon ++ s ++ print_i (zc_video_pid c) ++ colon ++ print_i (zc_audio_pid c) ++ colon
        ++ print_i (zc_service_id c) ++ [10]).

(** The callback gives the channels, and then the result [ret_val], which is not 0.  Writing to the file
    succeeds. *)
Fixpoint dvbcfg_zapchannel_save (channels : list dvbcfg_zapchannel) (ret_val : Z) : res (list Z * Z) :=
  match channels with
  | [] => mret ([], if ret_val <? 0 then 0 else ret_val)
  | c :: channels =>
      line ← save_channel c;
      '(rest, r) ← dvbcfg_zapchannel_save channels ret_val;
      mret (line ++ rest, r)
  end.


(** ** Channels *)

(** Channels that a line can hold: the fields that a line has no place for have the values that reading
    gives them, and a satellite's frequency and symbol rate are whole thousands. *)
Definition valid_settings (c : dvbcfg_zapchannel) : Prop :=
  let '(DvbfeParameters frequency inversion u) := zc_fe_params c in
  match u with
  | Atsc modulation =>
      zc_fe_type c = DVBFE_TYPE_ATSC /\ 0 <= frequency < 2 ^ 32 /\ inversion = DVBFE_INVERSION_AUTO /\
      listed dvbcfg_atsc_modulation_list modulation /\ zc_polarization c = None /\ zc_diseqc_switch c = None
  | Dvbc symbol_rate fec_inner modulation =>
      zc_fe_type c = DVBFE_TYPE_DVBC /\ 0 <= frequency < 2 ^ 32 /\ listed dvbcfg_inversion_list inversion /\
      0 <= symbol_rate < 2 ^ 32 /\ listed dvbcfg_fec_list fec_inner /\
      listed dvbcfg_dvbc_modulation_list modulation /\ zc_polarization c = None /\ zc_diseqc_switch c = None
  | Dvbs symbol_rate fec_inner =>
      zc_fe_type c = DVBFE_TYPE_DVBS /\ inversion = DVBFE_INVERSION_AUTO /\ fec_inner = DVBFE_FEC_AUTO /\
      (exists f, frequency = f * 1000 /\ 0 <= f <= 4294967) /\
      (exists s, symbol_rate = s * 1000 /\ 0 <= s <= 2147483) /\
      (exists p, zc_polarization c = Some p /\ is_polarization p = true) /\
      (exists d, zc_diseqc_switch c = Some d /\ is_int d)
  | Dvbt bandwidth code_rate_HP code_rate_LP constellation transmission_mode guard_interval hierarchy =>
      zc_fe_type c = DVBFE_TYPE_DVBT /\ 0 <= frequency < 2 ^ 32 /\ listed dvbcfg_inversion_list inversion /\
      listed dvbcfg_bandwidth_list bandwidth /\ listed dvbcfg_fec_list code_rate_HP /\
      listed dvbcfg_fec_list code_rate_LP /\ listed dvbcfg_constellation_list constellation /\
      listed dvbcfg_transmission_mode_list transmission_mode /\
      listed dvbcfg_guard_interval_list guard_interval /\ listed dvbcfg_hierarchy_list hierarchy /\
      zc_polarization c = None /\ zc_diseqc_switch c = None
  end.

Definition valid_channel (c : dvbcfg_zapchannel) : Prop :=
  Forall (λ x, line_char x /\ x <> 58) (zc_name c) /\ (length (zc_name c) < 128)%nat /\
  is_int (zc_video_pid c) /\ is_int (zc_audio_pid c) /\ is_int (zc_service_id c) /\ valid_settings c.

(** What the settings of a channel are as text, and how they are read: the frequency [f], the text [s], and
    the type that is found when numbers follow. *)
Definition settings_text (c : dvbcfg_zapchannel) (f : Z) (s : list Z) : Prop :=
  save_settings c = Ok (print_i f ++ 58 :: s) /\ is_int f /\
  Forall (λ x, line_char x) s /\
  (forall t, Forall tail_char t -> zap_type (s ++ t) = zc_fe_type c) /\
  (forall rest, zap_settings (zc_fe_type c) (u32 f) (s ++ rest) =
     Ok (Some ((zc_fe_params c, zc_polarization c, zc_diseqc_switch c), rest))).

Lemma service_field_run v rest : is_int v -> service_field (print_i v ++ 0 :: rest) = Ok (Some (v, 0 :: rest)).
Proof.
  intros Hv. unfold service_field, dvbcfg_parse_int. rewrite next_token_end by (apply number_field; [by left|done]).
  cbn [mbind res_bind]. by rewrite scan_number.
Qed.

Lemma setting_run settings v : good_settings settings = true -> listed settings v -> exists name,
  print_setting v settings = Ok name /\ In (name, v) settings /\ Forall name_char name /\
  forall rest, setting_field colon settings (name ++ 58 :: rest) = Ok (Some (v, rest)).
Proof.
  intros Hg Hl. destruct (setting_name settings v Hg Hl) as (name & E & Hin & Hname & Hf). exists name.
  unfold print_setting. rewrite E. split; [done|]. split; [done|]. split; [done|]. intros rest.
  apply setting_field_sep; [by left|done|done].
Qed.

Lemma atsc_text c f i m : zc_fe_params c = DvbfeParameters f i (Atsc m) -> valid_settings c ->
  exists s, settings_text c (s32 f) s.
Proof.
  intros Ep Hv. unfold valid_settings in Hv. rewrite Ep in Hv. destruct Hv as (Ht & Hf & Hi & Hm & Hp & Hd).
  destruct (setting_run _ m (eq_refl : good_settings dvbcfg_atsc_modulation_list = true) Hm) as (n & Em & Hin & Hn & Hrun).
  destruct (print_unsigned_ok f Hf) as (Ef & Hfi & Eu).
  exists (n ++ [58]). unfold settings_text. rewrite Ht, Ep, Hp, Hd. split_and!.
  - unfold save_settings. rewrite Ep, Ht. change (DVBFE_TYPE_ATSC =? DVBFE_TYPE_ATSC) with true. cbv iota.
    rewrite Em. cbn [mbind res_bind]. by rewrite Ef.
  - done.
  - pieces ltac:(by unfold line_char). by apply name_line.
  - intros t Htl. unfold zap_type. rewrite (strstr_absent 70); [|by repeat constructor|by right; left|].
    2: { rewrite <- app_assoc. apply Forall_app; split; [|apply Forall_cons; [done|]].
         - cbn in Hin. by destruct Hin as [[= <- _] | [[= <- _] | [[= <- _] | [[= <- _] | []]]]]; repeat constructor.
         - eapply Forall_impl; [|exact Htl]. intros x Hx. unfold tail_char in Hx. lia. }
    assert (E : strstr ((n ++ [58]) ++ t) (lit "VSB:") || strstr ((n ++ [58]) ++ t) (lit "QAM_") = true).
    { rewrite <- app_assoc. apply orb_true_iff. cbn in Hin. destruct Hin as [[= <- _] | [[= <- _] | [[= <- _] | [[= <- _] | []]]]].
      - left. apply (strstr_app [56]), (strstr_here (lit "VSB:")). by repeat constructor.
      - left. apply (strstr_app [49; 54]), (strstr_here (lit "VSB:")). by repeat constructor.
      - right. apply (strstr_here (lit "QAM_")). by repeat constructor.
      - right. apply (strstr_here (lit "QAM_")). by repeat constructor. }
    by rewrite E.
  - intros rest. unfold zap_settings. change (DVBFE_TYPE_ATSC =? DVBFE_TYPE_ATSC) with true. cbv iota.
    rewrite <- app_assoc. cbn [app]. rewrite (fields_run _ _ _ _ _ (Hrun rest)), Eu, Hi. done.
Qed.

(** No name of a list has a character. *)
Lemma names_lack d settings n v : In (n, v) settings ->
  forallb (λ s : dvbcfg_setting, forallb (λ x, negb (x =? d)) s.1) settings = true -> Forall (λ x, x <> d) n.
Proof.
  intros Hin H. rewrite forallb_forall in H. specialize (H _ Hin). cbn in H. rewrite forallb_forall in H.
  apply Forall_forall. intros x Hx. specialize (H x Hx). lia.
Qed.

(** Every name of a list begins with a word. *)
Lemma names_begin w settings n v : In (n, v) settings ->
  forallb (λ s : dvbcfg_setting, bool_decide (take (length w) s.1 = w)) settings = true -> exists r, n = w ++ r.
Proof.
  intros Hin H. rewrite forallb_forall in H. specialize (H _ Hin). apply bool_decide_eq_true in H. cbn in H.
  exists (drop (length w) n). by rewrite <- H at 1; rewrite take_drop.
Qed.

Lemma tail_lacks d t : (d < 45 \/ 58 < d) -> Forall tail_char t -> Forall (λ x, x <> d) t.
Proof. intros Hd H. eapply Forall_impl; [|exact H]. intros x Hx. unfold tail_char in Hx. lia. Qed.

Lemma dvbc_text c f i sr fec m : zc_fe_params c = DvbfeParameters f i (Dvbc sr fec m) -> valid_settings c ->
  exists s, settings_text c (s32 f) s.
Proof.
  intros Ep Hv. unfold valid_settings in Hv. rewrite Ep in Hv. destruct Hv as (Ht & Hf & Hi & Hsr & Hfec & Hm & Hp & Hd).
  destruct (setting_run _ i (eq_refl : good_settings dvbcfg_inversion_list = true) Hi) as (ni & Ei & Ii & Ni & Ri).
  destruct (setting_run _ fec (eq_refl : good_settings dvbcfg_fec_list = true) Hfec) as (nf & Efec & If & Nf & Rf).
  destruct (setting_run _ m (eq_refl : good_settings dvbcfg_dvbc_modulation_list = true) Hm) as (nm & Em & Im & Nm & Rm).
  destruct (print_unsigned_ok f Hf) as (Ef & Hfi & Eu). destruct (print_unsigned_ok sr Hsr) as (Es & Hsi & Eus).
  exists (ni ++ 58 :: print_i (s32 sr) ++ 58 :: nf ++ 58 :: nm ++ [58]). unfold settings_text.
  rewrite Ht, Ep, Hp, Hd. split_and!.
  - unfold save_settings. rewrite Ep, Ht. change (DVBFE_TYPE_DVBC =? DVBFE_TYPE_ATSC) with false.
    change (DVBFE_TYPE_DVBC =? DVBFE_TYPE_DVBC) with true. cbv iota.
    rewrite Ei. cbn [mbind res_bind]. rewrite Efec. cbn [mbind res_bind]. rewrite Em. cbn [mbind res_bind].
    by rewrite Ef, Es.
  - done.
  - pieces ltac:(by unfold line_char); first [by apply name_line | by apply tail_line, number_tail].
  - intros t Htl. unfold zap_type. rewrite (strstr_absent 72 (lit ":HIERARCHY_")); [|by repeat constructor|by right; left|].
    2: { repeat first [apply Forall_app; split | apply Forall_cons; [done|] | apply Forall_nil]; auto.
         all: first [by eapply names_lack | apply tail_lacks; [by right|by apply number_tail] | by apply tail_lacks; [right|]]. }
    destruct (names_begin (lit "FEC_") _ _ _ If) as [r ->]; [done|].
    assert (E : strstr ((ni ++ 58 :: print_i (s32 sr) ++ 58 :: (lit "FEC_" ++ r) ++ 58 :: nm ++ [58]) ++ t) (lit ":FEC_") = true).
    { rewrite <- app_assoc. apply strstr_app. cbn [app]. rewrite <- app_assoc. apply (strstr_app [58]), strstr_app.
      apply (strstr_here (lit ":FEC_")). by repeat constructor. }
    by rewrite E.
  - intros rest. unfold zap_settings. change (DVBFE_TYPE_DVBC =? DVBFE_TYPE_ATSC) with false.
    change (DVBFE_TYPE_DVBC =? DVBFE_TYPE_DVBC) with true. cbv iota.
    repeat (rewrite <- !app_assoc; cbn [app]).
    rewrite (fields_run _ _ _ _ _ (Ri _)), (fields_run _ _ _ _ _ (int_field_run _ _ Hsi)),
      (fields_run _ _ _ _ _ (Rf _)), (fields_run _ _ _ _ _ (Rm _)), Eu, Eus. done.
Qed.

Lemma char_field_run c rest : 0 <= c < 128 -> field_char 58 c -> char_field colon (c :: 58 :: rest) = Ok (Some (c, rest)).
Proof.
  intros Hc Hf. unfold char_field, dvbcfg_parse_char.
  change (c :: 58 :: rest) with ([c] ++ 58 :: rest). rewrite next_token_sep; [|done|by repeat constructor; apply Hf].
  cbn [mbind res_bind]. unfold schar. by rewrite (proj2 (Z.ltb_lt c 128)) by lia.
Qed.

Lemma dvbs_text c f i sr fec : zc_fe_params c = DvbfeParameters f i (Dvbs sr fec) -> valid_settings c ->
  exists s, settings_text c (f / 1000) s.
Proof.
  intros Ep Hv. unfold valid_settings in Hv. rewrite Ep in Hv.
  destruct Hv as (Ht & Hi & Hfec & (f' & Hf & Hf') & (s' & Hs & Hs') & (p & Hp & Hpol) & (d & Hd & Hdi)).
  destruct (polarization_char p Hpol) as (Hlow & Hu8 & Hsc & Hfc & Hlc & H70 & H86 & H81).
  assert (Eq : f / 1000 = f') by (rewrite Hf; apply Z.div_mul; lia).
  assert (Esq : sr / 1000 = s') by (rewrite Hs; apply Z.div_mul; lia).
  assert (Hfi : is_int f') by (unfold is_int; lia). assert (Hsi : is_int s') by (unfold is_int; lia).
  assert (Es32 : forall v, 0 <= v < 2 ^ 31 -> s32 v = v).
  { intros v H. unfold s32. rewrite Z.mod_small by lia. lia. }
  assert (Hp128 : 0 <= p < 128) by (unfold is_polarization in Hpol; lia).
  rewrite Eq. exists (p :: 58 :: print_i d ++ 58 :: print_i s' ++ [58]). unfold settings_text.
  rewrite Ht, Ep, Hp, Hd. split_and!.
  - unfold save_settings. rewrite Ep, Ht, Hp, Hd. change (DVBFE_TYPE_DVBS =? DVBFE_TYPE_ATSC) with false.
    change (DVBFE_TYPE_DVBS =? DVBFE_TYPE_DVBC) with false. change (DVBFE_TYPE_DVBS =? DVBFE_TYPE_DVBS) with true.
    cbv iota. cbn [stored mbind res_bind]. unfold print_unsigned. rewrite Eq, Esq, Hlow, Hu8, !Es32 by lia. done.
  - done.
  - apply Forall_cons; [done|].
    pieces ltac:(by unfold line_char); by apply tail_line, number_tail.
  - intros t Htl. unfold zap_type.
    assert (Hab : forall x, (x = 70 \/ x = 86 \/ x = 81) ->
      Forall (λ y, y <> x) ((p :: 58 :: print_i d ++ 58 :: print_i s' ++ [58]) ++ t)).
    { intros x Hx. repeat first [apply Forall_app; split | apply Forall_cons; [lia|] | apply Forall_nil]; auto.
      all: apply tail_lacks; [lia|]; auto using number_tail. }
    rewrite (strstr_absent 70 (lit ":FEC_")); [|by repeat constructor|by right; left|apply Hab; by left].
    rewrite (strstr_absent 86 (lit "VSB:")); [|by repeat constructor|by left|apply Hab; by right; left].
    rewrite (strstr_absent 81 (lit "QAM_")); [done|by repeat constructor|by left|apply Hab; by right; right].
  - intros rest. unfold zap_settings. change (DVBFE_TYPE_DVBS =? DVBFE_TYPE_ATSC) with false.
    change (DVBFE_TYPE_DVBS =? DVBFE_TYPE_DVBC) with false. change (DVBFE_TYPE_DVBS =? DVBFE_TYPE_DVBS) with true.
    cbv iota zeta. cbn [app]; repeat (rewrite <- !app_assoc; cbn [app]).
    rewrite (fields_run _ _ _ _ _ (char_field_run p _ Hp128 Hfc)), Hlow, Hpol. cbn [negb].
    rewrite (fields_run _ _ _ _ _ (int_field_run _ _ Hdi)), (fields_run _ _ _ _ _ (int_field_run _ _ Hsi)).
    rewrite (proj2 (Z.ltb_ge (s' * 1000) (- 2147483648))), (proj2 (Z.ltb_ge 2147483647 (s' * 1000))) by lia.
    cbn [orb]. rewrite Hi, Hfec, Hf, Hs. rewrite !u32_id by (unfold u32; rewrite ?Z.mod_small; lia).
    done.
Qed.

Lemma dvbt_text c f i b hp lp cn tm g h : zc_fe_params c = DvbfeParameters f i (Dvbt b hp lp cn tm g h) ->
  valid_settings c -> exists s, settings_text c (s32 f) s.
Proof.
  intros Ep Hv. unfold valid_settings in Hv. rewrite Ep in Hv.
  destruct Hv as (Ht & Hf & Hi & Hb & Hhp & Hlp & Hcn & Htm & Hg & Hh & Hp & Hd).
  destruct (setting_run _ i (eq_refl : good_settings dvbcfg_inversion_list = true) Hi) as (ni & Ei & Ii & Ni & Ri).
  destruct (setting_run _ b (eq_refl : good_settings dvbcfg_bandwidth_list = true) Hb) as (nb & Eb & Ib & Nb & Rb).
  destruct (setting_run _ hp (eq_refl : good_settings dvbcfg_fec_list = true) Hhp) as (nhp & Ehp & Ihp & Nhp & Rhp).
  destruct (setting_run _ lp (eq_refl : good_settings dvbcfg_fec_list = true) Hlp) as (nlp & Elp & Ilp & Nlp & Rlp).
  destruct (setting_run _ cn (eq_refl : good_settings dvbcfg_constellation_list = true) Hcn) as (nc & Ec & Ic & Nc & Rc).
  destruct (setting_run _ tm (eq_refl : good_settings dvbcfg_transmission_mode_list = true) Htm) as (nt & Et & It & Nt & Rt).
  destruct (setting_run _ g (eq_refl : good_settings dvbcfg_guard_interval_list = true) Hg) as (ng & Eg & Ig & Ng & Rg).
  destruct (setting_run _ h (eq_refl : good_settings dvbcfg_hierarchy_list = true) Hh) as (nh & Eh & Ih & Nh & Rh).
  destruct (print_unsigned_ok f Hf) as (Ef & Hfi & Eu).
  exists (ni ++ 58 :: nb ++ 58 :: nhp ++ 58 :: nlp ++ 58 :: nc ++ 58 :: nt ++ 58 :: ng ++ 58 :: nh ++ [58]).
  unfold settings_text. rewrite Ht, Ep, Hp, Hd. split_and!.
  - unfold save_settings. rewrite Ep, Ht. change (DVBFE_TYPE_DVBT =? DVBFE_TYPE_ATSC) with false.
    change (DVBFE_TYPE_DVBT =? DVBFE_TYPE_DVBC) with false. change (DVBFE_TYPE_DVBT =? DVBFE_TYPE_DVBS) with false.
    change (DVBFE_TYPE_DVBT =? DVBFE_TYPE_DVBT) with true. cbv iota.
    rewrite Ei, Eb, Ehp, Elp, Ec, Et, Eg, Eh. cbn [mbind res_bind]. by rewrite Ef.
  - done.
  - pieces ltac:(by unfold line_char); by apply name_line.
  - intros t Htl. unfold zap_type.
    destruct (names_begin (lit "FEC_") _ _ _ Ihp) as [r1 ->]; [done|].
    destruct (names_begin (lit "HIERARCHY_") _ _ _ Ih) as [r2 ->]; [done|].
    set (line := _ ++ t).
    assert (E1 : strstr line (lit ":FEC_") = true).
    { subst line. rewrite <- app_assoc. apply strstr_app. cbn [app]. rewrite <- app_assoc.
      apply (strstr_app [58]), strstr_app, (strstr_here (lit ":FEC_")). by repeat constructor. }
    assert (E2 : strstr line (lit ":HIERARCHY_") = true).
    { subst line. rewrite <- app_assoc. apply strstr_app. cbn [app].
      do 6 (rewrite <- app_assoc; apply (strstr_app [58]), strstr_app; cbn [app]).
      apply (strstr_here (lit ":HIERARCHY_")). by repeat constructor. }
    by rewrite E1, E2.
  - intros rest. unfold zap_settings. change (DVBFE_TYPE_DVBT =? DVBFE_TYPE_ATSC) with false.
    change (DVBFE_TYPE_DVBT =? DVBFE_TYPE_DVBC) with false. change (DVBFE_TYPE_DVBT =? DVBFE_TYPE_DVBS) with false.
    cbv iota. repeat (rewrite <- !app_assoc; cbn [app]).
    rewrite (fields_run _ _ _ _ _ (Ri _)), (fields_run _ _ _ _ _ (Rb _)), (fields_run _ _ _ _ _ (Rhp _)),
      (fields_run _ _ _ _ _ (Rlp _)), (fields_run _ _ _ _ _ (Rc _)), (fields_run _ _ _ _ _ (Rt _)),
      (fields_run _ _ _ _ _ (Rg _)), (fields_run _ _ _ _ _ (Rh _)), Eu. done.
Qed.

Lemma settings_ok c : valid_settings c -> exists f s, settings_text c f s.
Proof.
  intros Hv. destruct (zc_fe_params c) as [f i u] eqn:Ep. destruct u.
  - destruct (dvbs_text c _ _ _ _ Ep Hv) as [s H]. by exists (f / 1000), s.
  - destruct (dvbc_text c _ _ _ _ _ Ep Hv) as [s H]. by exists (s32 f), s.
  - destruct (dvbt_text c _ _ _ _ _ _ _ _ _ Ep Hv) as [s H]. by exists (s32 f), s.
  - destruct (atsc_text c _ _ _ Ep Hv) as [s H]. by exists (s32 f), s.
Qed.

(** ** Files *)

(** A channel is a line, and the line is read as the channel. *)
Lemma channel_line c : valid_channel c -> exists line,
  save_channel c = Ok (line ++ [10]) /\ line <> [] /\ Forall line_char line /\
  exists rest, zap_line (line_memory (line ++ [10])) = Ok (Some (c, rest)).
Proof.
  intros (Hname & Hlen & Hv & Ha & Hs & Hset). destruct (settings_ok c Hset) as (f & s & Es & Hf & Hsl & Htype & Hrun).
  set (t := print_i (zc_video_pid c) ++ 58 :: print_i (zc_audio_pid c) ++ 58 :: print_i (zc_service_id c)).
  exists (zc_name c ++ 58 :: print_i f ++ 58 :: s ++ t).
  assert (Htl : Forall tail_char t) by (pieces ltac:(by unfold tail_char); by apply number_tail).
  assert (Hl : Forall line_char (zc_name c ++ 58 :: print_i f ++ 58 :: s ++ t)).
  { pieces ltac:(by unfold line_char); try (by apply tail_line, number_tail).
    eapply Forall_impl; [|exact Hname]. by intros x []. }
  split_and!; [|by destruct (zc_name c)|done|].
  - unfold save_channel. rewrite Es. cbn [mbind res_bind]. unfold t. f_equal.
    repeat (rewrite <- !app_assoc; cbn [app]). done.
  - rewrite line_memory_ok by done. exists [0; 0]. unfold zap_line, dvbcfg_parse_string.
    rewrite <- app_assoc. cbn [app]. rewrite string_token_colon.
    2: { eapply Forall_impl; [|exact Hname]. by intros x [(? & ?) ?]. }
    cbn [mbind res_bind]. rewrite (proj2 (Z.leb_le _ _)) by lia. cbn [mret res_ret mbind res_bind].
    repeat (rewrite <- !app_assoc; cbn [app]).
    rewrite (fields_run _ _ _ _ _ (int_field_run f _ Hf)).
    erewrite fields_run.
    2: { f_equal. }
    assert (Et : zap_type (c_string (s ++ t ++ [0; 0])) = zc_fe_type c).
    { rewrite app_assoc. rewrite c_string_ok; [by apply Htype|].
      apply Forall_app. split; [|apply tail_line in Htl]; (eapply Forall_impl; [|eassumption]); by intros x [? _]. }
    rewrite Et, (fields_run _ _ _ _ _ (Hrun _)). cbv iota. unfold t. repeat (rewrite <- !app_assoc; cbn [app]).
    rewrite (fields_run _ _ _ _ _ (int_field_run _ _ Hv)), (fields_run _ _ _ _ _ (int_field_run _ _ Ha)),
      (fields_run _ _ _ _ _ (service_field_run _ _ Hs)). by destruct c.
Qed.


(** The file that is saved, and what is read of it. *)
Lemma saved_lines cs r : Forall valid_channel cs ->
  exists file, dvbcfg_zapchannel_save cs r = Ok (file, if r <? 0 then 0 else r) /\
    forall A (callback : A -> dvbcfg_zapchannel -> A * Z) fuel a, (length file < fuel)%nat ->
      parse_lines zap_line callback fuel file a = Ok (hand_over callback cs a).
Proof.
  induction 1 as [|c cs Hc H (file & Es & Ep)].
  - exists []. split; [done|]. intros A callback [|fuel] a Hf; [cbn in Hf; lia|done].
  - destruct (channel_line c Hc) as (line & El & _ & Hl & t & Hp). exists (line ++ [10] ++ file). split.
    + cbn [dvbcfg_zapchannel_save]. rewrite El. cbn [mbind res_bind]. rewrite Es. cbn [mbind res_bind].
      by rewrite <- app_assoc.
    + intros A callback fuel a Hf. rewrite !length_app in Hf. cbn [length] in Hf.
      destruct fuel as [|fuel]; [lia|]. rewrite (parse_one _ _ _ _ _ c t) by done. cbn [hand_over].
      destruct (callback a c) as [a' r']. destruct (r' =? 0); [|done]. apply Ep. lia.
Qed.

(** C21: a file of channels that is saved is read back: for every list of channels that lines can hold (names
    without colons, satellite frequencies in whole thousands, enumerators of the lists), saving gives a file,
    and parsing it hands over the same channels, in order, until the callback stops. *)
Theorem zapchannels_roundtrip cs r :
  Forall valid_channel cs ->
  exists file, dvbcfg_zapchannel_save cs r = Ok (file, if r <? 0 then 0 else r) /\
    forall A (callback : A -> dvbcfg_zapchannel -> A * Z) a,
      dvbcfg_zapchannel_parse callback file a = Ok (hand_over callback cs a).
Proof.
  intros H. destruct (saved_lines cs r H) as (file & Es & Ep). exists file. split; [done|]. intros A callback a. apply Ep. lia.
Qed.

Definition two_channels : list dvbcfg_zapchannel :=
  [DvbcfgZapchannel (lit "Das Erste") 101 102 28106 DVBFE_TYPE_DVBS
     (DvbfeParameters 11836000 DVBFE_INVERSION_AUTO (Dvbs 27500000 DVBFE_FEC_AUTO)) (Some 104) (Some 0);
   DvbcfgZapchannel (lit "ZDF") 545 546 514 DVBFE_TYPE_DVBT
     (DvbfeParameters 570000000 DVBFE_INVERSION_AUTO (Dvbt DVBFE_DVBT_BANDWIDTH_8_MHZ DVBFE_FEC_2_3 DVBFE_FEC_NONE
       DVBFE_DVBT_CONST_QAM_16 DVBFE_DVBT_TRANSMISSION_MODE_8K DVBFE_DVBT_GUARD_INTERVAL_1_4
       DVBFE_DVBT_HIERARCHY_NONE)) None None].

Lemma zapchannels_roundtrip_witness :
  exists file, dvbcfg_zapchannel_save two_channels (-1) = Ok (file, 0) /\
    forall A (callback : A -> dvbcfg_zapchannel -> A * Z) a,
      dvbcfg_zapchannel_parse callback file a = Ok (hand_over callback two_channels a).
Proof.
  apply (zapchannels_roundtrip two_channels (-1)).
  repeat apply List.Forall_cons; [| |apply List.Forall_nil].
  - split; [by repeat constructor|]. split; [cbn; lia|]. split; [by split|]. split; [by split|]. split; [by split|].
    unfold valid_settings. cbn [two_channels zc_fe_params zc_fe_type zc_polarization zc_diseqc_switch].
    split_and!; [done|done|done| | | |].
    + by exists 11836.
    + by exists 27500.
    + by exists 104.
    + by exists 0.
  - split; [by repeat constructor|]. split; [cbn; lia|]. split; [by split|]. split; [by split|]. split; [by split|].
    unfold valid_settings. cbn [two_channels zc_fe_params zc_fe_type zc_polarization zc_diseqc_switch].
    by split_and!.
Defined.

(** ** Lines without a colon *)

(** A comment is read as a channel without a name: the pointer is moved behind the NUL that replaced the
    hash. *)
Lemma comment_read :
  exists c t, zap_line (line_memory (lit "#11836:h:0:27500:101:102:28106" ++ [10])) = Ok (Some (c, t)) /\
    zc_name c = [] /\ zc_video_pid c = 101 /\ fp_frequency (zc_fe_params c) = 11836000.
Proof. eexists _, _. split; [vm_compute; reflexivity|done]. Qed.

(** Of a last line without a colon and without a newline, memory behind the line is read. *)
Lemma last_line_overruns : zap_line (line_memory (lit "ARD")) = Err OutOfBounds.
Proof. done. Qed.
