(* ===== verification/DvbCfgScanfile.v ===== *)
(** * dvbcfg_scanfile.c: files of transponders

    A transponder is a line of fields between spaces. *)

From S2P Require Export DvbCfg.

Definition dvbcfg_fec_list : list dvbcfg_setting :=
  [(lit "1/2", DVBFE_FEC_1_2);
   (lit "2/3", DVBFE_FEC_2_3);
   (lit "3/4", DVBFE_FEC_3_4);
   (lit "4/5", DVBFE_FEC_4_5);
   (lit "5/6", DVBFE_FEC_5_6);
   (lit "6/7", DVBFE_FEC_6_7);
   (lit "7/8", DVBFE_FEC_7_8);
   (lit "8/9", DVBFE_FEC_8_9);
   (lit "AUTO", DVBFE_FEC_AUTO);
   (lit "NONE", DVBFE_FEC_NONE)].

Definition dvbcfg_dvbc_modulation_list : list dvbcfg_setting :=
  [(lit "QAM16", DVBFE_DVBC_MOD_QAM_16);
   (lit "QAM32", DVBFE_DVBC_MOD_QAM_32);
   (lit "QAM64", DVBFE_DVBC_MOD_QAM_64);
   (lit "QAM128", DVBFE_DVBC_MOD_QAM_128);
   (lit "QAM256", DVBFE_DVBC_MOD_QAM_256);
   (lit "AUTO", DVBFE_DVBC_MOD_AUTO)].

Definition dvbcfg_bandwidth_list : list dvbcfg_setting :=
  [(lit "6MHz", DVBFE_DVBT_BANDWIDTH_6_MHZ);
   (lit "7MHz", DVBFE_DVBT_BANDWIDTH_7_MHZ);
   (lit "8MHz", DVBFE_DVBT_BANDWIDTH_8_MHZ);
   (lit "AUTO", DVBFE_DVBT_BANDWIDTH_AUTO)].

Definition dvbcfg_constellation_list : list dvbcfg_setting :=
  [(lit "QAM16", DVBFE_DVBT_CONST_QAM_16);
   (lit "QAM32", DVBFE_DVBT_CONST_QAM_32);
   (lit "QAM64", DVBFE_DVBT_CONST_QAM_64);
   (lit "QAM128", DVBFE_DVBT_CONST_QAM_128);
   (lit "QAM256", DVBFE_DVBT_CONST_QAM_256);
   (lit "QPSK", DVBFE_DVBT_CONST_QPSK);
   (lit "AUTO", DVBFE_DVBT_CONST_AUTO)].

Definition dvbcfg_transmission_mode_list : list dvbcfg_setting :=
  [(lit "2k", DVBFE_DVBT_TRANSMISSION_MODE_2K);
   (lit "8k", DVBFE_DVBT_TRANSMISSION_MODE_8K);
   (lit "AUTO", DVBFE_DVBT_TRANSMISSION_MODE_AUTO)].

Definition dvbcfg_guard_interval_list : list dvbcfg_setting :=
  [(lit "1/32", DVBFE_DVBT_GUARD_INTERVAL_1_32);
   (lit "1/16", DVBFE_DVBT_GUARD_INTERVAL_1_16);
   (lit "1/8", DVBFE_DVBT_GUARD_INTERVAL_1_8);
   (lit "1/4", DVBFE_DVBT_GUARD_INTERVAL_1_4);
   (lit "AUTO", DVBFE_DVBT_GUARD_INTERVAL_AUTO)].

Definition dvbcfg_hierarchy_list : list dvbcfg_setting :=
  [(lit "1", DVBFE_DVBT_HIERARCHY_1);
   (lit "2", DVBFE_DVBT_HIERARCHY_2);
   (lit "4", DVBFE_DVBT_HIERARCHY_4);
   (lit "AUTO", DVBFE_DVBT_HIERARCHY_AUTO);
   (lit "NONE", DVBFE_DVBT_HIERARCHY_NONE)].

Definition dvbcfg_atsc_modulation_list : list dvbcfg_setting :=
  [(lit "8VSB", DVBFE_ATSC_MOD_VSB_8);
   (lit "16VSB", DVBFE_ATSC_MOD_VSB_16);
   (lit "QAM64", DVBFE_ATSC_MOD_QAM_64);
   (lit "QAM256", DVBFE_ATSC_MOD_QAM_256)].
Record dvbcfg_scanfile := DvbcfgScanfile {
  sf_fe_type : Z;
  sf_fe_params : dvbfe_parameters;
  sf_polarization : option Z;
}.

(** The type of the frontend. *)
Definition scan_type (c : Z) : option Z :=
  if c =? 84 then Some DVBFE_TYPE_DVBT
  else if c =? 67 then Some DVBFE_TYPE_DVBC
  else if c =? 83 then Some DVBFE_TYPE_DVBS
  else if c =? 65 then Some DVBFE_TYPE_ATSC
  else None.

Definition scan_settings (fe_type : Z) : Fields (dvbfe_parameters * option Z) :=
  frequency ← int_field space;
  let params := DvbfeParameters (u32 frequency) DVBFE_INVERSION_AUTO in
  if fe_type =? DVBFE_TYPE_ATSC then
    modulation ← setting_field space dvbcfg_atsc_modulation_list;
    mret (params (Atsc modulation), None)
  else if fe_type =? DVBFE_TYPE_DVBC then
    symbol_rate ← int_field space;
    fec_inner ← setting_field space dvbcfg_fec_list;
    modulation ← setting_field space dvbcfg_dvbc_modulation_list;
    mret (params (Dvbc (u32 symbol_rate) fec_inner modulation), None)
  else if fe_type =? DVBFE_TYPE_DVBS then
    c ← char_field space;
    let polarization := tolower c in
    if negb (is_polarization polarization) then skip_line
    else
      symbol_rate ← int_field space;
      fec_inner ← setting_field space dvbcfg_fec_list;
      mret (params (Dvbs (u32 symbol_rate) fec_inner), Some polarization)
  else
    bandwidth ← setting_field space dvbcfg_bandwidth_list;
    code_rate_HP ← setting_field space dvbcfg_fec_list;
    code_rate_LP ← setting_field space dvbcfg_fec_list;
    constellation ← setting_field space dvbcfg_constellation_list;
    transmission_mode ← setting_field space dvbcfg_transmission_mode_list;
    guard_interval ← setting_field space dvbcfg_guard_interval_list;
    hierarchy_information ← setting_field space dvbcfg_hierarchy_list;
    mret (params (Dvbt bandwidth code_rate_HP code_rate_LP constellation transmission_mode guard_interval
            hierarchy_information), None).

(** One line.  The member [u.dvbc.fec_inner] that is stored for a satellite is at the place of
    [u.dvbs.fec_inner]. *)
Definition scan_line : Fields dvbcfg_scanfile :=
  c ← char_field space;
  match scan_type c with
  | None => skip_line
  | Some fe_type =>
      '(fe_params, polarization) ← scan_settings fe_type;
      mret (DvbcfgScanfile fe_type fe_params polarization)
  end.

Definition dvbcfg_scanfile_parse {A} (callback : A -> dvbcfg_scanfile -> A * Z) : list Z -> A -> res (A * Z) :=
  parse_file scan_line callback.

(** ** Transponders *)

Definition setting_text (settings : list dvbcfg_setting) (v : Z) : list Z :=
  match dvbcfg_lookup_setting v settings with Some name => name | None => [] end.

(** The fields of a line for a transponder; the first is A, C, S or T.  The letter of a polarization is written large
    or small. *)
Definition scan_fields (large : bool) (e : dvbcfg_scanfile) : list (list Z) :=
  let '(DvbfeParameters f _ u) := sf_fe_params e in
  match u with
  | Atsc m => [[65]; print_unsigned f; setting_text dvbcfg_atsc_modulation_list m]
  | Dvbc sr fec m =>
      [[67]; print_unsigned f; print_unsigned sr; setting_text dvbcfg_fec_list fec;
       setting_text dvbcfg_dvbc_modulation_list m]
  | Dvbs sr fec =>
      [[83]; print_unsigned f; match sf_polarization e with Some p => [if large then p - 32 else p] | None => [] end; print_unsigned sr;
       setting_text dvbcfg_fec_list fec]
  | Dvbt b hp lp cn tm g h =>
      [[84]; print_unsigned f; setting_text dvbcfg_bandwidth_list b; setting_text dvbcfg_fec_list hp;
       setting_text dvbcfg_fec_list lp; setting_text dvbcfg_constellation_list cn;
       setting_text dvbcfg_transmission_mode_list tm; setting_text dvbcfg_guard_interval_list g;
       setting_text dvbcfg_hierarchy_list h]
  end.

Fixpoint join_fields (fields : list (list Z)) : list Z :=
  match fields with
  | [] => []
  | [f] => f
  | f :: fields => f ++ 32 :: join_fields fields
  end.

Definition is_u32 (v : Z) : Prop := 0 <= v < 2 ^ 32.

Definition valid_transponder (e : dvbcfg_scanfile) : Prop :=
  let '(DvbfeParameters f i u) := sf_fe_params e in
  is_u32 f /\ i = DVBFE_INVERSION_AUTO /\
  match u with
  | Atsc m => sf_fe_type e = DVBFE_TYPE_ATSC /\ listed dvbcfg_atsc_modulation_list m /\ sf_polarization e = None
  | Dvbc sr fec m =>
      sf_fe_type e = DVBFE_TYPE_DVBC /\ is_u32 sr /\ listed dvbcfg_fec_list fec /\
      listed dvbcfg_dvbc_modulation_list m /\ sf_polarization e = None
  | Dvbs sr fec =>
      sf_fe_type e = DVBFE_TYPE_DVBS /\ is_u32 sr /\ listed dvbcfg_fec_list fec /\
      exists p, sf_polarization e = Some p /\ is_polarization p = true
  | Dvbt b hp lp cn tm g h =>
      sf_fe_type e = DVBFE_TYPE_DVBT /\ listed dvbcfg_bandwidth_list b /\ listed dvbcfg_fec_list hp /\
      listed dvbcfg_fec_list lp /\ listed dvbcfg_constellation_list cn /\
      listed dvbcfg_transmission_mode_list tm /\ listed dvbcfg_guard_interval_list g /\
      listed dvbcfg_hierarchy_list h /\ sf_polarization e = None
  end.

(** What can stand behind the last field: a comment, or a space and anything. *)
Definition trailing (t : list Z) : Prop :=
  match t with [] => True | c :: t => (c = 32 \/ c = 35) /\ Forall (λ x, x <> 10) t end.

(** The lines of a file: those of transponders, and those that begin with no letter of a type (empty lines and
    comments too). *)
Inductive scan_text : list Z -> option dvbcfg_scanfile -> Prop :=
  | text_ignored line : Forall (λ x, x <> 10) line -> (forall c, head line = Some c -> scan_type (schar c) = None) ->
      scan_text line None
  | text_transponder e large t : valid_transponder e -> trailing t ->
      scan_text (join_fields (scan_fields large e) ++ t) (Some e).

(** The text of a setting: its characters, and how it is read between others and at the end of the line. *)
Lemma setting_text_run settings v : good_settings settings = true -> listed settings v ->
  Forall name_char (setting_text settings v) /\
  (forall rest, setting_field space settings (setting_text settings v ++ 32 :: rest) = Ok (Some (v, rest))) /\
  (forall z rest, z = 32 \/ z = 0 ->
     setting_field space settings (setting_text settings v ++ z :: rest) = Ok (Some (v, if z =? 32 then rest else z :: rest))).
Proof.
  intros Hg Hl. destruct (setting_name settings v Hg Hl) as (name & E & _ & Hname & Hf).
  unfold setting_text. rewrite E. split; [done|].
  assert (Hsep : forall rest, setting_field space settings (name ++ 32 :: rest) = Ok (Some (v, rest))).
  { intros rest. apply setting_field_sep; [by right|done|done]. }
  split; [done|]. intros z rest [-> | ->].
  - apply Hsep.
  - unfold setting_field, dvbcfg_parse_setting. rewrite next_token_end.
    + cbn [mbind res_bind]. by rewrite Hf.
    + eapply Forall_impl; [|exact Hname]. intros c Hch. unfold name_char, field_char in *. lia.
Qed.

Lemma unsigned_run v rest : is_u32 v -> exists z,
  int_field space (print_unsigned v ++ 32 :: rest) = Ok (Some (z, rest)) /\ u32 z = v.
Proof.
  intros Hv. destruct (print_unsigned_ok v Hv) as (E & Hi & Hu). exists (s32 v). rewrite E.
  split; [apply int_field_sep; [by right|done]|done].
Qed.

Lemma letter_run c rest : 33 <= c < 128 -> char_field space (c :: 32 :: rest) = Ok (Some (c, rest)).
Proof.
  intros Hc. unfold char_field, dvbcfg_parse_char. change (c :: 32 :: rest) with ([c] ++ 32 :: rest).
  rewrite next_token_sep; [|done|repeat constructor; lia].
  cbn [mbind res_bind]. unfold schar. by rewrite (proj2 (Z.ltb_lt c 128)) by lia.
Qed.

Lemma unsigned_line v : is_u32 v -> Forall line_char (print_unsigned v).
Proof. intros Hv. destruct (print_unsigned_ok v Hv) as (-> & Hi & _). by apply tail_line, number_tail. Qed.

(** The letter of a polarization, large or small. *)
Lemma polarization_letter (large : bool) p : is_polarization p = true ->
  let q := if large then p - 32 else p in tolower q = p /\ 33 <= q < 128 /\ line_char q.
Proof.
  intros H. assert (E : p = 104 \/ p = 118 \/ p = 108 \/ p = 114) by (unfold is_polarization in H; lia).
  unfold line_char. by destruct large, E as [-> | [-> | [-> | ->]]].
Qed.

(** Comparisons of constants. *)
Ltac compare_constants :=
  repeat match goal with
  | |- context [?a =? ?b] =>
      let r := eval vm_compute in (a =? b) in
      match r with true => idtac | false => idtac end; change (a =? b) with r
  end; cbv iota.

(** The steps through a line. *)
Ltac scan_steps :=
  repeat match goal with
  | |- context [(char_field space ≫= _) (?c :: 32 :: ?rest)] =>
      rewrite (fields_run _ _ _ _ _ (letter_run c rest ltac:(lia)))
  | H : is_u32 ?v |- context [(int_field space ≫= _) (print_unsigned ?v ++ 32 :: ?rest)] =>
      let z := fresh "z" in let E := fresh "E" in let U := fresh "U" in
      destruct (unsigned_run v rest H) as (z & E & U); rewrite (fields_run _ _ _ _ _ E)
  | H : forall rest, setting_field space ?l (setting_text ?l ?v ++ 32 :: rest) = _
      |- context [(setting_field space ?l ≫= _) (setting_text ?l ?v ++ 32 :: ?rest)] =>
      rewrite (fields_run _ _ _ _ _ (H rest))
  | H : forall z rest, _ -> setting_field space ?l (setting_text ?l ?v ++ z :: rest) = _,
    Hz : ?z = 32 \/ ?z = 0
      |- context [(setting_field space ?l ≫= _) (setting_text ?l ?v ++ ?z :: ?rest)] =>
      rewrite (fields_run _ _ _ _ _ (H z rest Hz))
  end.

(** A line of fields: its letter, and the settings behind it. *)
Lemma transponder_settings large e : valid_transponder e -> exists c s,
  join_fields (scan_fields large e) = c :: 32 :: s /\ 33 <= c < 128 /\ scan_type c = Some (sf_fe_type e) /\
  Forall line_char s /\
  forall z rest, z = 32 \/ z = 0 -> scan_settings (sf_fe_type e) (s ++ z :: rest) =
    Ok (Some ((sf_fe_params e, sf_polarization e), if z =? 32 then rest else z :: rest)).
Proof.
  intros Hv. destruct e as [ty [f i u] pol]. unfold valid_transponder in Hv.
  cbn [sf_fe_params sf_fe_type sf_polarization] in *.
  destruct Hv as (Hf & -> & Hu). unfold scan_fields. cbn [sf_fe_params sf_polarization].
  destruct u; cbn [join_fields app]; destruct_and? Hu; subst ty; try subst pol;
    repeat match goal with
      | H : listed ?l ?v |- _ => destruct (setting_text_run l v eq_refl H) as (? & ? & ?); clear H
      | H : exists p, pol = Some p /\ _ |- _ => destruct H as (p & -> & Hpol)
    end; eexists _, _; (split; [reflexivity|]); (split; [lia|]); (split; [reflexivity|]).
  - destruct (polarization_letter large p Hpol) as (Hlow & Hp & Hlc). set (q := if large then p - 32 else p) in *.
    split; [pieces ltac:(by unfold line_char); first [by apply name_line | by apply unsigned_line | by repeat constructor]|].
    intros z rest Hz.
    cbn [app]. repeat (rewrite <- !app_assoc; cbn [app]). unfold scan_settings. scan_steps.
    compare_constants. scan_steps. cbv zeta. rewrite Hlow, Hpol. cbn [negb]. scan_steps. by rewrite U, U0.
  - split; [pieces ltac:(by unfold line_char); first [by apply name_line | by apply unsigned_line]|]. intros z rest Hz.
    repeat (rewrite <- !app_assoc; cbn [app]). unfold scan_settings. scan_steps. compare_constants. scan_steps.
    by rewrite U, U0.
  - split; [pieces ltac:(by unfold line_char); first [by apply name_line | by apply unsigned_line]|]. intros z rest Hz.
    repeat (rewrite <- !app_assoc; cbn [app]). unfold scan_settings. scan_steps. compare_constants. scan_steps.
    by rewrite U.
  - split; [pieces ltac:(by unfold line_char); first [by apply name_line | by apply unsigned_line]|]. intros z rest Hz.
    repeat (rewrite <- !app_assoc; cbn [app]). unfold scan_settings. scan_steps. compare_constants. scan_steps.
    by rewrite U.
Qed.

(** What is left of a line in memory, with something behind the last field. *)
Lemma trailing_memory s t : Forall line_char s -> trailing t -> exists z rest,
  (z = 32 \/ z = 0) /\ line_memory ((s ++ t) ++ [10]) = s ++ z :: rest.
Proof.
  intros Hs Ht. unfold line_memory. rewrite <- app_assoc.
  assert (E : forall y, end_line (s ++ y) = s ++ end_line y).
  { intros y. induction Hs as [|c s (H0 & H10 & H35) Hs IH]; [done|]. cbn [app end_line].
    rewrite (proj2 (Z.eqb_neq c 0)), (proj2 (Z.eqb_neq c 10)), (proj2 (Z.eqb_neq c 35)) by done. cbn [orb]. by rewrite IH. }
  rewrite E, <- app_assoc. destruct t as [|c t]; [by eexists 0, _; split; [right|]|].
  destruct Ht as [[-> | ->] _]; [by eexists 32, _; split; [left|]|by eexists 0, _; split; [right|]].
Qed.

(** A token of a string begins like the string. *)
Lemma next_token_first m : 0 ∈ m -> exists f stop, next_token space m = Ok (f, stop) /\
  forall c, head f = Some c -> c <> 0 /\ head m = Some c.
Proof.
  induction m as [|c m IH]; intros H; [by apply elem_of_nil in H|]. cbn [next_token].
  destruct (Z.eqb_spec c 0) as [->|Hc]; [by eexists _, _|].
  destruct (existsb _ _); [by eexists _, _|]. apply elem_of_cons in H as [<-|H]; [done|].
  destruct (IH H) as (f & stop & -> & _). cbn [mbind res_bind]. eexists _, _. split; [done|]. intros x [= <-]. by split.
Qed.

(** How a line is read. *)
Lemma scan_text_line line e : scan_text line e -> Forall (λ c, c <> 10) line /\
  exists t, scan_line (line_memory (line ++ [10])) = Ok ((λ e, (e, t)) <$> e).
Proof.
  destruct 1 as [line Hl Hh|e large t He Ht].
  - split; [done|]. exists []. cbn [fmap option_fmap option_map]. unfold scan_line, mbind, fields_bind, char_field, dvbcfg_parse_char.
    destruct (next_token_first (line_memory (line ++ [10]))) as (f & stop & -> & Hf).
    { unfold line_memory. apply elem_of_app. right. by constructor. }
    cbn [mbind res_bind]. destruct f as [|c f]; [done|]. destruct (Hf c eq_refl) as [H0 Hc]. cbn [checked mret res_ret].
    rewrite (Hh c); [done|]. unfold line_memory in Hc. destruct line as [|d line]; [by injection Hc as <-|].
    cbn [app end_line] in Hc. destruct (_ || _); [by injection Hc as <-|exact Hc].
  - destruct (transponder_settings large e He) as (c & s & E & Hc & Hty & Hs & Hrun). rewrite E.
    assert (Hl : Forall line_char (c :: 32 :: s)).
    { apply Forall_cons; [|by apply Forall_cons]. assert (Hx : c = 65 \/ c = 67 \/ c = 83 \/ c = 84).
      { unfold scan_type in Hty. destruct (Z.eqb_spec c 84), (Z.eqb_spec c 67), (Z.eqb_spec c 83), (Z.eqb_spec c 65); try lia. done. }
      unfold line_char. lia. }
    split.
    { apply Forall_app. split; [eapply Forall_impl; [|exact Hl]; by intros x (_ & ? & _)|].
      destruct t as [|x t]; [constructor|]. destruct Ht as [Hx Ht]. constructor; [lia|done]. }
    destruct (trailing_memory _ t Hl Ht) as (z & rest & Hz & ->). eexists. unfold scan_line. cbn [app].
    rewrite (fields_run _ _ _ _ _ (letter_run c _ Hc)), Hty, (fields_run _ _ _ _ _ (Hrun z rest Hz)). by destruct e.
Qed.

(** The text of a list of lines, and the transponders in it, in order. *)
Definition file_of (lines : list (list Z * option dvbcfg_scanfile)) : list Z := lines ≫= λ l, l.1 ++ [10].
Definition transponders (lines : list (list Z * option dvbcfg_scanfile)) : list dvbcfg_scanfile := omap snd lines.

(** C22: a file of which every line is a transponder in the format below, or begins with no letter of a type (like empty
    lines and comments), is understood: the transponders are handed over as their lines describe them, in
    order, until the callback stops, and the other lines are skipped.  The format: the letter of the type, the
    frequency and the settings of the type, with a single space before each of them; the letter of the
    polarization is large or small; behind the last setting there may be a comment, or a space and anything. *)
Theorem transponders_read lines A (callback : A -> dvbcfg_scanfile -> A * Z) a :
  Forall (λ l, scan_text l.1 l.2) lines ->
  dvbcfg_scanfile_parse callback (file_of lines) a = Ok (hand_over callback (transponders lines) a).
Proof.
  intros H. unfold dvbcfg_scanfile_parse, parse_file.
  assert (G : forall fuel a, (length (file_of lines) < fuel)%nat ->
    parse_lines scan_line callback fuel (file_of lines) a = Ok (hand_over callback (transponders lines) a));
    [|apply G; lia].
  clear a. induction H as [|[line e] lines He H IH]; intros fuel a Hf; [by destruct fuel; [cbn in Hf; lia|]|].
  destruct (scan_text_line line e He) as (Hl & t & Hp).
  change (file_of ((line, e) :: lines)) with ((line ++ [10]) ++ file_of lines) in *.
  rewrite <- app_assoc in *. rewrite !length_app in Hf. cbn [length] in Hf.
  destruct fuel as [|fuel]; [lia|]. cbn [parse_lines app]. rewrite getline_line, Hp by done. cbn [mbind res_bind].
  destruct (line ++ [10]) eqn:El; [by destruct line|]. destruct e as [e|]; cbn [fmap option_fmap option_map].
  - change (transponders ((line, Some e) :: lines)) with (e :: transponders lines). cbn [hand_over].
    destruct (callback a e) as [a' r']. destruct (r' =? 0); [|done]. apply IH. lia.
  - apply IH. lia.
Qed.

Definition astra : dvbcfg_scanfile :=
  DvbcfgScanfile DVBFE_TYPE_DVBS (DvbfeParameters 12551500 DVBFE_INVERSION_AUTO (Dvbs 22000000 DVBFE_FEC_5_6)) (Some 118).
Definition channel_2 : dvbcfg_scanfile :=
  DvbcfgScanfile DVBFE_TYPE_ATSC (DvbfeParameters 57028615 DVBFE_INVERSION_AUTO (Atsc DVBFE_ATSC_MOD_VSB_8)) None.

(** A comment, a satellite with a large letter and a comment behind it, an empty line, a channel of ATSC. *)
Definition some_lines : list (list Z * option dvbcfg_scanfile) :=
  [(lit "# Astra 19.2E", None);
   (lit "S 12551500 V 22000000 5/6 # VPID", Some astra);
   ([], None);
   (lit "A 57028615 8VSB", Some channel_2)].

Lemma transponders_read_witness :
  let callback (seen : list dvbcfg_scanfile) e := (seen ++ [e], 0) in
  dvbcfg_scanfile_parse callback (file_of some_lines) [] =
  Ok (hand_over callback (transponders some_lines) []) /\ transponders some_lines = [astra; channel_2].
Proof.
  intros callback. split; [|reflexivity].
  apply (transponders_read some_lines (list dvbcfg_scanfile) callback []).
  repeat apply List.Forall_cons; [| | | |apply List.Forall_nil]; cbn [fst snd].
  - constructor; [by repeat constructor|]. by intros c [= <-].
  - change (lit "S 12551500 V 22000000 5/6 # VPID") with (join_fields (scan_fields true astra) ++ lit " # VPID").
    constructor; [|split; [by left|by repeat constructor]].
    unfold valid_transponder. cbn. split_and!; try done. by exists 118.
  - constructor; [constructor|]. by intros c [=].
  - change (lit "A 57028615 8VSB") with (join_fields (scan_fields false channel_2) ++ []).
    constructor; [|exact I]. unfold valid_transponder. cbn. by split_and!.
Defined.
