(* ===== verification/Hamming.v ===== *)
(** * hamm.c: the error correcting codes of teletext

    Bytes with four data bits ([hamm8]), and words of three bytes with eighteen ([hamm24]), decoded with
    tables.  Both codes are specified here by the positions and the tests of ETS 300 706, and the tables are
    proved to correct every single wrong bit and to detect every two.  Errors are counted in an [int]: single
    ones in the bits from 8 on, double ones from bit 12 on. *)

From S2P Require Export CMem.
From Stdlib Require Import Btauto.

(** ** Tables *)

Definition hammtab : list Z :=
  [ 0x0101; 0x100f; 0x0001; 0x0101; 0x100f; 0x0100; 0x0101; 0x100f;
    0x100f; 0x0102; 0x0101; 0x100f; 0x010a; 0x100f; 0x100f; 0x0107;
    0x100f; 0x0100; 0x0101; 0x100f; 0x0100; 0x0000; 0x100f; 0x0100;
    0x0106; 0x100f; 0x100f; 0x010b; 0x100f; 0x0100; 0x0103; 0x100f;
    0x100f; 0x010c; 0x0101; 0x100f; 0x0104; 0x100f; 0x100f; 0x0107;
    0x0106; 0x100f; 0x100f; 0x0107; 0x100f; 0x0107; 0x0107; 0x0007;
    0x0106; 0x100f; 0x100f; 0x0105; 0x100f; 0x0100; 0x010d; 0x100f;
    0x0006; 0x0106; 0x0106; 0x100f; 0x0106; 0x100f; 0x100f; 0x0107;
    0x100f; 0x0102; 0x0101; 0x100f; 0x0104; 0x100f; 0x100f; 0x0109;
    0x0102; 0x0002; 0x100f; 0x0102; 0x100f; 0x0102; 0x0103; 0x100f;
    0x0108; 0x100f; 0x100f; 0x0105; 0x100f; 0x0100; 0x0103; 0x100f;
    0x100f; 0x0102; 0x0103; 0x100f; 0x0103; 0x100f; 0x0003; 0x0103;
    0x0104; 0x100f; 0x100f; 0x0105; 0x0004; 0x0104; 0x0104; 0x100f;
    0x100f; 0x0102; 0x010f; 0x100f; 0x0104; 0x100f; 0x100f; 0x0107;
    0x100f; 0x0105; 0x0105; 0x0005; 0x0104; 0x100f; 0x100f; 0x0105;
    0x0106; 0x100f; 0x100f; 0x0105; 0x100f; 0x010e; 0x0103; 0x100f;
    0x100f; 0x010c; 0x0101; 0x100f; 0x010a; 0x100f; 0x100f; 0x0109;
    0x010a; 0x100f; 0x100f; 0x010b; 0x000a; 0x010a; 0x010a; 0x100f;
    0x0108; 0x100f; 0x100f; 0x010b; 0x100f; 0x0100; 0x010d; 0x100f;
    0x100f; 0x010b; 0x010b; 0x000b; 0x010a; 0x100f; 0x100f; 0x010b;
    0x010c; 0x000c; 0x100f; 0x010c; 0x100f; 0x010c; 0x010d; 0x100f;
    0x100f; 0x010c; 0x010f; 0x100f; 0x010a; 0x100f; 0x100f; 0x0107;
    0x100f; 0x010c; 0x010d; 0x100f; 0x010d; 0x100f; 0x000d; 0x010d;
    0x0106; 0x100f; 0x100f; 0x010b; 0x100f; 0x010e; 0x010d; 0x100f;
    0x0108; 0x100f; 0x100f; 0x0109; 0x100f; 0x0109; 0x0109; 0x0009;
    0x100f; 0x0102; 0x010f; 0x100f; 0x010a; 0x100f; 0x100f; 0x0109;
    0x0008; 0x0108; 0x0108; 0x100f; 0x0108; 0x100f; 0x100f; 0x0109;
    0x0108; 0x100f; 0x100f; 0x010b; 0x100f; 0x010e; 0x0103; 0x100f;
    0x100f; 0x010c; 0x010f; 0x100f; 0x0104; 0x100f; 0x100f; 0x0109;
    0x010f; 0x100f; 0x000f; 0x010f; 0x100f; 0x010e; 0x010f; 0x100f;
    0x0108; 0x100f; 0x100f; 0x0105; 0x100f; 0x010e; 0x010d; 0x100f;
    0x100f; 0x010e; 0x010f; 0x100f; 0x010e; 0x000e; 0x100f; 0x010e ].

(** [hamm24par[0]], [hamm24par[1]] and [hamm24par[2]] *)
Definition hamm24par0 : list Z :=
  [  0; 33; 34;  3; 35;  2;  1; 32; 36;  5;  6; 39;  7; 38; 37;  4;
    37;  4;  7; 38;  6; 39; 36;  5;  1; 32; 35;  2; 34;  3;  0; 33;
    38;  7;  4; 37;  5; 36; 39;  6;  2; 35; 32;  1; 33;  0;  3; 34;
     3; 34; 33;  0; 32;  1;  2; 35; 39;  6;  5; 36;  4; 37; 38;  7;
    39;  6;  5; 36;  4; 37; 38;  7;  3; 34; 33;  0; 32;  1;  2; 35;
     2; 35; 32;  1; 33;  0;  3; 34; 38;  7;  4; 37;  5; 36; 39;  6;
     1; 32; 35;  2; 34;  3;  0; 33; 37;  4;  7; 38;  6; 39; 36;  5;
    36;  5;  6; 39;  7; 38; 37;  4;  0; 33; 34;  3; 35;  2;  1; 32;
    40;  9; 10; 43; 11; 42; 41;  8; 12; 45; 46; 15; 47; 14; 13; 44;
    13; 44; 47; 14; 46; 15; 12; 45; 41;  8; 11; 42; 10; 43; 40;  9;
    14; 47; 44; 13; 45; 12; 15; 46; 42; 11;  8; 41;  9; 40; 43; 10;
    43; 10;  9; 40;  8; 41; 42; 11; 15; 46; 45; 12; 44; 13; 14; 47;
    15; 46; 45; 12; 44; 13; 14; 47; 43; 10;  9; 40;  8; 41; 42; 11;
    42; 11;  8; 41;  9; 40; 43; 10; 14; 47; 44; 13; 45; 12; 15; 46;
    41;  8; 11; 42; 10; 43; 40;  9; 13; 44; 47; 14; 46; 15; 12; 45;
    12; 45; 46; 15; 47; 14; 13; 44; 40;  9; 10; 43; 11; 42; 41;  8 ].

Definition hamm24par1 : list Z :=
  [  0; 41; 42;  3; 43;  2;  1; 40; 44;  5;  6; 47;  7; 46; 45;  4;
    45;  4;  7; 46;  6; 47; 44;  5;  1; 40; 43;  2; 42;  3;  0; 41;
    46;  7;  4; 45;  5; 44; 47;  6;  2; 43; 40;  1; 41;  0;  3; 42;
     3; 42; 41;  0; 40;  1;  2; 43; 47;  6;  5; 44;  4; 45; 46;  7;
    47;  6;  5; 44;  4; 45; 46;  7;  3; 42; 41;  0; 40;  1;  2; 43;
     2; 43; 40;  1; 41;  0;  3; 42; 46;  7;  4; 45;  5; 44; 47;  6;
     1; 40; 43;  2; 42;  3;  0; 41; 45;  4;  7; 46;  6; 47; 44;  5;
    44;  5;  6; 47;  7; 46; 45;  4;  0; 41; 42;  3; 43;  2;  1; 40;
    48; 25; 26; 51; 27; 50; 49; 24; 28; 53; 54; 31; 55; 30; 29; 52;
    29; 52; 55; 30; 54; 31; 28; 53; 49; 24; 27; 50; 26; 51; 48; 25;
    30; 55; 52; 29; 53; 28; 31; 54; 50; 27; 24; 49; 25; 48; 51; 26;
    51; 26; 25; 48; 24; 49; 50; 27; 31; 54; 53; 28; 52; 29; 30; 55;
    31; 54; 53; 28; 52; 29; 30; 55; 51; 26; 25; 48; 24; 49; 50; 27;
    50; 27; 24; 49; 25; 48; 51; 26; 30; 55; 52; 29; 53; 28; 31; 54;
    49; 24; 27; 50; 26; 51; 48; 25; 29; 52; 55; 30; 54; 31; 28; 53;
    28; 53; 54; 31; 55; 30; 29; 52; 48; 25; 26; 51; 27; 50; 49; 24 ].

Definition hamm24par2 : list Z :=
  [ 63; 14; 13; 60; 12; 61; 62; 15; 11; 58; 57;  8; 56;  9; 10; 59;
    10; 59; 56;  9; 57;  8; 11; 58; 62; 15; 12; 61; 13; 60; 63; 14;
     9; 56; 59; 10; 58; 11;  8; 57; 61; 12; 15; 62; 14; 63; 60; 13;
    60; 13; 14; 63; 15; 62; 61; 12;  8; 57; 58; 11; 59; 10;  9; 56;
     8; 57; 58; 11; 59; 10;  9; 56; 60; 13; 14; 63; 15; 62; 61; 12;
    61; 12; 15; 62; 14; 63; 60; 13;  9; 56; 59; 10; 58; 11;  8; 57;
    62; 15; 12; 61; 13; 60; 63; 14; 10; 59; 56;  9; 57;  8; 11; 58;
    11; 58; 57;  8; 56;  9; 10; 59; 63; 14; 13; 60; 12; 61; 62; 15;
    31; 46; 45; 28; 44; 29; 30; 47; 43; 26; 25; 40; 24; 41; 42; 27;
    42; 27; 24; 41; 25; 40; 43; 26; 30; 47; 44; 29; 45; 28; 31; 46;
    41; 24; 27; 42; 26; 43; 40; 25; 29; 44; 47; 30; 46; 31; 28; 45;
    28; 45; 46; 31; 47; 30; 29; 44; 40; 25; 26; 43; 27; 42; 41; 24;
    40; 25; 26; 43; 27; 42; 41; 24; 28; 45; 46; 31; 47; 30; 29; 44;
    29; 44; 47; 30; 46; 31; 28; 45; 41; 24; 27; 42; 26; 43; 40; 25;
    30; 47; 44; 29; 45; 28; 31; 46; 42; 27; 24; 41; 25; 40; 43; 26;
    43; 26; 25; 40; 24; 41; 42; 27; 31; 46; 45; 28; 44; 29; 30; 47 ].

Definition hamm24val : list Z :=
  [  0;  0;  0;  0;  1;  1;  1;  1;  0;  0;  0;  0;  1;  1;  1;  1;
     2;  2;  2;  2;  3;  3;  3;  3;  2;  2;  2;  2;  3;  3;  3;  3;
     4;  4;  4;  4;  5;  5;  5;  5;  4;  4;  4;  4;  5;  5;  5;  5;
     6;  6;  6;  6;  7;  7;  7;  7;  6;  6;  6;  6;  7;  7;  7;  7;
     8;  8;  8;  8;  9;  9;  9;  9;  8;  8;  8;  8;  9;  9;  9;  9;
    10; 10; 10; 10; 11; 11; 11; 11; 10; 10; 10; 10; 11; 11; 11; 11;
    12; 12; 12; 12; 13; 13; 13; 13; 12; 12; 12; 12; 13; 13; 13; 13;
    14; 14; 14; 14; 15; 15; 15; 15; 14; 14; 14; 14; 15; 15; 15; 15;
     0;  0;  0;  0;  1;  1;  1;  1;  0;  0;  0;  0;  1;  1;  1;  1;
     2;  2;  2;  2;  3;  3;  3;  3;  2;  2;  2;  2;  3;  3;  3;  3;
     4;  4;  4;  4;  5;  5;  5;  5;  4;  4;  4;  4;  5;  5;  5;  5;
     6;  6;  6;  6;  7;  7;  7;  7;  6;  6;  6;  6;  7;  7;  7;  7;
     8;  8;  8;  8;  9;  9;  9;  9;  8;  8;  8;  8;  9;  9;  9;  9;
    10; 10; 10; 10; 11; 11; 11; 11; 10; 10; 10; 10; 11; 11; 11; 11;
    12; 12; 12; 12; 13; 13; 13; 13; 12; 12; 12; 12; 13; 13; 13; 13;
    14; 14; 14; 14; 15; 15; 15; 15; 14; 14; 14; 14; 15; 15; 15; 15 ].

Definition hamm24err : list Z :=
  [ 0x0000; 0x1000; 0x1000; 0x1000; 0x1000; 0x1000; 0x1000; 0x1000;
    0x1000; 0x1000; 0x1000; 0x1000; 0x1000; 0x1000; 0x1000; 0x1000;
    0x1000; 0x1000; 0x1000; 0x1000; 0x1000; 0x1000; 0x1000; 0x1000;
    0x1000; 0x1000; 0x1000; 0x1000; 0x1000; 0x1000; 0x1000; 0x1000;
    0x0100; 0x0100; 0x0100; 0x0100; 0x0100; 0x0100; 0x0100; 0x0100;
    0x0100; 0x0100; 0x0100; 0x0100; 0x0100; 0x0100; 0x0100; 0x0100;
    0x0100; 0x0100; 0x0100; 0x0100; 0x0100; 0x0100; 0x0100; 0x0100;
    0x1000; 0x1000; 0x1000; 0x1000; 0x1000; 0x1000; 0x1000; 0x1000 ].

Definition hamm24cor : list Z :=
  [ 0x00000; 0x00000; 0x00000; 0x00000; 0x00000; 0x00000; 0x00000; 0x00000;
    0x00000; 0x00000; 0x00000; 0x00000; 0x00000; 0x00000; 0x00000; 0x00000;
    0x00000; 0x00000; 0x00000; 0x00000; 0x00000; 0x00000; 0x00000; 0x00000;
    0x00000; 0x00000; 0x00000; 0x00000; 0x00000; 0x00000; 0x00000; 0x00000;
    0x00000; 0x00000; 0x00000; 0x00001; 0x00000; 0x00002; 0x00004; 0x00008;
    0x00000; 0x00010; 0x00020; 0x00040; 0x00080; 0x00100; 0x00200; 0x00400;
    0x00000; 0x00800; 0x01000; 0x02000; 0x04000; 0x08000; 0x10000; 0x20000;
    0x00000; 0x00000; 0x00000; 0x00000; 0x00000; 0x00000; 0x00000; 0x00000 ].

(** ** Decoding *)

(** A table entry; a byte is always an index. *)
Definition entry (table : list Z) (i : Z) : Z := nth (Z.to_nat i) table 0.

(** The functions return the data and the new [*err]. *)
Definition hamm8 (p0 err : Z) : Z * Z :=
  let a := entry hammtab p0 in
  (Z.land a 15, err + a).

Definition hamm16 (p0 p1 err : Z) : Z * Z :=
  let a := entry hammtab p0 in
  let b := entry hammtab p1 in
  (Z.lor (Z.land a 15) (Z.land b 15 * 16), err + a + b).

Definition hamm24 (p0 p1 p2 err : Z) : Z * Z :=
  let e := Z.lxor (Z.lxor (entry hamm24par0 p0) (entry hamm24par1 p1)) (entry hamm24par2 p2) in
  let x := entry hamm24val p0 + p1 mod 128 * 16 + p2 mod 128 * 2048 in
  (Z.lxor x (entry hamm24cor e), err + entry hamm24err e).

(** [BAD_CHAR] of vt.h *)
Definition BAD_CHAR : Z := 0xb8.

(** One character of [chk_parity]: the character and whether its parity is wrong. *)
Definition check_char (c : Z) : Z * bool :=
  if negb (Z.land (entry hamm24par0 c) 32 =? 0) then (Z.land c 0x7f, false) else (BAD_CHAR, true).

(** The characters, and how many are wrong. *)
Fixpoint chk_parity (p : list Z) : list Z * Z :=
  match p with
  | [] => ([], 0)
  | c :: p =>
      let '(c, bad) := check_char c in
      let '(p, err) := chk_parity p in
      (c :: p, if bad : bool then err + 1 else err)
  end.

(** ** The codes of ETS 300 706 *)

(** The number with these bits, the lowest first. *)
Definition bits_value (bits : list bool) : Z := foldr (λ b v, Z.b2z b + 2 * v) 0 bits.

(** A bit that makes the number of ones odd. *)
Definition odd_bit (bits : list bool) : bool := negb (foldr xorb false bits).

Definition wrong_bit (i : nat) (bits : list bool) : list bool :=
  match bits !! i with Some b => <[i := negb b]> bits | None => bits end.

(** Hamming 8/4: P1 D1 P2 D2 P3 D3 P4 D4 *)
Definition encode8 (d : Z) : list bool :=
  let D i := Z.testbit d (i - 1) in
  let P1 := odd_bit [D 1; D 3; D 4] in
  let P2 := odd_bit [D 1; D 2; D 4] in
  let P3 := odd_bit [D 1; D 2; D 3] in
  let P4 := odd_bit [P1; D 1; P2; D 2; P3; D 3; D 4] in
  [P1; D 1; P2; D 2; P3; D 3; P4; D 4].

(** Hamming 24/18: P1 P2 D1 P3 D2 D3 D4 P4, D5 to D11 P5, D12 to D18 P6 *)
Definition encode24_bits (D : Z -> bool) : list bool :=
  let P1 := odd_bit [D 1; D 2; D 4; D 5; D 7; D 9; D 11; D 12; D 14; D 16; D 18] in
  let P2 := odd_bit [D 1; D 3; D 4; D 6; D 7; D 10; D 11; D 13; D 14; D 17; D 18] in
  let P3 := odd_bit [D 2; D 3; D 4; D 8; D 9; D 10; D 11; D 15; D 16; D 17; D 18] in
  let P4 := odd_bit [D 5; D 6; D 7; D 8; D 9; D 10; D 11] in
  let P5 := odd_bit [D 12; D 13; D 14; D 15; D 16; D 17; D 18] in
  let P6 := odd_bit [P1; P2; D 1; P3; D 2; D 3; D 4; P4; D 5; D 6; D 7; D 8; D 9; D 10; D 11; P5;
                     D 12; D 13; D 14; D 15; D 16; D 17; D 18] in
  [P1; P2; D 1; P3; D 2; D 3; D 4; P4; D 5; D 6; D 7; D 8; D 9; D 10; D 11; P5;
   D 12; D 13; D 14; D 15; D 16; D 17; D 18; P6].

Definition encode24 (d : Z) : list bool := encode24_bits (λ i, Z.testbit d (i - 1)).

(** The bytes that carry the bits. *)
Definition decode8 (bits : list bool) (err : Z) : Z * Z := hamm8 (bits_value bits) err.
Definition decode24 (bits : list bool) (err : Z) : Z * Z :=
  hamm24 (bits_value (take 8 bits)) (bits_value (take 8 (drop 8 bits))) (bits_value (drop 16 bits)) err.

(** ** Hamming 8/4 *)

Definition hamm8_ok (d : Z) : bool :=
  let w := encode8 d in
  bool_decide (decode8 w 0 = (d, d)) &&
  forallb (λ i, bool_decide (decode8 (wrong_bit i w) 0 = (d, 0x100 + d)) &&
    forallb (λ j, (i =? j)%nat || ((decode8 (wrong_bit j (wrong_bit i w)) 0).2 =? 0x100f)) (seq 0 8)) (seq 0 8).

Lemma hamm8_all_ok : forallb hamm8_ok (seqZ 0 16) = true.
Proof. by vm_compute. Qed.

Lemma hamm8_err p err : hamm8 p err = ((hamm8 p 0).1, err + (hamm8 p 0).2).
Proof. unfold hamm8. cbn [fst snd]. by f_equal. Qed.

(** Hamming 8/4 bytes are decoded, with a single error corrected and counted, and two errors detected.  The
    data is added to the count, in its lower bits. *)
Lemma hamm8_corrects d err : 0 <= d < 16 ->
  decode8 (encode8 d) err = (d, err + d) /\
  (forall i, (i < 8)%nat -> decode8 (wrong_bit i (encode8 d)) err = (d, err + (0x100 + d))) /\
  (forall i j, (i < 8)%nat -> (j < 8)%nat -> i <> j ->
    (decode8 (wrong_bit j (wrong_bit i (encode8 d))) err).2 = err + 0x100f).
Proof.
  intros Hd. pose proof hamm8_all_ok as H. rewrite forallb_forall in H.
  specialize (H d ltac:(apply list_elem_of_In, elem_of_seqZ; lia)). unfold hamm8_ok in H. cbv zeta in H.
  apply andb_prop in H as [H0 H]. apply bool_decide_eq_true in H0. rewrite forallb_forall in H.
  unfold decode8 in *. split; [by rewrite hamm8_err, H0|]. split.
  - intros i Hi. specialize (H i ltac:(apply in_seq; lia)). apply andb_prop in H as [H _].
    apply bool_decide_eq_true in H. by rewrite hamm8_err, H.
  - intros i j Hi Hj Hij. specialize (H i ltac:(apply in_seq; lia)). apply andb_prop in H as [_ H].
    rewrite forallb_forall in H. specialize (H j ltac:(apply in_seq; lia)).
    apply orb_prop in H as [H | H]; [by apply Nat.eqb_eq in H|]. apply Z.eqb_eq in H. by rewrite hamm8_err, H.
Qed.

(** ** Hamming 24/18 *)

(** The tests of the tables, as the parities of the bits of a byte. *)
Definition parity (bits : list bool) : bool := foldr xorb false bits.

Lemma par0_bits b0 b1 b2 b3 b4 b5 b6 b7 :
  entry hamm24par0 (bits_value [b0; b1; b2; b3; b4; b5; b6; b7]) =
  bits_value [parity [b0; b2; b4; b6]; parity [b1; b2; b5; b6]; parity [b3; b4; b5; b6]; b7; false;
              parity [b0; b1; b2; b3; b4; b5; b6; b7]].
Proof. by destruct b0, b1, b2, b3, b4, b5, b6, b7. Qed.

Lemma par1_bits b0 b1 b2 b3 b4 b5 b6 b7 :
  entry hamm24par1 (bits_value [b0; b1; b2; b3; b4; b5; b6; b7]) =
  bits_value [parity [b0; b2; b4; b6]; parity [b1; b2; b5; b6]; parity [b3; b4; b5; b6];
              parity [b0; b1; b2; b3; b4; b5; b6]; b7; parity [b0; b1; b2; b3; b4; b5; b6; b7]].
Proof. by destruct b0, b1, b2, b3, b4, b5, b6, b7. Qed.

Lemma par2_bits b0 b1 b2 b3 b4 b5 b6 b7 :
  entry hamm24par2 (bits_value [b0; b1; b2; b3; b4; b5; b6; b7]) =
  bits_value [odd_bit [b0; b2; b4; b6]; odd_bit [b1; b2; b5; b6]; odd_bit [b3; b4; b5; b6]; true;
              odd_bit [b0; b1; b2; b3; b4; b5; b6]; odd_bit [b0; b1; b2; b3; b4; b5; b6; b7]].
Proof. by destruct b0, b1, b2, b3, b4, b5, b6, b7. Qed.

Lemma val_bits b0 b1 b2 b3 b4 b5 b6 b7 :
  entry hamm24val (bits_value [b0; b1; b2; b3; b4; b5; b6; b7]) = bits_value [b2; b4; b5; b6].
Proof. by destruct b0, b1, b2, b3, b4, b5, b6, b7. Qed.

(** *** Numbers of bits *)

Lemma bits_value_nonneg bits : 0 <= bits_value bits.
Proof. induction bits as [|b bits IH]; cbn [bits_value foldr]; [lia|]. fold (bits_value bits). destruct b; cbn [Z.b2z]; lia. Qed.

Lemma bits_testbit bits : forall n, Z.testbit (bits_value bits) (Z.of_nat n) = nth n bits false.
Proof.
  induction bits as [|b bits IH]; intros n; [by rewrite Z.testbit_0_l; destruct n|].
  change (bits_value (b :: bits)) with (Z.b2z b + 2 * bits_value bits). rewrite Z.add_comm.
  destruct n as [|n]; [by apply Z.testbit_0_r|]. rewrite Nat2Z.inj_succ, Z.testbit_succ_r by lia. apply IH.
Qed.

Lemma bits_lxor a b : length a = length b -> Z.lxor (bits_value a) (bits_value b) = bits_value (zip_with xorb a b).
Proof.
  intros Hl. apply Z.bits_inj'. intros n Hn. rewrite <- (Z2Nat.id n) by done. rewrite Z.lxor_spec, !bits_testbit.
  revert b Hl. induction (Z.to_nat n) as [|k IH] in a |- *; intros [|y b] Hl; destruct a as [|x a]; try done.
  cbn [nth zip_with]. apply IH. by injection Hl.
Qed.

Lemma pow_zlen {A} (x : A) a : 2 ^ zlen (x :: a) = 2 * 2 ^ zlen a.
Proof. rewrite <- Z.pow_succ_r by lia. f_equal. cbn [length]. lia. Qed.

Lemma bits_app a b : bits_value (a ++ b) = bits_value a + 2 ^ zlen a * bits_value b.
Proof.
  induction a as [|x a IH]; [cbn [app]; change (bits_value []) with 0; change (2 ^ zlen (@nil bool)) with 1; ring|].
  change (bits_value ((x :: a) ++ b)) with (Z.b2z x + 2 * bits_value (a ++ b)).
  change (bits_value (x :: a)) with (Z.b2z x + 2 * bits_value a). rewrite IH, pow_zlen. ring.
Qed.

(** The bits of a number. *)
Definition bits_of (n : nat) (d : Z) : list bool := map (λ i, Z.testbit d (Z.of_nat i)) (seq 0 n).

Lemma bits_of_value n d : 0 <= d < 2 ^ Z.of_nat n -> bits_value (bits_of n d) = d.
Proof.
  intros Hd. apply Z.bits_inj'. intros i Hi. rewrite <- (Z2Nat.id i) by done. set (k := Z.to_nat i).
  rewrite bits_testbit. unfold bits_of. destruct (Nat.lt_ge_cases k n) as [Hk | Hk].
  - rewrite (nth_indep _ false (Z.testbit d (Z.of_nat 0))) by (by rewrite length_map, length_seq).
    by rewrite (map_nth (λ i, Z.testbit d (Z.of_nat i)) (seq 0 n) 0%nat k), seq_nth.
  - rewrite nth_overflow by (by rewrite length_map, length_seq). symmetry.
    destruct (Z.eq_dec d 0) as [-> | Hne]; [apply Z.testbit_0_l|].
    apply Z.bits_above_log2; [lia|]. apply Z.log2_lt_pow2; [lia|].
    apply Z.lt_le_trans with (2 ^ Z.of_nat n); [lia|]. apply Z.pow_le_mono_r; lia.
Qed.

(** *** Words with errors *)

(** The tests of the standard on 24 bits: which are wrong, for a word whose every test is odd. *)
Definition failed_tests (f : list bool) : list bool :=
  map (λ k, parity (map (λ n, Z.testbit (Z.of_nat n + 1) k && nth n f false) (seq 0 23))) [0; 1; 2; 3; 4]
  ++ [parity f].

(** The data bits of a word. *)
Definition data_bits (f : list bool) : list bool :=
  map (λ n, nth n f false) [2; 4; 5; 6; 8; 9; 10; 11; 12; 13; 14; 16; 17; 18; 19; 20; 21; 22]%nat.

Lemma low_seven b0 b1 b2 b3 b4 b5 b6 b7 :
  bits_value [b0; b1; b2; b3; b4; b5; b6; b7] mod 128 = bits_value [b0; b1; b2; b3; b4; b5; b6].
Proof. by destruct b0, b1, b2, b3, b4, b5, b6, b7. Qed.

Lemma decode24_bits D f err : length f = 24%nat ->
  let e := bits_value (failed_tests f) in
  decode24 (zip_with xorb (encode24_bits D) f) err =
  (Z.lxor (Z.lxor (bits_value (map D [1; 2; 3; 4; 5; 6; 7; 8; 9; 10; 11; 12; 13; 14; 15; 16; 17; 18]))
     (bits_value (data_bits f))) (entry hamm24cor e),
   err + entry hamm24err e).
Proof.
  intros Hf. do 24 (destruct f as [|? f]; [done|]). destruct f; [|done]. clear Hf.
  unfold encode24_bits. cbn [map].
  repeat match goal with |- context [D ?k] => generalize (D k); intro end. cbv zeta. clear D.
  unfold decode24. cbn [take drop firstn skipn zip_with]. unfold hamm24. rewrite par0_bits, par1_bits, par2_bits, val_bits.
  rewrite !bits_lxor by done.
  match goal with |- (Z.lxor ?x (entry _ (bits_value ?u)), _) = (Z.lxor ?y (entry _ (bits_value ?v)), _) =>
    assert (E : u = v) end.
  { lazy -[xorb negb]. repeat (apply (f_equal2 cons); [btauto|]). done. }
  f_equal; [|by rewrite <- E]. f_equal; [|by rewrite <- E]. clear E.
  rewrite !low_seven. unfold data_bits. cbn [map nth zip_with].
  repeat match goal with |- context [xorb ?x ?y] => generalize (xorb x y); intro end.
  cbn [bits_value foldr]. lia.
Qed.

Lemma wrong_bit_xor i w f : (i < length w)%nat -> length f = length w ->
  wrong_bit i (zip_with xorb w f) = zip_with xorb w (wrong_bit i f).
Proof.
  revert i f. unfold wrong_bit. induction w as [|b w IH]; intros i f Hi Hf; [cbn in Hi; lia|].
  destruct f as [|c f]; [done|]. injection Hf as Hf. destruct i as [|i].
  - cbn. f_equal. by destruct b, c.
  - cbn [zip_with]. change ((xorb b c :: zip_with xorb w f) !! S i) with (zip_with xorb w f !! i).
    change ((c :: f) !! S i) with (f !! i). specialize (IH i f ltac:(cbn in Hi; lia) Hf).
    destruct (f !! i) as [x|] eqn:Ex; destruct (zip_with xorb w f !! i) as [y|] eqn:Ey; simpl; f_equal; exact IH.
Qed.

(** The tables for words with up to two errors: the words added to the data cancel, and the errors are
    counted. *)
Definition hamm24_ok : bool :=
  let correction f := entry hamm24cor (bits_value (failed_tests f)) in
  let count f := entry hamm24err (bits_value (failed_tests f)) in
  let none := repeat false 24 in
  (bits_value (data_bits none) =? correction none) && (count none =? 0) &&
  forallb (λ i, let f := wrong_bit i none in
    (bits_value (data_bits f) =? correction f) && (count f =? 0x100) &&
    forallb (λ j, (i =? j)%nat || (count (wrong_bit j f) =? 0x1000)) (seq 0 24)) (seq 0 24).

Lemma hamm24_all_ok : hamm24_ok = true.
Proof. by vm_compute. Qed.

Lemma encode24_value d : 0 <= d < 2 ^ 18 ->
  bits_value (map (λ i, Z.testbit d (i - 1)) [1; 2; 3; 4; 5; 6; 7; 8; 9; 10; 11; 12; 13; 14; 15; 16; 17; 18]) = d.
Proof. intros Hd. exact (bits_of_value 18 d Hd). Qed.

(** C32: the teletext codes correct every single error and detect every double one: a word of Hamming 24/18,
    encoded with the parities of the standard, is decoded to its data when at most one of its 24 bits is
    wrong, which is counted, and when two are wrong the word is marked as lost; and so are the bytes of
    Hamming 8/4. *)
Theorem hamming_corrects err :
  (forall d, 0 <= d < 2 ^ 18 ->
    decode24 (encode24 d) err = (d, err) /\
    (forall i, (i < 24)%nat -> decode24 (wrong_bit i (encode24 d)) err = (d, err + 0x100)) /\
    (forall i j, (i < 24)%nat -> (j < 24)%nat -> i <> j ->
      (decode24 (wrong_bit j (wrong_bit i (encode24 d))) err).2 = err + 0x1000)) /\
  (forall d, 0 <= d < 16 ->
    decode8 (encode8 d) err = (d, err + d) /\
    (forall i, (i < 8)%nat -> decode8 (wrong_bit i (encode8 d)) err = (d, err + (0x100 + d))) /\
    (forall i j, (i < 8)%nat -> (j < 8)%nat -> i <> j ->
      (decode8 (wrong_bit j (wrong_bit i (encode8 d))) err).2 = err + 0x100f)).
Proof.
  split; [|intros d Hd; by apply hamm8_corrects]. intros d Hd.
  pose proof hamm24_all_ok as H. unfold hamm24_ok in H. cbv zeta in H. apply andb_prop in H as [H0 H].
  apply andb_prop in H0 as [Hv0 Hc0]. apply Z.eqb_eq in Hv0, Hc0. rewrite forallb_forall in H.
  set (none := repeat false 24) in *.
  assert (E0 : encode24 d = zip_with xorb (encode24 d) none).
  { unfold encode24, encode24_bits, none. cbn [repeat zip_with]. by rewrite !xorb_false_r. }
  assert (Hlen : forall i f, length f = 24%nat -> length (wrong_bit i f) = 24%nat).
  { intros i f Hf. unfold wrong_bit. destruct (f !! i); [by rewrite length_insert|done]. }
  assert (Hw : length (encode24 d) = 24%nat) by done.
  assert (Hrun : forall f, length f = 24%nat -> decode24 (zip_with xorb (encode24 d) f) err =
    (Z.lxor (Z.lxor d (bits_value (data_bits f))) (entry hamm24cor (bits_value (failed_tests f))),
     err + entry hamm24err (bits_value (failed_tests f)))).
  { intros f Hf. unfold encode24. rewrite decode24_bits by done. by rewrite encode24_value. }
  split; [|split].
  - rewrite E0, Hrun by done. rewrite <- Hv0, Hc0, Z.lxor_assoc, Z.lxor_nilpotent, Z.lxor_0_r. f_equal. lia.
  - intros i Hi. specialize (H i ltac:(apply in_seq; lia)). apply andb_prop in H as [H _].
    apply andb_prop in H as [Hv Hc]. apply Z.eqb_eq in Hv, Hc.
    rewrite E0, wrong_bit_xor, Hrun by (by rewrite ?Hlen, ?Hw).
    by rewrite <- Hv, Hc, Z.lxor_assoc, Z.lxor_nilpotent, Z.lxor_0_r.
  - intros i j Hi Hj Hij. specialize (H i ltac:(apply in_seq; lia)). apply andb_prop in H as [_ H].
    rewrite forallb_forall in H. specialize (H j ltac:(apply in_seq; lia)).
    apply orb_prop in H as [H | H]; [by apply Nat.eqb_eq in H|]. apply Z.eqb_eq in H.
    rewrite E0, !wrong_bit_xor, Hrun by (rewrite ?Hw; auto). cbn [snd]. by rewrite H.
Qed.
