(* ===== verification/TeletextLang.v ===== *)
(** * lang.c: the characters of teletext

    The characters of a row in the national set of the page, and the enhancements that packets 26 add to a
    page: characters of the second set, and letters with marks.  Which set of fonts is used is the global
    [latin1]; [isalpha] depends on the locale. *)

From S2P Require Export Hamming.

(** ** vt.h *)

Definition PG_SUPPHEADER : Z := 0x01.
Definition PG_OUTOFSEQ : Z := 0x04.
Definition PG_NODISPLAY : Z := 0x08.
Definition PG_MAGSERIAL : Z := 0x10.
Definition PG_ERASE : Z := 0x20.
Definition PG_NEWSFLASH : Z := 0x40.
Definition PG_SUBTITLE : Z := 0x80.
Definition PG_ACTIVE : Z := 0x100.
Definition ANY_SUB : Z := 0x3f7f.

(** The rows of [data] are lists of 40 characters. *)
Record vt_page := VtPage {
  vp_pgno : Z;
  vp_subno : Z;
  vp_lang : Z;
  vp_flags : Z;
  vp_errors : Z;
  vp_lines : Z;
  vp_data : list (list Z);
  vp_flof : Z;
  vp_link : list (Z * Z);
}.

(** [vtp->data[row]] *)
Definition page_row (vtp : vt_page) (row : Z) : list Z := nth (Z.to_nat row) (vp_data vtp) [].

Definition set_row (row : Z) (chars : list Z) (vtp : vt_page) : vt_page :=
  VtPage (vp_pgno vtp) (vp_subno vtp) (vp_lang vtp) (vp_flags vtp) (vp_errors vtp) (vp_lines vtp)
    (<[Z.to_nat row := chars]> (vp_data vtp)) (vp_flof vtp) (vp_link vtp).

(** [vtp->data[row][column] = c] *)
Definition set_char (row column c : Z) (vtp : vt_page) : vt_page :=
  set_row row (<[Z.to_nat column := c]> (page_row vtp row)) vtp.

(** ** lang.h *)

Definition LATIN1 : Z := 1.
Definition LATIN2 : Z := 2.
Definition KOI8 : Z := 3.
Definition GREEK : Z := 4.

Record enhance_state := Enhance {
  next_des : Z;
  trip : list Z;
}.

(** ** Tables *)

Definition lang_chars : list (list Z) :=
  [[0x00; 0x23; 0x24; 0x40; 0x5b; 0x5c; 0x5d; 0x5e; 0x5f; 0x60; 0x7b; 0x7c; 0x7d; 0x7e; 0x00; 0x00];
   [0x00; 0xa3; 0x24; 0x40; 0xab; 0xbd; 0xbb; 0xac; 0x23; 0xad; 0xbc; 0xa6; 0xbe; 0xf7; 0x00; 0x00];
   [0x00; 0x23; 0x24; 0xa7; 0xc4; 0xd6; 0xdc; 0x5e; 0x5f; 0xb0; 0xe4; 0xf6; 0xfc; 0xdf; 0x00; 0x00];
   [0x00; 0x23; 0xa4; 0xc9; 0xc4; 0xd6; 0xc5; 0xdc; 0x5f; 0xe9; 0xe4; 0xf6; 0xe5; 0xfc; 0x00; 0x00];
   [0x00; 0xa3; 0x24; 0xe9; 0xb0; 0xe7; 0xbb; 0xac; 0x23; 0xf9; 0xe0; 0xf2; 0xe8; 0xec; 0x00; 0x00];
   [0x00; 0xe9; 0xef; 0xe0; 0xeb; 0xea; 0xf9; 0xee; 0x23; 0xe8; 0xe2; 0xf4; 0xfb; 0xe7; 0x00; 0x00];
   [0x00; 0xe7; 0x24; 0xa1; 0xe1; 0xe9; 0xed; 0xf3; 0xfa; 0xbf; 0xfc; 0xf1; 0xe8; 0xe0; 0x00; 0x00];
   [0x00; 0x23; 0x75; 0x63; 0x74; 0x7a; 0xfd; 0xed; 0x72; 0xe9; 0xe1; 0x65; 0xfa; 0x73; 0x00; 0x00];
   [0x00; 0xa3; 0x24; 0x40; 0xab; 0xbd; 0xbb; 0xac; 0x23; 0xad; 0xbc; 0xa6; 0xbe; 0xf7; 0x00; 0x00];
   [0x00; 0x23; 0xf1; 0xb1; 0xaf; 0xa6; 0xa3; 0xe6; 0xf3; 0xea; 0xbf; 0xb6; 0xb3; 0xbc; 0x00; 0x00];
   [0x00; 0x23; 0x24; 0xa7; 0xc4; 0xd6; 0xdc; 0x5e; 0x5f; 0xb0; 0xe4; 0xf6; 0xfc; 0xdf; 0x00; 0x00];
   [0x00; 0x23; 0xf5; 0xa9; 0xc4; 0xd6; 0xae; 0xdc; 0xd5; 0xb9; 0xe4; 0xf6; 0xbe; 0xfc; 0x00; 0x00];
   [0x00; 0x23; 0x24; 0xa9; 0xeb; 0xea; 0xae; 0xe8; 0xfc; 0xb9; 0xb1; 0x75; 0xbe; 0x69; 0x00; 0x00];
   [0x00; 0xe9; 0x69; 0x61; 0xeb; 0xec; 0x75; 0xee; 0x23; 0x65; 0xe2; 0xf4; 0x75; 0xe7; 0x00; 0x00];
   [0x00; 0x23; 0xcb; 0xc8; 0xc6; 0xae; 0xd0; 0xa9; 0xeb; 0xe8; 0xe6; 0xae; 0xf0; 0xb9; 0x00; 0x00];
   [0x00; 0x23; 0xf9; 0xe8; 0xbb; 0xbe; 0xfd; 0xed; 0xf8; 0xe9; 0xe1; 0xec; 0xfa; 0xb9; 0x00; 0x00];
   [0x00; 0x23; 0xa2; 0xde; 0xc2; 0xaa; 0xc3; 0xce; 0x69; 0xfe; 0xe2; 0xba; 0xe3; 0xee; 0x00; 0x00]].

(** A letter set: the letters, and what they are with the mark in the fonts for Latin 1 and for Latin 2. *)
Record mark := Mark { mark_g0 : list Z; mark_latin1 : list Z; mark_latin2 : list Z }.

Definition marks : list mark :=
  [Mark [0x23]
     [0xa4]
     [0x24];
   Mark [0x20; 0x61; 0x65; 0x69; 0x6f; 0x75; 0x41; 0x45; 0x49; 0x4f; 0x55]
     [0x60; 0xe0; 0xe8; 0xec; 0xf2; 0xf9; 0xc0; 0xc8; 0xcc; 0xd2; 0xd9]
     [0x60; 0x61; 0x65; 0x69; 0x6f; 0x75; 0x41; 0x45; 0x49; 0x4f; 0x55];
   Mark [0x20; 0x61; 0x63; 0x65; 0x69; 0x6c; 0x6e; 0x6f; 0x72; 0x73; 0x75; 0x79; 0x7a; 0x41; 0x43; 0x45; 0x49; 0x4c; 0x4e; 0x4f; 0x52; 0x53; 0x55; 0x59; 0x5a]
     [0x27; 0xe1; 0x63; 0xe9; 0xed; 0x6c; 0x6e; 0xf3; 0x72; 0x73; 0xfa; 0xfd; 0x7a; 0xc1; 0x43; 0xc9; 0xcd; 0x4c; 0x4e; 0xd3; 0x52; 0x53; 0xda; 0xdd; 0x5a]
     [0x27; 0xe1; 0xe6; 0xe9; 0xed; 0xe5; 0xf1; 0xf3; 0xe0; 0xb6; 0xfa; 0xfd; 0xbc; 0xc1; 0xc6; 0xc9; 0xcd; 0xc5; 0xd1; 0xd3; 0xc0; 0xa6; 0xda; 0xdd; 0xac];
   Mark [0x20; 0x61; 0x65; 0x69; 0x6f; 0x75; 0x41; 0x45; 0x49; 0x4f; 0x55]
     [0x5e; 0xe2; 0xea; 0xee; 0xf4; 0xfb; 0xc2; 0xca; 0xce; 0xd4; 0xdb]
     [0x5e; 0xe2; 0x65; 0xee; 0xf4; 0x75; 0xc2; 0x45; 0xce; 0xd4; 0x55];
   Mark [0x20; 0x61; 0x6e; 0x6f; 0x41; 0x4e; 0x4f]
     [0x7e; 0xe3; 0xf1; 0xf5; 0xc3; 0xd1; 0xd5]
     [0x7e; 0x61; 0x6e; 0x6f; 0x41; 0x4e; 0x4f];
   Mark []
     []
     [];
   Mark [0x61; 0x41]
     [0x61; 0x41]
     [0xe3; 0xc3];
   Mark [0x7a; 0x5a]
     [0x7a; 0x5a]
     [0xbf; 0xaf];
   Mark [0x61; 0x65; 0x69; 0x6f; 0x75; 0x41; 0x45; 0x49; 0x4f; 0x55]
     [0xe4; 0xeb; 0xef; 0xf6; 0xfc; 0xc4; 0xcb; 0xcf; 0xd6; 0xdc]
     [0xe4; 0xeb; 0x69; 0xf6; 0xfc; 0xc4; 0xcb; 0x49; 0xd6; 0xdc];
   Mark []
     []
     [];
   Mark [0x20; 0x61; 0x75; 0x41; 0x55]
     [0xb0; 0xe5; 0x75; 0xc5; 0x55]
     [0xb0; 0x61; 0xf9; 0x41; 0xd9];
   Mark [0x63; 0x73; 0x74; 0x43; 0x53; 0x54]
     [0xe7; 0x73; 0x74; 0xc7; 0x53; 0x54]
     [0xe7; 0xba; 0xfe; 0xc7; 0xaa; 0xde];
   Mark [0x20]
     [0x5f]
     [0x5f];
   Mark [0x20; 0x6f; 0x75; 0x4f; 0x55]
     [0x22; 0x6f; 0x75; 0x4f; 0x55]
     [0x22; 0xf5; 0xfb; 0xd5; 0xdb];
   Mark [0x61; 0x65; 0x41; 0x45]
     [0x61; 0x65; 0x41; 0x45]
     [0xb1; 0xea; 0xa1; 0xca];
   Mark [0x63; 0x64; 0x65; 0x6c; 0x6e; 0x72; 0x73; 0x74; 0x7a; 0x43; 0x44; 0x45; 0x4c; 0x4e; 0x52; 0x53; 0x54; 0x5a]
     [0x63; 0x64; 0x65; 0x6c; 0x6e; 0x72; 0x73; 0x74; 0x7a; 0x43; 0x44; 0x45; 0x4c; 0x4e; 0x52; 0x53; 0x54; 0x5a]
     [0xe8; 0xef; 0xec; 0xb5; 0xf2; 0xf8; 0xb9; 0xbb; 0xbe; 0xc8; 0xcf; 0xcc; 0xa5; 0xd2; 0xd8; 0xa9; 0xab; 0xae]].

(** With the NUL at the end. *)
Definition g2map_latin1 : mem :=
  [0x20; 0xa1; 0xa2; 0xa3; 0x24; 0xa5; 0x23; 0xa7; 0xa4; 0x27; 0x22; 0xab; 0x20; 0x20; 0x20; 0x20;
   0xb0; 0xb1; 0xb2; 0xb3; 0xd7; 0xb5; 0xb6; 0xb7; 0xf7; 0x27; 0x22; 0xbb; 0xbc; 0xbd; 0xbe; 0xbf;
   0x20; 0x60; 0xb4; 0x5e; 0x7e; 0x20; 0x20; 0x20; 0xa8; 0x2e; 0xb0; 0xb8; 0x5f; 0x22; 0x20; 0x20;
   0x5f; 0xb9; 0xae; 0xa9; 0x20; 0x20; 0x20; 0x20; 0x20; 0x20; 0x20; 0x20; 0x20; 0x20; 0x20; 0x20;
   0x20; 0xc6; 0xd0; 0xaa; 0x48; 0x20; 0x49; 0x4c; 0x4c; 0xd8; 0x20; 0xba; 0xde; 0x54; 0x4e; 0x6e;
   0x4b; 0xe6; 0x64; 0xf0; 0x68; 0x69; 0x69; 0x6c; 0x6c; 0xf8; 0x20; 0xdf; 0xfe; 0x74; 0x6e; 0x7f;
   0x00].

Definition g2map_latin2 : mem :=
  [0x20; 0x69; 0x63; 0x4c; 0x24; 0x59; 0x23; 0xa7; 0xa4; 0x27; 0x22; 0x3c; 0x20; 0x20; 0x20; 0x20;
   0xb0; 0x20; 0x20; 0x20; 0xd7; 0x75; 0x20; 0x20; 0xf7; 0x27; 0x22; 0x3e; 0x20; 0x20; 0x20; 0x20;
   0x20; 0x60; 0xb4; 0x5e; 0x7e; 0x20; 0xa2; 0xff; 0xa8; 0x2e; 0xb0; 0xb8; 0x5f; 0xbd; 0xb2; 0xb7;
   0x2d; 0x20; 0x52; 0x43; 0x20; 0x20; 0x20; 0x20; 0x20; 0x20; 0x20; 0x20; 0x20; 0x20; 0x20; 0x20;
   0x20; 0x20; 0xd0; 0x61; 0x48; 0x20; 0x69; 0x4c; 0xa3; 0x4f; 0x20; 0x6f; 0x70; 0x54; 0x4e; 0x6e;
   0x4b; 0x20; 0xf0; 0x64; 0x68; 0x69; 0x69; 0x6c; 0xb3; 0x6f; 0x20; 0xdf; 0x70; 0x74; 0x6e; 0x7f;
   0x00].

Definition l2koi : list Z :=
  [0xe0; 0xe1; 0xe2; 0xe3; 0xe4; 0xe5; 0xe6; 0xe7; 0xe8; 0xe9; 0xea; 0xeb; 0xec; 0xed; 0xee; 0xef;
   0xf0; 0xf1; 0xf2; 0xf3; 0xf4; 0xf5; 0xf6; 0xf7; 0xf8; 0xff; 0xfa; 0xfb; 0xfc; 0xfd; 0xfe; 0xf9;
   0xc0; 0xc1; 0xc2; 0xc3; 0xc4; 0xc5; 0xc6; 0xc7; 0xc8; 0xc9; 0xca; 0xcb; 0xcc; 0xcd; 0xce; 0xcf;
   0xd0; 0xd1; 0xd2; 0xd3; 0xd4; 0xd5; 0xd6; 0xd7; 0xd8; 0xd9; 0xda; 0xdb; 0xdc; 0xdd; 0xde; 0xdf].

Definition l2greek : list Z :=
  [0xc0; 0xc1; 0xc2; 0xc3; 0xc4; 0xc5; 0xc6; 0xc7; 0xc8; 0xc9; 0xca; 0xcb; 0xcc; 0xcd; 0xce; 0xcf;
   0xd0; 0xd1; 0x52; 0xd3; 0xd4; 0xd5; 0xd6; 0xd7; 0xd8; 0xd9; 0x5a; 0x5b; 0xdc; 0xdd; 0xde; 0xdf;
   0x60; 0xe1; 0xe2; 0xe3; 0xe4; 0xe5; 0xe6; 0xe7; 0xe8; 0xe9; 0xea; 0xeb; 0xec; 0xed; 0xee; 0xef;
   0xf0; 0xf1; 0xf2; 0xf3; 0xf4; 0xf5; 0xf6; 0xf7; 0xf8; 0xf9; 0xc0; 0x7b; 0xfc; 0xfd; 0xfe; 0x7f].

(** [lang_init]: the index of a national character in the rows of [lang_chars], 0 for others. *)
Definition lang_init : list Z :=
  fold_left (λ t i, <[Z.to_nat (entry (nth 0 lang_chars []) i) := i]> t) (seqZ 1 13) (repeat 0 256).

Definition lang_char (c : Z) : Z := entry lang_init c.

(** ** Characters *)

Section Lang.
Context (latin1 : Z) (isalpha : Z -> bool).

Definition is_greek (c : Z) : bool := isalpha (Z.lor c 0x80).

Definition is_koi (c : Z) : bool := isalpha (Z.lor c 0x80) || (c =? 38).

Definition conv2koi8 (c : Z) : Z :=
  if c =? 38 then 0xd9
  else if (0x40 <=? c) && (c <=? 0x7f) then entry l2koi (Z.land c 0x7f - 0x40) else c.

Definition conv2greek (c : Z) : Z :=
  if (0x40 <=? c) && (c <=? 0x7f) then entry l2greek (Z.land c 0x7f - 0x40) else c.

(** [(c & 0xe8) == 0]: a color; the bit 0x10 of it is set for graphics. *)
Definition next_gfx (c gfx : Z) : Z := if Z.land c 0xe8 =? 0 then Z.land c 0x10 else gfx.

(** Whether a character is one in graphics mode too. *)
Definition shown (c gfx : Z) : bool := (gfx =? 0) || negb (Z.land c 0xa0 =? 0x20).

(** The loop for another alphabet: ESC switches to Latin and back. *)
Fixpoint conv_alphabet (is_letter : Z -> bool) (conv : Z -> Z) (gfx : Z) (lat : bool) (p : list Z) : list Z :=
  match p with
  | [] => []
  | c :: p =>
      let lat := if c =? 0x1b then negb lat else lat in
      if is_letter c then
        (if shown c gfx && negb lat then conv c else c) :: conv_alphabet is_letter conv gfx lat p
      else c :: conv_alphabet is_letter conv (next_gfx c gfx) lat p
  end.

Fixpoint conv_national (lang gfx : Z) (p : list Z) : list Z :=
  match p with
  | [] => []
  | c :: p =>
      if negb (lang_char c =? 0) then
        (if shown c gfx then entry (nth (Z.to_nat (lang + 1)) lang_chars []) (lang_char c) else c)
        :: conv_national lang gfx p
      else c :: conv_national lang (next_gfx c gfx) p
  end.

Definition conv2latin (p : list Z) (lang : Z) : list Z :=
  if (latin1 =? KOI8) && (lang =? 12) then conv_alphabet is_koi conv2koi8 0 false p
  else if (latin1 =? GREEK) && (lang =? 15) then conv_alphabet is_greek conv2greek 0 false p
  else conv_national lang 0 p.

(** ** Enhancements *)

Definition init_enhance (eh : enhance_state) : enhance_state := Enhance 0 (trip eh).

(** [memcpy(eh->trip + dcode * 13, t, 13 * sizeof( *t))]; the array has 16 * 13 words. *)
Definition add_enhance (eh : enhance_state) (dcode : Z) (t : list Z) : res enhance_state :=
  if dcode =? next_des eh then
    if 16 <=? dcode then Err OutOfBounds
    else
      mret (Enhance (next_des eh + 1)
        (take (Z.to_nat (dcode * 13)) (trip eh) ++ t ++ drop (Z.to_nat (dcode * 13 + 13)) (trip eh)))
  else mret (Enhance (-1) (trip eh)).

(** [strchr(mark->g0, data)]: the place of a character, that of the NUL for 0. *)
Fixpoint char_place (data : Z) (s : list Z) : option nat :=
  match s with
  | [] => if data =? 0 then Some O else None
  | c :: s => if c =? data then Some O else option_map S (char_place data s)
  end.

(** A letter with a mark. *)
Definition marked (m : mark) (data : Z) : Z :=
  match char_place data (mark_g0 m) with
  | Some x =>
      if latin1 =? LATIN1 then nth x (mark_latin1 m) 0
      else if latin1 =? LATIN2 then nth x (mark_latin2 m) 0
      else data
  | None => data
  end.

(** One triplet, in a row: the row afterwards, and the page. *)
Definition triplet (t row : Z) (vtp : vt_page) : res (Z * vt_page) :=
  if t mod 2048 =? 2047 then mret (row, vtp)
  else
    let adr := t mod 64 in
    let mode := t / 64 mod 32 in
    let data := t / 2048 mod 128 in
    if adr <? 40 then
      if mode =? 15 then
        if latin1 =? LATIN1 then
          c ← at_ g2map_latin1 (data - 32); mret (row, set_char row adr c vtp)
        else if latin1 =? LATIN2 then
          c ← at_ g2map_latin2 (data - 32); mret (row, set_char row adr c vtp)
        else mret (row, vtp)
      else if 16 <=? mode then
        mret (row, set_char row adr (marked (nth (Z.to_nat (mode - 16)) marks (Mark [] [] [])) data) vtp)
      else mret (row, vtp)
    else
      let adr := if adr - 40 =? 0 then 24 else adr - 40 in
      if (mode =? 1) || (mode =? 4) then mret (adr, vtp)
      else if mode =? 7 then mret (if adr =? 23 then 0 else row, vtp)
      else mret (row, vtp).

Fixpoint triplets (ts : list Z) (row : Z) (vtp : vt_page) : res vt_page :=
  match ts with
  | [] => mret vtp
  | t :: ts => '(row, vtp) ← triplet t row vtp; triplets ts row vtp
  end.

Definition enhance (eh : enhance_state) (vtp : vt_page) : res vt_page :=
  if next_des eh <? 1 then mret vtp
  else triplets (take (Z.to_nat (next_des eh * 13)) (trip eh)) 0 vtp.
End Lang.
