(* ===== verification/TeletextCache.v ===== *)
(** * cache.c: the pages of teletext

    The pages that have been received, in 113 lists by their number, the most recently used first.  A page
    that comes again is merged with the one in the cache: rows that were not received and characters with
    a wrong parity are taken from the old page. *)

From S2P Require Export TeletextLang.

Definition HASH_SIZE : Z := 113.
Definition H : nat := 25.

(** [struct cache] *)
Record cache := Cache {
  ca_hash : list (list vt_page);
  ca_erc : bool;
  ca_npages : Z;
  ca_hi_subno : list Z;
}.

Definition hash (pgno : Z) : Z := Z.rem pgno HASH_SIZE.

(** The pages of a list, and replacing it. *)
Definition bucket (h : Z) (ca : cache) : list vt_page := nth (Z.to_nat h) (ca_hash ca) [].
Definition set_bucket (h : Z) (pages : list vt_page) (ca : cache) : cache :=
  Cache (<[Z.to_nat h := pages]> (ca_hash ca)) (ca_erc ca) (ca_npages ca) (ca_hi_subno ca).

(** ** Error reduction *)

(** One character: a wrong one is taken from the old page. *)
Definition merge_char (old new : Z) : Z := if new =? BAD_CHAR then old else new.

(** Row [l] of the new page. *)
Definition erc_row (ovtp nvtp : vt_page) (l : nat) : list Z :=
  if negb (Z.testbit (vp_lines nvtp) (Z.of_nat l)) then page_row ovtp (Z.of_nat l)
  else if Z.testbit (vp_lines ovtp) (Z.of_nat l) then
    zip_with merge_char (page_row ovtp (Z.of_nat l)) (page_row nvtp (Z.of_nat l))
  else page_row nvtp (Z.of_nat l).

Definition do_erc (ovtp nvtp : vt_page) : vt_page :=
  if (vp_errors nvtp =? 0) && (vp_lines ovtp =? vp_lines nvtp) then nvtp
  else
    VtPage (vp_pgno nvtp) (vp_subno nvtp) (vp_lang nvtp) (vp_flags nvtp) (vp_errors nvtp)
      (Z.lor (vp_lines nvtp) (vp_lines ovtp)) (map (erc_row ovtp nvtp) (seq 0 H)) (vp_flof nvtp) (vp_link nvtp).

(** ** Operations *)

(** Whether a page is the one asked for. *)
Definition is_page (pgno subno : Z) (vtp : vt_page) : bool :=
  (vp_pgno vtp =? pgno) && ((subno =? ANY_SUB) || (vp_subno vtp =? subno)).

(** The first page with a property, and the list without it: [dl_remove]. *)
Fixpoint remove_first (f : vt_page -> bool) (pages : list vt_page) : option (vt_page * list vt_page) :=
  match pages with
  | [] => None
  | p :: pages =>
      if f p then Some (p, pages)
      else match remove_first f pages with Some (q, rest) => Some (q, p :: rest) | None => None end
  end.

Definition cache_get (ca : cache) (pgno subno : Z) : option vt_page * cache :=
  let h := hash pgno in
  match remove_first (is_page pgno subno) (bucket h ca) with
  | Some (vtp, rest) => (Some vtp, set_bucket h (vtp :: rest) ca)
  | None => (None, ca)
  end.

Definition cache_lookup (ca : cache) (pgno subno : Z) : option vt_page :=
  match remove_first (is_page pgno subno) (bucket (hash pgno) ca) with Some (vtp, _) => Some vtp | None => None end.

(** [ca->hi_subno[vtp->pgno]] *)
Definition raise_hi_subno (vtp : vt_page) (ca : cache) : res cache :=
  hi ← at_ (ca_hi_subno ca) (vp_pgno vtp);
  mret (Cache (ca_hash ca) (ca_erc ca) (ca_npages ca)
    (if hi <=? vp_subno vtp then <[Z.to_nat (vp_pgno vtp) := u16 (vp_subno vtp + 1)]> (ca_hi_subno ca)
     else ca_hi_subno ca)).

(** The page in the cache, [None] if there is no memory for it; the page that was given, which [do_erc]
    changes; and the cache. *)
Definition cache_put (malloc_ok : bool) (ca : cache) (vtp : vt_page) : res (option vt_page * vt_page * cache) :=
  let h := hash (vp_pgno vtp) in
  match remove_first (λ p, (vp_pgno p =? vp_pgno vtp) && (vp_subno p =? vp_subno vtp)) (bucket h ca) with
  | Some (old, rest) =>
      let vtp := if ca_erc ca then do_erc old vtp else vtp in
      mret (Some vtp, vtp, set_bucket h (vtp :: rest) ca)
  | None =>
      if negb malloc_ok then mret (None, vtp, ca)
      else
        ca ← raise_hi_subno vtp ca;
        let ca := Cache (ca_hash ca) (ca_erc ca) (ca_npages ca + 1) (ca_hi_subno ca) in
        mret (Some vtp, vtp, set_bucket h (vtp :: bucket h ca) ca)
  end.

(** Help pages are kept. *)
Definition is_help (vtp : vt_page) : bool := Z.quot (vp_pgno vtp) 256 =? 9.

Definition cache_reset (ca : cache) : cache :=
  let removed := List.concat (map (List.filter (λ p, negb (is_help p))) (ca_hash ca)) in
  Cache (map (List.filter is_help) (ca_hash ca)) (ca_erc ca) (ca_npages ca - zlen removed)
    (repeat 0 (Z.to_nat 0x900) ++ drop (Z.to_nat 0x900) (ca_hi_subno ca)).

Definition CACHE_MODE_ERC : Z := 1.

Definition cache_mode (ca : cache) (mode arg : Z) : Z * cache :=
  if mode =? CACHE_MODE_ERC then
    (if ca_erc ca then 1 else 0, Cache (ca_hash ca) (negb (arg =? 0)) (ca_npages ca) (ca_hi_subno ca))
  else (-1, ca).

(** Putting pages one after the other. *)
Fixpoint cache_put_all (malloc_ok : nat -> bool) (n : nat) (pages : list vt_page) (ca : cache) : res cache :=
  match pages with
  | [] => mret ca
  | p :: pages => '(_, _, ca) ← cache_put (malloc_ok n) ca p; cache_put_all malloc_ok (S n) pages ca
  end.

(** The cache itself is allocated; [help_pages] are those of help.c. *)
Definition cache_open (malloc_ok : nat -> bool) (help_pages : list vt_page) : res cache :=
  cache_put_all malloc_ok 0 help_pages (Cache (repeat [] (Z.to_nat HASH_SIZE)) true 0 (repeat 0 (Z.to_nat 0xa00))).
