(* ===== verification/TeletextCacheCorrect.v ===== *)
(** * The teletext cache is a list of pages

    The 113 lists of the cache behave as one list of all pages, the most recently used first: finding a page
    makes it the newest, a page that comes again replaces the one before, and the newest subpage is found
    when any will do.  A page that is received twice has every character that was right once. *)

From S2P Require Export TeletextCache.

(** ** The cache as one list *)

Definition pages_get (pages : list vt_page) (pgno subno : Z) : option vt_page * list vt_page :=
  match remove_first (is_page pgno subno) pages with
  | Some (p, rest) => (Some p, p :: rest)
  | None => (None, pages)
  end.

(** Whether two are the same page. *)
Definition same_page (vtp p : vt_page) : bool := (vp_pgno p =? vp_pgno vtp) && (vp_subno p =? vp_subno vtp).

(** The page that is stored, and the pages with it. *)
Definition pages_put (erc : bool) (pages : list vt_page) (vtp : vt_page) : vt_page * list vt_page :=
  match remove_first (same_page vtp) pages with
  | Some (old, rest) => let vtp := if erc then do_erc old vtp else vtp in (vtp, vtp :: rest)
  | None => (vtp, vtp :: pages)
  end.

Definition in_bucket (h : Z) (p : vt_page) : bool := hash (vp_pgno p) =? h.

Record represents (pages : list vt_page) (ca : cache) : Prop := {
  rep_hash : ca_hash ca = map (λ h, List.filter (in_bucket h) pages) (seqZ 0 HASH_SIZE);
  rep_npages : ca_npages ca = zlen pages;
  rep_hi_subno : length (ca_hi_subno ca) = Z.to_nat 0xa00;
  rep_pgno : Forall (λ p, 0 <= vp_pgno p) pages;
}.

(** ** Lists and buckets *)

Lemma hash_bounds pgno : 0 <= pgno -> 0 <= hash pgno < HASH_SIZE.
Proof. intros H0. unfold hash, HASH_SIZE. apply Z.rem_bound_pos; lia. Qed.

Lemma bucket_filter pages ca h : represents pages ca -> 0 <= h < HASH_SIZE ->
  bucket h ca = List.filter (in_bucket h) pages.
Proof.
  intros Hr Hh. unfold bucket. rewrite (rep_hash _ _ Hr).
  rewrite (nth_indep _ [] (List.filter (in_bucket (0 + Z.of_nat (Z.to_nat HASH_SIZE))) pages))
    by (rewrite length_map, length_seqZ; lia).
  rewrite (map_nth (λ h, List.filter (in_bucket h) pages)). do 2 f_equal.
  rewrite nth_lookup, lookup_seqZ_lt by lia. cbn [from_option]. unfold id. lia.
Qed.

Lemma remove_first_filter f g pages : (forall p, f p = true -> g p = true) ->
  remove_first f (List.filter g pages) =
  option_map (λ '(q, rest), (q, List.filter g rest)) (remove_first f pages).
Proof.
  intros Hfg. induction pages as [|p pages IH]; [done|]. cbn [List.filter remove_first]. destruct (g p) eqn:Eg.
  - cbn [remove_first]. destruct (f p); [done|]. rewrite IH. destruct (remove_first f pages) as [[q rest]|]; [|done].
    cbn [option_map List.filter]. by rewrite Eg.
  - destruct (f p) eqn:Ef; [by rewrite (Hfg p Ef) in Eg|]. rewrite IH.
    destruct (remove_first f pages) as [[q rest]|]; [|done]. cbn [option_map List.filter]. by rewrite Eg.
Qed.

Lemma remove_first_some f pages p rest : remove_first f pages = Some (p, rest) ->
  f p = true /\ exists before after, pages = before ++ p :: after /\ rest = before ++ after.
Proof.
  revert rest. induction pages as [|q pages IH]; intros rest; [done|]. cbn [remove_first]. destruct (f q) eqn:Ef.
  - intros [= <- <-]. split; [done|]. by exists [], pages.
  - destruct (remove_first f pages) as [[q' rest']|]; [|done]. intros [= -> <-].
    destruct (IH _ eq_refl) as (Hp & before & after & -> & ->). split; [done|]. by exists (q :: before), after.
Qed.

(** A new first page in its bucket. *)
Lemma set_bucket_hash pages rest p ca : represents pages ca -> 0 <= vp_pgno p ->
  (forall h, h <> hash (vp_pgno p) -> List.filter (in_bucket h) rest = List.filter (in_bucket h) pages) ->
  ca_hash (set_bucket (hash (vp_pgno p)) (p :: List.filter (in_bucket (hash (vp_pgno p))) rest) ca) =
  map (λ h, List.filter (in_bucket h) (p :: rest)) (seqZ 0 HASH_SIZE).
Proof.
  intros Hr Hp Hrest. pose proof (hash_bounds _ Hp) as Hh. cbn [ca_hash set_bucket]. rewrite (rep_hash _ _ Hr).
  apply list_eq. intros i. destruct (Nat.lt_ge_cases i (Z.to_nat HASH_SIZE)) as [Hi | Hi].
  - rewrite list_lookup_fmap, lookup_seqZ_lt by lia. cbn [fmap option_fmap option_map List.filter].
    destruct (Nat.eq_dec i (Z.to_nat (hash (vp_pgno p)))) as [-> | Hne].
    + rewrite list_lookup_insert_eq by (rewrite length_fmap, length_seqZ; lia).
      rewrite Z2Nat.id by lia. unfold in_bucket at 2. by rewrite Z.eqb_refl.
    + rewrite list_lookup_insert_ne by done. rewrite list_lookup_fmap, lookup_seqZ_lt by lia.
      cbn [fmap option_fmap option_map]. f_equal. unfold in_bucket at 2.
      destruct (Z.eqb_spec (hash (vp_pgno p)) (0 + Z.of_nat i)) as [He | _]; [lia|]. symmetry. apply Hrest. lia.
  - rewrite !lookup_ge_None_2; [done| |]; rewrite ?length_insert, length_fmap, length_seqZ; lia.
Qed.

Lemma filter_moved {A} (f : A -> bool) before p after : f p = false ->
  List.filter f (before ++ after) = List.filter f (before ++ p :: after).
Proof. intros Hf. rewrite !List.filter_app. cbn [List.filter]. by rewrite Hf. Qed.

Lemma other_bucket h p : h <> hash (vp_pgno p) -> in_bucket h p = false.
Proof. intros Hne. apply Z.eqb_neq. congruence. Qed.

Lemma is_page_bucket pgno subno p : is_page pgno subno p = true -> in_bucket (hash pgno) p = true.
Proof. unfold is_page, in_bucket. intros [->%Z.eqb_eq _]%andb_prop. apply Z.eqb_refl. Qed.

(** ** Operations *)

(** A page in the place of another of its bucket, as the first. *)
Lemma represents_replaced before old after p ca :
  represents (before ++ old :: after) ca -> vp_pgno old = vp_pgno p ->
  represents (p :: before ++ after)
    (set_bucket (hash (vp_pgno p)) (p :: List.filter (in_bucket (hash (vp_pgno p))) (before ++ after)) ca).
Proof.
  intros Hr Hno. pose proof (rep_pgno _ _ Hr) as Hpos.
  apply Forall_app in Hpos as [Hb Ha]. apply Forall_cons_iff in Ha as [Hold Ha]. rewrite Hno in Hold. split.
  - apply set_bucket_hash with (pages := before ++ old :: after); [done..|]. intros h Hh.
    apply filter_moved, other_bucket. by rewrite Hno.
  - cbn. rewrite (rep_npages _ _ Hr). cbn [length]. rewrite !length_app. cbn [length]. lia.
  - exact (rep_hi_subno _ _ Hr).
  - apply Forall_cons; [done|]. by apply Forall_app.
Qed.

Lemma remove_first_bucket pages ca f h : represents pages ca -> 0 <= h < HASH_SIZE ->
  (forall p, f p = true -> in_bucket h p = true) ->
  remove_first f (bucket h ca) =
  option_map (λ '(q, rest), (q, List.filter (in_bucket h) rest)) (remove_first f pages).
Proof. intros Hr Hh Hf. rewrite (bucket_filter _ _ _ Hr Hh). by apply remove_first_filter. Qed.

Lemma cache_get_represents pages ca pgno subno : represents pages ca -> 0 <= pgno ->
  (cache_get ca pgno subno).1 = (pages_get pages pgno subno).1 /\
  represents (pages_get pages pgno subno).2 (cache_get ca pgno subno).2.
Proof.
  intros Hr Hp. unfold cache_get, pages_get.
  rewrite (remove_first_bucket pages) by eauto using hash_bounds, is_page_bucket.
  destruct (remove_first (is_page pgno subno) pages) as [[p rest]|] eqn:E; [|done].
  apply remove_first_some in E as (Hpage & before & after & -> & ->). split; [done|].
  unfold is_page in Hpage. apply andb_prop in Hpage as [<-%Z.eqb_eq _]. by apply represents_replaced with p.
Qed.

Lemma cache_lookup_represents pages ca pgno subno : represents pages ca -> 0 <= pgno ->
  cache_lookup ca pgno subno = (pages_get pages pgno subno).1.
Proof.
  intros Hr Hp. unfold cache_lookup, pages_get.
  rewrite (remove_first_bucket pages) by eauto using hash_bounds, is_page_bucket.
  by destruct (remove_first (is_page pgno subno) pages) as [[p rest]|].
Qed.

Lemma represents_added pages p ca hi : represents pages ca -> 0 <= vp_pgno p -> length hi = Z.to_nat 0xa00 ->
  represents (p :: pages)
    (set_bucket (hash (vp_pgno p)) (p :: bucket (hash (vp_pgno p)) ca)
       (Cache (ca_hash ca) (ca_erc ca) (ca_npages ca + 1) hi)).
Proof.
  intros Hr Hp Hhi. rewrite (bucket_filter pages) by auto using hash_bounds. split.
  - exact (set_bucket_hash pages pages p ca Hr Hp (λ _ _, eq_refl)).
  - cbn. rewrite (rep_npages _ _ Hr). cbn [length]. lia.
  - done.
  - apply Forall_cons; [done | exact (rep_pgno _ _ Hr)].
Qed.

Lemma raise_hi_subno_ok vtp ca : length (ca_hi_subno ca) = Z.to_nat 0xa00 -> 0 <= vp_pgno vtp < 0xa00 ->
  exists hi, length hi = Z.to_nat 0xa00 /\
    raise_hi_subno vtp ca = mret (Cache (ca_hash ca) (ca_erc ca) (ca_npages ca) hi).
Proof.
  intros Hlen Hp. unfold raise_hi_subno.
  destruct (lookup_lt_is_Some_2 (ca_hi_subno ca) (Z.to_nat (vp_pgno vtp))) as [hi Ehi]; [lia|].
  unfold at_, lookup_z. rewrite (proj2 (Z.leb_le _ _)) by lia. rewrite Ehi. cbn [mbind res_bind]. eexists. split; [|done].
  destruct (_ <=? _); [by rewrite length_insert|done].
Qed.

Lemma cache_put_represents pages ca vtp : represents pages ca -> 0 <= vp_pgno vtp < 0xa00 ->
  exists ca', cache_put true ca vtp = mret (Some (pages_put (ca_erc ca) pages vtp).1, (pages_put (ca_erc ca) pages vtp).1, ca') /\
    represents (pages_put (ca_erc ca) pages vtp).2 ca'.
Proof.
  intros Hr Hp. unfold cache_put, pages_put.
  change (λ p, _ && _) with (same_page vtp). rewrite (remove_first_bucket pages); [|done|apply hash_bounds; lia|].
  2: { intros p [E _]%andb_prop. apply Z.eqb_eq in E. unfold in_bucket. rewrite E. apply Z.eqb_refl. }
  destruct (remove_first (same_page vtp) pages) as [[old rest]|] eqn:E; cbn [option_map fst snd].
  - apply remove_first_some in E as (Hpage & before & after & -> & ->). eexists. split; [done|].
    apply andb_prop in Hpage as [Hno%Z.eqb_eq _].
    assert (Hpg : vp_pgno (if ca_erc ca then do_erc old vtp else vtp) = vp_pgno vtp)
      by (destruct (ca_erc ca); [unfold do_erc; by destruct (_ && _) | done]).
    rewrite <- Hpg at 1 2. apply represents_replaced with old; [done | congruence].
  - destruct (raise_hi_subno_ok vtp ca (rep_hi_subno _ _ Hr) Hp) as (hi & Hhi & ->).
    cbn [negb mbind res_bind ca_npages ca_hash ca_erc ca_hi_subno]. eexists. split; [done|].
    exact (represents_added pages vtp ca hi Hr ltac:(lia) Hhi).
Qed.

(** The number of pages in the buckets. *)
Lemma bucket_count pages : Forall (λ p, 0 <= vp_pgno p) pages ->
  length (List.concat (map (λ h, List.filter (in_bucket h) pages) (seqZ 0 HASH_SIZE))) = length pages.
Proof.
  intros Hpos. rewrite length_concat, map_map. induction Hpos as [|p pages Hp _ IH]; [by vm_compute|].
  pose proof (hash_bounds _ Hp) as Hh. cbn [List.filter length]. rewrite <- IH. clear IH.
  assert (Hone : forall hs, NoDup hs ->
    list_sum (map (λ h, length (if in_bucket h p then p :: List.filter (in_bucket h) pages
       else List.filter (in_bucket h) pages)) hs) =
    ((if bool_decide (hash (vp_pgno p) ∈ hs) then 1 else 0) +
     list_sum (map (λ h, length (List.filter (in_bucket h) pages)) hs))%nat).
  { induction 1 as [|h hs Hnot _ IH]; [done|]. cbn [map list_sum fold_right].
    change (fold_right Init.Nat.add 0%nat) with list_sum. rewrite IH.
    destruct (in_bucket h p) eqn:E; unfold in_bucket in E.
    - apply Z.eqb_eq in E. subst h. rewrite (bool_decide_eq_false_2 (_ ∈ hs)) by done.
      rewrite bool_decide_eq_true_2 by apply list_elem_of_here. cbn [length]. lia.
    - apply Z.eqb_neq in E. destruct (decide (hash (vp_pgno p) ∈ hs)) as [Hin | Hout].
      + rewrite !bool_decide_eq_true_2 by (done || by right). lia.
      + rewrite !bool_decide_eq_false_2; [lia | | done]. by intros [Heq | Hin]%elem_of_cons. }
  rewrite Hone by apply NoDup_seqZ. rewrite bool_decide_eq_true_2; [done|]. apply elem_of_seqZ. lia.
Qed.

Lemma filter_comm {A} (f g : A -> bool) l : List.filter f (List.filter g l) = List.filter g (List.filter f l).
Proof.
  induction l as [|x l IH]; [done|]. cbn [List.filter]. destruct (f x) eqn:Ef, (g x) eqn:Eg; cbn [List.filter];
    rewrite ?Ef, ?Eg; by rewrite IH.
Qed.

Lemma filter_split {A} (f : A -> bool) l :
  (length (List.filter f l) + length (List.filter (λ x, negb (f x)) l))%nat = length l.
Proof. induction l as [|x l IH]; [done|]. cbn [List.filter]. destruct (f x); cbn [negb length]; lia. Qed.

Lemma cache_reset_represents pages ca : represents pages ca ->
  represents (List.filter is_help pages) (cache_reset ca).
Proof.
  intros Hr.
  assert (Hpos : forall f, Forall (λ p, 0 <= vp_pgno p) (List.filter f pages)).
  { intros f. apply Forall_forall. intros p [Hin _]%filter_In. pose proof (rep_pgno _ _ Hr) as H'.
    rewrite Forall_forall in H'. by apply H'. }
  unfold cache_reset. split; cbn [ca_hash ca_npages ca_hi_subno].
  - rewrite (rep_hash _ _ Hr), map_map. apply map_ext. intros h. apply filter_comm.
  - rewrite (rep_npages _ _ Hr), (rep_hash _ _ Hr), map_map.
    erewrite map_ext by (intros h; apply filter_comm). rewrite bucket_count by apply Hpos.
    pose proof (filter_split is_help pages). lia.
  - rewrite length_app, repeat_length, length_drop, (rep_hi_subno _ _ Hr). by vm_compute.
  - apply Hpos.
Qed.

(** C25: the cache of 113 hashed lists behaves as one list of the pages, the most recently used first: getting
    a page, or the newest subpage of a number, finds the first in the list and makes it the newest without
    changing what is kept; putting a page replaces the one of its number and subpage, with the errors
    reduced, or adds it, and makes it the newest; looking a page up changes nothing; a reset leaves the help
    pages in their order; and the number of pages is the length of the list. *)
Theorem cache_is_page_list pages ca pgno subno vtp :
  represents pages ca -> 0 <= pgno -> 0 <= vp_pgno vtp < 0xa00 ->
  ((cache_get ca pgno subno).1 = (pages_get pages pgno subno).1 /\
   represents (pages_get pages pgno subno).2 (cache_get ca pgno subno).2) /\
  cache_lookup ca pgno subno = (pages_get pages pgno subno).1 /\
  (exists ca', cache_put true ca vtp =
     mret (Some (pages_put (ca_erc ca) pages vtp).1, (pages_put (ca_erc ca) pages vtp).1, ca') /\
     represents (pages_put (ca_erc ca) pages vtp).2 ca') /\
  represents (List.filter is_help pages) (cache_reset ca).
Proof.
  intros Hr Hg Hp. split; [by apply cache_get_represents|]. split; [by apply cache_lookup_represents|].
  split; [by apply cache_put_represents | by apply cache_reset_represents].
Qed.

(** ** Error reduction *)

Definition char_at (rows : list (list Z)) (l c : nat) : Z := nth c (nth l rows []) 0.

(** Row [l] of a page was received. *)
Definition got_row (vtp : vt_page) (l : nat) : bool := Z.testbit (vp_lines vtp) (Z.of_nat l).

(** A page as it is received when [text] is sent: wrong characters are marked. *)
Definition receives (text : list (list Z)) (vtp : vt_page) : Prop :=
  forall l, (l < H)%nat -> got_row vtp l = true ->
    length (page_row vtp (Z.of_nat l)) = 40%nat /\
    forall c, (c < 40)%nat ->
      char_at (vp_data vtp) l c = char_at text l c \/ char_at (vp_data vtp) l c = BAD_CHAR.

(** A character is right. *)
Definition right_char (text : list (list Z)) (vtp : vt_page) (l c : nat) : Prop :=
  got_row vtp l = true /\ char_at (vp_data vtp) l c = char_at text l c.

Lemma page_row_nat vtp l : page_row vtp (Z.of_nat l) = nth l (vp_data vtp) [].
Proof. unfold page_row. by rewrite Nat2Z.id. Qed.

Lemma nth_zip_with (f : Z -> Z -> Z) a b c : (c < length a)%nat -> (c < length b)%nat ->
  nth c (zip_with f a b) 0 = f (nth c a 0) (nth c b 0).
Proof.
  revert b c. induction a as [|x a IH]; intros [|y b] [|c] Ha Hb; cbn in Ha, Hb; try lia; [done|].
  cbn [zip_with nth]. apply IH; lia.
Qed.

Lemma merged_row ovtp nvtp l : (l < H)%nat -> nth l (map (erc_row ovtp nvtp) (seq 0 H)) [] = erc_row ovtp nvtp l.
Proof.
  intros Hl. rewrite (nth_indep _ [] (erc_row ovtp nvtp 0%nat)) by (by rewrite length_map, length_seq).
  by rewrite map_nth, seq_nth.
Qed.

(** A row of the merged page. *)
Lemma merged_char text ovtp nvtp l c : receives text ovtp -> receives text nvtp -> (l < H)%nat -> (c < 40)%nat ->
  nth c (erc_row ovtp nvtp l) 0 =
  if got_row nvtp l then
    if got_row ovtp l then merge_char (char_at (vp_data ovtp) l c) (char_at (vp_data nvtp) l c)
    else char_at (vp_data nvtp) l c
  else char_at (vp_data ovtp) l c.
Proof.
  intros Ho Hn Hl Hc. unfold erc_row, got_row, char_at. rewrite !page_row_nat.
  pose proof (Ho l Hl) as Ho'. pose proof (Hn l Hl) as Hn'. rewrite page_row_nat in Ho', Hn'. unfold got_row in *.
  destruct (Z.testbit (vp_lines nvtp) _); cbn [negb]; [|done].
  destruct (Z.testbit (vp_lines ovtp) _); [|done].
  rewrite nth_zip_with; [done| |]; [rewrite (proj1 (Ho' eq_refl)) | rewrite (proj1 (Hn' eq_refl))]; lia.
Qed.

Lemma merged_length text ovtp nvtp l : receives text ovtp -> receives text nvtp -> (l < H)%nat ->
  got_row nvtp l || got_row ovtp l = true -> length (erc_row ovtp nvtp l) = 40%nat.
Proof.
  intros Ho Hn Hl Hgot. pose proof (Ho l Hl) as Ho'. pose proof (Hn l Hl) as Hn'.
  unfold erc_row. fold (got_row nvtp l) (got_row ovtp l).
  destruct (got_row nvtp l), (got_row ovtp l); cbn [negb]; try done;
    rewrite ?length_zip_with, ?(proj1 (Ho' eq_refl)), ?(proj1 (Hn' eq_refl)); done.
Qed.

(** receiving a page twice repairs it: when two receptions of the same text are merged, the page has the
    rows that either had, a character of it is right exactly if it was in one of them, and the others are
    still marked. *)
Theorem erc_repairs text ovtp nvtp :
  receives text ovtp -> receives text nvtp ->
  (vp_errors nvtp = 0 -> forall l c, (l < H)%nat -> (c < 40)%nat -> got_row nvtp l = true -> right_char text nvtp l c) ->
  let merged := do_erc ovtp nvtp in
  (vp_pgno merged, vp_subno merged, vp_lines merged) =
    (vp_pgno nvtp, vp_subno nvtp, Z.lor (vp_lines nvtp) (vp_lines ovtp)) /\
  receives text merged /\
  forall l c, (l < H)%nat -> (c < 40)%nat ->
    right_char text merged l c <-> right_char text ovtp l c \/ right_char text nvtp l c.
Proof.
  intros Ho Hn Hclean. unfold do_erc. cbv zeta.
  destruct (_ && _) eqn:E.
  - apply andb_prop in E as [He%Z.eqb_eq Hlines%Z.eqb_eq]. split; [|split; [done|]].
    + by rewrite Hlines, Z.lor_diag.
    + intros l c Hl Hc. split; [by right|]. intros [[Hgot _] | Hr]; [|done].
      unfold got_row in Hgot. rewrite Hlines in Hgot. by apply Hclean.
  - assert (Hgot : forall l, Z.testbit (Z.lor (vp_lines nvtp) (vp_lines ovtp)) (Z.of_nat l) =
        got_row nvtp l || got_row ovtp l) by (intros l; apply Z.lor_spec).
    split; [done|]. split.
    + intros l Hl. rewrite page_row_nat. unfold got_row, char_at. cbn [vp_lines vp_data].
      rewrite Hgot, merged_row by done. intros Hg. split; [by apply merged_length with text|]. intros c Hc.
      rewrite (merged_char text) by done. fold (char_at text l c).
      pose proof (Ho l Hl) as Ho'. pose proof (Hn l Hl) as Hn'.
      destruct (got_row nvtp l), (got_row ovtp l); try done;
        try (by apply (proj2 (Ho' eq_refl))); try (by apply (proj2 (Hn' eq_refl))).
      unfold merge_char. destruct (char_at _ _ _ =? _);
        [by apply (proj2 (Ho' eq_refl)) | by apply (proj2 (Hn' eq_refl))].
    + intros l c Hl Hc. unfold right_char, got_row, char_at at 1. cbn [vp_lines vp_data].
      rewrite Hgot, merged_row by done. rewrite (merged_char text) by done.
      fold (got_row ovtp l) (got_row nvtp l). pose proof (Ho l Hl) as Ho'. pose proof (Hn l Hl) as Hn'.
      destruct (got_row nvtp l), (got_row ovtp l); cbn [orb]; try tauto;
        [|split; [by right | intros [[? _] | ?]; done] | split; [by left | intros [? | [? _]]; done]
         | split; [by intros [? _] | intros [[? _] | [? _]]; done]].
      destruct (Ho' eq_refl) as [_ Hoc], (Hn' eq_refl) as [_ Hnc]. specialize (Hoc c Hc). specialize (Hnc c Hc).
      unfold merge_char. destruct (Z.eqb_spec (char_at (vp_data nvtp) l c) BAD_CHAR) as [Eb | Eb].
      * split; [by left|]. intros [? | [_ Hr]]; [done|]. split; [done|]. destruct Hoc as [-> | ->]; congruence.
      * destruct Hnc as [Hnc | ?]; [|done]. by split; [right | intros _].
Qed.

(** ** Examples *)

Definition empty_cache : cache := Cache (repeat [] (Z.to_nat HASH_SIZE)) true 0 (repeat 0 (Z.to_nat 0xa00)).

Lemma empty_represents : represents [] empty_cache.
Proof. split; [by vm_compute | done | apply repeat_length | done]. Qed.

(** Page 100 with one row, of spaces and its first characters. *)
Definition page_100 (errors : Z) (first : list Z) : vt_page :=
  VtPage 0x100 0 0 0 errors 1 ((first ++ repeat 32 38) :: repeat (repeat 32 40) 24) 0 [].

Lemma cache_is_page_list_witness :
  exists ca, cache_put true empty_cache (page_100 0 [65; 66]) =
    mret (Some (page_100 0 [65; 66]), page_100 0 [65; 66], ca) /\
  represents [page_100 0 [65; 66]] ca.
Proof.
  destruct (cache_is_page_list [] empty_cache 0 0 (page_100 0 [65; 66]) empty_represents) as (_ & _ & H' & _);
    [lia | by vm_compute | exact H'].
Defined.

Lemma page_100_receives errors a b a' b' : (a' = a \/ a' = BAD_CHAR) -> (b' = b \/ b' = BAD_CHAR) ->
  receives [a :: b :: repeat 32 38] (page_100 errors [a'; b']).
Proof.
  intros Ha Hb [|l] Hl Hgot; [|unfold got_row in Hgot; cbn [page_100 vp_lines] in Hgot; by rewrite Z.bits_above_log2 in Hgot by (cbn; lia)].
  split; [done|]. intros [|[|c]] Hc; [done..|]. by left.
Qed.

Lemma erc_repairs_witness :
  vp_data (do_erc (page_100 1 [65; BAD_CHAR]) (page_100 1 [BAD_CHAR; 66])) = vp_data (page_100 0 [65; 66]) /\
  right_char [65 :: 66 :: repeat 32 38] (do_erc (page_100 1 [65; BAD_CHAR]) (page_100 1 [BAD_CHAR; 66])) 0 0.
Proof.
  split; [done|].
  refine (proj2 (proj2 (proj2 (erc_repairs [65 :: 66 :: repeat 32 38] _ _ _ _ _)) 0%nat 0%nat _ _) _).
  - by apply page_100_receives; [left | right].
  - by apply page_100_receives; [right | left].
  - done.
  - unfold H. lia.
  - lia.
  - by left.
Defined.
