(* ===== verification/Teletext.v ===== *)
(** * vbi.c: assembling teletext pages

    Packets of 42 bytes arrive in any order of the eight magazines.  A header starts a page of its magazine
    and finishes the one before it, packets 1 to 24 are its rows, packets 26 and 27 enhance and link it.  A
    finished page is put into the cache and sent to the clients.  The packets come in PES packets from the
    demultiplexer. *)

From S2P Require Export TeletextCache.

(** ** State *)

(** [struct raw_page] *)
Record raw_page := RawPage {
  rp_page : vt_page;
  rp_enh : enhance_state;
}.

(** What the clients are sent. *)
Inductive vt_event :=
  | EvPage (query : Z) (vtp : vt_page)
  | EvHeader (pgno subno flags : Z) (data : list Z)
  | EvXpacket (mag pkt errors : Z) (data : list Z)
  | EvReset.

(** [struct vbi]: the cache, the pages in progress, one for each magazine, and the magazine of the page of
    the last header; how often memory has been allocated, and the events that were sent. *)
Record vbi := Vbi {
  vb_cache : option cache;
  vb_rpage : list raw_page;
  vb_ppage : Z;
  vb_tick : nat;
  vb_events : list vt_event;
}.

Definition no_page : vt_page := VtPage 0 0 0 0 0 0 [] 0 [].

Definition rpage (mag : Z) (v : vbi) : raw_page := nth (Z.to_nat mag) (vb_rpage v) (RawPage no_page (Enhance 0 [])).

Definition set_rpage (mag : Z) (rp : raw_page) (v : vbi) : vbi :=
  Vbi (vb_cache v) (<[Z.to_nat mag := rp]> (vb_rpage v)) (vb_ppage v) (vb_tick v) (vb_events v).

Definition set_page (mag : Z) (vtp : vt_page) (v : vbi) : vbi := set_rpage mag (RawPage vtp (rp_enh (rpage mag v))) v.
Definition set_enh (mag : Z) (eh : enhance_state) (v : vbi) : vbi := set_rpage mag (RawPage (rp_page (rpage mag v)) eh) v.

Definition vbi_send (ev : vt_event) (v : vbi) : vbi :=
  Vbi (vb_cache v) (vb_rpage v) (vb_ppage v) (vb_tick v) (vb_events v ++ [ev]).

Definition set_cache (ca : option cache) (v : vbi) : vbi :=
  Vbi ca (vb_rpage v) (vb_ppage v) (vb_tick v) (vb_events v).

Definition set_flags (flags : Z) (vtp : vt_page) : vt_page :=
  VtPage (vp_pgno vtp) (vp_subno vtp) (vp_lang vtp) flags (vp_errors vtp) (vp_lines vtp) (vp_data vtp)
    (vp_flof vtp) (vp_link vtp).

(** [flags & ~PG_ACTIVE], [flags & PG_x] *)
Definition inactive (vtp : vt_page) : vt_page := set_flags (Z.ldiff (vp_flags vtp) PG_ACTIVE) vtp.
Definition page_flag (vtp : vt_page) (flag : Z) : bool := negb (Z.land (vp_flags vtp) flag =? 0).

Definition out_of_sync (v : vbi) : vbi :=
  Vbi (vb_cache v) (map (λ rp, RawPage (inactive (rp_page rp)) (rp_enh rp)) (vb_rpage v)) (vb_ppage v)
    (vb_tick v) (vb_events v).

(** ** Packets *)

Section Vbi.
Context (latin1 : Z) (isalpha : Z -> bool) (malloc_ok : nat -> bool).

(** The page of a magazine is finished, unless [page] is its number. *)
Definition vbi_send_page (v : vbi) (mag page : Z) : res vbi :=
  let rp := rpage mag v in
  if page_flag (rp_page rp) PG_ACTIVE then
    if negb (Z.rem (vp_pgno (rp_page rp)) 256 =? page) then
      vtp ← enhance latin1 (rp_enh rp) (inactive (rp_page rp));
      match vb_cache v with
      | Some ca =>
          '(cvtp, vtp, ca) ← cache_put (malloc_ok (vb_tick v)) ca vtp;
          let v := Vbi (Some ca) (vb_rpage v) (vb_ppage v) (S (vb_tick v)) (vb_events v) in
          mret (vbi_send (EvPage 0 (match cvtp with Some p => p | None => vtp end)) (set_page mag vtp v))
      | None => mret (vbi_send (EvPage 0 vtp) (set_page mag vtp v))
      end
    else mret v
  else mret v.

(** The bytes of a packet; it has 42. *)
Definition byte_at (p : list Z) (i : nat) : Z := nth i p 0.

(** [hamm8(p + i)], [hamm16(p + i)] and [hamm24(p + i)] *)
Definition hamm8_at (p : list Z) (i : nat) (err : Z) : Z * Z := hamm8 (byte_at p i) err.
Definition hamm16_at (p : list Z) (i : nat) (err : Z) : Z * Z := hamm16 (byte_at p i) (byte_at p (i + 1)) err.
Definition hamm24_at (p : list Z) (i : nat) (err : Z) : Z * Z :=
  hamm24 (byte_at p i) (byte_at p (i + 1)) (byte_at p (i + 2)) err.

(** [err & 0xf000] *)
Definition lost (err : Z) : bool := negb (Z.land err 0xf000 =? 0).

(** The languages of a header. *)
Definition languages : list Z := [0; 4; 2; 6; 1; 5; 3; 7].

(** The flags of a header, from its bytes. *)
Definition header_flags (b2 b3 b4 : Z) : Z :=
  Z.lor (Z.lor (Z.land b4 0x1f) (Z.land b3 0xc0)) (Z.shiftr (Z.land b2 0x80) 2).

Definition blank_rows : list (list Z) := repeat (repeat 32 40) 24.

(** Packet 0.  [p] are the 40 bytes behind the address. *)
Definition header_packet (v : vbi) (mag err : Z) (p : list Z) : res (Z * vbi) :=
  let mag8 := if mag =? 0 then 8 else mag in
  let '(b1, err) := hamm16_at p 0 err in
  let '(b2, err) := hamm16_at p 2 err in
  let '(b3, err) := hamm16_at p 4 err in
  let '(b4, err) := hamm16_at p 6 err in
  v ← (if page_flag (rp_page (rpage (vb_ppage v) v)) PG_MAGSERIAL then vbi_send_page v (vb_ppage v) b1 else mret v);
  v ← vbi_send_page v mag b1;
  if lost err then mret (4, v)
  else
    let '(chars, bad) := chk_parity (take 32 (drop 8 p)) in
    let errors := Z.shiftr err 8 + bad in
    let pgno := mag8 * 256 + b1 in
    let subno := Z.land (b2 + b3 * 256) 0x3f7f in
    let lang := nth (Z.to_nat (Z.shiftr b4 5)) languages 0 + (if latin1 =? LATIN1 then 0 else 8) in
    let flags := header_flags b2 b3 b4 in
    let row := take 8 p ++ conv2latin latin1 isalpha chars lang in
    let old := rp_page (rpage mag v) in
    let page := VtPage pgno subno lang flags errors 1 (vp_data old) 0 (vp_link old) in
    let v := set_page mag page (Vbi (vb_cache v) (vb_rpage v) mag (vb_tick v) (vb_events v)) in
    let v := vbi_send (EvHeader pgno subno flags row) v in
    if b1 =? 0xff then mret (0, v)
    else
      let page := VtPage pgno subno lang (Z.lor flags PG_ACTIVE) errors 1 (row :: blank_rows) 0 (vp_link old) in
      mret (0, set_enh mag (init_enhance (rp_enh (rpage mag v))) (set_page mag page v)).

(** Packets 1 to 24. *)
Definition row_packet (v : vbi) (mag pkt : Z) (p : list Z) : Z * vbi :=
  let '(chars, err) := chk_parity p in
  let vtp := rp_page (rpage mag v) in
  if negb (page_flag vtp PG_ACTIVE) then (0, v)
  else
    let chars := conv2latin latin1 isalpha chars (vp_lang vtp) in
    let page := VtPage (vp_pgno vtp) (vp_subno vtp) (vp_lang vtp) (vp_flags vtp) (vp_errors vtp + err)
      (Z.lor (vp_lines vtp) (Z.shiftl 1 pkt)) (vp_data vtp) (vp_flof vtp) (vp_link vtp) in
    (0, set_page mag (set_row pkt chars page) v).

(** The thirteen words of packet 26. *)
Fixpoint words_at (n i : nat) (p : list Z) (err : Z) : list Z * Z :=
  match n with
  | O => ([], err)
  | S n =>
      let '(t, err) := hamm24_at p i err in
      let '(ts, err) := words_at n (i + 3) p err in
      (t :: ts, err)
  end.

Definition enhancement_packet (v : vbi) (mag err : Z) (p : list Z) : res (Z * vbi) :=
  if negb (page_flag (rp_page (rpage mag v)) PG_ACTIVE) then mret (0, v)
  else
    let '(d, err) := hamm8_at p 0 err in
    if lost err then mret (4, v)
    else
      let '(t, err) := words_at 13 1 p err in
      if lost err then mret (4, v)
      else
        eh ← add_enhance (rp_enh (rpage mag v)) d t;
        mret (0, set_enh mag eh v).

(** The links of packet 27 from number [i] on: the page, and whether a word was lost. *)
Fixpoint links_at (n i : nat) (mag : Z) (p : list Z) (vtp : vt_page) : bool * vt_page :=
  match n with
  | O => (false, vtp)
  | S n =>
      let '(b1, err) := hamm16_at p (1 + 6 * i) 0 in
      let '(b2, err) := hamm16_at p (3 + 6 * i) err in
      let '(b3, err) := hamm16_at p (5 + 6 * i) err in
      if lost err then (true, vtp)
      else
        let x := Z.lor (Z.shiftr b2 7) (Z.land (Z.shiftr b3 5) 0x06) in
        let m := Z.lxor mag x in
        let link := ((if m =? 0 then 8 else m) * 256 + b1, Z.land (b2 + b3 * 256) 0x3f7f) in
        links_at n (S i) mag p
          (VtPage (vp_pgno vtp) (vp_subno vtp) (vp_lang vtp) (vp_flags vtp) (vp_errors vtp) (vp_lines vtp)
             (vp_data vtp) (vp_flof vtp) (<[i := link]> (vp_link vtp)))
  end.

Definition link_packet (v : vbi) (mag err : Z) (p : list Z) : Z * vbi :=
  let vtp := rp_page (rpage mag v) in
  if negb (page_flag vtp PG_ACTIVE) then (0, v)
  else
    let '(b1, err) := hamm8_at p 0 err in
    let '(b2, err) := hamm8_at p 37 err in
    if lost err then (4, v)
    else if negb (b1 =? 0) || (Z.land b2 8 =? 0) then (0, v)
    else
      let '(bad, vtp) := links_at 6 0 mag p vtp in
      if bad : bool then (1, set_page mag vtp v)
      else
        (0, set_page mag (VtPage (vp_pgno vtp) (vp_subno vtp) (vp_lang vtp) (vp_flags vtp) (vp_errors vtp)
              (vp_lines vtp) (vp_data vtp) 1 (vp_link vtp)) v).

(** Packet 30 of magazine 8.  The bytes are decoded in place. *)
Definition service_packet (v : vbi) (mag err : Z) (p : list Z) : Z * vbi :=
  if negb (mag =? 0) then (0, v)
  else
    let '(p0, err) := hamm8_at p 0 err in
    let p := <[0%nat := p0]> p in
    let '(p1, err) := hamm16_at p 1 err in
    let p := <[1%nat := p1]> p in
    let '(p3, err) := hamm16_at p 3 err in
    let p := <[3%nat := p3]> p in
    let '(p5, err) := hamm16_at p 5 err in
    let p := <[5%nat := p5]> p in
    if lost err then (4, v)
    else
      let '(chars, bad) := chk_parity (take 20 (drop 20 p)) in
      let p := take 20 p ++ conv2latin latin1 isalpha chars 0 in
      (0, vbi_send (EvXpacket 8 30 (err + bad) p) v).

(** [vt_line]: one packet. *)
Definition vt_line (v : vbi) (p : list Z) : res (Z * vbi) :=
  let '(hdr, err) := hamm16_at p 0 0 in
  if lost err then mret (-4, v)
  else
    let mag := Z.land hdr 7 in
    let pkt := Z.land (Z.shiftr hdr 3) 0x1f in
    let p := drop 2 p in
    if pkt =? 0 then header_packet v mag err p
    else if pkt <=? 24 then mret (row_packet v mag pkt p)
    else if pkt =? 26 then enhancement_packet v mag err p
    else if pkt =? 27 then mret (link_packet v mag err p)
    else if pkt =? 30 then mret (service_packet v mag err p)
    else mret (0, v).

Definition vbi_query_page (v : vbi) (pgno subno : Z) : option vt_page * vbi :=
  match vb_cache v with
  | Some ca =>
      let '(vtp, ca) := cache_get ca pgno subno in
      let v := set_cache (Some ca) v in
      match vtp with
      | Some vtp => (Some vtp, vbi_send (EvPage 1 vtp) v)
      | None => (None, v)
      end
  | None => (None, v)
  end.

Definition vbi_reset (v : vbi) : vbi := vbi_send EvReset (set_cache (option_map cache_reset (vb_cache v)) v).

(** ** PES packets *)

(** The bits of a byte in the other order. *)
Definition byterev8 : list Z :=
  [0x00; 0x80; 0x40; 0xc0; 0x20; 0xa0; 0x60; 0xe0; 0x10; 0x90; 0x50; 0xd0; 0x30; 0xb0; 0x70; 0xf0;
   0x08; 0x88; 0x48; 0xc8; 0x28; 0xa8; 0x68; 0xe8; 0x18; 0x98; 0x58; 0xd8; 0x38; 0xb8; 0x78; 0xf8;
   0x04; 0x84; 0x44; 0xc4; 0x24; 0xa4; 0x64; 0xe4; 0x14; 0x94; 0x54; 0xd4; 0x34; 0xb4; 0x74; 0xf4;
   0x0c; 0x8c; 0x4c; 0xcc; 0x2c; 0xac; 0x6c; 0xec; 0x1c; 0x9c; 0x5c; 0xdc; 0x3c; 0xbc; 0x7c; 0xfc;
   0x02; 0x82; 0x42; 0xc2; 0x22; 0xa2; 0x62; 0xe2; 0x12; 0x92; 0x52; 0xd2; 0x32; 0xb2; 0x72; 0xf2;
   0x0a; 0x8a; 0x4a; 0xca; 0x2a; 0xaa; 0x6a; 0xea; 0x1a; 0x9a; 0x5a; 0xda; 0x3a; 0xba; 0x7a; 0xfa;
   0x06; 0x86; 0x46; 0xc6; 0x26; 0xa6; 0x66; 0xe6; 0x16; 0x96; 0x56; 0xd6; 0x36; 0xb6; 0x76; 0xf6;
   0x0e; 0x8e; 0x4e; 0xce; 0x2e; 0xae; 0x6e; 0xee; 0x1e; 0x9e; 0x5e; 0xde; 0x3e; 0xbe; 0x7e; 0xfe;
   0x01; 0x81; 0x41; 0xc1; 0x21; 0xa1; 0x61; 0xe1; 0x11; 0x91; 0x51; 0xd1; 0x31; 0xb1; 0x71; 0xf1;
   0x09; 0x89; 0x49; 0xc9; 0x29; 0xa9; 0x69; 0xe9; 0x19; 0x99; 0x59; 0xd9; 0x39; 0xb9; 0x79; 0xf9;
   0x05; 0x85; 0x45; 0xc5; 0x25; 0xa5; 0x65; 0xe5; 0x15; 0x95; 0x55; 0xd5; 0x35; 0xb5; 0x75; 0xf5;
   0x0d; 0x8d; 0x4d; 0xcd; 0x2d; 0xad; 0x6d; 0xed; 0x1d; 0x9d; 0x5d; 0xdd; 0x3d; 0xbd; 0x7d; 0xfd;
   0x03; 0x83; 0x43; 0xc3; 0x23; 0xa3; 0x63; 0xe3; 0x13; 0x93; 0x53; 0xd3; 0x33; 0xb3; 0x73; 0xf3;
   0x0b; 0x8b; 0x4b; 0xcb; 0x2b; 0xab; 0x6b; 0xeb; 0x1b; 0x9b; 0x5b; 0xdb; 0x3b; 0xbb; 0x7b; 0xfb;
   0x07; 0x87; 0x47; 0xc7; 0x27; 0xa7; 0x67; 0xe7; 0x17; 0x97; 0x57; 0xd7; 0x37; 0xb7; 0x77; 0xf7;
   0x0f; 0x8f; 0x4f; 0xcf; 0x2f; 0xaf; 0x6f; 0xef; 0x1f; 0x9f; 0x5f; 0xdf; 0x3f; 0xbf; 0x7f; 0xff].

(** The 42 bytes of a data unit, which start four bytes behind its own start. *)
Fixpoint unit_bytes (n : nat) (buf : mem) (p : Z) : res (list Z) :=
  match n with
  | O => mret []
  | S n => b ← at_ buf p; bs ← unit_bytes n buf (p + 1); mret (entry byterev8 b :: bs)
  end.

(** The loop over the data units from [p] on; each takes at least two bytes. *)
Fixpoint data_units (fuel : nat) (v : vbi) (buf : mem) (p len : Z) : res vbi :=
  match fuel with
  | O => Err OutOfFuel
  | S fuel =>
      if p <? len then
        data ← unit_bytes 42 buf (p + 4);
        '(_, v) ← vt_line v data;
        unit_length ← at_ buf (p + 1);
        data_units fuel v buf (u32 (p + 2 + unit_length)) len
      else mret v
  end.

Definition dvb_handle_pes_payload (v : vbi) (buf : mem) (len : Z) : res vbi :=
  data_identifier ← at_ buf 0;
  if (data_identifier <? 0x10) || (0x1f <? data_identifier) then mret v
  else data_units (S (length buf)) v buf 1 len.
End Vbi.
