(* ===== verification/TeletextCorrect.v ===== *)
(** * A teletext page is received as it is sent

    The packets of a page, as ETS 300 706 sends them: a header whose bytes are protected by Hamming codes and
    rows of characters with odd parity.  When each protected byte has at most one wrong bit, the page is
    assembled, and put into the cache and sent to the clients at the next header. *)

From S2P Require Export Teletext TeletextCacheCorrect.

(** ** What is sent *)

(** A byte of Hamming 8/4 with at most one wrong bit. *)
Definition received8 (d b : Z) : Prop :=
  b = bits_value (encode8 d) \/ exists i, (i < 8)%nat /\ b = bits_value (wrong_bit i (encode8 d)).

(** A character with odd parity. *)
Definition encode7 (c : Z) : Z := bits_value (bits_of 7 c ++ [odd_bit (bits_of 7 c)]).
Definition is_char (c : Z) : Prop := 0 <= c < 128.

(** The header of a page: its magazine and page number, the bytes of the subpage number and the flags, and
    the text behind them. *)
Record header := Header { hd_mag : Z; hd_page : Z; hd_b2 : Z; hd_b3 : Z; hd_b4 : Z; hd_text : list Z }.

Record header_ok (h : header) : Prop := {
  hd_mag_ok : 0 <= hd_mag h < 8;
  hd_page_ok : 0 <= hd_page h < 256;
  hd_b2_ok : 0 <= hd_b2 h < 256;
  hd_b3_ok : 0 <= hd_b3 h < 256;
  hd_b4_ok : 0 <= hd_b4 h < 256;
  hd_text_ok : length (hd_text h) = 32%nat /\ Forall is_char (hd_text h);
}.

Definition nibbles (v : Z) : list Z := [v mod 16; v / 16].

(** The packet of a header, as it is received: the protected bytes are [bytes]. *)
Definition header_received (h : header) (bytes : list Z) : Prop :=
  Forall2 received8 (nibbles (hd_mag h) ++ nibbles (hd_page h) ++ nibbles (hd_b2 h) ++ nibbles (hd_b3 h) ++
    nibbles (hd_b4 h)) bytes.
Definition header_bytes (h : header) (bytes : list Z) : list Z := bytes ++ map encode7 (hd_text h).

(** A row of magazine [mag], with its number. *)
Definition row_ok (row : Z * list Z) : Prop := 1 <= row.1 <= 24 /\ length row.2 = 40%nat /\ Forall is_char row.2.
Definition row_received (mag : Z) (row : Z * list Z) (p : list Z) : Prop :=
  exists b0 b1, p = b0 :: b1 :: map encode7 row.2 /\
    Forall2 received8 (nibbles (mag + 8 * row.1)) [b0; b1].

(** ** Reading codes *)

Lemma hamm8_read d b err : 0 <= d < 16 -> received8 d b ->
  exists n, 0 <= n <= 1 /\ hamm8 b err = (d, err + (256 * n + d)).
Proof.
  intros Hd Hb. destruct (hamm8_corrects d err Hd) as (H0 & H1 & _). unfold decode8 in *.
  destruct Hb as [-> | (i & Hi & ->)]; [exists 0 | exists 1]; (split; [lia|]); [exact H0 | by apply H1].
Qed.

Lemma hamm16_read v b0 b1 err : 0 <= v < 256 -> received8 (v mod 16) b0 -> received8 (v / 16) b1 ->
  exists n, 0 <= n <= 2 /\ hamm16 b0 b1 err = (v, err + 256 * n + (v mod 16 + v / 16)).
Proof.
  intros Hv H0 H1.
  destruct (hamm8_read _ _ 0 (Z.mod_pos_bound v 16 ltac:(lia)) H0) as (n0 & Hn0 & E0).
  destruct (hamm8_read (v / 16) _ 0 ltac:(Z.div_mod_to_equations; lia) H1) as (n1 & Hn1 & E1).
  unfold hamm8 in E0, E1. injection E0 as Ea0 Ee0. injection E1 as Ea1 Ee1.
  exists (n0 + n1). split; [lia|]. unfold hamm16. rewrite Ea0, Ea1. f_equal; [|lia].
  replace (v / 16 * 16) with (Z.shiftl (v / 16) 4) by (rewrite Z.shiftl_mul_pow2; lia).
  rewrite lor_add by (change (2 ^ 4) with 16; Z.div_mod_to_equations; lia).
  change (2 ^ 4) with 16. Z.div_mod_to_equations; lia.
Qed.

Lemma all_chars_read : forallb (λ c, bool_decide (check_char (encode7 c) = (c, false))) (seqZ 0 128) = true.
Proof. by vm_compute. Qed.

(** Characters with odd parity are read. *)
Lemma chars_read text : Forall is_char text -> chk_parity (map encode7 text) = (text, 0).
Proof.
  induction 1 as [|c text Hc _ IH]; [done|]. pose proof all_chars_read as Hall. rewrite forallb_forall in Hall.
  specialize (Hall c ltac:(apply list_elem_of_In, elem_of_seqZ; unfold is_char in Hc; lia)).
  apply bool_decide_eq_true in Hall. cbn [map chk_parity]. by rewrite Hall, IH.
Qed.

(** ** Headers *)

Section Pages.
Context (latin1 : Z) (isalpha : Z -> bool) (malloc_ok : nat -> bool).
#[local] Abbreviation vt_line := (vt_line latin1 isalpha malloc_ok).
#[local] Abbreviation vbi_send_page := (vbi_send_page latin1 malloc_ok).
#[local] Abbreviation conv2latin := (conv2latin latin1 isalpha).

Definition header_pgno (h : header) : Z := (if hd_mag h =? 0 then 8 else hd_mag h) * 256 + hd_page h.
Definition header_subno (h : header) : Z := Z.land (hd_b2 h + hd_b3 h * 256) 0x3f7f.
Definition header_lang (h : header) : Z :=
  nth (Z.to_nat (Z.shiftr (hd_b4 h) 5)) languages 0 + (if latin1 =? LATIN1 then 0 else 8).
Definition header_control (h : header) : Z := header_flags (hd_b2 h) (hd_b3 h) (hd_b4 h).

(** Row 0: the protected bytes as they are, and the text. *)
Definition header_row (h : header) (bytes : list Z) : list Z :=
  drop 2 bytes ++ conv2latin (hd_text h) (header_lang h).

(** The page that a header starts, with [n] wrong bits in it. *)
Definition header_page (h : header) (n : Z) (bytes : list Z) (link : list (Z * Z)) : vt_page :=
  VtPage (header_pgno h) (header_subno h) (header_lang h) (Z.lor (header_control h) PG_ACTIVE) n 1
    (header_row h bytes :: blank_rows) 0 link.

Definition header_event (h : header) (bytes : list Z) : vt_event :=
  EvHeader (header_pgno h) (header_subno h) (header_control h) (header_row h bytes).

(** What a header that is read does after the pages before it are finished. *)
Definition start_page (h : header) (n : Z) (bytes : list Z) (v : vbi) : vbi :=
  let mag := hd_mag h in
  let old := rp_page (rpage mag v) in
  let page := VtPage (header_pgno h) (header_subno h) (header_lang h) (header_control h) n 1 (vp_data old) 0
    (vp_link old) in
  let v := set_page mag page (Vbi (vb_cache v) (vb_rpage v) mag (vb_tick v) (vb_events v)) in
  let v := vbi_send (header_event h bytes) v in
  if hd_page h =? 0xff then v
  else set_enh mag (init_enhance (rp_enh (rpage mag v))) (set_page mag (header_page h n bytes (vp_link old)) v).

Lemma low_mag mag : 0 <= mag < 8 -> Z.land mag 7 = mag /\ Z.land (Z.shiftr mag 3) 0x1f = 0.
Proof.
  intros Hm. assert (Hin : In mag [0; 1; 2; 3; 4; 5; 6; 7]) by (cbn; lia).
  by repeat (destruct Hin as [<- | Hin]; [done|]).
Qed.

Lemma not_lost err : 0 <= err < 0x1000 -> lost err = false.
Proof.
  intros He. unfold lost. apply negb_false_iff, Z.eqb_eq. apply Z.bits_inj'. intros n Hn.
  rewrite Z.land_spec, Z.bits_0. destruct (Z.lt_ge_cases n 12) as [Hl | Hl].
  - assert (Hin : In n [0; 1; 2; 3; 4; 5; 6; 7; 8; 9; 10; 11]) by (cbn; lia).
    apply andb_false_iff. right. by repeat (destruct Hin as [<- | Hin]; [done|]).
  - apply andb_false_iff. left. destruct (Z.eq_dec err 0) as [-> | Hne]; [apply Z.bits_0|].
    apply Z.bits_above_log2; [lia|]. apply Z.log2_lt_pow2; [lia|].
    apply Z.lt_le_trans with (2 ^ 12); [|apply Z.pow_le_mono_r]; lia.
Qed.

Lemma count_shiftr n low : 0 <= low < 256 -> Z.shiftr (256 * n + low) 8 = n.
Proof. intros Hl. rewrite Z.shiftr_div_pow2 by lia. change (2 ^ 8) with 256. Z.div_mod_to_equations; lia. Qed.

(** The count after two protected bytes: [n] wrong bits, and the data in the low byte. *)
Lemma hamm16_next n low v b0 b1 : 0 <= v < 256 -> received8 (v mod 16) b0 -> received8 (v / 16) b1 ->
  exists n' low', n <= n' <= n + 2 /\ low <= low' <= low + 30 /\
    hamm16 b0 b1 (256 * n + low) = (v, 256 * n' + low').
Proof.
  intros Hv H0 H1. destruct (hamm16_read v b0 b1 (256 * n + low) Hv H0 H1) as (k & Hk & ->).
  exists (n + k), (low + (v mod 16 + v / 16)). split; [lia|]. split; [Z.div_mod_to_equations; lia|]. f_equal. lia.
Qed.

Lemma header_read v h bytes : header_ok h -> header_received h bytes ->
  exists n, 0 <= n <= 10 /\
    vt_line v (header_bytes h bytes) =
    (v ← (if page_flag (rp_page (rpage (vb_ppage v) v)) PG_MAGSERIAL then vbi_send_page v (vb_ppage v) (hd_page h)
          else mret v);
     v ← vbi_send_page v (hd_mag h) (hd_page h);
     mret (0, start_page h n bytes v)).
Proof.
  intros [Hm Hp H2 H3 H4 [Hlen Htext]] Hb. unfold header_received, nibbles in Hb. cbn [app] in Hb.
  repeat match type of Hb with Forall2 _ (_ :: _) _ =>
    let b := fresh "b" in let R := fresh "R" in
    apply Forall2_cons_inv_l in Hb as (b & ? & R & Hb & ->) end.
  apply Forall2_nil_inv_l in Hb as ->.
  destruct (hamm16_next 0 0 (hd_mag h) b b0) as (n0 & l0 & Hn0 & Hl0 & E0); [lia | done..|].
  destruct (hamm16_next n0 l0 (hd_page h) b1 b2) as (n1 & l1 & Hn1 & Hl1 & E1); [lia | done..|].
  destruct (hamm16_next n1 l1 (hd_b2 h) b3 b4) as (n2 & l2 & Hn2 & Hl2 & E2); [lia | done..|].
  destruct (hamm16_next n2 l2 (hd_b3 h) b5 b6) as (n3 & l3 & Hn3 & Hl3 & E3); [lia | done..|].
  destruct (hamm16_next n3 l3 (hd_b4 h) b7 b8) as (n4 & l4 & Hn4 & Hl4 & E4); [lia | done..|].
  exists n4. split; [lia|]. change (256 * 0 + 0) with 0 in E0.
  unfold Teletext.vt_line, header_bytes, hamm16_at. cbn [byte_at nth app Nat.add]. rewrite E0.
  rewrite not_lost by lia. destruct (low_mag _ Hm) as [-> ->]. cbn [Z.eqb drop].
  unfold header_packet, hamm16_at. cbn [byte_at nth app Nat.add]. rewrite E1, E2, E3, E4.
  destruct (if page_flag _ _ then _ else _) as [v1|]; cbn [mbind res_bind]; [|done].
  destruct (vbi_send_page v1 _ _) as [v2|]; cbn [mbind res_bind]; [|done].
  rewrite not_lost by lia. cbn [drop take]. rewrite drop_0, take_0, take_ge by (rewrite length_map; lia).
  rewrite chars_read by done. rewrite count_shiftr, Z.add_0_r by lia.
  unfold start_page, header_page, header_event, header_row. cbn [drop]. by destruct (hd_page h =? 255).
Qed.

(** ** Rows *)

Lemma row_number mag pkt : 0 <= mag < 8 -> 0 <= pkt < 32 ->
  Z.land (mag + 8 * pkt) 7 = mag /\ Z.land (Z.shiftr (mag + 8 * pkt) 3) 0x1f = pkt.
Proof.
  intros Hm Hp. change 7 with (Z.ones 3). change 0x1f with (Z.ones 5). rewrite !Z.land_ones by lia.
  rewrite Z.shiftr_div_pow2 by lia. change (2 ^ 3) with 8. change (2 ^ 5) with 32. split; Z.div_mod_to_equations; lia.
Qed.

(** The page with a row. *)
Definition row_page (page : vt_page) (row : Z * list Z) : vt_page :=
  VtPage (vp_pgno page) (vp_subno page) (vp_lang page) (vp_flags page) (vp_errors page)
    (Z.lor (vp_lines page) (Z.shiftl 1 row.1)) (<[Z.to_nat row.1 := conv2latin row.2 (vp_lang page)]> (vp_data page))
    (vp_flof page) (vp_link page).

Lemma row_read v mag row p : 0 <= mag < 8 -> row_ok row -> row_received mag row p ->
  page_flag (rp_page (rpage mag v)) PG_ACTIVE = true ->
  vt_line v p = mret (0, set_page mag (row_page (rp_page (rpage mag v)) row) v).
Proof.
  intros Hm (Hpkt & Hlen & Htext) (b0 & b1 & -> & Hb) Hact. destruct row as [pkt text]. cbn [fst snd] in *.
  unfold nibbles in Hb. apply Forall2_cons_1 in Hb as [R0 Hb]. apply Forall2_cons_1 in Hb as [R1 _].
  destruct (hamm16_next 0 0 (mag + 8 * pkt) b0 b1) as (n & low & Hn & Hlow & E); [lia | done..|].
  change (256 * 0 + 0) with 0 in E. unfold Teletext.vt_line, hamm16_at. cbn [byte_at nth app Nat.add]. rewrite E.
  rewrite not_lost by lia. destruct (row_number mag pkt) as [-> ->]; [lia..|].
  destruct (Z.eqb_spec pkt 0) as [? | _]; [lia|]. destruct (Z.leb_spec pkt 24) as [_ | ?]; [|lia].
  unfold row_packet. cbn [drop]. rewrite drop_0, chars_read by done. rewrite Hact. cbn [negb].
  unfold row_page. rewrite Z.add_0_r. by destruct (rp_page (rpage mag v)).
Qed.

(** ** States *)

Lemma rpage_set mag rp v : (Z.to_nat mag < length (vb_rpage v))%nat -> rpage mag (set_rpage mag rp v) = rp.
Proof. intros Hm. unfold rpage. cbn [set_rpage vb_rpage]. rewrite nth_lookup, list_lookup_insert_eq by done. done. Qed.

(** The state while the page of [mag] is received: the page and its enhancements, and the state otherwise. *)
Definition in_page (mag : Z) (page : vt_page) (v : vbi) : Prop :=
  length (vb_rpage v) = 8%nat /\ rp_page (rpage mag v) = page /\ next_des (rp_enh (rpage mag v)) = 0.

Fixpoint vt_lines (v : vbi) (ps : list (list Z)) : res vbi :=
  match ps with
  | [] => mret v
  | p :: ps => '(_, v) ← vt_line v p; vt_lines v ps
  end.

Lemma vt_lines_app v ps qs : vt_lines v (ps ++ qs) = (v ← vt_lines v ps; vt_lines v qs).
Proof.
  revert v. induction ps as [|p ps IH]; intros v; [done|]. cbn [app vt_lines].
  destruct (vt_line v p) as [[z v1]|]; cbn [mbind res_bind]; [apply IH | done].
Qed.

Lemma rows_read mag rows ps : 0 <= mag < 8 -> Forall row_ok rows -> Forall2 (row_received mag) rows ps ->
  forall v page, in_page mag page v -> page_flag page PG_ACTIVE = true ->
  exists v', vt_lines v ps = mret v' /\ in_page mag (fold_left row_page rows page) v' /\
    vb_ppage v' = vb_ppage v /\ vb_cache v' = vb_cache v /\ vb_events v' = vb_events v.
Proof.
  intros Hm Hok Hrows. induction Hrows as [|row p rows ps Hr _ IH]; intros v page (Hlen & Hpage & Hdes) Hact;
    [by exists v|].
  apply Forall_cons_iff in Hok as [Hrow Hok]. cbn [vt_lines].
  rewrite (row_read v mag row p) by (try done; by rewrite Hpage). cbn [mbind res_bind mret res_ret].
  destruct (IH Hok (set_page mag (row_page (rp_page (rpage mag v)) row) v) (row_page page row))
    as (v' & Hrun & Hin & Hpp & Hca & Hev).
  - unfold in_page, set_page. rewrite rpage_set by lia. cbn [rp_page rp_enh set_rpage vb_rpage].
    rewrite length_insert, Hpage. done.
  - done.
  - exists v'. done.
Qed.

Lemma rows_flags rows page : vp_flags (fold_left row_page rows page) = vp_flags page.
Proof. revert page. induction rows as [|row rows IH]; intros page; [done|]. cbn [fold_left]. by rewrite IH. Qed.
Lemma rows_pgno rows page : vp_pgno (fold_left row_page rows page) = vp_pgno page.
Proof. revert page. induction rows as [|row rows IH]; intros page; [done|]. cbn [fold_left]. by rewrite IH. Qed.

(** ** Flags *)

Lemma flag_active page : page_flag page PG_ACTIVE = Z.testbit (vp_flags page) 8.
Proof.
  unfold page_flag. change PG_ACTIVE with (2 ^ 8). destruct (Z.testbit (vp_flags page) 8) eqn:E.
  - apply negb_true_iff, Z.eqb_neq. intros H0. apply (f_equal (λ x, Z.testbit x 8)) in H0.
    rewrite Z.land_spec, E in H0. done.
  - apply negb_false_iff, Z.eqb_eq, Z.bits_inj'. intros n Hn. rewrite Z.land_spec, Z.bits_0.
    destruct (Z.eq_dec n 8) as [-> | Hne]; [by rewrite E|]. rewrite Z.pow2_bits_false by done. by rewrite andb_false_r.
Qed.

Lemma inactive_flag page : page_flag (inactive page) PG_ACTIVE = false.
Proof. rewrite flag_active. cbn [inactive set_flags vp_flags]. by rewrite Z.ldiff_spec, andb_false_r. Qed.

Lemma header_active h n bytes link : page_flag (header_page h n bytes link) PG_ACTIVE = true.
Proof. rewrite flag_active. cbn [header_page vp_flags]. by rewrite Z.lor_spec, orb_true_r. Qed.

Lemma control_flags h : Z.ldiff (Z.lor (header_control h) PG_ACTIVE) PG_ACTIVE = header_control h.
Proof.
  assert (Hbit : Z.testbit (header_control h) 8 = false).
  { unfold header_control, header_flags. rewrite !Z.lor_spec, Z.shiftr_spec, !Z.land_spec by lia.
    by rewrite !andb_false_r. }
  apply Z.bits_inj'. intros n Hn. rewrite Z.ldiff_spec, Z.lor_spec. change PG_ACTIVE with (2 ^ 8).
  destruct (Z.eq_dec n 8) as [-> | Hne]; [by rewrite Hbit|].
  rewrite Z.pow2_bits_false by done. by rewrite orb_false_r, andb_true_r.
Qed.

(** ** The end of a page *)

Lemma send_inactive v mag page : page_flag (rp_page (rpage mag v)) PG_ACTIVE = false -> vbi_send_page v mag page = mret v.
Proof. intros Hf. unfold Teletext.vbi_send_page. by rewrite Hf. Qed.

Lemma put_flags erc pages page : vp_flags (pages_put erc pages page).1 = vp_flags page.
Proof.
  unfold pages_put. destruct (remove_first _ _) as [[old rest]|]; [|done]. destruct erc; [|done].
  cbn [fst]. unfold do_erc. by destruct (_ && _).
Qed.

Lemma send_page v mag number page pages ca :
  (forall n, malloc_ok n = true) -> 0 <= mag < 8 -> in_page mag page v -> page_flag page PG_ACTIVE = true ->
  Z.rem (vp_pgno page) 256 <> number -> 0 <= vp_pgno page < 0xa00 -> vb_cache v = Some ca -> represents pages ca ->
  exists v' ca', vbi_send_page v mag number = mret v' /\ page_flag (rp_page (rpage mag v')) PG_ACTIVE = false /\
    vb_cache v' = Some ca' /\ represents (pages_put (ca_erc ca) pages (inactive page)).2 ca' /\
    vb_events v' = vb_events v ++ [EvPage 0 (pages_put (ca_erc ca) pages (inactive page)).1].
Proof.
  intros Hmalloc Hm (Hlen & Hpage & Hdes) Hact Hnum Hpg Hca Hr. unfold Teletext.vbi_send_page.
  rewrite Hpage, Hact, (proj2 (Z.eqb_neq _ _) Hnum), Hca. cbn [negb].
  unfold enhance. rewrite Hdes. cbn [Z.ltb Z.compare mbind res_bind mret res_ret].
  destruct (cache_put_represents pages ca (inactive page) Hr Hpg) as (ca' & E & Hr').
  rewrite Hmalloc, E. cbn [mbind res_bind mret res_ret]. eexists _, ca'. split; [done|].
  split; [|done]. unfold set_page. cbn [vbi_send rpage vb_rpage].
  match goal with |- context [rpage mag (vbi_send ?ev ?x)] => change (rpage mag (vbi_send ev x)) with (rpage mag x) end.
  rewrite rpage_set by (cbn [vb_rpage]; lia). cbn [rp_page]. rewrite flag_active, put_flags, <- flag_active.
  apply inactive_flag.
Qed.

Lemma start_page_state h n bytes v : header_ok h -> hd_page h <> 255 -> length (vb_rpage v) = 8%nat ->
  in_page (hd_mag h) (header_page h n bytes (vp_link (rp_page (rpage (hd_mag h) v)))) (start_page h n bytes v) /\
  vb_ppage (start_page h n bytes v) = hd_mag h.
Proof.
  intros Hok Hpg Hlen. pose proof (hd_mag_ok _ Hok) as Hm. unfold start_page.
  rewrite (proj2 (Z.eqb_neq _ _) Hpg). split; [|done]. unfold in_page, set_enh, set_page.
  rewrite rpage_set by (cbn [set_rpage vb_rpage vbi_send]; rewrite !length_insert; lia).
  cbn [rp_page rp_enh set_rpage vb_rpage vbi_send init_enhance next_des].
  rewrite rpage_set by (cbn [set_rpage vb_rpage vbi_send]; rewrite !length_insert; lia).
  by rewrite !length_insert.
Qed.

Lemma start_page_events h n bytes v :
  vb_events (start_page h n bytes v) = vb_events v ++ [header_event h bytes] /\
  vb_cache (start_page h n bytes v) = vb_cache v.
Proof. unfold start_page. by destruct (hd_page h =? 255). Qed.

(** The page that was sent. *)
Definition received_page (h : header) (n : Z) (bytes : list Z) (rows : list (Z * list Z)) (link : list (Z * Z)) : vt_page :=
  VtPage (header_pgno h) (header_subno h) (header_lang h) (header_control h) n
    (fold_left (λ lines row, Z.lor lines (Z.shiftl 1 row.1)) rows 1)
    (fold_left (λ data row, <[Z.to_nat row.1 := conv2latin row.2 (header_lang h)]> data) rows
       (header_row h bytes :: blank_rows))
    0 link.

Lemma rows_fold rows pgno subno lang flags errors lines data flof link :
  fold_left row_page rows (VtPage pgno subno lang flags errors lines data flof link) =
  VtPage pgno subno lang flags errors (fold_left (λ lines row, Z.lor lines (Z.shiftl 1 row.1)) rows lines)
    (fold_left (λ data row, <[Z.to_nat row.1 := conv2latin row.2 lang]> data) rows data) flof link.
Proof. revert lines data. induction rows as [|row rows IH]; intros lines data; [done|]. cbn [fold_left]. apply IH. Qed.

Lemma rows_page h n bytes rows link :
  inactive (fold_left row_page rows (header_page h n bytes link)) = received_page h n bytes rows link.
Proof. unfold header_page. rewrite rows_fold. unfold inactive, set_flags, received_page. cbn. by rewrite control_flags. Qed.

(** A header behind a page. *)
Lemma next_header v h bytes mag page pages ca :
  (forall n, malloc_ok n = true) -> header_ok h -> header_received h bytes -> hd_mag h = mag -> vb_ppage v = mag ->
  in_page mag page v -> page_flag page PG_ACTIVE = true ->
  Z.rem (vp_pgno page) 256 <> hd_page h -> 0 <= vp_pgno page < 0xa00 -> vb_cache v = Some ca -> represents pages ca ->
  exists v' ca', vt_line v (header_bytes h bytes) = mret (0, v') /\
    vb_cache v' = Some ca' /\ represents (pages_put (ca_erc ca) pages (inactive page)).2 ca' /\
    vb_events v' = vb_events v ++ [EvPage 0 (pages_put (ca_erc ca) pages (inactive page)).1; header_event h bytes].
Proof.
  intros Hmalloc Hok Hrec Hmag Hpp Hin Hact Hnum Hpg Hca Hr. pose proof (hd_mag_ok _ Hok) as Hm. rewrite Hmag in Hm.
  destruct (header_read v h bytes Hok Hrec) as (n & _ & ->). rewrite Hmag, Hpp.
  destruct (send_page v mag (hd_page h) page pages ca) as (v1 & ca' & E1 & Hoff & Hca' & Hr' & Hev); [done..|].
  exists (start_page h n bytes v1), ca'. destruct (start_page_events h n bytes v1) as [-> ->].
  split; [|by rewrite Hev, <- app_assoc].
  destruct (page_flag _ PG_MAGSERIAL).
  - rewrite E1. cbn [mbind res_bind mret res_ret]. by rewrite (send_inactive v1) by done.
  - cbn [mbind res_bind mret res_ret]. by rewrite E1.
Qed.

(** No page is being received. *)
Definition idle (v : vbi) : Prop :=
  length (vb_rpage v) = 8%nat /\ forall mag, page_flag (rp_page (rpage mag v)) PG_ACTIVE = false.

Lemma first_header v h bytes : idle v -> header_ok h -> header_received h bytes ->
  exists n, 0 <= n <= 10 /\ vt_line v (header_bytes h bytes) = mret (0, start_page h n bytes v).
Proof.
  intros [_ Hidle] Hok Hrec. destruct (header_read v h bytes Hok Hrec) as (n & Hn & ->). exists n. split; [done|].
  rewrite (send_inactive v (vb_ppage v)) by done.
  destruct (page_flag _ _); cbn [mbind res_bind mret res_ret]; by rewrite send_inactive.
Qed.

Lemma header_number h : header_ok h -> 0 <= header_pgno h < 0xa00 /\ Z.rem (header_pgno h) 256 = hd_page h.
Proof.
  intros [Hm Hp _ _ _ _]. unfold header_pgno. destruct (Z.eqb_spec (hd_mag h) 0);
    (split; [lia|]; rewrite Z.rem_mod_nonneg by lia; Z.div_mod_to_equations; lia).
Qed.

(** C10: a teletext page is received as it was sent: a header whose ten protected bytes have at most one wrong
    bit each starts a page with the magazine, page and subpage numbers, the national characters and the
    control flags that were sent, the rows that follow, in any order, are in it in the characters of its
    language, and the next header of the magazine puts the page into the cache, which holds it with the
    others, and sends it to the clients; the wrong bits are counted. *)
Theorem page_received v pages ca h bytes rows ps h' bytes' :
  (forall n, malloc_ok n = true) -> idle v -> vb_cache v = Some ca -> represents pages ca ->
  header_ok h -> header_received h bytes -> hd_page h <> 255 ->
  Forall row_ok rows -> Forall2 (row_received (hd_mag h)) rows ps ->
  header_ok h' -> header_received h' bytes' -> hd_mag h' = hd_mag h -> hd_page h' <> hd_page h ->
  exists n v' ca', 0 <= n <= 10 /\
    vt_lines v (header_bytes h bytes :: ps ++ [header_bytes h' bytes']) = mret v' /\
    let page := received_page h n bytes rows (vp_link (rp_page (rpage (hd_mag h) v))) in
    vb_cache v' = Some ca' /\ represents (pages_put (ca_erc ca) pages page).2 ca' /\
    vb_events v' =
      vb_events v ++ [header_event h bytes; EvPage 0 (pages_put (ca_erc ca) pages page).1; header_event h' bytes'].
Proof.
  intros Hmalloc Hidle Hca Hr Hok Hrec Hpg Hrows Hps Hok' Hrec' Hmag Hnext.
  destruct (first_header v h bytes Hidle Hok Hrec) as (n & Hn & E0).
  set (link := vp_link (rp_page (rpage (hd_mag h) v))). set (page := header_page h n bytes link).
  destruct (start_page_state h n bytes v Hok Hpg (proj1 Hidle)) as [Hin Hpp].
  destruct (start_page_events h n bytes v) as [Hev0 Hca0].
  destruct (rows_read (hd_mag h) rows ps (hd_mag_ok _ Hok) Hrows Hps _ page Hin) as (v1 & E1 & Hin1 & Hpp1 & Hca1 & Hev1);
    [apply header_active|].
  destruct (header_number h Hok) as [Hno Hrem].
  destruct (next_header v1 h' bytes' (hd_mag h) (fold_left row_page rows page) pages ca)
    as (v2 & ca' & E2 & Hca2 & Hr2 & Hev2); try done.
  - congruence.
  - rewrite flag_active, rows_flags, <- flag_active. apply header_active.
  - rewrite rows_pgno. cbn [page header_page vp_pgno]. by rewrite Hrem.
  - by rewrite rows_pgno.
  - congruence.
  - unfold page in Hr2, Hev2. rewrite rows_page in Hr2, Hev2. exists n, v2, ca'. split; [done|]. split; [|split; [done|]].
    + cbn [vt_lines]. rewrite E0. cbn [mbind res_bind mret res_ret]. rewrite vt_lines_app, E1.
      cbn [mbind res_bind mret res_ret vt_lines]. by rewrite E2.
    + split; [done|]. by rewrite Hev2, Hev1, Hev0, <- app_assoc.
Qed.
End Pages.

(** ** Example *)

(** Page 123 with one row, and the header of page 124; the first byte has a wrong bit. *)
Definition header_123 : header := Header 1 0x23 0 0 0 (repeat 65 32).
Definition header_124 : header := Header 1 0x24 0 0 0 (repeat 65 32).
Definition header_encoded (h : header) : list Z :=
  map (λ d, bits_value (encode8 d))
    (nibbles (hd_mag h) ++ nibbles (hd_page h) ++ nibbles (hd_b2 h) ++ nibbles (hd_b3 h) ++ nibbles (hd_b4 h)).
Definition bytes_123 : list Z := <[0%nat := bits_value (wrong_bit 3 (encode8 1))]> (header_encoded header_123).
Definition row_1 : Z * list Z := (1, repeat 66 40).
Definition packet_1 : list Z := map (λ d, bits_value (encode8 d)) (nibbles 9) ++ map encode7 row_1.2.
Definition idle_vbi : vbi :=
  Vbi (Some empty_cache) (repeat (RawPage no_page (Enhance 0 (repeat 0 208))) 8) 0 0 [].

Lemma is_char_repeat c n : is_char c -> Forall is_char (repeat c n).
Proof. intros Hc. induction n as [|n IH]; [done|]. cbn [repeat]. by apply List.Forall_cons. Qed.

Lemma header_encoded_received h : header_received h (header_encoded h).
Proof. unfold header_received, header_encoded. apply Forall2_fmap_r, Forall_Forall2_diag, Forall_forall. by left. Qed.

Lemma page_received_witness : exists n v' ca',
  vt_lines LATIN1 (λ _, false) (λ _, true) idle_vbi
    [header_bytes header_123 bytes_123; packet_1; header_bytes header_124 (header_encoded header_124)] = mret v' /\
  vb_cache v' = Some ca' /\ represents [received_page LATIN1 (λ _, false) header_123 n bytes_123 [row_1] []] ca'.
Proof.
  edestruct (page_received LATIN1 (λ _, false) (λ _, true) idle_vbi [] empty_cache header_123 bytes_123 [row_1] [packet_1]
    header_124 (header_encoded header_124)) as (n & v' & ca' & _ & Hrun & Hca & Hr & _).
  - done.
  - split; [done|]. intros mag. unfold rpage. rewrite nth_lookup. cbn [idle_vbi vb_rpage].
    destruct (repeat (RawPage no_page (Enhance 0 (repeat 0 208))) 8 !! Z.to_nat mag) as [rp|] eqn:E; [|done].
    apply list_elem_of_lookup_2, list_elem_of_In, repeat_spec in E. by subst rp.
  - done.
  - apply empty_represents.
  - split; [cbn; lia..|]. split; [done|]. by apply is_char_repeat.
  - unfold header_received. cbn. apply Forall2_cons; [right; by exists 3%nat; split; [lia|]|].
    repeat (apply Forall2_cons; [by left|]). by apply Forall2_nil.
  - done.
  - apply List.Forall_cons; [|done]. split; [cbn; lia|]. split; [done|]. by apply is_char_repeat.
  - apply Forall2_cons; [|by apply Forall2_nil]. exists (bits_value (encode8 9)), (bits_value (encode8 0)).
    split; [done|]. repeat (apply Forall2_cons; [by left|]). by apply Forall2_nil.
  - split; [cbn; lia..|]. split; [done|]. by apply is_char_repeat.
  - apply header_encoded_received.
  - done.
  - done.
  - exists n, v', ca'. split; [exact Hrun|]. split; [exact Hca|]. exact Hr.
Defined.

(** ** Where the code reads outside its arrays *)

(** A character of the second set below the table of the set: the data of the triplet is not checked. *)
Lemma character_below_table : triplet LATIN1 (15 * 64) 0 (page_100 0 []) = Err OutOfBounds.
Proof. done. Qed.

(** A data unit of two bytes at the end of a PES payload: 42 bytes behind it are read. *)
Lemma unit_behind_payload :
  dvb_handle_pes_payload LATIN1 (λ _, false) (λ _, true) idle_vbi [0x10; 0xff; 0] 3 = Err OutOfBounds.
Proof. done. Qed.
