(* ===== verification/Esg.v ===== *)
(** * libesg: the electronic service guide

    The decoders of the tables of the guide.  A decoder reads a buffer from a position on, and returns NULL
    when it finds something it does not understand; the positions are 32-bit numbers.  A structure inside
    another is read from the rest of the same buffer, so reading behind the structure is no fault of the
    model as long as it stays in the buffer.  Memory that is freed is given by the list of the blocks, in
    order: freeing one twice is a fault.  Allocations are assumed to succeed: the code does not check them. *)

From S2P Require Export CMem.

(** ** Reading *)

(** A decoder: of the buffer, its size and the position; [None] is the exit with NULL. *)
Definition D (A : Type) : Type := mem -> Z -> Z -> res (option (A * Z)).

#[export] Instance D_ret : MRet D := λ A a buf size pos, Ok (Some (a, pos)).
#[export] Instance D_bind : MBind D := λ A B k d buf size pos,
  match d buf size pos with
  | Ok (Some (a, pos)) => k a buf size pos
  | Ok None => Ok None
  | Err f => Err f
  end.

(** [free(...); return NULL;] *)
Definition clean_up {A} (free : res unit) : D A := λ buf size pos, free ≫= (λ _, Ok None).

(** [buffer[pos]; pos += 1], and numbers of two and three bytes. *)
Definition read8 : D Z := λ buf size pos, b ← at_ buf pos; Ok (Some (b, u32 (pos + 1))).
Definition read16 : D Z := a ← read8; b ← read8; mret (Z.lor (Z.shiftl a 8) b).
Definition read24 : D Z :=
  a ← read8; b ← read8; c ← read8; mret (Z.lor (Z.lor (Z.shiftl a 16) (Z.shiftl b 8)) c).

Fixpoint bytes_at (n : nat) (buf : mem) (pos : Z) : res (list Z) :=
  match n with
  | O => mret []
  | S n => b ← at_ buf pos; bs ← bytes_at n buf (pos + 1); mret (b :: bs)
  end.

(** [memcpy(..., buffer + pos, n); pos += n] *)
Definition read_bytes (n : Z) : D (list Z) := λ buf size pos,
  bs ← bytes_at (Z.to_nat n) buf pos; Ok (Some (bs, u32 (pos + n))).

(** [n] times. *)
Fixpoint times {A} (n : nat) (d : D A) : D (list A) :=
  match n with
  | O => mret []
  | S n => a ← d; l ← times n d; mret (a :: l)
  end.

(** A byte with a bit set. *)
Definition bit_set (b mask : Z) : Z := if negb (Z.land b mask =? 0) then 1 else 0.

(** [size < pos + n]: then NULL is returned. *)
Definition need (free : res unit) (n : Z) : D unit := λ buf size pos,
  if size <? u32 (pos + n) then clean_up free buf size pos else Ok (Some (tt, pos)).

(** ** types.c *)

(** The loop of [vluimsbf8], with the offset, of 8 bits, and the length so far. *)
Fixpoint vluimsbf8_from (fuel : nat) (buf : mem) (pos size offset length : Z) : res (Z * Z) :=
  match fuel with
  | O => Err OutOfFuel
  | S fuel =>
      if size <? offset then mret (0, 0)
      else
        b ← at_ buf (pos + offset);
        let length := u32 (u32 (Z.shiftl length 7) + Z.land b 0x7f) in
        let offset := u8 (offset + 1) in
        if negb (Z.land b 0x80 =? 0) then vluimsbf8_from fuel buf pos size offset length
        else mret (offset, length)
  end.

(** The offset comes round after 256 bytes: without an end in them the loop has none. *)
Definition vluimsbf8 (buf : mem) (pos size : Z) : res (Z * Z) := vluimsbf8_from 257 buf pos size 0 0.

(** [pos += vluimsbf8(buffer + pos, size - pos, &length)] *)
Definition read_vlu : D Z := λ buf size pos,
  '(offset, length) ← vluimsbf8 buf pos (u32 (size - pos)); Ok (Some (length, u32 (pos + offset))).

(** ** Freeing *)

(** The blocks of a structure: itself, the parts behind pointers of it, and the nodes of its lists. *)
Inductive block := BRoot | BHeader | BData | BNode (i : nat) | BPart (i : nat).

#[export] Instance block_eq_dec : EqDecision block.
Proof. solve_decision. Defined.

(** Freeing blocks in order. *)
Definition free_all (blocks : list block) : res unit := if decide (NoDup blocks) then mret tt else Err BadPointer.

(** The nodes of a list of [n]. *)
Definition nodes (n : nat) : list block := map BNode (seq 0 n).

(** ** bootstrap/access_descriptor.c *)

Record esg_entry := EsgEntry {
  en_version : Z; en_multiple_stream_transport : Z; en_ip_version_6 : Z; en_provider_id : Z;
  en_source_ip : list Z; en_destination_ip : list Z; en_port : Z; en_tsi : Z;
}.

Record esg_access_descriptor := EsgAccessDescriptor { n_o_entries : Z; entry_list : list esg_entry }.

Definition esg_access_descriptor_free (n : nat) : res unit := free_all (nodes n ++ [BRoot]).

(** The addresses of the source and of the destination. *)
Definition read_addresses (ip_version_6 : Z) : D (list Z * list Z) :=
  let n := if ip_version_6 =? 0 then 4 else 16 in
  source ← read_bytes n; destination ← read_bytes n; mret (source, destination).

(** Entry number [i]. *)
Definition access_entry (i : nat) : D esg_entry :=
  version ← read8;
  entry_length ← read_vlu;
  need (esg_access_descriptor_free (S i)) entry_length;;
  flags ← read8;
  let ip_version_6 := bit_set flags 0x40 in
  provider_id ← read16;
  '(source, destination) ← read_addresses ip_version_6;
  port ← read16;
  tsi ← read16;
  mret (EsgEntry version (bit_set flags 0x80) ip_version_6 provider_id source destination port tsi).

Fixpoint access_entries (n i : nat) : D (list esg_entry) :=
  match n with
  | O => mret []
  | S n => e ← access_entry i; l ← access_entries n (S i); mret (e :: l)
  end.

(** A function of a buffer, which may be NULL, that is refused if its size is at most [least]. *)
Definition decoder {A} (least : Z) (d : D A) (buffer : option mem) (size : Z) : res (option A) :=
  match buffer with
  | None => mret None
  | Some buf => if size <=? least then mret None else r ← d buf size 0; mret (option_map fst r)
  end.

Definition esg_access_descriptor_decode : option mem -> Z -> res (option esg_access_descriptor) :=
  decoder 2
    (n ← read16; entries ← access_entries (Z.to_nat n) 0; mret (EsgAccessDescriptor n entries)).

(** ** bootstrap/provider_discovery_descriptor.c *)

Record esg_provider_discovery_descriptor := EsgProvider { pd_xml : list Z; pd_size : Z }.

(** There is no test for NULL. *)
Definition esg_esg_provider_discovery_descriptor_decode (buffer : option mem) (size : Z) :
    res (option esg_provider_discovery_descriptor) :=
  match buffer with
  | None => if size =? 0 then mret (Some (EsgProvider [] 0)) else Err BadPointer
  | Some buf => bs ← bytes_at (Z.to_nat size) buf 0; mret (Some (EsgProvider bs size))
  end.

Definition esg_provider_discovery_descriptor_free : res unit := free_all [BData; BRoot].

(** ** encapsulation/data_repository.c and string_repository.c *)

Record esg_data_repository := EsgDataRepository { dr_length : Z; dr_data : list Z }.
Record esg_string_repository := EsgStringRepository { sr_encoding_type : Z; sr_length : Z; sr_data : list Z }.

Definition esg_data_repository_decode : option mem -> Z -> res (option esg_data_repository) :=
  λ buffer size, decoder 0 (bs ← read_bytes size; mret (EsgDataRepository size bs)) buffer size.

Definition esg_data_repository_free : res unit := free_all [BData; BRoot].

Definition esg_string_repository_decode : option mem -> Z -> res (option esg_string_repository) :=
  λ buffer size,
    decoder 1 (encoding_type ← read8; bs ← read_bytes (size - 1);
               mret (EsgStringRepository encoding_type (size - 1) bs)) buffer size.

Definition esg_string_repository_free : res unit := free_all [BData; BRoot].

(** ** encapsulation/fragment_management_information.c *)

Record esg_fragment_reference := EsgFragmentReference { fr_fragment_type : Z; fr_data_repository_offset : Z }.
Record esg_encapsulation_entry := EsgEncapsulationEntry {
  ee_fragment_reference : option esg_fragment_reference; ee_fragment_version : Z; ee_fragment_id : Z;
}.
Record esg_encapsulation_structure := EsgEncapsulation {
  es_fragment_reference_format : Z; es_entry_list : list esg_encapsulation_entry;
}.

(** The entries, then the first again. *)
Definition esg_encapsulation_structure_free (entries : list (option esg_fragment_reference)) : res unit :=
  free_all ([BHeader] ++
    (if (length entries =? 0)%nat then []
     else List.concat (imap (λ i r, (match r with Some _ => [BPart i] | None => [] end) ++ [BNode i]) entries) ++ [BNode 0])
    ++ [BRoot]).

(** One entry; [before] are the references of those before it. *)
Definition encapsulation_entry (format : Z) (before : list (option esg_fragment_reference)) : D esg_encapsulation_entry :=
  if format =? 0x21 then
    fragment_type ← read8;
    data_repository_offset ← read24;
    fragment_version ← read8;
    fragment_id ← read24;
    mret (EsgEncapsulationEntry (Some (EsgFragmentReference fragment_type data_repository_offset)) fragment_version fragment_id)
  else clean_up (esg_encapsulation_structure_free (before ++ [None])).

(** [while (size > pos)]; every entry has eight bytes. *)
Fixpoint encapsulation_entries (fuel : nat) (format : Z) (before : list (option esg_fragment_reference)) :
    D (list esg_encapsulation_entry) := λ buf size pos,
  match fuel with
  | O => Err OutOfFuel
  | S fuel =>
      if pos <? size then
        (e ← encapsulation_entry format before;
         l ← encapsulation_entries fuel format (before ++ [ee_fragment_reference e]);
         mret (e :: l)) buf size pos
      else Ok (Some ([], pos))
  end.

Definition esg_encapsulation_structure_decode : option mem -> Z -> res (option esg_encapsulation_structure) :=
  λ buffer size,
    decoder 2 (_ ← read8; format ← read8; entries ← encapsulation_entries (S (Z.to_nat size)) format [];
               mret (EsgEncapsulation format entries)) buffer size.

(** ** representation/encapsulated_textual_esg_xml_fragment.c *)

Record esg_encapsulated_textual_esg_xml_fragment := EsgXmlFragment {
  xf_esg_xml_fragment_type : Z; xf_data_length : Z; xf_data : list Z;
}.

Definition esg_encapsulated_textual_esg_xml_fragment_free (data : bool) : res unit :=
  free_all ((if data then [BData] else []) ++ [BRoot]).

Definition esg_encapsulated_textual_esg_xml_fragment_decode (buffer : option mem) (size : Z) :
    res (option esg_encapsulated_textual_esg_xml_fragment) :=
  decoder 0 (λ buf size pos,
    '(offset_pos, length) ← vluimsbf8 buf 2 (u32 (size - 2));
    if u32 (size - 2) <? u32 (offset_pos + length) then
      clean_up (esg_encapsulated_textual_esg_xml_fragment_free false) buf size pos
    else
      ((fragment_type ← read16;
        bs ← ((λ buf size pos, read_bytes length buf size (u32 (pos + offset_pos))) : D (list Z));
        mret (EsgXmlFragment fragment_type length bs)) : D esg_encapsulated_textual_esg_xml_fragment) buf size pos)
    buffer size.

(** ** representation/textual_decoder_init.c *)

Record esg_namespace_prefix := EsgNamespacePrefix { np_prefix_string_ptr : Z; np_namespace_uri_ptr : Z }.
Record esg_xml_fragment_type := EsgXmlFragmentType { xt_xpath_ptr : Z; xt_xml_fragment_type : Z }.
Record esg_textual_decoder_init := EsgTextualDecoderInit {
  di_version : Z;
  di_num_namespace_prefixes : Z; di_namespace_prefix_list : list esg_namespace_prefix;
  di_num_fragment_types : Z; di_xml_fragment_type_list : list esg_xml_fragment_type;
}.

Definition esg_textual_decoder_init_free (prefixes types : nat) : res unit :=
  free_all (nodes prefixes ++ map BPart (seq 0 types) ++ [BRoot]).

Definition read_prefix : D esg_namespace_prefix := a ← read16; b ← read16; mret (EsgNamespacePrefix a b).
Definition read_type : D esg_xml_fragment_type := a ← read16; b ← read16; mret (EsgXmlFragmentType a b).

Definition esg_textual_decoder_init_decode : option mem -> Z -> res (option esg_textual_decoder_init) :=
  decoder 1
    (version ← read8;
     decoder_init_length ← read_vlu;
     need (esg_textual_decoder_init_free 0 0) decoder_init_length;;
     num_prefixes ← read8;
     prefixes ← times (Z.to_nat num_prefixes) read_prefix;
     num_types ← read8;
     types ← times (Z.to_nat num_types) read_type;
     mret (EsgTextualDecoderInit version num_prefixes prefixes num_types types)).

(** ** representation/init_message.c *)

Inductive esg_encoding_parameters :=
  | Bim (buffer_size_flag position_code_flag character_encoding buffer_size : Z)
  | Textual (character_encoding : Z).

Record esg_init_message := EsgInitMessage {
  im_encoding_version : Z; im_indexing_flag : Z; im_decoder_init_ptr : Z; im_indexing_version : Z;
  im_encoding_parameters : esg_encoding_parameters; im_decoder_init : option esg_textual_decoder_init;
}.

Definition esg_init_message_free (parameters decoder_init : bool) : res unit :=
  free_all ((if parameters then [BPart 0] else []) ++ (if decoder_init then [BPart 1] else []) ++ [BRoot]).

(** [f(buffer + ptr, length)] *)
Definition sub_decoder {A} (f : option mem -> Z -> res (option A)) (ptr length : Z) : D (option A) :=
  λ buf size pos, r ← f (Some (drop (Z.to_nat ptr) buf)) length; Ok (Some (r, pos)).

Definition the_size : D Z := λ buf size pos, Ok (Some (size, pos)).

Definition esg_init_message_decode : option mem -> Z -> res (option esg_init_message) :=
  decoder 3
    (encoding_version ← read8;
     flags ← read8;
     let indexing_flag := Z.shiftr (Z.land flags 0x80) 7 in
     decoder_init_ptr ← read8;
     indexing_version ← (if negb (indexing_flag =? 0) then read8 else mret 0);
     if encoding_version =? 0xF1 then
       flags ← read8;
       let buffer_size_flag := Z.shiftr (Z.land flags 0x80) 7 in
       let position_code_flag := Z.shiftr (Z.land flags 0x40) 6 in
       character_encoding ← read8;
       buffer_size ← (if negb (buffer_size_flag =? 0) then read24 else mret 0);
       mret (EsgInitMessage encoding_version indexing_flag decoder_init_ptr indexing_version
               (Bim buffer_size_flag position_code_flag character_encoding buffer_size) None)
     else if (encoding_version =? 0xF2) || (encoding_version =? 0xF3) then
       character_encoding ← read8;
       size ← the_size;
       decoder_init ← sub_decoder esg_textual_decoder_init_decode decoder_init_ptr (u32 (size - decoder_init_ptr));
       mret (EsgInitMessage encoding_version indexing_flag decoder_init_ptr indexing_version
               (Textual character_encoding) decoder_init)
     else clean_up (esg_init_message_free false false)).

(** ** transport/session_partition_declaration.c *)

Record esg_session_field := EsgSessionField { sf_identifier : Z; sf_encoding : Z; sf_length : Z }.

Inductive esg_session_ip_stream_field_value := FieldString (bytes : list Z) | FieldShort (value : Z).

Record esg_session_ip_stream_field := EsgStreamField {
  start_field_value : option esg_session_ip_stream_field_value;
  end_field_value : option esg_session_ip_stream_field_value;
}.
Record esg_session_ip_stream := EsgStream {
  is_id : Z; is_source_ip : list Z; is_destination_ip : list Z; is_port : Z; is_session_id : Z;
  is_field_list : list esg_session_ip_stream_field;
}.
Record esg_session_partition_declaration := EsgPartition {
  sp_num_fields : Z; sp_overlapping : Z; sp_field_list : list esg_session_field;
  sp_n_o_ip_streams : Z; sp_ip_version_6 : Z; sp_ip_stream_list : list esg_session_ip_stream;
}.

(** The loop over the streams looks for the fields of each in the next one. *)
Fixpoint free_streams {A} (streams : list A) : res unit :=
  match streams with
  | [] => mret tt
  | _ :: next => match next with [] => Err BadPointer | _ :: _ => free_streams next end
  end.

(** The values of the fields are not among the blocks here: the loop over the streams ends in a fault or has
    none to free. *)
Definition esg_session_partition_declaration_free {A} (fields : nat) (streams : list A) : res unit :=
  free_streams streams;; free_all (nodes fields ++ [BRoot]).

Definition session_field : D esg_session_field :=
  identifier ← read16; encoding ← read16; length ← read8; mret (EsgSessionField identifier encoding length).

(** The value of a field of [length] bytes. *)
Definition field_string (length : Z) : D esg_session_ip_stream_field_value :=
  bs ← read_bytes length; mret (FieldString bs).

(** Two bytes, wherever the next value starts. *)
Definition field_short (length : Z) : D esg_session_ip_stream_field_value := λ buf size pos,
  a ← at_ buf pos; b ← at_ buf (u32 (pos + 1));
  Ok (Some (FieldShort (Z.lor (Z.shiftl a 8) b), u32 (pos + length))).

(** The start, of overlapping ranges only, and the end of the range. *)
Definition field_range (overlapping : Z) (value : D esg_session_ip_stream_field_value) : D esg_session_ip_stream_field :=
  first ← (if overlapping =? 1 then v ← value; mret (Some v) else mret None);
  last ← value;
  mret (EsgStreamField first (Some last)).

(** One field of a stream; [free] is the exit. *)
Definition stream_field (free : res unit) (overlapping : Z) (f : esg_session_field) : D esg_session_ip_stream_field :=
  field_length ← (if negb (sf_length f =? 0) then mret (sf_length f) else read_vlu);
  if sf_encoding f =? 0x0000 then field_range overlapping (field_string field_length)
  else if sf_encoding f =? 0x0101 then field_range overlapping (field_short field_length)
  else clean_up free.

Fixpoint stream_fields (free : res unit) (overlapping : Z) (fs : list esg_session_field) :
    D (list esg_session_ip_stream_field) :=
  match fs with
  | [] => mret []
  | f :: fs => v ← stream_field free overlapping f; l ← stream_fields free overlapping fs; mret (v :: l)
  end.

(** One stream, with [before] streams before it. *)
Definition ip_stream (before : nat) (overlapping ip_version_6 : Z) (fs : list esg_session_field) : D esg_session_ip_stream :=
  id ← read8;
  '(source, destination) ← read_addresses ip_version_6;
  port ← read16;
  session_id ← read16;
  values ← stream_fields (esg_session_partition_declaration_free (length fs) (repeat tt (S before))) overlapping fs;
  mret (EsgStream id source destination port session_id values).

Fixpoint ip_streams (n before : nat) (overlapping ip_version_6 : Z) (fs : list esg_session_field) :
    D (list esg_session_ip_stream) :=
  match n with
  | O => mret []
  | S n =>
      s ← ip_stream before overlapping ip_version_6 fs;
      l ← ip_streams n (S before) overlapping ip_version_6 fs;
      mret (s :: l)
  end.

Definition esg_session_partition_declaration_decode : option mem -> Z -> res (option esg_session_partition_declaration) :=
  decoder 2
    (num_fields ← read8;
     flags ← read8;
     let overlapping := bit_set flags 0x80 in
     need (esg_session_partition_declaration_free 0 (@nil unit)) (5 * num_fields);;
     fs ← times (Z.to_nat num_fields) session_field;
     n_o_ip_streams ← read8;
     flags ← read8;
     let ip_version_6 := bit_set flags 0x80 in
     streams ← ip_streams (Z.to_nat n_o_ip_streams) 0 overlapping ip_version_6 fs;
     mret (EsgPartition num_fields overlapping fs n_o_ip_streams ip_version_6 streams)).

(** ** encapsulation/container.c *)

(** What is behind [data]; [None] in the place of NULL. *)
Inductive esg_structure_data :=
  | FragmentManagement (s : option esg_encapsulation_structure)
  | StringRepository (s : option esg_string_repository)
  | DataRepository (s : option esg_data_repository)
  | PartitionDeclaration (s : option esg_session_partition_declaration)
  | InitMessage (s : option esg_init_message)
  | NotDecoded.

Record esg_container_structure := EsgContainerStructure {
  cs_type : Z; cs_id : Z; cs_ptr : Z; cs_length : Z; cs_data : esg_structure_data;
}.
Record esg_container := EsgContainer {
  ec_num_structures : Z; ec_structure_list : list esg_container_structure;
  ec_structure_body_ptr : Z; ec_structure_body_length : Z; ec_structure_body : list Z;
}.

(** The structures themselves are not freed. *)
Definition esg_container_free (structures : nat) (body : bool) : res unit :=
  free_all (nodes structures ++ [BHeader] ++ (if body then [BData] else []) ++ [BRoot]).

(** The switch over the type and the id. *)
Definition structure_data (free : res unit) (type id ptr length : Z) : D esg_structure_data :=
  if type =? 0x01 then
    if id =? 0x00 then s ← sub_decoder esg_encapsulation_structure_decode ptr length; mret (FragmentManagement s)
    else clean_up free
  else if type =? 0x02 then
    if id =? 0x00 then s ← sub_decoder esg_string_repository_decode ptr length; mret (StringRepository s)
    else clean_up free
  else if (type =? 0x03) || (type =? 0x04) || (type =? 0x05) then mret NotDecoded
  else if type =? 0xE0 then
    if id =? 0x00 then s ← sub_decoder esg_data_repository_decode ptr length; mret (DataRepository s)
    else clean_up free
  else if type =? 0xE1 then
    if id =? 0xFF then s ← sub_decoder esg_session_partition_declaration_decode ptr length; mret (PartitionDeclaration s)
    else clean_up free
  else if type =? 0xE2 then
    if id =? 0x00 then s ← sub_decoder esg_init_message_decode ptr length; mret (InitMessage s)
    else clean_up free
  else clean_up free.

(** Structure number [i]. *)
Definition container_structure (i : nat) : D esg_container_structure := λ buf size pos,
  (type ← read8;
   id ← read8;
   ptr ← read24;
   length ← read24;
   let free := esg_container_free (S i) false in
   (if size <? u32 (ptr + length) then clean_up free else mret tt);;
   data ← structure_data free type id ptr length;
   mret (EsgContainerStructure type id ptr length data)) buf size pos.

Fixpoint container_structures (n i : nat) : D (list esg_container_structure) :=
  match n with
  | O => mret []
  | S n => s ← container_structure i; l ← container_structures n (S i); mret (s :: l)
  end.

Definition the_pos : D Z := λ buf size pos, Ok (Some (pos, pos)).

Definition esg_container_decode : option mem -> Z -> res (option esg_container) :=
  decoder 1
    (num_structures ← read8;
     need (esg_container_free 0 false) (num_structures * 8);;
     structures ← container_structures (Z.to_nat num_structures) 0;
     pos ← the_pos;
     size ← the_size;
     body ← read_bytes (u32 (size - pos));
     mret (EsgContainer num_structures structures pos (u32 (size - pos)) body)).
