(* ===== verification/EsgCorrect.v ===== *)
(** * The service guide is decoded as it is encoded

    The encodings of the tables of the guide, and the proofs that the decoders of libesg read them back: the
    access descriptor, and a container with its structures.  At the end are the inputs on which the decoders
    read outside their buffers, free memory twice or do not end. *)

From S2P Require Export Esg.

(** ** Decoders that read an encoding *)

(** The decoder reads [bs], wherever they are in a buffer, to [a]. *)
Definition reads {A} (d : D A) (bs : list Z) (a : A) : Prop :=
  forall pre post size, zlen pre + zlen bs <= size < 2 ^ 32 ->
    d (pre ++ bs ++ post) size (zlen pre) = Ok (Some (a, zlen pre + zlen bs)).

Lemma decodes_ret {A} (a : A) : reads (mret a) [] a.
Proof. intros pre post size _. unfold mret, D_ret; cbn [length]. by rewrite Z.add_0_r. Qed.

Lemma decodes_bind {A B} (d : D A) (k : A -> D B) bs bs' a b :
  reads d bs a -> reads (k a) bs' b -> reads (d ≫= k) (bs ++ bs') b.
Proof.
  intros Hd Hk pre post size Hs. rewrite length_app in *. unfold mbind, D_bind.
  rewrite <- (app_assoc bs). rewrite (Hd pre (bs' ++ post) size) by lia.
  specialize (Hk (pre ++ bs) post size). rewrite length_app, Nat2Z.inj_add, <- app_assoc in Hk.
  rewrite Hk by lia. do 3 f_equal. lia.
Qed.

(** The same inside a buffer. *)
Lemma reads_run {A B} (d : D A) (k : A -> D B) bs a pre post buf size pos : reads d bs a ->
  buf = pre ++ bs ++ post -> pos = zlen pre -> zlen pre + zlen bs <= size < 2 ^ 32 ->
  (d ≫= k) buf size pos = k a buf size (pos + zlen bs).
Proof. intros Hd -> -> Hs. unfold mbind, D_bind. by rewrite Hd. Qed.

Lemma reads_bind_nil {A B} (d : D A) (k : A -> D B) bs a b : reads d [] a -> reads (k a) bs b -> reads (d ≫= k) bs b.
Proof. intros Hd Hk. exact (decodes_bind d k [] bs a b Hd Hk). Qed.

(** The last read of a decoder. *)
Lemma reads_last {A B} (d : D A) (k : A -> D B) bs a b : reads d bs a -> reads (k a) [] b -> reads (d ≫= k) bs b.
Proof. intros Hd Hk. rewrite <- (app_nil_r bs). exact (decodes_bind d k bs [] a b Hd Hk). Qed.

Lemma u32_next p n size : 0 <= p -> 0 <= n -> p + n <= size < 2 ^ 32 -> u32 (p + n) = p + n.
Proof. intros Hp Hn Hs. apply Z.mod_small. lia. Qed.

Lemma reads_read8 b : reads read8 [b] b.
Proof.
  intros pre post size Hs. unfold read8. rewrite (at_mid pre [b] post _ 0 b) by (cbn; (lia || done)).
  cbn [mbind res_bind length] in *. by rewrite (u32_next _ _ size) by lia.
Qed.

Definition be16 (v : Z) : list Z := [v / 256; v mod 256].
Definition be24 (v : Z) : list Z := [v / 65536; v / 256 mod 256; v mod 256].

Lemma or_byte a b k : 0 <= k -> 0 <= b < 2 ^ k -> Z.lor (Z.shiftl a k) b = a * 2 ^ k + b.
Proof. intros Hk Hb. rewrite Z.lor_comm, lor_add by lia. lia. Qed.

Lemma reads_read16 v : reads read16 (be16 v) v.
Proof.
  unfold read16. apply (decodes_bind _ _ [_] [_] _ _ (reads_read8 _)), reads_last with (v mod 256); [apply reads_read8|].
  replace v with (Z.lor (Z.shiftl (v / 256) 8) (v mod 256)) at 3; [apply decodes_ret|].
  rewrite or_byte by (try lia; apply Z.mod_pos_bound; lia). change (2 ^ 8) with 256. Z.div_mod_to_equations; lia.
Qed.

Lemma reads_read24 v : reads read24 (be24 v) v.
Proof.
  unfold read24. apply (decodes_bind _ _ [_] [_; _] _ _ (reads_read8 _)), (decodes_bind _ _ [_] [_] _ _ (reads_read8 _)).
  apply reads_last with (v mod 256); [apply reads_read8|].
  replace v with (Z.lor (Z.lor (Z.shiftl (v / 65536) 16) (Z.shiftl (v / 256 mod 256) 8)) (v mod 256)) at 4;
    [apply decodes_ret|].
  rewrite <- Z.lor_assoc. rewrite (or_byte (v / 256 mod 256)) by (try lia; apply Z.mod_pos_bound; lia).
  rewrite or_byte; change (2 ^ 8) with 256; change (2 ^ 16) with 65536; Z.div_mod_to_equations; lia.
Qed.

Lemma bytes_at_run bs : forall pre post, bytes_at (length bs) (pre ++ bs ++ post) (zlen pre) = Ok bs.
Proof.
  induction bs as [|b bs IH]; intros pre post; [done|]. cbn [length bytes_at].
  rewrite (at_mid pre (b :: bs) post _ 0 b) by (cbn; (lia || done)). cbn [mbind res_bind].
  specialize (IH (pre ++ [b]) post). rewrite <- app_assoc, length_app, Nat2Z.inj_add in IH. cbn [app length] in *.
  change (Z.of_nat 1) with 1 in IH. by rewrite IH.
Qed.

Lemma reads_read_bytes bs n : n = zlen bs -> reads (read_bytes n) bs bs.
Proof.
  intros -> pre post size Hs. unfold read_bytes. rewrite Nat2Z.id, bytes_at_run. cbn [mbind res_bind].
  by rewrite (u32_next _ _ size) by lia.
Qed.

Lemma reads_times {A} (d : D A) (encode : A -> list Z) l :
  Forall (λ a, reads d (encode a) a) l -> reads (times (length l) d) (List.concat (map encode l)) l.
Proof.
  induction 1 as [|a l Ha _ IH]; [apply decodes_ret|]. cbn [length times map List.concat].
  apply decodes_bind with a; [done|]. apply reads_last with l; [done | apply decodes_ret].
Qed.

Lemma reads_need free n bs {A} (d : unit -> D A) a :
  0 <= n <= zlen bs -> reads (d tt) bs a -> reads (need free n ≫= d) bs a.
Proof.
  intros Hn Hd pre post size Hs. unfold mbind, D_bind. unfold need. rewrite (u32_next _ _ size) by lia.
  destruct (Z.ltb_spec size (zlen pre + n)); [lia|]. by apply Hd.
Qed.

(** A decoder for a whole table. *)
Lemma decoder_reads {A} least (d : D A) bs a post : reads d bs a -> least < zlen bs < 2 ^ 32 ->
  decoder least d (Some (bs ++ post)) (zlen bs) = Ok (Some a).
Proof.
  intros Hd Hl. unfold decoder. destruct (Z.leb_spec (zlen bs) least); [lia|].
  pose proof (Hd [] post (zlen bs)) as E. change (zlen []) with 0 in E. cbn [app] in E. by rewrite E by lia.
Qed.

(** ** Lengths of variable size *)

(** Seven bits in each byte, the highest first; all but the last have the top bit set. *)
Fixpoint vlu_groups (fuel : nat) (n : Z) : list Z :=
  match fuel with
  | O => []
  | S fuel => if n <? 1 then [] else vlu_groups fuel (n / 128) ++ [128 + n mod 128]
  end.
Definition vlu_bytes (n : Z) : list Z := vlu_groups 4 (n / 128) ++ [n mod 128].

Lemma top_bit b : 0 <= b < 256 -> negb (Z.land b 0x80 =? 0) = (128 <=? b) /\ Z.land b 0x7f = b mod 128.
Proof.
  intros Hb. change 0x7f with (Z.ones 7). rewrite Z.land_ones by lia. change (2 ^ 7) with 128. split; [|done].
  assert (Hall : forallb (λ b, Bool.eqb (negb (Z.land b 0x80 =? 0)) (128 <=? b)) (seqZ 0 256) = true) by done.
  rewrite forallb_forall in Hall. apply Bool.eqb_prop, Hall, list_elem_of_In, elem_of_seqZ. lia.
Qed.

(** The loop over the bytes before the last. *)
Lemma vlu_group_step fuel buf p size offset length b : at_ buf (p + offset) = Ok b -> 128 <= b < 256 ->
  offset <= size -> 0 <= offset < 255 -> 0 <= length -> length * 128 + b mod 128 < 2 ^ 32 ->
  vluimsbf8_from (S fuel) buf p size offset length =
  vluimsbf8_from fuel buf p size (offset + 1) (length * 128 + b mod 128).
Proof.
  intros Hb Hr Hs Ho Hl Hlen. cbn [vluimsbf8_from]. destruct (Z.ltb_spec size offset); [lia|].
  rewrite Hb. cbn [mbind res_bind]. destruct (top_bit b) as [-> ->]; [lia|].
  rewrite (proj2 (Z.leb_le 128 b)) by lia. rewrite Z.shiftl_mul_pow2 by lia. change (2 ^ 7) with 128.
  pose proof (Z.mod_pos_bound b 128 ltac:(lia)).
  rewrite (u32_id (length * 128)), u32_id, u8_id by (unfold byte; lia). done.
Qed.

Lemma vlu_last_step fuel buf p size offset length b : at_ buf (p + offset) = Ok b -> 0 <= b < 128 ->
  offset <= size -> 0 <= offset < 255 -> 0 <= length -> length * 128 + b < 2 ^ 32 ->
  vluimsbf8_from (S fuel) buf p size offset length = Ok (offset + 1, length * 128 + b).
Proof.
  intros Hb Hr Hs Ho Hl Hlen. cbn [vluimsbf8_from]. destruct (Z.ltb_spec size offset); [lia|].
  rewrite Hb. cbn [mbind res_bind]. destruct (top_bit b) as [-> ->]; [lia|].
  rewrite (proj2 (Z.leb_gt 128 b)) by lia. rewrite Z.shiftl_mul_pow2 by lia. change (2 ^ 7) with 128.
  rewrite (Z.mod_small b) by lia. by rewrite (u32_id (length * 128)), u32_id, u8_id by (unfold byte; lia).
Qed.

Definition vlu_value (l : Z) (gs : list Z) : Z := fold_left (λ v g, v * 128 + g mod 128) gs l.

Lemma vlu_value_ge gs : forall l, 0 <= l -> l <= vlu_value l gs.
Proof.
  induction gs as [|g gs IH]; intros l Hl; [cbn; lia|]. cbn [vlu_value fold_left].
  pose proof (Z.mod_pos_bound g 128 ltac:(lia)). specialize (IH (l * 128 + g mod 128)). unfold vlu_value in IH. lia.
Qed.

Lemma vlu_loop gs : forall pre last post size p o l, Forall (λ g, 128 <= g < 256) gs -> 0 <= last < 128 ->
  p + o = zlen pre -> 0 <= o -> o + zlen gs <= size -> o + zlen gs < 255 -> 0 <= l ->
  vlu_value l gs * 128 + last < 2 ^ 32 ->
  vluimsbf8_from (257 - Z.to_nat o) (pre ++ (gs ++ [last]) ++ post) p size o l =
  Ok (o + zlen gs + 1, vlu_value l gs * 128 + last).
Proof.
  induction gs as [|g gs IH]; intros pre last post size p o l Hg Hlast Hp Ho Hsize Hfuel Hl Hv; cbn [length] in *.
  - replace (257 - Z.to_nat o)%nat with (S (256 - Z.to_nat o)) by lia.
    rewrite (vlu_last_step _ _ _ _ _ _ last); [f_equal; f_equal; lia| |try lia..|exact Hv].
    rewrite Hp. apply at_mid with 0%nat; [lia | done].
  - apply Forall_cons_iff in Hg as [Hg Hgs]. cbn [vlu_value fold_left] in Hv. fold (vlu_value (l * 128 + g mod 128) gs) in Hv.
    pose proof (Z.mod_pos_bound g 128 ltac:(lia)). pose proof (vlu_value_ge gs (l * 128 + g mod 128) ltac:(lia)).
    replace (257 - Z.to_nat o)%nat with (S (257 - Z.to_nat (o + 1))) by lia.
    rewrite (vlu_group_step _ _ _ _ _ _ g); [|rewrite Hp; apply at_mid with 0%nat; [lia | done]|try lia..].
    specialize (IH (pre ++ [g]) last post size p (o + 1) (l * 128 + g mod 128) Hgs Hlast).
    rewrite <- app_assoc, length_app in IH. cbn [app length] in *. rewrite IH by lia. f_equal. f_equal. lia.
Qed.

Lemma vlu_groups_ok k : forall n, 0 <= n < 128 ^ Z.of_nat k ->
  vlu_value 0 (vlu_groups k n) = n /\ Forall (λ g, 128 <= g < 256) (vlu_groups k n) /\ (length (vlu_groups k n) <= k)%nat.
Proof.
  induction k as [|k IH]; intros n Hn; cbn [vlu_groups].
  - change (128 ^ Z.of_nat 0) with 1 in Hn. assert (n = 0) as -> by lia. by split.
  - rewrite Nat2Z.inj_succ, Z.pow_succ_r in Hn by lia. destruct (Z.ltb_spec n 1).
    + assert (n = 0) as -> by lia. repeat split; [constructor | cbn; lia].
    + destruct (IH (n / 128)) as (Hv & Hg & Hl); [Z.div_mod_to_equations; lia|].
      pose proof (Z.mod_pos_bound n 128 ltac:(lia)). unfold vlu_value in *. rewrite fold_left_app, Hv. cbn [fold_left].
      split; [|split].
      * rewrite <- (Z.add_mod_idemp_l 128) by lia. rewrite Z.mod_same by lia. rewrite Z.add_0_l, Z.mod_mod by lia.
        Z.div_mod_to_equations; lia.
      * apply Forall_app. split; [done|]. apply Forall_cons; [lia | constructor].
      * rewrite length_app. cbn. lia.
Qed.

Lemma reads_vlu n : 0 <= n < 2 ^ 32 -> reads read_vlu (vlu_bytes n) n.
Proof.
  intros Hn pre post size Hs. destruct (vlu_groups_ok 4 (n / 128)) as (Hv & Hg & Hl).
  { change (128 ^ Z.of_nat 4) with 268435456. Z.div_mod_to_equations; lia. }
  unfold read_vlu, vluimsbf8, vlu_bytes in *. rewrite length_app in *. cbn [length] in *.
  pose proof (Z.mod_pos_bound n 128 ltac:(lia)).
  assert (Hd : n / 128 * 128 + n mod 128 = n) by (Z.div_mod_to_equations; lia).
  rewrite (u32_id (size - zlen pre)) by lia.
  pose proof (vlu_loop (vlu_groups 4 (n / 128)) pre (n mod 128) post (size - zlen pre) (zlen pre) 0 0) as E.
  change (257 - Z.to_nat 0)%nat with 257%nat in E. rewrite E by (try done; try lia; rewrite Hv, Hd; lia).
  cbn [mbind res_bind]. rewrite Hv, Hd, u32_id by lia. do 3 f_equal. lia.
Qed.

Lemma vlu_bytes_length n : 0 <= n < 2 ^ 32 -> 1 <= zlen (vlu_bytes n) <= 5.
Proof.
  intros Hn. destruct (vlu_groups_ok 4 (n / 128)) as (_ & _ & Hl).
  { change (128 ^ Z.of_nat 4) with 268435456. Z.div_mod_to_equations; lia. }
  unfold vlu_bytes. rewrite length_app. cbn [length]. lia.
Qed.

(** ** The access descriptor *)

Definition flag (b mask : Z) : Z := if b =? 0 then 0 else mask.
Definition is_flag (b : Z) : Prop := b = 0 \/ b = 1.
Definition address_ok (ip_version_6 : Z) (a : list Z) : Prop := length a = if ip_version_6 =? 0 then 4%nat else 16%nat.

Definition encode_entry (e : esg_entry) : list Z :=
  let body := [flag (en_multiple_stream_transport e) 0x80 + flag (en_ip_version_6 e) 0x40] ++ be16 (en_provider_id e) ++
    (en_source_ip e ++ en_destination_ip e) ++ be16 (en_port e) ++ be16 (en_tsi e) in
  [en_version e] ++ vlu_bytes (zlen body) ++ body.

Record entry_ok (e : esg_entry) : Prop := {
  en_stream_flag : is_flag (en_multiple_stream_transport e);
  en_ip_flag : is_flag (en_ip_version_6 e);
  en_source_ok : address_ok (en_ip_version_6 e) (en_source_ip e);
  en_destination_ok : address_ok (en_ip_version_6 e) (en_destination_ip e);
}.

Lemma reads_addresses v source destination : is_flag v -> address_ok v source -> address_ok v destination ->
  reads (read_addresses v) (source ++ destination) (source, destination).
Proof.
  unfold address_ok, read_addresses. intros Hv Hs Hd.
  apply decodes_bind with source; [|apply reads_last with destination; [|apply decodes_ret]];
    (apply reads_read_bytes; rewrite ?Hs, ?Hd; by destruct Hv as [-> | ->]).
Qed.

Lemma flag_bits a b : is_flag a -> is_flag b ->
  bit_set (flag a 0x80 + flag b 0x40) 0x80 = a /\ bit_set (flag a 0x80 + flag b 0x40) 0x40 = b.
Proof. by intros [-> | ->] [-> | ->]. Qed.

Lemma reads_entry i e : entry_ok e -> reads (access_entry i) (encode_entry e) e.
Proof.
  intros [Hm Hv Hs Hd]. unfold access_entry, encode_entry. cbv zeta.
  apply decodes_bind with (en_version e); [apply reads_read8|].
  match goal with |- context [vlu_bytes (zlen ?bs)] => set (body := bs) end.
  assert (Hbody : zlen body < 100).
  { unfold body, address_ok in *. rewrite !length_app, Hs, Hd. by destruct (_ =? 0). }
  apply decodes_bind with (zlen body); [apply reads_vlu; lia|]. apply (reads_need _ _ _ (λ _, _)); [lia|].
  apply decodes_bind with (flag (en_multiple_stream_transport e) 0x80 + flag (en_ip_version_6 e) 0x40); [apply reads_read8|].
  destruct (flag_bits _ _ Hm Hv) as [-> ->]. apply decodes_bind with (en_provider_id e); [apply reads_read16|].
  apply decodes_bind with (en_source_ip e, en_destination_ip e); [by apply reads_addresses|].
  apply decodes_bind with (en_port e); [apply reads_read16|]. apply reads_last with (en_tsi e); [apply reads_read16|].
  destruct e. apply decodes_ret.
Qed.

Lemma reads_entries l : forall i, Forall entry_ok l ->
  reads (access_entries (length l) i) (List.concat (map encode_entry l)) l.
Proof.
  induction l as [|e l IH]; intros i Hl; [apply decodes_ret|]. apply Forall_cons_iff in Hl as [He Hl].
  cbn [length access_entries map List.concat]. apply decodes_bind with e; [by apply reads_entry|].
  apply reads_last with l; [by apply IH | apply decodes_ret].
Qed.

Definition encode_access (d : esg_access_descriptor) : list Z :=
  be16 (n_o_entries d) ++ List.concat (map encode_entry (entry_list d)).

Record access_ok (d : esg_access_descriptor) : Prop := {
  ad_count : n_o_entries d = zlen (entry_list d);
  ad_entries : Forall entry_ok (entry_list d);
  ad_some : entry_list d <> [];
  ad_size : zlen (encode_access d) < 2 ^ 32;
}.

(** an access descriptor of the service guide is decoded to the entries it was encoded from: every
    provider, its addresses of version 4 or 6, its port and its session, whatever follows in the buffer. *)
Theorem access_descriptor_roundtrip d post : access_ok d ->
  esg_access_descriptor_decode (Some (encode_access d ++ post)) (zlen (encode_access d)) = Ok (Some d).
Proof.
  intros [Hn Hl Hsome Hsize]. unfold esg_access_descriptor_decode. apply decoder_reads.
  - unfold encode_access. apply decodes_bind with (n_o_entries d); [apply reads_read16|].
    rewrite Hn at 1. rewrite Nat2Z.id. apply reads_last with (entry_list d); [by apply reads_entries|].
    destruct d. apply decodes_ret.
  - split; [|done]. unfold encode_access in *. rewrite length_app. destruct (entry_list d) as [|e l]; [done|].
    cbn [map List.concat be16 length]. rewrite length_app. unfold encode_entry at 1. cbn [app length]. lia.
Qed.

(** ** Examples *)

(** One provider, with addresses of version 4. *)
Definition one_provider : esg_access_descriptor :=
  EsgAccessDescriptor 1 [EsgEntry 1 0 0 0x102 [192; 0; 2; 1] [224; 0; 23; 14] 9214 5].

Lemma access_descriptor_roundtrip_witness :
  access_ok one_provider /\
  esg_access_descriptor_decode (Some (encode_access one_provider ++ [0])) (zlen (encode_access one_provider)) =
  Ok (Some one_provider).
Proof.
  assert (Hok : access_ok one_provider).
  { split; [done | | done | by vm_compute]. apply List.Forall_cons; [|done]. by split; (done || left). }
  split; [done|]. exact (access_descriptor_roundtrip one_provider [0] Hok).
Defined.

(** ** Where the decoders fault *)

(** The size is compared with the offset one byte too late. *)
Lemma vlu_reads_behind : vluimsbf8 [0x80] 0 1 = Err OutOfBounds.
Proof. done. Qed.

(** 256 bytes without an end are read again and again. *)
Lemma vlu_endless fuel : forall offset length, 0 <= offset < 256 ->
  vluimsbf8_from fuel (replicate 256 0x80) 0 256 offset length = Err OutOfFuel.
Proof.
  induction fuel as [|fuel IH]; intros offset length Ho; [done|]. cbn [vluimsbf8_from].
  destruct (Z.ltb_spec 256 offset); [lia|]. rewrite Z.add_0_l. unfold at_, lookup_z.
  rewrite (proj2 (Z.leb_le 0 offset)) by lia. rewrite (proj2 (lookup_replicate 256 0x80 0x80 (Z.to_nat offset))) by (split; [done | lia]).
  cbn [mbind res_bind]. apply IH. unfold u8. apply Z.mod_pos_bound. lia.
Qed.

(** The length of an entry is compared with the size, but the entry is read whatever it is. *)
Lemma short_entry_overread : esg_access_descriptor_decode (Some [0; 1; 0; 0]) 4 = Err OutOfBounds.
Proof. done. Qed.
