(* ===== verification/EsgContainer.v ===== *)
(** * A container of the service guide is decoded with its structures

    The encodings of the structures of a container, of the container with its directory, and the proof that
    decoding gives them back. *)

From S2P Require Export EsgCorrect.

(** A decoder that gives [a] for the bytes [bs], whatever is behind them. *)
Definition table_reads {A} (f : option mem -> Z -> res (option A)) (bs : list Z) (a : A) : Prop :=
  forall post, f (Some (bs ++ post)) (zlen bs) = Ok (Some a).

Lemma decoder_table {A} least (d : D A) bs a : reads d bs a -> least < zlen bs < 2 ^ 32 ->
  table_reads (decoder least d) bs a.
Proof. intros Hd Hl post. by apply decoder_reads. Qed.

(** ** Repositories *)

Definition encode_strings (s : esg_string_repository) : list Z := sr_encoding_type s :: sr_data s.
Definition strings_ok (s : esg_string_repository) : Prop :=
  sr_length s = zlen (sr_data s) /\ sr_data s <> [] /\ zlen (sr_data s) < 2 ^ 24.

Lemma strings_read s : strings_ok s -> table_reads esg_string_repository_decode (encode_strings s) s.
Proof.
  intros (Hl & Hne & Hs). unfold esg_string_repository_decode. intros post.
  assert (Hlen : zlen (encode_strings s) = 1 + zlen (sr_data s)) by (cbn [encode_strings length]; lia).
  assert (0 < zlen (sr_data s)) by (destruct (sr_data s); [done | cbn [length]; lia]).
  apply decoder_reads; [|rewrite Hlen; lia]. rewrite Hlen. replace (1 + _ - 1) with (zlen (sr_data s)) by lia.
  apply (decodes_bind _ _ [_] _ _ _ (reads_read8 _)). apply reads_last with (sr_data s); [by apply reads_read_bytes|].
  rewrite <- Hl. destruct s. apply decodes_ret.
Qed.

Definition data_ok (s : esg_data_repository) : Prop :=
  dr_length s = zlen (dr_data s) /\ dr_data s <> [] /\ zlen (dr_data s) < 2 ^ 24.

Lemma data_read s : data_ok s -> table_reads esg_data_repository_decode (dr_data s) s.
Proof.
  intros (Hl & Hne & Hs). unfold esg_data_repository_decode. intros post.
  assert (0 < zlen (dr_data s)) by (destruct (dr_data s); [done | cbn [length]; lia]).
  apply decoder_reads; [|lia]. apply reads_last with (dr_data s); [by apply reads_read_bytes|].
  rewrite <- Hl. destruct s. apply decodes_ret.
Qed.

(** ** Fragment management information *)

(** The references to fragments in the data repository. *)
Definition encode_encapsulation_entry (e : esg_encapsulation_entry) : list Z :=
  match ee_fragment_reference e with
  | Some r => [fr_fragment_type r] ++ be24 (fr_data_repository_offset r) ++ [ee_fragment_version e] ++ be24 (ee_fragment_id e)
  | None => []
  end.
Definition encapsulation_entry_ok (e : esg_encapsulation_entry) : Prop := ee_fragment_reference e <> None.

Definition encode_encapsulation (s : esg_encapsulation_structure) : list Z :=
  [0; es_fragment_reference_format s] ++ List.concat (map encode_encapsulation_entry (es_entry_list s)).

Record encapsulation_ok (s : esg_encapsulation_structure) : Prop := {
  es_format : es_fragment_reference_format s = 0x21;
  es_entries : Forall encapsulation_entry_ok (es_entry_list s);
  es_some : es_entry_list s <> [];
  es_size : zlen (encode_encapsulation s) < 2 ^ 24;
}.

Lemma reads_encapsulation_entry before e : encapsulation_entry_ok e ->
  reads (encapsulation_entry 0x21 before) (encode_encapsulation_entry e) e.
Proof.
  destruct e as [[[t o]|] v id]; [|done]. intros _. unfold encapsulation_entry. cbn [Z.eqb Pos.eqb].
  apply decodes_bind with t; [apply reads_read8|]. apply decodes_bind with o; [apply reads_read24|].
  apply decodes_bind with v; [apply reads_read8|]. apply reads_last with id; [apply reads_read24 | apply decodes_ret].
Qed.

Lemma encapsulation_entry_length e : encapsulation_entry_ok e -> length (encode_encapsulation_entry e) = 8%nat.
Proof. by destruct e as [[?|] ? ?]. Qed.

(** The loop ends with the structure. *)
Lemma encapsulation_loop l : forall fuel before pre post, Forall encapsulation_entry_ok l ->
  (length (List.concat (map encode_encapsulation_entry l)) < fuel)%nat ->
  zlen pre + zlen (List.concat (map encode_encapsulation_entry l)) < 2 ^ 32 ->
  let bs := List.concat (map encode_encapsulation_entry l) in
  encapsulation_entries fuel 0x21 before (pre ++ bs ++ post) (zlen pre + zlen bs) (zlen pre) =
  Ok (Some (l, zlen pre + zlen bs)).
Proof.
  induction l as [|e l IH]; intros [|fuel] before pre post Hl Hfuel Hs bs; cbn [map List.concat length] in *; try lia.
  - cbn [encapsulation_entries]. rewrite Z.add_0_r, Z.ltb_irrefl. done.
  - apply Forall_cons_iff in Hl as [He Hl]. pose proof (encapsulation_entry_length e He) as Hlen.
    cbn [encapsulation_entries]. subst bs. rewrite length_app in *.
    destruct (Z.ltb_spec (zlen pre) (zlen pre + Z.of_nat (length (encode_encapsulation_entry e) +
      length (List.concat (map encode_encapsulation_entry l))))); [|lia].
    unfold mbind, D_bind. rewrite <- (app_assoc (encode_encapsulation_entry e)).
    rewrite (reads_encapsulation_entry before e He) by lia.
    specialize (IH fuel (before ++ [ee_fragment_reference e]) (pre ++ encode_encapsulation_entry e) post Hl).
    rewrite length_app, <- app_assoc, !Nat2Z.inj_add in IH. rewrite Nat2Z.inj_add, Z.add_assoc. by rewrite IH by lia.
Qed.

Lemma encapsulation_read s : encapsulation_ok s ->
  table_reads esg_encapsulation_structure_decode (encode_encapsulation s) s.
Proof.
  intros [Hf Hl Hsome Hsize] post. unfold esg_encapsulation_structure_decode, decoder.
  assert (Hlen : zlen (encode_encapsulation s) = 2 + zlen (List.concat (map encode_encapsulation_entry (es_entry_list s))))
    by (unfold encode_encapsulation; rewrite length_app; cbn [length]; lia).
  assert (0 < zlen (List.concat (map encode_encapsulation_entry (es_entry_list s)))).
  { destruct (es_entry_list s) as [|e l]; [done|]. apply Forall_cons_iff in Hl as [He _]. cbn [map List.concat].
    rewrite length_app, encapsulation_entry_length by done. lia. }
  destruct (Z.leb_spec (zlen (encode_encapsulation s)) 2); [lia|].
  set (bs := List.concat (map encode_encapsulation_entry (es_entry_list s))) in *.
  rewrite (reads_run _ _ [0] 0 [] ([0x21] ++ bs ++ post)); [|apply reads_read8|by rewrite <- Hf|done|cbn [length]; lia].
  rewrite (reads_run _ _ [0x21] 0x21 [0] (bs ++ post)); [|apply reads_read8|by rewrite <- Hf|done|cbn [length]; lia].
  unfold mbind at 2, D_bind.
  pose proof (encapsulation_loop (es_entry_list s) (S (Z.to_nat (zlen (encode_encapsulation s)))) [] [0; 0x21] post Hl) as E.
  fold bs in E. change (zlen [0; 0x21]) with 2 in E. unfold encode_encapsulation at 2. rewrite Hf, Hlen in *.
  change (0 + zlen [0] + zlen [0x21]) with 2. cbn [app] in E. cbn [app]. fold bs. rewrite E by lia. cbn [mbind res_bind mret res_ret D_ret option_map fst]. rewrite <- Hf. by destruct s.
Qed.

(** ** The init message *)

Definition encode_prefix (p : esg_namespace_prefix) : list Z := be16 (np_prefix_string_ptr p) ++ be16 (np_namespace_uri_ptr p).
Definition encode_type (t : esg_xml_fragment_type) : list Z := be16 (xt_xpath_ptr t) ++ be16 (xt_xml_fragment_type t).

Lemma reads_prefix p : reads read_prefix (encode_prefix p) p.
Proof.
  apply decodes_bind with (np_prefix_string_ptr p); [apply reads_read16|].
  apply reads_last with (np_namespace_uri_ptr p); [apply reads_read16|]. destruct p. apply decodes_ret.
Qed.

Lemma reads_type t : reads read_type (encode_type t) t.
Proof.
  apply decodes_bind with (xt_xpath_ptr t); [apply reads_read16|].
  apply reads_last with (xt_xml_fragment_type t); [apply reads_read16|]. destruct t. apply decodes_ret.
Qed.

(** The lists of a decoder init. *)
Definition init_body (d : esg_textual_decoder_init) : list Z :=
  [di_num_namespace_prefixes d] ++ List.concat (map encode_prefix (di_namespace_prefix_list d)) ++
  [di_num_fragment_types d] ++ List.concat (map encode_type (di_xml_fragment_type_list d)).
Definition encode_decoder_init (d : esg_textual_decoder_init) : list Z :=
  [di_version d] ++ vlu_bytes (zlen (init_body d)) ++ init_body d.

Record decoder_init_ok (d : esg_textual_decoder_init) : Prop := {
  di_prefixes : di_num_namespace_prefixes d = zlen (di_namespace_prefix_list d);
  di_types : di_num_fragment_types d = zlen (di_xml_fragment_type_list d);
  di_size : zlen (init_body d) < 2 ^ 24;
}.

Lemma decoder_init_length d : decoder_init_ok d -> 3 <= zlen (encode_decoder_init d) < 2 ^ 24 + 6.
Proof.
  intros [_ _ Hs]. unfold encode_decoder_init. rewrite !length_app. pose proof (vlu_bytes_length (zlen (init_body d)) ltac:(lia)).
  assert (1 <= zlen (init_body d)) by (unfold init_body; cbn [app length]; lia). cbn [length] in *. lia.
Qed.

Lemma decoder_init_read d : decoder_init_ok d -> table_reads esg_textual_decoder_init_decode (encode_decoder_init d) d.
Proof.
  intros Hok. pose proof (decoder_init_length d Hok). destruct Hok as [Hp Ht Hs]. apply decoder_table; [|lia].
  apply decodes_bind with (di_version d); [apply reads_read8|].
  apply decodes_bind with (zlen (init_body d)); [apply reads_vlu; lia|]. apply (reads_need _ _ _ (λ _, _)); [lia|].
  apply decodes_bind with (di_num_namespace_prefixes d); [apply reads_read8|]. rewrite Hp, Nat2Z.id.
  apply decodes_bind with (di_namespace_prefix_list d); [apply reads_times, Forall_true, reads_prefix|].
  apply decodes_bind with (di_num_fragment_types d); [apply reads_read8|]. rewrite Ht, Nat2Z.id.
  apply reads_last with (di_xml_fragment_type_list d); [apply reads_times, Forall_true, reads_type|].
  rewrite <- Hp, <- Ht. destruct d. apply decodes_ret.
Qed.

(** The decoder init of a textual encoding follows the message. *)
Definition init_head (m : esg_init_message) : list Z :=
  [im_encoding_version m; flag (im_indexing_flag m) 0x80; im_decoder_init_ptr m] ++
  (if im_indexing_flag m =? 0 then [] else [im_indexing_version m]) ++
  match im_encoding_parameters m with
  | Bim buffer_size_flag position_code_flag character_encoding buffer_size =>
      [flag buffer_size_flag 0x80 + flag position_code_flag 0x40; character_encoding] ++
      (if buffer_size_flag =? 0 then [] else be24 buffer_size)
  | Textual character_encoding => [character_encoding]
  end.
Definition encode_init_message (m : esg_init_message) : list Z :=
  init_head m ++ match im_decoder_init m with Some d => encode_decoder_init d | None => [] end.

Definition init_message_ok (m : esg_init_message) : Prop :=
  is_flag (im_indexing_flag m) /\ (im_indexing_flag m = 0 -> im_indexing_version m = 0) /\
  match im_encoding_parameters m, im_decoder_init m with
  | Bim buffer_size_flag position_code_flag _ buffer_size, None =>
      im_encoding_version m = 0xF1 /\ is_flag buffer_size_flag /\ is_flag position_code_flag /\
      (buffer_size_flag = 0 -> buffer_size = 0)
  | Textual _, Some d =>
      (im_encoding_version m = 0xF2 \/ im_encoding_version m = 0xF3) /\ im_decoder_init_ptr m = zlen (init_head m) /\
      decoder_init_ok d
  | _, _ => False
  end.

Lemma init_flags a b : is_flag a -> is_flag b ->
  Z.shiftr (Z.land (flag a 0x80 + flag b 0x40) 0x80) 7 = a /\ Z.shiftr (Z.land (flag a 0x80 + flag b 0x40) 0x40) 6 = b.
Proof. by intros [-> | ->] [-> | ->]. Qed.

Lemma reads_optional f v (d : D Z) (encode : Z -> list Z) : is_flag f -> (f = 0 -> v = 0) ->
  (forall v, reads d (encode v) v) ->
  reads (if negb (f =? 0) then d else mret 0) (if f =? 0 then [] else encode v) v.
Proof.
  intros [-> | ->] Hv Hd; [|apply Hd]. cbn [Z.eqb negb]. rewrite (Hv eq_refl). apply decodes_ret.
Qed.

Lemma init_message_bim m b p c s : im_encoding_parameters m = Bim b p c s -> init_message_ok m ->
  table_reads esg_init_message_decode (encode_init_message m) m.
Proof.
  intros Ep (Hf & Hi & Hok). rewrite Ep in Hok. destruct (im_decoder_init m) eqn:Ed; [done|].
  destruct Hok as (Hv & Hb & Hp & Hs). unfold encode_init_message, init_head. rewrite Ed, Ep, app_nil_r.
  apply decoder_table.
  2: { cbn [app length]. rewrite !length_app. cbn [length]. repeat (destruct (_ =? 0)); cbn [length be24]; lia. }
  apply (decodes_bind _ _ [_] _ _ _ (reads_read8 _)), (decodes_bind _ _ [_] _ _ _ (reads_read8 _)). cbv zeta.
  destruct (init_flags _ 0 Hf (or_introl eq_refl)) as [E _]. change (flag 0 0x40) with 0 in E. rewrite Z.add_0_r in E. rewrite E.
  apply (decodes_bind _ _ [_] _ _ _ (reads_read8 _)).
  apply decodes_bind with (im_indexing_version m); [apply (reads_optional _ _ _ (λ v, [v])); auto using reads_read8|].
  rewrite Hv. cbn [Z.eqb Pos.eqb]. apply (decodes_bind _ _ [_] _ _ _ (reads_read8 _)).
  destruct (init_flags _ _ Hb Hp) as [-> ->]. apply (decodes_bind _ _ [_] _ _ _ (reads_read8 _)).
  apply reads_last with s; [apply reads_optional; auto using reads_read24|].
  destruct m. cbn in *. subst. apply decodes_ret.
Qed.

(** One read in a given buffer. *)
Definition reads_in {A} (pre post : list Z) (size : Z) (d : D A) (bs : list Z) (a : A) : Prop :=
  d (pre ++ bs ++ post) size (zlen pre) = Ok (Some (a, zlen pre + zlen bs)).

Lemma reads_in_bind {A B} pre post size (d : D A) (k : A -> D B) bs bs' a b :
  reads d bs a -> zlen pre + zlen (bs ++ bs') <= size < 2 ^ 32 -> reads_in (pre ++ bs) post size (k a) bs' b ->
  reads_in pre post size (d ≫= k) (bs ++ bs') b.
Proof.
  intros Hd Hs Hk. unfold reads_in in *. rewrite length_app in *. rewrite <- (app_assoc bs).
  rewrite (reads_run d k bs a pre (bs' ++ post)) by (done || lia). rewrite Nat2Z.inj_add in *.
  rewrite <- app_assoc in Hk. rewrite Hk. do 3 f_equal. lia.
Qed.

Lemma decoder_reads_in {A} least (d : D A) bs rest a post :
  reads_in [] (rest ++ post) (zlen (bs ++ rest)) d bs a -> least < zlen (bs ++ rest) ->
  decoder least d (Some ((bs ++ rest) ++ post)) (zlen (bs ++ rest)) = Ok (Some a).
Proof.
  intros Hd Hl. unfold decoder, reads_in in *. destruct (Z.leb_spec (zlen (bs ++ rest)) least); [lia|].
  change (zlen []) with 0 in Hd. rewrite <- app_assoc. cbn [app] in Hd. by rewrite Hd.
Qed.

Lemma drop_before {A} (pre post : list A) : drop (Z.to_nat (zlen pre)) (pre ++ post) = post.
Proof. rewrite Nat2Z.id. apply drop_app_length. Qed.

(** The size of what was read and what is read, against the size of the head. *)
Ltac head_size Hl := apply Hl; cbn [app length]; rewrite ?length_app; cbn [app length]; rewrite ?length_app; cbn [length]; lia.

Lemma init_message_textual m c d : im_encoding_parameters m = Textual c -> im_decoder_init m = Some d ->
  init_message_ok m -> table_reads esg_init_message_decode (encode_init_message m) m.
Proof.
  intros Ep Ed (Hf & Hi & Hok) post. rewrite Ep, Ed in Hok. destruct Hok as (Hv & Hptr & Hd).
  pose proof (decoder_init_length d Hd) as Hlen. unfold encode_init_message. rewrite Ed.
  assert (Hhead : zlen (init_head m) <= 5).
  { unfold init_head. rewrite Ep, !length_app. destruct (_ =? 0); cbn [length]; lia. }
  assert (Hsize : zlen (init_head m ++ encode_decoder_init d) = zlen (init_head m) + zlen (encode_decoder_init d))
    by (rewrite length_app; lia).
  apply decoder_reads_in.
  2: { rewrite Hsize. enough (4 <= zlen (init_head m)) by lia. unfold init_head. rewrite Ep, !length_app.
       destruct (_ =? 0); cbn [length]; lia. }
  set (size := zlen (init_head m ++ encode_decoder_init d)) in *.
  enough (Hend : forall pre, pre = init_head m ->
    reads_in pre (encode_decoder_init d ++ post) size
      (size ← the_size;
       decoder_init ← sub_decoder esg_textual_decoder_init_decode (im_decoder_init_ptr m) (u32 (size - im_decoder_init_ptr m));
       mret (EsgInitMessage (im_encoding_version m) (im_indexing_flag m) (im_decoder_init_ptr m) (im_indexing_version m)
               (Textual c) decoder_init)) [] m).
  { assert (Hl : forall l, l = zlen (init_head m) -> l <= size < 2 ^ 32) by lia.
    unfold init_head in Hl |- *. rewrite Ep in Hl |- *. cbn [app] in Hl |- *.
    destruct (init_flags _ 0 Hf (or_introl eq_refl)) as [E _]. change (flag 0 0x40) with 0 in E. rewrite Z.add_0_r in E.
    apply (reads_in_bind _ _ _ _ _ [_] _ _ _ (reads_read8 _)); [head_size Hl|].
    apply (reads_in_bind _ _ _ _ _ [_] _ _ _ (reads_read8 _)); [head_size Hl|]. cbv zeta. rewrite E.
    apply (reads_in_bind _ _ _ _ _ [_] _ _ _ (reads_read8 _)); [head_size Hl|].
    apply reads_in_bind with (im_indexing_version m);
      [apply (reads_optional _ _ _ (λ v, [v])); auto using reads_read8 | |].
    { head_size Hl. }
    assert (Hsel : (im_encoding_version m =? 0xF1) = false /\ ((im_encoding_version m =? 0xF2) || (im_encoding_version m =? 0xF3)) = true)
      by (by destruct Hv as [-> | ->]).
    destruct Hsel as [-> ->]. apply (reads_in_bind _ _ _ _ _ [_] [] _ _ (reads_read8 _)).
    { head_size Hl. }
    apply Hend. unfold init_head. rewrite Ep. cbn [app]. done. }
  intros pre ->. unfold reads_in. cbn [app]. unfold the_size, sub_decoder, mbind, D_bind. rewrite Hptr, drop_before.
  replace (u32 (size - zlen (init_head m))) with (zlen (encode_decoder_init d)) by (rewrite u32_id; lia).
  rewrite (decoder_init_read d Hd). cbn [res_bind mret D_ret mbind]. unfold mret, D_ret. rewrite <- Hptr.
  destruct m. cbn in *. subst. by rewrite Z.add_0_r.
Qed.

Lemma init_message_read m : init_message_ok m -> table_reads esg_init_message_decode (encode_init_message m) m.
Proof.
  intros Hok. pose proof Hok as (_ & _ & Hp). destruct (im_encoding_parameters m) eqn:Ep.
  - by eapply init_message_bim.
  - destruct (im_decoder_init m) eqn:Ed; [|done]. by eapply init_message_textual.
Qed.

(** ** The session partition declaration *)

Definition encode_session_field (f : esg_session_field) : list Z :=
  be16 (sf_identifier f) ++ be16 (sf_encoding f) ++ [sf_length f].

Definition encode_value (v : esg_session_ip_stream_field_value) : list Z :=
  match v with FieldString bs => bs | FieldShort v => be16 v end.

Definition option_value (v : option esg_session_ip_stream_field_value) : list Z :=
  match v with Some v => encode_value v | None => [] end.

(** The values of a field, with their length in front if the field has none of its own. *)
Definition encode_stream_field (f : esg_session_field) (v : esg_session_ip_stream_field) : list Z :=
  (if sf_length f =? 0 then vlu_bytes (zlen (option_value (end_field_value v))) else []) ++
  option_value (start_field_value v) ++ option_value (end_field_value v).

(** A value of a field with this encoding and length. *)
Definition value_ok (encoding length : Z) (v : esg_session_ip_stream_field_value) : Prop :=
  zlen (encode_value v) = length /\
  match v with FieldString _ => encoding = 0x0000 | FieldShort _ => encoding = 0x0101 end.

Definition stream_field_ok (overlapping : Z) (f : esg_session_field) (v : esg_session_ip_stream_field) : Prop :=
  exists length first last, 0 <= length < 2 ^ 24 /\ (sf_length f <> 0 -> sf_length f = length) /\
    v = EsgStreamField first (Some last) /\ value_ok (sf_encoding f) length last /\
    if overlapping =? 1 then exists v, first = Some v /\ value_ok (sf_encoding f) length v else first = None.

Definition encode_stream (fs : list esg_session_field) (s : esg_session_ip_stream) : list Z :=
  [is_id s] ++ (is_source_ip s ++ is_destination_ip s) ++ be16 (is_port s) ++ be16 (is_session_id s) ++
  List.concat (zip_with encode_stream_field fs (is_field_list s)).

Definition stream_ok (overlapping ip_version_6 : Z) (fs : list esg_session_field) (s : esg_session_ip_stream) : Prop :=
  address_ok ip_version_6 (is_source_ip s) /\ address_ok ip_version_6 (is_destination_ip s) /\
  Forall2 (stream_field_ok overlapping) fs (is_field_list s).

Definition partition_body (p : esg_session_partition_declaration) : list Z :=
  List.concat (map encode_session_field (sp_field_list p)) ++
  [sp_n_o_ip_streams p; flag (sp_ip_version_6 p) 0x80] ++
  List.concat (map (encode_stream (sp_field_list p)) (sp_ip_stream_list p)).
Definition encode_partition (p : esg_session_partition_declaration) : list Z :=
  [sp_num_fields p; flag (sp_overlapping p) 0x80] ++ partition_body p.

Record partition_ok (p : esg_session_partition_declaration) : Prop := {
  sp_fields : sp_num_fields p = zlen (sp_field_list p);
  sp_streams : sp_n_o_ip_streams p = zlen (sp_ip_stream_list p);
  sp_overlapping_flag : is_flag (sp_overlapping p);
  sp_ip_flag : is_flag (sp_ip_version_6 p);
  sp_streams_ok : Forall (stream_ok (sp_overlapping p) (sp_ip_version_6 p) (sp_field_list p)) (sp_ip_stream_list p);
  sp_size : zlen (encode_partition p) < 2 ^ 24;
}.

Lemma reads_session_field f : reads session_field (encode_session_field f) f.
Proof.
  apply decodes_bind with (sf_identifier f); [apply reads_read16|].
  apply decodes_bind with (sf_encoding f); [apply reads_read16|].
  apply reads_last with (sf_length f); [apply reads_read8|]. destruct f. apply decodes_ret.
Qed.

Lemma reads_field_string length bs : zlen bs = length -> reads (field_string length) bs (FieldString bs).
Proof. intros <-. apply reads_last with bs; [by apply reads_read_bytes | apply decodes_ret]. Qed.

Lemma reads_field_short v : reads (field_short 2) (be16 v) (FieldShort v).
Proof.
  intros pre post size Hs. pose proof (reads_read16 v pre post size Hs) as E. change (zlen (be16 v)) with 2 in *.
  assert (E0 : at_ (pre ++ be16 v ++ post) (zlen pre) = Ok (v / 256)) by (apply at_mid with 0%nat; [lia | done]).
  assert (E1 : at_ (pre ++ be16 v ++ post) (zlen pre + 1) = Ok (v mod 256)) by (apply at_mid with 1%nat; [lia | done]).
  unfold read16, mbind, D_bind, read8, field_short in *. rewrite E0 in *. cbn [mbind res_bind] in *.
  rewrite (u32_next _ 1 size) in * by lia. rewrite E1 in *. cbn [mbind res_bind] in *.
  injection E as E _. by rewrite E, (u32_next _ _ size) by lia.
Qed.

Lemma reads_range overlapping encoding length first last (d : D esg_session_ip_stream_field_value) :
  (forall v, value_ok encoding length v -> reads d (encode_value v) v) -> value_ok encoding length last ->
  (if overlapping =? 1 then exists v, first = Some v /\ value_ok encoding length v else first = None) ->
  reads (field_range overlapping d) (option_value first ++ encode_value last) (EsgStreamField first (Some last)).
Proof.
  intros Hd Hl Hf. apply decodes_bind with first.
  - destruct (overlapping =? 1); [|subst first; apply decodes_ret]. destruct Hf as (v & -> & Hv).
    apply reads_last with v; [by apply Hd | apply decodes_ret].
  - apply reads_last with last; [by apply Hd | apply decodes_ret].
Qed.

Lemma reads_stream_field free overlapping f v : stream_field_ok overlapping f v ->
  reads (stream_field free overlapping f) (encode_stream_field f v) v.
Proof.
  intros (length & first & last & Hlen & Hsf & -> & Hl & Hf). unfold stream_field, encode_stream_field.
  cbn [end_field_value start_field_value option_value]. apply decodes_bind with length.
  - destruct (Z.eqb_spec (sf_length f) 0) as [_ | Hne]; cbn [negb].
    + rewrite (proj1 Hl). apply reads_vlu. lia.
    + rewrite (Hsf Hne). apply decodes_ret.
  - pose proof (proj2 Hl) as Henc. destruct last as [bs | x]; rewrite Henc in *; cbn [Z.eqb Pos.eqb].
    + apply (reads_range _ 0x0000 length); [|done..]. intros [bs' | x] [Hb He]; [by apply reads_field_string | done].
    + apply (reads_range _ 0x0101 length); [|done..]. intros [bs' | y] [Hb He]; [done|]. cbn in Hb.
      rewrite <- Hb. apply reads_field_short.
Qed.

Lemma reads_stream_fields free overlapping fs vs : Forall2 (stream_field_ok overlapping) fs vs ->
  reads (stream_fields free overlapping fs) (List.concat (zip_with encode_stream_field fs vs)) vs.
Proof.
  induction 1 as [|f v fs vs Hv _ IH]; [apply decodes_ret|]. cbn [stream_fields zip_with List.concat].
  apply decodes_bind with v; [by apply reads_stream_field|]. apply reads_last with vs; [done | apply decodes_ret].
Qed.

Lemma reads_ip_stream before overlapping v6 fs s : is_flag v6 -> stream_ok overlapping v6 fs s ->
  reads (ip_stream before overlapping v6 fs) (encode_stream fs s) s.
Proof.
  intros Hv (Hs & Hd & Hf). apply decodes_bind with (is_id s); [apply reads_read8|].
  apply decodes_bind with (is_source_ip s, is_destination_ip s); [by apply reads_addresses|].
  apply decodes_bind with (is_port s); [apply reads_read16|]. apply decodes_bind with (is_session_id s); [apply reads_read16|].
  apply reads_last with (is_field_list s); [by apply reads_stream_fields|]. destruct s. apply decodes_ret.
Qed.

Lemma reads_ip_streams overlapping v6 fs l : is_flag v6 -> Forall (stream_ok overlapping v6 fs) l ->
  forall before, reads (ip_streams (length l) before overlapping v6 fs) (List.concat (map (encode_stream fs) l)) l.
Proof.
  intros Hv. induction 1 as [|s l Hs _ IH]; intros before; [apply decodes_ret|]. cbn [length ip_streams map List.concat].
  apply decodes_bind with s; [by apply reads_ip_stream|]. apply reads_last with l; [done | apply decodes_ret].
Qed.

Lemma session_fields_length l : zlen (List.concat (map encode_session_field l)) = 5 * zlen l.
Proof. induction l as [|f l IH]; [done|]. cbn [map List.concat length]. rewrite length_app. cbn [encode_session_field be16 app length]. lia. Qed.

Lemma top_flag b : is_flag b -> bit_set (flag b 0x80) 0x80 = b.
Proof. by intros [-> | ->]. Qed.

Lemma partition_read p : partition_ok p -> table_reads esg_session_partition_declaration_decode (encode_partition p) p.
Proof.
  intros [Hf Hs Ho Hv Hok Hsize]. apply decoder_table.
  2: { split; [|lia]. unfold encode_partition, partition_body. rewrite !length_app. cbn [length]. lia. }
  apply (decodes_bind _ _ [_] _ _ _ (reads_read8 _)), (decodes_bind _ _ [_] _ _ _ (reads_read8 _)). cbv zeta.
  rewrite (top_flag _ Ho). apply (reads_need _ _ _ (λ _, _)).
  { rewrite Hf. unfold partition_body. rewrite length_app, Nat2Z.inj_add, session_fields_length. lia. }
  unfold partition_body. rewrite Hf, Nat2Z.id.
  apply decodes_bind with (sp_field_list p); [apply reads_times, Forall_true, reads_session_field|].
  apply (decodes_bind _ _ [_] _ _ _ (reads_read8 _)), (decodes_bind _ _ [_] _ _ _ (reads_read8 _)). cbv zeta.
  rewrite (top_flag _ Hv), Hs, Nat2Z.id.
  apply reads_last with (sp_ip_stream_list p); [by apply reads_ip_streams|]. rewrite <- Hf, <- Hs. destruct p. apply decodes_ret.
Qed.

(** ** Containers *)

(** The bytes of a structure of a type and an id, and what is decoded from them.  Three types are not
    decoded. *)
Inductive structure_encodes : Z -> Z -> list Z -> esg_structure_data -> Prop :=
  | encodes_fragments s : encapsulation_ok s ->
      structure_encodes 0x01 0x00 (encode_encapsulation s) (FragmentManagement (Some s))
  | encodes_strings s : strings_ok s -> structure_encodes 0x02 0x00 (encode_strings s) (StringRepository (Some s))
  | encodes_other type id bs : type = 0x03 \/ type = 0x04 \/ type = 0x05 -> structure_encodes type id bs NotDecoded
  | encodes_data s : data_ok s -> structure_encodes 0xE0 0x00 (dr_data s) (DataRepository (Some s))
  | encodes_partition s : partition_ok s ->
      structure_encodes 0xE1 0xFF (encode_partition s) (PartitionDeclaration (Some s))
  | encodes_init m : init_message_ok m -> structure_encodes 0xE2 0x00 (encode_init_message m) (InitMessage (Some m)).

(** A structure to be put into a container. *)
Record content := Content { co_type : Z; co_id : Z; co_bytes : list Z; co_data : esg_structure_data }.
Definition content_ok (c : content) : Prop := structure_encodes (co_type c) (co_id c) (co_bytes c) (co_data c).

Definition bodies (l : list content) : list Z := List.concat (map co_bytes l).

(** The directory, for structures that start at [ptr], and what is decoded from it. *)
Fixpoint directory (ptr : Z) (l : list content) : list Z :=
  match l with
  | [] => []
  | c :: l => ([co_type c; co_id c] ++ be24 ptr ++ be24 (zlen (co_bytes c))) ++ directory (ptr + zlen (co_bytes c)) l
  end.
Fixpoint decoded (ptr : Z) (l : list content) : list esg_container_structure :=
  match l with
  | [] => []
  | c :: l => EsgContainerStructure (co_type c) (co_id c) ptr (zlen (co_bytes c)) (co_data c) :: decoded (ptr + zlen (co_bytes c)) l
  end.

Definition encode_container (l : list content) : list Z :=
  [zlen l] ++ directory (1 + 8 * zlen l) l ++ bodies l.

Lemma sub_decoder_run {A} (f : option mem -> Z -> res (option A)) bs (a : A) ptr buf size pos post :
  table_reads f bs a -> drop (Z.to_nat ptr) buf = bs ++ post ->
  sub_decoder f ptr (zlen bs) buf size pos = Ok (Some (Some a, pos)).
Proof. intros Hf Hbuf. unfold sub_decoder. rewrite Hbuf, Hf. done. Qed.

Lemma structure_run free type id bs data ptr buf size pos post : structure_encodes type id bs data ->
  drop (Z.to_nat ptr) buf = bs ++ post -> structure_data free type id ptr (zlen bs) buf size pos = Ok (Some (data, pos)).
Proof.
  intros [s Hs | s Hs | t i l Ht | s Hs | s Hs | m Hm] Hbuf; unfold structure_data; cbn [Z.eqb Pos.eqb orb];
    unfold mbind, D_bind; cbn beta.
  - by rewrite (sub_decoder_run _ _ s _ _ _ _ post) by auto using encapsulation_read.
  - by rewrite (sub_decoder_run _ _ s _ _ _ _ post) by auto using strings_read.
  - by destruct Ht as [-> | [-> | ->]].
  - by rewrite (sub_decoder_run _ _ s _ _ _ _ post) by auto using data_read.
  - by rewrite (sub_decoder_run _ _ s _ _ _ _ post) by auto using partition_read.
  - by rewrite (sub_decoder_run _ _ m _ _ _ _ post) by auto using init_message_read.
Qed.

Lemma container_structure_run i c ptr pre rest size :
  content_ok c -> 0 <= ptr -> ptr + zlen (co_bytes c) <= size < 2 ^ 24 -> zlen pre + 8 <= size ->
  let entry := [co_type c; co_id c] ++ be24 ptr ++ be24 (zlen (co_bytes c)) in
  (exists post, drop (Z.to_nat ptr) (pre ++ entry ++ rest) = co_bytes c ++ post) ->
  container_structure i (pre ++ entry ++ rest) size (zlen pre) =
  Ok (Some (EsgContainerStructure (co_type c) (co_id c) ptr (zlen (co_bytes c)) (co_data c), zlen pre + 8)).
Proof.
  intros Hc Hp Hsize Hpre entry [post Hbody]. unfold container_structure. set (buf := pre ++ entry ++ rest) in *.
  rewrite (reads_run _ _ [co_type c] (co_type c) pre ([co_id c] ++ be24 ptr ++ be24 (zlen (co_bytes c)) ++ rest));
    [|apply reads_read8 | done | done | cbn [length]; lia].
  rewrite (reads_run _ _ [co_id c] (co_id c) (pre ++ [co_type c]) (be24 ptr ++ be24 (zlen (co_bytes c)) ++ rest));
    [|apply reads_read8 | by rewrite <- app_assoc | rewrite length_app; cbn [length]; lia | rewrite length_app; cbn [length]; lia].
  rewrite (reads_run _ _ (be24 ptr) ptr (pre ++ [co_type c; co_id c]) (be24 (zlen (co_bytes c)) ++ rest));
    [|apply reads_read24 | by rewrite <- app_assoc | rewrite length_app; cbn [length]; lia
     | rewrite length_app; cbn [length be24]; lia].
  rewrite (reads_run _ _ (be24 (zlen (co_bytes c))) (zlen (co_bytes c)) (pre ++ [co_type c; co_id c] ++ be24 ptr) rest);
    [|apply reads_read24 | by rewrite <- app_assoc | rewrite length_app; cbn [length app be24]; lia
     | rewrite length_app; cbn [length app be24]; lia].
  cbv zeta. rewrite u32_id by lia. rewrite (proj2 (Z.ltb_ge size _)) by lia.
  unfold mbind, D_bind, mret, D_ret. rewrite (structure_run _ _ _ _ (co_data c) _ _ _ _ post) by done.
  do 3 f_equal. cbn [length be24]. lia.
Qed.

Lemma directory_length l : forall ptr, zlen (directory ptr l) = 8 * zlen l.
Proof. induction l as [|c l IH]; intros ptr; [done|]. cbn [directory length app be24]. rewrite Nat2Z.inj_succ. cbn [length] in *. specialize (IH (ptr + zlen (co_bytes c))). lia. Qed.

Lemma structures_run l : forall i ptr pre rest post size, Forall content_ok l -> 0 <= ptr ->
  ptr + zlen (bodies l) <= size < 2 ^ 24 -> zlen pre + 8 * zlen l <= size ->
  drop (Z.to_nat ptr) (pre ++ directory ptr l ++ rest) = bodies l ++ post ->
  container_structures (length l) i (pre ++ directory ptr l ++ rest) size (zlen pre) =
  Ok (Some (decoded ptr l, zlen pre + 8 * zlen l)).
Proof.
  induction l as [|c l IH]; intros i ptr pre rest post size Hl Hp Hsize Hpre Hbuf.
  - cbn. by rewrite Z.add_0_r.
  - apply Forall_cons_iff in Hl as [Hc Hl]. unfold bodies in *. cbn [map List.concat directory length container_structures] in *.
    rewrite length_app in Hsize. rewrite <- app_assoc in Hbuf. set (entry := [co_type c; co_id c] ++ _) in *.
    assert (Hentry : zlen entry = 8) by done. set (rest' := directory (ptr + zlen (co_bytes c)) l ++ rest) in *.
    assert (Eb : pre ++ (entry ++ directory (ptr + zlen (co_bytes c)) l) ++ rest = pre ++ entry ++ rest') by
      (by rewrite <- app_assoc).
    rewrite Eb in *. unfold mbind, D_bind.
    pose proof (container_structure_run i c ptr pre rest' size Hc) as E. cbv zeta in E. fold entry in E.
    rewrite E by (try lia; eexists; rewrite Hbuf, <- app_assoc; done). clear E.
    replace (zlen pre + 8) with (zlen (pre ++ entry)) by (rewrite length_app; lia).
    replace (pre ++ entry ++ rest') with ((pre ++ entry) ++ rest') by (by rewrite <- app_assoc).
    unfold rest'. rewrite (IH _ _ _ _ post); [|done|lia|lia|rewrite length_app; lia|].
    + cbn [decoded]. unfold mret, D_ret. rewrite length_app. do 3 f_equal. lia.
    + rewrite <- app_assoc. fold rest'. replace (Z.to_nat (ptr + zlen (co_bytes c))) with (Z.to_nat ptr + length (co_bytes c))%nat by lia.
      rewrite <- drop_drop, Hbuf, <- app_assoc. apply drop_app_length.
Qed.

(** C18: a container of the service guide is decoded with everything in it: the structures of its directory, and
    for each the fragment management information, the strings, the data, the partition of the session or
    the init message it was encoded from; its body is what is behind the directory. *)
Theorem container_roundtrip l post : Forall content_ok l -> 0 < zlen l < 256 -> zlen (encode_container l) < 2 ^ 24 ->
  esg_container_decode (Some (encode_container l ++ post)) (zlen (encode_container l)) =
  Ok (Some (EsgContainer (zlen l) (decoded (1 + 8 * zlen l) l) (1 + 8 * zlen l) (zlen (bodies l)) (bodies l))).
Proof.
  intros Hl Hn Hsize. set (dir := directory (1 + 8 * zlen l) l). assert (Hdir : zlen dir = 8 * zlen l) by apply directory_length.
  assert (Hlen : zlen (encode_container l) = 1 + 8 * zlen l + zlen (bodies l)).
  { unfold encode_container. fold dir. rewrite !length_app, !Nat2Z.inj_add, Hdir. cbn [length]. lia. }
  unfold esg_container_decode, decoder. destruct (Z.leb_spec (zlen (encode_container l)) 1); [lia|]. rewrite Hlen in *.
  set (size := 1 + 8 * zlen l + zlen (bodies l)) in *.
  assert (Hbuf : encode_container l ++ post = [zlen l] ++ dir ++ bodies l ++ post)
    by (unfold encode_container; fold dir; by rewrite <- !app_assoc).
  rewrite Hbuf. rewrite (reads_run _ _ [zlen l] (zlen l) [] (dir ++ bodies l ++ post));
    [|apply reads_read8 | done | done | cbn [length]; lia].
  change (0 + zlen [zlen l]) with 1. unfold mbind at 2, D_bind at 1, need.
  rewrite u32_id, (proj2 (Z.ltb_ge size _)) by lia. unfold mbind at 2, D_bind at 1. rewrite Nat2Z.id.
  pose proof (structures_run l 0 (1 + 8 * zlen l) [zlen l] (bodies l ++ post) post size Hl) as E.
  change (zlen [zlen l]) with 1 in E. fold dir in E. rewrite E; try lia; clear E.
  2: { rewrite app_assoc. replace (Z.to_nat (1 + 8 * zlen l)) with (length ([zlen l] ++ dir)) by (rewrite length_app; cbn [length]; lia).
       apply drop_app_length. }
  unfold mbind at 2, D_bind at 1, the_pos. unfold mbind at 2, D_bind at 1, the_size.
  replace (u32 (size - (1 + 8 * zlen l))) with (zlen (bodies l)) by (rewrite u32_id; lia).
  rewrite (reads_run _ _ (bodies l) (bodies l) ([zlen l] ++ dir) post);
    [|by apply reads_read_bytes | by rewrite <- app_assoc | rewrite length_app; cbn [length]; lia
     | rewrite length_app; cbn [length]; lia].
  done.
Qed.

(** ** Examples *)

(** A container with a reference to a fragment, a string and the data of the fragment. *)
Definition small_container : list content :=
  let fragments := EsgEncapsulation 0x21 [EsgEncapsulationEntry (Some (EsgFragmentReference 0 0)) 1 7] in
  [Content 0x01 0x00 (encode_encapsulation fragments) (FragmentManagement (Some fragments));
   Content 0x02 0x00 [0; 65; 0] (StringRepository (Some (EsgStringRepository 0 2 [65; 0])));
   Content 0xE0 0x00 [1; 2; 3] (DataRepository (Some (EsgDataRepository 3 [1; 2; 3])))].

Lemma container_roundtrip_witness :
  Forall content_ok small_container /\
  esg_container_decode (Some (encode_container small_container ++ [])) (zlen (encode_container small_container)) =
  Ok (Some (EsgContainer 3 (decoded 25 small_container) 25 16 (bodies small_container))).
Proof.
  assert (Hok : Forall content_ok small_container).
  { apply List.Forall_cons; [|apply List.Forall_cons; [|apply List.Forall_cons; [|done]]].
    - apply encodes_fragments. split; [done | by apply List.Forall_cons | done | by vm_compute].
    - apply (encodes_strings (EsgStringRepository 0 2 [65; 0])). by repeat split.
    - apply (encodes_data (EsgDataRepository 3 [1; 2; 3])). by repeat split. }
  split; [done|]. apply (container_roundtrip small_container []); [done | by vm_compute | by vm_compute].
Defined.

(** ** Where the decoders fault *)

(** A structure with entries is never freed whole: the first entry is freed twice. *)
Lemma encapsulation_freed_twice r entries : esg_encapsulation_structure_free (r :: entries) = Err BadPointer.
Proof.
  unfold esg_encapsulation_structure_free, free_all. rewrite decide_False; [done|]. cbn [length Nat.eqb imap List.concat app].
  intros Hnd. rewrite <- !app_assoc in Hnd. inversion Hnd as [|? ? _ Hnd']; subst. clear Hnd.
  assert (Hfirst : NoDup (BNode 0 :: List.concat (imap ((λ i r, match r with Some _ => [BPart i] | None => [] end ++ [BNode i]) ∘ S)
      entries) ++ [BNode 0; BRoot])) by (destruct r; [by inversion Hnd' | done]).
  inversion Hfirst as [|? ? Hnot _]; subst. apply Hnot, elem_of_app. right. apply list_elem_of_here.
Qed.

(** So a format of references that is not known makes the decoder free memory twice. *)
Lemma unknown_format_freed_twice a format rest size : format <> 0x21 -> 2 < size ->
  esg_encapsulation_structure_decode (Some (a :: format :: rest)) size = Err BadPointer.
Proof.
  intros Hf Hs.
  assert (E : encapsulation_entry format [] = clean_up (Err BadPointer)).
  { unfold encapsulation_entry. rewrite (proj2 (Z.eqb_neq format 0x21)) by done. cbn [app]. by rewrite encapsulation_freed_twice. }
  unfold esg_encapsulation_structure_decode, decoder. destruct (Z.leb_spec size 2); [lia|].
  unfold mbind, D_bind, res_bind. change (read8 (a :: format :: rest) size 0) with (Ok (Some (a, 1))).
  cbn beta iota. change (read8 (a :: format :: rest) size 1) with (Ok (Some (format, 2))). cbn beta iota.
  cbn [encapsulation_entries]. destruct (Z.ltb_spec 2 size); [|lia]. by rewrite E.
Qed.

(** A declaration with streams is never freed: the fields of the last are looked for behind it. *)
Lemma partition_not_freed {A} fields (s : A) streams :
  esg_session_partition_declaration_free fields (s :: streams) = Err BadPointer.
Proof.
  unfold esg_session_partition_declaration_free. enough (free_streams (s :: streams) = Err BadPointer) as -> by done.
  revert s. induction streams as [|s' streams IH]; intros s; [done | exact (IH s')].
Qed.

(** The entries of the fragment management information are read whole, whatever the size. *)
Lemma fragments_overread : esg_encapsulation_structure_decode (Some [0; 0x21; 1]) 3 = Err OutOfBounds.
Proof. done. Qed.
