(* ===== verification/Scan.v ===== *)
(** * scan.c: services, transponders and filters

    The scanner finds the transponders of a network and the services on each of them, from the tables that
    are broadcast.  This file holds its data, the search for transponders and services, and what the
    descriptors say about them.  A transponder is known by its number among those that were allocated, a
    service by its transponder and its place in the list of services; the same for filters.  The options of
    the command line are an argument; messages to the standard error output are not modelled. *)

From S2P Require Export Io Frontend CText.

(** ** Data *)

Inductive table_type := PAT | PMT | SDT | NIT.

#[export] Instance table_type_eq_dec : EqDecision table_type.
Proof. solve_decision. Defined.

Definition POLARISATION_HORIZONTAL : Z := 0.
Definition POLARISATION_VERTICAL : Z := 1.
Definition POLARISATION_CIRCULAR_LEFT : Z := 2.
Definition POLARISATION_CIRCULAR_RIGHT : Z := 3.

Definition RM_NOT_RUNNING : Z := 1.
Definition RM_STARTS_SOON : Z := 2.
Definition RM_PAUSING : Z := 3.
Definition RM_RUNNING : Z := 4.

Definition AUDIO_CHAN_MAX : Z := 32.
Definition CA_SYSTEM_ID_MAX : Z := 16.

Definition OUTPUT_ZAP : Z := 0.
Definition OUTPUT_VDR : Z := 1.
Definition OUTPUT_PIDS : Z := 2.

(** [struct dvb_frontend_parameters] as memory: the union is seven words of 32 bits, which the structures
    for the kinds of frontends share. *)
Record parameters := Parameters { pa_frequency : Z; pa_inversion : Z; pa_u : list Z }.

(** The words of the union: [qpsk] and [qam] begin with the same two members. *)
Definition u_symbol_rate : nat := 0.
Definition u_fec_inner : nat := 1.
Definition u_qam_modulation : nat := 2.
Definition u_vsb_modulation : nat := 0.
Definition u_bandwidth : nat := 0.
Definition u_code_rate_HP : nat := 1.
Definition u_code_rate_LP : nat := 2.
Definition u_constellation : nat := 3.
Definition u_transmission_mode : nat := 4.
Definition u_guard_interval : nat := 5.
Definition u_hierarchy_information : nat := 6.

Definition u_word (p : parameters) (i : nat) : Z := nth i (pa_u p) 0.

Definition set_frequency (f : Z) (p : parameters) : parameters := Parameters f (pa_inversion p) (pa_u p).
Definition set_inversion (i : Z) (p : parameters) : parameters := Parameters (pa_frequency p) i (pa_u p).
Definition set_word (i : nat) (v : Z) (p : parameters) : parameters :=
  Parameters (pa_frequency p) (pa_inversion p) (<[i := v]> (pa_u p)).

Definition zero_parameters : parameters := Parameters 0 0 (replicate 7 0).

(** [struct service]; a name is the memory that was written, [None] is NULL. *)
Record service := Service {
  sv_transport_stream_id : Z;
  sv_service_id : Z;
  sv_provider_name : option (list Z);
  sv_service_name : option (list Z);
  sv_pmt_pid : Z;
  sv_pcr_pid : Z;
  sv_video_pid : Z;
  sv_audio_pid : list Z;
  sv_audio_lang : list (list Z);
  sv_audio_num : Z;
  sv_ca_id : list Z;  (** the bytes of the array *)
  sv_teletext_pid : Z;
  sv_subtitling_pid : Z;
  sv_ac3_pid : Z;
  sv_type : Z;
  sv_scrambled : Z;
  sv_running : Z;
  sv_priv : option nat;  (** the filter for its PMT *)
  sv_channel_num : Z;
}.

Definition set_sv_transport_stream_id (v : Z) (x : service) : service :=
  Service v (sv_service_id x) (sv_provider_name x) (sv_service_name x) (sv_pmt_pid x) (sv_pcr_pid x)
    (sv_video_pid x) (sv_audio_pid x) (sv_audio_lang x) (sv_audio_num x) (sv_ca_id x) (sv_teletext_pid x)
    (sv_subtitling_pid x) (sv_ac3_pid x) (sv_type x) (sv_scrambled x) (sv_running x) (sv_priv x)
    (sv_channel_num x).
Definition set_sv_service_id (v : Z) (x : service) : service :=
  Service (sv_transport_stream_id x) v (sv_provider_name x) (sv_service_name x) (sv_pmt_pid x) (sv_pcr_pid x)
    (sv_video_pid x) (sv_audio_pid x) (sv_audio_lang x) (sv_audio_num x) (sv_ca_id x) (sv_teletext_pid x)
    (sv_subtitling_pid x) (sv_ac3_pid x) (sv_type x) (sv_scrambled x) (sv_running x) (sv_priv x)
    (sv_channel_num x).
Definition set_sv_provider_name (v : option (list Z)) (x : service) : service :=
  Service (sv_transport_stream_id x) (sv_service_id x) v (sv_service_name x) (sv_pmt_pid x) (sv_pcr_pid x)
    (sv_video_pid x) (sv_audio_pid x) (sv_audio_lang x) (sv_audio_num x) (sv_ca_id x) (sv_teletext_pid x)
    (sv_subtitling_pid x) (sv_ac3_pid x) (sv_type x) (sv_scrambled x) (sv_running x) (sv_priv x)
    (sv_channel_num x).
Definition set_sv_service_name (v : option (list Z)) (x : service) : service :=
  Service (sv_transport_stream_id x) (sv_service_id x) (sv_provider_name x) v (sv_pmt_pid x) (sv_pcr_pid x)
    (sv_video_pid x) (sv_audio_pid x) (sv_audio_lang x) (sv_audio_num x) (sv_ca_id x) (sv_teletext_pid x)
    (sv_subtitling_pid x) (sv_ac3_pid x) (sv_type x) (sv_scrambled x) (sv_running x) (sv_priv x)
    (sv_channel_num x).
Definition set_sv_pmt_pid (v : Z) (x : service) : service :=
  Service (sv_transport_stream_id x) (sv_service_id x) (sv_provider_name x) (sv_service_name x) v (sv_pcr_pid x)
    (sv_video_pid x) (sv_audio_pid x) (sv_audio_lang x) (sv_audio_num x) (sv_ca_id x) (sv_teletext_pid x)
    (sv_subtitling_pid x) (sv_ac3_pid x) (sv_type x) (sv_scrambled x) (sv_running x) (sv_priv x)
    (sv_channel_num x).
Definition set_sv_pcr_pid (v : Z) (x : service) : service :=
  Service (sv_transport_stream_id x) (sv_service_id x) (sv_provider_name x) (sv_service_name x) (sv_pmt_pid x) v
    (sv_video_pid x) (sv_audio_pid x) (sv_audio_lang x) (sv_audio_num x) (sv_ca_id x) (sv_teletext_pid x)
    (sv_subtitling_pid x) (sv_ac3_pid x) (sv_type x) (sv_scrambled x) (sv_running x) (sv_priv x)
    (sv_channel_num x).
Definition set_sv_video_pid (v : Z) (x : service) : service :=
  Service (sv_transport_stream_id x) (sv_service_id x) (sv_provider_name x) (sv_service_name x) (sv_pmt_pid x)
    (sv_pcr_pid x) v (sv_audio_pid x) (sv_audio_lang x) (sv_audio_num x) (sv_ca_id x) (sv_teletext_pid x)
    (sv_subtitling_pid x) (sv_ac3_pid x) (sv_type x) (sv_scrambled x) (sv_running x) (sv_priv x)
    (sv_channel_num x).
Definition set_sv_audio_pid (v : list Z) (x : service) : service :=
  Service (sv_transport_stream_id x) (sv_service_id x) (sv_provider_name x) (sv_service_name x) (sv_pmt_pid x)
    (sv_pcr_pid x) (sv_video_pid x) v (sv_audio_lang x) (sv_audio_num x) (sv_ca_id x) (sv_teletext_pid x)
    (sv_subtitling_pid x) (sv_ac3_pid x) (sv_type x) (sv_scrambled x) (sv_running x) (sv_priv x)
    (sv_channel_num x).
Definition set_sv_audio_lang (v : list (list Z)) (x : service) : service :=
  Service (sv_transport_stream_id x) (sv_service_id x) (sv_provider_name x) (sv_service_name x) (sv_pmt_pid x)
    (sv_pcr_pid x) (sv_video_pid x) (sv_audio_pid x) v (sv_audio_num x) (sv_ca_id x) (sv_teletext_pid x)
    (sv_subtitling_pid x) (sv_ac3_pid x) (sv_type x) (sv_scrambled x) (sv_running x) (sv_priv x)
    (sv_channel_num x).
Definition set_sv_audio_num (v : Z) (x : service) : service :=
  Service (sv_transport_stream_id x) (sv_service_id x) (sv_provider_name x) (sv_service_name x) (sv_pmt_pid x)
    (sv_pcr_pid x) (sv_video_pid x) (sv_audio_pid x) (sv_audio_lang x) v (sv_ca_id x) (sv_teletext_pid x)
    (sv_subtitling_pid x) (sv_ac3_pid x) (sv_type x) (sv_scrambled x) (sv_running x) (sv_priv x)
    (sv_channel_num x).
Definition set_sv_ca_id (v : list Z) (x : service) : service :=
  Service (sv_transport_stream_id x) (sv_service_id x) (sv_provider_name x) (sv_service_name x) (sv_pmt_pid x)
    (sv_pcr_pid x) (sv_video_pid x) (sv_audio_pid x) (sv_audio_lang x) (sv_audio_num x) v (sv_teletext_pid x)
    (sv_subtitling_pid x) (sv_ac3_pid x) (sv_type x) (sv_scrambled x) (sv_running x) (sv_priv x)
    (sv_channel_num x).
Definition set_sv_teletext_pid (v : Z) (x : service) : service :=
  Service (sv_transport_stream_id x) (sv_service_id x) (sv_provider_name x) (sv_service_name x) (sv_pmt_pid x)
    (sv_pcr_pid x) (sv_video_pid x) (sv_audio_pid x) (sv_audio_lang x) (sv_audio_num x) (sv_ca_id x) v
    (sv_subtitling_pid x) (sv_ac3_pid x) (sv_type x) (sv_scrambled x) (sv_running x) (sv_priv x)
    (sv_channel_num x).
Definition set_sv_subtitling_pid (v : Z) (x : service) : service :=
  Service (sv_transport_stream_id x) (sv_service_id x) (sv_provider_name x) (sv_service_name x) (sv_pmt_pid x)
    (sv_pcr_pid x) (sv_video_pid x) (sv_audio_pid x) (sv_audio_lang x) (sv_audio_num x) (sv_ca_id x)
    (sv_teletext_pid x) v (sv_ac3_pid x) (sv_type x) (sv_scrambled x) (sv_running x) (sv_priv x)
    (sv_channel_num x).
Definition set_sv_ac3_pid (v : Z) (x : service) : service :=
  Service (sv_transport_stream_id x) (sv_service_id x) (sv_provider_name x) (sv_service_name x) (sv_pmt_pid x)
    (sv_pcr_pid x) (sv_video_pid x) (sv_audio_pid x) (sv_audio_lang x) (sv_audio_num x) (sv_ca_id x)
    (sv_teletext_pid x) (sv_subtitling_pid x) v (sv_type x) (sv_scrambled x) (sv_running x) (sv_priv x)
    (sv_channel_num x).
Definition set_sv_type (v : Z) (x : service) : service :=
  Service (sv_transport_stream_id x) (sv_service_id x) (sv_provider_name x) (sv_service_name x) (sv_pmt_pid x)
    (sv_pcr_pid x) (sv_video_pid x) (sv_audio_pid x) (sv_audio_lang x) (sv_audio_num x) (sv_ca_id x)
    (sv_teletext_pid x) (sv_subtitling_pid x) (sv_ac3_pid x) v (sv_scrambled x) (sv_running x) (sv_priv x)
    (sv_channel_num x).
Definition set_sv_scrambled (v : Z) (x : service) : service :=
  Service (sv_transport_stream_id x) (sv_service_id x) (sv_provider_name x) (sv_service_name x) (sv_pmt_pid x)
    (sv_pcr_pid x) (sv_video_pid x) (sv_audio_pid x) (sv_audio_lang x) (sv_audio_num x) (sv_ca_id x)
    (sv_teletext_pid x) (sv_subtitling_pid x) (sv_ac3_pid x) (sv_type x) v (sv_running x) (sv_priv x)
    (sv_channel_num x).
Definition set_sv_running (v : Z) (x : service) : service :=
  Service (sv_transport_stream_id x) (sv_service_id x) (sv_provider_name x) (sv_service_name x) (sv_pmt_pid x)
    (sv_pcr_pid x) (sv_video_pid x) (sv_audio_pid x) (sv_audio_lang x) (sv_audio_num x) (sv_ca_id x)
    (sv_teletext_pid x) (sv_subtitling_pid x) (sv_ac3_pid x) (sv_type x) (sv_scrambled x) v (sv_priv x)
    (sv_channel_num x).
Definition set_sv_priv (v : option nat) (x : service) : service :=
  Service (sv_transport_stream_id x) (sv_service_id x) (sv_provider_name x) (sv_service_name x) (sv_pmt_pid x)
    (sv_pcr_pid x) (sv_video_pid x) (sv_audio_pid x) (sv_audio_lang x) (sv_audio_num x) (sv_ca_id x)
    (sv_teletext_pid x) (sv_subtitling_pid x) (sv_ac3_pid x) (sv_type x) (sv_scrambled x) (sv_running x) v
    (sv_channel_num x).
Definition set_sv_channel_num (v : Z) (x : service) : service :=
  Service (sv_transport_stream_id x) (sv_service_id x) (sv_provider_name x) (sv_service_name x) (sv_pmt_pid x)
    (sv_pcr_pid x) (sv_video_pid x) (sv_audio_pid x) (sv_audio_lang x) (sv_audio_num x) (sv_ca_id x)
    (sv_teletext_pid x) (sv_subtitling_pid x) (sv_ac3_pid x) (sv_type x) (sv_scrambled x) (sv_running x)
    (sv_priv x) v.

(** [struct transponder] *)
Record transponder := Transponder {
  tp_services : list service;
  tp_network_id : Z;
  tp_original_network_id : Z;
  tp_transport_stream_id : Z;
  tp_type : Z;
  tp_param : parameters;
  tp_polarisation : Z;
  tp_orbital_pos : Z;
  tp_we_flag : Z;
  tp_scan_done : bool;
  tp_last_tuning_failed : bool;
  tp_other_frequency_flag : bool;
  tp_wrong_frequency : bool;
  tp_n_other_f : Z;
  tp_other_f : option (list Z);
}.

Definition set_tp_services (v : list service) (x : transponder) : transponder :=
  Transponder v (tp_network_id x) (tp_original_network_id x) (tp_transport_stream_id x) (tp_type x) (tp_param x)
    (tp_polarisation x) (tp_orbital_pos x) (tp_we_flag x) (tp_scan_done x) (tp_last_tuning_failed x)
    (tp_other_frequency_flag x) (tp_wrong_frequency x) (tp_n_other_f x) (tp_other_f x).
Definition set_tp_network_id (v : Z) (x : transponder) : transponder :=
  Transponder (tp_services x) v (tp_original_network_id x) (tp_transport_stream_id x) (tp_type x) (tp_param x)
    (tp_polarisation x) (tp_orbital_pos x) (tp_we_flag x) (tp_scan_done x) (tp_last_tuning_failed x)
    (tp_other_frequency_flag x) (tp_wrong_frequency x) (tp_n_other_f x) (tp_other_f x).
Definition set_tp_original_network_id (v : Z) (x : transponder) : transponder :=
  Transponder (tp_services x) (tp_network_id x) v (tp_transport_stream_id x) (tp_type x) (tp_param x)
    (tp_polarisation x) (tp_orbital_pos x) (tp_we_flag x) (tp_scan_done x) (tp_last_tuning_failed x)
    (tp_other_frequency_flag x) (tp_wrong_frequency x) (tp_n_other_f x) (tp_other_f x).
Definition set_tp_transport_stream_id (v : Z) (x : transponder) : transponder :=
  Transponder (tp_services x) (tp_network_id x) (tp_original_network_id x) v (tp_type x) (tp_param x)
    (tp_polarisation x) (tp_orbital_pos x) (tp_we_flag x) (tp_scan_done x) (tp_last_tuning_failed x)
    (tp_other_frequency_flag x) (tp_wrong_frequency x) (tp_n_other_f x) (tp_other_f x).
Definition set_tp_type (v : Z) (x : transponder) : transponder :=
  Transponder (tp_services x) (tp_network_id x) (tp_original_network_id x) (tp_transport_stream_id x) v
    (tp_param x) (tp_polarisation x) (tp_orbital_pos x) (tp_we_flag x) (tp_scan_done x)
    (tp_last_tuning_failed x) (tp_other_frequency_flag x) (tp_wrong_frequency x) (tp_n_other_f x) (tp_other_f x).
Definition set_tp_param (v : parameters) (x : transponder) : transponder :=
  Transponder (tp_services x) (tp_network_id x) (tp_original_network_id x) (tp_transport_stream_id x)
    (tp_type x) v (tp_polarisation x) (tp_orbital_pos x) (tp_we_flag x) (tp_scan_done x)
    (tp_last_tuning_failed x) (tp_other_frequency_flag x) (tp_wrong_frequency x) (tp_n_other_f x) (tp_other_f x).
Definition set_tp_polarisation (v : Z) (x : transponder) : transponder :=
  Transponder (tp_services x) (tp_network_id x) (tp_original_network_id x) (tp_transport_stream_id x)
    (tp_type x) (tp_param x) v (tp_orbital_pos x) (tp_we_flag x) (tp_scan_done x) (tp_last_tuning_failed x)
    (tp_other_frequency_flag x) (tp_wrong_frequency x) (tp_n_other_f x) (tp_other_f x).
Definition set_tp_orbital_pos (v : Z) (x : transponder) : transponder :=
  Transponder (tp_services x) (tp_network_id x) (tp_original_network_id x) (tp_transport_stream_id x)
    (tp_type x) (tp_param x) (tp_polarisation x) v (tp_we_flag x) (tp_scan_done x) (tp_last_tuning_failed x)
    (tp_other_frequency_flag x) (tp_wrong_frequency x) (tp_n_other_f x) (tp_other_f x).
Definition set_tp_we_flag (v : Z) (x : transponder) : transponder :=
  Transponder (tp_services x) (tp_network_id x) (tp_original_network_id x) (tp_transport_stream_id x)
    (tp_type x) (tp_param x) (tp_polarisation x) (tp_orbital_pos x) v (tp_scan_done x) (tp_last_tuning_failed x)
    (tp_other_frequency_flag x) (tp_wrong_frequency x) (tp_n_other_f x) (tp_other_f x).
Definition set_tp_scan_done (v : bool) (x : transponder) : transponder :=
  Transponder (tp_services x) (tp_network_id x) (tp_original_network_id x) (tp_transport_stream_id x)
    (tp_type x) (tp_param x) (tp_polarisation x) (tp_orbital_pos x) (tp_we_flag x) v (tp_last_tuning_failed x)
    (tp_other_frequency_flag x) (tp_wrong_frequency x) (tp_n_other_f x) (tp_other_f x).
Definition set_tp_last_tuning_failed (v : bool) (x : transponder) : transponder :=
  Transponder (tp_services x) (tp_network_id x) (tp_original_network_id x) (tp_transport_stream_id x)
    (tp_type x) (tp_param x) (tp_polarisation x) (tp_orbital_pos x) (tp_we_flag x) (tp_scan_done x) v
    (tp_other_frequency_flag x) (tp_wrong_frequency x) (tp_n_other_f x) (tp_other_f x).
Definition set_tp_other_frequency_flag (v : bool) (x : transponder) : transponder :=
  Transponder (tp_services x) (tp_network_id x) (tp_original_network_id x) (tp_transport_stream_id x)
    (tp_type x) (tp_param x) (tp_polarisation x) (tp_orbital_pos x) (tp_we_flag x) (tp_scan_done x)
    (tp_last_tuning_failed x) v (tp_wrong_frequency x) (tp_n_other_f x) (tp_other_f x).
Definition set_tp_wrong_frequency (v : bool) (x : transponder) : transponder :=
  Transponder (tp_services x) (tp_network_id x) (tp_original_network_id x) (tp_transport_stream_id x)
    (tp_type x) (tp_param x) (tp_polarisation x) (tp_orbital_pos x) (tp_we_flag x) (tp_scan_done x)
    (tp_last_tuning_failed x) (tp_other_frequency_flag x) v (tp_n_other_f x) (tp_other_f x).
Definition set_tp_n_other_f (v : Z) (x : transponder) : transponder :=
  Transponder (tp_services x) (tp_network_id x) (tp_original_network_id x) (tp_transport_stream_id x)
    (tp_type x) (tp_param x) (tp_polarisation x) (tp_orbital_pos x) (tp_we_flag x) (tp_scan_done x)
    (tp_last_tuning_failed x) (tp_other_frequency_flag x) (tp_wrong_frequency x) v (tp_other_f x).
Definition set_tp_other_f (v : option (list Z)) (x : transponder) : transponder :=
  Transponder (tp_services x) (tp_network_id x) (tp_original_network_id x) (tp_transport_stream_id x)
    (tp_type x) (tp_param x) (tp_polarisation x) (tp_orbital_pos x) (tp_we_flag x) (tp_scan_done x)
    (tp_last_tuning_failed x) (tp_other_frequency_flag x) (tp_wrong_frequency x) (tp_n_other_f x) v.

(** [struct section_buf]: a filter. *)
Record section_buf := ScanSectionBuf {
  sb_run_once : bool;
  sb_segmented : bool;
  sb_fd : Z;
  sb_pid : Z;
  sb_table_id : Z;
  sb_table_id_ext : Z;
  sb_section_version_number : Z;
  sb_section_done : list Z;  (** 32 bytes *)
  sb_sectionfilter_done : bool;
  sb_buf : mem;  (** 1024 bytes *)
  sb_timeout : Z;
  sb_start_time : Z;
  sb_running_time : Z;
  sb_next_seg : option nat;
}.

Definition set_sb_run_once (v : bool) (x : section_buf) : section_buf :=
  ScanSectionBuf v (sb_segmented x) (sb_fd x) (sb_pid x) (sb_table_id x) (sb_table_id_ext x)
    (sb_section_version_number x) (sb_section_done x) (sb_sectionfilter_done x) (sb_buf x) (sb_timeout x)
    (sb_start_time x) (sb_running_time x) (sb_next_seg x).
Definition set_sb_segmented (v : bool) (x : section_buf) : section_buf :=
  ScanSectionBuf (sb_run_once x) v (sb_fd x) (sb_pid x) (sb_table_id x) (sb_table_id_ext x)
    (sb_section_version_number x) (sb_section_done x) (sb_sectionfilter_done x) (sb_buf x) (sb_timeout x)
    (sb_start_time x) (sb_running_time x) (sb_next_seg x).
Definition set_sb_fd (v : Z) (x : section_buf) : section_buf :=
  ScanSectionBuf (sb_run_once x) (sb_segmented x) v (sb_pid x) (sb_table_id x) (sb_table_id_ext x)
    (sb_section_version_number x) (sb_section_done x) (sb_sectionfilter_done x) (sb_buf x) (sb_timeout x)
    (sb_start_time x) (sb_running_time x) (sb_next_seg x).
Definition set_sb_pid (v : Z) (x : section_buf) : section_buf :=
  ScanSectionBuf (sb_run_once x) (sb_segmented x) (sb_fd x) v (sb_table_id x) (sb_table_id_ext x)
    (sb_section_version_number x) (sb_section_done x) (sb_sectionfilter_done x) (sb_buf x) (sb_timeout x)
    (sb_start_time x) (sb_running_time x) (sb_next_seg x).
Definition set_sb_table_id (v : Z) (x : section_buf) : section_buf :=
  ScanSectionBuf (sb_run_once x) (sb_segmented x) (sb_fd x) (sb_pid x) v (sb_table_id_ext x)
    (sb_section_version_number x) (sb_section_done x) (sb_sectionfilter_done x) (sb_buf x) (sb_timeout x)
    (sb_start_time x) (sb_running_time x) (sb_next_seg x).
Definition set_sb_table_id_ext (v : Z) (x : section_buf) : section_buf :=
  ScanSectionBuf (sb_run_once x) (sb_segmented x) (sb_fd x) (sb_pid x) (sb_table_id x) v
    (sb_section_version_number x) (sb_section_done x) (sb_sectionfilter_done x) (sb_buf x) (sb_timeout x)
    (sb_start_time x) (sb_running_time x) (sb_next_seg x).
Definition set_sb_section_version_number (v : Z) (x : section_buf) : section_buf :=
  ScanSectionBuf (sb_run_once x) (sb_segmented x) (sb_fd x) (sb_pid x) (sb_table_id x) (sb_table_id_ext x) v
    (sb_section_done x) (sb_sectionfilter_done x) (sb_buf x) (sb_timeout x) (sb_start_time x)
    (sb_running_time x) (sb_next_seg x).
Definition set_sb_section_done (v : list Z) (x : section_buf) : section_buf :=
  ScanSectionBuf (sb_run_once x) (sb_segmented x) (sb_fd x) (sb_pid x) (sb_table_id x) (sb_table_id_ext x)
    (sb_section_version_number x) v (sb_sectionfilter_done x) (sb_buf x) (sb_timeout x) (sb_start_time x)
    (sb_running_time x) (sb_next_seg x).
Definition set_sb_sectionfilter_done (v : bool) (x : section_buf) : section_buf :=
  ScanSectionBuf (sb_run_once x) (sb_segmented x) (sb_fd x) (sb_pid x) (sb_table_id x) (sb_table_id_ext x)
    (sb_section_version_number x) (sb_section_done x) v (sb_buf x) (sb_timeout x) (sb_start_time x)
    (sb_running_time x) (sb_next_seg x).
Definition set_sb_buf (v : mem) (x : section_buf) : section_buf :=
  ScanSectionBuf (sb_run_once x) (sb_segmented x) (sb_fd x) (sb_pid x) (sb_table_id x) (sb_table_id_ext x)
    (sb_section_version_number x) (sb_section_done x) (sb_sectionfilter_done x) v (sb_timeout x)
    (sb_start_time x) (sb_running_time x) (sb_next_seg x).
Definition set_sb_timeout (v : Z) (x : section_buf) : section_buf :=
  ScanSectionBuf (sb_run_once x) (sb_segmented x) (sb_fd x) (sb_pid x) (sb_table_id x) (sb_table_id_ext x)
    (sb_section_version_number x) (sb_section_done x) (sb_sectionfilter_done x) (sb_buf x) v (sb_start_time x)
    (sb_running_time x) (sb_next_seg x).
Definition set_sb_start_time (v : Z) (x : section_buf) : section_buf :=
  ScanSectionBuf (sb_run_once x) (sb_segmented x) (sb_fd x) (sb_pid x) (sb_table_id x) (sb_table_id_ext x)
    (sb_section_version_number x) (sb_section_done x) (sb_sectionfilter_done x) (sb_buf x) (sb_timeout x) v
    (sb_running_time x) (sb_next_seg x).
Definition set_sb_running_time (v : Z) (x : section_buf) : section_buf :=
  ScanSectionBuf (sb_run_once x) (sb_segmented x) (sb_fd x) (sb_pid x) (sb_table_id x) (sb_table_id_ext x)
    (sb_section_version_number x) (sb_section_done x) (sb_sectionfilter_done x) (sb_buf x) (sb_timeout x)
    (sb_start_time x) v (sb_next_seg x).
Definition set_sb_next_seg (v : option nat) (x : section_buf) : section_buf :=
  ScanSectionBuf (sb_run_once x) (sb_segmented x) (sb_fd x) (sb_pid x) (sb_table_id x) (sb_table_id_ext x)
    (sb_section_version_number x) (sb_section_done x) (sb_sectionfilter_done x) (sb_buf x) (sb_timeout x)
    (sb_start_time x) (sb_running_time x) v.

(** What is asked of the operating system: of the frontend and of the demultiplexer. *)
Inductive delivery_system := SYS_DVBS | SYS_DVBC_ANNEX_AC | SYS_DVBT | SYS_ATSC.

Inductive scan_op :=
  | OpFe (op : fe_op)
  | OpSetParameters (p : parameters)
  | OpSetDeliverySystem (s : delivery_system)
  | OpOpenDemux
  | OpSetFilter (fd pid : Z) (filter mask : list Z)
  | OpStop (fd : Z)
  | OpClose (fd : Z)
  | OpRead (fd : Z)
  | OpPollDemux (nfds timeout : Z).

(** The answers, by the number of the call: what [ioctl] and [open] return, [errno], the bytes that are
    read, the result of [poll] with the [revents] it stores, the time, the status of the frontend, and the contents of
    memory that [malloc] gives. *)
Record scan_env := ScanEnv {
  sc_ioctl : nat -> Z;
  sc_open : nat -> Z;
  sc_errno : nat -> Z;
  sc_read : nat -> option (list Z);
  sc_poll : nat -> option (list Z);
  sc_time : nat -> Z;
  sc_status : nat -> Z;
  sc_junk : Z -> Z;
}.

(** The variables of the program. *)
Record scan_state := ScanState {
  st_transponders : list transponder;  (** all that were allocated *)
  st_scanned : list nat;  (** [scanned_transponders] *)
  st_new : list nat;  (** [new_transponders] *)
  st_current : option nat;  (** [current_tp] *)
  st_bufs : list section_buf;  (** all filters that were set up *)
  st_running : list nat;  (** [running_filters] *)
  st_waiting : list nat;  (** [waiting_filters] *)
  st_n_running : Z;
  st_poll_fds : list (Z * Z);  (** descriptor and [revents] *)
  st_poll_bufs : list (option nat);  (** [poll_section_bufs] *)
  st_fe_type : Z;  (** [fe_info.type] *)
  st_switch_pos : Z;
  st_ops : list scan_op;  (** what was asked so far *)
}.

Definition set_st_transponders (v : list transponder) (x : scan_state) : scan_state :=
  ScanState v (st_scanned x) (st_new x) (st_current x) (st_bufs x) (st_running x) (st_waiting x)
    (st_n_running x) (st_poll_fds x) (st_poll_bufs x) (st_fe_type x) (st_switch_pos x) (st_ops x).
Definition set_st_scanned (v : list nat) (x : scan_state) : scan_state :=
  ScanState (st_transponders x) v (st_new x) (st_current x) (st_bufs x) (st_running x) (st_waiting x)
    (st_n_running x) (st_poll_fds x) (st_poll_bufs x) (st_fe_type x) (st_switch_pos x) (st_ops x).
Definition set_st_new (v : list nat) (x : scan_state) : scan_state :=
  ScanState (st_transponders x) (st_scanned x) v (st_current x) (st_bufs x) (st_running x) (st_waiting x)
    (st_n_running x) (st_poll_fds x) (st_poll_bufs x) (st_fe_type x) (st_switch_pos x) (st_ops x).
Definition set_st_current (v : option nat) (x : scan_state) : scan_state :=
  ScanState (st_transponders x) (st_scanned x) (st_new x) v (st_bufs x) (st_running x) (st_waiting x)
    (st_n_running x) (st_poll_fds x) (st_poll_bufs x) (st_fe_type x) (st_switch_pos x) (st_ops x).
Definition set_st_bufs (v : list section_buf) (x : scan_state) : scan_state :=
  ScanState (st_transponders x) (st_scanned x) (st_new x) (st_current x) v (st_running x) (st_waiting x)
    (st_n_running x) (st_poll_fds x) (st_poll_bufs x) (st_fe_type x) (st_switch_pos x) (st_ops x).
Definition set_st_running (v : list nat) (x : scan_state) : scan_state :=
  ScanState (st_transponders x) (st_scanned x) (st_new x) (st_current x) (st_bufs x) v (st_waiting x)
    (st_n_running x) (st_poll_fds x) (st_poll_bufs x) (st_fe_type x) (st_switch_pos x) (st_ops x).
Definition set_st_waiting (v : list nat) (x : scan_state) : scan_state :=
  ScanState (st_transponders x) (st_scanned x) (st_new x) (st_current x) (st_bufs x) (st_running x) v
    (st_n_running x) (st_poll_fds x) (st_poll_bufs x) (st_fe_type x) (st_switch_pos x) (st_ops x).
Definition set_st_n_running (v : Z) (x : scan_state) : scan_state :=
  ScanState (st_transponders x) (st_scanned x) (st_new x) (st_current x) (st_bufs x) (st_running x)
    (st_waiting x) v (st_poll_fds x) (st_poll_bufs x) (st_fe_type x) (st_switch_pos x) (st_ops x).
Definition set_st_poll_fds (v : list (Z * Z)) (x : scan_state) : scan_state :=
  ScanState (st_transponders x) (st_scanned x) (st_new x) (st_current x) (st_bufs x) (st_running x)
    (st_waiting x) (st_n_running x) v (st_poll_bufs x) (st_fe_type x) (st_switch_pos x) (st_ops x).
Definition set_st_poll_bufs (v : list (option nat)) (x : scan_state) : scan_state :=
  ScanState (st_transponders x) (st_scanned x) (st_new x) (st_current x) (st_bufs x) (st_running x)
    (st_waiting x) (st_n_running x) (st_poll_fds x) v (st_fe_type x) (st_switch_pos x) (st_ops x).
Definition set_st_fe_type (v : Z) (x : scan_state) : scan_state :=
  ScanState (st_transponders x) (st_scanned x) (st_new x) (st_current x) (st_bufs x) (st_running x)
    (st_waiting x) (st_n_running x) (st_poll_fds x) (st_poll_bufs x) v (st_switch_pos x) (st_ops x).
Definition set_st_switch_pos (v : Z) (x : scan_state) : scan_state :=
  ScanState (st_transponders x) (st_scanned x) (st_new x) (st_current x) (st_bufs x) (st_running x)
    (st_waiting x) (st_n_running x) (st_poll_fds x) (st_poll_bufs x) (st_fe_type x) v (st_ops x).
Definition set_st_ops (v : list scan_op) (x : scan_state) : scan_state :=
  ScanState (st_transponders x) (st_scanned x) (st_new x) (st_current x) (st_bufs x) (st_running x)
    (st_waiting x) (st_n_running x) (st_poll_fds x) (st_poll_bufs x) (st_fe_type x) (st_switch_pos x) v.

(** [struct lnb_types_st]: the frequencies of the oscillators, and from where on the high band is used. *)
Record lnb_types_st := LnbTypesSt { lnb_low_val : Z; lnb_high_val : Z; lnb_switch_val : Z }.

(** The options of the command line. *)
Record scan_options := ScanOptions {
  so_long_timeout : bool;
  so_current_tp_only : bool;
  so_get_other_nits : bool;
  so_vdr_dump_provider : Z;
  so_vdr_dump_channum : Z;
  so_no_ATSC_PSIP : bool;
  so_ATSC_type : Z;
  so_ca_select : Z;
  so_serv_select : Z;
  so_vdr_version : Z;
  so_lnb_type : lnb_types_st;
  so_unique_anon_services : bool;
  so_default_charset : list Z;
  so_output_charset : list Z;
  so_spectral_inversion : Z;
  so_output_format : Z;
}.

Abbreviation SC := (IO scan_state).

(** ** Pointers *)

Definition deref {A} (l : list A) (i : nat) : res A :=
  match l !! i with Some a => Ok a | None => Err BadPointer end.

Definition get_tp (t : nat) : SC transponder := s ← get_state; lift (deref (st_transponders s) t).

Definition put_tp (t : nat) (v : transponder) : SC unit :=
  modify (λ s, set_st_transponders (<[t := v]> (st_transponders s)) s).

Definition upd_tp (t : nat) (f : transponder -> transponder) : SC unit := v ← get_tp t; put_tp t (f v).

(** A service: its transponder, and its place in the list. *)
Abbreviation service_ptr := (nat * nat)%type.

Definition get_sv (p : service_ptr) : SC service := t ← get_tp p.1; lift (deref (tp_services t) p.2).

Definition upd_sv (p : service_ptr) (f : service -> service) : SC unit :=
  t ← get_tp p.1;
  s ← lift (deref (tp_services t) p.2);
  put_tp p.1 (set_tp_services (<[p.2 := f s]> (tp_services t)) t).

Definition get_sb (b : nat) : SC section_buf := s ← get_state; lift (deref (st_bufs s) b).

Definition put_sb (b : nat) (v : section_buf) : SC unit :=
  modify (λ s, set_st_bufs (<[b := v]> (st_bufs s)) s).

Definition upd_sb (b : nat) (f : section_buf -> section_buf) : SC unit := v ← get_sb b; put_sb b (f v).

(** A byte of a buffer. *)
Definition byte_at (buf : mem) (p : Z) : SC Z := lift (at_ buf p).

(** [((b0 & mask) << 8) | b1] *)
Definition word_at (buf : mem) (p mask : Z) : SC Z :=
  b0 ← byte_at buf p;
  b1 ← byte_at buf (p + 1);
  mret (Z.lor (Z.shiftl (Z.land b0 mask) 8) b1).

(** Bytes of a buffer. *)
Definition bytes_at (buf : mem) (p n : Z) : res (list Z) :=
  if (p <? 0) || (zlen buf <? p + n) then Err OutOfBounds else Ok (take (Z.to_nat n) (drop (Z.to_nat p) buf)).

Section Scan.
Context (o : scan_options) (e : scan_env).

(** ** System calls *)

Definition scan_ask (op : scan_op) : SC nat := n ← tick; modify (λ s, set_st_ops (st_ops s ++ [op]) s);; mret n.

(** [ioctl]: what it returns. *)
Definition scan_ioctl (op : scan_op) : SC Z := n ← scan_ask op; mret (sc_ioctl e n).

(** [time(NULL)] *)
Definition time : SC Z := n ← tick; mret (sc_time e n).

(** ** Transponders *)

Definition zero_transponder : transponder :=
  Transponder [] 0 0 0 0 zero_parameters 0 0 0 false false false false 0 None.

Definition alloc_transponder (frequency : Z) : SC nat :=
  s ← get_state;
  let t := length (st_transponders s) in
  let tp := set_tp_param (set_frequency frequency zero_parameters) zero_transponder in
  modify (λ s, set_st_new (st_new s ++ [t]) (set_st_transponders (st_transponders s ++ [tp]) s));;
  mret t.

Definition is_same_transponder (f1 f2 : Z) : bool :=
  if f1 =? f2 then true
  else
    let diff := if f2 <? f1 then f1 - f2 else f2 - f1 in
    diff <? 2000.

(** The first of a list of transponders that is the right one. *)
Fixpoint find_in (ok : transponder -> bool) (l : list nat) : SC (option nat) :=
  match l with
  | [] => mret None
  | t :: l =>
      tp ← get_tp t;
      if ok tp : bool then mret (Some t) else find_in ok l
  end.

Definition find_transponder (frequency : Z) : SC (option nat) :=
  let same tp := is_same_transponder (pa_frequency (tp_param tp)) frequency in
  s ← get_state;
  r ← find_in (λ tp, so_current_tp_only o || same tp) (st_scanned s);
  match r with
  | Some t => mret (Some t)
  | None => find_in same (st_new s)
  end.

(** The alternative frequencies are copied, as many as there are left. *)
Definition copy_other_f (s : transponder) : res (option (list Z)) :=
  if tp_n_other_f s =? 0 then Ok None
  else match tp_other_f s with
       | None => Err BadPointer
       | Some f => other ← bytes_at f 0 (tp_n_other_f s); Ok (Some other)
       end.

Definition copy_transponder (d : nat) (s : transponder) : SC unit :=
  tp ← get_tp d;
  let services :=
    if tp_transport_stream_id tp =? tp_transport_stream_id s then tp_services tp
    else set_sv_transport_stream_id (tp_transport_stream_id s) <$> tp_services tp in
  other_f ← lift (copy_other_f s);
  put_tp d (Transponder services (tp_network_id s) (tp_original_network_id s) (tp_transport_stream_id s)
    (tp_type s) (tp_param s) (tp_polarisation s) (tp_orbital_pos s) (tp_we_flag s) (tp_scan_done s)
    (tp_last_tuning_failed s) (tp_other_frequency_flag s) (tp_wrong_frequency tp) (tp_n_other_f s) other_f).

(** ** Services *)

Definition zero_service : service :=
  Service 0 0 None None 0 0 0 (replicate 32 0) (replicate 32 (replicate 4 0)) 0 (replicate 32 0) 0 0 0 0 0 0 None 0.

Definition alloc_service (t : nat) (service_id : Z) : SC service_ptr :=
  tp ← get_tp t;
  let s := set_sv_transport_stream_id (tp_transport_stream_id tp) (set_sv_service_id service_id zero_service) in
  put_tp t (set_tp_services (tp_services tp ++ [s]) tp);;
  mret (t, length (tp_services tp)).

(** The place of the first service with the number. *)
Fixpoint service_index (service_id : Z) (l : list service) : option nat :=
  match l with
  | [] => None
  | s :: l => if sv_service_id s =? service_id then Some 0%nat else S <$> service_index service_id l
  end.

Definition find_service (t : nat) (service_id : Z) : SC (option service_ptr) :=
  tp ← get_tp t;
  mret (pair t <$> service_index service_id (tp_services tp)).

(** [s = find_service(t, service_id); if (!s) s = alloc_service(t, service_id);] *)
Definition find_or_alloc_service (t : nat) (service_id : Z) : SC service_ptr :=
  found ← find_service t service_id;
  match found with
  | Some s => mret s
  | None => alloc_service t service_id
  end.

(** [current_tp] *)
Definition current_tp : SC nat :=
  s ← get_state;
  match st_current s with Some t => mret t | None => io_fault BadPointer end.

(** ** Descriptors

    A descriptor is at the position [p] of the buffer of its section. *)

(** The bytes of a section, and the position. *)
Definition parse_ca_identifier_descriptor (buf : mem) (p : Z) (s : service_ptr) : SC unit :=
  len ← byte_at buf (p + 1);
  let len := if 2 * CA_SYSTEM_ID_MAX <? len then 2 * CA_SYSTEM_ID_MAX else len in
  bytes ← lift (bytes_at buf (p + 2) len);
  upd_sv s (λ v, set_sv_ca_id (bytes ++ drop (Z.to_nat len) (sv_ca_id v)) v).

Definition parse_iso639_language_descriptor (buf : mem) (p : Z) (s : service_ptr) : SC unit :=
  len ← byte_at buf (p + 1);
  if 4 <=? len then
    lang ← lift (bytes_at buf (p + 2) 3);
    v ← get_sv s;
    old ← lift (at_ (sv_audio_lang v) (sv_audio_num v));
    upd_sv s (set_sv_audio_lang (<[Z.to_nat (sv_audio_num v) := lang ++ drop 3 old]> (sv_audio_lang v)))
  else mret tt.

Definition parse_network_name_descriptor (buf : mem) (p : Z) : SC unit := byte_at buf (p + 1);; mret tt.

(** The services of the transponders with the number [service_id] get the channel number. *)
Fixpoint number_services (l : list nat) (service_id channel_num : Z) : SC unit :=
  match l with
  | [] => mret tt
  | t :: l =>
      upd_tp t (λ tp, set_tp_services
        ((λ s, if sv_service_id s =? service_id then set_sv_channel_num channel_num s else s) <$> tp_services tp) tp);;
      number_services l service_id channel_num
  end.

Fixpoint uk_channel_numbers (n : nat) (buf : mem) (p : Z) : SC unit :=
  match n with
  | O => mret tt
  | S n =>
      service_id ← word_at buf p 0xff;
      channel_num ← word_at buf (p + 2) 0x03;
      s ← get_state;
      number_services (st_scanned s) service_id channel_num;;
      uk_channel_numbers n buf (p + 4)
  end.

Definition parse_terrestrial_uk_channel_number (buf : mem) (p : Z) : SC unit :=
  len ← byte_at buf (p + 1);
  uk_channel_numbers (Z.to_nat (len / 4)) buf (p + 2).

Definition bcd32_to_cpu (b0 b1 b2 b3 : Z) : Z :=
  Z.land (Z.shiftr b0 4) 0x0f * 10000000 + Z.land b0 0x0f * 1000000 +
  Z.land (Z.shiftr b1 4) 0x0f * 100000 + Z.land b1 0x0f * 10000 +
  Z.land (Z.shiftr b2 4) 0x0f * 1000 + Z.land b2 0x0f * 100 +
  Z.land (Z.shiftr b3 4) 0x0f * 10 + Z.land b3 0x0f.

Definition fec_tab : list Z :=
  [FEC_AUTO; FEC_1_2; FEC_2_3; FEC_3_4; FEC_5_6; FEC_7_8; FEC_NONE; FEC_NONE].

Definition qam_tab : list Z := [QAM_AUTO; QAM_16; QAM_32; QAM_64; QAM_128; QAM_256].

(** Four bytes that are a number in BCD, the last one masked. *)
Definition bcd_at (buf : mem) (p mask : Z) : SC Z :=
  b0 ← byte_at buf p;
  b1 ← byte_at buf (p + 1);
  b2 ← byte_at buf (p + 2);
  b3 ← byte_at buf (p + 3);
  mret (bcd32_to_cpu b0 b1 b2 (Z.land b3 mask)).

Definition parse_cable_delivery_system_descriptor (buf : mem) (p : Z) (t : option transponder) :
    SC (option transponder) :=
  match t with
  | None => mret None
  | Some t =>
      frequency ← bcd_at buf (p + 2) 0xff;
      b12 ← byte_at buf (p + 12);
      fec ← lift (at_ fec_tab (Z.land b12 0x07));
      symbol_rate ← bcd_at buf (p + 9) 0xf0;
      b8 ← byte_at buf (p + 8);
      modulation ← (if 5 <? Z.land b8 0x0f then mret QAM_AUTO else lift (at_ qam_tab (Z.land b8 0x0f)));
      let param := set_inversion (so_spectral_inversion o) (set_word u_qam_modulation modulation
        (set_word u_symbol_rate (u32 (10 * symbol_rate)) (set_word u_fec_inner fec
        (set_frequency (u32 (u32 frequency * 100)) (tp_param t))))) in
      mret (Some (set_tp_param param (set_tp_type FE_QAM t)))
  end.

Definition parse_satellite_delivery_system_descriptor (buf : mem) (p : Z) (t : option transponder) :
    SC (option transponder) :=
  match t with
  | None => mret None
  | Some t =>
      frequency ← bcd_at buf (p + 2) 0xff;
      b12 ← byte_at buf (p + 12);
      fec ← lift (at_ fec_tab (Z.land b12 0x07));
      symbol_rate ← bcd_at buf (p + 9) 0xf0;
      b8 ← byte_at buf (p + 8);
      b6 ← byte_at buf (p + 6);
      b7 ← byte_at buf (p + 7);
      let param := set_inversion (so_spectral_inversion o)
        (set_word u_symbol_rate (u32 (10 * symbol_rate)) (set_word u_fec_inner fec
        (set_frequency (u32 (10 * frequency)) (tp_param t)))) in
      mret (Some (set_tp_we_flag (Z.shiftr b8 7) (set_tp_orbital_pos (bcd32_to_cpu 0 0 b6 b7)
        (set_tp_polarisation (Z.land (Z.shiftr b8 5) 0x03) (set_tp_param param (set_tp_type FE_QPSK t))))))
  end.

Definition m_tab : list Z := [QPSK; QAM_16; QAM_64; QAM_AUTO].
Definition ofec_tab : list Z := [FEC_1_2; FEC_2_3; FEC_3_4; FEC_5_6; FEC_7_8; 0; 0; 0].

Definition code_rate (v : Z) : res Z := if 4 <? v then Ok FEC_AUTO else at_ ofec_tab v.

Definition parse_terrestrial_delivery_system_descriptor (buf : mem) (p : Z) (t : option transponder) :
    SC (option transponder) :=
  match t with
  | None => mret None
  | Some t =>
      hi ← word_at buf (p + 2) 0xff;
      lo ← word_at buf (p + 4) 0xff;
      let frequency := u32 (Z.lor (Z.shiftl hi 16) lo * 10) in
      b6 ← byte_at buf (p + 6);
      b7 ← byte_at buf (p + 7);
      constellation ← lift (at_ m_tab (Z.land (Z.shiftr b7 6) 0x3));
      hp ← lift (code_rate (Z.land b7 0x7));
      b8 ← byte_at buf (p + 8);
      lp ← lift (code_rate (Z.land (Z.shiftr b8 5) 0x7));
      let param := set_word u_transmission_mode
          (if negb (Z.land b8 0x2 =? 0) then TRANSMISSION_MODE_8K else TRANSMISSION_MODE_2K)
        (set_word u_guard_interval (GUARD_INTERVAL_1_32 + Z.land (Z.shiftr b8 3) 0x3)
        (set_word u_code_rate_LP lp (set_word u_code_rate_HP hp
        (set_word u_hierarchy_information (HIERARCHY_NONE + Z.land (Z.shiftr b7 3) 0x3)
        (set_word u_constellation constellation
        (set_word u_bandwidth (BANDWIDTH_8_MHZ + Z.land (Z.shiftr b6 5) 0x3)
        (set_inversion (so_spectral_inversion o) (set_frequency frequency (tp_param t))))))))) in
      mret (Some (set_tp_other_frequency_flag (negb (Z.land b8 0x01 =? 0))
        (set_tp_param param (set_tp_type FE_OFDM t))))
  end.

Fixpoint frequency_list (n : nat) (buf : mem) (p : Z) : SC (list Z) :=
  match n with
  | O => mret []
  | S n =>
      hi ← word_at buf p 0xff;
      lo ← word_at buf (p + 2) 0xff;
      rest ← frequency_list n buf (p + 4);
      mret (u32 (Z.lor (Z.shiftl hi 16) lo * 10) :: rest)
  end.

Definition parse_frequency_list_descriptor (buf : mem) (p : Z) (t : option transponder) : SC (option transponder) :=
  match t with
  | None => mret None
  | Some t =>
      match tp_other_f t with
      | Some _ => mret (Some t)
      | None =>
          len ← byte_at buf (p + 1);
          let n := Z.quot (len - 1) 4 in
          if n <? 1 then mret (Some t)
          else
            b2 ← byte_at buf (p + 2);
            if negb (Z.land b2 0x03 =? 3) then mret (Some t)
            else
              other_f ← frequency_list (Z.to_nat n) buf (p + 3);
              mret (Some (set_tp_other_f (Some other_f) (set_tp_n_other_f n t)))
      end
  end.
End Scan.

(** ** Filters for sections

    The demultiplexer is asked for the sections of a PID with a filter.  At most 27 filters run at a time, and
    are polled through an array that is rebuilt whenever a filter starts or stops; the others wait.  The
    program checks its own lists, and exits when they disagree ([Exited]). *)

Definition MAX_RUNNING : Z := 27.

Definition zero_section_buf : section_buf :=
  ScanSectionBuf false false 0 0 0 0 0 (replicate 32 0) false (replicate 1024 0) 0 0 0 None.

Section Filters.
Context (o : scan_options) (e : scan_env).

(** The filter that [setup_filter] leaves in the memory it is given. *)
Definition setup_section_buf (pid tid tid_ext : Z) (run_once segmented : bool) (timeout : Z) : section_buf :=
  ScanSectionBuf run_once segmented (-1) pid tid tid_ext (-1) (replicate 32 0) false (replicate 1024 0)
    (if so_long_timeout o then 5 * timeout else timeout) 0 0 None.

(** [setup_filter] on new memory, on the heap or on the stack. *)
Definition setup_filter (pid tid tid_ext : Z) (run_once segmented : bool) (timeout : Z) : SC nat :=
  s ← get_state;
  modify (λ s, set_st_bufs (st_bufs s ++ [setup_section_buf pid tid tid_ext run_once segmented timeout]) s);;
  mret (length (st_bufs s)).

(** The entries of [poll_fds] and [poll_section_bufs] for the filters that run. *)
Fixpoint poll_entries (i : Z) (running : list nat) : SC (list (Z * Z) * list (option nat)) :=
  match running with
  | [] => mret ([], [])
  | b :: running =>
      if MAX_RUNNING <=? i then io_fault Exited
      else
        s ← get_sb b;
        if sb_fd s =? -1 then io_fault Exited
        else
          '(fds, bufs) ← poll_entries (i + 1) running;
          mret ((sb_fd s, 0) :: fds, Some b :: bufs)
  end.

(** The entries that are not used keep the [revents] they had. *)
Definition update_poll_fds : SC unit :=
  s ← get_state;
  '(fds, bufs) ← poll_entries 0 (st_running s);
  let n := length fds in
  modify (λ s, set_st_poll_fds (fds ++ ((λ x, (-1, x.2)) <$> drop n (st_poll_fds s)))
    (set_st_poll_bufs (bufs ++ replicate (Z.to_nat MAX_RUNNING - n) None) s));;
  if Z.of_nat n =? st_n_running s then mret tt else io_fault Exited.

(** [list_del]: the filter is in at most one of the lists. *)
Definition list_del (b : nat) (l : list nat) : list nat := filter (λ x, x <> b) l.

(** The bytes that the filter has to match: the table id, and the two bytes of the extension. *)
Definition filter_bytes (table_id table_id_ext : Z) : list Z * list Z :=
  let '(f0, m0) := if (table_id <? 0x100) && (0 <? table_id) then (u8 table_id, 0xff) else (0, 0) in
  let '(f1, f2, m12) :=
    if (table_id_ext <? 0x10000) && (0 <? table_id_ext)
    then (Z.land (Z.shiftr table_id_ext 8) 0xff, Z.land table_id_ext 0xff, 0xff) else (0, 0, 0) in
  ([f0; f1; f2] ++ replicate 13 0, [m0; m12; m12] ++ replicate 13 0).

(** 0, or -1 when the filter could not be started. *)
Definition start_filter (b : nat) : SC Z :=
  st ← get_state;
  if MAX_RUNNING <=? st_n_running st then mret (-1)
  else
    n ← scan_ask OpOpenDemux;
    let fd := sc_open e n in
    upd_sb b (set_sb_fd fd);;
    if fd <? 0 then mret (-1)
    else
      s ← get_sb b;
      let '(f, m) := filter_bytes (sb_table_id s) (sb_table_id_ext s) in
      r ← scan_ioctl e (OpSetFilter fd (u16 (sb_pid s)) f m);
      if r =? -1 then
        scan_ioctl e (OpStop fd);;
        scan_ask (OpClose fd);;
        mret (-1)
      else
        now ← time e;
        upd_sb b (λ s, set_sb_start_time now (set_sb_sectionfilter_done false s));;
        modify (λ st, set_st_running (b :: list_del b (st_running st))
          (set_st_waiting (list_del b (st_waiting st)) (set_st_n_running (st_n_running st + 1) st)));;
        update_poll_fds;;
        mret 0.

Definition stop_filter (b : nat) : SC unit :=
  s ← get_sb b;
  scan_ioctl e (OpStop (sb_fd s));;
  scan_ask (OpClose (sb_fd s));;
  upd_sb b (set_sb_fd (-1));;
  modify (λ st, set_st_running (list_del b (st_running st)) (set_st_waiting (list_del b (st_waiting st)) st));;
  now ← time e;
  upd_sb b (λ s, set_sb_running_time (sb_running_time s + (now - sb_start_time s)) s);;
  modify (λ st, set_st_n_running (st_n_running st - 1) st);;
  update_poll_fds.

Definition add_filter (b : nat) : SC unit :=
  r ← start_filter b;
  if negb (r =? 0) then modify (λ st, set_st_waiting (st_waiting st ++ [b]) st) else mret tt.

(** [while (!list_empty(&waiting_filters))]: each round starts one, or is the last. *)
Fixpoint start_waiting (fuel : nat) : SC unit :=
  match fuel with
  | O => io_fault OutOfFuel
  | S fuel =>
      st ← get_state;
      match st_waiting st with
      | [] => mret tt
      | b :: _ =>
          r ← start_filter b;
          if negb (r =? 0) then mret tt else start_waiting fuel
      end
  end.

Definition remove_filter (b : nat) : SC unit :=
  stop_filter b;;
  st ← get_state;
  start_waiting (S (length (st_waiting st))).
End Filters.
