(* ===== verification/ScanParse.v ===== *)
(** * scan.c, section.c: the tables

    The functions that read the sections of the PAT, PMT, NIT, SDT and of the virtual channel table of ATSC,
    and what they keep of it.  The structures of the last are read bit by bit, by functions that the build
    generates from the list of their elements in atsc_psip_section.pl.  Names in descriptors are converted to the
    character set of the output: the first bytes say in which set they are, control codes are removed, emphasised
    text is put between stars, and the standard table is converted by a table of the program.  The other sets are
    converted by [iconv], a parameter. *)

From S2P Require Export Scan.

(** ** Texts in DVB character sets *)

(** The bytes of UTF-8 for each character of table 00 of EN 300 468. *)
Definition en300468_latin_00_to_utf8 : list (list Z) :=
  [[0x00]; [0x01]; [0x02]; [0x03]; [0x04]; [0x05]; [0x06]; [0x07]; [0x08]; [0x09]; [0x0a]; [0x0b]; [0x0c];
    [0x0d]; [0x0e]; [0x0f]; [0x10]; [0x11]; [0x12]; [0x13]; [0x14]; [0x15]; [0x16]; [0x17]; [0x18]; [0x19];
    [0x1a]; [0x1b]; [0x1c]; [0x1d]; [0x1e]; [0x1f]; [0x20]; [0x21]; [0x22]; [0x23]; [0x24]; [0x25]; [0x26];
    [0x27]; [0x28]; [0x29]; [0x2a]; [0x2b]; [0x2c]; [0x2d]; [0x2e]; [0x2f]; [0x30]; [0x31]; [0x32]; [0x33];
    [0x34]; [0x35]; [0x36]; [0x37]; [0x38]; [0x39]; [0x3a]; [0x3b]; [0x3c]; [0x3d]; [0x3e]; [0x3f]; [0x40];
    [0x41]; [0x42]; [0x43]; [0x44]; [0x45]; [0x46]; [0x47]; [0x48]; [0x49]; [0x4a]; [0x4b]; [0x4c]; [0x4d];
    [0x4e]; [0x4f]; [0x50]; [0x51]; [0x52]; [0x53]; [0x54]; [0x55]; [0x56]; [0x57]; [0x58]; [0x59]; [0x5a];
    [0x5b]; [0x5c]; [0x5d]; [0x5e]; [0x5f]; [0x60]; [0x61]; [0x62]; [0x63]; [0x64]; [0x65]; [0x66]; [0x67];
    [0x68]; [0x69]; [0x6a]; [0x6b]; [0x6c]; [0x6d]; [0x6e]; [0x6f]; [0x70]; [0x71]; [0x72]; [0x73]; [0x74];
    [0x75]; [0x76]; [0x77]; [0x78]; [0x79]; [0x7a]; [0x7b]; [0x7c]; [0x7d]; [0x7e]; [0x7f]; [0xc2; 0x80];
    [0xc2; 0x81]; [0xc2; 0x82]; [0xc2; 0x83]; [0xc2; 0x84]; [0xc2; 0x85]; [0xc2; 0x86]; [0xc2; 0x87];
    [0xc2; 0x88]; [0xc2; 0x89]; [0xc2; 0x8a]; [0xc2; 0x8b]; [0xc2; 0x8c]; [0xc2; 0x8d]; [0xc2; 0x8e];
    [0xc2; 0x8f]; [0xc2; 0x90]; [0xc2; 0x91]; [0xc2; 0x92]; [0xc2; 0x93]; [0xc2; 0x94]; [0xc2; 0x95];
    [0xc2; 0x96]; [0xc2; 0x97]; [0xc2; 0x98]; [0xc2; 0x99]; [0xc2; 0x9a]; [0xc2; 0x9b]; [0xc2; 0x9c];
    [0xc2; 0x9d]; [0xc2; 0x9e]; [0xc2; 0x9f]; [0xc2; 0xa0]; [0xc2; 0xa1]; [0xc2; 0xa2]; [0xc2; 0xa3];
    [0xe2; 0x82; 0xac]; [0xc2; 0xa5]; []; [0xc2; 0xa7]; [0xc2; 0xa4]; [0xe2; 0x80; 0x98];
    [0xe2; 0x80; 0x9c]; [0xc2; 0xab]; [0xe2; 0x86; 0x90]; [0xe2; 0x86; 0x91]; [0xe2; 0x86; 0x92];
    [0xe2; 0x86; 0x93]; [0xc2; 0xb0]; [0xc2; 0xb1]; [0xc2; 0xb2]; [0xc2; 0xb3]; [0xc3; 0x97]; [0xc2; 0xb5];
    [0xc2; 0xb6]; [0xc2; 0xb7]; [0xc3; 0xb7]; [0xe2; 0x80; 0x99]; [0xe2; 0x80; 0x9d]; [0xc2; 0xbb];
    [0xc2; 0xbc]; [0xc2; 0xbd]; [0xc2; 0xbe]; [0xc2; 0xbf]; []; []; []; []; []; []; []; []; []; []; []; [];
    []; []; []; []; [0xe2; 0x80; 0x94]; [0xc2; 0xb9]; [0xc2; 0xae]; [0xc2; 0xa9]; [0xe2; 0x84; 0xa2];
    [0xe2; 0x99; 0xaa]; [0xc2; 0xac]; [0xc2; 0xa6]; []; []; []; []; [0xe2; 0x85; 0x9b]; [0xe2; 0x85; 0x9c];
    [0xe2; 0x85; 0x9d]; [0xe2; 0x85; 0x9e]; [0xe2; 0x84; 0xa6]; [0xc3; 0x86]; [0xc3; 0x90]; [0xc2; 0xaa];
    [0xc4; 0xa6]; []; [0xc4; 0xb2]; [0xc4; 0xbf]; [0xc5; 0x81]; [0xc3; 0x98]; [0xc5; 0x92]; [0xc2; 0xba];
    [0xc3; 0x9e]; [0xc5; 0xa6]; [0xc5; 0x8a]; [0xc5; 0x89]; [0xc4; 0xb8]; [0xc3; 0xa6]; [0xc4; 0x91];
    [0xc3; 0xb0]; [0xc4; 0xa7]; [0xc4; 0xb1]; [0xc4; 0xb3]; [0xc5; 0x80]; [0xc5; 0x82]; [0xc3; 0xb8];
    [0xc5; 0x93]; [0xc3; 0x9f]; [0xc3; 0xbe]; [0xc5; 0xa7]; [0xc5; 0x8b]; [0xc2; 0xad]].

(** The set that the first byte, less than 0x20, selects, and [None] for the ones without a set. *)
Definition charset_of_byte (c : Z) : option (list Z) :=
  match c with
  | 0x00 => Some (lit "ISO-6937")
  | 0x01 => Some (lit "ISO-8859-5")
  | 0x02 => Some (lit "ISO-8859-6")
  | 0x03 => Some (lit "ISO-8859-7")
  | 0x04 => Some (lit "ISO-8859-8")
  | 0x05 => Some (lit "ISO-8859-9")
  | 0x06 => Some (lit "ISO-8859-10")
  | 0x07 => Some (lit "ISO-8859-11")
  | 0x09 => Some (lit "ISO-8859-13")
  | 0x0a => Some (lit "ISO-8859-14")
  | 0x0b => Some (lit "ISO-8859-15")
  | 0x11 => Some (lit "ISO-10646")
  | 0x12 => Some (lit "ISO-2022-KR")
  | 0x13 => Some (lit "GB2312")
  | 0x14 => Some (lit "BIG5")
  | 0x15 => Some (lit "ISO-10646/UTF-8")
  | _ => None
  end.

(** The set of ISO 8859 that the third byte selects, after 0x10 and 0. *)
Definition charset_of_8859 (c : Z) : option (list Z) :=
  match c with
  | 0x01 => Some (lit "ISO-8859-1")
  | 0x02 => Some (lit "ISO-8859-2")
  | 0x03 => Some (lit "ISO-8859-3")
  | 0x04 => Some (lit "ISO-8859-4")
  | 0x05 => Some (lit "ISO-8859-5")
  | 0x06 => Some (lit "ISO-8859-6")
  | 0x07 => Some (lit "ISO-8859-7")
  | 0x08 => Some (lit "ISO-8859-8")
  | 0x09 => Some (lit "ISO-8859-9")
  | 0x0a => Some (lit "ISO-8859-10")
  | 0x0b => Some (lit "ISO-8859-11")
  | 0x0d => Some (lit "ISO-8859-13")
  | 0x0e => Some (lit "ISO-8859-14")
  | 0x0f => Some (lit "ISO-8859-15")
  | _ => None
  end.

(** The set, and the text behind what selects it: its memory and its length, a [size_t]. *)
Definition text_charset (default_charset : list Z) (src : mem) (len : Z) : res (list Z * mem * Z) :=
  c ← at_ src 0;
  if 0x20 <=? c then mret (default_charset, src, len)
  else if c =? 0x10 then
    c1 ← at_ src 1;
    if negb (c1 =? 0) then mret (default_charset, drop 1 src, u64 (len - 1))
    else
      c2 ← at_ src 2;
      if 0x0f <? c2 then mret (default_charset, drop 1 src, u64 (len - 1))
      else mret (default default_charset (charset_of_8859 c2), drop 3 src, u64 (u64 (len - 2) - 1))
  else mret (default default_charset (charset_of_byte c), drop 1 src, u64 (len - 1)).

(** Control codes are left out, and emphasis is between stars. *)
Fixpoint remove_control (s : list Z) (emphasis : bool) : list Z :=
  match s with
  | [] => if emphasis then [42] else []
  | c :: s =>
      if (0x20 <=? c) && ((c <? 0x80) || (0x9f <? c)) then c :: remove_control s emphasis
      else if c =? 0x86 then 42 :: remove_control s true
      else if (c =? 0x87) && emphasis then 42 :: remove_control s false
      else remove_control s emphasis
  end.

(** The bytes [n], ..., of memory that [malloc] gave. *)
Definition junk_bytes (junk : Z -> Z) (n size : Z) : list Z := (λ i, junk (Z.of_nat i)) <$> seq (Z.to_nat n) (Z.to_nat (size - n)).

(** [tmp]: [len + 2] bytes, of which some may not be written. *)
Definition without_control (junk : Z -> Z) (src : mem) (len : Z) : res mem :=
  text ← bytes_at src 0 len;
  let written := remove_control text false ++ [0] in
  mret (written ++ junk_bytes junk (zlen written) (len + 2)).

Fixpoint latin_00 (s : list Z) : res (list Z) :=
  match s with
  | [] => mret []
  | c :: s =>
      x ← at_ en300468_latin_00_to_utf8 c;
      rest ← latin_00 s;
      mret (x ++ rest)
  end.

Section Text.
Context (default_charset output_charset : list Z) (junk : Z -> Z).

(** [iconv_open(to, from)], and what [iconv] then makes of a text. *)
Context (iconv : list Z -> list Z -> option (list Z -> list Z)).

Definition CS_OPTIONS : list Z := lit "//TRANSLIT".

(** "Convert from original charset to the desired one": the [len] bytes of [s], to [destlen] bytes. *)
Definition convert (type : list Z) (s : mem) (len destlen : Z) : res (list Z) :=
  text ← bytes_at s 0 len;
  match iconv (output_charset ++ CS_OPTIONS) type with
  | None => mret (text ++ [0])
  | Some f => mret (take (Z.to_nat destlen) (f text) ++ [0])
  end.

(** The memory of the new [*dest]; [None] is NULL. *)
Definition descriptorcpy (src : mem) (len : Z) : res (option mem) :=
  if len =? 0 then mret None
  else
    '(type, src, len) ← text_charset default_charset src len;
    let destlen := len * 3 in
    s ← (if strncasecmp_eq 8 type (lit "ISO-8859") || strcasecmp_eq type (lit "ISO-6937")
         then without_control junk src len else mret src);
    if strcasecmp_eq type (lit "ISO-6937") then
      text ← bytes_at s 0 len;
      dest ← latin_00 text;
      if strcasecmp_eq output_charset (lit "UTF-8") then mret (Some (dest ++ [0]))
      else r ← convert (lit "UTF-8") dest (zlen dest) destlen; mret (Some r)
    else r ← convert type s len destlen; mret (Some r).
End Text.

(** ** section.c *)

(** The loop over the bytes of a field: [tmp_long] and the bits it has. *)
Fixpoint get_bits_loop (n : nat) (buf : mem) (p tmp bit_high : Z) : res (Z * Z) :=
  match n with
  | O => mret (tmp, bit_high)
  | S n =>
      b ← at_ buf p;
      get_bits_loop n buf (p + 1) (Z.lor (u32 (Z.shiftl tmp 8)) b) (bit_high + 8)
  end.

(** [getBits(buf + p, startbit, bitlen)] *)
Definition getBits (buf : mem) (p startbit bitlen : Z) : res Z :=
  let b := p + startbit / 8 in
  let startbit := startbit mod 8 in
  b0 ← at_ buf b;
  '(tmp, bit_high) ← get_bits_loop (Z.to_nat (Z.shiftr (bitlen - 1) 3)) buf (b + 1) b0 8;
  mret (Z.land (Z.shiftr tmp (bit_high - startbit - bitlen)) (2 ^ bitlen - 1)).

(** ** atsc_psip_section.pl *)

(** The names and the widths of the elements of a structure. *)
Definition psip_structure : Type := list (String.string * Z).

Definition ATSC_EXTENDED_CHANNEL_NAME_DESCRIPTOR_ID : Z := 0xa0.
Definition ATSC_SERVICE_LOCATION_DESCRIPTOR_ID : Z := 0xa1.

#[local] Open Scope string_scope.

Definition ATSC_service_location_descriptor : psip_structure :=
  [("descriptor_tag", 8); ("descriptor_length", 8); ("reserved", 3); ("PCR_PID", 13); ("number_elements", 8)].

Definition ATSC_service_location_element : psip_structure :=
  [("stream_type", 8); ("reserved", 3); ("elementary_PID", 13); ("ISO_639_language_code", 24)].

Definition tvct_channel : psip_structure :=
  [("short_name0", 16); ("short_name1", 16); ("short_name2", 16); ("short_name3", 16); ("short_name4", 16);
   ("short_name5", 16); ("short_name6", 16); ("reserved0", 4); ("major_channel_number", 10);
   ("minor_channel_number", 10); ("modulation_mode", 8); ("carrier_frequency", 32); ("channel_TSID", 16);
   ("program_number", 16); ("ETM_location", 2); ("access_controlled", 1); ("hidden", 1); ("reserved1", 2);
   ("hide_guide", 1); ("reserved2", 3); ("service_type", 6); ("source_id", 16); ("reserved3", 6); ("descriptors_length", 10)].

#[local] Close Scope string_scope.

(** [read_*(buf + p)]: each element with [getBits], one after the other. *)
Fixpoint read_structure (d : psip_structure) (buf : mem) (p offs : Z) : res (list (String.string * Z)) :=
  match d with
  | [] => mret []
  | (name, width) :: d =>
      v ← getBits buf p offs width;
      rest ← read_structure d buf p (offs + width);
      mret ((name, v) :: rest)
  end.

(** An element of a structure that was read. *)
Fixpoint element (name : String.string) (v : list (String.string * Z)) : Z :=
  match v with
  | [] => 0
  | (n, x) :: v => if String.eqb n name then x else element name v
  end.

Section Parse.
Context (o : scan_options) (e : scan_env) (iconv : list Z -> list Z -> option (list Z -> list Z)).

(** ** Descriptors of the SDT *)

Definition copy_text (buf : mem) (p len : Z) : SC (option mem) :=
  lift (descriptorcpy (so_default_charset o) (so_output_charset o) (sc_junk e) iconv (drop (Z.to_nat p) buf) len).

Definition parse_service_descriptor (buf : mem) (p : Z) (s : service_ptr) : SC unit :=
  type ← byte_at buf (p + 2);
  upd_sv s (set_sv_type type);;
  len ← byte_at buf (p + 3);
  name ← copy_text buf (p + 4) len;
  upd_sv s (set_sv_provider_name name);;
  let p := p + 4 + len in
  len ← byte_at buf p;
  name ← copy_text buf (p + 1) len;
  upd_sv s (set_sv_service_name name).

(** ** Loops of descriptors *)

(** 1 if there is a descriptor with the tag. *)
Fixpoint find_descriptor (fuel : nat) (tag : Z) (buf : mem) (p descriptors_loop_len : Z) : SC bool :=
  match fuel with
  | O => io_fault OutOfFuel
  | S fuel =>
      if 0 <? descriptors_loop_len then
        descriptor_tag ← byte_at buf p;
        len ← byte_at buf (p + 1);
        let descriptor_len := u8 (len + 2) in
        if descriptor_len =? 0 then mret false
        else if tag =? descriptor_tag then mret true
        else find_descriptor fuel tag buf (p + descriptor_len) (descriptors_loop_len - descriptor_len)
      else mret false
  end.

(** [void *data]: a service for the SDT and PMT, a transponder or NULL for the NIT. *)
Inductive descriptor_data :=
  | ServiceData (s : service_ptr)
  | TransponderData (t : option transponder).

Definition service_data (data : descriptor_data) : SC service_ptr :=
  match data with ServiceData s => mret s | TransponderData _ => io_fault BadPointer end.

Definition transponder_data (data : descriptor_data) : SC (option transponder) :=
  match data with TransponderData t => mret t | ServiceData _ => io_fault BadPointer end.

Definition with_service (data : descriptor_data) (f : service_ptr -> SC unit) : SC descriptor_data :=
  s ← service_data data; f s;; mret data.

Definition with_transponder (data : descriptor_data) (f : option transponder -> SC (option transponder)) :
    SC descriptor_data :=
  t ← transponder_data data; t ← f t; mret (TransponderData t).

Definition parse_descriptor (t : table_type) (tag : Z) (buf : mem) (p : Z) (data : descriptor_data) :
    SC descriptor_data :=
  match tag with
  | 0x0a => if decide (t = PMT) then with_service data (parse_iso639_language_descriptor buf p) else mret data
  | 0x40 => if decide (t = NIT) then parse_network_name_descriptor buf p;; mret data else mret data
  | 0x43 =>
      if decide (t = NIT) then with_transponder data (parse_satellite_delivery_system_descriptor o buf p)
      else mret data
  | 0x44 =>
      if decide (t = NIT) then with_transponder data (parse_cable_delivery_system_descriptor o buf p) else mret data
  | 0x48 => if decide (t = SDT) then with_service data (parse_service_descriptor buf p) else mret data
  | 0x53 => if decide (t = SDT) then with_service data (parse_ca_identifier_descriptor buf p) else mret data
  | 0x5a =>
      if decide (t = NIT) then with_transponder data (parse_terrestrial_delivery_system_descriptor o buf p)
      else mret data
  | 0x62 => if decide (t = NIT) then with_transponder data (parse_frequency_list_descriptor buf p) else mret data
  | 0x83 =>
      if decide (t = NIT) then
        if negb (so_vdr_dump_channum o =? 0) then parse_terrestrial_uk_channel_number buf p;; mret data else mret data
      else mret data
  | _ => mret data
  end.

Fixpoint parse_descriptors_loop (fuel : nat) (t : table_type) (buf : mem) (p descriptors_loop_len : Z)
    (data : descriptor_data) : SC descriptor_data :=
  match fuel with
  | O => io_fault OutOfFuel
  | S fuel =>
      if 0 <? descriptors_loop_len then
        descriptor_tag ← byte_at buf p;
        len ← byte_at buf (p + 1);
        let descriptor_len := u8 (len + 2) in
        if descriptor_len =? 0 then mret data
        else
          data ← parse_descriptor t descriptor_tag buf p data;
          parse_descriptors_loop fuel t buf (p + descriptor_len) (descriptors_loop_len - descriptor_len) data
      else mret data
  end.

(** Each round takes at least one byte off the length. *)
Definition parse_descriptors (t : table_type) (buf : mem) (p descriptors_loop_len : Z) (data : descriptor_data) :
    SC descriptor_data :=
  parse_descriptors_loop (S (Z.to_nat descriptors_loop_len)) t buf p descriptors_loop_len data.

(** ** PAT *)

(** One entry: the number of a service and the PID of its PMT, for which a filter is added once. *)
Definition parse_pat_entry (service_id pmt_pid : Z) : SC unit :=
  if service_id =? 0 then mret tt
  else
    t ← current_tp;
    s ← find_or_alloc_service t service_id;
    upd_sv s (set_sv_pmt_pid pmt_pid);;
    v ← get_sv s;
    match sv_priv v with
    | Some _ => mret tt
    | None =>
        if negb (sv_pmt_pid v =? 0) then
          b ← setup_filter o (sv_pmt_pid v) 0x02 (sv_service_id v) true false 5;
          upd_sv s (set_sv_priv (Some b));;
          add_filter e b
        else mret tt
    end.

(** A length that is no multiple of 4 has an entry that is not whole. *)
Fixpoint parse_pat (n : nat) (buf : mem) (p : Z) : SC unit :=
  match n with
  | O => mret tt
  | S n =>
      service_id ← word_at buf p 0xff;
      (if service_id =? 0 then mret tt
       else pmt_pid ← word_at buf (p + 2) 0x1f; parse_pat_entry service_id pmt_pid);;
      parse_pat n buf (p + 4)
  end.

(** The rounds of [while (section_length > 0) { ... section_length -= 4; }]. *)
Definition pat_rounds (section_length : Z) : nat := Z.to_nat ((section_length + 3) / 4).

(** ** PMT *)

(** [if (s->audio_num < AUDIO_CHAN_MAX)] *)
Definition parse_audio (buf : mem) (p es_info_len elementary_pid : Z) (s : service_ptr) : SC unit :=
  v ← get_sv s;
  if sv_audio_num v <? AUDIO_CHAN_MAX then
    lift (at_ (sv_audio_pid v) (sv_audio_num v));;
    upd_sv s (set_sv_audio_pid (<[Z.to_nat (sv_audio_num v) := elementary_pid]> (sv_audio_pid v)));;
    parse_descriptors PMT buf (p + 5) es_info_len (ServiceData s);;
    upd_sv s (λ v, set_sv_audio_num (sv_audio_num v + 1) v)
  else mret tt.

Definition parse_private (buf : mem) (p es_info_len elementary_pid : Z) (s : service_ptr) : SC unit :=
  let find tag := find_descriptor (S (Z.to_nat es_info_len)) tag buf (p + 5) es_info_len in
  teletext ← find 0x56;
  if teletext : bool then upd_sv s (set_sv_teletext_pid elementary_pid)
  else
    subtitling ← find 0x59;
    if subtitling : bool then upd_sv s (set_sv_subtitling_pid elementary_pid)
    else
      ac3 ← find 0x6a;
      if ac3 : bool then upd_sv s (set_sv_ac3_pid elementary_pid) else mret tt.

Definition parse_stream (stream_type : Z) (buf : mem) (p es_info_len elementary_pid : Z) (s : service_ptr) : SC unit :=
  match stream_type with
  | 0x01 | 0x02 | 0x1b =>
      upd_sv s (λ v, if sv_video_pid v =? 0 then set_sv_video_pid elementary_pid v else v)
  | 0x03 | 0x81 | 0x0f | 0x11 | 0x04 => parse_audio buf p es_info_len elementary_pid s
  | 0x06 => parse_private buf p es_info_len elementary_pid s
  | _ => mret tt
  end.

Fixpoint parse_streams (fuel : nat) (buf : mem) (p section_length : Z) (s : service_ptr) : SC unit :=
  match fuel with
  | O => io_fault OutOfFuel
  | S fuel =>
      if 5 <=? section_length then
        es_info_len ← word_at buf (p + 3) 0x0f;
        elementary_pid ← word_at buf (p + 1) 0x1f;
        stream_type ← byte_at buf p;
        parse_stream stream_type buf p es_info_len elementary_pid s;;
        parse_streams fuel buf (p + es_info_len + 5) (section_length - (es_info_len + 5)) s
      else mret tt
  end.

(** [%04x] *)
Definition print_04x (v : Z) : list Z := replicate (4 - length (print_x v)) 48 ++ print_x v.

(** [0x%04x (%.4s)] *)
Definition print_audio (v : service) (i : nat) : list Z :=
  lit "0x" ++ print_04x (nth i (sv_audio_pid v) 0) ++ lit " (" ++ c_string (take 4 (nth i (sv_audio_lang v) [])) ++ lit ")".

(** The text that is put together in [msg_buf], for a message: it has to fit. *)
Definition audio_message (v : service) : list Z :=
  print_audio v 0 ++ List.concat ((λ i, lit ", " ++ print_audio v i) <$> seq 1 (Z.to_nat (sv_audio_num v) - 1)).

Definition write_audio_message (s : service_ptr) : SC unit :=
  v ← get_sv s;
  (if AUDIO_CHAN_MAX <? sv_audio_num v then upd_sv s (set_sv_audio_num AUDIO_CHAN_MAX) else mret tt);;
  v ← get_sv s;
  if 14 * AUDIO_CHAN_MAX + 1 <? zlen (audio_message v) + 1 then io_fault OutOfBounds else mret tt.

Definition parse_pmt (buf : mem) (p section_length service_id : Z) : SC unit :=
  t ← current_tp;
  found ← find_service t service_id;
  match found with
  | None => mret tt
  | Some s =>
      pcr_pid ← word_at buf p 0x1f;
      upd_sv s (set_sv_pcr_pid pcr_pid);;
      program_info_len ← word_at buf (p + 2) 0x0f;
      parse_streams (S (Z.to_nat section_length)) buf (p + program_info_len + 4)
        (section_length - (program_info_len + 4)) s;;
      write_audio_message s
  end.

(** ** NIT *)

(** [memset(&tn, 0, sizeof(tn))] and the numbers. *)
Definition nit_transponder (network_id original_network_id transport_stream_id : Z) : transponder :=
  set_tp_transport_stream_id transport_stream_id (set_tp_original_network_id original_network_id
    (set_tp_network_id network_id (set_tp_type (-1) zero_transponder))).

(** "only add if develivery_descriptor matches FE type" *)
Definition add_nit_transponder (tn : transponder) : SC unit :=
  st ← get_state;
  if tp_type tn =? st_fe_type st then
    found ← find_transponder o (pa_frequency (tp_param tn));
    t ← match found with Some t => mret t | None => alloc_transponder (pa_frequency (tp_param tn)) end;
    copy_transponder t tn
  else mret tt.

Fixpoint parse_nit_entries (fuel : nat) (buf : mem) (p section_length network_id : Z) : SC unit :=
  match fuel with
  | O => io_fault OutOfFuel
  | S fuel =>
      if 6 <? section_length then
        transport_stream_id ← word_at buf p 0xff;
        descriptors_loop_len ← word_at buf (p + 4) 0x0f;
        if section_length <? descriptors_loop_len + 4 then mret tt
        else
          original_network_id ← word_at buf (p + 2) 0xff;
          data ← parse_descriptors NIT buf (p + 6) descriptors_loop_len
            (TransponderData (Some (nit_transponder network_id original_network_id transport_stream_id)));
          tn ← transponder_data data;
          match tn with Some tn => add_nit_transponder tn | None => io_fault BadPointer end;;
          parse_nit_entries fuel buf (p + descriptors_loop_len + 6) (section_length - (descriptors_loop_len + 6))
            network_id
      else mret tt
  end.

Definition parse_nit (buf : mem) (p section_length network_id : Z) : SC unit :=
  descriptors_loop_len ← word_at buf p 0x0f;
  if section_length <? descriptors_loop_len + 4 then mret tt
  else
    parse_descriptors NIT buf (p + 2) descriptors_loop_len (TransponderData None);;
    parse_nit_entries (S (Z.to_nat section_length)) buf (p + descriptors_loop_len + 4)
      (section_length - (descriptors_loop_len + 4)) network_id.

(** ** SDT *)

Fixpoint parse_sdt_entries (fuel : nat) (buf : mem) (p section_length : Z) : SC unit :=
  match fuel with
  | O => io_fault OutOfFuel
  | S fuel =>
      if 5 <=? section_length then
        service_id ← word_at buf p 0xff;
        descriptors_loop_len ← word_at buf (p + 3) 0x0f;
        if section_length <? descriptors_loop_len then mret tt
        else
          t ← current_tp;
          s ← find_or_alloc_service t service_id;
          b3 ← byte_at buf (p + 3);
          upd_sv s (λ v, set_sv_scrambled (Z.land (Z.shiftr b3 4) 1)
            (set_sv_running (Z.land (Z.shiftr b3 5) 0x7) v));;
          parse_descriptors SDT buf (p + 5) descriptors_loop_len (ServiceData s);;
          parse_sdt_entries fuel buf (p + descriptors_loop_len + 5) (section_length - (descriptors_loop_len + 5))
      else mret tt
  end.

Definition parse_sdt (buf : mem) (p section_length : Z) : SC unit :=
  parse_sdt_entries (S (Z.to_nat section_length)) buf (p + 3) section_length.

(** ** The virtual channel table of ATSC *)

Fixpoint parse_location_elements (n : nat) (buf : mem) (p : Z) (s : service_ptr) : SC unit :=
  match n with
  | O => mret tt
  | S n =>
      el ← lift (read_structure ATSC_service_location_element buf p 0);
      let pid := element "elementary_PID" el in
      let lang := element "ISO_639_language_code" el in
      (if element "stream_type" el =? 0x02 then upd_sv s (set_sv_video_pid pid)
       else if element "stream_type" el =? 0x81 then
         upd_sv s (λ v,
           if sv_audio_num v <? AUDIO_CHAN_MAX then
             let i := Z.to_nat (sv_audio_num v) in
             set_sv_audio_num (sv_audio_num v + 1)
               (set_sv_audio_lang (<[i := [Z.land (Z.shiftr lang 16) 0xff; Z.land (Z.shiftr lang 8) 0xff;
                  Z.land lang 0xff] ++ drop 3 (nth i (sv_audio_lang v) [])]> (sv_audio_lang v))
               (set_sv_audio_pid (<[i := pid]> (sv_audio_pid v)) v))
           else v)
       else mret tt);;
      parse_location_elements n buf (p + 6) s
  end.

Definition parse_atsc_service_loc_desc (buf : mem) (p : Z) (s : service_ptr) : SC unit :=
  d ← lift (read_structure ATSC_service_location_descriptor buf p 0);
  upd_sv s (set_sv_pcr_pid (element "PCR_PID" d));;
  parse_location_elements (Z.to_nat (element "number_elements" d)) buf (p + 5) s.

(** The segments of one string; the position behind them. *)
Fixpoint parse_name_segments (n : nat) (buf : mem) (p : Z) (s : service_ptr) : SC Z :=
  match n with
  | O => mret p
  | S n =>
      comp_type ← byte_at buf p;
      num_bytes ← byte_at buf (p + 2);
      (if comp_type =? 0 then
         name ← lift (bytes_at buf (p + 3) num_bytes);
         upd_sv s (set_sv_service_name (Some (name ++ [0])))
       else mret tt);;
      parse_name_segments n buf (p + 3 + num_bytes) s
  end.

Fixpoint parse_name_strings (n : nat) (buf : mem) (p : Z) (s : service_ptr) : SC unit :=
  match n with
  | O => mret tt
  | S n =>
      num_seg ← byte_at buf (p + 3);
      p ← parse_name_segments (Z.to_nat num_seg) buf (p + 4) s;
      parse_name_strings n buf p s
  end.

Definition parse_atsc_ext_chan_name_desc (buf : mem) (p : Z) (s : service_ptr) : SC unit :=
  num_str ← byte_at buf (p + 2);
  parse_name_strings (Z.to_nat num_str) buf (p + 3) s.

Fixpoint parse_psip_descriptors (fuel : nat) (buf : mem) (p len : Z) (s : service_ptr) : SC unit :=
  match fuel with
  | O => io_fault OutOfFuel
  | S fuel =>
      if 0 <? len then
        desc_len ← byte_at buf (p + 1);
        tag ← byte_at buf p;
        (if tag =? ATSC_SERVICE_LOCATION_DESCRIPTOR_ID then parse_atsc_service_loc_desc buf p s
         else if tag =? ATSC_EXTENDED_CHANNEL_NAME_DESCRIPTOR_ID then parse_atsc_ext_chan_name_desc buf p s
         else mret tt);;
        parse_psip_descriptors fuel buf (p + 2 + desc_len) (len - (2 + desc_len)) s
      else mret tt
  end.

(** [service_name] has the low bytes of the seven characters, and nothing behind them. *)
Definition vct_short_name (ch : list (String.string * Z)) : mem :=
  (λ n, u8 (element n ch)) <$>
    ["short_name0"; "short_name1"; "short_name2"; "short_name3"; "short_name4"; "short_name5"; "short_name6"]%string.

(** A channel of one of the kinds that are kept; the position of the next channel. *)
Definition parse_vct_channel (buf : mem) (p program_number : Z) (ch : list (String.string * Z)) : SC Z :=
  t ← current_tp;
  s ← find_or_alloc_service t program_number;
  upd_sv s (set_sv_service_name (Some (vct_short_name ch)));;
  let len := element "descriptors_length" ch in
  parse_psip_descriptors (S (Z.to_nat len)) buf (p + 32) len s;;
  upd_sv s (λ v, set_sv_running (if negb (element "hidden" ch =? 0) then RM_NOT_RUNNING else RM_RUNNING)
    (set_sv_channel_num (Z.lor (Z.shiftl (element "major_channel_number" ch) 10)
      (element "minor_channel_number" ch)) v));;
  mret (p + 32 + len).

(** Other kinds of services are skipped by [continue], which leaves the position where it is. *)
Fixpoint parse_vct_channels (n : nat) (buf : mem) (p pseudo_id : Z) : SC unit :=
  match n with
  | O => mret tt
  | S n =>
      ch ← lift (read_structure tvct_channel buf p 0);
      if (1 <=? element "service_type" ch) && (element "service_type" ch <=? 3) then
        let '(program_number, pseudo_id) :=
          if element "program_number" ch =? 0 then (u16 (pseudo_id - 1), pseudo_id - 1)
          else (element "program_number" ch, pseudo_id) in
        p ← parse_vct_channel buf p program_number ch;
        parse_vct_channels n buf p pseudo_id
      else parse_vct_channels n buf p pseudo_id
  end.

Definition parse_psip_vct (buf : mem) (p : Z) : SC unit :=
  num_channels_in_section ← byte_at buf (p + 1);
  parse_vct_channels (Z.to_nat num_channels_in_section) buf (p + 2) 0xffff.
End Parse.
