(* ===== verification/ScanRead.v ===== *)
(** * scan.c: reading the sections of a transponder

    The filters for the tables are polled, and each section that arrives is handed to the function for its table
    once.  A filter ends when all sections of its table have arrived, or after a time; the transponder is done
    when no filter runs or waits. *)

From S2P Require Export ScanParse.

(** ** Sections *)

(** [get_bit], [set_bit] *)
Definition get_bit (bitfield : list Z) (bit : Z) : res bool :=
  b ← at_ bitfield (bit / 8);
  mret (Z.testbit b (bit mod 8)).

Definition set_bit (bitfield : list Z) (bit : Z) : res (list Z) :=
  b ← at_ bitfield (bit / 8);
  mret (<[Z.to_nat (bit / 8) := Z.lor b (Z.shiftl 1 (bit mod 8))]> bitfield).

(** [for (i = first; i <= last; i++) if (get_bit (section_done, i) == 0) break;] *)
Fixpoint all_done (n : nat) (i : Z) (bitfield : list Z) : res bool :=
  match n with
  | O => mret true
  | S n =>
      b ← get_bit bitfield i;
      if b : bool then all_done n (i + 1) bitfield else mret false
  end.

Section Read.
Context (o : scan_options) (e : scan_env) (iconv : list Z -> list Z -> option (list Z -> list Z)).

(** The filter of a segmented table for the extension: the last of the chain, if none has it. *)
Fixpoint find_segment (fuel : nat) (b : nat) (table_id_ext : Z) : SC nat :=
  match fuel with
  | O => io_fault OutOfFuel
  | S fuel =>
      s ← get_sb b;
      match sb_next_seg s with
      | None => mret b
      | Some next =>
          v ← get_sb next;
          if sb_table_id_ext v =? table_id_ext then mret next else find_segment fuel next table_id_ext
      end
  end.

(** A new filter at the end of the chain. *)
Definition new_segment (b : nat) (table_id table_id_ext section_version_number : Z) : SC nat :=
  s ← get_sb b;
  match sb_next_seg s with
  | Some _ => io_fault Exited
  | None =>
      st ← get_state;
      let next := length (st_bufs st) in
      upd_sb b (set_sb_next_seg (Some next));;
      let v := set_sb_section_version_number section_version_number (set_sb_table_id_ext table_id_ext
        (set_sb_table_id table_id (set_sb_timeout (sb_timeout s) (set_sb_run_once (sb_run_once s)
        (set_sb_segmented (sb_segmented s) zero_section_buf))))) in
      modify (λ st, set_st_bufs (st_bufs st ++ [v]) st);;
      mret next
  end.

(** "find or allocate actual section_buf matching table_id_ext" *)
Definition segment (b : nat) (table_id table_id_ext section_version_number : Z) : SC nat :=
  s ← get_sb b;
  if sb_segmented s && negb (sb_table_id_ext s =? -1) && negb (sb_table_id_ext s =? table_id_ext) then
    st ← get_state;
    b ← find_segment (S (length (st_bufs st))) b table_id_ext;
    s ← get_sb b;
    if negb (sb_table_id_ext s =? table_id_ext) then new_segment b table_id table_id_ext section_version_number
    else mret b
  else mret b.

(** Another version, or another extension: the sections are collected anew. *)
Definition restart_section (table_id_ext section_version_number : Z) (s : section_buf) : section_buf :=
  if negb (sb_section_version_number s =? section_version_number) || negb (sb_table_id_ext s =? table_id_ext) then
    set_sb_section_done (replicate 32 0) (set_sb_sectionfilter_done false
      (set_sb_section_version_number section_version_number (set_sb_table_id_ext table_id_ext s)))
  else s.

(** The functions for the tables, on the body of a section. *)
Definition parse_table (table_id : Z) (buf : mem) (section_length table_id_ext : Z) : SC unit :=
  match table_id with
  | 0x00 => parse_pat o e (pat_rounds section_length) buf 8
  | 0x02 => parse_pmt o e iconv buf 8 section_length table_id_ext
  | 0x41 | 0x40 => parse_nit o e iconv buf 8 section_length table_id_ext
  | 0x42 | 0x46 => parse_sdt o e iconv buf 8 section_length
  | 0xc8 | 0xc9 => parse_psip_vct buf 8
  | _ => mret tt
  end.

(** 0: more sections are expected; 1: all sections are read; -1: invalid table id. *)
Definition parse_section (b : nat) : SC Z :=
  s ← get_sb b;
  let buf := sb_buf s in
  table_id ← byte_at buf 0;
  if negb (sb_table_id s =? table_id) then mret (-1)
  else
    section_length ← word_at buf 1 0x0f;
    table_id_ext ← word_at buf 3 0xff;
    b5 ← byte_at buf 5;
    let section_version_number := Z.land (Z.shiftr b5 1) 0x1f in
    section_number ← byte_at buf 6;
    last_section_number ← byte_at buf 7;
    b ← segment b table_id table_id_ext section_version_number;
    upd_sb b (restart_section table_id_ext section_version_number);;
    let section_length := section_length - (5 + 4) in
    if section_length <? 0 then mret 0
    else
      s ← get_sb b;
      have ← lift (get_bit (sb_section_done s) section_number);
      (if negb have then
         section_done ← lift (set_bit (sb_section_done s) section_number);
         upd_sb b (set_sb_section_done section_done);;
         parse_table table_id buf section_length table_id_ext;;
         s ← get_sb b;
         all ← lift (all_done (Z.to_nat (last_section_number + 1)) 0 (sb_section_done s));
         if all : bool then upd_sb b (set_sb_sectionfilter_done true) else mret tt
       else mret tt);;
      s ← get_sb b;
      mret (if sb_segmented s then 0 else if sb_sectionfilter_done s then 1 else 0).

Definition EOVERFLOW : Z := 75.

(** [read] of at most 1024 bytes into [buf]: the number of bytes. *)
Definition read_section (b : nat) : SC (option Z) :=
  s ← get_sb b;
  n ← scan_ask (OpRead (sb_fd s));
  r ← match sc_read e n with
      | None =>
          if sc_errno e n =? EOVERFLOW then n ← scan_ask (OpRead (sb_fd s)); mret (sc_read e n) else mret None
      | Some bytes => mret (Some bytes)
      end;
  match r with
  | None => mret None
  | Some bytes =>
      let bytes := take 1024 bytes in
      upd_sb b (λ s, set_sb_buf (bytes ++ drop (length bytes) (sb_buf s)) s);;
      mret (Some (zlen bytes))
  end.

Definition read_sections (b : nat) : SC Z :=
  s ← get_sb b;
  if sb_sectionfilter_done s && negb (sb_segmented s) then mret 1
  else
    count ← read_section b;
    match count with
    | None => mret (-1)
    | Some count =>
        if count <? 4 then mret (-1)
        else
          s ← get_sb b;
          section_length ← word_at (sb_buf s) 1 0x0f;
          if negb (count =? section_length + 3) then mret (-1)
          else
            r ← parse_section b;
            mret (if r =? 1 then 1 else 0)
    end.

(** ** Polling *)

(** [poll] stores the [revents] of the first [n_running] entries, unless it fails. *)
Definition poll_filters : SC unit :=
  st ← get_state;
  n ← scan_ask (OpPollDemux (st_n_running st) 1000);
  match sc_poll e n with
  | None => mret tt
  | Some revents =>
      let k := Z.to_nat (st_n_running st) in
      modify (λ st, set_st_poll_fds
        (imap (λ i x, if decide (i < k)%nat then (x.1, nth i revents 0) else x) (st_poll_fds st)) st)
  end.

(** The filter has something to read, or its time may be over. *)
Definition read_filter (b : nat) (revents : Z) : SC unit :=
  done ← (if negb (revents =? 0) then r ← read_sections b; mret (r =? 1) else mret false);
  expired ← (if done : bool then mret true
             else now ← time e; s ← get_sb b; mret (sb_start_time s + sb_timeout s <? now));
  s ← get_sb b;
  if (expired : bool) && sb_run_once s then remove_filter e b else mret tt.

(** [for (i = 0; i < n_running; i++)]: the number of filters and the arrays may change on the way. *)
Fixpoint read_filters_loop (fuel : nat) (i : Z) : SC unit :=
  match fuel with
  | O => io_fault OutOfFuel
  | S fuel =>
      st ← get_state;
      if i <? st_n_running st then
        b ← lift (at_ (st_poll_bufs st) i);
        match b with
        | None => io_fault Exited
        | Some b =>
            fd ← lift (at_ (st_poll_fds st) i);
            read_filter b fd.2;;
            read_filters_loop fuel (i + 1)
        end
      else mret tt
  end.

(** At most 27 filters run. *)
Definition read_filters : SC unit := poll_filters;; read_filters_loop 28 0.

(** [do read_filters (); while (!(list_empty(&running_filters) && list_empty(&waiting_filters)))] *)
Fixpoint read_all_filters (fuel : nat) : SC unit :=
  match fuel with
  | O => io_fault OutOfFuel
  | S fuel =>
      read_filters;;
      st ← get_state;
      match st_running st, st_waiting st with
      | [], [] => mret tt
      | _, _ => read_all_filters fuel
      end
  end.

(** ** A transponder *)

(** A filter for a table that is read once: its PID, the table and the time. *)
Definition add_table (pid tid : Z) (segmented : bool) (timeout : Z) : SC unit :=
  b ← setup_filter o pid tid (-1) true segmented timeout;
  add_filter e b.

Definition scan_tp_atsc (fuel : nat) : SC unit :=
  (if so_no_ATSC_PSIP o then add_table 0x00 0x00 false 5
   else
     (if negb (Z.land (so_ATSC_type o) 0x1 =? 0) then add_table 0x1ffb 0xc8 false 5 else mret tt);;
     (if negb (Z.land (so_ATSC_type o) 0x2 =? 0) then add_table 0x1ffb 0xc9 false 5 else mret tt);;
     add_table 0x00 0x00 false 5);;
  read_all_filters fuel.

Definition scan_tp_dvb (fuel : nat) : SC unit :=
  add_table 0x00 0x00 false 5;;
  add_table 0x11 0x42 false 5;;
  (if negb (so_current_tp_only o) || negb (so_output_format o =? OUTPUT_PIDS) then
     add_table 0x10 0x40 false 15;;
     (if so_get_other_nits o then add_table 0x10 0x41 true 15 else mret tt)
   else mret tt);;
  read_all_filters fuel.

Definition scan_tp (fuel : nat) : SC unit :=
  st ← get_state;
  let type := st_fe_type st in
  if (type =? FE_QPSK) || (type =? FE_QAM) || (type =? FE_OFDM) then scan_tp_dvb fuel
  else if type =? FE_ATSC then scan_tp_atsc fuel
  else mret tt.
End Read.
