(* ===== verification/ScanTune.v ===== *)
(** * scan.c, diseqc.c, lnb.c: tuning

    The transponders that are not scanned yet are tuned to, one after the other.  For a satellite the switches
    of the dish are set, and the frequency is what the converter makes of it.  The first transponders come from a
    file. *)

From S2P Require Export ScanRead.

(** ** lnb.c *)

(** [strtoul(s, &end, 0)] of text that begins with a digit. *)
Definition strtoul0 (s : list Z) : Z * list Z :=
  let '(v, rest) :=
    match s with
    | 48 :: x :: s' =>
        if tolower x =? 120 then
          let '(v, n, rest) := read_digits 16 0 s' in
          match n with O => (0, x :: s') | _ => (v, rest) end
        else let '(v, _, rest) := read_digits 8 0 s in (v, rest)
    | _ => let '(v, _, rest) := read_digits 10 0 s in (v, rest)
    end in
  (Z.min v (2 ^ 64 - 1), rest).

Definition isalpha (c : Z) : bool := ((65 <=? c) && (c <=? 90)) || ((97 <=? c) && (c <=? 122)).

Definition lnbs : list (list Z * lnb_types_st) :=
  [(lit "UNIVERSAL", LnbTypesSt 9750 10600 11700);
   (lit "DBS", LnbTypesSt 11250 0 0);
   (lit "STANDARD", LnbTypesSt 10000 0 0);
   (lit "ENHANCED", LnbTypesSt 9750 0 0);
   (lit "C-BAND", LnbTypesSt 5150 0 0);
   (lit "C-MULTI", LnbTypesSt 5150 5750 0)].

Definition lnb_enum (curno : nat) : option (list Z * lnb_types_st) := lnbs !! curno.

Fixpoint find_lnb (name : list Z) (l : list (list Z * lnb_types_st)) : option lnb_types_st :=
  match l with
  | [] => None
  | (n, lnb) :: l => if strcasecmp_eq n name then Some lnb else find_lnb name l
  end.

(** While there is white space or a comma. *)
Fixpoint skip_separators (s : list Z) : list Z :=
  match s with
  | [] => []
  | c :: s' => if isspace c || (c =? 44) then skip_separators s' else s
  end.

(** [None]: it returns -1. *)
Definition lnb_decode (str : list Z) : option lnb_types_st :=
  let cp := skip_spaces str in
  match cp with
  | [] => None
  | c :: _ =>
      if isalpha c then find_lnb cp lnbs
      else if negb (isdigit c) then None
      else
        let '(low_val, np) := strtoul0 cp in
        if low_val =? 0 then None
        else
          let cp := skip_separators np in
          match cp with
          | [] => Some (LnbTypesSt low_val 0 0)
          | c :: _ =>
              if negb (isdigit c) then None
              else
                let '(high_val, np) := strtoul0 cp in
                let cp := skip_separators np in
                match cp with
                | [] => Some (LnbTypesSt low_val high_val 0)
                | c :: _ =>
                    if negb (isdigit c) then None
                    else Some (LnbTypesSt low_val high_val (strtoul0 cp).1)
                end
          end
  end.

(** What [main] makes of it: "convert to kiloherz". *)
Definition lnb_kilohertz (l : lnb_types_st) : lnb_types_st :=
  LnbTypesSt (u64 (lnb_low_val l * 1000)) (u64 (lnb_high_val l * 1000)) (u64 (lnb_switch_val l * 1000)).

(** ** Text *)

(** [fgets(buf, size, f)]: at most [size - 1] characters, up to the newline. *)
Fixpoint fgets (n : nat) (file : list Z) : list Z * list Z :=
  match n, file with
  | S n, c :: file => if c =? 10 then ([c], file) else let '(line, rest) := fgets n file in (c :: line, rest)
  | _, _ => ([], file)
  end.

(** The conversions of [sscanf]: what is read, and the rest. *)
Definition scanf_char (c : Z) (s : list Z) : option (list Z) :=
  match s with x :: s => if x =? c then Some s else None | [] => None end.

(** [%u] *)
Definition scanf_u (s : list Z) : option (Z * list Z) :=
  let '(negative, s) := read_sign (skip_spaces s) in
  let '(v, n, rest) := read_digits 10 0 s in
  match n with
  | O => None
  | _ => Some (u32 (if 2 ^ 64 - 1 <? v then 2 ^ 64 - 1 else if negative : bool then - v else v), rest)
  end.

Fixpoint scanf_word (n : nat) (s : list Z) : list Z * list Z :=
  match n, s with
  | S n, c :: s' => if isspace c then ([], s) else let '(w, rest) := scanf_word n s' in (c :: w, rest)
  | _, _ => ([], s)
  end.

(** [%ns] *)
Definition scanf_s (n : nat) (s : list Z) : option (list Z * list Z) :=
  match scanf_word n (skip_spaces s) with ([], _) => None | r => Some r end.

(** [ %1[HVLR]], with the white space before it. *)
Definition scanf_polarisation (s : list Z) : option (Z * list Z) :=
  match skip_spaces s with
  | c :: s => if existsb (Z.eqb c) (lit "HVLR") then Some (c, s) else None
  | [] => None
  end.

(** Several of [%ns]. *)
Fixpoint scanf_words (ns : list nat) (s : list Z) : option (list (list Z)) :=
  match ns with
  | [] => Some []
  | n :: ns =>
      match scanf_s n s with
      | Some (w, s) => cons w <$> scanf_words ns s
      | None => None
      end
  end.

Definition strtab : Type := list (list Z * Z).

Fixpoint str2enum (str : list Z) (tab : strtab) (deflt : Z) : Z :=
  match tab with
  | [] => deflt
  | (s, val) :: tab => if strcmp_eq s str then val else str2enum str tab deflt
  end.

Definition fectab : strtab :=
  [(lit "NONE", FEC_NONE); (lit "1/2", FEC_1_2); (lit "2/3", FEC_2_3); (lit "3/4", FEC_3_4); (lit "4/5", FEC_4_5);
   (lit "5/6", FEC_5_6); (lit "6/7", FEC_6_7); (lit "7/8", FEC_7_8); (lit "8/9", FEC_8_9); (lit "AUTO", FEC_AUTO)].
Definition qamtab : strtab :=
  [(lit "QPSK", QPSK); (lit "QAM16", QAM_16); (lit "QAM32", QAM_32); (lit "QAM64", QAM_64); (lit "QAM128", QAM_128);
   (lit "QAM256", QAM_256); (lit "AUTO", QAM_AUTO); (lit "8VSB", VSB_8); (lit "16VSB", VSB_16)].
Definition bwtab : strtab :=
  [(lit "8MHz", BANDWIDTH_8_MHZ); (lit "7MHz", BANDWIDTH_7_MHZ); (lit "6MHz", BANDWIDTH_6_MHZ);
   (lit "AUTO", BANDWIDTH_AUTO)].
Definition modetab : strtab :=
  [(lit "2k", TRANSMISSION_MODE_2K); (lit "8k", TRANSMISSION_MODE_8K); (lit "AUTO", TRANSMISSION_MODE_AUTO)].
Definition guardtab : strtab :=
  [(lit "1/32", GUARD_INTERVAL_1_32); (lit "1/16", GUARD_INTERVAL_1_16); (lit "1/8", GUARD_INTERVAL_1_8);
   (lit "1/4", GUARD_INTERVAL_1_4); (lit "AUTO", GUARD_INTERVAL_AUTO)].
Definition hiertab : strtab :=
  [(lit "NONE", HIERARCHY_NONE); (lit "1", HIERARCHY_1); (lit "2", HIERARCHY_2); (lit "4", HIERARCHY_4);
   (lit "AUTO", HIERARCHY_AUTO)].

Definition str2fec (fec : list Z) : Z := str2enum fec fectab FEC_AUTO.
Definition str2qam (qam : list Z) : Z := str2enum qam qamtab QAM_AUTO.
Definition str2bandwidth (bw : list Z) : Z := str2enum bw bwtab BANDWIDTH_AUTO.
Definition str2mode (mode : list Z) : Z := str2enum mode modetab TRANSMISSION_MODE_AUTO.
Definition str2guard (guard : list Z) : Z := str2enum guard guardtab GUARD_INTERVAL_AUTO.
Definition str2hier (hier : list Z) : Z := str2enum hier hiertab HIERARCHY_AUTO.

(** ** diseqc.c *)

(** [switch_cmds]: the messages, with no time to wait after them. *)
Definition switch_cmds : list (list Z) :=
  (λ data, [0xe0; 0x10; 0x38; data]) <$>
    [0xf0; 0xf2; 0xf1; 0xf3; 0xf4; 0xf6; 0xf5; 0xf7; 0xf8; 0xfa; 0xf9; 0xfb; 0xfc; 0xfe; 0xfd; 0xff].

Section Tune.
Context (o : scan_options) (e : scan_env).

Definition fe_ask (op : fe_op) : SC Z := scan_ioctl e (OpFe op).

Definition msleep (msec : Z) : SC unit := scan_ask (OpFe (OpUsleep (msec * 1000)));; mret tt.

(** [while ( *cmd)]; 0, or what an [ioctl] returned. *)
Fixpoint diseqc_send_cmds (cmds : list (list Z)) : SC Z :=
  match cmds with
  | [] => mret 0
  | msg :: cmds =>
      err ← fe_ask (OpSendMasterCmd msg);
      if negb (err =? 0) then mret err
      else msleep 0;; diseqc_send_cmds cmds
  end.

Definition diseqc_send_msg (v : Z) (cmds : list (list Z)) (t b : Z) : SC Z :=
  err ← fe_ask (OpSetTone SEC_TONE_OFF);
  if negb (err =? 0) then mret err
  else
    err ← fe_ask (OpSetVoltage v);
    if negb (err =? 0) then mret err
    else
      msleep 15;;
      err ← diseqc_send_cmds cmds;
      if negb (err =? 0) then mret err
      else
        msleep 15;;
        err ← fe_ask (OpSendBurst b);
        if negb (err =? 0) then mret err
        else msleep 15;; fe_ask (OpSetTone t).

Definition setup_switch (switch_pos voltage_18 hiband : Z) : SC Z :=
  let i := 4 * switch_pos + 2 * hiband + (if negb (voltage_18 =? 0) then 1 else 0) in
  if (i <? 0) || (zlen switch_cmds <=? i) then mret (- EINVAL)
  else
    cmd ← lift (at_ switch_cmds i);
    diseqc_send_msg (if negb (Z.rem i 2 =? 0) then SEC_VOLTAGE_18 else SEC_VOLTAGE_13) [cmd]
      (if negb (Z.rem (i / 2) 2 =? 0) then SEC_TONE_ON else SEC_TONE_OFF)
      (if negb (Z.rem (i / 4) 2 =? 0) then SEC_MINI_B else SEC_MINI_A).

(** ** Tuning *)

(** [mem_is_zero] of the parameters. *)
Definition parameters_zero (p : parameters) : bool :=
  (pa_frequency p =? 0) && (pa_inversion p =? 0) && forallb (Z.eqb 0) (pa_u p).

(** [abs(f - val)]: the difference of unsigned numbers, as an [int]. *)
Definition abs_difference (f val : Z) : res Z :=
  let d := s32 (f - val) in
  if d =? - 2 ^ 31 then Err Undefined else Ok (Z.abs d).

(** The frequency behind the converter; the switches are set on the way. *)
Definition intermediate_frequency (frequency polarisation : Z) : SC Z :=
  let '(LnbTypesSt low_val high_val switch_val) := so_lnb_type o in
  if negb (high_val =? 0) then
    if negb (switch_val =? 0) then
      let hiband := if switch_val <=? frequency then 1 else 0 in
      st ← get_state;
      setup_switch (st_switch_pos st) (if polarisation =? POLARISATION_VERTICAL then 0 else 1) hiband;;
      scan_ask (OpFe (OpUsleep 50000));;
      lift (abs_difference frequency (if hiband =? 1 then high_val else low_val))
    else lift (abs_difference frequency (if polarisation =? POLARISATION_VERTICAL then low_val else high_val))
  else lift (abs_difference frequency low_val).

(** [for (i = 0; i < 10; i++)]: 0 with a lock, -1 without, and [None] when the status cannot be read. *)
Fixpoint wait_lock (n : nat) : SC (option Z) :=
  match n with
  | O => mret (Some (-1))
  | S n =>
      scan_ask (OpFe (OpUsleep 200000));;
      k ← scan_ask (OpFe OpReadStatus);
      if sc_ioctl e k =? -1 then mret None
      else if has_flag (sc_status e k) FE_HAS_LOCK then mret (Some 0)
      else wait_lock n
  end.

(** [__tune_to_transponder] *)
Definition tune_once (t : nat) : SC Z :=
  modify (set_st_current (Some t));;
  tp ← get_tp t;
  if parameters_zero (tp_param tp) then mret (-1)
  else
    p ← (if tp_type tp =? FE_QPSK then
           f ← intermediate_frequency (pa_frequency (tp_param tp)) (tp_polarisation tp);
           mret (set_frequency f (tp_param tp))
         else mret (tp_param tp));
    r ← scan_ioctl e (OpSetParameters p);
    if r =? -1 then mret (-1)
    else
      lock ← wait_lock 10;
      match lock with
      | None => mret (-1)
      | Some r => upd_tp t (set_tp_last_tuning_failed (negb (r =? 0)));; mret r
      end.

Definition set_delivery_system (type : Z) : SC Z :=
  let set delsys :=
    n ← scan_ask (OpSetDeliverySystem delsys);
    mret (if 0 <=? sc_ioctl e n then 0 else sc_errno e n) in
  if type =? FE_QPSK then set SYS_DVBS
  else if type =? FE_QAM then set SYS_DVBC_ANNEX_AC
  else if type =? FE_OFDM then set SYS_DVBT
  else if type =? FE_ATSC then set SYS_ATSC
  else mret (-1).

Definition tune_to_transponder (t : nat) : SC Z :=
  modify (λ st, set_st_scanned (list_del t (st_scanned st) ++ [t]) (set_st_new (list_del t (st_new st)) st));;
  upd_tp t (set_tp_scan_done true);;
  tp ← get_tp t;
  st ← get_state;
  (if negb (tp_type tp =? st_fe_type st) then
     rc ← set_delivery_system (tp_type tp);
     if rc =? 0 then modify (set_st_fe_type (tp_type tp)) else mret tt
   else mret tt);;
  st ← get_state;
  if negb (tp_type tp =? st_fe_type st) then
    upd_tp t (set_tp_last_tuning_failed true);; mret (-1)
  else
    r ← tune_once t;
    if r =? 0 then mret 0 else tune_once t.

(** The next frequency of the list that no transponder has; the list gets shorter. *)
Fixpoint next_frequency (fuel : nat) (t : nat) : SC (option Z) :=
  match fuel with
  | O => io_fault OutOfFuel
  | S fuel =>
      tp ← get_tp t;
      match tp_other_f tp with
      | Some other_f =>
          if tp_other_frequency_flag tp && negb (tp_n_other_f tp =? 0) then
            freq ← lift (at_ other_f (tp_n_other_f tp - 1));
            upd_tp t (λ tp, set_tp_n_other_f (tp_n_other_f tp - 1) tp);;
            found ← find_transponder o freq;
            match found with Some _ => next_frequency fuel t | None => mret (Some freq) end
          else mret None
      | None => mret None
      end
  end.

(** "remember tuning to the old frequency failed" *)
Definition remember_failed (t : nat) : SC unit :=
  tp ← get_tp t;
  st ← get_state;
  let to := length (st_transponders st) in
  let v := set_tp_wrong_frequency true
    (set_tp_param (set_frequency (pa_frequency (tp_param tp)) zero_parameters) zero_transponder) in
  modify (λ st, set_st_scanned (st_scanned st ++ [to]) (set_st_transponders (st_transponders st ++ [v]) st));;
  copy_transponder to tp.

(** One transponder, with its alternative frequencies. *)
Fixpoint try_transponder (fuel : nat) (t : nat) : SC Z :=
  match fuel with
  | O => io_fault OutOfFuel
  | S fuel =>
      r ← tune_to_transponder t;
      if r =? 0 then mret 0
      else
        tp ← get_tp t;
        next ← next_frequency (S (Z.to_nat (tp_n_other_f tp))) t;
        match next with
        | None => mret (-1)
        | Some freq =>
            remember_failed t;;
            upd_tp t (λ tp, set_tp_param (set_frequency freq (tp_param tp)) tp);;
            try_transponder fuel t
        end
  end.

(** [list_for_each_safe]: the list as it is at the beginning, for only its first element is taken away. *)
Fixpoint try_transponders (l : list nat) : SC Z :=
  match l with
  | [] => mret (-1)
  | t :: l =>
      tp ← get_tp t;
      r ← try_transponder (S (Z.to_nat (tp_n_other_f tp))) t;
      if r =? 0 then mret 0 else try_transponders l
  end.

Definition tune_to_next_transponder : SC Z := st ← get_state; try_transponders (st_new st).

(** ** The first transponders *)

Definition initial_parameters (t : nat) (type polarisation : Z) (param : parameters -> parameters) : SC unit :=
  upd_tp t (λ tp, set_tp_param (param (tp_param tp)) (set_tp_polarisation polarisation (set_tp_type type tp))).

(** One line of the file: [None] if it is none of the kind. *)
Definition satellite_line (s : list Z) : option (Z * Z * Z * Z) :=
  s ← scanf_char 83 s;
  '(f, s) ← scanf_u s;
  '(pol, s) ← scanf_polarisation s;
  '(sr, s) ← scanf_u s;
  '(fec, _) ← scanf_s 4 s;
  Some (f, if (pol =? 72) || (pol =? 76) then POLARISATION_HORIZONTAL else POLARISATION_VERTICAL, sr, str2fec fec).

Definition cable_line (s : list Z) : option (Z * Z * Z * Z) :=
  s ← scanf_char 67 s;
  '(f, s) ← scanf_u s;
  '(sr, s) ← scanf_u s;
  words ← scanf_words [4; 6]%nat s;
  match words with [fec; qam] => Some (f, sr, str2fec fec, str2qam qam) | _ => None end.

Definition terrestrial_fec (fec : list Z) : Z := if str2fec fec =? FEC_NONE then FEC_AUTO else str2fec fec.

Definition terrestrial_line (s : list Z) : option (Z * list Z) :=
  s ← scanf_char 84 s;
  '(f, s) ← scanf_u s;
  words ← scanf_words [4; 4; 4; 7; 4; 4; 4]%nat s;
  match words with
  | [bw; fec; fec2; qam; mode; guard; hier] =>
      Some (f, [str2bandwidth bw; terrestrial_fec fec; terrestrial_fec fec2; str2qam qam; str2mode mode;
                str2guard guard; str2hier hier])
  | _ => None
  end.

Definition atsc_line (s : list Z) : option (Z * Z) :=
  s ← scanf_char 65 s;
  '(f, s) ← scanf_u s;
  '(qam, _) ← scanf_s 7 s;
  Some (f, str2qam qam).

Definition initial_line (line : list Z) : SC unit :=
  let inversion := set_inversion (so_spectral_inversion o) in
  match satellite_line line with
  | Some (f, pol, sr, fec) =>
      t ← alloc_transponder f;
      initial_parameters t FE_QPSK pol (λ p, set_word u_fec_inner fec (set_word u_symbol_rate sr (inversion p)))
  | None =>
  match cable_line line with
  | Some (f, sr, fec, qam) =>
      t ← alloc_transponder f;
      initial_parameters t FE_QAM 0 (λ p, set_word u_qam_modulation qam (set_word u_fec_inner fec
        (set_word u_symbol_rate sr (inversion p))))
  | None =>
  match terrestrial_line line with
  | Some (f, words) =>
      t ← alloc_transponder f;
      initial_parameters t FE_OFDM 0 (λ p, Parameters (pa_frequency p) (so_spectral_inversion o) words)
  | None =>
  match atsc_line line with
  | Some (f, qam) =>
      t ← alloc_transponder f;
      initial_parameters t FE_ATSC 0 (set_word u_vsb_modulation qam)
  | None => mret tt
  end end end end.

(** [while (fgets(buf, sizeof(buf), inif))]: every round takes a character. *)
Fixpoint initial_lines (fuel : nat) (file : list Z) : SC unit :=
  match fuel with
  | O => io_fault OutOfFuel
  | S fuel =>
      match file with
      | [] => mret tt
      | _ =>
          let '(buf, file) := fgets 199 file in
          (if (char0 buf =? 35) || (char0 buf =? 10) then mret tt else initial_line (c_string buf));;
          initial_lines fuel file
      end
  end.

(** The contents of the file, or [None] when it cannot be opened. *)
Definition tune_initial (file : option (list Z)) : SC Z :=
  match file with
  | None => mret (-1)
  | Some file => initial_lines (S (length file)) file;; tune_to_next_transponder
  end.

Section Network.
Context (iconv : list Z -> list Z -> option (list Z -> list Z)).

(** [do scan_tp(); while (tune_to_next_transponder(frontend_fd) == 0)] *)
Fixpoint scan_transponders (fuel : nat) : SC unit :=
  match fuel with
  | O => io_fault OutOfFuel
  | S fuel' =>
      scan_tp o e iconv fuel;;
      r ← tune_to_next_transponder;
      if r =? 0 then scan_transponders fuel' else mret tt
  end.

Definition scan_network (fuel : nat) (initial : option (list Z)) : SC unit :=
  r ← tune_initial initial;
  if r <? 0 then mret tt else scan_transponders fuel.

(** The transponder the frontend is tuned to already. *)
Definition scan_current (fuel : nat) : SC unit :=
  t ← alloc_transponder 0;
  modify (λ st, set_st_current (Some t) (set_st_scanned (st_scanned st ++ [t]) (set_st_new (list_del t (st_new st)) st)));;
  upd_tp t (set_tp_scan_done true);;
  scan_tp o e iconv fuel.
End Network.
End Tune.
