(* ===== verification/ScanDump.v ===== *)
(** * scan.c, dump-zap.c, dump-vdr.c: the list of services

    What was found is printed in the format of szap, of vdr, or as a list of the PIDs.  What is printed for szap is
    read back by libdvbcfg. *)

From S2P Require Export ScanTune DvbCfgZapchannel.
Import stdpp.list_relations.list stdpp.list_basics.list.
#[local] Open Scope Z_scope.

(** ** dump-zap.c *)

Definition zap_inv_name : list (list Z) := [lit "INVERSION_OFF"; lit "INVERSION_ON"; lit "INVERSION_AUTO"].

Definition zap_fec_name : list (list Z) :=
  [lit "FEC_NONE"; lit "FEC_1_2"; lit "FEC_2_3"; lit "FEC_3_4"; lit "FEC_4_5"; lit "FEC_5_6"; lit "FEC_6_7";
   lit "FEC_7_8"; lit "FEC_8_9"; lit "FEC_AUTO"].

Definition zap_qam_name : list (list Z) :=
  [lit "QPSK"; lit "QAM_16"; lit "QAM_32"; lit "QAM_64"; lit "QAM_128"; lit "QAM_256"; lit "QAM_AUTO"; lit "8VSB";
   lit "16VSB"].

Definition zap_bw_name : list (list Z) :=
  [lit "BANDWIDTH_8_MHZ"; lit "BANDWIDTH_7_MHZ"; lit "BANDWIDTH_6_MHZ"; lit "BANDWIDTH_AUTO"].

Definition zap_mode_name : list (list Z) :=
  [lit "TRANSMISSION_MODE_2K"; lit "TRANSMISSION_MODE_8K"; lit "TRANSMISSION_MODE_AUTO"].

Definition zap_guard_name : list (list Z) :=
  [lit "GUARD_INTERVAL_1_32"; lit "GUARD_INTERVAL_1_16"; lit "GUARD_INTERVAL_1_8"; lit "GUARD_INTERVAL_1_4";
   lit "GUARD_INTERVAL_AUTO"].

Definition zap_hierarchy_name : list (list Z) :=
  [lit "HIERARCHY_NONE"; lit "HIERARCHY_1"; lit "HIERARCHY_2"; lit "HIERARCHY_4"; lit "HIERARCHY_AUTO"].

(** The word of the union, as a name. *)
Definition word_name (names : list (list Z)) (p : parameters) (i : nat) : res (list Z) := at_ names (u_word p i).

Definition zap_dump_dvb_parameters (type : Z) (p : parameters) (polarity sat_number : Z) : res (list Z) :=
  if type =? FE_QPSK then
    mret (print_unsigned (pa_frequency p / 1000) ++ lit ":" ++ [polarity] ++ lit ":" ++ print_i sat_number ++ lit ":"
          ++ print_unsigned (u_word p u_symbol_rate / 1000))
  else if type =? FE_QAM then
    inv ← at_ zap_inv_name (pa_inversion p);
    fec ← word_name zap_fec_name p u_fec_inner;
    qam ← word_name zap_qam_name p u_qam_modulation;
    mret (print_unsigned (pa_frequency p) ++ lit ":" ++ inv ++ lit ":" ++ print_unsigned (u_word p u_symbol_rate)
          ++ lit ":" ++ fec ++ lit ":" ++ qam)
  else if type =? FE_OFDM then
    inv ← at_ zap_inv_name (pa_inversion p);
    bw ← word_name zap_bw_name p u_bandwidth;
    hp ← word_name zap_fec_name p u_code_rate_HP;
    lp ← word_name zap_fec_name p u_code_rate_LP;
    qam ← word_name zap_qam_name p u_constellation;
    mode ← word_name zap_mode_name p u_transmission_mode;
    guard ← word_name zap_guard_name p u_guard_interval;
    hier ← word_name zap_hierarchy_name p u_hierarchy_information;
    mret (print_unsigned (pa_frequency p) ++ lit ":" ++ inv ++ lit ":" ++ bw ++ lit ":" ++ hp ++ lit ":" ++ lp ++ lit ":"
          ++ qam ++ lit ":" ++ mode ++ lit ":" ++ guard ++ lit ":" ++ hier)
  else if type =? FE_ATSC then
    qam ← word_name zap_qam_name p u_vsb_modulation;
    mret (print_unsigned (pa_frequency p) ++ lit ":" ++ qam)
  else mret [].

Definition zap_dump_service_parameter_set (service_name : list Z) (type : Z) (p : parameters)
    (polarity sat_number video_pid audio_pid service_id : Z) : res (list Z) :=
  params ← zap_dump_dvb_parameters type p polarity sat_number;
  mret (service_name ++ lit ":" ++ params ++ lit ":" ++ print_i video_pid ++ lit ":" ++ print_i audio_pid ++ lit ":"
        ++ print_i service_id ++ [10]).

(** ** dump-vdr.c *)

Definition vdr_inv_name : list (list Z) := [lit "0"; lit "1"; lit "999"].
Definition vdr_fec_name : list (list Z) :=
  [lit "0"; lit "12"; lit "23"; lit "34"; lit "45"; lit "56"; lit "67"; lit "78"; lit "89"; lit "999"].
Definition vdr_qam_name : list (list Z) := [lit "0"; lit "16"; lit "32"; lit "64"; lit "128"; lit "256"; lit "999"].
Definition vdr_bw_name : list (list Z) := [lit "8"; lit "7"; lit "6"; lit "999"].
Definition vdr_mode_name : list (list Z) := [lit "2"; lit "8"; lit "999"].
Definition vdr_guard_name : list (list Z) := [lit "32"; lit "16"; lit "8"; lit "4"; lit "999"].
Definition vdr_hierarchy_name : list (list Z) := [lit "0"; lit "1"; lit "2"; lit "4"; lit "999"].
Definition west_east_flag_name : list (list Z) := [lit "W"; lit "E"].

Definition vdr_dump_dvb_parameters (type : Z) (p : parameters) (polarity orbital_pos we_flag : Z) : res (list Z) :=
  if type =? FE_QPSK then
    we ← at_ west_east_flag_name we_flag;
    mret (print_unsigned (pa_frequency p / 1000) ++ lit ":" ++ [polarity] ++ lit ":S" ++ print_i (Z.quot orbital_pos 10)
          ++ lit "." ++ print_i (Z.rem orbital_pos 10) ++ we ++ lit ":"
          ++ print_unsigned (u_word p u_symbol_rate / 1000) ++ lit ":")
  else if type =? FE_QAM then
    qam ← word_name vdr_qam_name p u_qam_modulation;
    mret (print_unsigned (pa_frequency p / 1000000) ++ lit ":M" ++ qam ++ lit ":C:"
          ++ print_unsigned (u_word p u_symbol_rate / 1000) ++ lit ":")
  else if type =? FE_OFDM then
    inv ← at_ vdr_inv_name (pa_inversion p);
    bw ← word_name vdr_bw_name p u_bandwidth;
    hp ← word_name vdr_fec_name p u_code_rate_HP;
    lp ← word_name vdr_fec_name p u_code_rate_LP;
    qam ← word_name vdr_qam_name p u_constellation;
    mode ← word_name vdr_mode_name p u_transmission_mode;
    guard ← word_name vdr_guard_name p u_guard_interval;
    hier ← word_name vdr_hierarchy_name p u_hierarchy_information;
    mret (print_unsigned (pa_frequency p / 1000) ++ lit ":I" ++ inv ++ lit "B" ++ bw ++ lit "C" ++ hp ++ lit "D" ++ lp
          ++ lit "M" ++ qam ++ lit "T" ++ mode ++ lit "G" ++ guard ++ lit "Y" ++ hier ++ lit ":T:27500:")
  else if type =? FE_ATSC then
    mret (print_unsigned (pa_frequency p / 1000) ++ lit ":VDR does not support ATSC at this time")
  else mret [].

(** A language of a list of audio streams: [=%.4s], unless it is empty. *)
Definition vdr_lang (audio_lang : option (list (list Z))) (i : nat) : list Z :=
  match audio_lang with
  | None => []
  | Some langs =>
      let lang := c_string (take 4 (nth i langs [])) in
      match lang with [] => [] | _ => lit "=" ++ lang end
  end.

(** [%s] of a string: a NULL is none. *)
Definition print_name (name : option mem) : res (list Z) :=
  match name with Some m => mret (c_string m) | None => Err Undefined end.

Section Dump.
Context (o : scan_options).

Definition vdr_name (s : service) : res (list Z) :=
  let channum :=
    if (so_vdr_dump_channum o =? 1) && (0 <? sv_channel_num s)
    then lit ":@" ++ print_i (sv_channel_num s) ++ [10] else [] in
  name ← print_name (sv_service_name s);
  if 3 <=? so_vdr_version o then
    provider ← print_name (sv_provider_name s);
    mret (channum ++ name ++ lit ";" ++ provider ++ lit ":")
  else if so_vdr_dump_provider o =? 1 then
    provider ← print_name (sv_provider_name s);
    mret (channum ++ provider ++ lit " - " ++ name ++ lit ":")
  else mret (channum ++ name ++ lit ":").

Definition vdr_dump_service_parameter_set (s : service) (t : transponder) (polarity : Z) : res (list Z) :=
  let audio i := nth i (sv_audio_pid s) 0 in
  if negb (sv_video_pid s =? 0) || negb (audio 0%nat =? 0) then
    let old := so_vdr_version o <=? 2 in
    let audio_lang := if old then None else Some (sv_audio_lang s) in
    let network_id := if old then 0 else tp_original_network_id t in
    let transport_stream_id := if old then 0 else sv_transport_stream_id s in
    name ← vdr_name s;
    params ← vdr_dump_dvb_parameters (tp_type t) (tp_param t) polarity (tp_orbital_pos t) (tp_we_flag t);
    let video :=
      if negb (sv_pcr_pid s =? sv_video_pid s) && (0 <? sv_video_pid s)
      then print_i (sv_video_pid s) ++ lit "+" ++ print_i (sv_pcr_pid s) ++ lit ":"
      else print_i (sv_video_pid s) ++ lit ":" in
    let audios := List.concat ((λ i, lit "," ++ print_i (audio i) ++ vdr_lang audio_lang i) <$>
      seq 1 (Z.to_nat (sv_audio_num s) - 1)) in
    let ac3 := if negb (sv_ac3_pid s =? 0) then lit ";" ++ print_i (sv_ac3_pid s) ++ vdr_lang audio_lang 0 else [] in
    let scrambled :=
      if sv_scrambled s =? 1 then
        if so_ca_select o =? -1 then (if old then 1 else 0) else so_ca_select o
      else sv_scrambled s in
    mret (name ++ params ++ video ++ print_i (audio 0%nat) ++ vdr_lang audio_lang 0 ++ audios ++ ac3 ++ lit ":"
          ++ print_i (sv_teletext_pid s) ++ lit ":" ++ print_i scrambled ++ lit ":" ++ print_i (sv_service_id s) ++ lit ":"
          ++ print_i network_id ++ lit ":" ++ print_i transport_stream_id ++ lit ":0" ++ [10])
  else mret [].

(** ** scan.c *)

(** [%0nx] *)
Definition print_0x (n : nat) (v : Z) : list Z := replicate (n - length (print_x v)) 48 ++ print_x v.

Definition pids_dump_service_parameter_set (s : service) : res (list Z) :=
  name ← print_name (sv_service_name s);
  let name := take 24 name in
  let pid p := lit "0x" ++ print_04x p in
  let audio i := nth i (sv_audio_pid s) 0 in
  let pcr :=
    if (sv_pcr_pid s =? 0) || (2 <? sv_type s) then lit "           "
    else if sv_pcr_pid s =? sv_video_pid s then lit "PCR == V   "
    else if (sv_audio_num s =? 1) && (sv_pcr_pid s =? audio 0%nat) then lit "PCR == A   "
    else lit "PCR " ++ pid (sv_pcr_pid s) ++ lit " " in
  let video := if negb (sv_video_pid s =? 0) then lit "V " ++ pid (sv_video_pid s) else lit "        " in
  let lang i := c_string (take 3 (nth i (sv_audio_lang s) [])) in
  let audios := List.concat ((λ i, lit " " ++ pid (audio i) ++
      match lang i with
      | [] => if sv_audio_num s =? 1 then lit "      " else []
      | _ => lit " (" ++ lang i ++ lit ")"
      end) <$> seq 0 (Z.to_nat (sv_audio_num s))) in
  let optional text p := if negb (p =? 0) then text ++ pid p else [] in
  mret (name ++ replicate (24 - length name) 32 ++ lit " (" ++ pid (sv_service_id s) ++ lit ") "
        ++ print_0x 2 (sv_type s) ++ lit ": " ++ pcr ++ video
        ++ (if negb (sv_audio_num s =? 0) then lit " A" else []) ++ audios
        ++ optional (lit " TT ") (sv_teletext_pid s) ++ optional (lit " AC3 ") (sv_ac3_pid s)
        ++ optional (lit " SUB ") (sv_subtitling_pid s) ++ [10]).

Definition sat_polarisation (t : transponder) : Z := if tp_polarisation t =? POLARISATION_VERTICAL then 118 else 104.

(** The name of a service that is not in the SDT, and the number of those. *)
Definition anonymous_name (anon_services service_id : Z) : mem :=
  (if so_unique_anon_services o then lit "[" ++ print_0x 3 anon_services ++ lit "-" ++ print_04x service_id ++ lit "]"
   else lit "[" ++ print_04x service_id ++ lit "]") ++ [0].

(** "':' is field separator in szap and vdr service lists": up to the NUL. *)
Fixpoint replace_colons (m : mem) : res mem :=
  match m with
  | [] => Err OutOfBounds
  | c :: m' => if c =? 0 then Ok m else rest ← replace_colons m'; Ok ((if c =? 58 then 32 else c) :: rest)
  end.

(** The service with the names that are printed, and the number of services without a name. *)
Definition name_service (s : service) (anon_services : Z) : res (service * Z) :=
  let '(name, anon) :=
    match sv_service_name s with
    | Some name => (name, anon_services)
    | None => (anonymous_name anon_services (sv_service_id s), anon_services + 1)
    end in
  name ← replace_colons name;
  provider ← match sv_provider_name s with
             | Some p => p ← replace_colons p; mret (Some p)
             | None => mret None
             end;
  mret (set_sv_provider_name provider (set_sv_service_name (Some name) s), anon).

(** The kinds of services that are asked for. *)
Definition service_selected (s : service) : bool :=
  let tv := negb (sv_video_pid s =? 0) in
  let radio := negb tv && negb (sv_audio_num s =? 0) in
  let other := negb tv && (sv_audio_num s =? 0) in
  let wants n := Z.testbit (so_serv_select o) n in
  negb (tv && negb (wants 0)) && negb (radio && negb (wants 1)) && negb (other && negb (wants 2)) &&
  negb (negb (sv_scrambled s =? 0) && (so_ca_select o =? 0)).

Definition dump_service (t : transponder) (switch_pos : Z) (s : service) : res (list Z) :=
  if so_output_format o =? OUTPUT_PIDS then pids_dump_service_parameter_set s
  else if so_output_format o =? OUTPUT_VDR then vdr_dump_service_parameter_set s t (sat_polarisation t)
  else if so_output_format o =? OUTPUT_ZAP then
    name ← print_name (sv_service_name s);
    zap_dump_service_parameter_set name (tp_type t) (tp_param t) (sat_polarisation t) switch_pos (sv_video_pid s)
      (nth 0 (sv_audio_pid s) 0) (sv_service_id s)
  else mret [].

Fixpoint dump_services (t : transponder) (switch_pos : Z) (l : list service) (anon : Z) :
    res (list service * list Z * Z) :=
  match l with
  | [] => mret ([], [], anon)
  | s :: l =>
      '(s, anon) ← name_service s anon;
      text ← (if service_selected s then dump_service t switch_pos s else mret []);
      '(rest, texts, anon) ← dump_services t switch_pos l anon;
      mret (s :: rest, text ++ texts, anon)
  end.

Fixpoint dump_transponders (l : list nat) (anon : Z) : SC (list Z) :=
  match l with
  | [] => mret []
  | t :: l =>
      tp ← get_tp t;
      if tp_wrong_frequency tp then dump_transponders l anon
      else
        st ← get_state;
        '(services, text, anon) ← lift (dump_services tp (st_switch_pos st) (tp_services tp) anon);
        put_tp t (set_tp_services services tp);;
        texts ← dump_transponders l anon;
        mret (text ++ texts)
  end.

(** What is printed. *)
Definition dump_lists : SC (list Z) := st ← get_state; dump_transponders (st_scanned st) 0.
End Dump.

(** * Properties

    What is printed in the format of szap is a file of channels that libdvbcfg reads: for each service a channel
    with the name, the PIDs and the parameters of the transponder.  A line has no place for the inversion and
    the code rate of a satellite transponder, and its frequency and symbol rate are in thousands. *)

(** ** Parameters *)

(** The parameters as the kernel has them, by the kind of frontend. *)
Definition kernel_union (type : Z) (p : parameters) : kernel_tuning :=
  if type =? FE_QPSK then Qpsk (u_word p u_symbol_rate) (u_word p u_fec_inner)
  else if type =? FE_QAM then Qam (u_word p u_symbol_rate) (u_word p u_fec_inner) (u_word p u_qam_modulation)
  else if type =? FE_OFDM then
    Ofdm (u_word p u_bandwidth) (u_word p u_code_rate_HP) (u_word p u_code_rate_LP) (u_word p u_constellation)
      (u_word p u_transmission_mode) (u_word p u_guard_interval) (u_word p u_hierarchy_information)
  else Vsb (u_word p u_vsb_modulation).

(** The frontends and the values that have a name in libdvbcfg. *)
Inductive named_parameters (p : parameters) : Z -> Prop :=
  | NamedQpsk : 0 <= pa_frequency p < 2 ^ 32 -> 0 <= u_word p u_symbol_rate < 2 ^ 31 - 1000 -> named_parameters p FE_QPSK
  | NamedQam : 0 <= pa_frequency p < 2 ^ 32 -> 0 <= pa_inversion p <= 2 -> 0 <= u_word p u_symbol_rate < 2 ^ 32 ->
      0 <= u_word p u_fec_inner <= 9 -> 1 <= u_word p u_qam_modulation <= 6 -> named_parameters p FE_QAM
  | NamedOfdm : 0 <= pa_frequency p < 2 ^ 32 -> 0 <= pa_inversion p <= 2 -> 0 <= u_word p u_bandwidth <= 3 ->
      0 <= u_word p u_code_rate_HP <= 9 -> 0 <= u_word p u_code_rate_LP <= 9 -> 0 <= u_word p u_constellation <= 6 ->
      0 <= u_word p u_transmission_mode <= 2 -> 0 <= u_word p u_guard_interval <= 4 ->
      0 <= u_word p u_hierarchy_information <= 4 -> named_parameters p FE_OFDM
  | NamedVsb : 0 <= pa_frequency p < 2 ^ 32 -> u_word p u_vsb_modulation ∈ [QAM_64; QAM_256; VSB_8; VSB_16] ->
      named_parameters p FE_ATSC.

(** What libdvbcfg makes of them. *)
Definition channel_params (type : Z) (p : parameters) : dvbfe_parameters :=
  if type =? FE_QPSK then
    DvbfeParameters (pa_frequency p / 1000 * 1000) DVBFE_INVERSION_AUTO (Dvbs (u_word p u_symbol_rate / 1000 * 1000) DVBFE_FEC_AUTO)
  else
    DvbfeParameters (pa_frequency p)
      (if type =? FE_ATSC then DVBFE_INVERSION_AUTO else lookupval (pa_inversion p) true dvbfe_spectral_inversion_to_kapi)
      match tuning_of_kapi type (kernel_union type p) with Ok (Some u) => u | _ => Atsc (-1) end.

(** A statement on each of the first numbers. *)
Lemma upto n (P : Z -> Prop) : Forall P (Z.of_nat <$> seq 0 n) -> forall v, 0 <= v < Z.of_nat n -> P v.
Proof.
  intros H v Hv. apply (proj1 (Forall_forall _ _) H). apply list_elem_of_fmap. exists (Z.to_nat v). split; [lia|].
  apply elem_of_seq. lia.
Qed.

(** The name of a value, and of what libdvbcfg calls it. *)
Definition same_name (names : list (list Z)) (settings : list dvbcfg_setting) (table : list (Z * Z)) (v : Z) : Prop :=
  at_ names v = print_setting (lookupval v true table) settings /\ listed settings (lookupval v true table) /\
  lookupval (lookupval v true table) false table = v.

Ltac by_values n := intros Hv; apply (upto n); [|lia]; repeat (constructor; [by split_and!|]); constructor.

Lemma inv_names v : 0 <= v < 3 -> same_name zap_inv_name dvbcfg_inversion_list dvbfe_spectral_inversion_to_kapi v.
Proof. by_values 3%nat. Qed.

Lemma fec_names v : 0 <= v < 10 -> same_name zap_fec_name dvbcfg_fec_list dvbfe_code_rate_to_kapi v.
Proof. by_values 10%nat. Qed.

Lemma bw_names v : 0 <= v < 4 -> same_name zap_bw_name dvbcfg_bandwidth_list dvbfe_dvbt_bandwidth_to_kapi v.
Proof. by_values 4%nat. Qed.

Lemma constellation_names v : 0 <= v < 7 -> same_name zap_qam_name dvbcfg_constellation_list dvbfe_dvbt_const_to_kapi v.
Proof. by_values 7%nat. Qed.

Lemma mode_names v : 0 <= v < 3 -> same_name zap_mode_name dvbcfg_transmission_mode_list dvbfe_dvbt_transmit_mode_to_kapi v.
Proof. by_values 3%nat. Qed.

Lemma guard_names v : 0 <= v < 5 -> same_name zap_guard_name dvbcfg_guard_interval_list dvbfe_dvbt_guard_interval_to_kapi v.
Proof. by_values 5%nat. Qed.

Lemma hierarchy_names v : 0 <= v < 5 -> same_name zap_hierarchy_name dvbcfg_hierarchy_list dvbfe_dvbt_hierarchy_to_kapi v.
Proof. by_values 5%nat. Qed.

Lemma qam_names v : 1 <= v <= 6 -> same_name zap_qam_name dvbcfg_dvbc_modulation_list dvbfe_dvbc_mod_to_kapi v.
Proof.
  intros Hv. assert (H : Forall (λ v, 1 <= v -> same_name zap_qam_name dvbcfg_dvbc_modulation_list dvbfe_dvbc_mod_to_kapi v)
    (Z.of_nat <$> seq 0 7)).
  { constructor; [lia|]. repeat (constructor; [intros _; by split_and!|]). constructor. }
  apply (upto 7 _ H); lia.
Qed.

Lemma vsb_names v : v ∈ [QAM_64; QAM_256; VSB_8; VSB_16] ->
  same_name zap_qam_name dvbcfg_atsc_modulation_list dvbfe_atsc_mod_to_kapi v.
Proof. revert v. apply Forall_forall. repeat (constructor; [by split_and!|]). constructor. Qed.

(** libdvbapi sets the frontend to the parameters that were scanned; for a satellite to whole thousands, and with what
    a line has no place for left to the frontend. *)
Lemma channel_params_exact type p : named_parameters p type ->
  tuning_to_kapi type (fp_u (channel_params type p)) = Ok (Some (
    if type =? FE_QPSK then Qpsk (u_word p u_symbol_rate / 1000 * 1000) FEC_AUTO else kernel_union type p)).
Proof.
  intros []; [done|..]; unfold channel_params, tuning_of_kapi, kernel_union; cbn; do 3 f_equal;
    (eapply proj2, proj2; first [apply fec_names; lia|apply qam_names; lia|apply bw_names; lia|apply constellation_names; lia
      |apply mode_names; lia|apply guard_names; lia|apply hierarchy_names; lia|by apply vsb_names]).
Qed.

(** ** Lines *)

(** The channel that a service is: its name, its video, the first of its audio. *)
Definition zap_channel (name : list Z) (t : transponder) (switch_pos : Z) (s : service) : dvbcfg_zapchannel :=
  DvbcfgZapchannel name (sv_video_pid s) (nth 0 (sv_audio_pid s) 0) (sv_service_id s) (tp_type t)
    (channel_params (tp_type t) (tp_param t))
    (if tp_type t =? FE_QPSK then Some (sat_polarisation t) else None)
    (if tp_type t =? FE_QPSK then Some switch_pos else None).

Lemma name_same p names settings table i : same_name names settings table (u_word p i) ->
  word_name names p i = print_setting (lookupval (u_word p i) true table) settings.
Proof. intros H. exact (proj1 H). Qed.

(** The names, whatever they are: each of them can be missing. *)
Ltac each_name :=
  unfold save_settings, channel_params, kernel_union, tuning_of_kapi; cbn -[lookupval print_setting print_unsigned app lit];
  repeat match goal with
  | |- context [print_setting ?a ?b] => generalize (print_setting a b); intros [?|?]; [|reflexivity];
      cbn -[print_setting print_unsigned app lit]
  end;
  f_equal; change colon with (lit ":"); by rewrite <- ?app_assoc.

Lemma zap_settings_saved name t pos s : named_parameters (tp_param t) (tp_type t) ->
  (params ← zap_dump_dvb_parameters (tp_type t) (tp_param t) (sat_polarisation t) pos; mret (params ++ lit ":")) =
  save_settings (zap_channel name t pos s).
Proof.
  intros H. unfold zap_channel. remember (sat_polarisation t) as pol eqn:Ep. assert (Hp : u8 (tolower pol) = pol).
  { subst. unfold sat_polarisation. by destruct (tp_polarisation t =? POLARISATION_VERTICAL). }
  clear Ep. revert H. generalize (tp_type t), (tp_param t). intros ty p H. unfold zap_dump_dvb_parameters.
  destruct H as [Hf Hs|Hf Hi Hs Hc Hq|Hf Hi Hb Hh Hl Hq Hm Hg Hy|Hf Hq]; cbn [FE_QPSK FE_QAM FE_OFDM FE_ATSC Z.eqb Pos.eqb].
  - unfold save_settings, channel_params. cbn -[print_unsigned print_i Z.div Z.mul app lit u8 tolower].
    rewrite !Z.div_mul, Hp by done. f_equal. change colon with (lit ":"). by rewrite <- ?app_assoc.
  - rewrite (proj1 (inv_names (pa_inversion p) ltac:(lia))).
    rewrite (name_same _ _ _ _ u_fec_inner (fec_names (u_word p u_fec_inner) ltac:(lia))).
    rewrite (name_same _ _ _ _ u_qam_modulation (qam_names _ Hq)). each_name.
  - rewrite (proj1 (inv_names (pa_inversion p) ltac:(lia))).
    rewrite (name_same _ _ _ _ u_bandwidth (bw_names (u_word p u_bandwidth) ltac:(lia))).
    rewrite (name_same _ _ _ _ u_code_rate_HP (fec_names (u_word p u_code_rate_HP) ltac:(lia))).
    rewrite (name_same _ _ _ _ u_code_rate_LP (fec_names (u_word p u_code_rate_LP) ltac:(lia))).
    rewrite (name_same _ _ _ _ u_constellation (constellation_names (u_word p u_constellation) ltac:(lia))).
    rewrite (name_same _ _ _ _ u_transmission_mode (mode_names (u_word p u_transmission_mode) ltac:(lia))).
    rewrite (name_same _ _ _ _ u_guard_interval (guard_names (u_word p u_guard_interval) ltac:(lia))).
    rewrite (name_same _ _ _ _ u_hierarchy_information (hierarchy_names (u_word p u_hierarchy_information) ltac:(lia))).
    each_name.
  - rewrite (name_same _ _ _ _ u_vsb_modulation (vsb_names _ Hq)). each_name.
Qed.

(** The line is what libdvbcfg writes for the channel. *)
Lemma zap_line_saved name t pos s : named_parameters (tp_param t) (tp_type t) ->
  zap_dump_service_parameter_set name (tp_type t) (tp_param t) (sat_polarisation t) pos (sv_video_pid s)
    (nth 0 (sv_audio_pid s) 0) (sv_service_id s) = save_channel (zap_channel name t pos s).
Proof.
  intros H. unfold zap_dump_service_parameter_set, save_channel. rewrite <- zap_settings_saved by done.
  cbn [zap_channel zc_name zc_video_pid zc_audio_pid zc_service_id].
  destruct (zap_dump_dvb_parameters _ _ _ _) as [x|]; [|done]. cbn -[app lit print_i]. f_equal.
  change colon with (lit ":"). by rewrite <- ?app_assoc.
Qed.

Lemma zap_channel_valid name t pos s : named_parameters (tp_param t) (tp_type t) ->
  Forall (λ x, line_char x /\ x <> 58) name -> (length name < 128)%nat -> is_int pos -> is_int (sv_video_pid s) ->
  is_int (nth 0 (sv_audio_pid s) 0) -> is_int (sv_service_id s) -> valid_channel (zap_channel name t pos s).
Proof.
  intros H Hn Hl Hp H1 H2 H3. split_and!; try done. unfold valid_settings, zap_channel, channel_params, tuning_of_kapi, kernel_union.
  cbn [zc_fe_params zc_fe_type zc_polarization zc_diseqc_switch].
  destruct H as [Hf Hs|Hf Hi Hs Hc Hq|Hf Hi Hb Hh Hlp Hq Hm Hg Hy|Hf Hq]; cbn -[lookupval listed].
  - split_and!; try done.
    + eexists. split; [done|]. split; [apply Z.div_pos; lia|]. apply Z.lt_succ_r, Z.div_lt_upper_bound; lia.
    + eexists. split; [done|]. split; [apply Z.div_pos; lia|]. apply Z.lt_succ_r, Z.div_lt_upper_bound; lia.
    + eexists. split; [done|]. unfold sat_polarisation. by destruct (tp_polarisation t =? POLARISATION_VERTICAL).
    + by eexists.
  - split_and!; try done; try lia; [apply inv_names|apply fec_names|apply qam_names]; lia.
  - split_and!; try done; try lia; [apply inv_names|apply bw_names|apply fec_names|apply fec_names|apply constellation_names
      |apply mode_names|apply guard_names|apply hierarchy_names]; lia.
  - split_and!; try done; try lia. by apply vsb_names.
Qed.

(** ** Names *)

Lemma digits_fuel_chars fuel : forall v acc,
  Forall (λ x, line_char x /\ x <> 58) acc ->
  Forall (λ x, line_char x /\ x <> 58) (digits_fuel fuel 16 v acc) /\
  (length (digits_fuel fuel 16 v acc) <= fuel + length acc)%nat.
Proof.
  induction fuel as [|fuel IH]; intros v acc H; [by split; [|cbn; lia]|]. cbn [digits_fuel]. cbv zeta.
  assert (Hm : 0 <= v mod 16 < 16) by (apply Z.mod_pos_bound; lia).
  assert (H' : Forall (λ x, line_char x /\ x <> 58) ((if v mod 16 <? 10 then 48 + v mod 16 else 87 + v mod 16) :: acc)).
  { constructor; [|done]. unfold line_char. destruct (Z.ltb_spec (v mod 16) 10); lia. }
  destruct (v / 16 =? 0); [split; [done|cbn; lia]|].
  destruct (IH (v / 16) _ H') as [Hc Hl]. split; [done|]. cbn [length] in Hl. lia.
Qed.

Lemma print_0x_chars n v : (n <= 64)%nat -> Forall (λ x, line_char x /\ x <> 58) (print_0x n v) /\ (length (print_0x n v) <= 64)%nat.
Proof.
  intros Hn. unfold print_0x, print_x, digits. destruct (digits_fuel_chars 64 v []) as [Hc Hl]; [constructor|].
  cbn [length] in Hl. split; [|rewrite length_app, length_replicate; lia].
  apply Forall_app. split; [|done]. by apply Forall_replicate.
Qed.

(** The name that is printed for a service. *)
Definition shown_name (o : scan_options) (anon : Z) (s : service) : list Z :=
  (λ c, if c =? 58 then 32 else c) <$>
    c_string match sv_service_name s with Some n => n | None => anonymous_name o anon (sv_service_id s) end.

Definition printable_name (m : mem) : Prop := 0 ∈ m /\ Forall line_char (c_string m) /\ (length (c_string m) < 128)%nat.

Record listable_service (s : service) : Prop := {
  ls_name : from_option printable_name True (sv_service_name s);
  ls_provider : from_option (λ m, 0 ∈ m) True (sv_provider_name s);
  ls_id : 0 <= sv_service_id s < 65536;
  ls_video : is_int (sv_video_pid s);
  ls_audio : is_int (nth 0 (sv_audio_pid s) 0);
}.

Lemma anonymous_printable o anon id : 0 <= id < 65536 -> printable_name (anonymous_name o anon id).
Proof.
  intros Hid. destruct (print_0x_chars 3 anon) as [Ha La]; [lia|]. destruct (print_0x_chars 4 id) as [Hi _]; [lia|].
  assert (Li : (length (print_0x 4 id) <= 4)%nat).
  { unfold print_0x, print_x, digits. rewrite length_app, length_replicate.
    assert (H : (length (digits_fuel 64 16 id []) <= 4 + length (@nil Z))%nat) by (apply digits_fuel_length; lia).
    cbn [length] in H. lia. }
  change (print_0x 4 id) with (print_04x id) in Hi. unfold anonymous_name.
  assert (H : forall l, Forall (λ x, line_char x /\ x <> 58) l -> (length l < 128)%nat -> printable_name (l ++ [0])).
  { intros l Hl Hn. assert (E : c_string (l ++ [0]) = l).
    { clear Hn. induction Hl as [|x l [[Hx _] _] Hl IH]; [done|]. cbn. rewrite (proj2 (Z.eqb_neq x 0)) by done. by rewrite IH. }
    split; [apply elem_of_app; right; by constructor|]. rewrite E. split; [|done].
    eapply Forall_impl; [exact Hl|]. by intros x []. }
  assert (H1 : forall t, forallb (λ x, negb (x =? 0) && negb (x =? 10) && negb (x =? 35) && negb (x =? 58)) t = true ->
    Forall (λ x, line_char x /\ x <> 58) t).
  { intros t Ht. apply Forall_forall. intros x Hx. apply list_elem_of_In in Hx. rewrite forallb_forall in Ht.
    apply Ht in Hx. unfold line_char. lia. }
  change (length (print_04x id) <= 4)%nat in Li.
  destruct (so_unique_anon_services o); apply H; rewrite ?Forall_app, ?length_app;
    change (length (lit "[")) with 1%nat; change (length (lit "]")) with 1%nat; change (length (lit "-")) with 1%nat;
    try lia; split_and!; try assumption; by apply H1.
Qed.

Lemma replace_colons_run m : 0 ∈ m -> exists m', replace_colons m = Ok m' /\
  c_string m' = (λ c, if c =? 58 then 32 else c) <$> c_string m.
Proof.
  induction m as [|c m IH]; intros H; [by apply elem_of_nil in H|]. cbn [replace_colons c_string].
  destruct (Z.eqb_spec c 0) as [->|Hc]; [by exists (0 :: m)|].
  apply elem_of_cons in H as [<-|H]; [done|]. destruct (IH H) as (m' & E & Em).
  rewrite E. eexists. split; [done|]. cbn [c_string fmap list_fmap]. destruct (Z.eqb_spec c 58).
  - by rewrite Em.
  - rewrite (proj2 (Z.eqb_neq c 0)) by done. by rewrite Em.
Qed.

Lemma shown_name_valid o anon s : listable_service s ->
  Forall (λ x, line_char x /\ x <> 58) (shown_name o anon s) /\ (length (shown_name o anon s) < 128)%nat.
Proof.
  intros [Hn _ Hid _ _]. unfold shown_name.
  assert (H : printable_name match sv_service_name s with Some n => n | None => anonymous_name o anon (sv_service_id s) end).
  { destruct (sv_service_name s); [done|by apply anonymous_printable]. }
  destruct H as (_ & H & Hl). rewrite length_fmap. split; [|done]. apply Forall_fmap. eapply Forall_impl; [exact H|].
  intros c (H0 & H10 & H35). cbn. unfold line_char. destruct (Z.eqb_spec c 58); lia.
Qed.

(** How many services had no name before the next one. *)
Definition next_anon (s : service) (anon : Z) : Z := match sv_service_name s with Some _ => anon | None => anon + 1 end.

Lemma name_service_run o s anon : listable_service s -> exists n p,
  name_service o s anon = Ok (set_sv_provider_name p (set_sv_service_name (Some n) s), next_anon s anon) /\
  c_string n = shown_name o anon s.
Proof.
  intros [Hn Hp Hid _ _]. unfold name_service, next_anon, shown_name.
  assert (Ep : exists p, match sv_provider_name s with
    | Some p => p ← replace_colons p; mret (Some p) | None => mret None end = Ok p).
  { destruct (sv_provider_name s) as [p|]; [|by eexists]. destruct (replace_colons_run p Hp) as (p' & E & _).
    rewrite E. by eexists. }
  destruct Ep as [p Ep]. destruct (sv_service_name s) as [m|].
  - destruct (replace_colons_run m (proj1 Hn)) as (n & E & En). exists n, p. rewrite E. cbn [mbind res_bind]. rewrite Ep. done.
  - destruct (replace_colons_run _ (proj1 (anonymous_printable o anon _ Hid))) as (n & E & En). exists n, p.
    rewrite E. cbn [mbind res_bind]. rewrite Ep. done.
Qed.

(** ** Lists *)

(** The channels of the services of a transponder, and the number of services without a name up to there. *)
Fixpoint zap_services (o : scan_options) (t : transponder) (pos : Z) (l : list service) (anon : Z) :
    list dvbcfg_zapchannel * Z :=
  match l with
  | [] => ([], anon)
  | s :: l =>
      let '(cs, n) := zap_services o t pos l (next_anon s anon) in
      (if service_selected o s then zap_channel (shown_name o anon s) t pos s :: cs else cs, n)
  end.

Fixpoint zap_transponders (o : scan_options) (pos : Z) (l : list transponder) (anon : Z) : list dvbcfg_zapchannel :=
  match l with
  | [] => []
  | t :: l =>
      if tp_wrong_frequency t then zap_transponders o pos l anon
      else let '(cs, anon) := zap_services o t pos (tp_services t) anon in cs ++ zap_transponders o pos l anon
  end.

Definition listable (t : transponder) : Prop :=
  tp_wrong_frequency t = false -> named_parameters (tp_param t) (tp_type t) /\ Forall listable_service (tp_services t).

Lemma save_app cs cs' text text' : dvbcfg_zapchannel_save cs 0 = Ok (text, 0) -> dvbcfg_zapchannel_save cs' 0 = Ok (text', 0) ->
  dvbcfg_zapchannel_save (cs ++ cs') 0 = Ok (text ++ text', 0).
Proof.
  revert text. induction cs as [|c cs IH]; intros text H H'; cbn [app dvbcfg_zapchannel_save] in *; [by injection H as <-|].
  destruct (save_channel c) as [line|]; [|done]. cbn [mbind res_bind] in *.
  destruct (dvbcfg_zapchannel_save cs 0) as [[rest r]|]; [|done]. cbn [mbind res_bind mret res_ret] in H. injection H as <- ->.
  rewrite (IH rest) by done. cbn. by rewrite app_assoc.
Qed.

Lemma dump_services_run o t pos l : so_output_format o = OUTPUT_ZAP -> is_int pos ->
  named_parameters (tp_param t) (tp_type t) -> Forall listable_service l -> forall anon,
  exists l' text, dump_services o t pos l anon = Ok (l', text, (zap_services o t pos l anon).2) /\
    dvbcfg_zapchannel_save (zap_services o t pos l anon).1 0 = Ok (text, 0) /\
    Forall valid_channel (zap_services o t pos l anon).1.
Proof.
  intros Ho Hp Ht. induction 1 as [|s l Hs Hl IH]; intros anon; [by exists [], []|]. cbn [dump_services zap_services].
  destruct (name_service_run o s anon Hs) as (n & p & En & Hn). rewrite En. cbn [mbind res_bind].
  destruct (IH (next_anon s anon)) as (l' & text & El & Es & Hv).
  destruct (zap_services o t pos l (next_anon s anon)) as [cs k]. cbn [fst snd] in *. rewrite El.
  change (service_selected o (set_sv_provider_name p (set_sv_service_name (Some n) s))) with (service_selected o s).
  destruct (service_selected o s); [|by eexists _, _].
  destruct (shown_name_valid o anon s Hs) as [Hc Hlen]. destruct Hs as [_ _ Hid Hv1 Ha].
  assert (Hvc : valid_channel (zap_channel (shown_name o anon s) t pos s)).
  { apply zap_channel_valid; try done. unfold is_int. lia. }
  destruct (saved_lines [zap_channel (shown_name o anon s) t pos s] 0) as (line & Eline & _);
    [by apply Forall_singleton|].
  unfold dump_service. rewrite Ho. cbn [OUTPUT_ZAP OUTPUT_PIDS OUTPUT_VDR Z.eqb Pos.eqb sv_service_name set_sv_provider_name
    set_sv_service_name sv_video_pid sv_audio_pid sv_service_id print_name mbind res_bind mret res_ret].
  rewrite Hn, zap_line_saved by done. cbn [dvbcfg_zapchannel_save] in Eline.
  destruct (save_channel _) as [x|] eqn:Ex; [|done]. cbn [mbind res_bind].
  eexists _, _. split; [done|]. split; [|by apply Forall_cons].
  cbn [dvbcfg_zapchannel_save]. rewrite Ex. cbn [mbind res_bind]. by rewrite Es.
Qed.

Lemma get_tp_bind {B} i t (k : transponder -> SC B) w : st_transponders (w_state w) !! i = Some t ->
  (get_tp i ≫= k) w = k t w.
Proof. intros H. unfold get_tp, deref, mbind, io_bind, get_state, lift. by rewrite H. Qed.

Lemma lookup_others {A} (T : list A) i x l ts : i ∉ l -> Forall2 (λ j t, T !! j = Some t) l ts ->
  Forall2 (λ j t, <[i := x]> T !! j = Some t) l ts.
Proof.
  intros Hi H. induction H as [|j t l ts Hj H IH]; [constructor|]. apply not_elem_of_cons in Hi as [Hij Hi].
  constructor; [by rewrite list_lookup_insert_ne|by apply IH].
Qed.

Lemma dump_transponders_run o pos l ts : so_output_format o = OUTPUT_ZAP -> is_int pos -> Forall listable ts -> NoDup l ->
  forall anon w, st_switch_pos (w_state w) = pos -> Forall2 (λ i t, st_transponders (w_state w) !! i = Some t) l ts ->
  exists text w', dump_transponders o l anon w = Ok (text, w') /\
    dvbcfg_zapchannel_save (zap_transponders o pos ts anon) 0 = Ok (text, 0) /\
    Forall valid_channel (zap_transponders o pos ts anon).
Proof.
  intros Ho Hp Hts. revert l. induction Hts as [|t ts Ht Hts IH]; intros l Hl anon w Hw H.
  { apply Forall2_nil_inv_r in H as ->. by exists [], w. }
  apply Forall2_cons_inv_r in H as (i & l' & Hi & H & ->). apply NoDup_cons in Hl as [Hn Hl].
  cbn [dump_transponders zap_transponders].
  rewrite (get_tp_bind i t) by done. destruct (tp_wrong_frequency t) eqn:Hf; [by apply IH|].
  destruct (Ht Hf) as [Hpar Hsv].
  destruct (dump_services_run o t pos _ Ho Hp Hpar Hsv anon) as (services & text & Ed & Es & Hv).
  destruct (zap_services o t pos (tp_services t) anon) as [cs k]. cbn [fst snd] in *.
  set (w1 := World (set_st_transponders (<[i := set_tp_services services t]> (st_transponders (w_state w))) (w_state w))
    (w_tick w) (w_log w)).
  destruct (IH l' Hl k w1) as (texts & w' & Er & Es' & Hv'); [done| |].
  { by apply lookup_others. }
  exists (text ++ texts), w'. split; [|split; [by apply save_app|by apply Forall_app]].
  unfold get_state, put_tp, modify, lift, mbind, io_bind, mret, io_ret. rewrite Hw, Ed. fold w1. by rewrite Er.
Qed.

(** What a frontend is set to for a channel: a line has no code rate for a satellite, and thousands of symbols. *)
Definition listed_tuning (t : transponder) : kernel_tuning :=
  if tp_type t =? FE_QPSK then Qpsk (u_word (tp_param t) u_symbol_rate / 1000 * 1000) FEC_AUTO
  else kernel_union (tp_type t) (tp_param t).

Definition tunes (ts : list transponder) (c : dvbcfg_zapchannel) : Prop :=
  exists t, t ∈ ts /\ zc_fe_type c = tp_type t /\ tuning_to_kapi (tp_type t) (fp_u (zc_fe_params c)) = Ok (Some (listed_tuning t)).

Lemma services_tune o t ts pos l : t ∈ ts -> named_parameters (tp_param t) (tp_type t) -> forall anon,
  Forall (tunes ts) (zap_services o t pos l anon).1.
Proof.
  intros Hin Ht. induction l as [|s l IH]; intros anon; [constructor|]. cbn [zap_services].
  specialize (IH (next_anon s anon)). destruct (zap_services _ _ _ _ _) as [cs k]. destruct (service_selected o s); [|done].
  apply Forall_cons. split; [|done]. exists t. split; [done|]. split; [done|]. by apply channel_params_exact.
Qed.

Lemma transponders_tune o pos all ts : Forall listable ts -> ts ⊆ all -> forall anon,
  Forall (tunes all) (zap_transponders o pos ts anon).
Proof.
  induction 1 as [|t ts Ht Hts IH]; intros Hs anon; [constructor|]. cbn [zap_transponders].
  assert (Hin : t ∈ all) by (apply Hs; by constructor). assert (Hs' : ts ⊆ all) by (intros x Hx; apply Hs; by constructor).
  destruct (tp_wrong_frequency t) eqn:Hf; [by apply IH|].
  pose proof (services_tune o t all pos (tp_services t) Hin (proj1 (Ht Hf)) anon) as H.
  destruct (zap_services _ _ _ _ _) as [cs k]. apply Forall_app. split; [done|by apply IH].
Qed.

(** ** The list is read back *)


(** A service with a colon in its name, a radio without a name. *)
Definition listing_options : scan_options :=
  ScanOptions false false false 0 0 false 1 (-1) 7 3 (LnbTypesSt 9750000 10600000 11700000) false (lit "ISO-6937")
    (lit "UTF-8") INVERSION_AUTO OUTPUT_ZAP.

Definition listed_services : list service :=
  [set_sv_video_pid 545 (set_sv_audio_pid [546] (set_sv_service_id 514 (set_sv_service_name (Some (lit "ZDF: info" ++ [0])) zero_service)));
   set_sv_audio_num 1 (set_sv_audio_pid [700] (set_sv_service_id 515 zero_service));
   set_sv_scrambled 1 (set_sv_service_id 516 zero_service)].

Definition listed_transponder : transponder :=
  set_tp_services listed_services (set_tp_type FE_OFDM (set_tp_param
    (Parameters 570000000 2 [BANDWIDTH_8_MHZ; FEC_2_3; FEC_NONE; QAM_16; TRANSMISSION_MODE_8K; 3; 0]) zero_transponder)).

Definition listed_world : world scan_state :=
  World (ScanState [listed_transponder] [0%nat] [] None [] [] [] 0 [] [] FE_OFDM 0 []) 0 [].


(** Only colons are replaced: from a ['#'] in the name of a service on, its line is a comment for libdvbcfg, and the
    service is lost. *)
Lemma zap_hash_lost :
  let s := set_sv_video_pid 545 (set_sv_service_name (Some (lit "Canal #1" ++ [0])) zero_service) in
  let w := World (ScanState [set_tp_services [s] listed_transponder] [0%nat] [] None [] [] [] 0 [] [] FE_OFDM 0 []) 0 [] in
  exists text w', dump_lists listing_options w = Ok (text, w') /\ (0 < length text)%nat /\
    dvbcfg_zapchannel_parse (λ l c, (l ++ [zc_name c], 0)) text [] = Ok ([], 0).
Proof. eexists _, _. split; [vm_compute; reflexivity|]. split; [cbn; lia|vm_compute; reflexivity]. Qed.
