(* ===== verification/ScanFilterCorrect.v ===== *)
(** * The filters of the scanner: the invariant of the lists

    What every action of the scanner keeps: the lists of filters, their number and the arrays for [poll] agree,
    so that the program never finds them wrong and exits.  An action is [fine] when it keeps the invariant, has a
    relation [R] between the states before and after, and fails at most by accessing memory. *)

From S2P Require Export ScanRead.
Import stdpp.list_relations.list stdpp.list_basics.list.
#[local] Open Scope Z_scope.

(** ** The invariant *)

(** Faults of memory; not the exit of the program, and no loop without end. *)
Definition allowed (f : fault) : Prop := f <> Exited /\ f <> OutOfFuel.

(** The descriptor of a filter. *)
Definition fd_of (st : scan_state) (b : nat) : Z :=
  match st_bufs st !! b with Some v => sb_fd v | None => -1 end.

(** The lists: every filter is in one of them at most, and exists; those that run have a descriptor. *)
Record lists_ok (st : scan_state) : Prop := {
  lo_number : st_n_running st = zlen (st_running st);
  lo_max : (length (st_running st) <= 27)%nat;
  lo_nodup : NoDup (st_running st ++ st_waiting st);
  lo_exist : Forall (λ b, (b < length (st_bufs st))%nat) (st_running st ++ st_waiting st);
  lo_open : Forall (λ b, 0 <= fd_of st b) (st_running st);
}.

(** The arrays for [poll]: the filters that run, in order, and nothing behind them. *)
Record polls_ok (st : scan_state) : Prop := {
  po_bufs : st_poll_bufs st = (Some <$> st_running st) ++ replicate (27 - length (st_running st)) None;
  po_fds : (st_poll_fds st).*1 = (fd_of st <$> st_running st) ++ replicate (27 - length (st_running st)) (-1);
}.

(** A filter holds bytes, and its chain of segments goes on to newer filters. *)
Definition buf_ok (n b : nat) (v : section_buf) : Prop :=
  Forall byte (sb_buf v) /\
  match sb_next_seg v with Some next => (b < next < n)%nat | None => True end.

Definition bufs_ok (st : scan_state) : Prop :=
  forall b v, st_bufs st !! b = Some v -> buf_ok (length (st_bufs st)) b v.

(** Each service of a transponder has a number of its own. *)
Definition ids_ok (l : list service) : Prop :=
  NoDup (sv_service_id <$> l) /\ Forall (λ s, 0 <= sv_service_id s < 65536) l.

Definition services_ok (st : scan_state) : Prop := Forall (λ t, ids_ok (tp_services t)) (st_transponders st).

Record scan_inv (st : scan_state) : Prop := {
  si_lists : lists_ok st;
  si_polls : polls_ok st;
  si_bufs : bufs_ok st;
  si_services : services_ok st;
}.

(** ** Actions *)

Definition fine {A} (P : scan_state -> Prop) (R : scan_state -> scan_state -> Prop) (c : SC A)
    (Q : A -> scan_state -> Prop) : Prop :=
  forall w, scan_inv (w_state w) -> P (w_state w) ->
    match c w with
    | Ok (a, w') => scan_inv (w_state w') /\ R (w_state w) (w_state w') /\ (w_tick w <= w_tick w')%nat /\ Q a (w_state w')
    | Err f => allowed f
    end.

Lemma fine_bind {A B} P (R1 R2 R : scan_state -> scan_state -> Prop) (c : SC A) (k : A -> SC B) Q1 Q2 :
  (forall s1 s2 s3, R1 s1 s2 -> R2 s2 s3 -> R s1 s3) ->
  fine P R1 c Q1 -> (forall a, fine (Q1 a) R2 (k a) Q2) -> fine P R (c ≫= k) Q2.
Proof.
  intros HR Hc Hk w Hi HP. specialize (Hc w Hi HP). unfold mbind, io_bind.
  destruct (c w) as [[a w1]|f]; [|done]. destruct Hc as (Hi1 & HR1 & Ht1 & HQ1).
  specialize (Hk a w1 Hi1 HQ1). destruct (k a w1) as [[b w2]|f]; [|done].
  destruct Hk as (Hi2 & HR2 & Ht2 & HQ2). split_and!; [done|by eapply HR|lia|done].
Qed.

Lemma fine_mono {A} (P P' : scan_state -> Prop) (R R' : scan_state -> scan_state -> Prop) (c : SC A) (Q Q' : A -> scan_state -> Prop) :
  fine P R c Q -> (forall s, P' s -> P s) -> (forall s s', R s s' -> R' s s') -> (forall a s, Q a s -> Q' a s) ->
  fine P' R' c Q'.
Proof.
  intros H HP HR HQ w Hi Hp. specialize (H w Hi (HP _ Hp)). destruct (c w) as [[a w']|]; [|done].
  destruct H as (? & ? & ? & ?). split_and!; auto.
Qed.

(** ** Actions that leave the filters alone *)

(** What the lists depend on of a filter. *)
Definition sb_core (v : section_buf) : bool * Z * Z * Z := (sb_run_once v, sb_fd v, sb_timeout v, sb_start_time v).

(** The numbers of the services of the current transponder that have a filter for their PMT. *)
Definition has_filter (s : service) : bool := match sv_priv s with Some _ => true | None => false end.

Definition served_ids (l : list service) : list Z := sv_service_id <$> filter has_filter l.

Definition served (st : scan_state) : list Z :=
  match st_current st with
  | Some t => match st_transponders st !! t with Some tp => served_ids (tp_services tp) | None => [] end
  | None => []
  end.

Record calm (s s' : scan_state) : Prop := {
  cm_current : st_current s' = st_current s;
  cm_running : st_running s' = st_running s;
  cm_waiting : st_waiting s' = st_waiting s;
  cm_number : st_n_running s' = st_n_running s;
  cm_poll_fds : (st_poll_fds s').*1 = (st_poll_fds s).*1;
  cm_poll_bufs : st_poll_bufs s' = st_poll_bufs s;
  cm_bufs : forall b v, st_bufs s !! b = Some v -> exists v', st_bufs s' !! b = Some v' /\ sb_core v' = sb_core v;
  cm_served : served s' = served s;
}.

Lemma calm_refl s : calm s s.
Proof. constructor; try done. intros b v E. by exists v. Qed.

Lemma calm_trans s1 s2 s3 : calm s1 s2 -> calm s2 s3 -> calm s1 s3.
Proof.
  intros [] []. constructor; try congruence.
  intros b v E. destruct (cm_bufs0 b v E) as (v' & E' & C). destruct (cm_bufs1 b v' E') as (v'' & E'' & C').
  exists v''. split; [done|congruence].
Qed.

(** Actions without a condition on the state, whose result is known. *)
Definition calmly {A} (c : SC A) (Q : A -> Prop) : Prop := fine (λ _, True) calm c (λ a _, Q a).

Lemma calmly_bind {A B} (c : SC A) (k : A -> SC B) Q1 Q2 :
  calmly c Q1 -> (forall a, Q1 a -> calmly (k a) Q2) -> calmly (c ≫= k) Q2.
Proof.
  intros Hc Hk. eapply fine_bind; [exact calm_trans|exact Hc|]. intros a w Hi Ha. by apply Hk.
Qed.

Lemma calmly_ret {A} (a : A) (Q : A -> Prop) : Q a -> calmly (mret a) Q.
Proof. intros Ha w Hi _. split_and!; [done|apply calm_refl|done|done]. Qed.

Lemma calmly_mono {A} (c : SC A) (Q Q' : A -> Prop) : calmly c Q -> (forall a, Q a -> Q' a) -> calmly c Q'.
Proof. intros H HQ. eapply fine_mono; [exact H|done|done|]. intros a s. apply HQ. Qed.

Lemma calmly_if {A} (b : bool) (c1 c2 : SC A) Q :
  (b = true -> calmly c1 Q) -> (b = false -> calmly c2 Q) -> calmly (if b then c1 else c2) Q.
Proof. destruct b; auto. Qed.

(** Computations that fail only by accessing memory. *)
Definition reads_mem {A} (c : res A) (Q : A -> Prop) : Prop :=
  match c with Ok a => Q a | Err f => allowed f end.

Lemma spec_bind {A B} (c : res A) (k : A -> res B) (Q : A -> Prop) R :
  reads_mem c Q -> (forall a, Q a -> reads_mem (k a) R) -> reads_mem (c ≫= k) R.
Proof. unfold mbind, res_bind. intros Hc Hk. destruct c; [by apply Hk|done]. Qed.

Lemma reads_mret {A} (a : A) (Q : A -> Prop) : Q a -> reads_mem (mret a) Q.
Proof. done. Qed.

Lemma reads_at {A} (P : A -> Prop) (l : list A) i : Forall P l -> reads_mem (at_ l i) P.
Proof.
  intros H. unfold at_, lookup_z. destruct (0 <=? i); [|by split].
  destruct (l !! Z.to_nat i) eqn:E; [|by split]. by eapply (Forall_lookup_1 P).
Qed.

Lemma reads_at_any {A} (l : list A) i : reads_mem (at_ l i) (λ _, True).
Proof. apply reads_at. by apply Forall_true. Qed.

Lemma reads_bytes buf p n : Forall byte buf -> reads_mem (bytes_at buf p n) (Forall byte).
Proof.
  intros H. unfold bytes_at. destruct ((p <? 0) || (zlen buf <? p + n)); [by split|].
  cbn. by apply Forall_take, Forall_drop.
Qed.

Lemma calmly_lift {A} (c : res A) Q : reads_mem c Q -> calmly (lift c) Q.
Proof.
  intros H w Hi _. unfold lift. destruct c; [|done]. split_and!; [done|apply calm_refl|done|done].
Qed.

Lemma calmly_fault {A} f (Q : A -> Prop) : allowed f -> calmly (io_fault f) Q.
Proof. by intros H w _ _. Qed.

Lemma calmly_get (Q : scan_state -> Prop) : (forall s, scan_inv s -> Q s) -> calmly get_state Q.
Proof. intros H w Hi _. split_and!; [done|apply calm_refl|done|by apply H]. Qed.

Lemma calmly_tick : calmly tick (λ _, True).
Proof. intros w Hi _. cbn. split_and!; [done|apply calm_refl|lia|done]. Qed.

(** A change of the state that is calm and keeps the invariant. *)
Lemma calmly_modify f : (forall s, scan_inv s -> scan_inv (f s) /\ calm s (f s)) -> calmly (modify f) (λ _, True).
Proof. intros H w Hi _. destruct (H _ Hi). split_and!; done. Qed.

(** ** Transponders and services *)

(** The invariant does not depend on the other variables. *)
Lemma inv_same s s' : scan_inv s ->
  st_running s' = st_running s -> st_waiting s' = st_waiting s -> st_n_running s' = st_n_running s ->
  st_poll_fds s' = st_poll_fds s -> st_poll_bufs s' = st_poll_bufs s -> st_bufs s' = st_bufs s ->
  Forall (λ t, ids_ok (tp_services t)) (st_transponders s') -> scan_inv s'.
Proof.
  destruct s, s'. cbn. intros [[] [] Hb Hs] -> -> -> -> -> -> Ht. constructor.
  - by constructor.
  - by constructor.
  - exact Hb.
  - exact Ht.
Qed.

Lemma calmly_ask op : calmly (scan_ask op) (λ _, True).
Proof.
  intros w Hi _. split_and!; [|constructor; try done; intros b v E; by exists v|cbn; lia|done].
  apply (inv_same (w_state w)); try done. apply Hi.
Qed.

Lemma calmly_ioctl e op : calmly (scan_ioctl e op) (λ _, True).
Proof. eapply calmly_bind; [apply calmly_ask|]. intros. by apply calmly_ret. Qed.

Lemma calmly_time e : calmly (time e) (λ _, True).
Proof. eapply calmly_bind; [apply calmly_tick|]. intros. by apply calmly_ret. Qed.

(** Only the transponders change. *)
Lemma transponders_change s l :
  scan_inv s -> Forall (λ t, ids_ok (tp_services t)) l ->
  served (set_st_transponders l s) = served s ->
  scan_inv (set_st_transponders l s) /\ calm s (set_st_transponders l s).
Proof.
  intros Hi Hl Es. split; [by apply (inv_same s)|]. constructor; try done. intros b v E. by exists v.
Qed.

Lemma put_tp_calm s t tp v :
  scan_inv s -> st_transponders s !! t = Some tp -> ids_ok (tp_services v) ->
  served_ids (tp_services v) = served_ids (tp_services tp) ->
  scan_inv (set_st_transponders (<[t := v]> (st_transponders s)) s) /\
  calm s (set_st_transponders (<[t := v]> (st_transponders s)) s).
Proof.
  intros Hi E Hv Es. apply transponders_change; [done| |].
  - apply Forall_insert; [apply Hi|done].
  - unfold served. cbn. destruct (st_current s) as [c|]; [|done].
    destruct (decide (c = t)) as [->|Hne].
    + rewrite list_lookup_insert_eq by (by eapply lookup_lt_Some). by rewrite E.
    + by rewrite list_lookup_insert_ne.
Qed.

Lemma deref_ok {A} (l : list A) i a : deref l i = Ok a -> l !! i = Some a.
Proof. unfold deref. destruct (l !! i); congruence. Qed.

Lemma deref_err {A} (l : list A) i f : deref l i = Err f -> allowed f.
Proof. unfold deref. destruct (l !! i); [done|]. intros [= <-]. by split. Qed.

Lemma get_tp_run t w : get_tp t w = match deref (st_transponders (w_state w)) t with Ok a => Ok (a, w) | Err f => Err f end.
Proof. reflexivity. Qed.

Lemma calmly_get_tp t : calmly (get_tp t) (λ tp, ids_ok (tp_services tp)).
Proof.
  intros w Hi _. rewrite get_tp_run. destruct (deref _ t) as [tp|f] eqn:E; [|by eapply deref_err].
  split_and!; [done|apply calm_refl|done|]. apply deref_ok in E.
  by apply (Forall_lookup_1 (λ t, ids_ok (tp_services t)) _ _ _ (si_services _ Hi) E).
Qed.

Lemma calmly_upd_tp t f :
  (forall tp, ids_ok (tp_services tp) -> ids_ok (tp_services (f tp)) /\
    served_ids (tp_services (f tp)) = served_ids (tp_services tp)) ->
  calmly (upd_tp t f) (λ _, True).
Proof.
  intros Hf w Hi _. unfold upd_tp, mbind, io_bind. rewrite get_tp_run.
  destruct (deref _ t) as [tp|err] eqn:E; [|by eapply deref_err]. apply deref_ok in E.
  destruct (Hf tp) as [Hid Hsv].
  { by apply (Forall_lookup_1 (λ t, ids_ok (tp_services t)) _ _ _ (si_services _ Hi) E). }
  cbn. destruct (put_tp_calm (w_state w) t tp (f tp)) as [H1 H2]; try done.
Qed.

(** A change of a service that leaves its number and its filter alone. *)
Definition plain_update (f : service -> service) : Prop :=
  forall v, sv_service_id (f v) = sv_service_id v /\ sv_priv (f v) = sv_priv v.

Lemma ids_update f (l : list service) (i : nat) s : plain_update f -> l !! i = Some s ->
  sv_service_id <$> <[i := f s]> l = sv_service_id <$> l.
Proof.
  intros Hf E. rewrite list_fmap_insert. apply list_insert_id. rewrite list_lookup_fmap, E. cbn. f_equal.
  symmetry. apply Hf.
Qed.

Lemma served_update f (l : list service) (i : nat) s : plain_update f -> l !! i = Some s ->
  served_ids (<[i := f s]> l) = served_ids l.
Proof.
  intros Hf. revert i. induction l as [|x l IH]; intros i E; [done|].
  destruct i as [|i]; cbn in E.
  - injection E as ->. change (<[0%nat := f s]> (s :: l)) with (f s :: l). unfold served_ids. destruct (Hf s) as [E1 E2].
    assert (E3 : has_filter (f s) = has_filter s) by (unfold has_filter; by rewrite E2).
    rewrite !filter_cons, E3. destruct (decide (has_filter s)); [by rewrite !fmap_cons, E1|done].
  - change (<[S i := f s]> (x :: l)) with (x :: <[i := f s]> l). unfold served_ids in *. rewrite !filter_cons. destruct (decide (has_filter x)); rewrite ?fmap_cons; by rewrite IH.
Qed.

Lemma ids_ok_ids (l l' : list service) : sv_service_id <$> l' = sv_service_id <$> l -> ids_ok l -> ids_ok l'.
Proof.
  intros E [Hn Hr]. split; [by rewrite E|].
  rewrite <- (Forall_fmap sv_service_id (λ i, 0 <= i < 65536)) in Hr |- *. by rewrite E.
Qed.

Lemma calmly_upd_sv p f : plain_update f -> calmly (upd_sv p f) (λ _, True).
Proof.
  intros Hf w Hi _. unfold upd_sv, mbind, io_bind. rewrite get_tp_run.
  destruct (deref _ p.1) as [tp|err] eqn:E; [|by eapply deref_err]. apply deref_ok in E. cbn.
  destruct (deref (tp_services tp) p.2) as [s|err] eqn:Es; [|by eapply deref_err]. apply deref_ok in Es. cbn.
  assert (Hid : ids_ok (tp_services tp)).
  { by apply (Forall_lookup_1 (λ t, ids_ok (tp_services t)) _ _ _ (si_services _ Hi) E). }
  destruct (put_tp_calm (w_state w) p.1 tp (set_tp_services (<[p.2 := f s]> (tp_services tp)) tp)) as [H1 H2]; try done.
  - cbn. eapply ids_ok_ids; [|done]. by apply ids_update.
  - cbn. by apply served_update.
Qed.

Lemma calmly_get_sv p : calmly (get_sv p) (λ v, 0 <= sv_service_id v < 65536).
Proof.
  eapply calmly_bind; [apply calmly_get_tp|]. intros tp Hid. apply calmly_lift.
  destruct (deref _ p.2) as [v|f] eqn:E; [|by eapply deref_err]. apply deref_ok in E. cbn.
  by apply (Forall_lookup_1 (λ s, 0 <= sv_service_id s < 65536) _ _ _ (proj2 Hid) E).
Qed.

Lemma service_index_none id (l : list service) : service_index id l = None -> id ∉ (sv_service_id <$> l).
Proof.
  induction l as [|s l IH]; cbn; [intros _; apply not_elem_of_nil|]. destruct (Z.eqb_spec (sv_service_id s) id) as [|Hne]; [done|].
  destruct (service_index id l); [done|]. rewrite elem_of_cons. intros _ [E|E]; [by symmetry in E|by apply IH].
Qed.

Lemma ids_ok_snoc (l : list service) v : ids_ok l -> sv_service_id v ∉ (sv_service_id <$> l) -> 0 <= sv_service_id v < 65536 ->
  ids_ok (l ++ [v]).
Proof.
  intros [Hn Hr] Hv Hb. split.
  - rewrite fmap_app. apply NoDup_app. split_and!; [done| |apply NoDup_singleton].
    intros x Hx. cbn. rewrite list_elem_of_singleton. by intros ->.
  - apply Forall_app. by split; [|constructor].
Qed.

Lemma calmly_find_or_alloc t id : 0 <= id < 65536 -> calmly (find_or_alloc_service t id) (λ p, p.1 = t).
Proof.
  intros Hid w Hi _. unfold find_or_alloc_service, find_service, mbind, io_bind. rewrite get_tp_run.
  destruct (deref _ t) as [tp|err] eqn:E; [|by eapply deref_err]. pose proof (deref_ok _ _ _ E) as E'. cbn.
  destruct (service_index id (tp_services tp)) as [i|] eqn:Ei.
  { cbn. split_and!; [done|apply calm_refl|done|done]. }
  cbn. unfold alloc_service, mbind, io_bind. rewrite get_tp_run, E. cbn.
  edestruct (put_tp_calm (w_state w) t tp) as [H1 H2]; [done|exact E'| | |split_and!; [exact H1|exact H2|done|done]].
  - cbn. apply ids_ok_snoc; [|by apply service_index_none|done].
    by apply (Forall_lookup_1 (λ t, ids_ok (tp_services t)) _ _ _ (si_services _ Hi) E').
  - cbn. unfold served_ids. rewrite filter_app. cbn. by rewrite app_nil_r.
Qed.

Lemma calmly_current_tp : calmly current_tp (λ _, True).
Proof.
  eapply calmly_bind; [by apply (calmly_get (λ _, True))|]. intros s _. destruct (st_current s).
  - by apply calmly_ret.
  - apply calmly_fault. by split.
Qed.

(** *** Bytes of a section *)

Lemma calmly_byte_at buf p : Forall byte buf -> calmly (byte_at buf p) byte.
Proof. intros H. apply calmly_lift. by apply reads_at. Qed.

Lemma calmly_word_at buf p mask : Forall byte buf -> 0 <= mask < 256 -> calmly (word_at buf p mask) (λ v, 0 <= v < 65536).
Proof.
  intros H Hm. eapply calmly_bind; [by apply calmly_byte_at|]. intros b0 H0.
  eapply calmly_bind; [by apply calmly_byte_at|]. intros b1 H1. apply calmly_ret.
  unfold byte in *. pose proof (land_nonneg_le b0 mask). rewrite Z.lor_comm, lor_add by lia. lia.
Qed.

(** ** Filters that are set up or changed *)

Lemma fd_of_core s l b : (b < length (st_bufs s))%nat ->
  (forall b v, st_bufs s !! b = Some v -> exists v', l !! b = Some v' /\ sb_core v' = sb_core v) ->
  fd_of (set_st_bufs l s) b = fd_of s b.
Proof.
  intros Hb Hl. unfold fd_of. cbn. destruct (lookup_lt_is_Some_2 _ _ Hb) as [v E]. rewrite E.
  destruct (Hl b v E) as (v' & E' & C). rewrite E'. unfold sb_core in C. congruence.
Qed.

(** Only the filters change, and none of those that run gets another descriptor. *)
Lemma inv_bufs s l :
  scan_inv s -> (length (st_bufs s) <= length l)%nat ->
  (forall b, b ∈ st_running s -> fd_of (set_st_bufs l s) b = fd_of s b) ->
  (forall b v, l !! b = Some v -> buf_ok (length l) b v) ->
  scan_inv (set_st_bufs l s).
Proof.
  intros [[Hn Hm Hd He Ho] [Hpb Hpf] Hb Hs] Hlen Hfd Hok.
  constructor; [constructor|constructor| |]; cbn; try done.
  - eapply Forall_impl; [exact He|]. cbn. intros. lia.
  - rewrite Forall_forall in Ho |- *. intros b Hin. rewrite Hfd by done. by apply Ho.
  - rewrite Hpf. f_equal. apply list_fmap_ext. intros i b E. symmetry. apply Hfd. by eapply list_elem_of_lookup_2.
Qed.

Lemma running_exist s b : lists_ok s -> b ∈ st_running s -> (b < length (st_bufs s))%nat.
Proof. intros [? ? ? He ?] Hin. rewrite Forall_forall in He. apply He, elem_of_app. by left. Qed.

(** Only the filters change, and none of what the lists depend on. *)
Lemma bufs_change s l :
  scan_inv s ->
  (forall b v, st_bufs s !! b = Some v -> exists v', l !! b = Some v' /\ sb_core v' = sb_core v) ->
  (forall b v, l !! b = Some v -> buf_ok (length l) b v) ->
  scan_inv (set_st_bufs l s) /\ calm s (set_st_bufs l s).
Proof.
  intros Hi Hcore Hok.
  assert (Hlen : (length (st_bufs s) <= length l)%nat).
  { destruct (le_lt_dec (length (st_bufs s)) (length l)) as [|Hlt]; [done|].
    destruct (lookup_lt_is_Some_2 _ _ Hlt) as [v E]. destruct (Hcore _ _ E) as (v' & E' & _).
    apply lookup_lt_Some in E'. lia. }
  split; [|by constructor]. apply inv_bufs; try done. intros b Hin. apply fd_of_core; [|done].
  apply running_exist; [apply Hi|done].
Qed.

Lemma buf_ok_mono n n' b v : (n <= n')%nat -> buf_ok n b v -> buf_ok n' b v.
Proof. intros Hn [? H]. split; [done|]. destruct (sb_next_seg v); [lia|done]. Qed.

(** A change of a filter that the lists do not depend on. *)
Definition plain_sb_update (f : section_buf -> section_buf) : Prop :=
  forall v, sb_core (f v) = sb_core v /\ sb_next_seg (f v) = sb_next_seg v /\
    (Forall byte (sb_buf v) -> Forall byte (sb_buf (f v))).

Lemma get_sb_run b w : get_sb b w = match deref (st_bufs (w_state w)) b with Ok a => Ok (a, w) | Err f => Err f end.
Proof. reflexivity. Qed.

Lemma insert_bufs s b v f : plain_sb_update f -> bufs_ok s -> st_bufs s !! b = Some v ->
  (forall b' v', st_bufs s !! b' = Some v' -> exists v'', <[b := f v]> (st_bufs s) !! b' = Some v'' /\ sb_core v'' = sb_core v') /\
  (forall b' v', <[b := f v]> (st_bufs s) !! b' = Some v' -> buf_ok (length (<[b := f v]> (st_bufs s))) b' v').
Proof.
  intros Hf Hb E. destruct (Hf v) as (Hc & Hn & Hby). split; intros b' v'.
  - intros E'. destruct (decide (b' = b)) as [->|Hne].
    + rewrite list_lookup_insert_eq by (by eapply lookup_lt_Some). exists (f v). split; [done|]. congruence.
    + rewrite list_lookup_insert_ne by done. by exists v'.
  - rewrite length_insert. destruct (decide (b' = b)) as [->|Hne].
    + rewrite list_lookup_insert_eq by (by eapply lookup_lt_Some). intros [= <-].
      destruct (Hb _ _ E) as [H1 H2]. split; [by apply Hby|by rewrite Hn].
    + rewrite list_lookup_insert_ne by done. apply Hb.
Qed.

Lemma calmly_upd_sb b f : plain_sb_update f -> calmly (upd_sb b f) (λ _, True).
Proof.
  intros Hf w Hi _. unfold upd_sb, mbind, io_bind. rewrite get_sb_run.
  destruct (deref _ b) as [v|err] eqn:E; [|by eapply deref_err]. apply deref_ok in E. cbn.
  destruct (insert_bufs _ _ _ _ Hf (si_bufs _ Hi) E) as [H1 H2].
  destruct (bufs_change (w_state w) _ Hi H1 H2) as [H3 H4]. by split_and!.
Qed.

Lemma calmly_get_sb b : calmly (get_sb b) (λ v, Forall byte (sb_buf v)).
Proof.
  intros w Hi _. rewrite get_sb_run. destruct (deref _ b) as [v|err] eqn:E; [|by eapply deref_err].
  split_and!; [done|apply calm_refl|done|]. apply deref_ok in E. by apply (si_bufs _ Hi b v E).
Qed.

(** A filter that is in no list. *)
Definition fresh (b : nat) (s : scan_state) : Prop :=
  (b < length (st_bufs s))%nat /\ b ∉ st_running s ++ st_waiting s.

Lemma snoc_bufs s v : bufs_ok s -> buf_ok (S (length (st_bufs s))) (length (st_bufs s)) v ->
  (forall b v', st_bufs s !! b = Some v' -> exists v'', (st_bufs s ++ [v]) !! b = Some v'' /\ sb_core v'' = sb_core v') /\
  (forall b v', (st_bufs s ++ [v]) !! b = Some v' -> buf_ok (length (st_bufs s ++ [v])) b v').
Proof.
  intros Hb Hv. split; intros b v' E.
  - exists v'. split; [|done]. by apply lookup_app_l_Some.
  - rewrite length_app. cbn. replace (length (st_bufs s) + 1)%nat with (S (length (st_bufs s))) by lia.
    apply lookup_app_Some in E as [E|[Hge E]].
    + eapply buf_ok_mono; [|by apply Hb]. lia.
    + apply list_lookup_singleton_Some in E as [Hk <-]. by replace b with (length (st_bufs s)) by lia.
Qed.

Lemma zero_bytes n : Forall byte (replicate n 0).
Proof. apply Forall_replicate. unfold byte. lia. Qed.

Lemma fine_setup o pid tid ext once seg timeout :
  fine (λ _, True) calm (setup_filter o pid tid ext once seg timeout) (λ b s, fresh b s).
Proof.
  intros w Hi _. cbn. set (v := setup_section_buf o pid tid ext once seg timeout).
  destruct (snoc_bufs (w_state w) v (si_bufs _ Hi)) as [H1 H2].
  { split; [apply zero_bytes|done]. }
  destruct (bufs_change (w_state w) _ Hi H1 H2) as [H3 H4]. split_and!; [done|done|done|].
  split; cbn.
  - rewrite length_app. cbn. lia.
  - intros Hin. pose proof (lo_exist _ (si_lists _ Hi)) as He. rewrite Forall_forall in He. specialize (He _ Hin). cbn in He. lia.
Qed.

(** ** Starting and stopping *)

(** The demultiplexer can be opened, and takes every filter. *)
Definition demux_works (e : scan_env) : Prop := (forall n, 0 <= sc_open e n) /\ (forall n, sc_ioctl e n <> -1).

(** Everything but the arrays for [poll]. *)
Definition before_update (s : scan_state) : Prop :=
  lists_ok s /\ bufs_ok s /\ services_ok s /\ length (st_poll_fds s) = 27%nat.

Lemma poll_length s : scan_inv s -> length (st_poll_fds s) = 27%nat.
Proof.
  intros [[] [_ Hf] _ _]. rewrite <- (length_fmap fst), Hf, length_app, length_fmap, length_replicate. lia.
Qed.

Lemma poll_entries_run w l : forall i, 0 <= i -> i + zlen l <= 27 ->
  Forall (λ b, (b < length (st_bufs (w_state w)))%nat /\ 0 <= fd_of (w_state w) b) l ->
  poll_entries i l w = Ok ((λ b, (fd_of (w_state w) b, 0)) <$> l, Some <$> l, w).
Proof.
  induction l as [|b l IH]; intros i Hi Hl Hall; [done|]. apply Forall_cons in Hall as [[Hb Hfd] Hall]. cbn [length] in Hl.
  cbn [poll_entries]. rewrite (proj2 (Z.leb_gt _ _)) by (unfold MAX_RUNNING; lia). unfold mbind at 1, io_bind at 1.
  rewrite get_sb_run. unfold deref. destruct (lookup_lt_is_Some_2 _ _ Hb) as [v E]. rewrite E.
  unfold fd_of in Hfd |- *. rewrite E in Hfd. rewrite (proj2 (Z.eqb_neq _ _)) by lia.
  unfold mbind, io_bind. rewrite IH by (try done; lia). cbn. by rewrite E.
Qed.

Lemma update_run w : before_update (w_state w) -> exists fds bufs,
  update_poll_fds w = Ok (tt, World (set_st_poll_fds fds (set_st_poll_bufs bufs (w_state w))) (w_tick w) (w_log w)) /\
  scan_inv (set_st_poll_fds fds (set_st_poll_bufs bufs (w_state w))).
Proof.
  intros ([Hn Hm Hd He Ho] & Hb & Hs & Hlen). unfold update_poll_fds.
  rewrite (io_bind_run _ _ _ (w_state w) w) by done.
  assert (Hall : Forall (λ b, (b < length (st_bufs (w_state w)))%nat /\ 0 <= fd_of (w_state w) b) (st_running (w_state w))).
  { apply Forall_forall. intros b Hin. split; [by apply running_exist|]. rewrite Forall_forall in Ho. by apply Ho. }
  rewrite (io_bind_run _ _ _ _ _ (poll_entries_run w (st_running (w_state w)) 0 ltac:(lia) ltac:(lia) Hall)).
  cbv zeta iota. rewrite length_fmap.
  eexists _, _. split.
  - unfold mbind, io_bind, modify. cbn [w_state w_tick w_log]. rewrite Hn, Z.eqb_refl. reflexivity.
  - constructor; [by constructor| |done|done]. constructor; cbn.
    + repeat f_equal.
    + rewrite fmap_app, <- !list_fmap_compose. f_equal.
      apply list_eq_same_length with (n := (27 - length (st_running (w_state w)))%nat).
      * by rewrite length_replicate.
      * rewrite length_fmap, length_drop. lia.
      * intros i x y Hlt Ex Ey. apply lookup_replicate in Ey as [-> _].
        rewrite list_lookup_fmap in Ex. destruct (_ !! i); [|done]. cbn in Ex. congruence.
Qed.

(** What an attempt to start a filter does: the other filters stay as they are, and the filter runs, or the lists
    stay too. *)
Record attempt (e : scan_env) (b : nat) (s : scan_state) (r : Z) (s' : scan_state) : Prop := {
  at_inv : scan_inv s';
  at_served : served s' = served s;
  at_length : length (st_bufs s') = length (st_bufs s);
  at_others : forall b', b' <> b -> st_bufs s' !! b' = st_bufs s !! b';
  at_once : sb_run_once <$> st_bufs s' !! b = sb_run_once <$> st_bufs s !! b;
  at_lists : if r =? 0 then st_running s' = b :: st_running s /\ st_waiting s' = list_del b (st_waiting s)
             else st_running s' = st_running s /\ st_waiting s' = st_waiting s;
  at_works : demux_works e -> r = 0 \/ length (st_running s) = 27%nat;
  at_tps : st_transponders s' = st_transponders s;
  at_cur : st_current s' = st_current s;
}.

Lemma list_del_notin b l : b ∉ l -> list_del b l = l.
Proof.
  intros H. unfold list_del. 
  induction l as [|x l IH]; [done|]. apply not_elem_of_cons in H as [Hne H].
  rewrite filter_cons. rewrite decide_True by done. by rewrite IH.
Qed.

Lemma elem_of_list_del b x l : x ∈ list_del b l <-> x <> b /\ x ∈ l.
Proof. unfold list_del. by rewrite list_elem_of_filter. Qed.

(** The filter of which only the descriptor, the time and the state change. *)
Definition refilled (v v' : section_buf) : Prop :=
  sb_buf v' = sb_buf v /\ sb_next_seg v' = sb_next_seg v /\ sb_run_once v' = sb_run_once v.

Lemma inv_refill s b v v' : scan_inv s -> st_bufs s !! b = Some v -> b ∉ st_running s -> refilled v v' ->
  scan_inv (set_st_bufs (<[b := v']> (st_bufs s)) s).
Proof.
  intros Hi E Hnot (H1 & H2 & _). apply inv_bufs; [done|by rewrite length_insert| |].
  - intros b' Hin. assert (b' <> b) by (by intros ->). unfold fd_of. cbn. by rewrite list_lookup_insert_ne.
  - rewrite length_insert. intros b' w E'. destruct (decide (b' = b)) as [->|Hne].
    + rewrite list_lookup_insert_eq in E' by (by eapply lookup_lt_Some). injection E' as <-.
      destruct (si_bufs _ Hi _ _ E) as [Ha Hb]. split; [by rewrite H1|by rewrite H2].
    + rewrite list_lookup_insert_ne in E' by done. by apply (si_bufs _ Hi).
Qed.

(** The lists with a filter more. *)
Lemma lists_start s b v v' : scan_inv s -> st_bufs s !! b = Some v -> b ∉ st_running s -> refilled v v' ->
  0 <= sb_fd v' -> (length (st_running s) < 27)%nat ->
  before_update (set_st_running (b :: list_del b (st_running s)) (set_st_waiting (list_del b (st_waiting s))
    (set_st_n_running (st_n_running s + 1) (set_st_bufs (<[b := v']> (st_bufs s)) s)))).
Proof.
  intros Hi E Hnot Hr Hfd Hlt. rewrite list_del_notin by done.
  pose proof (inv_refill s b v v' Hi E Hnot Hr) as [[Hn Hm Hd He Ho] _ Hb Hs]. cbn in *.
  split; [constructor; cbn|split; [exact Hb|split; [exact Hs|exact (poll_length s Hi)]]].
  - lia.
  - lia.
  - apply NoDup_cons. split.
    + rewrite elem_of_app, elem_of_list_del. by intros [?|[? ?]].
    + apply NoDup_app in Hd as (Hd1 & Hd2 & Hd3). apply NoDup_app. split_and!; [done| |by apply NoDup_filter].
      intros x Hx. rewrite elem_of_list_del. intros [_ ?]. by apply (Hd2 x).
  - rewrite length_insert in He |- *. constructor; [by eapply lookup_lt_Some|]. apply Forall_app in He as [He1 He2].
    apply Forall_app. split; [done|]. apply Forall_forall. intros x [_ Hx]%elem_of_list_del.
    rewrite Forall_forall in He2. by apply He2.
  - constructor; [|done]. unfold fd_of. cbn. by rewrite list_lookup_insert_eq by (by eapply lookup_lt_Some).
Qed.

Lemma upd_sb_run b f w v : st_bufs (w_state w) !! b = Some v ->
  upd_sb b f w = Ok (tt, World (set_st_bufs (<[b := f v]> (st_bufs (w_state w))) (w_state w)) (w_tick w) (w_log w)).
Proof. intros E. unfold upd_sb, mbind, io_bind. rewrite get_sb_run. unfold deref. rewrite E. reflexivity. Qed.

Lemma inv_ops s ops : scan_inv s -> scan_inv (set_st_ops ops s).
Proof. intros Hi. apply (inv_same s); try done. apply Hi. Qed.

Lemma start_filter_spec e b w :
  scan_inv (w_state w) -> (b < length (st_bufs (w_state w)))%nat -> b ∉ st_running (w_state w) ->
  exists r w', start_filter e b w = Ok (r, w') /\ (w_tick w <= w_tick w')%nat /\ attempt e b (w_state w) r (w_state w').
Proof.
  intros Hi Hb Hnot. destruct w as [s t lg]. cbn [w_state] in *. destruct (lookup_lt_is_Some_2 _ _ Hb) as [v E].
  pose proof (si_lists _ Hi) as [Hn Hm _ _ _].
  unfold start_filter. erewrite io_bind_run by reflexivity. cbn [w_state].
  destruct (Z.leb_spec MAX_RUNNING (st_n_running s)) as [Hmax|Hmax]; unfold MAX_RUNNING in Hmax.
  { eexists _, _. split; [reflexivity|]. split; [done|]. constructor; try done. right. lia. }
  erewrite io_bind_run by reflexivity. cbv zeta. cbn [w_state w_tick w_log].
  erewrite io_bind_run by (apply upd_sb_run; exact E). cbn [w_state w_tick w_log].
  set (v1 := set_sb_fd (sc_open e t) v).
  assert (Hlen : forall x, length (<[b:=x]> (st_bufs s)) = length (st_bufs s)) by (intros; apply length_insert).
  assert (Hoth : forall x b', b' <> b -> <[b:=x]> (st_bufs s) !! b' = st_bufs s !! b').
  { intros x b' Hne. by apply list_lookup_insert_ne. }
  assert (Hat : forall x, <[b:=x]> (st_bufs s) !! b = Some x) by (intros; by apply list_lookup_insert_eq).
  destruct (Z.ltb_spec (sc_open e t) 0) as [Hneg|Hpos].
  { eexists _, _. split; [reflexivity|]. split; [cbn; lia|]. constructor; cbn; try done; auto.
    - apply (inv_ops _ (st_ops s ++ [OpOpenDemux]) (inv_refill s b v v1 Hi E Hnot ltac:(done))).
    - by rewrite Hat, E.
    - intros [Hw _]. specialize (Hw t). lia. }
  erewrite io_bind_run by (unfold get_sb; erewrite io_bind_run by reflexivity; unfold lift, deref; cbn; rewrite Hat; reflexivity).
  destruct (filter_bytes _ _) as [f m].
  erewrite io_bind_run by reflexivity. cbn [w_state w_tick w_log].
  destruct (Z.eqb_spec (sc_ioctl e (S t)) (-1)) as [Hio|Hio].
  { erewrite io_bind_run by reflexivity. erewrite io_bind_run by reflexivity.
    eexists _, _. split; [reflexivity|]. split; [cbn; lia|]. cbn [w_state]. constructor; cbn; try done; auto.
    - eapply (inv_ops (set_st_bufs (<[b:=v1]> (st_bufs s)) s)). by apply (inv_refill s b v v1).
    - by rewrite Hat, E.
    - intros [_ Hw]. by specialize (Hw (S t)). }
  erewrite io_bind_run by reflexivity. cbn [w_state w_tick w_log].
  erewrite io_bind_run by (apply upd_sb_run; cbn; apply Hat). cbn [w_state w_tick w_log].
  set (v2 := set_sb_start_time _ _).
  erewrite io_bind_run by reflexivity. cbn [w_state w_tick w_log].
  edestruct update_run as (fds & bufs & Eu & Hiu); [|erewrite io_bind_run by exact Eu].
  { cbn [w_state]. pose proof (lists_start s b v v2 Hi E Hnot ltac:(done) Hpos ltac:(lia)) as (H1 & H2 & H3 & H4).
    cbn in *. rewrite list_insert_insert_eq. split; [constructor; apply H1|]. split; [exact H2|]. split; [exact H3|exact H4]. }
  eexists _, _. split; [reflexivity|]. split; [cbn; lia|]. cbn [w_state] in *.
  constructor; cbn; rewrite ?list_insert_insert_eq; try done; auto.
  - cbn in Hiu. by rewrite list_insert_insert_eq in Hiu.
  - by rewrite Hat, E.
  - split; [|done]. f_equal. by apply list_del_notin.
Qed.

(** ** How much there is to do

    The number of filters that may still be started: each service gets at most one.  Every filter that is added or
    removed makes it smaller. *)

Definition pot (s : scan_state) : nat :=
  2 * Z.to_nat (65536 - zlen (served s)) + length (st_running s) + length (st_waiting s).

(** Nothing was added or removed. *)
Record quiet (s s' : scan_state) : Prop := {
  qu_running : st_running s' = st_running s;
  qu_waiting : st_waiting s' = st_waiting s;
  qu_number : st_n_running s' = st_n_running s;
  qu_poll_fds : (st_poll_fds s').*1 = (st_poll_fds s).*1;
  qu_poll_bufs : st_poll_bufs s' = st_poll_bufs s;
  qu_bufs : forall b v, st_bufs s !! b = Some v -> exists v', st_bufs s' !! b = Some v' /\ sb_core v' = sb_core v;
  qu_pot : pot s' = pot s;
}.

(** As many filters run as can, and each is to be read once. *)
Definition full (s : scan_state) : Prop := st_waiting s <> [] -> length (st_running s) = 27%nat.

Definition once (s : scan_state) : Prop :=
  Forall (λ b, sb_run_once <$> st_bufs s !! b = Some true) (st_running s ++ st_waiting s).

Definition live (s : scan_state) : Prop := full s /\ once s.

(** The progress that a step of the scanner makes. *)
Record moves (e : scan_env) (s s' : scan_state) : Prop := {
  mv_live : demux_works e -> live s -> live s';
  mv_pot : (pot s' < pot s)%nat \/ quiet s s';
}.

(** A step that stops no filter. *)
Definition grows (e : scan_env) (s s' : scan_state) : Prop :=
  moves e s s' /\ forall b, b ∈ st_running s -> b ∈ st_running s'.

Lemma quiet_refl s : quiet s s.
Proof. constructor; try done. intros b v E. by exists v. Qed.

Lemma scan_quiet_trans s1 s2 s3 : quiet s1 s2 -> quiet s2 s3 -> quiet s1 s3.
Proof.
  intros [] []. constructor; try congruence.
  intros b v E. destruct (qu_bufs0 b v E) as (v' & E' & C). destruct (qu_bufs1 b v' E') as (v'' & E'' & C').
  exists v''. split; [done|congruence].
Qed.

Lemma moves_refl e s : moves e s s.
Proof. constructor; [done|]. right. apply quiet_refl. Qed.

Lemma moves_trans e s1 s2 s3 : moves e s1 s2 -> moves e s2 s3 -> moves e s1 s3.
Proof.
  intros [L1 P1] [L2 P2]. constructor; [auto|]. destruct P1 as [P1|Q1], P2 as [P2|Q2].
  - left. lia.
  - left. by rewrite (qu_pot _ _ Q2).
  - left. by rewrite <- (qu_pot _ _ Q1).
  - right. by eapply scan_quiet_trans.
Qed.

Lemma grows_refl e s : grows e s s.
Proof. split; [apply moves_refl|done]. Qed.

Lemma grows_trans e s1 s2 s3 : grows e s1 s2 -> grows e s2 s3 -> grows e s1 s3.
Proof. intros [M1 I1] [M2 I2]. split; [by eapply moves_trans|auto]. Qed.

Lemma calm_quiet s s' : calm s s' -> quiet s s'.
Proof. intros []. constructor; try done. unfold pot. by rewrite cm_running0, cm_waiting0, cm_served0. Qed.

Lemma once_core s s' : calm s s' -> once s -> once s'.
Proof.
  intros [] H. unfold once in *. rewrite cm_running0, cm_waiting0. eapply Forall_impl; [exact H|].
  cbn. intros b Hb. destruct (st_bufs s !! b) as [v|] eqn:E; [|done]. destruct (cm_bufs0 b v E) as (v' & -> & C).
  cbn in *. unfold sb_core in C. congruence.
Qed.

Lemma calm_grows e s s' : calm s s' -> grows e s s'.
Proof.
  intros Hc. split; [constructor|].
  - intros _ [Hf Ho]. split; [|by eapply once_core]. destruct Hc. unfold full in *. by rewrite cm_running0, cm_waiting0.
  - right. by apply calm_quiet.
  - intros b. by rewrite (cm_running _ _ Hc).
Qed.

(** *** Actions with progress *)

Definition progress {A} (e : scan_env) (c : SC A) : Prop := fine (λ _, True) (grows e) c (λ _ _, True).

Lemma progress_bind {A B} e (c : SC A) (k : A -> SC B) :
  progress e c -> (forall a, progress e (k a)) -> progress e (c ≫= k).
Proof. intros Hc Hk. eapply fine_bind; [apply grows_trans|exact Hc|]. intros a. apply Hk. Qed.

Lemma progress_calm {A B} e (c : SC A) (k : A -> SC B) Q :
  calmly c Q -> (forall a, Q a -> progress e (k a)) -> progress e (c ≫= k).
Proof.
  intros Hc Hk. eapply (fine_bind _ calm (grows e)).
  - intros s1 s2 s3 H1 H2. eapply grows_trans; [|exact H2]. by apply calm_grows.
  - exact Hc.
  - intros a w Hi Ha. by apply Hk.
Qed.

Lemma calmly_progress {A} e (c : SC A) Q : calmly c Q -> progress e c.
Proof. intros H. eapply fine_mono; [exact H|done| |done]. apply calm_grows. Qed.

(** ** Adding and removing *)

(** The filter waits at the end of the list. *)
Lemma inv_wait s b : scan_inv s -> fresh b s -> scan_inv (set_st_waiting (st_waiting s ++ [b]) s).
Proof.
  intros [[Hn Hm Hd He Ho] [Hpb Hpf] Hb Hs] [Hlt Hnot].
  constructor; [constructor; cbn; try done|by constructor|exact Hb|exact Hs].
  - rewrite app_assoc. apply NoDup_app. split_and!; [done| |apply NoDup_singleton].
    intros x Hx. rewrite list_elem_of_singleton. by intros ->.
  - rewrite app_assoc. apply Forall_app. split; [done|]. by constructor.
Qed.

Lemma attempt_once e b s r s' : attempt e b s r s' -> (b < length (st_bufs s))%nat ->
  forall b', sb_run_once <$> st_bufs s' !! b' = sb_run_once <$> st_bufs s !! b'.
Proof. intros [] Hb b'. destruct (decide (b' = b)) as [->|Hne]; [done|]. by rewrite at_others0. Qed.

(** What adding a filter does. *)
Record added (e : scan_env) (b : nat) (s s' : scan_state) : Prop := {
  ad_inv : scan_inv s';
  ad_served : served s' = served s;
  ad_running : forall b', b' ∈ st_running s -> b' ∈ st_running s';
  ad_number : (length (st_running s') + length (st_waiting s') = S (length (st_running s) + length (st_waiting s)))%nat;
  ad_live : demux_works e -> sb_run_once <$> st_bufs s !! b = Some true -> live s -> live s';
  ad_tps : st_transponders s' = st_transponders s;
  ad_cur : st_current s' = st_current s;
}.

Lemma add_filter_spec e b w : scan_inv (w_state w) -> fresh b (w_state w) ->
  exists w', add_filter e b w = Ok (tt, w') /\ (w_tick w <= w_tick w')%nat /\ added e b (w_state w) (w_state w').
Proof.
  intros Hi Hfr. pose proof Hfr as [Hlt Hnot]. rewrite elem_of_app in Hnot.
  destruct (start_filter_spec e b w) as (r & w1 & E & Ht & Ha); [done|done|tauto|].
  pose proof (attempt_once _ _ _ _ _ Ha Hlt) as Honce. destruct Ha as [Hi1 Hsv Hlen _ _ Hl Hw Htp Hcur].
  unfold add_filter. rewrite (io_bind_run _ _ _ _ _ E). destruct (Z.eqb_spec r 0) as [->|Hr]; cbn [negb].
  - destruct Hl as [Hrun Hwait]. rewrite list_del_notin in Hwait by tauto.
    exists w1. split; [reflexivity|]. split; [done|]. constructor; try done.
    + intros b'. rewrite Hrun, elem_of_cons. tauto.
    + by rewrite Hrun, Hwait.
    + intros _ Hone [Hf Ho]. split.
      * unfold full. rewrite Hwait. intros H. specialize (Hf H). pose proof (lo_max _ (si_lists _ Hi1)).
        rewrite Hrun in *. cbn in *. lia.
      * unfold once in *. rewrite Hrun, Hwait. cbn. constructor; [by rewrite Honce|].
        eapply Forall_impl; [exact Ho|]. cbn. intros x. by rewrite Honce.
  - destruct Hl as [Hrun Hwait]. eexists. split; [reflexivity|]. split; [done|]. cbn. constructor; cbn; try done.
    + apply inv_wait; [done|]. split; [lia|]. rewrite Hrun, Hwait, elem_of_app. done.
    + intros b'. by rewrite Hrun.
    + rewrite Hrun, Hwait, length_app. cbn. lia.
    + intros Hd Hone [Hf Ho]. destruct (Hw Hd) as [|H27]; [done|]. split.
      * unfold full. cbn. by rewrite Hrun.
      * unfold once in *. cbn. rewrite Hrun, Hwait, app_assoc. apply Forall_app. split.
        { eapply Forall_impl; [exact Ho|]. cbn. intros x. by rewrite Honce. }
        { constructor; [by rewrite Honce|done]. }
Qed.

(** [while (!list_empty(&waiting_filters))] *)
Lemma start_waiting_spec e : forall fuel w, scan_inv (w_state w) -> (length (st_waiting (w_state w)) < fuel)%nat ->
  exists w', start_waiting e fuel w = Ok (tt, w') /\ (w_tick w <= w_tick w')%nat /\ scan_inv (w_state w') /\
    served (w_state w') = served (w_state w) /\
    (length (st_running (w_state w')) + length (st_waiting (w_state w')) =
     length (st_running (w_state w)) + length (st_waiting (w_state w)))%nat /\
    (demux_works e -> once (w_state w) -> live (w_state w')).
Proof.
  induction fuel as [|fuel IH]; intros w Hi Hf; [lia|]. cbn [start_waiting].
  erewrite io_bind_run by reflexivity. destruct (st_waiting (w_state w)) as [|b rest] eqn:Ew.
  { eexists. split; [reflexivity|]. rewrite Ew. split_and!; try done. intros _ Ho. split; [by unfold full; rewrite Ew|done]. }
  pose proof (lo_exist _ (si_lists _ Hi)) as He. pose proof (lo_nodup _ (si_lists _ Hi)) as Hd. rewrite Ew in He, Hd.
  apply Forall_app in He as [_ [Hlt _]%Forall_cons]. apply NoDup_app in Hd as (_ & Hd2 & [Hd3 _]%NoDup_cons).
  destruct (start_filter_spec e b w) as (r & w1 & E & Ht & Ha); [done|done| |].
  { intros Hin. apply (Hd2 b Hin), elem_of_cons. by left. }
  pose proof (attempt_once _ _ _ _ _ Ha Hlt) as Honce. destruct Ha as [Hi1 Hsv Hlen _ _ Hl Hw Htp Hcur].
  rewrite (io_bind_run _ _ _ _ _ E). destruct (Z.eqb_spec r 0) as [->|Hr]; cbn [negb].
  - destruct Hl as [Hrun Hwait]. rewrite Ew in Hwait. unfold list_del in Hwait. rewrite filter_cons, decide_False in Hwait by auto.
    fold (list_del b rest) in Hwait. rewrite list_del_notin in Hwait by done.
    destruct (IH w1) as (w2 & E2 & Ht2 & Hi2 & Hs2 & Hn2 & Hl2); [done|rewrite Hwait; cbn in Hf; lia|].
    exists w2. split; [done|]. split_and!; [lia|done|by rewrite Hs2| |].
    + rewrite Hn2, Hrun, Hwait. cbn. lia.
    + intros Hworks Ho. apply Hl2; [done|]. unfold once in *. rewrite Hrun, Hwait. rewrite Ew in Ho.
      apply Forall_app in Ho as [Ho1 [Ho2 Ho3]%Forall_cons].
      assert (G : Forall (λ x, sb_run_once <$> st_bufs (w_state w) !! x = Some true) ((b :: st_running (w_state w)) ++ rest)).
      { cbn. constructor; [done|]. apply Forall_app. by split. }
      eapply Forall_impl; [exact G|]. cbn. intros x. by rewrite Honce.
  - destruct Hl as [Hrun Hwait]. exists w1. split; [reflexivity|]. rewrite Hrun, Hwait, Ew. split_and!; try done.
    intros Hworks Ho. destruct (Hw Hworks) as [|H27]; [done|]. split; [unfold full; by rewrite Hrun|].
    unfold once in *. rewrite Hrun, Hwait. eapply Forall_impl; [exact Ho|]. cbn. intros x. by rewrite Honce.
Qed.

Lemma length_list_del b l : NoDup l -> b ∈ l -> length l = S (length (list_del b l)).
Proof.
  induction l as [|x l IH]; intros Hn Hin; [by apply not_elem_of_nil in Hin|].
  apply NoDup_cons in Hn as [Hx Hn]. unfold list_del in *. rewrite filter_cons. apply elem_of_cons in Hin as [->|Hin].
  - rewrite decide_False by auto. fold (list_del x l). by rewrite list_del_notin.
  - assert (x <> b) by (by intros ->). rewrite decide_True by done. cbn. by rewrite IH.
Qed.

(** The state that [stop_filter] comes to before the arrays are built again. *)
Lemma lists_stop s b l : scan_inv s -> b ∈ st_running s -> length l = length (st_bufs s) ->
  (forall b' v, l !! b' = Some v -> buf_ok (length l) b' v) ->
  (forall b', b' <> b -> l !! b' = st_bufs s !! b') ->
  before_update (set_st_n_running (st_n_running s - 1) (set_st_running (list_del b (st_running s))
    (set_st_waiting (list_del b (st_waiting s)) (set_st_bufs l s)))).
Proof.
  intros Hi Hin Hlen Hok Hoth. pose proof Hi as [[Hn Hm Hd He Ho] _ Hb Hs].
  apply NoDup_app in Hd as (Hd1 & Hd2 & Hd3). pose proof (length_list_del _ _ Hd1 Hin) as Hl.
  split; [constructor; cbn|split; [exact Hok|split; [exact Hs|exact (poll_length s Hi)]]].
  - lia.
  - lia.
  - apply NoDup_app. split_and!; [by apply NoDup_filter| |by apply NoDup_filter].
    intros x Hx%elem_of_list_del Hx'%elem_of_list_del. specialize (Hd2 x). tauto.
  - rewrite Hlen. apply Forall_forall. intros x Hx. rewrite Forall_forall in He. apply He, elem_of_app.
    apply elem_of_app in Hx as [Hx%elem_of_list_del|Hx%elem_of_list_del]; tauto.
  - apply Forall_forall. intros x [Hne Hx]%elem_of_list_del. rewrite Forall_forall in Ho. specialize (Ho x Hx).
    unfold fd_of in *. cbn. by rewrite Hoth.
Qed.

Lemma stop_filter_spec e b w : scan_inv (w_state w) -> b ∈ st_running (w_state w) ->
  exists w', stop_filter e b w = Ok (tt, w') /\ (w_tick w <= w_tick w')%nat /\ scan_inv (w_state w') /\
    served (w_state w') = served (w_state w) /\
    st_running (w_state w') = list_del b (st_running (w_state w)) /\
    st_waiting (w_state w') = st_waiting (w_state w) /\
    forall b', b' <> b -> st_bufs (w_state w') !! b' = st_bufs (w_state w) !! b'.
Proof.
  intros Hi Hin. destruct w as [s t lg]. cbn [w_state w_tick] in *.
  pose proof (running_exist s b (si_lists _ Hi) Hin) as Hlt. destruct (lookup_lt_is_Some_2 _ _ Hlt) as [v E].
  assert (Hat : forall x, <[b:=x]> (st_bufs s) !! b = Some x) by (intros; by apply list_lookup_insert_eq).
  unfold stop_filter.
  erewrite io_bind_run by (rewrite get_sb_run; unfold deref; cbn; rewrite E; reflexivity).
  erewrite io_bind_run by reflexivity. erewrite io_bind_run by reflexivity. cbn [w_state w_tick w_log].
  erewrite io_bind_run by (apply upd_sb_run; exact E). cbn [w_state w_tick w_log].
  erewrite io_bind_run by reflexivity. erewrite io_bind_run by reflexivity. cbn [w_state w_tick w_log].
  erewrite io_bind_run by (apply upd_sb_run; apply Hat). cbn [w_state w_tick w_log].
  erewrite io_bind_run by reflexivity. cbn [w_state w_tick w_log].
  set (v2 := set_sb_running_time _ _).
  assert (Hw : list_del b (st_waiting s) = st_waiting s).
  { apply list_del_notin. pose proof (lo_nodup _ (si_lists _ Hi)) as (_ & Hd & _)%NoDup_app. by apply Hd. }
  edestruct update_run as (fds & bufs & Eu & Hiu); [|rewrite Eu].
  { cbn [w_state]. pose proof (lists_stop s b (<[b:=v2]> (st_bufs s)) Hi Hin) as H.
    destruct H as (H1 & H2 & H3 & H4).
    - by rewrite length_insert.
    - rewrite length_insert. intros b' x. destruct (decide (b' = b)) as [->|Hne].
      + rewrite Hat. intros [= <-]. destruct (si_bufs _ Hi b v E) as [Ha Hb]. by split.
      + rewrite list_lookup_insert_ne by done. apply (si_bufs _ Hi).
    - intros b' Hne. by rewrite list_lookup_insert_ne.
    - cbn in *. rewrite list_insert_insert_eq. split; [constructor; apply H1|]. split; [exact H2|]. split; [exact H3|exact H4]. }
  eexists. split; [reflexivity|]. cbn [w_state w_tick] in *. split; [lia|]. split; [exact Hiu|].
  split_and!; cbn; try done. intros b' Hne. rewrite list_insert_insert_eq. by rewrite list_lookup_insert_ne.
Qed.

(** Removing a filter makes progress. *)
Lemma remove_filter_spec e b w : scan_inv (w_state w) -> b ∈ st_running (w_state w) ->
  exists w', remove_filter e b w = Ok (tt, w') /\ (w_tick w <= w_tick w')%nat /\ scan_inv (w_state w') /\
    (pot (w_state w') < pot (w_state w))%nat /\
    (demux_works e -> live (w_state w) -> live (w_state w')).
Proof.
  intros Hi Hin. destruct (stop_filter_spec e b w Hi Hin) as (w1 & E1 & Ht1 & Hi1 & Hs1 & Hr1 & Hw1 & Ho1).
  destruct (start_waiting_spec e (S (length (st_waiting (w_state w1)))) w1 Hi1) as (w2 & E2 & Ht2 & Hi2 & Hs2 & Hn2 & Hl2); [lia|].
  exists w2. unfold remove_filter. rewrite (io_bind_run _ _ _ _ _ E1). erewrite io_bind_run by reflexivity.
  split; [done|]. split; [lia|]. split; [done|].
  pose proof (lo_nodup _ (si_lists _ Hi)) as Hd. apply NoDup_app in Hd as (Hd1 & Hd2 & _).
  pose proof (length_list_del _ _ Hd1 Hin) as Hl. split.
  - unfold pot. rewrite Hs2, Hs1. rewrite Hr1, Hw1 in Hn2. lia.
  - intros Hworks [_ Ho]. apply Hl2; [done|]. unfold once in *. rewrite Hr1, Hw1. apply Forall_forall. intros x Hx.
    rewrite Forall_forall in Ho. rewrite Ho1.
    + apply Ho, elem_of_app. apply elem_of_app in Hx as [Hx%elem_of_list_del|Hx]; tauto.
    + intros ->. apply elem_of_app in Hx as [Hx%elem_of_list_del|Hx]; [tauto|]. by apply (Hd2 b).
Qed.
