(* ===== verification/ScanReadCorrect.v ===== *)
(** * Reading a transponder: the scanner does not exit, and it ends

    Every function that reads a section leaves the lists of filters alone, but for the PAT, which adds filters.
    So the checks of the program on its lists never fail, and when the demultiplexer works and time passes, all
    filters end: by then each service had at most one. *)

From S2P Require Export ScanFilterCorrect.
Import stdpp.list_relations.list stdpp.list_basics.list.
#[local] Open Scope Z_scope.

(** ** The tables leave the filters alone *)

Create HintDb calm.
#[export] Hint Resolve calmly_ask calmly_ioctl calmly_time calmly_get_tp calmly_get_sv calmly_get_sb calmly_current_tp
  calmly_tick reads_at_any : calm.

(** Steps through an action that leaves the filters alone. *)
Ltac calm_fact :=
  first
  [ solve [eauto with calm]
  | apply calmly_byte_at; solve [auto with calm]
  | apply calmly_word_at; [solve [auto with calm]|lia] ].

Ltac calm_leaf :=
  first
  [ calm_fact
  | eapply calmly_mono; [calm_fact|done]
  | apply calmly_upd_sv; intros ?; split; repeat (done || case_match)
  | apply calmly_fault; by split
  | apply calmly_ret; done ].

Ltac calm_go :=
  lazymatch goal with
  | |- calmly (if ?b then _ else _) _ => destruct b; calm_go
  | |- calmly (_ ≫= _) _ =>
      first
      [ eapply calmly_bind; [calm_fact|]; cbv beta; intros ? ?; calm_go
      | eapply (calmly_bind _ _ (λ _, True)); [solve [calm_go]|]; cbv beta; intros ? ?; calm_go ]
  | |- calmly (match ?x with _ => _ end) _ => destruct x; calm_go
  | _ => cbv zeta; calm_leaf
  end.

Lemma reads_charset d src len : reads_mem (text_charset d src len) (λ _, True).
Proof.
  unfold text_charset. eapply spec_bind; [apply reads_at_any|]. intros c _.
  destruct (0x20 <=? c); [done|]. destruct (c =? 0x10); [|done].
  eapply spec_bind; [apply reads_at_any|]. intros c1 _. destruct (negb (c1 =? 0)); [done|].
  eapply spec_bind; [apply reads_at_any|]. intros c2 _. by destruct (0x0f <? c2).
Qed.

Lemma reads_bytes_any (buf : mem) p n : reads_mem (bytes_at buf p n) (λ _, True).
Proof. unfold bytes_at. destruct (_ || _); by split. Qed.

Lemma reads_latin s : reads_mem (latin_00 s) (λ _, True).
Proof.
  induction s as [|c s IH]; [done|]. cbn [latin_00]. eapply spec_bind; [apply reads_at_any|]. intros x _.
  eapply spec_bind; [exact IH|]. done.
Qed.

Lemma reads_convert oc iconv type s len dl : reads_mem (convert oc iconv type s len dl) (λ _, True).
Proof.
  unfold convert. eapply spec_bind; [apply reads_bytes_any|]. intros text _. by destruct (iconv _ _).
Qed.

Lemma reads_descriptorcpy dc oc junk iconv src len : reads_mem (descriptorcpy dc oc junk iconv src len) (λ _, True).
Proof.
  unfold descriptorcpy. destruct (len =? 0); [done|].
  eapply spec_bind; [apply reads_charset|].
  intros [[type src'] len'] _. cbv zeta.
  eapply (spec_bind _ _ (λ _, True)).
  { destruct (_ || _); [|done]. unfold without_control. by eapply spec_bind; [apply reads_bytes_any|]. }
  intros s _. destruct (strcasecmp_eq type _).
  - eapply spec_bind; [apply reads_bytes_any|]. intros text _. eapply spec_bind; [apply reads_latin|]. intros dest _.
    destruct (strcasecmp_eq oc _); [done|]. eapply spec_bind; [apply reads_convert|]. done.
  - eapply spec_bind; [apply reads_convert|]. done.
Qed.

Lemma calmly_bytes buf p n : Forall byte buf -> calmly (lift (bytes_at buf p n)) (Forall byte).
Proof. intros H. apply calmly_lift. by apply reads_bytes. Qed.
#[export] Hint Resolve calmly_bytes : calm.

Lemma calmly_at {A} (l : list A) i : calmly (lift (at_ l i)) (λ _, True).
Proof. apply calmly_lift, reads_at_any. Qed.
#[export] Hint Resolve calmly_at : calm.

Section Tables.
Context (o : scan_options) (e : scan_env) (iconv : list Z -> list Z -> option (list Z -> list Z)).

Lemma calmly_copy buf p len : calmly (copy_text o e iconv buf p len) (λ _, True).
Proof. apply calmly_lift, reads_descriptorcpy. Qed.
Hint Resolve calmly_copy : calm.

Lemma calmly_iso639 buf p s : Forall byte buf -> calmly (parse_iso639_language_descriptor buf p s) (λ _, True).
Proof. intros H. unfold parse_iso639_language_descriptor. calm_go. Qed.

Lemma calmly_ca buf p s : Forall byte buf -> calmly (parse_ca_identifier_descriptor buf p s) (λ _, True).
Proof. intros H. unfold parse_ca_identifier_descriptor. calm_go. Qed.

Lemma calmly_service_descriptor buf p s : Forall byte buf -> calmly (parse_service_descriptor o e iconv buf p s) (λ _, True).
Proof. intros H. unfold parse_service_descriptor. calm_go. Qed.
Hint Resolve calmly_iso639 calmly_ca calmly_service_descriptor : calm.

Lemma served_map f l : plain_update f -> served_ids (f <$> l) = served_ids l /\ sv_service_id <$> (f <$> l) = sv_service_id <$> l.
Proof.
  intros Hf. induction l as [|s l [IH1 IH2]]; [done|]. destruct (Hf s) as [E1 E2]. split.
  - unfold served_ids in *. rewrite fmap_cons, !filter_cons.
    assert (E3 : has_filter (f s) = has_filter s) by (unfold has_filter; by rewrite E2). rewrite E3.
    destruct (decide (has_filter s)); rewrite ?fmap_cons, ?E1; by rewrite IH1.
  - rewrite !fmap_cons, E1. by rewrite IH2.
Qed.

Lemma calmly_number l id n : calmly (number_services l id n) (λ _, True).
Proof.
  induction l as [|t l IH]; cbn [number_services]; [calm_go|]. eapply calmly_bind; [|done].
  apply calmly_upd_tp. intros tp Hid.
  destruct (served_map (λ s, if sv_service_id s =? id then set_sv_channel_num n s else s) (tp_services tp)) as [E1 E2].
  { intros s. by destruct (sv_service_id s =? id). }
  cbn. split; [by eapply ids_ok_ids|done].
Qed.
Hint Resolve calmly_number : calm.

Lemma calmly_state : calmly get_state (λ _, True).
Proof. by apply calmly_get. Qed.
Hint Resolve calmly_state : calm.

Lemma calmly_uk n buf p : Forall byte buf -> calmly (uk_channel_numbers n buf p) (λ _, True).
Proof. intros H. revert p. induction n as [|n IH]; intros p; cbn [uk_channel_numbers]; calm_go. Qed.

Lemma calmly_bcd buf p mask : Forall byte buf -> calmly (bcd_at buf p mask) (λ _, True).
Proof. intros H. unfold bcd_at. calm_go. Qed.
Hint Resolve calmly_uk calmly_bcd : calm.

Lemma calmly_cable buf p t : Forall byte buf -> calmly (parse_cable_delivery_system_descriptor o buf p t) (λ r, is_Some t -> is_Some r).
Proof. intros H. unfold parse_cable_delivery_system_descriptor. calm_go. Qed.

Lemma calmly_satellite buf p t : Forall byte buf -> calmly (parse_satellite_delivery_system_descriptor o buf p t) (λ r, is_Some t -> is_Some r).
Proof. intros H. unfold parse_satellite_delivery_system_descriptor. calm_go. Qed.

Lemma calmly_code_rate v : calmly (lift (code_rate v)) (λ _, True).
Proof. apply calmly_lift. unfold code_rate. destruct (4 <? v); [done|apply reads_at_any]. Qed.
Hint Resolve calmly_code_rate : calm.

Lemma calmly_terrestrial buf p t : Forall byte buf ->
  calmly (parse_terrestrial_delivery_system_descriptor o buf p t) (λ r, is_Some t -> is_Some r).
Proof. intros H. unfold parse_terrestrial_delivery_system_descriptor. calm_go. Qed.

Lemma calmly_frequencies n buf p : Forall byte buf -> calmly (frequency_list n buf p) (λ _, True).
Proof. intros H. revert p. induction n as [|n IH]; intros p; cbn [frequency_list]; calm_go. Qed.
Hint Resolve calmly_frequencies : calm.

Lemma calmly_frequency_list buf p t : Forall byte buf -> calmly (parse_frequency_list_descriptor buf p t) (λ r, is_Some t -> is_Some r).
Proof. intros H. unfold parse_frequency_list_descriptor. calm_go. Qed.
Hint Resolve calmly_cable calmly_satellite calmly_terrestrial calmly_frequency_list : calm.

Lemma calmly_name buf p : Forall byte buf -> calmly (parse_network_name_descriptor buf p) (λ _, True).
Proof. intros H. unfold parse_network_name_descriptor. calm_go. Qed.

Lemma calmly_uk_numbers buf p : Forall byte buf -> calmly (parse_terrestrial_uk_channel_number buf p) (λ _, True).
Proof. intros H. unfold parse_terrestrial_uk_channel_number. calm_go. Qed.
Hint Resolve calmly_name calmly_uk_numbers : calm.

Lemma calmly_with_service data f : (forall s, calmly (f s) (λ _, True)) -> calmly (with_service data f) (λ _, True).
Proof. intros H. unfold with_service, service_data. destruct data; calm_go. Qed.

Lemma calmly_with_transponder data f : (forall t, calmly (f t) (λ _, True)) -> calmly (with_transponder data f) (λ _, True).
Proof. intros H. unfold with_transponder, transponder_data. destruct data; calm_go. Qed.

Lemma calmly_descriptor t tag buf p data : Forall byte buf -> calmly (parse_descriptor o e iconv t tag buf p data) (λ _, True).
Proof.
  intros H. unfold parse_descriptor.
  repeat case_match; first
    [ by apply calmly_ret
    | apply calmly_with_service; intros; calm_leaf
    | apply calmly_with_transponder; intros; calm_leaf
    | calm_go ].
Qed.
Hint Resolve calmly_descriptor : calm.

Lemma descriptor_length len : byte len -> u8 (len + 2) <> 0 -> 1 <= u8 (len + 2).
Proof. intros H Hne. unfold u8 in *. pose proof (Z.mod_pos_bound (len + 2) 256). lia. Qed.

Lemma calmly_descriptors_loop t buf : Forall byte buf -> forall fuel p len data, (Z.to_nat len < fuel)%nat ->
  calmly (parse_descriptors_loop o e iconv fuel t buf p len data) (λ _, True).
Proof.
  intros H. induction fuel as [|fuel IH]; intros p len data Hf; [lia|]. cbn [parse_descriptors_loop].
  destruct (Z.ltb_spec 0 len) as [Hlen|Hlen]; [|calm_go].
  eapply calmly_bind; [by apply calmly_byte_at|]. intros tag _. eapply calmly_bind; [by apply calmly_byte_at|]. intros l Hl.
  cbv zeta. destruct (Z.eqb_spec (u8 (l + 2)) 0) as [|Hne]; [calm_go|]. pose proof (descriptor_length l Hl Hne).
  eapply calmly_bind; [by apply calmly_descriptor|]. intros data' _. apply IH. lia.
Qed.

Lemma calmly_descriptors t buf p len data : Forall byte buf -> calmly (parse_descriptors o e iconv t buf p len data) (λ _, True).
Proof. intros H. by apply calmly_descriptors_loop; [|lia]. Qed.
Hint Resolve calmly_descriptors : calm.

Lemma calmly_find_descriptor tag buf : Forall byte buf -> forall fuel p len, (Z.to_nat len < fuel)%nat ->
  calmly (find_descriptor fuel tag buf p len) (λ _, True).
Proof.
  intros H. induction fuel as [|fuel IH]; intros p len Hf; [lia|]. cbn [find_descriptor].
  destruct (Z.ltb_spec 0 len) as [Hlen|Hlen]; [|calm_go].
  eapply calmly_bind; [by apply calmly_byte_at|]. intros t _. eapply calmly_bind; [by apply calmly_byte_at|]. intros l Hl.
  cbv zeta. destruct (Z.eqb_spec (u8 (l + 2)) 0) as [|Hne]; [calm_go|]. pose proof (descriptor_length l Hl Hne).
  destruct (tag =? t); [calm_go|]. apply IH. lia.
Qed.

(** ** PMT *)

Lemma calmly_audio buf p len pid s : Forall byte buf -> calmly (parse_audio o e iconv buf p len pid s) (λ _, True).
Proof. intros H. unfold parse_audio. calm_go. Qed.

Lemma calmly_private buf p len pid s : Forall byte buf -> calmly (parse_private buf p len pid s) (λ _, True).
Proof.
  intros H. unfold parse_private.
  assert (Hf : forall tag, calmly (find_descriptor (S (Z.to_nat len)) tag buf (p + 5) len) (λ _, True)).
  { intros tag. apply calmly_find_descriptor; [done|lia]. }
  calm_go.
Qed.
Hint Resolve calmly_audio calmly_private : calm.

Lemma calmly_stream type buf p len pid s : Forall byte buf -> calmly (parse_stream o e iconv type buf p len pid s) (λ _, True).
Proof. intros H. unfold parse_stream. repeat case_match; calm_leaf. Qed.
Hint Resolve calmly_stream : calm.

Lemma calmly_streams buf s : Forall byte buf -> forall fuel p len, (Z.to_nat len < fuel)%nat ->
  calmly (parse_streams o e iconv fuel buf p len s) (λ _, True).
Proof.
  intros H. induction fuel as [|fuel IH]; intros p len Hf; [lia|]. cbn [parse_streams].
  destruct (Z.leb_spec 5 len) as [Hlen|Hlen]; [|calm_go].
  eapply calmly_bind; [by apply calmly_word_at; [|lia]|]. cbv beta. intros es Hes.
  eapply calmly_bind; [by apply calmly_word_at; [|lia]|]. intros pid _.
  eapply calmly_bind; [by apply calmly_byte_at|]. intros type _.
  eapply calmly_bind; [by apply calmly_stream|]. intros _ _. apply IH. lia.
Qed.

Lemma calmly_message s : calmly (write_audio_message s) (λ _, True).
Proof. unfold write_audio_message. calm_go. Qed.
Hint Resolve calmly_message : calm.

Lemma calmly_find_service t id : calmly (find_service t id) (λ _, True).
Proof. unfold find_service. calm_go. Qed.
Hint Resolve calmly_find_service : calm.

Lemma calmly_pmt buf p len id : Forall byte buf -> calmly (parse_pmt o e iconv buf p len id) (λ _, True).
Proof.
  intros H. unfold parse_pmt. eapply calmly_bind; [calm_leaf|]. intros t _. eapply calmly_bind; [calm_leaf|].
  intros [s|] _; [|calm_go]. eapply calmly_bind; [by apply calmly_word_at; [|lia]|]. intros pcr _.
  eapply calmly_bind; [calm_leaf|]. intros _ _. eapply calmly_bind; [by apply calmly_word_at; [|lia]|]. cbv beta. intros pil Hp.
  eapply calmly_bind; [apply calmly_streams; [done|lia]|]. intros _ _. calm_leaf.
Qed.

(** ** NIT *)

Lemma calmly_alloc f : calmly (alloc_transponder f) (λ _, True).
Proof.
  eapply calmly_bind; [apply calmly_state|]. intros s0 _. cbv zeta.
  eapply (calmly_bind _ _ (λ _, True)); [|intros _ _; by apply calmly_ret].
  apply calmly_modify. intros s Hi.
  set (tp := set_tp_param _ _).
  destruct (transponders_change s (st_transponders s ++ [tp]) Hi) as [H1 H2].
  - apply Forall_app. split; [apply Hi|]. constructor; [|done]. split; [apply NoDup_nil_2|constructor].
  - unfold served. cbn. destruct (st_current s) as [t|]; [|done].
    destruct (decide (t < length (st_transponders s))%nat) as [Hlt|Hge].
    + by rewrite lookup_app_l.
    + rewrite lookup_app_r by lia. rewrite (lookup_ge_None_2 (st_transponders s)) by lia.
      by destruct (t - length (st_transponders s))%nat.
  - split; [apply (inv_same _ _ H1); try done; apply H1|]. destruct H2. by constructor.
Qed.

Lemma calmly_find_in ok l : calmly (find_in ok l) (λ _, True).
Proof. induction l as [|t l IH]; cbn [find_in]; calm_go. Qed.
Hint Resolve calmly_find_in calmly_alloc : calm.

Lemma calmly_find_transponder f : calmly (find_transponder o f) (λ _, True).
Proof. unfold find_transponder. calm_go. Qed.

Lemma calmly_copy_transponder d s : calmly (copy_transponder d s) (λ _, True).
Proof.
  intros w Hi _. unfold copy_transponder, mbind, io_bind. rewrite get_tp_run.
  destruct (deref _ d) as [tp|err] eqn:E; [|by eapply deref_err]. apply deref_ok in E.
  assert (Hr : reads_mem (copy_other_f s) (λ _, True)).
  { unfold copy_other_f. destruct (_ =? 0); [done|]. destruct (tp_other_f s); [|by split].
    by eapply spec_bind; [apply reads_bytes_any|]. }
  unfold lift. destruct (copy_other_f s) as [other|err]; [|done].
  assert (Hid : ids_ok (tp_services tp)).
  { by apply (Forall_lookup_1 (λ t, ids_ok (tp_services t)) _ _ _ (si_services _ Hi) E). }
  destruct (served_map (set_sv_transport_stream_id (tp_transport_stream_id s)) (tp_services tp)) as [E1 E2]; [by intros v|].
  unfold put_tp, modify.
  edestruct (put_tp_calm (w_state w) d tp) as [H1 H2]; [done|exact E| | |split_and!; [exact H1|exact H2|done|done]].
  - cbn. destruct (_ =? _); [done|]. by eapply ids_ok_ids.
  - cbn. by destruct (_ =? _).
Qed.
Hint Resolve calmly_find_transponder calmly_copy_transponder : calm.

Lemma calmly_add_nit tn : calmly (add_nit_transponder o tn) (λ _, True).
Proof. unfold add_nit_transponder. calm_go. Qed.
Hint Resolve calmly_add_nit : calm.

Lemma calmly_nit_entries buf id : Forall byte buf -> forall fuel p len, (Z.to_nat len < fuel)%nat ->
  calmly (parse_nit_entries o e iconv fuel buf p len id) (λ _, True).
Proof.
  intros H. induction fuel as [|fuel IH]; intros p len Hf; [lia|]. cbn [parse_nit_entries].
  destruct (Z.ltb_spec 6 len) as [Hlen|Hlen]; [|calm_go].
  eapply calmly_bind; [by apply calmly_word_at; [|lia]|]. intros ts _.
  eapply calmly_bind; [by apply calmly_word_at; [|lia]|]. cbv beta. intros dl Hdl.
  destruct (len <? dl + 4); [calm_go|].
  eapply calmly_bind; [by apply calmly_word_at; [|lia]|]. intros on _.
  eapply calmly_bind; [by apply calmly_descriptors|]. intros data _.
  eapply (calmly_bind _ _ (λ _, True)); [unfold transponder_data; calm_go|]. intros tn _.
  eapply (calmly_bind _ _ (λ _, True)); [calm_go|]. intros _ _. apply IH. lia.
Qed.

Lemma calmly_nit buf p len id : Forall byte buf -> calmly (parse_nit o e iconv buf p len id) (λ _, True).
Proof.
  intros H. unfold parse_nit. eapply calmly_bind; [by apply calmly_word_at; [|lia]|]. cbv beta. intros dl Hdl.
  destruct (len <? dl + 4); [calm_go|]. eapply calmly_bind; [by apply calmly_descriptors|]. intros _ _.
  apply calmly_nit_entries; [done|lia].
Qed.

(** ** SDT *)

Lemma calmly_sdt_entries buf : Forall byte buf -> forall fuel p len, (Z.to_nat len < fuel)%nat ->
  calmly (parse_sdt_entries o e iconv fuel buf p len) (λ _, True).
Proof.
  intros H. induction fuel as [|fuel IH]; intros p len Hf; [lia|]. cbn [parse_sdt_entries].
  destruct (Z.leb_spec 5 len) as [Hlen|Hlen]; [|calm_go].
  eapply calmly_bind; [by apply calmly_word_at; [|lia]|]. cbv beta. intros id Hid.
  eapply calmly_bind; [by apply calmly_word_at; [|lia]|]. cbv beta. intros dl Hdl.
  destruct (len <? dl); [calm_go|].
  eapply calmly_bind; [calm_leaf|]. intros t _.
  eapply calmly_bind; [by apply calmly_find_or_alloc|]. intros s _.
  eapply calmly_bind; [by apply calmly_byte_at|]. intros b3 _.
  eapply calmly_bind; [calm_leaf|]. intros _ _.
  eapply calmly_bind; [by apply calmly_descriptors|]. intros _ _. apply IH. lia.
Qed.

Lemma calmly_sdt buf p len : Forall byte buf -> calmly (parse_sdt o e iconv buf p len) (λ _, True).
Proof. intros H. apply calmly_sdt_entries; [done|lia]. Qed.

(** ** The virtual channel table *)

Lemma reads_bits_loop n buf p tmp high : reads_mem (get_bits_loop n buf p tmp high) (λ _, True).
Proof.
  revert p tmp high. induction n as [|n IH]; intros p tmp high; [done|]. cbn [get_bits_loop].
  eapply spec_bind; [apply reads_at_any|]. intros b _. apply IH.
Qed.

Lemma reads_bits buf p start len : 0 <= len -> reads_mem (getBits buf p start len) (λ v, 0 <= v < 2 ^ len).
Proof.
  intros Hl. unfold getBits. eapply spec_bind; [apply reads_at_any|]. intros b0 _.
  eapply spec_bind; [apply reads_bits_loop|]. intros [tmp high] _. apply reads_mret.
  replace (2 ^ len - 1) with (Z.ones len) by (rewrite Z.ones_equiv; lia). rewrite Z.land_ones by done.
  apply Z.mod_pos_bound. by apply Z.pow_pos_nonneg.
Qed.

(** The width of an element. *)
Fixpoint width (name : String.string) (d : psip_structure) : Z :=
  match d with
  | [] => 0
  | (n, w) :: d => if String.eqb n name then w else width name d
  end.

Lemma reads_structure d buf p offs : Forall (λ x, 0 <= x.2) d ->
  reads_mem (read_structure d buf p offs) (λ v, forall name, 0 <= element name v < 2 ^ width name d).
Proof.
  revert offs. induction d as [|[n w] d IH]; intros offs Hd; [done|]. apply Forall_cons in Hd as [Hw Hd]. cbn [read_structure].
  eapply spec_bind; [by apply reads_bits|]. intros v Hv. eapply spec_bind; [by apply IH|]. intros rest Hr.
  apply reads_mret. intros name. cbn. destruct (String.eqb n name); [done|apply Hr].
Qed.

Lemma calmly_structure d buf p : Forall (λ x, 0 <= x.2) d ->
  calmly (lift (read_structure d buf p 0)) (λ v, forall name, 0 <= element name v < 2 ^ width name d).
Proof. intros H. apply calmly_lift. by apply reads_structure. Qed.

Lemma element_widths : Forall (λ x, 0 <= x.2) ATSC_service_location_element.
Proof. by repeat constructor. Qed.

Lemma location_widths : Forall (λ x, 0 <= x.2) ATSC_service_location_descriptor.
Proof. by repeat constructor. Qed.

Lemma channel_widths : Forall (λ x, 0 <= x.2) tvct_channel.
Proof. by repeat constructor. Qed.

Lemma calmly_elements n buf p s : calmly (parse_location_elements n buf p s) (λ _, True).
Proof.
  revert p. induction n as [|n IH]; intros p; cbn [parse_location_elements]; [calm_go|].
  eapply calmly_bind; [apply calmly_structure, element_widths|]. intros el _. cbv zeta.
  eapply (calmly_bind _ _ (λ _, True)); [calm_go|]. intros _ _. apply IH.
Qed.
Hint Resolve calmly_elements : calm.

Lemma calmly_location buf p s : calmly (parse_atsc_service_loc_desc buf p s) (λ _, True).
Proof.
  unfold parse_atsc_service_loc_desc. eapply calmly_bind; [apply calmly_structure, location_widths|]. intros d _. calm_go.
Qed.

Lemma calmly_segments n buf p s : Forall byte buf -> calmly (parse_name_segments n buf p s) (λ _, True).
Proof. intros H. revert p. induction n as [|n IH]; intros p; cbn [parse_name_segments]; calm_go. Qed.
Hint Resolve calmly_segments : calm.

Lemma calmly_strings n buf p s : Forall byte buf -> calmly (parse_name_strings n buf p s) (λ _, True).
Proof. intros H. revert p. induction n as [|n IH]; intros p; cbn [parse_name_strings]; calm_go. Qed.
Hint Resolve calmly_strings : calm.

Lemma calmly_long_name buf p s : Forall byte buf -> calmly (parse_atsc_ext_chan_name_desc buf p s) (λ _, True).
Proof. intros H. unfold parse_atsc_ext_chan_name_desc. calm_go. Qed.
Hint Resolve calmly_location calmly_long_name : calm.

Lemma calmly_psip buf s : Forall byte buf -> forall fuel p len, (Z.to_nat len < fuel)%nat ->
  calmly (parse_psip_descriptors fuel buf p len s) (λ _, True).
Proof.
  intros H. induction fuel as [|fuel IH]; intros p len Hf; [lia|]. cbn [parse_psip_descriptors].
  destruct (Z.ltb_spec 0 len) as [Hlen|Hlen]; [|calm_go].
  eapply calmly_bind; [by apply calmly_byte_at|]. intros dl Hdl. unfold byte in Hdl.
  eapply calmly_bind; [by apply calmly_byte_at|]. intros tag _.
  eapply (calmly_bind _ _ (λ _, True)); [calm_go|]. intros _ _. apply IH. lia.
Qed.

Lemma calmly_channel buf p num ch : Forall byte buf -> 0 <= num < 65536 -> calmly (parse_vct_channel buf p num ch) (λ _, True).
Proof.
  intros H Hn. unfold parse_vct_channel. eapply calmly_bind; [calm_leaf|]. intros t _.
  eapply calmly_bind; [by apply calmly_find_or_alloc|]. intros s _. eapply calmly_bind; [calm_leaf|]. intros _ _.
  cbv zeta. eapply calmly_bind; [apply calmly_psip; [done|lia]|]. intros _ _. calm_go.
Qed.

Lemma calmly_channels n buf p pseudo : Forall byte buf -> calmly (parse_vct_channels n buf p pseudo) (λ _, True).
Proof.
  intros H. revert p pseudo. induction n as [|n IH]; intros p pseudo; cbn [parse_vct_channels]; [calm_go|].
  eapply calmly_bind; [apply calmly_structure, channel_widths|]. cbv beta. intros ch Hch.
  destruct (_ && _); [|apply IH].
  destruct (element "program_number" ch =? 0).
  - eapply calmly_bind; [apply calmly_channel; [done|]|intros; apply IH]. unfold u16.
    pose proof (Z.mod_pos_bound (pseudo - 1) 65536). lia.
  - eapply calmly_bind; [apply calmly_channel; [done|]|intros; apply IH]. exact (Hch "program_number"%string).
Qed.

Lemma calmly_vct buf p : Forall byte buf -> calmly (parse_psip_vct buf p) (λ _, True).
Proof.
  intros H. unfold parse_psip_vct. eapply calmly_bind; [by apply calmly_byte_at|]. intros n _. by apply calmly_channels.
Qed.

(** ** PAT *)

(** What calm actions keep is kept. *)
Lemma fine_frame {A} (I : scan_state -> Prop) (c : SC A) Q : calmly c Q -> (forall s s', calm s s' -> I s -> I s') ->
  fine I calm c (λ a s, Q a /\ I s).
Proof.
  intros H HI w Hi HP. specialize (H w Hi Logic.I). destruct (c w) as [[a w']|]; [|done].
  destruct H as (H1 & H2 & H3 & H4). split_and!; try done. by eapply HI.
Qed.

Definition at_current (t : nat) (s : scan_state) : Prop := st_current s = Some t.

Lemma at_current_calm t s s' : calm s s' -> at_current t s -> at_current t s'.
Proof. intros Hc H. unfold at_current in *. by rewrite (cm_current _ _ Hc). Qed.

Lemma fine_current : fine (λ _, True) calm current_tp (λ t s, at_current t s).
Proof.
  intros w Hi _. unfold current_tp, mbind, io_bind. cbn. destruct (st_current (w_state w)) eqn:E; [|by split].
  split_and!; [done|apply calm_refl|done|done].
Qed.

(** One of the services gets its filter. *)
Lemma served_new l i s b : l !! i = Some s -> sv_priv s = None ->
  length (served_ids (<[i := set_sv_priv (Some b) s]> l)) = S (length (served_ids l)).
Proof.
  revert i. induction l as [|x l IH]; intros i E Hp; [done|]. destruct i as [|i]; cbn in E.
  - injection E as ->. change (<[0%nat := set_sv_priv (Some b) s]> (s :: l)) with (set_sv_priv (Some b) s :: l).
    unfold served_ids. rewrite !filter_cons.
    assert (E3 : has_filter s = false) by (unfold has_filter; by rewrite Hp). rewrite E3. cbn. done.
  - change (<[S i := set_sv_priv (Some b) s]> (x :: l)) with (x :: <[i := set_sv_priv (Some b) s]> l).
    unfold served_ids in *. rewrite !filter_cons. specialize (IH i E Hp).
    destruct (decide (has_filter x)); rewrite ?fmap_cons; cbn [length]; by rewrite IH.
Qed.

(** There are no more numbers than 65536. *)
Lemma served_bound l : ids_ok l -> (length (served_ids l) <= Z.to_nat 65536)%nat.
Proof.
  intros [Hn Hr]. transitivity (length (seqZ 0 65536)); [|by rewrite length_seqZ].
  apply submseteq_length, NoDup_submseteq.
  - unfold served_ids. eapply sublist_NoDup; [exact Hn|apply fmap_sublist, sublist_filter].
  - intros x Hx. unfold served_ids in Hx. apply list_elem_of_fmap in Hx as (s & -> & Hs).
    apply list_elem_of_filter in Hs as [_ Hs]. rewrite Forall_forall in Hr. specialize (Hr s Hs). apply elem_of_seqZ. lia.
Qed.

Lemma setup_run pid tid ext one seg timeout w :
  setup_filter o pid tid ext one seg timeout w =
    Ok (length (st_bufs (w_state w)),
        World (set_st_bufs (st_bufs (w_state w) ++ [setup_section_buf o pid tid ext one seg timeout]) (w_state w))
          (w_tick w) (w_log w)).
Proof. reflexivity. Qed.

Lemma upd_sv_run t i f tp v w : st_transponders (w_state w) !! t = Some tp -> tp_services tp !! i = Some v ->
  upd_sv (t, i) f w =
    Ok (tt, World (set_st_transponders (<[t := set_tp_services (<[i := f v]> (tp_services tp)) tp]>
      (st_transponders (w_state w))) (w_state w)) (w_tick w) (w_log w)).
Proof.
  intros E Es. unfold upd_sv, mbind, io_bind. rewrite get_tp_run. unfold deref. cbn [fst snd]. rewrite E.
  unfold lift. rewrite Es. reflexivity.
Qed.

(** The filter for the PMT of a service that has none. *)
Lemma fine_new_filter t i pid id tp v w :
  scan_inv (w_state w) -> at_current t (w_state w) ->
  st_transponders (w_state w) !! t = Some tp -> tp_services tp !! i = Some v -> sv_priv v = None ->
  exists w', (b ← setup_filter o pid 0x02 id true false 5; upd_sv (t, i) (set_sv_priv (Some b));; add_filter e b) w = Ok (tt, w') /\
    scan_inv (w_state w') /\ grows e (w_state w) (w_state w') /\ (w_tick w <= w_tick w')%nat /\
    st_current (w_state w') = st_current (w_state w) /\
    exists b, st_transponders (w_state w') =
      <[t := set_tp_services (<[i := set_sv_priv (Some b) v]> (tp_services tp)) tp]> (st_transponders (w_state w)).
Proof.
  intros Hi Hc Et Ev Hp. set (s := w_state w) in *. set (b := length (st_bufs s)).
  pose proof (fine_setup o pid 0x02 id true false 5 w Hi Logic.I) as Hset. rewrite setup_run in Hset.
  destruct Hset as (Hi1 & Hc1 & _ & Hfr1). cbn [w_state] in *. fold s b in Hi1, Hc1, Hfr1.
  rewrite (io_bind_run _ _ _ _ _ (setup_run _ _ _ _ _ _ _)). fold s b.
  erewrite io_bind_run by (apply upd_sv_run; [exact Et|exact Ev]). cbn [w_state w_tick w_log].
  set (s1 := set_st_bufs _ s) in *. set (v' := set_sv_priv (Some b) v). set (tp' := set_tp_services _ tp).
  change (st_transponders s1) with (st_transponders s). set (s2 := set_st_transponders _ s1).
  assert (Hid : ids_ok (tp_services tp)).
  { by apply (Forall_lookup_1 (λ t, ids_ok (tp_services t)) _ _ _ (si_services _ Hi) Et). }
  assert (Hids : sv_service_id <$> tp_services tp' = sv_service_id <$> tp_services tp).
  { cbn. rewrite list_fmap_insert. apply list_insert_id. by rewrite list_lookup_fmap, Ev. }
  assert (Hi2 : scan_inv s2).
  { apply (inv_same s1); try done. cbn. apply Forall_insert; [apply Hi|]. by eapply ids_ok_ids. }
  assert (Hsv : length (served s2) = S (length (served s))).
  { unfold served. cbn. rewrite Hc. rewrite list_lookup_insert_eq by (by eapply lookup_lt_Some). rewrite Et. by apply served_new. }
  assert (Hmax : (length (served s2) <= Z.to_nat 65536)%nat).
  { unfold served. cbn. rewrite Hc. rewrite list_lookup_insert_eq by (by eapply lookup_lt_Some). apply served_bound.
    by eapply ids_ok_ids. }
  destruct (add_filter_spec e b (World s2 (w_tick w) (w_log w))) as (w3 & E3 & Ht3 & [Hi3 Hs3 Hr3 Hn3 Hl3 Htp3 Hcu3]); [done|done|].
  exists w3. split; [exact E3|]. split; [done|]. cbn [w_state w_tick] in *.
  split; [|split; [done|split; [exact Hcu3|by exists b]]]. split; [constructor|].
  - intros Hw [Hf Ho]. apply Hl3; [done| |split; [done|]].
    + cbn. rewrite lookup_app_r by done. unfold b. by rewrite Nat.sub_diag.
    + exact (once_core s s1 Hc1 Ho).
  - left. unfold pot. rewrite Hs3. change (st_running s2) with (st_running s) in Hn3.
    change (st_waiting s2) with (st_waiting s) in Hn3. lia.
  - exact Hr3.
Qed.

Lemma get_sv_cases p w : (exists f, get_sv p w = Err f /\ allowed f) \/
  exists tp v, get_sv p w = Ok (v, w) /\ st_transponders (w_state w) !! p.1 = Some tp /\ tp_services tp !! p.2 = Some v.
Proof.
  unfold get_sv, mbind, io_bind. rewrite get_tp_run.
  destruct (deref (st_transponders (w_state w)) p.1) as [tp|f] eqn:E; [|left; exists f; split; [done|by eapply deref_err]].
  unfold lift. destruct (deref (tp_services tp) p.2) as [v|f] eqn:Ev; [|left; exists f; split; [done|by eapply deref_err]].
  right. exists tp, v. split; [done|]. split; by apply deref_ok.
Qed.

Lemma calm_then_grows s1 s2 s3 : calm s1 s2 -> grows e s2 s3 -> grows e s1 s3.
Proof. intros H1 H2. eapply grows_trans; [|exact H2]. by apply calm_grows. Qed.

Lemma progress_pat_entry id pid : 0 <= id < 65536 -> progress e (parse_pat_entry o e id pid).
Proof.
  intros Hid. unfold parse_pat_entry. destruct (id =? 0); [by apply (calmly_progress e _ (λ _, True)), calmly_ret|].
  eapply fine_bind; [exact calm_then_grows|apply fine_current|]. intros t.
  eapply fine_bind; [exact calm_then_grows| |].
  { apply (fine_frame (at_current t) _ _ (calmly_find_or_alloc t id Hid)), at_current_calm. }
  intros p. eapply fine_bind; [exact calm_then_grows| |].
  { apply (fine_frame (λ s, p.1 = t /\ at_current t s) _ (λ _, True)); [apply calmly_upd_sv; by intros v|].
    intros s s' Hcm [Hp Hc]. split; [done|by eapply at_current_calm]. }
  intros _ w Hi (_ & Hp & Hc). destruct (get_sv_cases p w) as [(f & E & Hf)|(tp & v & E & Et & Ev)].
  { unfold mbind, io_bind. rewrite E. done. }
  rewrite (io_bind_run _ _ _ _ _ E). destruct (sv_priv v) eqn:Epriv.
  { split_and!; [done|apply grows_refl|done|done]. }
  destruct (negb (sv_pmt_pid v =? 0)); [|split_and!; [done|apply grows_refl|done|done]].
  rewrite Hp in Et. destruct p as [t' i]. cbn in Hp, Ev. subst t'.
  destruct (fine_new_filter t i (sv_pmt_pid v) (sv_service_id v) tp v w Hi Hc Et Ev Epriv) as (w' & E' & Hi' & Hg & Ht & _).
  rewrite E'. by split_and!.
Qed.

Lemma progress_pat n buf p : Forall byte buf -> progress e (parse_pat o e n buf p).
Proof.
  intros H. revert p. induction n as [|n IH]; intros p; cbn [parse_pat].
  { by apply (calmly_progress e _ (λ _, True)), calmly_ret. }
  eapply progress_calm; [by apply calmly_word_at; [|lia]|]. cbv beta. intros id Hid.
  apply progress_bind; [|intros _; apply IH]. destruct (id =? 0).
  { by apply (calmly_progress e _ (λ _, True)), calmly_ret. }
  eapply progress_calm; [by apply calmly_word_at; [|lia]|]. intros pid _. by apply progress_pat_entry.
Qed.

(** ** Sections *)

Lemma progress_table id buf len ext : Forall byte buf -> progress e (parse_table o e iconv id buf len ext).
Proof.
  intros H. unfold parse_table.
  repeat case_match; first
    [ by apply progress_pat
    | by apply (calmly_progress e _ (λ _, True)), calmly_ret
    | by apply (calmly_progress e _ (λ _, True)), calmly_pmt
    | by apply (calmly_progress e _ (λ _, True)), calmly_nit
    | by apply (calmly_progress e _ (λ _, True)), calmly_sdt
    | by apply (calmly_progress e _ (λ _, True)), calmly_vct ].
Qed.

Lemma reads_get_bit l b : reads_mem (get_bit l b) (λ _, True).
Proof. unfold get_bit. by eapply spec_bind; [apply reads_at_any|]. Qed.

Lemma reads_set_bit l b : reads_mem (set_bit l b) (λ _, True).
Proof. unfold set_bit. by eapply spec_bind; [apply reads_at_any|]. Qed.

Lemma reads_all_done n i l : reads_mem (all_done n i l) (λ _, True).
Proof.
  revert i. induction n as [|n IH]; intros i; [done|]. cbn [all_done]. eapply spec_bind; [apply reads_get_bit|].
  intros [] _; [apply IH|done].
Qed.

(** The end of the chain of segments is found. *)
Lemma find_segment_spec ext : forall fuel b w, scan_inv (w_state w) -> (length (st_bufs (w_state w)) - b < fuel)%nat ->
  match find_segment fuel b ext w with
  | Ok (b', w') => w' = w /\ exists v, st_bufs (w_state w) !! b' = Some v /\ (sb_next_seg v = None \/ sb_table_id_ext v = ext)
  | Err f => allowed f
  end.
Proof.
  induction fuel as [|fuel IH]; intros b w Hi Hf; [lia|]. cbn [find_segment]. unfold mbind, io_bind. rewrite get_sb_run.
  destruct (deref (st_bufs (w_state w)) b) as [v|f] eqn:E; [|by eapply deref_err]. apply deref_ok in E.
  destruct (sb_next_seg v) as [next|] eqn:En; [|split; [done|]; exists v; by split; [|left]].
  rewrite get_sb_run. destruct (deref (st_bufs (w_state w)) next) as [x|f] eqn:Ex; [|by eapply deref_err]. apply deref_ok in Ex.
  destruct (Z.eqb_spec (sb_table_id_ext x) ext) as [Heq|Hne].
  - split; [done|]. exists x. split; [done|]. by right.
  - apply IH; [done|]. destruct (si_bufs _ Hi b v E) as [_ Hb]. rewrite En in Hb. lia.
Qed.

Lemma new_segment_calm b v tid ext ver w : scan_inv (w_state w) -> st_bufs (w_state w) !! b = Some v -> sb_next_seg v = None ->
  exists b' w', new_segment b tid ext ver w = Ok (b', w') /\ scan_inv (w_state w') /\ calm (w_state w) (w_state w') /\
    w_tick w' = w_tick w.
Proof.
  intros Hi E En. set (s := w_state w) in *. pose proof (lookup_lt_Some _ _ _ E) as Hlt. unfold new_segment.
  erewrite io_bind_run by (rewrite get_sb_run; unfold deref; fold s; rewrite E; reflexivity). rewrite En.
  erewrite io_bind_run by reflexivity. cbv zeta. erewrite io_bind_run by (apply upd_sb_run; exact E).
  cbn [w_state w_tick w_log]. fold s. set (x := set_sb_section_version_number _ _).
  set (v' := set_sb_next_seg (Some (length (st_bufs s))) v).
  eexists _, _. split; [reflexivity|]. cbn [w_state w_tick].
  assert (Hlen : length (<[b:=v']> (st_bufs s) ++ [x]) = S (length (st_bufs s))) by (rewrite length_app, length_insert; cbn; lia).
  destruct (bufs_change s (<[b:=v']> (st_bufs s) ++ [x]) Hi) as [H1 H2]; [| |by split_and!].
  - intros b' y E'. destruct (decide (b' = b)) as [->|Hne].
    + rewrite E in E'. injection E' as <-. exists v'. split; [|done]. apply lookup_app_l_Some. by apply list_lookup_insert_eq.
    + exists y. split; [|done]. apply lookup_app_l_Some. by rewrite list_lookup_insert_ne.
  - rewrite Hlen. intros b' y E'. apply lookup_app_Some in E' as [E'|[Hge E']].
    + destruct (decide (b' = b)) as [->|Hne].
      * rewrite list_lookup_insert_eq in E' by done. injection E' as <-. split; [by apply (si_bufs _ Hi b v E)|]. cbn. fold s. lia.
      * rewrite list_lookup_insert_ne in E' by done. eapply buf_ok_mono; [|by apply (si_bufs _ Hi)]. fold s. lia.
    + apply list_lookup_singleton_Some in E' as [_ <-]. split; [apply zero_bytes|done].
Qed.

Lemma calmly_segment b tid ext ver : calmly (segment b tid ext ver) (λ _, True).
Proof.
  unfold segment. eapply calmly_bind; [calm_fact|]. intros s0 _. destruct (_ && _ && _); [|by apply calmly_ret].
  intros w Hi _. unfold mbind, io_bind at 1. cbn [get_state].
  pose proof (find_segment_spec ext (S (length (st_bufs (w_state w)))) b w Hi ltac:(lia)) as H. unfold io_bind.
  destruct (find_segment _ _ _ w) as [[b' w']|f]; [|done]. destruct H as (-> & v & E & Hv).
  rewrite get_sb_run. unfold deref. rewrite E. destruct (Z.eqb_spec (sb_table_id_ext v) ext) as [Heq|Hne]; cbn [negb].
  { split_and!; [done|apply calm_refl|done|done]. }
  destruct Hv as [Hv|]; [|done].
  destruct (new_segment_calm b' v tid ext ver w Hi E Hv) as (b2 & w2 & E2 & H1 & H2 & H3). rewrite E2.
  split_and!; [done|done|lia|done].
Qed.

Lemma calmly_restart b ext ver : calmly (upd_sb b (restart_section ext ver)) (λ _, True).
Proof. apply calmly_upd_sb. intros v. unfold restart_section. by destruct (_ || _). Qed.

Lemma calmly_done b l : calmly (upd_sb b (set_sb_section_done l)) (λ _, True).
Proof. by apply calmly_upd_sb. Qed.

Lemma calmly_all_done b x : calmly (upd_sb b (set_sb_sectionfilter_done x)) (λ _, True).
Proof. by apply calmly_upd_sb. Qed.

Lemma calmly_bit l b : calmly (lift (get_bit l b)) (λ _, True).
Proof. apply calmly_lift, reads_get_bit. Qed.

Lemma calmly_new_bit l b : calmly (lift (set_bit l b)) (λ _, True).
Proof. apply calmly_lift, reads_set_bit. Qed.

Lemma calmly_bits n i l : calmly (lift (all_done n i l)) (λ _, True).
Proof. apply calmly_lift, reads_all_done. Qed.
Hint Resolve calmly_segment calmly_restart calmly_done calmly_all_done calmly_bit calmly_new_bit calmly_bits : calm.

Lemma progress_section b : progress e (parse_section o e iconv b).
Proof.
  unfold parse_section. eapply progress_calm; [apply calmly_get_sb|]. cbv beta. intros s Hs. cbv zeta.
  eapply progress_calm; [by apply calmly_byte_at|]. intros tid _.
  destruct (negb _); [by apply (calmly_progress e _ (λ _, True)), calmly_ret|].
  eapply progress_calm; [by apply calmly_word_at; [|lia]|]. intros len _.
  eapply progress_calm; [by apply calmly_word_at; [|lia]|]. intros ext _.
  do 3 (eapply progress_calm; [by apply calmly_byte_at|]; intros ? _).
  eapply progress_calm; [calm_fact|]. intros b' _. eapply progress_calm; [calm_fact|]. intros _ _.
  destruct (len - (5 + 4) <? 0); [by apply (calmly_progress e _ (λ _, True)), calmly_ret|].
  eapply progress_calm; [apply calmly_get_sb|]. intros s' _. eapply progress_calm; [calm_fact|]. intros have _.
  apply progress_bind.
  - destruct (negb have); [|by apply (calmly_progress e _ (λ _, True)), calmly_ret].
    eapply progress_calm; [calm_fact|]. intros l _. eapply progress_calm; [calm_fact|]. intros _ _.
    apply progress_bind; [by apply progress_table|]. intros _. apply (calmly_progress e _ (λ _, True)). calm_go.
  - intros _. apply (calmly_progress e _ (λ _, True)). calm_go.
Qed.

(** ** Polling *)

(** What the demultiplexer sends are bytes. *)
Definition sends_bytes : Prop := forall n bytes, sc_read e n = Some bytes -> Forall byte bytes.

Context (Hbytes : sends_bytes).

Lemma calmly_read_section b : calmly (read_section e b) (λ _, True).
Proof.
  unfold read_section. eapply calmly_bind; [calm_fact|]. intros s _. eapply calmly_bind; [calm_fact|]. intros n _.
  eapply (calmly_bind _ _ (λ r, forall bytes, r = Some bytes -> Forall byte bytes)).
  - destruct (sc_read e n) as [bytes|] eqn:E.
    + apply calmly_ret. intros bs [= <-]. by eapply Hbytes.
    + destruct (_ =? _); [|by apply calmly_ret]. eapply calmly_bind; [calm_fact|]. intros n' _.
      apply calmly_ret. intros bs E'. by eapply Hbytes.
  - intros [bytes|] H; [|by apply calmly_ret]. cbv zeta. eapply calmly_bind; [|intros; by apply calmly_ret].
    apply calmly_upd_sb. intros v. cbn. split_and!; try done. intros Hv. apply Forall_app. split.
    + apply Forall_take. by apply H.
    + by apply Forall_drop.
Qed.
Hint Resolve calmly_read_section : calm.

Lemma progress_sections b : progress e (read_sections o e iconv b).
Proof.
  unfold read_sections. eapply progress_calm; [apply calmly_get_sb|]. intros s _.
  destruct (_ && _); [by apply (calmly_progress e _ (λ _, True)), calmly_ret|].
  eapply progress_calm; [calm_fact|]. intros [count|] _; [|by apply (calmly_progress e _ (λ _, True)), calmly_ret].
  destruct (count <? 4); [by apply (calmly_progress e _ (λ _, True)), calmly_ret|].
  eapply progress_calm; [apply calmly_get_sb|]. cbv beta. intros s' Hs.
  eapply progress_calm; [by apply calmly_word_at; [|lia]|]. intros len _.
  destruct (negb _); [by apply (calmly_progress e _ (λ _, True)), calmly_ret|].
  apply progress_bind; [apply progress_section|]. intros r. by apply (calmly_progress e _ (λ _, True)), calmly_ret.
Qed.

Lemma calmly_poll : calmly (poll_filters e) (λ _, True).
Proof.
  unfold poll_filters. eapply calmly_bind; [apply calmly_state|]. intros s0 _. eapply calmly_bind; [calm_fact|]. intros n _.
  destruct (sc_poll e n) as [rv|]; [|by apply calmly_ret]. cbv zeta. apply calmly_modify. intros s Hi.
  set (k := Z.to_nat (st_n_running s0)).
  assert (Ef : (imap (λ i (x : Z * Z), if decide (i < k)%nat then (x.1, nth i rv 0) else x) (st_poll_fds s)).*1 = (st_poll_fds s).*1).
  { rewrite fmap_imap. apply list_eq. intros i. rewrite list_lookup_imap, list_lookup_fmap. destruct (st_poll_fds s !! i); [|done].
    cbn. by destruct (decide (i < k)%nat). }
  split.
  - destruct Hi as [[] [Hb Hf] Hbf Hs]. constructor; [by constructor|constructor; [done|cbn; by rewrite Ef]|done|done].
  - constructor; try done. intros b v E. by exists v.
Qed.

Lemma moves_pot s s' : moves e s s' -> (pot s' <= pot s)%nat.
Proof. intros [_ [H|H]]; [lia|]. by rewrite (qu_pot _ _ H). Qed.

Lemma moves_quiet s s' : moves e s s' -> pot s' = pot s -> quiet s s'.
Proof. intros [_ [H|H]] E; [lia|done]. Qed.

(** The filter had time left at a moment from [n0] on. *)
Definition in_time (n0 : nat) (s : scan_state) (b : nat) : Prop :=
  exists v n, st_bufs s !! b = Some v /\ (n0 <= n)%nat /\ sc_time e n <= sb_start_time v + sb_timeout v.

(** The second half of [read_filter]. *)
Lemma expire_spec b got w : scan_inv (w_state w) -> b ∈ st_running (w_state w) ->
  match (expired ← (if got : bool then mret true
                    else now ← time e; s ← get_sb b; mret (sb_start_time s + sb_timeout s <? now));
         s ← get_sb b;
         if (expired : bool) && sb_run_once s then remove_filter e b else mret tt) w with
  | Ok (_, w') => scan_inv (w_state w') /\ moves e (w_state w) (w_state w') /\ (w_tick w <= w_tick w')%nat /\
      (demux_works e -> live (w_state w) -> pot (w_state w') = pot (w_state w) -> in_time (w_tick w) (w_state w) b)
  | Err f => allowed f
  end.
Proof.
  intros Hi Hin. pose proof (running_exist _ _ (si_lists _ Hi) Hin) as Hlt. destruct (lookup_lt_is_Some_2 _ _ Hlt) as [v E].
  assert (Hget : forall t lg, get_sb b (World (w_state w) t lg) = Ok (v, World (w_state w) t lg)).
  { intros t lg. rewrite get_sb_run. unfold deref. cbn. by rewrite E. }
  assert (H : exists w1 x, (if got then mret true
      else now ← time e; s ← get_sb b; mret (sb_start_time s + sb_timeout s <? now)) w = Ok (x, w1) /\
      w_state w1 = w_state w /\ (w_tick w <= w_tick w1)%nat /\
      (x = false -> sc_time e (w_tick w) <= sb_start_time v + sb_timeout v)).
  { destruct got.
    - by exists w, true.
    - exists (World (w_state w) (S (w_tick w)) (w_log w)), (sb_start_time v + sb_timeout v <? sc_time e (w_tick w)).
      split.
      + unfold time. rewrite bind_assoc_run. erewrite io_bind_run by reflexivity. erewrite io_bind_run by reflexivity.
        by rewrite (io_bind_run _ _ _ _ _ (Hget _ _)).
      + split; [done|]. split; [cbn; lia|]. rewrite Z.ltb_ge. lia. }
  destruct H as (w1 & x & E1 & Es & Ht & Hx). rewrite (io_bind_run _ _ _ _ _ E1). destruct w1 as [s1 t1 l1]. cbn in Es, Ht. subst s1.
  rewrite (io_bind_run _ _ _ _ _ (Hget t1 l1)). destruct (x && sb_run_once v) eqn:Ex.
  - destruct (remove_filter_spec e b (World (w_state w) t1 l1) Hi Hin) as (w2 & E2 & Ht2 & Hi2 & Hp2 & Hl2). rewrite E2. cbn in *.
    split; [done|]. split; [constructor; [done|by left]|]. split; [lia|]. intros _ _ Hp. lia.
  - cbn. split; [done|]. split; [apply moves_refl|]. split; [done|]. intros _ [_ Ho] _.
    unfold once in Ho. rewrite Forall_forall in Ho. specialize (Ho b). cbv beta in Ho. rewrite E in Ho.
    assert (Hone : sb_run_once v = true).
    { assert (Hb : b ∈ st_running (w_state w) ++ st_waiting (w_state w)) by (apply elem_of_app; by left).
      specialize (Ho Hb). cbn in Ho. congruence. }
    rewrite Hone, andb_true_r in Ex. exists v, (w_tick w). split; [done|]. split; [done|]. by apply Hx.
Qed.

Lemma in_time_quiet n0 n1 s s' b : scan_inv s -> quiet s s' -> (n0 <= n1)%nat -> b ∈ st_running s ->
  in_time n1 s' b -> in_time n0 s b.
Proof.
  intros Hi Hq Hn Hin (v & n & E & Hle & Htime). pose proof (running_exist _ _ (si_lists _ Hi) Hin) as Hlt.
  destruct (lookup_lt_is_Some_2 _ _ Hlt) as [v0 E0]. destruct (qu_bufs _ _ Hq b v0 E0) as (v' & E' & C).
  assert (v' = v) as -> by congruence. exists v0, n. split; [done|]. split; [lia|].
  unfold sb_core in C. injection C as C1 C2 C3 C4. lia.
Qed.

Lemma read_filter_spec b rv w : scan_inv (w_state w) -> b ∈ st_running (w_state w) ->
  match read_filter o e iconv b rv w with
  | Ok (_, w') => scan_inv (w_state w') /\ moves e (w_state w) (w_state w') /\ (w_tick w <= w_tick w')%nat /\
      (demux_works e -> live (w_state w) -> pot (w_state w') = pot (w_state w) -> in_time (w_tick w) (w_state w) b)
  | Err f => allowed f
  end.
Proof.
  intros Hi Hin. unfold read_filter.
  assert (H : progress e (if negb (rv =? 0) then r ← read_sections o e iconv b; mret (r =? 1) else mret false)).
  { destruct (negb _); [|by apply (calmly_progress e _ (λ _, True)), calmly_ret].
    apply progress_bind; [apply progress_sections|]. intros r. by apply (calmly_progress e _ (λ _, True)), calmly_ret. }
  specialize (H w Hi Logic.I). unfold mbind at 1, io_bind at 1. destruct (_ w) as [[got w1]|f]; [|done].
  destruct H as (Hi1 & [Hm1 Hg1] & Ht1 & _). pose proof (expire_spec b got w1 Hi1 (Hg1 b Hin)) as H2.
  lazymatch type of H2 with match ?c with _ => _ end => destruct c as [[x w2]|f]; [|exact H2] end. destruct H2 as (Hi2 & Hm2 & Ht2 & Hq2).
  split; [done|]. split; [by eapply moves_trans|]. split; [lia|]. intros Hw Hl Hp.
  pose proof (moves_pot _ _ Hm1). pose proof (moves_pot _ _ Hm2).
  eapply in_time_quiet; [done|exact (moves_quiet _ _ Hm1 ltac:(lia))|exact Ht1|done|].
  apply Hq2; [done|by apply Hm1|lia].
Qed.

Lemma loop_spec : forall fuel i w, scan_inv (w_state w) -> 0 <= i <= 27 -> 28 <= Z.of_nat fuel + i ->
  match read_filters_loop o e iconv fuel i w with
  | Ok (_, w') => scan_inv (w_state w') /\ moves e (w_state w) (w_state w') /\ (w_tick w <= w_tick w')%nat /\
      (demux_works e -> live (w_state w) -> pot (w_state w') = pot (w_state w) ->
       forall j b, i <= Z.of_nat j -> st_running (w_state w) !! j = Some b -> in_time (w_tick w) (w_state w) b)
  | Err f => allowed f
  end.
Proof.
  induction fuel as [|fuel IH]; intros i w Hi H0 Hf; [lia|].
  cbn [read_filters_loop]. erewrite io_bind_run by reflexivity.
  pose proof (lo_number _ (si_lists _ Hi)) as Hn. pose proof (lo_max _ (si_lists _ Hi)) as Hm.
  destruct (Z.ltb_spec i (st_n_running (w_state w))) as [Hlt|Hge].
  2: { split_and!; [done|apply moves_refl|done|]. intros _ _ _ j b Hj E. apply lookup_lt_Some in E. lia. }
  destruct (lookup_lt_is_Some_2 (st_running (w_state w)) (Z.to_nat i)) as [b Eb]; [lia|].
  assert (Ep : st_poll_bufs (w_state w) !z i = Some (Some b)).
  { unfold lookup_z. rewrite (proj2 (Z.leb_le _ _)) by lia. rewrite (po_bufs _ (si_polls _ Hi)).
    apply lookup_app_l_Some. by rewrite list_lookup_fmap, Eb. }
  unfold mbind at 1, io_bind at 1, lift at 1, at_ at 1. rewrite Ep.
  unfold mbind at 1, io_bind at 1, lift at 1, at_ at 1. destruct (st_poll_fds (w_state w) !z i) as [fd|]; [|by split].
  pose proof (read_filter_spec b fd.2 w Hi ltac:(by eapply list_elem_of_lookup_2)) as H1.
  unfold mbind, io_bind. destruct (read_filter o e iconv b fd.2 w) as [[u w1]|f]; [|done].
  destruct H1 as (Hi1 & Hm1 & Ht1 & Hq1). specialize (IH (i + 1) w1 Hi1 ltac:(lia) ltac:(lia)).
  destruct (read_filters_loop o e iconv fuel (i + 1) w1) as [[u2 w2]|f]; [|done].
  destruct IH as (Hi2 & Hm2 & Ht2 & Hq2). split; [done|]. split; [by eapply moves_trans|]. split; [lia|].
  intros Hw Hl Hp j b' Hj E. pose proof (moves_pot _ _ Hm1). pose proof (moves_pot _ _ Hm2).
  destruct (decide (j = Z.to_nat i)) as [->|Hne].
  - assert (b' = b) as -> by congruence. apply Hq1; [done|done|lia].
  - pose proof (moves_quiet _ _ Hm1 ltac:(lia)) as Hq. eapply in_time_quiet; [done|exact Hq|exact Ht1|by eapply list_elem_of_lookup_2|].
    apply (Hq2 Hw (mv_live _ _ _ Hm1 Hw Hl) ltac:(lia) j); [lia|]. by rewrite (qu_running _ _ Hq).
Qed.

(** One round: it takes time, and without progress every filter that runs had time left. *)
Lemma read_filters_spec w : scan_inv (w_state w) ->
  match read_filters o e iconv w with
  | Ok (_, w') => scan_inv (w_state w') /\ moves e (w_state w) (w_state w') /\ (w_tick w < w_tick w')%nat /\
      (demux_works e -> live (w_state w) -> pot (w_state w') = pot (w_state w) ->
       forall b, b ∈ st_running (w_state w) -> in_time (w_tick w) (w_state w) b)
  | Err f => allowed f
  end.
Proof.
  intros Hi. unfold read_filters. pose proof (calmly_poll w Hi Logic.I) as H.
  assert (Ht : match poll_filters e w with Ok (_, w1) => (w_tick w < w_tick w1)%nat | Err _ => True end).
  { unfold poll_filters. erewrite io_bind_run by reflexivity. erewrite io_bind_run by reflexivity.
    destruct (sc_poll e (w_tick w)); cbn; lia. }
  unfold mbind, io_bind. destruct (poll_filters e w) as [[u w1]|f]; [|done]. destruct H as (Hi1 & Hc1 & _ & _).
  pose proof (loop_spec 28 0 w1 Hi1 ltac:(lia) ltac:(lia)) as H.
  destruct (read_filters_loop o e iconv 28 0 w1) as [[u2 w2]|f]; [|done]. destruct H as (Hi2 & Hm2 & Ht2 & Hq2).
  pose proof (calm_grows e _ _ Hc1) as [Hm1 _]. pose proof (calm_quiet _ _ Hc1) as Hq.
  split; [done|]. split; [by eapply moves_trans|]. split; [lia|].
  intros Hw Hl Hp b Hin. pose proof Hin as Hin'. rewrite <- (qu_running _ _ Hq) in Hin'.
  apply list_elem_of_lookup_1 in Hin' as [j E].
  eapply (in_time_quiet _ (w_tick w1)); [done|exact Hq|lia|done|]. eapply Hq2; [done|by apply Hm1| |apply Nat2Z.is_nonneg|exact E].
  rewrite Hp. by rewrite (qu_pot _ _ Hq).
Qed.

(** The clock goes on, without end. *)
Definition clock_passes : Prop := forall t, exists n0, forall n, (n0 <= n)%nat -> t < sc_time e n.

(** The action ends, with nothing left to read, or by accessing memory outside a section. *)
Definition read_out (r : res (unit * world scan_state)) : Prop :=
  match r with
  | Ok (_, w') => scan_inv (w_state w') /\ st_running (w_state w') = [] /\ st_waiting (w_state w') = []
  | Err f => allowed f
  end.

Lemma lists_empty s : live s -> st_running s = [] -> st_waiting s = [].
Proof.
  intros [Hf _] E. destruct (st_waiting s) eqn:Ew; [done|]. unfold full in Hf. rewrite Ew, E in Hf. by specialize (Hf ltac:(done)).
Qed.

Lemma read_all_ends : demux_works e -> clock_passes -> forall k w, (pot (w_state w) <= k)%nat -> scan_inv (w_state w) ->
  live (w_state w) -> exists fuel, read_out (read_all_filters o e iconv fuel w).
Proof.
  intros Hw Hclock. induction k as [k IH] using lt_wf_ind. intros w Hk Hi Hl.
  (* a time when the first filter that runs is over *)
  assert (Hend : exists n0, forall b, head (st_running (w_state w)) = Some b -> forall n v, st_bufs (w_state w) !! b = Some v ->
      (n0 <= n)%nat -> sb_start_time v + sb_timeout v < sc_time e n).
  { destruct (head (st_running (w_state w))) as [b|]; [|by exists 0%nat].
    destruct (st_bufs (w_state w) !! b) as [v|] eqn:E.
    - destruct (Hclock (sb_start_time v + sb_timeout v)) as [n0 Hn]. exists n0. intros b' [= <-] n v' E' Hn0. assert (v' = v) as -> by congruence. by apply Hn.
    - exists 0%nat. intros b' [= <-] n v' E'. congruence. }
  destruct Hend as [n0 Hend]. remember (n0 - w_tick w)%nat as d eqn:Ed.
  revert w Hk Hi Hl Hend Ed. induction d as [d IHd] using lt_wf_ind. intros w Hk Hi Hl Hend Ed.
  pose proof (read_filters_spec w Hi) as H.
  destruct (read_filters o e iconv w) as [[u w1]|f] eqn:Er.
  2: { exists 1%nat. cbn [read_all_filters]. unfold mbind, io_bind. by rewrite Er. }
  destruct H as (Hi1 & Hm1 & Ht1 & Hq1).
  assert (Hstep : forall fuel, read_out (read_all_filters o e iconv fuel w1) -> exists fuel, read_out (read_all_filters o e iconv fuel w)).
  { intros fuel Hr. exists (S fuel). cbn [read_all_filters]. rewrite (io_bind_run _ _ _ _ _ Er). erewrite io_bind_run by reflexivity.
    destruct (st_running (w_state w1)) eqn:E1, (st_waiting (w_state w1)) eqn:E2; try exact Hr. cbn. by rewrite E1, E2. }
  pose proof (mv_live _ _ _ Hm1 Hw Hl) as Hl1. pose proof (moves_pot _ _ Hm1) as Hp.
  destruct (decide (pot (w_state w1) = pot (w_state w))) as [Eq|Hne].
  - pose proof (moves_quiet _ _ Hm1 Eq) as Hq. destruct (st_running (w_state w)) as [|b rest] eqn:Erun.
    + exists 1%nat. cbn [read_all_filters]. rewrite (io_bind_run _ _ _ _ _ Er). erewrite io_bind_run by reflexivity.
      assert (E1 : st_running (w_state w1) = []) by (by rewrite (qu_running _ _ Hq)).
      rewrite E1, (lists_empty _ Hl1 E1). cbn. by rewrite E1, (lists_empty _ Hl1 E1).
    + destruct (Hq1 Hw Hl Eq b) as (v & n & Ev & Hn & Htime); [apply elem_of_cons; by left|].
      assert (Hlt : (w_tick w < n0)%nat).
      { destruct (le_lt_dec n0 (w_tick w)) as [Hle|]; [|done]. specialize (Hend b eq_refl n v Ev ltac:(lia)). lia. }
      destruct (IHd (n0 - w_tick w1)%nat ltac:(lia) w1) as [fuel Hr]; try done; [lia| |by apply (Hstep fuel)].
      rewrite (qu_running _ _ Hq), Erun. intros b' [= <-] n' v' Ev' Hn'.
      destruct (qu_bufs _ _ Hq b v Ev) as (v2 & Ev2 & C). assert (v2 = v') as -> by congruence.
      unfold sb_core in C. injection C as C1 C2 C3 C4. rewrite C3, C4. by apply (Hend b).
  - destruct (IH (pot (w_state w1)) ltac:(lia) w1 ltac:(lia) Hi1 Hl1) as [fuel Hr]. by apply (Hstep fuel).
Qed.

(** ** A transponder *)

Definition keeps_live (s s' : scan_state) : Prop := demux_works e -> live s -> live s'.

Definition adds {A} (c : SC A) : Prop := fine (λ _, True) keeps_live c (λ _ _, True).

Lemma adds_bind {A B} (c : SC A) (k : A -> SC B) : adds c -> (forall a, adds (k a)) -> adds (c ≫= k).
Proof. intros Hc Hk. eapply fine_bind; [|exact Hc|intros a; apply Hk]. intros s1 s2 s3 H1 H2 Hw Hl. auto. Qed.

Lemma adds_ret {A} (a : A) : adds (mret a).
Proof. intros w Hi _. split_and!; [done|by intros ? ?|done|done]. Qed.

Lemma adds_table pid tid seg timeout : adds (add_table o e pid tid seg timeout).
Proof.
  intros w Hi _. unfold add_table. pose proof (fine_setup o pid tid (-1) true seg timeout w Hi Logic.I) as Hset.
  rewrite setup_run in Hset. rewrite (io_bind_run _ _ _ _ _ (setup_run _ _ _ _ _ _ _)).
  destruct Hset as (Hi1 & Hc1 & _ & Hfr1).
  match goal with |- context [add_filter e ?b ?w1] => destruct (add_filter_spec e b w1 Hi1 Hfr1) as (w2 & E2 & Ht2 & [Hi2 _ _ _ Hl2 _ _]); rewrite E2 end.
  split_and!; [done| |done|done]. intros Hw [Hf Ho]. apply Hl2; [done| |].
  - cbn. rewrite lookup_app_r by done. by rewrite Nat.sub_diag.
  - split; [|exact (once_core _ _ Hc1 Ho)]. unfold full in *. by rewrite (cm_running _ _ Hc1), (cm_waiting _ _ Hc1).
Qed.

(** The filters of a transponder are added, and then read. *)
Lemma ends_bind {A} (c : SC A) (k : nat -> SC unit) w : demux_works e -> adds c -> scan_inv (w_state w) -> live (w_state w) ->
  (forall w1, scan_inv (w_state w1) -> live (w_state w1) -> exists fuel, read_out (k fuel w1)) ->
  exists fuel, read_out ((c ≫= λ _, k fuel) w).
Proof.
  intros Hw Hc Hi Hl Hk. specialize (Hc w Hi Logic.I). destruct (c w) as [[a w1]|f] eqn:E.
  - destruct Hc as (Hi1 & Hl1 & _). destruct (Hk w1 Hi1 (Hl1 Hw Hl)) as [fuel Hr]. exists fuel.
    by rewrite (io_bind_run _ _ _ _ _ E).
  - exists 0%nat. unfold mbind, io_bind. by rewrite E.
Qed.

Ltac adds_go :=
  lazymatch goal with
  | |- adds (_ ≫= _) => apply adds_bind; [adds_go|intros; adds_go]
  | |- adds (if ?b then _ else _) => destruct b; adds_go
  | _ => first [apply adds_table | apply adds_ret]
  end.

Lemma scan_tp_read_out w : demux_works e -> clock_passes -> scan_inv (w_state w) -> live (w_state w) ->
  st_running (w_state w) = [] -> st_waiting (w_state w) = [] -> exists fuel, read_out (scan_tp o e iconv fuel w).
Proof.
  intros Hw Hclock Hi Hl Hr Hwt.
  assert (Hread : forall w1, scan_inv (w_state w1) -> live (w_state w1) -> exists fuel, read_out (read_all_filters o e iconv fuel w1)).
  { intros w1 Hi1 Hl1. by eapply read_all_ends. }
  unfold scan_tp.
  assert (G : exists fuel, read_out ((let type := st_fe_type (w_state w) in
      if (type =? FE_QPSK) || (type =? FE_QAM) || (type =? FE_OFDM) then scan_tp_dvb o e iconv fuel
      else if type =? FE_ATSC then scan_tp_atsc o e iconv fuel else mret tt) w)).
  { cbv zeta. destruct (_ || _).
    - unfold scan_tp_dvb. apply ends_bind; try done; [adds_go|]. intros w1 Hi1 Hl1.
      apply ends_bind; try done; [adds_go|]. intros w2 Hi2 Hl2. apply ends_bind; try done. adds_go.
    - destruct (_ =? FE_ATSC); [|exists 0%nat; by cbn]. unfold scan_tp_atsc. apply ends_bind; try done. adds_go. }
  destruct G as [fuel G]. exists fuel. erewrite io_bind_run by reflexivity. exact G.
Qed.
End Tables.

(** ** The whole network *)

(** The state in which the program starts, for a kind of frontend. *)
Definition initial_state (fe_type switch_pos : Z) : scan_state :=
  ScanState [] [] [] None [] [] [] 0 (replicate 27 (-1, 0)) (replicate 27 None) fe_type switch_pos [].

Lemma initial_inv fe_type switch_pos : scan_inv (initial_state fe_type switch_pos).
Proof.
  constructor; [constructor|constructor| |]; cbn; try done; try lia; try apply NoDup_nil_2; try constructor.
Qed.

Lemma initial_live fe_type switch_pos : live (initial_state fe_type switch_pos).
Proof. split; [by unfold full|constructor]. Qed.

(** C9: the scan of a transponder ends: when the demultiplexer can be opened and takes every filter, and the clock goes
    on without end, then whatever is received, at any time, after finitely many rounds of [poll] no filter runs or
    waits, and the lists of the program agree; or the program has accessed memory outside a section before. *)
Theorem scan_tp_ends o e iconv fe_type switch_pos tps (current : nat) :
  sends_bytes e -> demux_works e -> clock_passes e -> Forall (λ t, ids_ok (tp_services t)) tps ->
  exists fuel, read_out (scan_tp o e iconv fuel
    (World (set_st_current (Some current) (set_st_transponders tps (initial_state fe_type switch_pos))) 0 [])).
Proof.
  intros Hb Hw Hclock Htps. apply scan_tp_read_out; try done.
  - apply (inv_same (initial_state fe_type switch_pos)); try done. apply initial_inv.
  - exact (initial_live fe_type switch_pos).
Qed.

(** Nothing is received. *)
Definition silent_env : scan_env :=
  ScanEnv (λ _, 0) (λ _, 3) (λ _, 0) (λ _, None) (λ _, Some []) (λ n, Z.of_nat n) (λ _, 0) (λ _, 0).

Definition default_options : scan_options :=
  ScanOptions false false false 0 0 false 1 (-1) 7 3 (LnbTypesSt 9750000 10600000 11700000) false (lit "ISO-6937")
    (lit "UTF-8") INVERSION_AUTO OUTPUT_ZAP.

Lemma scan_tp_ends_witness :
  sends_bytes silent_env /\ demux_works silent_env /\ clock_passes silent_env /\
  exists fuel, read_out (scan_tp default_options silent_env (λ _ _, None) fuel
    (World (set_st_current (Some 0%nat) (set_st_transponders [zero_transponder] (initial_state FE_QPSK 0))) 0 [])).
Proof.
  assert (H1 : sends_bytes silent_env) by done.
  assert (H2 : demux_works silent_env) by done.
  assert (H3 : clock_passes silent_env).
  { intros t. exists (S (Z.to_nat t)). intros n Hn. cbn. lia. }
  split; [exact H1|]. split; [exact H2|]. split; [exact H3|].
  apply (scan_tp_ends default_options silent_env (λ _ _, None) FE_QPSK 0 [zero_transponder] 0 H1 H2 H3).
  repeat constructor.
Defined.

(** With this environment all three filters of a transponder have timed out after fourteen rounds. *)
Lemma silent_run : exists w, scan_tp default_options silent_env (λ _ _, None) 14
    (World (set_st_current (Some 0%nat) (set_st_transponders [zero_transponder] (initial_state FE_QPSK 0))) 0 []) = Ok (tt, w) /\
  st_running (w_state w) = [].
Proof. eexists. split; [vm_compute; reflexivity|reflexivity]. Qed.

(** ** A demultiplexer that cannot be opened *)

(** Filters that wait are only started when another one ends: when none runs, the program waits for ever. *)
Lemma waits_for_ever o e iconv : forall fuel w, st_running (w_state w) = [] -> st_n_running (w_state w) = 0 ->
  st_waiting (w_state w) <> [] -> read_all_filters o e iconv fuel w = Err OutOfFuel.
Proof.
  induction fuel as [|fuel IH]; intros w Hr Hn Hwt; [done|]. cbn [read_all_filters].
  assert (H : exists w1, read_filters o e iconv w = Ok (tt, w1) /\ st_running (w_state w1) = [] /\
    st_n_running (w_state w1) = 0 /\ st_waiting (w_state w1) = st_waiting (w_state w)).
  { unfold read_filters, poll_filters. rewrite bind_assoc_run. erewrite io_bind_run by reflexivity.
    cbv beta. rewrite bind_assoc_run. erewrite io_bind_run by reflexivity. cbv beta.
    destruct (sc_poll e (w_tick w)) as [rv|]; (erewrite io_bind_run by reflexivity); cbn [read_filters_loop];
      (erewrite io_bind_run by reflexivity); cbn; rewrite Hn; cbn; eexists; split; [reflexivity|done|reflexivity|done]. }
  destruct H as (w1 & E & Hr1 & Hn1 & Hw1). rewrite (io_bind_run _ _ _ _ _ E). erewrite io_bind_run by reflexivity.
  rewrite Hr1. rewrite Hw1. destruct (st_waiting (w_state w)) eqn:Ew; [done|]. apply IH; [done|done|]. by rewrite Hw1.
Qed.

Definition no_demux_env : scan_env :=
  ScanEnv (λ _, 0) (λ _, -1) (λ _, 0) (λ _, None) (λ _, Some []) (λ n, Z.of_nat n) (λ _, 0) (λ _, 0).

Lemma scan_without_demux fuel : scan_tp default_options no_demux_env (λ _ _, None) fuel
    (World (set_st_current (Some 0%nat) (set_st_transponders [zero_transponder] (initial_state FE_QPSK 0))) 0 []) = Err OutOfFuel.
Proof.
  lazymatch goal with |- _ ?w = _ =>
    change (scan_tp_dvb default_options no_demux_env (λ _ _, None) fuel w = Err OutOfFuel) end.
  unfold scan_tp_dvb.
  do 2 (erewrite io_bind_run by (vm_compute; reflexivity)). erewrite io_bind_run by (vm_compute; reflexivity).
  by apply waits_for_ever.
Qed.
