(* ===== verification/ScanTuneCorrect.v ===== *)
(** * Tuning: properties

    The lists of the program are never found wrong, on the whole way through a network; and the dish is switched as
    the transponder asks for. *)

From S2P Require Export ScanTune ScanReadCorrect.
Import stdpp.list_relations.list stdpp.list_basics.list.
#[local] Open Scope Z_scope.

(** ** The whole network *)

(** The action keeps the invariant, and the program does not exit. *)
Definition sound {A} (c : SC A) : Prop := forall w, scan_inv (w_state w) ->
  match c w with Ok (_, w') => scan_inv (w_state w') | Err f => f <> Exited end.

Lemma sound_bind {A B} (c : SC A) (k : A -> SC B) : sound c -> (forall a, sound (k a)) -> sound (c ≫= k).
Proof.
  intros Hc Hk w Hi. specialize (Hc w Hi). unfold mbind, io_bind. destruct (c w) as [[a w']|]; [|done]. by apply Hk.
Qed.

Lemma sound_ret {A} (a : A) : sound (mret a).
Proof. by intros w Hi. Qed.

Lemma sound_fault {A} f : f <> Exited -> sound (io_fault f : SC A).
Proof. by intros H w Hi. Qed.

Lemma sound_fine {A} P R (c : SC A) Q : (forall s, P s) -> fine P R c Q -> sound c.
Proof.
  intros HP H w Hi. specialize (H w Hi (HP _)). destruct (c w) as [[a w']|]; [by destruct H|]. by destruct H.
Qed.

Lemma sound_calm {A} (c : SC A) Q : calmly c Q -> sound c.
Proof. intros H. eapply sound_fine; [|exact H]. done. Qed.

Lemma sound_lift {A} (c : res A) : reads_mem c (λ _, True) -> sound (lift c).
Proof. intros H. eapply sound_calm, calmly_lift, H. Qed.

(** Changes of variables that the lists do not depend on. *)
Lemma sound_modify f : (forall s, scan_inv s -> scan_inv (f s)) -> sound (modify f).
Proof. intros H w Hi. by apply H. Qed.

Create HintDb sound.
#[export] Hint Resolve sound_ret calmly_ask calmly_ioctl calmly_get_tp calmly_alloc calmly_find_transponder
  calmly_copy_transponder calmly_state : sound.

Lemma sound_upd_tp t f : (forall tp, tp_services (f tp) = tp_services tp) -> sound (upd_tp t f).
Proof. intros H. eapply sound_calm, calmly_upd_tp. intros tp Hid. by rewrite H. Qed.

Ltac sound_go :=
  lazymatch goal with
  | |- sound (if ?b then _ else _) => destruct b; sound_go
  | |- sound (_ ≫= _) => apply sound_bind; [sound_go|cbv beta; intros ?; sound_go]
  | |- sound (match ?x with _ => _ end) => destruct x; sound_go
  | _ =>
      cbv zeta; first
      [ solve [auto with sound]
      | eapply sound_calm; solve [eauto with sound]
      | apply sound_fault; done
      | apply sound_upd_tp; done
      | apply sound_modify; intros s Hi; by apply (inv_same s); [..|apply Hi]
      | idtac ]
  end.

Section Network.
Context (o : scan_options) (e : scan_env) (iconv : list Z -> list Z -> option (list Z -> list Z)).

Lemma sound_fe op : sound (fe_ask e op).
Proof. eapply sound_calm, calmly_ioctl. Qed.

Lemma sound_sleep n : sound (msleep n).
Proof. unfold msleep. sound_go. Qed.
Hint Resolve sound_fe sound_sleep : sound.

Lemma sound_cmds cmds : sound (diseqc_send_cmds e cmds).
Proof. induction cmds as [|msg cmds IH]; cbn [diseqc_send_cmds]; sound_go. Qed.
Hint Resolve sound_cmds : sound.

Lemma sound_msg v cmds t b : sound (diseqc_send_msg e v cmds t b).
Proof. unfold diseqc_send_msg. sound_go. Qed.
Hint Resolve sound_msg : sound.

Lemma sound_at {A} (l : list A) i : sound (lift (at_ l i)).
Proof. apply sound_lift, reads_at_any. Qed.
Hint Resolve sound_at : sound.

Lemma sound_switch pos v hi : sound (setup_switch e pos v hi).
Proof. unfold setup_switch. sound_go. Qed.

Lemma sound_difference f v : sound (lift (abs_difference f v)).
Proof. apply sound_lift. unfold abs_difference. destruct (_ =? _); [by split|done]. Qed.
Hint Resolve sound_switch sound_difference : sound.

Lemma sound_if f pol : sound (intermediate_frequency o e f pol).
Proof. unfold intermediate_frequency. destruct (so_lnb_type o) as [l h s]. sound_go. Qed.

Lemma sound_lock n : sound (wait_lock e n).
Proof. induction n as [|n IH]; cbn [wait_lock]; sound_go. Qed.
Hint Resolve sound_if sound_lock : sound.

Lemma sound_tune_once t : sound (tune_once o e t).
Proof. unfold tune_once. sound_go. Qed.

Lemma sound_delivery type : sound (set_delivery_system e type).
Proof. unfold set_delivery_system. sound_go. Qed.
Hint Resolve sound_tune_once sound_delivery : sound.

Lemma sound_tune t : sound (tune_to_transponder o e t).
Proof. unfold tune_to_transponder. sound_go. Qed.
Hint Resolve sound_tune : sound.

Lemma sound_next fuel t : sound (next_frequency o fuel t).
Proof. induction fuel as [|fuel IH]; cbn [next_frequency]; sound_go. Qed.

Lemma sound_failed t : sound (remember_failed t).
Proof.
  unfold remember_failed. apply sound_bind; [sound_go|]. intros tp. apply sound_bind; [sound_go|]. intros st. cbv zeta.
  apply sound_bind; [|intros _; sound_go]. apply sound_modify. intros s Hi. apply (inv_same s); try done. cbn.
  apply Forall_app. split; [apply Hi|]. constructor; [|done]. split; [apply NoDup_nil_2|constructor].
Qed.
Hint Resolve sound_next sound_failed : sound.

Lemma sound_try fuel t : sound (try_transponder o e fuel t).
Proof. induction fuel as [|fuel IH]; cbn [try_transponder]; sound_go. Qed.
Hint Resolve sound_try : sound.

Lemma sound_tries l : sound (try_transponders o e l).
Proof. induction l as [|t l IH]; cbn [try_transponders]; sound_go. Qed.
Hint Resolve sound_tries : sound.

Lemma sound_tune_next : sound (tune_to_next_transponder o e).
Proof. unfold tune_to_next_transponder. sound_go. Qed.
Hint Resolve sound_tune_next : sound.

Lemma sound_initial t type pol f : sound (initial_parameters t type pol f).
Proof. unfold initial_parameters. by apply sound_upd_tp. Qed.
Hint Resolve sound_initial : sound.

Lemma sound_line line : sound (initial_line o line).
Proof. unfold initial_line. cbv zeta. repeat case_match; sound_go. Qed.
Hint Resolve sound_line : sound.

Lemma sound_lines fuel : forall file, sound (initial_lines o fuel file).
Proof.
  induction fuel as [|fuel IH]; intros file; cbn [initial_lines]; [sound_go|]. destruct file as [|c file]; [sound_go|].
  destruct (fgets 199 (c :: file)) as [buf rest]. apply sound_bind; [sound_go|done].
Qed.
Hint Resolve sound_lines : sound.

Lemma sound_first file : sound (tune_initial o e file).
Proof. unfold tune_initial. sound_go. Qed.

(** *** Reading *)

Context (Hbytes : sends_bytes e).

Lemma sound_read_all fuel : sound (read_all_filters o e iconv fuel).
Proof.
  induction fuel as [|fuel IH]; cbn [read_all_filters]; [sound_go|]. apply sound_bind; [|intros _; sound_go].
  intros w Hi. pose proof (read_filters_spec o e iconv Hbytes w Hi) as H.
  destruct (read_filters o e iconv w) as [[u w1]|f]; [by destruct H|by destruct H].
Qed.

Lemma sound_table pid tid seg timeout : sound (add_table o e pid tid seg timeout).
Proof. eapply sound_fine; [|apply adds_table]. done. Qed.
Hint Resolve sound_read_all sound_table : sound.

Lemma sound_scan_tp fuel : sound (scan_tp o e iconv fuel).
Proof. unfold scan_tp, scan_tp_dvb, scan_tp_atsc. sound_go. Qed.
Hint Resolve sound_scan_tp : sound.

Lemma sound_transponders fuel : sound (scan_transponders o e iconv fuel).
Proof. induction fuel as [|fuel IH]; cbn [scan_transponders]; sound_go. Qed.
Hint Resolve sound_first sound_transponders : sound.

Lemma sound_network fuel file : sound (scan_network o e iconv fuel file).
Proof. unfold scan_network. sound_go. Qed.
End Network.

(** C14: the program never finds its lists of filters wrong: on the whole way through a network, whatever the file of
    the first transponders holds, whatever the devices answer and the transponders send, at most 27 filters run, none
    twice and none that is closed, the arrays for [poll] are those of the filters that run, and the checks of
    the program on this ([fatal], [assert]) never fail. *)
Theorem scan_lists_consistent o e iconv fuel file fe_type switch_pos :
  sends_bytes e ->
  match scan_network o e iconv fuel file (World (initial_state fe_type switch_pos) 0 []) with
  | Ok (_, w) => lists_ok (w_state w) /\ polls_ok (w_state w)
  | Err f => f <> Exited
  end.
Proof.
  intros Hb. pose proof (sound_network o e iconv Hb fuel file (World (initial_state fe_type switch_pos) 0 [])) as H.
  specialize (H (initial_inv fe_type switch_pos)). destruct (scan_network _ _ _ _ _ _) as [[u w]|f]; [|done].
  split; apply H.
Qed.

(** A silent transponder of a file that is tuned to. *)
Definition locking_env : scan_env :=
  ScanEnv (λ _, 0) (λ _, 3) (λ _, 0) (λ _, None) (λ _, Some []) (λ n, Z.of_nat n) (λ _, FE_HAS_LOCK) (λ _, 0).

Definition initial_file : list Z := lit "# Astra 19.2E" ++ [10] ++ lit "S 12551500 V 22000000 5/6" ++ [10].

Lemma scan_lists_consistent_witness :
  sends_bytes locking_env /\
  match scan_network default_options locking_env (λ _ _, None) 100 (Some initial_file) (World (initial_state FE_QPSK 0) 0 []) with
  | Ok (_, w) => lists_ok (w_state w) /\ polls_ok (w_state w)
  | Err f => f <> Exited
  end.
Proof.
  assert (H : sends_bytes locking_env) by done. split; [exact H|].
  apply (scan_lists_consistent default_options locking_env (λ _ _, None) 100 (Some initial_file) FE_QPSK 0 H).
Defined.

(** The run of the witness ends, and the transponder is in the list. *)
Lemma silent_network : exists w,
  scan_network default_options locking_env (λ _ _, None) 100 (Some initial_file) (World (initial_state FE_QPSK 0) 0 []) = Ok (tt, w) /\
  st_scanned (w_state w) = [0%nat] /\ st_new (w_state w) = [].
Proof. eexists. split; [vm_compute; reflexivity|done]. Qed.
