(* ===== verification/ScanServices.v ===== *)
(** * What the tables say about services

    The sections of the PAT, SDT and PMT as they are sent, and the services that the scanner makes of them: each
    function for a table does to the list of services what its specification says. *)

From S2P Require Export ScanReadCorrect.
Import stdpp.list_relations.list stdpp.list_basics.list.
#[local] Open Scope Z_scope.

(** ** Positions in a section *)

(** [bs] is in the buffer at [p]. *)
Definition sits (buf : mem) (p : Z) (bs : list Z) : Prop := exists pre post, buf = pre ++ bs ++ post /\ p = zlen pre.

Lemma sits_app buf p a b : sits buf p (a ++ b) -> sits buf p a /\ sits buf (p + zlen a) b.
Proof.
  intros (pre & post & -> & ->). split.
  - exists pre, (b ++ post). split; [|done]. by rewrite <- !app_assoc.
  - exists (pre ++ a), post. split; [by rewrite <- !app_assoc|]. rewrite length_app. lia.
Qed.

Lemma sits_at buf p bs k b : sits buf p bs -> bs !z k = Some b -> at_ buf (p + k) = Ok b.
Proof.
  intros (pre & post & -> & ->) E. unfold at_. pose proof E as E'. apply lookup_z_Some in E' as [Hk El].
  apply lookup_lt_Some in El.
  rewrite lookup_z_app_r by lia. replace (zlen pre + k - zlen pre) with k by lia.
  rewrite lookup_z_app_l by lia. by rewrite E.
Qed.

Lemma sits_bytes buf p bs k n : sits buf p bs -> 0 <= k -> 0 <= n -> k + n <= zlen bs ->
  bytes_at buf (p + k) n = Ok (take (Z.to_nat n) (drop (Z.to_nat k) bs)).
Proof.
  intros (pre & post & -> & ->) Hk Hn Hl. unfold bytes_at. rewrite (proj2 (Z.ltb_ge _ _)) by lia.
  rewrite (proj2 (Z.ltb_ge _ _)) by (rewrite !length_app; lia). cbn [orb]. f_equal.
  rewrite drop_app_ge by lia. rewrite drop_app_le by lia. rewrite take_app_le by (rewrite length_drop; lia).
  by replace (Z.to_nat (zlen pre + k) - length pre)%nat with (Z.to_nat k) by lia.
Qed.

Lemma byte_at_run {buf p bs} k {b} w : sits buf p bs -> bs !z k = Some b -> byte_at buf (p + k) w = Ok (b, w).
Proof. intros H E. unfold byte_at, lift. by rewrite (sits_at _ _ _ _ _ H E). Qed.

Lemma sits_word_run {buf p bs} k mask {b0 b1} w : sits buf p bs -> bs !z k = Some b0 -> bs !z (k + 1) = Some b1 ->
  word_at buf (p + k) mask w = Ok (Z.lor (Z.shiftl (Z.land b0 mask) 8) b1, w).
Proof.
  intros H E0 E1. unfold word_at. rewrite (io_bind_run _ _ _ _ _ (byte_at_run k w H E0)).
  rewrite <- Z.add_assoc. by rewrite (io_bind_run _ _ _ _ _ (byte_at_run (k + 1) w H E1)).
Qed.

(** Words with the reserved bits before them: 16, 13 and 12 bits. *)
Definition word16 (v : Z) : list Z := [v / 256; v mod 256].
Definition word13 (v : Z) : list Z := [0xe0 + v / 256; v mod 256].
Definition word12 (flags v : Z) : list Z := [flags * 16 + v / 256; v mod 256].

Lemma land_low f h k : 0 <= k -> 0 <= h < 2 ^ k -> Z.land (f * 2 ^ k + h) (2 ^ k - 1) = h.
Proof.
  intros Hk Hh. replace (2 ^ k - 1) with (Z.ones k) by (rewrite Z.ones_equiv; lia). rewrite Z.land_ones by done.
  rewrite Z.add_comm, Z.mod_add by lia. by apply Z.mod_small.
Qed.

Lemma join_word h v : h = v / 256 -> 0 <= v -> Z.lor (Z.shiftl h 8) (v mod 256) = v.
Proof.
  intros -> Hv. rewrite Z.lor_comm, lor_add; [|lia|apply Z.mod_pos_bound; lia]. pose proof (Z.div_mod v 256). lia.
Qed.

Lemma word16_value v : 0 <= v < 65536 -> Z.lor (Z.shiftl (Z.land (v / 256) 0xff) 8) (v mod 256) = v.
Proof.
  intros Hv. apply join_word; [|lia]. rewrite land_ff. apply Z.mod_small. split; [apply Z.div_pos; lia|apply Z.div_lt_upper_bound; lia].
Qed.

Lemma word13_value v : 0 <= v < 8192 -> Z.lor (Z.shiftl (Z.land (0xe0 + v / 256) 0x1f) 8) (v mod 256) = v.
Proof.
  intros Hv. apply join_word; [|lia]. apply (land_low 7 (v / 256) 5); [lia|].
  split; [apply Z.div_pos; lia|apply Z.div_lt_upper_bound; lia].
Qed.

Lemma word12_value f v : 0 <= v < 4096 -> Z.lor (Z.shiftl (Z.land (f * 16 + v / 256) 0x0f) 8) (v mod 256) = v.
Proof.
  intros Hv. apply join_word; [|lia]. apply (land_low f (v / 256) 4); [lia|].
  split; [apply Z.div_pos; lia|apply Z.div_lt_upper_bound; lia].
Qed.

(** Reading them at a position of what is sent. *)
Lemma word16_at {buf p bs} k v w : sits buf p bs -> bs !z k = Some (v / 256) -> bs !z (k + 1) = Some (v mod 256) ->
  0 <= v < 65536 -> word_at buf (p + k) 0xff w = Ok (v, w).
Proof. intros H E0 E1 Hv. by rewrite (sits_word_run k 0xff w H E0 E1), word16_value. Qed.

Lemma word13_at {buf p bs} k v w : sits buf p bs -> bs !z k = Some (0xe0 + v / 256) -> bs !z (k + 1) = Some (v mod 256) ->
  0 <= v < 8192 -> word_at buf (p + k) 0x1f w = Ok (v, w).
Proof. intros H E0 E1 Hv. by rewrite (sits_word_run k 0x1f w H E0 E1), word13_value. Qed.

Lemma word12_at {buf p bs} k f v w : sits buf p bs -> bs !z k = Some (f * 16 + v / 256) -> bs !z (k + 1) = Some (v mod 256) ->
  0 <= v < 4096 -> word_at buf (p + k) 0x0f w = Ok (v, w).
Proof. intros H E0 E1 Hv. by rewrite (sits_word_run k 0x0f w H E0 E1), word12_value. Qed.

(** ** A service in the state *)

Definition sv_at (p : service_ptr) (v : service) (w : world scan_state) : Prop :=
  exists tp, st_transponders (w_state w) !! p.1 = Some tp /\ tp_services tp !! p.2 = Some v.

(** The world with another value of the service. *)
Definition put_sv (p : service_ptr) (v : service) (w : world scan_state) : world scan_state :=
  World (set_st_transponders (alter (λ tp, set_tp_services (<[p.2 := v]> (tp_services tp)) tp) p.1
    (st_transponders (w_state w))) (w_state w)) (w_tick w) (w_log w).

Lemma get_sv_at p v w : sv_at p v w -> get_sv p w = Ok (v, w).
Proof.
  intros (tp & Et & Ev). unfold get_sv, mbind, io_bind. rewrite get_tp_run. unfold deref. rewrite Et. unfold lift. by rewrite Ev.
Qed.

Lemma upd_sv_at p f v w : sv_at p v w -> upd_sv p f w = Ok (tt, put_sv p (f v) w).
Proof.
  intros (tp & Et & Ev). destruct p as [t i]. cbn in *. rewrite (upd_sv_run t i f tp v w Et Ev). unfold put_sv. cbn [fst snd].
  do 4 f_equal. apply list_eq. intros k. destruct (decide (k = t)) as [->|Hne].
  - rewrite list_lookup_insert_eq by (by eapply lookup_lt_Some). by rewrite list_lookup_alter_eq, Et.
  - by rewrite list_lookup_insert_ne, list_lookup_alter_ne by done.
Qed.

Lemma sv_at_put p v v' w : sv_at p v w -> sv_at p v' (put_sv p v' w).
Proof.
  intros (tp & Et & Ev). eexists. unfold put_sv. cbn. rewrite list_lookup_alter_eq, Et. cbn. split; [done|]. cbn.
  apply list_lookup_insert_eq. by eapply lookup_lt_Some.
Qed.

Lemma put_put p v v' w : put_sv p v' (put_sv p v w) = put_sv p v' w.
Proof.
  unfold put_sv. cbn [w_state w_tick w_log]. f_equal.
  match goal with |- set_st_transponders ?a (set_st_transponders _ ?s) = _ =>
    change (set_st_transponders a s = set_st_transponders (alter (λ tp, set_tp_services (<[p.2 := v']> (tp_services tp)) tp) p.1
      (st_transponders s)) s) end.
  f_equal. cbn [st_transponders set_st_transponders]. apply list_eq. intros k. destruct (decide (k = p.1)) as [->|Hne].
  - rewrite !list_lookup_alter_eq. destruct (_ !! p.1) as [tp|]; [|done]. cbn. by rewrite list_insert_insert_eq.
  - by rewrite !list_lookup_alter_ne by done.
Qed.

Lemma put_same p v w : sv_at p v w -> put_sv p v w = w.
Proof.
  intros (tp & Et & Ev). destruct w as [s t lg]. unfold put_sv. cbn in *. f_equal. destruct s; cbn in *.
  unfold set_st_transponders. cbn. f_equal. apply list_eq. intros k. destruct (decide (k = p.1)) as [->|Hne].
  - rewrite list_lookup_alter_eq, Et. cbn. rewrite list_insert_id by done. by destruct tp.
  - by rewrite list_lookup_alter_ne by done.
Qed.

Lemma put_run {A} p f (k : SC A) v w : sv_at p v w -> (upd_sv p f;; k) w = k (put_sv p (f v) w).
Proof. intros H. by rewrite (io_bind_run _ _ _ _ _ (upd_sv_at p f v w H)). Qed.

(** ** Descriptors as they are sent *)

(** The tag and the data. *)
Abbreviation desc := (Z * list Z)%type.

Definition desc_bytes (d : desc) : list Z := d.1 :: zlen d.2 :: d.2.
Definition descs_bytes (ds : list desc) : list Z := List.concat (desc_bytes <$> ds).

(** The length with the header is kept in a byte. *)
Definition desc_ok (d : desc) : Prop := zlen d.2 <= 253.

Lemma descs_cons d ds : descs_bytes (d :: ds) = desc_bytes d ++ descs_bytes ds.
Proof. reflexivity. Qed.

Lemma desc_length d : zlen (desc_bytes d) = zlen d.2 + 2.
Proof. unfold desc_bytes. cbn [length]. lia. Qed.

Lemma descs_length d ds : zlen (descs_bytes (d :: ds)) = zlen d.2 + 2 + zlen (descs_bytes ds).
Proof. rewrite descs_cons, length_app, <- desc_length. lia. Qed.

Lemma desc_tag {buf p d} w : sits buf p (desc_bytes d) -> byte_at buf p w = Ok (d.1, w).
Proof. intros H. rewrite <- (Z.add_0_r p). by apply (byte_at_run 0 w H). Qed.

Lemma desc_size {buf p d} w : sits buf p (desc_bytes d) -> byte_at buf (p + 1) w = Ok (zlen d.2, w).
Proof. intros H. by apply (byte_at_run 1 w H). Qed.

(** A loop of descriptors folds what each of them does to the service, under an invariant of the service. *)
Section Loop.
Context (o : scan_options) (e : scan_env) (iconv : list Z -> list Z -> option (list Z -> list Z)).
Context (t : table_type) (buf : mem) (s : service_ptr) (step : service -> desc -> service) (I : service -> Prop) (ok : desc -> Prop).
Context (Hstep : forall d p v w, ok d -> I v -> sits buf p (desc_bytes d) -> sv_at s v w ->
  parse_descriptor o e iconv t d.1 buf p (ServiceData s) w = Ok (ServiceData s, put_sv s (step v d) w) /\ I (step v d)).

Lemma loop_run ds : forall fuel p v w, Forall ok ds -> Forall desc_ok ds -> I v -> sits buf p (descs_bytes ds) -> sv_at s v w ->
  (Z.to_nat (zlen (descs_bytes ds)) < fuel)%nat ->
  parse_descriptors_loop o e iconv fuel t buf p (zlen (descs_bytes ds)) (ServiceData s) w =
    Ok (ServiceData s, put_sv s (foldl step v ds) w) /\ I (foldl step v ds).
Proof.
  induction ds as [|d ds IH]; intros fuel p v w Hok Hd HI Hs Hv Hf; (destruct fuel as [|fuel]; [lia|]).
  { split; [|done]. cbn. by rewrite put_same. }
  apply Forall_cons in Hok as [Hok Hoks]. apply Forall_cons in Hd as [Hd Hds].
  rewrite descs_cons in Hs. destruct (sits_app _ _ _ _ Hs) as [Hs1 Hs2]. rewrite desc_length in Hs2.
  rewrite descs_length in *. unfold desc_ok in Hd. cbn [parse_descriptors_loop].
  rewrite (proj2 (Z.ltb_lt _ _)) by lia. rewrite (io_bind_run _ _ _ _ _ (desc_tag w Hs1)).
  rewrite (io_bind_run _ _ _ _ _ (desc_size w Hs1)). cbv zeta. unfold u8. rewrite Z.mod_small by lia.
  rewrite (proj2 (Z.eqb_neq _ _)) by lia. destruct (Hstep d p v w Hok HI Hs1 Hv) as [E HI'].
  rewrite (io_bind_run _ _ _ _ _ E).
  replace (zlen d.2 + 2 + zlen (descs_bytes ds) - (zlen d.2 + 2)) with (zlen (descs_bytes ds)) by lia.
  destruct (IH fuel (p + (zlen d.2 + 2)) (step v d) (put_sv s (step v d) w)) as [E' HI'']; try done.
  { by eapply sv_at_put. } { lia. }
  rewrite E'. split; [|done]. by rewrite put_put.
Qed.

Lemma descriptors_run ds p v w : Forall ok ds -> Forall desc_ok ds -> I v -> sits buf p (descs_bytes ds) -> sv_at s v w ->
  parse_descriptors o e iconv t buf p (zlen (descs_bytes ds)) (ServiceData s) w =
    Ok (ServiceData s, put_sv s (foldl step v ds) w) /\ I (foldl step v ds).
Proof. intros. apply loop_run; try done. lia. Qed.
End Loop.

Lemma find_run buf tag ds : forall fuel p w, Forall desc_ok ds -> sits buf p (descs_bytes ds) ->
  (Z.to_nat (zlen (descs_bytes ds)) < fuel)%nat ->
  find_descriptor fuel tag buf p (zlen (descs_bytes ds)) w = Ok (existsb (λ d, tag =? d.1) ds, w).
Proof.
  induction ds as [|d ds IH]; intros fuel p w Hd Hs Hf; (destruct fuel as [|fuel]; [lia|]); [done|].
  apply Forall_cons in Hd as [Hd Hds]. rewrite descs_cons in Hs. destruct (sits_app _ _ _ _ Hs) as [Hs1 Hs2].
  rewrite desc_length in Hs2. rewrite descs_length in *. unfold desc_ok in Hd. cbn [find_descriptor existsb].
  rewrite (proj2 (Z.ltb_lt _ _)) by lia. rewrite (io_bind_run _ _ _ _ _ (desc_tag w Hs1)).
  rewrite (io_bind_run _ _ _ _ _ (desc_size w Hs1)). cbv zeta. unfold u8. rewrite Z.mod_small by lia.
  rewrite (proj2 (Z.eqb_neq _ _)) by lia. destruct (tag =? d.1); [done|].
  replace (zlen d.2 + 2 + zlen (descs_bytes ds) - (zlen d.2 + 2)) with (zlen (descs_bytes ds)) by lia.
  apply IH; [done|done|lia].
Qed.

(** ** PMT *)

(** What is true of a service while its PMT is read: the arrays have their lengths, and a language is a string. *)
Record arrays_ok (v : service) : Prop := {
  ao_pids : length (sv_audio_pid v) = 32%nat;
  ao_langs : length (sv_audio_lang v) = 32%nat;
  ao_strings : Forall (λ l, length l = 4%nat /\ l !! 3%nat = Some 0) (sv_audio_lang v);
  ao_num : 0 <= sv_audio_num v <= 32;
  ao_range : Forall (λ p, 0 <= p < 65536) (sv_audio_pid v);
}.

(** The language of the stream that is read, from a descriptor that names one. *)
Definition language_step (v : service) (d : desc) : service :=
  if (d.1 =? 0x0a) && (4 <=? zlen d.2) then
    let n := Z.to_nat (sv_audio_num v) in
    set_sv_audio_lang (<[n := take 3 d.2 ++ drop 3 (nth n (sv_audio_lang v) [])]> (sv_audio_lang v)) v
  else v.

(** A stream of a PMT. *)
Record stream := Stream { es_type : Z; es_pid : Z; es_descs : list desc }.

Definition stream_bytes (x : stream) : list Z :=
  es_type x :: word13 (es_pid x) ++ word12 15 (zlen (descs_bytes (es_descs x))) ++ descs_bytes (es_descs x).

Record stream_ok (x : stream) : Prop := {
  xo_pid : 0 <= es_pid x < 8192;
  xo_length : zlen (descs_bytes (es_descs x)) < 4096;
  xo_descs : Forall desc_ok (es_descs x);
}.

Definition is_video (x : stream) : bool := existsb (Z.eqb (es_type x)) [0x01; 0x02; 0x1b].
Definition is_audio (x : stream) : bool := existsb (Z.eqb (es_type x)) [0x03; 0x81; 0x0f; 0x11; 0x04].
Definition has_tag (tag : Z) (x : stream) : bool := existsb (λ d, tag =? d.1) (es_descs x).
Definition is_private (x : stream) : bool := es_type x =? 0x06.
Definition is_teletext (x : stream) : bool := is_private x && has_tag 0x56 x.
Definition is_subtitling (x : stream) : bool := is_private x && negb (has_tag 0x56 x) && has_tag 0x59 x.
Definition is_ac3 (x : stream) : bool := is_private x && negb (has_tag 0x56 x) && negb (has_tag 0x59 x) && has_tag 0x6a x.

(** What a stream does to the service. *)
Definition audio_step (v : service) (x : stream) : service :=
  if sv_audio_num v <? 32 then
    let v := foldl language_step (set_sv_audio_pid (<[Z.to_nat (sv_audio_num v) := es_pid x]> (sv_audio_pid v)) v) (es_descs x) in
    set_sv_audio_num (sv_audio_num v + 1) v
  else v.

Definition stream_step (v : service) (x : stream) : service :=
  if is_video x then (if sv_video_pid v =? 0 then set_sv_video_pid (es_pid x) v else v)
  else if is_audio x then audio_step v x
  else if is_teletext x then set_sv_teletext_pid (es_pid x) v
  else if is_subtitling x then set_sv_subtitling_pid (es_pid x) v
  else if is_ac3 x then set_sv_ac3_pid (es_pid x) v
  else v.

Lemma lookup_drop_app (l : list Z) k : drop k l !! 0%nat = l !! k.
Proof. by rewrite lookup_drop, Nat.add_0_r. Qed.

Section Pmt.
Context (o : scan_options) (e : scan_env) (iconv : list Z -> list Z -> option (list Z -> list Z)) (buf : mem) (s : service_ptr).

Definition audio_ok (v : service) : Prop := arrays_ok v /\ sv_audio_num v < 32.

Lemma language_ok v d : audio_ok v -> audio_ok (language_step v d).
Proof.
  intros [[H1 H2 H3 H4 H5] Hlt]. unfold language_step. destruct (_ && _) eqn:E; [|by split].
  split; [|done]. constructor; cbn; try done; [by rewrite length_insert|]. bool_facts.
  apply Forall_insert; [done|]. assert (Hn : (Z.to_nat (sv_audio_num v) < length (sv_audio_lang v))%nat) by lia.
  apply lookup_lt_is_Some in Hn as [x Ex]. pose proof (nth_lookup_Some _ _ [] _ Ex) as ->.
  apply (Forall_lookup_1 _ _ _ _ H3) in Ex as [Ex1 Ex2]. split.
  - rewrite length_app, length_take, length_drop. lia.
  - rewrite lookup_app_r by (rewrite length_take; lia). rewrite lookup_drop, length_take. 
    by replace (3 + (3 - 3 `min` length d.2))%nat with 3%nat by lia.
Qed.

Lemma language_run d p v w : True -> audio_ok v -> sits buf p (desc_bytes d) -> sv_at s v w ->
  parse_descriptor o e iconv PMT d.1 buf p (ServiceData s) w = Ok (ServiceData s, put_sv s (language_step v d) w) /\
  audio_ok (language_step v d).
Proof.
  intros _ Hok Hs Hv. split; [|by apply language_ok]. destruct (d.1 =? 0x0a) eqn:Et.
  - apply Z.eqb_eq in Et. rewrite Et. unfold parse_descriptor, with_service. rewrite decide_True by done.
    cbn [service_data]. unfold parse_iso639_language_descriptor.
    erewrite io_bind_run by reflexivity. rewrite bind_assoc_run. rewrite (io_bind_run _ _ _ _ _ (desc_size w Hs)).
    unfold language_step. rewrite Et. cbn [Z.eqb Pos.eqb andb]. destruct (4 <=? zlen d.2) eqn:El.
    + apply Z.leb_le in El. rewrite bind_assoc_run. unfold lift at 1.
      erewrite io_bind_run by (rewrite (sits_bytes buf p _ 2 3 Hs) by (unfold desc_bytes; cbn [length]; lia); reflexivity).
      cbn [desc_bytes Z.to_nat Pos.to_nat Pos.iter_op Nat.add drop].
      rewrite bind_assoc_run. rewrite (io_bind_run _ _ _ _ _ (get_sv_at s v w Hv)).
      destruct Hok as [[H1 H2 H3 H4 H5] Hlt].
      assert (Hn : (Z.to_nat (sv_audio_num v) < length (sv_audio_lang v))%nat) by lia.
      apply lookup_lt_is_Some in Hn as [x Ex]. rewrite bind_assoc_run.
      erewrite io_bind_run; [|unfold lift, at_, lookup_z; rewrite (proj2 (Z.leb_le _ _)), Ex by lia; reflexivity].
      rewrite put_run with (v := v) by done. by rewrite (nth_lookup_Some _ _ _ _ Ex).
    + erewrite io_bind_run by reflexivity. unfold mret, io_ret. by rewrite put_same.
  - assert (E : language_step v d = v) by (unfold language_step; by rewrite Et). rewrite E, put_same by done.
    apply Z.eqb_neq in Et. unfold parse_descriptor.
    repeat first [reflexivity | contradiction | case_match | rewrite decide_False by done].
Qed.

Lemma foldl_language_num ds : forall v, sv_audio_num (foldl language_step v ds) = sv_audio_num v.
Proof. induction ds as [|d ds IH]; intros v; [done|]. cbn. rewrite IH. unfold language_step. by destruct (_ && _). Qed.

Lemma stream_sits {p x} : sits buf p (stream_bytes x) -> sits buf (p + 5) (descs_bytes (es_descs x)).
Proof.
  intros H. change (stream_bytes x) with ((es_type x :: word13 (es_pid x) ++ word12 15 (zlen (descs_bytes (es_descs x)))) ++ descs_bytes (es_descs x)) in H.
  by apply sits_app in H as [_ H].
Qed.

Lemma audio_run p x v w : stream_ok x -> arrays_ok v -> sits buf p (stream_bytes x) -> sv_at s v w ->
  parse_audio o e iconv buf p (zlen (descs_bytes (es_descs x))) (es_pid x) s w = Ok (tt, put_sv s (audio_step v x) w) /\
  arrays_ok (audio_step v x).
Proof.
  intros [Hp Hl Hd] Hok Hs Hv. unfold parse_audio, audio_step. rewrite (io_bind_run _ _ _ _ _ (get_sv_at s v w Hv)).
  change AUDIO_CHAN_MAX with 32. destruct (sv_audio_num v <? 32) eqn:El; [|unfold mret, io_ret; by rewrite put_same].
  apply Z.ltb_lt in El. pose proof Hok as [H1 H2 H3 H4 H5].
  assert (Hn : (Z.to_nat (sv_audio_num v) < length (sv_audio_pid v))%nat) by lia.
  apply lookup_lt_is_Some in Hn as [y Ey].
  erewrite io_bind_run; [|unfold lift, at_, lookup_z; rewrite (proj2 (Z.leb_le _ _)), Ey by lia; reflexivity].
  rewrite put_run with (v := v) by done. set (v1 := set_sv_audio_pid _ v). set (w1 := put_sv s v1 w).
  assert (Hok1 : audio_ok v1).
  { split; [|done]. constructor; cbn; try done; [by rewrite length_insert|]. apply Forall_insert; [done|lia]. }
  destruct (descriptors_run o e iconv PMT buf s language_step audio_ok (λ _, True) language_run
    (es_descs x) (p + 5) v1 w1) as [E [Hok2 Hlt]].
  { by apply Forall_true. } { done. } { done. } { by apply stream_sits. } { by eapply sv_at_put. }
  rewrite (io_bind_run _ _ _ _ _ E). cbv zeta. set (v2 := foldl language_step v1 (es_descs x)) in *.
  rewrite upd_sv_at with (v := v2) by (eapply sv_at_put, sv_at_put; done). rewrite put_put. unfold w1. rewrite put_put.
  split; [done|]. destruct Hok2. constructor; cbn; try done. lia.
Qed.

Lemma private_stream_run p x v w : stream_ok x -> is_private x = true -> sits buf p (stream_bytes x) -> sv_at s v w ->
  parse_private buf p (zlen (descs_bytes (es_descs x))) (es_pid x) s w =
    Ok (tt, put_sv s (if is_teletext x then set_sv_teletext_pid (es_pid x) v
                      else if is_subtitling x then set_sv_subtitling_pid (es_pid x) v
                      else if is_ac3 x then set_sv_ac3_pid (es_pid x) v else v) w).
Proof.
  intros [Hp Hl Hd] Hpr Hs Hv. unfold parse_private, is_teletext, is_subtitling, is_ac3, has_tag. rewrite Hpr. cbv zeta.
  cbn [andb]. pose proof (stream_sits Hs) as Hds.
  assert (F : forall tag, find_descriptor (S (Z.to_nat (zlen (descs_bytes (es_descs x))))) tag buf (p + 5)
    (zlen (descs_bytes (es_descs x))) w = Ok (existsb (λ d, tag =? d.1) (es_descs x), w)).
  { intros tag. apply find_run; [done|done|lia]. }
  rewrite (io_bind_run _ _ _ _ _ (F 0x56)). destruct (existsb (λ d, 0x56 =? d.1) (es_descs x)); cbn [andb negb].
  { by apply upd_sv_at. }
  rewrite (io_bind_run _ _ _ _ _ (F 0x59)). destruct (existsb (λ d, 0x59 =? d.1) (es_descs x)); cbn [andb negb].
  { by apply upd_sv_at. }
  rewrite (io_bind_run _ _ _ _ _ (F 0x6a)). destruct (existsb (λ d, 0x6a =? d.1) (es_descs x)).
  { by apply upd_sv_at. }
  unfold mret, io_ret. by rewrite put_same.
Qed.

Lemma stream_run p x v w : stream_ok x -> arrays_ok v -> sits buf p (stream_bytes x) -> sv_at s v w ->
  parse_stream o e iconv (es_type x) buf p (zlen (descs_bytes (es_descs x))) (es_pid x) s w =
    Ok (tt, put_sv s (stream_step v x) w) /\ arrays_ok (stream_step v x).
Proof.
  intros Hx Hok Hs Hv. unfold stream_step, is_video, is_audio, parse_stream. cbn [existsb].
  assert (Hvid : upd_sv s (λ v, if sv_video_pid v =? 0 then set_sv_video_pid (es_pid x) v else v) w =
    Ok (tt, put_sv s (if sv_video_pid v =? 0 then set_sv_video_pid (es_pid x) v else v) w) /\
    arrays_ok (if sv_video_pid v =? 0 then set_sv_video_pid (es_pid x) v else v)).
  { split; [by rewrite upd_sv_at with (v := v)|]. destruct (sv_video_pid v =? 0); [|done]. by destruct Hok; constructor. }
  destruct (is_private x) eqn:Ep.
  { apply Z.eqb_eq in Ep as Et. rewrite Et. cbn. split; [by apply private_stream_run|].
    destruct (is_teletext x), (is_subtitling x), (is_ac3 x); try done; by destruct Hok; constructor. }
  unfold is_teletext, is_subtitling, is_ac3. rewrite Ep. apply Z.eqb_neq in Ep. cbn [andb].
  repeat match goal with
  | |- context [es_type x =? ?k] => destruct (Z.eqb_spec (es_type x) k) as [->|?]; [first [exact Hvid|by apply audio_run]|]
  end.
  cbn [orb]. split; [|done]. rewrite put_same by done. repeat (contradiction || reflexivity || case_match).
Qed.

(** The message about the audio streams fits into its buffer. *)
Lemma hex4_length v : 0 <= v < 65536 -> (length (print_04x v) <= 4)%nat.
Proof.
  intros Hv. unfold print_04x, print_x, digits. rewrite length_app, length_replicate.
  assert (H : (length (digits_fuel 64 16 v []) <= 4 + length (@nil Z))%nat) by (apply digits_fuel_length; lia).
  cbn [length] in H. lia.
Qed.

Lemma string4_length l : length l = 4%nat -> l !! 3%nat = Some 0 -> (length (c_string (take 4 l)) <= 3)%nat.
Proof.
  destruct l as [|a [|b [|c [|d [|x l]]]]]; cbn; try lia. intros _ [= ->]. repeat case_match; cbn; lia.
Qed.

Lemma print_audio_length v i : arrays_ok v -> (i < 32)%nat -> (length (print_audio v i) <= 12)%nat.
Proof.
  intros [H1 H2 H3 _ H5] Hi. unfold print_audio. rewrite !length_app.
  assert (Hp : (i < length (sv_audio_pid v))%nat) by lia. apply lookup_lt_is_Some in Hp as [p Ep].
  assert (Hl : (i < length (sv_audio_lang v))%nat) by lia. apply lookup_lt_is_Some in Hl as [l El].
  rewrite (nth_lookup_Some _ _ _ _ Ep), (nth_lookup_Some _ _ _ _ El).
  apply (Forall_lookup_1 _ _ _ _ H5) in Ep. apply (Forall_lookup_1 _ _ _ _ H3) in El as [E1 E2].
  pose proof (hex4_length p Ep). pose proof (string4_length l E1 E2).
  change (length (lit "0x")) with 2%nat. change (length (lit " (")) with 2%nat. change (length (lit ")")) with 1%nat. lia.
Qed.

Lemma concat_length_le {A} (f : nat -> list A) k n m : (forall i, (i < n + m)%nat -> (length (f i) <= k)%nat) ->
  (length (List.concat (f <$> seq n m)) <= k * m)%nat.
Proof.
  revert n. induction m as [|m IH]; intros n H; [cbn; lia|]. cbn. rewrite length_app. specialize (H n) as Hn.
  specialize (IH (S n)). assert (length (List.concat (f <$> seq (S n) m)) <= k * m)%nat by (apply IH; intros; apply H; lia).
  specialize (Hn ltac:(lia)). lia.
Qed.

Lemma audio_message_length v : arrays_ok v -> zlen (audio_message v) + 1 <= 14 * 32 + 1.
Proof.
  intros Hok. pose proof (ao_num v Hok) as Hn. unfold audio_message. rewrite length_app.
  pose proof (print_audio_length v 0 Hok ltac:(lia)).
  destruct (decide (sv_audio_num v <= 0)) as [Hz|Hz].
  { replace (Z.to_nat (sv_audio_num v) - 1)%nat with 0%nat by lia. cbn [seq fmap list_fmap List.concat length]. lia. }
  assert ((length (List.concat ((λ i, lit ", " ++ print_audio v i) <$> seq 1 (Z.to_nat (sv_audio_num v) - 1))) <= 14 * 31)%nat).
  { etransitivity; [apply (concat_length_le _ 14)|lia]. intros i Hi. rewrite length_app.
    pose proof (print_audio_length v i Hok ltac:(lia)). change (length (lit ", ")) with 2%nat. lia. }
  lia.
Qed.

Lemma message_run v w : arrays_ok v -> sv_at s v w -> write_audio_message s w = Ok (tt, w).
Proof.
  intros Hok Hv. unfold write_audio_message. rewrite (io_bind_run _ _ _ _ _ (get_sv_at s v w Hv)).
  pose proof (ao_num v Hok) as Hn. change AUDIO_CHAN_MAX with 32. rewrite (proj2 (Z.ltb_ge _ _)) by lia.
  erewrite io_bind_run by reflexivity. rewrite (io_bind_run _ _ _ _ _ (get_sv_at s v w Hv)).
  pose proof (audio_message_length v Hok). by rewrite (proj2 (Z.ltb_ge _ _)) by lia.
Qed.

Definition streams_bytes (l : list stream) : list Z := List.concat (stream_bytes <$> l).

Lemma stream_length x : zlen (stream_bytes x) = 5 + zlen (descs_bytes (es_descs x)).
Proof. unfold stream_bytes. cbn [length]. rewrite !length_app. cbn [length word13 word12]. lia. Qed.

Lemma streams_run l : forall fuel p v w, Forall stream_ok l -> arrays_ok v -> sits buf p (streams_bytes l) -> sv_at s v w ->
  (Z.to_nat (zlen (streams_bytes l)) < fuel)%nat ->
  parse_streams o e iconv fuel buf p (zlen (streams_bytes l)) s w = Ok (tt, put_sv s (foldl stream_step v l) w) /\
  arrays_ok (foldl stream_step v l).
Proof.
  induction l as [|x l IH]; intros fuel p v w Hx Hok Hs Hv Hf; (destruct fuel as [|fuel]; [lia|]).
  { split; [|done]. cbn. by rewrite put_same. }
  apply Forall_cons in Hx as [Hx Hxs]. change (streams_bytes (x :: l)) with (stream_bytes x ++ streams_bytes l) in *.
  destruct (sits_app _ _ _ _ Hs) as [Hs1 Hs2]. rewrite stream_length in Hs2. rewrite length_app in Hf |- *.
  pose proof (stream_length x) as Hlen. cbn [parse_streams]. rewrite (proj2 (Z.leb_le _ _)) by lia.
  pose proof Hx as [Hp Hl Hd].
  erewrite io_bind_run by (apply (word12_at 3 15 (zlen (descs_bytes (es_descs x))) w Hs1); [reflexivity|reflexivity|lia]).
  erewrite io_bind_run by (apply (word13_at 1 (es_pid x) w Hs1); [reflexivity|reflexivity|done]).
  pose proof (byte_at_run 0 (b := es_type x) w Hs1 eq_refl) as Et. rewrite Z.add_0_r in Et. rewrite (io_bind_run _ _ _ _ _ Et).
  destruct (stream_run p x v w Hx Hok Hs1 Hv) as [E Hok'].
  rewrite (io_bind_run _ _ _ _ _ E).
  replace (Z.of_nat (length (stream_bytes x) + length (streams_bytes l)) - (zlen (descs_bytes (es_descs x)) + 5))
    with (zlen (streams_bytes l)) by lia.
  destruct (IH fuel (p + zlen (descs_bytes (es_descs x)) + 5) (stream_step v x) (put_sv s (stream_step v x) w)) as [E' Hok''].
  { done. } { done. }
  { by replace (p + zlen (descs_bytes (es_descs x)) + 5) with (p + (5 + zlen (descs_bytes (es_descs x)))) by lia. }
  { by eapply sv_at_put. } { lia. }
  rewrite E'. split; [|done]. by rewrite put_put.
Qed.
End Pmt.

(** The body of the section: what is between the header and the CRC. *)
Definition pmt_body (pcr : Z) (info : list desc) (l : list stream) : list Z :=
  word13 pcr ++ word12 15 (zlen (descs_bytes info)) ++ descs_bytes info ++ streams_bytes l.

Definition pmt_fields (pcr : Z) (l : list stream) (v : service) : service := foldl stream_step (set_sv_pcr_pid pcr v) l.

Lemma pmt_run o e iconv buf p t i id pcr info l tp v w :
  0 <= pcr < 8192 -> zlen (descs_bytes info) < 4096 -> Forall stream_ok l -> sits buf p (pmt_body pcr info l) ->
  st_current (w_state w) = Some t -> st_transponders (w_state w) !! t = Some tp ->
  service_index id (tp_services tp) = Some i -> tp_services tp !! i = Some v -> arrays_ok v ->
  parse_pmt o e iconv buf p (zlen (pmt_body pcr info l)) id w = Ok (tt, put_sv (t, i) (pmt_fields pcr l v) w).
Proof.
  intros Hpcr Hinfo Hl Hs Hc Et Ei Ev Hok. assert (Hv : sv_at (t, i) v w) by (by exists tp).
  unfold parse_pmt. erewrite io_bind_run by (unfold current_tp; erewrite io_bind_run by reflexivity; rewrite Hc; reflexivity).
  unfold find_service. rewrite bind_assoc_run.
  erewrite io_bind_run by (rewrite get_tp_run; unfold deref; rewrite Et; reflexivity).
  erewrite io_bind_run by reflexivity. rewrite Ei. cbn [fmap option_fmap option_map].
  unfold pmt_body in *. destruct (sits_app _ _ _ _ Hs) as [Hs1 Hs']. destruct (sits_app _ _ _ _ Hs') as [Hs2 Hs''].
  destruct (sits_app _ _ _ _ Hs'') as [_ Hs3]. cbn [length word13 word12] in Hs2, Hs3.
  pose proof (word13_at 0 pcr w Hs1 eq_refl eq_refl Hpcr) as Er. rewrite Z.add_0_r in Er. rewrite (io_bind_run _ _ _ _ _ Er).
  rewrite put_run with (v := v) by done. set (v1 := set_sv_pcr_pid pcr v).
  pose proof (word12_at 0 15 (zlen (descs_bytes info)) (put_sv (t, i) v1 w) Hs2 eq_refl eq_refl ltac:(lia)) as El.
  rewrite Z.add_0_r in El. change (p + Z.of_nat 2) with (p + 2) in El. rewrite (io_bind_run _ _ _ _ _ El).
  match goal with |- context [parse_streams _ _ _ _ _ ?q ?n] =>
    replace q with (p + Z.of_nat 2 + Z.of_nat 2 + zlen (descs_bytes info)) by lia;
    replace n with (zlen (streams_bytes l)) by (rewrite !length_app; cbn [length word13 word12]; lia) end.
  destruct (streams_run o e iconv buf (t, i) l
    (S (Z.to_nat (zlen (word13 pcr ++ word12 15 (zlen (descs_bytes info)) ++ descs_bytes info ++ streams_bytes l))))
    (p + Z.of_nat 2 + Z.of_nat 2 + zlen (descs_bytes info)) v1 (put_sv (t, i) v1 w)) as [E Hok'].
  { done. } { by destruct Hok; constructor. } { done. } { by eapply sv_at_put. } { rewrite !length_app. lia. }
  rewrite (io_bind_run _ _ _ _ _ E), put_put. by apply message_run with (v := pmt_fields pcr l v); [|eapply sv_at_put].
Qed.

(** ** Names *)

(** The characters of the standard table that are no control codes. *)
Definition latin_char (c : Z) : Prop := 0x20 <= c < 0x80 \/ 0xa0 <= c < 0x100.

Definition utf8_of (t : list Z) : list Z := List.concat ((λ c, nth (Z.to_nat c) en300468_latin_00_to_utf8 []) <$> t).

(** The string that is kept of a text; NULL for an empty one. *)
Definition text_memory (t : list Z) : option mem := match t with [] => None | _ => Some (utf8_of t ++ [0]) end.

Lemma latin_run t : Forall latin_char t -> latin_00 t = Ok (utf8_of t).
Proof.
  induction 1 as [|c t Hc H IH]; [done|]. cbn [latin_00].
  assert (Hn : (Z.to_nat c < length en300468_latin_00_to_utf8)%nat).
  { change (length en300468_latin_00_to_utf8) with (Z.to_nat 256). destruct Hc; lia. }
  apply lookup_lt_is_Some in Hn as [x Ex]. assert (E : at_ en300468_latin_00_to_utf8 c = Ok x).
  { unfold at_, lookup_z. rewrite (proj2 (Z.leb_le _ _)) by (destruct Hc; lia). by rewrite Ex. }
  unfold mbind, res_bind. rewrite E, IH. unfold utf8_of. rewrite fmap_cons. cbn [List.concat].
  by rewrite (nth_lookup_Some _ _ [] _ Ex).
Qed.

Lemma no_control t : Forall latin_char t -> remove_control t false = t.
Proof.
  induction 1 as [|c t Hc H IH]; [done|]. cbn [remove_control]. rewrite IH.
  assert (E : (0x20 <=? c) && ((c <? 0x80) || (0x9f <? c)) = true).
  { apply andb_true_intro. split; [apply Z.leb_le; destruct Hc; lia|]. apply orb_true_iff.
    destruct Hc; [left; apply Z.ltb_lt; lia|right; apply Z.ltb_lt; lia]. }
  by rewrite E.
Qed.

Lemma charset_plain d c t n : 0x20 <= c -> text_charset d (c :: t) n = Ok (d, c :: t, n).
Proof.
  intros Hc. unfold text_charset. change (at_ (c :: t) 0) with (Ok c). unfold mbind at 1, res_bind at 1.
  by rewrite (proj2 (Z.leb_le 0x20 c)).
Qed.

Lemma copy_run junk iconv t rest : Forall latin_char t ->
  descriptorcpy (lit "ISO-6937") (lit "UTF-8") junk iconv (t ++ rest) (zlen t) = Ok (text_memory t).
Proof.
  intros Ht. destruct t as [|c t]; [done|]. unfold descriptorcpy. rewrite (proj2 (Z.eqb_neq _ 0)) by (cbn [length]; lia).
  pose proof Ht as Ht'. apply Forall_cons in Ht' as [Hc _].
  assert (E : text_charset (lit "ISO-6937") ((c :: t) ++ rest) (zlen (c :: t)) =
    Ok (lit "ISO-6937", (c :: t) ++ rest, zlen (c :: t))).
  { apply charset_plain. destruct Hc; lia. }
  unfold mbind, res_bind at 1. rewrite E. cbv zeta beta iota.
  change (strncasecmp_eq 8 (lit "ISO-6937") (lit "ISO-8859") || strcasecmp_eq (lit "ISO-6937") (lit "ISO-6937")) with true.
  change (strcasecmp_eq (lit "ISO-6937") (lit "ISO-6937")) with true.
  change (strcasecmp_eq (lit "UTF-8") (lit "UTF-8")) with true. cbv iota. unfold without_control, bytes_at.
  change (0 <? 0) with false. rewrite length_app, (proj2 (Z.ltb_ge _ _)) by lia. change (Z.to_nat 0) with 0%nat. cbn [orb drop].
  unfold mbind, res_bind, mret, res_ret. rewrite Nat2Z.id, !drop_0, take_app_length, no_control by done.
  rewrite !length_app, (proj2 (Z.ltb_ge _ _)) by lia. rewrite <- app_assoc, take_app_length. by rewrite latin_run.
Qed.

(** ** SDT *)

(** A service in the table: the service descriptor is among others, which the scanner does not read. *)
Record sdt_entry := SdtEntry {
  se_id : Z;
  se_eit : Z;  (** what there is about its events *)
  se_running : Z;
  se_scrambled : bool;
  se_before : list desc;
  se_type : Z;
  se_provider : list Z;
  se_name : list Z;
  se_after : list desc;
}.

Definition service_desc (x : sdt_entry) : desc :=
  (0x48, se_type x :: zlen (se_provider x) :: se_provider x ++ zlen (se_name x) :: se_name x).

Definition se_descs (x : sdt_entry) : list desc := se_before x ++ service_desc x :: se_after x.

Definition entry_bytes (x : sdt_entry) : list Z :=
  word16 (se_id x) ++ se_eit x :: word12 (se_running x * 2 + (if se_scrambled x then 1 else 0)) (zlen (descs_bytes (se_descs x))) ++
  descs_bytes (se_descs x).

Definition entries_bytes (l : list sdt_entry) : list Z := List.concat (entry_bytes <$> l).

(** A descriptor that says nothing about the service. *)
Definition other_desc (d : desc) : Prop := d.1 <> 0x48 /\ d.1 <> 0x53 /\ desc_ok d.

Record entry_ok (x : sdt_entry) : Prop := {
  eo_id : 0 < se_id x < 65536;
  eo_running : 0 <= se_running x < 8;
  eo_length : zlen (descs_bytes (se_descs x)) < 4096;
  eo_names : Forall latin_char (se_provider x) /\ Forall latin_char (se_name x);
  eo_fits : zlen (se_provider x) + zlen (se_name x) + 3 <= 253;
  eo_others : Forall other_desc (se_before x) /\ Forall other_desc (se_after x);
}.

(** The body of the section, with the number of the network in front. *)
Definition sdt_body (network : Z) (l : list sdt_entry) : list Z := word16 network ++ 0xff :: entries_bytes l.

(** What the descriptors, and the whole entry, do to the service. *)
Definition name_fields (x : sdt_entry) (v : service) : service :=
  set_sv_service_name (text_memory (se_name x)) (set_sv_provider_name (text_memory (se_provider x)) (set_sv_type (se_type x) v)).

Definition sdt_fields (x : sdt_entry) (v : service) : service :=
  name_fields x (set_sv_scrambled (if se_scrambled x then 1 else 0) (set_sv_running (se_running x) v)).

(** The character sets that the program uses in an UTF-8 locale. *)
Definition utf8_options (o : scan_options) : Prop :=
  so_default_charset o = lit "ISO-6937" /\ so_output_charset o = lit "UTF-8".

Section Sdt.
Context (o : scan_options) (e : scan_env) (iconv : list Z -> list Z -> option (list Z -> list Z)) (buf : mem).
Context (Ho : utf8_options o).

Lemma name_text_run p t w : Forall latin_char t -> sits buf p t -> copy_text o e iconv buf p (zlen t) w = Ok (text_memory t, w).
Proof.
  intros Ht (pre & post & -> & ->). unfold copy_text. destruct Ho as [-> ->]. rewrite Nat2Z.id, drop_app_length.
  unfold lift. by rewrite copy_run.
Qed.

Lemma service_desc_run x s p v w : entry_ok x -> sits buf p (desc_bytes (service_desc x)) -> sv_at s v w ->
  parse_service_descriptor o e iconv buf p s w = Ok (tt, put_sv s (name_fields x v) w).
Proof.
  intros [_ _ _ [Hpr Hna] Hf _] Hs Hv. unfold parse_service_descriptor.
  set (d := service_desc x) in *. set (n1 := zlen (se_provider x)).
  assert (Eb : desc_bytes d = [0x48; zlen d.2; se_type x; n1] ++ se_provider x ++ [zlen (se_name x)] ++ se_name x) by reflexivity.
  rewrite Eb in Hs. destruct (sits_app _ _ _ _ Hs) as [Hs1 Hs']. destruct (sits_app _ _ _ _ Hs') as [Hs2 Hs''].
  destruct (sits_app _ _ _ _ Hs'') as [Hs3 Hs4]. cbn [length] in Hs2, Hs3, Hs4. fold n1 in Hs3, Hs4.
  erewrite io_bind_run by (apply (byte_at_run 2 w Hs1); reflexivity).
  rewrite put_run with (v := v) by done. set (w1 := put_sv s _ w).
  erewrite io_bind_run by (apply (byte_at_run 3 w1 Hs1); reflexivity).
  change (p + Z.of_nat 4) with (p + 4) in *. erewrite io_bind_run by (by apply name_text_run).
  erewrite put_run by (by eapply sv_at_put). unfold w1. rewrite put_put. cbv zeta. set (w2 := put_sv s _ w).
  pose proof (byte_at_run 0 (b := zlen (se_name x)) w2 Hs3 eq_refl) as En. rewrite Z.add_0_r in En.
  rewrite (io_bind_run _ _ _ _ _ En). change (p + 4 + n1 + Z.of_nat 1) with (p + 4 + n1 + 1) in Hs4.
  erewrite io_bind_run by (by apply name_text_run). erewrite upd_sv_at by (by eapply sv_at_put). unfold w2. by rewrite put_put.
Qed.

(** The descriptors of one entry. *)
Definition sdt_step (x : sdt_entry) (v : service) (d : desc) : service := if d.1 =? 0x48 then name_fields x v else v.

Lemma sdt_desc_run x s d p v w : entry_ok x -> (other_desc d \/ d = service_desc x) -> True ->
  sits buf p (desc_bytes d) -> sv_at s v w ->
  parse_descriptor o e iconv SDT d.1 buf p (ServiceData s) w = Ok (ServiceData s, put_sv s (sdt_step x v d) w) /\ True.
Proof.
  intros Hx Hd _ Hs Hv. split; [|done]. unfold sdt_step. destruct Hd as [(H1 & H2 & _)| ->].
  - rewrite (proj2 (Z.eqb_neq _ _)), put_same by done. unfold parse_descriptor.
    repeat first [reflexivity | contradiction | case_match | rewrite decide_False by done].
  - cbn [service_desc fst Z.eqb Pos.eqb]. unfold parse_descriptor, with_service. rewrite decide_True by done.
    cbn [service_data]. erewrite io_bind_run by reflexivity. by rewrite (io_bind_run _ _ _ _ _ (service_desc_run x s p v w Hx Hs Hv)).
Qed.

Lemma sdt_fold x v : entry_ok x -> foldl (sdt_step x) v (se_descs x) = name_fields x v.
Proof.
  intros [_ _ _ _ _ [Hb Ha]]. assert (F : forall l v, Forall other_desc l -> foldl (sdt_step x) v l = v).
  { induction l as [|d l IH]; intros u Hl; [done|]. apply Forall_cons in Hl as [(H1 & _) Hl]. cbn. unfold sdt_step at 2.
    rewrite (proj2 (Z.eqb_neq _ _) H1). by apply IH. }
  unfold se_descs. rewrite foldl_app. cbn [foldl]. by rewrite (F (se_before x)), (F (se_after x)).
Qed.
End Sdt.

(** ** The services of the current transponder

    Their list, but for the filters that belong to them. *)

Definition forget (v : service) : service := set_sv_priv None v.

Record has (t : nat) (ts : Z) (l : list service) (w : world scan_state) : Prop := {
  hs_inv : scan_inv (w_state w);
  hs_current : st_current (w_state w) = Some t;
  hs_services : exists tp, st_transponders (w_state w) !! t = Some tp /\ forget <$> tp_services tp = l /\
    tp_transport_stream_id tp = ts;
}.

Definition new_service (ts id : Z) : service := set_sv_transport_stream_id ts (set_sv_service_id id zero_service).

(** The service with the number is changed; it is new at the end of the list if there is none. *)
Definition update_service (ts id : Z) (F : service -> service) (l : list service) : list service :=
  match service_index id l with Some i => alter F i l | None => l ++ [F (new_service ts id)] end.

(** A change that has nothing to do with the filter, nor with the number. *)
Definition field_update (F : service -> service) : Prop :=
  forall v, F (forget v) = forget (F v) /\ sv_service_id (F v) = sv_service_id v.

Lemma index_forget id l : service_index id (forget <$> l) = service_index id l.
Proof. induction l as [|v l IH]; [done|]. cbn. by rewrite IH. Qed.

Lemma index_some id l i : service_index id l = Some i -> exists v, l !! i = Some v /\ sv_service_id v = id.
Proof.
  revert i. induction l as [|v l IH]; intros i; [done|]. cbn. destruct (Z.eqb_spec (sv_service_id v) id).
  { intros [= <-]. by exists v. }
  destruct (service_index id l) as [j|]; [|done]. intros [= <-]. by apply IH.
Qed.

Lemma index_snoc id l v : service_index id l = None -> sv_service_id v = id -> service_index id (l ++ [v]) = Some (length l).
Proof.
  induction l as [|x l IH]; cbn; intros H E.
  { by rewrite (proj2 (Z.eqb_eq _ _)). }
  destruct (sv_service_id x =? id); [done|]. destruct (service_index id l); [done|]. by rewrite IH.
Qed.

Lemma has_put t ts l w i v v' : has t ts l w -> sv_at (t, i) v w -> sv_service_id v' = sv_service_id v ->
  has t ts (<[i := forget v']> l) (put_sv (t, i) v' w).
Proof.
  intros [Hi Hc (tp & Et & El & Ets)] (tp' & Et' & Ev) Hid. cbn in Et', Ev. rewrite Et in Et'. injection Et' as <-.
  constructor; [|done|].
  - apply (inv_same (w_state w)); try done. cbn. apply Forall_alter; [apply Hi|].
    intros x Ex Hx. rewrite Et in Ex. injection Ex as <-. cbn. apply (ids_ok_ids (tp_services tp)); [|done].
    rewrite list_fmap_insert. apply list_insert_id. by rewrite list_lookup_fmap, Ev, Hid.
  - eexists. cbn. rewrite list_lookup_alter_eq, Et. split; [done|]. cbn. by rewrite list_fmap_insert, El.
Qed.

(** The service with a number, which may be new. *)
Lemma find_or_alloc_run t ts l w id : has t ts l w -> 0 <= id < 65536 ->
  exists i v w1 l1, find_or_alloc_service t id w = Ok ((t, i), w1) /\ has t ts l1 w1 /\ sv_at (t, i) v w1 /\
    sv_service_id v = id /\ l1 !! i = Some (forget v) /\ forall F, update_service ts id F l = <[i := F (forget v)]> l1.
Proof.
  intros [Hi Hc (tp & Et & El & Ets)] Hid. unfold find_or_alloc_service, find_service. rewrite bind_assoc_run.
  erewrite io_bind_run by (rewrite get_tp_run; unfold deref; rewrite Et; reflexivity). erewrite io_bind_run by reflexivity.
  destruct (service_index id (tp_services tp)) as [i|] eqn:Ei; cbn [fmap option_fmap option_map].
  - destruct (index_some _ _ _ Ei) as (v & Ev & Hv).
    assert (Elv : l !! i = Some (forget v)) by (by rewrite <- El, list_lookup_fmap, Ev).
    exists i, v, w, l. split_and!; try done; [by constructor; [..|exists tp]|by exists tp|].
    intros F. unfold update_service. rewrite <- El, index_forget, Ei, El. apply list_eq. intros j.
    destruct (decide (j = i)) as [->|Hne].
    + rewrite list_lookup_alter_eq, Elv. cbn. by rewrite list_lookup_insert_eq by (by eapply lookup_lt_Some).
    + by rewrite list_lookup_alter_ne, list_lookup_insert_ne by done.
  - unfold alloc_service. erewrite io_bind_run by (rewrite get_tp_run; unfold deref; rewrite Et; reflexivity).
    cbv zeta. erewrite io_bind_run by reflexivity. rewrite Ets. fold (new_service ts id).
    set (v := new_service ts id). set (tp' := set_tp_services _ tp). set (w1 := World _ _ _).
    exists (length (tp_services tp)), v, w1, (l ++ [v]). split; [done|].
    assert (Hlen : length l = length (tp_services tp)) by (by rewrite <- El, length_fmap).
    assert (Elast : (l ++ [v]) !! length (tp_services tp) = Some v) by (by rewrite <- Hlen, lookup_app_r, Nat.sub_diag).
    assert (Et1 : st_transponders (w_state w1) !! t = Some tp').
    { cbn. apply list_lookup_insert_eq. by eapply lookup_lt_Some. }
    split_and!; try done.
    + constructor; [|done|].
      * apply (inv_same (w_state w)); try done. cbn. apply Forall_insert; [apply Hi|]. cbn.
        apply ids_ok_snoc; [|by apply service_index_none|done].
        by apply (Forall_lookup_1 (λ t, ids_ok (tp_services t)) _ _ _ (si_services _ Hi) Et).
      * exists tp'. split_and!; [done| |done]. cbn. rewrite fmap_app, El. done.
    + exists tp'. split; [done|]. cbn. by rewrite lookup_app_r, Nat.sub_diag.
    + intros F. unfold update_service. rewrite <- El at 1. rewrite index_forget, Ei. fold v.
      rewrite <- Hlen. rewrite insert_app_r_alt by lia. by rewrite Nat.sub_diag.
Qed.

(** *** The tables, on the list of services *)

Lemma foldl_field {A} (step : service -> A -> service) l :
  (forall x, field_update (λ v, step v x)) -> field_update (λ v, foldl step v l).
Proof.
  intros H. induction l as [|x l IH]; intros v; [done|]. cbn. destruct (H x v) as [E1 E2]. rewrite E1.
  destruct (IH (step v x)) as [E3 E4]. split; [done|]. by rewrite E4.
Qed.

Lemma language_field d : field_update (λ v, language_step v d).
Proof. intros v. unfold language_step. cbn. by destruct (_ && _). Qed.

Lemma stream_field x : field_update (λ v, stream_step v x).
Proof.
  intros v. unfold stream_step, audio_step.
  change (sv_video_pid (forget v)) with (sv_video_pid v). change (sv_audio_num (forget v)) with (sv_audio_num v).
  change (sv_audio_pid (forget v)) with (sv_audio_pid v).
  destruct (is_video x); [by destruct (_ =? 0)|]. destruct (is_audio x).
  - destruct (_ <? 32); [|done]. cbv zeta.
    set (v1 := set_sv_audio_pid _ v).
    destruct (foldl_field language_step (es_descs x) language_field v1) as [E1 E2].
    change (foldl language_step (set_sv_audio_pid (<[Z.to_nat (sv_audio_num v) := es_pid x]> (sv_audio_pid v)) (forget v))
      (es_descs x)) with (foldl language_step (forget v1) (es_descs x)).
    rewrite E1. by split.
  - by destruct (is_teletext x), (is_subtitling x), (is_ac3 x).
Qed.

Lemma pmt_field pcr l : field_update (pmt_fields pcr l).
Proof. intros v. unfold pmt_fields. exact (foldl_field stream_step l stream_field (set_sv_pcr_pid pcr v)). Qed.

Lemma sdt_field x : field_update (sdt_fields x).
Proof. by intros v. Qed.

Section Lists.
Context (o : scan_options) (e : scan_env) (iconv : list Z -> list Z -> option (list Z -> list Z)) (buf : mem).
Context (t : nat) (ts : Z).

(** The invariant depends on the filter as little as on the rest of the service. *)
Lemma arrays_forget v : arrays_ok (forget v) -> arrays_ok v.
Proof. intros []. by constructor. Qed.

Lemma current_run l w : has t ts l w -> current_tp w = Ok (t, w).
Proof. intros H. unfold current_tp. erewrite io_bind_run by reflexivity. by rewrite (hs_current _ _ _ _ H). Qed.

(** The PMT of a service that is known. *)
Definition pmt_update (id pcr : Z) (x : list stream) (l : list service) : list service :=
  match service_index id l with Some i => alter (pmt_fields pcr x) i l | None => l end.

Lemma pmt_list p id pcr info x l w :
  0 <= pcr < 8192 -> zlen (descs_bytes info) < 4096 -> Forall stream_ok x -> sits buf p (pmt_body pcr info x) ->
  Forall arrays_ok l -> has t ts l w ->
  exists w', parse_pmt o e iconv buf p (zlen (pmt_body pcr info x)) id w = Ok (tt, w') /\ has t ts (pmt_update id pcr x l) w'.
Proof.
  intros Hpcr Hinfo Hx Hs Hl Hw. pose proof Hw as [_ Hc (tp & Et & El & Ets)]. unfold pmt_update.
  rewrite <- El, index_forget. destruct (service_index id (tp_services tp)) as [i|] eqn:Ei.
  - destruct (index_some _ _ _ Ei) as (v & Ev & Hv). assert (Elv : l !! i = Some (forget v)) by (by rewrite <- El, list_lookup_fmap, Ev).
    assert (Hok : arrays_ok v) by (by apply arrays_forget; apply (Forall_lookup_1 _ _ _ _ Hl Elv)).
    eexists. split; [by eapply pmt_run|]. rewrite El. destruct (pmt_field pcr x v) as [E1 E2].
    replace (alter (pmt_fields pcr x) i l) with (<[i := forget (pmt_fields pcr x v)]> l).
    { apply (has_put t ts l w i v (pmt_fields pcr x v) Hw); [by exists tp|done]. }
    apply list_eq. intros j. destruct (decide (j = i)) as [->|Hne].
    + rewrite list_lookup_insert_eq by (by eapply lookup_lt_Some). by rewrite list_lookup_alter_eq, Elv, <- E1.
    + by rewrite list_lookup_insert_ne, list_lookup_alter_ne by done.
  - exists w. split; [|by rewrite El]. unfold parse_pmt. rewrite (io_bind_run _ _ _ _ _ (current_run l w Hw)).
    unfold find_service. rewrite bind_assoc_run.
    erewrite io_bind_run by (rewrite get_tp_run; unfold deref; rewrite Et; reflexivity).
    erewrite io_bind_run by reflexivity. by rewrite Ei.
Qed.

Lemma entry_length x : zlen (entry_bytes x) = 5 + zlen (descs_bytes (se_descs x)).
Proof. unfold entry_bytes. rewrite !length_app. cbn [length]. rewrite length_app. cbn [length word16 word12]. lia. Qed.

(** Two bits and three above the length. *)
Lemma flags_value r s h : 0 <= r < 8 -> 0 <= s < 2 -> 0 <= h < 16 ->
  Z.land (Z.shiftr ((r * 2 + s) * 16 + h) 4) 1 = s /\ Z.land (Z.shiftr ((r * 2 + s) * 16 + h) 5) 0x7 = r.
Proof.
  intros Hr Hs Hh. rewrite !Z.shiftr_div_pow2 by lia. change (2 ^ 4) with 16. change (2 ^ 5) with 32.
  match goal with |- Z.land ?a 1 = _ /\ Z.land ?b 7 = _ => change (Z.land a (Z.ones 1) = s /\ Z.land b (Z.ones 3) = r) end.
  rewrite !Z.land_ones by lia.
  change (2 ^ 1) with 2. change (2 ^ 3) with 8. split.
  - replace (((r * 2 + s) * 16 + h) / 16) with (s + r * 2) by (apply (Z.div_unique _ _ _ h); lia).
    rewrite Z.mod_add by lia. apply Z.mod_small. lia.
  - replace (((r * 2 + s) * 16 + h) / 32) with r by (apply (Z.div_unique _ _ _ (s * 16 + h)); lia).
    apply Z.mod_small. lia.
Qed.

Context (Ho : utf8_options o).

Definition sdt_update (x : list sdt_entry) (l : list service) : list service :=
  foldl (λ l x, update_service ts (se_id x) (sdt_fields x) l) l x.

Lemma entry_run p x l w : entry_ok x -> sits buf p (entry_bytes x) -> has t ts l w ->
  exists s w1, find_or_alloc_service t (se_id x) w = Ok (s, w1) /\
    exists w2, (upd_sv s (λ v, set_sv_scrambled (if se_scrambled x then 1 else 0) (set_sv_running (se_running x) v));;
      parse_descriptors o e iconv SDT buf (p + 5) (zlen (descs_bytes (se_descs x))) (ServiceData s)) w1 = Ok (ServiceData s, w2) /\
    has t ts (update_service ts (se_id x) (sdt_fields x) l) w2.
Proof.
  intros Hx Hs Hw. pose proof Hx as [Hid Hrun Hlen Hnames Hfits [Hb Ha]].
  destruct (find_or_alloc_run t ts l w (se_id x) Hw ltac:(lia)) as (i & v & w1 & l1 & E & Hw1 & Hv & Hvid & El & Hup).
  exists (t, i), w1. split; [done|]. rewrite put_run with (v := v) by done. set (v1 := set_sv_scrambled _ _).
  set (w2 := put_sv (t, i) v1 w1).
  assert (Hds : sits buf (p + 5) (descs_bytes (se_descs x))).
  { change (entry_bytes x) with ((word16 (se_id x) ++ se_eit x :: word12 (se_running x * 2 + (if se_scrambled x then 1 else 0))
      (zlen (descs_bytes (se_descs x)))) ++ descs_bytes (se_descs x)) in Hs. by apply sits_app in Hs as [_ Hs]. }
  destruct (descriptors_run o e iconv SDT buf (t, i) (sdt_step x) (λ _, True) (λ d, other_desc d \/ d = service_desc x)
    (λ d p v w, sdt_desc_run o e iconv buf Ho x (t, i) d p v w Hx) (se_descs x) (p + 5) v1 w2) as [E' _].
  { unfold se_descs. apply Forall_app. split; [by eapply Forall_impl; [exact Hb|auto]|]. constructor; [by right|].
    eapply Forall_impl; [exact Ha|auto]. }
  { unfold se_descs. apply Forall_app. split; [by eapply Forall_impl; [exact Hb|intros d (_ & _ & H)]|]. constructor.
    - unfold desc_ok, service_desc. cbn [snd length]. rewrite length_app. cbn [length]. lia.
    - by eapply Forall_impl; [exact Ha|intros d (_ & _ & H)]. }
  { done. } { done. } { by eapply sv_at_put. }
  exists (put_sv (t, i) (sdt_fields x v) w1). rewrite E', sdt_fold by done. unfold w2. rewrite put_put. split; [done|].
  rewrite Hup. apply (has_put t ts l1 w1 i v (sdt_fields x v) Hw1 Hv). done.
Qed.

Lemma entries_run x : forall fuel p l w n, Forall entry_ok x -> sits buf p (entries_bytes x) -> has t ts l w -> 0 <= n < 5 ->
  (Z.to_nat (zlen (entries_bytes x) + n) < fuel)%nat ->
  exists w', parse_sdt_entries o e iconv fuel buf p (zlen (entries_bytes x) + n) w = Ok (tt, w') /\ has t ts (sdt_update x l) w'.
Proof.
  induction x as [|x xs IH]; intros fuel p l w n Hx Hs Hw Hn Hf; (destruct fuel as [|fuel]; [lia|]).
  { exists w. split; [|done]. cbn [parse_sdt_entries entries_bytes fmap list_fmap List.concat length].
    by rewrite (proj2 (Z.leb_gt _ _)) by lia. }
  apply Forall_cons in Hx as [Hx Hxs]. change (entries_bytes (x :: xs)) with (entry_bytes x ++ entries_bytes xs) in *.
  destruct (sits_app _ _ _ _ Hs) as [Hs1 Hs2]. rewrite entry_length in Hs2. rewrite length_app in Hf |- *.
  pose proof (entry_length x) as Hlen. cbn [parse_sdt_entries]. rewrite (proj2 (Z.leb_le _ _)) by lia.
  pose proof Hx as [Hid Hrun Hl _ _ _]. set (f := se_running x * 2 + (if se_scrambled x then 1 else 0)).
  pose proof (word16_at 0 (se_id x) w Hs1 eq_refl eq_refl ltac:(lia)) as E0. rewrite Z.add_0_r in E0.
  rewrite (io_bind_run _ _ _ _ _ E0).
  erewrite io_bind_run by (apply (word12_at 3 f (zlen (descs_bytes (se_descs x))) w Hs1); [reflexivity|reflexivity|lia]).
  rewrite (proj2 (Z.ltb_ge _ _)) by lia. rewrite (io_bind_run _ _ _ _ _ (current_run l w Hw)).
  destruct (entry_run p x l w Hx Hs1 Hw) as (s & w1 & E1 & w2 & E2 & Hw2). rewrite (io_bind_run _ _ _ _ _ E1).
  erewrite io_bind_run by (apply (byte_at_run 3 (b := f * 16 + zlen (descs_bytes (se_descs x)) / 256) w1 Hs1); reflexivity).
  assert (Hh : 0 <= zlen (descs_bytes (se_descs x)) / 256 < 16).
  { split; [apply Z.div_pos; lia|apply Z.div_lt_upper_bound; lia]. }
  destruct (flags_value (se_running x) (if se_scrambled x then 1 else 0) _ Hrun ltac:(destruct (se_scrambled x); lia) Hh) as [F1 F2].
  fold f in F1, F2. rewrite F1, F2. rewrite <- bind_assoc_run, (io_bind_run _ _ _ _ _ E2).
  match goal with |- context [parse_sdt_entries _ _ _ _ _ ?q ?m] =>
    replace q with (p + (5 + zlen (descs_bytes (se_descs x)))) by lia; replace m with (zlen (entries_bytes xs) + n) by lia end.
  by apply IH; [| | | |lia].
Qed.

Lemma sdt_list p network x l w : Forall entry_ok x -> sits buf p (sdt_body network x) -> has t ts l w ->
  exists w', parse_sdt o e iconv buf p (zlen (sdt_body network x)) w = Ok (tt, w') /\ has t ts (sdt_update x l) w'.
Proof.
  intros Hx Hs Hw. unfold parse_sdt. change (sdt_body network x) with ((word16 network ++ [0xff]) ++ entries_bytes x) in *.
  destruct (sits_app _ _ _ _ Hs) as [_ Hs2]. rewrite length_app. change (length (word16 network ++ [0xff])) with 3%nat in *.
  replace (Z.of_nat (3 + length (entries_bytes x))) with (zlen (entries_bytes x) + 3) by lia.
  by apply entries_run; [| | |lia|lia].
Qed.

(** *** PAT *)

Definition pat_bytes (l : list (Z * Z)) : list Z := List.concat ((λ x, word16 x.1 ++ word13 x.2) <$> l).

(** The number of a service and the PID of its PMT; the number 0 is for the NIT. *)
Definition pat_ok (x : Z * Z) : Prop := 0 <= x.1 < 65536 /\ 0 <= x.2 < 8192.

Definition pat_update (x : list (Z * Z)) (l : list service) : list service :=
  foldl (λ l x, if x.1 =? 0 then l else update_service ts x.1 (set_sv_pmt_pid x.2) l) l x.

Lemma pat_entry_run id pid l w : 0 < id < 65536 -> has t ts l w ->
  exists w', parse_pat_entry o e id pid w = Ok (tt, w') /\ has t ts (update_service ts id (set_sv_pmt_pid pid) l) w'.
Proof.
  intros Hid Hw. unfold parse_pat_entry. rewrite (proj2 (Z.eqb_neq id 0)) by lia.
  rewrite (io_bind_run _ _ _ _ _ (current_run l w Hw)).
  destruct (find_or_alloc_run t ts l w id Hw ltac:(lia)) as (i & v & w1 & l1 & E & Hw1 & Hv & Hvid & El & Hup).
  rewrite (io_bind_run _ _ _ _ _ E), put_run with (v := v) by done. set (v1 := set_sv_pmt_pid pid v).
  set (w2 := put_sv (t, i) v1 w1). assert (Hv1 : sv_at (t, i) v1 w2) by (by eapply sv_at_put).
  pose proof (has_put t ts l1 w1 i v v1 Hw1 Hv eq_refl) as Hw2. fold w2 in Hw2.
  rewrite (Hup (set_sv_pmt_pid pid)). change (set_sv_pmt_pid pid (forget v)) with (forget v1).
  rewrite (io_bind_run _ _ _ _ _ (get_sv_at (t, i) v1 w2 Hv1)). destruct (sv_priv v1) eqn:Ep; [by exists w2|].
  destruct (negb (sv_pmt_pid v1 =? 0)); [|by exists w2]. pose proof Hw2 as [Hi2 Hc2 (tp & Et & Etl & Ets)].
  pose proof Hv1 as (tp' & Et' & Ev). cbn [fst snd] in Et', Ev. rewrite Et in Et'. injection Et' as <-.
  destruct (fine_new_filter o e t i (sv_pmt_pid v1) (sv_service_id v1) tp v1 w2 Hi2 Hc2 Et Ev Ep)
    as (w3 & E3 & Hi3 & _ & _ & Hc3 & b & Etps). exists w3. split; [done|]. constructor; [done|by rewrite Hc3|].
  eexists. rewrite Etps. split; [by apply list_lookup_insert_eq; eapply lookup_lt_Some|]. split; [|done].
  cbn [tp_services set_tp_services]. rewrite list_fmap_insert. change (forget (set_sv_priv (Some b) v1)) with (forget v1).
  rewrite list_insert_id; [done|]. by rewrite list_lookup_fmap, Ev.
Qed.

Lemma pat_list x : forall p l w, Forall pat_ok x -> sits buf p (pat_bytes x) -> has t ts l w ->
  exists w', parse_pat o e (length x) buf p w = Ok (tt, w') /\ has t ts (pat_update x l) w'.
Proof.
  induction x as [|[id pid] x IH]; intros p l w Hx Hs Hw; [by exists w|].
  apply Forall_cons in Hx as [[Hid Hpid] Hx]. cbn [fst snd] in Hid, Hpid.
  change (pat_bytes ((id, pid) :: x)) with ((word16 id ++ word13 pid) ++ pat_bytes x) in Hs.
  destruct (sits_app _ _ _ _ Hs) as [Hs1 Hs2]. cbn [length parse_pat].
  change (p + zlen (word16 id ++ word13 pid)) with (p + 4) in Hs2.
  pose proof (word16_at 0 id w Hs1 eq_refl eq_refl Hid) as E0. rewrite Z.add_0_r in E0. rewrite (io_bind_run _ _ _ _ _ E0).
  change (pat_update ((id, pid) :: x) l) with
    (pat_update x (if id =? 0 then l else update_service ts id (set_sv_pmt_pid pid) l)).
  destruct (Z.eqb_spec id 0) as [Ez|Ez].
  { erewrite io_bind_run by reflexivity. by apply IH. }
  rewrite bind_assoc_run. rewrite (io_bind_run _ _ _ _ _ (word13_at 2 pid w Hs1 eq_refl eq_refl Hpid)).
  destruct (pat_entry_run id pid l w ltac:(lia) Hw) as (w1 & E1 & Hw1). rewrite (io_bind_run _ _ _ _ _ E1). by apply IH.
Qed.

Lemma pat_length x : zlen (pat_bytes x) = 4 * zlen x.
Proof.
  induction x as [|y x IH]; [done|]. change (pat_bytes (y :: x)) with ((word16 y.1 ++ word13 y.2) ++ pat_bytes x).
  rewrite length_app. change (length (word16 y.1 ++ word13 y.2)) with 4%nat. cbn [length]. lia.
Qed.

Lemma pat_rounds_exact x : pat_rounds (zlen (pat_bytes x)) = length x.
Proof.
  rewrite pat_length. unfold pat_rounds. replace ((4 * zlen x + 3) / 4) with (zlen x) by (apply (Z.div_unique _ _ _ 3); lia). lia.
Qed.

(** *** All of them *)

Inductive table :=
  | TablePat (x : list (Z * Z))
  | TableSdt (network : Z) (x : list sdt_entry)
  | TablePmt (id pcr : Z) (info : list desc) (x : list stream).

Definition table_id_of (x : table) : Z :=
  match x with TablePat _ => 0x00 | TableSdt _ _ => 0x42 | TablePmt _ _ _ _ => 0x02 end.

Definition table_body (x : table) : list Z :=
  match x with TablePat x => pat_bytes x | TableSdt n x => sdt_body n x | TablePmt _ pcr info x => pmt_body pcr info x end.

(** The extension of the table id: the number of the service for a PMT. *)
Definition table_ext (x : table) (ext : Z) : Prop := match x with TablePmt id _ _ _ => ext = id | _ => True end.

Definition table_ok (x : table) : Prop :=
  match x with
  | TablePat x => Forall pat_ok x
  | TableSdt _ x => Forall entry_ok x
  | TablePmt _ pcr info x => 0 <= pcr < 8192 /\ zlen (descs_bytes info) < 4096 /\ Forall stream_ok x
  end.

Definition table_update (x : table) (l : list service) : list service :=
  match x with
  | TablePat x => pat_update x l
  | TableSdt _ x => sdt_update x l
  | TablePmt id pcr _ x => pmt_update id pcr x l
  end.

Lemma table_list x ext l w : table_ok x -> table_ext x ext -> sits buf 8 (table_body x) -> Forall arrays_ok l -> has t ts l w ->
  exists w', parse_table o e iconv (table_id_of x) buf (zlen (table_body x)) ext w = Ok (tt, w') /\ has t ts (table_update x l) w'.
Proof.
  intros Hx He Hs Hl Hw. destruct x as [x|n x|id pcr info x]; cbn [table_id_of table_body table_update table_ok table_ext parse_table] in *.
  - rewrite pat_rounds_exact. by apply pat_list.
  - by apply sdt_list.
  - subst ext. destruct Hx as (H1 & H2 & H3). by apply pmt_list.
Qed.
End Lists.
