(* ===== verification/ScanServicesFound.v ===== *)
(** * The services that are found

    The tables of a transponder may come in any order, but for the PMT of a service, which is asked for when
    the PAT has named it.  Whatever the order, the list of services ends up with one service for each program, and
    its fields are those that the tables say. *)

From S2P Require Export ScanServices.
Import stdpp.list_relations.list stdpp.list_basics.list.
#[local] Open Scope Z_scope.

(** ** What a program map says *)

(** The language of a stream: the last descriptor that names one. *)
Definition names_language (d : desc) : Prop := d.1 = 0x0a /\ 4 <= zlen d.2.

#[export] Instance names_language_dec d : Decision (names_language d).
Proof. unfold names_language. apply _. Defined.

Definition language (x : stream) : list Z :=
  match last (filter names_language (es_descs x)) with Some d => take 3 d.2 ++ [0] | None => [0; 0; 0; 0] end.

(** The first 32 audio streams are kept. *)
Definition audios (l : list stream) : list stream := take 32 (filter is_audio l).

(** The arrays of the service, which have 32 places. *)
Definition in_array {A} (z : A) (l : list A) : list A := l ++ replicate (32 - length l) z.

(** The first video stream; a PID of 0 does not count. *)
Definition video_pid (l : list stream) : Z := default 0 (head (filter (λ p, p <> 0) (es_pid <$> filter is_video l))).

(** Of the other kinds the last stream. *)
Definition last_pid (kind : stream -> bool) (l : list stream) : Z := default 0 (last (es_pid <$> filter kind l)).

(** Program of a broadcast: its entry in the SDT, with its number, and its PMT. *)
Record program := Program {
  pg_entry : sdt_entry;
  pg_pmt_pid : Z;
  pg_pcr : Z;
  pg_info : list desc;
  pg_streams : list stream;
}.

Definition pg_id (g : program) : Z := se_id (pg_entry g).

(** The service that the program is, in the transport stream [ts]. *)
Definition program_service (ts : Z) (g : program) : service :=
  let x := pg_entry g in let l := pg_streams g in {|
    sv_transport_stream_id := ts;
    sv_service_id := pg_id g;
    sv_provider_name := text_memory (se_provider x);
    sv_service_name := text_memory (se_name x);
    sv_pmt_pid := pg_pmt_pid g;
    sv_pcr_pid := pg_pcr g;
    sv_video_pid := video_pid l;
    sv_audio_pid := in_array 0 (es_pid <$> audios l);
    sv_audio_lang := in_array [0; 0; 0; 0] (language <$> audios l);
    sv_audio_num := zlen (audios l);
    sv_ca_id := replicate 32 0;
    sv_teletext_pid := last_pid is_teletext l;
    sv_subtitling_pid := last_pid is_subtitling l;
    sv_ac3_pid := last_pid is_ac3 l;
    sv_type := se_type x;
    sv_scrambled := if se_scrambled x then 1 else 0;
    sv_running := se_running x;
    sv_priv := None;
    sv_channel_num := 0;
  |}.

(** ** Streams one by one

    What has been seen of a list of streams, and the service with it. *)

Definition shown (l : list stream) (v : service) : service :=
  set_sv_video_pid (video_pid l) (set_sv_audio_pid (in_array 0 (es_pid <$> audios l))
    (set_sv_audio_lang (in_array [0; 0; 0; 0] (language <$> audios l)) (set_sv_audio_num (zlen (audios l))
    (set_sv_teletext_pid (last_pid is_teletext l) (set_sv_subtitling_pid (last_pid is_subtitling l)
    (set_sv_ac3_pid (last_pid is_ac3 l) v)))))).

Definition language_of (old : list Z) (ds : list desc) : list Z :=
  foldl (λ old d, if (d.1 =? 0x0a) && (4 <=? zlen d.2) then take 3 d.2 ++ drop 3 old else old) old ds.

Lemma names_language_b d : (d.1 =? 0x0a) && (4 <=? zlen d.2) = bool_decide (names_language d).
Proof.
  unfold names_language. destruct (Z.eqb_spec d.1 0x0a), (Z.leb_spec 4 (zlen d.2)); symmetry;
    (apply bool_decide_eq_true || apply bool_decide_eq_false); lia.
Qed.

Lemma language_of_last ds : language_of [0; 0; 0; 0] ds =
  match last (filter names_language ds) with Some d => take 3 d.2 ++ [0] | None => [0; 0; 0; 0] end.
Proof.
  induction ds as [|d ds IH] using rev_ind; [done|]. unfold language_of in *. rewrite foldl_app. cbn [foldl]. rewrite IH.
  rewrite names_language_b, filter_app, filter_cons, filter_nil. destruct (decide (names_language d)) as [Hd|Hd].
  - rewrite bool_decide_true, last_snoc by done. f_equal. destruct (last _) as [d'|] eqn:E; [|done].
    apply last_Some in E as (l' & E). assert (Hd' : names_language d').
    { assert (d' ∈ filter names_language ds) as [H _]%list_elem_of_filter by (rewrite E; apply elem_of_app; right; by apply list_elem_of_singleton). done. }
    destruct Hd' as [_ H]. rewrite drop_app_ge; rewrite length_take; [|lia]. by replace (3 - 3 `min` length d'.2)%nat with 0%nat by lia.
  - by rewrite bool_decide_false, app_nil_r.
Qed.

Lemma languages_step ds : forall v, (Z.to_nat (sv_audio_num v) < length (sv_audio_lang v))%nat ->
  foldl language_step v ds = set_sv_audio_lang (<[Z.to_nat (sv_audio_num v) :=
    language_of (nth (Z.to_nat (sv_audio_num v)) (sv_audio_lang v) []) ds]> (sv_audio_lang v)) v.
Proof.
  induction ds as [|d ds IH]; intros v Hv.
  - cbn. apply lookup_lt_is_Some in Hv as [x Ex]. rewrite (nth_lookup_Some _ _ _ _ Ex), list_insert_id by done. by destruct v.
  - cbn [foldl]. unfold language_of. cbn [foldl]. unfold language_step at 2. destruct (_ && _); [|by apply IH].
    cbv zeta. rewrite IH by (cbn; by rewrite length_insert). cbn [sv_audio_num sv_audio_lang set_sv_audio_lang].
    pose proof Hv as Hv'. apply lookup_lt_is_Some in Hv' as [x Ex].
    rewrite (nth_lookup_Some (<[_ := _]> _) _ [] (take 3 d.2 ++ drop 3 (nth (Z.to_nat (sv_audio_num v)) (sv_audio_lang v) [])))
      by (by apply list_lookup_insert_eq).
    rewrite list_insert_insert_eq. by destruct v.
Qed.

(** *** The kinds of streams exclude each other *)

Lemma video_kind x : is_video x = true ->
  is_audio x = false /\ is_teletext x = false /\ is_subtitling x = false /\ is_ac3 x = false.
Proof.
  unfold is_video, is_audio, is_teletext, is_subtitling, is_ac3, is_private. cbn [existsb]. rewrite !orb_true_iff, !Z.eqb_eq.
  intros [->|[->|[->|H]]]; done.
Qed.

Lemma audio_kind x : is_audio x = true -> is_teletext x = false /\ is_subtitling x = false /\ is_ac3 x = false.
Proof.
  unfold is_audio, is_teletext, is_subtitling, is_ac3, is_private. cbn [existsb]. rewrite !orb_true_iff, !Z.eqb_eq.
  intros [->|[->|[->|[->|[->|H]]]]]; done.
Qed.

Lemma teletext_kind x : is_teletext x = true -> is_subtitling x = false /\ is_ac3 x = false.
Proof. unfold is_teletext, is_subtitling, is_ac3. destruct (is_private x), (has_tag 0x56 x); done. Qed.

Lemma subtitling_kind x : is_subtitling x = true -> is_ac3 x = false.
Proof. unfold is_subtitling, is_ac3. destruct (is_private x), (has_tag 0x56 x), (has_tag 0x59 x); done. Qed.

(** *** One stream more *)

Lemma filter_snoc_b {A} (f : A -> bool) l x : filter f (l ++ [x]) = filter f l ++ (if f x then [x] else []).
Proof. rewrite filter_app, filter_cons, filter_nil. by destruct (f x). Qed.

Lemma last_pid_snoc kind l x : last_pid kind (l ++ [x]) = if kind x then es_pid x else last_pid kind l.
Proof. unfold last_pid. rewrite filter_snoc_b. destruct (kind x); [|by rewrite app_nil_r]. rewrite fmap_app. change (es_pid <$> [x]) with [es_pid x]. by rewrite last_snoc. Qed.

Lemma video_pid_snoc l x :
  video_pid (l ++ [x]) = if is_video x then (if video_pid l =? 0 then es_pid x else video_pid l) else video_pid l.
Proof.
  unfold video_pid. rewrite filter_snoc_b. destruct (is_video x); [|by rewrite app_nil_r].
  rewrite fmap_app, filter_app. change (es_pid <$> [x]) with [es_pid x]. rewrite filter_cons, filter_nil.
  set (k := filter _ (es_pid <$> filter is_video l)).
  assert (Hk : Forall (λ p, p <> 0) k) by (apply Forall_forall; intros p [Hp _]%list_elem_of_filter; done).
  destruct k as [|p k].
  - cbn. destruct (decide (es_pid x <> 0)) as [H|H]; cbn; [done|lia].
  - cbn. apply Forall_cons in Hk as [Hp _]. by rewrite (proj2 (Z.eqb_neq p 0)).
Qed.

Lemma audios_snoc l x :
  audios (l ++ [x]) = if is_audio x && (length (audios l) <? 32)%nat then audios l ++ [x] else audios l.
Proof.
  unfold audios. rewrite filter_snoc_b, length_take. destruct (is_audio x); cbn [andb]; [|by rewrite app_nil_r].
  destruct (Nat.ltb_spec (32 `min` length (filter is_audio l)) 32) as [H|H].
  - rewrite !take_ge; [done|..]; rewrite ?length_app; cbn [length]; lia.
  - rewrite take_app_le by lia. done.
Qed.

Lemma in_array_length {A} (z : A) l : (length l <= 32)%nat -> length (in_array z l) = 32%nat.
Proof. intros H. unfold in_array. rewrite length_app, length_replicate. lia. Qed.

Lemma in_array_snoc {A} (z a : A) l : (length l < 32)%nat -> <[length l := a]> (in_array z l) = in_array z (l ++ [a]).
Proof.
  intros H. unfold in_array. rewrite length_app. cbn [length]. replace (32 - length l)%nat with (S (32 - (length l + 1))) by lia.
  rewrite insert_app_r_alt by lia. rewrite Nat.sub_diag. cbn. by rewrite <- app_assoc.
Qed.

Lemma audios_length l : (length (audios l) <= 32)%nat.
Proof. unfold audios. rewrite length_take. lia. Qed.

Lemma shown_audio l v x : is_audio x = true -> audio_step (shown l v) x = shown (l ++ [x]) v.
Proof.
  intros Hx. pose proof (audio_kind x Hx) as (K1 & K2 & K3). assert (K0 : is_video x = false).
  { destruct (is_video x) eqn:E; [|done]. apply video_kind in E as [E _]. congruence. }
  unfold shown at 2. rewrite video_pid_snoc, audios_snoc, !last_pid_snoc, K0, K1, K2, K3, Hx. cbn [andb].
  unfold audio_step. change (sv_audio_num (shown l v)) with (zlen (audios l)).
  pose proof (audios_length l) as Hlen. destruct (Nat.ltb_spec (length (audios l)) 32) as [H|H].
  - rewrite (proj2 (Z.ltb_lt _ _)) by lia. cbv zeta. rewrite Nat2Z.id.
    change (sv_audio_pid (shown l v)) with (in_array 0 (es_pid <$> audios l)).
    assert (Ep : <[length (audios l) := es_pid x]> (in_array 0 (es_pid <$> audios l)) = in_array 0 (es_pid <$> audios l ++ [x])).
    { rewrite fmap_app. rewrite <- (length_fmap es_pid (audios l)) at 1. apply in_array_snoc. by rewrite length_fmap. }
    rewrite Ep. rewrite languages_step.
    2: { cbn. rewrite Nat2Z.id, in_array_length; [done|]. by rewrite length_fmap. }
    cbn [sv_audio_num sv_audio_lang shown set_sv_audio_pid set_sv_video_pid set_sv_audio_lang set_sv_audio_num
      set_sv_teletext_pid set_sv_subtitling_pid set_sv_ac3_pid]. rewrite Nat2Z.id.
    assert (En : nth (length (audios l)) (in_array [0; 0; 0; 0] (language <$> audios l)) [] = [0; 0; 0; 0]).
    { unfold in_array. rewrite app_nth2 by (rewrite length_fmap; lia). rewrite length_fmap, Nat.sub_diag.
      by replace (32 - length (audios l))%nat with (S (31 - length (audios l))) by lia. }
    rewrite En, language_of_last. fold (language x).
    assert (El : <[length (audios l) := language x]> (in_array [0; 0; 0; 0] (language <$> audios l)) =
      in_array [0; 0; 0; 0] (language <$> audios l ++ [x])).
    { rewrite fmap_app. rewrite <- (length_fmap language (audios l)) at 1. apply in_array_snoc. by rewrite length_fmap. }
    rewrite El. rewrite length_app. cbn [length]. replace (Z.of_nat (length (audios l) + 1)) with (zlen (audios l) + 1) by lia.
    by destruct v.
  - rewrite (proj2 (Z.ltb_ge _ _)) by lia. done.
Qed.

Lemma shown_step l v x : stream_step (shown l v) x = shown (l ++ [x]) v.
Proof.
  unfold stream_step. destruct (is_video x) eqn:K0.
  { destruct (video_kind x K0) as (K1 & K2 & K3 & K4). symmetry. unfold shown at 1.
    rewrite video_pid_snoc, audios_snoc, !last_pid_snoc, K0, K1, K2, K3, K4. cbn [andb].
    change (sv_video_pid (shown l v)) with (video_pid l). by destruct (video_pid l =? 0). }
  destruct (is_audio x) eqn:K1; [by apply shown_audio|]. symmetry. unfold shown at 1.
  rewrite video_pid_snoc, audios_snoc, !last_pid_snoc, K0, K1. cbn [andb].
  destruct (is_teletext x) eqn:K2; [by destruct (teletext_kind x K2) as [-> ->]|].
  destruct (is_subtitling x) eqn:K3; [by rewrite (subtitling_kind x K3)|]. by destruct (is_ac3 x).
Qed.

Lemma streams_shown l v : foldl stream_step (shown [] v) l = shown l v.
Proof. induction l as [|x l IH] using rev_ind; [done|]. by rewrite foldl_app, IH, <- shown_step. Qed.

(** ** What has been seen of a program

    [p], [s] and [m]: its entry in the PAT, in the SDT, and its PMT. *)

Section Seen.
Context (ts : Z) (g : program) (p s m : bool).

Definition described : service :=
  let v := new_service ts (pg_id g) in
  let v := if m then pmt_fields (pg_pcr g) (pg_streams g) v else v in
  let v := if s then sdt_fields (pg_entry g) v else v in
  if p then set_sv_pmt_pid (pg_pmt_pid g) v else v.
End Seen.

Lemma described_all ts g : described ts g true true true = program_service ts g.
Proof.
  unfold described, pmt_fields. change (set_sv_pcr_pid (pg_pcr g) (new_service ts (pg_id g))) with
    (shown [] (set_sv_pcr_pid (pg_pcr g) (new_service ts (pg_id g)))). by rewrite streams_shown.
Qed.

Lemma described_id ts g p s m : sv_service_id (described ts g p s m) = pg_id g.
Proof.
  unfold described. cbv zeta. destruct (pmt_field (pg_pcr g) (pg_streams g) (new_service ts (pg_id g))) as [_ E].
  by destruct p, s, m.
Qed.

(** The PMT has nothing to do with what the other tables say. *)
Definition pmt_independent (F : service -> service) : Prop := forall v,
  sv_video_pid (F v) = sv_video_pid v /\ sv_audio_num (F v) = sv_audio_num v /\ sv_audio_pid (F v) = sv_audio_pid v /\
  sv_audio_lang (F v) = sv_audio_lang v /\ (forall k, set_sv_pcr_pid k (F v) = F (set_sv_pcr_pid k v)) /\
  (forall k, set_sv_video_pid k (F v) = F (set_sv_video_pid k v)) /\
  (forall k, set_sv_audio_pid k (F v) = F (set_sv_audio_pid k v)) /\
  (forall k, set_sv_audio_lang k (F v) = F (set_sv_audio_lang k v)) /\
  (forall k, set_sv_audio_num k (F v) = F (set_sv_audio_num k v)) /\
  (forall k, set_sv_teletext_pid k (F v) = F (set_sv_teletext_pid k v)) /\
  (forall k, set_sv_subtitling_pid k (F v) = F (set_sv_subtitling_pid k v)) /\
  (forall k, set_sv_ac3_pid k (F v) = F (set_sv_ac3_pid k v)).

Lemma foldl_commute {A} (step : service -> A -> service) F l :
  (forall v x, step (F v) x = F (step v x)) -> forall v, foldl step (F v) l = F (foldl step v l).
Proof. intros H. induction l as [|x l IH]; intros v; [done|]. cbn. by rewrite H, IH. Qed.

Lemma language_commute F v d : pmt_independent F -> language_step (F v) d = F (language_step v d).
Proof. intros H. destruct (H v) as (_ & E2 & _ & E4 & _ & _ & _ & E8 & _). unfold language_step. rewrite E2, E4. by destruct (_ && _). Qed.

Lemma stream_commute F v x : pmt_independent F -> stream_step (F v) x = F (stream_step v x).
Proof.
  intros H. destruct (H v) as (E1 & E2 & E3 & E4 & E5 & E6 & E7 & E8 & E9 & E10 & E11 & E12).
  unfold stream_step, audio_step. destruct (is_video x); [rewrite E1; by destruct (_ =? 0)|].
  destruct (is_audio x); [|by destruct (is_teletext x), (is_subtitling x), (is_ac3 x)].
  rewrite E2. destruct (_ <? 32); [|done]. cbv zeta. rewrite E3, E7.
  rewrite (foldl_commute language_step F) by (intros; by apply language_commute).
  set (v1 := foldl _ _ _). destruct (H v1) as (_ & F2 & _ & _ & _ & _ & _ & _ & F9 & _). by rewrite F2, F9.
Qed.

Lemma pmt_commute F pcr l v : pmt_independent F -> pmt_fields pcr l (F v) = F (pmt_fields pcr l v).
Proof.
  intros H. unfold pmt_fields. destruct (H v) as (_ & _ & _ & _ & E5 & _). rewrite E5.
  apply foldl_commute. intros. by apply stream_commute.
Qed.

Lemma sdt_independent x : pmt_independent (sdt_fields x).
Proof. by intros v. Qed.

Lemma pat_independent pid : pmt_independent (set_sv_pmt_pid pid).
Proof. by intros v. Qed.

Lemma described_pat ts g s m : set_sv_pmt_pid (pg_pmt_pid g) (described ts g false s m) = described ts g true s m.
Proof. done. Qed.

Lemma described_sdt ts g p m : sdt_fields (pg_entry g) (described ts g p false m) = described ts g p true m.
Proof. by destruct p, m. Qed.

Lemma described_pmt ts g p s : pmt_fields (pg_pcr g) (pg_streams g) (described ts g p s false) = described ts g p s true.
Proof.
  unfold described. cbv zeta.
  destruct p, s; rewrite ?(pmt_commute _ _ _ _ (pat_independent _)), ?(pmt_commute _ _ _ _ (sdt_independent _)); done.
Qed.

(** ** The list of services *)

Definition lookup_service (id : Z) (l : list service) : option service := List.find (λ v, sv_service_id v =? id) l.

Lemma update_cons ts id F v l :
  update_service ts id F (v :: l) = if sv_service_id v =? id then F v :: l else v :: update_service ts id F l.
Proof. unfold update_service. cbn. destruct (sv_service_id v =? id); [done|]. by destruct (service_index id l). Qed.

Definition keeps_id (F : service -> service) : Prop := forall v, sv_service_id (F v) = sv_service_id v.

Section Lookup.
Context (ts : Z) (F : service -> service) (HF : keeps_id F).

Lemma lookup_update id l :
  lookup_service id (update_service ts id F l) = Some (F (default (new_service ts id) (lookup_service id l))).
Proof.
  induction l as [|v l IH].
  - cbn. rewrite HF. cbn. by rewrite Z.eqb_refl.
  - rewrite update_cons. cbn. destruct (sv_service_id v =? id) eqn:E; cbn; [by rewrite HF, E|by rewrite E].
Qed.

Lemma lookup_update_ne id id' l : id' <> id -> lookup_service id' (update_service ts id F l) = lookup_service id' l.
Proof.
  intros Hne. unfold lookup_service in *. induction l as [|v l IH].
  - cbn. rewrite HF. cbn. by rewrite (proj2 (Z.eqb_neq _ _)).
  - rewrite update_cons. destruct (Z.eqb_spec (sv_service_id v) id) as [E|E]; cbn; [|by rewrite IH].
    by rewrite HF, E, (proj2 (Z.eqb_neq _ _)).
Qed.

Lemma update_ids id l : sv_service_id <$> update_service ts id F l =
  (sv_service_id <$> l) ++ (if decide (id ∈ sv_service_id <$> l) then [] else [id]).
Proof.
  induction l as [|v l IH].
  - cbn. by rewrite HF.
  - rewrite update_cons, fmap_cons. destruct (Z.eqb_spec (sv_service_id v) id) as [E|E]; cbn.
    + rewrite HF, decide_True, app_nil_r; [done|]. rewrite E. apply elem_of_cons. by left.
    + rewrite IH. f_equal. f_equal. repeat case_decide; try done; rewrite elem_of_cons in *; exfalso; intuition congruence.
Qed.
End Lookup.

Lemma pmt_update_alter id pcr x l ts : is_Some (lookup_service id l) -> pmt_update id pcr x l = update_service ts id (pmt_fields pcr x) l.
Proof.
  intros H. unfold pmt_update, update_service. destruct (service_index id l) as [i|] eqn:E; [done|]. exfalso.
  induction l as [|v l IH]; [by destruct H|]. cbn in *. destruct (sv_service_id v =? id); [done|].
  destruct (service_index id l); [done|]. by apply IH.
Qed.

(** ** What has been collected *)

Section Collected.
Context (ts : Z) (progs : list program) (Hnodup : NoDup (pg_id <$> progs)).

Definition seen (l : list Z) (g : program) : bool := bool_decide (pg_id g ∈ l).

Record collected (p s m : list Z) (l : list service) : Prop := {
  cl_nodup : NoDup (sv_service_id <$> l);
  cl_known : forall id, id ∈ sv_service_id <$> l -> id ∈ pg_id <$> progs;
  cl_fields : forall g, g ∈ progs ->
    lookup_service (pg_id g) l = if seen p g || seen s g then Some (described ts g (seen p g) (seen s g) (seen m g)) else None;
  cl_maps : forall g, g ∈ progs -> seen m g = true -> seen p g || seen s g = true;
}.

Lemma same_program g g' : g ∈ progs -> g' ∈ progs -> pg_id g = pg_id g' -> g = g'.
Proof.
  intros [i Hi]%list_elem_of_lookup [j Hj]%list_elem_of_lookup E.
  assert (i = j) as ->; [|congruence]. apply (NoDup_lookup (pg_id <$> progs) i j (pg_id g)); [done| |].
  - by rewrite list_lookup_fmap, Hi.
  - by rewrite list_lookup_fmap, Hj, E.
Qed.

Lemma seen_cons id l g : seen (id :: l) g = (pg_id g =? id) || seen l g.
Proof.
  unfold seen. destruct (Z.eqb_spec (pg_id g) id) as [E|E]; cbn.
  - apply bool_decide_eq_true. rewrite E. apply elem_of_cons. by left.
  - apply bool_decide_ext. rewrite elem_of_cons. intuition congruence.
Qed.

(** A table that changes the service of the program [g]: by [F], from what was seen before to what is seen now. *)
Lemma collected_update F p s m p' s' m' l g : collected p s m l -> g ∈ progs -> keeps_id F ->
  (forall g', pg_id g' <> pg_id g -> seen p' g' = seen p g' /\ seen s' g' = seen s g' /\ seen m' g' = seen m g') ->
  seen p' g || seen s' g = true -> (seen m' g = true -> seen p' g || seen s' g = true) ->
  F (default (new_service ts (pg_id g)) (lookup_service (pg_id g) l)) = described ts g (seen p' g) (seen s' g) (seen m' g) ->
  collected p' s' m' (update_service ts (pg_id g) F l).
Proof.
  intros [H1 H2 H3 H4] Hg HF Hother Hnow Hmap Hd. constructor.
  - rewrite update_ids by done. case_decide as Hin; [by rewrite app_nil_r|]. apply NoDup_app. split_and!; [done| |apply NoDup_singleton].
    intros x Hx Hx'%list_elem_of_singleton. by subst.
  - intros id. rewrite update_ids by done. rewrite elem_of_app. intros [H|H]; [by apply H2|]. case_decide; [by apply not_elem_of_nil in H|].
    apply list_elem_of_singleton in H as ->. apply list_elem_of_fmap. by exists g.
  - intros g' Hg'. destruct (decide (pg_id g' = pg_id g)) as [E|E].
    + assert (g' = g) as -> by (by apply same_program). by rewrite lookup_update, Hnow, Hd.
    + rewrite lookup_update_ne by done. destruct (Hother g' E) as (-> & -> & ->). by apply H3.
  - intros g' Hg'. destruct (decide (pg_id g' = pg_id g)) as [E|E].
    + by assert (g' = g) as -> by (by apply same_program).
    + destruct (Hother g' E) as (-> & -> & ->). by apply H4.
Qed.

Lemma other_seen id l g' : pg_id g' <> id -> seen (id :: l) g' = seen l g'.
Proof. intros H. by rewrite seen_cons, (proj2 (Z.eqb_neq _ _)). Qed.

Lemma now_seen l g : seen (pg_id g :: l) g = true.
Proof. by rewrite seen_cons, Z.eqb_refl. Qed.

Lemma not_mapped p s m l g : collected p s m l -> g ∈ progs -> seen p g = false -> seen s g = false -> seen m g = false.
Proof.
  intros H Hg Hp Hs. destruct (seen m g) eqn:E; [|done]. apply (cl_maps _ _ _ _ H g Hg) in E. by rewrite Hp, Hs in E.
Qed.

Lemma collected_pat p s m l g : collected p s m l -> g ∈ progs ->
  collected (pg_id g :: p) s m (update_service ts (pg_id g) (set_sv_pmt_pid (pg_pmt_pid g)) l).
Proof.
  intros H Hg. eapply collected_update; try done.
  - intros g' Hne. by rewrite other_seen.
  - by rewrite now_seen.
  - by rewrite now_seen.
  - rewrite now_seen, (cl_fields _ _ _ _ H g Hg). destruct (seen p g) eqn:Ep; [done|]. destruct (seen s g) eqn:Es; [done|].
    by rewrite (not_mapped _ _ _ _ _ H Hg Ep Es).
Qed.

Lemma collected_sdt p s m l g : collected p s m l -> g ∈ progs ->
  collected p (pg_id g :: s) m (update_service ts (pg_id g) (sdt_fields (pg_entry g)) l).
Proof.
  intros H Hg. eapply collected_update; try done.
  - intros g' Hne. by rewrite other_seen.
  - by rewrite now_seen, orb_true_r.
  - by rewrite now_seen, orb_true_r.
  - rewrite now_seen, (cl_fields _ _ _ _ H g Hg). destruct (seen p g) eqn:Ep; [by destruct (seen s g), (seen m g)|].
    destruct (seen s g) eqn:Es; [by destruct (seen m g)|]. by rewrite (not_mapped _ _ _ _ _ H Hg Ep Es).
Qed.

Lemma collected_pmt p s m l g : collected p s m l -> g ∈ progs -> seen p g || seen s g = true -> seen m g = false ->
  collected p s (pg_id g :: m) (pmt_update (pg_id g) (pg_pcr g) (pg_streams g) l).
Proof.
  intros H Hg Hp Hm. pose proof (cl_fields _ _ _ _ H g Hg) as E. rewrite Hp in E.
  rewrite (pmt_update_alter _ _ _ _ ts) by (by rewrite E). eapply collected_update; try done.
  - intros v. by destruct (pmt_field (pg_pcr g) (pg_streams g) v).
  - intros g' Hne. by rewrite other_seen.
  - rewrite E, now_seen, Hm. cbn [default]. apply described_pmt.
Qed.

(** A PMT of a program that is not in the list is dropped. *)
Lemma collected_early p s m l g : collected p s m l -> g ∈ progs -> seen p g || seen s g = false ->
  pmt_update (pg_id g) (pg_pcr g) (pg_streams g) l = l.
Proof.
  intros H Hg Hp. pose proof (cl_fields _ _ _ _ H g Hg) as E. rewrite Hp in E. clear H Hp. unfold pmt_update.
  destruct (service_index (pg_id g) l) as [i|] eqn:Ei; [|done]. exfalso. revert i Ei.
  induction l as [|v l IH]; intros i Ei; [done|]. cbn in E, Ei. destruct (sv_service_id v =? pg_id g); [done|].
  destruct (service_index (pg_id g) l) as [j|]; [|done]. by apply (IH E j).
Qed.

(** *** Tables with several entries *)

Definition pat_of (x : table) : list Z := match x with TablePat x => filter (λ id, id <> 0) x.*1 | _ => [] end.
Definition sdt_of (x : table) : list Z := match x with TableSdt _ x => se_id <$> x | _ => [] end.
Definition pmt_of (x : table) : list Z := match x with TablePmt id _ _ _ => [id] | _ => [] end.

(** The table says what is true of the programs. *)
Definition tells (x : table) : Prop :=
  match x with
  | TablePat x => Forall (λ y, (y.1 = 0 /\ 0 <= y.2 < 8192) \/ exists g, g ∈ progs /\ y = (pg_id g, pg_pmt_pid g)) x
  | TableSdt _ x => Forall (λ y, exists g, g ∈ progs /\ y = pg_entry g) x
  | TablePmt id pcr info x => exists g, g ∈ progs /\ id = pg_id g /\ pcr = pg_pcr g /\ info = pg_info g /\ x = pg_streams g
  end.

Record program_ok (g : program) : Prop := {
  go_entry : entry_ok (pg_entry g);
  go_pmt_pid : 0 <= pg_pmt_pid g < 8192;
  go_pcr : 0 <= pg_pcr g < 8192;
  go_info : zlen (descs_bytes (pg_info g)) < 4096;
  go_streams : Forall stream_ok (pg_streams g);
}.

Context (Hprogs : Forall program_ok progs).

Lemma prog_ok g : g ∈ progs -> program_ok g.
Proof. intros H. by apply (proj1 (Forall_forall _ _) Hprogs). Qed.

Lemma collected_pats x : forall p s m l, tells (TablePat x) -> collected p s m l ->
  collected (rev (pat_of (TablePat x)) ++ p) s m (pat_update ts x l).
Proof.
  induction x as [|[id pid] x IH]; intros p s m l Hx Hl; [done|]. apply Forall_cons in Hx as [Hy Hx].
  change (pat_update ts ((id, pid) :: x) l) with
    (pat_update ts x (if id =? 0 then l else update_service ts id (set_sv_pmt_pid pid) l)).
  cbn [pat_of] in *. rewrite fmap_cons, filter_cons. cbn [fst snd] in *. destruct Hy as [[-> _]|(g & Hg & E)].
  - rewrite decide_False by tauto. by apply IH.
  - injection E as -> ->. pose proof (go_entry g (prog_ok g Hg)) as [Hid _ _ _ _ _]. unfold pg_id in *.
    rewrite decide_True, (proj2 (Z.eqb_neq _ _)) by lia. cbn [rev]. rewrite <- app_assoc. apply IH; [done|].
    by apply collected_pat.
Qed.

Lemma collected_sdts n x : forall p s m l, tells (TableSdt n x) -> collected p s m l ->
  collected p (rev (sdt_of (TableSdt n x)) ++ s) m (sdt_update ts x l).
Proof.
  induction x as [|y x IH]; intros p s m l Hx Hl; [done|]. apply Forall_cons in Hx as [(g & Hg & ->) Hx].
  change (sdt_update ts (pg_entry g :: x) l) with (sdt_update ts x (update_service ts (se_id (pg_entry g)) (sdt_fields (pg_entry g)) l)).
  cbn [sdt_of] in *. rewrite fmap_cons. cbn [rev]. rewrite <- app_assoc. apply IH; [done|]. by apply collected_sdt.
Qed.

(** *** Sequences of tables *)

(** The PMTs that are not dropped: those of programs that have been in the PAT or in the SDT. *)
Definition pmt_taken (p s : list Z) (x : table) : list Z := filter (λ id, id ∈ p \/ id ∈ s) (pmt_of x).

Fixpoint pmts_taken (p s : list Z) (l : list table) : list Z :=
  match l with
  | [] => []
  | x :: l => pmt_taken p s x ++ pmts_taken (rev (pat_of x) ++ p) (rev (sdt_of x) ++ s) l
  end.

(** Of each program one at most. *)
Definition pmts_once (l : list table) : Prop := NoDup (pmts_taken [] [] l).

Lemma collected_table x p s m l : tells x -> (forall id, id ∈ pmt_taken p s x -> id ∉ m) -> collected p s m l ->
  collected (rev (pat_of x) ++ p) (rev (sdt_of x) ++ s) (pmt_taken p s x ++ m) (table_update ts x l).
Proof.
  intros Hx Hm Hl. destruct x as [x|n x|id pcr info x].
  - by apply collected_pats.
  - by apply collected_sdts.
  - destruct Hx as (g & Hg & -> & -> & -> & ->). cbn. unfold pmt_taken in *. cbn [pmt_of] in *. rewrite filter_cons in *.
    assert (Hseen : seen p g || seen s g = bool_decide (pg_id g ∈ p \/ pg_id g ∈ s)).
    { unfold seen. by rewrite bool_decide_or. }
    case_decide as Hk.
    + apply collected_pmt; [done|done|by rewrite Hseen, bool_decide_eq_true|].
      apply bool_decide_eq_false, Hm. apply elem_of_cons. by left.
    + rewrite (collected_early p s m l g); [done|done|done|]. by rewrite Hseen, bool_decide_eq_false.
Qed.

Lemma tells_ok x : tells x -> table_ok x.
Proof.
  destruct x as [x|n x|id pcr info x]; cbn; intros H.
  - eapply Forall_impl; [exact H|]. intros y [[E Hy]|(g & Hg & ->)]; [split; lia|].
    destruct (prog_ok g Hg) as [[Hid _ _ _ _ _] Hp _ _ _]. cbn. unfold pg_id. split; cbn; lia.
  - eapply Forall_impl; [exact H|]. intros y (g & Hg & ->). by apply prog_ok.
  - destruct H as (g & Hg & -> & -> & -> & ->). by destruct (prog_ok g Hg).
Qed.

(** *** The arrays of what was collected *)

Lemma language_string x : length (language x) = 4%nat /\ language x !! 3%nat = Some 0.
Proof.
  unfold language. destruct (last _) as [d|] eqn:E; [|done]. apply last_Some in E as (l & E).
  assert (Hd : names_language d).
  { assert (d ∈ filter names_language (es_descs x)) as [H _]%list_elem_of_filter
      by (rewrite E; apply elem_of_app; right; by apply list_elem_of_singleton). done. }
  destruct Hd as [_ Hd]. rewrite length_app, length_take. cbn [length]. split; [lia|].
  rewrite lookup_app_r; rewrite length_take; [|lia]. by replace (3 - 3 `min` length d.2)%nat with 0%nat by lia.
Qed.

Lemma described_arrays g p s m : Forall stream_ok (pg_streams g) -> arrays_ok (described ts g p s m).
Proof.
  intros Hs. set (v := new_service ts (pg_id g)).
  assert (H0 : arrays_ok v).
  { by constructor; cbn; repeat constructor. }
  assert (Hm : arrays_ok (pmt_fields (pg_pcr g) (pg_streams g) v)).
  { unfold pmt_fields. change (set_sv_pcr_pid (pg_pcr g) v) with (shown [] (set_sv_pcr_pid (pg_pcr g) v)). rewrite streams_shown.
    set (l := pg_streams g) in *. pose proof (audios_length l) as Hl. constructor; cbn.
    - apply in_array_length. by rewrite length_fmap.
    - apply in_array_length. by rewrite length_fmap.
    - unfold in_array. apply Forall_app. split; [|by apply Forall_replicate]. apply Forall_fmap, Forall_true. apply language_string.
    - lia.
    - unfold in_array. apply Forall_app. split; [|by apply Forall_replicate]. apply Forall_fmap. unfold audios.
      apply Forall_take, Forall_forall. intros x [_ Hx]%list_elem_of_filter.
      apply (proj1 (Forall_forall _ _) Hs) in Hx as [Hx _ _]. cbn. lia. }
  unfold described. fold v. cbv zeta. destruct m; [destruct Hm|destruct H0]; destruct s, p; by constructor.
Qed.

Lemma lookup_self l v : NoDup (sv_service_id <$> l) -> v ∈ l -> lookup_service (sv_service_id v) l = Some v.
Proof.
  unfold lookup_service. induction l as [|x l IH]; [by intros _ ?%not_elem_of_nil|]. rewrite fmap_cons, NoDup_cons. intros [Hx Hl] Hv. cbn.
  apply elem_of_cons in Hv as [->|Hv]; [by rewrite Z.eqb_refl|].
  destruct (Z.eqb_spec (sv_service_id x) (sv_service_id v)) as [E|E]; [|by apply IH].
  exfalso. apply Hx. rewrite E. apply list_elem_of_fmap. by exists v.
Qed.

(** Every service in the list is one of those programs. *)
Lemma collected_program p s m l v : collected p s m l -> v ∈ l ->
  exists g, g ∈ progs /\ v = described ts g (seen p g) (seen s g) (seen m g) /\ lookup_service (pg_id g) l = Some v.
Proof.
  intros [H1 H2 H3 _] Hv. pose proof (lookup_self l v H1 Hv) as E.
  assert (Hin : sv_service_id v ∈ pg_id <$> progs) by (apply H2, list_elem_of_fmap; by exists v).
  apply list_elem_of_fmap in Hin as (g & Eg & Hg). exists g. rewrite <- Eg. split; [done|]. split; [|done].
  rewrite Eg, (H3 g Hg) in E. destruct (_ || _); congruence.
Qed.

Lemma collected_arrays p s m l : collected p s m l -> Forall arrays_ok l.
Proof.
  intros H. apply Forall_forall. intros v Hv. destruct (collected_program p s m l v H Hv) as (g & Hg & -> & _).
  apply described_arrays. by apply prog_ok.
Qed.
End Collected.

(** ** Receiving *)

(** A section: the table it is of, the extension of its table id, and the buffer it is in, behind a header of eight
    bytes. *)
Record received := Received { rc_table : table; rc_ext : Z; rc_buf : mem }.

Definition received_ok (r : received) : Prop :=
  table_ext (rc_table r) (rc_ext r) /\ sits (rc_buf r) 8 (table_body (rc_table r)).

(** The sections are handed to the functions for their tables. *)
Fixpoint receive (o : scan_options) (e : scan_env) (iconv : list Z -> list Z -> option (list Z -> list Z)) (l : list received) :
    SC unit :=
  match l with
  | [] => mret tt
  | r :: l =>
      parse_table o e iconv (table_id_of (rc_table r)) (rc_buf r) (zlen (table_body (rc_table r))) (rc_ext r);;
      receive o e iconv l
  end.

(** Each program is in the PAT and in the SDT, and one of its PMTs comes behind one of these entries. *)
Definition complete (progs : list program) (l : list table) : Prop :=
  forall g, g ∈ progs ->
    pg_id g ∈ mjoin (pat_of <$> l) /\ pg_id g ∈ mjoin (sdt_of <$> l) /\ pg_id g ∈ pmts_taken [] [] l.

Section Receive.
Context (o : scan_options) (e : scan_env) (iconv : list Z -> list Z -> option (list Z -> list Z)).
Context (t : nat) (ts : Z) (progs : list program).
Context (Ho : utf8_options o) (Hnodup : NoDup (pg_id <$> progs)) (Hprogs : Forall program_ok progs).

Lemma elem_of_rev (l : list Z) id : id ∈ rev l <-> id ∈ l.
Proof. by rewrite !list_elem_of_In, <- in_rev. Qed.

Lemma receive_collected rs : forall p s m l w, Forall received_ok rs -> Forall (tells progs) (rc_table <$> rs) ->
  NoDup (pmts_taken p s (rc_table <$> rs)) -> (forall id, id ∈ pmts_taken p s (rc_table <$> rs) -> id ∉ m) -> collected ts progs p s m l -> has t ts l w ->
  exists p' s' m' l' w', receive o e iconv rs w = Ok (tt, w') /\ has t ts l' w' /\ collected ts progs p' s' m' l' /\
    (forall id, id ∈ p' <-> id ∈ p \/ id ∈ mjoin (pat_of <$> (rc_table <$> rs))) /\
    (forall id, id ∈ s' <-> id ∈ s \/ id ∈ mjoin (sdt_of <$> (rc_table <$> rs))) /\
    (forall id, id ∈ m' <-> id ∈ m \/ id ∈ pmts_taken p s (rc_table <$> rs)).
Proof.
  induction rs as [|r rs IH]; intros p s m l w Hr Ht Hn Hd Hl Hw.
  { exists p, s, m, l, w. cbn. setoid_rewrite elem_of_nil. split_and!; try done; tauto. }
  apply Forall_cons in Hr as [[Hext Hsits] Hr]. rewrite fmap_cons in *. apply Forall_cons in Ht as [Ht Hts].
  cbn [pmts_taken] in *. apply NoDup_app in Hn as (_ & Hn1 & Hn).
  assert (Hm : forall id, id ∈ pmt_taken p s (rc_table r) -> id ∉ m) by (intros id Hid; apply Hd, elem_of_app; by left).
  destruct (table_list o e iconv (rc_buf r) t ts Ho (rc_table r) (rc_ext r) l w) as (w1 & E1 & Hw1); try done.
  { by apply (tells_ok progs Hprogs). } { by apply (collected_arrays ts progs Hprogs p s m). }
  assert (Hd' : forall id, id ∈ pmts_taken (rev (pat_of (rc_table r)) ++ p) (rev (sdt_of (rc_table r)) ++ s) (rc_table <$> rs) ->
    id ∉ pmt_taken p s (rc_table r) ++ m).
  { intros id Hid. rewrite elem_of_app. intros [H|H]; [by apply (Hn1 id)|]. apply (Hd id); [apply elem_of_app; by right|done]. }
  destruct (IH _ _ _ _ w1 Hr Hts Hn Hd' (collected_table ts progs Hnodup Hprogs _ p s m l Ht Hm Hl) Hw1)
    as (p' & s' & m' & l' & w' & E' & Hw' & Hl' & P & S' & M').
  exists p', s', m', l', w'. cbn [receive]. rewrite (io_bind_run _ _ _ _ _ E1).
  split_and!; try done; intros id; rewrite ?P, ?S', ?M', ?fmap_cons; cbn [mjoin list_join]; rewrite !elem_of_app, ?elem_of_rev; cbn; tauto.
Qed.

Lemma complete_services p s m l : collected ts progs p s m l ->
  (forall g, g ∈ progs -> seen p g = true /\ seen s g = true /\ seen m g = true) ->
  l ≡ₚ program_service ts <$> progs.
Proof.
  intros Hl Hall. apply NoDup_Permutation.
  - eapply NoDup_fmap_1. apply Hl.
  - apply (NoDup_fmap_1 sv_service_id). by rewrite <- list_fmap_compose.
  - intros v. rewrite list_elem_of_fmap. split.
    + intros Hv. destruct (collected_program ts progs p s m l v Hl Hv) as (g & Hg & -> & _). exists g. split; [|done].
      destruct (Hall g Hg) as (-> & -> & ->). apply described_all.
    + intros (g & -> & Hg). pose proof (cl_fields _ _ _ _ _ _ Hl g Hg) as E. destruct (Hall g Hg) as (E1 & E2 & E3).
      rewrite E1, E2, E3, described_all in E. apply List.find_some in E as [E _]. by apply list_elem_of_In.
Qed.
End Receive.

(** C5: the services of a transponder are found.  The tables tell of some programs, with names in the standard
    character table without control codes; each program is in the PAT and in the SDT.  Their sections come in any
    order and any number of times, the PMTs too as long as they are dropped, which those are that come before the
    program was in the PAT or the SDT; of the later ones each program has one (the scanner asks for a PMT
    only then, and for every section once).  Then the current transponder has exactly one service for each program,
    whose names, PIDs, languages and state are what the tables say; and nothing was accessed outside of a section. *)
Theorem services_found o e iconv t ts progs rs w :
  utf8_options o -> NoDup (pg_id <$> progs) -> Forall program_ok progs ->
  Forall received_ok rs -> Forall (tells progs) (rc_table <$> rs) ->
  pmts_once (rc_table <$> rs) -> complete progs (rc_table <$> rs) -> has t ts [] w ->
  exists w' tp, receive o e iconv rs w = Ok (tt, w') /\ scan_inv (w_state w') /\
    st_current (w_state w') = Some t /\ st_transponders (w_state w') !! t = Some tp /\
    forget <$> tp_services tp ≡ₚ program_service ts <$> progs.
Proof.
  intros Ho Hnodup Hprogs Hr Ht Hord Hall Hw.
  assert (H0 : collected ts progs [] [] [] []).
  { constructor; [apply NoDup_nil_2|by intros id ?%not_elem_of_nil|done|done]. }
  destruct (receive_collected o e iconv t ts progs Ho Hnodup Hprogs rs [] [] [] [] w Hr Ht Hord (λ id _, not_elem_of_nil id) H0 Hw)
    as (p & s & m & l & w' & E & [Hi Hc (tp & Et & El & _)] & Hl & P & S' & M').
  exists w', tp. split_and!; try done. rewrite El. apply (complete_services ts progs Hnodup p s m l Hl).
  intros g Hg. destruct (Hall g Hg) as (H1 & H2 & H3). unfold seen. split_and!; apply bool_decide_eq_true; [apply P|apply S'|apply M']; by right.
Qed.

(** *** An example: a programme of television and one of radio *)

Definition example_tv : program :=
  Program (SdtEntry 0x2b66 0xfc 4 true [] 0x01 (lit "ARD") (lit "Das Erste") [(0x5f, [0; 0; 0; 5])]) 0x64 0x65 []
    [Stream 0x02 0x65 []; Stream 0x03 0x66 [(0x0a, lit "deu" ++ [0])]; Stream 0x03 0x67 [(0x52, [1]); (0x0a, lit "fra" ++ [1])];
     Stream 0x06 0x68 [(0x56, [1; 2; 3; 4; 5])]; Stream 0x06 0x6a [(0x6a, [0])]].

Definition example_radio : program :=
  Program (SdtEntry 0x2b67 0xfc 4 false [] 0x02 [] (lit "Bayern" ++ [32; 0xa3; 49]) []) 0xc8 0xc9 [(0x09, [0; 1; 2; 3])]
    [Stream 0x04 0xc9 []].

Definition framed (x : table) (ext : Z) : received :=
  Received x ext (replicate 8 0xff ++ table_body x ++ [0x12; 0x34; 0x56; 0x78]).

(** A PMT that is too early, the SDT, the PAT with the NIT in front, and the PMTs, the last one first; then the PAT again. *)
Definition example_sections : list received :=
  [framed (TablePmt 0x2b66 0x65 [] (pg_streams example_tv)) 0x2b66;
   framed (TableSdt 1 [pg_entry example_radio; pg_entry example_tv]) 1101;
   framed (TablePat [(0, 0x10); (0x2b66, 0x64); (0x2b67, 0xc8)]) 1101;
   framed (TablePmt 0x2b67 0xc9 [(0x09, [0; 1; 2; 3])] (pg_streams example_radio)) 0x2b67;
   framed (TablePat [(0, 0x10); (0x2b66, 0x64); (0x2b67, 0xc8)]) 1101;
   framed (TablePmt 0x2b66 0x65 [] (pg_streams example_tv)) 0x2b66].

Definition example_world : world scan_state :=
  World (set_st_current (Some 0%nat) (set_st_transponders [zero_transponder] (initial_state FE_QPSK 0))) 0 [].

Lemma framed_ok x ext : table_ext x ext -> received_ok (framed x ext).
Proof. intros H. split; [done|]. by exists (replicate 8 0xff), [0x12; 0x34; 0x56; 0x78]. Qed.

Lemma example_has : has 0 0 [] example_world.
Proof.
  constructor; [|done|by exists zero_transponder].
  apply (inv_same (initial_state FE_QPSK 0)); try done; [apply initial_inv|]. repeat constructor.
Qed.

Definition latin_b (c : Z) : bool := ((0x20 <=? c) && (c <? 0x80)) || ((0xa0 <=? c) && (c <? 0x100)).

Lemma latin_all t : forallb latin_b t = true -> Forall latin_char t.
Proof.
  intros H. apply Forall_forall. intros c Hc. apply list_elem_of_In in Hc. apply (proj1 (forallb_forall _ _) H) in Hc.
  unfold latin_b, latin_char in *. lia.
Qed.

Lemma example_programs : Forall program_ok [example_tv; example_radio].
Proof.
  repeat constructor; cbn; try lia; try (by apply latin_all); unfold other_desc, desc_ok; cbn; try done; lia.
Qed.

Lemma example_tells : Forall (tells [example_tv; example_radio]) (rc_table <$> example_sections).
Proof.
  assert (H1 : example_tv ∈ [example_tv; example_radio]) by (apply elem_of_cons; by left).
  assert (H2 : example_radio ∈ [example_tv; example_radio]) by (apply elem_of_cons; right; by apply list_elem_of_singleton).
  assert (Hpat : tells [example_tv; example_radio] (TablePat [(0, 0x10); (0x2b66, 0x64); (0x2b67, 0xc8)])).
  { constructor; [by left|]. constructor; [right; by exists example_tv|]. constructor; [right; by exists example_radio|done]. }
  constructor; [by exists example_tv|].
  constructor; [|constructor; [exact Hpat|constructor; [|constructor; [exact Hpat|constructor; [|done]]]]].
  - constructor; [by exists example_radio|]. constructor; [by exists example_tv|done].
  - by exists example_radio.
  - by exists example_tv.
Qed.

Lemma example_order : pmts_once (rc_table <$> example_sections).
Proof. apply (bool_decide_unpack _); by vm_compute. Qed.

Lemma example_complete : complete [example_tv; example_radio] (rc_table <$> example_sections).
Proof.
  intros g Hg. apply elem_of_cons in Hg as [->|Hg]; [|apply list_elem_of_singleton in Hg as ->];
    split_and!; apply (bool_decide_unpack _); by vm_compute.
Qed.

Lemma services_found_witness : exists w' tp,
  receive default_options silent_env (λ _ _, None) example_sections example_world = Ok (tt, w') /\ scan_inv (w_state w') /\
  st_current (w_state w') = Some 0%nat /\ st_transponders (w_state w') !! 0%nat = Some tp /\
  forget <$> tp_services tp ≡ₚ program_service 0 <$> [example_tv; example_radio].
Proof.
  apply (services_found default_options silent_env (λ _ _, None) 0 0 [example_tv; example_radio] example_sections example_world).
  - by split.
  - by apply (bool_decide_unpack _); vm_compute.
  - exact example_programs.
  - unfold example_sections. repeat (constructor; [by apply framed_ok|]). done.
  - exact example_tells.
  - exact example_order.
  - exact example_complete.
  - exact example_has.
Defined.

(** What is found of the television programme. *)
Example example_tv_service : program_service 0 example_tv =
  Service 0 0x2b66 (Some (lit "ARD" ++ [0])) (Some (lit "Das Erste" ++ [0])) 0x64 0x65 0x65
    ([0x66; 0x67] ++ replicate 30 0) ([lit "deu" ++ [0]; lit "fra" ++ [0]] ++ replicate 30 (replicate 4 0)) 2
    (replicate 32 0) 0x68 0 0x6a 1 1 4 None 0.
Proof. reflexivity. Qed.
